(* ===== verification/_CoqProject ===== *)
-Q . S2P
Prelude.v
GoLib.v
Calendar.v
Json.v
StoreData.v
Users.v
Finance.v
Lifecycle.v
FinanceInv.v
FinanceProps.v
LifecycleProps.v
Referral.v
ReferralProps.v
ReferralSummary.v
Quota.v
PlanGroups.v
QuotaProps.v
TaskStore.v
TaskInv.v
TaskProps.v
Sha256.v
Recovery.v
RecoveryProps.v
Network.v
Access.v
NetworkProps.v
Registry.v
AgentAuth.v
AgentAuthProps.v
RateLimit.v
Netip.v
Mesh.v
GoTime.v
Hmac.v
Entitlements.v
EntitlementProps.v
Sweep.v
StripeClient.v
StripeClientProps.v
Tenants.v
Vault.v
Workspace.v
VaultProps.v
WorkspaceProps.v
SecretProps.v
Login.v
AdminAccess.v
LoginHandlers.v
LoginMFA.v
AdminUsers.v
AuthCalls.v
AuthInv.v
AuthLogic.v
AuthSafe.v
AuthProps.v
SessionLogic.v
SessionProps.v
LoginProps.v
Stripe.v
StripeEvents.v
StripeProps.v
StripeEffects.v
Examples.v
ReferralExamples.v
QuotaExamples.v
NetworkExamples.v
EntitlementExamples.v
StripeExamples.v
WorkspaceExamples.v
AuthExamples.v
