(* ===== verification/Prelude.v ===== *)
(** * Verification of the accounts service

    The program is the account backend of a hosting service, written in Go. Its
    HTTP API ([src/api]) authenticates a request, validates it and calls a
    store; the store ([src/internal/store], [src/internal/tasksession]) holds
    the rules that must survive concurrent and repeated requests.  Each store
    exists twice, in memory and over Postgres, behind one interface.  This
    library models the in-memory stores, method by method, under one mutex: a
    method body is atomic, so a history of requests is a sequence of
    calls.  Above the stores it models the handlers that decide who may do
    what: registration, sign-in, recovery and the administration of accounts,
    network access, agent identity and its registry, the rate limiter, the
    grants of the overlay mesh, the entitlements that follow from a
    subscription, and the payment provider's webhook, which drives all of them.

    ** From Go to Rocq

    - The store is one record, [StoreData.memoryStore], with a field per map
      or slice of the Go struct; the task store is [TaskStore.MemoryStore].
      An operation is a function from the store to a triple: the result ([Ok]
      a value or [Err] an error of [StoreData.error]), the caller's struct
      after the call where the code writes to it, and the new store.  The new
      store is also returned on the error branches, because the code may have
      written before it fails.
    - The clock and [uuid.NewString] are arguments.  An operation that reads
      the clock twice with effect takes two instants.
    - A [*T] that may be nil is an [option]; dereferencing a missing map entry
      is the error value [nil_deref], an index out of range [index_panic], so
      that their absence is a theorem.  Users are shared by three indexes and
      mutated in place: they live in a heap of locations.  Every other pointer
      is held by one map, so writing the row is writing through the pointer.
    - A loop over a Go map whose result may depend on the order takes a
      [GoLib.MapOrder], an arbitrary enumeration of each map; the theorems
      quantify over it.
    - [int64] arithmetic wraps where it can overflow ([GoLib.int64]); a
      [time.Time] is a number of nanoseconds since year 1; [float64] is
      [SpecFloat]; a string is a sequence of bytes and the functions of
      [strings] act on the ASCII range; JSON values keep the order and the
      duplicates of members.  [crypto/sha256] is written out ([Sha256]).
      Random generators are arguments.

    ** Files

    - [Prelude]: record update, tactics, hint databases, lemmas on lists,
      maps and sums.  [GoLib], [Json], [Calendar], [Sha256]: the parts of Go's
      library the stores call.
    - [StoreData]: structs, errors and the state ([store/*.go]).
    - [Users]: users, roles, groups, identities, blacklist, agents, archiving
      ([store.go], [account_access.go]).
    - [Recovery], [RecoveryProps]: sessions, exchange codes, password and MFA
      recovery ([password_recovery.go], [mfa_recovery_codes.go],
      [mfa_reset.go]).
    - [Finance], [FinanceInv], [FinanceProps]: invoices, payments, refunds and
      provider operations ([finance_memory.go]).
    - [Lifecycle], [LifecycleProps]: subscriptions, the gate that serialises
      their changes, purchases and refund review ([subscription_*.go]).
    - [Referral], [ReferralProps], [ReferralSummary]: codes, rewards,
      settlements, campaigns ([referral_*.go]).
    - [Quota], [PlanGroups], [QuotaProps]: traffic accounting, quotas, billing
      events, audit queries and the administrator's batches
      ([accounting_memory.go], [subscription_quota.go], [free_quota.go],
      [monthly_usage_reset.go], [billing_*.go], [audit_memory.go]).
    - [TaskStore], [TaskInv], [TaskProps]: event log, runs, leases and the
      scheduler ([tasksession/store.go], [scheduler.go], [types.go]).
    - [Network], [NetworkProps]: teams, memberships, enrolments of team agents
      and the overlay inventory ([network_teams.go],
      [team_agent_enrollments.go], [overlay_memory.go]).
    - [Access]: node scopes, account access and the team handlers
      ([api/network_access.go], [agent_routes.go], [agent_email_union.go]).
    - [Registry], [AgentAuth], [AgentAuthProps]: credentials, the agent registry
      and the identity a request obtains ([agentserver/registry.go],
      [api/network_access.go], [api/team_agent_enrollments.go]).
    - [RateLimit]: the fixed-window limiter ([auth/ratelimit.go]).
    - [Netip], [Mesh]: base64 and [net/netip]; grants and mesh configurations
      of the overlay ([overlay/mesh.go]).
    - [GoTime]: [time.Parse] for dates and RFC 3339.
    - [Entitlements], [EntitlementProps], [Sweep]: profile and quota rows of a
      plan, the downgrade to the free plan, the access check and its sweep, the
      monthly grants of annual plans ([api/entitlements.go],
      [subscription_validity.go], [free_quota.go], [annual_quota.go]).  The
      handlers run in an error and state monad, [Entitlements.M].
    - [Hmac]: HMAC-SHA256, base64 and small functions of [strings].
    - [StripeClient], [StripeClientProps]: configuration, signed references,
      webhook signatures and the checkout ([api/stripe.go],
      [billing_topup.go], [paygo_topup.go], [pro_plan_ids.go]).
    - [Stripe]: the provider's objects and the requests for them; Stripe, the
      clock and the identifier generators are a world, [Stripe.StripeWorld],
      that every request may change, and [json.Unmarshal] of a payload is a
      parameter, [Stripe.StripeDecoder].
    - [StripeEvents]: the webhook and every event it handles, with the financial
      facts, refunds, referral evidence and top-ups ([api/stripe.go],
      [stripe_finance.go], [billing_topup.go], [billing_refund_review.go],
      [billing_refund_operations.go]).  [StripeProps]: rules to reason about
      handlers, and what the webhook does to the ledger and to the record of
      its events.  [StripeEffects]: what the events grant and take away.
    - [Tenants]: tenants, domains, memberships and workspace profiles
      ([store/xworkmate.go], [xworkmate_memory.go]).  [Vault], [VaultProps]:
      the service that keeps the secrets of a workspace, as a class with its
      laws, in memory and on a Vault server, which is a parameter
      ([api/xworkmate_vault.go]).  [Workspace]: access, profiles, secrets,
      bridge credentials, the bootstrap of a tenant and the frontend a login
      returns to ([api/xworkmate.go]).  [WorkspaceProps], [SecretProps]: who
      reaches which workspace, and where its secrets go.
    - [Login], [AdminAccess], [LoginHandlers], [LoginMFA], [AdminUsers],
      [AuthCalls]: the account API ([api/api.go], [account_lifecycle.go],
      [password_self_service.go], [mfa_recovery_codes.go], [mfa_reset.go],
      [admin_users.go] and their neighbours): code tables, sessions and
      permissions, then every handler that changes an account, a session or a
      code, and the dispatch of a request.  A handler runs in a monad of its
      own, [Login.Act], that stops at the first response.  bcrypt and
      TOTP are parameters ([Login.AuthLibrary]); an OAuth provider is its two
      calls.
      [AuthInv], [AuthLogic], [AuthSafe]: rules to reason about handlers and
      the invariant of the accounts.  [AuthProps], [SessionLogic],
      [SessionProps], [LoginProps]: roles and archiving, what opens a session,
      lockout and password reset.
    - [Examples], [ReferralExamples], [QuotaExamples], [NetworkExamples],
      [EntitlementExamples], [StripeExamples], [WorkspaceExamples],
      [AuthExamples]: concrete stores built by the operations themselves, on
      which the theorems are applied, and runs that show a defect of the code.

    The components meet in the shared state: purchases and refund reviews open
    provider operations in the finance tables, so the ledger invariants of
    [FinanceInv] are proved for histories that mix both; referral rewards read
    finance invoices and payment risks; quotas read subscriptions and the gate;
    plan groups prepare their changes with the quota operations; every
    operation that takes an account reads the user indexes.  The webhook calls
    most of them: [StripeProps.ledger_run] is the interface through which its
    theorems use those of the ledger.

    ** What the theorems show

    - Money: over every history, refunds and open reservations stay within the
      payment, an invoice is paid once and in full, operations are never lost
      and a stale attempt is refused, no index points to a missing row.
    - Subscriptions: the gate refines a three-rule abstract machine; changes
      exclude each other, can always be settled, are spaced by the cool-down
      and always move the version.
    - Referrals: a reward is earned once, by the right referrer, on a verified
      invoice, under the campaign in force when it was paid; settlements are
      exclusive and paid once; the summary equals its closed form; registration
      with a code is all or nothing.
    - Quotas: each quota call of the store keeps what remains within the
      allowance; a change preserves what was used; a batch changes exactly the
      rows it was reviewed for, or nothing, and at most once.
    - Accounts: the indexes agree, paging lists every account once, archiving
      touches one account, recovery needs the right secret and ends exactly the
      account's sessions, exchange codes are used once.
    - Sign-in: whatever call is made, a session is opened only for an account
      the call presented an accepted proof for; roles change only through the
      two role endpoints and never to root; an archived account stays so; five
      wrong email codes lock a verification; a password reset takes effect and
      ends the other sessions.
    - Tasks: the log is gapless, runs move forward only and a finished one is
      frozen, leases fence writers, concurrency limits hold, and a claim takes
      the most urgent run exactly when the limits leave room.
    - Teams and agents: a team never exceeds its limit; access is decided
      exactly by membership and validity; decisions are compare-and-set; an
      agent never obtains a scope or a resource class outside its credential,
      its registration or its approved team without the permission for it, and
      the registry authenticates exactly the configured tokens.
    - Entitlements: access is taken away exactly when nothing holds it and
      something ended; a sweep visits every account it is due, in order, and
      leaves it settled; a downgrade carries usage over and is idempotent in a
      month; the annual grants equal a per-account reference and are idempotent.
    - Stripe: a webhook needs a fresh signature and an account reference the
      server's own; a checkout charges what the catalogue sells; any sequence
      of webhooks is a run of the ledger; an event is processed once; a changed
      subscription grants nothing before Stripe reports its invoice as paid; a
      top-up is credited once and only the refund of every payment of a
      subscription takes access away.
    - Workspaces: an account reaches the shared workspace with the rights of its
      role, and a private one only when a root account named it; a secret is
      written to the path of its workspace or account only, is listed and read
      back, and both vault services agree; the exchange code of a login goes to
      the frontend of a tenant or of the deployment.
    - Mesh and limits: the packed grant evaluator equals a plain statement, both
      mesh views agree, and a rate limit holds over every history.

    Histories are step relations ([fin_step], [gate_step] and the like) with
    one constructor per operation; invariants are proved by rule induction.

    ** Bounds and fuel

    Recursion is structural, on lists or on a count derived from the input:
    decimal printing runs for as many rounds as there are digits to print (20
    for an int64), SHA-256 for its 64 rounds, paging for as many pages as there
    are users, a sweep for as many rounds as accounts it may visit, since every
    round visits at least one.  Lemmas show that the bounds are sufficient. The
    history of a customer's invoices is read for at most one hundred pages,
    which is the code's own bound.

    ** Not modelled

    The Postgres stores are SQL whose meaning is the database's.  Of the
    account API the cookies, the texts of mails, the JWT pair of the refresh
    endpoint, the listings that only read and the branches for a database are
    left out.  Purchases and plan changes at Stripe, the runner of self-service
    refunds, token signing, the overlay controller's protocol, the migration
    tooling, the mailer and the command line programs are I/O around the
    stores. *)

From stdpp Require Export gmap strings list fin_maps sorting.
From Stdlib Require Export ZArith Lia.

Open Scope Z_scope.

(** ** Record update

    Go assigns struct fields one at a time ([copy.Currency = ...]).  The
    model writes [r <| field := v |>].  A record type declares its
    eta-expansion once ([Eta]); the setter of a projection is found by
    abstracting that projection in the expansion. *)

Class Eta (R : Type) := eta : R → R.
Class Setter {R T : Type} (proj : R → T) := set_field : (T → T) → R → R.
Arguments set_field {R T} proj {_} _ _ : simpl never.

Ltac solve_setter :=
  match goal with
  | |- @Setter ?R ?T ?proj =>
      let e := constr:(_ : Eta R) in
      let body := eval red in e in
      match eval pattern proj in body with
      | ?upd _ =>
          exact (fun (f : T -> T) (r : R) => upd (fun x => f (proj x)) r)
      end
  end.
#[export] Hint Extern 1 (Setter _) => solve_setter : typeclass_instances.

Declare Scope go_scope.
Delimit Scope go_scope with go.
Open Scope go_scope.

Notation "r <| proj := v |>" := (set_field proj (fun _ => v) r)
  (at level 1, left associativity, format "r  <| proj  :=  v |>") : go_scope.

(** [getset] pushes a projection through the updates under it, in the goal
    and in the hypotheses, without unfolding the records.  [is_field] tells
    the projections of a record from other functions on it. *)
Ltac is_field R p :=
  let e := constr:(_ : Eta R) in
  let body := eval red in e in
  lazymatch eval pattern p in body with
  | (fun _ => ?c) _ => fail
  | _ => idtac
  end.
Ltac with_getset R T p q S f k :=
  let E := fresh in
  first
    [ constr_eq p q;
      assert (E : forall r, q (@set_field R T q S f r) = f (q r)) by reflexivity
    | is_field R p;
      assert (E : forall r, p (@set_field R T q S f r) = p r) by reflexivity ];
  k E; clear E.
Ltac getset_goal :=
  match goal with
  | |- context [?p (@set_field ?R ?T ?q ?S ?f ?r)] =>
      with_getset R T p q S f ltac:(fun E => rewrite (E r); cbv beta)
  end.
Ltac getset_in H :=
  match type of H with
  | context [?p (@set_field ?R ?T ?q ?S ?f ?r)] =>
      with_getset R T p q S f ltac:(fun E => rewrite (E r) in H; cbv beta in H)
  end.
Ltac getset :=
  repeat first [ getset_goal | match goal with H : _ |- _ => getset_in H end ].

(** ** Equality tests, as the source writes them *)

Notation "a == b" := (bool_decide (a = b)) (at level 70) : go_scope.
Notation "a != b" := (negb (bool_decide (a = b))) (at level 70) : go_scope.

(** ** Results of fallible operations *)

Inductive result (E A : Type) :=
| Ok (a : A)
| Err (e : E).
Arguments Ok {E A} _.
Arguments Err {E A} _.

Definition is_ok {E A} (r : result E A) : bool :=
  match r with Ok _ => true | Err _ => false end.

Notation "'let?' x ':=' r 'in' k" :=
  (match r with Ok x => k | Err e => Err e end)
  (at level 10, x pattern, r at level 100, k at level 200) : go_scope.

(** ** Case analysis on the guards of an operation

    [guards H] splits every conditional and match of [H], keeping the
    equations, and drops the branches whose result contradicts [H]. *)

Ltac guards H :=
  repeat (first
    [ progress (simplify_eq H)
    | match type of H with
      | context [match ?x with _ => _ end] =>
          lazymatch x with
          | context [match _ with _ => _ end] => fail
          | _ => destruct x eqn:?
          end
      end ]).

(** Turn boolean hypotheses into propositions. *)
Ltac bools :=
  repeat match goal with
  | H : negb _ = true |- _ => apply negb_true_iff in H
  | H : negb _ = false |- _ => apply negb_false_iff in H
  | H : (_ || _)%bool = false |- _ => apply orb_false_iff in H as [? ?]
  | H : (_ && _)%bool = true |- _ => apply andb_true_iff in H as [? ?]
  | H : (_ || _)%bool = true |- _ => apply orb_true_iff in H
  | H : (_ && _)%bool = false |- _ => apply andb_false_iff in H
  | H : bool_decide _ = true |- _ => apply bool_decide_eq_true in H
  | H : bool_decide _ = false |- _ => apply bool_decide_eq_false in H
  end.

(** ** Signed 64-bit integers *)

Definition int64_min : Z := -2^63.
Definition int64_max : Z := 2^63 - 1.
Definition int64 (z : Z) : Z := (z + 2^63) mod 2^64 - 2^63.
Definition in_int64 (z : Z) : Prop := int64_min ≤ z ≤ int64_max.

Lemma int64_id z : in_int64 z → int64 z = z.
Proof.
  unfold in_int64, int64_min, int64_max, int64. intros H.
  rewrite Z.mod_small; lia.
Qed.

Lemma int64_range z : in_int64 (int64 z).
Proof.
  unfold in_int64, int64_min, int64_max, int64.
  pose proof (Z.mod_pos_bound (z + 2^63) (2^64) ltac:(lia)). lia.
Qed.

Lemma int64_add_l a b : int64 (int64 a + b) = int64 (a + b).
Proof.
  unfold int64. f_equal.
  replace ((a + 2^63) mod 2^64 - 2^63 + b + 2^63)
    with ((a + 2^63) mod 2^64 + b) by lia.
  rewrite Z.add_mod_idemp_l by lia. f_equal. lia.
Qed.

(** ** Sums over lists and maps *)

Definition sum_list {A} (f : A → Z) (l : list A) : Z :=
  foldr (λ x acc, f x + acc) 0 l.

(** [total += f(x)] for every [x], in 64-bit arithmetic. *)
Definition sum64 {A} (f : A → Z) (l : list A) : Z :=
  foldl (λ acc x, int64 (acc + f x)) 0 l.

Lemma sum_list_app {A} (f : A → Z) l k :
  sum_list f (l ++ k) = sum_list f l + sum_list f k.
Proof. induction l; simpl; lia. Qed.

Lemma sum_list_nonneg {A} (f : A → Z) l :
  (∀ x, x ∈ l → 0 ≤ f x) → 0 ≤ sum_list f l.
Proof.
  induction l as [|x l IH]; intros H; simpl; [lia|].
  pose proof (H x ltac:(left)).
  assert (0 ≤ sum_list f l) by (apply IH; intros; apply H; by right). lia.
Qed.

Lemma sum_list_ext {A} (f g : A → Z) l :
  (∀ x, x ∈ l → f x = g x) → sum_list f l = sum_list g l.
Proof.
  induction l as [|x l IH]; intros H; simpl; [done|].
  rewrite H by left. rewrite IH; [done|]. intros; apply H; by right.
Qed.

Lemma sum_list_le {A} (f g : A → Z) l :
  (∀ x, x ∈ l → f x ≤ g x) → sum_list f l ≤ sum_list g l.
Proof.
  induction l as [|x l IH]; intros H; simpl; [lia|].
  pose proof (H x ltac:(left)).
  assert (sum_list f l ≤ sum_list g l) by (apply IH; intros; apply H; by right).
  lia.
Qed.

#[export] Instance sum_list_perm {A} (f : A → Z) :
  Proper ((≡ₚ) ==> (=)) (sum_list f).
Proof. induction 1; simpl; lia. Qed.

Lemma sum64_acc {A} (f : A → Z) l a :
  foldl (λ acc x, int64 (acc + f x)) (int64 a) l = int64 (a + sum_list f l).
Proof.
  revert a; induction l as [|x l IH]; intros a; simpl.
  - by rewrite Z.add_0_r.
  - rewrite int64_add_l, IH. f_equal. lia.
Qed.

(** The 64-bit running total is the wrapped mathematical sum, so it does not
    depend on the order of the loop. *)
Lemma sum64_sum {A} (f : A → Z) l : sum64 f l = int64 (sum_list f l).
Proof. unfold sum64. by rewrite <-(int64_id 0), sum64_acc by done. Qed.

(** The same loop continued from an earlier total. *)
Definition sum64_from {A} (start : Z) (f : A → Z) (l : list A) : Z :=
  foldl (λ acc x, int64 (acc + f x)) start l.

Lemma sum64_from_sum {A} (start : Z) (f : A → Z) l :
  sum64_from (int64 start) f l = int64 (start + sum_list f l).
Proof. apply sum64_acc. Qed.

(** Sum of a measure over the values of a map. *)
Definition values {V} (m : gmap string V) : list V := (map_to_list m).*2.

Definition msum {V} (f : V → Z) (m : gmap string V) : Z := sum_list f (values m).

Lemma values_insert_new {V} (m : gmap string V) k v :
  m !! k = None → values (<[k:=v]> m) ≡ₚ v :: values m.
Proof. intros H. unfold values. by rewrite map_to_list_insert. Qed.

Lemma values_delete {V} (m : gmap string V) k v :
  m !! k = Some v → values m ≡ₚ v :: values (delete k m).
Proof.
  intros H. unfold values. rewrite <-(insert_id m k v) at 1 by done.
  rewrite <-insert_delete_eq, map_to_list_insert by apply lookup_delete_eq.
  done.
Qed.

Lemma elem_of_values {V} (m : gmap string V) v :
  v ∈ values m ↔ ∃ k, m !! k = Some v.
Proof.
  unfold values. rewrite list_elem_of_fmap. split.
  - intros ([k w] & -> & H). exists k. by apply elem_of_map_to_list in H.
  - intros [k H]. exists (k, v). split; [done|]. by apply elem_of_map_to_list.
Qed.

Lemma msum_insert_new {V} (f : V → Z) m k v :
  m !! k = None → msum f (<[k:=v]> m) = f v + msum f m.
Proof. intros H. unfold msum. by rewrite values_insert_new. Qed.

Lemma msum_delete {V} (f : V → Z) m k v :
  m !! k = Some v → msum f m = f v + msum f (delete k m).
Proof. intros H. unfold msum at 1. by rewrite (values_delete m k v). Qed.

Lemma msum_insert_old {V} (f : V → Z) m k v w :
  m !! k = Some w → msum f (<[k:=v]> m) = msum f m - f w + f v.
Proof.
  intros H. rewrite <-insert_delete_eq, msum_insert_new by apply lookup_delete_eq.
  rewrite (msum_delete f m k w) by done. lia.
Qed.

Lemma msum_empty {V} (f : V → Z) : msum f ∅ = 0.
Proof. done. Qed.

Lemma msum_nonneg {V} (f : V → Z) (m : gmap string V) :
  (∀ k v, m !! k = Some v → 0 ≤ f v) → 0 ≤ msum f m.
Proof.
  intros H. apply sum_list_nonneg. intros v [k Hk]%elem_of_values. eauto.
Qed.

Lemma msum_ext {V} (f g : V → Z) (m : gmap string V) :
  (∀ k v, m !! k = Some v → f v = g v) → msum f m = msum g m.
Proof.
  intros H. apply sum_list_ext. intros v [k Hk]%elem_of_values. eauto.
Qed.

Lemma msum_le {V} (f g : V → Z) (m : gmap string V) :
  (∀ k v, m !! k = Some v → f v ≤ g v) → msum f m ≤ msum g m.
Proof.
  intros H. apply sum_list_le. intros v [k Hk]%elem_of_values. eauto.
Qed.

Lemma msum_zero {V} (f : V → Z) (m : gmap string V) :
  (∀ k v, m !! k = Some v → f v = 0) → msum f m = 0.
Proof.
  intros H. rewrite (msum_ext f (λ _, 0) m H). unfold msum.
  induction (values m); simpl; lia.
Qed.

(** ** Tests over the values of a map

    [for _, v := range m { if p(v) { return e } }]: whether some value
    satisfies [p] does not depend on the iteration order. *)

Definition map_any {V} (p : V → bool) (m : gmap string V) : bool :=
  existsb p (values m).

Lemma map_any_true {V} (p : V → bool) m :
  map_any p m = true ↔ ∃ k v, m !! k = Some v ∧ p v = true.
Proof.
  unfold map_any. rewrite existsb_exists. split.
  - intros (v & Hin & Hp).
    apply list_elem_of_In, elem_of_values in Hin as [k Hk]. eauto.
  - intros (k & v & Hk & Hp). exists v. split; [|done].
    apply list_elem_of_In, elem_of_values. eauto.
Qed.

Lemma map_any_false {V} (p : V → bool) m :
  map_any p m = false ↔ ∀ k v, m !! k = Some v → p v = false.
Proof.
  destruct (map_any p m) eqn:E.
  - apply map_any_true in E as (k & v & Hk & Hp).
    split; [done|]. intros H. specialize (H k v Hk). congruence.
  - split; [|done]. intros _ k v Hk. destruct (p v) eqn:Hp; [|done].
    assert (map_any p m = true) by (apply map_any_true; eauto). congruence.
Qed.

(** Number of values satisfying a test. *)
Definition map_count {V} (p : V → bool) (m : gmap string V) : Z :=
  msum (λ v, if p v then 1 else 0) m.

(** ** Iteration order of Go maps

    Where the result of a loop depends on the order, the order is a
    parameter: any enumeration of the map's entries. *)

Class MapOrder := {
  range : ∀ {V : Type}, gmap string V → list (string * V);
  range_perm : ∀ {V : Type} (m : gmap string V), range m ≡ₚ map_to_list m
}.

(** The enumeration used to evaluate concrete examples. *)
Definition canonical_order : MapOrder := {|
  range := λ V m, map_to_list m;
  range_perm := λ V m, reflexivity (map_to_list m)
|}.

Section range_lemmas.
Context `{MO : MapOrder} {V : Type}.
Implicit Types m : gmap string V.

Lemma elem_of_range m k v : (k, v) ∈ range m ↔ m !! k = Some v.
Proof. by rewrite range_perm, elem_of_map_to_list. Qed.

Lemma range_keys_nodup m : NoDup (range m).*1.
Proof. rewrite range_perm. apply NoDup_fst_map_to_list. Qed.

Lemma range_nil m : range m = [] ↔ m = ∅.
Proof.
  split.
  - intros H. pose proof (range_perm m) as P. rewrite H in P.
    apply Permutation_nil_l in P. by apply map_to_list_empty_iff.
  - intros ->. pose proof (range_perm (V:=V) ∅) as P.
    rewrite map_to_list_empty in P. by apply Permutation_nil_r.
Qed.
End range_lemmas.

(** ** sort.Slice

    [sort.Slice] returns some ordered permutation; with an arbitrary input
    order, a stable merge sort reaches every one of them. *)

Definition not_less {A} (less : A → A → bool) : relation A :=
  λ a b, less b a = false.
#[export] Instance not_less_dec {A} (less : A → A → bool) a b :
  Decision (not_less less a b).
Proof. unfold not_less. apply _. Defined.

Definition sort_slice {A} (less : A → A → bool) (l : list A) : list A :=
  merge_sort (not_less less) l.

Lemma sort_slice_perm {A} (less : A → A → bool) l : sort_slice less l ≡ₚ l.
Proof. apply merge_sort_Permutation. Qed.

(** A result is in the order of [less] when no later element is strictly
    less than an earlier one. *)
Definition ordered {A} (less : A → A → bool) (l : list A) : Prop :=
  StronglySorted (not_less less) l.

Lemma sort_slice_ordered {A} (less : A → A → bool) l :
  (∀ a b, less a b = true → less b a = false) →
  (∀ a b c, less b a = false → less c b = false → less c a = false) →
  ordered less (sort_slice less l).
Proof.
  intros Hasym Htrans. apply StronglySorted_merge_sort.
  - intros a b c. apply Htrans.
  - intros a b. unfold not_less. destruct (less b a) eqn:E; [right|left; done].
    by apply Hasym.
Qed.

(** [if limit > 0 && len(result) > limit { result = result[:limit] }] *)
Definition limit_to {A} (limit : Z) (l : list A) : list A :=
  if (0 <? limit) && (limit <? Z.of_nat (length l))
  then take (Z.to_nat limit) l else l.

Lemma limit_to_prefix {A} limit (l : list A) : limit_to limit l `prefix_of` l.
Proof.
  unfold limit_to. destruct (_ && _); [|done].
  exists (drop (Z.to_nat limit) l). by rewrite take_drop.
Qed.

Lemma limit_to_length {A} limit (l : list A) :
  0 < limit → Z.of_nat (length (limit_to limit l)) ≤ limit.
Proof.
  intros H. unfold limit_to.
  destruct ((0 <? limit) && (limit <? Z.of_nat (length l))) eqn:E.
  - rewrite length_take. lia.
  - lia.
Qed.

(** ** Filters that keep everything or nothing *)

Lemma filter_all {A} (P : A → Prop) `{∀ x, Decision (P x)} (l : list A) :
  (∀ x, x ∈ l → P x) → filter P l = l.
Proof.
  induction l as [|x l IH]; intros HP; [done|].
  rewrite filter_cons_True by (apply HP; left). f_equal. apply IH.
  intros y Hy. apply HP. by right.
Qed.

Lemma filter_none {A} (P : A → Prop) `{∀ x, Decision (P x)} (l : list A) :
  (∀ x, x ∈ l → ¬ P x) → filter P l = [].
Proof.
  induction l as [|x l IH]; intros HP; [done|].
  rewrite filter_cons_False by (apply HP; left). apply IH.
  intros y Hy. apply HP. by right.
Qed.

Lemma find_app {A} (p : A → bool) (l k : list A) :
  List.find p (l ++ k) = match List.find p l with Some x => Some x | None => List.find p k end.
Proof. induction l as [|x l IH]; simpl; [done|]. by destruct (p x). Qed.

(** Elements with distinct keys are told apart by their keys. *)
Lemma NoDup_key_inj {A K} (f : A → K) (l : list A) x y :
  NoDup (f <$> l) → x ∈ l → y ∈ l → f x = f y → x = y.
Proof.
  induction l as [|z l IH]; intros Hnd Hx Hy E; [by apply not_elem_of_nil in Hx|].
  apply NoDup_cons in Hnd as [Hz Hnd].
  apply elem_of_cons in Hx as [->|Hx], Hy as [->|Hy]; auto; exfalso; apply Hz.
  - rewrite E. by apply list_elem_of_fmap_2.
  - rewrite <-E. by apply list_elem_of_fmap_2.
Qed.

Lemma surjective3 {A B C} (x : A * B * C) : x = (x.1.1, x.1.2, x.2).
Proof. by destruct x as [[? ?] ?]. Qed.

Create HintDb go.
