(* ===== verification/GoLib.v ===== *)
(** * The parts of Go's standard library the modelled code uses

    [strings], [time], [encoding/json] and slices.  A Go string is a sequence
    of bytes; [TrimSpace], [ToLower], [ToUpper] and [EqualFold] act on the
    ASCII range and leave other bytes alone.  A [time.Time] is the number of
    nanoseconds since Go's zero time (1 January of year 1, UTC): the code only
    compares instants, so locations are not represented and [UTC()] is the
    identity.  A [json.RawMessage] is represented by the value its text
    denotes. *)

From S2P Require Import Prelude.
From Stdlib Require Import Ascii.
Open Scope Z_scope.
Open Scope bool_scope.
Open Scope go_scope.

(** ** strings *)

Definition is_space (c : ascii) : bool :=
  let n := N_of_ascii c in
  ((9 <=? n) && (n <=? 13) || (n =? 32))%N.

Definition lower_ascii (c : ascii) : ascii :=
  let n := N_of_ascii c in
  if ((65 <=? n) && (n <=? 90))%N then ascii_of_N (n + 32) else c.

Definition upper_ascii (c : ascii) : ascii :=
  let n := N_of_ascii c in
  if ((97 <=? n) && (n <=? 122))%N then ascii_of_N (n - 32) else c.

Fixpoint map_string (f : ascii → ascii) (s : string) : string :=
  match s with
  | EmptyString => EmptyString
  | String c s' => String (f c) (map_string f s')
  end.

Definition ToLower (s : string) : string := map_string lower_ascii s.
Definition ToUpper (s : string) : string := map_string upper_ascii s.

Fixpoint TrimLeft (s : string) : string :=
  match s with
  | EmptyString => EmptyString
  | String c s' => if is_space c then TrimLeft s' else s
  end.

Fixpoint TrimRight (s : string) : string :=
  match s with
  | EmptyString => EmptyString
  | String c s' =>
      match TrimRight s' with
      | EmptyString => if is_space c then EmptyString else String c EmptyString
      | t => String c t
      end
  end.

Definition TrimSpace (s : string) : string := TrimRight (TrimLeft s).

Definition EqualFold (a b : string) : bool := ToLower a == ToLower b.

Fixpoint HasPrefix (s p : string) {struct p} : bool :=
  match p, s with
  | EmptyString, _ => true
  | String c p', String d s' => (c == d) && HasPrefix s' p'
  | String _ _, EmptyString => false
  end.

Fixpoint drop_string (n : nat) (s : string) : string :=
  match n, s with
  | O, _ => s
  | S n', String _ s' => drop_string n' s'
  | S _, EmptyString => EmptyString
  end.

Definition HasSuffix (s p : string) : bool :=
  (String.length p <=? String.length s)%nat &&
  (drop_string (String.length s - String.length p) s == p).

Definition TrimPrefix (s p : string) : string :=
  if HasPrefix s p then drop_string (String.length p) s else s.

(** Length in bytes. *)
Definition len (s : string) : Z := Z.of_nat (String.length s).

(** Byte-wise order on strings: [a < b]. *)
Definition string_lt (a b : string) : bool := negb (String.leb b a).

(** [sort.Strings] *)
Definition sort_strings (l : list string) : list string := merge_sort String.le l.

(** A string made of upper-case ASCII letters only. *)
Fixpoint all_upper (s : string) : bool :=
  match s with
  | EmptyString => true
  | String c s' =>
      let n := N_of_ascii c in ((65 <=? n) && (n <=? 90))%N && all_upper s'
  end.

(** *** Lemmas *)

Ltac all_ascii c := destruct c as [[] [] [] [] [] [] [] []]; reflexivity.

Lemma lower_ascii_idem c : lower_ascii (lower_ascii c) = lower_ascii c.
Proof. all_ascii c. Qed.
Lemma upper_ascii_idem c : upper_ascii (upper_ascii c) = upper_ascii c.
Proof. all_ascii c. Qed.
Lemma is_space_lower c : is_space (lower_ascii c) = is_space c.
Proof. all_ascii c. Qed.
Lemma is_space_upper c : is_space (upper_ascii c) = is_space c.
Proof. all_ascii c. Qed.

Lemma map_string_idem f s :
  (∀ c, f (f c) = f c) → map_string f (map_string f s) = map_string f s.
Proof. intros H. induction s; simpl; by rewrite ?H, ?IHs. Qed.

Lemma ToLower_idem s : ToLower (ToLower s) = ToLower s.
Proof. apply map_string_idem, lower_ascii_idem. Qed.
Lemma ToUpper_idem s : ToUpper (ToUpper s) = ToUpper s.
Proof. apply map_string_idem, upper_ascii_idem. Qed.

Lemma map_string_empty f s : map_string f s = "" ↔ s = "".
Proof. by destruct s. Qed.
Lemma ToLower_empty s : ToLower s = "" ↔ s = "".
Proof. apply map_string_empty. Qed.

Section map_trim.
Context (f : ascii → ascii) (Hf : ∀ c, is_space (f c) = is_space c).

Lemma TrimLeft_map s : TrimLeft (map_string f s) = map_string f (TrimLeft s).
Proof. induction s; simpl; [done|]. rewrite Hf. by destruct (is_space a). Qed.

Lemma TrimRight_map s : TrimRight (map_string f s) = map_string f (TrimRight s).
Proof.
  induction s as [|c s IH]; simpl; [done|]. rewrite IH, Hf.
  destruct (TrimRight s); simpl; [|done]. by destruct (is_space c).
Qed.

Lemma TrimSpace_map s : TrimSpace (map_string f s) = map_string f (TrimSpace s).
Proof. unfold TrimSpace. by rewrite TrimLeft_map, TrimRight_map. Qed.
End map_trim.

Lemma TrimSpace_ToLower s : TrimSpace (ToLower s) = ToLower (TrimSpace s).
Proof. apply TrimSpace_map, is_space_lower. Qed.
Lemma TrimSpace_ToUpper s : TrimSpace (ToUpper s) = ToUpper (TrimSpace s).
Proof. apply TrimSpace_map, is_space_upper. Qed.

Lemma TrimRight_idem s : TrimRight (TrimRight s) = TrimRight s.
Proof.
  induction s as [|c s IH]; simpl; [done|].
  destruct (TrimRight s) as [|d t] eqn:E.
  - destruct (is_space c) eqn:Hc; simpl; by rewrite ?Hc.
  - remember (String d t) as r. simpl. rewrite IH. by subst r.
Qed.

Lemma TrimRight_app a b : TrimRight b = b → b ≠ "" → TrimRight (a +:+ b) = (a +:+ b)%string.
Proof.
  intros Hb Hne. induction a as [|c a IH]; [done|].
  change (TrimRight (String c a +:+ b)) with
    (match TrimRight (a +:+ b) with
     | EmptyString => if is_space c then EmptyString else String c EmptyString
     | t => String c t
     end).
  rewrite IH. destruct a as [|d a]; [|done]. by destruct b.
Qed.

Lemma TrimLeft_TrimRight s : TrimLeft s = s → TrimLeft (TrimRight s) = TrimRight s.
Proof.
  destruct s as [|c s]; simpl; [done|].
  destruct (is_space c) eqn:Hc.
  - intros H. exfalso.
    assert (Hlen : ∀ t, (String.length (TrimLeft t) ≤ String.length t)%nat).
    { induction t as [|d t IH]; simpl; [lia|].
      destruct (is_space d); simpl; lia. }
    specialize (Hlen s). rewrite H in Hlen. simpl in Hlen. lia.
  - intros _. destruct (TrimRight s); simpl; by rewrite ?Hc.
Qed.

Lemma TrimLeft_idem s : TrimLeft (TrimLeft s) = TrimLeft s.
Proof.
  induction s as [|c s IH]; simpl; [done|].
  destruct (is_space c) eqn:Hc; simpl; by rewrite ?Hc.
Qed.

Lemma TrimSpace_idem s : TrimSpace (TrimSpace s) = TrimSpace s.
Proof.
  unfold TrimSpace. rewrite TrimLeft_TrimRight by apply TrimLeft_idem.
  apply TrimRight_idem.
Qed.

Lemma HasPrefix_spec s p : HasPrefix s p = true ↔ ∃ t, s = (p +:+ t)%string.
Proof.
  revert s; induction p as [|c p IH]; intros s; simpl.
  - split; [|done]. intros _. by exists s.
  - destruct s as [|d s]; [split; [done|by intros [t ?]]|].
    rewrite andb_true_iff, bool_decide_eq_true, IH. split.
    + intros [-> [t ->]]. by exists t.
    + intros [t [= -> ->]]. eauto.
Qed.

Lemma TrimPrefix_app p t : TrimPrefix (p +:+ t) p = t.
Proof.
  unfold TrimPrefix. replace (HasPrefix (p +:+ t) p) with true
    by (symmetry; apply HasPrefix_spec; eauto).
  induction p; simpl; done.
Qed.

Lemma drop_string_app p t : drop_string (String.length p) (p +:+ t) = t.
Proof. by induction p. Qed.

Lemma length_append_string (a b : string) :
  String.length (a +:+ b) = (String.length a + String.length b)%nat.
Proof. induction a as [|c a IH]; simpl; [done|]. f_equal. exact IH. Qed.

Lemma HasSuffix_app a p : HasSuffix (a +:+ p) p = true.
Proof.
  unfold HasSuffix. rewrite length_append_string, andb_true_iff, Nat.leb_le.
  split; [lia|].
  replace (_ + _ - _)%nat with (String.length a) by lia.
  rewrite drop_string_app. by apply bool_decide_eq_true.
Qed.

Lemma string_lt_irrefl a : string_lt a a = false.
Proof.
  unfold string_lt. destruct (String.leb_total a a) as [->| ->]; done.
Qed.

Lemma string_lt_ge a b : string_lt a b = false ↔ String.le b a.
Proof.
  unfold string_lt, String.le. rewrite negb_false_iff. by destruct (String.leb b a).
Qed.

Lemma string_lt_le a b : string_lt a b = true → String.le a b.
Proof.
  unfold string_lt, String.le. rewrite negb_true_iff. intros H.
  destruct (String.leb_total a b) as [->|E]; [done|]. congruence.
Qed.

Lemma string_lt_le_trans a b c :
  string_lt a b = true → String.le b c → string_lt a c = true.
Proof.
  intros H1 H2. destruct (string_lt a c) eqn:E; [done|].
  apply string_lt_ge in E. assert (String.le b a) as F by (by etrans).
  apply string_lt_ge in F. congruence.
Qed.

Lemma string_lt_ne a b : String.le a b → a ≠ b → string_lt a b = true.
Proof.
  intros H Hne. destruct (string_lt a b) eqn:E; [done|].
  apply string_lt_ge in E. exfalso. apply Hne. by apply (anti_symm String.le).
Qed.

Create Rewrite HintDb gostr.
#[export] Hint Rewrite ToLower_idem ToUpper_idem TrimSpace_idem : gostr.

(** ** time *)

Abbreviation time := Z (only parsing).
Abbreviation duration := Z (only parsing).

Definition IsZero (t : time) : bool := t =? 0.
Definition Before (t u : time) : bool := t <? u.
Definition After (t u : time) : bool := u <? t.
Definition Equal (t u : time) : bool := t =? u.
Definition UTC (t : time) : time := t.
Definition Add (t : time) (d : duration) : time := t + d.

(** [Sub] saturates at the bounds of a [Duration]. *)
Definition Sub (t u : time) : duration :=
  Z.max int64_min (Z.min int64_max (t - u)).

(** [Truncate] rounds down to a multiple of [d] since the zero time. *)
Definition Truncate (t : time) (d : duration) : time :=
  if d <=? 0 then t else t - t mod d.

Definition Nanosecond : duration := 1.
Definition Microsecond : duration := 1000.
Definition Millisecond : duration := 1000000.
Definition Second : duration := 1000000000.
Definition Minute : duration := 60 * Second.
Definition Hour : duration := 60 * Minute.

(** Comparison of [*time.Time] by [sameOptionalTime] and [equalStoreTimes]:
    both nil, or the same instant. *)
Definition equal_opt_time (a b : option time) : bool :=
  match a, b with
  | Some x, Some y => Equal x y
  | None, None => true
  | _, _ => false
  end.

Lemma equal_opt_time_spec a b : equal_opt_time a b = true ↔ a = b.
Proof.
  destruct a, b; simpl; unfold Equal; rewrite ?Z.eqb_eq; split; congruence.
Qed.

Ltac unfold_time :=
  unfold IsZero, Before, After, Equal, UTC, Add in *.

(** ** Slices *)

(** Absent keys of a [map[string]string] read as the empty string. *)
Definition get_str (m : gmap string string) (k : string) : string :=
  default "" (m !! k).

Definition contains (l : list string) (s : string) : bool :=
  existsb (λ x, x == s) l.

Lemma contains_spec l s : contains l s = true ↔ s ∈ l.
Proof.
  unfold contains. rewrite existsb_exists. split.
  - intros (x & Hin & E). bools. subst. by apply list_elem_of_In.
  - intros H. exists s. split; [by apply list_elem_of_In|].
    by apply bool_decide_eq_true.
Qed.
