(* ===== verification/Calendar.v ===== *)
(** * The civil calendar

    [time.Date], [Year], [Month] and [AddDate(0, 1, 0)] on UTC midnights, in
    the proleptic Gregorian calendar, and [Format(time.RFC3339)].  A time is a
    number of nanoseconds since 1 January of year 1, 00:00 UTC, so a day is a
    number of days since that date.

    The conversions are shown to be inverse on the first days of the months,
    and every day lies in the month it is assigned to. *)

From S2P Require Import Prelude GoLib.
Open Scope Z_scope.
Open Scope bool_scope.
Open Scope go_scope.

Definition Day : duration := 24 * Hour.

(** ** Days and dates

    Years are counted from March, so that the leap day is the last of the
    year; [march0] is the day number of 1 March of year 0. *)

Definition march0 : Z := -306.

(** The day number of 1 March of a year. *)
Definition year_day (y : Z) : Z := march0 + 365 * y + y / 4 - y / 100 + y / 400.

(** The day number of the first day of a month; [m] is normalised as
    [time.Date] does (month 13 is January of the next year). *)
Definition month_day (y m : Z) : Z :=
  let y := y + (m - 1) / 12 in
  let m := (m - 1) mod 12 + 1 in
  let y := if m <=? 2 then y - 1 else y in
  year_day y + (153 * ((m + 9) mod 12) + 2) / 5.

(** The year that began in March and the day of it, by cycles of 400, 100, 4
    and 1 years. *)
Definition march_year (d : Z) : Z * Z :=
  let z := d - march0 in
  let doe := z mod 146097 in
  let c := Z.min 3 (doe / 36524) in
  let r := doe - 36524 * c in
  let q := r / 1461 in
  let r := r - 1461 * q in
  let y := Z.min 3 (r / 365) in
  (400 * (z / 146097) + 100 * c + 4 * q + y, r - 365 * y).

(** The year and the month of a day. *)
Definition year_month (d : Z) : Z * Z :=
  let '(y, doy) := march_year d in
  let mp := (5 * doy + 2) / 153 in
  let m := if mp <? 10 then mp + 3 else mp - 9 in
  (y + (if m <=? 2 then 1 else 0), m).

Definition day_of (t : time) : Z := t / Day.
Definition Year (t : time) : Z := (year_month (day_of t)).1.
Definition Month (t : time) : Z := (year_month (day_of t)).2.

(** [time.Date(y, m, 1, 0, 0, 0, 0, time.UTC)] *)
Definition DateMonth (y m : Z) : time := month_day y m * Day.

(** [t.AddDate(0, 1, 0)] for the first instant of a month. *)
Definition AddMonth (t : time) : time := DateMonth (Year t) (Month t + 1).

(** The first instant of the month of [t]. *)
Definition StartOfMonth (t : time) : time := DateMonth (Year t) (Month t).

(** ** Correctness *)

Ltac div_lia := Z.to_euclidean_division_equations; lia.

(** The first day of a year given by its cycles. *)
Lemma year_day_cycles e c q y : 0 ≤ c ≤ 3 → 0 ≤ q ≤ 24 → 0 ≤ y ≤ 3 →
  year_day (400 * e + 100 * c + 4 * q + y) = march0 + 146097 * e + 36524 * c + 1461 * q + 365 * y.
Proof.
  intros Hc Hq Hy. unfold year_day.
  rewrite <-(Z.div_unique _ 4 (100 * e + 25 * c + q) y) by lia.
  rewrite <-(Z.div_unique _ 100 (4 * e + c) (4 * q + y)) by lia.
  rewrite <-(Z.div_unique _ 400 e (100 * c + 4 * q + y)) by lia. lia.
Qed.

(** A year is at least 365 days long, and a day longer at the end of a cycle
    of four years that does not end a century, or of 400 years. *)
Lemma year_day_next e c q y : 0 ≤ c ≤ 3 → 0 ≤ q ≤ 24 → 0 ≤ y ≤ 3 →
  year_day (400 * e + 100 * c + 4 * q + y + 1) = year_day (400 * e + 100 * c + 4 * q + y) + 365 +
    (if (y =? 3) && (negb (q =? 24) || (c =? 3)) then 1 else 0).
Proof.
  intros Hc Hq Hy. rewrite (year_day_cycles e c q y) by done.
  destruct (Z.eqb_spec y 3) as [->|?].
  - destruct (Z.eqb_spec q 24) as [->|?].
    + destruct (Z.eqb_spec c 3) as [->|?].
      * replace (400 * e + 100 * 3 + 4 * 24 + 3 + 1) with (400 * (e + 1) + 100 * 0 + 4 * 0 + 0) by lia.
        rewrite year_day_cycles by lia. simpl. lia.
      * replace (400 * e + 100 * c + 4 * 24 + 3 + 1) with (400 * e + 100 * (c + 1) + 4 * 0 + 0) by lia.
        rewrite year_day_cycles by lia. simpl. lia.
    + replace (400 * e + 100 * c + 4 * q + 3 + 1) with (400 * e + 100 * c + 4 * (q + 1) + 0) by lia.
      rewrite year_day_cycles by lia. simpl. lia.
  - replace (400 * e + 100 * c + 4 * q + y + 1) with (400 * e + 100 * c + 4 * q + (y + 1)) by lia.
    rewrite year_day_cycles by lia. simpl. lia.
Qed.

(** A day lies in the year it is assigned to. *)
Lemma march_year_spec d :
  let '(y, doy) := march_year d in d = year_day y + doy ∧ 0 ≤ doy < 366 ∧ d < year_day (y + 1).
Proof.
  unfold march_year. cbv zeta.
  pose proof (Z.div_mod (d - march0) 146097 ltac:(lia)) as Hd.
  pose proof (Z.mod_pos_bound (d - march0) 146097 ltac:(lia)) as Hdoe.
  set (e := (d - march0) / 146097) in *. set (doe := (d - march0) mod 146097) in *.
  set (c := Z.min 3 (doe / 36524)).
  assert (Hc : 0 ≤ c ≤ 3 ∧ 0 ≤ doe - 36524 * c ∧ doe - 36524 * c < 36524 + (if c =? 3 then 1 else 0)).
  { unfold c. pose proof (Z.div_mod doe 36524 ltac:(lia)).
    pose proof (Z.mod_pos_bound doe 36524 ltac:(lia)).
    assert (0 ≤ doe / 36524) by (apply Z.div_pos; lia).
    destruct (Z.min_spec 3 (doe / 36524)) as [[? ->]|[? ->]]; simpl; [lia|].
    destruct (Z.eqb_spec (doe / 36524) 3); lia. }
  set (r := doe - 36524 * c) in *. destruct Hc as (Hc & Hr0 & Hr1).
  pose proof (Z.div_mod r 1461 ltac:(lia)) as Hq. pose proof (Z.mod_pos_bound r 1461 ltac:(lia)) as Hrq.
  assert (Hq0 : 0 ≤ r / 1461) by (apply Z.div_pos; lia).
  set (q := r / 1461) in *. assert (Hq1 : q ≤ 24) by (destruct (c =? 3); lia).
  set (r2 := r - 1461 * q). assert (Hr2 : 0 ≤ r2 < 1461 ∧ (q = 24 → c ≠ 3 → r2 < 1460)).
  { unfold r2. split; [lia|]. intros -> Hc3. destruct (Z.eqb_spec c 3); lia. }
  set (y := Z.min 3 (r2 / 365)).
  assert (Hy : 0 ≤ y ≤ 3 ∧ 0 ≤ r2 - 365 * y ∧ r2 - 365 * y < 365 + (if y =? 3 then 1 else 0)).
  { unfold y. pose proof (Z.div_mod r2 365 ltac:(lia)). pose proof (Z.mod_pos_bound r2 365 ltac:(lia)).
    assert (0 ≤ r2 / 365) by (apply Z.div_pos; lia).
    destruct (Z.min_spec 3 (r2 / 365)) as [[? ->]|[? ->]]; simpl; [lia|].
    destruct (Z.eqb_spec (r2 / 365) 3); lia. }
  destruct Hy as (Hy & Hy0 & Hy1). rewrite year_day_next by lia.
  rewrite year_day_cycles by lia. split_and!; [unfold r2, r in *; lia|done|destruct (y =? 3); lia|].
  assert (Hlast : r2 - 365 * y < 365 + (if (y =? 3) && (negb (q =? 24) || (c =? 3)) then 1 else 0)).
  { destruct (Z.eqb_spec y 3) as [Ey|?]; [|simpl; lia]. destruct (Z.eqb_spec q 24); [|simpl; lia].
    destruct (Z.eqb_spec c 3); simpl; [lia|]. destruct Hr2 as [_ Hr2]. specialize (Hr2 ltac:(done) ltac:(done)). lia. }
  unfold r2, r in *. lia.
Qed.

(** The first days of the months are found again; they are never the last day
    of a year. *)
Lemma march_year_first y doy : 0 ≤ doy < 365 → march_year (year_day y + doy) = (y, doy).
Proof.
  intros Hdoy.
  assert (∃ e c q k, y = 400 * e + 100 * c + 4 * q + k ∧ 0 ≤ c ≤ 3 ∧ 0 ≤ q ≤ 24 ∧ 0 ≤ k ≤ 3)
    as (e & c & q & k & -> & Hc & Hq & Hk).
  { exists (y / 400), (y mod 400 / 100), (y mod 100 / 4), (y mod 4). div_lia. }
  rewrite year_day_cycles by done.
  unfold march_year. cbv zeta.
  replace (march0 + 146097 * e + 36524 * c + 1461 * q + 365 * k + doy - march0)
    with (36524 * c + 1461 * q + 365 * k + doy + e * 146097) by lia.
  rewrite Z.div_add, Z_mod_plus_full, Z.div_small, Z.mod_small by lia.
  rewrite <-(Z.div_unique _ 36524 c (1461 * q + 365 * k + doy)) by lia. rewrite (Z.min_r 3 c) by lia.
  replace (36524 * c + 1461 * q + 365 * k + doy - 36524 * c) with (1461 * q + 365 * k + doy) by lia.
  rewrite <-(Z.div_unique _ 1461 q (365 * k + doy)) by lia.
  replace (1461 * q + 365 * k + doy - 1461 * q) with (365 * k + doy) by lia.
  rewrite <-(Z.div_unique _ 365 k doy) by lia. rewrite (Z.min_r 3 k) by lia. f_equal; lia.
Qed.

(** The months of a year that began in March, [mp] counting from March. *)
Lemma month_of_mp mp : 0 ≤ mp ≤ 11 →
  mp = 0 ∨ mp = 1 ∨ mp = 2 ∨ mp = 3 ∨ mp = 4 ∨ mp = 5 ∨ mp = 6 ∨ mp = 7 ∨ mp = 8 ∨ mp = 9 ∨ mp = 10 ∨ mp = 11.
Proof. lia. Qed.

Definition civil (y mp : Z) : Z * Z :=
  let m := if mp <? 10 then mp + 3 else mp - 9 in (y + (if m <=? 2 then 1 else 0), m).

#[local] Arguments year_day : simpl never.
Ltac by_months :=
  repeat match goal with
  | |- context [Z.leb ?a ?b] => destruct (Z.leb_spec a b)
  | |- context [Z.ltb ?a ?b] => destruct (Z.ltb_spec a b)
  end; div_lia.

Lemma month_day_civil y mp : 0 ≤ mp ≤ 11 →
  month_day (civil y mp).1 (civil y mp).2 = year_day y + (153 * mp + 2) / 5.
Proof.
  intros H. apply month_of_mp in H. unfold civil, month_day.
  repeat destruct H as [->|H]; [..|subst mp]; cbn; repeat f_equal; by_months.
Qed.

(** The month after, within the year and over its end. *)
Lemma month_day_next y mp : 0 ≤ mp < 11 →
  month_day (civil y mp).1 ((civil y mp).2 + 1) = year_day y + (153 * (mp + 1) + 2) / 5.
Proof.
  intros H. assert (H' : 0 ≤ mp ≤ 11) by lia. apply month_of_mp in H'. unfold civil, month_day.
  repeat destruct H' as [->|H']; [..|subst mp; lia]; cbn; repeat f_equal; by_months.
Qed.

Lemma month_day_wrap y : month_day (civil y 11).1 ((civil y 11).2 + 1) = year_day (y + 1).
Proof.
  unfold civil, month_day. cbn. rewrite <-(Z.add_0_r (year_day (y + 1))). f_equal. f_equal. by_months.
Qed.

Lemma day_in_month d :
  let '(y, m) := year_month d in
  1 ≤ m ≤ 12 ∧ month_day y m ≤ d < month_day y (m + 1).
Proof.
  unfold year_month. pose proof (march_year_spec d) as H. destruct (march_year d) as [y doy].
  destruct H as (Hd & H0 & H1). set (mp := (5 * doy + 2) / 153).
  assert (Hmp : 0 ≤ mp ≤ 11) by (unfold mp; div_lia).
  change (let '(y', m') := civil y mp in 1 ≤ m' ≤ 12 ∧ month_day y' m' ≤ d < month_day y' (m' + 1)).
  pose proof (month_day_civil y mp Hmp) as E1.
  assert (E2 : d < month_day (civil y mp).1 ((civil y mp).2 + 1)).
  { destruct (decide (mp = 11)) as [->|Hne]; [by rewrite month_day_wrap|].
    rewrite month_day_next by lia. unfold mp in *. div_lia. }
  assert (Hm : 1 ≤ (civil y mp).2 ≤ 12) by (unfold civil; cbn [snd]; destruct (mp <? 10) eqn:?; lia).
  destruct (civil y mp) as [y' m']. cbn [fst snd] in *. split; [done|]. rewrite E1.
  split; [unfold mp in *; div_lia|done].
Qed.

Lemma month_of_first y m : 1 ≤ m ≤ 12 → year_month (month_day y m) = (y, m).
Proof.
  intros Hm. set (y0 := if m <=? 2 then y - 1 else y). set (mp := if m <=? 2 then m + 9 else m - 3).
  assert (Hmp : 0 ≤ mp ≤ 11) by (unfold mp; destruct (m <=? 2) eqn:?; lia).
  assert (Hc : civil y0 mp = (y, m)).
  { unfold civil, y0, mp. destruct (m <=? 2) eqn:E.
    - rewrite (proj2 (Z.ltb_ge _ _)) by lia. replace (m + 9 - 9) with m by lia. rewrite E. f_equal; lia.
    - rewrite (proj2 (Z.ltb_lt _ _)) by lia. replace (m - 3 + 3) with m by lia. rewrite E. f_equal; lia. }
  pose proof (month_day_civil y0 mp Hmp) as E. rewrite Hc in E. cbn [fst snd] in E. rewrite E.
  unfold year_month. rewrite march_year_first by div_lia.
  replace ((5 * ((153 * mp + 2) / 5) + 2) / 153) with mp by div_lia. exact Hc.
Qed.

(** ** The month of an instant *)

Lemma Day_pos : 0 < Day.
Proof. done. Qed.

(** An instant lies in its month, from the first instant on and before the
    first instant of the next. *)
Lemma in_month t : StartOfMonth t ≤ t < DateMonth (Year t) (Month t + 1).
Proof.
  unfold StartOfMonth, DateMonth, Year, Month. pose proof (day_in_month (day_of t)) as H.
  destruct (year_month (day_of t)) as [y m]. cbn [fst snd]. destruct H as [_ H].
  unfold day_of in H. pose proof (Z.div_mod t Day ltac:(done)).
  pose proof (Z.mod_pos_bound t Day Day_pos). pose proof Day_pos. nia.
Qed.

Lemma Month_range t : 1 ≤ Month t ≤ 12.
Proof.
  unfold Month. pose proof (day_in_month (day_of t)) as H. destruct (year_month (day_of t)). by destruct H.
Qed.

Lemma AddMonth_start t : AddMonth (StartOfMonth t) = DateMonth (Year t) (Month t + 1).
Proof.
  unfold AddMonth. unfold Year at 1, Month at 1. unfold StartOfMonth, DateMonth, day_of.
  rewrite Z.div_mul by done. rewrite month_of_first by apply Month_range. done.
Qed.

(** The period from the start of a month to its end holds the instant. *)
Lemma month_period t : StartOfMonth t ≤ t < AddMonth (StartOfMonth t).
Proof. rewrite AddMonth_start. apply in_month. Qed.

(** ** RFC 3339 *)

Definition digit (n : Z) : string := String (Ascii.ascii_of_N (Z.to_N (48 + n mod 10))) EmptyString.

(** The decimal digits of a number, at least [w] of them. *)
Fixpoint padded (fuel w : nat) (n : Z) : string :=
  match fuel with
  | O => EmptyString
  | S fuel =>
      if (n =? 0) && (w =? 0)%nat then EmptyString
      else (padded fuel (w - 1) (n / 10) +:+ digit n)%string
  end.

Definition pad (w : nat) (n : Z) : string := padded 20 w n.

(** [t.UTC().Format(time.RFC3339)] from year 0 on. *)
Definition FormatRFC3339 (t : time) : string :=
  let sod := (t mod Day) / Second in
  let day := day_of t - month_day (Year t) (Month t) + 1 in
  (pad 4 (Year t) +:+ "-" +:+ pad 2 (Month t) +:+ "-" +:+ pad 2 day +:+ "T" +:+
   pad 2 (sod / 3600) +:+ ":" +:+ pad 2 (sod / 60 mod 60) +:+ ":" +:+ pad 2 (sod mod 60) +:+ "Z")%string.

Example format_epoch : FormatRFC3339 (62135596800 * Second) = "1970-01-01T00:00:00Z".
Proof. vm_compute. reflexivity. Qed.
Example format_leap : FormatRFC3339 ((62135596800 + 1709210096) * Second) = "2024-02-29T12:34:56Z".
Proof. vm_compute. reflexivity. Qed.
