(* ===== verification/Json.v ===== *)
(** * encoding/json, as the stores use it

    A [json.RawMessage] is empty, not valid JSON, or the text of a value; the
    value keeps the order and the duplicates of object members.  Integer
    literals keep their exact value; a literal with a fraction or an exponent
    is the float64 [m * 2^e] it denotes. *)

From S2P Require Import Prelude GoLib.
Open Scope Z_scope.
Open Scope bool_scope.
Open Scope go_scope.

Unset Elimination Schemes.
Inductive json :=
| JNull
| JBool (b : bool)
| JInt (z : Z)
| JFloat (m e : Z)
| JStr (s : string)
| JArr (l : list json)
| JObj (l : list (string * json)).
Set Elimination Schemes.

Inductive RawMessage :=
| RawEmpty
| RawInvalid (text : string)
| RawJSON (v : json).

(** Induction that reaches the elements of arrays and objects. *)
Section json_ind.
Context (P : json → Prop)
  (Hnull : P JNull) (Hbool : ∀ b, P (JBool b)) (Hint : ∀ z, P (JInt z))
  (Hfloat : ∀ m e, P (JFloat m e)) (Hstr : ∀ s, P (JStr s))
  (Harr : ∀ l, Forall P l → P (JArr l))
  (Hobj : ∀ l, Forall (λ kv, P kv.2) l → P (JObj l)).

Fixpoint json_nested_ind (v : json) : P v :=
  match v with
  | JNull => Hnull
  | JBool b => Hbool b
  | JInt z => Hint z
  | JFloat m e => Hfloat m e
  | JStr s => Hstr s
  | JArr l =>
      Harr l ((fix go (l : list json) : Forall P l :=
        match l with
        | [] => List.Forall_nil P
        | x :: l' => List.Forall_cons P x l' (json_nested_ind x) (go l')
        end) l)
  | JObj l =>
      Hobj l ((fix go (l : list (string * json)) : Forall (λ kv, P kv.2) l :=
        match l with
        | [] => List.Forall_nil _
        | kv :: l' => List.Forall_cons _ kv l' (json_nested_ind kv.2) (go l')
        end) l)
  end.
End json_ind.

(** ** Decoding into struct fields

    [Unmarshal] matches a member to a field by name, ignoring case; members
    are decoded in order, [null] leaves a non-pointer field alone, and a value
    of the wrong type is skipped and reported at the end.  A decoder returns
    the field's value and whether it saw no error. *)

Definition decode_field {A} (name : string) (dec : json → A → A * bool)
    (members : list (string * json)) (init : A) : A * bool :=
  foldl (λ '(a, ok) '(k, v),
    if EqualFold k name then let '(a', ok') := dec v a in (a', ok && ok')
    else (a, ok)) (init, true) members.

Definition dec_int64 (v : json) (old : Z) : Z * bool :=
  match v with
  | JNull => (old, true)
  | JInt z => if bool_decide (int64_min ≤ z ∧ z ≤ int64_max) then (z, true) else (old, false)
  | _ => (old, false)
  end.

Definition dec_int64_ptr (v : json) (old : option Z) : option Z * bool :=
  match v with
  | JNull => (None, true)
  | JInt z => if bool_decide (int64_min ≤ z ∧ z ≤ int64_max) then (Some z, true) else (old, false)
  | _ => (old, false)
  end.

Definition dec_string (v : json) (old : string) : string * bool :=
  match v with
  | JNull => (old, true)
  | JStr s => (s, true)
  | _ => (old, false)
  end.

(** The members an object offers to a struct: [null] offers none, anything
    else that is not an object is a type error. *)
Definition raw_members (raw : RawMessage) : option (list (string * json)) :=
  match raw with
  | RawJSON (JObj l) => Some l
  | RawJSON JNull => Some []
  | _ => None
  end.

(** ** Equality of decoded values

    [jsonEqual] decodes both sides into [any] and compares them with
    [reflect.DeepEqual]: numbers become float64, objects become maps in which
    the last member of a name wins. *)

Definition round_float64 (z : Z) : Z :=
  let a := Z.abs z in
  let n := Z.log2 a in
  if n <=? 52 then z else
  let k := n - 52 in
  let q := a / 2 ^ k in
  let r := a mod 2 ^ k in
  let half := 2 ^ (k - 1) in
  let q' := if r <? half then q else if half <? r then q + 1
            else if Z.even q then q else q + 1 in
  Z.sgn z * (q' * 2 ^ k).

(** Integers the decoder accepts: those that do not round to infinity. *)
Definition float64_fits (z : Z) : bool := Z.abs z <? 2 ^ 1024 - 2 ^ 970.

Definition float_eqb (m1 e1 m2 e2 : Z) : bool :=
  if e2 <=? e1 then m1 * 2 ^ (e1 - e2) =? m2 else m2 * 2 ^ (e2 - e1) =? m1.

Fixpoint lookup_last {A} (k : string) (l : list (string * A)) : option A :=
  match l with
  | [] => None
  | (k', v) :: l' =>
      match lookup_last k l' with
      | Some w => Some w
      | None => if k' == k then Some v else None
      end
  end.

Definition has_key {A} (k : string) (l : list (string * A)) : bool :=
  existsb (λ kv, kv.1 == k) l.

Fixpoint json_eqb (a b : json) {struct a} : bool :=
  match a, b with
  | JNull, JNull => true
  | JBool x, JBool y => Bool.eqb x y
  | JInt x, JInt y => round_float64 x =? round_float64 y
  | JInt x, JFloat m e => float_eqb (round_float64 x) 0 m e
  | JFloat m e, JInt y => float_eqb m e (round_float64 y) 0
  | JFloat m e, JFloat m' e' => float_eqb m e m' e'
  | JStr x, JStr y => x == y
  | JArr xs, JArr ys =>
      (fix go (xs ys : list json) : bool :=
        match xs, ys with
        | [], [] => true
        | x :: xs', y :: ys' => json_eqb x y && go xs' ys'
        | _, _ => false
        end) xs ys
  | JObj fs, JObj gs =>
      (fix go (l : list (string * json)) : bool :=
        match l with
        | [] => true
        | (k, v) :: l' =>
            (has_key k l' ||
             match lookup_last k gs with
             | Some w => json_eqb v w
             | None => false
             end) && go l'
        end) fs &&
      forallb (λ kv, has_key kv.1 fs) gs
  | _, _ => false
  end.

Fixpoint decodes_any (v : json) : bool :=
  match v with
  | JInt z => float64_fits z
  | JArr l => forallb decodes_any l
  | JObj l => forallb (λ kv, decodes_any kv.2) l
  | _ => true
  end.

Definition jsonEqual (a b : RawMessage) : bool :=
  match a, b with
  | RawJSON x, RawJSON y => decodes_any x && decodes_any y && json_eqb x y
  | _, _ => false
  end.

(** ** Lemmas *)

Lemma lookup_last_app {A} k (pre l : list (string * A)) v :
  lookup_last k l = Some v → lookup_last k (pre ++ l) = Some v.
Proof. intros H. induction pre as [|[k' w] pre IH]; simpl; [done|]. by rewrite IH. Qed.

Lemma lookup_last_no_key {A} k (l : list (string * A)) :
  has_key k l = false → lookup_last k l = None.
Proof.
  induction l as [|[k' v] l IH]; simpl; [done|].
  intros [H1 H2]%orb_false_iff. rewrite IH by done. by rewrite H1.
Qed.

Lemma has_key_elem {A} (l : list (string * A)) kv :
  kv ∈ l → has_key kv.1 l = true.
Proof.
  intros H. apply existsb_exists. exists kv. split; [by apply list_elem_of_In|].
  by apply bool_decide_eq_true.
Qed.

Lemma float_eqb_refl m e : float_eqb m e m e = true.
Proof. unfold float_eqb. rewrite Z.leb_refl, Z.sub_diag. apply Z.eqb_eq. lia. Qed.

Lemma json_eqb_refl v : json_eqb v v = true.
Proof.
  induction v as [|b|z|m e|s|l IH|l IH] using json_nested_ind; simpl; try done.
  - by destruct b.
  - apply Z.eqb_refl.
  - apply float_eqb_refl.
  - by apply bool_decide_eq_true.
  - induction IH as [|x l Hx _ IHl]; [done|]. by rewrite Hx.
  - apply andb_true_iff. split.
    + cut (∀ pre suf, l = pre ++ suf →
        (fix go (l0 : list (string * json)) : bool :=
          match l0 with
          | [] => true
          | (k, v) :: l' =>
              (has_key k l' ||
               match lookup_last k l with
               | Some w => json_eqb v w
               | None => false
               end) && go l'
          end) suf = true); [intros H; by apply (H [])|].
      intros pre suf; revert pre.
      induction suf as [|[k v] suf IHs]; intros pre E; [done|].
      apply andb_true_iff. split.
      * destruct (has_key k suf) eqn:Hk; [done|]. simpl.
        rewrite E, (lookup_last_app _ _ _ v).
        -- rewrite E in IH. apply Forall_app in IH as [_ IH].
           inversion IH; subst. done.
        -- simpl. rewrite lookup_last_no_key by done.
           by rewrite bool_decide_true.
      * apply (IHs (pre ++ [(k, v)])). rewrite E. by rewrite <-app_assoc.
    + apply forallb_forall. intros kv Hin. apply has_key_elem.
      by apply list_elem_of_In.
Qed.

(** A value compared with itself is equal as soon as it decodes. *)
Lemma jsonEqual_refl v : decodes_any v = true → jsonEqual (RawJSON v) (RawJSON v) = true.
Proof. intros H. simpl. by rewrite H, json_eqb_refl. Qed.
