(* ===== verification/StoreData.v ===== *)
(** * Data model of the store package

    The structs of [internal/store] as records, with the field names of the
    source behind a short prefix ([User.ID] is [user_ID]); the sentinel errors
    of the package; and the state of the in-memory store.

    A [*time.Time] is an [option time], a slice is a list (nil and empty are
    the same list), a [map[string]T] is a [gmap string T].  [*User] values are
    shared between the three user indexes and mutated in place, so users live
    in a heap and the indexes hold locations; every other pointer is reachable
    from one map only and is modelled by its value. *)

From S2P Require Import Prelude GoLib Json.
From Stdlib Require Import SpecFloat.
Open Scope Z_scope.
Open Scope go_scope.

(** IEEE binary64, through the executable specification of the standard
    library. *)
Abbreviation float64 := spec_float (only parsing).
Definition float_add (a b : float64) : float64 := SFadd 53 1024 a b.
Definition float_zero : float64 := S754_zero false.

(** ** Errors *)

Inductive error :=
| ErrEmailExists | ErrNameExists | ErrInvalidName | ErrUserNotFound
| ErrUserArchiveUnsupported | ErrUserProtected | ErrUserAlreadyArchived
| ErrUserArchiveReplayConflict | ErrAdminPlanGroupStale
| ErrAdminPlanGroupReplay | ErrAdminPlanGroupPreview | ErrMFANotSupported
| ErrSuperAdminCountingDisabled | ErrSubscriptionNotFound | ErrReferralNotFound
| ErrReferralSelf | ErrReferralAlreadyAttributed
| ErrReferralSettlementUnavailable | ErrReferralSettlementRisk
| ErrPasswordRecoveryInvalid | ErrPasswordRecoveryCooldown
| ErrMFARecoveryCodeInvalid | ErrSessionNotFound | ErrMFAResetConflict
| ErrFinanceRecordNotFound | ErrFinanceIdempotencyConflict
| ErrFinanceInvoiceAlreadyPaid | ErrFinanceRefundExceedsPayment
| ErrFinanceOperationInProgress | ErrFinanceOperationNotRetryable
| ErrSubscriptionCooldown | ErrSubscriptionStateConflict
| ErrSubscriptionChangePending | ErrSubscriptionQuotaConflict
| ErrDuplicateLedgerEntry | ErrBillingPlanNotFound | ErrReferralCampaignInvalid
| ErrOverlayDeviceNotFound | ErrTenantNotFound | ErrTenantMembershipNotFound
| ErrXWorkmateProfileNotFound | ErrNetworkTeamNotFound
| ErrNetworkWithdrawalRequired | ErrNetworkTeamFull | ErrTeamAgentNotFound
| ErrTeamAgentConflict | ErrAgentFreeGrantNotFound | ErrAgentFreeGrantInvalid
| ErrMsg (text : string).
#[export] Instance error_eq_dec : EqDecision error.
Proof. solve_decision. Defined.

(** ** Accounts *)

(** [User]: an account. *)
Record User := mkUser {
  user_ID : string;
  user_Name : string;
  user_Email : string;
  user_Level : Z;
  user_Role : string;
  user_Groups : list string;
  user_Permissions : list string;
  user_EmailVerified : bool;
  user_PasswordHash : string;
  user_MFATOTPSecret : string;
  user_MFAEnabled : bool;
  user_MFASecretIssuedAt : time;
  user_MFAConfirmedAt : time;
  user_CreatedAt : time;
  user_UpdatedAt : time;
  user_Active : bool;
  user_ProxyUUID : string;
  user_ProxyUUIDExpiresAt : option time;
  user_SubscriptionValidFrom : option time;
  user_SubscriptionValidUntil : option time;
  user_LastActiveAt : option time;
  user_ArchivedAt : option time
}.
#[export] Instance eta_User : Eta User := λ x, mkUser (user_ID x) (user_Name x)
   (user_Email x) (user_Level x) (user_Role x) (user_Groups x) (user_Permissions x)
   (user_EmailVerified x) (user_PasswordHash x) (user_MFATOTPSecret x)
   (user_MFAEnabled x) (user_MFASecretIssuedAt x) (user_MFAConfirmedAt x)
   (user_CreatedAt x) (user_UpdatedAt x) (user_Active x) (user_ProxyUUID x)
   (user_ProxyUUIDExpiresAt x) (user_SubscriptionValidFrom x)
   (user_SubscriptionValidUntil x) (user_LastActiveAt x) (user_ArchivedAt x).

(** [SubscriptionRecord]: operator-managed subscription import record. *)
Record SubscriptionRecord := mkSubscriptionRecord {
  srec_PlanCode : string;
  srec_UserID : string;
  srec_SubscriptionType : string;
  srec_MonthlyQuotaBytes : Z;
  srec_AnnualQuotaBytes : Z;
  srec_FeeMinor : Z;
  srec_PaymentStatus : string;
  srec_Note : string;
  srec_ValidFrom : option time;
  srec_ValidUntil : option time;
  srec_UpdatedAt : time
}.
#[export] Instance eta_SubscriptionRecord : Eta SubscriptionRecord := λ x, mkSubscriptionRecord
   (srec_PlanCode x) (srec_UserID x) (srec_SubscriptionType x)
   (srec_MonthlyQuotaBytes x) (srec_AnnualQuotaBytes x) (srec_FeeMinor x)
   (srec_PaymentStatus x) (srec_Note x) (srec_ValidFrom x) (srec_ValidUntil x)
   (srec_UpdatedAt x).

(** ** Teams and their agents *)

(** [NetworkTeam] *)
Record NetworkTeam := mkNetworkTeam {
  nt_ID : string;
  nt_Name : string;
  nt_MemberLimit : Z;
  nt_ValidFrom : time;
  nt_ValidUntil : time;
  nt_Active : bool
}.
#[export] Instance eta_NetworkTeam : Eta NetworkTeam := λ x, mkNetworkTeam (nt_ID x)
   (nt_Name x) (nt_MemberLimit x) (nt_ValidFrom x) (nt_ValidUntil x) (nt_Active x).

(** [NetworkMembership] *)
Record NetworkMembership := mkNetworkMembership {
  nm_Configured : bool;
  nm_UserID : string;
  nm_TeamID : string;
  nm_DedicatedOnly : bool;
  nm_Role : string
}.
#[export] Instance eta_NetworkMembership : Eta NetworkMembership := λ x,
   mkNetworkMembership (nm_Configured x) (nm_UserID x) (nm_TeamID x)
   (nm_DedicatedOnly x) (nm_Role x).

(** [TeamAgentEnrollment] *)
Record TeamAgentEnrollment := mkTeamAgentEnrollment {
  tae_AgentID : string;
  tae_SuggestedTeamID : string;
  tae_AssignedTeamID : string;
  tae_Status : string;
  tae_DecidedBy : string;
  tae_Reason : string;
  tae_UpdatedAt : time
}.
#[export] Instance eta_TeamAgentEnrollment : Eta TeamAgentEnrollment := λ x,
   mkTeamAgentEnrollment (tae_AgentID x) (tae_SuggestedTeamID x)
   (tae_AssignedTeamID x) (tae_Status x) (tae_DecidedBy x) (tae_Reason x)
   (tae_UpdatedAt x).

(** ** Dynamic values and the audit log *)

(** Dynamic values stored under [any]: audit details and subscription
    metadata. *)
Unset Elimination Schemes.
Inductive any :=
| ANil
| ABool (b : bool)
| AInt (z : Z)
| AFloat (f : float64)
| AStr (s : string)
| ATime (t : time)
| ATimePtr (t : option time)
| AStrs (l : list string)
| ARecord (r : SubscriptionRecord)
| ARecordPtr (r : option SubscriptionRecord)
| ATeam (t : NetworkTeam)
| AMembership (m : NetworkMembership)
| AEnrollment (e : TeamAgentEnrollment)
| AMap (m : list (string * any)).
Set Elimination Schemes.

(** [v == s] for an interface [v] and a string [s]; an absent key reads as the
    nil interface. *)
Definition any_is_str (v : option any) (s : string) : bool :=
  match v with Some (AStr t) => t == s | _ => false end.

(** [s, _ := v.(string)] *)
Definition any_str (v : option any) : string :=
  match v with Some (AStr t) => t | _ => EmptyString end.

(** [Subscription]: a recurring or usage-based billing relationship. *)
Record Subscription := mkSubscription {
  sub_ID : string;
  sub_UserID : string;
  sub_Provider : string;
  sub_PaymentMethod : string;
  sub_PaymentQRCode : string;
  sub_Kind : string;
  sub_PlanID : string;
  sub_ExternalID : string;
  sub_Status : string;
  sub_Meta : gmap string any;
  sub_CreatedAt : time;
  sub_UpdatedAt : time;
  sub_CancelledAt : option time
}.
#[export] Instance eta_Subscription : Eta Subscription := λ x, mkSubscription
   (sub_ID x) (sub_UserID x) (sub_Provider x) (sub_PaymentMethod x)
   (sub_PaymentQRCode x) (sub_Kind x) (sub_PlanID x) (sub_ExternalID x) (sub_Status x)
   (sub_Meta x) (sub_CreatedAt x) (sub_UpdatedAt x) (sub_CancelledAt x).

(** [Identity]: a third-party login. *)
Record Identity := mkIdentity {
  ident_ID : string;
  ident_UserID : string;
  ident_Provider : string;
  ident_ExternalID : string;
  ident_CreatedAt : time;
  ident_UpdatedAt : time
}.
#[export] Instance eta_Identity : Eta Identity := λ x, mkIdentity (ident_ID x)
   (ident_UserID x) (ident_Provider x) (ident_ExternalID x) (ident_CreatedAt x)
   (ident_UpdatedAt x).

(** [Agent]: a registered agent with health tracking. *)
Record Agent := mkAgent {
  agent_ID : string;
  agent_Name : string;
  agent_Groups : list string;
  agent_Healthy : bool;
  agent_LastHeartbeat : option time;
  agent_ClientsCount : Z;
  agent_SyncRevision : string;
  agent_CreatedAt : time;
  agent_UpdatedAt : time
}.
#[export] Instance eta_Agent : Eta Agent := λ x, mkAgent (agent_ID x) (agent_Name x)
   (agent_Groups x) (agent_Healthy x) (agent_LastHeartbeat x) (agent_ClientsCount x)
   (agent_SyncRevision x) (agent_CreatedAt x) (agent_UpdatedAt x).

(** [AuditLog]: one operator-initiated change. *)
Record AuditLog := mkAuditLog {
  audit_UUID : string;
  audit_Action : string;
  audit_ActorUUID : string;
  audit_Details : gmap string any;
  audit_CreatedAt : time
}.
#[export] Instance eta_AuditLog : Eta AuditLog := λ x, mkAuditLog (audit_UUID x)
   (audit_Action x) (audit_ActorUUID x) (audit_Details x) (audit_CreatedAt x).

(** ** Sessions and account recovery *)

(** [sessionRecord] *)
Record sessionRecord := mksessionRecord {
  sess_UserID : string;
  sess_ExpiresAt : time
}.
#[export] Instance eta_sessionRecord : Eta sessionRecord := λ x, mksessionRecord
   (sess_UserID x) (sess_ExpiresAt x).

(** [oauthExchangeRecord]: a single-use OAuth exchange code. *)
Record oauthExchangeRecord := mkoauthExchangeRecord {
  oauth_SessionToken : string;
  oauth_SessionExpiresAt : time;
  oauth_ExpiresAt : time
}.
#[export] Instance eta_oauthExchangeRecord : Eta oauthExchangeRecord := λ x, mkoauthExchangeRecord
   (oauth_SessionToken x) (oauth_SessionExpiresAt x) (oauth_ExpiresAt x).

(** [PasswordRecoveryChallenge] *)
Record PasswordRecoveryChallenge := mkPasswordRecoveryChallenge {
  prc_ID : string;
  prc_UserID : string;
  prc_Email : string;
  prc_Kind : string;
  prc_SecretHash : string;
  prc_ExpiresAt : time;
  prc_FailedAttempts : Z;
  prc_LockedUntil : time;
  prc_CreatedAt : time;
  prc_ConsumedAt : time;
  prc_InvalidatedAt : time
}.
#[export] Instance eta_PasswordRecoveryChallenge : Eta PasswordRecoveryChallenge := λ x, mkPasswordRecoveryChallenge
   (prc_ID x) (prc_UserID x) (prc_Email x) (prc_Kind x) (prc_SecretHash x)
   (prc_ExpiresAt x) (prc_FailedAttempts x) (prc_LockedUntil x) (prc_CreatedAt x)
   (prc_ConsumedAt x) (prc_InvalidatedAt x).

(** [MFARecoveryCode] *)
Record MFARecoveryCode := mkMFARecoveryCode {
  mrc_ID : string;
  mrc_UserID : string;
  mrc_BatchID : string;
  mrc_CodeHash : string;
  mrc_ExpiresAt : time;
  mrc_FailedAttempts : Z;
  mrc_LockedUntil : time;
  mrc_CreatedAt : time;
  mrc_ConsumedAt : time;
  mrc_RevokedAt : time
}.
#[export] Instance eta_MFARecoveryCode : Eta MFARecoveryCode := λ x, mkMFARecoveryCode
   (mrc_ID x) (mrc_UserID x) (mrc_BatchID x) (mrc_CodeHash x) (mrc_ExpiresAt x)
   (mrc_FailedAttempts x) (mrc_LockedUntil x) (mrc_CreatedAt x) (mrc_ConsumedAt x)
   (mrc_RevokedAt x).

(** [MFAResetRequest] *)
Record MFAResetRequest := mkMFAResetRequest {
  mrr_ID : string;
  mrr_UserID : string;
  mrr_Email : string;
  mrr_Fingerprint : string;
  mrr_CodeHash : string;
  mrr_Status : string;
  mrr_Reason : string;
  mrr_ReviewReason : string;
  mrr_FailedAttempts : Z;
  mrr_CreatedAt : time;
  mrr_ExpiresAt : time
}.
#[export] Instance eta_MFAResetRequest : Eta MFAResetRequest := λ x, mkMFAResetRequest
   (mrr_ID x) (mrr_UserID x) (mrr_Email x) (mrr_Fingerprint x) (mrr_CodeHash x)
   (mrr_Status x) (mrr_Reason x) (mrr_ReviewReason x) (mrr_FailedAttempts x)
   (mrr_CreatedAt x) (mrr_ExpiresAt x).

(** ** Finance *)

(** [FinanceInvoice]; amounts are in the minor unit of the currency. *)
Record FinanceInvoice := mkFinanceInvoice {
  inv_ID : string;
  inv_IdempotencyKey : string;
  inv_AccountUUID : string;
  inv_SubscriptionUUID : string;
  inv_Provider : string;
  inv_ProviderInvoiceID : string;
  inv_AmountMinor : Z;
  inv_Currency : string;
  inv_Description : string;
  inv_IssuedAt : time;
  inv_DueAt : option time;
  inv_ServicePeriodStart : option time;
  inv_ServicePeriodEnd : option time;
  inv_CreatedAt : time
}.
#[export] Instance eta_FinanceInvoice : Eta FinanceInvoice := λ x, mkFinanceInvoice
   (inv_ID x) (inv_IdempotencyKey x) (inv_AccountUUID x) (inv_SubscriptionUUID x)
   (inv_Provider x) (inv_ProviderInvoiceID x) (inv_AmountMinor x) (inv_Currency x)
   (inv_Description x) (inv_IssuedAt x) (inv_DueAt x) (inv_ServicePeriodStart x)
   (inv_ServicePeriodEnd x) (inv_CreatedAt x).

(** [FinancePayment] *)
Record FinancePayment := mkFinancePayment {
  pay_ID : string;
  pay_IdempotencyKey : string;
  pay_InvoiceID : string;
  pay_AccountUUID : string;
  pay_Provider : string;
  pay_ProviderPaymentID : string;
  pay_AmountMinor : Z;
  pay_Currency : string;
  pay_PaidAt : time;
  pay_CreatedAt : time
}.
#[export] Instance eta_FinancePayment : Eta FinancePayment := λ x, mkFinancePayment
   (pay_ID x) (pay_IdempotencyKey x) (pay_InvoiceID x) (pay_AccountUUID x)
   (pay_Provider x) (pay_ProviderPaymentID x) (pay_AmountMinor x) (pay_Currency x)
   (pay_PaidAt x) (pay_CreatedAt x).

(** [FinanceRefund] *)
Record FinanceRefund := mkFinanceRefund {
  refund_ID : string;
  refund_IdempotencyKey : string;
  refund_PaymentID : string;
  refund_Provider : string;
  refund_ProviderRefundID : string;
  refund_AmountMinor : Z;
  refund_Currency : string;
  refund_Reason : string;
  refund_RefundedAt : time;
  refund_CreatedAt : time
}.
#[export] Instance eta_FinanceRefund : Eta FinanceRefund := λ x, mkFinanceRefund
   (refund_ID x) (refund_IdempotencyKey x) (refund_PaymentID x) (refund_Provider x)
   (refund_ProviderRefundID x) (refund_AmountMinor x) (refund_Currency x)
   (refund_Reason x) (refund_RefundedAt x) (refund_CreatedAt x).

(** [FinanceOperation]: the durable retry and reconciliation projection. *)
Record FinanceOperation := mkFinanceOperation {
  op_ID : string;
  op_IdempotencyKey : string;
  op_OperationType : string;
  op_TargetType : string;
  op_TargetID : string;
  op_Provider : string;
  op_ProviderOperationID : string;
  op_Status : string;
  op_AttemptCount : Z;
  op_NextAttemptAt : option time;
  op_LastError : string;
  op_Request : RawMessage;
  op_Response : RawMessage;
  op_CreatedAt : time;
  op_UpdatedAt : time
}.
#[export] Instance eta_FinanceOperation : Eta FinanceOperation := λ x, mkFinanceOperation
   (op_ID x) (op_IdempotencyKey x) (op_OperationType x) (op_TargetType x)
   (op_TargetID x) (op_Provider x) (op_ProviderOperationID x) (op_Status x)
   (op_AttemptCount x) (op_NextAttemptAt x) (op_LastError x) (op_Request x)
   (op_Response x) (op_CreatedAt x) (op_UpdatedAt x).

(** [FinanceOperationEvent]: the append-only trail of an operation. *)
Record FinanceOperationEvent := mkFinanceOperationEvent {
  fev_ID : string;
  fev_OperationID : string;
  fev_Attempt : Z;
  fev_EventType : string;
  fev_Status : string;
  fev_ProviderOperationID : string;
  fev_Payload : RawMessage;
  fev_Error : string;
  fev_OccurredAt : time
}.
#[export] Instance eta_FinanceOperationEvent : Eta FinanceOperationEvent := λ x, mkFinanceOperationEvent
   (fev_ID x) (fev_OperationID x) (fev_Attempt x) (fev_EventType x) (fev_Status x)
   (fev_ProviderOperationID x) (fev_Payload x) (fev_Error x) (fev_OccurredAt x).

(** [SubscriptionLifecycle]: per-account gate for subscription changes. *)
Record SubscriptionLifecycle := mkSubscriptionLifecycle {
  slc_AccountID : string;
  slc_Version : Z;
  slc_LastChangeAt : option time;
  slc_OperationID : string;
  slc_PendingPlanID : string;
  slc_EffectiveAt : option time;
  slc_RefundReviewPending : bool
}.
#[export] Instance eta_SubscriptionLifecycle : Eta SubscriptionLifecycle := λ x, mkSubscriptionLifecycle
   (slc_AccountID x) (slc_Version x) (slc_LastChangeAt x) (slc_OperationID x)
   (slc_PendingPlanID x) (slc_EffectiveAt x) (slc_RefundReviewPending x).

(** ** Referrals *)

(** [ReferralCode] *)
Record ReferralCode := mkReferralCode {
  rcode_UserUUID : string;
  rcode_Code : string;
  rcode_CreatedAt : time
}.
#[export] Instance eta_ReferralCode : Eta ReferralCode := λ x, mkReferralCode
   (rcode_UserUUID x) (rcode_Code x) (rcode_CreatedAt x).

(** [ReferralAttribution] *)
Record ReferralAttribution := mkReferralAttribution {
  rattr_ID : string;
  rattr_ReferrerUUID : string;
  rattr_InviteeUUID : string;
  rattr_Code : string;
  rattr_CreatedAt : time
}.
#[export] Instance eta_ReferralAttribution : Eta ReferralAttribution := λ x, mkReferralAttribution
   (rattr_ID x) (rattr_ReferrerUUID x) (rattr_InviteeUUID x) (rattr_Code x)
   (rattr_CreatedAt x).

(** [ReferralReward] *)
Record ReferralReward := mkReferralReward {
  rew_ID : string;
  rew_ReferralID : string;
  rew_ProviderInvoiceID : string;
  rew_ReferrerUUID : string;
  rew_InviteeUUID : string;
  rew_PlanID : string;
  rew_ProductSlug : string;
  rew_PaidMinor : Z;
  rew_RewardMinor : Z;
  rew_Currency : string;
  rew_PaidAt : time;
  rew_EligibleAt : time;
  rew_AnnualDays : Z;
  rew_Status : string;
  rew_CreatedAt : time;
  rew_ReferralCreatedAt : time;
  rew_InviteeEmail : string
}.
#[export] Instance eta_ReferralReward : Eta ReferralReward := λ x, mkReferralReward
   (rew_ID x) (rew_ReferralID x) (rew_ProviderInvoiceID x) (rew_ReferrerUUID x)
   (rew_InviteeUUID x) (rew_PlanID x) (rew_ProductSlug x) (rew_PaidMinor x)
   (rew_RewardMinor x) (rew_Currency x) (rew_PaidAt x) (rew_EligibleAt x)
   (rew_AnnualDays x) (rew_Status x) (rew_CreatedAt x) (rew_ReferralCreatedAt x)
   (rew_InviteeEmail x).

(** [ReferralPaymentRisk] *)
Record ReferralPaymentRisk := mkReferralPaymentRisk {
  risk_SourceKey : string;
  risk_ProviderInvoiceID : string;
  risk_Type : string;
  risk_Reason : string;
  risk_OccurredAt : time
}.
#[export] Instance eta_ReferralPaymentRisk : Eta ReferralPaymentRisk := λ x, mkReferralPaymentRisk
   (risk_SourceKey x) (risk_ProviderInvoiceID x) (risk_Type x) (risk_Reason x)
   (risk_OccurredAt x).

(** [ReferralSettlement] *)
Record ReferralSettlement := mkReferralSettlement {
  rset_ID : string;
  rset_ReferrerUUID : string;
  rset_Currency : string;
  rset_Status : string;
  rset_AmountMinor : Z;
  rset_PayoutReference : string;
  rset_Reason : string;
  rset_RequestedAt : time;
  rset_CompletedAt : option time
}.
#[export] Instance eta_ReferralSettlement : Eta ReferralSettlement := λ x, mkReferralSettlement
   (rset_ID x) (rset_ReferrerUUID x) (rset_Currency x) (rset_Status x)
   (rset_AmountMinor x) (rset_PayoutReference x) (rset_Reason x) (rset_RequestedAt x)
   (rset_CompletedAt x).

(** [SubscriptionExtension] *)
Record SubscriptionExtension := mkSubscriptionExtension {
  ext_ID : string;
  ext_RewardID : string;
  ext_ReferralID : string;
  ext_UserUUID : string;
  ext_SubscriptionUUID : string;
  ext_Days : Z;
  ext_EffectiveFrom : time;
  ext_EffectiveUntil : time;
  ext_Status : string;
  ext_CreatedAt : time
}.
#[export] Instance eta_SubscriptionExtension : Eta SubscriptionExtension := λ x, mkSubscriptionExtension
   (ext_ID x) (ext_RewardID x) (ext_ReferralID x) (ext_UserUUID x)
   (ext_SubscriptionUUID x) (ext_Days x) (ext_EffectiveFrom x) (ext_EffectiveUntil x)
   (ext_Status x) (ext_CreatedAt x).

(** [ReferralCurrencySummary] *)
Record ReferralCurrencySummary := mkReferralCurrencySummary {
  rcs_Currency : string;
  rcs_EarnedMinor : Z;
  rcs_PendingMinor : Z;
  rcs_EligibleMinor : Z;
  rcs_SettledMinor : Z;
  rcs_ReversedMinor : Z
}.
#[export] Instance eta_ReferralCurrencySummary : Eta ReferralCurrencySummary := λ x, mkReferralCurrencySummary
   (rcs_Currency x) (rcs_EarnedMinor x) (rcs_PendingMinor x) (rcs_EligibleMinor x)
   (rcs_SettledMinor x) (rcs_ReversedMinor x).

(** [ReferralSummary] *)
Record ReferralSummary := mkReferralSummary {
  rsum_SuccessfulInvites : Z;
  rsum_AwardedDays : Z;
  rsum_CashByCurrency : list ReferralCurrencySummary
}.
#[export] Instance eta_ReferralSummary : Eta ReferralSummary := λ x, mkReferralSummary
   (rsum_SuccessfulInvites x) (rsum_AwardedDays x) (rsum_CashByCurrency x).

(** [ReferralInvoiceVerification] *)
Record ReferralInvoiceVerification := mkReferralInvoiceVerification {
  riv_InvoiceID : string;
  riv_ProviderPriceID : string;
  riv_PlanID : string;
  riv_ProductSlug : string
}.
#[export] Instance eta_ReferralInvoiceVerification : Eta ReferralInvoiceVerification := λ x, mkReferralInvoiceVerification
   (riv_InvoiceID x) (riv_ProviderPriceID x) (riv_PlanID x) (riv_ProductSlug x).

(** [ReferralCampaign] *)
Record ReferralCampaign := mkReferralCampaign {
  camp_Revision : Z;
  camp_Enabled : bool;
  camp_StartsAt : option time;
  camp_EndsAt : option time;
  camp_EffectiveAt : time;
  camp_ActorUUID : string;
  camp_Reason : string
}.
#[export] Instance eta_ReferralCampaign : Eta ReferralCampaign := λ x, mkReferralCampaign
   (camp_Revision x) (camp_Enabled x) (camp_StartsAt x) (camp_EndsAt x)
   (camp_EffectiveAt x) (camp_ActorUUID x) (camp_Reason x).

#[export] Instance ReferralInvoiceVerification_eq_dec :
  EqDecision ReferralInvoiceVerification.
Proof. solve_decision. Defined.

(** ** Traffic accounting, quotas and plans *)

(** [TrafficStatCheckpoint] *)
Record TrafficStatCheckpoint := mkTrafficStatCheckpoint {
  ckpt_NodeID : string;
  ckpt_AccountUUID : string;
  ckpt_LastUplinkTotal : Z;
  ckpt_LastDownlinkTotal : Z;
  ckpt_LastSeenAt : time;
  ckpt_XrayRevision : string;
  ckpt_ResetEpoch : Z;
  ckpt_CreatedAt : time;
  ckpt_UpdatedAt : time
}.
#[export] Instance eta_TrafficStatCheckpoint : Eta TrafficStatCheckpoint := λ x, mkTrafficStatCheckpoint
   (ckpt_NodeID x) (ckpt_AccountUUID x) (ckpt_LastUplinkTotal x)
   (ckpt_LastDownlinkTotal x) (ckpt_LastSeenAt x) (ckpt_XrayRevision x)
   (ckpt_ResetEpoch x) (ckpt_CreatedAt x) (ckpt_UpdatedAt x).

(** [TrafficMinuteBucket] *)
Record TrafficMinuteBucket := mkTrafficMinuteBucket {
  bkt_BucketStart : time;
  bkt_NodeID : string;
  bkt_AccountUUID : string;
  bkt_Region : string;
  bkt_LineCode : string;
  bkt_UplinkBytes : Z;
  bkt_DownlinkBytes : Z;
  bkt_TotalBytes : Z;
  bkt_Multiplier : float64;
  bkt_RatingStatus : string;
  bkt_SourceRevision : string;
  bkt_CreatedAt : time;
  bkt_UpdatedAt : time
}.
#[export] Instance eta_TrafficMinuteBucket : Eta TrafficMinuteBucket := λ x, mkTrafficMinuteBucket
   (bkt_BucketStart x) (bkt_NodeID x) (bkt_AccountUUID x) (bkt_Region x)
   (bkt_LineCode x) (bkt_UplinkBytes x) (bkt_DownlinkBytes x) (bkt_TotalBytes x)
   (bkt_Multiplier x) (bkt_RatingStatus x) (bkt_SourceRevision x) (bkt_CreatedAt x)
   (bkt_UpdatedAt x).

(** [BillingLedgerEntry] *)
Record BillingLedgerEntry := mkBillingLedgerEntry {
  led_ID : string;
  led_AccountUUID : string;
  led_Currency : string;
  led_BucketStart : time;
  led_BucketEnd : time;
  led_EntryType : string;
  led_RatedBytes : Z;
  led_AmountDelta : float64;
  led_BalanceAfter : float64;
  led_PricingRuleVersion : string;
  led_CreatedAt : time
}.
#[export] Instance eta_BillingLedgerEntry : Eta BillingLedgerEntry := λ x, mkBillingLedgerEntry
   (led_ID x) (led_AccountUUID x) (led_Currency x) (led_BucketStart x)
   (led_BucketEnd x) (led_EntryType x) (led_RatedBytes x) (led_AmountDelta x)
   (led_BalanceAfter x) (led_PricingRuleVersion x) (led_CreatedAt x).

(** [AccountQuotaState] *)
Record AccountQuotaState := mkAccountQuotaState {
  quota_AccountUUID : string;
  quota_RemainingIncludedQuota : Z;
  quota_CurrentBalance : float64;
  quota_Arrears : bool;
  quota_ArrearsSince : option time;
  quota_ThrottleState : string;
  quota_SuspendState : string;
  quota_ProxyAccessState : string;
  quota_LastRatedBucketAt : option time;
  quota_PeriodStart : option time;
  quota_PeriodEnd : option time;
  quota_EffectiveAt : time;
  quota_UpdatedAt : time
}.
#[export] Instance eta_AccountQuotaState : Eta AccountQuotaState := λ x, mkAccountQuotaState
   (quota_AccountUUID x) (quota_RemainingIncludedQuota x) (quota_CurrentBalance x)
   (quota_Arrears x) (quota_ArrearsSince x) (quota_ThrottleState x)
   (quota_SuspendState x) (quota_ProxyAccessState x) (quota_LastRatedBucketAt x)
   (quota_PeriodStart x) (quota_PeriodEnd x) (quota_EffectiveAt x) (quota_UpdatedAt x).

(** [AccountBillingProfile] *)
Record AccountBillingProfile := mkAccountBillingProfile {
  prof_AccountUUID : string;
  prof_PackageName : string;
  prof_IncludedQuotaBytes : Z;
  prof_BasePricePerByte : float64;
  prof_RegionMultiplier : float64;
  prof_LineMultiplier : float64;
  prof_PeakMultiplier : float64;
  prof_OffPeakMultiplier : float64;
  prof_PricingRuleVersion : string;
  prof_CreatedAt : time;
  prof_UpdatedAt : time
}.
#[export] Instance eta_AccountBillingProfile : Eta AccountBillingProfile := λ x, mkAccountBillingProfile
   (prof_AccountUUID x) (prof_PackageName x) (prof_IncludedQuotaBytes x)
   (prof_BasePricePerByte x) (prof_RegionMultiplier x) (prof_LineMultiplier x)
   (prof_PeakMultiplier x) (prof_OffPeakMultiplier x) (prof_PricingRuleVersion x)
   (prof_CreatedAt x) (prof_UpdatedAt x).

(** [AccountPolicySnapshot] *)
Record AccountPolicySnapshot := mkAccountPolicySnapshot {
  pol_AccountUUID : string;
  pol_PolicyVersion : string;
  pol_AuthState : string;
  pol_RateProfile : string;
  pol_ConnProfile : string;
  pol_EligibleNodeGroups : list string;
  pol_PreferredStrategy : string;
  pol_DegradeMode : string;
  pol_ExpiresAt : time;
  pol_CreatedAt : time;
  pol_UpdatedAt : time
}.
#[export] Instance eta_AccountPolicySnapshot : Eta AccountPolicySnapshot := λ x, mkAccountPolicySnapshot
   (pol_AccountUUID x) (pol_PolicyVersion x) (pol_AuthState x) (pol_RateProfile x)
   (pol_ConnProfile x) (pol_EligibleNodeGroups x) (pol_PreferredStrategy x)
   (pol_DegradeMode x) (pol_ExpiresAt x) (pol_CreatedAt x) (pol_UpdatedAt x).

(** [NodeHealthSnapshot] *)
Record NodeHealthSnapshot := mkNodeHealthSnapshot {
  nhs_NodeID : string;
  nhs_Region : string;
  nhs_LineCode : string;
  nhs_PricingGroup : string;
  nhs_StatsEnabled : bool;
  nhs_XrayRevision : string;
  nhs_Healthy : bool;
  nhs_LatencyMS : Z;
  nhs_ErrorRate : float64;
  nhs_ActiveConnections : Z;
  nhs_HealthScore : float64;
  nhs_SampledAt : time;
  nhs_CreatedAt : time;
  nhs_UpdatedAt : time
}.
#[export] Instance eta_NodeHealthSnapshot : Eta NodeHealthSnapshot := λ x, mkNodeHealthSnapshot
   (nhs_NodeID x) (nhs_Region x) (nhs_LineCode x) (nhs_PricingGroup x)
   (nhs_StatsEnabled x) (nhs_XrayRevision x) (nhs_Healthy x) (nhs_LatencyMS x)
   (nhs_ErrorRate x) (nhs_ActiveConnections x) (nhs_HealthScore x) (nhs_SampledAt x)
   (nhs_CreatedAt x) (nhs_UpdatedAt x).

(** [SchedulerDecision] *)
Record SchedulerDecision := mkSchedulerDecision {
  sdec_ID : string;
  sdec_AccountUUID : string;
  sdec_NodeGroup : string;
  sdec_Strategy : string;
  sdec_Decision : string;
  sdec_GeneratedAt : time;
  sdec_CreatedAt : time
}.
#[export] Instance eta_SchedulerDecision : Eta SchedulerDecision := λ x, mkSchedulerDecision
   (sdec_ID x) (sdec_AccountUUID x) (sdec_NodeGroup x) (sdec_Strategy x)
   (sdec_Decision x) (sdec_GeneratedAt x) (sdec_CreatedAt x).

(** [BillingPlan]: a plan catalog entry. *)
Record BillingPlan := mkBillingPlan {
  plan_PlanID : string;
  plan_StripePriceID : string;
  plan_DisplayName : string;
  plan_Kind : string;
  plan_IncludedQuotaBytes : Z;
  plan_PackageName : string;
  plan_PriceAmount : Z;
  plan_PriceCurrency : string;
  plan_PriceUnit : string;
  plan_PriceMultipliers : gmap string float64;
  plan_Features : gmap string any;
  plan_TrialDays : Z;
  plan_Active : bool;
  plan_SortOrder : Z;
  plan_CreatedAt : time;
  plan_UpdatedAt : time
}.
#[export] Instance eta_BillingPlan : Eta BillingPlan := λ x, mkBillingPlan
   (plan_PlanID x) (plan_StripePriceID x) (plan_DisplayName x) (plan_Kind x)
   (plan_IncludedQuotaBytes x) (plan_PackageName x) (plan_PriceAmount x)
   (plan_PriceCurrency x) (plan_PriceUnit x) (plan_PriceMultipliers x)
   (plan_Features x) (plan_TrialDays x) (plan_Active x) (plan_SortOrder x)
   (plan_CreatedAt x) (plan_UpdatedAt x).

(** [StripeWebhookEvent] *)
Record StripeWebhookEvent := mkStripeWebhookEvent {
  whe_EventID : string;
  whe_EventType : string;
  whe_Payload : RawMessage;
  whe_Status : string;
  whe_LastError : string;
  whe_ReceivedAt : time;
  whe_ProcessedAt : option time
}.
#[export] Instance eta_StripeWebhookEvent : Eta StripeWebhookEvent := λ x, mkStripeWebhookEvent
   (whe_EventID x) (whe_EventType x) (whe_Payload x) (whe_Status x) (whe_LastError x)
   (whe_ReceivedAt x) (whe_ProcessedAt x).

(** [BillingEvent] *)
Record BillingEvent := mkBillingEvent {
  bev_Type : string;
  bev_UserID : string;
  bev_PlanID : string;
  bev_PriceID : string;
  bev_ExternalID : string;
  bev_OccurredAt : time
}.
#[export] Instance eta_BillingEvent : Eta BillingEvent := λ x, mkBillingEvent
   (bev_Type x) (bev_UserID x) (bev_PlanID x) (bev_PriceID x) (bev_ExternalID x)
   (bev_OccurredAt x).

(** [AdminPlanGroupChange]: one compare-and-set change of an admin batch. *)
Record AdminPlanGroupChange := mkAdminPlanGroupChange {
  apc_SubscriptionRecord : option SubscriptionRecord;
  apc_ExpectedRecordUpdatedAt : option time;
  apc_UserID : string;
  apc_PlanID : string;
  apc_SetEntitlement : bool;
  apc_ExpectedGroups : list string;
  apc_Groups : list string;
  apc_ExpectedValidFrom : option time;
  apc_ExpectedValidUntil : option time;
  apc_SetValidFrom : bool;
  apc_ValidFrom : option time;
  apc_SetValidUntil : bool;
  apc_ValidUntil : option time;
  apc_PackageName : string;
  apc_IncludedQuotaBytes : Z;
  apc_RegionMultiplier : float64;
  apc_LineMultiplier : float64;
  apc_PeakMultiplier : float64;
  apc_OffPeakMultiplier : float64;
  apc_PricingRuleVersion : string;
  apc_ExpectedProfileIncludedQuota : Z;
  apc_ExpectedQuotaRemaining : Z;
  apc_ExpectedUsageBytes : Z;
  apc_ExpectedPeriodStart : option time;
  apc_ExpectedPeriodEnd : option time;
  apc_ExpectedProfileUpdatedAt : option time;
  apc_ExpectedQuotaUpdatedAt : option time;
  apc_ProfileExisted : bool;
  apc_QuotaExisted : bool;
  apc_UsedBytesPreserved : Z;
  apc_RemainingAfter : Z
}.
#[export] Instance eta_AdminPlanGroupChange : Eta AdminPlanGroupChange := λ x, mkAdminPlanGroupChange
   (apc_SubscriptionRecord x) (apc_ExpectedRecordUpdatedAt x) (apc_UserID x)
   (apc_PlanID x) (apc_SetEntitlement x) (apc_ExpectedGroups x) (apc_Groups x)
   (apc_ExpectedValidFrom x) (apc_ExpectedValidUntil x) (apc_SetValidFrom x)
   (apc_ValidFrom x) (apc_SetValidUntil x) (apc_ValidUntil x) (apc_PackageName x)
   (apc_IncludedQuotaBytes x) (apc_RegionMultiplier x) (apc_LineMultiplier x)
   (apc_PeakMultiplier x) (apc_OffPeakMultiplier x) (apc_PricingRuleVersion x)
   (apc_ExpectedProfileIncludedQuota x) (apc_ExpectedQuotaRemaining x)
   (apc_ExpectedUsageBytes x) (apc_ExpectedPeriodStart x) (apc_ExpectedPeriodEnd x)
   (apc_ExpectedProfileUpdatedAt x) (apc_ExpectedQuotaUpdatedAt x)
   (apc_ProfileExisted x) (apc_QuotaExisted x) (apc_UsedBytesPreserved x)
   (apc_RemainingAfter x).

(** [AdminPlanGroupBatch] *)
Record AdminPlanGroupBatch := mkAdminPlanGroupBatch {
  apb_ActorUUID : string;
  apb_Reason : string;
  apb_RequestID : string;
  apb_PreviewTokenHash : string;
  apb_ExpectedUserIDs : list string;
  apb_Changes : list AdminPlanGroupChange
}.
#[export] Instance eta_AdminPlanGroupBatch : Eta AdminPlanGroupBatch := λ x, mkAdminPlanGroupBatch
   (apb_ActorUUID x) (apb_Reason x) (apb_RequestID x) (apb_PreviewTokenHash x)
   (apb_ExpectedUserIDs x) (apb_Changes x).

(** [AdminPlanGroupPreview] *)
Record AdminPlanGroupPreview := mkAdminPlanGroupPreview {
  app_ActorUUID : string;
  app_Reason : string;
  app_RequestID : string;
  app_TokenHash : string;
  app_ExpiresAt : time;
  app_Changes : list AdminPlanGroupChange
}.
#[export] Instance eta_AdminPlanGroupPreview : Eta AdminPlanGroupPreview := λ x, mkAdminPlanGroupPreview
   (app_ActorUUID x) (app_Reason x) (app_RequestID x) (app_TokenHash x)
   (app_ExpiresAt x) (app_Changes x).

(** ** The overlay inventory *)

(** [OverlayDevice] *)
Record OverlayDevice := mkOverlayDevice {
  ovd_ID : string;
  ovd_UserID : string;
  ovd_NetworkID : string;
  ovd_Name : string;
  ovd_Platform : string;
  ovd_Hostname : string;
  ovd_WireGuardPublicKey : string;
  ovd_WireGuardAddress : string;
  ovd_CreatedAt : time;
  ovd_UpdatedAt : time;
  ovd_LastSeenAt : option time
}.
#[export] Instance eta_OverlayDevice : Eta OverlayDevice := λ x, mkOverlayDevice
   (ovd_ID x) (ovd_UserID x) (ovd_NetworkID x) (ovd_Name x) (ovd_Platform x)
   (ovd_Hostname x) (ovd_WireGuardPublicKey x) (ovd_WireGuardAddress x)
   (ovd_CreatedAt x) (ovd_UpdatedAt x) (ovd_LastSeenAt x).

(** [OverlayNode] *)
Record OverlayNode := mkOverlayNode {
  ovn_ID : string;
  ovn_NetworkID : string;
  ovn_Name : string;
  ovn_Role : string;
  ovn_Region : string;
  ovn_WireGuardPublicKey : string;
  ovn_WireGuardAddress : string;
  ovn_EndpointHost : string;
  ovn_EndpointPort : Z;
  ovn_TransportType : string;
  ovn_TransportSecurity : string;
  ovn_TransportPath : string;
  ovn_TransportMode : string;
  ovn_TransportUUID : string;
  ovn_Healthy : bool;
  ovn_CreatedAt : time;
  ovn_UpdatedAt : time;
  ovn_LastHeartbeat : option time
}.
#[export] Instance eta_OverlayNode : Eta OverlayNode := λ x, mkOverlayNode
   (ovn_ID x) (ovn_NetworkID x) (ovn_Name x) (ovn_Role x) (ovn_Region x)
   (ovn_WireGuardPublicKey x) (ovn_WireGuardAddress x) (ovn_EndpointHost x)
   (ovn_EndpointPort x) (ovn_TransportType x) (ovn_TransportSecurity x)
   (ovn_TransportPath x) (ovn_TransportMode x) (ovn_TransportUUID x) (ovn_Healthy x)
   (ovn_CreatedAt x) (ovn_UpdatedAt x) (ovn_LastHeartbeat x).

(** [OverlayConfigAck] *)
Record OverlayConfigAck := mkOverlayConfigAck {
  ova_DeviceID : string;
  ova_UserID : string;
  ova_NetworkID : string;
  ova_Revision : string;
  ova_Digest : string;
  ova_AppliedAt : time;
  ova_ReceivedAt : time
}.
#[export] Instance eta_OverlayConfigAck : Eta OverlayConfigAck := λ x,
   mkOverlayConfigAck (ova_DeviceID x) (ova_UserID x) (ova_NetworkID x)
   (ova_Revision x) (ova_Digest x) (ova_AppliedAt x) (ova_ReceivedAt x).

(** ** The in-memory store

    The fields of [memoryStore] that the modelled operations use, under the
    names of the source, and the heap of [User] objects its indexes point to. *)

Abbreviation loc := positive (only parsing).

(** [memoryStore] *)
Record memoryStore := mkmemoryStore {
  users : gmap positive User;
  allowSuperAdminCounting : bool;
  byID : gmap string positive;
  byEmail : gmap string positive;
  byName : gmap string positive;
  subscriptions : gmap string (gmap string Subscription);
  subscriptionRecords : gmap string SubscriptionRecord;
  identities : gmap string Identity;
  agents : gmap string Agent;
  sessions : gmap string sessionRecord;
  passwordRecovery : gmap string PasswordRecoveryChallenge;
  mfaResetRequests : gmap string MFAResetRequest;
  mfaRecoveryCodes : gmap string MFARecoveryCode;
  oauthExchangeCodes : gmap string oauthExchangeRecord;
  trafficStatCheckpoints : gmap string TrafficStatCheckpoint;
  trafficMinuteBuckets : gmap string TrafficMinuteBucket;
  billingLedgerEntries : gmap string BillingLedgerEntry;
  auditLogs : list AuditLog;
  adminPlanGroupPreviews : gmap string AdminPlanGroupPreview;
  adminPlanGroupConsumed : gmap string string;
  accountQuotaStates : gmap string AccountQuotaState;
  accountBillingProfiles : gmap string AccountBillingProfile;
  accountPolicySnapshots : gmap string AccountPolicySnapshot;
  nodeHealthSnapshots : gmap string NodeHealthSnapshot;
  schedulerDecisions : gmap string SchedulerDecision;
  blacklistedEmails : gmap string bool;
  billingPlans : gmap string BillingPlan;
  stripeWebhookEvents : gmap string StripeWebhookEvent;
  billingEvents : list BillingEvent;
  financeInvoices : gmap string FinanceInvoice;
  financeInvoiceKeys : gmap string string;
  financePayments : gmap string FinancePayment;
  subscriptionLifecycles : gmap string SubscriptionLifecycle;
  referralInvoiceProofs : gmap string ReferralInvoiceVerification;
  referralCampaigns : list ReferralCampaign;
  referralRewardCampaigns : gmap string ReferralCampaign;
  referralCodes : gmap string ReferralCode;
  referralCodesByValue : gmap string string;
  referralsByInvitee : gmap string ReferralAttribution;
  referralRewards : gmap string ReferralReward;
  referralRewardByInvoice : gmap string string;
  referralRisks : gmap string ReferralPaymentRisk;
  referralSettlements : gmap string ReferralSettlement;
  referralExtensions : gmap string SubscriptionExtension;
  financePaymentKeys : gmap string string;
  financeRefunds : gmap string FinanceRefund;
  financeRefundKeys : gmap string string;
  financeOperations : gmap string FinanceOperation;
  financeOperationKeys : gmap string string;
  financeOperationEvents : gmap string (list FinanceOperationEvent);
  teamAgentEnrollments : gmap string TeamAgentEnrollment;
  networkTeams : gmap string NetworkTeam;
  networkMembers : gmap string NetworkMembership;
  overlayDevices : gmap string OverlayDevice;
  overlayNodes : gmap string OverlayNode;
  overlayConfigAcks : gmap string OverlayConfigAck
}.
#[export] Instance eta_memoryStore : Eta memoryStore := λ x, mkmemoryStore (users x)
   (allowSuperAdminCounting x) (byID x) (byEmail x) (byName x) (subscriptions x)
   (subscriptionRecords x) (identities x) (agents x) (sessions x) (passwordRecovery x)
   (mfaResetRequests x) (mfaRecoveryCodes x) (oauthExchangeCodes x)
   (trafficStatCheckpoints x) (trafficMinuteBuckets x) (billingLedgerEntries x)
   (auditLogs x) (adminPlanGroupPreviews x) (adminPlanGroupConsumed x)
   (accountQuotaStates x) (accountBillingProfiles x) (accountPolicySnapshots x)
   (nodeHealthSnapshots x) (schedulerDecisions x) (blacklistedEmails x)
   (billingPlans x) (stripeWebhookEvents x) (billingEvents x) (financeInvoices x)
   (financeInvoiceKeys x) (financePayments x) (subscriptionLifecycles x)
   (referralInvoiceProofs x) (referralCampaigns x) (referralRewardCampaigns x)
   (referralCodes x) (referralCodesByValue x) (referralsByInvitee x)
   (referralRewards x) (referralRewardByInvoice x) (referralRisks x)
   (referralSettlements x) (referralExtensions x) (financePaymentKeys x)
   (financeRefunds x) (financeRefundKeys x) (financeOperations x)
   (financeOperationKeys x) (financeOperationEvents x)
   (teamAgentEnrollments x) (networkTeams x) (networkMembers x) (overlayDevices x)
   (overlayNodes x) (overlayConfigAcks x).

(** The campaign every fresh store starts with: 13 October 2026 00:00 to
    1 January 2027 00:00, Asia/Shanghai, effective from the Unix epoch.
    Instants are in nanoseconds since year 1; the epoch is second
    62135596800. *)
Definition unix (seconds : Z) : time := (seconds + 62135596800) * Second.

Definition defaultReferralCampaign : ReferralCampaign := {|
  camp_Revision := 1; camp_Enabled := true;
  camp_StartsAt := Some (unix 1791820800); camp_EndsAt := Some (unix 1798732800);
  camp_EffectiveAt := unix 0; camp_ActorUUID := EmptyString;
  camp_Reason := "initial XConnect campaign defaults"
|}.

Definition newMemoryStore (allow : bool) : memoryStore := {|
  users := ∅; allowSuperAdminCounting := allow;
  byID := ∅; byEmail := ∅; byName := ∅; subscriptions := ∅;
  subscriptionRecords := ∅; identities := ∅; agents := ∅; sessions := ∅;
  passwordRecovery := ∅; mfaResetRequests := ∅; mfaRecoveryCodes := ∅;
  oauthExchangeCodes := ∅; trafficStatCheckpoints := ∅;
  trafficMinuteBuckets := ∅; billingLedgerEntries := ∅; auditLogs := [];
  adminPlanGroupPreviews := ∅; adminPlanGroupConsumed := ∅;
  accountQuotaStates := ∅; accountBillingProfiles := ∅;
  accountPolicySnapshots := ∅; nodeHealthSnapshots := ∅;
  schedulerDecisions := ∅; blacklistedEmails := ∅; billingPlans := ∅;
  stripeWebhookEvents := ∅; billingEvents := []; financeInvoices := ∅;
  financeInvoiceKeys := ∅; financePayments := ∅; subscriptionLifecycles := ∅;
  referralInvoiceProofs := ∅; referralCampaigns := [defaultReferralCampaign];
  referralRewardCampaigns := ∅; referralCodes := ∅; referralCodesByValue := ∅;
  referralsByInvitee := ∅; referralRewards := ∅; referralRewardByInvoice := ∅;
  referralRisks := ∅; referralSettlements := ∅; referralExtensions := ∅;
  financePaymentKeys := ∅; financeRefunds := ∅; financeRefundKeys := ∅;
  financeOperations := ∅; financeOperationKeys := ∅;
  financeOperationEvents := ∅; teamAgentEnrollments := ∅; networkTeams := ∅;
  networkMembers := ∅; overlayDevices := ∅; overlayNodes := ∅;
  overlayConfigAcks := ∅
|}.

(** Reading an account through an index. *)
Definition user_at (s : memoryStore) (index : gmap string positive)
    (k : string) : option User :=
  index !! k ≫= λ l, users s !! l.

Definition user_by_id (s : memoryStore) (id : string) : option User :=
  user_at s (byID s) id.

(** [user.F = v] through a pointer held by [byID]: the object changes for
    every index that points to it. *)
Definition update_user (s : memoryStore) (id : string) (f : User → User) : memoryStore :=
  match byID s !! id with
  | Some l => s <| users := alter f l (users s) |>
  | None => s
  end.
