(* ===== verification/Users.v ===== *)
(** * Accounts: roles, groups and the user indexes

    [internal/store/store.go] (users, roles, blacklist, agents, identities),
    [account_access.go] and the group helpers of [agent_free_grants.go].
    The clock ([now]) and the generated identifiers ([uuid.NewString],
    [uuid.NewV7]) are arguments of the operations that read them; one
    operation sees one instant. *)

From S2P Require Import Prelude GoLib Json StoreData.
Open Scope Z_scope.
Open Scope bool_scope.
Open Scope go_scope.

(** ** Group lists *)

(** [normalizeStringSlice]: trim, drop empty entries, keep the first of every
    duplicate. *)
Fixpoint normalize_from (seen : list string) (l : list string) : list string :=
  match l with
  | [] => []
  | v :: l' =>
      let trimmed := TrimSpace v in
      if trimmed == "" then normalize_from seen l'
      else if contains seen trimmed then normalize_from seen l'
      else trimmed :: normalize_from (trimmed :: seen) l'
  end.
Definition normalizeStringSlice (l : list string) : list string :=
  normalize_from [] l.

Definition AgentFreeGrantGroupPrefix : string := "agent:free-grant:".

Definition is_free_grant (g : string) : bool :=
  HasPrefix (TrimSpace g) AgentFreeGrantGroupPrefix.

Definition WithoutAgentFreeGrantGroups (groups : list string) : list string :=
  filter (λ g, is_free_grant g = false) groups.

Definition PreserveAgentFreeGrantGroups (existing requested : list string) : list string :=
  filter (λ g, is_free_grant g = false) requested ++
  (TrimSpace <$> filter (λ g, is_free_grant g = true) existing).

Definition EmailOptionalRegistrationGroup : string :=
  "account:registration:email-optional".

Definition PreserveRegistrationGroups (existing requested : list string) : list string :=
  let result :=
    filter (λ g, g ≠ EmailOptionalRegistrationGroup) requested ++
    (if contains existing EmailOptionalRegistrationGroup
     then [EmailOptionalRegistrationGroup] else []) in
  PreserveAgentFreeGrantGroups existing result.

Definition AccountAccessVerified (u : User) : bool :=
  if user_EmailVerified u then true
  else contains (user_Groups u) EmailOptionalRegistrationGroup.

(** ** Quota groups *)

Definition MonthlyFreeQuotaLimitGroup : string := "segment:quota:free-3gb".
Definition MonthlyPlusQuotaLimitGroup : string := "segment:quota:plus-20gb".
Definition MonthlyUnlimitedBetaQuotaGroup : string := "segment:quota:unlimited-beta".
Definition SubscriptionUnlimitedOverrideGroup : string := "segment:subscription:unlimited".
Definition SubscriptionListedGroup : string := "segment:subscription:listed".

Definition monthlyQuotaGroups : list string :=
  [MonthlyUnlimitedBetaQuotaGroup; MonthlyPlusQuotaLimitGroup;
   MonthlyFreeQuotaLimitGroup].

Fixpoint quota_group_of (groups : list string) : string :=
  match groups with
  | [] => ""
  | g :: groups' =>
      match List.find (λ known, TrimSpace g == known) monthlyQuotaGroups with
      | Some known => known
      | None => quota_group_of groups'
      end
  end.
Definition MonthlyQuotaGroup (u : User) : string := quota_group_of (user_Groups u).

Definition IsMonthlyFreeQuotaLimitMember (u : User) : bool :=
  MonthlyQuotaGroup u == MonthlyFreeQuotaLimitGroup.

(** [time.Date(y, m, d+1, 0, 0, 0, 0, UTC)]: the midnight after an instant. *)
Definition next_midnight (t : time) : time := (t / (24 * Hour) + 1) * (24 * Hour).

Definition HasSubscriptionUnlimitedOverride (u : User) (now : time) : bool :=
  if negb (user_Active u) || (user_ArchivedAt u != None) then false else
  if match user_SubscriptionValidFrom u with
     | Some from => Before now from | None => false end then false else
  if match user_SubscriptionValidUntil u with
     | Some until => negb (Before now (next_midnight until))
     | None => false end then false else
  contains (user_Groups u) SubscriptionListedGroup &&
  contains (user_Groups u) SubscriptionUnlimitedOverrideGroup &&
  existsb (contains (user_Groups u))
    ["segment:monthly"; "segment:yearly"; "segment:subscription:monthly";
     "segment:subscription:yearly"] &&
  (MonthlyQuotaGroup u == MonthlyPlusQuotaLimitGroup).

Definition IsMonthlyQuotaLimitMember (u : User) (now : time) : bool :=
  if HasSubscriptionUnlimitedOverride u now then false else
  let group := MonthlyQuotaGroup u in
  (group == MonthlyFreeQuotaLimitGroup) || (group == MonthlyPlusQuotaLimitGroup).

(** ** Roles *)

Definition LevelAdmin : Z := 0.
Definition LevelOperator : Z := 10.
Definition LevelUser : Z := 20.
Definition RoleRoot : string := "root".
Definition RoleAdmin : string := "admin".
Definition RoleOperator : string := "operator".
Definition RoleUser : string := "user".
Definition RoleReadOnly : string := "readonly".

Definition roleToLevel (role : string) : option Z :=
  if role == RoleRoot then Some LevelAdmin
  else if role == RoleAdmin then Some LevelAdmin
  else if role == RoleOperator then Some LevelOperator
  else if role == RoleUser then Some LevelUser
  else if role == RoleReadOnly then Some LevelUser
  else None.

Definition levelToRole (level : Z) : option string :=
  if level =? LevelAdmin then Some RoleRoot
  else if level =? LevelOperator then Some RoleOperator
  else if level =? LevelUser then Some RoleUser
  else None.

Definition IsRootRole (role : string) : bool := ToLower (TrimSpace role) == RoleRoot.
Definition IsAdminRole (role : string) : bool :=
  (ToLower (TrimSpace role) == RoleRoot) || (ToLower (TrimSpace role) == RoleAdmin).
Definition IsOperatorRole (role : string) : bool :=
  ToLower (TrimSpace role) == RoleOperator.

Definition normalizeUserRoleFields (u : User) : User :=
  let normalizedRole := ToLower (TrimSpace (user_Role u)) in
  let u1 :=
    match roleToLevel normalizedRole with
    | Some level => u <| user_Role := normalizedRole |> <| user_Level := level |>
    | None =>
        match levelToRole (user_Level u) with
        | Some role => u <| user_Role := role |>
        | None => u <| user_Role := RoleUser |> <| user_Level := LevelUser |>
        end
    end in
  u1 <| user_Groups := normalizeStringSlice (user_Groups u) |>
     <| user_Permissions := normalizeStringSlice (user_Permissions u) |>.

Definition isSuperAdmin (u : User) : bool :=
  if negb (IsAdminRole (user_Role u)) && negb (user_Level u =? LevelAdmin) then false
  else if negb (existsb (λ p, TrimSpace p == "*") (user_Permissions u)) then false
  else existsb (λ g, EqualFold (TrimSpace g) "Admin") (user_Groups u).

(** Copies handed out by the store; [cloneUser] and [assignUser] both
    normalise the copy. *)
Definition cloneUser (u : User) : User := normalizeUserRoleFields u.
Definition assignUser (src : User) : User := normalizeUserRoleFields src.
Arguments normalizeUserRoleFields : simpl never.
Arguments cloneUser : simpl never.
Arguments assignUser : simpl never.

(** ** Creating and reading accounts *)

(** A fresh heap object. *)
Definition alloc_user (s : memoryStore) (u : User) : positive * memoryStore :=
  let l := fresh (dom (users s)) in
  (l, s <| users := <[l := u]> (users s) |>).

(** The record [CreateUser] stores: a copy of the caller's with its ID, its
    time stamps and its normalised keys, active. *)
Definition stampUserTimes (now : time) (userCopy : User) : User :=
  let userCopy :=
    if IsZero (user_CreatedAt userCopy) then
      let c := userCopy <| user_CreatedAt := now |> in
      if IsZero (user_UpdatedAt c) then c <| user_UpdatedAt := now |> else c
    else userCopy in
  if IsZero (user_UpdatedAt userCopy) then userCopy <| user_UpdatedAt := now |> else userCopy.

Definition newUserRecord (newID : string) (now : time) (user : User)
    (loweredEmail normalizedName : string) : User :=
  let userCopy := if user_ID user == "" then user <| user_ID := newID |> else user in
  let userCopy := stampUserTimes now userCopy in
  let userCopy := userCopy <| user_Email := loweredEmail |> <| user_Name := normalizedName |> in
  let stored := normalizeUserRoleFields userCopy in
  stored <| user_Active := true |>.

(** An account without a proxy credential gets a fresh one. *)
Definition ensureProxyUUID (newV7 : result error string) (missing : bool) (u : User)
    : result error User :=
  if missing then let? credentialID := newV7 in Ok (u <| user_ProxyUUID := credentialID |>)
  else Ok u.

(** [CreateUser] returns the error, the caller's [*User] after the call and
    the store.  [newID] is [uuid.NewString()], [newV7] is [uuid.NewV7()]. *)
Definition CreateUser (newID : string) (newV7 : result error string) (now : time)
    (user : User) (s : memoryStore) : result error unit * User * memoryStore :=
  let loweredEmail := ToLower (TrimSpace (user_Email user)) in
  let normalizedName := TrimSpace (user_Name user) in
  if normalizedName == "" then (Err ErrInvalidName, user, s) else
  let user := normalizeUserRoleFields user in
  if bool_decide (is_Some (byEmail s !! loweredEmail)) then (Err ErrEmailExists, user, s) else
  if bool_decide (is_Some (byName s !! ToLower normalizedName)) then (Err ErrNameExists, user, s) else
  let stored := newUserRecord newID now user loweredEmail normalizedName in
  match ensureProxyUUID newV7 (TrimSpace (user_ProxyUUID stored) == "") stored with
  | Err e => (Err e, user, s)
  | Ok stored =>
      let '(l, s) := alloc_user s stored in
      let s := s <| byID := <[user_ID stored := l]> (byID s) |> in
      let s := if loweredEmail == "" then s
               else s <| byEmail := <[loweredEmail := l]> (byEmail s) |> in
      let s := s <| byName := <[ToLower normalizedName := l]> (byName s) |> in
      (Ok tt, assignUser stored, s)
  end.

Definition found (u : option User) : result error User :=
  match u with Some u => Ok (cloneUser u) | None => Err ErrUserNotFound end.

Definition GetUserByEmail (s : memoryStore) (email : string) : result error User :=
  found (user_at s (byEmail s) (ToLower email)).

Definition GetUserByID (s : memoryStore) (id : string) : result error User :=
  found (user_at s (byID s) id).

Definition GetUserByName (s : memoryStore) (name : string) : result error User :=
  let normalized := ToLower (TrimSpace name) in
  if normalized == "" then Err ErrUserNotFound
  else found (user_at s (byName s) normalized).

(** The fields [UpdateUser] takes from the caller; the credential is settled
    by [ensureProxyUUID] and the rest by [finishUpdate]. *)
Definition mergeUserUpdate (existing user : User) (normalizedName loweredEmail : string) : User :=
  existing
    <| user_Name := normalizedName |>
    <| user_Email := loweredEmail |>
    <| user_EmailVerified := user_EmailVerified user |>
    <| user_PasswordHash := user_PasswordHash user |>
    <| user_MFATOTPSecret := user_MFATOTPSecret user |>
    <| user_MFAEnabled := user_MFAEnabled user |>
    <| user_MFASecretIssuedAt := user_MFASecretIssuedAt user |>
    <| user_MFAConfirmedAt := user_MFAConfirmedAt user |>
    <| user_Level := user_Level user |>
    <| user_Role := user_Role user |>
    <| user_Groups := PreserveAgentFreeGrantGroups (user_Groups existing) (user_Groups user) |>
    <| user_Permissions := user_Permissions user |>
    <| user_Active := user_Active user |>
    <| user_ProxyUUID := TrimSpace (user_ProxyUUID user) |>.

Definition finishUpdate (now : time) (existing user updated : User) : User :=
  let updated := updated
    <| user_ProxyUUIDExpiresAt := user_ProxyUUIDExpiresAt user |>
    <| user_SubscriptionValidFrom := user_SubscriptionValidFrom user |>
    <| user_SubscriptionValidUntil := user_SubscriptionValidUntil user |>
    <| user_LastActiveAt := user_LastActiveAt user |>
    <| user_ArchivedAt := user_ArchivedAt user |> in
  let updated := normalizeUserRoleFields updated in
  updated
    <| user_CreatedAt := if IsZero (user_CreatedAt user) then user_CreatedAt existing
                         else user_CreatedAt user |>
    <| user_UpdatedAt := if IsZero (user_UpdatedAt user) then now else user_UpdatedAt user |>.

(** [UpdateUser] replaces the object behind the indexes.  The name index is
    edited before the email is checked, as in the source. *)
Definition UpdateUser (newV7 : result error string) (now : time)
    (user : User) (s : memoryStore) : result error unit * User * memoryStore :=
  match user_by_id s (user_ID user) with
  | None => (Err ErrUserNotFound, user, s)
  | Some existing =>
      let normalizedName := TrimSpace (user_Name user) in
      let loweredEmail := ToLower (TrimSpace (user_Email user)) in
      if normalizedName == "" then (Err ErrInvalidName, user, s) else
      let oldNameKey := ToLower (user_Name existing) in
      let newNameKey := ToLower normalizedName in
      if (oldNameKey != newNameKey) && bool_decide (is_Some (byName s !! newNameKey))
      then (Err ErrNameExists, user, s) else
      let s := if oldNameKey != newNameKey
               then s <| byName := delete oldNameKey (byName s) |> else s in
      let oldEmailKey := ToLower (user_Email existing) in
      if (oldEmailKey != loweredEmail) && (loweredEmail != "") &&
         bool_decide (is_Some (byEmail s !! loweredEmail))
      then (Err ErrEmailExists, user, s) else
      let s := if (oldEmailKey != loweredEmail) && (oldEmailKey != "")
               then s <| byEmail := delete oldEmailKey (byEmail s) |> else s in
      let updated := mergeUserUpdate existing user normalizedName loweredEmail in
      match ensureProxyUUID newV7 (user_ProxyUUID updated == "") updated with
      | Err e => (Err e, user, s)
      | Ok updated =>
          let updated := finishUpdate now existing user updated in
          let '(l, s) := alloc_user s updated in
          let s := s <| byID := <[user_ID user := l]> (byID s) |> in
          let s := s <| byName := <[newNameKey := l]> (byName s) |> in
          let s := if loweredEmail == "" then s
                   else s <| byEmail := <[loweredEmail := l]> (byEmail s) |> in
          (Ok tt, assignUser updated, s)
      end
  end.

(** ** Listing accounts *)

Definition heap_user (s : memoryStore) (l : positive) : list User :=
  option_list (users s !! l).

Definition ListUsers `{MapOrder} (s : memoryStore) : list User :=
  sort_slice (λ a b, Before (user_CreatedAt a) (user_CreatedAt b))
    (cloneUser <$> ((range (byID s)).*2 ≫= heap_user s)).

Definition MaxUserListPageSize : Z := 500.

(** The identifiers of one page: those after the cursor, in order. *)
Definition page_ids (s : memoryStore) (afterID : string) (limit : Z) : list string :=
  let ids := sort_strings
    (filter (λ id, string_lt afterID id = true) (map_to_list (byID s)).*1) in
  if limit <? Z.of_nat (length ids) then take (Z.to_nat limit) ids else ids.

Definition ListUsersPage (s : memoryStore) (afterID : string) (limit : Z)
    : result error (list User) :=
  if (limit <=? 0) || (MaxUserListPageSize <? limit)
  then Err (ErrMsg "user page limit is out of range")
  else Ok (cloneUser <$> (page_ids s afterID limit ≫= λ id, option_list (user_by_id s id))).

Definition CountSuperAdmins (s : memoryStore) : result error Z :=
  if negb (allowSuperAdminCounting s) then Err ErrSuperAdminCountingDisabled
  else Ok (map_count (λ l, match users s !! l with
                           | Some u => isSuperAdmin u | None => false end) (byID s)).

(** ** Archiving and (de)activation, with their audit entries *)

Definition AuditActionUserArchive : string := "account.user.archive".

Definition validateUserArchiveAudit (userID : string) (audit : AuditLog) : option error :=
  if (TrimSpace (audit_Action audit) != AuditActionUserArchive) ||
     (TrimSpace (audit_ActorUUID audit) == "")
  then Some (ErrMsg "a user archive audit entry with an actor is required") else
  let target := any_str (audit_Details audit !! "target_uuid") in
  let reason := any_str (audit_Details audit !! "reason") in
  if (TrimSpace target != TrimSpace userID) || (TrimSpace reason == "")
  then Some (ErrMsg "user archive audit target and reason are required")
  else None.

(** An earlier archive entry for the same account and request. *)
Definition archive_replay (id requestID : string) (e : AuditLog) : bool :=
  (audit_Action e == AuditActionUserArchive) &&
  any_is_str (audit_Details e !! "target_uuid") id &&
  any_is_str (audit_Details e !! "request_id") requestID.

(** Subscriptions that protect an account from being archived. *)
Definition live_subscription (sub : Subscription) : bool :=
  (sub_Status sub == "active") || (sub_Status sub == "trialing") ||
  (sub_Status sub == "past_due").

Definition subs_of (s : memoryStore) (id : string) : gmap string Subscription :=
  default ∅ (subscriptions s !! id).

(** The in-place change of an archived account. *)
Definition archived (now : time) (u : User) : User :=
  u <| user_Active := false |> <| user_ArchivedAt := Some now |> <| user_UpdatedAt := now |>.

(** The entry a successful archive appends. *)
Definition archive_entry (newUUID transitionID : string) (now : time) (requestID : string)
    (audit : AuditLog) : AuditLog :=
  let audit := if TrimSpace (audit_UUID audit) == ""
               then audit <| audit_UUID := newUUID |> else audit in
  let audit := audit <| audit_CreatedAt := now |> in
  let details := audit_Details audit in
  let details := if requestID != "" then <["request_id" := AStr requestID]> details
                 else details in
  audit <| audit_Details :=
    <["occurred_at" := ATime now]> (<["transition_id" := AStr transitionID]> details) |>.

(** [DeleteUser] archives an account.  It returns the error, the caller's
    audit entry after the call, and the store. *)
Definition DeleteUser (newUUID transitionID : string) (now : time) (id : string)
    (audit : AuditLog) (requestID : string) (s : memoryStore)
    : result error unit * AuditLog * memoryStore :=
  match validateUserArchiveAudit id audit with
  | Some e => (Err e, audit, s)
  | None =>
  let requestID := TrimSpace requestID in
  match (if requestID != "" then List.find (archive_replay id requestID) (auditLogs s)
         else None) with
  | Some existing =>
      if (audit_ActorUUID existing != audit_ActorUUID audit) ||
         negb (any_is_str (audit_Details existing !! "reason")
                 (any_str (audit_Details audit !! "reason")))
      then (Err ErrUserArchiveReplayConflict, audit, s)
      else (Ok tt, existing, s)
  | None =>
  match user_by_id s id with
  | None => (Err ErrUserNotFound, audit, s)
  | Some user =>
      if user_ArchivedAt user != None then (Err ErrUserAlreadyArchived, audit, s) else
      if IsAdminRole (user_Role user) || (user_Level user =? LevelAdmin) ||
         (MonthlyQuotaGroup user == MonthlyPlusQuotaLimitGroup) ||
         (MonthlyQuotaGroup user == MonthlyUnlimitedBetaQuotaGroup)
      then (Err ErrUserProtected, audit, s) else
      if map_any live_subscription (subs_of s id) then (Err ErrUserProtected, audit, s) else
      let s := update_user s id (archived now) in
      let audit := archive_entry newUUID transitionID now requestID audit in
      (Ok tt, audit, s <| auditLogs := auditLogs s ++ [audit] |>)
  end end end.

Definition activeStateAudit (newUUID id actor : string) (before active : bool) (now : time) : AuditLog := {|
  audit_UUID := newUUID;
  audit_Action := if active then "account.user.activated" else "account.user.deactivated";
  audit_ActorUUID := actor;
  audit_Details :=
    <["targetAccountUuid" := AStr id]>
    (<["before" := AMap [("active", ABool before)]]>
    (<["after" := AMap [("active", ABool active)]]>
    (<["method" := AStr "administrator"]> ∅)));
  audit_CreatedAt := now
|}.

(** The context of the call is live ([ctx.Err() == nil]). *)
Definition SetUserActiveWithAudit (newUUID : string) (now : time) (id : string)
    (active : bool) (actor : string) (s : memoryStore) : result error unit * memoryStore :=
  if TrimSpace actor == "" then (Err (ErrMsg "administrator actor required"), s) else
  match user_by_id s id with
  | None => (Err ErrUserNotFound, s)
  | Some user =>
      if active && (user_ArchivedAt user != None) then (Err ErrUserAlreadyArchived, s) else
      if Bool.eqb (user_Active user) active then (Ok tt, s) else
      let entry := activeStateAudit newUUID id actor (user_Active user) active now in
      let s := update_user s id (λ u, u <| user_Active := active |>
                 <| user_UpdatedAt := audit_CreatedAt entry |>) in
      (Ok tt, s <| auditLogs := auditLogs s ++ [entry] |>)
  end.

(** ** Identities, blacklist, agents *)

Definition CreateIdentity (newID : string) (now : time) (identity : Identity)
    (s : memoryStore) : result error unit * Identity * memoryStore :=
  let identity := if ident_ID identity == "" then identity <| ident_ID := newID |> else identity in
  let identity := if IsZero (ident_CreatedAt identity)
                  then identity <| ident_CreatedAt := now |> else identity in
  let identity := if IsZero (ident_UpdatedAt identity)
                  then identity <| ident_UpdatedAt := now |> else identity in
  let key := ident_Provider identity +:+ ":" +:+ ident_ExternalID identity in
  if bool_decide (is_Some (identities s !! key))
  then (Err (ErrMsg "identity already exists"), identity, s)
  else (Ok tt, identity, s <| identities := <[key := identity]> (identities s) |>).

Definition AddToBlacklist (email : string) (s : memoryStore) : memoryStore :=
  s <| blacklistedEmails := <[ToLower email := true]> (blacklistedEmails s) |>.
Definition RemoveFromBlacklist (email : string) (s : memoryStore) : memoryStore :=
  s <| blacklistedEmails := delete (ToLower email) (blacklistedEmails s) |>.
Definition IsBlacklisted (s : memoryStore) (email : string) : bool :=
  default false (blacklistedEmails s !! ToLower email).
Definition ListBlacklist `{MapOrder} (s : memoryStore) : list string :=
  (range (blacklistedEmails s)).*1.

Definition newAgent (id : string) (now : time) : Agent := {|
  agent_ID := id; agent_Name := ""; agent_Groups := []; agent_Healthy := false;
  agent_LastHeartbeat := None; agent_ClientsCount := 0; agent_SyncRevision := "";
  agent_CreatedAt := now; agent_UpdatedAt := 0
|}.

Definition UpsertAgent (now : time) (agent : Agent) (s : memoryStore) : Agent * memoryStore :=
  let existing := default (newAgent (agent_ID agent) now) (agents s !! agent_ID agent) in
  let existing := existing
    <| agent_Name := agent_Name agent |>
    <| agent_Groups := agent_Groups agent |>
    <| agent_Healthy := agent_Healthy agent |>
    <| agent_LastHeartbeat := agent_LastHeartbeat agent |>
    <| agent_ClientsCount := agent_ClientsCount agent |>
    <| agent_SyncRevision := agent_SyncRevision agent |>
    <| agent_UpdatedAt := now |> in
  (existing, s <| agents := <[agent_ID agent := existing]> (agents s) |>).

Definition GetAgent (s : memoryStore) (id : string) : result error Agent :=
  match agents s !! id with Some a => Ok a | None => Err (ErrMsg "agent not found") end.

Definition ListAgents `{MapOrder} (s : memoryStore) : list Agent :=
  sort_slice (λ a b, string_lt (agent_ID a) (agent_ID b)) (range (agents s)).*2.

Definition DeleteAgent (id : string) (s : memoryStore) : memoryStore :=
  s <| agents := delete id (agents s) |>.

Definition stale_agent (cutoff : time) (a : Agent) : bool :=
  match agent_LastHeartbeat a with None => true | Some t => Before t cutoff end.

Definition DeleteStaleAgents (now : time) (staleThreshold : duration) (s : memoryStore)
    : Z * memoryStore :=
  let cutoff := Add now (- staleThreshold) in
  (map_count (stale_agent cutoff) (agents s),
   s <| agents := filter (λ ka, stale_agent cutoff ka.2 = false) (agents s) |>).

(** ** Well-formed indexes

    The three indexes describe the same accounts: an identifier, a lower-case
    name or a lower-case email leads to the object that carries it. *)

Record index_ok (s : memoryStore) : Prop := {
  ix_id : ∀ k l, byID s !! k = Some l → ∃ u,
    users s !! l = Some u ∧ user_ID u = k ∧
    byName s !! ToLower (user_Name u) = Some l ∧
    (user_Email u ≠ "" → byEmail s !! ToLower (user_Email u) = Some l);
  ix_name : ∀ k l, byName s !! k = Some l → ∃ u,
    users s !! l = Some u ∧ k = ToLower (user_Name u) ∧
    byID s !! user_ID u = Some l;
  ix_email : ∀ k l, byEmail s !! k = Some l → ∃ u,
    users s !! l = Some u ∧ k = ToLower (user_Email u) ∧ k ≠ "" ∧
    byID s !! user_ID u = Some l
}.

(** Only the heap and the indexes matter. *)
Lemma index_ok_ext s s' :
  users s' = users s → byID s' = byID s → byName s' = byName s →
  byEmail s' = byEmail s → index_ok s → index_ok s'.
Proof.
  intros Eu Ei En Ee [Hi Hn He]. constructor; rewrite ?Eu, ?Ei, ?En, ?Ee; done.
Qed.

Lemma index_ok_new b : index_ok (newMemoryStore b).
Proof. constructor; intros k l H; cbn in H; by rewrite lookup_empty in H. Qed.

(** Entering and removing an account in the three indexes. *)
Definition link (l : positive) (u : User) (s : memoryStore) : memoryStore :=
  let s := s <| users := <[l := u]> (users s) |> in
  let s := s <| byID := <[user_ID u := l]> (byID s) |> in
  let s := s <| byName := <[ToLower (user_Name u) := l]> (byName s) |> in
  if user_Email u == "" then s
  else s <| byEmail := <[ToLower (user_Email u) := l]> (byEmail s) |>.

Definition unlink (u : User) (s : memoryStore) : memoryStore :=
  s <| byID := delete (user_ID u) (byID s) |>
    <| byName := delete (ToLower (user_Name u)) (byName s) |>
    <| byEmail := delete (ToLower (user_Email u)) (byEmail s) |>.

Lemma link_byEmail l u s :
  byEmail (link l u s) =
    if user_Email u == "" then byEmail s else <[ToLower (user_Email u) := l]> (byEmail s).
Proof. unfold link. by destruct (user_Email u == ""). Qed.

Lemma link_fields l u s :
  users (link l u s) = <[l := u]> (users s) ∧
  byID (link l u s) = <[user_ID u := l]> (byID s) ∧
  byName (link l u s) = <[ToLower (user_Name u) := l]> (byName s).
Proof. unfold link. by destruct (user_Email u == ""). Qed.

Lemma index_ok_link l u s :
  index_ok s → users s !! l = None → byID s !! user_ID u = None →
  byName s !! ToLower (user_Name u) = None →
  (user_Email u ≠ "" → byEmail s !! ToLower (user_Email u) = None) →
  index_ok (link l u s).
Proof.
  intros [Hi Hn He] Hl Fi Fn Fe.
  destruct (link_fields l u s) as (Eu & Ei & En). pose proof (link_byEmail l u s) as Em.
  constructor; rewrite Eu, Ei, ?En, ?Em.
  - intros k l' [[<- <-]|[Hne H]]%lookup_insert_Some.
    + exists u. simplify_map_eq. split_and!; try done.
      intros Hu. rewrite bool_decide_false by done. by simplify_map_eq.
    + destruct (Hi _ _ H) as (v & Hv & <- & Hvn & Hve). exists v.
      rewrite !lookup_insert_ne by congruence. split_and!; try done.
      intros Hu. specialize (Hve Hu). destruct (user_Email u == "") eqn:E; [done|].
      bools. rewrite lookup_insert_ne; [done|]. intros Heq.
      rewrite <-Heq, (Fe E) in Hve. done.
  - intros k l' [[<- <-]|[Hne H]]%lookup_insert_Some.
    + exists u. by simplify_map_eq.
    + destruct (Hn _ _ H) as (v & Hv & -> & Hvi). exists v.
      rewrite !lookup_insert_ne by congruence. done.
  - intros k l' H.
    assert (k = ToLower (user_Email u) ∧ l' = l ∧ user_Email u ≠ "" ∨
            byEmail s !! k = Some l') as [(-> & -> & Hu)|H'].
    { destruct (user_Email u == "") eqn:E; [by right|]. bools.
      apply lookup_insert_Some in H as [[<- <-]|[_ H]]; auto. }
    + exists u. simplify_map_eq. split_and!; try done. by rewrite ToLower_empty.
    + destruct (He _ _ H') as (v & Hv & -> & Hk & Hvi). exists v.
      rewrite !lookup_insert_ne by congruence. done.
Qed.

Lemma index_ok_unlink l u s :
  index_ok s → byID s !! user_ID u = Some l → users s !! l = Some u →
  index_ok (unlink u s).
Proof.
  intros [Hi Hn He] Hl Hu. unfold unlink. constructor; getset.
  - intros k l' [Hne H]%lookup_delete_Some.
    destruct (Hi _ _ H) as (v & Hv & <- & Hvn & Hve). exists v.
    assert (l' ≠ l) by (intros ->; congruence).
    split_and!; [done|done| |].
    + rewrite lookup_delete_ne; [done|]. intros Heq. rewrite <-Heq in Hvn.
      destruct (Hi _ _ Hl) as (w & Hw & _ & Hwn & _). congruence.
    + intros Hne'. specialize (Hve Hne'). rewrite lookup_delete_ne; [done|].
      intros Heq. rewrite <-Heq in Hve.
      destruct (Hi _ _ Hl) as (w & Hw & _ & _ & Hwe). simplify_eq.
      destruct (decide (user_Email u = "")) as [E|E].
      * rewrite E in Heq. by destruct (user_Email v).
      * specialize (Hwe E). congruence.
  - intros k l' [Hne H]%lookup_delete_Some.
    destruct (Hn _ _ H) as (v & Hv & -> & Hvi). exists v.
    split_and!; [done|done|]. rewrite lookup_delete_ne; [done|].
    intros Heq. rewrite <-Heq in Hvi. simplify_eq.
  - intros k l' [Hne H]%lookup_delete_Some.
    destruct (He _ _ H) as (v & Hv & -> & Hk & Hvi). exists v.
    split_and!; [done|done|done|]. rewrite lookup_delete_ne; [done|].
    intros Heq. rewrite <-Heq in Hvi. simplify_eq.
Qed.

(** Mutating an account in place keeps the indexes as long as it keeps the
    three keys. *)
Definition keeps_keys (f : User → User) : Prop :=
  ∀ u, user_ID (f u) = user_ID u ∧ user_Name (f u) = user_Name u ∧
       user_Email (f u) = user_Email u.

Lemma update_user_fields s id f :
  byID (update_user s id f) = byID s ∧ byName (update_user s id f) = byName s ∧
  byEmail (update_user s id f) = byEmail s.
Proof. unfold update_user. by destruct (byID s !! id). Qed.

Lemma index_ok_update s id f :
  keeps_keys f → index_ok s → index_ok (update_user s id f).
Proof.
  intros Hf [Hi Hn He]. unfold update_user.
  destruct (byID s !! id) as [l0|] eqn:E0; [|by constructor].
  assert (Hget : ∀ l u, users s !! l = Some u → ∃ u',
    alter f l0 (users s) !! l = Some u' ∧ user_ID u' = user_ID u ∧
    user_Name u' = user_Name u ∧ user_Email u' = user_Email u).
  { intros l u Hu. destruct (decide (l0 = l)) as [->|Hne].
    - exists (f u). rewrite lookup_alter_eq, Hu. by destruct (Hf u) as (?&?&?).
    - exists u. by rewrite lookup_alter_ne. }
  constructor; getset; intros k l H.
  - destruct (Hi _ _ H) as (u & Hu & <- & ? & ?).
    destruct (Hget _ _ Hu) as (u' & Hu' & Ei & En & Ee). exists u'.
    by rewrite Ei, En, Ee.
  - destruct (Hn _ _ H) as (u & Hu & -> & ?).
    destruct (Hget _ _ Hu) as (u' & Hu' & Ei & En & Ee). exists u'.
    by rewrite Ei, En.
  - destruct (He _ _ H) as (u & Hu & -> & ? & ?).
    destruct (Hget _ _ Hu) as (u' & Hu' & Ei & En & Ee). exists u'.
    by rewrite Ei, Ee.
Qed.

(** Reading back an account mutated in place. *)
Lemma user_by_id_update_eq s id f :
  user_by_id (update_user s id f) id = f <$> user_by_id s id.
Proof.
  unfold user_by_id, user_at, update_user.
  destruct (byID s !! id) as [l|] eqn:E; getset; rewrite ?E; simpl; [|done].
  by rewrite lookup_alter_eq.
Qed.

Lemma user_by_id_update_ne s id id' f :
  index_ok s → id ≠ id' →
  user_by_id (update_user s id f) id' = user_by_id s id'.
Proof.
  intros [Hi _ _] Hne. unfold user_by_id, user_at, update_user.
  destruct (byID s !! id) as [l|] eqn:E; getset; [|done].
  destruct (byID s !! id') as [l'|] eqn:E'; simpl; [|done].
  rewrite lookup_alter_ne; [done|]. intros <-.
  destruct (Hi _ _ E) as (u & Hu & <- & _), (Hi _ _ E') as (u' & Hu' & <- & _).
  congruence.
Qed.

Lemma user_by_id_spec s id u :
  index_ok s → user_by_id s id = Some u →
  user_ID u = id ∧ ∃ l, byID s !! id = Some l ∧ users s !! l = Some u.
Proof.
  intros [Hi _ _]. unfold user_by_id, user_at.
  destruct (byID s !! id) as [l|] eqn:E; simpl; [|done]. intros Hu.
  destruct (Hi _ _ E) as (v & Hv & <- & _). simplify_eq. eauto.
Qed.


(** ** Normalisation keeps the keys *)

Lemma normalize_keeps_keys : keeps_keys normalizeUserRoleFields.
Proof.
  intros u. unfold normalizeUserRoleFields.
  destruct (roleToLevel _); [|destruct (levelToRole _)]; by getset.
Qed.

Lemma normalize_ID u : user_ID (normalizeUserRoleFields u) = user_ID u.
Proof. apply normalize_keeps_keys. Qed.
Lemma normalize_Name u : user_Name (normalizeUserRoleFields u) = user_Name u.
Proof. apply normalize_keeps_keys. Qed.
Lemma normalize_Email u : user_Email (normalizeUserRoleFields u) = user_Email u.
Proof. apply normalize_keeps_keys. Qed.

Lemma alloc_fresh s : users s !! fresh (dom (users s)) = None.
Proof. apply not_elem_of_dom, is_fresh. Qed.

Lemma index_ok_no_empty_email s : index_ok s → byEmail s !! "" = None.
Proof.
  intros [_ _ He]. destruct (byEmail s !! "") as [l|] eqn:E; [|done].
  by destruct (He _ _ E) as (u & _ & _ & Hne & _).
Qed.

(** What the creation steps leave in the three keys. *)
Lemma stampUserTimes_ID now u : user_ID (stampUserTimes now u) = user_ID u.
Proof. unfold stampUserTimes. repeat case_match; done. Qed.

Lemma newUserRecord_keys newID now u email name :
  let r := newUserRecord newID now u email name in
  user_ID r = (if user_ID u == "" then newID else user_ID u) ∧
  user_Name r = name ∧ user_Email r = email ∧ user_Active r = true.
Proof.
  unfold newUserRecord. cbv zeta. getset.
  rewrite normalize_ID, normalize_Name, normalize_Email. getset.
  rewrite stampUserTimes_ID. by destruct (user_ID u == "").
Qed.

Lemma ensureProxyUUID_keys newV7 b u v :
  ensureProxyUUID newV7 b u = Ok v →
  user_ID v = user_ID u ∧ user_Name v = user_Name u ∧ user_Email v = user_Email u ∧
  user_Active v = user_Active u.
Proof.
  unfold ensureProxyUUID. destruct b; [destruct newV7|]; intros H; by simplify_eq H; intros <-.
Qed.

Lemma ensureProxyUUID_error newV7 b u e :
  ensureProxyUUID newV7 b u = Err e → newV7 = Err e.
Proof. unfold ensureProxyUUID. destruct b; [destruct newV7|]; congruence. Qed.

Lemma mergeUserUpdate_keys existing user name email :
  let r := mergeUserUpdate existing user name email in
  user_ID r = user_ID existing ∧ user_Name r = name ∧ user_Email r = email.
Proof. done. Qed.

Lemma finishUpdate_keys now existing user u :
  let r := finishUpdate now existing user u in
  user_ID r = user_ID u ∧ user_Name r = user_Name u ∧ user_Email r = user_Email u.
Proof.
  unfold finishUpdate. getset.
  by rewrite normalize_ID, normalize_Name, normalize_Email.
Qed.

(** The account and index entries [CreateUser] adds when it succeeds. *)
Definition same_accounts (s s' : memoryStore) : Prop :=
  users s' = users s ∧ byID s' = byID s ∧ byName s' = byName s ∧ byEmail s' = byEmail s.

Lemma index_ok_same s s' : same_accounts s s' → index_ok s → index_ok s'.
Proof. intros (?&?&?&?). by apply index_ok_ext. Qed.

Lemma CreateUser_linked newID newV7 now user s out s' :
  CreateUser newID newV7 now user s = (Ok tt, out, s') →
  ∃ stored, out = assignUser stored ∧
    user_ID stored = (if user_ID user == "" then newID else user_ID user) ∧
    user_Name stored = TrimSpace (user_Name user) ∧
    user_Email stored = ToLower (TrimSpace (user_Email user)) ∧
    user_Name stored ≠ "" ∧ user_Active stored = true ∧
    byName s !! ToLower (user_Name stored) = None ∧
    byEmail s !! user_Email stored = None ∧
    same_accounts (link (fresh (dom (users s))) stored s) s'.
Proof.
  unfold CreateUser, alloc_user.
  set (name := TrimSpace (user_Name user)).
  set (email := ToLower (TrimSpace (user_Email user))).
  destruct (name == "") eqn:En; [done|].
  destruct (bool_decide (is_Some (byEmail s !! email))) eqn:Ee; [done|].
  destruct (bool_decide (is_Some (byName s !! ToLower name))) eqn:Eb; [done|].
  set (base := newUserRecord _ _ _ _ _).
  destruct (ensureProxyUUID newV7 _ base) as [stored|] eqn:Ep; [|done].
  intros H. injection H as <- <-. bools.
  apply eq_None_not_Some in Ee, Eb.
  apply ensureProxyUUID_keys in Ep as (Hi & Hn & He & Ha).
  destruct (newUserRecord_keys newID now (normalizeUserRoleFields user) email name)
    as (Bi & Bn & Be & Ba). fold base in Bi, Bn, Be, Ba.
  rewrite normalize_ID in Bi.
  exists stored. rewrite Hi, Hn, He, Ha, Bi, Bn, Be, Ba. split_and!; try done.
  assert (user_Name stored = name) by congruence.
  assert (user_Email stored = email) by congruence.
  assert (ToLower (user_Email stored) = email) as El.
  { rewrite He, Be. unfold email. apply ToLower_idem. }
  unfold same_accounts, link. rewrite El, Hn, He, Bn, Be, Hi, Bi.
  destruct (email == ""); done.
Qed.

(** A linked account is found through each of its keys. *)
Lemma link_found l u s s' :
  same_accounts (link l u s) s' → ToLower (user_Email u) = user_Email u →
  GetUserByID s' (user_ID u) = Ok (assignUser u) ∧
  (∀ name, TrimSpace name = user_Name u → user_Name u ≠ "" →
     GetUserByName s' name = Ok (assignUser u)) ∧
  (user_Email u ≠ "" → GetUserByEmail s' (user_Email u) = Ok (assignUser u)).
Proof.
  intros (Eu & Ei & En & Ee) El. rewrite link_byEmail in Ee.
  destruct (link_fields l u s) as (Lu & Li & Ln).
  rewrite Lu in Eu; rewrite Li in Ei; rewrite Ln in En.
  unfold GetUserByID, GetUserByName, GetUserByEmail, user_at.
  rewrite Eu, Ei, En, Ee. split_and!.
  - by simplify_map_eq.
  - intros name -> Hn. rewrite bool_decide_false by by rewrite ToLower_empty.
    by simplify_map_eq.
  - intros Hu. rewrite bool_decide_false by done. by simplify_map_eq.
Qed.

Lemma assign_ID u : user_ID (assignUser u) = user_ID u.
Proof. apply normalize_ID. Qed.
Lemma assign_Email u : user_Email (assignUser u) = user_Email u.
Proof. apply normalize_Email. Qed.

Lemma assign_active u : user_Active (assignUser u) = user_Active u.
Proof.
  unfold assignUser, normalizeUserRoleFields. getset.
  by destruct (roleToLevel _); [|destruct (levelToRole _)].
Qed.

Lemma CreateUser_index_ok newID newV7 now user s out s' :
  index_ok s → byID s !! (if user_ID user == "" then newID else user_ID user) = None →
  CreateUser newID newV7 now user s = (Ok tt, out, s') → index_ok s'.
Proof.
  intros Hs Hid H. apply CreateUser_linked in H
    as (u & -> & Ei & En & Ee & Hne & Ha & Fn & Fe & Hsame).
  assert (El : ToLower (user_Email u) = user_Email u) by (rewrite Ee; apply ToLower_idem).
  apply (index_ok_same _ _ Hsame), index_ok_link; try done.
  - apply alloc_fresh.
  - by rewrite Ei.
  - by rewrite El.
Qed.

(** creating an account keeps the indexes consistent, and the account it
    returns is the one found afterwards by identifier, by name and by email. *)
Theorem CreateUser_correct newID newV7 now user s out s' :
  index_ok s → byID s !! (if user_ID user == "" then newID else user_ID user) = None →
  CreateUser newID newV7 now user s = (Ok tt, out, s') →
  index_ok s' ∧ GetUserByID s' (user_ID out) = Ok out ∧
  GetUserByName s' (user_Name user) = Ok out ∧
  (user_Email out ≠ "" → GetUserByEmail s' (user_Email out) = Ok out) ∧
  user_Active out = true.
Proof.
  intros Hs Hid H. pose proof (CreateUser_index_ok _ _ _ _ _ _ _ Hs Hid H) as Hok.
  apply CreateUser_linked in H as (u & -> & Ei & En & Ee & Hne & Ha & Fn & Fe & Hsame).
  assert (El : ToLower (user_Email u) = user_Email u) by (rewrite Ee; apply ToLower_idem).
  destruct (link_found _ _ _ _ Hsame El) as (Gi & Gn & Ge).
  rewrite assign_active, assign_ID, assign_Email. split_and!; auto.
Qed.

(** Moving an entry to a new key, as the code does it for names and emails. *)
Lemma reindex_name (m : gmap string positive) old new l :
  <[new := l]> (if old != new then delete old m else m) = <[new := l]> (delete old m).
Proof.
  destruct (decide (old = new)) as [->|Hne].
  - by rewrite bool_decide_true, insert_delete_eq.
  - by rewrite bool_decide_false.
Qed.

Lemma reindex_email (m : gmap string positive) old new l :
  m !! "" = None →
  let m1 := if (old != new) && (old != "") then delete old m else m in
  (if new == "" then m1 else <[new := l]> m1) =
  (if new == "" then delete old m else <[new := l]> (delete old m)).
Proof.
  intros H. cbv zeta. destruct (decide (old = "")) as [->|Ho].
  - rewrite (bool_decide_true ("" = "")), andb_false_r by done. by rewrite delete_id.
  - rewrite (bool_decide_false (old = "")), andb_true_r by done. simpl.
    destruct (decide (old = new)) as [->|Hne].
    + rewrite (bool_decide_true (new = new)), (bool_decide_false (new = "")) by done.
      by rewrite insert_delete_eq.
    + by rewrite (bool_decide_false (old = new)).
Qed.

(** An update first forgets the old keys, then enters the new ones. *)
Lemma UpdateUser_linked newV7 now user s out s' :
  index_ok s → UpdateUser newV7 now user s = (Ok tt, out, s') →
  ∃ existing updated, user_by_id s (user_ID user) = Some existing ∧
    out = assignUser updated ∧ user_ID updated = user_ID existing ∧
    user_Name updated = TrimSpace (user_Name user) ∧
    user_Email updated = ToLower (TrimSpace (user_Email user)) ∧
    user_Name updated ≠ "" ∧
    let s1 := unlink existing s in
    byName s1 !! ToLower (user_Name updated) = None ∧
    (user_Email updated ≠ "" → byEmail s1 !! user_Email updated = None) ∧
    same_accounts (link (fresh (dom (users s))) updated s1) s'.
Proof.
  intros Hs. unfold UpdateUser.
  destruct (user_by_id s (user_ID user)) as [existing|] eqn:Eu; [|done].
  apply user_by_id_spec in Eu as (Eid & _); [|done].
  set (name := TrimSpace (user_Name user)).
  set (email := ToLower (TrimSpace (user_Email user))).
  set (oldN := ToLower (user_Name existing)). set (oldE := ToLower (user_Email existing)).
  destruct (name == "") eqn:En; [done|].
  destruct ((oldN != ToLower name) && _) eqn:Eb; [done|]. cbv zeta.
  set (s2 := if oldN != ToLower name then _ else s).
  destruct ((oldE != email) && (email != "") && _) eqn:Ee; [done|].
  set (base := mergeUserUpdate _ _ _ _).
  destruct (ensureProxyUUID newV7 _ base) as [u1|] eqn:Ep; [|done].
  set (s3 := if _ && _ then _ else s2). intros H. injection H as <- <-.
  apply ensureProxyUUID_keys in Ep as (Hi & Hn & He & _).
  destruct (finishUpdate_keys now existing user u1) as (Fi & Fn & Fe).
  set (u := finishUpdate now existing user u1) in *.
  destruct (mergeUserUpdate_keys existing user name email) as (Bi & Bn & Be).
  fold base in Bi, Bn, Be.
  assert (Kn : user_Name u = name) by congruence.
  assert (Ke : user_Email u = email) by congruence.
  assert (Ki : user_ID u = user_ID user) by congruence.
  assert (El : ToLower email = email) by apply ToLower_idem.
  assert (users s3 = users s ∧ byID s3 = byID s ∧ byEmail s2 = byEmail s ∧
    byName s3 = (if oldN != ToLower name then delete oldN (byName s) else byName s) ∧
    byEmail s3 = (if (oldE != email) && (oldE != "") then delete oldE (byEmail s)
                  else byEmail s)) as (Xu & Xi & X2 & Xn & Xe).
  { unfold s3, s2. by destruct (oldN != ToLower name), ((oldE != email) && (oldE != "")). }
  rewrite X2 in Ee. exists existing, u.
  split_and!; try done; try congruence; [bools; congruence|..].
  - unfold unlink. getset. rewrite Kn. fold oldN. apply lookup_delete_None.
    apply andb_false_iff in Eb as [?|?]; bools; [left; done|right]. by apply eq_None_not_Some.
  - intros Hu. rewrite Ke in Hu. unfold unlink. getset. rewrite Ke. fold oldE.
    apply lookup_delete_None.
    apply andb_false_iff in Ee as [[?|?]%andb_false_iff|?]; bools; [by left|done|right].
    by apply eq_None_not_Some.
  - pose proof (reindex_email (byEmail s) oldE email (fresh (dom (users s3)))
      (index_ok_no_empty_email _ Hs)) as Re. cbv zeta in Re. rewrite <-Xe, Xu in Re.
    pose proof (reindex_name (byName s) oldN (ToLower name) (fresh (dom (users s)))) as Rn.
    rewrite <-Xn in Rn. unfold same_accounts, link, unlink.
    rewrite Kn, Ke, El, Ki, Eid. getset. fold oldN oldE. rewrite Xu, Xi.
    destruct (email == ""); getset; rewrite ?Xu, ?Xi, ?Rn, ?Re, ?insert_delete_eq; done.
Qed.

Lemma UpdateUser_index_ok newV7 now user s out s' :
  index_ok s → UpdateUser newV7 now user s = (Ok tt, out, s') → index_ok s'.
Proof.
  intros Hs H. apply UpdateUser_linked in H
    as (old & u & Hold & -> & Ei & En & Ee & Hne & Fn & Fe & Hsame); [|done].
  apply user_by_id_spec in Hold as (Eid & l0 & Hl0 & Hu0); [|done].
  assert (El : ToLower (user_Email u) = user_Email u) by (rewrite Ee; apply ToLower_idem).
  apply (index_ok_same _ _ Hsame), index_ok_link; try done.
  - apply (index_ok_unlink l0); [done|by rewrite Eid|done].
  - apply (alloc_fresh s).
  - unfold unlink. getset. rewrite Ei. apply lookup_delete_eq.
  - by rewrite El.
Qed.

(** a successful update keeps the three indexes consistent and the
    returned account is the one found afterwards by identifier, name and
    email, even when both the name and the email move to new keys. *)
Theorem UpdateUser_correct newV7 now user s out s' :
  index_ok s → UpdateUser newV7 now user s = (Ok tt, out, s') →
  index_ok s' ∧ GetUserByID s' (user_ID user) = Ok out ∧
  GetUserByName s' (user_Name user) = Ok out ∧
  (user_Email out ≠ "" → GetUserByEmail s' (user_Email out) = Ok out).
Proof.
  intros Hs H. split; [by apply UpdateUser_index_ok in H|]. apply UpdateUser_linked in H
    as (old & u & Hold & -> & Ei & En & Ee & Hne & Fn & Fe & Hsame); [|done].
  apply user_by_id_spec in Hold as (Eid & _); [|done].
  assert (El : ToLower (user_Email u) = user_Email u) by (rewrite Ee; apply ToLower_idem).
  destruct (link_found _ _ _ _ Hsame El) as (Gi & Gn & Ge). rewrite Ei, Eid in Gi.
  rewrite assign_Email. split_and!; auto.
Qed.

(** when a rename is refused because the new email is taken, the account
    has already lost its old name: it is still found by identifier but no
    longer by the name it carries, so the indexes are no longer consistent. *)
Theorem UpdateUser_email_conflict_drops_name newV7 now user s out s' existing :
  user_by_id s (user_ID user) = Some existing →
  UpdateUser newV7 now user s = (Err ErrEmailExists, out, s') →
  newV7 ≠ Err ErrEmailExists →
  ToLower (user_Name existing) ≠ ToLower (TrimSpace (user_Name user)) →
  user_by_id s' (user_ID user) = Some existing ∧
  byName s' !! ToLower (user_Name existing) = None ∧ ¬ index_ok s'.
Proof.
  intros Hu H Hv Hne. unfold UpdateUser in H. rewrite Hu in H. cbv zeta in H.
  destruct (TrimSpace (user_Name user) == ""); [done|].
  rewrite (bool_decide_false (ToLower (user_Name existing) = _)) in H by done.
  simpl negb in H. cbv iota zeta in H.
  destruct (true && _); [done|]. getset.
  destruct ((ToLower (user_Email existing) != ToLower (TrimSpace (user_Email user))) && _ && _) eqn:E.
  - injection H as <- <-. unfold user_by_id, user_at in *. getset.
    split_and!; [done|apply lookup_delete_eq|]. intros [Hi _ _]. getset.
    destruct (byID s !! user_ID user) as [l|] eqn:El; simpl in Hu; [|done].
    destruct (Hi _ _ El) as (v & Hv' & _ & Hn & _). rewrite Hu in Hv'.
    injection Hv' as <-. by rewrite lookup_delete_eq in Hn.
  - destruct (ensureProxyUUID _ _ _) eqn:Ep; [done|].
    apply ensureProxyUUID_error in Ep. injection H as -> _ _. done.
Qed.

(** ** Paging *)

(** The identifiers after a cursor, in order: what all further pages list. *)
Definition after_ids (s : memoryStore) (afterID : string) : list string :=
  sort_strings (filter (λ id, string_lt afterID id = true) (map_to_list (byID s)).*1).

(** Following the cursor: each page starts after the last account of the
    previous one, until a page is empty. *)
Fixpoint list_pages (fuel : nat) (s : memoryStore) (cursor : string) (limit : Z) : list User :=
  match fuel with
  | O => []
  | S fuel =>
      match ListUsersPage s cursor limit with
      | Ok page =>
          match last page with
          | Some u => page ++ list_pages fuel s (user_ID u) limit
          | None => []
          end
      | Err _ => []
      end
  end.

Lemma page_ids_take s a limit :
  0 < limit → page_ids s a limit = take (Z.to_nat limit) (after_ids s a).
Proof.
  intros H. unfold page_ids. fold (after_ids s a).
  destruct (limit <? Z.of_nat (length (after_ids s a))) eqn:E; [done|].
  rewrite take_ge; [done|]. lia.
Qed.

Lemma after_ids_perm s a :
  after_ids s a ≡ₚ filter (λ id, string_lt a id = true) (map_to_list (byID s)).*1.
Proof. apply merge_sort_Permutation. Qed.

Lemma elem_of_after_ids s a id :
  id ∈ after_ids s a ↔ string_lt a id = true ∧ is_Some (byID s !! id).
Proof.
  rewrite after_ids_perm, list_elem_of_filter, list_elem_of_fmap. split.
  - intros [Hlt ([k l] & -> & H%elem_of_map_to_list)]. eauto.
  - intros [Hlt [l Hl]]. split; [done|]. exists (id, l). split; [done|].
    by apply elem_of_map_to_list.
Qed.

Lemma after_ids_nodup s a : NoDup (after_ids s a).
Proof. rewrite after_ids_perm. apply NoDup_filter, NoDup_fst_map_to_list. Qed.

Lemma after_ids_sorted s a : StronglySorted String.le (after_ids s a).
Proof. apply StronglySorted_merge_sort; apply _. Qed.

(** In a strictly ordered list, what lies after the last element of a prefix
    is the rest of the list. *)
Lemma filter_after_prefix (p q : list string) (c : string) :
  StronglySorted String.le (p ++ q) → NoDup (p ++ q) → last p = Some c →
  filter (λ id, string_lt c id = true) (p ++ q) = q.
Proof.
  intros Hs Hnd Hl. apply last_Some in Hl as [p' ->].
  apply StronglySorted_app in Hs as (Hcross & Hp & Hq).
  apply StronglySorted_app in Hp as (Hp' & _ & _).
  apply NoDup_app in Hnd as (_ & Hdis & _).
  rewrite filter_app, filter_none, filter_all; [done|..].
  - intros x Hx. apply string_lt_ne.
    + apply Hcross; [set_solver|done].
    + intros <-. apply (Hdis c); [set_solver|done].
  - intros x Hx. rewrite not_true_iff_false, string_lt_ge.
    apply elem_of_app in Hx as [Hx|Hx%list_elem_of_singleton]; [|by subst].
    apply Hp'; [done|set_solver].
Qed.

(** The next page continues exactly where the previous one stopped. *)
Lemma after_ids_next s a n c :
  last (take n (after_ids s a)) = Some c → after_ids s c = drop n (after_ids s a).
Proof.
  intros Hc. pose proof (after_ids_sorted s a) as Hs. pose proof (after_ids_nodup s a) as Hn.
  rewrite <-(take_drop n (after_ids s a)) in Hs, Hn.
  pose proof (filter_after_prefix _ _ _ Hs Hn Hc) as Hf. rewrite take_drop in Hf.
  apply (StronglySorted_unique String.le).
  - apply after_ids_sorted.
  - by apply StronglySorted_app in Hs as (_ & _ & ?).
  - assert (Hac : string_lt a c = true).
    { apply last_Some in Hc as [l' Hc]. apply (elem_of_after_ids s a c).
      rewrite <-(take_drop n (after_ids s a)), Hc. set_solver. }
    rewrite <-Hf, !after_ids_perm, list_filter_filter.
    apply reflexive_eq. apply list_filter_iff. intros id. split; [|tauto].
    intros H. split; [done|].
    apply (string_lt_le_trans _ c); [done|]. by apply string_lt_le.
Qed.

Lemma clone_ID u : user_ID (cloneUser u) = user_ID u.
Proof. apply normalize_ID. Qed.

Lemma lookup_ids_IDs s ids :
  index_ok s → (∀ id, id ∈ ids → is_Some (byID s !! id)) →
  user_ID <$> (cloneUser <$> (ids ≫= λ id, option_list (user_by_id s id))) = ids.
Proof.
  intros Hs. induction ids as [|id ids IH]; intros Hin; [done|].
  destruct (Hin id ltac:(left)) as [l Hl].
  destruct (ix_id s Hs _ _ Hl) as (u & Hu & <- & _).
  assert (user_by_id s (user_ID u) = Some u) as E.
  { unfold user_by_id, user_at. rewrite Hl. done. }
  rewrite bind_cons, E, !fmap_app, IH by set_solver.
  transitivity (user_ID (cloneUser u) :: ids); [done|by rewrite clone_ID].
Qed.

Lemma ListUsersPage_IDs s a limit :
  index_ok s → 0 < limit ≤ MaxUserListPageSize →
  ∃ page, ListUsersPage s a limit = Ok page ∧
    user_ID <$> page = take (Z.to_nat limit) (after_ids s a).
Proof.
  intros Hs Hl. unfold ListUsersPage.
  assert ((limit <=? 0) || (MaxUserListPageSize <? limit) = false) as -> by lia.
  eexists. split; [done|]. rewrite page_ids_take by lia. apply lookup_ids_IDs; [done|].
  intros id Hid. apply (elem_of_after_ids s a id).
  rewrite <-(take_drop (Z.to_nat limit) (after_ids s a)). apply elem_of_app. by left.
Qed.

Lemma list_pages_after fuel s a limit :
  index_ok s → 0 < limit ≤ MaxUserListPageSize → (length (after_ids s a) < fuel)%nat →
  user_ID <$> list_pages fuel s a limit = after_ids s a.
Proof.
  intros Hs Hl. revert a. induction fuel as [|fuel IH]; intros a Hf; [lia|].
  simpl. destruct (ListUsersPage_IDs s a limit Hs Hl) as (page & -> & Hp).
  destruct (last page) as [u|] eqn:Elast.
  - assert (Hc : last (take (Z.to_nat limit) (after_ids s a)) = Some (user_ID u)).
    { by rewrite <-Hp, fmap_last, Elast. }
    rewrite fmap_app, Hp, IH; rewrite (after_ids_next _ _ _ _ Hc).
    + apply take_drop.
    + rewrite length_drop. destruct (after_ids s a); simpl in *; [|lia].
      by rewrite take_nil in Hc.
  - apply last_None in Elast as ->. simpl in Hp. symmetry in Hp.
    destruct (after_ids s a); [done|]. by destruct (Z.to_nat limit) eqn:E; [lia|].
Qed.

(** following the cursor of [ListUsersPage] lists every account with a
    non-empty identifier exactly once, in increasing order, whatever the page
    size. *)
Theorem ListUsersPage_complete s limit :
  index_ok s → 0 < limit ≤ MaxUserListPageSize →
  let ids := user_ID <$> list_pages (S (size (byID s))) s "" limit in
  NoDup ids ∧ StronglySorted String.le ids ∧
  (∀ id, id ≠ "" → (id ∈ ids ↔ is_Some (byID s !! id))).
Proof.
  intros Hs Hl. cbv zeta. rewrite list_pages_after; [|done|done|].
  - split_and!; [apply after_ids_nodup|apply after_ids_sorted|].
    intros id Hid. rewrite elem_of_after_ids. split; [tauto|]. intros H. split; [|done].
    by destruct id.
  - rewrite after_ids_perm. apply Nat.lt_succ_r. etrans; [apply length_filter|].
    by rewrite length_fmap, length_map_to_list.
Qed.

(** ** Archiving *)

(** Accounts [DeleteUser] refuses to archive. *)
Definition protected_user (s : memoryStore) (u : User) : Prop :=
  IsAdminRole (user_Role u) = true ∨ user_Level u = LevelAdmin ∨
  MonthlyQuotaGroup u = MonthlyPlusQuotaLimitGroup ∨
  MonthlyQuotaGroup u = MonthlyUnlimitedBetaQuotaGroup ∨
  ∃ k sub, subs_of s (user_ID u) !! k = Some sub ∧ live_subscription sub = true.

Definition replay_of (id requestID : string) (s : memoryStore) : option AuditLog :=
  if TrimSpace requestID != "" then List.find (archive_replay id (TrimSpace requestID)) (auditLogs s)
  else None.

(** A successful call that is not a replay. *)
Lemma DeleteUser_fresh newUUID transitionID now id audit requestID s out s' :
  DeleteUser newUUID transitionID now id audit requestID s = (Ok tt, out, s') →
  replay_of id requestID s = None →
  ∃ u, user_by_id s id = Some u ∧ user_ArchivedAt u = None ∧
    IsAdminRole (user_Role u) || (user_Level u =? LevelAdmin) ||
         (MonthlyQuotaGroup u == MonthlyPlusQuotaLimitGroup) ||
         (MonthlyQuotaGroup u == MonthlyUnlimitedBetaQuotaGroup) = false ∧
    map_any live_subscription (subs_of s id) = false ∧
    out = archive_entry newUUID transitionID now (TrimSpace requestID) audit ∧
    s' = (update_user s id (archived now)) <| auditLogs := auditLogs s ++ [out] |>.
Proof.
  unfold DeleteUser. intros H Hr. unfold replay_of in Hr.
  destruct (validateUserArchiveAudit id audit); [done|]. cbv zeta in H.
  rewrite Hr in H. destruct (user_by_id s id) as [u|]; [|done].
  destruct (user_ArchivedAt u) eqn:Ea; [done|].
  rewrite (bool_decide_true (None = None)) in H by done. simpl negb in H. cbv iota in H.
  destruct (_ || _ || _ || _) eqn:Ep; [done|]. destruct (map_any _ _) eqn:El; [done|].
  injection H as <- <-. exists u. split_and!; try done.
  unfold update_user. by destruct (byID s !! id).
Qed.

(** archiving deactivates exactly the named account, never an
    administrator, a paid-quota account or one with a live subscription,
    keeps the indexes consistent and appends one audit entry. *)
Theorem DeleteUser_archives newUUID transitionID now id audit requestID s out s' :
  index_ok s → replay_of id requestID s = None →
  DeleteUser newUUID transitionID now id audit requestID s = (Ok tt, out, s') →
  ∃ u, user_by_id s id = Some u ∧ user_ArchivedAt u = None ∧ ¬ protected_user s u ∧
    user_by_id s' id = Some (archived now u) ∧
    (∀ id', id' ≠ id → user_by_id s' id' = user_by_id s id') ∧
    auditLogs s' = auditLogs s ++ [out] ∧ audit_CreatedAt out = now ∧ index_ok s'.
Proof.
  intros Hs Hr H. apply DeleteUser_fresh in H as (u & Hu & Ha & Hp & Hl & -> & ->); [|done].
  pose proof (user_by_id_spec _ _ _ Hs Hu) as [Hid _].
  exists u. split_and!; try done.
  - rewrite map_any_false in Hl. apply orb_false_iff in Hp as [[[? ?]%orb_false_iff ?]%orb_false_iff ?].
    bools. intros [?|[?|[?|[?|(k & sub & Hk & Hsub)]]]]; try congruence; [lia|].
    rewrite Hid in Hk. specialize (Hl _ _ Hk). congruence.
  - transitivity (user_by_id (update_user s id (archived now)) id); [done|].
    by rewrite user_by_id_update_eq, Hu.
  - intros id' Hne. transitivity (user_by_id (update_user s id (archived now)) id'); [done|].
    by apply user_by_id_update_ne.
  - by apply (index_ok_ext (update_user s id (archived now))), index_ok_update.
Qed.

Lemma validateUserArchiveAudit_reason id audit :
  validateUserArchiveAudit id audit = None →
  ∃ r, audit_Details audit !! "reason" = Some (AStr r).
Proof.
  unfold validateUserArchiveAudit. intros H.
  destruct ((TrimSpace (audit_Action audit) != _) || _); [done|]. cbv zeta in H.
  destruct ((TrimSpace (any_str (audit_Details audit !! "target_uuid")) != _) || _) eqn:E; [done|].
  bools. destruct (audit_Details audit !! "reason") as [[]|]; simpl in *; eauto; done.
Qed.

Lemma archive_entry_other newUUID transitionID now requestID audit k :
  k ≠ "request_id" → k ≠ "transition_id" → k ≠ "occurred_at" →
  audit_Details (archive_entry newUUID transitionID now requestID audit) !! k =
  audit_Details audit !! k.
Proof.
  intros. unfold archive_entry. cbv zeta. getset. rewrite !lookup_insert_ne by done.
  destruct (TrimSpace _ == ""), (requestID == ""); simpl; getset;
    by rewrite ?lookup_insert_ne by done.
Qed.

Lemma archive_entry_actor newUUID transitionID now requestID audit :
  audit_ActorUUID (archive_entry newUUID transitionID now requestID audit) =
  audit_ActorUUID audit.
Proof. unfold archive_entry. by destruct (TrimSpace _ == ""). Qed.

Lemma archive_entry_replays newUUID transitionID now requestID audit id :
  requestID ≠ "" → audit_Action audit = AuditActionUserArchive →
  audit_Details audit !! "target_uuid" = Some (AStr id) →
  archive_replay id requestID (archive_entry newUUID transitionID now requestID audit) = true.
Proof.
  intros Hne Ha Ht. unfold archive_replay.
  rewrite archive_entry_other, Ht by done. unfold archive_entry. cbv zeta. getset.
  rewrite (bool_decide_false (requestID = "")) by done. simpl negb. cbv iota.
  rewrite !lookup_insert_ne, lookup_insert_eq by done. unfold any_is_str.
  assert (Hact : audit_Action (if TrimSpace (audit_UUID audit) == "" then
    audit <| audit_UUID := newUUID |> else audit) = AuditActionUserArchive)
    by by case_match.
  by rewrite Hact, !bool_decide_true.
Qed.

(** Repeating an archive request with the same request identifier, actor
    and reason succeeds without changing anything. *)
Theorem DeleteUser_replay newUUID transitionID now id audit requestID s out s'
    newUUID2 transitionID2 now2 :
  TrimSpace requestID ≠ "" → audit_Action audit = AuditActionUserArchive →
  audit_Details audit !! "target_uuid" = Some (AStr id) →
  replay_of id requestID s = None →
  DeleteUser newUUID transitionID now id audit requestID s = (Ok tt, out, s') →
  DeleteUser newUUID2 transitionID2 now2 id audit requestID s' = (Ok tt, out, s').
Proof.
  intros Hreq Hact Htgt Hr H.
  assert (Hv : validateUserArchiveAudit id audit = None).
  { unfold DeleteUser in H. by destruct (validateUserArchiveAudit id audit). }
  apply DeleteUser_fresh in H as (u & _ & _ & _ & _ & Hout & ->); [|done].
  set (s' := (update_user s id (archived now)) <| auditLogs := auditLogs s ++ [out] |>).
  assert (Hreason : ∃ r, audit_Details audit !! "reason" = Some (AStr r) ∧
                         audit_Details out !! "reason" = Some (AStr r)).
  { apply validateUserArchiveAudit_reason in Hv as [r Hr']. exists r. split; [done|].
    rewrite Hout, archive_entry_other by done. done. }
  destruct Hreason as (r & Hr1 & Hr2).
  assert (Hfind : List.find (archive_replay id (TrimSpace requestID)) (auditLogs s') = Some out).
  { unfold replay_of in Hr. rewrite bool_decide_false in Hr by done. simpl in Hr.
    unfold s'. getset. rewrite find_app, Hr. cbn [List.find].
    assert (archive_replay id (TrimSpace requestID) out = true) as ->; [|done].
    rewrite Hout. by apply archive_entry_replays. }
  assert (Hactor : audit_ActorUUID out = audit_ActorUUID audit)
    by (rewrite Hout; apply archive_entry_actor).
  unfold DeleteUser. rewrite Hv, (bool_decide_false (TrimSpace requestID = "")) by done.
  simpl negb. cbv iota zeta. rewrite Hfind, Hr1, Hr2. simpl any_str.
  unfold any_is_str. by rewrite Hactor, !bool_decide_true.
Qed.
