(* ===== verification/Finance.v ===== *)
(** * Finance: invoices, payments, refunds and provider operations

    [internal/store/finance_memory.go].  Every operation takes the instant it
    runs at and the identifiers [uuid.NewString] yields during the call, and
    returns its result, the caller's struct after the call and the store.  A
    map entry that is missing where the code dereferences it is a run-time
    panic, represented by [nil_deref]. *)

From S2P Require Import Prelude GoLib Json StoreData.
From Stdlib Require Import Ascii.
Open Scope Z_scope.
Open Scope bool_scope.
Open Scope go_scope.

Definition nil_deref : error :=
  ErrMsg "runtime error: invalid memory address or nil pointer dereference".

(** ** Normalisation helpers *)

Definition financeID (newID id : string) : string :=
  if TrimSpace id == "" then newID else TrimSpace id.

Definition financeProvider (provider : string) : string :=
  let provider := ToLower (TrimSpace provider) in
  if provider == "" then "local" else provider.

Definition financeCurrency (currency : string) : string := ToUpper (TrimSpace currency).

Definition validFinanceCurrency (currency : string) : bool :=
  if negb (len currency =? 3) then false else all_upper currency.

Definition sameOptionalTime (a b : option time) : bool :=
  match a, b with
  | Some x, Some y => Equal x y
  | None, None => true
  | _, _ => false
  end.

Definition financeJSON (raw : RawMessage) : RawMessage :=
  match raw with RawEmpty => RawJSON (JObj []) | _ => raw end.

Definition FinanceOperationPending : string := "pending".
Definition FinanceOperationInProgress : string := "in_progress".
Definition FinanceOperationSucceeded : string := "succeeded".
Definition FinanceOperationFailed : string := "failed".
Definition FinanceOperationReconciliationRequired : string := "reconcile_needed".

(** The amount and currency of a refund request. *)
Definition financeRefundRequest (operation : FinanceOperation) : result error (Z * string) :=
  match raw_members (op_Request operation) with
  | None => Err (ErrMsg "json: cannot unmarshal refund request")
  | Some members =>
      let '(amount, okA) := decode_field "amount_minor" dec_int64 members 0 in
      let '(currency, okC) := decode_field "currency" dec_string members "" in
      if negb (okA && okC) then Err (ErrMsg "json: cannot unmarshal refund request") else
      let currency := financeCurrency currency in
      if (amount <=? 0) || negb (validFinanceCurrency currency)
      then Err (ErrMsg "refund operation requires positive amount_minor and ISO currency")
      else Ok (amount, currency)
  end.

Definition financeOperationReservesRefund (operation : FinanceOperation) : bool :=
  (op_OperationType operation == "refund") && (op_TargetType operation == "payment") &&
  ((op_Status operation == FinanceOperationPending) ||
   (op_Status operation == FinanceOperationInProgress) ||
   (op_Status operation == FinanceOperationSucceeded) ||
   (op_Status operation == FinanceOperationReconciliationRequired)).

Definition financeRefundAttemptExpired (now : time) (operation : FinanceOperation) : bool :=
  (op_Status operation == FinanceOperationInProgress) &&
  (op_OperationType operation == "refund") &&
  HasPrefix (op_IdempotencyKey operation) "subscription-refund:" &&
  (2 * Minute <? Sub now (op_UpdatedAt operation)).

Definition financeRefundMatchesOperation (operation : FinanceOperation) (refund : FinanceRefund) : bool :=
  match financeRefundRequest operation with
  | Err _ => false
  | Ok (amount, currency) =>
      financeOperationReservesRefund operation &&
      (op_TargetID operation == refund_PaymentID refund) &&
      (op_Provider operation == refund_Provider refund) &&
      (amount =? refund_AmountMinor refund) && (currency == refund_Currency refund) &&
      (refund_ProviderRefundID refund != "") &&
      ((op_ProviderOperationID operation == "") ||
       (op_ProviderOperationID operation == refund_ProviderRefundID refund))
  end.

(** ** Invoices *)

Definition normInvoice (newID : string) (invoice : FinanceInvoice) : FinanceInvoice :=
  invoice
    <| inv_ID := financeID newID (inv_ID invoice) |>
    <| inv_IdempotencyKey := TrimSpace (inv_IdempotencyKey invoice) |>
    <| inv_AccountUUID := TrimSpace (inv_AccountUUID invoice) |>
    <| inv_SubscriptionUUID := TrimSpace (inv_SubscriptionUUID invoice) |>
    <| inv_Provider := financeProvider (inv_Provider invoice) |>
    <| inv_Currency := financeCurrency (inv_Currency invoice) |>
    <| inv_ProviderInvoiceID := TrimSpace (inv_ProviderInvoiceID invoice) |>
    <| inv_Description := TrimSpace (inv_Description invoice) |>.

(** The two ends of a service period come together and in order. *)
Definition badServicePeriod (i : FinanceInvoice) : bool :=
  match inv_ServicePeriodStart i, inv_ServicePeriodEnd i with
  | Some from, Some until => negb (Before from until)
  | None, None => false
  | _, _ => true
  end.

Definition invoiceReplayConflict (issuedAtProvided : bool) (old copy : FinanceInvoice) : bool :=
  (inv_AccountUUID old != inv_AccountUUID copy) ||
  (inv_SubscriptionUUID old != inv_SubscriptionUUID copy) ||
  (inv_Provider old != inv_Provider copy) ||
  (inv_ProviderInvoiceID old != inv_ProviderInvoiceID copy) ||
  negb (inv_AmountMinor old =? inv_AmountMinor copy) ||
  (inv_Currency old != inv_Currency copy) ||
  (inv_Description old != inv_Description copy) ||
  negb (sameOptionalTime (inv_DueAt copy) (inv_DueAt old)) ||
  (issuedAtProvided && negb (Equal (inv_IssuedAt copy) (inv_IssuedAt old))).

(** A replay may supply the service period of an invoice that has none. *)
Definition replayServicePeriod (old copy : FinanceInvoice) : result error FinanceInvoice :=
  match inv_ServicePeriodStart copy with
  | None => Ok old
  | Some _ =>
      if (inv_ServicePeriodStart old != None) || (inv_ServicePeriodEnd old != None) then
        if negb (sameOptionalTime (inv_ServicePeriodStart copy) (inv_ServicePeriodStart old)) ||
           negb (sameOptionalTime (inv_ServicePeriodEnd copy) (inv_ServicePeriodEnd old))
        then Err ErrFinanceIdempotencyConflict else Ok old
      else Ok (old <| inv_ServicePeriodStart := inv_ServicePeriodStart copy |>
                   <| inv_ServicePeriodEnd := inv_ServicePeriodEnd copy |>)
  end.

Definition CreateFinanceInvoice (newID : string) (now : time) (invoice : FinanceInvoice)
    (s : memoryStore) : result error bool * FinanceInvoice * memoryStore :=
  if (TrimSpace (inv_IdempotencyKey invoice) == "") ||
     (TrimSpace (inv_AccountUUID invoice) == "") || (inv_AmountMinor invoice <? 0)
  then (Err ErrFinanceIdempotencyConflict, invoice, s) else
  let copy := normInvoice newID invoice in
  let issuedAtProvided := negb (IsZero (inv_IssuedAt copy)) in
  if negb (validFinanceCurrency (inv_Currency copy))
  then (Err ErrFinanceIdempotencyConflict, invoice, s) else
  if badServicePeriod copy then (Err ErrFinanceIdempotencyConflict, invoice, s) else
  let copy := if IsZero (inv_IssuedAt copy) then copy <| inv_IssuedAt := now |> else copy in
  if bool_decide (byID s !! inv_AccountUUID copy = None)
  then (Err ErrFinanceRecordNotFound, invoice, s) else
  if (inv_SubscriptionUUID copy != "") &&
     negb (map_any (λ sub, sub_ID sub == inv_SubscriptionUUID copy)
             (default ∅ (subscriptions s !! inv_AccountUUID copy)))
  then (Err ErrFinanceRecordNotFound, invoice, s) else
  match financeInvoiceKeys s !! inv_IdempotencyKey copy with
  | Some id =>
      match financeInvoices s !! id with
      | None => (Err nil_deref, invoice, s)
      | Some old =>
          if invoiceReplayConflict issuedAtProvided old copy
          then (Err ErrFinanceIdempotencyConflict, invoice, s) else
          match replayServicePeriod old copy with
          | Err e => (Err e, invoice, s)
          | Ok old =>
              (Ok false,
               invoice <| inv_ID := inv_ID old |> <| inv_CreatedAt := inv_CreatedAt old |>
                       <| inv_ServicePeriodStart := inv_ServicePeriodStart old |>
                       <| inv_ServicePeriodEnd := inv_ServicePeriodEnd old |>,
               s <| financeInvoices := <[id := old]> (financeInvoices s) |>)
          end
      end
  | None =>
      if bool_decide (is_Some (financeInvoices s !! inv_ID copy))
      then (Err ErrFinanceIdempotencyConflict, invoice, s) else
      if (inv_ProviderInvoiceID copy != "") &&
         map_any (λ e, (inv_Provider e == inv_Provider copy) &&
                       (inv_ProviderInvoiceID e == inv_ProviderInvoiceID copy)) (financeInvoices s)
      then (Err ErrFinanceIdempotencyConflict, invoice, s) else
      let copy := copy <| inv_CreatedAt := now |> in
      (Ok true, copy,
       s <| financeInvoices := <[inv_ID copy := copy]> (financeInvoices s) |>
         <| financeInvoiceKeys := <[inv_IdempotencyKey copy := inv_ID copy]> (financeInvoiceKeys s) |>)
  end.

Definition GetFinanceInvoice (s : memoryStore) (id : string) : result error FinanceInvoice :=
  match financeInvoices s !! TrimSpace id with
  | Some invoice => Ok invoice
  | None => Err ErrFinanceRecordNotFound
  end.

Definition ListFinanceInvoices `{MapOrder} (s : memoryStore)
    (accountUUID subscriptionUUID : string) (limit : Z) : list FinanceInvoice :=
  limit_to limit (sort_slice (λ a b, After (inv_CreatedAt a) (inv_CreatedAt b))
    (filter (λ i, ((accountUUID != "") && (inv_AccountUUID i != accountUUID)) ||
                  ((subscriptionUUID != "") && (inv_SubscriptionUUID i != subscriptionUUID)) = false)
       (range (financeInvoices s)).*2)).

(** ** Payments *)

Definition normPayment (newID : string) (payment : FinancePayment) : FinancePayment :=
  payment
    <| pay_ID := financeID newID (pay_ID payment) |>
    <| pay_IdempotencyKey := TrimSpace (pay_IdempotencyKey payment) |>
    <| pay_InvoiceID := TrimSpace (pay_InvoiceID payment) |>
    <| pay_AccountUUID := TrimSpace (pay_AccountUUID payment) |>
    <| pay_Provider := financeProvider (pay_Provider payment) |>
    <| pay_Currency := financeCurrency (pay_Currency payment) |>
    <| pay_ProviderPaymentID := TrimSpace (pay_ProviderPaymentID payment) |>.

Definition paymentReplayConflict (old copy : FinancePayment) : bool :=
  (pay_InvoiceID old != pay_InvoiceID copy) ||
  negb (pay_AmountMinor old =? pay_AmountMinor copy) ||
  (pay_Currency old != pay_Currency copy) || (pay_Provider old != pay_Provider copy) ||
  (pay_ProviderPaymentID old != pay_ProviderPaymentID copy) ||
  (negb (IsZero (pay_PaidAt copy)) && negb (Equal (pay_PaidAt copy) (pay_PaidAt old))).

(** The payment settles an existing invoice of the same account, currency and
    amount. *)
Definition paymentSettles (s : memoryStore) (copy : FinancePayment) : bool :=
  match financeInvoices s !! pay_InvoiceID copy with
  | None => false
  | Some invoice =>
      (inv_AccountUUID invoice == pay_AccountUUID copy) &&
      (inv_Currency invoice == pay_Currency copy) &&
      (inv_AmountMinor invoice =? pay_AmountMinor copy)
  end.

Definition RecordFinancePayment (newID : string) (now : time) (payment : FinancePayment)
    (s : memoryStore) : result error bool * FinancePayment * memoryStore :=
  if (TrimSpace (pay_IdempotencyKey payment) == "") || (pay_AmountMinor payment <=? 0)
  then (Err ErrFinanceIdempotencyConflict, payment, s) else
  let copy := normPayment newID payment in
  if negb (validFinanceCurrency (pay_Currency copy))
  then (Err ErrFinanceIdempotencyConflict, payment, s) else
  match financePaymentKeys s !! pay_IdempotencyKey copy with
  | Some id =>
      match financePayments s !! id with
      | None => (Err nil_deref, payment, s)
      | Some old =>
          if paymentReplayConflict old copy
          then (Err ErrFinanceIdempotencyConflict, payment, s)
          else (Ok false, payment <| pay_ID := pay_ID old |>
                                  <| pay_CreatedAt := pay_CreatedAt old |>, s)
      end
  | None =>
      if negb (paymentSettles s copy) then (Err ErrFinanceIdempotencyConflict, payment, s) else
      if map_any (λ e, pay_InvoiceID e == pay_InvoiceID copy) (financePayments s)
      then (Err ErrFinanceInvoiceAlreadyPaid, payment, s) else
      if bool_decide (is_Some (financePayments s !! pay_ID copy))
      then (Err ErrFinanceIdempotencyConflict, payment, s) else
      if (pay_ProviderPaymentID copy != "") &&
         map_any (λ e, (pay_Provider e == pay_Provider copy) &&
                       (pay_ProviderPaymentID e == pay_ProviderPaymentID copy)) (financePayments s)
      then (Err ErrFinanceIdempotencyConflict, payment, s) else
      let copy := if IsZero (pay_PaidAt copy) then copy <| pay_PaidAt := now |> else copy in
      let copy := copy <| pay_CreatedAt := now |> in
      (Ok true, copy,
       s <| financePayments := <[pay_ID copy := copy]> (financePayments s) |>
         <| financePaymentKeys := <[pay_IdempotencyKey copy := pay_ID copy]> (financePaymentKeys s) |>)
  end.

Definition ListFinancePayments `{MapOrder} (s : memoryStore) (accountUUID : string)
    (limit : Z) : list FinancePayment :=
  limit_to limit (sort_slice (λ a b, After (pay_CreatedAt a) (pay_CreatedAt b))
    (filter (λ p, (accountUUID != "") && (pay_AccountUUID p != accountUUID) = false)
       (range (financePayments s)).*2)).

(** The first payment the loop meets. *)
Definition GetFinancePaymentByProvider `{MapOrder} (s : memoryStore)
    (provider providerPaymentID : string) : result error FinancePayment :=
  let provider := financeProvider provider in
  let providerPaymentID := TrimSpace providerPaymentID in
  if providerPaymentID == "" then Err ErrFinanceRecordNotFound else
  match List.find (λ p, (pay_Provider p == provider) &&
                        (pay_ProviderPaymentID p == providerPaymentID))
          (range (financePayments s)).*2 with
  | Some p => Ok p
  | None => Err ErrFinanceRecordNotFound
  end.

(** ** Refunds *)

Definition normRefund (newID : string) (refund : FinanceRefund) : FinanceRefund :=
  refund
    <| refund_ID := financeID newID (refund_ID refund) |>
    <| refund_IdempotencyKey := TrimSpace (refund_IdempotencyKey refund) |>
    <| refund_PaymentID := TrimSpace (refund_PaymentID refund) |>
    <| refund_Provider := financeProvider (refund_Provider refund) |>
    <| refund_Currency := financeCurrency (refund_Currency refund) |>
    <| refund_ProviderRefundID := TrimSpace (refund_ProviderRefundID refund) |>
    <| refund_Reason := TrimSpace (refund_Reason refund) |>.

Definition refundReplayConflict (old copy : FinanceRefund) : bool :=
  (refund_PaymentID old != refund_PaymentID copy) ||
  negb (refund_AmountMinor old =? refund_AmountMinor copy) ||
  (refund_Currency old != refund_Currency copy) ||
  (refund_Provider old != refund_Provider copy) ||
  (refund_ProviderRefundID old != refund_ProviderRefundID copy) ||
  (refund_Reason old != TrimSpace (refund_Reason copy)) ||
  (negb (IsZero (refund_RefundedAt copy)) &&
   negb (Equal (refund_RefundedAt copy) (refund_RefundedAt old))).

(** What an operation other than [key]'s holds back from payment [pid]: its
    requested amount, while it reserves and no refund is recorded for it. *)
Definition reservedBy (refundKeys : gmap string string) (pid key : string)
    (operation : FinanceOperation) : Z :=
  if financeOperationReservesRefund operation && (op_TargetID operation == pid) &&
     (op_IdempotencyKey operation != key) &&
     (get_str refundKeys (op_IdempotencyKey operation) == "")
  then match financeRefundRequest operation with Ok (amount, _) => amount | Err _ => 0 end
  else 0.

Definition refundOf (pid : string) (refund : FinanceRefund) : Z :=
  if refund_PaymentID refund == pid then refund_AmountMinor refund else 0.

(** The running [total] of [RecordFinanceRefund]. *)
Definition refundTotal (s : memoryStore) (pid key : string) : Z :=
  sum64_from (sum64 (refundOf pid) (values (financeRefunds s)))
    (reservedBy (financeRefundKeys s) pid key) (values (financeOperations s)).

(** A refund that shares its key with an operation must be the one the
    operation asked for, and its provider reference must not be bound to
    another operation. *)
Definition refundOperationCheck (s : memoryStore) (copy : FinanceRefund) : result error unit :=
  match financeOperationKeys s !! refund_IdempotencyKey copy with
  | None => Ok tt
  | Some operationID =>
      match financeOperations s !! operationID with
      | None => Err nil_deref
      | Some operation =>
          if negb (financeRefundMatchesOperation operation copy)
          then Err ErrFinanceIdempotencyConflict else
          if map_any (λ other, (op_ID other != operationID) &&
                 (op_Provider other == refund_Provider copy) &&
                 (op_OperationType other == "refund") &&
                 (op_ProviderOperationID other == refund_ProviderRefundID copy))
               (financeOperations s)
          then Err ErrFinanceIdempotencyConflict else Ok tt
      end
  end.

(** [json.RawMessage(fmt.Sprintf(`{"refund_uuid":%q}`, id))].  [%q] writes
    some control characters with escapes JSON does not have; bytes outside
    ASCII are taken to be printable text. *)
Definition json_quotable (c : ascii) : bool :=
  let n := N_of_ascii c in
  ((32 <=? n) && negb (n =? 127) || (8 <=? n) && (n <=? 10) || (12 <=? n) && (n <=? 13))%N.

Fixpoint all_quotable (s : string) : bool :=
  match s with EmptyString => true | String c s' => json_quotable c && all_quotable s' end.

Definition refundRecordedPayload (id : string) : RawMessage :=
  if all_quotable id then RawJSON (JObj [("refund_uuid", JStr id)]) else RawInvalid id.

(** Append to the trail of an operation. *)
Definition appendEvent (id : string) (e : FinanceOperationEvent) (s : memoryStore) : memoryStore :=
  s <| financeOperationEvents :=
    <[id := default [] (financeOperationEvents s !! id) ++ [e]]> (financeOperationEvents s) |>.

(** Bind the provider's reference to the operation of the same key. *)
Definition bindRefundOperation (newEventID : string) (copy : FinanceRefund) (s : memoryStore)
    : memoryStore :=
  let id := get_str (financeOperationKeys s) (refund_IdempotencyKey copy) in
  if id == "" then s else
  match financeOperations s !! id with
  | None => s
  | Some op =>
      let op := op <| op_ProviderOperationID := refund_ProviderRefundID copy |> in
      appendEvent id {|
        fev_ID := newEventID; fev_OperationID := id; fev_Attempt := op_AttemptCount op;
        fev_EventType := "refund_recorded"; fev_Status := op_Status op;
        fev_ProviderOperationID := refund_ProviderRefundID copy;
        fev_Payload := refundRecordedPayload (refund_ID copy);
        fev_Error := ""; fev_OccurredAt := refund_CreatedAt copy |}
      (s <| financeOperations := <[id := op]> (financeOperations s) |>)
  end.

Definition RecordFinanceRefund (newID newEventID : string) (now : time) (refund : FinanceRefund)
    (s : memoryStore) : result error bool * FinanceRefund * memoryStore :=
  if (TrimSpace (refund_IdempotencyKey refund) == "") || (refund_AmountMinor refund <=? 0)
  then (Err ErrFinanceIdempotencyConflict, refund, s) else
  let copy := normRefund newID refund in
  if negb (validFinanceCurrency (refund_Currency copy))
  then (Err ErrFinanceIdempotencyConflict, refund, s) else
  match financeRefundKeys s !! refund_IdempotencyKey copy with
  | Some id =>
      match financeRefunds s !! id with
      | None => (Err nil_deref, refund, s)
      | Some old =>
          if refundReplayConflict old copy
          then (Err ErrFinanceIdempotencyConflict, refund, s)
          else (Ok false, refund <| refund_ID := refund_ID old |>
                                 <| refund_CreatedAt := refund_CreatedAt old |>, s)
      end
  | None =>
  match refundOperationCheck s copy with
  | Err e => (Err e, refund, s)
  | Ok _ =>
  match financePayments s !! refund_PaymentID copy with
  | None => (Err ErrFinanceRecordNotFound, refund, s)
  | Some payment =>
      if pay_Currency payment != refund_Currency copy
      then (Err ErrFinanceRecordNotFound, refund, s) else
      let total := refundTotal s (refund_PaymentID copy) (refund_IdempotencyKey copy) in
      if int64 (pay_AmountMinor payment - total) <? refund_AmountMinor copy
      then (Err ErrFinanceRefundExceedsPayment, refund, s) else
      if bool_decide (is_Some (financeRefunds s !! refund_ID copy))
      then (Err ErrFinanceIdempotencyConflict, refund, s) else
      if (refund_ProviderRefundID copy != "") &&
         map_any (λ e, (refund_Provider e == refund_Provider copy) &&
                       (refund_ProviderRefundID e == refund_ProviderRefundID copy)) (financeRefunds s)
      then (Err ErrFinanceIdempotencyConflict, refund, s) else
      let copy := if IsZero (refund_RefundedAt copy) then copy <| refund_RefundedAt := now |> else copy in
      let copy := copy <| refund_CreatedAt := now |> in
      let s := s <| financeRefunds := <[refund_ID copy := copy]> (financeRefunds s) |>
                 <| financeRefundKeys := <[refund_IdempotencyKey copy := refund_ID copy]> (financeRefundKeys s) |> in
      (Ok true, copy, bindRefundOperation newEventID copy s)
  end end end.

Definition ListFinanceRefunds `{MapOrder} (s : memoryStore) (accountUUID : string)
    (limit : Z) : list FinanceRefund :=
  limit_to limit (sort_slice (λ a b, After (refund_CreatedAt a) (refund_CreatedAt b))
    (filter (λ r, match financePayments s !! refund_PaymentID r with
                  | None => false
                  | Some p => negb ((accountUUID != "") && (pay_AccountUUID p != accountUUID))
                  end = true)
       (range (financeRefunds s)).*2)).

(** ** Provider operations *)

Definition normOperation (operation : FinanceOperation) : FinanceOperation :=
  operation
    <| op_OperationType := TrimSpace (op_OperationType operation) |>
    <| op_TargetType := TrimSpace (op_TargetType operation) |>
    <| op_TargetID := TrimSpace (op_TargetID operation) |>
    <| op_Provider := financeProvider (op_Provider operation) |>
    <| op_Request := financeJSON (op_Request operation) |>.

Definition operationReplayConflict (stored operation : FinanceOperation) : bool :=
  (op_OperationType stored != op_OperationType operation) ||
  (op_TargetType stored != op_TargetType operation) ||
  (op_TargetID stored != op_TargetID operation) ||
  (op_Provider stored != op_Provider operation) ||
  negb (jsonEqual (op_Request stored) (op_Request operation)).

(** The record of a first attempt; the caller's other fields are kept. *)
Definition newOperation (newID key : string) (now : time) (operation : FinanceOperation)
    : FinanceOperation :=
  operation
    <| op_ID := financeID newID (op_ID operation) |>
    <| op_IdempotencyKey := key |>
    <| op_OperationType := TrimSpace (op_OperationType operation) |>
    <| op_TargetType := TrimSpace (op_TargetType operation) |>
    <| op_TargetID := TrimSpace (op_TargetID operation) |>
    <| op_Provider := financeProvider (op_Provider operation) |>
    <| op_Status := FinanceOperationPending |>
    <| op_Request := financeJSON (op_Request operation) |>
    <| op_Response := financeJSON RawEmpty |>
    <| op_CreatedAt := now |>.

(** What a call finds under its key: the operation to (re)start, a finished
    operation to report, or an error. *)
Inductive begin_lookup :=
| BeginStart (stored : FinanceOperation)
| BeginDone (stored : FinanceOperation)
| BeginError (e : error).

Definition beginLookup (newID key : string) (now : time) (operation : FinanceOperation)
    (s : memoryStore) : begin_lookup :=
  match financeOperationKeys s !! key with
  | Some storedID =>
      match financeOperations s !! storedID with
      | None => BeginError nil_deref
      | Some stored =>
          if operationReplayConflict stored operation
          then BeginError ErrFinanceIdempotencyConflict else
          if (op_Status stored == FinanceOperationInProgress) &&
             negb (financeRefundAttemptExpired now stored)
          then BeginError ErrFinanceOperationInProgress else
          if op_Status stored == FinanceOperationSucceeded then BeginDone stored else
          if (op_Status stored != FinanceOperationPending) &&
             (op_Status stored != FinanceOperationFailed) &&
             (op_Status stored != FinanceOperationReconciliationRequired) &&
             negb (financeRefundAttemptExpired now stored)
          then BeginError ErrFinanceOperationNotRetryable
          else BeginStart stored
      end
  | None =>
      let stored := newOperation newID key now operation in
      if bool_decide (is_Some (financeOperations s !! op_ID stored))
      then BeginError ErrFinanceIdempotencyConflict
      else BeginStart stored
  end.

(** The running [reserved] of [BeginFinanceOperation]. *)
Definition reservedTotal (s : memoryStore) (pid key : string) : Z :=
  let ownFact := get_str (financeRefundKeys s) key in
  sum64_from
    (sum64 (λ r, if (refund_PaymentID r == pid) && (refund_ID r != ownFact)
                 then refund_AmountMinor r else 0) (values (financeRefunds s)))
    (reservedBy (financeRefundKeys s) pid key) (values (financeOperations s)).

(** A refund may start only while the payment can still cover it. *)
Definition refundCapacity (s : memoryStore) (key targetID : string)
    (refundAmount : Z) (refundCurrency : string) : option error :=
  match financePayments s !! targetID with
  | None => Some ErrFinanceRecordNotFound
  | Some payment =>
      if pay_Currency payment != refundCurrency then Some ErrFinanceRecordNotFound else
      if int64 (pay_AmountMinor payment - reservedTotal s (pay_ID payment) key) <? refundAmount
      then Some ErrFinanceRefundExceedsPayment else None
  end.

(** The write part: one more attempt, in progress. *)
Definition startAttempt (newEventID key : string) (now : time) (stored : FinanceOperation)
    (s : memoryStore) : FinanceOperation * memoryStore :=
  let s := if bool_decide (is_Some (financeOperationKeys s !! key)) then s
           else s <| financeOperationKeys := <[key := op_ID stored]> (financeOperationKeys s) |> in
  let stored := stored
    <| op_AttemptCount := int64 (op_AttemptCount stored + 1) |>
    <| op_Status := FinanceOperationInProgress |>
    <| op_UpdatedAt := now |> in
  let s := s <| financeOperations := <[op_ID stored := stored]> (financeOperations s) |> in
  (stored, appendEvent (op_ID stored) {|
     fev_ID := newEventID; fev_OperationID := op_ID stored; fev_Attempt := op_AttemptCount stored;
     fev_EventType := "attempt_started"; fev_Status := FinanceOperationInProgress;
     fev_ProviderOperationID := ""; fev_Payload := op_Request stored; fev_Error := "";
     fev_OccurredAt := op_UpdatedAt stored |} s).

(** The amount a refund operation asks for; other operations ask for none. *)
Definition refundIntent (operation : FinanceOperation) : result error (option (Z * string)) :=
  if op_OperationType operation == "refund" then
    if (op_TargetType operation != "payment") || (op_TargetID operation == "")
    then Err ErrFinanceIdempotencyConflict else
    match financeRefundRequest operation with
    | Err _ => Err ErrFinanceIdempotencyConflict
    | Ok intent => Ok (Some intent)
    end
  else Ok None.

Definition BeginFinanceOperation (newID newEventID : string) (now : time)
    (operation : FinanceOperation) (s : memoryStore)
    : result error bool * FinanceOperation * memoryStore :=
  if (TrimSpace (op_IdempotencyKey operation) == "") || (TrimSpace (op_OperationType operation) == "")
  then (Err ErrFinanceIdempotencyConflict, operation, s) else
  let key := TrimSpace (op_IdempotencyKey operation) in
  let operation := normOperation operation in
  match refundIntent operation with
  | Err e => (Err e, operation, s)
  | Ok intent =>
  match beginLookup newID key now operation s with
  | BeginError e => (Err e, operation, s)
  | BeginDone stored => (Ok false, stored, s)
  | BeginStart stored =>
      match (match intent with
             | Some (amount, currency) => refundCapacity s key (op_TargetID operation) amount currency
             | None => None
             end) with
      | Some e => (Err e, operation, s)
      | None =>
          let '(stored, s) := startAttempt newEventID key now stored s in
          (Ok true, stored, s)
      end
  end end.

Definition CheckpointFinanceOperation (newEventID : string) (now : time) (operationID : string)
    (expectedAttempt : Z) (response : RawMessage) (s : memoryStore)
    : result error unit * memoryStore :=
  match financeOperations s !! operationID with
  | None => (Err ErrFinanceOperationNotRetryable, s)
  | Some op =>
      if (op_Status op != FinanceOperationInProgress) || negb (op_AttemptCount op =? expectedAttempt)
      then (Err ErrFinanceOperationNotRetryable, s) else
      let op := op <| op_Response := financeJSON response |> <| op_UpdatedAt := now |> in
      let s := s <| financeOperations := <[operationID := op]> (financeOperations s) |> in
      (Ok tt, appendEvent (op_ID op) {|
         fev_ID := newEventID; fev_OperationID := op_ID op; fev_Attempt := op_AttemptCount op;
         fev_EventType := "attempt_checkpoint"; fev_Status := op_Status op;
         fev_ProviderOperationID := ""; fev_Payload := financeJSON response; fev_Error := "";
         fev_OccurredAt := op_UpdatedAt op |} s)
  end.

(** The provider reference an operation ends with. *)
Definition finishProviderID (operation : FinanceOperation) (providerOperationID : string)
    : result error string :=
  let providerOperationID := TrimSpace providerOperationID in
  if op_ProviderOperationID operation != "" then
    if (providerOperationID != "") && (providerOperationID != op_ProviderOperationID operation)
    then Err ErrFinanceIdempotencyConflict
    else Ok (op_ProviderOperationID operation)
  else Ok providerOperationID.

(** [operationErr] is the text of the error, if any; [expectedAttempt] the
    variadic argument. *)
Definition FinishFinanceOperation (newEventID : string) (now : time)
    (operationID status providerOperationID : string) (response : RawMessage)
    (operationErr : option string) (nextAttemptAt : option time) (expectedAttempt : list Z)
    (s : memoryStore) : result error unit * memoryStore :=
  if (status != FinanceOperationSucceeded) && (status != FinanceOperationFailed) &&
     (status != FinanceOperationReconciliationRequired)
  then (Err ErrFinanceOperationNotRetryable, s) else
  match financeOperations s !! TrimSpace operationID with
  | None => (Err ErrFinanceRecordNotFound, s)
  | Some operation =>
      if op_Status operation != FinanceOperationInProgress
      then (Err ErrFinanceOperationNotRetryable, s) else
      if match expectedAttempt with
         | attempt :: _ => negb (op_AttemptCount operation =? attempt) | [] => false end
      then (Err ErrFinanceOperationNotRetryable, s) else
      match finishProviderID operation providerOperationID with
      | Err e => (Err e, s)
      | Ok providerOperationID =>
          if (providerOperationID != "") &&
             map_any (λ e, (op_ID e != op_ID operation) && (op_Provider e == op_Provider operation) &&
                           (op_OperationType e == op_OperationType operation) &&
                           (op_ProviderOperationID e == providerOperationID)) (financeOperations s)
          then (Err ErrFinanceIdempotencyConflict, s) else
          let status := if (operationErr != None) && (status != FinanceOperationReconciliationRequired)
                        then FinanceOperationFailed else status in
          let operation := operation
            <| op_Status := status |>
            <| op_ProviderOperationID := providerOperationID |>
            <| op_Response := financeJSON response |>
            <| op_NextAttemptAt := nextAttemptAt |>
            <| op_LastError := default "" operationErr |>
            <| op_UpdatedAt := now |> in
          let s := s <| financeOperations := <[TrimSpace operationID := operation]> (financeOperations s) |> in
          (Ok tt, appendEvent (op_ID operation) {|
             fev_ID := newEventID; fev_OperationID := op_ID operation;
             fev_Attempt := op_AttemptCount operation; fev_EventType := "attempt_" +:+ status;
             fev_Status := status; fev_ProviderOperationID := op_ProviderOperationID operation;
             fev_Payload := financeJSON response; fev_Error := op_LastError operation;
             fev_OccurredAt := op_UpdatedAt operation |} s)
      end
  end.

Definition GetFinanceOperation (s : memoryStore) (idempotencyKey : string)
    : result error FinanceOperation :=
  match financeOperationKeys s !! TrimSpace idempotencyKey with
  | None => Err ErrFinanceRecordNotFound
  | Some id =>
      match financeOperations s !! id with
      | None => Err nil_deref
      | Some op => Ok (op <| op_Request := financeJSON (op_Request op) |>
                          <| op_Response := financeJSON (op_Response op) |>)
      end
  end.

Definition needsReconciliation (s : memoryStore) (operation : FinanceOperation) : bool :=
  (op_Status operation == FinanceOperationPending) ||
  (op_Status operation == FinanceOperationInProgress) ||
  (op_Status operation == FinanceOperationFailed) ||
  (op_Status operation == FinanceOperationReconciliationRequired) ||
  ((op_OperationType operation == "refund") && (op_Status operation == FinanceOperationSucceeded) &&
   (get_str (financeRefundKeys s) (op_IdempotencyKey operation) == "")).

Definition ListFinanceOperationsForReconciliation `{MapOrder} (s : memoryStore) (limit : Z)
    : list FinanceOperation :=
  limit_to limit (sort_slice (λ a b, Before (op_UpdatedAt a) (op_UpdatedAt b))
    ((λ op, op <| op_Request := financeJSON (op_Request op) |>
               <| op_Response := financeJSON (op_Response op) |>) <$>
     filter (λ op, needsReconciliation s op = true) (range (financeOperations s)).*2)).

Definition ListFinanceOperationEvents (s : memoryStore) (operationID : string)
    : result error (list FinanceOperationEvent) :=
  match financeOperations s !! TrimSpace operationID with
  | None => Err ErrFinanceRecordNotFound
  | Some _ =>
      Ok ((λ e, e <| fev_Payload := financeJSON (fev_Payload e) |>) <$>
          default [] (financeOperationEvents s !! TrimSpace operationID))
  end.
