(* ===== verification/Lifecycle.v ===== *)
(** * Subscriptions: records, the change gate and purchases

    The subscription operations of [store.go], [subscription_source_plan.go],
    [subscription_lifecycle_policy.go] and the in-memory halves of
    [subscription_lifecycle.go], [subscription_purchase.go] and
    [subscription_refund_review.go].

    A lifecycle is stored by value: an operation works on a copy and writes it
    back, so a refused operation leaves it alone.  Provider operations are the
    rows of the finance tables, mutated in place. *)

From S2P Require Import Prelude GoLib Json StoreData Users Finance.
Open Scope Z_scope.
Open Scope bool_scope.
Open Scope go_scope.

(** ** Subscriptions of an account *)

Definition newSubscription (newID userID key : string) (now : time) : Subscription := {|
  sub_ID := newID; sub_UserID := userID; sub_Provider := ""; sub_PaymentMethod := "";
  sub_PaymentQRCode := ""; sub_Kind := ""; sub_PlanID := ""; sub_ExternalID := key;
  sub_Status := ""; sub_Meta := ∅; sub_CreatedAt := now; sub_UpdatedAt := 0;
  sub_CancelledAt := None
|}.

(** A nil subscription is [None].  The second component is the caller's
    struct after the call.  The account's map is created before the external
    identifier is checked. *)
Definition UpsertSubscription (newID : string) (now : time) (subscription : option Subscription)
    (s : memoryStore) : result error unit * option Subscription * memoryStore :=
  match subscription with
  | None => (Err (ErrMsg "subscription is required"), None, s)
  | Some sub =>
      let userID := TrimSpace (sub_UserID sub) in
      if userID == "" then (Err ErrUserNotFound, Some sub, s) else
      match byID s !! userID with
      | None => (Err ErrUserNotFound, Some sub, s)
      | Some _ =>
          let userSubs := default ∅ (subscriptions s !! userID) in
          let s := s <| subscriptions := <[userID := userSubs]> (subscriptions s) |> in
          let key := TrimSpace (sub_ExternalID sub) in
          if key == "" then (Err (ErrMsg "external id is required"), Some sub, s) else
          let sub := if TrimSpace (sub_PaymentMethod sub) == ""
                     then sub <| sub_PaymentMethod := TrimSpace (sub_Provider sub) |> else sub in
          let sub := sub <| sub_PaymentQRCode := TrimSpace (sub_PaymentQRCode sub) |> in
          let stored := default (newSubscription newID userID key now) (userSubs !! key) in
          let stored := stored
            <| sub_Provider := TrimSpace (sub_Provider sub) |>
            <| sub_PaymentMethod := TrimSpace (sub_PaymentMethod sub) |>
            <| sub_PaymentQRCode := TrimSpace (sub_PaymentQRCode sub) |>
            <| sub_Kind := TrimSpace (sub_Kind sub) |>
            <| sub_PlanID := TrimSpace (sub_PlanID sub) |>
            <| sub_Status := TrimSpace (sub_Status sub) |>
            <| sub_Meta := sub_Meta sub |>
            <| sub_UpdatedAt := now |>
            <| sub_CancelledAt := match sub_CancelledAt sub with
                                  | Some t => Some t | None => sub_CancelledAt stored end |> in
          (Ok tt, Some stored,
           s <| subscriptions := <[userID := <[key := stored]> userSubs]> (subscriptions s) |>)
      end
  end.

Definition ListSubscriptionsByUser `{MapOrder} (s : memoryStore) (userID : string)
    : result error (list Subscription) :=
  let normalized := TrimSpace userID in
  if normalized == "" then Err ErrUserNotFound else
  Ok (sort_slice (λ a b, After (sub_CreatedAt a) (sub_CreatedAt b))
        (range (default ∅ (subscriptions s !! normalized))).*2).

Definition CancelSubscription (now : time) (userID externalID : string) (cancelledAt : time)
    (s : memoryStore) : result error Subscription * memoryStore :=
  let normalizedUserID := TrimSpace userID in
  if normalizedUserID == "" then (Err ErrUserNotFound, s) else
  match subscriptions s !! normalizedUserID with
  | None => (Err ErrSubscriptionNotFound, s)
  | Some subs =>
      let key := TrimSpace externalID in
      match subs !! key with
      | None => (Err ErrSubscriptionNotFound, s)
      | Some existing =>
          let existing := existing <| sub_Status := "cancelled" |>
            <| sub_CancelledAt := Some cancelledAt |> <| sub_UpdatedAt := now |> in
          (Ok existing,
           s <| subscriptions := <[normalizedUserID := <[key := existing]> subs]> (subscriptions s) |>)
      end
  end.

(** *** The plan an imported record came from, kept among the groups *)

Definition subscriptionSourcePlanPrefix : string := "subscription:source-plan:".

Fixpoint SubscriptionSourcePlan (groups : list string) : string :=
  match groups with
  | [] => ""
  | g :: groups' =>
      if HasPrefix g subscriptionSourcePlanPrefix
      then ToUpper (TrimPrefix g subscriptionSourcePlanPrefix)
      else SubscriptionSourcePlan groups'
  end.

Definition WithSubscriptionSourcePlan (groups : list string) (plan : string) : list string :=
  filter (λ g, HasPrefix g subscriptionSourcePlanPrefix = false) groups ++
  (if plan != "" then [(subscriptionSourcePlanPrefix +:+ ToLower plan)%string] else []).

Definition with_source_plan (s : memoryStore) (userID : string) (record : SubscriptionRecord)
    : SubscriptionRecord :=
  match user_by_id s userID with
  | Some u => record <| srec_PlanCode := SubscriptionSourcePlan (user_Groups u) |>
  | None => record
  end.

Definition GetSubscriptionRecord (s : memoryStore) (userID : string)
    : result error SubscriptionRecord :=
  match subscriptionRecords s !! userID with
  | None => Err ErrUserNotFound
  | Some record => Ok (with_source_plan s userID record)
  end.

Definition ListSubscriptionRecords `{MapOrder} (s : memoryStore) : list SubscriptionRecord :=
  sort_slice (λ a b, string_lt (srec_UserID a) (srec_UserID b))
    ((λ r, with_source_plan s (srec_UserID r) r) <$> (range (subscriptionRecords s)).*2).

(** ** The change policy *)

Definition SubscriptionChangeCooldown : duration := 30 * 24 * Hour.

Definition CooldownUntil (v : SubscriptionLifecycle) : option time :=
  match slc_LastChangeAt v with
  | None => None
  | Some t => Some (Add t SubscriptionChangeCooldown)
  end.

Definition CheckSubscriptionAction (v : SubscriptionLifecycle) (action : string) (now : time)
    : result error unit :=
  if slc_OperationID v != "" then Err ErrFinanceOperationInProgress else
  let? _ :=
    (if (action == "subscribe") || (action == "upgrade") || (action == "downgrade") ||
        (action == "renewal") then
       if slc_RefundReviewPending v && (action != "subscribe") then Err ErrSubscriptionChangePending
       else if slc_PendingPlanID v != "" then Err ErrSubscriptionChangePending else Ok tt
     else if (action == "cancel") || (action == "refund_execute") then Ok tt
     else Err ErrSubscriptionStateConflict) in
  if (action == "upgrade") || (action == "downgrade") || (action == "renewal") then
    match CooldownUntil v with
    | Some until => if Before now until then Err ErrSubscriptionCooldown else Ok tt
    | None => Ok tt
    end
  else Ok tt.

(** ** The gate *)

Definition zeroLifecycle : SubscriptionLifecycle := mkSubscriptionLifecycle "" 0 None "" "" None false.

(** [s.subscriptionLifecycles[userID]], the zero value when absent. *)
Definition lifecycle_of (s : memoryStore) (userID : string) : SubscriptionLifecycle :=
  default zeroLifecycle (subscriptionLifecycles s !! userID).

Definition unsettled (op : FinanceOperation) : bool :=
  (op_Status op != FinanceOperationSucceeded) && (op_Status op != FinanceOperationFailed).

Definition subscriptionPurchaseType : string := "subscription_purchase".

Definition purchasePending (op : FinanceOperation) (userID : string) : bool :=
  (op_OperationType op == subscriptionPurchaseType) && (op_TargetID op == userID) &&
  (op_TargetType op == "account") && unsettled op.

Definition refundReviewPending (op : FinanceOperation) (userID : string) : bool :=
  (op_OperationType op == "refund_review") && (op_TargetID op == userID) &&
  (op_TargetType op == "account") && unsettled op.

Definition GetSubscriptionLifecycle (s : memoryStore) (userID : string)
    : result error SubscriptionLifecycle :=
  match byID s !! userID with
  | None => Err ErrUserNotFound
  | Some _ =>
      let v := (lifecycle_of s userID) <| slc_AccountID := userID |> in
      Ok (if map_any (λ op, refundReviewPending op userID) (financeOperations s)
          then v <| slc_RefundReviewPending := true |> else v)
  end.

Definition checkLifecyclePreviewVersion (request : RawMessage) (version : Z) : result error unit :=
  match request with
  | RawEmpty => Ok tt
  | _ =>
      match raw_members request with
      | None => Err ErrSubscriptionStateConflict
      | Some members =>
          let '(quoted, ok) := decode_field "stateVersion" dec_int64_ptr members None in
          if negb ok then Err ErrSubscriptionStateConflict else
          match quoted with
          | Some v => if v =? version then Ok tt else Err ErrSubscriptionStateConflict
          | None => Ok tt
          end
      end
  end.

Definition actionOperation (newID userID key action : string) (request : RawMessage) (now : time)
    : FinanceOperation := {|
  op_ID := newID; op_IdempotencyKey := key; op_OperationType := "subscription_" +:+ action;
  op_TargetType := "account"; op_TargetID := userID; op_Provider := "stripe";
  op_ProviderOperationID := ""; op_Status := FinanceOperationInProgress; op_AttemptCount := 1;
  op_NextAttemptAt := None; op_LastError := ""; op_Request := financeJSON request;
  op_Response := financeJSON RawEmpty; op_CreatedAt := now; op_UpdatedAt := now
|}.

Definition sameAction (op : option FinanceOperation) (userID key action : string)
    (request : RawMessage) : bool :=
  match op with
  | None => false
  | Some op =>
      (op_IdempotencyKey op == key) && (op_TargetID op == userID) &&
      (op_TargetType op == "account") &&
      (op_OperationType op == ("subscription_" +:+ action)%string) &&
      jsonEqual (op_Request op) (financeJSON request)
  end.

(** A string member of an object, and whether [json.Unmarshal] reports no
    error. *)
Definition string_member (name : string) (raw : RawMessage) : string * bool :=
  match raw_members raw with
  | None => ("", false)
  | Some members => decode_field name dec_string members ""
  end.

Definition lifecycleAction (action : string) (request : RawMessage) : string :=
  if action != "purchase" then action else
  let '(quoted, ok) := string_member "action" request in
  if ok && (quoted == "upgrade") then "upgrade" else "subscribe".

(** The operation that stops a reservation: the first of the iteration. *)
Definition blocking (userID action : string) (request : RawMessage) (op : FinanceOperation) : bool :=
  purchasePending op userID ||
  ((lifecycleAction action request == "upgrade") || (action == "downgrade")) &&
  refundReviewPending op userID.

Definition actionEvent (newEventID : string) (op : FinanceOperation) (kind : string)
    (payload : RawMessage) (at_ : time) : FinanceOperationEvent := {|
  fev_ID := newEventID; fev_OperationID := op_ID op; fev_Attempt := op_AttemptCount op;
  fev_EventType := kind; fev_Status := op_Status op;
  fev_ProviderOperationID := op_ProviderOperationID op; fev_Payload := payload; fev_Error := "";
  fev_OccurredAt := at_
|}.

Definition ReserveSubscriptionAction `{MapOrder} (newID newEventID : string) (now : time)
    (userID key action : string) (request : RawMessage) (s : memoryStore)
    : result error FinanceOperation * memoryStore :=
  match byID s !! userID with
  | None => (Err ErrUserNotFound, s)
  | Some _ =>
  if key == "" then (Err ErrFinanceIdempotencyConflict, s) else
  let id := get_str (financeOperationKeys s) key in
  if id != "" then
    match financeOperations s !! id with
    | Some op =>
        if sameAction (Some op) userID key action request
        then (Ok (op <| op_Request := financeJSON (op_Request op) |>
                     <| op_Response := financeJSON (op_Response op) |>), s)
        else (Err ErrFinanceIdempotencyConflict, s)
    | None => (Err ErrFinanceIdempotencyConflict, s)
    end
  else
  let v := (lifecycle_of s userID) <| slc_AccountID := userID |> in
  match checkLifecyclePreviewVersion request (slc_Version v) with
  | Err e => (Err e, s)
  | Ok _ =>
  match CheckSubscriptionAction v (lifecycleAction action request) now with
  | Err e => (Err e, s)
  | Ok _ =>
  match List.find (λ kv, blocking userID action request kv.2) (range (financeOperations s)) with
  | Some (_, op) =>
      (Err (if purchasePending op userID then ErrFinanceOperationInProgress
            else ErrSubscriptionChangePending), s)
  | None =>
      let op := actionOperation newID userID key action request now in
      let v := v <| slc_OperationID := op_ID op |> <| slc_Version := int64 (slc_Version v + 1) |> in
      let s := s
        <| financeOperations := <[op_ID op := op]> (financeOperations s) |>
        <| financeOperationKeys := <[key := op_ID op]> (financeOperationKeys s) |>
        <| subscriptionLifecycles := <[userID := v]> (subscriptionLifecycles s) |> in
      (Ok op, appendEvent (op_ID op)
                (actionEvent newEventID op "attempt_started" (financeJSON (op_Request op)) (op_CreatedAt op)) s)
  end end end end.

(** Whether a confirmed operation starts a cool-down. *)
Definition changesPlan (op : FinanceOperation) : bool :=
  (op_OperationType op == "subscription_renewal") || (op_OperationType op == "subscription_upgrade") ||
  (op_OperationType op == "subscription_downgrade") ||
  ((op_OperationType op == "subscription_purchase") &&
   (lifecycleAction "purchase" (op_Request op) == "upgrade")).

Definition finishLifecycle (v : SubscriptionLifecycle) (op : FinanceOperation) (confirmed : bool)
    (pendingPlan : string) (effectiveAt : option time) (now : time)
    : result error SubscriptionLifecycle :=
  if slc_OperationID v != op_ID op then Err ErrSubscriptionStateConflict else
  if (pendingPlan == "") != (effectiveAt == None) then Err ErrSubscriptionStateConflict else
  if negb confirmed && (pendingPlan != "") then Err ErrSubscriptionStateConflict else
  let v :=
    if confirmed then
      let v := if changesPlan op then v <| slc_LastChangeAt := Some now |> else v in
      if (op_OperationType op == "subscription_downgrade") || (op_OperationType op == "subscription_cancel")
      then v <| slc_PendingPlanID := pendingPlan |> <| slc_EffectiveAt := effectiveAt |> else v
    else v in
  Ok (v <| slc_OperationID := "" |> <| slc_Version := int64 (slc_Version v + 1) |>).

Definition FinishSubscriptionAction (newEventID : string) (now : time)
    (userID id providerID : string) (response : RawMessage) (confirmed : bool)
    (pendingPlan : string) (effectiveAt : option time) (s : memoryStore)
    : result error unit * memoryStore :=
  match financeOperations s !! id with
  | None => (Err ErrFinanceRecordNotFound, s)
  | Some op =>
      if (op_TargetID op != userID) || (op_TargetType op != "account")
      then (Err ErrFinanceRecordNotFound, s) else
      if (op_ProviderOperationID op != "") && (op_ProviderOperationID op != providerID)
      then (Err ErrFinanceIdempotencyConflict, s) else
      if (op_Status op == FinanceOperationSucceeded) || (op_Status op == FinanceOperationFailed) then
        if ((op_Status op == FinanceOperationSucceeded) != confirmed) ||
           negb (jsonEqual (op_Response op) (financeJSON response))
        then (Err ErrFinanceIdempotencyConflict, s) else (Ok tt, s)
      else
      match finishLifecycle (lifecycle_of s userID) op confirmed pendingPlan effectiveAt now with
      | Err e => (Err e, s)
      | Ok v =>
          let op := op
            <| op_Status := if confirmed then FinanceOperationSucceeded else FinanceOperationFailed |>
            <| op_ProviderOperationID := providerID |>
            <| op_Response := financeJSON response |>
            <| op_UpdatedAt := now |> in
          let s := s <| financeOperations := <[id := op]> (financeOperations s) |>
                     <| subscriptionLifecycles := <[userID := v]> (subscriptionLifecycles s) |> in
          (Ok tt, appendEvent id {|
             fev_ID := newEventID; fev_OperationID := id; fev_Attempt := op_AttemptCount op;
             fev_EventType := "attempt_finished"; fev_Status := op_Status op;
             fev_ProviderOperationID := providerID; fev_Payload := financeJSON response;
             fev_Error := ""; fev_OccurredAt := now |} s)
      end
  end.

(** ** Purchases *)

Definition PendingSubscriptionPurchase `{MapOrder} (s : memoryStore) (userID : string)
    : option FinanceOperation :=
  match List.find (λ kv, purchasePending kv.2 userID) (range (financeOperations s)) with
  | Some (_, op) => Some (op <| op_Request := financeJSON (op_Request op) |>
                             <| op_Response := financeJSON (op_Response op) |>)
  | None => None
  end.

(** [newKey] is the [uuid.NewString()] of the idempotency key. *)
Definition ReserveSubscriptionPurchase `{MapOrder} (newKey newID newEventID : string) (now : time)
    (userID : string) (request : RawMessage) (s : memoryStore)
    : result error FinanceOperation * memoryStore :=
  ReserveSubscriptionAction newID newEventID now userID ("subscription-purchase:" +:+ newKey)
    "purchase" request s.

Definition UpdateSubscriptionPurchase (newEventID : string) (now : time) (id providerID : string)
    (response : RawMessage) (complete : bool) (s : memoryStore) : result error unit * memoryStore :=
  if complete then
    let userID := match financeOperations s !! id with Some op => op_TargetID op | None => "" end in
    if userID == "" then (Err ErrFinanceRecordNotFound, s) else
    let outcome := (string_member "outcome" response).1 in
    FinishSubscriptionAction newEventID now userID id providerID response
      (outcome == "webhook_confirmed") "" None s
  else
  match financeOperations s !! id with
  | None => (Err ErrFinanceRecordNotFound, s)
  | Some op =>
      if op_OperationType op != subscriptionPurchaseType then (Err ErrFinanceRecordNotFound, s) else
      if (op_ProviderOperationID op != "") && (op_ProviderOperationID op != providerID)
      then (Err ErrFinanceIdempotencyConflict, s) else
      if (op_Status op == FinanceOperationSucceeded) || (op_Status op == FinanceOperationFailed)
      then (Ok tt, s) else
      let op := op <| op_ProviderOperationID := providerID |> <| op_Response := financeJSON response |>
                   <| op_Status := FinanceOperationReconciliationRequired |> <| op_UpdatedAt := now |> in
      (Ok tt, s <| financeOperations := <[id := op]> (financeOperations s) |>)
  end.

(** ** Refund reviews *)

Definition validReview (op : FinanceOperation) : bool :=
  (op_OperationType op == "refund_review") && (op_TargetType op == "account") &&
  (op_TargetID op != "") && (op_Provider op == "stripe") &&
  (op_IdempotencyKey op == ("subscription-refund-review:" +:+ op_TargetID op)%string).

(** Returns the caller's operation after the call. *)
Definition CreateSubscriptionRefundReview (newID newEventID : string) (now : time)
    (op : FinanceOperation) (expectedVersion : Z) (s : memoryStore)
    : result error unit * FinanceOperation * memoryStore :=
  if negb (validReview op) then (Err ErrFinanceIdempotencyConflict, op, s) else
  match byID s !! op_TargetID op with
  | None => (Err ErrUserNotFound, op, s)
  | Some _ =>
  let id := get_str (financeOperationKeys s) (op_IdempotencyKey op) in
  if id != "" then
    match financeOperations s !! id with
    | Some saved => (Ok tt, saved <| op_Request := financeJSON (op_Request saved) |>, s)
    | None => (Err nil_deref, op, s)
    end
  else
  let v := lifecycle_of s (op_TargetID op) in
  if (slc_OperationID v != "") || negb (slc_Version v =? expectedVersion)
  then (Err ErrSubscriptionStateConflict, op, s) else
  if map_any (λ other, purchasePending other (op_TargetID op)) (financeOperations s)
  then (Err ErrFinanceOperationInProgress, op, s) else
  let copy := op <| op_ID := newID |> <| op_Request := financeJSON (op_Request op) |>
    <| op_Response := financeJSON RawEmpty |> <| op_Status := FinanceOperationInProgress |>
    <| op_AttemptCount := 1 |> <| op_CreatedAt := now |> <| op_UpdatedAt := now |> in
  let v := v <| slc_AccountID := op_TargetID op |> <| slc_Version := int64 (slc_Version v + 1) |> in
  let s := s
    <| financeOperations := <[op_ID copy := copy]> (financeOperations s) |>
    <| financeOperationKeys := <[op_IdempotencyKey copy := op_ID copy]> (financeOperationKeys s) |> in
  let s := appendEvent (op_ID copy) {|
     fev_ID := newEventID; fev_OperationID := op_ID copy; fev_Attempt := 1;
     fev_EventType := "review_requested"; fev_Status := op_Status copy;
     fev_ProviderOperationID := ""; fev_Payload := financeJSON (op_Request copy); fev_Error := "";
     fev_OccurredAt := now |} s in
  (Ok tt, copy <| op_Request := financeJSON (op_Request copy) |>,
   s <| subscriptionLifecycles := <[op_TargetID op := v]> (subscriptionLifecycles s) |>)
  end.
