(* ===== verification/FinanceInv.v ===== *)
(** * Finance: invariants

    The books kept by [Finance]: every table agrees with its idempotency
    index, an invoice is paid at most once and in full, and what is refunded
    or reserved for refund never exceeds the payment it comes from. *)

From S2P Require Import Prelude GoLib Json StoreData Finance Lifecycle.
Open Scope Z_scope.
Open Scope bool_scope.
Open Scope go_scope.

(** ** Tables with an idempotency index *)

Section keyed.
Context {A : Type} (fid fkey : A → string).

Record keyed (m : gmap string A) (idx : gmap string string) : Prop := {
  keyed_row : ∀ id x, m !! id = Some x → fid x = id ∧ idx !! fkey x = Some id;
  keyed_idx : ∀ k id, idx !! k = Some id → ∃ x, m !! id = Some x ∧ fkey x = k
}.

Lemma keyed_empty : keyed ∅ ∅.
Proof. constructor; intros ? ? H; by rewrite lookup_empty in H. Qed.

Lemma keyed_new m idx x :
  keyed m idx → m !! fid x = None → idx !! fkey x = None →
  keyed (<[fid x := x]> m) (<[fkey x := fid x]> idx).
Proof.
  intros [Hr Hi] Hm Hk. constructor.
  - intros id y [[<- <-]|[Hne Hy]]%lookup_insert_Some; [by simplify_map_eq|].
    destruct (Hr _ _ Hy) as [<- Hy']. split; [done|].
    rewrite lookup_insert_ne; [done|congruence].
  - intros k id [[<- <-]|[Hne Hy]]%lookup_insert_Some; [exists x; by simplify_map_eq|].
    destruct (Hi _ _ Hy) as (y & Hy' & <-). exists y. split; [|done].
    rewrite lookup_insert_ne; [done|congruence].
Qed.

Lemma keyed_update m idx id x y :
  keyed m idx → m !! id = Some x → fid y = fid x → fkey y = fkey x →
  keyed (<[id := y]> m) idx.
Proof.
  intros [Hr Hi] Hx Ef Ek. destruct (Hr _ _ Hx) as [E1 E2]. constructor.
  - intros id' z [[<- <-]|[Hne Hz]]%lookup_insert_Some; [|by apply Hr].
    by rewrite Ef, Ek.
  - intros k id' Hk. destruct (Hi _ _ Hk) as (z & Hz & <-).
    destruct (decide (id = id')) as [->|Hne].
    + exists y. simplify_map_eq. by rewrite Ek.
    + exists z. by rewrite lookup_insert_ne.
Qed.

(** Two rows with the same key are the same row. *)
Lemma keyed_inj m idx i j x y :
  keyed m idx → m !! i = Some x → m !! j = Some y → fkey x = fkey y → i = j.
Proof.
  intros [Hr _] Hx Hy E. destruct (Hr _ _ Hx) as [_ H1], (Hr _ _ Hy) as [_ H2].
  rewrite E in H1. congruence.
Qed.

Lemma keyed_absent m idx x id :
  keyed m idx → idx !! fkey x = None → m !! id = Some x → False.
Proof. intros [Hr _] Hk Hx. destruct (Hr _ _ Hx) as [_ H]. congruence. Qed.
End keyed.

(** ** The budget of a payment *)

(** What an operation holds back from payment [pid]. *)
Definition heldBy (refundKeys : gmap string string) (pid : string) (op : FinanceOperation) : Z :=
  if financeOperationReservesRefund op && (op_TargetID op == pid) &&
     (get_str refundKeys (op_IdempotencyKey op) == "")
  then match financeRefundRequest op with Ok (amount, _) => amount | Err _ => 0 end
  else 0.

Definition refunded (s : memoryStore) (pid : string) : Z :=
  msum (refundOf pid) (financeRefunds s).
Definition held (s : memoryStore) (pid : string) : Z :=
  msum (heldBy (financeRefundKeys s) pid) (financeOperations s).

(** The reservations seen by a call with idempotency key [key]. *)
Definition held_by_others (s : memoryStore) (pid key : string) : Z :=
  msum (reservedBy (financeRefundKeys s) pid key) (financeOperations s).

Record fin_ok (s : memoryStore) : Prop := {
  fi_inv : keyed inv_ID inv_IdempotencyKey (financeInvoices s) (financeInvoiceKeys s);
  fi_pay : keyed pay_ID pay_IdempotencyKey (financePayments s) (financePaymentKeys s);
  fi_ref : keyed refund_ID refund_IdempotencyKey (financeRefunds s) (financeRefundKeys s);
  fi_op : keyed op_ID op_IdempotencyKey (financeOperations s) (financeOperationKeys s);
  fi_amount : ∀ id i, financeInvoices s !! id = Some i → in_int64 (inv_AmountMinor i);
  fi_settles : ∀ id p, financePayments s !! id = Some p →
    0 < pay_AmountMinor p ∧ ∃ i, financeInvoices s !! pay_InvoiceID p = Some i ∧
    inv_AccountUUID i = pay_AccountUUID p ∧ inv_Currency i = pay_Currency p ∧
    inv_AmountMinor i = pay_AmountMinor p;
  fi_once : ∀ i j p q, financePayments s !! i = Some p → financePayments s !! j = Some q →
    pay_InvoiceID p = pay_InvoiceID q → i = j;
  fi_refunds : ∀ id r, financeRefunds s !! id = Some r →
    id ≠ "" ∧ 0 < refund_AmountMinor r ∧ ∃ p, financePayments s !! refund_PaymentID r = Some p ∧
    pay_Currency p = refund_Currency r;
  fi_reserves : ∀ id o, financeOperations s !! id = Some o →
    financeOperationReservesRefund o = true → is_Some (financePayments s !! op_TargetID o) ∧
    ∃ a c, financeRefundRequest o = Ok (a, c);
  fi_budget : ∀ id p, financePayments s !! id = Some p →
    refunded s id + held s id ≤ pay_AmountMinor p;
  fi_opid : financeOperations s !! "" = None
}.

(** *** Measures *)

Lemma financeRefundRequest_pos op a c : financeRefundRequest op = Ok (a, c) → 0 < a.
Proof.
  unfold financeRefundRequest. intros H. destruct (raw_members _); [|done].
  destruct (decode_field "amount_minor" _ _ _) as [a' okA].
  destruct (decode_field "currency" _ _ _) as [c' okC].
  destruct (negb _); [done|]. destruct ((a' <=? 0) || _) eqn:E; [done|].
  injection H as <- <-. apply orb_false_iff in E as [E _]. lia.
Qed.

Lemma heldBy_nonneg keys pid op : 0 ≤ heldBy keys pid op.
Proof.
  unfold heldBy. destruct (_ && _ && _); [|lia].
  destruct (financeRefundRequest op) as [[a c]|] eqn:E; [|lia].
  apply financeRefundRequest_pos in E. lia.
Qed.

Lemma reservedBy_heldBy keys pid key op :
  reservedBy keys pid key op = if op_IdempotencyKey op == key then 0 else heldBy keys pid op.
Proof.
  unfold reservedBy, heldBy.
  destruct (op_IdempotencyKey op == key); simpl; by rewrite ?andb_false_r, ?andb_true_r.
Qed.

Lemma reservedBy_le keys pid key op : reservedBy keys pid key op ≤ heldBy keys pid op.
Proof.
  rewrite reservedBy_heldBy. pose proof (heldBy_nonneg keys pid op). case_match; lia.
Qed.

Lemma held_by_others_le s pid key : held_by_others s pid key ≤ held s pid.
Proof. apply msum_le. intros. apply reservedBy_le. Qed.

Lemma held_by_others_nonneg s pid key : 0 ≤ held_by_others s pid key.
Proof.
  apply msum_nonneg. intros k op _. rewrite reservedBy_heldBy.
  pose proof (heldBy_nonneg (financeRefundKeys s) pid op). case_match; lia.
Qed.

Lemma refunded_nonneg s pid : fin_ok s → 0 ≤ refunded s pid.
Proof.
  intros Hs. apply msum_nonneg. intros k r Hr. unfold refundOf.
  destruct (fi_refunds s Hs _ _ Hr) as (_ & ? & _). case_match; lia.
Qed.

(** Excluding a key removes exactly what its operation holds. *)
Lemma held_split s pid key id op :
  fin_ok s → financeOperations s !! id = Some op → op_IdempotencyKey op = key →
  held s pid = held_by_others s pid key + heldBy (financeRefundKeys s) pid op.
Proof.
  intros Hs Hop Hk. unfold held, held_by_others.
  rewrite !(msum_delete _ (financeOperations s) id op) by done.
  rewrite reservedBy_heldBy, bool_decide_true by done.
  assert (msum (reservedBy (financeRefundKeys s) pid key) (delete id (financeOperations s)) =
          msum (heldBy (financeRefundKeys s) pid) (delete id (financeOperations s))) as ->; [|lia].
  apply msum_ext. intros j o [Hne Ho]%lookup_delete_Some. rewrite reservedBy_heldBy.
  rewrite bool_decide_false; [done|]. intros E.
  apply Hne, (keyed_inj _ _ _ _ _ _ _ _ (fi_op s Hs) Hop Ho). congruence.
Qed.

Lemma held_no_key s pid key :
  fin_ok s → financeOperationKeys s !! key = None →
  held s pid = held_by_others s pid key.
Proof.
  intros Hs Hk. apply msum_ext. intros j o Ho. rewrite reservedBy_heldBy.
  rewrite bool_decide_false; [done|]. intros <-.
  exact (keyed_absent _ _ _ _ _ _ (fi_op s Hs) Hk Ho).
Qed.

(** *** The 64-bit totals are exact *)

Lemma pay_amount_range s id p :
  fin_ok s → financePayments s !! id = Some p → 0 < pay_AmountMinor p ≤ int64_max.
Proof.
  intros Hs Hp. destruct (fi_settles s Hs _ _ Hp) as (? & i & Hi & _ & _ & Ha).
  pose proof (fi_amount s Hs _ _ Hi) as [_ ?]. lia.
Qed.

Lemma refundTotal_exact s pid key p :
  fin_ok s → financePayments s !! pid = Some p →
  refundTotal s pid key = refunded s pid + held_by_others s pid key ∧
  int64 (pay_AmountMinor p - refundTotal s pid key) =
    pay_AmountMinor p - refunded s pid - held_by_others s pid key.
Proof.
  intros Hs Hp. pose proof (refunded_nonneg s pid Hs). pose proof (held_by_others_nonneg s pid key).
  pose proof (held_by_others_le s pid key). pose proof (fi_budget s Hs _ _ Hp).
  pose proof (pay_amount_range _ _ _ Hs Hp).
  assert (refundTotal s pid key = refunded s pid + held_by_others s pid key) as E.
  { unfold refundTotal. rewrite sum64_sum, sum64_from_sum. apply int64_id.
    unfold in_int64, int64_min, refunded, held_by_others, msum in *. lia. }
  split; [done|]. rewrite E, int64_id; [lia|]. unfold in_int64, int64_min, int64_max in *. lia.
Qed.

Lemma reservedTotal_exact s pid key p :
  fin_ok s → financePayments s !! pid = Some p → get_str (financeRefundKeys s) key = "" →
  int64 (pay_AmountMinor p - reservedTotal s pid key) =
    pay_AmountMinor p - refunded s pid - held_by_others s pid key.
Proof.
  intros Hs Hp Hk. destruct (refundTotal_exact s pid key p Hs Hp) as [_ <-].
  do 2 f_equal. unfold reservedTotal, refundTotal. f_equal. rewrite !sum64_sum. f_equal.
  apply sum_list_ext. intros r [id Hr]%elem_of_values. unfold refundOf.
  destruct (fi_refunds s Hs _ _ Hr) as [Hne _].
  destruct (keyed_row _ _ _ _ (fi_ref s Hs) _ _ Hr) as [-> _].
  by rewrite Hk, (bool_decide_false (id = "")), andb_true_r by done.
Qed.

(** ** Preservation *)

(** The tables the invariant speaks about. *)
Definition same_books (s s' : memoryStore) : Prop :=
  financeInvoices s' = financeInvoices s ∧ financeInvoiceKeys s' = financeInvoiceKeys s ∧
  financePayments s' = financePayments s ∧ financePaymentKeys s' = financePaymentKeys s ∧
  financeRefunds s' = financeRefunds s ∧ financeRefundKeys s' = financeRefundKeys s ∧
  financeOperations s' = financeOperations s ∧ financeOperationKeys s' = financeOperationKeys s.

Lemma fin_ok_same s s' : same_books s s' → fin_ok s → fin_ok s'.
Proof.
  intros (E1 & E2 & E3 & E4 & E5 & E6 & E7 & E8) [].
  constructor; unfold refunded, held in *; by rewrite ?E1, ?E2, ?E3, ?E4, ?E5, ?E6, ?E7, ?E8.
Qed.

Lemma fin_ok_new b : fin_ok (newMemoryStore b).
Proof.
  constructor; try apply keyed_empty; simpl; intros *; rewrite ?lookup_empty; done.
Qed.

Lemma financeID_nonempty newID id : newID ≠ "" → financeID newID id ≠ "".
Proof. intros H. unfold financeID. destruct (TrimSpace id == "") eqn:E; by bools. Qed.

(** Replacing an invoice by one with the same identity and amount. *)
Lemma fin_ok_set_invoice s id i j :
  fin_ok s → financeInvoices s !! id = Some i →
  inv_ID j = inv_ID i → inv_IdempotencyKey j = inv_IdempotencyKey i →
  inv_AmountMinor j = inv_AmountMinor i → inv_AccountUUID j = inv_AccountUUID i →
  inv_Currency j = inv_Currency i →
  fin_ok (s <| financeInvoices := <[id := j]> (financeInvoices s) |>).
Proof.
  intros [Hi Hp Hr Ho Ha Hse Hon Hre Hrs Hb Hne0] Hid E1 E2 E3 E4 E5.
  constructor; getset; try done.
  - by apply (keyed_update _ _ _ _ _ i).
  - intros id' x [[<- <-]|[_ Hx]]%lookup_insert_Some; [rewrite E3|]; by eapply Ha.
  - intros pid p Hpp. destruct (Hse _ _ Hpp) as (Hpos & x & Hx & X1 & X2 & X3).
    split; [done|]. destruct (decide (id = pay_InvoiceID p)) as [->|Hne].
    + exists j. simplify_map_eq. by rewrite E4, E5, E3.
    + exists x. by rewrite lookup_insert_ne.
Qed.

(** A new invoice. *)
Lemma fin_ok_add_invoice s id k i :
  fin_ok s → inv_ID i = id → inv_IdempotencyKey i = k →
  financeInvoices s !! id = None → financeInvoiceKeys s !! k = None →
  in_int64 (inv_AmountMinor i) →
  fin_ok (s <| financeInvoices := <[id := i]> (financeInvoices s) |>
            <| financeInvoiceKeys := <[k := id]> (financeInvoiceKeys s) |>).
Proof.
  intros [Hi Hp Hr Ho Ha Hse Hon Hre Hrs Hb Hne0] <- <- Hid Hk Hamt.
  constructor; getset; try done.
  - by apply keyed_new.
  - intros id' x [[<- <-]|[_ Hx]]%lookup_insert_Some; [done|by eapply Ha].
  - intros pid p Hpp. destruct (Hse _ _ Hpp) as (Hpos & x & Hx & X).
    split; [done|]. exists x. rewrite lookup_insert_ne; [done|congruence].
Qed.

(** Each result of a call is one of the ways it may end. *)
Ltac step_cases H :=
  repeat match type of H with
  | (if ?b then _ else _) = _ => destruct b eqn:?
  | match ?x with _ => _ end = _ => destruct x eqn:?
  end; try (injection H as <- <- <-; done).

Lemma replayServicePeriod_keeps old copy i :
  replayServicePeriod old copy = Ok i →
  inv_ID i = inv_ID old ∧ inv_IdempotencyKey i = inv_IdempotencyKey old ∧
  inv_AmountMinor i = inv_AmountMinor old ∧ inv_AccountUUID i = inv_AccountUUID old ∧
  inv_Currency i = inv_Currency old.
Proof.
  unfold replayServicePeriod. intros H.
  repeat case_match; simplify_eq; done.
Qed.

Lemma CreateFinanceInvoice_ok newID now invoice s r out s' :
  fin_ok s → in_int64 (inv_AmountMinor invoice) →
  CreateFinanceInvoice newID now invoice s = (r, out, s') → fin_ok s'.
Proof.
  intros Hs Hamt H. unfold CreateFinanceInvoice in H. cbv zeta in H.
  set (copy := if IsZero _ then _ else normInvoice newID invoice) in H.
  assert (inv_AmountMinor copy = inv_AmountMinor invoice) as Ec by (unfold copy; by destruct (IsZero _)).
  step_cases H.
  - injection H as <- <- <-.
    match goal with E : replayServicePeriod _ _ = _ |- _ =>
      apply replayServicePeriod_keeps in E as (?&?&?&?&?) end.
    by eapply fin_ok_set_invoice.
  - getset. injection H as <- <- <-. bools.
    apply fin_ok_add_invoice; getset; try done; [by apply eq_None_not_Some|by rewrite Ec].
Qed.

(** A new payment: nothing can have been refunded or reserved on it yet. *)
Lemma fresh_payment_budget s id :
  fin_ok s → financePayments s !! id = None → refunded s id + held s id = 0.
Proof.
  intros Hs Hid. unfold refunded, held.
  rewrite (msum_zero (refundOf id)), (msum_zero (heldBy _ id)); [done|..].
  - intros k o Ho. unfold heldBy.
    destruct (financeOperationReservesRefund o) eqn:Hr; [|done].
    destruct (fi_reserves s Hs _ _ Ho Hr) as [[p Hp] _].
    rewrite (bool_decide_false (op_TargetID o = id)) by congruence. done.
  - intros k r Hr. unfold refundOf. destruct (fi_refunds s Hs _ _ Hr) as (_ & _ & p & Hp & _).
    by rewrite bool_decide_false by congruence.
Qed.

Lemma fin_ok_add_payment s id k p :
  fin_ok s → pay_ID p = id → pay_IdempotencyKey p = k →
  financePayments s !! id = None → financePaymentKeys s !! k = None →
  0 < pay_AmountMinor p → paymentSettles s p = true →
  (∀ j q, financePayments s !! j = Some q → pay_InvoiceID q ≠ pay_InvoiceID p) →
  fin_ok (s <| financePayments := <[id := p]> (financePayments s) |>
            <| financePaymentKeys := <[k := id]> (financePaymentKeys s) |>).
Proof.
  intros Hs <- <- Hid Hk Hpos Hset Honce.
  pose proof (fresh_payment_budget _ _ Hs Hid) as Hfresh.
  destruct Hs as [Hi Hp Hr Ho Ha Hse Hon Hre Hrs Hb Hne0].
  constructor; getset; try done.
  - by apply keyed_new.
  - intros id' q [[<- <-]|[_ Hq]]%lookup_insert_Some; [|by apply Hse in Hq].
    split; [done|]. unfold paymentSettles in Hset.
    destruct (financeInvoices s !! pay_InvoiceID p) as [i|]; [|done]. exists i.
    bools. split_and!; try done. lia.
  - intros i j q q' [[<- <-]|[_ Hq]]%lookup_insert_Some [[<- <-]|[_ Hq']]%lookup_insert_Some E;
      [done|by destruct (Honce _ _ Hq')|by destruct (Honce _ _ Hq)|by eapply Hon].
  - intros id' r Hr'. destruct (Hre _ _ Hr') as (? & ? & q & Hq & ?). split_and!; try done.
    exists q. rewrite lookup_insert_ne; [done|congruence].
  - intros id' o Ho' Hres. destruct (Hrs _ _ Ho' Hres) as [[q Hq] Hreq]. split; [|done].
    exists q. rewrite lookup_insert_ne; [done|congruence].
  - intros id' q [[<- <-]|[_ Hq]]%lookup_insert_Some; [|by apply Hb in Hq].
    unfold refunded, held in *. getset. lia.
Qed.

Lemma RecordFinancePayment_ok newID now payment s r out s' :
  fin_ok s → RecordFinancePayment newID now payment s = (r, out, s') → fin_ok s'.
Proof.
  intros Hs H. unfold RecordFinancePayment in H. cbv zeta in H. step_cases H.
  getset. injection H as <- <- <-. bools.
  set (copy := if IsZero _ then _ else _) in *.
  assert (pay_ID copy = pay_ID (normPayment newID payment) ∧
          pay_IdempotencyKey copy = pay_IdempotencyKey (normPayment newID payment) ∧
          pay_AmountMinor copy = pay_AmountMinor payment ∧
          pay_InvoiceID copy = pay_InvoiceID (normPayment newID payment) ∧
          pay_AccountUUID copy = pay_AccountUUID (normPayment newID payment) ∧
          pay_Currency copy = pay_Currency (normPayment newID payment))
    as (E1 & E2 & E3 & E4 & E5 & E6) by (unfold copy; by destruct (IsZero _)).
  apply fin_ok_add_payment; getset; try done.
  - rewrite E1. by apply eq_None_not_Some.
  - by rewrite E2.
  - rewrite E3. lia.
  - unfold paymentSettles in *. getset. by rewrite E4, E5, E6, E3.
  - intros j q Hq. rewrite E4.
    match goal with E : map_any _ _ = false |- _ => rewrite map_any_false in E;
      specialize (E _ _ Hq) end. by bools.
Qed.

(** Replacing an operation by one that keeps its identity and does not start
    to reserve more. *)
Lemma fin_ok_set_operation s id o o' :
  fin_ok s → financeOperations s !! id = Some o →
  op_ID o' = op_ID o → op_IdempotencyKey o' = op_IdempotencyKey o →
  op_TargetID o' = op_TargetID o → op_Request o' = op_Request o →
  (financeOperationReservesRefund o' = true → financeOperationReservesRefund o = true) →
  fin_ok (s <| financeOperations := <[id := o']> (financeOperations s) |>).
Proof.
  intros [Hi Hp Hr Ho Ha Hse Hon Hre Hrs Hb Hne0] Hid E1 E2 E3 E4 E5.
  assert (Er : financeRefundRequest o' = financeRefundRequest o)
    by (unfold financeRefundRequest; by rewrite E4).
  constructor; getset; try done.
  - by apply (keyed_update _ _ _ _ _ o).
  - intros id' x [[<- <-]|[_ Hx]]%lookup_insert_Some Hres; [|by eapply Hrs].
    rewrite E3, Er. by eapply Hrs, E5.
  - intros pid p Hpp. specialize (Hb _ _ Hpp). unfold refunded, held in *. getset.
    rewrite (msum_insert_old _ _ _ _ o) by done.
    assert (heldBy (financeRefundKeys s) pid o' ≤ heldBy (financeRefundKeys s) pid o); [|lia].
    pose proof (heldBy_nonneg (financeRefundKeys s) pid o) as Hn. unfold heldBy in *.
    rewrite E2, E3, Er. destruct (financeOperationReservesRefund o'); [by rewrite E5|].
    done.
  - rewrite lookup_insert_ne; [done|]. intros ->. congruence.
Qed.

Lemma appendEvent_books id e s : same_books s (appendEvent id e s).
Proof. done. Qed.

(** A refund within the remaining budget. *)
Lemma fin_ok_add_refund s id k r p :
  fin_ok s → refund_ID r = id → refund_IdempotencyKey r = k → id ≠ "" →
  financeRefunds s !! id = None → financeRefundKeys s !! k = None →
  0 < refund_AmountMinor r → financePayments s !! refund_PaymentID r = Some p →
  pay_Currency p = refund_Currency r →
  refund_AmountMinor r ≤ pay_AmountMinor p - refunded s (refund_PaymentID r)
                           - held_by_others s (refund_PaymentID r) k →
  fin_ok (s <| financeRefunds := <[id := r]> (financeRefunds s) |>
            <| financeRefundKeys := <[k := id]> (financeRefundKeys s) |>).
Proof.
  intros Hs <- <- Hne Hid Hk Hpos Hpay Hcur Hcap.
  pose proof (λ pid, held_by_others_le s pid (refund_IdempotencyKey r)) as Hle.
  destruct Hs as [Hi Hp Hr Ho Ha Hse Hon Hre Hrs Hb Hne0].
  constructor; getset; try done.
  - by apply keyed_new.
  - intros id' x [[<- <-]|[_ Hx]]%lookup_insert_Some; [|by apply Hre in Hx]. eauto.
  - intros pid q Hq. specialize (Hb _ _ Hq). unfold refunded, held in *. getset.
    rewrite msum_insert_new by done.
    assert (msum (heldBy (<[refund_IdempotencyKey r:=refund_ID r]> (financeRefundKeys s)) pid)
              (financeOperations s) = held_by_others s pid (refund_IdempotencyKey r)) as ->.
    { apply msum_ext. intros j o _. rewrite reservedBy_heldBy. unfold heldBy, get_str.
      destruct (decide (op_IdempotencyKey o = refund_IdempotencyKey r)) as [->|Hn].
      - rewrite lookup_insert_eq. simpl default.
        rewrite (bool_decide_false (refund_ID r = "")), andb_false_r by done.
        by rewrite bool_decide_true.
      - by rewrite lookup_insert_ne, (bool_decide_false (op_IdempotencyKey o = _)). }
    specialize (Hle pid). unfold refundOf at 1. unfold held, refunded in *.
    destruct (decide (refund_PaymentID r = pid)) as [E|E].
    + rewrite bool_decide_true by done. simplify_eq. unfold held_by_others in *.  lia.
    + rewrite bool_decide_false by done. lia.
Qed.

Lemma bindRefundOperation_ok newEventID r s :
  fin_ok s → fin_ok (bindRefundOperation newEventID r s).
Proof.
  intros Hs. unfold bindRefundOperation. cbv zeta.
  destruct (_ == ""); [done|].
  destruct (financeOperations s !! _) as [o|] eqn:Ho; [|done].
  eapply fin_ok_same; [apply appendEvent_books|]. by apply (fin_ok_set_operation s _ o).
Qed.

Lemma RecordFinanceRefund_ok newID newEventID now refund s r out s' :
  fin_ok s → newID ≠ "" →
  RecordFinanceRefund newID newEventID now refund s = (r, out, s') → fin_ok s'.
Proof.
  intros Hs Hnew H. unfold RecordFinanceRefund in H. cbv zeta in H. step_cases H.
  getset. injection H as <- <- <-. bools.
  set (copy := if IsZero _ then _ else _) in *.
  assert (refund_ID copy = refund_ID (normRefund newID refund) ∧
          refund_IdempotencyKey copy = refund_IdempotencyKey (normRefund newID refund) ∧
          refund_AmountMinor copy = refund_AmountMinor (normRefund newID refund) ∧
          refund_PaymentID copy = refund_PaymentID (normRefund newID refund) ∧
          refund_Currency copy = refund_Currency (normRefund newID refund))
    as (E1 & E2 & E3 & E4 & E5) by (unfold copy; by destruct (IsZero _)).
  apply bindRefundOperation_ok.
  match goal with Hp : financePayments s !! _ = Some ?p |- _ =>
    destruct (refundTotal_exact s _ (refund_IdempotencyKey (normRefund newID refund)) p Hs Hp)
      as [_ Ht]; apply (fin_ok_add_refund _ _ _ _ p) end; getset;
    rewrite ?E1, ?E2, ?E3, ?E4, ?E5; try done.
  - apply financeID_nonempty. done.
  - by apply eq_None_not_Some.
  - unfold normRefund. getset. lia.
  - lia.
Qed.

(** ** Starting an attempt *)

(** The operation may reserve: its target exists, its request decodes, and
    the payments cover it besides what others hold. *)
Definition may_start (s : memoryStore) (o : FinanceOperation) : Prop :=
  (financeOperationReservesRefund o = true →
     is_Some (financePayments s !! op_TargetID o) ∧ ∃ a c, financeRefundRequest o = Ok (a, c)) ∧
  ∀ pid p, financePayments s !! pid = Some p →
    refunded s pid + held_by_others s pid (op_IdempotencyKey o) +
    heldBy (financeRefundKeys s) pid o ≤ pay_AmountMinor p.

Lemma fin_ok_start_new s id k o :
  fin_ok s → id ≠ "" → op_ID o = id → op_IdempotencyKey o = k → financeOperations s !! id = None →
  financeOperationKeys s !! k = None → may_start s o →
  fin_ok (s <| financeOperationKeys := <[k := id]> (financeOperationKeys s) |>
            <| financeOperations := <[id := o]> (financeOperations s) |>).
Proof.
  intros Hs Hne <- <- Hid Hk [Hm1 Hm2].
  pose proof (λ pid, held_no_key s pid _ Hs Hk) as Hh.
  destruct Hs as [Hi Hp Hr Ho Ha Hse Hon Hre Hrs Hb Hne0].
  constructor; getset; try done.
  - by apply keyed_new.
  - intros id' x [[<- <-]|[_ Hx]]%lookup_insert_Some; [done|by eapply Hrs].
  - intros pid p Hpp. specialize (Hm2 _ _ Hpp). unfold refunded, held in *. getset.
    rewrite msum_insert_new by done. specialize (Hh pid). lia.
  - by rewrite lookup_insert_ne.
Qed.

Lemma fin_ok_start_again s id o o' :
  fin_ok s → financeOperations s !! id = Some o →
  op_ID o' = op_ID o → op_IdempotencyKey o' = op_IdempotencyKey o → may_start s o' →
  fin_ok (s <| financeOperations := <[id := o']> (financeOperations s) |>).
Proof.
  intros Hs Hid E1 E2 [Hm1 Hm2].
  pose proof (λ pid, held_split s pid _ _ _ Hs Hid eq_refl) as Hh.
  destruct Hs as [Hi Hp Hr Ho Ha Hse Hon Hre Hrs Hb Hne0].
  constructor; getset; try done.
  - by apply (keyed_update _ _ _ _ _ o).
  - intros id' x [[<- <-]|[_ Hx]]%lookup_insert_Some; [done|by eapply Hrs].
  - intros pid p Hpp. specialize (Hm2 _ _ Hpp). unfold refunded, held in *. getset.
    rewrite (msum_insert_old _ _ _ _ o) by done. specialize (Hh pid). rewrite E2 in Hm2. lia.
  - rewrite lookup_insert_ne; [done|]. intros ->. congruence.
Qed.

Lemma others_within s pid p k :
  fin_ok s → financePayments s !! pid = Some p →
  refunded s pid + held_by_others s pid k ≤ pay_AmountMinor p.
Proof.
  intros Hs Hp. pose proof (fi_budget s Hs _ _ Hp). pose proof (held_by_others_le s pid k). lia.
Qed.

(** The capacity check is what makes a refund attempt admissible. *)
Lemma may_start_refund s o amount currency :
  fin_ok s → op_OperationType o = "refund" →
  financeRefundRequest o = Ok (amount, currency) →
  refundCapacity s (op_IdempotencyKey o) (op_TargetID o) amount currency = None →
  may_start s o.
Proof.
  intros Hs Ht Hreq Hcap. unfold refundCapacity in Hcap.
  destruct (financePayments s !! op_TargetID o) as [p|] eqn:Hp; [|done].
  destruct (keyed_row _ _ _ _ (fi_pay s Hs) _ _ Hp) as [Hpid _]. rewrite Hpid in Hcap.
  destruct (pay_Currency p != currency); [done|].
  destruct (_ <? amount) eqn:Ecap; [done|]. split; [eauto|].
  intros pid q Hq. pose proof (others_within s pid q (op_IdempotencyKey o) Hs Hq) as Hw.
  unfold heldBy. destruct (financeOperationReservesRefund o); [|simpl; lia]. simpl andb.
  destruct (decide (op_TargetID o = pid)) as [<-|Hne];
    [|rewrite (bool_decide_false (op_TargetID o = pid)) by done; simpl; lia].
  rewrite (bool_decide_true (op_TargetID o = _)) by done. simpl andb.
  destruct (decide (get_str (financeRefundKeys s) (op_IdempotencyKey o) = "")) as [E|E];
    [|rewrite bool_decide_false by done; lia].
  rewrite bool_decide_true, Hreq by done.
  rewrite (reservedTotal_exact s _ _ p Hs Hp E) in Ecap. simplify_eq. lia.
Qed.

Lemma may_start_other s o :
  fin_ok s → op_OperationType o ≠ "refund" → may_start s o.
Proof.
  intros Hs Ht. assert (financeOperationReservesRefund o = false) as E.
  { unfold financeOperationReservesRefund. by rewrite bool_decide_false. }
  split; [congruence|]. intros pid p Hp. unfold heldBy. rewrite E. simpl.
  pose proof (others_within s pid p (op_IdempotencyKey o) Hs Hp). lia.
Qed.

(** A retry that decodes to the amount and currency of the stored request. *)
Definition consistent_retry (s : memoryStore) (operation : FinanceOperation) : Prop :=
  ∀ id stored, financeOperationKeys s !! TrimSpace (op_IdempotencyKey operation) = Some id →
    financeOperations s !! id = Some stored →
    financeRefundRequest stored = financeRefundRequest (normOperation operation).

Lemma beginLookup_start newID key now operation s stored :
  beginLookup newID key now operation s = BeginStart stored →
  (∃ id, financeOperationKeys s !! key = Some id ∧ financeOperations s !! id = Some stored ∧
     operationReplayConflict stored operation = false) ∨
  (financeOperationKeys s !! key = None ∧ stored = newOperation newID key now operation ∧
     financeOperations s !! op_ID stored = None).
Proof.
  unfold beginLookup. destruct (financeOperationKeys s !! key) as [id|] eqn:Ek.
  - destruct (financeOperations s !! id) as [o|] eqn:Eo; [|done].
    destruct (operationReplayConflict o operation) eqn:Ec; [done|]. intros H.
    repeat (destruct (_ && _) in H; [done|]). destruct (_ == _) in H; [done|].
    repeat (destruct (_ && _) in H; [done|]). injection H as <-. left. eauto.
  - intros H. destruct (bool_decide _) eqn:E in H; [done|]. injection H as <-. bools.
    right. split_and!; try done. by apply eq_None_not_Some.
Qed.

Lemma financeProvider_idem p : financeProvider (financeProvider p) = financeProvider p.
Proof.
  unfold financeProvider. set (q := ToLower (TrimSpace p)).
  destruct (q == "") eqn:E; [done|].
  assert (ToLower (TrimSpace q) = q) as ->; [|by rewrite E].
  unfold q. by rewrite TrimSpace_ToLower, TrimSpace_idem, ToLower_idem.
Qed.

Lemma financeJSON_idem r : financeJSON (financeJSON r) = financeJSON r.
Proof. by destruct r. Qed.

(** What a started operation has in common with the request. *)
Lemma beginLookup_fields newID now operation s stored :
  fin_ok s → consistent_retry s operation →
  let key := TrimSpace (op_IdempotencyKey operation) in
  let norm := normOperation operation in
  beginLookup newID key now norm s = BeginStart stored →
  op_IdempotencyKey stored = key ∧ op_OperationType stored = op_OperationType norm ∧
  op_TargetID stored = op_TargetID norm ∧ financeRefundRequest stored = financeRefundRequest norm.
Proof.
  intros Hs Hc key norm H. apply beginLookup_start in H as [(id & Hk & Ho & Hcf)|(Hk & -> & _)].
  - unfold operationReplayConflict in Hcf. bools. split_and!; try done.
    + destruct (keyed_idx _ _ _ _ (fi_op s Hs) _ _ Hk) as (x & Hx & Hxk). congruence.
    + by apply (Hc id).
  - unfold newOperation, norm, normOperation. getset. rewrite !TrimSpace_idem. split_and!; try done.
    unfold financeRefundRequest. getset. by rewrite financeJSON_idem.
Qed.

Lemma BeginFinanceOperation_ok newID newEventID now operation s r out s' :
  fin_ok s → newID ≠ "" → consistent_retry s operation →
  BeginFinanceOperation newID newEventID now operation s = (r, out, s') → fin_ok s'.
Proof.
  intros Hs Hnew Hc H. unfold BeginFinanceOperation in H. cbv zeta in H.
  set (key := TrimSpace (op_IdempotencyKey operation)) in *.
  destruct (_ || _); [by injection H as <- <- <-|].
  destruct (refundIntent (normOperation operation)) as [intent|] eqn:Ei;
    [|by injection H as <- <- <-].
  destruct (beginLookup newID key now (normOperation operation) s) as [stored| |] eqn:El;
    [|by injection H as <- <- <-|by injection H as <- <- <-].
  destruct (beginLookup_fields _ _ _ _ _ Hs Hc El) as (F1 & F2 & F3 & F4).
  destruct (match intent with Some _ => _ | None => _ end) eqn:Ecap;
    [by injection H as <- <- <-|].
  assert (Hm : ∀ n t, may_start s (stored <| op_AttemptCount := n |>
                 <| op_Status := FinanceOperationInProgress |> <| op_UpdatedAt := t |>)).
  { intros n t. unfold refundIntent in Ei.
    destruct (decide (op_OperationType (normOperation operation) = "refund")) as [Et|Et].
    - rewrite bool_decide_true in Ei by done. destruct (_ || _); [done|].
      destruct (financeRefundRequest (normOperation operation)) as [[a c]|] eqn:Er; [|done].
      injection Ei as <-. apply (may_start_refund s _ a c Hs); getset;
        [congruence|by rewrite <-F4|by rewrite F1, F3].
    - apply may_start_other; [done|]. getset. congruence. }
  unfold startAttempt in H. cbv zeta in H. getset. injection H as <- <- <-.
  eapply fin_ok_same; [apply appendEvent_books|].
  apply beginLookup_start in El as [(id & Hk & Ho & _)|(Hk & Est & Hid)]; rewrite Hk.
  - rewrite bool_decide_true by eauto.
    destruct (keyed_row _ _ _ _ (fi_op s Hs) _ _ Ho) as [-> _].
    by apply (fin_ok_start_again s id stored).
  - rewrite bool_decide_false by (intros [? ?]; done). getset.
    apply fin_ok_start_new; try done. rewrite Est. by apply financeID_nonempty.
Qed.

Lemma CheckpointFinanceOperation_ok newEventID now id attempt response s r s' :
  fin_ok s → CheckpointFinanceOperation newEventID now id attempt response s = (r, s') → fin_ok s'.
Proof.
  intros Hs H. unfold CheckpointFinanceOperation in H.
  destruct (financeOperations s !! id) as [o|] eqn:Ho; [|by injection H as <- <-].
  destruct (_ || _); injection H as <- <-; [done|].
  eapply fin_ok_same; [apply appendEvent_books|]. by apply (fin_ok_set_operation s id o).
Qed.

Lemma in_progress_reserves o :
  financeOperationReservesRefund o = true →
  ∀ o', op_OperationType o' = op_OperationType o → op_TargetType o' = op_TargetType o →
  op_Status o' = FinanceOperationInProgress → financeOperationReservesRefund o' = true.
Proof.
  unfold financeOperationReservesRefund. intros H o' -> -> ->. bools.
  rewrite !bool_decide_true by done. by rewrite orb_true_r.
Qed.

Lemma FinishFinanceOperation_ok newEventID now id status pid response err next attempts s r s' :
  fin_ok s →
  FinishFinanceOperation newEventID now id status pid response err next attempts s = (r, s') →
  fin_ok s'.
Proof.
  intros Hs H. unfold FinishFinanceOperation in H. cbv zeta in H.
  destruct (_ && _ && _) in H; [by injection H as <- <-|].
  destruct (financeOperations s !! TrimSpace id) as [o|] eqn:Ho; [|by injection H as <- <-].
  destruct (op_Status o != FinanceOperationInProgress) eqn:Est; [by injection H as <- <-|].
  destruct (match attempts with [] => _ | _ => _ end); [by injection H as <- <-|].
  destruct (finishProviderID o pid); [|by injection H as <- <-].
  destruct (_ && _) in H; injection H as <- <-; [done|].
  eapply fin_ok_same; [apply appendEvent_books|]. apply (fin_ok_set_operation s _ o); try done.
  bools. intros Hres. by apply (in_progress_reserves _ Hres).
Qed.

(** ** Operations of the subscription lifecycle

    They live in the same table but concern accounts, never payments, so they
    reserve nothing. *)

Lemma not_refund_settled o o' :
  op_OperationType o ≠ "refund" ∨ op_TargetType o ≠ "payment" →
  op_OperationType o' = op_OperationType o → op_TargetType o' = op_TargetType o →
  financeOperationReservesRefund o' = true → financeOperationReservesRefund o = true.
Proof.
  unfold financeOperationReservesRefund. intros Hor -> -> H. bools. by destruct Hor.
Qed.

(** An operation filed without a look-up of its identifier. *)
Lemma fin_ok_file s o :
  fin_ok s → op_ID o ≠ "" → financeOperations s !! op_ID o = None →
  get_str (financeOperationKeys s) (op_IdempotencyKey o) = "" → op_OperationType o ≠ "refund" →
  fin_ok (s <| financeOperationKeys := <[op_IdempotencyKey o := op_ID o]> (financeOperationKeys s) |>
            <| financeOperations := <[op_ID o := o]> (financeOperations s) |>).
Proof.
  intros Hs Hne Hid Hk Ht. apply fin_ok_start_new; try done; [|by apply may_start_other].
  unfold get_str in Hk. destruct (financeOperationKeys s !! _) as [k|] eqn:Ek; [|done].
  simpl in Hk. subst k. destruct (keyed_idx _ _ _ _ (fi_op s Hs) _ _ Ek) as (x & Hx & _).
  pose proof (fi_opid s Hs). congruence.
Qed.

Lemma ReserveSubscriptionAction_ok `{MapOrder} newID ev now userID key action request s r s' :
  fin_ok s → newID ≠ "" → financeOperations s !! newID = None →
  ReserveSubscriptionAction newID ev now userID key action request s = (r, s') → fin_ok s'.
Proof.
  intros Hs Hne Hid Hr. unfold ReserveSubscriptionAction in Hr. cbv zeta in Hr.
  destruct (byID s !! userID); [|by injection Hr as <- <-].
  destruct (key == ""); [by injection Hr as <- <-|].
  destruct (get_str _ key == "") eqn:Ek; cbn [negb] in Hr;
    [|by repeat case_match; injection Hr as <- <-].
  destruct (checkLifecyclePreviewVersion _ _); [|by injection Hr as <- <-].
  destruct (CheckSubscriptionAction _ _ _); [|by injection Hr as <- <-].
  destruct (List.find _ _) as [[??]|]; injection Hr as <- <-; [done|]. bools.
  set (o := actionOperation newID userID key action request now).
  eapply fin_ok_same; [apply appendEvent_books|].
  eapply fin_ok_same; [|apply (fin_ok_file s o)]; done.
Qed.

Lemma FinishSubscriptionAction_ok ev now userID id pid response confirmed plan eff s r s' :
  fin_ok s →
  FinishSubscriptionAction ev now userID id pid response confirmed plan eff s = (r, s') → fin_ok s'.
Proof.
  intros Hs Hr. unfold FinishSubscriptionAction in Hr. cbv zeta in Hr.
  destruct (financeOperations s !! id) as [o|] eqn:Ho; [|by injection Hr as <- <-].
  destruct ((op_TargetID o != userID) || _) eqn:Et; [by injection Hr as <- <-|].
  destruct ((op_ProviderOperationID o != "") && _); [by injection Hr as <- <-|].
  destruct ((op_Status o == FinanceOperationSucceeded) || (op_Status o == FinanceOperationFailed)); [by repeat case_match; injection Hr as <- <-|].
  destruct (finishLifecycle _ _ _ _ _ _); injection Hr as <- <-; [|done]. bools.
  eapply fin_ok_same; [apply appendEvent_books|].
  eapply fin_ok_same; [|apply (fin_ok_set_operation s id o)]; try done.
  apply not_refund_settled; try done. right. congruence.
Qed.

Lemma UpdateSubscriptionPurchase_ok ev now id pid response complete s r s' :
  fin_ok s → UpdateSubscriptionPurchase ev now id pid response complete s = (r, s') → fin_ok s'.
Proof.
  intros Hs Hr. unfold UpdateSubscriptionPurchase in Hr. cbv zeta in Hr.
  destruct complete.
  - destruct (_ == ""); [by injection Hr as <- <-|]. by eapply FinishSubscriptionAction_ok.
  - destruct (financeOperations s !! id) as [o|] eqn:Ho; [|by injection Hr as <- <-].
    destruct (op_OperationType o != _) eqn:Et; [by injection Hr as <- <-|].
    destruct (_ && _); [by injection Hr as <- <-|].
    destruct (_ || _); injection Hr as <- <-; [done|]. bools.
    apply (fin_ok_set_operation s id o); try done.
    apply not_refund_settled; try done. left. by rewrite Et.
Qed.

Lemma CreateSubscriptionRefundReview_ok newID ev now op version s r out s' :
  fin_ok s → newID ≠ "" → financeOperations s !! newID = None →
  CreateSubscriptionRefundReview newID ev now op version s = (r, out, s') → fin_ok s'.
Proof.
  intros Hs Hne Hid Hr. unfold CreateSubscriptionRefundReview in Hr. cbv zeta in Hr.
  destruct (validReview op) eqn:Ev; cbn [negb] in Hr; [|by injection Hr as <- <- <-].
  destruct (byID s !! op_TargetID op); [|by injection Hr as <- <- <-].
  destruct (get_str _ (op_IdempotencyKey op) == "") eqn:Ek; cbn [negb] in Hr;
    [|by repeat case_match; injection Hr as <- <- <-].
  destruct (_ || _); [by injection Hr as <- <- <-|].
  destruct (map_any _ _); injection Hr as <- <- <-; [done|]. getset. bools.
  set (o := op <| op_ID := newID |> <| op_Request := _ |> <| op_Response := _ |>
    <| op_Status := _ |> <| op_AttemptCount := _ |> <| op_CreatedAt := _ |> <| op_UpdatedAt := _ |>).
  eapply fin_ok_same; [|apply (fin_ok_file s o)]; try done.
  unfold o. getset. unfold validReview in Ev. bools. congruence.
Qed.

(** ** Histories of the books *)

(** One call of the finance interface or of the subscription lifecycle, which
    shares its operation table, whatever it returns; other calls leave the
    books alone.  Amounts are int64 values, generated identifiers are not
    empty, those the lifecycle stores without a look-up are fresh, and a retry
    of an operation repeats the request it retries. *)
Inductive fin_step (s : memoryStore) : memoryStore → Prop :=
| StepInvoice newID now invoice r out s' :
    in_int64 (inv_AmountMinor invoice) →
    CreateFinanceInvoice newID now invoice s = (r, out, s') → fin_step s s'
| StepPayment newID now payment r out s' :
    RecordFinancePayment newID now payment s = (r, out, s') → fin_step s s'
| StepRefund newID newEventID now refund r out s' :
    newID ≠ "" →
    RecordFinanceRefund newID newEventID now refund s = (r, out, s') → fin_step s s'
| StepBegin newID newEventID now operation r out s' :
    newID ≠ "" → consistent_retry s operation →
    BeginFinanceOperation newID newEventID now operation s = (r, out, s') → fin_step s s'
| StepCheckpoint newEventID now id attempt response r s' :
    CheckpointFinanceOperation newEventID now id attempt response s = (r, s') → fin_step s s'
| StepFinish newEventID now id status pid response err next attempts r s' :
    FinishFinanceOperation newEventID now id status pid response err next attempts s = (r, s') →
    fin_step s s'
| StepReserve (MO : MapOrder) newID newEventID now userID key action request r s' :
    newID ≠ "" → financeOperations s !! newID = None →
    ReserveSubscriptionAction newID newEventID now userID key action request s = (r, s') →
    fin_step s s'
| StepSettle newEventID now userID id pid response confirmed plan eff r s' :
    FinishSubscriptionAction newEventID now userID id pid response confirmed plan eff s = (r, s') →
    fin_step s s'
| StepPurchase newEventID now id pid response complete r s' :
    UpdateSubscriptionPurchase newEventID now id pid response complete s = (r, s') → fin_step s s'
| StepReview newID newEventID now op version r out s' :
    newID ≠ "" → financeOperations s !! newID = None →
    CreateSubscriptionRefundReview newID newEventID now op version s = (r, out, s') → fin_step s s'
| StepOther s' : same_books s s' → fin_step s s'.

Inductive fin_reachable : memoryStore → Prop :=
| ReachNew b : fin_reachable (newMemoryStore b)
| ReachStep s s' : fin_reachable s → fin_step s s' → fin_reachable s'.

Lemma fin_step_ok s s' : fin_ok s → fin_step s s' → fin_ok s'.
Proof.
  intros Hs H. destruct H;
    [eapply CreateFinanceInvoice_ok | eapply RecordFinancePayment_ok
    | eapply RecordFinanceRefund_ok | eapply BeginFinanceOperation_ok
    | eapply CheckpointFinanceOperation_ok | eapply FinishFinanceOperation_ok
    | eapply ReserveSubscriptionAction_ok | eapply FinishSubscriptionAction_ok
    | eapply UpdateSubscriptionPurchase_ok | eapply CreateSubscriptionRefundReview_ok
    | eapply fin_ok_same]; eassumption.
Qed.

Lemma fin_reachable_ok s : fin_reachable s → fin_ok s.
Proof. induction 1; eauto using fin_ok_new, fin_step_ok. Qed.

(** C1: in every history of the books, the refunds recorded on a payment
    together with the refunds still reserved by provider operations never
    exceed the payment, and the 64-bit total the code compares is the exact
    sum. *)
Theorem refunds_within_payment s pid p :
  fin_reachable s → financePayments s !! pid = Some p →
  refunded s pid + held s pid ≤ pay_AmountMinor p ∧
  ∀ key, refundTotal s pid key = refunded s pid + held_by_others s pid key.
Proof.
  intros Hr Hp. apply fin_reachable_ok in Hr. split; [by apply fi_budget|].
  intros key. by apply (refundTotal_exact s pid key p).
Qed.

(** in every history of the books an invoice is paid at most once, by a
    payment of the invoice's account, currency and exact amount. *)
Theorem invoice_paid_once s i j p q :
  fin_reachable s → financePayments s !! i = Some p → financePayments s !! j = Some q →
  pay_InvoiceID p = pay_InvoiceID q →
  i = j ∧ ∃ inv, financeInvoices s !! pay_InvoiceID p = Some inv ∧
    inv_AccountUUID inv = pay_AccountUUID p ∧ inv_Currency inv = pay_Currency p ∧
    inv_AmountMinor inv = pay_AmountMinor p.
Proof.
  intros Hr Hp Hq E. apply fin_reachable_ok in Hr. split; [by eapply (fi_once s Hr)|].
  by apply (fi_settles s Hr) in Hp as [_ ?].
Qed.

Lemma keyed_hit {A} (fid fkey : A → string) m idx k id :
  keyed fid fkey m idx → idx !! k = Some id → m !! id = None → False.
Proof. intros [_ Hi] Hk Hn. destruct (Hi _ _ Hk) as (x & Hx & _). congruence. Qed.

Lemma replayServicePeriod_error old copy e :
  replayServicePeriod old copy = Err e → e = ErrFinanceIdempotencyConflict.
Proof. unfold replayServicePeriod. intros H. repeat case_match; simplify_eq; done. Qed.

Lemma refundOperationCheck_error s copy e :
  fin_ok s → refundOperationCheck s copy = Err e → e = ErrFinanceIdempotencyConflict.
Proof.
  intros Hs H. unfold refundOperationCheck in H. repeat case_match; simplify_eq; try done.
  exfalso. eauto using keyed_hit, fi_op.
Qed.

Lemma beginLookup_error newID key now operation s e :
  fin_ok s → beginLookup newID key now operation s = BeginError e → e ≠ nil_deref.
Proof.
  intros Hs H. unfold beginLookup in H. repeat case_match; simplify_eq; try done.
  exfalso. eauto using keyed_hit, fi_op.
Qed.

Lemma refundIntent_error o e : refundIntent o = Err e → e = ErrFinanceIdempotencyConflict.
Proof. unfold refundIntent. intros H. repeat case_match; simplify_eq; done. Qed.

Lemma refundCapacity_error s key id a c e :
  refundCapacity s key id a c = Some e → e ≠ nil_deref.
Proof. unfold refundCapacity. intros H. repeat case_match; simplify_eq; done. Qed.

(** Every branch of a call ends in an error of its own or needs a row the
    index promises. *)
Ltac no_nil_deref Hs :=
  repeat case_match; simplify_eq/=;
  match goal with
  | E : replayServicePeriod _ _ = Err _ |- _ => by apply replayServicePeriod_error in E
  | E : refundOperationCheck _ _ = Err _ |- _ => by apply refundOperationCheck_error in E
  | E : refundIntent _ = Err _ |- _ => by apply refundIntent_error in E
  | E : beginLookup _ _ _ _ _ = BeginError _ |- _ => by apply beginLookup_error in E
  | E : refundCapacity _ _ _ _ _ = Some _ |- _ => by apply refundCapacity_error in E
  | _ => destruct Hs; eauto using keyed_hit
  end.

(** on consistent books no finance call dereferences a missing record. *)
Theorem finance_no_nil_deref s :
  fin_ok s →
  (∀ newID now i, (CreateFinanceInvoice newID now i s).1.1 ≠ Err nil_deref) ∧
  (∀ newID now p, (RecordFinancePayment newID now p s).1.1 ≠ Err nil_deref) ∧
  (∀ newID ev now r, (RecordFinanceRefund newID ev now r s).1.1 ≠ Err nil_deref) ∧
  (∀ newID ev now o, (BeginFinanceOperation newID ev now o s).1.1 ≠ Err nil_deref) ∧
  (∀ key, GetFinanceOperation s key ≠ Err nil_deref).
Proof.
  intros Hs. split_and!.
  - intros newID now i E. unfold CreateFinanceInvoice in E. cbv zeta in E. no_nil_deref Hs.
  - intros newID now p E. unfold RecordFinancePayment in E. cbv zeta in E. no_nil_deref Hs.
  - intros newID ev now r E. unfold RecordFinanceRefund in E. cbv zeta in E. no_nil_deref Hs.
  - intros newID ev now o E. unfold BeginFinanceOperation in E. cbv zeta in E. no_nil_deref Hs.
  - intros key E. unfold GetFinanceOperation in E. no_nil_deref Hs.
Qed.
