(* ===== verification/FinanceProps.v ===== *)
(** * Finance: functional behaviour

    Replays, the acceptance of refunds, and the life of a provider operation;
    and the one retry that escapes the budget. *)

From S2P Require Import Prelude GoLib Json StoreData Users Finance Lifecycle FinanceInv.
Open Scope Z_scope.
Open Scope bool_scope.
Open Scope go_scope.

(** ** Replays *)

Lemma bindRefundOperation_refunds newEventID r s :
  financeRefunds (bindRefundOperation newEventID r s) = financeRefunds s ∧
  financeRefundKeys (bindRefundOperation newEventID r s) = financeRefundKeys s.
Proof.
  unfold bindRefundOperation. cbv zeta. destruct (_ == ""); [done|].
  by destruct (financeOperations s !! _).
Qed.

(** The refund that a successful first call stores. *)
Lemma RecordFinanceRefund_stores newID newEventID now refund s out s' :
  RecordFinanceRefund newID newEventID now refund s = (Ok true, out, s') →
  let copy := normRefund newID refund in
  (TrimSpace (refund_IdempotencyKey refund) == "") || (refund_AmountMinor refund <=? 0) = false ∧
  validFinanceCurrency (refund_Currency copy) = true ∧
  out = copy <| refund_RefundedAt :=
      if IsZero (refund_RefundedAt copy) then now else refund_RefundedAt copy |>
    <| refund_CreatedAt := now |> ∧
  financeRefundKeys s' = <[refund_IdempotencyKey copy := refund_ID copy]> (financeRefundKeys s) ∧
  financeRefunds s' = <[refund_ID copy := out]> (financeRefunds s).
Proof.
  intros H. cbv zeta. unfold RecordFinanceRefund in H. cbv zeta in H.
  destruct (_ || _) eqn:E0; [done|].
  destruct (negb (validFinanceCurrency _)) eqn:E1; [done|]. apply negb_false_iff in E1.
  destruct (financeRefundKeys s !! _); [by repeat case_match; simplify_eq|].
  destruct (refundOperationCheck s _); [|done].
  destruct (financePayments s !! _) as [p|]; [|done].
  destruct (pay_Currency p != _); [done|]. destruct (_ <? _); [done|].
  destruct (bool_decide (is_Some _)); [done|].
  destruct ((refund_ProviderRefundID _ != "") && _); [done|].
  injection H as <- <-.
  set (out := (if IsZero _ then _ else _) <| refund_CreatedAt := now |>).
  assert (out = (normRefund newID refund) <| refund_RefundedAt :=
      if IsZero (refund_RefundedAt (normRefund newID refund)) then now
      else refund_RefundedAt (normRefund newID refund) |> <| refund_CreatedAt := now |>) as Eo.
  { unfold out. by destruct (IsZero _). }
  match goal with |- context [bindRefundOperation newEventID out ?s1] =>
    destruct (bindRefundOperation_refunds newEventID out s1) as [-> ->] end.
  split_and!; try done; getset; rewrite ?Eo; by destruct (IsZero (refund_RefundedAt refund)).
Qed.

(** repeating a recorded refund reports the same refund and changes
    nothing, whatever the clock and the identifiers of the second call. *)
Theorem RecordFinanceRefund_replay newID newEventID now newID2 newEventID2 now2 refund s out s' :
  RecordFinanceRefund newID newEventID now refund s = (Ok true, out, s') →
  RecordFinanceRefund newID2 newEventID2 now2 refund s' =
    (Ok false, refund <| refund_ID := refund_ID out |> <| refund_CreatedAt := now |>, s').
Proof.
  intros H. apply RecordFinanceRefund_stores in H as (E0 & E1 & Eo & Ek & Er).
  unfold RecordFinanceRefund. cbv zeta. rewrite E0.
  assert (refund_Currency (normRefund newID2 refund) = refund_Currency (normRefund newID refund)) as ->
    by done.
  rewrite E1. simpl negb. cbv iota.
  assert (refund_IdempotencyKey (normRefund newID2 refund) =
          refund_IdempotencyKey (normRefund newID refund)) as -> by done.
  rewrite Ek, lookup_insert_eq, Er, lookup_insert_eq.
  assert (refundReplayConflict out (normRefund newID2 refund) = false) as ->; [|by rewrite Eo].
  rewrite Eo. unfold refundReplayConflict, normRefund. getset.
  rewrite !TrimSpace_idem, Z.eqb_refl, !bool_decide_true by done. simpl.
  destruct (IsZero (refund_RefundedAt refund)); [done|]. simpl.
  unfold Equal. by rewrite Z.eqb_refl.
Qed.

(** ** Acceptance *)

(** a first refund of a payment, with no operation of its own, is
    accepted exactly when its amount fits into what is neither refunded nor
    held by provider operations; otherwise it is refused and the store is
    unchanged. *)
Theorem RecordFinanceRefund_accepts newID newEventID now refund s p :
  let copy := normRefund newID refund in
  fin_ok s → refund_IdempotencyKey copy ≠ "" → 0 < refund_AmountMinor refund →
  validFinanceCurrency (refund_Currency copy) = true →
  financeRefundKeys s !! refund_IdempotencyKey copy = None →
  financeOperationKeys s !! refund_IdempotencyKey copy = None →
  financePayments s !! refund_PaymentID copy = Some p → pay_Currency p = refund_Currency copy →
  financeRefunds s !! refund_ID copy = None → refund_ProviderRefundID copy = "" →
  let room := pay_AmountMinor p - refunded s (refund_PaymentID copy) - held s (refund_PaymentID copy) in
  let '(r, out, s') := RecordFinanceRefund newID newEventID now refund s in
  if refund_AmountMinor refund <=? room
  then r = Ok true ∧ refunded s' (refund_PaymentID copy) =
                       refunded s (refund_PaymentID copy) + refund_AmountMinor refund
  else r = Err ErrFinanceRefundExceedsPayment ∧ s' = s.
Proof.
  intros copy Hs Hk Hpos Hcur Hrk Hok Hp Hpc Hid Hprov room.
  destruct (RecordFinanceRefund newID newEventID now refund s) as [[r out] s'] eqn:H.
  pose proof H as Hstores. unfold RecordFinanceRefund in H. cbv zeta in H. fold copy in H.
  assert (A1 : TrimSpace (refund_IdempotencyKey refund) = refund_IdempotencyKey copy) by done.
  assert (A2 : refund_AmountMinor copy = refund_AmountMinor refund) by done.
  fold copy in Hstores. rewrite A1, A2 in H.
  rewrite (bool_decide_false (refund_IdempotencyKey copy = "")) in H by done.
  assert ((refund_AmountMinor refund <=? 0) = false) as E by lia. rewrite E in H.
  unfold refundOperationCheck in H. rewrite Hcur, Hrk, Hok, Hp in H. cbn [orb negb] in H.
  rewrite (bool_decide_true (pay_Currency p = _)) in H by done. simpl negb in H. cbv iota in H.
  destruct (refundTotal_exact s _ (refund_IdempotencyKey copy) p Hs Hp) as [_ Ht].
  rewrite Ht, <-(held_no_key s _ _ Hs Hok) in H. fold room in H.
  destruct (Z.leb_spec (refund_AmountMinor refund) room) as [Hle|Hgt].
  - assert ((room <? refund_AmountMinor refund) = false) as E2 by lia. rewrite E2, Hid, Hprov in H.
    rewrite bool_decide_false in H by (intros [? ?]; done).
    assert (A3 : TrimSpace (refund_ProviderRefundID refund) = "") by exact Hprov.
    rewrite ?A3, bool_decide_true in H by done. cbn [andb negb] in H.
    assert (r = Ok true) as -> by by injection H as <- <- <-. split; [done|].
    apply RecordFinanceRefund_stores in Hstores as (_ & _ & Eo & _ & Er).
    unfold refunded. rewrite Er, msum_insert_new by done.
    unfold refundOf at 1. rewrite Eo. getset. rewrite bool_decide_true by done.
    fold copy. rewrite A2. lia.
  - assert ((room <? refund_AmountMinor refund) = true) as E2 by lia. rewrite E2 in H.
    by injection H as <- <- <-.
Qed.

(** ** The life of a provider operation *)

(** Status changes one call can make, with the attempt counter. *)
Inductive status_moves : string → string → Z → Z → Prop :=
| MoveStay st n : status_moves st st n n
| MoveStart st n :
    st = FinanceOperationPending ∨ st = FinanceOperationFailed ∨
    st = FinanceOperationReconciliationRequired ∨ st = FinanceOperationInProgress →
    status_moves st FinanceOperationInProgress n (int64 (n + 1))
| MoveFinish st n :
    st = FinanceOperationSucceeded ∨ st = FinanceOperationFailed ∨
    st = FinanceOperationReconciliationRequired →
    status_moves FinanceOperationInProgress st n n
| MoveSettle st st' n :
    st ≠ FinanceOperationSucceeded → st ≠ FinanceOperationFailed →
    st' = FinanceOperationSucceeded ∨ st' = FinanceOperationFailed ∨
    st' = FinanceOperationReconciliationRequired →
    status_moves st st' n n.

(** The identity of an operation is fixed; a provider reference, once bound,
    is kept by [FinishFinanceOperation]. *)
Definition op_evolves (o o' : FinanceOperation) : Prop :=
  op_ID o' = op_ID o ∧ op_IdempotencyKey o' = op_IdempotencyKey o ∧
  op_OperationType o' = op_OperationType o ∧ op_TargetType o' = op_TargetType o ∧
  op_TargetID o' = op_TargetID o ∧ op_Provider o' = op_Provider o ∧
  op_Request o' = op_Request o ∧ op_CreatedAt o' = op_CreatedAt o ∧
  status_moves (op_Status o) (op_Status o') (op_AttemptCount o) (op_AttemptCount o').

Lemma op_evolves_refl o : op_evolves o o.
Proof. unfold op_evolves. split_and!; try done. constructor. Qed.

(** Changing one operation. *)

Lemma op_evolves_set (ops : gmap string FinanceOperation) id j o y :
  ops !! id = Some o → (∀ x, ops !! j = Some x → op_evolves x y) →
  ∃ o', <[j := y]> ops !! id = Some o' ∧ op_evolves o o'.
Proof.
  intros Ho Hx. destruct (decide (j = id)) as [->|Hne].
  - exists y. rewrite lookup_insert_eq. auto.
  - exists o. rewrite lookup_insert_ne by done. split; [done|apply op_evolves_refl].
Qed.

Lemma begin_startable newID key now operation s stored :
  beginLookup newID key now operation s = BeginStart stored →
  op_Status stored = FinanceOperationPending ∨ op_Status stored = FinanceOperationFailed ∨
  op_Status stored = FinanceOperationReconciliationRequired ∨
  op_Status stored = FinanceOperationInProgress.
Proof.
  unfold beginLookup. destruct (financeOperationKeys s !! key) as [id|].
  - destruct (financeOperations s !! id) as [o|]; [|done].
    destruct (operationReplayConflict o operation); [done|].
    destruct (_ && negb (financeRefundAttemptExpired now o)); [done|].
    destruct (op_Status o == FinanceOperationSucceeded); [done|].
    destruct (_ && _ && _ && negb (financeRefundAttemptExpired now o)) eqn:E; [done|].
    intros H. injection H as <-. unfold financeRefundAttemptExpired in E.
    apply andb_false_iff in E as [[[E|E]%andb_false_iff|E]%andb_false_iff|E]; bools; auto.
  - intros H. destruct (bool_decide _) in H; [done|]. injection H as <-. by left.
Qed.

Lemma BeginFinanceOperation_evolves newID newEventID now operation s r out s' id o :
  fin_ok s → BeginFinanceOperation newID newEventID now operation s = (r, out, s') →
  financeOperations s !! id = Some o →
  ∃ o', financeOperations s' !! id = Some o' ∧ op_evolves o o'.
Proof.
  intros Hs H Ho. unfold BeginFinanceOperation in H. cbv zeta in H.
  destruct (_ || _); [injection H as <- <- <-; eauto using op_evolves_refl|].
  destruct (refundIntent _); [|injection H as <- <- <-; eauto using op_evolves_refl].
  destruct (beginLookup newID _ now _ s) as [stored| |] eqn:El;
    [|injection H as <- <- <-; eauto using op_evolves_refl..].
  destruct (match a with Some _ => _ | None => _ end);
    [injection H as <- <- <-; eauto using op_evolves_refl|].
  unfold startAttempt in H. cbv zeta in H. getset. injection H as <- <- <-.
  match goal with |- context [financeOperations (appendEvent ?i ?e ?t)] =>
    change (financeOperations (appendEvent i e t)) with (financeOperations t) end.
  set (s1 := if bool_decide _ then s else _).
  assert (financeOperations s1 = financeOperations s) as E1 by (unfold s1; by case_match).
  getset. rewrite E1. apply (op_evolves_set _ _ _ o); [done|]. intros x Hx.
  pose proof (begin_startable _ _ _ _ _ _ El) as Hst.
  apply beginLookup_start in El as [(i & Hk & Hi & _)|(_ & _ & Hn)]; [|congruence].
  destruct (keyed_row _ _ _ _ (fi_op s Hs) _ _ Hi) as [Hid _].
  rewrite Hid in Hx. assert (x = stored) as -> by congruence.
  unfold op_evolves. getset. split_and!; try done. by constructor.
Qed.

Lemma finish_evolves newEventID now i status pid response err next attempts s r s' id o :
  FinishFinanceOperation newEventID now i status pid response err next attempts s = (r, s') →
  financeOperations s !! id = Some o →
  ∃ o', financeOperations s' !! id = Some o' ∧ op_evolves o o'.
Proof.
  intros H Ho. unfold FinishFinanceOperation in H. cbv zeta in H.
  destruct ((status != FinanceOperationSucceeded) && _ && _) eqn:Est;
    [injection H as <- <-; eauto using op_evolves_refl|].
  destruct (financeOperations s !! TrimSpace i) as [x|] eqn:Hx;
    [|injection H as <- <-; eauto using op_evolves_refl].
  destruct (op_Status x != FinanceOperationInProgress) eqn:Ein;
    [injection H as <- <-; eauto using op_evolves_refl|].
  destruct (match attempts with [] => _ | _ => _ end);
    [injection H as <- <-; eauto using op_evolves_refl|].
  destruct (finishProviderID x pid); [|injection H as <- <-; eauto using op_evolves_refl].
  destruct ((a != "") && _); injection H as <- <-; [eauto using op_evolves_refl|].
  apply (op_evolves_set _ _ _ o); [done|]. intros y Hy. simplify_eq. bools.
  unfold op_evolves. getset. rewrite Ein. split_and!; try done. constructor.
  destruct ((err != None) && _); [auto|].
  destruct Est as [[E|E]%andb_false_iff|E]; bools; auto.
Qed.

Lemma bind_evolves newEventID r s id o :
  financeOperations s !! id = Some o →
  ∃ o', financeOperations (bindRefundOperation newEventID r s) !! id = Some o' ∧ op_evolves o o'.
Proof.
  intros Ho. unfold bindRefundOperation. cbv zeta.
  destruct (_ == ""); [eauto using op_evolves_refl|].
  destruct (financeOperations s !! get_str _ _) as [x|] eqn:Hx; [|eauto using op_evolves_refl].
  apply (op_evolves_set _ _ _ o); [done|]. intros y Hy. simplify_eq.
  unfold op_evolves. getset. split_and!; try done. constructor.
Qed.

Lemma checkpoint_evolves newEventID now i attempt response s r s' id o :
  CheckpointFinanceOperation newEventID now i attempt response s = (r, s') →
  financeOperations s !! id = Some o →
  ∃ o', financeOperations s' !! id = Some o' ∧ op_evolves o o'.
Proof.
  intros H Ho. unfold CheckpointFinanceOperation in H.
  destruct (financeOperations s !! i) as [x|] eqn:Hx;
    [|injection H as <- <-; eauto using op_evolves_refl].
  destruct (_ || _); injection H as <- <-; [eauto using op_evolves_refl|].
  apply (op_evolves_set _ _ _ o); [done|]. intros y Hy. simplify_eq.
  unfold op_evolves. getset. split_and!; try done. constructor.
Qed.

Lemma settle_evolves ev now userID i pid response confirmed plan eff s r s' id o :
  FinishSubscriptionAction ev now userID i pid response confirmed plan eff s = (r, s') →
  financeOperations s !! id = Some o →
  ∃ o', financeOperations s' !! id = Some o' ∧ op_evolves o o'.
Proof.
  intros H Ho. unfold FinishSubscriptionAction in H. cbv zeta in H.
  destruct (financeOperations s !! i) as [x|] eqn:Hx;
    [|injection H as <- <-; eauto using op_evolves_refl].
  destruct ((op_TargetID x != userID) || _); [injection H as <- <-; eauto using op_evolves_refl|].
  destruct ((op_ProviderOperationID x != "") && _); [injection H as <- <-; eauto using op_evolves_refl|].
  destruct ((op_Status x == FinanceOperationSucceeded) || (op_Status x == FinanceOperationFailed)) eqn:Est;
    [repeat case_match; injection H as <- <-; eauto using op_evolves_refl|].
  destruct (finishLifecycle _ _ _ _ _ _); injection H as <- <-; [|eauto using op_evolves_refl].
  apply (op_evolves_set _ _ _ o); [done|]. intros y Hy. simplify_eq. bools.
  unfold op_evolves. getset. split_and!; try done. apply MoveSettle; try done.
  destruct confirmed; auto.
Qed.

Lemma purchase_evolves ev now i pid response complete s r s' id o :
  UpdateSubscriptionPurchase ev now i pid response complete s = (r, s') →
  financeOperations s !! id = Some o →
  ∃ o', financeOperations s' !! id = Some o' ∧ op_evolves o o'.
Proof.
  intros H Ho. unfold UpdateSubscriptionPurchase in H. cbv zeta in H. destruct complete.
  - destruct (_ == ""); [injection H as <- <-; eauto using op_evolves_refl|].
    by eapply settle_evolves.
  - destruct (financeOperations s !! i) as [x|] eqn:Hx;
      [|injection H as <- <-; eauto using op_evolves_refl].
    destruct (_ != _); [injection H as <- <-; eauto using op_evolves_refl|].
    destruct (_ && _); [injection H as <- <-; eauto using op_evolves_refl|].
    destruct (_ || _) eqn:Est; injection H as <- <-; [eauto using op_evolves_refl|].
    apply (op_evolves_set _ _ _ o); [done|]. intros y Hy. simplify_eq. bools.
    unfold op_evolves. getset. split_and!; try done. apply MoveSettle; auto.
Qed.

(** A new row under a fresh identifier changes no other. *)
Lemma file_evolves (ops : gmap string FinanceOperation) i x id o :
  ops !! i = None → ops !! id = Some o → ∃ o', <[i := x]> ops !! id = Some o' ∧ op_evolves o o'.
Proof. intros Hi Ho. apply (op_evolves_set _ _ _ o); [done|]. congruence. Qed.

Lemma reserve_evolves `{MapOrder} newID ev now userID key action request s r s' id o :
  financeOperations s !! newID = None →
  ReserveSubscriptionAction newID ev now userID key action request s = (r, s') →
  financeOperations s !! id = Some o →
  ∃ o', financeOperations s' !! id = Some o' ∧ op_evolves o o'.
Proof.
  intros Hid Hr Ho. unfold ReserveSubscriptionAction in Hr. cbv zeta in Hr.
  repeat case_match; injection Hr as <- <-; eauto using op_evolves_refl. by apply file_evolves.
Qed.

Lemma review_evolves newID ev now op version s r out s' id o :
  financeOperations s !! newID = None →
  CreateSubscriptionRefundReview newID ev now op version s = (r, out, s') →
  financeOperations s !! id = Some o →
  ∃ o', financeOperations s' !! id = Some o' ∧ op_evolves o o'.
Proof.
  intros Hid Hr Ho. unfold CreateSubscriptionRefundReview in Hr. cbv zeta in Hr.
  repeat case_match; injection Hr as <- <- <-; eauto using op_evolves_refl.
  getset. by apply file_evolves.
Qed.

Lemma fin_step_evolves s s' id o :
  fin_ok s → fin_step s s' → financeOperations s !! id = Some o →
  ∃ o', financeOperations s' !! id = Some o' ∧ op_evolves o o'.
Proof.
  intros Hs Hstep Ho. destruct Hstep as [??????? H|?????? H|???????? H|????????? H|??????? H|??????????? H
    |??????????? H1 H2|??????????? H|???????? H|????????? H1 H2|? H].
  - exists o. split; [|apply op_evolves_refl].
    unfold CreateFinanceInvoice in H. cbv zeta in H. by repeat case_match; simplify_eq.
  - exists o. split; [|apply op_evolves_refl].
    unfold RecordFinancePayment in H. cbv zeta in H. by repeat case_match; simplify_eq.
  - unfold RecordFinanceRefund in H. cbv zeta in H.
    repeat case_match; simplify_eq; eauto using op_evolves_refl; by apply bind_evolves.
  - by eapply BeginFinanceOperation_evolves.
  - by eapply checkpoint_evolves.
  - by eapply finish_evolves.
  - by eapply reserve_evolves.
  - by eapply settle_evolves.
  - by eapply purchase_evolves.
  - by eapply review_evolves.
  - destruct H as (_&_&_&_&_&_&E&_). rewrite E. eauto using op_evolves_refl.
Qed.

(** Whatever finance call is made, an operation keeps its identity, its
    request and its creation time; its status moves only from a retryable state (or an expired
    attempt) into progress, counting the attempt, or from progress to an
    outcome; a succeeded operation stays succeeded. *)
Theorem operation_lifecycle s s' id o :
  fin_ok s → fin_step s s' → financeOperations s !! id = Some o →
  ∃ o', financeOperations s' !! id = Some o' ∧ op_evolves o o' ∧
    (op_Status o = FinanceOperationSucceeded →
     op_Status o' = FinanceOperationSucceeded ∧ op_AttemptCount o' = op_AttemptCount o).
Proof.
  intros Hs Hstep Ho.
  destruct (fin_step_evolves _ _ _ _ Hs Hstep Ho) as (o' & Ho' & He).
  exists o'. split_and!; try done. intros Hsu.
  destruct He as (_&_&_&_&_&_&_&_&Hm). rewrite Hsu in Hm. inversion Hm as [| ? ? Hst | |]; subst; [done| |done].
  by destruct_or? Hst.
Qed.

(** a worker that holds an outdated attempt number can neither checkpoint
    nor finish the operation: it is refused and nothing changes. *)
Theorem stale_attempt_refused s id o attempt newEventID now status pid response err next :
  financeOperations s !! TrimSpace id = Some o → attempt ≠ op_AttemptCount o →
  CheckpointFinanceOperation newEventID now (TrimSpace id) attempt response s =
    (Err ErrFinanceOperationNotRetryable, s) ∧
  FinishFinanceOperation newEventID now id status pid response err next [attempt] s =
    (Err ErrFinanceOperationNotRetryable, s).
Proof.
  intros Ho Hne. assert ((op_AttemptCount o =? attempt) = false) as E by lia.
  unfold CheckpointFinanceOperation, FinishFinanceOperation. rewrite Ho, E. split.
  - by rewrite orb_true_r.
  - destruct (_ && _ && _); [done|]. by destruct (op_Status o != _).
Qed.

(** ** A retry that escapes the budget

    [jsonEqual] compares requests as decoded objects, in which the order of
    members does not matter, but a struct decodes [amount_minor] and
    [Amount_Minor] into the same field, the last one winning.  A retry may
    therefore be checked for one amount and reserve another. *)

Module RetryExample.
Definition user0 : User := {|
  user_ID := "u"; user_Name := "ann"; user_Email := "ann@example.com"; user_Level := LevelUser;
  user_Role := RoleUser; user_Groups := []; user_Permissions := []; user_EmailVerified := true;
  user_PasswordHash := ""; user_MFATOTPSecret := ""; user_MFAEnabled := false;
  user_MFASecretIssuedAt := 0; user_MFAConfirmedAt := 0; user_CreatedAt := 0; user_UpdatedAt := 0;
  user_Active := true; user_ProxyUUID := "px"; user_ProxyUUIDExpiresAt := None;
  user_SubscriptionValidFrom := None; user_SubscriptionValidUntil := None;
  user_LastActiveAt := None; user_ArchivedAt := None |}.

Definition invoice : FinanceInvoice := {|
  inv_ID := "inv"; inv_IdempotencyKey := "ki"; inv_AccountUUID := "u"; inv_SubscriptionUUID := "";
  inv_Provider := "stripe"; inv_ProviderInvoiceID := ""; inv_AmountMinor := 10;
  inv_Currency := "usd"; inv_Description := ""; inv_IssuedAt := 5; inv_DueAt := None;
  inv_ServicePeriodStart := None; inv_ServicePeriodEnd := None; inv_CreatedAt := 0 |}.

Definition payment : FinancePayment := {|
  pay_ID := "pay"; pay_IdempotencyKey := "kp"; pay_InvoiceID := "inv"; pay_AccountUUID := "u";
  pay_Provider := "stripe"; pay_ProviderPaymentID := "pi"; pay_AmountMinor := 10;
  pay_Currency := "usd"; pay_PaidAt := 6; pay_CreatedAt := 0 |}.

Definition refund : FinanceRefund := {|
  refund_ID := "ref"; refund_IdempotencyKey := "kr"; refund_PaymentID := "pay";
  refund_Provider := "stripe"; refund_ProviderRefundID := ""; refund_AmountMinor := 4;
  refund_Currency := "usd"; refund_Reason := "partial"; refund_RefundedAt := 0;
  refund_CreatedAt := 0 |}.

Definition operation (request : list (string * json)) : FinanceOperation := {|
  op_ID := "op"; op_IdempotencyKey := "ko"; op_OperationType := "refund";
  op_TargetType := "payment"; op_TargetID := "pay"; op_Provider := "stripe";
  op_ProviderOperationID := ""; op_Status := ""; op_AttemptCount := 0; op_NextAttemptAt := None;
  op_LastError := ""; op_Request := RawJSON (JObj request); op_Response := RawEmpty;
  op_CreatedAt := 0; op_UpdatedAt := 0 |}.

Definition first_request : list (string * json) :=
  [("amount_minor", JInt 5); ("Amount_Minor", JInt 7); ("currency", JStr "usd")].
Definition reordered_request : list (string * json) :=
  [("Amount_Minor", JInt 7); ("amount_minor", JInt 5); ("currency", JStr "usd")].

Definition s0 : memoryStore := (CreateUser "u" (Ok "px") 1 user0 (newMemoryStore false)).2.
Definition s1 : memoryStore := (CreateFinanceInvoice "i1" 10 invoice s0).2.
Definition s2 : memoryStore := (RecordFinancePayment "i2" 20 payment s1).2.
Definition s3 : memoryStore :=
  (BeginFinanceOperation "i3" "e1" 30 (operation first_request) s2).2.
Definition s4 : memoryStore :=
  (FinishFinanceOperation "e2" 40 "op" FinanceOperationFailed "" RawEmpty (Some "timeout") None [1] s3).2.
Definition s5 : memoryStore := (RecordFinanceRefund "i4" "e3" 50 refund s4).2.
Definition retry := BeginFinanceOperation "i5" "e4" 60 (operation reordered_request) s5.

Lemma s3_reachable : fin_reachable s3.
Proof.
  assert (fin_reachable s0) as H0.
  { eapply ReachStep; [apply (ReachNew false)|]. by apply StepOther. }
  assert (fin_reachable s1) as H1.
  { eapply ReachStep; [exact H0|]. eapply (StepInvoice _ "i1" 10 invoice); [done|].
    unfold s1. exact (surjective3 (CreateFinanceInvoice "i1" 10 invoice s0)). }
  assert (fin_reachable s2) as H2.
  { eapply ReachStep; [exact H1|]. eapply (StepPayment _ "i2" 20 payment).
    unfold s2. exact (surjective3 (RecordFinancePayment "i2" 20 payment s1)). }
  eapply ReachStep; [exact H2|].
  eapply (StepBegin _ "i3" "e1" 30 (operation first_request)).
  - done.
  - intros id stored Hid. by vm_compute in Hid.
  - unfold s3. exact (surjective3 (BeginFinanceOperation "i3" "e1" 30 (operation first_request) s2)).
Qed.

Lemma s4_step : fin_step s3 s4.
Proof.
  eapply (StepFinish _ "e2" 40 "op" FinanceOperationFailed "" RawEmpty (Some "timeout") None [1]).
  unfold s4. exact (surjective_pairing (FinishFinanceOperation "e2" 40 "op" FinanceOperationFailed ""
    RawEmpty (Some "timeout") None [1] s3)).
Qed.

Lemma s5_reachable : fin_reachable s5.
Proof.
  assert (fin_reachable s4) as H4 by (eapply ReachStep; [exact s3_reachable|exact s4_step]).
  eapply ReachStep; [exact H4|]. eapply (StepRefund _ "i4" "e3" 50 refund); [done|].
  unfold s5. exact (surjective3 (RecordFinanceRefund "i4" "e3" 50 refund s4)).
Qed.
End RetryExample.

(** there are consistent books on which a retry with the members of its
    request reordered is accepted and leaves more reserved and refunded on a
    payment than was paid. *)
Theorem reordered_retry_exceeds_payment :
  ∃ s op p, fin_reachable s ∧
    let '(r, out, s') := BeginFinanceOperation "i5" "e4" 60 op s in
    r = Ok true ∧ financePayments s' !! "pay" = Some p ∧
    pay_AmountMinor p < refunded s' "pay" + held s' "pay".
Proof.
  exists RetryExample.s5, (RetryExample.operation RetryExample.reordered_request).
  eexists. split; [apply RetryExample.s5_reachable|]. vm_compute. done.
Qed.
