(* ===== verification/LifecycleProps.v ===== *)
(** * Properties of the subscription change gate

    An account has at most one subscription change in flight; the gate that
    reserves it can always be released; every change of the gate moves its
    version, so a stale quote is noticed; and two confirmed plan changes of an
    account are at least the cool-down apart. *)

From S2P Require Import Prelude GoLib Json StoreData Users Finance Lifecycle FinanceInv.
Open Scope Z_scope.
Open Scope bool_scope.
Open Scope go_scope.

(** ** The calls, on a clock that does not go back *)

(** A finance call that is not made on an operation some gate has reserved. *)
Definition gates_untouched (s s' : memoryStore) : Prop :=
  subscriptionLifecycles s' = subscriptionLifecycles s ∧
  ∀ u v, subscriptionLifecycles s !! u = Some v →
    financeOperations s' !! slc_OperationID v = financeOperations s !! slc_OperationID v.

Inductive life_step (now : time) (s : memoryStore) : memoryStore → Prop :=
| LifeReserve (MO : MapOrder) newID ev userID key action request r s' :
    newID ≠ "" → financeOperations s !! newID = None →
    ReserveSubscriptionAction newID ev now userID key action request s = (r, s') → life_step now s s'
| LifeFinish ev userID id pid response confirmed plan eff r s' :
    FinishSubscriptionAction ev now userID id pid response confirmed plan eff s = (r, s') →
    life_step now s s'
| LifePurchase ev id pid response complete r s' :
    UpdateSubscriptionPurchase ev now id pid response complete s = (r, s') → life_step now s s'
| LifeReview newID ev op version r out s' :
    newID ≠ "" → financeOperations s !! newID = None →
    CreateSubscriptionRefundReview newID ev now op version s = (r, out, s') → life_step now s s'
| LifeOther s' : fin_step s s' → gates_untouched s s' → life_step now s s'.

Inductive life_reachable : time → memoryStore → Prop :=
| LifeNew now b : life_reachable now (newMemoryStore b)
| LifeNext now now' s s' :
    life_reachable now s → now ≤ now' → life_step now' s s' → life_reachable now' s'.

(** ** The invariant *)

(** What a reserved gate promises about its operation. *)
Definition gate_ok (now : time) (ops : gmap string FinanceOperation) (u : string)
    (v : SubscriptionLifecycle) : Prop :=
  slc_OperationID v ≠ "" →
  ∃ op, ops !! slc_OperationID v = Some op ∧ op_TargetID op = u ∧ op_TargetType op = "account" ∧
    unsettled op = true ∧ op_CreatedAt op ≤ now ∧
    (changesPlan op = true → ∀ t, slc_LastChangeAt v = Some t →
       t + SubscriptionChangeCooldown ≤ op_CreatedAt op).

Record life_ok (now : time) (s : memoryStore) : Prop := {
  lo_fin : fin_ok s;
  lo_gate : ∀ u v, subscriptionLifecycles s !! u = Some v → gate_ok now (financeOperations s) u v
}.

Lemma life_ok_new now b : life_ok now (newMemoryStore b).
Proof. constructor; [apply fin_ok_new|]. simpl. intros u v. by rewrite lookup_empty. Qed.

Lemma gate_ok_later now now' ops u v : now ≤ now' → gate_ok now ops u v → gate_ok now' ops u v.
Proof.
  intros Hle Hg Hne. destruct (Hg Hne) as (op & ? & ? & ? & ? & ? & ?). exists op.
  split_and!; try done. lia.
Qed.

(** A gate looks at its own operation only. *)
Lemma gate_ok_ext now ops ops' u v :
  (ops !! slc_OperationID v ≠ None → ops' !! slc_OperationID v = ops !! slc_OperationID v) →
  gate_ok now ops u v → gate_ok now ops' u v.
Proof.
  intros E Hg Hne. destruct (Hg Hne) as (op & Hop & ?). exists op.
  rewrite E by (rewrite Hop; done). done.
Qed.

Lemma gate_ok_fresh now ops u v i x :
  ops !! i = None → gate_ok now ops u v → gate_ok now (<[i := x]> ops) u v.
Proof.
  intros Hi. apply gate_ok_ext. intros Hv. rewrite lookup_insert_ne; [done|]. congruence.
Qed.

Lemma lifecycle_of_insert s u v u' m :
  subscriptionLifecycles s = <[u := v]> m →
  lifecycle_of s u' = if decide (u = u') then v else default zeroLifecycle (m !! u').
Proof.
  intros E. unfold lifecycle_of. rewrite E. destruct (decide (u = u')) as [->|Hne].
  - by rewrite lookup_insert_eq.
  - by rewrite lookup_insert_ne.
Qed.

(** The gates of all accounts when one of them is written back. *)
Lemma gates_set now (ops : gmap string FinanceOperation) (m : gmap string SubscriptionLifecycle) u v :
  (∀ u' v', u' ≠ u → m !! u' = Some v' → gate_ok now ops u' v') → gate_ok now ops u v →
  ∀ u' v', <[u := v]> m !! u' = Some v' → gate_ok now ops u' v'.
Proof.
  intros Hm Hv u' v' [[<- <-]|[Hne H]]%lookup_insert_Some; [done|]. by apply Hm.
Qed.

(** ** What a reservation writes *)

(** A reservation that is refused or repeated changes nothing; a new one files
    a fresh operation and moves the gate. *)
Lemma Reserve_cases `{MapOrder} newID ev now userID key action request s r s' :
  ReserveSubscriptionAction newID ev now userID key action request s = (r, s') →
  s' = s ∨
  let v := (lifecycle_of s userID) <| slc_AccountID := userID |> in
  slc_OperationID v = "" ∧ CheckSubscriptionAction v (lifecycleAction action request) now = Ok tt ∧
  financeOperations s' = <[newID := actionOperation newID userID key action request now]> (financeOperations s) ∧
  subscriptionLifecycles s' = <[userID := v <| slc_OperationID := newID |>
    <| slc_Version := int64 (slc_Version v + 1) |>]> (subscriptionLifecycles s).
Proof.
  intros Hr. unfold ReserveSubscriptionAction in Hr. cbv zeta in Hr.
  destruct (byID s !! userID); [|left; by injection Hr as <- <-].
  destruct (key == ""); [left; by injection Hr as <- <-|].
  destruct (get_str _ key != ""); [left|].
  { destruct (financeOperations s !! _) as [op|]; [|by injection Hr as <- <-].
    destruct (sameAction _ _ _ _ _); by injection Hr as <- <-. }
  destruct (checkLifecyclePreviewVersion _ _); [|left; by injection Hr as <- <-].
  destruct (CheckSubscriptionAction _ _ _) as [[]|] eqn:Ec; [|left; by injection Hr as <- <-].
  destruct (List.find _ _) as [[??]|]; injection Hr as <- <-; [by left|]. right. cbv zeta.
  split_and!; try done. unfold CheckSubscriptionAction in Ec. destruct (_ != "") eqn:E; [done|].
  by bools.
Qed.

(** The cool-down the policy enforces is the one the operation will start. *)
Lemma reserved_change_cool newID userID key action request now v t :
  changesPlan (actionOperation newID userID key action request now) = true →
  CheckSubscriptionAction v (lifecycleAction action request) now = Ok tt →
  slc_LastChangeAt v = Some t → t + SubscriptionChangeCooldown ≤ now.
Proof.
  intros Hc Hk Ht.
  assert (Ha : lifecycleAction action request = "upgrade" ∨ lifecycleAction action request = "downgrade" ∨
               lifecycleAction action request = "renewal").
  { unfold changesPlan in Hc. cbn [actionOperation op_OperationType op_Request] in Hc.
    assert (Hinj : ∀ x, ("subscription_" +:+ action)%string = ("subscription_" +:+ x)%string → action = x)
      by (intros x E; by injection E).
    apply orb_true_iff in Hc as [Hc|Hc]; [apply orb_true_iff in Hc as [Hc|Hc];
      [apply orb_true_iff in Hc as [Hc|Hc]|]|].
    - apply bool_decide_eq_true in Hc. apply (Hinj "renewal") in Hc as ->. auto.
    - apply bool_decide_eq_true in Hc. apply (Hinj "upgrade") in Hc as ->. auto.
    - apply bool_decide_eq_true in Hc. apply (Hinj "downgrade") in Hc as ->. auto.
    - apply andb_true_iff in Hc as [Hc Hl]. apply bool_decide_eq_true in Hc, Hl.
      apply (Hinj "purchase") in Hc as ->. left. rewrite <-Hl. by destruct request. }
  unfold CheckSubscriptionAction in Hk. destruct (slc_OperationID v != ""); [done|].
  unfold CooldownUntil in Hk. rewrite Ht in Hk.
  destruct (Before now _) eqn:Eb; [|unfold Before, Add in Eb; lia].
  destruct Ha as [Ha|[Ha|Ha]]; rewrite Ha in Hk; cbn in Hk; destruct (slc_RefundReviewPending v);
    destruct (_ != "") in Hk; done.
Qed.

(** ** What settling an operation writes *)

Lemma finishLifecycle_ok v op confirmed plan eff now v' :
  finishLifecycle v op confirmed plan eff now = Ok v' →
  slc_OperationID v = op_ID op ∧ slc_OperationID v' = "" ∧
  slc_Version v' = int64 (slc_Version v + 1) ∧
  slc_LastChangeAt v' = if confirmed && changesPlan op then Some now else slc_LastChangeAt v.
Proof.
  unfold finishLifecycle. intros H.
  destruct (slc_OperationID v != op_ID op) eqn:Eo; [done|].
  destruct ((plan == "") != _); [done|]. destruct (negb confirmed && _); [done|].
  apply negb_false_iff, bool_decide_eq_true in Eo. injection H as <-.
  destruct confirmed; [|done]. destruct (changesPlan op); destruct (_ || _); done.
Qed.

(** Settling is refused, repeats an answer, or settles the operation the
    account's gate has reserved. *)
Lemma Finish_cases ev now userID id pid response confirmed plan eff s r s' :
  FinishSubscriptionAction ev now userID id pid response confirmed plan eff s = (r, s') →
  s' = s ∨
  ∃ op op' v, financeOperations s !! id = Some op ∧ op_TargetID op = userID ∧ op_TargetType op = "account" ∧
    unsettled op = true ∧
    finishLifecycle (lifecycle_of s userID) op confirmed plan eff now = Ok v ∧
    financeOperations s' = <[id := op']> (financeOperations s) ∧
    subscriptionLifecycles s' = <[userID := v]> (subscriptionLifecycles s).
Proof.
  intros Hr. unfold FinishSubscriptionAction in Hr. cbv zeta in Hr.
  destruct (financeOperations s !! id) as [o|] eqn:Ho; [|left; by injection Hr as <- <-].
  destruct ((op_TargetID o != userID) || _) eqn:Et; [left; by injection Hr as <- <-|].
  destruct ((op_ProviderOperationID o != "") && _); [left; by injection Hr as <- <-|].
  destruct ((op_Status o == FinanceOperationSucceeded) || (op_Status o == FinanceOperationFailed)) eqn:Es.
  { left. destruct (_ || negb (jsonEqual _ _)); by injection Hr as <- <-. }
  destruct (finishLifecycle _ _ _ _ _ _) as [v|] eqn:Ef; injection Hr as <- <-; [right|by left].
  apply orb_false_iff in Et as [Et1%negb_false_iff%bool_decide_eq_true
    Et2%negb_false_iff%bool_decide_eq_true].
  exists o. eexists. exists v. split_and!; try done.
  unfold unsettled. by rewrite <-negb_orb, Es.
Qed.

(** A checkpoint of a purchase keeps what the gate relies on. *)
Lemma Purchase_cases ev now id pid response complete s r s' :
  UpdateSubscriptionPurchase ev now id pid response complete s = (r, s') →
  s' = s ∨
  (∃ u c, FinishSubscriptionAction ev now u id pid response c "" None s = (r, s')) ∨
  ∃ op op', financeOperations s !! id = Some op ∧ financeOperations s' = <[id := op']> (financeOperations s) ∧
    subscriptionLifecycles s' = subscriptionLifecycles s ∧
    op_TargetID op' = op_TargetID op ∧ op_TargetType op' = op_TargetType op ∧
    op_CreatedAt op' = op_CreatedAt op ∧ changesPlan op' = changesPlan op ∧ unsettled op' = true.
Proof.
  intros Hr. unfold UpdateSubscriptionPurchase in Hr. cbv zeta in Hr. destruct complete.
  { destruct (_ == ""); [left; by injection Hr as <- <-|]. right; left. eauto. }
  destruct (financeOperations s !! id) as [o|] eqn:Ho; [|left; by injection Hr as <- <-].
  destruct (op_OperationType o != _) eqn:Et; [left; by injection Hr as <- <-|].
  destruct (_ && _); [left; by injection Hr as <- <-|].
  destruct (_ || _); injection Hr as <- <-; [by left|]. right; right.
  exists o. eexists. split_and!; try done.
Qed.

Lemma Review_cases newID ev now op version s r out s' :
  CreateSubscriptionRefundReview newID ev now op version s = (r, out, s') →
  s' = s ∨
  ∃ copy, let v := lifecycle_of s (op_TargetID op) in
  slc_OperationID v = "" ∧ financeOperations s' = <[newID := copy]> (financeOperations s) ∧
  subscriptionLifecycles s' = <[op_TargetID op := v <| slc_AccountID := op_TargetID op |>
    <| slc_Version := int64 (slc_Version v + 1) |>]> (subscriptionLifecycles s).
Proof.
  intros Hr. unfold CreateSubscriptionRefundReview in Hr. cbv zeta in Hr.
  destruct (validReview op); cbn [negb] in Hr; [|left; by injection Hr as <- <- <-].
  destruct (byID s !! op_TargetID op); [|left; by injection Hr as <- <- <-].
  destruct (get_str _ (op_IdempotencyKey op) == ""); cbn [negb] in Hr;
    [|left; destruct (financeOperations s !! _); by injection Hr as <- <- <-].
  destruct ((slc_OperationID _ != "") || _) eqn:Eo; [left; by injection Hr as <- <- <-|].
  destruct (map_any _ _); injection Hr as <- <- <-; [by left|]. right.
  apply orb_false_iff in Eo as [Eo%negb_false_iff%bool_decide_eq_true _].
  eexists. cbv zeta. split_and!; done.
Qed.

(** ** The invariant is kept *)

Lemma gate_ok_idle now ops u v : slc_OperationID v = "" → gate_ok now ops u v.
Proof. by intros E Hne. Qed.

Lemma changesPlan_account_operation now ops u v :
  gate_ok now ops u v → slc_OperationID v ≠ "" → ∃ op, ops !! slc_OperationID v = Some op ∧ op_TargetID op = u.
Proof. intros Hg Hne. destruct (Hg Hne) as (op & ? & ? & _). eauto. Qed.

(** The gates of the other accounts do not see a write to an account's own
    operation. *)
Lemma gate_ok_elsewhere now ops u u' v id op op' :
  ops !! id = Some op → op_TargetID op = u → u' ≠ u →
  gate_ok now ops u' v → gate_ok now (<[id := op']> ops) u' v.
Proof.
  intros Hop Ht Hne Hg Hid. destruct (changesPlan_account_operation _ _ _ _ Hg Hid) as (o & Ho & Hto).
  revert Hid. eapply gate_ok_ext; [|exact Hg]. intros _. rewrite lookup_insert_ne; [done|]. congruence.
Qed.

(** How one call may move an account's gate. *)
Definition gate_moves (now : time) (v v' : SubscriptionLifecycle) : Prop :=
  v' = v ∨
  slc_Version v' = int64 (slc_Version v + 1) ∧
  (slc_LastChangeAt v' = slc_LastChangeAt v ∨
   slc_LastChangeAt v' = Some now ∧
   ∀ t, slc_LastChangeAt v = Some t → t + SubscriptionChangeCooldown ≤ now).

Definition keeps_life (now : time) (s s' : memoryStore) : Prop :=
  (∀ u v, subscriptionLifecycles s' !! u = Some v → gate_ok now (financeOperations s') u v) ∧
  ∀ u, gate_moves now (lifecycle_of s u) (lifecycle_of s' u).

Lemma keeps_life_refl now s : life_ok now s → keeps_life now s s.
Proof. intros Hs. split; [apply Hs|]. by left. Qed.

(** Writing one account's gate. *)
Lemma gate_moves_set now s s' u v :
  subscriptionLifecycles s' = <[u := v]> (subscriptionLifecycles s) →
  gate_moves now (lifecycle_of s u) v →
  ∀ u', gate_moves now (lifecycle_of s u') (lifecycle_of s' u').
Proof.
  intros E Hv u'. rewrite (lifecycle_of_insert s' u v u' _ E). case_decide; [by subst|]. by left.
Qed.

Lemma lifecycle_of_gate now s u :
  life_ok now s → gate_ok now (financeOperations s) u (lifecycle_of s u).
Proof.
  intros Hs. unfold lifecycle_of. destruct (subscriptionLifecycles s !! u) eqn:E; simpl.
  - by apply (lo_gate now s Hs).
  - by apply gate_ok_idle.
Qed.

Lemma Reserve_keeps `{MapOrder} newID ev now userID key action request s r s' :
  life_ok now s → financeOperations s !! newID = None →
  ReserveSubscriptionAction newID ev now userID key action request s = (r, s') → keeps_life now s s'.
Proof.
  intros Hs Hid Hr. apply Reserve_cases in Hr as [->|(Hidle & Hc & Eo & El)]; [by apply keeps_life_refl|].
  set (op := actionOperation newID userID key action request now) in *. split.
  - rewrite El, Eo. apply gates_set.
    + intros u' v' _ Hv. apply gate_ok_fresh; [done|]. by apply (lo_gate now s Hs).
    + intros _. exists op. getset. split_and!; try done; [by rewrite lookup_insert_eq|].
      intros Hp t Ht. by apply (reserved_change_cool _ _ _ _ _ _ _ t Hp Hc).
  - eapply gate_moves_set; [exact El|]. right. by split; [|left].
Qed.

Lemma Finish_keeps ev now userID id pid response confirmed plan eff s r s' :
  life_ok now s →
  FinishSubscriptionAction ev now userID id pid response confirmed plan eff s = (r, s') → keeps_life now s s'.
Proof.
  intros Hs Hr.
  apply Finish_cases in Hr as [->|(op & op' & v & Hop & Ht & Htt & Hu & Hf & Eo & El)];
    [by apply keeps_life_refl|].
  apply finishLifecycle_ok in Hf as (Hoid & Hidle & Hver & Hlast). split.
  - rewrite El, Eo. apply gates_set; [|by apply gate_ok_idle].
    intros u' v' Hne Hv. eapply gate_ok_elsewhere; [done..|]. by apply (lo_gate now s Hs).
  - eapply gate_moves_set; [exact El|]. right. split; [done|]. rewrite Hlast.
    destruct confirmed; [|by left]. destruct (changesPlan op) eqn:Hc; [|by left]. right. split; [done|].
    intros t Hlt. pose proof (lifecycle_of_gate now s userID Hs) as Hg.
    destruct (keyed_row _ _ _ _ (fi_op s (lo_fin now s Hs)) _ _ Hop) as [Hkey _].
    rewrite Hkey in Hoid.
    assert (Hne : slc_OperationID (lifecycle_of s userID) ≠ "").
    { rewrite Hoid. intros ->. pose proof (fi_opid s (lo_fin now s Hs)). congruence. }
    destruct (Hg Hne) as (o & Ho & _ & _ & _ & Hat & Hcool).
    rewrite Hoid, Hop in Ho. injection Ho as <-. specialize (Hcool Hc t Hlt). lia.
Qed.

Lemma Purchase_keeps ev now id pid response complete s r s' :
  life_ok now s → UpdateSubscriptionPurchase ev now id pid response complete s = (r, s') →
  keeps_life now s s'.
Proof.
  intros Hs Hr.
  apply Purchase_cases in Hr as [->|[(u & c & Hr)|(op & op' & Hop & Eo & El & Ht & Htt & Hat & Hc & Hu)]];
    [by apply keeps_life_refl|by eapply Finish_keeps|].
  split; [|intros u; left; unfold lifecycle_of; by rewrite El].
  rewrite El, Eo. intros u v Hv Hne. pose proof (lo_gate now s Hs u v Hv) as Hg.
  destruct (Hg Hne) as (o & Ho & H1 & H2 & H3 & H4 & H5).
  destruct (decide (id = slc_OperationID v)) as [->|Hid].
  - rewrite Hop in Ho. injection Ho as <-. exists op'. rewrite lookup_insert_eq, Ht, Htt, Hat, Hc.
    by split_and!.
  - exists o. by rewrite lookup_insert_ne.
Qed.

Lemma Review_keeps newID ev now op version s r out s' :
  life_ok now s → financeOperations s !! newID = None →
  CreateSubscriptionRefundReview newID ev now op version s = (r, out, s') → keeps_life now s s'.
Proof.
  intros Hs Hid Hr. apply Review_cases in Hr as [->|(copy & Hidle & Eo & El)]; [by apply keeps_life_refl|].
  split.
  - rewrite El, Eo. apply gates_set; [|by apply gate_ok_idle].
    intros u' v' _ Hv. apply gate_ok_fresh; [done|]. by apply (lo_gate now s Hs).
  - eapply gate_moves_set; [exact El|]. right. by split; [|left].
Qed.

Lemma life_step_fin now s s' : life_step now s s' → fin_step s s'.
Proof.
  intros []; [eapply StepReserve | eapply StepSettle | eapply StepPurchase | eapply StepReview | ]; eassumption.
Qed.

Lemma life_step_keeps now s s' : life_ok now s → life_step now s s' → keeps_life now s s'.
Proof.
  intros Hs Hst. destruct Hst as [| | | |s' Hf [El Eo]];
    [by eapply Reserve_keeps|by eapply Finish_keeps|by eapply Purchase_keeps|by eapply Review_keeps|].
  split; [|intros u; left; unfold lifecycle_of; by rewrite El].
  rewrite El. intros u v Hv. eapply gate_ok_ext; [|by apply (lo_gate now s Hs)]. intros _. by eapply Eo.
Qed.

Lemma life_ok_later now now' s : now ≤ now' → life_ok now s → life_ok now' s.
Proof. intros Hle [Hf Hg]. constructor; [done|]. intros u v Hv. eapply gate_ok_later; eauto. Qed.

Lemma life_step_ok now s s' : life_ok now s → life_step now s s' → life_ok now s'.
Proof.
  intros Hs Hst. constructor; [|by apply (life_step_keeps now s s')].
  eapply fin_step_ok; [apply Hs|by eapply life_step_fin].
Qed.

Lemma life_reachable_ok now s : life_reachable now s → life_ok now s.
Proof.
  induction 1 as [|now now' s s' _ IH Hle Hst]; [apply life_ok_new|].
  eapply life_step_ok; [|exact Hst]. by eapply life_ok_later.
Qed.

(** ** The claims *)

(** Two confirmed plan changes of an account are at least thirty days
    apart.  From a state the calls can reach, whatever call is made next and
    whatever it answers, the time of an account's last plan change stays as it
    is, or becomes the time of the call, and then the previous change lies at
    least a whole cool-down in the past; it is never erased.  The purchases
    that upgrade a plan and the renewals count. *)
Theorem plan_changes_spaced now0 now s s' u :
  life_reachable now0 s → now0 ≤ now → life_step now s s' →
  slc_LastChangeAt (lifecycle_of s' u) = slc_LastChangeAt (lifecycle_of s u) ∨
  slc_LastChangeAt (lifecycle_of s' u) = Some now ∧
  ∀ t, slc_LastChangeAt (lifecycle_of s u) = Some t → t + 30 * 24 * Hour ≤ now.
Proof.
  intros Hr Hle Hst.
  destruct (life_step_keeps now s s' (life_ok_later _ _ _ Hle (life_reachable_ok _ _ Hr)) Hst) as [_ Hm].
  destruct (Hm u) as [->|[_ H]]; [by left|done].
Qed.

Lemma refused_in_progress `{MapOrder} newID ev now userID key action request s :
  slc_OperationID (lifecycle_of s userID) ≠ "" → get_str (financeOperationKeys s) key = "" →
  ∃ e, ReserveSubscriptionAction newID ev now userID key action request s = (Err e, s).
Proof.
  intros Hne Hk. unfold ReserveSubscriptionAction. cbv zeta.
  destruct (byID s !! userID); [|by eexists]. destruct (key == ""); [by eexists|].
  rewrite Hk, (bool_decide_eq_true_2 ("" = "")) by done. cbn [negb].
  destruct (checkLifecyclePreviewVersion _ _); [|by eexists].
  unfold CheckSubscriptionAction. getset. rewrite (bool_decide_eq_false_2 _ Hne). by eexists.
Qed.

(** C27: An account has one subscription change in flight at a time, and the
    change in flight can always be settled.  In a state the calls can reach in
    which the account's gate holds an operation, a reservation under an unused
    key is refused and changes nothing; and settling the held operation, with
    the provider identifier it was bound to if it was bound, whatever the
    answer and the outcome, succeeds, leaves the operation settled and the
    gate free. *)
Theorem gate_excludes_and_settles `{MapOrder} now0 s u id :
  life_reachable now0 s → slc_OperationID (lifecycle_of s u) = id → id ≠ "" →
  (∀ newID ev now key action request, get_str (financeOperationKeys s) key = "" →
     ∃ e, ReserveSubscriptionAction newID ev now u key action request s = (Err e, s)) ∧
  ∃ op, financeOperations s !! id = Some op ∧ op_TargetID op = u ∧
  ∀ ev now pid response confirmed, op_ProviderOperationID op = "" ∨ pid = op_ProviderOperationID op →
  ∃ s' op', FinishSubscriptionAction ev now u id pid response confirmed "" None s = (Ok tt, s') ∧
    slc_OperationID (lifecycle_of s' u) = "" ∧ financeOperations s' !! id = Some op' ∧
    op_Status op' = (if confirmed then FinanceOperationSucceeded else FinanceOperationFailed).
Proof.
  intros Hr Hid Hne. pose proof (life_reachable_ok _ _ Hr) as Hs. split.
  { intros. apply refused_in_progress; [|done]. by rewrite Hid. }
  pose proof (lifecycle_of_gate now0 s u Hs) as Hg. unfold gate_ok in Hg. rewrite Hid in Hg.
  destruct (Hg Hne) as (op & Hop & Ht & Htt & Hu & _). exists op. split_and!; [done..|].
  intros ev now pid response confirmed Hp.
  destruct (keyed_row _ _ _ _ (fi_op s (lo_fin now0 s Hs)) _ _ Hop) as [Hkey _].
  unfold FinishSubscriptionAction. rewrite Hop, Ht, Htt. rewrite (bool_decide_eq_true_2 (u = u)) by done.
  change ("account" != "account") with false. cbn [negb orb].
  assert ((op_ProviderOperationID op != "") && (op_ProviderOperationID op != pid) = false) as ->.
  { destruct Hp as [-> | ->]; [done|]. rewrite (bool_decide_eq_true_2 (op_ProviderOperationID op = op_ProviderOperationID op)) by done.
    apply andb_false_r. }
  unfold unsettled in Hu. rewrite <-negb_orb in Hu. apply negb_true_iff in Hu. rewrite Hu.
  destruct (finishLifecycle (lifecycle_of s u) op confirmed "" None now) as [v|] eqn:Ef.
  - eexists _, _. split_and!; [reflexivity| |unfold appendEvent; getset; by rewrite lookup_insert_eq|done].
    apply finishLifecycle_ok in Ef as (_ & Hi & _). unfold lifecycle_of at 1, appendEvent. getset.
    by rewrite lookup_insert_eq.
  - exfalso. unfold finishLifecycle in Ef. rewrite Hid, Hkey in Ef.
    rewrite (bool_decide_eq_true_2 (id = id)) in Ef by done. cbn [negb] in Ef.
    destruct confirmed; discriminate Ef.
Qed.

(** A history of calls from one state to another. *)
Inductive life_run : nat → time → memoryStore → time → memoryStore → Prop :=
| RunNone now s : life_run 0 now s now s
| RunStep n now s now1 s1 now2 s2 :
    life_run n now s now1 s1 → now1 ≤ now2 → life_step now2 s1 s2 → life_run (S n) now s now2 s2.

Lemma life_run_ok n now s now' s' : life_run n now s now' s' → life_ok now s → life_ok now' s'.
Proof.
  induction 1 as [|n now s now1 s1 now2 s2 _ IH Hle Hst]; intros Hs; [done|].
  eapply life_step_ok; [|exact Hst]. eapply life_ok_later; eauto.
Qed.

Lemma gate_version_grows n now s now' s' u :
  life_run n now s now' s' → life_ok now s →
  0 ≤ slc_Version (lifecycle_of s u) → slc_Version (lifecycle_of s u) + Z.of_nat n ≤ int64_max →
  let k := slc_Version (lifecycle_of s' u) - slc_Version (lifecycle_of s u) in
  0 ≤ k ≤ Z.of_nat n ∧ (k = 0 → lifecycle_of s' u = lifecycle_of s u).
Proof.
  induction 1 as [|n now s now1 s1 now2 s2 Hrun IH Hle Hst]; intros Hs H0 Hn; cbv zeta; [split; [lia|done]|].
  destruct IH as [Hk Heq]; [done..|lia|].
  pose proof (life_ok_later _ _ _ Hle (life_run_ok _ _ _ _ _ Hrun Hs)) as H1.
  destruct (life_step_keeps now2 s1 s2 H1 Hst) as [_ Hm].
  destruct (Hm u) as [->|[Hv _]]; [split; [lia|done]|].
  rewrite Hv, int64_id by (unfold in_int64, int64_min, int64_max in *; lia). lia.
Qed.

(** The version of a gate tells a quote whether the gate has moved.  Over
    any history of calls short enough that the 64-bit version does not wrap,
    if an account's version is the same at the end as at the beginning then
    nothing of its gate has changed in between. *)
Theorem lifecycle_version_detects_change n now0 now s now' s' u :
  life_reachable now0 s → now0 ≤ now → life_run n now s now' s' →
  0 ≤ slc_Version (lifecycle_of s u) → slc_Version (lifecycle_of s u) + Z.of_nat n ≤ int64_max →
  slc_Version (lifecycle_of s' u) = slc_Version (lifecycle_of s u) →
  lifecycle_of s' u = lifecycle_of s u.
Proof.
  intros Hr Hle Hrun H0 Hn Hv. pose proof (life_ok_later _ _ _ Hle (life_reachable_ok _ _ Hr)) as Hs.
  destruct (gate_version_grows _ _ _ _ _ u Hrun Hs H0 Hn) as [_ H]. apply H. lia.
Qed.

(** ** An abstract specification of the gate

    What the gate promises, without operations, keys or provider answers: an
    account is idle, or has one change in flight; a change of plan starts only
    after the cool-down and, when it is confirmed, restarts it. *)

Inductive gateSpec :=
| Idle (last_change : option time)
| Busy (id : string) (plan_change : bool) (last_change : option time).

Inductive spec_step (now : time) : gateSpec → gateSpec → Prop :=
| SpecStay g : spec_step now g g
| SpecReserve id change last_change :
    (change = true → ∀ t, last_change = Some t → t + SubscriptionChangeCooldown ≤ now) →
    spec_step now (Idle last_change) (Busy id change last_change)
| SpecSettle id change last_change (confirmed : bool) :
    spec_step now (Busy id change last_change)
      (Idle (if confirmed && change then Some now else last_change)).

(** The abstract gate of an account in a store. *)
Definition gate_of (ops : gmap string FinanceOperation) (v : SubscriptionLifecycle) : gateSpec :=
  if slc_OperationID v == "" then Idle (slc_LastChangeAt v)
  else Busy (slc_OperationID v)
         (match ops !! slc_OperationID v with Some op => changesPlan op | None => false end)
         (slc_LastChangeAt v).

Definition gate_abs (s : memoryStore) (u : string) : gateSpec :=
  gate_of (financeOperations s) (lifecycle_of s u).

Lemma gate_of_idle ops v : slc_OperationID v = "" → gate_of ops v = Idle (slc_LastChangeAt v).
Proof. intros E. unfold gate_of. by rewrite bool_decide_eq_true_2. Qed.

Lemma gate_of_busy ops v op :
  slc_OperationID v ≠ "" → ops !! slc_OperationID v = Some op →
  gate_of ops v = Busy (slc_OperationID v) (changesPlan op) (slc_LastChangeAt v).
Proof. intros E Ho. unfold gate_of. by rewrite bool_decide_eq_false_2, Ho. Qed.

(** A gate whose operation is not rewritten is the same abstract gate. *)
Lemma gate_of_ext now ops ops' u v :
  gate_ok now ops u v →
  (∀ op, ops !! slc_OperationID v = Some op → op_TargetID op = u →
     ∃ op', ops' !! slc_OperationID v = Some op' ∧ changesPlan op' = changesPlan op) →
  gate_of ops' v = gate_of ops v.
Proof.
  intros Hg E. destruct (decide (slc_OperationID v = "")) as [Hid|Hid]; [by rewrite !gate_of_idle|].
  destruct (Hg Hid) as (op & Hop & Ht & _). destruct (E op Hop Ht) as (op' & Hop' & Hc).
  by rewrite (gate_of_busy ops v op), (gate_of_busy ops' v op'), Hc.
Qed.

(** The accounts a call is not about. *)
Lemma other_gates now s s' u v id op' :
  life_ok now s → subscriptionLifecycles s' = <[u := v]> (subscriptionLifecycles s) →
  financeOperations s' = <[id := op']> (financeOperations s) →
  (∀ op, financeOperations s !! id = Some op → op_TargetID op = u) →
  ∀ u', u' ≠ u → gate_abs s' u' = gate_abs s u'.
Proof.
  intros Hs El Eo Hu u' Hne. unfold gate_abs.
  assert (Hl : lifecycle_of s' u' = lifecycle_of s u').
  { rewrite (lifecycle_of_insert s' u v u' _ El). by rewrite decide_False. }
  rewrite Hl. eapply gate_of_ext; [by eapply lifecycle_of_gate|].
  intros op Hop Ht. exists op. split; [|done]. rewrite Eo, lookup_insert_ne; [done|].
  intros ->. specialize (Hu op Hop). congruence.
Qed.

Lemma Reserve_refines `{MapOrder} newID ev now userID key action request s r s' u :
  life_ok now s → newID ≠ "" → financeOperations s !! newID = None →
  ReserveSubscriptionAction newID ev now userID key action request s = (r, s') →
  spec_step now (gate_abs s u) (gate_abs s' u).
Proof.
  intros Hs Hne Hid Hr. apply Reserve_cases in Hr as [->|(Hidle & Hc & Eo & El)]; [apply SpecStay|].
  destruct (decide (u = userID)) as [->|Hu].
  - unfold gate_abs. rewrite (lifecycle_of_insert s' userID _ userID _ El), decide_True by done.
    rewrite (gate_of_idle (financeOperations s)) by exact Hidle.
    erewrite gate_of_busy; [|exact Hne|getset; rewrite Eo; apply lookup_insert_eq].
    getset. apply SpecReserve. intros Hp t Ht. by apply (reserved_change_cool _ _ _ _ _ _ _ t Hp Hc).
  - rewrite (other_gates now s s' userID _ newID _ Hs El Eo); [apply SpecStay| |done]. congruence.
Qed.

Lemma Finish_refines ev now userID id pid response confirmed plan eff s r s' u :
  life_ok now s →
  FinishSubscriptionAction ev now userID id pid response confirmed plan eff s = (r, s') →
  spec_step now (gate_abs s u) (gate_abs s' u).
Proof.
  intros Hs Hr.
  apply Finish_cases in Hr as [->|(op & op' & v & Hop & Ht & Htt & Hu & Hf & Eo & El)]; [apply SpecStay|].
  apply finishLifecycle_ok in Hf as (Hoid & Hidle & _ & Hlast).
  destruct (keyed_row _ _ _ _ (fi_op s (lo_fin now s Hs)) _ _ Hop) as [Hkey _]. rewrite Hkey in Hoid.
  assert (Hne : id ≠ "") by (intros ->; pose proof (fi_opid s (lo_fin now s Hs)); congruence).
  destruct (decide (u = userID)) as [->|Hu'].
  - unfold gate_abs at 2. rewrite (lifecycle_of_insert s' userID _ userID _ El), decide_True by done.
    rewrite gate_of_idle, Hlast by done. unfold gate_abs.
    rewrite (gate_of_busy _ _ op) by (by rewrite Hoid). apply SpecSettle.
  - rewrite (other_gates now s s' userID _ id _ Hs El Eo); [apply SpecStay| |done]. congruence.
Qed.

(** C19: The store implements the abstract gate.  From a reachable state, every
    call, whatever it answers, moves the abstract gate of every account by one
    step of the specification: it stays, an idle account reserves one change,
    a change of plan only when thirty days have passed since the last one, or
    the change in flight is settled, which restarts the cool-down exactly when
    it was a confirmed change of plan. *)
Theorem gate_refines_spec now0 now s s' u :
  life_reachable now0 s → now0 ≤ now → life_step now s s' → spec_step now (gate_abs s u) (gate_abs s' u).
Proof.
  intros Hr Hle Hst. pose proof (life_ok_later _ _ _ Hle (life_reachable_ok _ _ Hr)) as Hs.
  destruct Hst as [MO newID ev userID key action request r s' Hn Hf H|ev userID id pid response confirmed plan eff r s' H
    |ev id pid response complete r s' H|newID ev op version r out s' Hn Hf H|s' _ [El Eo]].
  - by eapply Reserve_refines.
  - by eapply Finish_refines.
  - apply Purchase_cases in H as [->|[(u' & c & H)|(op & op' & Hop & Eo & El & Ht & _ & _ & Hc & _)]];
      [apply SpecStay|by eapply Finish_refines|].
    enough (gate_abs s' u = gate_abs s u) as -> by apply SpecStay.
    unfold gate_abs, lifecycle_of. rewrite El. eapply gate_of_ext; [by eapply lifecycle_of_gate|].
    intros o Ho _. rewrite Eo. destruct (decide (id = slc_OperationID (lifecycle_of s u))) as [->|Hne].
    + exists op'. unfold lifecycle_of in *. rewrite lookup_insert_eq. split; [done|]. congruence.
    + exists o. rewrite lookup_insert_ne by done. done.
  - apply Review_cases in H as [->|(copy & Hidle & Eo & El)]; [apply SpecStay|].
    destruct (decide (u = op_TargetID op)) as [->|Hu].
    + unfold gate_abs. rewrite (lifecycle_of_insert s' _ _ (op_TargetID op) _ El), decide_True by done.
      rewrite !gate_of_idle by done. apply SpecStay.
    + rewrite (other_gates now s s' _ _ newID _ Hs El Eo); [apply SpecStay| |done]. congruence.
  - enough (gate_abs s' u = gate_abs s u) as -> by apply SpecStay.
    unfold gate_abs, lifecycle_of. rewrite El.
    destruct (subscriptionLifecycles s !! u) as [v|] eqn:Ev; simpl; [|by rewrite !gate_of_idle].
    eapply gate_of_ext; [by apply (lo_gate now s Hs)|].
    intros o Ho _. exists o. by rewrite (Eo u v Ev).
Qed.
