(* ===== verification/Referral.v ===== *)
(** * Referrals: codes, attributions, rewards, settlements and campaigns

    The in-memory halves of [referral_memory.go], [referral_campaign.go] and
    [referral_invoice_verification.go], [referral_plan.go], and
    [CreateUserWithReferral] of [store.go].

    Rewards and settlements are reached through pointers held by one map each,
    so writing a row back models the assignment through the pointer.  Loops
    whose result does not depend on the order of a map are written on its
    values; the others run over [range]. *)

From S2P Require Import Prelude GoLib Json StoreData Users Finance.
Open Scope Z_scope.
Open Scope bool_scope.
Open Scope go_scope.

(** ** Plans *)

Definition isXConnectReferralPlan (planID : string) : bool :=
  contains ["PRO-MONTHLY"; "PRO-YEARLY"; "PRO-MONTHLY-V2"; "PRO-YEARLY-V2"] (ToUpper (TrimSpace planID)).

Definition isXConnectAnnualReferralPlan (planID : string) : bool :=
  contains ["PRO-YEARLY"; "PRO-YEARLY-V2"] (ToUpper (TrimSpace planID)).

(** ** Campaign revisions *)

(** A nil campaign is [None]. *)
Definition Active (c : option ReferralCampaign) (at_ : time) : bool :=
  match c with
  | None => false
  | Some c =>
      camp_Enabled c &&
      match camp_StartsAt c with None => true | Some t => negb (Before at_ t) end &&
      match camp_EndsAt c with None => true | Some t => Before at_ t end
  end.

Definition cloneReferralCampaign (c : ReferralCampaign) : ReferralCampaign :=
  c <| camp_StartsAt := UTC <$> camp_StartsAt c |> <| camp_EndsAt := UTC <$> camp_EndsAt c |>.

Definition validateReferralCampaign (c : option ReferralCampaign) : result error unit :=
  match c with
  | None => Err ErrReferralCampaignInvalid
  | Some c =>
      if (TrimSpace (camp_Reason c) == "") || (500 <? len (TrimSpace (camp_Reason c))) ||
         match camp_StartsAt c, camp_EndsAt c with
         | Some t, Some u => negb (Before t u)
         | _, _ => false
         end
      then Err ErrReferralCampaignInvalid else Ok tt
  end.

(** The test that replaces the campaign selected so far. *)
Definition supersedes (at_ : time) (c : ReferralCampaign) (selected : option ReferralCampaign) : bool :=
  negb (After (camp_EffectiveAt c) at_) &&
  match selected with
  | None => true
  | Some s => After (camp_EffectiveAt c) (camp_EffectiveAt s) ||
              (Equal (camp_EffectiveAt c) (camp_EffectiveAt s) && (camp_Revision s <? camp_Revision c))
  end.

Definition referralCampaignAt (s : memoryStore) (at_ : time) : option ReferralCampaign :=
  foldl (λ selected c, if supersedes at_ c selected then Some (cloneReferralCampaign c) else selected)
    None (referralCampaigns s).

Definition GetReferralCampaign (s : memoryStore) (at_ : time) : result error ReferralCampaign :=
  match referralCampaignAt s at_ with
  | None => Err ErrReferralNotFound
  | Some c => Ok c
  end.

(** [s.referralCampaigns[len(s.referralCampaigns)-1]] on an empty slice. *)
Definition index_panic : error := ErrMsg "runtime error: index out of range [-1]".

Definition ConfigureReferralCampaign (now : time) (input : option ReferralCampaign) (s : memoryStore)
    : result error ReferralCampaign * memoryStore :=
  match validateReferralCampaign input, input with
  | Err e, _ => (Err e, s)
  | Ok _, None => (Err nil_deref, s)
  | Ok _, Some input =>
      let c := cloneReferralCampaign input in
      let c := c <| camp_Revision := Z.of_nat (length (referralCampaigns s)) + 1 |>
                 <| camp_EffectiveAt := UTC now |> in
      match last (referralCampaigns s) with
      | None => (Err index_panic, s)
      | Some prior =>
          let c := if negb (After (camp_EffectiveAt c) (camp_EffectiveAt prior))
                   then c <| camp_EffectiveAt := Add (camp_EffectiveAt prior) Microsecond |> else c in
          let c := c <| camp_Reason := TrimSpace (camp_Reason c) |>
                     <| camp_ActorUUID := TrimSpace (camp_ActorUUID c) |> in
          (Ok (cloneReferralCampaign c),
           s <| referralCampaigns := referralCampaigns s ++ [c] |>)
      end
  end.

Definition GetReferralRewardCampaign (s : memoryStore) (rewardID : string)
    : result error ReferralCampaign :=
  match referralRewardCampaigns s !! rewardID with
  | None => Err ErrReferralNotFound
  | Some c => Ok (cloneReferralCampaign c)
  end.

(** ** Codes and attributions *)

Definition EnsureReferralCode (now : time) (userUUID candidate : string) (s : memoryStore)
    : result error ReferralCode * memoryStore :=
  let userUUID := TrimSpace userUUID in
  let candidate := ToUpper (TrimSpace candidate) in
  match referralCodes s !! userUUID with
  | Some old => (Ok old, s)
  | None =>
      if (byID s !! userUUID == None) || (candidate == "") then (Err ErrUserNotFound, s) else
      let owner := get_str (referralCodesByValue s) candidate in
      if (owner != "") && (owner != userUUID) then (Err ErrReferralAlreadyAttributed, s) else
      let code := mkReferralCode userUUID candidate now in
      (Ok code, s <| referralCodes := <[userUUID := code]> (referralCodes s) |>
                  <| referralCodesByValue := <[candidate := userUUID]> (referralCodesByValue s) |>)
  end.

Definition GetReferralCode (s : memoryStore) (code : string) : result error ReferralCode :=
  let owner := get_str (referralCodesByValue s) (ToUpper (TrimSpace code)) in
  if owner == "" then Err ErrReferralNotFound else
  match referralCodes s !! owner with
  | Some c => Ok c
  | None => Err nil_deref
  end.

Definition CreateReferralAttribution (newID : string) (now : time) (code inviteeUUID : string)
    (createdAt : time) (s : memoryStore) : result error unit * memoryStore :=
  let code := ToUpper (TrimSpace code) in
  let inviteeUUID := TrimSpace inviteeUUID in
  let referrerUUID := get_str (referralCodesByValue s) code in
  if (referrerUUID == "") || (byID s !! inviteeUUID == None) then (Err ErrReferralNotFound, s) else
  if referrerUUID == inviteeUUID then (Err ErrReferralSelf, s) else
  match referralsByInvitee s !! inviteeUUID with
  | Some _ => (Err ErrReferralAlreadyAttributed, s)
  | None =>
      let createdAt := if IsZero createdAt then now else createdAt in
      (Ok tt, s <| referralsByInvitee := <[inviteeUUID :=
         mkReferralAttribution newID referrerUUID inviteeUUID code (UTC createdAt)]>
         (referralsByInvitee s) |>)
  end.

Definition GetReferralReferrer (s : memoryStore) (inviteeUUID : string) : result error string :=
  match referralsByInvitee s !! TrimSpace inviteeUUID with
  | None => Err ErrReferralNotFound
  | Some referral => Ok (rattr_ReferrerUUID referral)
  end.

(** An account created with a code: when the code cannot be attributed the
    account is taken out of the indexes again. *)
Definition CreateUserWithReferral (newID : string) (newV7 : result error string) (now : time)
    (newReferralID : string) (later : time) (user : User) (referralCode : string) (s : memoryStore)
    : result error unit * User * memoryStore :=
  match CreateUser newID newV7 now user s with
  | (Err e, user, s) => (Err e, user, s)
  | (Ok _, user, s) =>
      match CreateReferralAttribution newReferralID later referralCode (user_ID user) (user_CreatedAt user) s with
      | (Ok _, s) => (Ok tt, user, s)
      | (Err e, s) =>
          match user_by_id s (user_ID user) with
          | None => (Err e, user, s)
          | Some stored =>
              (Err e, user,
               s <| byEmail := delete (ToLower (user_Email stored)) (byEmail s) |>
                 <| byName := delete (ToLower (user_Name stored)) (byName s) |>
                 <| byID := delete (user_ID user) (byID s) |>)
          end
      end
  end.

(** ** Rewards *)

Definition validReward (reward : ReferralReward) : bool :=
  negb ((rew_ProviderInvoiceID reward == "") || (rew_PaidMinor reward <=? 0) ||
        negb (rew_RewardMinor reward =? Z.quot (rew_PaidMinor reward) 10) ||
        (rew_Currency reward == "") || (rew_ProductSlug reward != "xconnect") ||
        negb (isXConnectReferralPlan (rew_PlanID reward))).

(** The row filed for a reward; [now] and [later] are the two readings of the
    clock. *)
Definition newReward (newID : string) (now later : time) (reward : ReferralReward)
    (referral : ReferralAttribution) : ReferralReward :=
  let copy := reward
    <| rew_ID := newID |>
    <| rew_ReferralID := rattr_ID referral |>
    <| rew_ReferralCreatedAt := rattr_CreatedAt referral |> in
  let copy := if IsZero (rew_PaidAt copy) then copy <| rew_PaidAt := now |> else copy in
  let copy := copy <| rew_EligibleAt := Add (rew_PaidAt copy) (7 * 24 * Hour) |> in
  let copy := if rew_Status copy == "" then copy <| rew_Status := "pending" |> else copy in
  copy <| rew_CreatedAt := later |>.

(** Returns whether a reward was created, the caller's reward and the store. *)
Definition CreateReferralReward (newID : string) (now later : time) (reward : option ReferralReward)
    (s : memoryStore) : result error bool * option ReferralReward * memoryStore :=
  match reward with
  | None => (Err ErrReferralNotFound, None, s)
  | Some reward =>
  if negb (validReward reward) then (Err ErrReferralNotFound, Some reward, s) else
  let prior := get_str (referralRewardByInvoice s) (rew_ProviderInvoiceID reward) in
  if prior != "" then (Ok false, Some (reward <| rew_ID := prior |>), s) else
  match referralsByInvitee s !! rew_InviteeUUID reward with
  | None => (Err ErrReferralNotFound, Some reward, s)
  | Some referral =>
  if (rew_ReferrerUUID reward != "") && (rattr_ReferrerUUID referral != rew_ReferrerUUID reward)
  then (Err ErrReferralNotFound, Some reward, s) else
  let reward := reward <| rew_ReferrerUUID := rattr_ReferrerUUID referral |> in
  if map_any (λ old, rew_InviteeUUID old == rew_InviteeUUID reward) (referralRewards s)
  then (Ok false, Some reward, s) else
  if map_any (λ risk, risk_ProviderInvoiceID risk == rew_ProviderInvoiceID reward) (referralRisks s)
  then (Ok false, Some reward, s) else
  let copy := newReward newID now later reward referral in
  match referralCampaignAt s (rew_PaidAt copy) with
  | None => (Err ErrReferralNotFound, Some reward, s)
  | Some campaign =>
      (Ok true, Some copy,
       s <| referralRewardCampaigns := <[rew_ID copy := campaign]> (referralRewardCampaigns s) |>
         <| referralRewards := <[rew_ID copy := copy]> (referralRewards s) |>
         <| referralRewardByInvoice := <[rew_ProviderInvoiceID copy := rew_ID copy]>
              (referralRewardByInvoice s) |>)
  end end end.

(** The note on the pending settlements a reversed reward counts towards. *)
Definition holdSettlement (rewards : gmap string ReferralReward) (id type : string)
    (settlement : ReferralSettlement) : ReferralSettlement :=
  if (rset_Status settlement == "pending_review") &&
     map_any (λ reward, (rew_ID reward == id) && (rew_ReferrerUUID reward == rset_ReferrerUUID settlement) &&
                        (rew_Currency reward == rset_Currency settlement)) rewards
  then settlement <| rset_Reason := "payment risk hold: " +:+ type |> else settlement.

Definition RecordReferralRisk (risk : ReferralPaymentRisk) (s : memoryStore)
    : result error unit * memoryStore :=
  if (TrimSpace (risk_SourceKey risk) == "") || (TrimSpace (risk_ProviderInvoiceID risk) == "")
  then (Err (ErrMsg "referral risk source and invoice are required"), s) else
  if match referralRisks s !! risk_SourceKey risk with
     | Some old => risk_ProviderInvoiceID old != risk_ProviderInvoiceID risk
     | None => false
     end then (Err ErrFinanceIdempotencyConflict, s) else
  let s := s <| referralRisks := <[risk_SourceKey risk := risk]> (referralRisks s) |> in
  let id := get_str (referralRewardByInvoice s) (risk_ProviderInvoiceID risk) in
  if id == "" then (Ok tt, s) else
  match referralRewards s !! id with
  | None => (Err nil_deref, s)
  | Some reward =>
      let rewards := <[id := reward <| rew_Status := "reversed" |>]> (referralRewards s) in
      (Ok tt, s <| referralRewards := rewards |>
                <| referralSettlements := holdSettlement rewards id (risk_Type risk) <$> referralSettlements s |>)
  end.

Definition ReverseReferralReward (rewardID sourceKey : string) (s : memoryStore)
    : result error unit * memoryStore :=
  if get_str (referralRewardByInvoice s) ("source:" +:+ sourceKey) != "" then (Ok tt, s) else
  match referralRewards s !! TrimSpace rewardID with
  | None => (Err ErrReferralNotFound, s)
  | Some reward =>
      if rew_Status reward == "reversed" then (Ok tt, s) else
      (Ok tt, s <| referralRewards := <[TrimSpace rewardID := reward <| rew_Status := "reversed" |>]>
                     (referralRewards s) |>)
  end.

Definition ListReferralRewards `{MapOrder} (s : memoryStore) (referrerUUID : string) (limit : Z)
    : list ReferralReward :=
  limit_to limit (sort_slice (λ a b, After (rew_CreatedAt a) (rew_CreatedAt b))
    ((λ r, match user_by_id s (rew_InviteeUUID r) with
           | Some invitee => r <| rew_InviteeEmail := user_Email invitee |>
           | None => r
           end) <$>
     filter (λ r, rew_ReferrerUUID r = referrerUUID) (range (referralRewards s)).*2)).

(** *** The summary of a referrer *)

Definition zeroRow (currency : string) : ReferralCurrencySummary :=
  mkReferralCurrencySummary currency 0 0 0 0 0.

(** [get(currency)]: the row, created when it is missing. *)
Definition get_row (rows : gmap string ReferralCurrencySummary) (currency : string)
    : ReferralCurrencySummary :=
  default (zeroRow currency) (rows !! currency).

(** The body of the loop over rewards: the number of invitations and the
    rows so far. *)
Definition summarizeReward (referrerUUID : string) (now : time)
    (acc : Z * gmap string ReferralCurrencySummary) (reward : ReferralReward)
    : Z * gmap string ReferralCurrencySummary :=
  let '(invites, rows) := acc in
  if rew_ReferrerUUID reward != referrerUUID then acc else
  let row := get_row rows (rew_Currency reward) in
  if rew_Status reward == "reversed" then
    (invites, <[rew_Currency reward := row
       <| rcs_ReversedMinor := int64 (rcs_ReversedMinor row + rew_RewardMinor reward) |>]> rows)
  else
  let row := row <| rcs_EarnedMinor := int64 (rcs_EarnedMinor row + rew_RewardMinor reward) |> in
  let row :=
    if (rew_Status reward == "pending") && After (rew_EligibleAt reward) now
    then row <| rcs_PendingMinor := int64 (rcs_PendingMinor row + rew_RewardMinor reward) |>
    else if (rew_Status reward == "pending") || (rew_Status reward == "eligible")
    then row <| rcs_EligibleMinor := int64 (rcs_EligibleMinor row + rew_RewardMinor reward) |>
    else row in
  (int64 (invites + 1), <[rew_Currency reward := row]> rows).

Definition summarizeSettlement (referrerUUID : string)
    (rows : gmap string ReferralCurrencySummary) (settlement : ReferralSettlement)
    : gmap string ReferralCurrencySummary :=
  if rset_ReferrerUUID settlement != referrerUUID then rows else
  let row := get_row rows (rset_Currency settlement) in
  let row := if rset_Status settlement == "paid"
             then row <| rcs_SettledMinor := int64 (rcs_SettledMinor row + rset_AmountMinor settlement) |>
             else row in
  let row := if rset_Status settlement == "pending_review"
             then row <| rcs_EligibleMinor := int64 (rcs_EligibleMinor row - rset_AmountMinor settlement) |>
             else row in
  <[rset_Currency settlement := row]> rows.

Definition GetReferralSummary `{MapOrder} (s : memoryStore) (referrerUUID : string) (now : time)
    : ReferralSummary :=
  let '(invites, rows) := foldl (summarizeReward referrerUUID now) (0, ∅) (range (referralRewards s)).*2 in
  let days := sum64 (λ ext, if (ext_UserUUID ext == referrerUUID) && (ext_Status ext == "applied")
                            then ext_Days ext else 0) (range (referralExtensions s)).*2 in
  let rows := foldl (summarizeSettlement referrerUUID) rows (range (referralSettlements s)).*2 in
  mkReferralSummary invites days (range rows).*2.

(** ** Settlements *)

Definition ListReferralSettlements `{MapOrder} (s : memoryStore) (referrerUUID : string) (limit : Z)
    : list ReferralSettlement :=
  limit_to limit (sort_slice (λ a b, After (rset_RequestedAt a) (rset_RequestedAt b))
    (filter (λ r, rset_ReferrerUUID r = referrerUUID) (range (referralSettlements s)).*2)).

(** Whether the currency of a referrer has an open or paid settlement. *)
Definition reservedSettlement (referrerUUID currency : string) (settlement : ReferralSettlement) : bool :=
  (rset_ReferrerUUID settlement == referrerUUID) && (rset_Currency settlement == currency) &&
  ((rset_Status settlement == "pending_review") || (rset_Status settlement == "paid")).

(** What one reward adds to a requested settlement. *)
Definition settledPart (s : memoryStore) (referrerUUID currency : string) (now : time)
    (reward : ReferralReward) : Z :=
  if (rew_ReferrerUUID reward != referrerUUID) || (rew_Currency reward != currency) ||
     (rew_Status reward == "reversed") || After (rew_EligibleAt reward) now then 0 else
  if bool_decide (is_Some (referralRisks s !! rew_ProviderInvoiceID reward)) then 0 else
  if map_any (reservedSettlement referrerUUID currency) (referralSettlements s) then 0 else
  rew_RewardMinor reward.

Definition RequestReferralSettlement (newID : string) (referrerUUID currency : string) (now : time)
    (s : memoryStore) : result error ReferralSettlement * memoryStore :=
  let currency := ToUpper (TrimSpace currency) in
  let amount := sum64 (settledPart s referrerUUID currency now) (values (referralRewards s)) in
  if amount <=? 0 then (Err ErrReferralSettlementUnavailable, s) else
  let item := mkReferralSettlement newID referrerUUID currency "pending_review" amount "" ""
                (UTC now) None in
  (Ok item, s <| referralSettlements := <[newID := item]> (referralSettlements s) |>).

Definition reversedReward (item : ReferralSettlement) (reward : ReferralReward) : bool :=
  (rew_ReferrerUUID reward == rset_ReferrerUUID item) && (rew_Currency reward == rset_Currency item) &&
  (rew_Status reward == "reversed").

Definition CompleteReferralSettlement (settlementID payoutReference : string) (now : time)
    (s : memoryStore) : result error ReferralSettlement * memoryStore :=
  let id := TrimSpace settlementID in
  match referralSettlements s !! id with
  | None => (Err ErrReferralSettlementUnavailable, s)
  | Some item =>
      if TrimSpace payoutReference == "" then (Err ErrReferralSettlementUnavailable, s) else
      if (rset_Status item == "paid") && (rset_PayoutReference item == TrimSpace payoutReference)
      then (Ok item, s) else
      if rset_Status item != "pending_review" then (Err ErrReferralSettlementUnavailable, s) else
      if map_any (λ reward,
           negb ((rew_ReferrerUUID reward == rset_ReferrerUUID item) &&
                 (rew_Currency reward == rset_Currency item) && After (rew_EligibleAt reward) now) &&
           reversedReward item reward) (referralRewards s)
      then (Err ErrReferralSettlementRisk, s) else
      let item := item <| rset_Status := "paid" |>
        <| rset_PayoutReference := TrimSpace payoutReference |> <| rset_CompletedAt := Some now |> in
      (Ok item, s <| referralSettlements := <[id := item]> (referralSettlements s) |>)
  end.

Definition ReconcileReferralSettlement (settlementID payoutReference reason : string) (now : time)
    (s : memoryStore) : result error ReferralSettlement * memoryStore :=
  let id := TrimSpace settlementID in
  match referralSettlements s !! id with
  | None => (Err ErrReferralSettlementUnavailable, s)
  | Some item =>
      if (TrimSpace payoutReference == "") || (TrimSpace reason == "")
      then (Err ErrReferralSettlementUnavailable, s) else
      if (rset_Status item == "paid") && (rset_PayoutReference item == TrimSpace payoutReference)
      then (Ok item, s) else
      if (rset_Status item != "pending_review") && (rset_Status item != "rejected")
      then (Err ErrReferralSettlementUnavailable, s) else
      if (rset_Status item == "pending_review") && negb (map_any (reversedReward item) (referralRewards s))
      then (Err ErrReferralSettlementUnavailable, s) else
      let item := item <| rset_Status := "paid" |>
        <| rset_PayoutReference := TrimSpace payoutReference |>
        <| rset_Reason := TrimSpace (rset_Reason item +:+ "; reconciled actual payment: " +:+ reason) |>
        <| rset_CompletedAt := Some now |> in
      (Ok item, s <| referralSettlements := <[id := item]> (referralSettlements s) |>)
  end.

Definition RejectReferralSettlement (settlementID reason : string) (now : time) (s : memoryStore)
    : result error ReferralSettlement * memoryStore :=
  let id := TrimSpace settlementID in
  match referralSettlements s !! id with
  | None => (Err ErrReferralSettlementUnavailable, s)
  | Some item =>
      if (rset_Status item != "pending_review") || (rset_PayoutReference item != "") ||
         (TrimSpace reason == "") then (Err ErrReferralSettlementUnavailable, s) else
      let item := item <| rset_Status := "rejected" |> <| rset_Reason := TrimSpace reason |>
        <| rset_CompletedAt := Some now |> in
      (Ok item, s <| referralSettlements := <[id := item]> (referralSettlements s) |>)
  end.

(** ** Extensions and verified invoices *)

Definition ListSubscriptionExtensions `{MapOrder} (s : memoryStore) (userUUID : string) (limit : Z)
    : list SubscriptionExtension :=
  limit_to limit (sort_slice (λ a b, After (ext_CreatedAt a) (ext_CreatedAt b))
    (filter (λ e, ext_UserUUID e = userUUID) (range (referralExtensions s)).*2)).

Definition validReferralInvoiceVerification (v : option ReferralInvoiceVerification) : bool :=
  match v with
  | None => false
  | Some v => (TrimSpace (riv_InvoiceID v) != "") && (TrimSpace (riv_ProviderPriceID v) != "") &&
              (riv_ProductSlug v == "xconnect") && isXConnectReferralPlan (riv_PlanID v)
  end.

Definition VerifyReferralInvoice (v : option ReferralInvoiceVerification) (s : memoryStore)
    : result error unit * memoryStore :=
  if negb (validReferralInvoiceVerification v) then (Err ErrReferralNotFound, s) else
  match v with
  | None => (Err nil_deref, s)
  | Some v =>
      match financeInvoices s !! riv_InvoiceID v with
      | None => (Err ErrReferralNotFound, s)
      | Some _ =>
          match referralInvoiceProofs s !! riv_InvoiceID v with
          | Some old => if old != v then (Err ErrFinanceIdempotencyConflict, s) else (Ok tt, s)
          | None => (Ok tt, s <| referralInvoiceProofs := <[riv_InvoiceID v := v]> (referralInvoiceProofs s) |>)
          end
      end
  end.

(** Whether an invoice of the subscription is evidence of a service period. *)
Definition coversService (s : memoryStore) (subscriptionUUID : string) (invoice : FinanceInvoice) : bool :=
  negb ((inv_SubscriptionUUID invoice != subscriptionUUID) || (inv_Provider invoice != "stripe") ||
    match inv_ServicePeriodStart invoice, inv_ServicePeriodEnd invoice with
    | Some a, Some b => negb (Before a b)
    | _, _ => true
    end ||
    ((inv_Description invoice != "Verified XConnect subscription invoice") &&
     (inv_Description invoice != "Verified XConnect inviter subscription invoice") &&
     (match referralInvoiceProofs s !! inv_ID invoice with
      | Some proof => riv_InvoiceID proof | None => "" end == ""))).

Definition paidInvoice (s : memoryStore) (invoice : FinanceInvoice) : bool :=
  map_any (λ payment,
    (pay_InvoiceID payment == inv_ID invoice) && (pay_Provider payment == "stripe") &&
    negb (map_any (λ refund, refund_PaymentID refund == pay_ID payment) (financeRefunds s)) &&
    negb (map_any (λ risk, risk_ProviderInvoiceID risk == inv_ProviderInvoiceID invoice) (referralRisks s)))
    (financePayments s).

Definition ReferralExtensionEnd `{MapOrder} (s : memoryStore) (subscriptionUUID : string) : time :=
  let base := foldl (λ base invoice,
    match inv_ServicePeriodEnd invoice with
    | Some periodEnd =>
        if coversService s subscriptionUUID invoice && paidInvoice s invoice &&
           (IsZero base || After periodEnd base)
        then periodEnd else base
    | None => base
    end) 0 (range (financeInvoices s)).*2 in
  let days := sum64 (λ item, if (ext_SubscriptionUUID item == subscriptionUUID) &&
                                (ext_Status item == "applied") then ext_Days item else 0)
                (range (referralExtensions s)).*2 in
  if IsZero base then 0 else Add base (int64 (int64 (days * 24) * Hour)).
