(* ===== verification/ReferralProps.v ===== *)
(** * Properties of the referral programme

    Every reward in the books was earned once, by the referrer the invitee was
    attributed to, on an invoice without a recorded payment risk; settlements
    are opened one at a time and paid at most once; campaign revisions are
    numbered and effective in order, so the one selected is the last that was
    in force. *)

From S2P Require Import Prelude GoLib Json StoreData Users Finance Referral.
Open Scope Z_scope.
Open Scope bool_scope.
Open Scope go_scope.

(** ** The calls *)

(** The tables the referral programme keeps. *)
Definition same_referrals (s s' : memoryStore) : Prop :=
  referralCampaigns s' = referralCampaigns s ∧
  referralRewardCampaigns s' = referralRewardCampaigns s ∧
  referralCodes s' = referralCodes s ∧ referralCodesByValue s' = referralCodesByValue s ∧
  referralsByInvitee s' = referralsByInvitee s ∧ referralRewards s' = referralRewards s ∧
  referralRewardByInvoice s' = referralRewardByInvoice s ∧ referralRisks s' = referralRisks s ∧
  referralSettlements s' = referralSettlements s.

(** One call, whatever it answers.  Generated identifiers are not empty and
    not in use. *)
Inductive ref_step (s : memoryStore) : memoryStore → Prop :=
| RefCode now userUUID candidate r s' :
    EnsureReferralCode now userUUID candidate s = (r, s') → ref_step s s'
| RefAttribute newID now code invitee createdAt r s' :
    CreateReferralAttribution newID now code invitee createdAt s = (r, s') → ref_step s s'
| RefReward newID now later reward r out s' :
    newID ≠ "" → referralRewards s !! newID = None →
    CreateReferralReward newID now later reward s = (r, out, s') → ref_step s s'
| RefRisk risk r s' : RecordReferralRisk risk s = (r, s') → ref_step s s'
| RefReverse rewardID sourceKey r s' :
    ReverseReferralReward rewardID sourceKey s = (r, s') → ref_step s s'
| RefRequest newID referrer currency now r s' :
    newID ≠ "" → referralSettlements s !! newID = None →
    RequestReferralSettlement newID referrer currency now s = (r, s') → ref_step s s'
| RefComplete id payout now r s' :
    CompleteReferralSettlement id payout now s = (r, s') → ref_step s s'
| RefReconcile id payout reason now r s' :
    ReconcileReferralSettlement id payout reason now s = (r, s') → ref_step s s'
| RefReject id reason now r s' :
    RejectReferralSettlement id reason now s = (r, s') → ref_step s s'
| RefConfigure now input r s' :
    ConfigureReferralCampaign now input s = (r, s') → ref_step s s'
| RefOther s' : same_referrals s s' → ref_step s s'.

Inductive ref_reachable : memoryStore → Prop :=
| RefNew b : ref_reachable (newMemoryStore b)
| RefNext s s' : ref_reachable s → ref_step s s' → ref_reachable s'.

(** ** The invariant *)

(** A reward as the programme pays it. *)
Definition reward_ok (s : memoryStore) (id : string) (r : ReferralReward) : Prop :=
  rew_ID r = id ∧ id ≠ "" ∧ 0 < rew_PaidMinor r ∧ rew_RewardMinor r = rew_PaidMinor r / 10 ∧
  rew_ProductSlug r = "xconnect" ∧ isXConnectReferralPlan (rew_PlanID r) = true ∧
  rew_EligibleAt r = rew_PaidAt r + 7 * 24 * Hour ∧
  referralRewardByInvoice s !! rew_ProviderInvoiceID r = Some id ∧
  is_Some (referralRewardCampaigns s !! id) ∧
  ∃ a, referralsByInvitee s !! rew_InviteeUUID r = Some a ∧ rew_ReferrerUUID r = rattr_ReferrerUUID a.

(** An attribution to the holder of a code, who is someone else. *)
Definition attribution_ok (s : memoryStore) (invitee : string) (a : ReferralAttribution) : Prop :=
  rattr_InviteeUUID a = invitee ∧ rattr_ReferrerUUID a ≠ invitee ∧ rattr_ReferrerUUID a ≠ "" ∧
  referralCodesByValue s !! rattr_Code a = Some (rattr_ReferrerUUID a).

Record ref_ok (s : memoryStore) : Prop := {
  ro_code : ∀ c u, referralCodesByValue s !! c = Some u →
    ∃ code, referralCodes s !! u = Some code ∧ rcode_Code code = c;
  ro_attribution : ∀ i a, referralsByInvitee s !! i = Some a → attribution_ok s i a;
  ro_reward : ∀ id r, referralRewards s !! id = Some r → reward_ok s id r;
  ro_invoice : ∀ inv id, referralRewardByInvoice s !! inv = Some id →
    ∃ r, referralRewards s !! id = Some r ∧ rew_ProviderInvoiceID r = inv;
  ro_invitee : ∀ id id' r r', referralRewards s !! id = Some r → referralRewards s !! id' = Some r' →
    rew_InviteeUUID r = rew_InviteeUUID r' → id = id';
  ro_risk : ∀ k risk id r, referralRisks s !! k = Some risk → referralRewards s !! id = Some r →
    rew_ProviderInvoiceID r = risk_ProviderInvoiceID risk → rew_Status r = "reversed"
}.

Lemma ref_ok_new b : ref_ok (newMemoryStore b).
Proof. by constructor; simpl; intros *; rewrite lookup_empty. Qed.

(** The invariant does not look at settlements or campaigns. *)
Lemma ref_ok_ext s s' :
  referralRewardCampaigns s' = referralRewardCampaigns s →
  referralCodes s' = referralCodes s → referralCodesByValue s' = referralCodesByValue s →
  referralsByInvitee s' = referralsByInvitee s → referralRewards s' = referralRewards s →
  referralRewardByInvoice s' = referralRewardByInvoice s → referralRisks s' = referralRisks s →
  ref_ok s → ref_ok s'.
Proof.
  intros E1 E2 E3 E4 E5 E6 E7 []. constructor; unfold attribution_ok, reward_ok in *;
    by rewrite ?E1, ?E2, ?E3, ?E4, ?E5, ?E6, ?E7.
Qed.

Ltac ref_same := by eapply ref_ok_ext; [..|eassumption].

Lemma ref_ok_same s s' : same_referrals s s' → ref_ok s → ref_ok s'.
Proof. intros (?&?&?&?&?&?&?&?&?). by apply ref_ok_ext. Qed.

(** *** Codes and attributions *)

Lemma EnsureReferralCode_ok now userUUID candidate s r s' :
  ref_ok s → EnsureReferralCode now userUUID candidate s = (r, s') → ref_ok s'.
Proof.
  intros Hs Hr. unfold EnsureReferralCode in Hr. cbv zeta in Hr.
  set (u := TrimSpace userUUID) in *. set (c := ToUpper (TrimSpace candidate)) in *.
  destruct (referralCodes s !! u) as [old|] eqn:Eu; [by injection Hr as <- <-|].
  destruct (_ || _); [by injection Hr as <- <-|].
  destruct ((get_str _ c != "") && _) eqn:Eo; injection Hr as <- <-; [done|].
  assert (Hc : ∀ u', referralCodesByValue s !! c = Some u' → u' = "").
  { intros u' Hu'. destruct (ro_code s Hs c u' Hu') as (code & Hcode & _).
    unfold get_str in Eo. rewrite Hu' in Eo. simpl in Eo. apply andb_false_iff in Eo as [Eo|Eo].
    - by apply negb_false_iff, bool_decide_eq_true in Eo.
    - apply negb_false_iff, bool_decide_eq_true in Eo. congruence. }
  destruct Hs as [H1 H2 H3 H4 H5 H6]. constructor; getset; try done.
  - intros c' u' [[<- <-]|[Hne Hl]]%lookup_insert_Some; [rewrite lookup_insert_eq; eauto|].
    destruct (H1 c' u' Hl) as (code & Hcode & Hcc). exists code. split; [|done].
    rewrite lookup_insert_ne; [done|]. congruence.
  - intros i a Ha. destruct (H2 i a Ha) as (E1 & E2 & E3 & E4). unfold attribution_ok. getset.
    split_and!; try done. rewrite lookup_insert_ne; [done|]. intros E. rewrite <-E in E4.
    apply Hc in E4. done.
Qed.

Lemma CreateReferralAttribution_fields newID now code invitee createdAt s r s' :
  CreateReferralAttribution newID now code invitee createdAt s = (r, s') →
  s' = s ∧ r ≠ Ok tt ∨ r = Ok tt ∧ let i := TrimSpace invitee in
  let referrer := get_str (referralCodesByValue s) (ToUpper (TrimSpace code)) in
  referrer ≠ "" ∧ referrer ≠ i ∧ is_Some (byID s !! i) ∧ referralsByInvitee s !! i = None ∧
  ∃ t, s' = s <| referralsByInvitee := <[i :=
    mkReferralAttribution newID referrer i (ToUpper (TrimSpace code)) t]> (referralsByInvitee s) |>.
Proof.
  intros Hr. unfold CreateReferralAttribution in Hr. cbv zeta in Hr.
  destruct ((_ == "") || _) eqn:E1; [left; by injection Hr as <- <-|].
  destruct (_ == TrimSpace invitee) eqn:E2; [left; by injection Hr as <- <-|].
  destruct (referralsByInvitee s !! _) eqn:E3; injection Hr as <- <-; [by left|]. right.
  apply orb_false_iff in E1 as [E1%bool_decide_eq_false E1'%bool_decide_eq_false].
  apply bool_decide_eq_false in E2. cbv zeta. split_and!; try done; [|by eexists].
  by apply not_eq_None_Some.
Qed.

Lemma CreateReferralAttribution_ok newID now code invitee createdAt s r s' :
  ref_ok s → CreateReferralAttribution newID now code invitee createdAt s = (r, s') → ref_ok s'.
Proof.
  intros Hs Hr.
  apply CreateReferralAttribution_fields in Hr as [[-> _]|(_ & Hne & Hself & _ & Hnew & t & ->)]; [done|].
  destruct Hs as [H1 H2 H3 H4 H5 H6]. constructor; getset; try done.
  - intros i a [[<- <-]|[Hi Ha]]%lookup_insert_Some; [|by apply H2]. split_and!; try done. getset.
    cbn [rattr_Code rattr_ReferrerUUID]. revert Hne. unfold get_str.
    destruct (referralCodesByValue s !! _); done.
  - intros id rw Hrw. destruct (H3 id rw Hrw) as (?&?&?&?&?&?&?&?&?& a & Ha & Hra). unfold reward_ok. getset.
    split_and!; try done. exists a. rewrite lookup_insert_ne; [done|]. congruence.
Qed.

(** *** Rewards *)

(** Reversing a reward changes its status only. *)
Lemma ref_ok_reverse s id r :
  ref_ok s → referralRewards s !! id = Some r →
  ref_ok (s <| referralRewards := <[id := r <| rew_Status := "reversed" |>]> (referralRewards s) |>).
Proof.
  intros [H1 H2 H3 H4 H5 H6] Hid. constructor; getset; try done.
  - intros id' r' [[<- <-]|[_ Hr]]%lookup_insert_Some; [apply (H3 id r Hid)|by apply H3].
  - intros inv id' Hi. destruct (H4 inv id' Hi) as (r' & Hr' & E).
    destruct (decide (id = id')) as [->|Hne]; [rewrite lookup_insert_eq|rewrite lookup_insert_ne by done];
      eexists; split; [done| |done|done]. getset. congruence.
  - intros i j ri rj Hi Hj E. apply lookup_insert_Some in Hi, Hj.
    destruct Hi as [[<- <-]|[_ Hi]], Hj as [[<- <-]|[_ Hj]]; getset; eauto.
  - intros k risk i ri Hk [[<- <-]|[_ Hi]]%lookup_insert_Some E; [done|]. by eapply H6.
Qed.

Lemma newReward_keeps newID now later reward referral :
  let r := newReward newID now later reward referral in
  rew_ID r = newID ∧ rew_PaidMinor r = rew_PaidMinor reward ∧ rew_RewardMinor r = rew_RewardMinor reward ∧
  rew_ProductSlug r = rew_ProductSlug reward ∧ rew_PlanID r = rew_PlanID reward ∧
  rew_ProviderInvoiceID r = rew_ProviderInvoiceID reward ∧ rew_InviteeUUID r = rew_InviteeUUID reward ∧
  rew_ReferrerUUID r = rew_ReferrerUUID reward ∧ rew_EligibleAt r = rew_PaidAt r + 7 * 24 * Hour.
Proof.
  cbv zeta. unfold newReward. getset.
  destruct (IsZero _), (_ == ""); getset; split_and!; try done; by destruct (IsZero _).
Qed.

Lemma validReward_true reward :
  validReward reward = true →
  rew_ProviderInvoiceID reward ≠ "" ∧ 0 < rew_PaidMinor reward ∧
  rew_RewardMinor reward = rew_PaidMinor reward / 10 ∧ rew_ProductSlug reward = "xconnect" ∧
  isXConnectReferralPlan (rew_PlanID reward) = true.
Proof.
  unfold validReward. rewrite negb_true_iff. intros H.
  repeat (apply orb_false_iff in H as [H ?]). bools. apply Z.leb_gt in H4.
  split_and!; try done. rewrite <-Z.quot_div_nonneg by lia. lia.
Qed.

(** A new reward of an invitee without one, on an invoice without risk. *)
Lemma ref_ok_new_reward s r campaign :
  ref_ok s → rew_ID r ≠ "" → referralRewards s !! rew_ID r = None →
  0 < rew_PaidMinor r → rew_RewardMinor r = rew_PaidMinor r / 10 → rew_ProductSlug r = "xconnect" →
  isXConnectReferralPlan (rew_PlanID r) = true → rew_EligibleAt r = rew_PaidAt r + 7 * 24 * Hour →
  (∃ a, referralsByInvitee s !! rew_InviteeUUID r = Some a ∧ rew_ReferrerUUID r = rattr_ReferrerUUID a) →
  (∀ k x, referralRewards s !! k = Some x → rew_InviteeUUID x ≠ rew_InviteeUUID r) →
  (∀ k x, referralRisks s !! k = Some x → risk_ProviderInvoiceID x ≠ rew_ProviderInvoiceID r) →
  referralRewardByInvoice s !! rew_ProviderInvoiceID r = None →
  ref_ok (s <| referralRewardCampaigns := <[rew_ID r := campaign]> (referralRewardCampaigns s) |>
            <| referralRewards := <[rew_ID r := r]> (referralRewards s) |>
            <| referralRewardByInvoice := <[rew_ProviderInvoiceID r := rew_ID r]> (referralRewardByInvoice s) |>).
Proof.
  intros [H1 H2 H3 H4 H5 H6] Hne Hnew Hpos Hten Hslug Hplan Hel Hattr Hinv Hrisk Hfree.
  constructor; getset; try done.
  - intros id x [[<- <-]|[Hid Hx]]%lookup_insert_Some.
    + unfold reward_ok. getset. split_and!; try done; rewrite lookup_insert_eq; by eauto.
    + destruct (H3 id x Hx) as (?&?&?&?&?&?&?& Hi &?&?). unfold reward_ok. getset.
      split_and!; try done; rewrite lookup_insert_ne by congruence; done.
  - intros inv id [[<- <-]|[Hi Hl]]%lookup_insert_Some; [rewrite lookup_insert_eq; by eauto|].
    destruct (H4 inv id Hl) as (x & Hx & E). exists x. split; [|done].
    rewrite lookup_insert_ne; [done|]. congruence.
  - intros i j ri rj Hi Hj E. apply lookup_insert_Some in Hi, Hj.
    destruct Hi as [[<- <-]|[_ Hi]], Hj as [[<- <-]|[_ Hj]]; eauto; exfalso.
    + by eapply Hinv.
    + by eapply Hinv.
  - intros k risk i ri Hk [[<- <-]|[_ Hi]]%lookup_insert_Some E; [exfalso; by eapply Hrisk|]. by eapply H6.
Qed.

(** The index of rewards by invoice never maps to the empty identifier. *)
Lemma by_invoice_none s inv :
  ref_ok s → get_str (referralRewardByInvoice s) inv = "" → referralRewardByInvoice s !! inv = None.
Proof.
  intros Hs E. unfold get_str in E. destruct (referralRewardByInvoice s !! inv) as [id|] eqn:Ei; [|done].
  simpl in E. subst id. destruct (ro_invoice s Hs _ _ Ei) as (r & Hr & _).
  by destruct (ro_reward s Hs _ _ Hr) as (_ & ? & _).
Qed.

(** What a call that creates a reward has checked, and what it writes. *)
Lemma CreateReferralReward_created newID now later reward s r out s' :
  CreateReferralReward newID now later reward s = (r, out, s') → s' = s ∨
  ∃ rw a campaign, validReward rw = true ∧ referralsByInvitee s !! rew_InviteeUUID rw = Some a ∧
    rew_ReferrerUUID rw = rattr_ReferrerUUID a ∧
    get_str (referralRewardByInvoice s) (rew_ProviderInvoiceID rw) = "" ∧
    map_any (λ old, rew_InviteeUUID old == rew_InviteeUUID rw) (referralRewards s) = false ∧
    map_any (λ risk, risk_ProviderInvoiceID risk == rew_ProviderInvoiceID rw) (referralRisks s) = false ∧
    let copy := newReward newID now later rw a in
    referralCampaignAt s (rew_PaidAt copy) = Some campaign ∧ r = Ok true ∧ out = Some copy ∧
    s' = s <| referralRewardCampaigns := <[rew_ID copy := campaign]> (referralRewardCampaigns s) |>
           <| referralRewards := <[rew_ID copy := copy]> (referralRewards s) |>
           <| referralRewardByInvoice := <[rew_ProviderInvoiceID copy := rew_ID copy]>
                (referralRewardByInvoice s) |>.
Proof.
  intros Hr. unfold CreateReferralReward in Hr. cbv zeta in Hr.
  destruct reward as [rw|]; [|left; by injection Hr as <- <- <-].
  destruct (validReward rw) eqn:Ev; cbn [negb] in Hr; [|left; by injection Hr as <- <- <-].
  destruct (get_str _ _ == "") eqn:Eg; cbn [negb] in Hr; [|left; by injection Hr as <- <- <-].
  destruct (referralsByInvitee s !! _) as [a|] eqn:Ea; [|left; by injection Hr as <- <- <-].
  destruct (_ && _); [left; by injection Hr as <- <- <-|].
  destruct (map_any _ (referralRewards s)) eqn:E1; [left; by injection Hr as <- <- <-|].
  destruct (map_any _ (referralRisks s)) eqn:E2; [left; by injection Hr as <- <- <-|].
  remember (newReward newID now later _ a) as copy eqn:Hcopy in Hr.
  destruct (referralCampaignAt s _) as [c|] eqn:Ec; injection Hr as <- <- <-; [right|by left].
  exists (rw <| rew_ReferrerUUID := rattr_ReferrerUUID a |>), a, c. apply bool_decide_eq_true in Eg.
  cbv zeta. rewrite <-Hcopy. clear Hcopy. split_and!; assumption || reflexivity.
Qed.

Lemma CreateReferralReward_ok newID now later reward s r out s' :
  ref_ok s → newID ≠ "" → referralRewards s !! newID = None →
  CreateReferralReward newID now later reward s = (r, out, s') → ref_ok s'.
Proof.
  intros Hs Hne Hnew Hr. apply CreateReferralReward_created in Hr
    as [->|(rw & a & c & Hv & Ha & Href & Hg & Hinv & Hrisk & Hc & _ & _ & ->)]; [done|].
  destruct (newReward_keeps newID now later rw a) as (E1&E2&E3&E4&E5&E6&E7&E8&E9).
  apply validReward_true in Hv as (V1 & V2 & V3 & V4 & V5).
  apply ref_ok_new_reward; rewrite ?E1, ?E2, ?E3, ?E4, ?E5, ?E6, ?E7, ?E8; try done; [by eauto|..].
  - intros k x Hx. pose proof (proj1 (map_any_false _ _) Hinv k x Hx) as E. by apply bool_decide_eq_false in E.
  - intros k x Hx. pose proof (proj1 (map_any_false _ _) Hrisk k x Hx) as E. by apply bool_decide_eq_false in E.
  - by apply by_invoice_none.
Qed.

(** What a recorded risk writes: the risk, and the reversal of the reward of
    its invoice. *)
Lemma RecordReferralRisk_fields risk s r s' :
  ref_ok s → RecordReferralRisk risk s = (r, s') → s' = s ∨
  r = Ok tt ∧
  (∀ old, referralRisks s !! risk_SourceKey risk = Some old →
     risk_ProviderInvoiceID old = risk_ProviderInvoiceID risk) ∧
  ∃ s1, s1 = s <| referralRisks := <[risk_SourceKey risk := risk]> (referralRisks s) |> ∧
  (referralRewardByInvoice s !! risk_ProviderInvoiceID risk = None ∧ s' = s1 ∨
   ∃ id rw rewards, referralRewardByInvoice s !! risk_ProviderInvoiceID risk = Some id ∧
     referralRewards s !! id = Some rw ∧ rewards = <[id := rw <| rew_Status := "reversed" |>]> (referralRewards s) ∧
     s' = s1 <| referralRewards := rewards |>
             <| referralSettlements := holdSettlement rewards id (risk_Type risk) <$> referralSettlements s |>).
Proof.
  intros Hs Hr. unfold RecordReferralRisk in Hr. cbv zeta in Hr.
  destruct (_ || _); [left; by injection Hr as <- <-|].
  destruct (match referralRisks s !! _ with Some _ => _ | None => _ end) eqn:Eo; [left; by injection Hr as <- <-|].
  getset. destruct (get_str _ _ == "") eqn:Eg.
  - right. injection Hr as <- <-. split_and!; [done| |].
    + intros old Ho. rewrite Ho in Eo. by apply negb_false_iff, bool_decide_eq_true in Eo.
    + eexists. split; [reflexivity|]. left. split; [|done].
      apply bool_decide_eq_true in Eg. by apply by_invoice_none.
  - apply bool_decide_eq_false in Eg. unfold get_str in *.
    destruct (referralRewardByInvoice s !! _) as [id|] eqn:Ei; [|done]. simpl in *.
    destruct (ro_invoice s Hs _ _ Ei) as (rw & Hrw & _). rewrite Hrw in Hr. injection Hr as <- <-.
    right. split_and!; [done| |].
    + intros old Ho. rewrite Ho in Eo. by apply negb_false_iff, bool_decide_eq_true in Eo.
    + eexists. split; [reflexivity|]. right. eauto 10.
Qed.

(** A risk whose reward, if there is one, is reversed. *)
Lemma ref_ok_risk s risk :
  ref_ok s →
  (∀ id r, referralRewards s !! id = Some r → rew_ProviderInvoiceID r = risk_ProviderInvoiceID risk →
     rew_Status r = "reversed") →
  ref_ok (s <| referralRisks := <[risk_SourceKey risk := risk]> (referralRisks s) |>).
Proof.
  intros [H1 H2 H3 H4 H5 H6] Hrev. constructor; getset; try done.
  intros k x id r [[<- <-]|[_ Hk]]%lookup_insert_Some Hid E; [by eapply Hrev|by eapply H6].
Qed.

Lemma RecordReferralRisk_ok risk s r s' : ref_ok s → RecordReferralRisk risk s = (r, s') → ref_ok s'.
Proof.
  intros Hs Hr.
  apply (RecordReferralRisk_fields risk s r s' Hs) in Hr as [->|(_ & _ & s1 & -> & H)]; [done|].
  destruct H as [[Hn ->]|(id & rw & rewards & Hi & Hrw & -> & ->)].
  - apply ref_ok_risk; [done|]. intros id rw Hrw E. destruct (ro_reward s Hs _ _ Hrw) as (_&_&_&_&_&_&_&Hi&_).
    rewrite E in Hi. congruence.
  - pose proof (ref_ok_reverse s id rw Hs Hrw) as H1. apply (ref_ok_risk _ risk) in H1.
    + eapply ref_ok_ext; [..|exact H1]; reflexivity.
    + getset. intros id' r' [[<- <-]|[Hne Hr']]%lookup_insert_Some E; [done|].
      destruct (ro_reward s Hs _ _ Hr') as (_&_&_&_&_&_&_&Hi'&_). rewrite E in Hi'. congruence.
Qed.

Lemma ReverseReferralReward_ok rewardID sourceKey s r s' :
  ref_ok s → ReverseReferralReward rewardID sourceKey s = (r, s') → ref_ok s'.
Proof.
  intros Hs Hr. unfold ReverseReferralReward in Hr. destruct (_ != ""); [by injection Hr as <- <-|].
  destruct (referralRewards s !! _) as [rw|] eqn:Erw; [|by injection Hr as <- <-].
  destruct (_ == "reversed"); injection Hr as <- <-; [done|]. by apply ref_ok_reverse.
Qed.

(** *** Settlements *)

(** A settlement call answers without a change or writes one settlement. *)
Lemma settlement_write_ok s m : ref_ok s → ref_ok (s <| referralSettlements := m |>).
Proof. intros Hs. eapply ref_ok_ext; [..|exact Hs]; reflexivity. Qed.

Lemma RequestReferralSettlement_writes newID referrer currency now s r s' :
  RequestReferralSettlement newID referrer currency now s = (r, s') →
  s' = s ∨ ∃ item, r = Ok item ∧ rset_Status item = "pending_review" ∧ 0 < rset_AmountMinor item ∧
    map_any (reservedSettlement (rset_ReferrerUUID item) (rset_Currency item)) (referralSettlements s) = false ∧
    s' = s <| referralSettlements := <[newID := item]> (referralSettlements s) |>.
Proof.
  unfold RequestReferralSettlement. cbv zeta. intros Hr.
  destruct (_ <=? 0) eqn:Ea; injection Hr as <- <-; [by left|]. right. eexists.
  split_and!; [done..| | |reflexivity].
  - cbn [rset_AmountMinor]. lia.
  - apply not_true_iff_false. intros Hres. apply Z.leb_gt in Ea.
    rewrite sum64_sum, (sum_list_ext _ (λ _, 0)) in Ea.
    + assert (E0 : ∀ l : list ReferralReward, sum_list (λ _, 0) l = 0) by (induction l; simpl; lia).
      by rewrite E0 in Ea.
    + intros x _. unfold settledPart. cbn [rset_ReferrerUUID rset_Currency] in Hres; rewrite Hres.
      destruct (_ || _ || _ || _); [done|]. by destruct (bool_decide _).
Qed.

(** How a settlement may move; a paid one is final. *)
Definition settlement_moves (x y : ReferralSettlement) : Prop :=
  rset_ID y = rset_ID x ∧ rset_ReferrerUUID y = rset_ReferrerUUID x ∧
  rset_Currency y = rset_Currency x ∧ rset_AmountMinor y = rset_AmountMinor x ∧
  rset_RequestedAt y = rset_RequestedAt x ∧
  (y = x ∨
   rset_Status x = "pending_review" ∧ rset_Status y = "pending_review" ∧
     rset_PayoutReference y = rset_PayoutReference x ∧ rset_CompletedAt y = rset_CompletedAt x ∨
   rset_Status x = "pending_review" ∧ rset_Status y = "rejected" ∧
     rset_Reason y ≠ "" ∧ rset_CompletedAt y ≠ None ∨
   (rset_Status x = "pending_review" ∨ rset_Status x = "rejected") ∧ rset_Status y = "paid" ∧
     rset_PayoutReference y ≠ "" ∧ rset_CompletedAt y ≠ None).

Lemma settlement_moves_refl x : settlement_moves x x.
Proof. split_and!; try done. by left. Qed.

Definition settles (s s' : memoryStore) : Prop :=
  s' = s ∨ ∃ id x y, referralSettlements s !! id = Some x ∧ settlement_moves x y ∧
    s' = s <| referralSettlements := <[id := y]> (referralSettlements s) |>.

Lemma CompleteReferralSettlement_settles id payout now s r s' :
  CompleteReferralSettlement id payout now s = (r, s') → settles s s'.
Proof.
  intros Hr. unfold CompleteReferralSettlement in Hr. cbv zeta in Hr.
  destruct (referralSettlements s !! _) as [x|] eqn:Ex; [|left; by injection Hr as <- <-].
  destruct (TrimSpace payout == "") eqn:Ep; [left; by injection Hr as <- <-|].
  destruct (_ && _); [left; by injection Hr as <- <-|].
  destruct (rset_Status x != "pending_review") eqn:Es; [left; by injection Hr as <- <-|].
  destruct (map_any _ _); injection Hr as <- <-; [by left|]. right. eexists _, x, _.
  apply bool_decide_eq_false in Ep. apply negb_false_iff, bool_decide_eq_true in Es.
  split_and!; [exact Ex| |reflexivity]. unfold settlement_moves. getset. split_and!; try done.
  right; right; right. split_and!; try done. by left.
Qed.

Lemma ReconcileReferralSettlement_settles id payout reason now s r s' :
  ReconcileReferralSettlement id payout reason now s = (r, s') → settles s s'.
Proof.
  intros Hr. unfold ReconcileReferralSettlement in Hr. cbv zeta in Hr.
  destruct (referralSettlements s !! _) as [x|] eqn:Ex; [|left; by injection Hr as <- <-].
  destruct ((TrimSpace payout == "") || _) eqn:Ep; [left; by injection Hr as <- <-|].
  destruct ((rset_Status x == "paid") && _); [left; by injection Hr as <- <-|].
  destruct ((rset_Status x != "pending_review") && (rset_Status x != "rejected")) eqn:Es;
    [left; by injection Hr as <- <-|].
  destruct ((rset_Status x == "pending_review") && _); injection Hr as <- <-; [by left|].
  right. eexists _, x, _. apply orb_false_iff in Ep as [Ep%bool_decide_eq_false _].
  split_and!; [exact Ex| |reflexivity]. unfold settlement_moves. getset. split_and!; try done.
  right; right; right. split_and!; try done.
  apply andb_false_iff in Es as [Es|Es]; apply negb_false_iff, bool_decide_eq_true in Es; auto.
Qed.

Lemma RejectReferralSettlement_settles id reason now s r s' :
  RejectReferralSettlement id reason now s = (r, s') → settles s s'.
Proof.
  intros Hr. unfold RejectReferralSettlement in Hr. cbv zeta in Hr.
  destruct (referralSettlements s !! _) as [x|] eqn:Ex; [|left; by injection Hr as <- <-].
  destruct (_ || _) eqn:Es; injection Hr as <- <-; [by left|]. right. eexists _, x, _.
  apply orb_false_iff in Es as [[Es _]%orb_false_iff Er%bool_decide_eq_false].
  apply negb_false_iff, bool_decide_eq_true in Es.
  split_and!; [exact Ex| |reflexivity]. unfold settlement_moves. getset. split_and!; try done.
  right; right; left. by split_and!.
Qed.

Lemma settles_ok s s' : settles s s' → ref_ok s → ref_ok s'.
Proof. intros [->|(?&?&?&_&_&->)]; [done|]. apply settlement_write_ok. Qed.

Lemma ConfigureReferralCampaign_ok now input s r s' :
  ref_ok s → ConfigureReferralCampaign now input s = (r, s') → ref_ok s'.
Proof.
  intros Hs Hr. unfold ConfigureReferralCampaign in Hr. cbv zeta in Hr.
  destruct (validateReferralCampaign input); [|by injection Hr as <- <-].
  destruct input; [|by injection Hr as <- <-].
  destruct (last _); injection Hr as <- <-; [|done]. eapply ref_ok_ext; [..|exact Hs]; reflexivity.
Qed.

Lemma ref_step_ok s s' : ref_ok s → ref_step s s' → ref_ok s'.
Proof.
  intros Hs H. destruct H as [| | | | |????? s' Hn Hf Hr| | | | |].
  - by eapply EnsureReferralCode_ok.
  - by eapply CreateReferralAttribution_ok.
  - by eapply CreateReferralReward_ok.
  - by eapply RecordReferralRisk_ok.
  - by eapply ReverseReferralReward_ok.
  - apply RequestReferralSettlement_writes in Hr as [->|(?&_&_&_&_&->)]; [done|by apply settlement_write_ok].
  - by eapply settles_ok; [eapply CompleteReferralSettlement_settles|].
  - by eapply settles_ok; [eapply ReconcileReferralSettlement_settles|].
  - by eapply settles_ok; [eapply RejectReferralSettlement_settles|].
  - by eapply ConfigureReferralCampaign_ok.
  - by eapply ref_ok_same.
Qed.

Lemma ref_reachable_ok s : ref_reachable s → ref_ok s.
Proof. induction 1; [apply ref_ok_new|by eapply ref_step_ok]. Qed.

(** ** The claims on rewards and settlements *)

(** C20: Every reward in the books is sound.  Whatever calls were made, a
    stored reward is a tenth of a positive payment, becomes payable a week
    after it, and belongs to the holder of the code the invitee was attributed
    to, who is not the invitee; the invitee and the invoice have no other
    reward; and if any payment risk is recorded on the invoice, before or
    after the reward, the reward is reversed. *)
Theorem referral_rewards_sound s id r :
  ref_reachable s → referralRewards s !! id = Some r →
  0 < rew_PaidMinor r ∧ rew_RewardMinor r = rew_PaidMinor r / 10 ∧
  rew_EligibleAt r = rew_PaidAt r + 7 * 24 * Hour ∧
  (∃ a code, referralsByInvitee s !! rew_InviteeUUID r = Some a ∧
     rattr_ReferrerUUID a = rew_ReferrerUUID r ∧ rew_ReferrerUUID r ≠ rew_InviteeUUID r ∧
     referralCodes s !! rew_ReferrerUUID r = Some code ∧ rcode_Code code = rattr_Code a) ∧
  (∀ id' r', referralRewards s !! id' = Some r' →
     rew_InviteeUUID r' = rew_InviteeUUID r ∨ rew_ProviderInvoiceID r' = rew_ProviderInvoiceID r → id' = id) ∧
  (∀ k risk, referralRisks s !! k = Some risk →
     risk_ProviderInvoiceID risk = rew_ProviderInvoiceID r → rew_Status r = "reversed").
Proof.
  intros Hs%ref_reachable_ok Hr.
  destruct (ro_reward s Hs id r Hr) as (_&_&Hpos&Hten&_&_&Hel&Hinv&_& a & Ha & Hra).
  destruct (ro_attribution s Hs _ a Ha) as (_ & Hself & _ & Hcode).
  destruct (ro_code s Hs _ _ Hcode) as (code & Hc & Hcc).
  split_and!; try done.
  - exists a, code. rewrite Hra. by split_and!.
  - intros id' r' Hr' [E|E]; [by apply (ro_invitee s Hs id' id r' r)|].
    destruct (ro_reward s Hs id' r' Hr') as (_&_&_&_&_&_&_&Hinv'&_). congruence.
  - intros k risk Hk E. by apply (ro_risk s Hs k risk id r).
Qed.

(** What any call does to the settlements. *)
Lemma settles_moves s s' id x :
  settles s s' → referralSettlements s !! id = Some x →
  ∃ y, referralSettlements s' !! id = Some y ∧ settlement_moves x y.
Proof.
  intros [->|(id' & x' & y & Hx' & Hm & ->)] Hx; [exists x; split; [done|apply settlement_moves_refl]|].
  getset. destruct (decide (id' = id)) as [->|Hne].
  - rewrite lookup_insert_eq. exists y. split; [done|]. congruence.
  - rewrite lookup_insert_ne by done. exists x. split; [done|apply settlement_moves_refl].
Qed.

Lemma settles_dom s s' id :
  settles s s' → referralSettlements s !! id = None → referralSettlements s' !! id = None.
Proof.
  intros [->|(id' & x' & y & Hx' & _ & ->)] Hn; [done|]. getset. rewrite lookup_insert_ne; congruence.
Qed.

Lemma holdSettlement_moves rewards id type x : settlement_moves x (holdSettlement rewards id type x).
Proof.
  unfold holdSettlement. destruct ((_ == "pending_review") && _) eqn:E; [|apply settlement_moves_refl].
  apply andb_true_iff in E as [E%bool_decide_eq_true _]. unfold settlement_moves. getset.
  split_and!; try done. right; left. by split_and!.
Qed.

(** A call that changes no settlement, for the two directions of the claim. *)
Definition settlements_evolve (s s' : memoryStore) : Prop :=
  (∀ id x, referralSettlements s !! id = Some x →
     ∃ y, referralSettlements s' !! id = Some y ∧ settlement_moves x y) ∧
  (∀ id y, referralSettlements s' !! id = Some y → referralSettlements s !! id = None →
     rset_Status y = "pending_review" ∧ 0 < rset_AmountMinor y ∧
     ∀ k x, referralSettlements s !! k = Some x →
       rset_ReferrerUUID x = rset_ReferrerUUID y → rset_Currency x = rset_Currency y →
       rset_Status x ≠ "pending_review" ∧ rset_Status x ≠ "paid").

Lemma evolve_same s s' : referralSettlements s' = referralSettlements s → settlements_evolve s s'.
Proof.
  intros E. split; rewrite E.
  - intros id x Hx. exists x. split; [done|apply settlement_moves_refl].
  - intros. congruence.
Qed.

Lemma evolve_settles s s' : settles s s' → settlements_evolve s s'.
Proof.
  intros H. split; [intros; by eapply settles_moves|].
  intros id y Hy Hn. by rewrite (settles_dom s s' id H Hn) in Hy.
Qed.

Lemma RequestReferralSettlement_evolves newID referrer currency now s r s' :
  referralSettlements s !! newID = None →
  RequestReferralSettlement newID referrer currency now s = (r, s') → settlements_evolve s s'.
Proof.
  intros Hf Hr.
  apply RequestReferralSettlement_writes in Hr as [->|(item & _ & Hst & Hamt & Hres & ->)]; [by apply evolve_same|].
  split; getset.
  - intros id x Hx. exists x. split; [|apply settlement_moves_refl]. rewrite lookup_insert_ne; congruence.
  - intros id y [[<- <-]|[_ Hy]]%lookup_insert_Some Hn; [|congruence]. split_and!; try done.
    intros k x Hk E1 E2. pose proof (proj1 (map_any_false _ _) Hres k x Hk) as H.
    unfold reservedSettlement in H. rewrite E1, E2, !bool_decide_eq_true_2 in H by done.
    cbn [andb] in H. apply orb_false_iff in H as [H1%bool_decide_eq_false H2%bool_decide_eq_false]. done.
Qed.

Lemma RecordReferralRisk_evolves risk s r s' :
  ref_ok s → RecordReferralRisk risk s = (r, s') → settlements_evolve s s'.
Proof.
  intros Hs Hr.
  apply (RecordReferralRisk_fields risk s r s' Hs) in Hr as [->|(_ & _ & s1 & -> & H)]; [by apply evolve_same|].
  destruct H as [[_ ->]|(id & rw & rewards & _ & _ & _ & ->)]; [by apply evolve_same|]. split; getset.
  - intros i x Hx. rewrite lookup_fmap, Hx. eexists. split; [reflexivity|]. apply holdSettlement_moves.
  - intros i y Hy Hn. by rewrite lookup_fmap, Hn in Hy.
Qed.

(** C29: Settlements are opened one at a time and paid at most once.  Whatever
    call is made in a reachable state, a stored settlement keeps its referrer,
    currency, amount and date; only a pending one is rejected, with a reason;
    only a pending or rejected one is paid, with a payout reference; a paid one
    never changes again.  A settlement that appears is pending, of a positive
    amount, and at that moment its referrer has no other pending or paid
    settlement in that currency. *)
Theorem settlement_lifecycle s s' :
  ref_reachable s → ref_step s s' → settlements_evolve s s'.
Proof.
  intros Hs%ref_reachable_ok H.
  destruct H as [???? s' Hr|?????? s' Hr|?????? s' _ _ Hr|?? s' Hr|??? s' Hr|????? s' _ Hf Hr
    |???? s' Hr|????? s' Hr|???? s' Hr|??? s' Hr|s' (?&?&?&?&?&?&?&?&E)].
  - apply evolve_same. unfold EnsureReferralCode in Hr. cbv zeta in Hr.
    destruct (referralCodes s !! _); [by injection Hr as <- <-|].
    destruct (_ || _); [by injection Hr as <- <-|]. destruct (_ && _); by injection Hr as <- <-.
  - apply evolve_same. by apply CreateReferralAttribution_fields in Hr as [[-> _]|(_&_&_&_&_&?&->)].
  - apply evolve_same. by apply CreateReferralReward_created in Hr as [->|(?&?&?&_&_&_&_&_&_&_&_&_&->)].
  - by eapply RecordReferralRisk_evolves.
  - apply evolve_same. unfold ReverseReferralReward in Hr. destruct (_ != ""); [by injection Hr as <- <-|].
    destruct (referralRewards s !! _) as [rw|]; [|by injection Hr as <- <-].
    destruct (_ == "reversed"); by injection Hr as <- <-.
  - by eapply RequestReferralSettlement_evolves.
  - by eapply evolve_settles, CompleteReferralSettlement_settles.
  - by eapply evolve_settles, ReconcileReferralSettlement_settles.
  - by eapply evolve_settles, RejectReferralSettlement_settles.
  - apply evolve_same. unfold ConfigureReferralCampaign in Hr. cbv zeta in Hr.
    destruct (validateReferralCampaign _); [|by injection Hr as <- <-].
    case_match; [|by injection Hr as <- <-]. destruct (last _); by injection Hr as <- <-.
  - by apply evolve_same.
Qed.

(** ** Campaign revisions *)

Definition campaign_valid (c : ReferralCampaign) : Prop :=
  camp_Reason c ≠ "" ∧ TrimSpace (camp_Reason c) = camp_Reason c ∧ len (camp_Reason c) ≤ 500 ∧
  ∀ t u, camp_StartsAt c = Some t → camp_EndsAt c = Some u → t < u.

(** The history of revisions: it starts with the default campaign, the i-th
    revision has number i, each takes effect after the one before, and each is
    a valid configuration. *)
Record campaigns_ok (l : list ReferralCampaign) : Prop := {
  co_first : head l = Some defaultReferralCampaign;
  co_number : ∀ i c, l !! i = Some c → camp_Revision c = Z.of_nat i + 1;
  co_order : StronglySorted (λ a b, camp_EffectiveAt a < camp_EffectiveAt b) l;
  co_valid : Forall campaign_valid l
}.

(** The rewards point to the revision that was in force when they were paid. *)
Record camp_ok (s : memoryStore) : Prop := {
  cok_list : campaigns_ok (referralCampaigns s);
  cok_snapshot : ∀ id c, referralRewardCampaigns s !! id = Some c → c ∈ referralCampaigns s;
  cok_paid : ∀ id r c, referralRewards s !! id = Some r → referralRewardCampaigns s !! id = Some c →
    camp_EffectiveAt c ≤ rew_PaidAt r
}.

Lemma camp_ok_new b : camp_ok (newMemoryStore b).
Proof.
  constructor; simpl; [|intros *; by rewrite lookup_empty..].
  constructor; [done| | |].
  - intros [|i] c Hc; [by injection Hc as <-|]. done.
  - repeat constructor.
  - constructor; [|constructor]. split_and!; try done. intros t u [= <-] [= <-]. done.
Qed.

Lemma cloneReferralCampaign_id c : cloneReferralCampaign c = c.
Proof. destruct c as [? ? [] [] ? ? ?]; reflexivity. Qed.

(** The loop that selects a campaign returns the last revision in force. *)
Lemma campaign_fold l at_ :
  StronglySorted (λ a b, camp_EffectiveAt a < camp_EffectiveAt b) l →
  foldl (λ selected c, if supersedes at_ c selected then Some (cloneReferralCampaign c) else selected)
    None l = last (filter (λ c, camp_EffectiveAt c ≤ at_) l).
Proof.
  induction l as [|c l IH] using rev_ind; intros Hso; [done|].
  rewrite foldl_app, filter_app. simpl.
  assert (Hl : ∀ x, x ∈ l → camp_EffectiveAt x < camp_EffectiveAt c).
  { intros x Hx. by apply (StronglySorted_app_1_elem_of _ l [c] x c Hso Hx), list_elem_of_singleton. }
  rewrite (IH (StronglySorted_app_1_l _ _ _ Hso)). rewrite cloneReferralCampaign_id.
  rewrite filter_cons, filter_nil. unfold supersedes, After.
  case_decide as Hc; [|rewrite (proj2 (Z.ltb_lt _ _)) by lia; by rewrite app_nil_r].
  rewrite (proj2 (Z.ltb_ge _ _)) by lia. rewrite last_snoc. cbn [negb andb].
  destruct (last (filter _ l)) as [x|] eqn:Ex; [|done].
  assert (Hx : x ∈ l). { apply last_Some_elem_of in Ex. by apply list_elem_of_filter in Ex as [_ ?]. }
  rewrite (proj2 (Z.ltb_lt _ _)) by (by apply Hl). done.
Qed.

Lemma campaigns_ok_snoc l c prior :
  campaigns_ok l → last l = Some prior → camp_Revision c = Z.of_nat (length l) + 1 →
  camp_EffectiveAt prior < camp_EffectiveAt c → campaign_valid c → campaigns_ok (l ++ [c]).
Proof.
  intros [H1 H2 H3 H4] Hl Hn He Hv. constructor.
  - by destruct l.
  - intros i x Hx. apply lookup_snoc_Some in Hx as [[_ Hx]|[-> ->]]; [by apply H2|done].
  - apply StronglySorted_app_2; [|done|repeat constructor].
    intros x y Hx ->%list_elem_of_singleton.
    apply last_Some in Hl as [l' ->]. apply elem_of_app in Hx as [Hx| ->%list_elem_of_singleton]; [|done].
    pose proof (StronglySorted_app_1_elem_of _ l' [prior] x prior H3 Hx) as H.
    etrans; [apply H; by apply list_elem_of_singleton|done].
  - apply Forall_app. split; [done|]. by constructor.
Qed.

Lemma validateReferralCampaign_ok c :
  validateReferralCampaign (Some c) = Ok tt →
  ∀ rev eff actor, campaign_valid (mkReferralCampaign rev (camp_Enabled c) (camp_StartsAt c)
    (camp_EndsAt c) eff actor (TrimSpace (camp_Reason c))).
Proof.
  unfold validateReferralCampaign. intros H rev eff actor.
  destruct ((TrimSpace (camp_Reason c) == "") || (500 <? _)) eqn:E1; [done|].
  apply orb_false_iff in E1 as [E1%bool_decide_eq_false E2%Z.ltb_ge].
  split_and!; cbn [camp_Reason camp_StartsAt camp_EndsAt]; try done; [apply TrimSpace_idem|].
  intros t u Et Eu. rewrite Et, Eu in H. destruct (Before t u) eqn:Eb; [|done].
  by apply Z.ltb_lt in Eb.
Qed.

Lemma ConfigureReferralCampaign_appends now input s r s' :
  ConfigureReferralCampaign now input s = (r, s') → s' = s ∨
  ∃ c prior, r = Ok c ∧ last (referralCampaigns s) = Some prior ∧
    camp_Revision c = Z.of_nat (length (referralCampaigns s)) + 1 ∧
    camp_EffectiveAt prior < camp_EffectiveAt c ∧ campaign_valid c ∧
    s' = s <| referralCampaigns := referralCampaigns s ++ [c] |>.
Proof.
  intros Hr. unfold ConfigureReferralCampaign in Hr. cbv zeta in Hr.
  destruct (validateReferralCampaign input) as [[]|] eqn:Ev; [|left; by injection Hr as <- <-].
  destruct input as [input|]; [|left; by injection Hr as <- <-].
  destruct (last _) as [prior|] eqn:El; [|left; by injection Hr as <- <-].
  rewrite !cloneReferralCampaign_id in Hr. injection Hr as <- <-. right. eexists _, prior.
  split_and!; [reflexivity|done| | | |reflexivity].
  - by destruct (After _ _).
  - unfold After. getset. destruct (camp_EffectiveAt prior <? UTC now) eqn:E; cbn [negb]; getset.
    + lia.
    + unfold Add, Microsecond. lia.
  - pose proof (validateReferralCampaign_ok input Ev) as Hv.
    destruct (negb _); apply Hv.
Qed.

(** A call that leaves the revisions, the rewards and their snapshots alone,
    statuses of rewards excepted. *)
Lemma camp_ok_ext s s' :
  referralCampaigns s' = referralCampaigns s → referralRewardCampaigns s' = referralRewardCampaigns s →
  (∀ id r', referralRewards s' !! id = Some r' →
     ∃ r, referralRewards s !! id = Some r ∧ rew_PaidAt r' = rew_PaidAt r) →
  camp_ok s → camp_ok s'.
Proof.
  intros E1 E2 E3 [H1 H2 H3]. constructor; rewrite ?E1, ?E2; try done.
  intros id r' c Hr' Hc. destruct (E3 id r' Hr') as (r & Hr & ->). by eapply H3.
Qed.

Lemma camp_ok_same s s' :
  referralCampaigns s' = referralCampaigns s → referralRewardCampaigns s' = referralRewardCampaigns s →
  referralRewards s' = referralRewards s → camp_ok s → camp_ok s'.
Proof. intros E1 E2 E3. apply camp_ok_ext; [done..|]. rewrite E3. eauto. Qed.

Lemma reversed_paid_at (m : gmap string ReferralReward) id rw :
  m !! id = Some rw → ∀ id' r', <[id := rw <| rew_Status := "reversed" |>]> m !! id' = Some r' →
  ∃ r, m !! id' = Some r ∧ rew_PaidAt r' = rew_PaidAt r.
Proof. intros Hid id' r' [[<- <-]|[_ H]]%lookup_insert_Some; eauto. Qed.

Lemma CreateReferralReward_campaign newID now later reward s r out s' :
  camp_ok s → CreateReferralReward newID now later reward s = (r, out, s') →
  referralRewards s !! newID = None → camp_ok s'.
Proof.
  intros [H1 H2 H3] Hr Hnew. apply CreateReferralReward_created in Hr
    as [->|(rw & a & c & _ & _ & _ & _ & _ & _ & Hc & _ & _ & ->)]; [by constructor|].
  remember (newReward newID now later rw a) as copy eqn:Hcopy. clear Hcopy.
  unfold referralCampaignAt in Hc. rewrite (campaign_fold _ _ (co_order _ H1)) in Hc.
  apply last_Some_elem_of, list_elem_of_filter in Hc as [Heff Hin].
  constructor; getset; [done| |].
  - intros id c' [[_ <-]|[_ Hl]]%lookup_insert_Some; [done|]. by eapply H2.
  - intros id r' c' Hr' Hc'. apply lookup_insert_Some in Hr', Hc'.
    destruct Hr' as [[<- <-]|[? Hr']], Hc' as [[E <-]|[? Hc']]; try done. by eapply H3.
Qed.

Lemma ref_step_campaigns s s' : ref_ok s → camp_ok s → ref_step s s' → camp_ok s'.
Proof.
  intros Hs Hk H.
  destruct H as [???? s' Hr|?????? s' Hr|newID ????? s' _ Hn Hr|?? s' Hr|??? s' Hr|????? s' _ Hf Hr
    |???? s' Hr|????? s' Hr|???? s' Hr|??? s' Hr|s' (E1&E2&_&_&_&E3&_&_&_)].
  - unfold EnsureReferralCode in Hr. cbv zeta in Hr.
    destruct (referralCodes s !! _); [by injection Hr as <- <-|].
    destruct (_ || _); [by injection Hr as <- <-|]. destruct (_ && _); injection Hr as <- <-; [done|].
    eapply camp_ok_same; [..|exact Hk]; reflexivity.
  - apply CreateReferralAttribution_fields in Hr as [[-> _]|(_&_&_&_&_&?&->)]; [done|].
    eapply camp_ok_same; [..|exact Hk]; reflexivity.
  - by eapply CreateReferralReward_campaign.
  - apply (RecordReferralRisk_fields _ _ _ _ Hs) in Hr as [->|(_&_&s1&->&[[_ ->]|(id&rw&rewards&_&Hrw&->&->)])];
      [done|eapply camp_ok_same; [..|exact Hk]; reflexivity|].
    eapply camp_ok_ext; [..|exact Hk]; [reflexivity..|]. getset. by apply reversed_paid_at.
  - unfold ReverseReferralReward in Hr. destruct (_ != ""); [by injection Hr as <- <-|].
    destruct (referralRewards s !! _) as [rw|] eqn:Erw; [|by injection Hr as <- <-].
    destruct (_ == "reversed"); injection Hr as <- <-; [done|].
    eapply camp_ok_ext; [..|exact Hk]; [reflexivity..|]. getset. by apply reversed_paid_at.
  - apply RequestReferralSettlement_writes in Hr as [->|(?&_&_&_&_&->)]; [done|].
    eapply camp_ok_same; [..|exact Hk]; reflexivity.
  - apply CompleteReferralSettlement_settles in Hr as [->|(?&?&?&_&_&->)]; [done|].
    eapply camp_ok_same; [..|exact Hk]; reflexivity.
  - apply ReconcileReferralSettlement_settles in Hr as [->|(?&?&?&_&_&->)]; [done|].
    eapply camp_ok_same; [..|exact Hk]; reflexivity.
  - apply RejectReferralSettlement_settles in Hr as [->|(?&?&?&_&_&->)]; [done|].
    eapply camp_ok_same; [..|exact Hk]; reflexivity.
  - apply ConfigureReferralCampaign_appends in Hr as [->|(c & prior & _ & Hl & Hn & He & Hv & ->)]; [done|].
    destruct Hk as [H1 H2 H3]. constructor; getset; [by eapply campaigns_ok_snoc| |done].
    intros id c' Hc. apply elem_of_app. left. by eapply H2.
  - by apply (camp_ok_same s).
Qed.

Lemma ref_reachable_campaigns s : ref_reachable s → camp_ok s.
Proof.
  induction 1 as [|s s' Hs IH Hst]; [apply camp_ok_new|].
  eapply ref_step_campaigns; [by apply ref_reachable_ok|done..].
Qed.

(** One call and the campaigns of the rewards: revisions are only appended, a
    reward that was there keeps its payment time and its snapshot, and a new
    one gets the last revision that was in force when it was paid. *)
Definition snapshots_step (s s' : memoryStore) : Prop :=
  referralCampaigns s `prefix_of` referralCampaigns s' ∧
  (∀ id r0, referralRewards s !! id = Some r0 →
     GetReferralRewardCampaign s' id = GetReferralRewardCampaign s id ∧
     ∃ r, referralRewards s' !! id = Some r ∧ rew_PaidAt r = rew_PaidAt r0) ∧
  ∀ id r, referralRewards s !! id = None → referralRewards s' !! id = Some r →
    ∃ c, last (filter (λ c, camp_EffectiveAt c ≤ rew_PaidAt r) (referralCampaigns s)) = Some c ∧
      GetReferralRewardCampaign s' id = Ok c.

Lemma snapshots_step_same s s' :
  referralCampaigns s `prefix_of` referralCampaigns s' →
  referralRewardCampaigns s' = referralRewardCampaigns s → referralRewards s' = referralRewards s →
  snapshots_step s s'.
Proof.
  intros H1 H2 H3. unfold snapshots_step, GetReferralRewardCampaign. rewrite H2, H3.
  split_and!; [done|by eauto|]. intros id r Hn Hr. congruence.
Qed.

Lemma snapshots_step_reversed s s' id rw :
  referralCampaigns s' = referralCampaigns s → referralRewardCampaigns s' = referralRewardCampaigns s →
  referralRewards s !! id = Some rw →
  referralRewards s' = <[id := rw <| rew_Status := "reversed" |>]> (referralRewards s) →
  snapshots_step s s'.
Proof.
  intros H1 H2 Hrw H3. unfold snapshots_step, GetReferralRewardCampaign. rewrite H1, H2, H3.
  split_and!; [done| |].
  - intros id' r0 Hr0. split; [done|]. destruct (decide (id' = id)) as [->|Hne].
    + rewrite lookup_insert_eq. eexists. split; [done|]. getset. congruence.
    + rewrite lookup_insert_ne by done. eauto.
  - intros id' r Hn [[<- _]|[_ Hr]]%lookup_insert_Some; congruence.
Qed.

Lemma CreateReferralReward_snapshot newID now later reward s r out s' :
  camp_ok s → CreateReferralReward newID now later reward s = (r, out, s') →
  referralRewards s !! newID = None → snapshots_step s s'.
Proof.
  intros [H1 _ _] Hr Hnew. apply CreateReferralReward_created in Hr
    as [->|(rw & a & c & _ & _ & _ & _ & _ & _ & Hc & _ & _ & ->)]; [by apply snapshots_step_same|].
  destruct (newReward_keeps newID now later rw a) as (E1&_).
  remember (newReward newID now later rw a) as copy eqn:Hcopy. clear Hcopy.
  unfold referralCampaignAt in Hc. rewrite (campaign_fold _ _ (co_order _ H1)) in Hc.
  unfold snapshots_step, GetReferralRewardCampaign. getset. rewrite E1. split_and!; [done| |].
  - intros id r0 Hr0. assert (newID ≠ id) by congruence. rewrite !lookup_insert_ne by done. eauto.
  - intros id r' Hn [[<- <-]|[_ Hr']]%lookup_insert_Some; [|congruence].
    rewrite lookup_insert_eq, cloneReferralCampaign_id. eauto.
Qed.

Lemma ref_step_snapshots s s' : ref_ok s → camp_ok s → ref_step s s' → snapshots_step s s'.
Proof.
  intros Hs Hk H.
  destruct H as [???? s' Hr|?????? s' Hr|newID ????? s' _ Hn Hr|?? s' Hr|??? s' Hr|????? s' _ Hf Hr
    |???? s' Hr|????? s' Hr|???? s' Hr|??? s' Hr|s' (E1&E2&_&_&_&E3&_&_&_)].
  - unfold EnsureReferralCode in Hr. cbv zeta in Hr.
    destruct (referralCodes s !! _); [injection Hr as <- <-; by apply snapshots_step_same|].
    destruct (_ || _); [injection Hr as <- <-; by apply snapshots_step_same|].
    destruct (_ && _); injection Hr as <- <-; by apply snapshots_step_same.
  - apply CreateReferralAttribution_fields in Hr as [[-> _]|(_&_&_&_&_&?&->)]; by apply snapshots_step_same.
  - by eapply CreateReferralReward_snapshot.
  - apply (RecordReferralRisk_fields _ _ _ _ Hs) in Hr as [->|(_&_&s1&->&[[_ ->]|(id&rw&rewards&_&Hrw&->&->)])];
      [by apply snapshots_step_same..|]. by eapply snapshots_step_reversed; [..|exact Hrw|].
  - unfold ReverseReferralReward in Hr.
    destruct (_ != ""); [injection Hr as <- <-; by apply snapshots_step_same|].
    destruct (referralRewards s !! _) as [rw|] eqn:Erw; [|injection Hr as <- <-; by apply snapshots_step_same].
    destruct (_ == "reversed"); injection Hr as <- <-; [by apply snapshots_step_same|].
    by eapply snapshots_step_reversed; [..|exact Erw|].
  - apply RequestReferralSettlement_writes in Hr as [->|(?&_&_&_&_&->)]; by apply snapshots_step_same.
  - apply CompleteReferralSettlement_settles in Hr as [->|(?&?&?&_&_&->)]; by apply snapshots_step_same.
  - apply ReconcileReferralSettlement_settles in Hr as [->|(?&?&?&_&_&->)]; by apply snapshots_step_same.
  - apply RejectReferralSettlement_settles in Hr as [->|(?&?&?&_&_&->)]; by apply snapshots_step_same.
  - apply ConfigureReferralCampaign_appends in Hr as [->|(c & prior & _ & Hl & _ & _ & _ & ->)];
      apply snapshots_step_same; try done. getset. by apply prefix_app_r.
  - apply snapshots_step_same; [by rewrite E1|done..].
Qed.

(** C31: The campaign history is well formed and selects by time.  Whatever
    calls were made, the revisions are numbered 1, 2, 3, ... from the default
    campaign, take effect strictly one after the other and are valid
    configurations; the campaign of an instant is the last revision in force
    then, and from the epoch on there is one.  The call that creates a reward
    gives it as its snapshot the last revision in force when the reward was
    paid; no later call changes that snapshot, and revisions are only added. *)
Theorem campaign_history_selects s s' at_ :
  ref_reachable s → ref_step s s' →
  campaigns_ok (referralCampaigns s') ∧
  referralCampaignAt s' at_ = last (filter (λ c, camp_EffectiveAt c ≤ at_) (referralCampaigns s')) ∧
  (unix 0 ≤ at_ → ∃ c, GetReferralCampaign s' at_ = Ok c) ∧
  referralCampaigns s `prefix_of` referralCampaigns s' ∧
  (∀ id r0, referralRewards s !! id = Some r0 →
     GetReferralRewardCampaign s' id = GetReferralRewardCampaign s id ∧
     ∃ r, referralRewards s' !! id = Some r ∧ rew_PaidAt r = rew_PaidAt r0) ∧
  ∀ id r, referralRewards s !! id = None → referralRewards s' !! id = Some r →
    ∃ c, last (filter (λ c, camp_EffectiveAt c ≤ rew_PaidAt r) (referralCampaigns s)) = Some c ∧
      GetReferralRewardCampaign s' id = Ok c.
Proof.
  intros Hs Hst. pose proof (ref_reachable_ok _ Hs) as Hok. pose proof (ref_reachable_campaigns _ Hs) as Hc.
  pose proof (ref_step_campaigns _ _ Hok Hc Hst) as [H1 _ _].
  destruct (ref_step_snapshots _ _ Hok Hc Hst) as (Hp & Hold & Hnew).
  assert (Hsel : referralCampaignAt s' at_ =
    last (filter (λ c, camp_EffectiveAt c ≤ at_) (referralCampaigns s'))) by (apply campaign_fold, H1).
  split_and!; [done|done| |done..].
  intros Hat. unfold GetReferralCampaign. rewrite Hsel.
  destruct (last _) as [c|] eqn:El; [by eexists|]. exfalso.
  apply last_None in El. pose proof (co_first _ H1) as Hh.
  destruct (referralCampaigns s') as [|c l]; [done|]. injection Hh as ->.
  rewrite filter_cons_True in El; [done|]. exact Hat.
Qed.
