(* ===== verification/ReferralSummary.v ===== *)
(** * The referral summary, and registration with a code

    The summary of a referrer equals closed-form totals per currency, whatever
    the iteration order of the maps; an account whose code is refused leaves
    the account indexes as they were. *)

From S2P Require Import Prelude GoLib Json StoreData Users Finance Referral ReferralProps.
Open Scope Z_scope.
Open Scope bool_scope.
Open Scope go_scope.

(** ** The summary in closed form *)

Lemma exists_snoc {A} (P : A → Prop) l x : (∃ y, y ∈ l ++ [x] ∧ P y) ↔ (∃ y, y ∈ l ∧ P y) ∨ P x.
Proof.
  split.
  - intros (y & [Hy| ->%list_elem_of_singleton]%elem_of_app & HP); [left; eauto|by right].
  - intros [(y & Hy & HP)|HP]; [exists y|exists x]; (split; [|done]); apply elem_of_app; [by left|right].
    by apply list_elem_of_singleton.
Qed.

Section summary_spec.
Context (referrer : string) (now : time).

(** What one reward or settlement contributes to each column of a currency. *)
Definition rewardOf (cur : string) (r : ReferralReward) : bool :=
  (rew_ReferrerUUID r == referrer) && (rew_Currency r == cur).
Definition earnedPart (cur : string) (r : ReferralReward) : Z :=
  if rewardOf cur r && (rew_Status r != "reversed") then rew_RewardMinor r else 0.
Definition pendingPart (cur : string) (r : ReferralReward) : Z :=
  if rewardOf cur r && ((rew_Status r == "pending") && After (rew_EligibleAt r) now)
  then rew_RewardMinor r else 0.
Definition eligiblePart (cur : string) (r : ReferralReward) : Z :=
  if rewardOf cur r &&
     (((rew_Status r == "pending") && negb (After (rew_EligibleAt r) now)) || (rew_Status r == "eligible"))
  then rew_RewardMinor r else 0.
Definition reversedPart (cur : string) (r : ReferralReward) : Z :=
  if rewardOf cur r && (rew_Status r == "reversed") then rew_RewardMinor r else 0.
Definition invitePart (r : ReferralReward) : Z :=
  if (rew_ReferrerUUID r == referrer) && (rew_Status r != "reversed") then 1 else 0.
Definition settlementOf (cur : string) (x : ReferralSettlement) : bool :=
  (rset_ReferrerUUID x == referrer) && (rset_Currency x == cur).
Definition paidPart (cur : string) (x : ReferralSettlement) : Z :=
  if settlementOf cur x && (rset_Status x == "paid") then rset_AmountMinor x else 0.
Definition heldPart (cur : string) (x : ReferralSettlement) : Z :=
  if settlementOf cur x && (rset_Status x == "pending_review") then rset_AmountMinor x else 0.

(** The row of a currency, and whether the referrer has anything in it. *)
Definition rowOf (rs : list ReferralReward) (xs : list ReferralSettlement) (cur : string)
    : ReferralCurrencySummary :=
  mkReferralCurrencySummary cur (int64 (sum_list (earnedPart cur) rs)) (int64 (sum_list (pendingPart cur) rs))
    (int64 (sum_list (eligiblePart cur) rs - sum_list (heldPart cur) xs))
    (int64 (sum_list (paidPart cur) xs)) (int64 (sum_list (reversedPart cur) rs)).
Definition mentioned (rs : list ReferralReward) (xs : list ReferralSettlement) (cur : string) : Prop :=
  (∃ r, r ∈ rs ∧ rewardOf cur r = true) ∨ ∃ x, x ∈ xs ∧ settlementOf cur x = true.

(** The loops' state after some rewards and settlements. *)
Definition rows_are (rs : list ReferralReward) (xs : list ReferralSettlement)
    (rows : gmap string ReferralCurrencySummary) : Prop :=
  ∀ cur, get_row rows cur = rowOf rs xs cur ∧ (is_Some (rows !! cur) ↔ mentioned rs xs cur).

Lemma get_row_insert rows cur row cur' :
  get_row (<[cur := row]> rows) cur' = if decide (cur = cur') then row else get_row rows cur'.
Proof.
  unfold get_row. case_decide as E; [subst; by rewrite lookup_insert_eq|by rewrite lookup_insert_ne].
Qed.

Lemma mentioned_reward rs xs r cur :
  mentioned (rs ++ [r]) xs cur ↔ mentioned rs xs cur ∨ rewardOf cur r = true.
Proof. unfold mentioned. rewrite exists_snoc. tauto. Qed.

Lemma mentioned_settlement rs xs x cur :
  mentioned rs (xs ++ [x]) cur ↔ mentioned rs xs cur ∨ settlementOf cur x = true.
Proof. unfold mentioned. rewrite exists_snoc. tauto. Qed.

Lemma rowOf_reward rs xs r cur :
  rowOf (rs ++ [r]) xs cur =
  let row := rowOf rs xs cur in
  row <| rcs_EarnedMinor := int64 (rcs_EarnedMinor row + earnedPart cur r) |>
      <| rcs_PendingMinor := int64 (rcs_PendingMinor row + pendingPart cur r) |>
      <| rcs_EligibleMinor := int64 (rcs_EligibleMinor row + eligiblePart cur r) |>
      <| rcs_ReversedMinor := int64 (rcs_ReversedMinor row + reversedPart cur r) |>.
Proof.
  cbv zeta. unfold rowOf. getset. cbn [rcs_EarnedMinor rcs_PendingMinor rcs_EligibleMinor rcs_ReversedMinor].
  rewrite !sum_list_app, !int64_add_l. simpl. rewrite !Z.add_0_r.
  replace (sum_list (eligiblePart cur) rs + eligiblePart cur r - sum_list (heldPart cur) xs)
    with (sum_list (eligiblePart cur) rs - sum_list (heldPart cur) xs + eligiblePart cur r) by lia.
  reflexivity.
Qed.

Lemma rowOf_settlement rs xs x cur :
  rowOf rs (xs ++ [x]) cur =
  let row := rowOf rs xs cur in
  row <| rcs_SettledMinor := int64 (rcs_SettledMinor row + paidPart cur x) |>
      <| rcs_EligibleMinor := int64 (rcs_EligibleMinor row - heldPart cur x) |>.
Proof.
  cbv zeta. unfold rowOf. getset. cbn [rcs_EligibleMinor rcs_SettledMinor].
  rewrite !sum_list_app, <-!Z.add_opp_r, !int64_add_l. simpl. rewrite !Z.add_0_r.
  replace (sum_list (eligiblePart cur) rs + - (sum_list (heldPart cur) xs + heldPart cur x))
    with (sum_list (eligiblePart cur) rs + - sum_list (heldPart cur) xs + - heldPart cur x) by lia.
  reflexivity.
Qed.

(** Adding nothing to a wrapped column leaves it. *)
Lemma int64_fixed z : int64 (int64 z + 0) = int64 z.
Proof. by rewrite Z.add_0_r, (int64_id (int64 z)) by apply int64_range. Qed.
Lemma int64_fixed_sub z : int64 (int64 z - 0) = int64 z.
Proof. by rewrite Z.sub_0_r, (int64_id (int64 z)) by apply int64_range. Qed.

Lemma summarizeReward_rows rs xs acc r :
  rows_are rs xs acc.2 → rows_are (rs ++ [r]) xs (summarizeReward referrer now acc r).2.
Proof.
  destruct acc as [n rows]. cbn [snd]. intros H cur. destruct (H cur) as [Hrow Hin].
  rewrite rowOf_reward, mentioned_reward. unfold summarizeReward. cbv zeta.
  unfold earnedPart, pendingPart, eligiblePart, reversedPart, rewardOf.
  destruct (rew_ReferrerUUID r == referrer) eqn:Er; cbn [negb andb snd].
  2: { rewrite Hrow, Hin. split; [unfold rowOf; getset; cbn; by rewrite !int64_fixed|].
       split; [auto|intros [?|?]; done]. }
  destruct (rew_Currency r == cur) eqn:Ec; [apply bool_decide_eq_true in Ec|apply bool_decide_eq_false in Ec].
  - assert (Hr0 : get_row rows (rew_Currency r) = rowOf rs xs cur) by (rewrite Ec; exact Hrow).
    rewrite Hr0, Ec. unfold rowOf. cbn [andb].
    destruct (rew_Status r == "reversed") eqn:E1.
    + apply bool_decide_eq_true in E1. rewrite E1. change ("reversed" == "pending") with false.
      change ("reversed" == "eligible") with false. cbn [negb andb orb snd].
      rewrite get_row_insert, decide_True by done. rewrite lookup_insert_eq.
      split; [getset; cbn; by rewrite !int64_fixed|]. split; eauto.
    + cbn [negb]. destruct (rew_Status r == "pending") eqn:E2; cbn [andb orb];
        [destruct (After _ _); cbn [negb andb orb snd];
         [apply bool_decide_eq_true in E2; rewrite E2; change ("pending" == "eligible") with false|]
        |destruct (rew_Status r == "eligible")];
        cbn [snd]; rewrite get_row_insert, decide_True by done; rewrite lookup_insert_eq;
        (split; [getset; cbn; by rewrite ?int64_fixed|split; eauto]).
  - assert (Hr1 : (rowOf rs xs cur) <| rcs_EarnedMinor := int64 (rcs_EarnedMinor (rowOf rs xs cur) + 0) |>
      <| rcs_PendingMinor := int64 (rcs_PendingMinor (rowOf rs xs cur) + 0) |>
      <| rcs_EligibleMinor := int64 (rcs_EligibleMinor (rowOf rs xs cur) + 0) |>
      <| rcs_ReversedMinor := int64 (rcs_ReversedMinor (rowOf rs xs cur) + 0) |> = rowOf rs xs cur)
      by (unfold rowOf; getset; cbn; by rewrite !int64_fixed).
    cbn [andb]. rewrite Hr1.
    destruct (rew_Status r == "reversed"); cbn [snd]; rewrite get_row_insert, decide_False by done;
      rewrite lookup_insert_ne by done; (split; [done|]); rewrite Hin; (split; [auto|intros [?|?]; done]).
Qed.

Lemma summarizeSettlement_rows rs xs rows x :
  rows_are rs xs rows → rows_are rs (xs ++ [x]) (summarizeSettlement referrer rows x).
Proof.
  intros H cur. destruct (H cur) as [Hrow Hin].
  rewrite rowOf_settlement, mentioned_settlement. unfold summarizeSettlement. cbv zeta.
  unfold paidPart, heldPart, settlementOf.
  assert (Hr1 : (rowOf rs xs cur) <| rcs_SettledMinor := int64 (rcs_SettledMinor (rowOf rs xs cur) + 0) |>
    <| rcs_EligibleMinor := int64 (rcs_EligibleMinor (rowOf rs xs cur) - 0) |> = rowOf rs xs cur).
  { unfold rowOf. getset. cbn. by rewrite int64_fixed_sub, ?int64_fixed. }
  destruct (rset_ReferrerUUID x == referrer) eqn:Er; cbn [negb andb].
  2: { rewrite Hr1, Hrow, Hin. split; [done|]. split; [auto|intros [?|?]; done]. }
  destruct (rset_Currency x == cur) eqn:Ec; [apply bool_decide_eq_true in Ec|apply bool_decide_eq_false in Ec];
    cbn [andb].
  - assert (Hr0 : get_row rows (rset_Currency x) = rowOf rs xs cur) by (rewrite Ec; exact Hrow).
    rewrite Hr0, Ec, get_row_insert, decide_True, lookup_insert_eq by done.
    split; [|split; eauto]. unfold rowOf. getset.
    destruct (rset_Status x == "paid") eqn:E1.
    + apply bool_decide_eq_true in E1. rewrite E1. change ("paid" == "pending_review") with false.
      getset. cbn. by rewrite int64_fixed_sub, ?int64_fixed.
    + destruct (rset_Status x == "pending_review"); getset; cbn; rewrite ?int64_fixed; [done|].
      by rewrite int64_fixed_sub.
  - rewrite Hr1, get_row_insert, decide_False, lookup_insert_ne by done. split; [done|].
    rewrite Hin. split; [auto|intros [?|?]; done].
Qed.

Lemma summarizeReward_invites acc r :
  (summarizeReward referrer now acc r).1 = if invitePart r =? 1 then int64 (acc.1 + 1) else acc.1.
Proof.
  destruct acc as [n rows]. unfold summarizeReward, invitePart. cbv zeta.
  destruct (rew_ReferrerUUID r == referrer); [|done]. cbn [negb andb]. by destruct (rew_Status r == "reversed").
Qed.

(** The state after the loop over rewards. *)
Lemma rewards_loop rs :
  let acc := foldl (summarizeReward referrer now) (0, ∅) rs in
  acc.1 = int64 (sum_list invitePart rs) ∧ rows_are rs [] acc.2.
Proof.
  cbv zeta. induction rs as [|r rs [IH1 IH2]] using rev_ind.
  - split; [done|]. intros cur. split; [done|]. cbn [foldl snd]. rewrite lookup_empty. split; [by intros [? ?]|].
    unfold mentioned. intros [(?&[]%not_elem_of_nil&_)|(?&[]%not_elem_of_nil&_)].
  - rewrite foldl_app. cbn [foldl]. split; [|by apply summarizeReward_rows].
    rewrite summarizeReward_invites, IH1, sum_list_app. simpl. rewrite Z.add_0_r.
    destruct (_ =? 1) eqn:E; [rewrite int64_add_l; f_equal; lia|]. f_equal.
    revert E. unfold invitePart. destruct (_ && _); [done|lia].
Qed.

Lemma settlements_loop rs xs rows :
  rows_are rs [] rows → rows_are rs xs (foldl (summarizeSettlement referrer) rows xs).
Proof.
  intros H0. induction xs as [|x xs IH] using rev_ind; [done|].
  rewrite foldl_app. cbn [foldl]. by apply summarizeSettlement_rows.
Qed.

(** Sums and tests over a list do not see its order. *)
Lemma rowOf_perm rs rs' xs xs' cur : rs ≡ₚ rs' → xs ≡ₚ xs' → rowOf rs xs cur = rowOf rs' xs' cur.
Proof. intros P Q. unfold rowOf. by rewrite ?P, ?Q. Qed.

Lemma mentioned_perm rs rs' xs xs' cur : rs ≡ₚ rs' → xs ≡ₚ xs' → mentioned rs xs cur ↔ mentioned rs' xs' cur.
Proof. intros P Q. unfold mentioned. by setoid_rewrite P; setoid_rewrite Q. Qed.
End summary_spec.

(** The rows of a finished table. *)
Lemma rows_listed `{MapOrder} referrer now rs xs rows :
  rows_are referrer now rs xs rows →
  NoDup (rcs_Currency <$> (range rows).*2) ∧
  ∀ row, row ∈ (range rows).*2 ↔
    ∃ cur, mentioned referrer rs xs cur ∧ row = rowOf referrer now rs xs cur.
Proof.
  intros Hrows.
  assert (Hlook : ∀ cur row, rows !! cur = Some row → row = rowOf referrer now rs xs cur).
  { intros cur row Hc. destruct (Hrows cur) as [Hg _]. unfold get_row in Hg. by rewrite Hc in Hg. }
  split.
  - rewrite <-list_fmap_compose, (list_fmap_ext _ fst); [apply range_keys_nodup|].
    intros i [cur row] Hi. apply list_elem_of_lookup_2, elem_of_range in Hi. simpl.
    by rewrite (Hlook cur row Hi).
  - intros row. rewrite list_elem_of_fmap. split.
    + intros ([cur row'] & -> & Hin). apply elem_of_range in Hin. exists cur.
      split; [apply (Hrows cur); eauto|]. simpl. by apply Hlook.
    + intros (cur & Hm & ->). apply (Hrows cur) in Hm as [row Hrow]. exists (cur, row).
      split; [simpl; symmetry; by apply Hlook|by apply elem_of_range].
Qed.

(** C28: The summary of a referrer is the closed-form totals.  For every
    iteration order of the maps, the summary counts the rewards that are not
    reversed, adds up the applied extension days, and has exactly one row for
    each currency the referrer has a reward or settlement in, whose columns
    are the sums of the rewards earned, pending, payable less the settlements
    under review, the settlements paid and the rewards reversed, in 64-bit
    arithmetic. *)
Theorem referral_summary_totals `{MapOrder} s referrer now :
  let rs := values (referralRewards s) in
  let xs := values (referralSettlements s) in
  let sum := GetReferralSummary s referrer now in
  rsum_SuccessfulInvites sum = int64 (sum_list (invitePart referrer) rs) ∧
  rsum_AwardedDays sum = int64 (sum_list (λ e, if (ext_UserUUID e == referrer) && (ext_Status e == "applied")
    then ext_Days e else 0) (values (referralExtensions s))) ∧
  NoDup (rcs_Currency <$> rsum_CashByCurrency sum) ∧
  ∀ row, row ∈ rsum_CashByCurrency sum ↔
    ∃ cur, mentioned referrer rs xs cur ∧ row = rowOf referrer now rs xs cur.
Proof.
  cbv zeta. unfold GetReferralSummary.
  pose proof (rewards_loop referrer now (range (referralRewards s)).*2) as [Hi Hr]. cbv zeta in Hi, Hr.
  destruct (foldl _ _ _) as [invites rows]. cbn [fst snd] in Hi, Hr.
  cbn [rsum_SuccessfulInvites rsum_AwardedDays rsum_CashByCurrency].
  apply (settlements_loop referrer now _ (range (referralSettlements s)).*2), rows_listed in Hr as [Hnd Hin].
  split_and!; [| |done|].
  - rewrite Hi. unfold values. by rewrite range_perm.
  - rewrite sum64_sum. unfold values. by rewrite range_perm.
  - intros row. rewrite Hin. unfold values.
    split; intros (cur & Hm & ->); exists cur; split.
    + eapply mentioned_perm; [..|exact Hm]; by rewrite range_perm.
    + apply rowOf_perm; by rewrite range_perm.
    + eapply mentioned_perm; [..|exact Hm]; by rewrite range_perm.
    + apply rowOf_perm; by rewrite range_perm.
Qed.

(** ** Registration with a code *)

Lemma CreateUser_referrals newID newV7 now user s r out s' :
  CreateUser newID newV7 now user s = (r, out, s') →
  referralCodesByValue s' = referralCodesByValue s ∧ referralsByInvitee s' = referralsByInvitee s ∧
  (r ≠ Ok tt → s' = s).
Proof.
  unfold CreateUser, alloc_user. cbv zeta. intros H.
  destruct (TrimSpace (user_Name user) == ""); [by injection H as <- <- <-|].
  destruct (bool_decide (is_Some (byEmail s !! _))); [by injection H as <- <- <-|].
  destruct (bool_decide (is_Some (byName s !! _))); [by injection H as <- <- <-|].
  destruct (ensureProxyUUID _ _ _) as [stored|]; [|by injection H as <- <- <-].
  injection H as <- <- <-. by destruct (ToLower _ == "").
Qed.

(** Every account an index leads to is still read the same. *)
Definition reads_same (s s' : memoryStore) : Prop :=
  ∀ x, GetUserByID s' x = GetUserByID s x ∧ GetUserByName s' x = GetUserByName s x ∧
       GetUserByEmail s' x = GetUserByEmail s x.

Lemma reads_same_extra s s' l u :
  index_ok s → users s !! l = None → users s' = <[l := u]> (users s) →
  byID s' = byID s → byName s' = byName s → byEmail s' = byEmail s → reads_same s s'.
Proof.
  intros Hs Hl Eu Ei En Ee x.
  assert (Hat : ∀ idx k, (∀ l', idx !! k = Some l' → is_Some (users s !! l')) →
    user_at s' idx k = user_at s idx k).
  { intros idx k Hk. unfold user_at. destruct (idx !! k) as [l'|] eqn:E; [|done]. simpl.
    destruct (Hk l' eq_refl) as [v Hv]. rewrite Eu, lookup_insert_ne; [done|]. congruence. }
  unfold GetUserByID, GetUserByName, GetUserByEmail. rewrite Ei, En, Ee. split_and!.
  - rewrite Hat; [done|]. intros l' H. destruct (ix_id s Hs _ _ H) as (v & Hv & _). eauto.
  - destruct (_ == ""); [done|]. rewrite Hat; [done|].
    intros l' H. destruct (ix_name s Hs _ _ H) as (v & Hv & _). eauto.
  - rewrite Hat; [done|]. intros l' H. destruct (ix_email s Hs _ _ H) as (v & Hv & _). eauto.
Qed.

(** Taking out the account that has just been linked restores the indexes. *)
Lemma unlink_link s s' l u :
  index_ok s → same_accounts (link l u s) s' → ToLower (user_Email u) = user_Email u →
  byID s !! user_ID u = None → byName s !! ToLower (user_Name u) = None → byEmail s !! user_Email u = None →
  delete (user_ID u) (byID s') = byID s ∧ delete (ToLower (user_Name u)) (byName s') = byName s ∧
  delete (ToLower (user_Email u)) (byEmail s') = byEmail s ∧ user_by_id s' (user_ID u) = Some u.
Proof.
  intros Hs (Eu & Ei & En & Ee) El Hi Hn He. rewrite link_byEmail in Ee.
  destruct (link_fields l u s) as (Lu & Li & Ln). rewrite Lu in Eu; rewrite Li in Ei; rewrite Ln in En.
  unfold user_by_id, user_at. rewrite Eu, Ei, En, Ee, lookup_insert_eq. cbn [mbind option_bind].
  rewrite lookup_insert_eq, !delete_insert_id by done. split_and!; try done.
  rewrite El. destruct (user_Email u == ""); [by apply delete_id|by apply delete_insert_id].
Qed.

(** C30: Registration with a code is all or nothing.  When it fails, at
    whichever step, every account is read by identifier, name and email as
    before and no attribution is added; when it succeeds, the returned account
    is in the indexes and is attributed to the holder of the code, who is
    another account. *)
Theorem CreateUserWithReferral_atomic newID newV7 now newReferralID later user code s r out s' :
  index_ok s → byID s !! (if user_ID user == "" then newID else user_ID user) = None →
  CreateUserWithReferral newID newV7 now newReferralID later user code s = (r, out, s') →
  match r with
  | Err _ => reads_same s s' ∧ referralsByInvitee s' = referralsByInvitee s
  | Ok _ => GetUserByID s' (user_ID out) = Ok out ∧ referralsByInvitee s !! TrimSpace (user_ID out) = None ∧
      ∃ referrer, referralCodesByValue s !! ToUpper (TrimSpace code) = Some referrer ∧
        GetReferralReferrer s' (user_ID out) = Ok referrer ∧ referrer ≠ TrimSpace (user_ID out)
  end.
Proof.
  intros Hs Hid H. unfold CreateUserWithReferral in H.
  destruct (CreateUser newID newV7 now user s) as [[[[]|e] user1] s1] eqn:Ec.
  2: { injection H as <- <- <-. apply CreateUser_referrals in Ec as (_ & _ & Hsame).
       rewrite (Hsame ltac:(done)). done. }
  destruct (CreateUser_referrals _ _ _ _ _ _ _ _ Ec) as (Ecodes & Einv & _).
  apply CreateUser_linked in Ec as (u & -> & Ei & En & Ee & Hne & Ha & Fn & Fe & Hsame).
  assert (El : ToLower (user_Email u) = user_Email u) by (rewrite Ee; apply ToLower_idem).
  rewrite assign_ID in *.
  destruct (CreateReferralAttribution _ _ _ _ _ s1) as [[[]|e] s2] eqn:Ea;
    apply CreateReferralAttribution_fields in Ea as [[-> Hr]|(Hr & Hne1 & Hself & _ & Hnone & t & ->)]; try done.
  - injection H as <- <- <-. rewrite assign_ID. rewrite Einv in Hnone. rewrite Ecodes in *.
    destruct (link_found _ _ _ _ Hsame El) as (Gi & _ & _). split_and!; [exact Gi|done|].
    revert Hne1 Hself. unfold GetReferralReferrer, get_str. getset. rewrite lookup_insert_eq.
    destruct (referralCodesByValue s !! _) as [referrer|]; [|done]. simpl. eauto.
  - destruct (unlink_link s s1 _ u Hs Hsame El) as (Di & Dn & De & Hu); [by rewrite Ei|done..|].
    rewrite Hu in H. injection H as <- <- <-. split; [|done].
    destruct Hsame as (Eu & _). destruct (link_fields (fresh (dom (users s))) u s) as (Lu & _).
    eapply reads_same_extra; getset; [done|apply alloc_fresh| |done..]. by rewrite Eu, Lu.
Qed.
