(* ===== verification/Quota.v ===== *)
(** * Traffic accounting, quotas, plans and the audit log

    [accounting_memory.go], the in-memory halves of [subscription_quota.go],
    [free_quota.go] and [monthly_usage_reset.go], [billing_memory.go] with the
    helpers of [billing.go] and [billing_events.go], and [audit_memory.go].

    Quota states and billing profiles are reached through one map each, so a
    write through the pointer is a write of the row.  Within one call the clock
    is read as often as the source reads it with effect: [now], then [later]. *)

From S2P Require Import Prelude GoLib Calendar Json StoreData Users Lifecycle.
From Stdlib Require Import SpecFloat.
Open Scope Z_scope.
Open Scope bool_scope.
Open Scope go_scope.

(** [a <= b] on float64, false when either is not a number. *)
Definition float_le (a b : float64) : bool := SFleb a b.

(** [if t.IsZero() { t = now }] *)
Definition or_now (now t : time) : time := if IsZero t then now else t.

(** ** Checkpoints and minute buckets *)

Definition checkpointKey (nodeID accountUUID : string) : string :=
  (TrimSpace nodeID +:+ "::" +:+ TrimSpace accountUUID)%string.

Definition bucketKey (bucketStart : time) (nodeID accountUUID region lineCode : string) : string :=
  (FormatRFC3339 bucketStart +:+ "::" +:+ TrimSpace nodeID +:+ "::" +:+ TrimSpace accountUUID +:+ "::" +:+
   TrimSpace region +:+ "::" +:+ TrimSpace lineCode)%string.

Definition UpsertTrafficStatCheckpoint (now : time) (checkpoint : option TrafficStatCheckpoint)
    (s : memoryStore) : result error unit * memoryStore :=
  match checkpoint with
  | None => (Err (ErrMsg "checkpoint is required"), s)
  | Some copy =>
      let copy := copy <| ckpt_CreatedAt := or_now now (ckpt_CreatedAt copy) |> <| ckpt_UpdatedAt := now |> in
      (Ok tt, s <| trafficStatCheckpoints :=
         <[checkpointKey (ckpt_NodeID copy) (ckpt_AccountUUID copy) := copy]> (trafficStatCheckpoints s) |>)
  end.

Definition GetTrafficStatCheckpoint (s : memoryStore) (nodeID accountUUID : string)
    : result error TrafficStatCheckpoint :=
  match trafficStatCheckpoints s !! checkpointKey nodeID accountUUID with
  | None => Err ErrUserNotFound
  | Some record => Ok record
  end.

Definition ListTrafficStatCheckpoints `{MapOrder} (s : memoryStore) : list TrafficStatCheckpoint :=
  sort_slice (λ a b, if ckpt_NodeID a == ckpt_NodeID b
                     then string_lt (ckpt_AccountUUID a) (ckpt_AccountUUID b)
                     else string_lt (ckpt_NodeID a) (ckpt_NodeID b))
    (range (trafficStatCheckpoints s)).*2.

Definition RatingStatusPending : string := "pending".

Definition UpsertTrafficMinuteBucket (now : time) (bucket : option TrafficMinuteBucket) (s : memoryStore)
    : result error unit * memoryStore :=
  match bucket with
  | None => (Err (ErrMsg "bucket is required"), s)
  | Some copy =>
      let copy := copy <| bkt_CreatedAt := or_now now (bkt_CreatedAt copy) |> <| bkt_UpdatedAt := now |> in
      let copy := if TrimSpace (bkt_RatingStatus copy) == ""
                  then copy <| bkt_RatingStatus := RatingStatusPending |> else copy in
      (Ok tt, s <| trafficMinuteBuckets :=
         <[bucketKey (bkt_BucketStart copy) (bkt_NodeID copy) (bkt_AccountUUID copy) (bkt_Region copy)
             (bkt_LineCode copy) := copy]> (trafficMinuteBuckets s) |>)
  end.

Definition ListTrafficMinuteBucketsByAccount `{MapOrder} (s : memoryStore) (accountUUID : string)
    (start end_ : time) : list TrafficMinuteBucket :=
  sort_slice (λ a b, Before (bkt_BucketStart a) (bkt_BucketStart b))
    (filter (λ b, (bkt_AccountUUID b == TrimSpace accountUUID) &&
                  (IsZero start || negb (Before (bkt_BucketStart b) start)) &&
                  (IsZero end_ || negb (After (bkt_BucketStart b) end_)) = true)
       (range (trafficMinuteBuckets s)).*2).

Definition ListTrafficMinuteBuckets `{MapOrder} (s : memoryStore) : list TrafficMinuteBucket :=
  sort_slice (λ a b, Before (bkt_BucketStart a) (bkt_BucketStart b)) (range (trafficMinuteBuckets s)).*2.

(** ** The wallet *)

(** Returns the caller's entry after the call. *)
Definition InsertBillingLedgerEntry (newID : string) (now : time) (entry : option BillingLedgerEntry)
    (s : memoryStore) : result error unit * option BillingLedgerEntry * memoryStore :=
  match entry with
  | None => (Err (ErrMsg "ledger entry is required"), None, s)
  | Some entry =>
      if (TrimSpace (led_ID entry) != "") && bool_decide (is_Some (billingLedgerEntries s !! led_ID entry))
      then (Err ErrDuplicateLedgerEntry, Some entry, s) else
      let copy := if TrimSpace (led_ID entry) == "" then entry <| led_ID := newID |> else entry in
      let copy := copy <| led_CreatedAt := or_now now (led_CreatedAt copy) |> in
      (Ok tt, Some (entry <| led_ID := led_ID copy |> <| led_CreatedAt := led_CreatedAt copy |>),
       s <| billingLedgerEntries := <[led_ID copy := copy]> (billingLedgerEntries s) |>)
  end.

Definition emptyQuota (accountID : string) : AccountQuotaState :=
  mkAccountQuotaState accountID 0 float_zero false None "" "" "" None None None 0 0.

(** A balance that is not negative clears the arrears. *)
Definition creditBalance (now : time) (balance : float64) (state : AccountQuotaState) : AccountQuotaState :=
  let state := state <| quota_CurrentBalance := balance |> <| quota_EffectiveAt := now |>
                     <| quota_UpdatedAt := now |> in
  if float_le float_zero balance
  then state <| quota_Arrears := false |> <| quota_ArrearsSince := None |> else state.

Definition usdEntry (accountID : string) (prior : BillingLedgerEntry) : bool :=
  (led_AccountUUID prior == accountID) && (led_EntryType prior == "wallet_usd").

(** [balance += prior.AmountDelta] over the account's dollar entries; the sum
    of floats depends on the order. *)
Definition usdTotal `{MapOrder} (s : memoryStore) (accountID : string) (start : float64) : float64 :=
  foldl (λ acc prior, if usdEntry accountID prior then float_add acc (led_AmountDelta prior) else acc)
    start (range (billingLedgerEntries s)).*2.

(** Returns whether the entry had been credited before, the caller's entry and
    the store. *)
Definition CreditTopUp `{MapOrder} (now later : time) (entry : option BillingLedgerEntry) (s : memoryStore)
    : result error bool * option BillingLedgerEntry * memoryStore :=
  match entry with
  | None => (Err (ErrMsg "valid top-up ledger entry is required"), None, s)
  | Some entry =>
  if (TrimSpace (led_ID entry) == "") || float_le (led_AmountDelta entry) float_zero
  then (Err (ErrMsg "valid top-up ledger entry is required"), Some entry, s) else
  let currency := ToUpper (TrimSpace (led_Currency entry)) in
  if (currency != "CNY") && (currency != "USD")
  then (Err (ErrMsg "unsupported wallet currency"), Some entry, s) else
  if bool_decide (is_Some (billingLedgerEntries s !! led_ID entry)) then (Ok true, Some entry, s) else
  let accountID := TrimSpace (led_AccountUUID entry) in
  let state := default (emptyQuota accountID) (accountQuotaStates s !! accountID) in
  let '(entry, state) :=
    if currency == "CNY" then
      let balance := float_add (quota_CurrentBalance state) (led_AmountDelta entry) in
      (entry <| led_BalanceAfter := balance |>, creditBalance now balance state)
    else
      (entry <| led_BalanceAfter := float_add (usdTotal s accountID (led_BalanceAfter entry))
                                      (led_AmountDelta entry) |>, state) in
  let entry := entry <| led_Currency := currency |>
    <| led_EntryType := if currency == "USD" then "wallet_usd" else "topup" |>
    <| led_CreatedAt := later |> in
  (Ok false, Some entry,
   s <| billingLedgerEntries := <[led_ID entry := entry]> (billingLedgerEntries s) |>
     <| accountQuotaStates := <[accountID := state]> (accountQuotaStates s) |>)
  end.

Definition GetWalletBalance `{MapOrder} (s : memoryStore) (accountUUID currency : string)
    : result error float64 :=
  let currency := ToUpper (TrimSpace currency) in
  if currency == "CNY" then
    Ok match accountQuotaStates s !! TrimSpace accountUUID with
       | Some quota => quota_CurrentBalance quota
       | None => float_zero
       end
  else if currency == "USD" then Ok (usdTotal s (TrimSpace accountUUID) float_zero)
  else Err (ErrMsg "unsupported wallet currency").

Definition ListBillingLedgerByAccount `{MapOrder} (s : memoryStore) (accountUUID : string) (limit : Z)
    : list BillingLedgerEntry :=
  limit_to limit (sort_slice (λ a b, After (led_CreatedAt a) (led_CreatedAt b))
    (filter (λ e, led_AccountUUID e = TrimSpace accountUUID) (range (billingLedgerEntries s)).*2)).

(** ** Quota states, profiles, policies, node health, decisions *)

Definition UpsertAccountQuotaState (now : time) (state : option AccountQuotaState) (s : memoryStore)
    : result error unit * memoryStore :=
  match state with
  | None => (Err (ErrMsg "quota state is required"), s)
  | Some copy =>
      let copy := copy <| quota_UpdatedAt := now |> <| quota_EffectiveAt := or_now now (quota_EffectiveAt copy) |> in
      (Ok tt, s <| accountQuotaStates := <[TrimSpace (quota_AccountUUID copy) := copy]> (accountQuotaStates s) |>)
  end.

Definition ListSuspendedAccountUUIDs (s : memoryStore) : gmap string bool :=
  (λ _, true) <$> filter (λ kv, quota_SuspendState kv.2 = "suspended") (accountQuotaStates s).

Definition ListProxyBlockedAccountUUIDs (s : memoryStore) : gmap string bool :=
  (λ _, true) <$> filter (λ kv, quota_SuspendState kv.2 = "suspended" ∨ quota_ProxyAccessState kv.2 = "paused")
    (accountQuotaStates s).

Definition UpsertAccountBillingProfile (now : time) (profile : option AccountBillingProfile) (s : memoryStore)
    : result error unit * memoryStore :=
  match profile with
  | None => (Err (ErrMsg "billing profile is required"), s)
  | Some copy =>
      let copy := copy <| prof_CreatedAt := or_now now (prof_CreatedAt copy) |> <| prof_UpdatedAt := now |> in
      (Ok tt, s <| accountBillingProfiles := <[TrimSpace (prof_AccountUUID copy) := copy]> (accountBillingProfiles s) |>)
  end.

Definition GetAccountBillingProfile (s : memoryStore) (accountUUID : string)
    : result error AccountBillingProfile :=
  match accountBillingProfiles s !! TrimSpace accountUUID with
  | None => Err ErrUserNotFound
  | Some record => Ok record
  end.

Definition UpsertAccountPolicySnapshot (now : time) (snapshot : option AccountPolicySnapshot) (s : memoryStore)
    : result error unit * memoryStore :=
  match snapshot with
  | None => (Err (ErrMsg "policy snapshot is required"), s)
  | Some copy =>
      let copy := copy <| pol_CreatedAt := or_now now (pol_CreatedAt copy) |> <| pol_UpdatedAt := now |> in
      (Ok tt, s <| accountPolicySnapshots := <[TrimSpace (pol_AccountUUID copy) := copy]> (accountPolicySnapshots s) |>)
  end.

Definition GetLatestAccountPolicySnapshot (s : memoryStore) (accountUUID : string)
    : result error AccountPolicySnapshot :=
  match accountPolicySnapshots s !! TrimSpace accountUUID with
  | None => Err ErrUserNotFound
  | Some record => Ok record
  end.

Definition UpsertNodeHealthSnapshot (now : time) (snapshot : option NodeHealthSnapshot) (s : memoryStore)
    : result error unit * memoryStore :=
  match snapshot with
  | None => (Err (ErrMsg "node health snapshot is required"), s)
  | Some copy =>
      let copy := copy <| nhs_CreatedAt := or_now now (nhs_CreatedAt copy) |> <| nhs_UpdatedAt := now |>
                       <| nhs_SampledAt := or_now now (nhs_SampledAt copy) |> in
      (Ok tt, s <| nodeHealthSnapshots := <[TrimSpace (nhs_NodeID copy) := copy]> (nodeHealthSnapshots s) |>)
  end.

Definition ListLatestNodeHealthSnapshots `{MapOrder} (s : memoryStore) : list NodeHealthSnapshot :=
  sort_slice (λ a b, string_lt (nhs_NodeID a) (nhs_NodeID b)) (range (nodeHealthSnapshots s)).*2.

Definition InsertSchedulerDecision (newID : string) (now : time) (decision : option SchedulerDecision)
    (s : memoryStore) : result error unit * option SchedulerDecision * memoryStore :=
  match decision with
  | None => (Err (ErrMsg "scheduler decision is required"), None, s)
  | Some decision =>
      let copy := if TrimSpace (sdec_ID decision) == "" then decision <| sdec_ID := newID |> else decision in
      let copy := copy <| sdec_GeneratedAt := or_now now (sdec_GeneratedAt copy) |>
                       <| sdec_CreatedAt := or_now now (sdec_CreatedAt copy) |> in
      (Ok tt, Some copy, s <| schedulerDecisions := <[sdec_ID copy := copy]> (schedulerDecisions s) |>)
  end.

Definition ListRecentSchedulerDecisions `{MapOrder} (s : memoryStore) (limit : Z) : list SchedulerDecision :=
  limit_to limit (sort_slice (λ a b, After (sdec_GeneratedAt a) (sdec_GeneratedAt b))
    (range (schedulerDecisions s)).*2).

(** ** Changing the included quota of a paid period *)

(** The tests on the stored period; [start] and [end_] are the paid period,
    [month] the first instant of the current month. *)
Definition restoringFree (p : AccountBillingProfile) (q : AccountQuotaState) (month : time) : bool :=
  (prof_PricingRuleVersion p == "plan:FREE") &&
  match quota_PeriodStart q, quota_PeriodEnd q with
  | Some a, Some b => Equal a month && Equal b (AddMonth month)
  | _, _ => false
  end.

Definition resetPeriod (q : AccountQuotaState) (start end_ month : time) : bool :=
  match quota_PeriodStart q, quota_PeriodEnd q with
  | Some a, Some b => Equal start month && Equal end_ (AddMonth month) && After a start && Before a end_ && Equal b end_
  | _, _ => false
  end.

Definition rollover (q : AccountQuotaState) (start : time) : bool :=
  match quota_PeriodStart q, quota_PeriodEnd q with
  | Some a, Some b => After b a && negb (After b start)
  | _, _ => false
  end.

Definition samePeriod (q : AccountQuotaState) (start end_ : time) : bool :=
  match quota_PeriodStart q, quota_PeriodEnd q with
  | Some a, Some b => Equal a start && Equal b end_
  | _, _ => false
  end.

Definition hasPeriod (q : AccountQuotaState) : bool :=
  match quota_PeriodStart q, quota_PeriodEnd q with Some _, Some _ => true | _, _ => false end.

(** The start that is kept when the stored period began inside the paid one
    and ends with it. *)
Definition keptStart (q : AccountQuotaState) (start end_ : time) (activation : bool) : time :=
  match quota_PeriodStart q, quota_PeriodEnd q with
  | Some a, Some b =>
      if negb activation && negb (Before a start) && Before a end_ && Equal b end_ then a else start
  | _, _ => start
  end.

Definition changeSubscriptionQuota (now : time) (id : string) (previous target : Z) (start end_ : time)
    (activation : bool) (s : memoryStore) : result error unit * memoryStore :=
  match accountBillingProfiles s !! id with
  | None => (Err ErrSubscriptionQuotaConflict, s)
  | Some p =>
  if prof_IncludedQuotaBytes p =? target then (Ok tt, s) else
  if activation && (prof_PricingRuleVersion p != "plan:FREE") then (Err ErrSubscriptionQuotaConflict, s) else
  let month := StartOfMonth now in
  if (target <=? previous) || negb (After end_ start) || negb (prof_IncludedQuotaBytes p =? previous)
  then (Err ErrSubscriptionQuotaConflict, s) else
  match accountQuotaStates s !! id with
  | None => (Err ErrSubscriptionQuotaConflict, s)
  | Some q =>
  if previous <? quota_RemainingIncludedQuota q then (Err ErrSubscriptionQuotaConflict, s) else
  if negb activation && negb (resetPeriod q start end_ month) && negb (rollover q start) &&
     (negb (hasPeriod q) || (negb (samePeriod q start end_) && negb (restoringFree p q month)))
  then (Err ErrSubscriptionQuotaConflict, s) else
  let fresh := activation || rollover q start in
  let start := keptStart q start end_ activation in
  let q := q <| quota_RemainingIncludedQuota :=
                  int64 (quota_RemainingIncludedQuota q + (target - previous)) |> in
  let q := if fresh
           then q <| quota_RemainingIncludedQuota := target |> <| quota_Arrears := false |>
                  <| quota_ArrearsSince := None |> <| quota_ThrottleState := "normal" |>
                  <| quota_SuspendState := "active" |>
           else q in
  let q := q <| quota_PeriodStart := Some start |> <| quota_PeriodEnd := Some end_ |>
             <| quota_UpdatedAt := now |> <| quota_EffectiveAt := now |> in
  let p := p <| prof_IncludedQuotaBytes := target |> <| prof_UpdatedAt := now |> in
  (Ok tt, s <| accountQuotaStates := <[id := q]> (accountQuotaStates s) |>
            <| accountBillingProfiles := <[id := p]> (accountBillingProfiles s) |>)
  end end.

Definition UpgradeSubscriptionQuota (now : time) (id : string) (previous target : Z) (start end_ : time)
    (s : memoryStore) : result error unit * memoryStore :=
  changeSubscriptionQuota now id previous target start end_ false s.

Definition ActivateSubscriptionQuota (now : time) (id : string) (previous target : Z) (start end_ : time)
    (s : memoryStore) : result error unit * memoryStore :=
  changeSubscriptionQuota now id previous target start end_ true s.

(** ** Monthly resets *)

Definition inPeriod (id : string) (start end_ : time) (b : TrafficMinuteBucket) : bool :=
  (bkt_AccountUUID b == id) && negb (Before (bkt_BucketStart b) start) && Before (bkt_BucketStart b) end_.

Definition ResetFreeQuotaPeriod (id : string) (start end_ now : time) (s : memoryStore) : memoryStore :=
  match user_by_id s id, accountBillingProfiles s !! id, accountQuotaStates s !! id with
  | Some u, Some p, Some q =>
      if negb (IsMonthlyFreeQuotaLimitMember u) || (prof_PricingRuleVersion p != "plan:FREE") ||
         match quota_PeriodEnd q with Some e => After e start || After e now | None => false end
      then s else
      let used := sum64 (λ b, if inPeriod id start end_ b then bkt_TotalBytes b else 0)
                    (values (trafficMinuteBuckets s)) in
      let remaining := int64 (prof_IncludedQuotaBytes p - used) in
      let q := q <| quota_RemainingIncludedQuota := if remaining <? 0 then 0 else remaining |>
                 <| quota_PeriodStart := Some start |> <| quota_PeriodEnd := Some end_ |>
                 <| quota_EffectiveAt := now |> <| quota_UpdatedAt := now |> in
      s <| accountQuotaStates := <[id := q]> (accountQuotaStates s) |>
  | _, _, _ => s
  end.

Definition AuditActionMonthlyUsageReset : string := "admin.monthly_usage.reset".

(** [now.Month()+1] is normalised by [time.Date]. *)
Definition resetUsagePeriod (now : time) : time * time :=
  (Add (Truncate now Minute) Minute, DateMonth (Year now) (Month now + 1)).

Definition resetDetails (id email reason : string) (before after : Z) (start end_ : time) : gmap string any :=
  <["target_uuid" := AStr id]> (<["email" := AStr email]> (<["reason" := AStr reason]>
  (<["before" := AMap [("remaining_included_quota", AInt before)]]>
  (<["after" := AMap [("remaining_included_quota", AInt after); ("period_start", ATime start);
                       ("period_end", ATime end_)]]> (<["expires_at" := ATime end_]> ∅))))).

Definition ResetMonthlyUsage (newUUID : string) (id actor email reason : string) (now : time) (s : memoryStore)
    : result error AccountQuotaState * memoryStore :=
  let '(start, end_) := resetUsagePeriod now in
  let refused := (Err (ErrMsg "account email changed or no monthly quota"), s) in
  match user_by_id s id, accountBillingProfiles s !! id, accountQuotaStates s !! id with
  | Some u, Some p, Some q =>
      if negb (Before start end_) || (user_Email u != email) || (prof_IncludedQuotaBytes p <=? 0)
      then refused else
      let before := quota_RemainingIncludedQuota q in
      let q := q <| quota_RemainingIncludedQuota := prof_IncludedQuotaBytes p |>
                 <| quota_PeriodStart := Some start |> <| quota_PeriodEnd := Some end_ |>
                 <| quota_EffectiveAt := UTC now |> <| quota_UpdatedAt := UTC now |> in
      (Ok q, s <| accountQuotaStates := <[id := q]> (accountQuotaStates s) |>
               <| auditLogs := auditLogs s ++ [mkAuditLog newUUID AuditActionMonthlyUsageReset actor
                    (resetDetails id email reason before (quota_RemainingIncludedQuota q) start end_)
                    (UTC now)] |>)
  | _, _, _ => refused
  end.

(** [t, ok := m[k].(time.Time)] on a map kept under [any]. *)
Fixpoint any_time (k : string) (m : list (string * any)) : option time :=
  match m with
  | [] => None
  | (k', v) :: m' => if k' == k then match v with ATime t => Some t | _ => None end else any_time k m'
  end.

(** An audit entry of the reset that set this period. *)
Definition resetEntry (id : string) (start end_ : time) (a : AuditLog) : bool :=
  (audit_Action a == AuditActionMonthlyUsageReset) && any_is_str (audit_Details a !! "target_uuid") id &&
  match audit_Details a !! "after" with
  | Some (AMap after) =>
      match any_time "period_start" after, any_time "period_end" after with
      | Some a, Some b => Equal a start && Equal b end_
      | _, _ => false
      end
  | _ => false
  end.

Definition expireMonthlyUsageResetLocked (id : string) (now : time) (s : memoryStore) : memoryStore :=
  match accountQuotaStates s !! id, accountBillingProfiles s !! id with
  | Some q, Some p =>
      match quota_PeriodStart q, quota_PeriodEnd q with
      | Some periodStart, Some periodEnd =>
          if After periodEnd now then s else
          if negb (existsb (resetEntry id periodStart periodEnd) (auditLogs s)) then s else
          let start := StartOfMonth now in
          let end_ := AddMonth start in
          let used := sum64 (λ b, if inPeriod id start end_ b then Z.max 0 (bkt_TotalBytes b) else 0)
                        (values (trafficMinuteBuckets s)) in
          let q := q <| quota_RemainingIncludedQuota := Z.max 0 (int64 (prof_IncludedQuotaBytes p - used)) |>
                     <| quota_PeriodStart := Some start |> <| quota_PeriodEnd := Some end_ |>
                     <| quota_EffectiveAt := now |> <| quota_UpdatedAt := now |> in
          s <| accountQuotaStates := <[id := q]> (accountQuotaStates s) |>
      | _, _ => s
      end
  | _, _ => s
  end.

(** The row is looked up under the trimmed identifier, the reset is expired
    under the identifier as given. *)
Definition GetAccountQuotaState (now : time) (accountUUID : string) (s : memoryStore)
    : result error AccountQuotaState * memoryStore :=
  match accountQuotaStates s !! TrimSpace accountUUID with
  | None => (Err ErrUserNotFound, s)
  | Some record =>
      let s := expireMonthlyUsageResetLocked accountUUID now s in
      (Ok (default record (accountQuotaStates s !! TrimSpace accountUUID)), s)
  end.

(** ** Usage of a period, shared with the admin plan groups *)

Definition quotaPeriodStart (quota : option AccountQuotaState) (now : time) : time :=
  match quota with
  | Some q => match quota_PeriodStart q with Some t => UTC t | None => StartOfMonth now end
  | None => StartOfMonth now
  end.

Definition countedBucket (accountID : string) (quota : option AccountQuotaState) (start : time)
    (b : TrafficMinuteBucket) : bool :=
  (bkt_AccountUUID b == accountID) && negb (Before (bkt_BucketStart b) start) &&
  match quota with
  | Some q => match quota_PeriodEnd q with Some e => Before (bkt_BucketStart b) e | None => true end
  | None => true
  end && (0 <? bkt_TotalBytes b).

Definition adminPlanGroupBucketUsage (now : time) (buckets : gmap string TrafficMinuteBucket)
    (accountID : string) (quota : option AccountQuotaState) : Z :=
  sum64 (λ b, if countedBucket accountID quota (quotaPeriodStart quota now) b then bkt_TotalBytes b else 0)
    (values buckets).

(** ** The plan catalog *)

Definition normalizePlanID (planID : string) : string := ToUpper (TrimSpace planID).

Definition ListBillingPlans `{MapOrder} (s : memoryStore) (includeInactive : bool) : list BillingPlan :=
  sort_slice (λ a b, if negb (plan_SortOrder a =? plan_SortOrder b) then plan_SortOrder a <? plan_SortOrder b
                     else string_lt (plan_PlanID a) (plan_PlanID b))
    (filter (λ p, includeInactive || plan_Active p = true) (range (billingPlans s)).*2).

Definition GetBillingPlan (s : memoryStore) (planID : string) : result error BillingPlan :=
  match billingPlans s !! normalizePlanID planID with
  | None => Err ErrBillingPlanNotFound
  | Some plan => Ok plan
  end.

(** The first match of the iteration. *)
Definition GetBillingPlanByPriceID `{MapOrder} (s : memoryStore) (stripePriceID : string)
    : result error BillingPlan :=
  let trimmed := TrimSpace stripePriceID in
  if trimmed == "" then Err ErrBillingPlanNotFound else
  match List.find (λ plan, plan_StripePriceID plan == trimmed) (range (billingPlans s)).*2 with
  | Some plan => Ok plan
  | None => Err ErrBillingPlanNotFound
  end.

Definition BillingPlanFree : string := "FREE".

(** An individually agreed quota of a subscription record; a missing record
    reads as zeros. *)
Definition agreedQuota (s : memoryStore) (id : string) : bool :=
  match subscriptionRecords s !! id with
  | Some record => (0 <? srec_MonthlyQuotaBytes record) || (0 <? srec_AnnualQuotaBytes record)
  | None => false
  end.

Definition customPlan (s : memoryStore) (id : string) : bool :=
  match user_by_id s id with
  | Some u => SubscriptionSourcePlan (user_Groups u) == "CUSTOM"
  | None => false
  end.

(** The usage kept when the quota of a period is replaced. *)
Definition keptUsage (now : time) (s : memoryStore) (id : string) (p : AccountBillingProfile)
    (q : AccountQuotaState) : Z :=
  let used := int64 (prof_IncludedQuotaBytes p - quota_RemainingIncludedQuota q) in
  let bucketUsage := adminPlanGroupBucketUsage now (trafficMinuteBuckets s) id (Some q) in
  let used := if used <? bucketUsage then bucketUsage else used in
  if used <? 0 then 0 else used.

(** The rows of an account that follow an updated plan. *)
Definition followPlan (now : time) (s : memoryStore) (stored : BillingPlan) (id : string)
    (p : AccountBillingProfile) : option (AccountBillingProfile * AccountQuotaState) :=
  if customPlan s id then None else
  if prof_PricingRuleVersion p != ("plan:" +:+ plan_PlanID stored)%string then None else
  if (plan_PlanID stored != BillingPlanFree) && agreedQuota s id then None else
  match accountQuotaStates s !! id with
  | None => None
  | Some q =>
      let remaining := int64 (plan_IncludedQuotaBytes stored - keptUsage now s id p q) in
      let remaining := if remaining <? 0 then 0 else remaining in
      if negb (prof_IncludedQuotaBytes p =? plan_IncludedQuotaBytes stored) ||
         negb (quota_RemainingIncludedQuota q =? remaining)
      then Some (p <| prof_IncludedQuotaBytes := plan_IncludedQuotaBytes stored |> <| prof_UpdatedAt := now |>,
                 q <| quota_RemainingIncludedQuota := remaining |> <| quota_UpdatedAt := now |>)
      else None
  end.

Definition UpsertBillingPlan (now : time) (plan : option BillingPlan) (s : memoryStore)
    : result error unit * memoryStore :=
  match plan with
  | None => (Err ErrBillingPlanNotFound, s)
  | Some plan =>
      if TrimSpace (plan_PlanID plan) == "" then (Err ErrBillingPlanNotFound, s) else
      let stored := plan <| plan_PlanID := normalizePlanID (plan_PlanID plan) |> <| plan_UpdatedAt := now |> in
      let stored := stored <| plan_CreatedAt := match billingPlans s !! plan_PlanID stored with
                                                | Some existing => plan_CreatedAt existing
                                                | None => now
                                                end |> in
      let s := s <| billingPlans := <[plan_PlanID stored := stored]> (billingPlans s) |> in
      if negb (plan_Active stored) then (Ok tt, s) else
      let followed := map_imap (λ id p, followPlan now s stored id p) (accountBillingProfiles s) in
      (Ok tt, s <| accountBillingProfiles := (fst <$> followed) ∪ accountBillingProfiles s |>
                <| accountQuotaStates := (snd <$> followed) ∪ accountQuotaStates s |>)
  end.

Definition float_one : float64 := S754_finite false 4503599627370496 (-52).

(** A named multiplier, 1 when it is missing or not positive. *)
Definition Multiplier (p : option BillingPlan) (name : string) : float64 :=
  match p with
  | None => float_one
  | Some p =>
      match plan_PriceMultipliers p !! name with
      | Some v => if SFltb float_zero v then v else float_one
      | None => float_one
      end
  end.

Definition DeleteBillingPlan (planID : string) (s : memoryStore) : result error unit * memoryStore :=
  let key := normalizePlanID planID in
  match billingPlans s !! key with
  | None => (Err ErrBillingPlanNotFound, s)
  | Some _ => (Ok tt, s <| billingPlans := delete key (billingPlans s) |>)
  end.

(** ** Webhook events and the event queue *)

Definition StripeWebhookEventStatusReceived : string := "received".
Definition StripeWebhookEventStatusProcessed : string := "processed".
Definition StripeWebhookEventStatusFailed : string := "failed".

(** Returns whether the event was processed before. *)
Definition BeginStripeWebhookEvent (now : time) (event : option StripeWebhookEvent) (s : memoryStore)
    : bool * memoryStore :=
  match event with
  | None => (false, s)
  | Some event =>
      if TrimSpace (whe_EventID event) == "" then (false, s) else
      match stripeWebhookEvents s !! whe_EventID event with
      | Some existing => (whe_Status existing == StripeWebhookEventStatusProcessed, s)
      | None =>
          let stored := event <| whe_Status := StripeWebhookEventStatusReceived |> <| whe_ReceivedAt := now |> in
          (false, s <| stripeWebhookEvents := <[whe_EventID event := stored]> (stripeWebhookEvents s) |>)
      end
  end.

(** [procErr] is the text of the error, if processing failed. *)
Definition FinishStripeWebhookEvent (now : time) (eventID : string) (procErr : option string) (s : memoryStore)
    : memoryStore :=
  match stripeWebhookEvents s !! TrimSpace eventID with
  | None => s
  | Some event =>
      let event := event <| whe_ProcessedAt := Some now |> in
      let event := match procErr with
                   | Some e => event <| whe_Status := StripeWebhookEventStatusFailed |> <| whe_LastError := e |>
                   | None => event <| whe_Status := StripeWebhookEventStatusProcessed |> <| whe_LastError := "" |>
                   end in
      s <| stripeWebhookEvents := <[TrimSpace eventID := event]> (stripeWebhookEvents s) |>
  end.

(** [payload] stamps the event and marshals it; [Time.MarshalJSON] refuses
    years outside 0 to 9999. *)
Definition payload (now : time) (e : BillingEvent) : result error unit * BillingEvent :=
  let e := e <| bev_OccurredAt := or_now now (bev_OccurredAt e) |> in
  let y := Year (bev_OccurredAt e) in
  (if (y <? 0) || (9999 <? y)
   then Err (ErrMsg "Time.MarshalJSON: year outside of range [0,9999]") else Ok tt, e).

Definition PublishBillingEvent (now : time) (event : option BillingEvent) (s : memoryStore)
    : result error unit * option BillingEvent * memoryStore :=
  match event with
  | None => (Ok tt, None, s)
  | Some event =>
      match payload now event with
      | (Err e, event) => (Err e, Some event, s)
      | (Ok _, event) => (Ok tt, Some event, s <| billingEvents := billingEvents s ++ [event] |>)
      end
  end.

(** ** The audit log *)

Definition auditLogDefaultLimit : Z := 50.
Definition auditLogMaxLimit : Z := 200.

Definition InsertAuditLog (newUUID : string) (now : time) (entry : option AuditLog) (s : memoryStore)
    : result error unit * option AuditLog * memoryStore :=
  match entry with
  | None => (Err (ErrMsg "audit entry is required"), None, s)
  | Some entry =>
      if TrimSpace (audit_Action entry) == "" then (Err (ErrMsg "audit action is required"), Some entry, s) else
      let entry := if TrimSpace (audit_UUID entry) == "" then entry <| audit_UUID := newUUID |> else entry in
      let entry := entry <| audit_CreatedAt := or_now now (audit_CreatedAt entry) |> in
      (Ok tt, Some entry, s <| auditLogs := auditLogs s ++ [entry] |>)
  end.

Record AuditLogFilter := mkAuditLogFilter {
  alf_ActionPrefix : string;
  alf_ActorUUID : string;
  alf_TargetUUID : string;
  alf_Limit : Z;
  alf_Offset : Z
}.

Definition auditMatches (filter : AuditLogFilter) (entry : AuditLog) : bool :=
  let prefix := TrimSpace (alf_ActionPrefix filter) in
  let actor := TrimSpace (alf_ActorUUID filter) in
  let target := TrimSpace (alf_TargetUUID filter) in
  ((prefix == "") || HasPrefix (audit_Action entry) prefix) &&
  ((actor == "") || (audit_ActorUUID entry == actor)) &&
  ((target == "") || (any_str (audit_Details entry !! "target_uuid") == target)).

(** The matching entries from the newest to the oldest, from an offset on. *)
Definition ListAuditLogs (s : memoryStore) (filter : AuditLogFilter) : list AuditLog :=
  let limit := alf_Limit filter in
  let limit := if limit <=? 0 then auditLogDefaultLimit else limit in
  let limit := if auditLogMaxLimit <? limit then auditLogMaxLimit else limit in
  let offset := if alf_Offset filter <? 0 then 0 else alf_Offset filter in
  let matched := List.filter (auditMatches filter) (reverse (auditLogs s)) in
  if Z.of_nat (length matched) <=? offset then [] else
  take (Z.to_nat limit) (drop (Z.to_nat offset) matched).
