(* ===== verification/PlanGroups.v ===== *)
(** * Plan group changes by an administrator

    [CreateAdminPlanGroupPreview] and [ApplyAdminPlanGroupBatch] of [store.go]:
    an operator previews a list of compare-and-set changes, then applies the
    reviewed list.  Applying first prepares every change against the current
    state, and writes only when all of them are accepted.

    Cloning a list of changes is the identity on values. *)

From S2P Require Import Prelude GoLib Calendar Json StoreData Users Lifecycle Quota.
Open Scope Z_scope.
Open Scope bool_scope.
Open Scope go_scope.

Definition AuditActionPlanGroupUpdate : string := "account.plan_group.update".
Definition AuditActionPlanGroupPreview : string := "account.plan_group.preview".
Definition AuditActionPlanGroupPreviewUsed : string := "account.plan_group.preview.used".

Definition equalStoreStrings (a b : list string) : bool :=
  normalizeStringSlice a == normalizeStringSlice b.

Definition equalStoreTimes (a b : option time) : bool := equal_opt_time a b.

Definition profileUpdatedAt (profile : option AccountBillingProfile) : option time :=
  match profile with
  | Some p => if IsZero (prof_UpdatedAt p) then None else Some (UTC (prof_UpdatedAt p))
  | None => None
  end.

Definition quotaUpdatedAt (quota : option AccountQuotaState) : option time :=
  match quota with
  | Some q => if IsZero (quota_UpdatedAt q) then None else Some (UTC (quota_UpdatedAt q))
  | None => None
  end.

Definition acceptsUsageAtApply (c : AdminPlanGroupChange) (remaining : Z) (updatedAt : option time)
    (usage : Z) : bool :=
  match apc_SubscriptionRecord c with
  | Some _ =>
      let used := Z.max usage (int64 (apc_ExpectedProfileIncludedQuota c - remaining)) in
      let wouldNewlyPause := (0 <? apc_RemainingAfter c) && (apc_IncludedQuotaBytes c <=? used) in
      (remaining <=? apc_ExpectedQuotaRemaining c) && (apc_ExpectedUsageBytes c <=? usage) &&
      negb wouldNewlyPause
  | None =>
      (remaining =? apc_ExpectedQuotaRemaining c) && (usage =? apc_ExpectedUsageBytes c) &&
      equalStoreTimes updatedAt (apc_ExpectedQuotaUpdatedAt c)
  end.

(** The account of a change, and the tests shared by preview and apply. *)
Definition changeTarget (s : memoryStore) (seen : list string) (duplicate : error)
    (change : AdminPlanGroupChange) : result error User :=
  if contains seen (apc_UserID change) then Err duplicate else
  match user_by_id s (apc_UserID change) with
  | None => Err ErrUserNotFound
  | Some user =>
      if IsRootRole (user_Role user) then Err ErrUserProtected else
      if negb (equalStoreStrings (WithoutAgentFreeGrantGroups (user_Groups user))
                 (WithoutAgentFreeGrantGroups (apc_ExpectedGroups change))) ||
         negb (equalStoreTimes (user_SubscriptionValidFrom user) (apc_ExpectedValidFrom change)) ||
         negb (equalStoreTimes (user_SubscriptionValidUntil user) (apc_ExpectedValidUntil change))
      then Err ErrAdminPlanGroupStale else Ok user
  end.

(** ** Preview *)

(** The expectations recorded in a change from the current rows. *)
Definition expectRecord (s : memoryStore) (id : string) (change : AdminPlanGroupChange)
    : AdminPlanGroupChange :=
  match apc_SubscriptionRecord change, subscriptionRecords s !! id with
  | Some _, Some record => change <| apc_ExpectedRecordUpdatedAt := Some (srec_UpdatedAt record) |>
  | _, _ => change
  end.

Definition expectProfile (profile : option AccountBillingProfile) (change : AdminPlanGroupChange)
    : AdminPlanGroupChange :=
  let change := change <| apc_ProfileExisted := bool_decide (is_Some profile) |> in
  match profile with
  | Some p => change <| apc_ExpectedProfileIncludedQuota := prof_IncludedQuotaBytes p |>
                     <| apc_ExpectedProfileUpdatedAt := Some (UTC (prof_UpdatedAt p)) |>
  | None => change
  end.

Definition expectQuota (quota : option AccountQuotaState) (change : AdminPlanGroupChange)
    : AdminPlanGroupChange :=
  let change := change <| apc_QuotaExisted := bool_decide (is_Some quota) |> in
  match quota with
  | Some q => change <| apc_ExpectedQuotaRemaining := quota_RemainingIncludedQuota q |>
                     <| apc_ExpectedPeriodStart := quota_PeriodStart q |>
                     <| apc_ExpectedPeriodEnd := quota_PeriodEnd q |>
                     <| apc_ExpectedQuotaUpdatedAt := Some (UTC (quota_UpdatedAt q)) |>
  | None => change
  end.

(** The usage that a new entitlement keeps, and what remains of it. *)
Definition expectUsage (usage : Z) (change : AdminPlanGroupChange) : AdminPlanGroupChange :=
  if negb (apc_SetEntitlement change) then change else
  let used := int64 (apc_ExpectedProfileIncludedQuota change - apc_ExpectedQuotaRemaining change) in
  let used := if used <? 0 then 0 else used in
  let used := if used <? usage then usage else used in
  let remaining := int64 (apc_IncludedQuotaBytes change - used) in
  change <| apc_ExpectedUsageBytes := usage |>
         <| apc_UsedBytesPreserved := used |>
         <| apc_RemainingAfter := if remaining <? 0 then 0 else remaining |>.

Definition expectRows (now : time) (s : memoryStore) (user : User) (change : AdminPlanGroupChange)
    : AdminPlanGroupChange :=
  let id := user_ID user in
  let quota := accountQuotaStates s !! id in
  expectUsage (adminPlanGroupBucketUsage now (trafficMinuteBuckets s) id quota)
    (expectQuota quota (expectProfile (accountBillingProfiles s !! id) (expectRecord s id change))).

Fixpoint previewChanges (now : time) (s : memoryStore) (seen : list string)
    (changes : list AdminPlanGroupChange) : result error (list AdminPlanGroupChange) :=
  match changes with
  | [] => Ok []
  | change :: changes =>
      let? user := changeTarget s seen (ErrMsg "duplicate user in admin plan group preview") change in
      let? rest := previewChanges now s (apc_UserID change :: seen) changes in
      Ok (expectRows now s user change :: rest)
  end.

Definition CreateAdminPlanGroupPreview (newUUID : string) (now : time) (preview : AdminPlanGroupPreview)
    (s : memoryStore) : result error (list AdminPlanGroupChange) * memoryStore :=
  if (app_TokenHash preview == "") || (app_RequestID preview == "") ||
     (length (app_Changes preview) =? 0)%nat || negb (After (app_ExpiresAt preview) now)
  then (Err (ErrMsg "invalid admin plan group preview"), s) else
  if bool_decide (is_Some (adminPlanGroupPreviews s !! app_TokenHash preview))
  then (Err (ErrMsg "duplicate admin plan group preview token"), s) else
  match previewChanges now s [] (app_Changes preview) with
  | Err e => (Err e, s)
  | Ok changes =>
      let preview := preview <| app_Changes := changes |> in
      (Ok changes,
       s <| adminPlanGroupPreviews := <[app_TokenHash preview := preview]> (adminPlanGroupPreviews s) |>
         <| auditLogs := auditLogs s ++ [mkAuditLog newUUID AuditActionPlanGroupPreview (app_ActorUUID preview)
              (<["request_id" := AStr (app_RequestID preview)]> (<["reason" := AStr (app_Reason preview)]>
               (<["expires_at" := ATime (UTC (app_ExpiresAt preview))]> ∅))) now] |>)
  end.

(** ** Apply *)

(** The user is the object behind [byID]; it is kept by its identifier. *)
Record preparedAdminPlanGroupChange := mkPrepared {
  prep_change : AdminPlanGroupChange;
  prep_user : User;
  prep_profile : AccountBillingProfile;
  prep_quota : AccountQuotaState;
  prep_used : Z;
  prep_remainingBefore : Z
}.

Definition newProfile (id : string) : AccountBillingProfile :=
  mkAccountBillingProfile id "" 0 float_zero float_one float_one float_one float_one "" 0 0.

Definition newQuota (id : string) : AccountQuotaState :=
  mkAccountQuotaState id 0 float_zero false None "normal" "active" "active" None None None 0 0.

(** The rows after an entitlement change. *)
Definition entitledProfile (id : string) (change : AdminPlanGroupChange) (profile : AccountBillingProfile)
    : AccountBillingProfile :=
  profile
    <| prof_AccountUUID := id |>
    <| prof_PackageName := apc_PackageName change |>
    <| prof_IncludedQuotaBytes := apc_IncludedQuotaBytes change |>
    <| prof_RegionMultiplier := apc_RegionMultiplier change |>
    <| prof_LineMultiplier := apc_LineMultiplier change |>
    <| prof_PeakMultiplier := apc_PeakMultiplier change |>
    <| prof_OffPeakMultiplier := apc_OffPeakMultiplier change |>
    <| prof_PricingRuleVersion := apc_PricingRuleVersion change |>.

Definition entitledQuota (now : time) (change : AdminPlanGroupChange) (used : Z) (quota : AccountQuotaState)
    : AccountQuotaState :=
  let remaining := int64 (apc_IncludedQuotaBytes change - used) in
  quota <| quota_RemainingIncludedQuota := if remaining <? 0 then 0 else remaining |>
        <| quota_EffectiveAt := now |>.

Definition prepareChange (now : time) (s : memoryStore) (seen : list string) (change : AdminPlanGroupChange)
    : result error preparedAdminPlanGroupChange :=
  let? user := changeTarget s seen (ErrMsg "duplicate user in admin plan group batch") change in
  let id := user_ID user in
  let oldProfile := accountBillingProfiles s !! id in
  let oldQuota := accountQuotaStates s !! id in
  if apc_SetEntitlement change &&
     (negb (Bool.eqb (bool_decide (is_Some oldProfile)) (apc_ProfileExisted change)) ||
      negb (Bool.eqb (bool_decide (is_Some oldQuota)) (apc_QuotaExisted change)))
  then Err ErrAdminPlanGroupStale else
  let profile := default (newProfile id) oldProfile in
  let quota := default (newQuota id) oldQuota in
  if apc_SetEntitlement change &&
     (negb (prof_IncludedQuotaBytes profile =? apc_ExpectedProfileIncludedQuota change) ||
      negb (equalStoreTimes (profileUpdatedAt oldProfile) (apc_ExpectedProfileUpdatedAt change)) ||
      negb (equalStoreTimes (quota_PeriodStart quota) (apc_ExpectedPeriodStart change)) ||
      negb (equalStoreTimes (quota_PeriodEnd quota) (apc_ExpectedPeriodEnd change)))
  then Err ErrAdminPlanGroupStale else
  let remainingBefore := quota_RemainingIncludedQuota quota in
  let used := int64 (prof_IncludedQuotaBytes profile - remainingBefore) in
  let used := if used <? 0 then 0 else used in
  let bucketUsage := adminPlanGroupBucketUsage now (trafficMinuteBuckets s) id (Some quota) in
  if apc_SetEntitlement change &&
     negb (acceptsUsageAtApply change (quota_RemainingIncludedQuota quota) (quotaUpdatedAt oldQuota) bucketUsage)
  then Err ErrAdminPlanGroupStale else
  let used := if used <? bucketUsage then bucketUsage else used in
  let '(profile, quota) :=
    if apc_SetEntitlement change
    then (entitledProfile id change profile, entitledQuota now change used quota) else (profile, quota) in
  if match apc_SubscriptionRecord change with
     | Some _ => negb (equalStoreTimes (srec_UpdatedAt <$> subscriptionRecords s !! id)
                         (apc_ExpectedRecordUpdatedAt change))
     | None => false
     end then Err ErrAdminPlanGroupStale else
  Ok (mkPrepared change user profile quota used remainingBefore).

Fixpoint prepareChanges (now : time) (s : memoryStore) (seen : list string)
    (changes : list AdminPlanGroupChange) : result error (list preparedAdminPlanGroupChange) :=
  match changes with
  | [] => Ok []
  | change :: changes =>
      let? item := prepareChange now s seen change in
      let? rest := prepareChanges now s (apc_UserID change :: seen) changes in
      Ok (item :: rest)
  end.

(** The change as it is reported back. *)
Definition reportChange (item : preparedAdminPlanGroupChange) : AdminPlanGroupChange :=
  if apc_SetEntitlement (prep_change item)
  then (prep_change item) <| apc_UsedBytesPreserved := prep_used item |>
         <| apc_RemainingAfter := quota_RemainingIncludedQuota (prep_quota item) |>
  else prep_change item.

(** The account after a change. *)
Definition changedUser (now : time) (change : AdminPlanGroupChange) (user : User) : User :=
  let user := user <| user_Groups := PreserveAgentFreeGrantGroups (user_Groups user)
                                       (normalizeStringSlice (apc_Groups change)) |> in
  let user := if apc_SetValidFrom change
              then user <| user_SubscriptionValidFrom := apc_ValidFrom change |> else user in
  let user := if apc_SetValidUntil change
              then user <| user_SubscriptionValidUntil := apc_ValidUntil change |> else user in
  user <| user_UpdatedAt := now |>.

Definition updateEntry (newUUID : string) (now : time) (batch : AdminPlanGroupBatch)
    (item : preparedAdminPlanGroupChange) (previousRecord : any) (user : User) : AuditLog :=
  let change := prep_change item in
  let remaining := quota_RemainingIncludedQuota (prep_quota item) in
  mkAuditLog newUUID AuditActionPlanGroupUpdate (apb_ActorUUID batch)
    (<["target_uuid" := AStr (user_ID user)]> (<["reason" := AStr (apb_Reason batch)]>
     (<["request_id" := AStr (apb_RequestID batch)]>
     (<["preview_token_hash" := AStr (apb_PreviewTokenHash batch)]>
     (<["before" := AMap [("subscription_record", previousRecord); ("groups", AStrs (apc_ExpectedGroups change));
          ("valid_from", ATimePtr (apc_ExpectedValidFrom change));
          ("valid_until", ATimePtr (apc_ExpectedValidUntil change));
          ("included_quota_bytes", AInt (apc_ExpectedProfileIncludedQuota change));
          ("remaining_included_quota", AInt (prep_remainingBefore item))]]>
     (<["after" := AMap [("groups", AStrs (apc_Groups change));
          ("valid_from", ATimePtr (user_SubscriptionValidFrom user));
          ("valid_until", ATimePtr (user_SubscriptionValidUntil user));
          ("subscription_record", ARecordPtr (apc_SubscriptionRecord change));
          ("plan_id", AStr (apc_PlanID change));
          ("included_quota_bytes", AInt (apc_IncludedQuotaBytes change));
          ("remaining_included_quota", AInt remaining);
          ("used_bytes_preserved", AInt (prep_used item));
          ("configuration_sync_paused", ABool (apc_SetEntitlement change &&
             (0 <? apc_IncludedQuotaBytes change) && (remaining =? 0)))]]> ∅)))))) now.

Definition commitChange (newUUID : string) (now : time) (batch : AdminPlanGroupBatch)
    (item : preparedAdminPlanGroupChange) (s : memoryStore) : memoryStore :=
  let change := prep_change item in
  let id := user_ID (prep_user item) in
  let previousRecord := match subscriptionRecords s !! id with Some r => ARecord r | None => ANil end in
  let s := update_user s (apc_UserID change) (changedUser now change) in
  let s := match apc_SubscriptionRecord change with
           | Some record => s <| subscriptionRecords :=
               <[id := record <| srec_UserID := id |> <| srec_UpdatedAt := now |>]> (subscriptionRecords s) |>
           | None => s
           end in
  let s := if apc_SetEntitlement change
           then s <| accountBillingProfiles := <[id := (prep_profile item) <| prof_UpdatedAt := now |>]>
                       (accountBillingProfiles s) |>
                  <| accountQuotaStates := <[id := (prep_quota item) <| quota_UpdatedAt := now |>]>
                       (accountQuotaStates s) |>
           else s in
  s <| auditLogs := auditLogs s ++ [updateEntry newUUID now batch item previousRecord
         (changedUser now change (prep_user item))] |>.

(** [uuids i] is the i-th generated identifier. *)
Fixpoint commitChanges (uuids : nat → string) (i : nat) (now : time) (batch : AdminPlanGroupBatch)
    (items : list preparedAdminPlanGroupChange) (s : memoryStore) : memoryStore :=
  match items with
  | [] => s
  | item :: items => commitChanges uuids (S i) now batch items (commitChange (uuids i) now batch item s)
  end.

(** The entry of an earlier application under the same request identifier. *)
Definition appliedBefore (batch : AdminPlanGroupBatch) (existing : AuditLog) : bool :=
  (audit_Action existing == AuditActionPlanGroupUpdate) &&
  any_is_str (audit_Details existing !! "request_id") (apb_RequestID batch).

Definition sameBatch (batch : AdminPlanGroupBatch) (existing : AuditLog) : bool :=
  (audit_ActorUUID existing == apb_ActorUUID batch) &&
  any_is_str (audit_Details existing !! "reason") (apb_Reason batch) &&
  any_is_str (audit_Details existing !! "preview_token_hash") (apb_PreviewTokenHash batch).

Definition expectedUsers (batch : AdminPlanGroupBatch) (changes : list AdminPlanGroupChange) : bool :=
  if (length (apb_ExpectedUserIDs batch) =? 0)%nat then true else
  sort_strings (apb_ExpectedUserIDs batch) == sort_strings (apc_UserID <$> changes).

Definition validPreview (now : time) (s : memoryStore) (batch : AdminPlanGroupBatch)
    (preview : AdminPlanGroupPreview) : bool :=
  negb (Before (app_ExpiresAt preview) now || (app_ActorUUID preview != apb_ActorUUID batch) ||
        (app_RequestID preview != apb_RequestID batch) || (app_Reason preview != apb_Reason batch) ||
        (get_str (adminPlanGroupConsumed s) (apb_PreviewTokenHash batch) != "")).

(** Returns the reported changes and whether the request had been applied
    before.  [now] is the clock of the checks, [later] of the writes. *)
Definition ApplyAdminPlanGroupBatch (uuids : nat → string) (now later : time) (batch : AdminPlanGroupBatch)
    (s : memoryStore) : result error (list AdminPlanGroupChange * bool) * memoryStore :=
  match List.find (appliedBefore batch) (auditLogs s) with
  | Some existing =>
      if negb (sameBatch batch existing) then (Err ErrAdminPlanGroupReplay, s) else (Ok ([], true), s)
  | None =>
  match adminPlanGroupPreviews s !! apb_PreviewTokenHash batch with
  | None => (Err ErrAdminPlanGroupPreview, s)
  | Some preview =>
  if negb (validPreview now s batch preview) then (Err ErrAdminPlanGroupPreview, s) else
  if negb (expectedUsers batch (app_Changes preview)) then (Err ErrAdminPlanGroupPreview, s) else
  match prepareChanges now s [] (app_Changes preview) with
  | Err e => (Err e, s)
  | Ok items =>
      let s := commitChanges uuids 0 later batch items s in
      (Ok (reportChange <$> items, false),
       s <| adminPlanGroupConsumed := <[apb_PreviewTokenHash batch := apb_RequestID batch]>
              (adminPlanGroupConsumed s) |>
         <| auditLogs := auditLogs s ++ [mkAuditLog (uuids (length items)) AuditActionPlanGroupPreviewUsed
              (apb_ActorUUID batch)
              (<["request_id" := AStr (apb_RequestID batch)]>
               (<["preview_token_hash" := AStr (apb_PreviewTokenHash batch)]> ∅)) later] |>)
  end end end.
