(* ===== verification/QuotaProps.v ===== *)
(** * Properties of quotas and plan groups

    A quota change preserves what was used and is safe to repeat; each quota
    call of the store keeps the remaining quota within the allowance; an
    administrator's batch is applied completely or not at all, and at most
    once. *)

From S2P Require Import Prelude GoLib Calendar Json StoreData Users Lifecycle Quota PlanGroups.
Open Scope Z_scope.
Open Scope bool_scope.
Open Scope go_scope.

(** ** Changing the quota of a paid period *)

Lemma keptStart_inside q start end_ activation :
  start < end_ → start ≤ keptStart q start end_ activation < end_.
Proof.
  intros H. unfold keptStart. destruct (quota_PeriodStart q) as [a|]; [|lia].
  destruct (quota_PeriodEnd q) as [b|]; [|lia].
  destruct (_ && _ && _ && _) eqn:E; [|lia]. unfold_time. bools. lia.
Qed.

(** The row a change leaves behind. *)
Definition quota_changed (previous target : Z) (start end_ : time) (activation : bool)
    (q q' : AccountQuotaState) : Prop :=
  (if activation || rollover q start
   then quota_RemainingIncludedQuota q' = target ∧ quota_Arrears q' = false ∧
        quota_ThrottleState q' = "normal" ∧ quota_SuspendState q' = "active"
   else target - quota_RemainingIncludedQuota q' = previous - quota_RemainingIncludedQuota q ∧
        quota_Arrears q' = quota_Arrears q ∧ quota_ThrottleState q' = quota_ThrottleState q ∧
        quota_SuspendState q' = quota_SuspendState q) ∧
  quota_RemainingIncludedQuota q' ≤ target ∧
  quota_PeriodEnd q' = Some end_ ∧ (∃ a, quota_PeriodStart q' = Some a ∧ start ≤ a < end_) ∧
  quota_CurrentBalance q' = quota_CurrentBalance q.

Lemma changeSubscriptionQuota_cases now id previous target start end_ activation s r s' :
  in_int64 target →
  (∀ q, accountQuotaStates s !! id = Some q → in_int64 (quota_RemainingIncludedQuota q)) →
  changeSubscriptionQuota now id previous target start end_ activation s = (r, s') →
  r = Err ErrSubscriptionQuotaConflict ∧ s' = s ∨
  r = Ok tt ∧ s' = s ∧ (prof_IncludedQuotaBytes <$> accountBillingProfiles s !! id) = Some target ∨
  r = Ok tt ∧ previous < target ∧ start < end_ ∧
  ∃ p q p' q', accountBillingProfiles s !! id = Some p ∧ accountQuotaStates s !! id = Some q ∧
    prof_IncludedQuotaBytes p = previous ∧ prof_IncludedQuotaBytes p' = target ∧
    prof_PricingRuleVersion p' = prof_PricingRuleVersion p ∧
    quota_changed previous target start end_ activation q q' ∧
    s' = s <| accountQuotaStates := <[id := q']> (accountQuotaStates s) |>
           <| accountBillingProfiles := <[id := p']> (accountBillingProfiles s) |>.
Proof.
  intros Ht Hq0 Hr. unfold changeSubscriptionQuota in Hr. cbv zeta in Hr.
  destruct (accountBillingProfiles s !! id) as [p|] eqn:Ep; [|left; by injection Hr as <- <-].
  destruct (prof_IncludedQuotaBytes p =? target) eqn:Et.
  { right; left. injection Hr as <- <-. split_and!; [done..|]. simpl. f_equal. lia. }
  destruct (activation && _); [left; by injection Hr as <- <-|].
  destruct ((target <=? previous) || _ || _) eqn:Eg; [left; by injection Hr as <- <-|].
  destruct (accountQuotaStates s !! id) as [q|] eqn:Eq; [|left; by injection Hr as <- <-].
  destruct (previous <? _) eqn:El; [left; by injection Hr as <- <-|].
  destruct (negb activation && _ && _ && _); [left; by injection Hr as <- <-|].
  apply orb_false_iff in Eg as [[E1%Z.leb_gt E2%negb_false_iff]%orb_false_iff E3%negb_false_iff%Z.eqb_eq].
  apply Z.ltb_ge in El. unfold After in E2. apply Z.ltb_lt in E2.
  specialize (Hq0 q eq_refl). unfold in_int64 in Ht, Hq0.
  injection Hr as <- <-. right; right. split_and!; [done|lia|done|]. eexists p, q, _, _.
  refine (conj eq_refl (conj eq_refl (conj E3 (conj _ (conj _ (conj _ eq_refl)))))); [done..|].
  unfold quota_changed. rewrite int64_id by (unfold in_int64; lia).
  pose proof (keptStart_inside q start end_ activation E2).
  destruct (activation || rollover q start); getset; split_and!; try done; try lia; eauto.
Qed.

(** Changing the included quota preserves what was used and is safe to
    repeat.  A refused change leaves the store as it is.  An accepted one
    either finds the target in place and changes nothing, or raises the
    account's allowance from [previous] to [target]: at the first activation
    and after a completed period the whole allowance is granted afresh and
    throttling, suspension and arrears are lifted, otherwise exactly what was
    used before counts as used after; the balance is not touched and the new
    period lies within the paid one.  Either way, repeating the call succeeds
    and changes nothing. *)
Theorem quota_change_correct now now' id previous target start end_ activation s r s' :
  in_int64 target →
  (∀ q, accountQuotaStates s !! id = Some q → in_int64 (quota_RemainingIncludedQuota q)) →
  changeSubscriptionQuota now id previous target start end_ activation s = (r, s') →
  match r with
  | Err _ => s' = s
  | Ok _ =>
      (s' = s ∨ previous < target ∧ ∃ p q p' q',
         accountBillingProfiles s !! id = Some p ∧ accountQuotaStates s !! id = Some q ∧
         prof_IncludedQuotaBytes p = previous ∧ prof_IncludedQuotaBytes p' = target ∧
         quota_changed previous target start end_ activation q q' ∧
         s' = s <| accountQuotaStates := <[id := q']> (accountQuotaStates s) |>
                <| accountBillingProfiles := <[id := p']> (accountBillingProfiles s) |>) ∧
      changeSubscriptionQuota now' id previous target start end_ activation s' = (Ok tt, s')
  end.
Proof.
  intros Ht Hq Hr.
  apply changeSubscriptionQuota_cases in Hr as [[-> ->]|[(-> & -> & Hp)|(-> & Hlt & _ & p & q & p' & q' & Hp & Hqq & E1 & E2 & _ & Hc & ->)]];
    [done| | |done|done].
  - split; [by left|]. unfold changeSubscriptionQuota.
    destruct (accountBillingProfiles s !! id) as [p|]; [|done]. injection Hp as ->. by rewrite Z.eqb_refl.
  - split; [right; split; [done|]; by exists p, q, p', q'|].
    unfold changeSubscriptionQuota. getset. by rewrite lookup_insert_eq, E2, Z.eqb_refl.
Qed.

(** ** The remaining quota stays within the allowance *)

(** Traffic counts are not negative and their total is an int64. *)
Definition traffic_ok (s : memoryStore) : Prop :=
  (∀ k b, trafficMinuteBuckets s !! k = Some b → 0 ≤ bkt_TotalBytes b) ∧
  msum bkt_TotalBytes (trafficMinuteBuckets s) ≤ int64_max.

Definition allowance (z : Z) : Prop := 0 ≤ z ≤ int64_max.

Record quota_ok (s : memoryStore) : Prop := {
  qo_profile : ∀ id p, accountBillingProfiles s !! id = Some p → allowance (prof_IncludedQuotaBytes p);
  qo_range : ∀ id q, accountQuotaStates s !! id = Some q → in_int64 (quota_RemainingIncludedQuota q);
  qo_within : ∀ id p q, accountBillingProfiles s !! id = Some p → accountQuotaStates s !! id = Some q →
    quota_RemainingIncludedQuota q ≤ prof_IncludedQuotaBytes p;
  qo_preview : ∀ k v c, adminPlanGroupPreviews s !! k = Some v → c ∈ app_Changes v →
    allowance (apc_IncludedQuotaBytes c)
}.

Lemma quota_ok_new b : quota_ok (newMemoryStore b).
Proof. by constructor; simpl; intros *; rewrite lookup_empty. Qed.

Lemma quota_ok_ext s s' :
  accountBillingProfiles s' = accountBillingProfiles s → accountQuotaStates s' = accountQuotaStates s →
  adminPlanGroupPreviews s' = adminPlanGroupPreviews s → quota_ok s → quota_ok s'.
Proof. intros E1 E2 E3 []. by constructor; rewrite ?E1, ?E2, ?E3. Qed.

(** Replacing the rows of one account. *)
Lemma quota_ok_set s id p q :
  quota_ok s → allowance (prof_IncludedQuotaBytes p) → in_int64 (quota_RemainingIncludedQuota q) →
  quota_RemainingIncludedQuota q ≤ prof_IncludedQuotaBytes p →
  quota_ok (s <| accountQuotaStates := <[id := q]> (accountQuotaStates s) |>
              <| accountBillingProfiles := <[id := p]> (accountBillingProfiles s) |>).
Proof.
  intros [H1 H2 H3 H4] Hp Hq Hle. constructor; getset; try done.
  - intros id' p' [[_ <-]|[_ H]]%lookup_insert_Some; eauto.
  - intros id' q' [[_ <-]|[_ H]]%lookup_insert_Some; eauto.
  - intros id' p' q' Hp' Hq'. apply lookup_insert_Some in Hp', Hq'.
    destruct Hp' as [[<- <-]|[? Hp']], Hq' as [[? <-]|[? Hq']]; try done. by eapply H3.
Qed.

Lemma quota_ok_set_quota s id q :
  quota_ok s → in_int64 (quota_RemainingIncludedQuota q) →
  (∀ p, accountBillingProfiles s !! id = Some p → quota_RemainingIncludedQuota q ≤ prof_IncludedQuotaBytes p) →
  quota_ok (s <| accountQuotaStates := <[id := q]> (accountQuotaStates s) |>).
Proof.
  intros [H1 H2 H3 H4] Hq Hle. constructor; getset; try done.
  - intros id' q' [[_ <-]|[_ H]]%lookup_insert_Some; eauto.
  - intros id' p' q' Hp' [[<- <-]|[_ H]]%lookup_insert_Some; eauto.
Qed.

(** Usage counted from the buckets. *)
Lemma usage_bounds s (f : TrafficMinuteBucket → Z) :
  traffic_ok s → (∀ b, 0 ≤ bkt_TotalBytes b → 0 ≤ f b ≤ bkt_TotalBytes b) →
  allowance (sum64 f (values (trafficMinuteBuckets s))).
Proof.
  intros [H0 Hsum] Hf. rewrite sum64_sum.
  change (sum_list f (values (trafficMinuteBuckets s))) with (msum f (trafficMinuteBuckets s)).
  assert (Hlo : 0 ≤ msum f (trafficMinuteBuckets s)).
  { apply msum_nonneg. intros k b Hb. apply Hf. by eapply H0. }
  assert (Hhi : msum f (trafficMinuteBuckets s) ≤ msum bkt_TotalBytes (trafficMinuteBuckets s)).
  { apply msum_le. intros k b Hb. apply Hf. by eapply H0. }
  unfold allowance. rewrite int64_id; unfold in_int64, int64_min, int64_max in *; lia.
Qed.

Lemma bucket_usage_bounds now s id q :
  traffic_ok s → allowance (adminPlanGroupBucketUsage now (trafficMinuteBuckets s) id q).
Proof. intros H. apply usage_bounds; [done|]. intros b Hb. destruct (countedBucket _ _ _ b); lia. Qed.

(** An allowance less what was used, not below zero. *)
Lemma remaining_bounds included used :
  allowance included → allowance used →
  let r := int64 (included - used) in
  0 ≤ (if r <? 0 then 0 else r) ≤ included ∧ in_int64 (if r <? 0 then 0 else r).
Proof.
  unfold allowance, in_int64. intros Hi Hu. cbv zeta.
  rewrite int64_id by (unfold in_int64, int64_min, int64_max in *; lia).
  destruct (_ <? 0) eqn:E; unfold int64_min, int64_max in *; lia.
Qed.

Lemma clamp_bounds z b : allowance b → let u := if int64 z <? b then b else int64 z in
  allowance (if u <? 0 then 0 else u).
Proof.
  intros Hb. cbv zeta. pose proof (int64_range z) as Hz. unfold allowance, in_int64 in *.
  destruct (int64 z <? b); [destruct (b <? 0) eqn:?|destruct (int64 z <? 0) eqn:?];
    unfold int64_min, int64_max in *; lia.
Qed.

Lemma changeSubscriptionQuota_ok now id previous target start end_ activation s r s' :
  quota_ok s → in_int64 target →
  changeSubscriptionQuota now id previous target start end_ activation s = (r, s') → quota_ok s'.
Proof.
  intros Hs Ht Hr. apply changeSubscriptionQuota_cases in Hr as
    [[_ ->]|[(_ & -> & _)|(_ & Hlt & _ & p & q & p' & q' & Hp & Hq & E1 & E2 & _ & Hc & ->)]];
    [done|done| |done|by apply (qo_range s Hs)].
  pose proof (qo_profile s Hs _ _ Hp) as Hi. pose proof (qo_range s Hs _ _ Hq) as Hrem.
  pose proof (qo_within s Hs _ _ _ Hp Hq) as Hle. destruct Hc as (Hrow & Hmax & _).
  unfold allowance, in_int64 in *. rewrite E1 in *.
  apply quota_ok_set; [done| | |by rewrite E2]; unfold allowance, in_int64; [rewrite E2; lia|].
  destruct (activation || rollover q start); destruct Hrow as [Hrow _]; unfold int64_min in *; lia.
Qed.

Lemma ResetFreeQuotaPeriod_ok id start end_ now s :
  quota_ok s → traffic_ok s → quota_ok (ResetFreeQuotaPeriod id start end_ now s).
Proof.
  intros Hs Ht. unfold ResetFreeQuotaPeriod. destruct (user_by_id s id); [|done].
  destruct (accountBillingProfiles s !! id) as [p|] eqn:Ep; [|done].
  destruct (accountQuotaStates s !! id) as [q|] eqn:Eq; [|done]. destruct (_ || _ || _); [done|].
  cbv zeta. set (used := sum64 _ _).
  assert (Hu : allowance used).
  { apply usage_bounds; [done|]. intros x Hx. destruct (inPeriod _ _ _ x); lia. }
  destruct (remaining_bounds _ used (qo_profile s Hs _ _ Ep) Hu) as [H1 H2]. cbv zeta in H1, H2.
  apply quota_ok_set_quota; [done|exact H2|]. intros p' Hp'. rewrite Ep in Hp'. injection Hp' as <-.
  getset. lia.
Qed.

Lemma ResetMonthlyUsage_ok newUUID id actor email reason now s r s' :
  quota_ok s → ResetMonthlyUsage newUUID id actor email reason now s = (r, s') → quota_ok s'.
Proof.
  intros Hs Hr. unfold ResetMonthlyUsage in Hr. cbn [resetUsagePeriod] in Hr.
  destruct (user_by_id s id); [|by injection Hr as <- <-].
  destruct (accountBillingProfiles s !! id) as [p|] eqn:Ep; [|by injection Hr as <- <-].
  destruct (accountQuotaStates s !! id) as [q|] eqn:Eq; [|by injection Hr as <- <-].
  destruct (_ || _ || _); injection Hr as <- <-; [done|].
  pose proof (qo_profile s Hs _ _ Ep) as Hi.
  eapply quota_ok_ext; [..|apply (quota_ok_set_quota s id); [done| |]]; try reflexivity.
  - getset. unfold allowance, in_int64, int64_min in *. lia.
  - intros p' Hp'. rewrite Ep in Hp'. injection Hp' as <-. getset. lia.
Qed.

Lemma expireMonthlyUsageResetLocked_ok id now s :
  quota_ok s → traffic_ok s → quota_ok (expireMonthlyUsageResetLocked id now s).
Proof.
  intros Hs Ht. unfold expireMonthlyUsageResetLocked.
  destruct (accountQuotaStates s !! id) as [q|] eqn:Eq; [|done].
  destruct (accountBillingProfiles s !! id) as [p|] eqn:Ep; [|done].
  destruct (quota_PeriodStart q) as [a|]; [|done]. destruct (quota_PeriodEnd q) as [b|]; [|done].
  destruct (After b now); [done|]. destruct (negb (existsb _ _)); [done|]. cbv zeta.
  set (used := sum64 _ _).
  assert (Hu : allowance used).
  { apply usage_bounds; [done|]. intros x Hx. destruct (inPeriod _ _ _ x); lia. }
  pose proof (qo_profile s Hs _ _ Ep) as Hi. clearbody used.
  assert (E : int64 (prof_IncludedQuotaBytes p - used) = prof_IncludedQuotaBytes p - used).
  { apply int64_id. unfold allowance, in_int64, int64_min, int64_max in *. lia. }
  apply quota_ok_set_quota; [done| |]; getset; rewrite E; unfold allowance in *.
  - unfold in_int64, int64_min in *. lia.
  - intros p' Hp'. rewrite Ep in Hp'. injection Hp' as <-. lia.
Qed.

Lemma CreditTopUp_ok `{MapOrder} now later entry s r out s' :
  quota_ok s → CreditTopUp now later entry s = (r, out, s') → quota_ok s'.
Proof.
  intros Hs Hr. unfold CreditTopUp in Hr. cbv zeta in Hr.
  destruct entry as [e|]; [|by injection Hr as <- <- <-].
  destruct (_ || float_le _ _); [by injection Hr as <- <- <-|].
  destruct ((_ != "CNY") && _); [by injection Hr as <- <- <-|].
  destruct (bool_decide (is_Some _)); [by injection Hr as <- <- <-|].
  set (id := TrimSpace (led_AccountUUID e)) in *. set (st := default _ _) in *.
  assert (Hst : in_int64 (quota_RemainingIncludedQuota st) ∧
    ∀ p, accountBillingProfiles s !! id = Some p → quota_RemainingIncludedQuota st ≤ prof_IncludedQuotaBytes p).
  { unfold st. destruct (accountQuotaStates s !! id) as [q|] eqn:Eq; simpl.
    - split; [exact (qo_range s Hs id q Eq)|]. intros p Hp. exact (qo_within s Hs id p q Hp Eq).
    - split; [done|]. intros p Hp. apply (qo_profile s Hs id p Hp). }
  assert (Hw : ∀ m st', quota_RemainingIncludedQuota st' = quota_RemainingIncludedQuota st →
    quota_ok (s <| billingLedgerEntries := m |> <| accountQuotaStates := <[id := st']> (accountQuotaStates s) |>)).
  { intros m st' E. eapply quota_ok_ext; [..|apply (quota_ok_set_quota s id st'); [done|..]]; try reflexivity;
      rewrite E; apply Hst. }
  destruct (_ == "CNY"); injection Hr as <- <- <-; apply Hw; [|done].
  unfold creditBalance. by destruct (float_le _ _).
Qed.

(** *** Plans *)

Lemma keptUsage_bounds now s id p q : traffic_ok s → allowance (keptUsage now s id p q).
Proof. intros Ht. apply clamp_bounds. by apply bucket_usage_bounds. Qed.

Lemma followPlan_ok now s stored id p p' q' :
  traffic_ok s → allowance (plan_IncludedQuotaBytes stored) → followPlan now s stored id p = Some (p', q') →
  prof_IncludedQuotaBytes p' = plan_IncludedQuotaBytes stored ∧
  in_int64 (quota_RemainingIncludedQuota q') ∧
  quota_RemainingIncludedQuota q' ≤ plan_IncludedQuotaBytes stored ∧ is_Some (accountQuotaStates s !! id).
Proof.
  intros Ht Hi H. unfold followPlan in H. destruct (customPlan s id); [done|].
  destruct (_ != (_ +:+ _)%string); [done|]. destruct (_ && _); [done|].
  destruct (accountQuotaStates s !! id) as [q|]; [|done]. cbv zeta in H.
  destruct (remaining_bounds _ _ Hi (keptUsage_bounds now s id p q Ht)) as [H1 H2]. cbv zeta in H1, H2.
  destruct (_ || _); [|done]. injection H as <- <-. getset. split_and!; [done|exact H2|lia|done].
Qed.

Lemma UpsertBillingPlan_ok now plan s r s' :
  quota_ok s → traffic_ok s → (∀ pl, plan = Some pl → allowance (plan_IncludedQuotaBytes pl)) →
  UpsertBillingPlan now plan s = (r, s') → quota_ok s'.
Proof.
  intros Hs Ht Hpl Hr. unfold UpsertBillingPlan in Hr. destruct plan as [pl|]; [|by injection Hr as <- <-].
  destruct (_ == ""); [by injection Hr as <- <-|]. cbv zeta in Hr. specialize (Hpl pl eq_refl).
  set (stored := pl <| plan_PlanID := _ |> <| plan_UpdatedAt := _ |> <| plan_CreatedAt := _ |>) in *.
  assert (Hi : allowance (plan_IncludedQuotaBytes stored)) by exact Hpl. clearbody stored.
  set (s1 := s <| billingPlans := _ |>) in *.
  assert (H1 : quota_ok s1) by (eapply quota_ok_ext; [..|exact Hs]; reflexivity).
  assert (Ht1 : traffic_ok s1) by exact Ht. clearbody s1.
  destruct (negb _); injection Hr as <- <-; [done|].
  set (f := map_imap _ _).
  assert (Hf : ∀ id p q, f !! id = Some (p, q) → prof_IncludedQuotaBytes p = plan_IncludedQuotaBytes stored ∧
    in_int64 (quota_RemainingIncludedQuota q) ∧ quota_RemainingIncludedQuota q ≤ plan_IncludedQuotaBytes stored).
  { intros id p q. unfold f. rewrite map_lookup_imap. destruct (accountBillingProfiles s1 !! id) as [p0|]; [|done].
    simpl. intros H. by apply followPlan_ok in H as (? & ? & ? & _). }
  assert (Hp : ∀ id, (fst <$> f) !! id = fst <$> f !! id) by (intros; apply lookup_fmap).
  assert (Hq : ∀ id, (snd <$> f) !! id = snd <$> f !! id) by (intros; apply lookup_fmap).
  clearbody f. destruct H1 as [H1 H2 H3 H4].
  constructor; getset; [| | |done]; intros id; rewrite ?lookup_union, ?Hp, ?Hq; destruct (f !! id) as [[p0 q0]|] eqn:Ef; simpl.
  - rewrite union_Some_l. intros p [= <-]. destruct (Hf _ _ _ Ef) as (-> & _). done.
  - rewrite (left_id_L None (∪)). apply H1.
  - rewrite union_Some_l. intros q [= <-]. by destruct (Hf _ _ _ Ef) as (_ & ? & _).
  - rewrite (left_id_L None (∪)). apply H2.
  - rewrite !union_Some_l. intros p q [= <-] [= <-]. destruct (Hf _ _ _ Ef) as (-> & _ & ?). done.
  - rewrite !(left_id_L None (∪)). apply H3.
Qed.

(** *** Batches *)

Lemma expectRows_included now s u c :
  apc_IncludedQuotaBytes (expectRows now s u c) = apc_IncludedQuotaBytes c.
Proof.
  unfold expectRows. cbv zeta. set (q := accountQuotaStates s !! _). clearbody q.
  assert (E1 : ∀ c, apc_IncludedQuotaBytes (expectRecord s (user_ID u) c) = apc_IncludedQuotaBytes c).
  { intros x. unfold expectRecord. by destruct (apc_SubscriptionRecord x), (subscriptionRecords s !! user_ID u). }
  assert (E2 : ∀ p c, apc_IncludedQuotaBytes (expectProfile p c) = apc_IncludedQuotaBytes c) by (by intros []).
  assert (E3 : ∀ c, apc_IncludedQuotaBytes (expectQuota q c) = apc_IncludedQuotaBytes c) by (by destruct q).
  assert (E4 : ∀ z c, apc_IncludedQuotaBytes (expectUsage z c) = apc_IncludedQuotaBytes c).
  { intros z x. unfold expectUsage. by destruct (negb _). }
  by rewrite E4, E3, E2, E1.
Qed.

Lemma previewChanges_included now s cs seen cs' c' :
  previewChanges now s seen cs = Ok cs' → c' ∈ cs' →
  ∃ c, c ∈ cs ∧ apc_IncludedQuotaBytes c' = apc_IncludedQuotaBytes c.
Proof.
  revert seen cs'. induction cs as [|c cs IH]; intros seen cs' H Hin; simpl in H.
  { injection H as <-. by apply not_elem_of_nil in Hin. }
  destruct (changeTarget _ _ _ _) as [u|]; [|done]. simpl in H.
  destruct (previewChanges _ _ _ cs) as [rest|] eqn:E; [|done]. simpl in H. injection H as <-.
  apply elem_of_cons in Hin as [->|Hin].
  - exists c. split; [left|apply expectRows_included].
  - destruct (IH _ _ E Hin) as (x & Hx & Ex). exists x. split; [by right|done].
Qed.

Lemma CreateAdminPlanGroupPreview_ok newUUID now preview s r s' :
  quota_ok s → (∀ c, c ∈ app_Changes preview → allowance (apc_IncludedQuotaBytes c)) →
  CreateAdminPlanGroupPreview newUUID now preview s = (r, s') → quota_ok s'.
Proof.
  intros [H1 H2 H3 H4] Hc Hr. unfold CreateAdminPlanGroupPreview in Hr.
  destruct (_ || _ || _ || _); [by injection Hr as <- <-|].
  destruct (bool_decide _); [by injection Hr as <- <-|].
  destruct (previewChanges _ _ _ _) as [cs|] eqn:Ep; injection Hr as <- <-; [|done].
  constructor; getset; try done.
  intros k v c [[_ <-]|[_ Hv]]%lookup_insert_Some Hin; [|by eapply H4]. getset.
  destruct (previewChanges_included _ _ _ _ _ _ Ep Hin) as (c0 & Hc0 & ->). by apply Hc.
Qed.

(** The usage that counts against a new entitlement: what the old allowance
    has lost, or what the traffic counts say when that is more. *)
Definition usage_kept (now : time) (s : memoryStore) (id : string) : Z :=
  let p := default (newProfile id) (accountBillingProfiles s !! id) in
  let q := default (newQuota id) (accountQuotaStates s !! id) in
  Z.max (Z.max 0 (int64 (prof_IncludedQuotaBytes p - quota_RemainingIncludedQuota q)))
    (adminPlanGroupBucketUsage now (trafficMinuteBuckets s) id (Some q)).

(** The billing profile and the quota row of an account whose reviewed change
    sets an entitlement: the plan of the change replaces the old one, the base
    price and the creation time stay, and of the new allowance the usage is
    taken off. *)
Definition reviewed_profile (later : time) (s : memoryStore) (c : AdminPlanGroupChange)
    : AccountBillingProfile :=
  let p := default (newProfile (apc_UserID c)) (accountBillingProfiles s !! apc_UserID c) in
  mkAccountBillingProfile (apc_UserID c) (apc_PackageName c) (apc_IncludedQuotaBytes c)
    (prof_BasePricePerByte p) (apc_RegionMultiplier c) (apc_LineMultiplier c)
    (apc_PeakMultiplier c) (apc_OffPeakMultiplier c) (apc_PricingRuleVersion c) (prof_CreatedAt p) later.

Definition reviewed_quota (now later : time) (s : memoryStore) (c : AdminPlanGroupChange)
    : AccountQuotaState :=
  let q := default (newQuota (apc_UserID c)) (accountQuotaStates s !! apc_UserID c) in
  q <| quota_RemainingIncludedQuota :=
         Z.max 0 (int64 (apc_IncludedQuotaBytes c - usage_kept now s (apc_UserID c))) |>
    <| quota_EffectiveAt := now |> <| quota_UpdatedAt := later |>.

(** The rows a prepared change carries, when it sets an entitlement. *)
Definition prepared_rows (now : time) (s : memoryStore) (c : AdminPlanGroupChange)
    (item : preparedAdminPlanGroupChange) : Prop :=
  apc_SetEntitlement c = true → user_ID (prep_user item) = apc_UserID c →
  ∀ later, (prep_profile item) <| prof_UpdatedAt := later |> = reviewed_profile later s c ∧
    (prep_quota item) <| quota_UpdatedAt := later |> = reviewed_quota now later s c.

(** What a prepared change carries. *)
Definition prepared_ok (now : time) (s : memoryStore) (seen : list string) (c : AdminPlanGroupChange)
    (item : preparedAdminPlanGroupChange) : Prop :=
  prep_change item = c ∧ user_by_id s (apc_UserID c) = Some (prep_user item) ∧ (apc_UserID c ∉ seen) ∧
  IsRootRole (user_Role (prep_user item)) = false ∧ prepared_rows now s c item ∧
  (apc_SetEntitlement c = true → allowance (apc_IncludedQuotaBytes c) → traffic_ok s →
   prof_IncludedQuotaBytes (prep_profile item) = apc_IncludedQuotaBytes c ∧
   in_int64 (quota_RemainingIncludedQuota (prep_quota item)) ∧
   quota_RemainingIncludedQuota (prep_quota item) ≤ apc_IncludedQuotaBytes c).

Lemma changeTarget_ok s seen e c u :
  changeTarget s seen e c = Ok u →
  user_by_id s (apc_UserID c) = Some u ∧ (apc_UserID c ∉ seen) ∧ IsRootRole (user_Role u) = false.
Proof.
  unfold changeTarget. intros H. destruct (contains seen _) eqn:Es; [done|].
  destruct (user_by_id s _) as [v|]; [|done]. destruct (IsRootRole _) eqn:Er; [done|].
  destruct (_ || _ || _); [done|]. injection H as <-. split_and!; try done.
  intros Hin. apply contains_spec in Hin. congruence.
Qed.

Lemma clamp_max x y : (if x <? y then y else x) = Z.max x y.
Proof. destruct (Z.ltb_spec x y); lia. Qed.

Lemma prepareChange_rows now s seen c item :
  prepareChange now s seen c = Ok item → prepared_rows now s c item.
Proof.
  unfold prepareChange, prepared_rows. intros H Hset. rewrite Hset in H.
  destruct (changeTarget _ _ _ _) as [u|]; [|done]. cbv beta iota zeta in H.
  repeat match type of H with (if ?b then _ else _) = _ => destruct b; [done|] end.
  injection H as <-. cbn [prep_user prep_profile prep_quota]. intros -> later.
  unfold entitledProfile, entitledQuota, reviewed_profile, reviewed_quota, usage_kept. cbv zeta.
  rewrite !clamp_max, !(Z.max_comm _ 0). done.
Qed.

Lemma prepareChange_ok now s seen c item :
  prepareChange now s seen c = Ok item → prepared_ok now s seen c item.
Proof.
  intros H. pose proof (prepareChange_rows _ _ _ _ _ H) as Hrows. revert H.
  unfold prepareChange. intros H. destruct (changeTarget _ _ _ _) as [u|] eqn:Et; [|done]. simpl in H.
  apply changeTarget_ok in Et as (Hu & Hseen & Hroot).
  destruct (apc_SetEntitlement c && _); [done|]. destruct (apc_SetEntitlement c && _); [done|].
  destruct (apc_SetEntitlement c && _); [done|].
  set (id := user_ID u) in *. set (q0 := default (newQuota id) _) in *. set (p0 := default (newProfile id) _) in *.
  set (u0 := int64 _) in H. assert (Hu0 : in_int64 u0) by apply int64_range. clearbody u0.
  remember (adminPlanGroupBucketUsage now (trafficMinuteBuckets s) id (Some q0)) as bu eqn:Ebu in H.
  set (used := if (if u0 <? 0 then 0 else u0) <? bu then bu else if u0 <? 0 then 0 else u0) in H.
  assert (Hused : traffic_ok s → allowance used).
  { intros Ht. pose proof (bucket_usage_bounds now s id (Some q0) Ht) as Hb. rewrite <-Ebu in Hb.
    unfold used, allowance, in_int64, int64_min, int64_max in *.
    destruct (u0 <? 0) eqn:?; destruct (_ <? bu) eqn:?; lia. }
  clearbody used. clear Ebu.
  destruct (apc_SetEntitlement c) eqn:Es.
  - destruct (match apc_SubscriptionRecord c with Some _ => _ | None => _ end); [done|].
    injection H as <-. split_and!; try done. intros _ Hi Ht.
    destruct (remaining_bounds _ _ Hi (Hused Ht)) as [H1 H2]. cbv zeta in H1, H2.
    cbn [prep_profile prep_quota]. unfold entitledProfile, entitledQuota. cbv zeta. getset.
    split_and!; [done|exact H2|lia].
  - destruct (match apc_SubscriptionRecord c with Some _ => _ | None => _ end); [done|].
    injection H as <-. split_and!; try done. congruence.
Qed.

(** The prepared items of a list of changes, in order, each for an account
    not named before. *)
Lemma prepareChanges_ok now s cs seen items :
  prepareChanges now s seen cs = Ok items →
  (prep_change <$> items) = cs ∧ NoDup (apc_UserID <$> cs) ∧ (∀ x, x ∈ seen → x ∉ (apc_UserID <$> cs)) ∧
  ∀ item, item ∈ items → ∃ seen', prepared_ok now s seen' (prep_change item) item.
Proof.
  revert seen items. induction cs as [|c cs IH]; intros seen items H; simpl in H.
  { injection H as <-. split_and!; [done|constructor| |by intros ? ?%not_elem_of_nil].
    intros x _. apply not_elem_of_nil. }
  destruct (prepareChange _ _ _ _) as [item|] eqn:Ei; [|done]. simpl in H.
  destruct (prepareChanges _ _ _ cs) as [rest|] eqn:Er; [|done]. simpl in H. injection H as <-.
  destruct (IH _ _ Er) as (E & Hnd & Hseen & Hall). apply prepareChange_ok in Ei.
  destruct Ei as (Ec & Hrest). split_and!.
  - rewrite fmap_cons. by f_equal.
  - simpl. constructor; [|done]. apply Hseen. left.
  - intros x Hx. simpl. apply not_elem_of_cons. split; [|apply Hseen; by right].
    intros ->. destruct Hrest as (_ & Hn & _). by apply Hn.
  - intros i [->|Hi]%elem_of_cons; [|by apply Hall]. exists seen. rewrite Ec. by split.
Qed.

Lemma update_user_rows s id f :
  accountBillingProfiles (update_user s id f) = accountBillingProfiles s ∧
  accountQuotaStates (update_user s id f) = accountQuotaStates s ∧
  adminPlanGroupPreviews (update_user s id f) = adminPlanGroupPreviews s ∧
  adminPlanGroupConsumed (update_user s id f) = adminPlanGroupConsumed s ∧
  auditLogs (update_user s id f) = auditLogs s.
Proof. unfold update_user. by destruct (byID s !! id). Qed.

Lemma commitChange_quota newUUID now batch item s :
  quota_ok s →
  (apc_SetEntitlement (prep_change item) = true →
     allowance (prof_IncludedQuotaBytes (prep_profile item)) ∧
     in_int64 (quota_RemainingIncludedQuota (prep_quota item)) ∧
     quota_RemainingIncludedQuota (prep_quota item) ≤ prof_IncludedQuotaBytes (prep_profile item)) →
  quota_ok (commitChange newUUID now batch item s).
Proof.
  intros Hs Hrows. unfold commitChange. cbv zeta.
  destruct (update_user_rows s (apc_UserID (prep_change item)) (changedUser now (prep_change item)))
    as (E1 & E2 & E3 & _ & _).
  set (s1 := update_user _ _ _) in *. clearbody s1.
  assert (H1 : quota_ok s1) by (eapply quota_ok_ext; [exact E1|exact E2|exact E3|done]).
  set (s2 := match apc_SubscriptionRecord (prep_change item) with Some _ => _ | None => _ end).
  assert (H2 : quota_ok s2).
  { unfold s2. destruct (apc_SubscriptionRecord _); [|done]. eapply quota_ok_ext; [..|exact H1]; reflexivity. }
  clearbody s2. destruct (apc_SetEntitlement _).
  - destruct (Hrows eq_refl) as (Ha & Hb & Hc).
    eapply quota_ok_ext; [..|apply (quota_ok_set s2 (user_ID (prep_user item))
      ((prep_profile item) <| prof_UpdatedAt := now |>) ((prep_quota item) <| quota_UpdatedAt := now |>))];
      try reflexivity; done.
  - eapply quota_ok_ext; [..|exact H2]; reflexivity.
Qed.

Lemma commitChanges_quota uuids now batch items i s :
  quota_ok s →
  (∀ item, item ∈ items → apc_SetEntitlement (prep_change item) = true →
     allowance (prof_IncludedQuotaBytes (prep_profile item)) ∧
     in_int64 (quota_RemainingIncludedQuota (prep_quota item)) ∧
     quota_RemainingIncludedQuota (prep_quota item) ≤ prof_IncludedQuotaBytes (prep_profile item)) →
  quota_ok (commitChanges uuids i now batch items s).
Proof.
  revert i s. induction items as [|item items IH]; intros i s Hs Hall; [done|]. simpl.
  apply IH; [|intros; apply Hall; [by right|done]].
  apply commitChange_quota; [done|]. apply Hall. left.
Qed.

(** The outcomes of applying a batch. *)
Lemma ApplyAdminPlanGroupBatch_cases uuids now later batch s r s' :
  ApplyAdminPlanGroupBatch uuids now later batch s = (r, s') →
  s' = s ∧ (∀ cs, r ≠ Ok (cs, false)) ∨
  List.find (appliedBefore batch) (auditLogs s) = None ∧
  ∃ preview items, adminPlanGroupPreviews s !! apb_PreviewTokenHash batch = Some preview ∧
    validPreview now s batch preview = true ∧
    prepareChanges now s [] (app_Changes preview) = Ok items ∧ r = Ok (reportChange <$> items, false) ∧
    let s1 := commitChanges uuids 0 later batch items s in
    ∃ entry, s' = s1 <| adminPlanGroupConsumed := <[apb_PreviewTokenHash batch := apb_RequestID batch]>
           (adminPlanGroupConsumed s1) |> <| auditLogs := auditLogs s1 ++ [entry] |>.
Proof.
  intros Hr. unfold ApplyAdminPlanGroupBatch in Hr.
  destruct (List.find _ _) as [x|] eqn:Ef.
  { left. destruct (negb (sameBatch _ _)); by injection Hr as <- <-. }
  destruct (adminPlanGroupPreviews s !! _) as [pv|] eqn:Ep; [|left; by injection Hr as <- <-].
  destruct (validPreview _ _ _ _) eqn:Ev; cbn [negb] in Hr; [|left; by injection Hr as <- <-].
  destruct (negb (expectedUsers _ _)); [left; by injection Hr as <- <-|].
  destruct (prepareChanges _ _ _ _) as [items|] eqn:Ei; injection Hr as <- <-; [|by left].
  right. split; [done|]. exists pv, items. split_and!; try done. by eexists.
Qed.

Lemma ApplyAdminPlanGroupBatch_ok uuids now later batch s r s' :
  quota_ok s → traffic_ok s → ApplyAdminPlanGroupBatch uuids now later batch s = (r, s') → quota_ok s'.
Proof.
  intros Hs Ht Hr. apply ApplyAdminPlanGroupBatch_cases in Hr
    as [[-> _]|(_ & pv & items & Hp & _ & Hi & _ & entry & ->)]; [done|].
  eapply quota_ok_ext; [..|apply (commitChanges_quota uuids later batch items 0 s Hs)]; try reflexivity.
  destruct (prepareChanges_ok _ _ _ _ _ Hi) as (E & _ & _ & Hall).
  intros item Hin Hset. destruct (Hall item Hin) as (seen & _ & _ & _ & _ & _ & Hrows).
  assert (Ha : allowance (apc_IncludedQuotaBytes (prep_change item))).
  { eapply (qo_preview s Hs); [exact Hp|]. rewrite <-E. by apply list_elem_of_fmap_2. }
  destruct (Hrows Hset Ha Ht) as (E1 & E2 & E3). by rewrite E1.
Qed.

(** *** The quota calls of the store *)

(** One quota call of the store, whatever it answers.  Allowances of plans and
    changes are not negative; they and the targets are int64 values.  The
    application of a plan ([Entitlements]) is not among them: it writes the
    profile and leaves the remaining quota to the call that follows. *)
Inductive quota_call (s : memoryStore) : memoryStore → Prop :=
| QuotaChange now id previous target start end_ activation r s' :
    in_int64 target →
    changeSubscriptionQuota now id previous target start end_ activation s = (r, s') → quota_call s s'
| QuotaFree id start end_ now : quota_call s (ResetFreeQuotaPeriod id start end_ now s)
| QuotaMonthly newUUID id actor email reason now r s' :
    ResetMonthlyUsage newUUID id actor email reason now s = (r, s') → quota_call s s'
| QuotaRead now id r s' : GetAccountQuotaState now id s = (r, s') → quota_call s s'
| QuotaTopUp (MO : MapOrder) now later entry r out s' :
    CreditTopUp now later entry s = (r, out, s') → quota_call s s'
| QuotaPlan now plan r s' :
    (∀ pl, plan = Some pl → allowance (plan_IncludedQuotaBytes pl)) →
    UpsertBillingPlan now plan s = (r, s') → quota_call s s'
| QuotaPreview newUUID now preview r s' :
    (∀ c, c ∈ app_Changes preview → allowance (apc_IncludedQuotaBytes c)) →
    CreateAdminPlanGroupPreview newUUID now preview s = (r, s') → quota_call s s'
| QuotaApply uuids now later batch r s' :
    ApplyAdminPlanGroupBatch uuids now later batch s = (r, s') → quota_call s s'.

(** Each of them keeps the remaining quota within the allowance, on a state
    whose traffic counts are sound. *)
Lemma quota_call_ok s s' : quota_ok s → traffic_ok s → quota_call s s' → quota_ok s'.
Proof.
  intros Hs Ht H. destruct H as [| | |now id r s' Hr| | | |].
  - by eapply changeSubscriptionQuota_ok.
  - by apply ResetFreeQuotaPeriod_ok.
  - by eapply ResetMonthlyUsage_ok.
  - unfold GetAccountQuotaState in Hr. destruct (accountQuotaStates s !! _); injection Hr as <- <-; [|done].
    by apply expireMonthlyUsageResetLocked_ok.
  - by eapply CreditTopUp_ok.
  - by eapply UpsertBillingPlan_ok.
  - by eapply CreateAdminPlanGroupPreview_ok.
  - by eapply ApplyAdminPlanGroupBatch_ok.
Qed.

(** ** Batches are applied completely or not at all, and once *)












