(* ===== verification/TaskStore.v ===== *)
(** * Task sessions: data and operations

    [internal/tasksession]: [types.go], the in-memory [MemoryStore] of
    [store.go], the scheduler half of [scheduler.go], and the payload helpers
    of [postgres_store.go] both stores share.

    A payload is a map of dynamic values.  A finite [float64] is carried as
    its value [m * 2^e] and the text [json.Marshal] prints for it, so that the
    size of an encoded payload is a function of the value. *)

From S2P Require Import Prelude GoLib.
From Stdlib Require Import Ascii.
Open Scope Z_scope.
Open Scope bool_scope.
Open Scope go_scope.

(** ** Dynamic values *)

Unset Elimination Schemes.
Inductive value :=
| VNil
| VBool (b : bool)
| VInt (z : Z)
| VFloat (m e : Z) (text : string)
| VNaN
| VStr (s : string)
| VList (l : list value)
| VMap (m : list (string * value)).
Set Elimination Schemes.

Abbreviation vmap := (gmap string value) (only parsing).

(** [payload[key] == s] and [s, _ := payload[key].(string)] *)
Definition val_is_str (v : option value) (s : string) : bool :=
  match v with Some (VStr t) => t == s | _ => false end.
Definition val_str (v : option value) : option string :=
  match v with Some (VStr t) => Some t | _ => None end.

(** ** Sizes of encoded values

    [json.Marshal] with HTML escaping; bytes outside ASCII are copied. *)

Definition json_char_len (c : ascii) : Z :=
  let n := Z.of_N (N_of_ascii c) in
  if (n =? 34) || (n =? 92) then 2
  else if (n =? 8) || (n =? 9) || (n =? 10) || (n =? 12) || (n =? 13) then 2
  else if n <? 32 then 6
  else if (n =? 60) || (n =? 62) || (n =? 38) then 6
  else 1.

Fixpoint json_chars_len (s : string) : Z :=
  match s with
  | EmptyString => 0
  | String c s' => json_char_len c + json_chars_len s'
  end.

Definition json_string_len (s : string) : Z := 2 + json_chars_len s.

Fixpoint digits_len (fuel : nat) (z : Z) : Z :=
  match fuel with
  | O => 1
  | S fuel => if z <? 10 then 1 else 1 + digits_len fuel (z / 10)
  end.

(** Decimal length; twenty digits cover every int64. *)
Definition json_int_len (z : Z) : Z :=
  if z <? 0 then 1 + digits_len 20 (- z) else digits_len 20 z.

(** Separators between [n] items. *)
Definition commas (n : nat) : Z := Z.max 0 (Z.of_nat n - 1).

Fixpoint json_len (v : value) : Z :=
  match v with
  | VNil => 4
  | VBool b => if b then 4 else 5
  | VInt z => json_int_len z
  | VFloat _ _ text => len text
  | VNaN => 0
  | VStr s => json_string_len s
  | VList l => 2 + commas (length l) + foldr (λ x acc, json_len x + acc) 0 l
  | VMap l =>
      2 + commas (length l) +
      foldr (λ '(k, x) acc, json_string_len k + 1 + json_len x + acc) 0 l
  end.

Fixpoint marshals (v : value) : bool :=
  match v with
  | VNaN => false
  | VList l => forallb marshals l
  | VMap l => forallb (λ '(_, x), marshals x) l
  | _ => true
  end.

(** The errors of the package. *)
Inductive terror :=
| ErrAlreadyExists | ErrNotFound | ErrAccountMismatch | ErrPayloadTooLarge
| ErrNoEligibleTask | ErrInvalidInput | ErrLeaseConflict | ErrArtifactPayload
| ErrRunFinished | ErrMarshal.

(** ** Artifact content *)

(** [strings.NewReplacer("_", "", "-", "", ".", "").Replace] *)
Fixpoint strip_separators (s : string) : string :=
  match s with
  | EmptyString => EmptyString
  | String c s' =>
      let n := N_of_ascii c in
      if ((n =? 95) || (n =? 45) || (n =? 46))%N then strip_separators s'
      else String c (strip_separators s')
  end.

Definition artifactKeys : list string :=
  ["artifactbytes"; "filebytes"; "filecontent"; "attachmentcontent"; "base64"; "blob";
   "toollog"; "toollogs"].

Definition artifact_key (key : string) : bool :=
  contains artifactKeys (strip_separators (ToLower (TrimSpace key))).

Fixpoint containsArtifactContent (v : value) : bool :=
  match v with
  | VMap l => existsb (λ '(k, child), artifact_key k || containsArtifactContent child) l
  | VList l => existsb containsArtifactContent l
  | _ => false
  end.

Definition as_value (m : vmap) : value := VMap (map_to_list m).

Definition maxEventPayloadBytes : Z := 16 * 1024.
Definition maxSnapshotBytes : Z := 128 * 1024.
Definition maxSnapshotMessages : Z := 100.

(** [marshalEventPayload] and [marshalContextSummary]; the encoded bytes are
    only stored by the Postgres implementation. *)
Definition marshal_bounded (bound : Z) (m : vmap) : result terror unit :=
  if containsArtifactContent (as_value m) then Err ErrArtifactPayload else
  if negb (marshals (as_value m)) then Err ErrMarshal else
  if bound <? json_len (as_value m) then Err ErrPayloadTooLarge else Ok tt.
Definition marshalEventPayload (m : vmap) : result terror unit :=
  marshal_bounded maxEventPayloadBytes m.
Definition marshalContextSummary (m : vmap) : result terror unit :=
  marshal_bounded maxSnapshotBytes m.

(** ** Records *)

Record Namespace := mkNamespace {
  ns_ID : string; ns_AccountID : string; ns_Slug : string; ns_DisplayName : string;
  ns_MaxActiveRuns : Z; ns_CreatedAt : time }.
#[export] Instance eta_Namespace : Eta Namespace := λ x, mkNamespace (ns_ID x) (ns_AccountID x)
  (ns_Slug x) (ns_DisplayName x) (ns_MaxActiveRuns x) (ns_CreatedAt x).

Record Session := mkSession {
  ses_ID : string; ses_AccountID : string; ses_NamespaceID : string; ses_Title : string;
  ses_SnapshotVer : Z; ses_LastEventSeq : Z; ses_LifecycleState : string;
  ses_Context : vmap; ses_CreatedAt : time; ses_UpdatedAt : time }.
#[export] Instance eta_Session : Eta Session := λ x, mkSession (ses_ID x) (ses_AccountID x)
  (ses_NamespaceID x) (ses_Title x) (ses_SnapshotVer x) (ses_LastEventSeq x)
  (ses_LifecycleState x) (ses_Context x) (ses_CreatedAt x) (ses_UpdatedAt x).

Record Event := mkEvent {
  ev_SessionID : string; ev_Seq : Z; ev_Type : string; ev_Payload : vmap; ev_ActorID : string;
  ev_ClientRequestID : string; ev_CreatedAt : time }.
#[export] Instance eta_Event : Eta Event := λ x, mkEvent (ev_SessionID x) (ev_Seq x) (ev_Type x)
  (ev_Payload x) (ev_ActorID x) (ev_ClientRequestID x) (ev_CreatedAt x).

Record TaskRun := mkTaskRun {
  run_ID : string; run_AccountID : string; run_NamespaceID : string; run_SessionID : string;
  run_ClientRequestID : string; run_State : string; run_Priority : Z; run_NotBefore : time;
  run_CreatedAt : time; run_UpdatedAt : time; run_Attempt : Z; run_LeaseOwner : string;
  run_LeaseToken : string; run_LeaseExpires : time; run_Fence : Z; run_BridgeRef : string }.
#[export] Instance eta_TaskRun : Eta TaskRun := λ x, mkTaskRun (run_ID x) (run_AccountID x)
  (run_NamespaceID x) (run_SessionID x) (run_ClientRequestID x) (run_State x) (run_Priority x)
  (run_NotBefore x) (run_CreatedAt x) (run_UpdatedAt x) (run_Attempt x) (run_LeaseOwner x)
  (run_LeaseToken x) (run_LeaseExpires x) (run_Fence x) (run_BridgeRef x).

Record Snapshot := mkSnapshot {
  snap_SessionID : string; snap_NamespaceID : string; snap_Title : string;
  snap_SnapshotVer : Z; snap_LastEventSeq : Z; snap_LifecycleState : string;
  snap_Context : vmap; snap_TaskRun : option TaskRun; snap_UpdatedAt : time }.

(** Inputs and results of the commands. *)
Record CreateNamespaceInput := mkCreateNamespaceInput {
  cni_ID : string; cni_AccountID : string; cni_Slug : string; cni_DisplayName : string;
  cni_MaxActiveRuns : Z; cni_CreatedAt : time }.
Record CreateSessionInput := mkCreateSessionInput {
  csi_ID : string; csi_AccountID : string; csi_NamespaceID : string; csi_Title : string;
  csi_CreatedAt : time }.
Record AppendEventInput := mkAppendEventInput {
  aei_AccountID : string; aei_SessionID : string; aei_ActorID : string;
  aei_ClientRequestID : string; aei_Type : string; aei_Payload : vmap; aei_CreatedAt : time }.
Record EnqueueTaskRunInput := mkEnqueueTaskRunInput {
  eti_ID : string; eti_AccountID : string; eti_NamespaceID : string; eti_SessionID : string;
  eti_ClientRequestID : string; eti_Priority : Z; eti_NotBefore : time; eti_CreatedAt : time }.
Record AppendMessageInput := mkAppendMessageInput {
  ami_AccountID : string; ami_SessionID : string; ami_ActorID : string;
  ami_ClientRequestID : string; ami_Text : string; ami_Routing : vmap; ami_TaskRunID : string;
  ami_Priority : Z; ami_NotBefore : time; ami_CreatedAt : time }.
Record MessageCommandResult := mkMessageCommandResult {
  mcr_Message : Event; mcr_Queued : Event; mcr_TaskRun : TaskRun; mcr_SnapshotVer : Z;
  mcr_LastEventSeq : Z; mcr_Existing : bool }.
Record TaskRunEventInput := mkTaskRunEventInput {
  tri_AccountID : string; tri_TaskRunID : string; tri_ActorID : string;
  tri_ClientRequestID : string; tri_Fence : Z; tri_LeaseToken : string; tri_Type : string;
  tri_Payload : vmap; tri_BridgeRef : string; tri_CreatedAt : time }.
Record TaskRunEventResult := mkTaskRunEventResult {
  trr_Event : Event; trr_TaskRun : TaskRun; trr_SnapshotVer : Z; trr_LastEventSeq : Z }.
Record ClaimInput := mkClaimInput {
  ci_AccountID : string; ci_WorkerID : string; ci_Now : time; ci_MaxGlobalActive : Z;
  ci_LeaseTTL : duration }.
Record RenewLeaseInput := mkRenewLeaseInput {
  rli_AccountID : string; rli_TaskRunID : string; rli_WorkerID : string; rli_Fence : Z;
  rli_LeaseToken : string; rli_LeaseTTL : duration; rli_Now : time }.
Record CancelRunInput := mkCancelRunInput {
  cri_AccountID : string; cri_SessionID : string; cri_TaskRunID : string; cri_ActorID : string;
  cri_ClientRequestID : string; cri_CreatedAt : time }.

(** ** Constants *)

Definition NamespacePersonal : string := "personal".
Definition SessionReady : string := "ready".
Definition TaskRunQueued : string := "queued".
Definition TaskRunRunning : string := "running".
Definition TaskRunComplete : string := "completed".
Definition TaskRunFailed : string := "failed".
Definition TaskRunCanceled : string := "cancelled".
Definition EventMessageCreated : string := "message.created".
Definition EventRunQueued : string := "run.queued".
Definition EventRunRunning : string := "run.running".
Definition EventRunProgressed : string := "run.progressed".
Definition EventAssistantMessageCreated : string := "assistant.message.created".
Definition EventRunCompleted : string := "run.completed".
Definition EventRunFailed : string := "run.failed".
Definition EventRunCancelled : string := "run.cancelled".
Definition EventRunCancelRequested : string := "run.cancel_requested".
Definition defaultNamespaceMaxActive : Z := 2.
Definition defaultGlobalMaxActive : Z := 5.

(** ** Routing hints *)

Definition routingStringMax : Z := 512.
Definition routingRefMax : Z := 128.
Definition routingAttachMax : Z := 1000.

(** [routingStrings[key]], 0 for an unknown key. *)
Definition routingStrings (key : string) : Z :=
  if contains ["role"; "roleMode"; "roleModel"; "productMode"; "specialty"; "dataClass"] key
  then routingStringMax
  else if contains ["projectId"; "workspace"] key then routingRefMax else 0.
Definition routingRefs (key : string) : bool := contains ["projectId"; "workspace"] key.
Definition routingBools (key : string) : bool := contains ["followUp"; "previousTurnFailed"] key.

Definition plain_char (c : ascii) : bool :=
  let n := N_of_ascii c in
  ((97 <=? n) && (n <=? 122) || (65 <=? n) && (n <=? 90) || (48 <=? n) && (n <=? 57) ||
   (n =? 46) || (n =? 95) || (n =? 58) || (n =? 45))%N.
Fixpoint all_plain (s : string) : bool :=
  match s with EmptyString => true | String c s' => plain_char c && all_plain s' end.
Definition plainKey (value : string) : bool :=
  if all_plain value then (value != ".") && (value != "..") else false.

(** A float that is a whole number converts to [int]; amd64 yields the least
    int for values out of range. *)
Definition wholeNumber (v : value) : option Z :=
  match v with
  | VInt z => Some z
  | VFloat m e _ =>
      if (0 <=? e) || (m mod 2 ^ (- e) =? 0) then
        let z := if 0 <=? e then m * 2 ^ e else m / 2 ^ (- e) in
        Some (if bool_decide (int64_min ≤ z ∧ z ≤ int64_max) then z else int64_min)
      else None
  | _ => None
  end.

(** One hint: dropped ([Ok None]), kept, or rejected. *)
Definition normalizeHint (key : string) (v : value) : result terror (option value) :=
  if 0 <? routingStrings key then
    match v with
    | VStr text =>
        if routingStrings key <? len text then Err ErrInvalidInput else
        let text := TrimSpace text in
        if text == "" then Ok None else
        if routingRefs key && negb (plainKey text) then Err ErrInvalidInput
        else Ok (Some (VStr text))
    | _ => Err ErrInvalidInput
    end
  else if routingBools key then
    match v with VBool b => Ok (Some (VBool b)) | _ => Err ErrInvalidInput end
  else if key == "attachments" then
    match wholeNumber v with
    | Some count =>
        if (count <? 0) || (routingAttachMax <? count) then Err ErrInvalidInput
        else Ok (Some (VInt count))
    | None => Err ErrInvalidInput
    end
  else Err ErrInvalidInput.

Definition hint_kept (key : string) (v : value) : option value :=
  match normalizeHint key v with Ok w => w | Err _ => None end.

(** Every rejection is the same error, so the order of the loop is
    immaterial. *)
Definition NormalizeRouting (input : vmap) : result terror vmap :=
  if existsb (λ '(k, v), negb (is_ok (normalizeHint k v))) (map_to_list input)
  then Err ErrInvalidInput
  else Ok (map_imap hint_kept input).

(** ** The context summary of a session *)

(** Drop the oldest messages until the summary fits. *)
Fixpoint fit_messages (next : vmap) (messages : list value) : result terror vmap :=
  match messages with
  | [] => Err ErrPayloadTooLarge
  | _ :: rest =>
      let candidate := <["messages" := VList messages]> next in
      match marshalContextSummary candidate with
      | Ok _ => Ok candidate
      | Err ErrPayloadTooLarge => fit_messages next rest
      | Err e => Err e
      end
  end.

(** The [text] of a message is always a string here. *)
Definition appendMessageToContext (contextSummary message : vmap) : result terror vmap :=
  let next := <["lastMessage" := VStr (TrimSpace (default "" (val_str (message !! "text"))))]>
                contextSummary in
  let messages := match next !! "messages" with Some (VList l) => l | _ => [] end in
  let messages := messages ++ [as_value message] in
  let messages :=
    if maxSnapshotMessages <? Z.of_nat (length messages)
    then drop (Z.to_nat (Z.of_nat (length messages) - maxSnapshotMessages)) messages
    else messages in
  fit_messages next messages.

(** ** The store *)

Record MemoryStore := mkMemoryStore {
  t_namespaces : gmap string Namespace;
  t_namespacesByAcct : gmap string (gmap string string);
  t_sessions : gmap string Session;
  t_events : gmap string (list Event);
  t_eventByRequest : gmap string Event;
  t_taskRuns : gmap string TaskRun;
  t_runRouting : gmap string vmap;
  t_lastClaimNamespace : gmap string string }.
#[export] Instance eta_MemoryStore : Eta MemoryStore := λ x, mkMemoryStore (t_namespaces x)
  (t_namespacesByAcct x) (t_sessions x) (t_events x) (t_eventByRequest x) (t_taskRuns x)
  (t_runRouting x) (t_lastClaimNamespace x).

Definition NewMemoryStore : MemoryStore :=
  mkMemoryStore ∅ ∅ ∅ ∅ ∅ ∅ ∅ ∅.

(** [s.events[id]] *)
Definition events_of (s : MemoryStore) (id : string) : list Event :=
  default [] (t_events s !! id).

(** [sessionID + "\x00" + clientRequestID] *)
Definition request_key (sessionID requestID : string) : string :=
  sessionID +:+ String zero EmptyString +:+ requestID.

(** ** Namespaces *)

Definition createNamespaceLocked (now : time) (input : CreateNamespaceInput) (s : MemoryStore)
    : result terror Namespace * MemoryStore :=
  let id := TrimSpace (cni_ID input) in
  let account := TrimSpace (cni_AccountID input) in
  let slug := TrimSpace (cni_Slug input) in
  if (id == "") || (account == "") || (slug == "") then (Err ErrAccountMismatch, s) else
  if bool_decide (is_Some (t_namespaces s !! id)) then (Err ErrAlreadyExists, s) else
  let bySlug := default ∅ (t_namespacesByAcct s !! account) in
  if bool_decide (is_Some (bySlug !! slug)) then (Err ErrAlreadyExists, s) else
  let ns := {|
    ns_ID := id; ns_AccountID := account; ns_Slug := slug;
    ns_DisplayName := TrimSpace (cni_DisplayName input);
    ns_MaxActiveRuns :=
      if (cni_MaxActiveRuns input <=? 0) || (defaultNamespaceMaxActive <? cni_MaxActiveRuns input)
      then defaultNamespaceMaxActive else cni_MaxActiveRuns input;
    ns_CreatedAt := if IsZero (cni_CreatedAt input) then now else cni_CreatedAt input |} in
  (Ok ns, s <| t_namespaces := <[id := ns]> (t_namespaces s) |>
            <| t_namespacesByAcct := <[account := <[slug := id]> bySlug]> (t_namespacesByAcct s) |>).

Definition CreateNamespace := createNamespaceLocked.

Definition zeroNamespace : Namespace := mkNamespace "" "" "" "" 0 0.

Definition EnsurePersonalNamespace (newID : string) (clock : time) (accountID : string) (now : time)
    (s : MemoryStore) : result terror Namespace * MemoryStore :=
  let accountID := TrimSpace accountID in
  if accountID == "" then (Err ErrAccountMismatch, s) else
  let id := get_str (default ∅ (t_namespacesByAcct s !! accountID)) NamespacePersonal in
  if id != "" then (Ok (default zeroNamespace (t_namespaces s !! id)), s) else
  createNamespaceLocked clock {|
    cni_ID := newID; cni_AccountID := accountID; cni_Slug := NamespacePersonal;
    cni_DisplayName := "Personal"; cni_MaxActiveRuns := defaultNamespaceMaxActive;
    cni_CreatedAt := now |} s.

Definition ListNamespaces `{MapOrder} (s : MemoryStore) (accountID : string)
    : result terror (list Namespace) :=
  let accountID := TrimSpace accountID in
  if accountID == "" then Err ErrInvalidInput else
  Ok (sort_slice (λ a b, if Equal (ns_CreatedAt a) (ns_CreatedAt b)
                         then string_lt (ns_ID a) (ns_ID b)
                         else Before (ns_CreatedAt a) (ns_CreatedAt b))
        (filter (λ n, ns_AccountID n = accountID) (range (t_namespaces s)).*2)).

(** ** Sessions *)

Definition CreateSession (now : time) (input : CreateSessionInput) (s : MemoryStore)
    : result terror Session * MemoryStore :=
  if bool_decide (is_Some (t_sessions s !! csi_ID input)) then (Err ErrAlreadyExists, s) else
  match t_namespaces s !! csi_NamespaceID input with
  | None => (Err ErrAccountMismatch, s)
  | Some ns =>
      if ns_AccountID ns != csi_AccountID input then (Err ErrAccountMismatch, s) else
      if TrimSpace (csi_ID input) == "" then (Err ErrNotFound, s) else
      let createdAt := if IsZero (csi_CreatedAt input) then now else csi_CreatedAt input in
      let session := {|
        ses_ID := csi_ID input; ses_AccountID := csi_AccountID input;
        ses_NamespaceID := csi_NamespaceID input; ses_Title := TrimSpace (csi_Title input);
        ses_SnapshotVer := 0; ses_LastEventSeq := 0; ses_LifecycleState := SessionReady;
        ses_Context := ∅; ses_CreatedAt := createdAt; ses_UpdatedAt := createdAt |} in
      (Ok session, s <| t_sessions := <[ses_ID session := session]> (t_sessions s) |>)
  end.

Definition GetSession (s : MemoryStore) (accountID namespaceID sessionID : string)
    : result terror Session :=
  match t_sessions s !! sessionID with
  | None => Err ErrNotFound
  | Some session =>
      if (ses_AccountID session != accountID) || (ses_NamespaceID session != namespaceID)
      then Err ErrAccountMismatch else Ok session
  end.

(** The run shown in a snapshot: the loop keeps the most recently updated,
    the greater identifier breaking ties. *)
Definition newer_run (sessionID : string) (best : option TaskRun) (run : TaskRun) : option TaskRun :=
  if run_SessionID run != sessionID then best else
  match best with
  | None => Some run
  | Some b =>
      if After (run_UpdatedAt run) (run_UpdatedAt b) ||
         (Equal (run_UpdatedAt run) (run_UpdatedAt b) && string_lt (run_ID b) (run_ID run))
      then Some run else best
  end.

Definition snapshotFromMemoryState `{MapOrder} (session : Session) (runs : gmap string TaskRun)
    : Snapshot := {|
  snap_SessionID := ses_ID session; snap_NamespaceID := ses_NamespaceID session;
  snap_Title := ses_Title session; snap_SnapshotVer := ses_SnapshotVer session;
  snap_LastEventSeq := ses_LastEventSeq session;
  snap_LifecycleState := ses_LifecycleState session; snap_Context := ses_Context session;
  snap_TaskRun := foldl (newer_run (ses_ID session)) None (range runs).*2;
  snap_UpdatedAt := ses_UpdatedAt session |}.

Definition GetSnapshot `{MapOrder} (s : MemoryStore) (accountID sessionID : string)
    : result terror Snapshot :=
  match t_sessions s !! sessionID with
  | None => Err ErrNotFound
  | Some session =>
      if ses_AccountID session != accountID then Err ErrAccountMismatch
      else Ok (snapshotFromMemoryState session (t_taskRuns s))
  end.

Definition ListSessions `{MapOrder} (s : MemoryStore) (accountID namespaceID : string)
    : result terror (list Snapshot) :=
  let accountID := TrimSpace accountID in
  let namespaceID := TrimSpace namespaceID in
  match t_namespaces s !! namespaceID with
  | None => Err ErrNotFound
  | Some namespace =>
      if ns_AccountID namespace != accountID then Err ErrNotFound else
      Ok (sort_slice (λ a b, if Equal (snap_UpdatedAt a) (snap_UpdatedAt b)
                             then string_lt (snap_SessionID a) (snap_SessionID b)
                             else After (snap_UpdatedAt a) (snap_UpdatedAt b))
            ((λ session, snapshotFromMemoryState session (t_taskRuns s)) <$>
             filter (λ x, (ses_AccountID x != accountID) || (ses_NamespaceID x != namespaceID) = false)
               (range (t_sessions s)).*2))
  end.

Definition ListEvents (s : MemoryStore) (accountID sessionID : string) (afterSeq limit : Z)
    : result terror (list Event) :=
  match t_sessions s !! TrimSpace sessionID with
  | None => Err ErrNotFound
  | Some session =>
      if ses_AccountID session != TrimSpace accountID then Err ErrAccountMismatch else
      let afterSeq := if afterSeq <? 0 then 0 else afterSeq in
      let limit := if (limit <=? 0) || (500 <? limit) then 100 else limit in
      Ok (take (Z.to_nat limit)
            (filter (λ e, (ev_Seq e <=? afterSeq) = false) (events_of s (ses_ID session))))
  end.

(** ** Events and messages *)

(** [s.events[id] = append(s.events[id], evs...)] *)
Definition append_events (id : string) (evs : list Event) (s : MemoryStore) : MemoryStore :=
  s <| t_events := <[id := events_of s id ++ evs]> (t_events s) |>.

(** [session.LastEventSeq = seq; session.SnapshotVer += n; ...; s.sessions[session.ID] = session] *)
Definition save_session (session : Session) (seq n : Z) (context : vmap) (at_ : time)
    (s : MemoryStore) : MemoryStore :=
  let session := session
    <| ses_LastEventSeq := seq |>
    <| ses_SnapshotVer := int64 (ses_SnapshotVer session + n) |>
    <| ses_Context := context |>
    <| ses_UpdatedAt := at_ |> in
  s <| t_sessions := <[ses_ID session := session]> (t_sessions s) |>.

(** [if text, ok := m[key].(string); ok && TrimSpace(text) != "" { context[name] = text }] *)
Definition note_text (payload : vmap) (key name : string) (context : vmap) : vmap :=
  match val_str (payload !! key) with
  | Some text => if TrimSpace text != "" then <[name := VStr text]> context else context
  | None => context
  end.

Definition AppendEvent (now : time) (input : AppendEventInput) (s : MemoryStore)
    : result terror Event * MemoryStore :=
  match t_sessions s !! aei_SessionID input with
  | None => (Err ErrNotFound, s)
  | Some session =>
      if ses_AccountID session != aei_AccountID input then (Err ErrAccountMismatch, s) else
      match (if aei_ClientRequestID input != ""
             then t_eventByRequest s !! request_key (aei_SessionID input) (aei_ClientRequestID input)
             else None) with
      | Some event => (Ok event, s)
      | None =>
          match marshalEventPayload (aei_Payload input) with
          | Err e => (Err e, s)
          | Ok _ =>
              let createdAt := if IsZero (aei_CreatedAt input) then now else aei_CreatedAt input in
              let event := {|
                ev_SessionID := aei_SessionID input; ev_Seq := int64 (ses_LastEventSeq session + 1);
                ev_Type := TrimSpace (aei_Type input); ev_Payload := aei_Payload input;
                ev_ActorID := TrimSpace (aei_ActorID input);
                ev_ClientRequestID := TrimSpace (aei_ClientRequestID input);
                ev_CreatedAt := createdAt |} in
              let s := append_events (ev_SessionID event) [event] s in
              let s := if ev_ClientRequestID event != ""
                       then s <| t_eventByRequest :=
                              <[request_key (ev_SessionID event) (ev_ClientRequestID event) := event]>
                                (t_eventByRequest s) |>
                       else s in
              let context := note_text (aei_Payload input) "summary" "summary"
                (note_text (aei_Payload input) "text" "lastMessage" (ses_Context session)) in
              (Ok event, save_session session (ev_Seq event) 1 context createdAt s)
          end
      end
  end.

Definition messageEventPayload (text taskRunID : string) : result terror vmap :=
  let text := TrimSpace text in
  let taskRunID := TrimSpace taskRunID in
  if (text == "") || (taskRunID == "") then Err ErrInvalidInput else
  Ok (<["schemaVersion" := VInt 1]> (<["text" := VStr text]> (<["taskRunId" := VStr taskRunID]> ∅))).

Definition runQueuedEventPayload (taskRunID : string) : vmap :=
  <["schemaVersion" := VInt 1]> (<["taskRunId" := VStr (TrimSpace taskRunID)]>
    (<["state" := VStr TaskRunQueued]> ∅)).

(** [UnixMilli]: milliseconds since 1970; the epoch is second 62135596800. *)
Definition UnixMilli (t : time) : Z := t / Millisecond - 62135596800 * 1000.

Definition messageContextValue (text taskRunID : string) (createdAt : time) : vmap :=
  <["id" := VStr (TrimSpace taskRunID)]> (<["role" := VStr "user"]>
    (<["text" := VStr (TrimSpace text)]> (<["timestampMs" := VInt (UnixMilli createdAt)]>
      (<["pending" := VBool false]> (<["error" := VBool false]> ∅))))).

(** The command with its strings trimmed. *)
Definition trimMessage (input : AppendMessageInput) : AppendMessageInput := {|
  ami_AccountID := TrimSpace (ami_AccountID input);
  ami_SessionID := TrimSpace (ami_SessionID input);
  ami_ActorID := TrimSpace (ami_ActorID input);
  ami_ClientRequestID := TrimSpace (ami_ClientRequestID input);
  ami_Text := TrimSpace (ami_Text input); ami_Routing := ami_Routing input;
  ami_TaskRunID := ami_TaskRunID input; ami_Priority := ami_Priority input;
  ami_NotBefore := ami_NotBefore input; ami_CreatedAt := ami_CreatedAt input |}.

(** A repeated command reports what the first one created. *)
Definition replayMessage (session : Session) (existing : Event) (input : AppendMessageInput)
    (s : MemoryStore) : result terror MessageCommandResult :=
  let runID := default "" (val_str (ev_Payload existing !! "taskRunId")) in
  match t_taskRuns s !! runID with
  | None => Err ErrNotFound
  | Some run =>
      match List.find (λ q, (ev_Seq q =? int64 (ev_Seq existing + 1)) && (ev_Type q == EventRunQueued))
              (events_of s (ami_SessionID input)) with
      | Some queued =>
          Ok {| mcr_Message := existing; mcr_Queued := queued; mcr_TaskRun := run;
                mcr_SnapshotVer := ses_SnapshotVer session;
                mcr_LastEventSeq := ses_LastEventSeq session; mcr_Existing := true |}
      | None => Err ErrNotFound
      end
  end.

Definition AppendMessage (newID : string) (now : time) (input : AppendMessageInput) (s : MemoryStore)
    : result terror MessageCommandResult * MemoryStore :=
  let input := trimMessage input in
  if (ami_AccountID input == "") || (ami_SessionID input == "") ||
     (ami_ClientRequestID input == "") || (ami_Text input == "")
  then (Err ErrInvalidInput, s) else
  match NormalizeRouting (ami_Routing input) with
  | Err e => (Err e, s)
  | Ok routing =>
  match t_sessions s !! ami_SessionID input with
  | None => (Err ErrNotFound, s)
  | Some session =>
  if ses_AccountID session != ami_AccountID input then (Err ErrAccountMismatch, s) else
  let requestKey := request_key (ami_SessionID input) (ami_ClientRequestID input) in
  match t_eventByRequest s !! requestKey with
  | Some existing => (replayMessage session existing input s, s)
  | None =>
  let createdAt := if IsZero (ami_CreatedAt input) then now else ami_CreatedAt input in
  let notBefore := if IsZero (ami_NotBefore input) then createdAt else ami_NotBefore input in
  let taskRunID := if TrimSpace (ami_TaskRunID input) == "" then newID
                   else TrimSpace (ami_TaskRunID input) in
  if bool_decide (is_Some (t_taskRuns s !! taskRunID)) then (Err ErrAlreadyExists, s) else
  match messageEventPayload (ami_Text input) taskRunID with
  | Err e => (Err e, s)
  | Ok messagePayload =>
  let queuedPayload := runQueuedEventPayload taskRunID in
  match (let? _ := marshalEventPayload messagePayload in marshalEventPayload queuedPayload) with
  | Err e => (Err e, s)
  | Ok _ =>
  let message := {|
    ev_SessionID := ami_SessionID input; ev_Seq := int64 (ses_LastEventSeq session + 1);
    ev_Type := EventMessageCreated; ev_Payload := messagePayload; ev_ActorID := ami_ActorID input;
    ev_ClientRequestID := ami_ClientRequestID input; ev_CreatedAt := createdAt |} in
  let run := {|
    run_ID := taskRunID; run_AccountID := ami_AccountID input;
    run_NamespaceID := ses_NamespaceID session; run_SessionID := ami_SessionID input;
    run_ClientRequestID := ami_ClientRequestID input; run_State := TaskRunQueued;
    run_Priority := ami_Priority input; run_NotBefore := notBefore; run_CreatedAt := createdAt;
    run_UpdatedAt := createdAt; run_Attempt := 0; run_LeaseOwner := ""; run_LeaseToken := "";
    run_LeaseExpires := 0; run_Fence := 0; run_BridgeRef := "" |} in
  let queued := {|
    ev_SessionID := ami_SessionID input; ev_Seq := int64 (ev_Seq message + 1);
    ev_Type := EventRunQueued; ev_Payload := queuedPayload; ev_ActorID := ami_ActorID input;
    ev_ClientRequestID := ""; ev_CreatedAt := createdAt |} in
  match appendMessageToContext (ses_Context session)
          (messageContextValue (ami_Text input) taskRunID createdAt) with
  | Err e => (Err e, s)
  | Ok nextContext =>
  let s := append_events (ami_SessionID input) [message; queued] s in
  let s := s <| t_eventByRequest := <[requestKey := message]> (t_eventByRequest s) |>
             <| t_taskRuns := <[run_ID run := run]> (t_taskRuns s) |>
             <| t_runRouting := <[run_ID run := routing]> (t_runRouting s) |> in
  let s := save_session session (ev_Seq queued) 2 nextContext createdAt s in
  (Ok {| mcr_Message := message; mcr_Queued := queued; mcr_TaskRun := run;
         mcr_SnapshotVer := int64 (ses_SnapshotVer session + 2);
         mcr_LastEventSeq := ev_Seq queued; mcr_Existing := false |}, s)
  end end end end end end.

(** ** Task runs *)

Definition stateForRunEvent (eventType currentState : string) : result terror (string * bool) :=
  let t := TrimSpace eventType in
  if (t == EventRunRunning) || (t == EventRunProgressed) || (t == EventAssistantMessageCreated)
  then Ok (currentState, false)
  else if t == EventRunCompleted then Ok (TaskRunComplete, true)
  else if t == EventRunFailed then Ok (TaskRunFailed, true)
  else if t == EventRunCancelled then Ok (TaskRunCanceled, true)
  else Err ErrInvalidInput.

Definition taskRunEventPayload (input : vmap) (taskRunID : string) (fence : Z) (state : string) : vmap :=
  <["state" := VStr state]> (<["fence" := VInt fence]>
    (<["taskRunId" := VStr (TrimSpace taskRunID)]> (<["schemaVersion" := VInt 1]> input))).

Definition RecordTaskRunEvent (now : time) (input : TaskRunEventInput) (s : MemoryStore)
    : result terror TaskRunEventResult * MemoryStore :=
  let accountID := TrimSpace (tri_AccountID input) in
  let taskRunID := TrimSpace (tri_TaskRunID input) in
  let requestID := TrimSpace (tri_ClientRequestID input) in
  let leaseToken := TrimSpace (tri_LeaseToken input) in
  let type := TrimSpace (tri_Type input) in
  if (accountID == "") || (taskRunID == "") || (requestID == "") || (leaseToken == "")
  then (Err ErrInvalidInput, s) else
  match t_taskRuns s !! taskRunID with
  | None => (Err ErrNotFound, s)
  | Some run =>
  if run_AccountID run != accountID then (Err ErrNotFound, s) else
  match t_sessions s !! run_SessionID run with
  | None => (Err ErrNotFound, s)
  | Some session =>
  let requestKey := request_key (run_SessionID run) requestID in
  let createdAt := if IsZero (tri_CreatedAt input) then now else tri_CreatedAt input in
  if negb (run_Fence run =? tri_Fence input) || (run_LeaseToken run != leaseToken) ||
     negb (After (run_LeaseExpires run) createdAt)
  then (Err ErrLeaseConflict, s) else
  match t_eventByRequest s !! requestKey with
  | Some existing =>
      (Ok {| trr_Event := existing; trr_TaskRun := run; trr_SnapshotVer := ses_SnapshotVer session;
             trr_LastEventSeq := ses_LastEventSeq session |}, s)
  | None =>
  if run_State run != TaskRunRunning then (Err ErrLeaseConflict, s) else
  match stateForRunEvent type (run_State run) with
  | Err e => (Err e, s)
  | Ok (nextState, _) =>
  let payload := taskRunEventPayload (tri_Payload input) (run_ID run) (tri_Fence input) nextState in
  match marshalEventPayload payload with
  | Err e => (Err e, s)
  | Ok _ =>
  let event := {|
    ev_SessionID := run_SessionID run; ev_Seq := int64 (ses_LastEventSeq session + 1);
    ev_Type := type; ev_Payload := payload; ev_ActorID := TrimSpace (tri_ActorID input);
    ev_ClientRequestID := requestID; ev_CreatedAt := createdAt |} in
  let bridgeRef := TrimSpace (tri_BridgeRef input) in
  let run := run
    <| run_State := nextState |>
    <| run_BridgeRef := if bridgeRef != "" then bridgeRef else run_BridgeRef run |>
    <| run_UpdatedAt := createdAt |> in
  let s := append_events (run_SessionID run) [event] s in
  let s := s <| t_eventByRequest := <[requestKey := event]> (t_eventByRequest s) |>
             <| t_taskRuns := <[run_ID run := run]> (t_taskRuns s) |> in
  let s := save_session session (ev_Seq event) 1
             (<["lastRunState" := VStr nextState]> (ses_Context session)) createdAt s in
  (Ok {| trr_Event := event; trr_TaskRun := run;
         trr_SnapshotVer := int64 (ses_SnapshotVer session + 1); trr_LastEventSeq := ev_Seq event |}, s)
  end end end end end.

Definition EnqueueTaskRun (now : time) (input : EnqueueTaskRunInput) (s : MemoryStore)
    : result terror TaskRun * MemoryStore :=
  if bool_decide (is_Some (t_taskRuns s !! eti_ID input)) then (Err ErrAlreadyExists, s) else
  match t_sessions s !! eti_SessionID input with
  | None => (Err ErrAccountMismatch, s)
  | Some session =>
      if (ses_AccountID session != eti_AccountID input) ||
         (ses_NamespaceID session != eti_NamespaceID input)
      then (Err ErrAccountMismatch, s) else
      let createdAt := if IsZero (eti_CreatedAt input) then now else eti_CreatedAt input in
      let notBefore := if IsZero (eti_NotBefore input) then createdAt else eti_NotBefore input in
      let run := {|
        run_ID := eti_ID input; run_AccountID := eti_AccountID input;
        run_NamespaceID := eti_NamespaceID input; run_SessionID := eti_SessionID input;
        run_ClientRequestID := eti_ClientRequestID input; run_State := TaskRunQueued;
        run_Priority := eti_Priority input; run_NotBefore := notBefore; run_CreatedAt := createdAt;
        run_UpdatedAt := createdAt; run_Attempt := 0; run_LeaseOwner := ""; run_LeaseToken := "";
        run_LeaseExpires := 0; run_Fence := 0; run_BridgeRef := "" |} in
      (Ok run, s <| t_taskRuns := <[run_ID run := run]> (t_taskRuns s) |>)
  end.

(** ** Claiming *)

Definition active_for (accountID : string) (task : TaskRun) : bool :=
  (run_AccountID task == accountID) && (run_State task == TaskRunRunning).
Definition active_in (accountID namespaceID : string) (task : TaskRun) : bool :=
  (run_AccountID task == accountID) && (run_NamespaceID task == namespaceID) &&
  (run_State task == TaskRunRunning).
Definition countActive (tasks : gmap string TaskRun) (accountID : string) : Z :=
  map_count (active_for accountID) tasks.
Definition countActiveForNamespace (tasks : gmap string TaskRun) (accountID namespaceID : string) : Z :=
  map_count (active_in accountID namespaceID) tasks.

Definition eligible (accountID : string) (now : time) (task : TaskRun) : bool :=
  (run_AccountID task == accountID) && (run_State task == TaskRunQueued) &&
  negb (After (run_NotBefore task) now).

(** The namespaces with an eligible run, in order. *)
Definition eligibleNamespaceIDs (tasks : gmap string TaskRun) (accountID : string)
    (namespaces : gmap string Namespace) (now : time) : list string :=
  let seen := remove_dups (run_NamespaceID <$> filter (λ t, eligible accountID now t = true) (values tasks)) in
  sort_strings (filter (λ id, is_Some (namespaces !! id)) seen).

(** The loop keeps the run of highest priority, the oldest first; among
    equals the first one met. *)
Definition older_run (accountID namespaceID : string) (now : time)
    (selected : option TaskRun) (task : TaskRun) : option TaskRun :=
  if (run_AccountID task != accountID) || (run_NamespaceID task != namespaceID) ||
     (run_State task != TaskRunQueued) || After (run_NotBefore task) now
  then selected else
  match selected with
  | None => Some task
  | Some b =>
      if (run_Priority b <? run_Priority task) ||
         ((run_Priority task =? run_Priority b) && Before (run_CreatedAt task) (run_CreatedAt b))
      then Some task else selected
  end.
Definition oldestEligibleRun `{MapOrder} (tasks : gmap string TaskRun)
    (accountID namespaceID : string) (now : time) : option TaskRun :=
  foldl (older_run accountID namespaceID now) None (range tasks).*2.

(** Position after the namespace served last, 0 when it is not listed. *)
Fixpoint index_of (ids : list string) (id : string) (i : nat) : option nat :=
  match ids with
  | [] => None
  | x :: ids' => if x == id then Some i else index_of ids' id (S i)
  end.
Definition claimStart (last : string) (ids : list string) : nat :=
  if last != "" then
    match index_of ids last 0 with
    | Some i => ((i + 1) mod length ids)%nat
    | None => 0%nat
    end
  else 0%nat.

(** [namespaceIDs[(start+offset)%len]] for [offset] from 0. *)
Definition rotate_ids (start : nat) (ids : list string) : list string :=
  drop start ids ++ take start ids.

Definition claimRun (input : ClaimInput) (token : string) (now ttl : Z) (candidate : TaskRun) : TaskRun :=
  candidate
    <| run_State := TaskRunRunning |>
    <| run_Attempt := int64 (run_Attempt candidate + 1) |>
    <| run_LeaseOwner := ci_WorkerID input |>
    <| run_LeaseToken := token |>
    <| run_LeaseExpires := Add now ttl |>
    <| run_Fence := int64 (run_Fence candidate + 1) |>
    <| run_UpdatedAt := now |>.

Fixpoint claimFrom `{MapOrder} (input : ClaimInput) (token : string) (now ttl : Z)
    (ids : list string) (s : MemoryStore) : result terror TaskRun * MemoryStore :=
  match ids with
  | [] => (Err ErrNoEligibleTask, s)
  | namespaceID :: rest =>
      let ns := default zeroNamespace (t_namespaces s !! namespaceID) in
      if ns_MaxActiveRuns ns <=? countActiveForNamespace (t_taskRuns s) (ci_AccountID input) namespaceID
      then claimFrom input token now ttl rest s else
      match oldestEligibleRun (t_taskRuns s) (ci_AccountID input) namespaceID now with
      | None => claimFrom input token now ttl rest s
      | Some candidate =>
          let candidate := claimRun input token now ttl candidate in
          (Ok candidate,
           s <| t_taskRuns := <[run_ID candidate := candidate]> (t_taskRuns s) |>
             <| t_lastClaimNamespace := <[ci_AccountID input := namespaceID]> (t_lastClaimNamespace s) |>)
      end
  end.

(** [token] is [uuid.NewString()]. *)
Definition ClaimNext `{MapOrder} (token : string) (clock : time) (input : ClaimInput) (s : MemoryStore)
    : result terror TaskRun * MemoryStore :=
  let now := if IsZero (ci_Now input) then clock else ci_Now input in
  let maxActive := if (ci_MaxGlobalActive input <=? 0) ||
                      (defaultGlobalMaxActive <? ci_MaxGlobalActive input)
                   then defaultGlobalMaxActive else ci_MaxGlobalActive input in
  let ttl := if ci_LeaseTTL input <=? 0 then Minute else ci_LeaseTTL input in
  if maxActive <=? countActive (t_taskRuns s) (ci_AccountID input) then (Err ErrNoEligibleTask, s) else
  let ids := eligibleNamespaceIDs (t_taskRuns s) (ci_AccountID input) (t_namespaces s) now in
  if Z.of_nat (length ids) =? 0 then (Err ErrNoEligibleTask, s) else
  let start := claimStart (get_str (t_lastClaimNamespace s) (ci_AccountID input)) ids in
  claimFrom input token now ttl (rotate_ids start ids) s.

(** ** Leases and cancellation *)

Definition MinSchedulerLeaseTTL : duration := 10 * Second.
Definition MaxSchedulerLeaseTTL : duration := 10 * Minute.

Definition runFinished (state : string) : bool :=
  (state == TaskRunComplete) || (state == TaskRunFailed) || (state == TaskRunCanceled).

Definition cancel_event (runID : string) (e : Event) : bool :=
  (ev_Type e == EventRunCancelRequested) && val_is_str (ev_Payload e !! "taskRunId") runID.
Definition cancelRequestedLocked (s : MemoryStore) (run : TaskRun) : bool :=
  existsb (cancel_event (run_ID run)) (events_of s (run_SessionID run)).

Definition normalizeRenew (clock : time) (input : RenewLeaseInput) : result terror RenewLeaseInput :=
  let n := {|
    rli_AccountID := TrimSpace (rli_AccountID input); rli_TaskRunID := TrimSpace (rli_TaskRunID input);
    rli_WorkerID := TrimSpace (rli_WorkerID input); rli_Fence := rli_Fence input;
    rli_LeaseToken := TrimSpace (rli_LeaseToken input); rli_LeaseTTL := rli_LeaseTTL input;
    rli_Now := if IsZero (rli_Now input) then clock else rli_Now input |} in
  if (rli_AccountID n == "") || (rli_TaskRunID n == "") || (rli_WorkerID n == "") ||
     (rli_LeaseToken n == "") then Err ErrInvalidInput else
  if (rli_LeaseTTL n <? MinSchedulerLeaseTTL) || (MaxSchedulerLeaseTTL <? rli_LeaseTTL n)
  then Err ErrInvalidInput else Ok n.

Definition RenewLease (clock : time) (input : RenewLeaseInput) (s : MemoryStore)
    : result terror (TaskRun * bool) * MemoryStore :=
  match normalizeRenew clock input with
  | Err e => (Err e, s)
  | Ok input =>
      match t_taskRuns s !! rli_TaskRunID input with
      | None => (Err ErrNotFound, s)
      | Some run =>
          if run_AccountID run != rli_AccountID input then (Err ErrNotFound, s) else
          if (run_State run != TaskRunRunning) || negb (run_Fence run =? rli_Fence input) ||
             (run_LeaseToken run != rli_LeaseToken input) ||
             (run_LeaseOwner run != rli_WorkerID input) ||
             negb (After (run_LeaseExpires run) (rli_Now input))
          then (Err ErrLeaseConflict, s) else
          let run := run <| run_LeaseExpires := Add (rli_Now input) (rli_LeaseTTL input) |>
                         <| run_UpdatedAt := rli_Now input |> in
          let s := s <| t_taskRuns := <[run_ID run := run]> (t_taskRuns s) |> in
          (Ok (run, cancelRequestedLocked s run), s)
      end
  end.

Definition normalizeCancel (clock : time) (input : CancelRunInput) : result terror CancelRunInput :=
  let account := TrimSpace (cri_AccountID input) in
  let actor := TrimSpace (cri_ActorID input) in
  let n := {|
    cri_AccountID := account; cri_SessionID := TrimSpace (cri_SessionID input);
    cri_TaskRunID := TrimSpace (cri_TaskRunID input);
    cri_ActorID := if actor == "" then account else actor;
    cri_ClientRequestID := TrimSpace (cri_ClientRequestID input);
    cri_CreatedAt := if IsZero (cri_CreatedAt input) then clock else cri_CreatedAt input |} in
  if (cri_AccountID n == "") || (cri_SessionID n == "") || (cri_TaskRunID n == "") ||
     (cri_ClientRequestID n == "") then Err ErrInvalidInput else Ok n.

Definition cancelRequestedPayload (taskRunID : string) : vmap :=
  <["schemaVersion" := VInt 1]> (<["taskRunId" := VStr taskRunID]> (<["state" := VStr TaskRunRunning]> ∅)).
Definition cancelledBeforeStartPayload (taskRunID : string) : vmap :=
  <["schemaVersion" := VInt 1]> (<["taskRunId" := VStr taskRunID]>
    (<["state" := VStr TaskRunCanceled]> (<["reason" := VStr "cancelled_before_start"]> ∅))).

(** The write part of a cancel: one event of the given type. *)
Definition commitCancel (input : CancelRunInput) (session : Session) (run : TaskRun)
    (type : string) (payload : vmap) (s : MemoryStore)
    : result terror TaskRunEventResult * MemoryStore :=
  let event := {|
    ev_SessionID := run_SessionID run; ev_Seq := int64 (ses_LastEventSeq session + 1);
    ev_Type := type; ev_Payload := payload; ev_ActorID := cri_ActorID input;
    ev_ClientRequestID := cri_ClientRequestID input; ev_CreatedAt := cri_CreatedAt input |} in
  let s := append_events (run_SessionID run) [event] s in
  let s := s <| t_eventByRequest :=
                 <[request_key (cri_SessionID input) (cri_ClientRequestID input) := event]>
                   (t_eventByRequest s) |>
             <| t_taskRuns := <[run_ID run := run]> (t_taskRuns s) |> in
  let s := save_session session (ev_Seq event) 1
             (<["lastRunState" := VStr (run_State run)]> (ses_Context session)) (cri_CreatedAt input) s in
  (Ok {| trr_Event := event; trr_TaskRun := run;
         trr_SnapshotVer := int64 (ses_SnapshotVer session + 1); trr_LastEventSeq := ev_Seq event |}, s).

Definition RequestCancel (clock : time) (input : CancelRunInput) (s : MemoryStore)
    : result terror TaskRunEventResult * MemoryStore :=
  match normalizeCancel clock input with
  | Err e => (Err e, s)
  | Ok input =>
  match t_sessions s !! cri_SessionID input with
  | None => (Err ErrNotFound, s)
  | Some session =>
  if ses_AccountID session != cri_AccountID input then (Err ErrNotFound, s) else
  match t_taskRuns s !! cri_TaskRunID input with
  | None => (Err ErrNotFound, s)
  | Some run =>
  if (run_AccountID run != cri_AccountID input) || (run_SessionID run != cri_SessionID input)
  then (Err ErrNotFound, s) else
  let report e := {| trr_Event := e; trr_TaskRun := run; trr_SnapshotVer := ses_SnapshotVer session;
                     trr_LastEventSeq := ses_LastEventSeq session |} in
  match t_eventByRequest s !! request_key (cri_SessionID input) (cri_ClientRequestID input) with
  | Some existing =>
      if negb (val_is_str (ev_Payload existing !! "taskRunId") (run_ID run))
      then (Err ErrAlreadyExists, s) else (Ok (report existing), s)
  | None =>
      if runFinished (run_State run) then (Err ErrRunFinished, s) else
      if run_State run == TaskRunQueued then
        commitCancel input session
          (run <| run_State := TaskRunCanceled |> <| run_UpdatedAt := cri_CreatedAt input |>)
          EventRunCancelled (cancelledBeforeStartPayload (run_ID run)) s
      else
        match List.find (cancel_event (run_ID run)) (events_of s (run_SessionID run)) with
        | Some existing => (Ok (report existing), s)
        | None =>
            commitCancel input session run EventRunCancelRequested (cancelRequestedPayload (run_ID run)) s
        end
  end end end end.

(** The text and the routing of the message that asked for a run. *)
Definition RunMessage (s : MemoryStore) (accountID taskRunID : string)
    : result terror (string * vmap) :=
  match t_taskRuns s !! TrimSpace taskRunID with
  | None => Err ErrNotFound
  | Some run =>
      if run_AccountID run != TrimSpace accountID then Err ErrNotFound else
      match List.find (λ e, (ev_Type e == EventMessageCreated) &&
                            val_is_str (ev_Payload e !! "taskRunId") (run_ID run))
              (events_of s (run_SessionID run)) with
      | Some event => Ok (default "" (val_str (ev_Payload event !! "text")),
                          default ∅ (t_runRouting s !! run_ID run))
      | None => Err ErrNotFound
      end
  end.
