(* ===== verification/TaskInv.v ===== *)
(** * Task sessions: invariants

    The event log of a session is numbered without gaps, a run belongs to the
    session and namespace it was created in, and at no time are more runs in
    progress than the account and its namespaces allow. *)

From S2P Require Import Prelude GoLib TaskStore.
Open Scope Z_scope.
Open Scope bool_scope.
Open Scope go_scope.

(** ** The parts of the invariant *)

(** The log of session [id]: [evs] in order, with the counters of [x]. *)
Record log_of (id : string) (x : Session) (evs : list Event) : Prop := {
  log_id : ses_ID x = id;
  log_last : ses_LastEventSeq x = Z.of_nat (length evs);
  log_ver : ses_SnapshotVer x = Z.of_nat (length evs);
  log_seq : ∀ i e, evs !! i = Some e → ev_Seq e = Z.of_nat i + 1 ∧ ev_SessionID e = id
}.

Definition home (s : MemoryStore) (nsID account : string) : Prop :=
  ∃ n, t_namespaces s !! nsID = Some n ∧ ns_AccountID n = account.

Record log_ok (s : MemoryStore) : Prop := {
  lo_session : ∀ id x, t_sessions s !! id = Some x →
    log_of id x (events_of s id) ∧ home s (ses_NamespaceID x) (ses_AccountID x);
  lo_none : ∀ id, t_sessions s !! id = None → events_of s id = []
}.

(** Requests lead to logged events that carry them. *)
Definition req_ok (s : MemoryStore) : Prop :=
  ∀ k e, t_eventByRequest s !! k = Some e →
    e ∈ events_of s (ev_SessionID e) ∧ k = request_key (ev_SessionID e) (ev_ClientRequestID e).

(** A run waits unclaimed, was claimed once and runs, or has ended. *)
Definition run_shape (r : TaskRun) : Prop :=
  (run_State r = TaskRunQueued ∧ run_Fence r = 0 ∧ run_Attempt r = 0) ∨
  (run_State r = TaskRunRunning ∧ run_Fence r = 1 ∧ run_Attempt r = 1) ∨
  (runFinished (run_State r) = true ∧ 0 ≤ run_Fence r ≤ 1 ∧ run_Attempt r = run_Fence r).

Definition run_home (s : MemoryStore) (r : TaskRun) : Prop :=
  ∃ x, t_sessions s !! run_SessionID r = Some x ∧ ses_AccountID x = run_AccountID r ∧
       ses_NamespaceID x = run_NamespaceID r.

Record run_ok (s : MemoryStore) : Prop := {
  ro_run : ∀ id r, t_taskRuns s !! id = Some r → run_ID r = id ∧ run_shape r ∧ run_home s r;
  ro_global : ∀ a, countActive (t_taskRuns s) a ≤ defaultGlobalMaxActive;
  ro_ns : ∀ a id n, t_namespaces s !! id = Some n →
    countActiveForNamespace (t_taskRuns s) a id ≤ ns_MaxActiveRuns n
}.

Definition ns_ok (s : MemoryStore) : Prop :=
  ∀ id n, t_namespaces s !! id = Some n →
    ns_ID n = id ∧ 0 < ns_MaxActiveRuns n ≤ defaultNamespaceMaxActive.

Record ts_ok (s : MemoryStore) : Prop := {
  to_ns : ns_ok s; to_log : log_ok s; to_req : req_ok s; to_run : run_ok s
}.

(** Room for one more command in a log numbered by int64. *)
Definition room (s : MemoryStore) (id : string) : Prop :=
  Z.of_nat (length (events_of s id)) + 2 ≤ int64_max.

(** ** Counting *)

Lemma map_count_insert_new {V} (p : V → bool) (m : gmap string V) k v :
  m !! k = None → map_count p (<[k := v]> m) = (if p v then 1 else 0) + map_count p m.
Proof. intros. unfold map_count. by rewrite msum_insert_new. Qed.

Lemma map_count_insert_old {V} (p : V → bool) (m : gmap string V) k v w :
  m !! k = Some w →
  map_count p (<[k := v]> m) = map_count p m - (if p w then 1 else 0) + (if p v then 1 else 0).
Proof. intros. unfold map_count. by rewrite (msum_insert_old _ _ _ _ w). Qed.

Lemma map_count_nonneg {V} (p : V → bool) (m : gmap string V) : 0 ≤ map_count p m.
Proof. apply msum_nonneg. intros. by case_match. Qed.

(** No run of an unknown namespace is active. *)
Lemma no_active_elsewhere s a id :
  run_ok s → log_ok s → t_namespaces s !! id = None →
  countActiveForNamespace (t_taskRuns s) a id = 0.
Proof.
  intros [Hr _ _] [Hl _] Hn. apply msum_zero. intros k r Hk.
  destruct (Hr _ _ Hk) as (_ & _ & x & Hx & _ & Hns).
  destruct (Hl _ _ Hx) as [_ (n & Hns' & _)]. unfold active_in.
  rewrite (bool_decide_false (run_NamespaceID r = id)), andb_false_r; [done|]. congruence.
Qed.

(** ** Logs *)

Lemma events_of_insert s id evs id' :
  events_of (s <| t_events := <[id := evs]> (t_events s) |>) id' =
  if id == id' then evs else events_of s id'.
Proof.
  unfold events_of. getset. destruct (decide (id = id')) as [->|Hne].
  - by rewrite lookup_insert_eq, bool_decide_true.
  - by rewrite lookup_insert_ne, bool_decide_false.
Qed.

Lemma int64_small n : 0 ≤ n ≤ int64_max → int64 n = n.
Proof. intros. apply int64_id. unfold in_int64, int64_min, int64_max in *. lia. Qed.

(** Appending [evs], numbered from the session's counter. *)
Definition numbered (id : string) (from : Z) (evs : list Event) : Prop :=
  ∀ i e, evs !! i = Some e → ev_Seq e = from + Z.of_nat i ∧ ev_SessionID e = id.

Lemma log_of_append id x evs new x' :
  log_of id x evs → numbered id (Z.of_nat (length evs) + 1) new →
  ses_ID x' = ses_ID x →
  ses_LastEventSeq x' = Z.of_nat (length evs) + Z.of_nat (length new) →
  ses_SnapshotVer x' = Z.of_nat (length evs) + Z.of_nat (length new) →
  log_of id x' (evs ++ new).
Proof.
  intros [Hid Hl Hv Hs] Hn E1 E2 E3. constructor; rewrite ?length_app; try congruence; try lia.
  intros i e [Hi|[Hge Hi]]%lookup_app_Some; [by apply Hs|].
  destruct (Hn _ _ Hi) as [-> ->]. split; [lia|done].
Qed.

(** Session tables that differ in one row, with the same homes. *)
Lemma log_ok_append s s' id x x' new :
  log_ok s → t_sessions s !! id = Some x →
  t_namespaces s' = t_namespaces s → t_sessions s' = <[id := x']> (t_sessions s) →
  t_events s' = <[id := events_of s id ++ new]> (t_events s) →
  numbered id (Z.of_nat (length (events_of s id)) + 1) new →
  ses_ID x' = ses_ID x → ses_NamespaceID x' = ses_NamespaceID x →
  ses_AccountID x' = ses_AccountID x →
  ses_LastEventSeq x' = Z.of_nat (length (events_of s id)) + Z.of_nat (length new) →
  ses_SnapshotVer x' = Z.of_nat (length (events_of s id)) + Z.of_nat (length new) →
  log_ok s'.
Proof.
  intros [Hs Hn] Hx En Es Ee Hnum E1 E2 E3 E4 E5.
  assert (He : ∀ id', events_of s' id' = if id == id' then events_of s id ++ new else events_of s id').
  { intros id'. rewrite <-(events_of_insert s id). unfold events_of. getset. by rewrite Ee. }
  destruct (Hs _ _ Hx) as [Hlog Hhome]. constructor.
  - intros id' y. rewrite Es, He. unfold home. rewrite En.
    intros [[<- <-]|[Hne Hy]]%lookup_insert_Some.
    + rewrite bool_decide_true, E2, E3 by done. split; [|done]. by apply (log_of_append _ x).
    + rewrite bool_decide_false by done. by apply Hs.
  - intros id'. rewrite Es, He. intros [Hy Hne]%lookup_insert_None.
    rewrite bool_decide_false by done. by apply Hn.
Qed.

Lemma log_ok_same s s' :
  log_ok s → t_namespaces s' = t_namespaces s → t_sessions s' = t_sessions s →
  t_events s' = t_events s → log_ok s'.
Proof.
  intros [Hs Hn] E1 E2 E3. constructor; unfold events_of, home; rewrite ?E1, ?E2, ?E3; done.
Qed.

(** ** Runs *)

(** Sessions may change, but not where they live. *)
Definition homes_kept (s s' : MemoryStore) : Prop :=
  t_namespaces s' = t_namespaces s ∧
  ∀ id x, t_sessions s !! id = Some x → ∃ x', t_sessions s' !! id = Some x' ∧
    ses_AccountID x' = ses_AccountID x ∧ ses_NamespaceID x' = ses_NamespaceID x.

Lemma homes_kept_refl s : homes_kept s s.
Proof. split; eauto. Qed.

Lemma run_home_kept s s' r : homes_kept s s' → run_home s r → run_home s' r.
Proof.
  intros [_ H] (x & Hx & E1 & E2). destruct (H _ _ Hx) as (x' & Hx' & E3 & E4).
  exists x'. split_and!; congruence.
Qed.

Lemma run_ok_same s s' :
  run_ok s → homes_kept s s' → t_taskRuns s' = t_taskRuns s → run_ok s'.
Proof.
  intros [Hr Hg Hn] Hh E. constructor; rewrite E; try done.
  - intros id r Hid. destruct (Hr _ _ Hid) as (? & ? & ?). eauto using run_home_kept.
  - destruct Hh as [-> _]. done.
Qed.

(** A new run waits in the queue. *)
Lemma run_ok_new s s' r :
  run_ok s → homes_kept s s' → t_taskRuns s !! run_ID r = None →
  t_taskRuns s' = <[run_ID r := r]> (t_taskRuns s) →
  run_State r = TaskRunQueued → run_Fence r = 0 → run_Attempt r = 0 → run_home s' r → run_ok s'.
Proof.
  intros [Hr Hg Hn] Hh Hid E Hst Hf Ha Hho. constructor; rewrite E.
  - intros id x [[<- <-]|[_ Hx]]%lookup_insert_Some.
    + split_and!; try done. left. done.
    + destruct (Hr _ _ Hx) as (? & ? & ?). eauto using run_home_kept.
  - intros a. unfold countActive. rewrite map_count_insert_new by done.
    unfold active_for at 1. rewrite Hst, andb_false_r. apply Hg.
  - intros a id n. destruct Hh as [-> _]. intros Hnn. unfold countActiveForNamespace.
    rewrite map_count_insert_new by done. unfold active_in at 1. rewrite Hst, andb_false_r.
    by apply Hn.
Qed.

(** A run keeps its identity. *)
Definition same_run (r r' : TaskRun) : Prop :=
  run_ID r' = run_ID r ∧ run_AccountID r' = run_AccountID r ∧
  run_NamespaceID r' = run_NamespaceID r ∧ run_SessionID r' = run_SessionID r.

Lemma same_run_active a id r r' :
  same_run r r' → active_for a r' = (run_AccountID r == a) && (run_State r' == TaskRunRunning) ∧
  active_in a id r' = (run_AccountID r == a) && (run_NamespaceID r == id) && (run_State r' == TaskRunRunning).
Proof. intros (_ & E1 & E2 & _). unfold active_for, active_in. by rewrite E1, E2. Qed.

(** A step that does not put the run in progress. *)
Lemma run_ok_set s s' r r' :
  run_ok s → homes_kept s s' → t_taskRuns s !! run_ID r = Some r →
  t_taskRuns s' = <[run_ID r' := r']> (t_taskRuns s) → same_run r r' → run_shape r' →
  (run_State r' = TaskRunRunning → run_State r = TaskRunRunning) → run_ok s'.
Proof.
  intros [Hr Hg Hn] Hh Hid E Hsame Hshape Hact.
  pose proof Hsame as (E1 & E2 & E3 & E4). rewrite E1 in E.
  assert (Hle : ∀ (b : bool), (if b && (run_State r' == TaskRunRunning) then 1 else 0) ≤
                (if b && (run_State r == TaskRunRunning) then 1 else 0)).
  { intros b. destruct b; simpl; [|done].
    destruct (decide (run_State r' = TaskRunRunning)) as [H|H].
    - by rewrite !bool_decide_true by auto.
    - rewrite (bool_decide_false (run_State r' = _)) by done. by case_match. }
  constructor; rewrite E.
  - intros id x [[<- <-]|[_ Hx]]%lookup_insert_Some.
    + destruct (Hr _ _ Hid) as (? & ? & Hho). split_and!; try done.
      apply (run_home_kept _ _ _ Hh). unfold run_home. by rewrite E2, E3, E4.
    + destruct (Hr _ _ Hx) as (? & ? & ?). eauto using run_home_kept.
  - intros a. unfold countActive. rewrite (map_count_insert_old _ _ _ _ r) by done.
    destruct (same_run_active a "" _ _ Hsame) as [-> _]. specialize (Hg a).
    unfold countActive, active_for in *. specialize (Hle (run_AccountID r == a)). lia.
  - intros a id n. destruct Hh as [-> _]. intros Hnn. unfold countActiveForNamespace.
    rewrite (map_count_insert_old _ _ _ _ r) by done.
    destruct (same_run_active a id _ _ Hsame) as [_ ->]. specialize (Hn a id n Hnn).
    unfold countActiveForNamespace, active_in in *.
    specialize (Hle ((run_AccountID r == a) && (run_NamespaceID r == id))). lia.
Qed.

(** A claim puts a queued run in progress below both limits. *)
Lemma run_ok_claim s s' r r' n :
  run_ok s → homes_kept s s' → t_taskRuns s !! run_ID r = Some r →
  t_taskRuns s' = <[run_ID r' := r']> (t_taskRuns s) → same_run r r' →
  run_State r' = TaskRunRunning → run_Fence r' = 1 → run_Attempt r' = 1 →
  countActive (t_taskRuns s) (run_AccountID r) < defaultGlobalMaxActive →
  t_namespaces s !! run_NamespaceID r = Some n →
  countActiveForNamespace (t_taskRuns s) (run_AccountID r) (run_NamespaceID r) < ns_MaxActiveRuns n →
  run_ok s'.
Proof.
  intros [Hr Hg Hn] Hh Hid E Hsame Hst Hf Ha Hlg Hns Hln.
  pose proof Hsame as (E1 & E2 & E3 & E4). rewrite E1 in E. constructor; rewrite E.
  - intros id x [[<- <-]|[_ Hx]]%lookup_insert_Some.
    + destruct (Hr _ _ Hid) as (? & ? & Hho). split_and!; try done.
      * right; left. done.
      * apply (run_home_kept _ _ _ Hh). unfold run_home. by rewrite E2, E3, E4.
    + destruct (Hr _ _ Hx) as (? & ? & ?). eauto using run_home_kept.
  - intros a. unfold countActive. rewrite (map_count_insert_old _ _ _ _ r) by done.
    destruct (same_run_active a "" _ _ Hsame) as [-> _]. specialize (Hg a).
    unfold countActive, active_for in *.
    destruct (decide (run_AccountID r = a)) as [<-|Hne].
    + rewrite Hst, !bool_decide_true by done. simpl. case_match; lia.
    + rewrite !(bool_decide_false (run_AccountID r = a)) by done. simpl. lia.
  - intros a id m. destruct Hh as [-> _]. intros Hnn. unfold countActiveForNamespace.
    rewrite (map_count_insert_old _ _ _ _ r) by done.
    destruct (same_run_active a id _ _ Hsame) as [_ ->]. specialize (Hn a id m Hnn).
    unfold countActiveForNamespace, active_in in *.
    destruct (decide (run_AccountID r = a ∧ run_NamespaceID r = id)) as [[<- <-]|Hne].
    + rewrite Hst, !bool_decide_true by done. simpl. simplify_eq. case_match; lia.
    + assert ((run_AccountID r == a) && (run_NamespaceID r == id) = false) as ->; [|simpl; lia].
      apply andb_false_iff. destruct (decide (run_AccountID r = a)); [right|left];
        apply bool_decide_eq_false; tauto.
Qed.

(** ** Committing events *)

Section commit.
Context (s s1 : MemoryStore) (id : string) (x : Session) (new : list Event)
        (ctx : vmap) (at_ : time) (seq n : Z).
Context (Hlog : log_ok s) (Hx : t_sessions s !! id = Some x) (Hroom : room s id).
Context (Hn : n = Z.of_nat (length new)) (Hlen : (length new ≤ 2)%nat).
Context (En : t_namespaces s1 = t_namespaces s) (Es : t_sessions s1 = t_sessions s).
Context (Ee : t_events s1 = <[id := events_of s id ++ new]> (t_events s)).
Context (Hnum : numbered id (ses_LastEventSeq x + 1) new) (Hseq : seq = ses_LastEventSeq x + n).

Let s' := save_session x seq n ctx at_ s1.

Lemma commit_log : log_ok s'.
Proof using All.
  destruct (lo_session s Hlog _ _ Hx) as [[Hid Hl Hv Hs] _].
  apply (log_ok_append s s' id x (x <| ses_LastEventSeq := seq |>
    <| ses_SnapshotVer := int64 (ses_SnapshotVer x + n) |> <| ses_Context := ctx |>
    <| ses_UpdatedAt := at_ |>) new); unfold s', save_session; getset; try done.
  - by rewrite Es, Hid.
  - by rewrite Hl in Hnum.
  - by rewrite Hseq, Hl, Hn.
  - rewrite Hv, Hn. apply int64_small. unfold room in Hroom. lia.
Qed.

Lemma commit_homes : homes_kept s s'.
Proof using All.
  destruct (lo_session s Hlog _ _ Hx) as [[Hid _ _ _] _].
  split; unfold s', save_session; getset; [done|]. rewrite Es, Hid.
  intros id' y Hy. destruct (decide (id = id')) as [<-|Hne].
  - rewrite lookup_insert_eq. simplify_eq. eexists. split; [done|]. by getset.
  - rewrite lookup_insert_ne by done. eauto.
Qed.

Lemma commit_events e id' : e ∈ events_of s id' → e ∈ events_of s' id'.
Proof using Ee.
  unfold s', save_session, events_of. getset. rewrite Ee. intros He.
  destruct (decide (id = id')) as [<-|Hne].
  - rewrite lookup_insert_eq. simpl. apply elem_of_app. by left.
  - by rewrite lookup_insert_ne.
Qed.

Lemma commit_new e : e ∈ new → e ∈ events_of s' id.
Proof using Ee.
  unfold s', save_session, events_of. getset. rewrite Ee, lookup_insert_eq.
  intros He. simpl. apply elem_of_app. by right.
Qed.
End commit.

Lemma req_ok_grow s s' :
  req_ok s → (∀ e id, e ∈ events_of s id → e ∈ events_of s' id) →
  t_eventByRequest s' = t_eventByRequest s → req_ok s'.
Proof. intros Hr Hg E k e Hk. rewrite E in Hk. destruct (Hr _ _ Hk). eauto. Qed.

Lemma req_ok_add s s' k e :
  req_ok s → (∀ e id, e ∈ events_of s id → e ∈ events_of s' id) →
  t_eventByRequest s' = <[k := e]> (t_eventByRequest s) →
  e ∈ events_of s' (ev_SessionID e) → k = request_key (ev_SessionID e) (ev_ClientRequestID e) →
  req_ok s'.
Proof.
  intros Hr Hg E He Hk k' e' Hk'. rewrite E in Hk'.
  apply lookup_insert_Some in Hk' as [[<- <-]|[_ Hk']]; [done|].
  destruct (Hr _ _ Hk'). eauto.
Qed.

Lemma numbered_one id from e :
  ev_Seq e = from → ev_SessionID e = id → numbered id from [e].
Proof. intros <- <- [|i] y Hy; [|done]. injection Hy as <-. split; [lia|done]. Qed.

Lemma numbered_two id from e f :
  ev_Seq e = from → ev_SessionID e = id → ev_Seq f = from + 1 → ev_SessionID f = id →
  numbered id from [e; f].
Proof.
  intros <- <- E1 E2 [|[|i]] y Hy; simplify_eq/=; split; try done; lia.
Qed.

Lemma seq_next s id x :
  log_ok s → t_sessions s !! id = Some x → room s id →
  int64 (ses_LastEventSeq x + 1) = ses_LastEventSeq x + 1 ∧
  int64 (ses_LastEventSeq x + 1 + 1) = ses_LastEventSeq x + 2.
Proof.
  intros Hl Hx Hr. destruct (lo_session s Hl _ _ Hx) as [[_ H _ _] _].
  unfold room in Hr. rewrite !int64_small by lia. lia.
Qed.

(** Committing events together with a change of the runs. *)
Lemma commit_ok s s1 id x new ctx at_ seq n :
  ts_ok s → t_sessions s !! id = Some x → room s id →
  n = Z.of_nat (length new) → (length new ≤ 2)%nat →
  t_namespaces s1 = t_namespaces s → t_sessions s1 = t_sessions s →
  t_events s1 = <[id := events_of s id ++ new]> (t_events s) →
  numbered id (ses_LastEventSeq x + 1) new → seq = ses_LastEventSeq x + n →
  (t_eventByRequest s1 = t_eventByRequest s ∨ ∃ e, e ∈ new ∧
     t_eventByRequest s1 = <[request_key id (ev_ClientRequestID e) := e]> (t_eventByRequest s)) →
  (∀ s', homes_kept s s' → t_taskRuns s' = t_taskRuns s1 → run_ok s') →
  ts_ok (save_session x seq n ctx at_ s1).
Proof.
  intros Hs Hx Hroom Hn Hlen En Es Ee Hnum Hseq Hq Hr.
  pose proof (commit_homes s s1 id x new ctx at_ seq n (to_log s Hs) Hx Hroom Hn Hlen En Es Ee Hnum Hseq)
    as Hh.
  pose proof (commit_events s s1 id x new ctx at_ seq n Ee) as Hg.
  constructor.
  - unfold ns_ok, save_session. getset. rewrite En. apply to_ns, Hs.
  - by eapply (commit_log s s1 id x new); try apply to_log.
  - destruct Hq as [Hq|(e & He & Hq)].
    + by eapply req_ok_grow; [apply (to_req s Hs)|done|].
    + apply list_elem_of_lookup in He as He'. destruct He' as [i Hi].
      destruct (Hnum _ _ Hi) as [_ Hid].
      eapply (req_ok_add s _ _ e); [apply (to_req s Hs)|done|exact Hq| |by rewrite Hid].
      rewrite Hid. by apply (commit_new s s1 id x new).
  - by apply Hr.
Qed.

(** ** Preservation by the commands *)

Lemma AppendEvent_ok now input s r s' :
  ts_ok s → room s (aei_SessionID input) → AppendEvent now input s = (r, s') → ts_ok s'.
Proof.
  intros Hs Hroom H. unfold AppendEvent in H. cbv zeta in H.
  destruct (t_sessions s !! aei_SessionID input) as [x|] eqn:Hx; [|by injection H as <- <-].
  destruct (ses_AccountID x != _); [by injection H as <- <-|].
  destruct (if aei_ClientRequestID input != "" then _ else None); [by injection H as <- <-|].
  destruct (marshalEventPayload _); [|by injection H as <- <-].
  destruct (seq_next _ _ _ (to_log s Hs) Hx Hroom) as [E1 _]. rewrite E1 in H. getset.
  injection H as <- <-. cbn [ev_Seq ev_SessionID ev_ClientRequestID].
  match goal with |- context [append_events _ [?e] s] => set (ev := e) end.
  set (s1 := if _ != "" then _ else _).
  assert (F : t_namespaces s1 = t_namespaces s ∧ t_sessions s1 = t_sessions s ∧
    t_events s1 = <[aei_SessionID input := events_of s (aei_SessionID input) ++ [ev]]> (t_events s) ∧
    t_taskRuns s1 = t_taskRuns s) by (unfold s1; by case_match).
  destruct F as (F1 & F2 & F3 & F4).
  apply (commit_ok s s1 (aei_SessionID input) x [ev]); try done; simpl; try lia; [by apply numbered_one| |].
  - unfold s1. case_match; [|by left]. right. exists ev. split; [by left|done].
  - intros s' Hh E. eapply run_ok_same; [apply (to_run s Hs)|done|congruence].
Qed.

(** A call that returns early leaves the store. *)
Ltac early H := by injection H as <- <-.

Lemma AppendMessage_ok newID now input s r s' :
  ts_ok s → room s (TrimSpace (ami_SessionID input)) →
  AppendMessage newID now input s = (r, s') → ts_ok s'.
Proof.
  intros Hs Hroom H. unfold AppendMessage in H. cbv zeta in H.
  destruct (_ || _ || _ || _); [early H|].
  destruct (NormalizeRouting _); [|early H].
  destruct (t_sessions s !! _) as [x|] eqn:Hx; [|early H].
  destruct (ses_AccountID x != _) eqn:Eacc; [early H|]. bools.
  destruct (t_eventByRequest s !! _); [early H|].
  set (rid := if TrimSpace _ == "" then newID else _) in H.
  destruct (bool_decide (is_Some (t_taskRuns s !! rid))) eqn:Erun; [early H|].
  destruct (messageEventPayload _ _); [|early H].
  destruct (let? _ := _ in _); [|early H].
  destruct (appendMessageToContext _ _); [|early H].
  destruct (seq_next _ _ _ (to_log s Hs) Hx Hroom) as [E1 E2].
  cbn [ev_Seq run_ID] in H. rewrite E1, E2 in H. getset. injection H as <- <-.
  match goal with |- context [append_events _ [?e; ?f] s] => set (m := e); set (q := f) end.
  match goal with |- context [<[rid := ?y]> (t_taskRuns _)] => set (run := y) end.
  eapply (commit_ok s _ _ x [m; q]); try done; simpl; try lia;
    [apply numbered_two; simpl; first [done|lia]| |].
  - right. exists m. split; [by left|done].
  - intros s' Hh E. bools. apply (run_ok_new s s' run); try done; [apply (to_run s Hs)| |].
    + by apply eq_None_not_Some.
    + apply (run_home_kept s); [done|]. exists x. done.
Qed.

Lemma run_lookup_id s id r : run_ok s → t_taskRuns s !! id = Some r → t_taskRuns s !! run_ID r = Some r.
Proof. intros [Hr _ _] H. by destruct (Hr _ _ H) as [-> _]. Qed.

Lemma stateForRunEvent_running t st b :
  stateForRunEvent t TaskRunRunning = Ok (st, b) → st = TaskRunRunning ∨ runFinished st = true.
Proof. unfold stateForRunEvent. intros H. repeat case_match; simplify_eq; auto. Qed.

Lemma RecordTaskRunEvent_ok now input s r s' :
  ts_ok s → (∀ run, t_taskRuns s !! TrimSpace (tri_TaskRunID input) = Some run → room s (run_SessionID run)) →
  RecordTaskRunEvent now input s = (r, s') → ts_ok s'.
Proof.
  intros Hs Hroom H. unfold RecordTaskRunEvent in H. cbv zeta in H.
  destruct (_ || _ || _ || _); [early H|].
  destruct (t_taskRuns s !! _) as [run|] eqn:Hr; [|early H]. specialize (Hroom run eq_refl).
  destruct (run_AccountID run != _); [early H|].
  destruct (t_sessions s !! run_SessionID run) as [x|] eqn:Hx; [|early H].
  destruct (_ || _ || _); [early H|].
  destruct (t_eventByRequest s !! _); [early H|].
  destruct (run_State run != TaskRunRunning) eqn:Est; [early H|]. bools.
  destruct (stateForRunEvent _ _) as [[st fin]|] eqn:Enext; [|early H].
  destruct (marshalEventPayload _); [|early H].
  destruct (seq_next _ _ _ (to_log s Hs) Hx Hroom) as [E1 _].
  rewrite E1 in H. getset. injection H as <- <-. cbn [ev_Seq].
  match goal with |- context [append_events _ [?e] s] => set (ev := e) end.
  eapply (commit_ok s _ _ x [ev]); try done; simpl; try lia; [by apply numbered_one| |].
  - right. exists ev. split; [by left|done].
  - intros s' Hh E. getset. pose proof (to_run s Hs) as Hro.
    pose proof (run_lookup_id _ _ _ Hro Hr) as Hr'.
    eapply (run_ok_set s s' run); [done|done|done|exact E|done| |].
    + rewrite Est in Enext. apply stateForRunEvent_running in Enext.
      destruct (ro_run s Hro _ _ Hr) as (_ & Hsh & _). unfold run_shape in *. getset.
      rewrite Est in Hsh. destruct Hsh as [[? _]|[(_ & Hf & Ha)|[? _]]]; [done| |done].
      destruct Enext as [->|?]; [by right; left|right; right]. rewrite Hf, Ha. split_and!; done.
    + done.
Qed.

Lemma commitCancel_ok input session run type payload s r s' :
  ts_ok s → room s (cri_SessionID input) →
  t_sessions s !! cri_SessionID input = Some session → run_SessionID run = cri_SessionID input →
  (∀ s', homes_kept s s' → t_taskRuns s' = <[run_ID run := run]> (t_taskRuns s) → run_ok s') →
  commitCancel input session run type payload s = (r, s') → ts_ok s'.
Proof.
  intros Hs Hroom Hx Hsid Hrun H. unfold commitCancel in H. cbv zeta in H.
  destruct (seq_next _ _ _ (to_log s Hs) Hx Hroom) as [E1 _].
  rewrite E1 in H. getset. injection H as <- <-. cbn [ev_Seq]. rewrite Hsid.
  match goal with |- context [append_events _ [?e] s] => set (ev := e) end.
  eapply (commit_ok s _ _ session [ev]); try done; simpl; try lia; [by apply numbered_one|].
  right. exists ev. split; [by left|done].
Qed.

Lemma normalizeCancel_ids clock input n :
  normalizeCancel clock input = Ok n →
  cri_SessionID n = TrimSpace (cri_SessionID input) ∧ cri_TaskRunID n = TrimSpace (cri_TaskRunID input).
Proof. unfold normalizeCancel. intros H. repeat case_match; simplify_eq; done. Qed.

Lemma RequestCancel_ok clock input s r s' :
  ts_ok s → room s (TrimSpace (cri_SessionID input)) →
  RequestCancel clock input s = (r, s') → ts_ok s'.
Proof.
  intros Hs Hroom H. unfold RequestCancel in H. cbv zeta in H.
  destruct (normalizeCancel clock input) as [n|] eqn:En; [|early H].
  destruct (normalizeCancel_ids _ _ _ En) as [Es _]. rewrite <-Es in Hroom.
  destruct (t_sessions s !! cri_SessionID n) as [x|] eqn:Hx; [|early H].
  destruct (ses_AccountID x != _); [early H|].
  destruct (t_taskRuns s !! cri_TaskRunID n) as [run|] eqn:Hr; [|early H].
  destruct (_ || _) eqn:Eh; [early H|]. apply orb_false_iff in Eh as [_ Eh]. bools.
  destruct (t_eventByRequest s !! _); [case_match; early H|].
  destruct (runFinished (run_State run)) eqn:Efin; [early H|].
  pose proof (to_run s Hs) as Hro. pose proof (run_lookup_id _ _ _ Hro Hr) as Hr'.
  destruct (ro_run s Hro _ _ Hr) as (_ & Hsh & _).
  destruct (run_State run == TaskRunQueued) eqn:Eq.
  - eapply commitCancel_ok; [done|done|done| | |exact H]; [done|].
    intros t Hh E. getset. bools. eapply (run_ok_set s t run); [done|done|done|exact E|done| |done].
    unfold run_shape in *. getset. right; right. rewrite Eq in Hsh.
    destruct Hsh as [(_ & -> & ->)|[[? _]|[? _]]]; done.
  - destruct (List.find _ _); [early H|].
    eapply commitCancel_ok; [done|done|done|done| |exact H].
    intros t Hh E. eapply (run_ok_set s t run); [done|done|done|exact E|done|done|done].
Qed.

(** ** Which run is claimed *)

(** A run of the namespace that may start now. *)
Definition claimable (a nsID : string) (now : time) (t : TaskRun) : bool :=
  (run_AccountID t == a) && (run_NamespaceID t == nsID) && (run_State t == TaskRunQueued) &&
  negb (After (run_NotBefore t) now).

(** [b] is at least as urgent as [t]. *)
Definition before_run (b t : TaskRun) : Prop :=
  run_Priority t < run_Priority b ∨
  (run_Priority t = run_Priority b ∧ run_CreatedAt b ≤ run_CreatedAt t).

Lemma before_run_trans a b c : before_run a b → before_run b c → before_run a c.
Proof. unfold before_run. lia. Qed.

Lemma older_run_cases a nsID now sel t :
  older_run a nsID now sel t =
    if claimable a nsID now t then
      match sel with
      | None => Some t
      | Some b => if (run_Priority b <? run_Priority t) ||
          ((run_Priority t =? run_Priority b) && Before (run_CreatedAt t) (run_CreatedAt b))
          then Some t else sel
      end
    else sel.
Proof.
  unfold older_run, claimable.
  destruct (run_AccountID t == a), (run_NamespaceID t == nsID), (run_State t == TaskRunQueued),
    (After (run_NotBefore t) now); done.
Qed.

Lemma oldest_foldl a nsID now l sel :
  (∀ b, sel = Some b → claimable a nsID now b = true) →
  match foldl (older_run a nsID now) sel l with
  | None => sel = None ∧ ∀ t, t ∈ l → claimable a nsID now t = false
  | Some r => claimable a nsID now r = true ∧ (sel = Some r ∨ r ∈ l) ∧
      (∀ b, sel = Some b → before_run r b) ∧
      ∀ t, t ∈ l → claimable a nsID now t = true → before_run r t
  end.
Proof.
  revert sel. induction l as [|t l IH]; intros sel Hsel; simpl.
  - destruct sel as [b|]; [|split; [done|set_solver]]. split_and!; auto; [|set_solver].
    intros ? [= <-]. unfold before_run. lia.
  - rewrite older_run_cases. destruct (claimable a nsID now t) eqn:Ec.
    + set (sel' := match sel with None => Some t | Some b => _ end).
      assert (Hs' : ∃ b', sel' = Some b' ∧ (b' = t ∨ sel = Some b') ∧ before_run b' t ∧
                          ∀ b, sel = Some b → before_run b' b).
      { unfold sel'. destruct sel as [b|];
          [|exists t; split_and!; auto; [unfold before_run; lia|done]].
        destruct (_ || _) eqn:E; [exists t|exists b]; split_and!; auto; try (intros ? [= <-]);
          unfold before_run, Before in *; lia. }
      destruct Hs' as (b' & E' & Hor & Hbt & Hbs). rewrite E'.
      specialize (IH (Some b')). destruct (foldl _ _ _) as [r|].
      * destruct IH as (H1 & H2 & H3 & H4).
        { intros ? [= <-]. destruct Hor as [->|Hb]; auto. }
        pose proof (H3 _ eq_refl) as Hr. split_and!; [done| | |].
        -- destruct H2 as [[= <-]|H2]; [|right; by right].
           destruct Hor as [->|]; [right; left|by left].
        -- intros b Hb. eauto using before_run_trans.
        -- intros y [->|Hy]%elem_of_cons Hcl; eauto using before_run_trans.
      * destruct IH as [? _]; [|done]. intros ? [= <-]. destruct Hor as [->|Hb]; auto.
    + specialize (IH sel Hsel). destruct (foldl _ _ _) as [r|].
      * destruct IH as (H1 & H2 & H3 & H4). split_and!; [done| |done|].
        { destruct H2; [by left|right; by right]. }
        intros y [->|Hy]%elem_of_cons Hcl; [congruence|auto].
      * destruct IH as [H1 H2]. split; [done|]. intros y [->|Hy]%elem_of_cons; auto.
Qed.

Lemma elem_of_range_values `{MapOrder} {V} (m : gmap string V) v :
  v ∈ (range m).*2 ↔ ∃ k, m !! k = Some v.
Proof. rewrite range_perm. apply elem_of_values. Qed.

Lemma oldestEligibleRun_spec `{MapOrder} tasks a nsID now :
  match oldestEligibleRun tasks a nsID now with
  | None => ∀ k t, tasks !! k = Some t → claimable a nsID now t = false
  | Some r => claimable a nsID now r = true ∧ (∃ k, tasks !! k = Some r) ∧
      ∀ k t, tasks !! k = Some t → claimable a nsID now t = true → before_run r t
  end.
Proof.
  unfold oldestEligibleRun. pose proof (oldest_foldl a nsID now (range tasks).*2 None ltac:(done)) as F.
  destruct (foldl _ _ _) as [r|].
  - destruct F as (H1 & [?|H2] & _ & H3); [done|]. apply elem_of_range_values in H2.
    split_and!; auto. intros k t Hk. apply H3, elem_of_range_values. eauto.
  - destruct F as [_ F]. intros k t Hk. apply F, elem_of_range_values. eauto.
Qed.

Lemma claimFrom_cons `{MapOrder} input token now ttl nsID rest s :
  claimFrom input token now ttl (nsID :: rest) s =
    if ns_MaxActiveRuns (default zeroNamespace (t_namespaces s !! nsID)) <=?
       countActiveForNamespace (t_taskRuns s) (ci_AccountID input) nsID
    then claimFrom input token now ttl rest s else
    match oldestEligibleRun (t_taskRuns s) (ci_AccountID input) nsID now with
    | None => claimFrom input token now ttl rest s
    | Some c =>
        (Ok (claimRun input token now ttl c),
         s <| t_taskRuns := <[run_ID (claimRun input token now ttl c) := claimRun input token now ttl c]>
                (t_taskRuns s) |>
           <| t_lastClaimNamespace := <[ci_AccountID input := nsID]> (t_lastClaimNamespace s) |>)
    end.
Proof. reflexivity. Qed.

(** What a successful claim did. *)
Lemma claimFrom_ok `{MapOrder} input token now ttl ids s r s' :
  claimFrom input token now ttl ids s = (Ok r, s') →
  ∃ nsID c, nsID ∈ ids ∧
    (∃ k, t_taskRuns s !! k = Some c) ∧ claimable (ci_AccountID input) nsID now c = true ∧
    (∀ k t, t_taskRuns s !! k = Some t → claimable (ci_AccountID input) nsID now t = true → before_run c t) ∧
    countActiveForNamespace (t_taskRuns s) (ci_AccountID input) nsID <
      ns_MaxActiveRuns (default zeroNamespace (t_namespaces s !! nsID)) ∧
    r = claimRun input token now ttl c ∧
    s' = s <| t_taskRuns := <[run_ID r := r]> (t_taskRuns s) |>
           <| t_lastClaimNamespace := <[ci_AccountID input := nsID]> (t_lastClaimNamespace s) |>.
Proof.
  induction ids as [|nsID ids IH]; [done|]. rewrite claimFrom_cons. intros Hc.
  destruct (_ <=? _) eqn:E;
    [destruct (IH Hc) as (n & c & Hn & Hrest); exists n, c; split; [by right|exact Hrest]|].
  pose proof (oldestEligibleRun_spec (t_taskRuns s) (ci_AccountID input) nsID now) as Hsp.
  destruct (oldestEligibleRun _ _ _ _) as [c|];
    [|destruct (IH Hc) as (n & c & Hn & Hrest); exists n, c; split; [by right|exact Hrest]].
  destruct Hsp as (H1 & H2 & H3). injection Hc as <- <-. exists nsID, c.
  split_and!; try done; [left|lia].
Qed.

Lemma claimFrom_err `{MapOrder} input token now ttl ids s e s' :
  claimFrom input token now ttl ids s = (Err e, s') →
  e = ErrNoEligibleTask ∧ s' = s ∧
  ∀ nsID, nsID ∈ ids →
    ns_MaxActiveRuns (default zeroNamespace (t_namespaces s !! nsID)) ≤
      countActiveForNamespace (t_taskRuns s) (ci_AccountID input) nsID ∨
    ∀ k t, t_taskRuns s !! k = Some t → claimable (ci_AccountID input) nsID now t = false.
Proof.
  induction ids as [|nsID ids IH].
  - intros [= <- <-]. split_and!; [done|done|]. intros nsID Hin. by apply not_elem_of_nil in Hin.
  - rewrite claimFrom_cons. intros Hc.
    pose proof (oldestEligibleRun_spec (t_taskRuns s) (ci_AccountID input) nsID now) as Hsp.
    destruct (_ <=? _) eqn:E; [|destruct (oldestEligibleRun _ _ _ _); [done|]];
      destruct (IH Hc) as (-> & -> & Hall); split_and!; try done;
      intros n [->|Hn]%elem_of_cons; auto. left. lia.
Qed.

Lemma ClaimNext_ok `{MapOrder} token clock input s r s' :
  ts_ok s → ClaimNext token clock input s = (r, s') → ts_ok s'.
Proof.
  intros Hs Hc. unfold ClaimNext in Hc. cbv zeta in Hc.
  set (now := if IsZero _ then clock else _) in Hc. set (ttl := if _ <=? 0 then Minute else _) in Hc.
  destruct (_ <=? countActive _ _) eqn:Eg; [early Hc|]. destruct (_ =? 0); [early Hc|].
  destruct r as [r|e]; [|by apply claimFrom_err in Hc as (_ & -> & _)].
  apply claimFrom_ok in Hc as (nsID & c & _ & [k Hk] & Hcl & _ & Hact & -> & ->).
  destruct Hs as [Hns Hlog Hreq Hrun]. unfold claimable in Hcl. bools.
  match goal with E : run_AccountID c = _ |- _ => rewrite <-E in * end.
  match goal with E : run_NamespaceID c = _ |- _ => rewrite <-E in * end.
  pose proof (run_lookup_id _ _ _ Hrun Hk) as Hk'.
  destruct (ro_run s Hrun _ _ Hk) as (_ & Hsh & x & Hx & Ex1 & Ex2).
  destruct (lo_session s Hlog _ _ Hx) as [_ (n & Hn & _)]. rewrite Ex2 in Hn. rewrite Hn in Hact.
  assert (Hf : run_Fence c = 0 ∧ run_Attempt c = 0).
  { unfold run_shape in Hsh. match goal with E : run_State c = _ |- _ => rewrite E in Hsh end.
    by destruct Hsh as [(_ & ? & ?)|[[? _]|[? _]]]. }
  destruct Hf as [Hf Ha]. constructor; [done|by apply (log_ok_same s)|done|].
  apply (run_ok_claim s _ c (claimRun input token now ttl c) n); try done.
  - split; eauto.
  - unfold claimRun. getset. by rewrite Hf.
  - unfold claimRun. getset. by rewrite Ha.
  - unfold defaultGlobalMaxActive in *. case_match; lia.
Qed.

Lemma RenewLease_ok clock input s r s' :
  ts_ok s → RenewLease clock input s = (r, s') → ts_ok s'.
Proof.
  intros Hs H. unfold RenewLease in H. cbv zeta in H.
  destruct (normalizeRenew clock input) as [n|]; [|early H].
  destruct (t_taskRuns s !! _) as [run|] eqn:Hr; [|early H].
  destruct (_ != _); [early H|]. destruct (_ || _ || _ || _ || _); [early H|].
  injection H as <- <-. destruct Hs as [Hns Hlog Hreq Hrun].
  constructor; [done|by apply (log_ok_same s)|done|].
  pose proof (run_lookup_id _ _ _ Hrun Hr) as Hr'.
  destruct (ro_run s Hrun _ _ Hr) as (_ & Hsh & _).
  match goal with |- context [<[_ := ?y]> (t_taskRuns s)] => apply (run_ok_set s _ run y) end;
    try done. split; eauto.
Qed.

Lemma EnqueueTaskRun_ok now input s r s' :
  ts_ok s → EnqueueTaskRun now input s = (r, s') → ts_ok s'.
Proof.
  intros Hs H. unfold EnqueueTaskRun in H. cbv zeta in H.
  destruct (bool_decide _) eqn:Eid; [early H|].
  destruct (t_sessions s !! _) as [x|] eqn:Hx; [|early H].
  destruct (_ || _) eqn:Eh; [early H|]. injection H as <- <-. bools.
  destruct Hs as [Hns Hlog Hreq Hrun]. constructor; [done|by apply (log_ok_same s)|done|].
  match goal with |- context [<[_ := ?y]> (t_taskRuns s)] => apply (run_ok_new s _ y) end;
    try done; [split; eauto|by apply eq_None_not_Some|by exists x].
Qed.

Lemma CreateSession_ok now input s r s' :
  ts_ok s → CreateSession now input s = (r, s') → ts_ok s'.
Proof.
  intros Hs H. unfold CreateSession in H. cbv zeta in H.
  destruct (bool_decide _) eqn:Eid; [early H|].
  destruct (t_namespaces s !! _) as [n|] eqn:Hn; [|early H].
  destruct (ns_AccountID n != _) eqn:Ea; [early H|]. destruct (_ == ""); [early H|].
  injection H as <- <-. cbn [ses_ID]. bools. apply eq_None_not_Some in Eid.
  destruct Hs as [Hns Hlog Hreq Hrun]. constructor; try done.
  - constructor; getset.
    + intros id x. unfold events_of, home. getset.
      intros [[<- <-]|[_ Hx]]%lookup_insert_Some; [|by apply Hlog].
      split; [|by exists n]. rewrite (lo_none s Hlog _ Eid : default [] (t_events s !! _) = []).
      by constructor.
    + intros id [Hx _]%lookup_insert_None. by apply Hlog.
  - eapply (run_ok_same s); [done| |done]. split; [done|]. getset.
    intros id x Hx. exists x. rewrite lookup_insert_ne; [done|congruence].
Qed.

Lemma createNamespaceLocked_ok now input s r s' :
  ts_ok s → createNamespaceLocked now input s = (r, s') → ts_ok s'.
Proof.
  intros Hs H. unfold createNamespaceLocked in H. cbv zeta in H.
  destruct (_ || _ || _); [early H|].
  destruct (bool_decide (is_Some (t_namespaces s !! _))) eqn:Eid; [early H|].
  destruct (bool_decide (is_Some (default ∅ _ !! _))); [early H|]. injection H as <- <-. bools. apply eq_None_not_Some in Eid.
  match goal with |- context [<[_ := ?y]> (t_namespaces s)] => set (ns := y) end.
  assert (Hmax : 0 < ns_MaxActiveRuns ns ≤ defaultNamespaceMaxActive).
  { unfold ns. cbn [ns_MaxActiveRuns]. unfold defaultNamespaceMaxActive.
    destruct (_ || _) eqn:E; [done|]. apply orb_false_iff in E as [E1 E2].
    unfold defaultNamespaceMaxActive in *. lia. }
  pose proof Hs as [Hns Hlog Hreq Hrun]. constructor.
  - intros id n. getset. intros [[<- <-]|[_ Hn]]%lookup_insert_Some; [done|by apply Hns].
  - constructor; [|apply Hlog]. intros id x Hx. destruct (lo_session s Hlog _ _ Hx) as [Hl (m & Hm & ?)].
    split; [done|]. exists m. getset. rewrite lookup_insert_ne; [done|congruence].
  - done.
  - destruct Hrun as [Hr Hg Hc]. constructor; getset; try done.
    intros a id n [[<- <-]|[_ Hn]]%lookup_insert_Some; [|by apply Hc].
    rewrite no_active_elsewhere; [lia|by constructor|done|done].
Qed.

Lemma EnsurePersonalNamespace_ok newID clock account now s r s' :
  ts_ok s → EnsurePersonalNamespace newID clock account now s = (r, s') → ts_ok s'.
Proof.
  intros Hs H. unfold EnsurePersonalNamespace in H. cbv zeta in H.
  destruct (_ == ""); [early H|]. destruct (_ != ""); [early H|].
  by eapply createNamespaceLocked_ok.
Qed.
