(* ===== verification/TaskProps.v ===== *)
(** * Task sessions: what the store guarantees

    Histories of commands, the limits they respect, the life of a run and its
    lease, replays, claims and reads. *)

From S2P Require Import Prelude GoLib TaskStore TaskInv.
Open Scope Z_scope.
Open Scope bool_scope.
Open Scope go_scope.

(** ** Histories *)

(** One command, whatever it returns, with the iteration order its loops
    happen to use; logs stay below the range of int64. *)
Inductive ts_step (s : MemoryStore) : MemoryStore → Prop :=
| StepEnsure newID clock account now r s' :
    EnsurePersonalNamespace newID clock account now s = (r, s') → ts_step s s'
| StepNamespace now input r s' : CreateNamespace now input s = (r, s') → ts_step s s'
| StepSession now input r s' : CreateSession now input s = (r, s') → ts_step s s'
| StepEvent now input r s' :
    room s (aei_SessionID input) → AppendEvent now input s = (r, s') → ts_step s s'
| StepMessage newID now input r s' :
    room s (TrimSpace (ami_SessionID input)) →
    AppendMessage newID now input s = (r, s') → ts_step s s'
| StepEnqueue now input r s' : EnqueueTaskRun now input s = (r, s') → ts_step s s'
| StepClaim (order : MapOrder) token clock input r s' :
    ClaimNext token clock input s = (r, s') → ts_step s s'
| StepRecord now input r s' :
    (∀ run, t_taskRuns s !! TrimSpace (tri_TaskRunID input) = Some run → room s (run_SessionID run)) →
    RecordTaskRunEvent now input s = (r, s') → ts_step s s'
| StepRenew clock input r s' : RenewLease clock input s = (r, s') → ts_step s s'
| StepCancel clock input r s' :
    room s (TrimSpace (cri_SessionID input)) →
    RequestCancel clock input s = (r, s') → ts_step s s'.

Inductive ts_reachable : MemoryStore → Prop :=
| TsNew : ts_reachable NewMemoryStore
| TsStep s s' : ts_reachable s → ts_step s s' → ts_reachable s'.

Lemma ts_ok_new : ts_ok NewMemoryStore.
Proof.
  constructor; [| constructor | | constructor]; try done; intros *; try done;
    by rewrite ?lookup_empty.
Qed.

Lemma ts_step_ok s s' : ts_ok s → ts_step s s' → ts_ok s'.
Proof.
  intros Hs [????? s1 H|??? s1 H|??? s1 H|??? s1 Hroom H|???? s1 Hroom H|??? s1 H|????? s1 H
    |??? s1 Hroom H|??? s1 H|??? s1 Hroom H].
  - exact (EnsurePersonalNamespace_ok _ _ _ _ _ _ _ Hs H).
  - exact (createNamespaceLocked_ok _ _ _ _ _ Hs H).
  - exact (CreateSession_ok _ _ _ _ _ Hs H).
  - exact (AppendEvent_ok _ _ _ _ _ Hs Hroom H).
  - exact (AppendMessage_ok _ _ _ _ _ _ Hs Hroom H).
  - exact (EnqueueTaskRun_ok _ _ _ _ _ Hs H).
  - exact (ClaimNext_ok _ _ _ _ _ _ Hs H).
  - exact (RecordTaskRunEvent_ok _ _ _ _ _ Hs Hroom H).
  - exact (RenewLease_ok _ _ _ _ _ Hs H).
  - exact (RequestCancel_ok _ _ _ _ _ Hs Hroom H).
Qed.

Lemma ts_reachable_ok s : ts_reachable s → ts_ok s.
Proof. induction 1; eauto using ts_ok_new, ts_step_ok. Qed.

(** C17: in every history, the events of a session are numbered 1, 2, 3, ...
    without gaps or repetitions, and the session's cursor and snapshot version
    are the number of its last event. *)
Theorem event_log_contiguous s id x :
  ts_reachable s → t_sessions s !! id = Some x →
  (ev_Seq <$> events_of s id) = Z.of_nat <$> seq 1 (length (events_of s id)) ∧
  ses_LastEventSeq x = Z.of_nat (length (events_of s id)) ∧
  ses_SnapshotVer x = ses_LastEventSeq x.
Proof.
  intros Hr Hx. apply ts_reachable_ok in Hr.
  destruct (lo_session s (to_log s Hr) _ _ Hx) as [[_ Hl Hv Hs] _].
  split_and!; [|done|congruence]. apply list_eq. intros i. rewrite !list_lookup_fmap.
  destruct (events_of s id !! i) as [e|] eqn:Ei.
  - destruct (Hs _ _ Ei) as [Hseq _]. apply lookup_lt_Some in Ei.
    rewrite lookup_seq_lt by done. simpl. rewrite Hseq. f_equal. lia.
  - apply lookup_ge_None in Ei. by rewrite lookup_seq_ge.
Qed.

(** C18: in every history, an account never has more than five runs in
    progress, and no namespace more than its limit, which is at most two. *)
Theorem active_runs_bounded s account :
  ts_reachable s →
  countActive (t_taskRuns s) account ≤ 5 ∧
  ∀ id n, t_namespaces s !! id = Some n →
    countActiveForNamespace (t_taskRuns s) account id ≤ ns_MaxActiveRuns n ≤ 2.
Proof.
  intros Hr. apply ts_reachable_ok in Hr as [Hns _ _ [_ Hg Hn]].
  split; [apply Hg|]. intros id n Hid. specialize (Hns _ _ Hid). specialize (Hn account _ _ Hid).
  unfold defaultNamespaceMaxActive in Hns. lia.
Qed.

(** ** The life of a run *)

(** What one command may do to a run: leave it as it is; note something on
    a run that has not ended, in its state and under its lease; claim it; end
    it. *)
Inductive run_moves (r r' : TaskRun) : Prop :=
| RunSame : r' = r → run_moves r r'
| RunKept : runFinished (run_State r) = false → run_State r' = run_State r →
    run_Fence r' = run_Fence r → run_LeaseToken r' = run_LeaseToken r → run_moves r r'
| RunClaimed : run_State r = TaskRunQueued → run_State r' = TaskRunRunning →
    run_Fence r' = int64 (run_Fence r + 1) → run_moves r r'
| RunEnded : runFinished (run_State r) = false → runFinished (run_State r') = true →
    run_Fence r' = run_Fence r → run_LeaseToken r' = run_LeaseToken r → run_moves r r'.

Definition run_evolves (r r' : TaskRun) : Prop := same_run r r' ∧ run_moves r r'.

Lemma run_evolves_refl r : run_evolves r r.
Proof. split; [done|]. by apply RunSame. Qed.

Lemma run_evolves_set (runs : gmap string TaskRun) id r j y :
  runs !! id = Some r → (∀ x, runs !! j = Some x → run_evolves x y) →
  ∃ r', <[j := y]> runs !! id = Some r' ∧ run_evolves r r'.
Proof.
  intros Hr Hx. destruct (decide (j = id)) as [->|Hne].
  - exists y. rewrite lookup_insert_eq. auto.
  - exists r. rewrite lookup_insert_ne by done. split; [done|apply run_evolves_refl].
Qed.

(** Commands that leave the runs alone, or add one. *)
Lemma run_evolves_same s s' id r :
  t_taskRuns s' = t_taskRuns s → t_taskRuns s !! id = Some r →
  ∃ r', t_taskRuns s' !! id = Some r' ∧ run_evolves r r'.
Proof. intros -> Hr. eauto using run_evolves_refl. Qed.

Lemma run_evolves_new (runs : gmap string TaskRun) id r j y :
  runs !! id = Some r → runs !! j = None →
  ∃ r', <[j := y]> runs !! id = Some r' ∧ run_evolves r r'.
Proof. intros Hr Hj. apply (run_evolves_set runs id r); [done|]. congruence. Qed.

Lemma AppendMessage_runs newID now input s r s' :
  AppendMessage newID now input s = (r, s') →
  t_taskRuns s' = t_taskRuns s ∨
  ∃ j y, t_taskRuns s' = <[j := y]> (t_taskRuns s) ∧ t_taskRuns s !! j = None.
Proof.
  intros H. unfold AppendMessage in H. cbv zeta in H.
  destruct (_ || _ || _ || _); [left; early H|].
  destruct (NormalizeRouting _); [|left; early H].
  destruct (t_sessions s !! _) as [x|]; [|left; early H].
  destruct (ses_AccountID x != _); [left; early H|].
  destruct (t_eventByRequest s !! _); [left; early H|].
  set (rid := if TrimSpace _ == "" then newID else _) in H.
  destruct (bool_decide (is_Some (t_taskRuns s !! rid))) eqn:Erun; [left; early H|]. bools.
  destruct (messageEventPayload _ _); [|left; early H].
  destruct (let? _ := _ in _); [|left; early H].
  destruct (appendMessageToContext _ _); [|left; early H].
  right. injection H as _ <-. eexists rid, _. split; [done|]. by apply eq_None_not_Some.
Qed.

(** A run event is recorded only for the holder of the current lease. *)
Lemma RecordTaskRunEvent_cases now input s r s' :
  RecordTaskRunEvent now input s = (r, s') →
  s' = s ∨ ∃ run y, t_taskRuns s !! TrimSpace (tri_TaskRunID input) = Some run ∧
    t_taskRuns s' = <[run_ID run := y]> (t_taskRuns s) ∧
    run_State run = TaskRunRunning ∧ run_AccountID run = TrimSpace (tri_AccountID input) ∧
    run_Fence run = tri_Fence input ∧ run_LeaseToken run = TrimSpace (tri_LeaseToken input) ∧
    run_LeaseToken run ≠ "" ∧
    (if IsZero (tri_CreatedAt input) then now else tri_CreatedAt input) < run_LeaseExpires run ∧
    same_run run y ∧ run_Fence y = run_Fence run ∧ run_LeaseToken y = run_LeaseToken run ∧
    (run_State y = TaskRunRunning ∨ runFinished (run_State y) = true).
Proof.
  intros H. unfold RecordTaskRunEvent in H. cbv zeta in H.
  destruct (_ || _ || _ || _) eqn:Ev; [left; early H|].
  destruct (t_taskRuns s !! _) as [run|] eqn:Hr; [|left; early H].
  destruct (run_AccountID run != _) eqn:Ea; [left; early H|].
  destruct (t_sessions s !! run_SessionID run) as [x|]; [|left; early H].
  destruct (negb (run_Fence run =? _) || _ || _) eqn:El; [left; early H|].
  destruct (t_eventByRequest s !! _); [left; early H|].
  destruct (run_State run != TaskRunRunning) eqn:Est; [left; early H|].
  destruct (stateForRunEvent _ _) as [[st fin]|] eqn:Enext; [|left; early H].
  destruct (marshalEventPayload _); [|left; early H].
  right. injection H as _ <-. bools. rewrite Est in Enext. unfold After in *.
  eexists run, _. split_and!; try done; try congruence; [lia|lia|].
  by apply stateForRunEvent_running in Enext.
Qed.

Lemma RequestCancel_cases clock input s r s' :
  RequestCancel clock input s = (r, s') →
  s' = s ∨ ∃ j run y, t_taskRuns s !! j = Some run ∧
    t_taskRuns s' = <[run_ID run := y]> (t_taskRuns s) ∧ runFinished (run_State run) = false ∧
    same_run run y ∧ run_Fence y = run_Fence run ∧ run_LeaseToken y = run_LeaseToken run ∧
    (run_State y = run_State run ∨ run_State run = TaskRunQueued ∧ run_State y = TaskRunCanceled).
Proof.
  intros H. unfold RequestCancel in H. cbv zeta in H.
  destruct (normalizeCancel clock input) as [n|]; [|left; early H].
  destruct (t_sessions s !! cri_SessionID n) as [x|]; [|left; early H].
  destruct (ses_AccountID x != _); [left; early H|].
  destruct (t_taskRuns s !! cri_TaskRunID n) as [run|] eqn:Hr; [|left; early H].
  destruct (_ || _); [left; early H|].
  destruct (t_eventByRequest s !! _); [left; case_match; early H|].
  destruct (runFinished (run_State run)) eqn:Efin; [left; early H|].
  destruct (run_State run == TaskRunQueued) eqn:Eq;
    [|destruct (List.find _ _); [left; early H|]]; right; injection H as _ <-;
    eexists _, run, _; split_and!; try done; try by left. right. by bools.
Qed.

Lemma ts_step_evolves s s' id r :
  ts_ok s → ts_step s s' → t_taskRuns s !! id = Some r →
  ∃ r', t_taskRuns s' !! id = Some r' ∧ run_evolves r r'.
Proof.
  intros Hs Hstep Hr. pose proof (to_run s Hs) as Hro.
  destruct Hstep as [????? s1 H|??? s1 H|??? s1 H|??? s1 Hroom H|???? s1 Hroom H|??? s1 H
    |????? s1 H|??? s1 Hroom H|??? s1 H|??? s1 Hroom H].
  - apply (run_evolves_same s); [|done]. unfold EnsurePersonalNamespace, createNamespaceLocked in H.
    cbv zeta in H. repeat case_match; simplify_eq; done.
  - apply (run_evolves_same s); [|done]. unfold CreateNamespace, createNamespaceLocked in H.
    cbv zeta in H. repeat case_match; simplify_eq; done.
  - apply (run_evolves_same s); [|done]. unfold CreateSession in H. cbv zeta in H.
    repeat case_match; simplify_eq; done.
  - apply (run_evolves_same s); [|done]. unfold AppendEvent in H. cbv zeta in H.
    repeat case_match; simplify_eq; done.
  - apply AppendMessage_runs in H as [->|(j & y & -> & Hj)]; eauto using run_evolves_refl.
    by apply run_evolves_new.
  - unfold EnqueueTaskRun in H. cbv zeta in H. destruct (bool_decide _) eqn:E in H; [simplify_eq; eauto using run_evolves_refl|].
    destruct (t_sessions s !! _); [|simplify_eq; eauto using run_evolves_refl].
    destruct (_ || _); simplify_eq; eauto using run_evolves_refl. bools.
    apply run_evolves_new; [done|]. by apply eq_None_not_Some.
  - unfold ClaimNext in H. cbv zeta in H.
    destruct (_ <=? countActive _ _); [simplify_eq; eauto using run_evolves_refl|].
    destruct (_ =? 0); [simplify_eq; eauto using run_evolves_refl|].
    destruct r0 as [c|e]; [|apply claimFrom_err in H as (_ & -> & _); eauto using run_evolves_refl].
    apply claimFrom_ok in H as (nsID & c0 & _ & [k Hk] & Hcl & _ & _ & -> & ->).
    apply (run_evolves_set _ _ r); [done|]. intros x Hx. unfold claimRun in Hx. getset.
    assert (x = c0) as -> by (apply (run_lookup_id _ _ _ Hro) in Hk; congruence).
    split; [done|]. unfold claimable in Hcl. bools. by apply RunClaimed.
  - apply RecordTaskRunEvent_cases in H as [->|(run & y & Hrun & -> & Hst & _ & _ & _ & _ & _ & Hsame & Hf & Ht & Hst')];
      [eauto using run_evolves_refl|].
    apply (run_evolves_set _ _ r); [done|]. intros x Hx.
    assert (x = run) as -> by (apply (run_lookup_id _ _ _ Hro) in Hrun; congruence).
    split; [done|]. destruct Hst' as [E|E]; [apply RunKept; [by rewrite Hst|congruence..]|].
    apply RunEnded; try done. by rewrite Hst.
  - unfold RenewLease in H. cbv zeta in H.
    destruct (normalizeRenew _ _); [|simplify_eq; eauto using run_evolves_refl].
    destruct (t_taskRuns s !! _) as [run|] eqn:Hrun; [|simplify_eq; eauto using run_evolves_refl].
    destruct (_ != _); [simplify_eq; eauto using run_evolves_refl|].
    destruct (_ || _ || _ || _ || _) eqn:Eg; [simplify_eq; eauto using run_evolves_refl|].
    injection H as _ <-. bools. apply (run_evolves_set _ _ r); [done|]. intros x Hx. getset.
    assert (x = run) as -> by (apply (run_lookup_id _ _ _ Hro) in Hrun; congruence).
    split; [done|]. apply RunKept; try done.
    by match goal with E : run_State run = _ |- _ => rewrite E end.
  - apply RequestCancel_cases in H as [->|(j & run & y & Hrun & -> & Hfin & Hsame & Hf & Ht & Hst)];
      [eauto using run_evolves_refl|].
    apply (run_evolves_set _ _ r); [done|]. intros x Hx.
    assert (x = run) as -> by (apply (run_lookup_id _ _ _ Hro) in Hrun; congruence).
    split; [done|]. destruct Hst as [E|[E1 E2]]; [by apply RunKept|].
    apply RunEnded; try done. by rewrite E2.
Qed.

(** C21: whatever command is issued, a run stays with its account, namespace
    and session; it is claimed only from the queue, which raises its fence;
    it ends only from the queue or from progress; and once it has completed,
    failed or been cancelled no command changes anything of it. *)
Theorem run_lifecycle s s' id r :
  ts_reachable s → ts_step s s' → t_taskRuns s !! id = Some r →
  ∃ r', t_taskRuns s' !! id = Some r' ∧ run_evolves r r' ∧
    (runFinished (run_State r) = true → r' = r).
Proof.
  intros Hre Hstep Hr. apply ts_reachable_ok in Hre.
  destruct (ts_step_evolves _ _ _ _ Hre Hstep Hr) as (r' & Hr' & He). exists r'. split_and!; try done.
  intros Hfin. destruct He as [_ [|?|Hq|?]]; [done|congruence| |congruence]. by rewrite Hq in Hfin.
Qed.

(** C22: a run event changes the store only for the holder of the current
    lease: the run is in progress, belongs to the caller's account, carries
    the caller's fence and token, and the lease has not expired. *)
Theorem run_event_needs_lease now input s r s' :
  RecordTaskRunEvent now input s = (r, s') → s' ≠ s →
  ∃ run, t_taskRuns s !! TrimSpace (tri_TaskRunID input) = Some run ∧
    run_State run = TaskRunRunning ∧ run_AccountID run = TrimSpace (tri_AccountID input) ∧
    run_Fence run = tri_Fence input ∧ run_LeaseToken run = TrimSpace (tri_LeaseToken input) ∧
    run_LeaseToken run ≠ "" ∧
    (if IsZero (tri_CreatedAt input) then now else tri_CreatedAt input) < run_LeaseExpires run.
Proof.
  intros H Hne. apply RecordTaskRunEvent_cases in H as [?|(run & y & Hr & _ & H)]; [done|].
  exists run. by destruct H as (? & ? & ? & ? & ? & ? & _).
Qed.

(** ** Messages *)

(** The store after a message that was not a replay. *)
Lemma AppendMessage_created newID now input s res s' :
  AppendMessage newID now input s = (Ok res, s') → mcr_Existing res = false →
  let i := trimMessage input in
  let key := request_key (ami_SessionID i) (ami_ClientRequestID i) in
  let rid := if TrimSpace (ami_TaskRunID i) == "" then newID else TrimSpace (ami_TaskRunID i) in
  ∃ session routing x',
    (ami_AccountID i == "") || (ami_SessionID i == "") ||
      (ami_ClientRequestID i == "") || (ami_Text i == "") = false ∧
    NormalizeRouting (ami_Routing i) = Ok routing ∧
    t_sessions s !! ami_SessionID i = Some session ∧
    ses_AccountID session = ami_AccountID i ∧
    ev_Seq (mcr_Message res) = int64 (ses_LastEventSeq session + 1) ∧
    ev_Seq (mcr_Queued res) = int64 (int64 (ses_LastEventSeq session + 1) + 1) ∧
    ev_Type (mcr_Queued res) = EventRunQueued ∧
    ev_Payload (mcr_Message res) !! "taskRunId" = Some (VStr (TrimSpace rid)) ∧
    t_events s' = <[ami_SessionID i := events_of s (ami_SessionID i) ++ [mcr_Message res; mcr_Queued res]]>
                    (t_events s) ∧
    t_eventByRequest s' = <[key := mcr_Message res]> (t_eventByRequest s) ∧
    t_taskRuns s' = <[rid := mcr_TaskRun res]> (t_taskRuns s) ∧
    t_sessions s' = <[ses_ID session := x']> (t_sessions s) ∧
    ses_AccountID x' = ses_AccountID session ∧
    ses_SnapshotVer x' = mcr_SnapshotVer res ∧ ses_LastEventSeq x' = mcr_LastEventSeq res.
Proof.
  intros H Hex. cbv zeta. unfold AppendMessage in H. cbv zeta in H.
  destruct (_ || _ || _ || _) eqn:Ev; [done|].
  destruct (NormalizeRouting _) as [routing|] eqn:Er; [|done].
  destruct (t_sessions s !! _) as [x|] eqn:Hx; [|done].
  destruct (ses_AccountID x != _) eqn:Ea; [done|]. bools.
  destruct (t_eventByRequest s !! _).
  { injection H as H <-. unfold replayMessage in H. cbv zeta in H.
    repeat case_match; simplify_eq; done. }
  set (rid := if TrimSpace _ == "" then newID else _) in *.
  destruct (bool_decide (is_Some (t_taskRuns s !! rid))); [done|].
  destruct (messageEventPayload _ _) as [payload|] eqn:Ep; [|done].
  destruct (let? _ := _ in _); [|done]. destruct (appendMessageToContext _ _); [|done].
  injection H as <- <-. eexists x, routing, _. split_and!; try done.
  unfold messageEventPayload in Ep. cbv zeta in Ep. cbn.
  destruct (_ || _) in Ep; [done|]. injection Ep as <-. done.
Qed.

Lemma find_numbered id from evs e rest t :
  numbered id 1 evs → from = Z.of_nat (length evs) + 1 → ev_Seq e = from →
  List.find (λ q, (ev_Seq q =? from + 1) && (ev_Type q == t)) (evs ++ e :: rest) =
  List.find (λ q, (ev_Seq q =? from + 1) && (ev_Type q == t)) rest.
Proof.
  intros Hn Hf He. rewrite find_app.
  destruct (List.find _ evs) as [q|] eqn:E.
  - apply List.find_some in E as [Hin Hq]. apply list_elem_of_In, list_elem_of_lookup in Hin as [i Hi].
    destruct (Hn _ _ Hi) as [Hs _]. apply lookup_lt_Some in Hi. bools. lia.
  - cbn [List.find]. rewrite He. assert ((from =? from + 1) = false) as -> by lia. done.
Qed.

(** repeating a message command with the same client request identifier
    reports the message, the queued event and the run of the first call, and
    changes nothing. *)
Theorem AppendMessage_replay newID now newID2 now2 input s res s' :
  ts_ok s → room s (TrimSpace (ami_SessionID input)) → TrimSpace newID = newID →
  AppendMessage newID now input s = (Ok res, s') → mcr_Existing res = false →
  AppendMessage newID2 now2 input s' =
    (Ok {| mcr_Message := mcr_Message res; mcr_Queued := mcr_Queued res; mcr_TaskRun := mcr_TaskRun res;
           mcr_SnapshotVer := mcr_SnapshotVer res; mcr_LastEventSeq := mcr_LastEventSeq res;
           mcr_Existing := true |}, s').
Proof.
  intros Hs Hroom Hid H Hex. apply AppendMessage_created in H
    as (x & routing & x' & Ev & Er & Hx & Ea & Em & Eq & Et & Ep & Ee & Ek & Erun & Es & Ea' & Esv & Els);
    [|done]. cbv zeta in *.
  destruct (lo_session s (to_log s Hs) _ _ Hx) as [[Hsid Hl _ Hseq] _].
  destruct (seq_next _ _ _ (to_log s Hs) Hx Hroom) as [E1 E2]. rewrite E1 in Em, Eq. rewrite E2 in Eq.
  unfold AppendMessage. cbv zeta. rewrite Ev, Er, Es, Hsid, lookup_insert_eq.
  rewrite Ea', Ea, bool_decide_true by done. cbn [negb].
  rewrite Ek, lookup_insert_eq. f_equal. unfold replayMessage. cbv zeta. rewrite Ep. cbn [val_str default].
  assert (Htrim : TrimSpace (if TrimSpace (ami_TaskRunID (trimMessage input)) == "" then newID
            else TrimSpace (ami_TaskRunID (trimMessage input))) =
          (if TrimSpace (ami_TaskRunID (trimMessage input)) == "" then newID
            else TrimSpace (ami_TaskRunID (trimMessage input)))).
  { case_match; [done|apply TrimSpace_idem]. }
  assert (Hev : events_of s' (ami_SessionID (trimMessage input)) =
    events_of s (ami_SessionID (trimMessage input)) ++ [mcr_Message res; mcr_Queued res]).
  { unfold events_of at 1. by rewrite Ee, lookup_insert_eq. }
  simpl default. rewrite Htrim, Erun, lookup_insert_eq, Hev, Em, E2.
  replace (ses_LastEventSeq x + 2) with (ses_LastEventSeq x + 1 + 1) by lia.
  rewrite (find_numbered (ami_SessionID (trimMessage input)));
    [|intros i e Hi; destruct (Hseq _ _ Hi); split; [lia|done]|by rewrite Hl|done].
  cbn [List.find]. rewrite Eq, Et.
  assert ((ses_LastEventSeq x + 2 =? ses_LastEventSeq x + 1 + 1) = true) as -> by lia.
  rewrite bool_decide_true by done. cbn. by rewrite Esv, Els.
Qed.

(** ** Claims *)

Lemma elem_of_eligible tasks a nss now id :
  id ∈ eligibleNamespaceIDs tasks a nss now ↔
  is_Some (nss !! id) ∧ ∃ k t, tasks !! k = Some t ∧ eligible a now t = true ∧ run_NamespaceID t = id.
Proof.
  unfold eligibleNamespaceIDs, sort_strings.
  rewrite merge_sort_Permutation, list_elem_of_filter, elem_of_remove_dups, list_elem_of_fmap.
  apply and_iff_compat_l. split.
  - intros (t & -> & Ht). apply list_elem_of_filter in Ht as [He [k Hk]%elem_of_values]. eauto.
  - intros (k & t & Hk & He & <-). exists t. split; [done|]. apply list_elem_of_filter.
    split; [done|]. apply elem_of_values. eauto.
Qed.

Lemma elem_of_rotate n ids id : id ∈ rotate_ids n ids ↔ id ∈ ids.
Proof.
  unfold rotate_ids. rewrite <-(take_drop n ids) at 3. rewrite !elem_of_app. tauto.
Qed.

Lemma eligible_claimable a now t :
  eligible a now t = true → claimable a (run_NamespaceID t) now t = true.
Proof.
  unfold eligible, claimable. intros H. bools. rewrite !bool_decide_true by done. simpl.
  by apply negb_true_iff.
Qed.

Lemma claimable_eligible a nsID now t :
  claimable a nsID now t = true ↔ eligible a now t = true ∧ run_NamespaceID t = nsID.
Proof.
  split; [|intros [? <-]; by apply eligible_claimable].
  unfold eligible, claimable. intros H. bools. rewrite !bool_decide_true by done. simpl.
  split; [by apply negb_true_iff|done].
Qed.

(** C26: a claim succeeds exactly when the account is below its limit and
    some namespace below its own has a waiting run. It then takes, of the
    namespace it serves, a waiting run with the highest priority and among
    those the oldest, leases it to the calling worker under the new token,
    with the next fence and the expiry asked for, and changes nothing else
    but the account's last served namespace; a claim that fails changes
    nothing. *)
Theorem ClaimNext_serves `{MapOrder} token clock input s :
  run_ok s →
  let now := if IsZero (ci_Now input) then clock else ci_Now input in
  let ttl := if ci_LeaseTTL input <=? 0 then Minute else ci_LeaseTTL input in
  let a := ci_AccountID input in
  let cap := if (ci_MaxGlobalActive input <=? 0) || (defaultGlobalMaxActive <? ci_MaxGlobalActive input)
             then defaultGlobalMaxActive else ci_MaxGlobalActive input in
  match ClaimNext token clock input s with
  | (Ok r, s') =>
      countActive (t_taskRuns s) a < cap ∧
      ∃ c n, t_taskRuns s !! run_ID c = Some c ∧ eligible a now c = true ∧
        t_namespaces s !! run_NamespaceID c = Some n ∧
        countActiveForNamespace (t_taskRuns s) a (run_NamespaceID c) < ns_MaxActiveRuns n ∧
        (∀ k t, t_taskRuns s !! k = Some t → eligible a now t = true →
           run_NamespaceID t = run_NamespaceID c → before_run c t) ∧
        r = c <| run_State := TaskRunRunning |> <| run_Attempt := int64 (run_Attempt c + 1) |>
              <| run_LeaseOwner := ci_WorkerID input |> <| run_LeaseToken := token |>
              <| run_LeaseExpires := Add now ttl |> <| run_Fence := int64 (run_Fence c + 1) |>
              <| run_UpdatedAt := now |> ∧
        s' = s <| t_taskRuns := <[run_ID c := r]> (t_taskRuns s) |>
               <| t_lastClaimNamespace := <[a := run_NamespaceID c]> (t_lastClaimNamespace s) |>
  | (Err e, s') =>
      e = ErrNoEligibleTask ∧ s' = s ∧
      (cap ≤ countActive (t_taskRuns s) a ∨
       ∀ k t n, t_taskRuns s !! k = Some t → eligible a now t = true →
         t_namespaces s !! run_NamespaceID t = Some n →
         ns_MaxActiveRuns n ≤ countActiveForNamespace (t_taskRuns s) a (run_NamespaceID t))
  end.
Proof.
  intros Hro. cbv zeta. unfold ClaimNext. cbv zeta.
  set (now := if IsZero _ then clock else _). set (a := ci_AccountID input).
  set (cap := if (_ || _) then defaultGlobalMaxActive else _).
  set (ttl := if _ <=? 0 then Minute else _).
  set (ids := eligibleNamespaceIDs _ _ _ _).
  destruct (cap <=? _) eqn:Ecap; [split_and!; [done|done|left; lia]|].
  assert (Hin : ∀ k t n, t_taskRuns s !! k = Some t → eligible a now t = true →
    t_namespaces s !! run_NamespaceID t = Some n → run_NamespaceID t ∈ ids).
  { intros k t n Hk He Hn. apply elem_of_eligible. split; eauto. }
  destruct (Z.of_nat (length ids) =? 0) eqn:Elen.
  { split_and!; [done|done|right]. intros k t n Hk He Hn. specialize (Hin _ _ _ Hk He Hn).
    destruct ids; [by apply not_elem_of_nil in Hin|]. simpl in Elen. lia. }
  destruct (claimFrom _ _ _ _ _ _) as [[r|e] s'] eqn:Hc.
  - apply claimFrom_ok in Hc as (nsID & c & Hns & [k Hk] & Hcl & Hbest & Hroom & -> & ->).
    apply claimable_eligible in Hcl as [He <-].
    apply elem_of_rotate, elem_of_eligible in Hns as [[n Hn] _]. rewrite Hn in Hroom.
    split; [lia|]. exists c, n. split_and!; try done; [by apply (run_lookup_id _ k)|].
    intros k' t Ht Het Hs. apply (Hbest k'); [done|]. by apply claimable_eligible.
  - apply claimFrom_err in Hc as (-> & -> & Hall). split_and!; [done|done|right].
    intros k t n Hk He Hn. specialize (Hin _ _ _ Hk He Hn).
    destruct (Hall (run_NamespaceID t)) as [Hle|Hno]; [by apply elem_of_rotate| |].
    + by rewrite Hn in Hle.
    + specialize (Hno _ _ Hk). apply eligible_claimable in He. unfold a in *. congruence.
Qed.

(** ** Reads *)

(** [r] is updated later than [t], or at the same time with a greater
    identifier. *)
Definition shown_before (r t : TaskRun) : Prop :=
  run_UpdatedAt t < run_UpdatedAt r ∨
  (run_UpdatedAt t = run_UpdatedAt r ∧ String.le (run_ID t) (run_ID r)).

Lemma shown_before_refl r : shown_before r r.
Proof. right. split; [done|]. by apply string_lt_ge, string_lt_irrefl. Qed.

Lemma shown_before_trans a b c : shown_before a b → shown_before b c → shown_before a c.
Proof.
  unfold shown_before. intros [?|[? ?]] [?|[? ?]]; [left; lia..|]. right. split; [lia|]. by etrans.
Qed.

Lemma newer_foldl sid l best :
  (∀ b, best = Some b → run_SessionID b = sid) →
  match foldl (newer_run sid) best l with
  | None => best = None ∧ ∀ t, t ∈ l → run_SessionID t ≠ sid
  | Some r => run_SessionID r = sid ∧ (best = Some r ∨ r ∈ l) ∧
      (∀ b, best = Some b → shown_before r b) ∧
      ∀ t, t ∈ l → run_SessionID t = sid → shown_before r t
  end.
Proof.
  revert best. induction l as [|t l IH]; intros best Hb; cbn [foldl].
  - destruct best as [b|].
    + split_and!; auto; [intros ? [= <-]; apply shown_before_refl|].
      intros t Ht. by apply not_elem_of_nil in Ht.
    + split; [done|]. intros t Ht. by apply not_elem_of_nil in Ht.
  - destruct (decide (run_SessionID t = sid)) as [Es|Es].
    + assert (Hn : ∃ b', newer_run sid best t = Some b' ∧ (b' = t ∨ best = Some b') ∧
        shown_before b' t ∧ ∀ b, best = Some b → shown_before b' b).
      { unfold newer_run. rewrite bool_decide_true by done. cbn [negb].
        destruct best as [b|]; [|exists t; split_and!; auto using shown_before_refl; done].
        destruct (_ || _) eqn:E; [exists t|exists b]; split_and!; auto using shown_before_refl;
          try (intros ? [= <-]; auto using shown_before_refl).
        - unfold shown_before, After, Equal in *. bools.
          destruct E as [E|[E1 E2]%andb_true_iff]; [left; lia|right].
          split; [lia|]. by apply string_lt_le.
        - unfold shown_before, After, Equal in *. bools.
          destruct (decide (run_UpdatedAt t = run_UpdatedAt b)) as [Eq|Eq]; [right|left; lia].
          split; [done|]. apply string_lt_ge.
          match goal with H : _ ∨ string_lt _ _ = false |- _ => destruct H; [lia|done] end. }
      destruct Hn as (b' & -> & Hor & Hbt & Hbb). specialize (IH (Some b')).
      destruct (foldl _ _ _) as [r|].
      * destruct IH as (H1 & H2 & H3 & H4); [intros ? [= <-]; destruct Hor as [->|]; auto|].
        pose proof (H3 _ eq_refl) as Hr. split_and!; [done| | |].
        -- destruct H2 as [[= <-]|H2]; [|right; by right].
           destruct Hor as [->|]; [right; left|by left].
        -- intros b ?. eauto using shown_before_trans.
        -- intros y [->|Hy]%elem_of_cons Hsy; eauto using shown_before_trans.
      * destruct IH as [? _]; [|done]. intros ? [= <-]; destruct Hor as [->|]; auto.
    + assert (newer_run sid best t = best) as ->.
      { unfold newer_run. by rewrite bool_decide_false. }
      specialize (IH best Hb). destruct (foldl _ _ _) as [r|].
      * destruct IH as (H1 & H2 & H3 & H4). split_and!; [done| |done|].
        -- destruct H2; [by left|right; by right].
        -- intros y [->|Hy]%elem_of_cons Hsy; [done|auto].
      * destruct IH as [H1 H2]. split; [done|]. intros y [->|Hy]%elem_of_cons; auto.
Qed.

(** The run a snapshot shows does not depend on the iteration order of
    the map of runs: it is the session's most recently updated run, the
    greater identifier breaking ties. *)
Theorem snapshot_order_independent (o1 o2 : MapOrder) session runs :
  (∀ id r, runs !! id = Some r → run_ID r = id) →
  @snapshotFromMemoryState o1 session runs = @snapshotFromMemoryState o2 session runs.
Proof.
  intros Hid. unfold snapshotFromMemoryState. f_equal.
  pose proof (newer_foldl (ses_ID session) (@range o1 _ runs).*2 None ltac:(done)) as F1.
  pose proof (newer_foldl (ses_ID session) (@range o2 _ runs).*2 None ltac:(done)) as F2.
  destruct (foldl _ _ _) as [r1|] in F1 |- *; destruct (foldl _ _ _) as [r2|] in F2 |- *; try done.
  - destruct F1 as (S1 & [?|M1] & _ & B1), F2 as (S2 & [?|M2] & _ & B2); try done.
    apply elem_of_range_values in M1 as [k1 K1], M2 as [k2 K2].
    assert (L1 : shown_before r1 r2) by (apply B1; [apply elem_of_range_values; eauto|done]).
    assert (L2 : shown_before r2 r1) by (apply B2; [apply elem_of_range_values; eauto|done]).
    assert (run_ID r1 = run_ID r2) as E.
    { unfold shown_before in L1, L2. destruct L1 as [?|[? ?]], L2 as [?|[? ?]]; try lia.
      by apply (anti_symm String.le). }
    rewrite (Hid _ _ K1), (Hid _ _ K2) in E. congruence.
  - destruct F1 as (S1 & [?|M1] & _), F2 as [_ F2]; [done|].
    apply elem_of_range_values in M1 as [k1 K1].
    destruct (F2 r1); [apply elem_of_range_values; eauto|done].
  - destruct F2 as (S2 & [?|M2] & _), F1 as [_ F1]; [done|].
    apply elem_of_range_values in M2 as [k2 K2].
    destruct (F1 r2); [apply elem_of_range_values; eauto|done].
Qed.

Lemma filter_after_seq id evs (after : nat) :
  (∀ i e, evs !! i = Some e → ev_Seq e = Z.of_nat i + 1 ∧ ev_SessionID e = id) →
  filter (λ e, (ev_Seq e <=? Z.of_nat after) = false) evs = drop after evs.
Proof.
  intros Hs. rewrite <-(take_drop after evs) at 1. rewrite filter_app, filter_none, filter_all; [done|..].
  - intros e [i Hi]%list_elem_of_lookup. rewrite lookup_drop in Hi.
    destruct (Hs _ _ Hi) as [-> _]. apply Z.leb_gt. lia.
  - intros e [i Hi]%list_elem_of_lookup. apply lookup_take_Some in Hi as [Hi Hlt].
    destruct (Hs _ _ Hi) as [-> _]. intros E. apply Z.leb_gt in E. lia.
Qed.

(** Reading the log from a cursor returns exactly the events that follow
    it, in order and without gaps, up to the limit. *)
Theorem ListEvents_resumes s account sid after limit evs :
  ts_reachable s → ListEvents s account sid after limit = Ok evs →
  let cursor := if after <? 0 then 0 else after in
  let bound := if (limit <=? 0) || (500 <? limit) then 100 else limit in
  evs = take (Z.to_nat bound) (drop (Z.to_nat cursor) (events_of s (TrimSpace sid))).
Proof.
  intros Hr H. apply ts_reachable_ok in Hr. unfold ListEvents in H. cbv zeta in *.
  destruct (t_sessions s !! TrimSpace sid) as [x|] eqn:Hx; [|done].
  destruct (_ != _); [done|]. injection H as <-.
  destruct (lo_session s (to_log s Hr) _ _ Hx) as [[Hid _ _ Hs] _]. rewrite Hid. f_equal.
  rewrite <-(filter_after_seq _ _ _ Hs). f_equal. destruct (after <? 0) eqn:E; [done|].
  rewrite Z2Nat.id by lia. done.
Qed.

(** ** The context summary stays small *)

Lemma fit_messages_spec next messages c :
  fit_messages next messages = Ok c →
  ∃ k, c = <["messages" := VList (drop k messages)]> next ∧ drop k messages ≠ [] ∧
    marshalContextSummary c = Ok tt.
Proof.
  induction messages as [|m rest IH]; [done|]. cbn [fit_messages]. cbv zeta.
  destruct (marshalContextSummary (<["messages" := VList (m :: rest)]> next)) as [[]|[]] eqn:E;
    intros H; try done.
  - injection H as <-. exists 0%nat. split_and!; [done|done|exact E].
  - destruct (IH H) as (k & ? & ? & ?). by exists (S k).
Qed.

(** appending a message keeps the context summary within 128 KiB of JSON
    and 100 messages, with the new message last; older messages are dropped
    first. *)
Theorem appendMessageToContext_bounded ctx message c :
  appendMessageToContext ctx message = Ok c →
  json_len (as_value c) ≤ maxSnapshotBytes ∧
  ∃ old, c !! "messages" = Some (VList (old ++ [as_value message])) ∧
    (length old < 100)%nat ∧
    match ctx !! "messages" with
    | Some (VList l) => old `suffix_of` l
    | _ => old = []
    end.
Proof.
  unfold appendMessageToContext. cbv zeta.
  set (next := <["lastMessage" := _]> ctx).
  set (prev := match next !! "messages" with Some (VList l) => l | _ => [] end).
  intros H. apply fit_messages_spec in H as (k & -> & Hne & Hm).
  split; [unfold marshalContextSummary, marshal_bounded in Hm; repeat case_match; try done; lia|].
  rewrite lookup_insert_eq.
  assert (Hprev : match ctx !! "messages" with Some (VList l) => prev = l | _ => prev = [] end).
  { unfold prev, next. rewrite lookup_insert_ne by done. by repeat case_match. }
  set (all := if maxSnapshotMessages <? _ then _ else _) in *.
  assert (Hall : ∃ j, all = drop j prev ++ [as_value message] ∧ (length (drop j prev) < 100)%nat).
  { unfold all, maxSnapshotMessages. rewrite length_app. cbn [length].
    destruct (Z.ltb_spec 100 (Z.of_nat (length prev + 1))).
    - exists (Z.to_nat (Z.of_nat (length prev + 1) - 100)).
      rewrite length_drop, drop_app_le by lia. split; [done|lia].
    - exists 0%nat. rewrite drop_0. split; [done|lia]. }
  destruct Hall as (j & -> & Hlen).
  assert (k ≤ length (drop j prev))%nat as Hk.
  { destruct (decide (k ≤ length (drop j prev))%nat); [done|]. exfalso. apply Hne.
    apply drop_ge. rewrite length_app. simpl. lia. }
  exists (drop k (drop j prev)). rewrite drop_app_le by done. split_and!; [done|rewrite length_drop; lia|].
  rewrite drop_drop. repeat case_match; rewrite Hprev; try apply suffix_drop; by rewrite drop_nil.
Qed.

(** ** Requests with surrounding blanks *)

Module PaddedRequest.
Definition s0 : MemoryStore :=
  (CreateNamespace 1 (mkCreateNamespaceInput "ns" "acct" "personal" "" 2 1) NewMemoryStore).2.
Definition s1 : MemoryStore := (CreateSession 2 (mkCreateSessionInput "ses" "acct" "ns" "t" 2) s0).2.
Definition input : AppendEventInput :=
  mkAppendEventInput "acct" "ses" "acct" " r1" "note" ∅ 3.
Definition s2 : MemoryStore := (AppendEvent 3 input s1).2.
End PaddedRequest.

(** [AppendEvent] looks a request up as given but files it trimmed, so a
    client request identifier with surrounding blanks is not deduplicated:
    sending the same event twice appends it twice. *)
Theorem AppendEvent_padded_request_duplicates :
  ∃ s input, ts_reachable s ∧ aei_ClientRequestID input ≠ "" ∧
    let '(r1, s1) := AppendEvent 3 input s in
    let '(r2, s2) := AppendEvent 4 input s1 in
    is_ok r1 = true ∧ is_ok r2 = true ∧
    length (events_of s2 (aei_SessionID input)) = S (length (events_of s1 (aei_SessionID input))).
Proof.
  exists PaddedRequest.s1, PaddedRequest.input. split_and!; [|done|by vm_compute].
  eapply TsStep; [eapply TsStep; [apply TsNew|]|].
  - eapply StepNamespace. exact (surjective_pairing _).
  - eapply StepSession. exact (surjective_pairing _).
Qed.
