(* ===== verification/Recovery.v ===== *)
(** * Sessions, password recovery and MFA recovery

    The in-memory operations of [password_recovery.go],
    [mfa_recovery_codes.go], [mfa_reset.go] and the session and OAuth
    exchange-code operations of [store.go].

    The entries of the four maps are pointers the store alone holds, mutated
    in place by the loops.  A loop that treats every entry independently is a
    map over the values; deleting during the iteration is a filter; a loop
    that can stop half-way, or whose result depends on the order, folds over
    an arbitrary [range]. *)

From S2P Require Import Prelude GoLib Json StoreData Users Sha256.
Open Scope Z_scope.
Open Scope bool_scope.
Open Scope go_scope.

(** ** Sessions *)

Definition CreateSession (token userID : string) (expiresAt : time) (s : memoryStore)
    : result error unit * memoryStore :=
  (Ok tt, s <| sessions := <[token := mksessionRecord userID expiresAt]> (sessions s) |>).

Definition GetSession (now : time) (token : string) (s : memoryStore)
    : result error (string * time) :=
  match sessions s !! token with
  | None => Err ErrSessionNotFound
  | Some sess =>
      if After now (sess_ExpiresAt sess) then Err ErrSessionNotFound
      else Ok (sess_UserID sess, sess_ExpiresAt sess)
  end.

Definition DeleteSession (token : string) (s : memoryStore) : result error unit * memoryStore :=
  (Ok tt, s <| sessions := delete token (sessions s) |>).

(** [for token, session := range s.sessions { if session.UserID == userID {
    delete(s.sessions, token) } }] *)
Definition drop_sessions (userID : string) (m : gmap string sessionRecord)
    : gmap string sessionRecord :=
  filter (λ kv, sess_UserID kv.2 ≠ userID) m.

(** ** OAuth exchange codes *)

Definition CreateOAuthExchangeCode (code sessionToken : string) (sessionExpiresAt expiresAt : time)
    (s : memoryStore) : result error unit * memoryStore :=
  (Ok tt, s <| oauthExchangeCodes :=
     <[TrimSpace code := mkoauthExchangeRecord sessionToken sessionExpiresAt expiresAt]>
       (oauthExchangeCodes s) |>).

Definition ConsumeOAuthExchangeCode (now : time) (code : string) (s : memoryStore)
    : (string * time * bool) * memoryStore :=
  let normalized := TrimSpace code in
  match oauthExchangeCodes s !! normalized with
  | None => (("", 0, false), s)
  | Some record =>
      let s := s <| oauthExchangeCodes := delete normalized (oauthExchangeCodes s) |> in
      if After now (oauth_ExpiresAt record) then (("", 0, false), s)
      else ((oauth_SessionToken record, oauth_SessionExpiresAt record, true), s)
  end.

(** ** Password recovery *)

(** [ConsumedAt.IsZero() && InvalidatedAt.IsZero()] *)
Definition open_challenge (c : PasswordRecoveryChallenge) : bool :=
  IsZero (prc_ConsumedAt c) && IsZero (prc_InvalidatedAt c).

(** The loop that closes the previous challenges of the same account and kind. *)
Definition supersede (challenge existing : PasswordRecoveryChallenge) : PasswordRecoveryChallenge :=
  if (prc_UserID existing == prc_UserID challenge) && (prc_Kind existing == prc_Kind challenge) &&
     IsZero (prc_ConsumedAt existing) && IsZero (prc_InvalidatedAt existing)
  then existing <| prc_InvalidatedAt := prc_CreatedAt challenge |> else existing.

(** A nil challenge is [None]. *)
Definition CreatePasswordRecoveryChallenge (challenge : option PasswordRecoveryChallenge)
    (s : memoryStore) : result error unit * memoryStore :=
  match challenge with
  | None => (Err ErrPasswordRecoveryInvalid, s)
  | Some challenge =>
      if (TrimSpace (prc_ID challenge) == "") || (TrimSpace (prc_UserID challenge) == "")
      then (Err ErrPasswordRecoveryInvalid, s) else
      match byID s !! prc_UserID challenge with
      | None => (Err ErrUserNotFound, s)
      | Some _ =>
          let kept := supersede challenge <$> passwordRecovery s in
          let copy := challenge <| prc_Email := ToLower (TrimSpace (prc_Email challenge)) |> in
          (Ok tt, s <| passwordRecovery := <[prc_ID copy := copy]> kept |>)
      end
  end.

Definition in_cooldown (challenge : PasswordRecoveryChallenge) (email : string)
    (cooldown : duration) (existing : PasswordRecoveryChallenge) : bool :=
  (prc_Kind existing == "code") && EqualFold (prc_Email existing) email && (0 <? cooldown) &&
  (Sub (prc_CreatedAt challenge) (prc_CreatedAt existing) <? cooldown).

Definition CreatePasswordRecoveryCodeChallenge (challenge : option PasswordRecoveryChallenge)
    (cooldown : duration) (s : memoryStore) : result error unit * memoryStore :=
  match challenge with
  | None => (Err ErrPasswordRecoveryInvalid, s)
  | Some challenge =>
      if (TrimSpace (prc_ID challenge) == "") || (TrimSpace (prc_UserID challenge) == "")
      then (Err ErrPasswordRecoveryInvalid, s) else
      let email := ToLower (TrimSpace (prc_Email challenge)) in
      match byID s !! prc_UserID challenge with
      | None => (Err ErrUserNotFound, s)
      | Some _ =>
          if map_any (in_cooldown challenge email cooldown) (passwordRecovery s)
          then (Err ErrPasswordRecoveryCooldown, s) else
          let kept := supersede challenge <$> passwordRecovery s in
          let copy := challenge <| prc_Email := email |> in
          (Ok tt, s <| passwordRecovery := <[prc_ID copy := copy]> kept |>)
      end
  end.

Definition is_token (tokenHash : string) (c : PasswordRecoveryChallenge) : bool :=
  (prc_Kind c == "token") && (prc_SecretHash c == tokenHash).

(** The first match of the iteration. *)
Definition GetPasswordRecoveryChallengeByTokenHash `{MapOrder} (tokenHash : string)
    (s : memoryStore) : result error PasswordRecoveryChallenge :=
  match List.find (λ kv, is_token tokenHash kv.2) (range (passwordRecovery s)) with
  | Some (_, c) => Ok c
  | None => Err ErrPasswordRecoveryInvalid
  end.

(** [latest == nil || x.CreatedAt.After(latest.CreatedAt)] *)
Definition keep_latest {A} (wanted : A → bool) (created : A → time)
    (latest : option A) (x : A) : option A :=
  if wanted x then
    match latest with
    | None => Some x
    | Some l => if After (created x) (created l) then Some x else latest
    end
  else latest.

Definition live_code (email : string) (c : PasswordRecoveryChallenge) : bool :=
  (prc_Kind c == "code") && EqualFold (prc_Email c) email &&
  IsZero (prc_ConsumedAt c) && IsZero (prc_InvalidatedAt c).

Definition GetLatestPasswordRecoveryCode `{MapOrder} (email : string) (s : memoryStore)
    : result error PasswordRecoveryChallenge :=
  let email := ToLower (TrimSpace email) in
  match foldl (keep_latest (live_code email) prc_CreatedAt) None (range (passwordRecovery s)).*2 with
  | None => Err ErrPasswordRecoveryInvalid
  | Some latest => Ok latest
  end.

Definition RecordPasswordRecoveryFailure (challengeID : string) (now : time) (maxAttempts : Z)
    (lockout : duration) (s : memoryStore) : result error time * memoryStore :=
  match passwordRecovery s !! challengeID with
  | None => (Err ErrPasswordRecoveryInvalid, s)
  | Some challenge =>
      if negb (IsZero (prc_ConsumedAt challenge)) || negb (IsZero (prc_InvalidatedAt challenge)) ||
         negb (Before now (prc_ExpiresAt challenge))
      then (Err ErrPasswordRecoveryInvalid, s) else
      let challenge := challenge <| prc_FailedAttempts := int64 (prc_FailedAttempts challenge + 1) |> in
      let challenge := if maxAttempts <=? prc_FailedAttempts challenge
                       then challenge <| prc_LockedUntil := Add now lockout |> else challenge in
      (Ok (prc_LockedUntil challenge),
       s <| passwordRecovery := <[challengeID := challenge]> (passwordRecovery s) |>)
  end.

Definition InvalidatePasswordRecoveryChallenge (challengeID : string) (now : time)
    (s : memoryStore) : result error unit * memoryStore :=
  match passwordRecovery s !! challengeID with
  | Some challenge =>
      if IsZero (prc_InvalidatedAt challenge) && IsZero (prc_ConsumedAt challenge)
      then (Ok tt, s <| passwordRecovery :=
              <[challengeID := challenge <| prc_InvalidatedAt := now |>]> (passwordRecovery s) |>)
      else (Ok tt, s)
  | None => (Ok tt, s)
  end.

Definition CompletePasswordRecovery (challengeID passwordHash : string) (now : time)
    (s : memoryStore) : result error unit * memoryStore :=
  match passwordRecovery s !! challengeID with
  | None => (Err ErrPasswordRecoveryInvalid, s)
  | Some challenge =>
      if negb (IsZero (prc_ConsumedAt challenge)) || negb (IsZero (prc_InvalidatedAt challenge)) ||
         negb (Before now (prc_ExpiresAt challenge)) || Before now (prc_LockedUntil challenge)
      then (Err ErrPasswordRecoveryInvalid, s) else
      match user_by_id s (prc_UserID challenge) with
      | None => (Err ErrPasswordRecoveryInvalid, s)
      | Some _ =>
          let s := update_user s (prc_UserID challenge)
                     (λ u, u <| user_PasswordHash := passwordHash |>) in
          let s := s <| passwordRecovery :=
                     <[challengeID := challenge <| prc_ConsumedAt := now |>]> (passwordRecovery s) |> in
          (Ok tt, s <| sessions := drop_sessions (prc_UserID challenge) (sessions s) |>)
      end
  end.

(** ** MFA recovery codes *)

Definition bad_code (userID : string) (now : time) (code : MFARecoveryCode) : bool :=
  (mrc_ID code == "") || (mrc_BatchID code == "") || (mrc_UserID code != userID) ||
  (mrc_CodeHash code == "") || negb (After (mrc_ExpiresAt code) now).

Definition revoke_code (userID : string) (now : time) (code : MFARecoveryCode) : MFARecoveryCode :=
  if (mrc_UserID code == userID) && IsZero (mrc_ConsumedAt code) && IsZero (mrc_RevokedAt code)
  then code <| mrc_RevokedAt := now |> else code.

Definition add_codes (codes : list MFARecoveryCode) (m : gmap string MFARecoveryCode)
    : gmap string MFARecoveryCode :=
  foldl (λ m code, <[mrc_ID code := code]> m) m codes.

Definition ReplaceMFARecoveryCodes (userID : string) (codes : list MFARecoveryCode)
    (s : memoryStore) : result error unit * memoryStore :=
  match codes with
  | [] => (Err ErrMFARecoveryCodeInvalid, s)
  | first :: _ =>
      if TrimSpace userID == "" then (Err ErrMFARecoveryCodeInvalid, s) else
      match byID s !! userID with
      | None => (Err ErrUserNotFound, s)
      | Some _ =>
          let now := mrc_CreatedAt first in
          if existsb (bad_code userID now) codes then (Err ErrMFARecoveryCodeInvalid, s) else
          (Ok tt, s <| mfaRecoveryCodes :=
             add_codes codes (revoke_code userID now <$> mfaRecoveryCodes s) |>)
      end
  end.

(** A code of the account that can still be used at [now]. *)
Definition usable_code (userID : string) (now : time) (code : MFARecoveryCode) : bool :=
  (mrc_UserID code == userID) && IsZero (mrc_ConsumedAt code) && IsZero (mrc_RevokedAt code) &&
  Before now (mrc_ExpiresAt code).

Definition ListMFARecoveryCodes `{MapOrder} (userID : string) (now : time) (s : memoryStore)
    : result error (list MFARecoveryCode) :=
  Ok (filter (λ code, usable_code userID now code = true) (range (mfaRecoveryCodes s)).*2).

(** One iteration: the counted code, and the lock it reports. *)
Definition fail_code (userID : string) (now : time) (maxAttempts : Z) (lockout : duration)
    (code : MFARecoveryCode) : MFARecoveryCode * option time :=
  if negb (usable_code userID now code) then (code, None) else
  if Before now (mrc_LockedUntil code) then (code, Some (mrc_LockedUntil code)) else
  let code := code <| mrc_FailedAttempts := int64 (mrc_FailedAttempts code + 1) |> in
  if maxAttempts <=? mrc_FailedAttempts code
  then (code <| mrc_LockedUntil := Add now lockout |>, Some (Add now lockout))
  else (code, None).

(** The reported lock is that of the last locked code of the iteration. *)
Definition RecordMFARecoveryCodeFailure `{MapOrder} (userID : string) (now : time)
    (maxAttempts : Z) (lockout : duration) (s : memoryStore) : result error time * memoryStore :=
  let step := fail_code userID now maxAttempts lockout in
  let s' := s <| mfaRecoveryCodes := (λ code, (step code).1) <$> mfaRecoveryCodes s |> in
  if negb (map_any (usable_code userID now) (mfaRecoveryCodes s))
  then (Err ErrMFARecoveryCodeInvalid, s') else
  (Ok (foldl (λ lockedUntil code, default lockedUntil (step code).2) 0
         (range (mfaRecoveryCodes s)).*2), s').

Definition RevokeMFARecoveryCodes (userID : string) (now : time) (s : memoryStore)
    : result error unit * memoryStore :=
  (Ok tt, s <| mfaRecoveryCodes := revoke_code userID now <$> mfaRecoveryCodes s |>).

Definition CompleteMFAPasswordReset (userID recoveryCodeID passwordHash : string) (now : time)
    (s : memoryStore) : result error unit * memoryStore :=
  match user_by_id s userID with
  | None => (Err ErrMFARecoveryCodeInvalid, s)
  | Some user =>
      if negb (user_Active user) || (user_ArchivedAt user != None)
      then (Err ErrMFARecoveryCodeInvalid, s) else
      let finish (s : memoryStore) :=
        let s := update_user s userID (λ u, u <| user_PasswordHash := passwordHash |>) in
        (Ok tt, s <| sessions := drop_sessions userID (sessions s) |>) in
      if recoveryCodeID == "" then finish s else
      match mfaRecoveryCodes s !! recoveryCodeID with
      | None => (Err ErrMFARecoveryCodeInvalid, s)
      | Some code =>
          if (mrc_UserID code != userID) || negb (IsZero (mrc_ConsumedAt code)) ||
             negb (IsZero (mrc_RevokedAt code)) || negb (Before now (mrc_ExpiresAt code)) ||
             Before now (mrc_LockedUntil code)
          then (Err ErrMFARecoveryCodeInvalid, s) else
          finish (s <| mfaRecoveryCodes :=
            <[recoveryCodeID := code <| mrc_ConsumedAt := now |>]> (mfaRecoveryCodes s) |>)
      end
  end.

(** ** Operator-reviewed MFA reset *)

Definition MFAFingerprint (secret : string) : string := sha256_hex secret.
Arguments MFAFingerprint : simpl never.

Definition validMFAResetUser (u : option User) (r : MFAResetRequest) : bool :=
  match u with
  | None => false
  | Some u =>
      user_Active u && user_EmailVerified u && user_MFAEnabled u &&
      (TrimSpace (user_MFATOTPSecret u) != "") && EqualFold (user_Email u) (mrr_Email r) &&
      (MFAFingerprint (user_MFATOTPSecret u) == mrr_Fingerprint r)
  end.

Definition CreateMFASession (token userID fingerprint : string) (expiresAt : time)
    (s : memoryStore) : result error unit * memoryStore :=
  match user_by_id s userID with
  | None => (Err ErrMFAResetConflict, s)
  | Some u =>
      if negb (user_Active u) || negb (user_MFAEnabled u) ||
         (MFAFingerprint (user_MFATOTPSecret u) != fingerprint)
      then (Err ErrMFAResetConflict, s)
      else (Ok tt, s <| sessions := <[token := mksessionRecord userID expiresAt]> (sessions s) |>)
  end.

(** A request that awaits the email code or the operator. *)
Definition pending (r : MFAResetRequest) : bool :=
  (mrr_Status r == "pending_email") || (mrr_Status r == "pending_review").

(** The loop over the earlier requests: it returns at the first conflict, with
    the requests it already visited marked as expired. *)
Fixpoint expire_requests (r : MFAResetRequest) (l : list (string * MFAResetRequest))
    (m : gmap string MFAResetRequest) : result error unit * gmap string MFAResetRequest :=
  match l with
  | [] => (Ok tt, m)
  | (k, old) :: rest =>
      if mrr_UserID old != mrr_UserID r then expire_requests r rest m else
      if (mrr_Status old == "pending_review") && After (mrr_ExpiresAt old) (mrr_CreatedAt r)
      then (Err ErrMFAResetConflict, m) else
      if Sub (mrr_CreatedAt r) (mrr_CreatedAt old) <? Minute
      then (Err ErrMFAResetConflict, m) else
      if pending old
      then expire_requests r rest (<[k := old <| mrr_Status := "expired" |>]> m)
      else expire_requests r rest m
  end.

Definition CreateMFAResetRequest `{MapOrder} (r : MFAResetRequest) (s : memoryStore)
    : result error unit * memoryStore :=
  if negb (validMFAResetUser (user_by_id s (mrr_UserID r)) r) then (Err ErrMFAResetConflict, s) else
  match expire_requests r (range (mfaResetRequests s)) (mfaResetRequests s) with
  | (Err e, m) => (Err e, s <| mfaResetRequests := m |>)
  | (Ok _, m) => (Ok tt, s <| mfaResetRequests := <[mrr_ID r := r]> m |>)
  end.

Definition GetMFAResetRequestByEmail `{MapOrder} (email : string) (s : memoryStore)
    : result error MFAResetRequest :=
  match foldl (keep_latest (λ r, EqualFold (mrr_Email r) email) mrr_CreatedAt) None
          (range (mfaResetRequests s)).*2 with
  | None => Err ErrMFAResetConflict
  | Some latest => Ok latest
  end.

Definition GetMFAResetRequestByID (id : string) (s : memoryStore) : result error MFAResetRequest :=
  match mfaResetRequests s !! id with
  | None => Err ErrMFAResetConflict
  | Some r => Ok r
  end.

Definition ConfirmMFAResetRequest (id hash reason : string) (now : time) (s : memoryStore)
    : result error unit * memoryStore :=
  match mfaResetRequests s !! id with
  | None => (Err ErrMFAResetConflict, s)
  | Some r =>
      if (mrr_Status r != "pending_email") || (mrr_CodeHash r != hash) ||
         (5 <=? mrr_FailedAttempts r) || negb (After (mrr_ExpiresAt r) now) ||
         negb (validMFAResetUser (user_by_id s (mrr_UserID r)) r)
      then (Err ErrMFAResetConflict, s) else
      (Ok tt, s <| mfaResetRequests :=
         <[id := r <| mrr_Status := "pending_review" |> <| mrr_Reason := reason |>
                   <| mrr_ExpiresAt := Add now (7 * (24 * Hour)) |> <| mrr_CodeHash := "" |>]>
           (mfaResetRequests s) |>)
  end.

Definition FailMFAResetCode (id : string) (s : memoryStore) : result error unit * memoryStore :=
  match mfaResetRequests s !! id with
  | Some r =>
      if mrr_Status r == "pending_email"
      then (Ok tt, s <| mfaResetRequests :=
              <[id := r <| mrr_FailedAttempts := int64 (mrr_FailedAttempts r + 1) |>]>
                (mfaResetRequests s) |>)
      else (Ok tt, s)
  | None => (Ok tt, s)
  end.

(** Requests under review first, then the most recent. *)
Definition review_first (a b : MFAResetRequest) : bool :=
  if (mrr_Status a == "pending_review") != (mrr_Status b == "pending_review")
  then mrr_Status a == "pending_review"
  else After (mrr_CreatedAt a) (mrr_CreatedAt b).

Definition ListMFAResetRequests `{MapOrder} (s : memoryStore) : result error (list MFAResetRequest) :=
  let out := filter (λ r, mrr_Status r ≠ "pending_email") (range (mfaResetRequests s)).*2 in
  Ok (limit_to 100 (sort_slice review_first out)).

(** [MFAEnabled = false; MFATOTPSecret = ""; MFAConfirmedAt, MFASecretIssuedAt
    = time.Time{}] *)
Definition clear_mfa (u : User) : User :=
  u <| user_MFAEnabled := false |> <| user_MFATOTPSecret := "" |>
    <| user_MFAConfirmedAt := 0 |> <| user_MFASecretIssuedAt := 0 |>.

Definition revoke_unused (userID : string) (now : time) (code : MFARecoveryCode) : MFARecoveryCode :=
  if (mrc_UserID code == userID) && IsZero (mrc_ConsumedAt code)
  then code <| mrc_RevokedAt := now |> else code.

Definition reset_audit (newUUID actorID decision id reason : string) (r : MFAResetRequest)
    (now : time) : AuditLog := {|
  audit_UUID := newUUID;
  audit_Action := "identity.mfa_recovery." +:+ decision;
  audit_ActorUUID := actorID;
  audit_Details := <["target_uuid" := AStr (mrr_UserID r)]> (<["requestId" := AStr id]>
                     (<["reason" := AStr reason]> ∅));
  audit_CreatedAt := now
|}.

Definition DecideMFAResetRequest (newUUID id actorID decision reason : string) (now : time)
    (s : memoryStore) : result error unit * memoryStore :=
  match user_by_id s actorID, mfaResetRequests s !! id with
  | Some actor, Some r =>
      if negb (user_Active actor) || negb (IsRootRole (user_Role actor)) ||
         negb (user_MFAEnabled actor) || (mrr_UserID r == actorID) ||
         (mrr_Status r != "pending_review") || negb (After (mrr_ExpiresAt r) now) ||
         ((decision != "approved") && (decision != "rejected")) || (TrimSpace reason == "")
      then (Err ErrMFAResetConflict, s) else
      match user_by_id s (mrr_UserID r) with
      | None => (Err ErrMFAResetConflict, s)
      | Some u =>
          if negb (validMFAResetUser (Some u) r) then (Err ErrMFAResetConflict, s) else
          let s := if decision == "approved" then
                     let s := update_user s (mrr_UserID r) clear_mfa in
                     let s := s <| sessions := drop_sessions (user_ID u) (sessions s) |> in
                     s <| mfaRecoveryCodes := revoke_unused (user_ID u) now <$> mfaRecoveryCodes s |>
                   else s in
          let s := s <| mfaResetRequests :=
                     <[id := r <| mrr_Status := decision |> <| mrr_ReviewReason := reason |>]>
                       (mfaResetRequests s) |> in
          (Ok tt, s <| auditLogs :=
             auditLogs s ++ [reset_audit newUUID actorID decision id reason r now] |>)
      end
  | _, _ => (Err ErrMFAResetConflict, s)
  end.
