(* ===== verification/RecoveryProps.v ===== *)
(** * Properties of sessions and account recovery

    Exchange codes are redeemed once; a recovery challenge is the only open
    one of its kind, locks after too many failures, and its completion ends
    every session of the account and no other; at most one MFA reset request
    per account is pending, and only an operator other than the account's
    owner can approve it. *)

From S2P Require Import Prelude GoLib Json StoreData Users Sha256 Recovery.
Open Scope Z_scope.
Open Scope bool_scope.
Open Scope go_scope.

(** ** OAuth exchange codes *)

(** Calls on the exchange codes, in the order the store serves them. *)
Inductive oauth_call :=
| OIssue (code sessionToken : string) (sessionExpiresAt expiresAt : time)
| ORedeem (now : time) (code : string).

(** What a sequence of calls answers to the redemptions of [c]. *)
Fixpoint redemptions (c : string) (calls : list oauth_call) (s : memoryStore)
    : list (string * time * bool) :=
  match calls with
  | [] => []
  | OIssue code tok sexp exp :: rest =>
      redemptions c rest (CreateOAuthExchangeCode code tok sexp exp s).2
  | ORedeem now code :: rest =>
      let r := ConsumeOAuthExchangeCode now code s in
      if TrimSpace code == c then r.1 :: redemptions c rest r.2 else redemptions c rest r.2
  end.

(** The instants at which [c] is presented, and whether it is issued again. *)
Definition presented (c : string) (calls : list oauth_call) : list time :=
  omap (λ call, match call with
                | ORedeem now code => if TrimSpace code == c then Some now else None
                | _ => None end) calls.
Definition issues (c : string) (call : oauth_call) : Prop :=
  match call with OIssue code _ _ _ => TrimSpace code = c | _ => False end.

Lemma redemptions_gone c calls s :
  (∀ call, call ∈ calls → ¬ issues c call) → oauthExchangeCodes s !! c = None →
  redemptions c calls s = replicate (length (presented c calls)) ("", 0, false).
Proof.
  revert s. induction calls as [|[code tok sexp exp|now code] calls IH]; intros s Hno Hs; [done|..].
  - simpl. apply IH; [intros ? ?; apply Hno; by right|]. getset.
    rewrite lookup_insert_ne; [done|]. apply (Hno (OIssue code tok sexp exp)). left.
  - simpl. assert (Hno' : ∀ call, call ∈ calls → ¬ issues c call) by (intros ? ?; apply Hno; by right).
    unfold ConsumeOAuthExchangeCode. destruct (decide (TrimSpace code = c)) as [->|Hne].
    + rewrite Hs, bool_decide_true by done. simpl. f_equal. by apply IH.
    + rewrite bool_decide_false by done.
      destruct (oauthExchangeCodes s !! TrimSpace code) as [r|]; simpl; [|by apply IH].
      destruct (After now _); simpl; apply IH; try done; getset; by rewrite lookup_delete_ne.
Qed.

Lemma redemptions_once c calls s r :
  (∀ call, call ∈ calls → ¬ issues c call) → oauthExchangeCodes s !! c = Some r →
  redemptions c calls s =
    match presented c calls with
    | [] => []
    | now :: later =>
        (if After now (oauth_ExpiresAt r) then ("", 0, false)
         else (oauth_SessionToken r, oauth_SessionExpiresAt r, true))
        :: replicate (length later) ("", 0, false)
    end.
Proof.
  revert s. induction calls as [|[code tok sexp exp|now code] calls IH]; intros s Hno Hs; [done|..].
  - simpl. apply IH; [intros ? ?; apply Hno; by right|]. getset.
    rewrite lookup_insert_ne; [done|]. apply (Hno (OIssue code tok sexp exp)). left.
  - simpl. assert (Hno' : ∀ call, call ∈ calls → ¬ issues c call) by (intros ? ?; apply Hno; by right).
    unfold ConsumeOAuthExchangeCode. destruct (decide (TrimSpace code = c)) as [->|Hne].
    + rewrite Hs, bool_decide_true by done. simpl.
      destruct (After now (oauth_ExpiresAt r)); simpl; f_equal;
        (apply redemptions_gone; [done|getset; apply lookup_delete_eq]).
    + rewrite bool_decide_false by done.
      destruct (oauthExchangeCodes s !! TrimSpace code) as [r'|]; simpl; [|by apply IH].
      destruct (After now _); simpl; apply IH; try done; getset; by rewrite lookup_delete_ne.
Qed.

(** an exchange code is redeemed at most once.  Whatever calls follow its
    issue (as long as the same code is not issued again), the first
    presentation of the code, with any surrounding white space, returns the
    session it was issued for unless it comes too late, and every later
    presentation is refused. *)
Theorem oauth_code_single_use code sessionToken sessionExpiresAt expiresAt calls s :
  (∀ call, call ∈ calls → ¬ issues (TrimSpace code) call) →
  redemptions (TrimSpace code) calls
    (CreateOAuthExchangeCode code sessionToken sessionExpiresAt expiresAt s).2 =
    match presented (TrimSpace code) calls with
    | [] => []
    | now :: later =>
        (if After now expiresAt then ("", 0, false) else (sessionToken, sessionExpiresAt, true))
        :: replicate (length later) ("", 0, false)
    end.
Proof.
  intros Hno. erewrite redemptions_once; [..|unfold CreateOAuthExchangeCode; simpl snd; getset;
    apply lookup_insert_eq]; done.
Qed.

(** ** Mutations of one account *)

(** An in-place change of an account touches the heap only. *)
Lemma update_user_heap s id f : update_user s id f = s <| users := users (update_user s id f) |>.
Proof. unfold update_user. by destruct (byID s !! id), s. Qed.

Lemma lookup_drop_sessions userID m token sess :
  drop_sessions userID m !! token = Some sess ↔ m !! token = Some sess ∧ sess_UserID sess ≠ userID.
Proof. apply map_lookup_filter_Some. Qed.

(** A store that differs from [s] in account [id] and by the end of its
    sessions. *)
Definition account_changed (id : string) (f : User → User) (s s' : memoryStore) : Prop :=
  index_ok s' ∧ user_by_id s' id = f <$> user_by_id s id ∧
  (∀ id', id' ≠ id → user_by_id s' id' = user_by_id s id') ∧
  (∀ token sess, sessions s' !! token = Some sess ↔
     sessions s !! token = Some sess ∧ sess_UserID sess ≠ id).

Lemma account_changed_intro id f s s' :
  index_ok s → keeps_keys f →
  users s' = users (update_user s id f) → byID s' = byID s → byName s' = byName s →
  byEmail s' = byEmail s → sessions s' = drop_sessions id (sessions s) →
  account_changed id f s s'.
Proof.
  intros Hs Hf Eu Ei En Ee Es.
  destruct (update_user_fields s id f) as (Fi & Fn & Fe).
  assert (Hget : ∀ k, user_by_id s' k = user_by_id (update_user s id f) k).
  { intros k. unfold user_by_id, user_at. by rewrite Eu, Ei, Fi. }
  split_and!.
  - apply (index_ok_ext (update_user s id f)); try congruence. by apply index_ok_update.
  - rewrite Hget. apply user_by_id_update_eq.
  - intros id' Hne. rewrite Hget. by apply user_by_id_update_ne.
  - intros token sess. rewrite Es. apply lookup_drop_sessions.
Qed.

Definition set_password (hash : string) (u : User) : User := u <| user_PasswordHash := hash |>.

(** ** Password recovery *)

Lemma CompletePasswordRecovery_inv id hash now s s' :
  CompletePasswordRecovery id hash now s = (Ok tt, s') →
  ∃ c, passwordRecovery s !! id = Some c ∧ open_challenge c = true ∧
    now < prc_ExpiresAt c ∧ prc_LockedUntil c ≤ now ∧ is_Some (user_by_id s (prc_UserID c)) ∧
    s' = (update_user s (prc_UserID c) (set_password hash))
           <| passwordRecovery := <[id := c <| prc_ConsumedAt := now |>]> (passwordRecovery s) |>
           <| sessions := drop_sessions (prc_UserID c) (sessions s) |>.
Proof.
  unfold CompletePasswordRecovery. destruct (passwordRecovery s !! id) as [c|] eqn:Ec; [|done].
  destruct (_ || _ || _ || _) eqn:Eg; [done|]. bools.
  destruct (user_by_id s (prc_UserID c)) as [u|] eqn:Eu; [|done]. intros Hr. injection Hr as <-.
  exists c. unfold open_challenge. unfold_time. split_and!; eauto; try lia.
  unfold update_user. by destruct (byID s !! prc_UserID c).
Qed.

(** C25: completing a password recovery needs an open, unexpired, unlocked
    challenge.  It sets the password of the account of the challenge, ends
    every session of that account and none of any other, leaves every other
    account alone, and uses the challenge up: presenting it again is refused. *)
Theorem CompletePasswordRecovery_correct id hash now s s' :
  index_ok s → now ≠ 0 → CompletePasswordRecovery id hash now s = (Ok tt, s') →
  ∃ c, passwordRecovery s !! id = Some c ∧ open_challenge c = true ∧
    prc_LockedUntil c ≤ now < prc_ExpiresAt c ∧
    is_Some (user_by_id s (prc_UserID c)) ∧
    account_changed (prc_UserID c) (set_password hash) s s' ∧
    ∀ hash' now', CompletePasswordRecovery id hash' now' s' = (Err ErrPasswordRecoveryInvalid, s').
Proof.
  intros Hs Hnow H. apply CompletePasswordRecovery_inv in H as (c & Hc & Ho & He & Hl & Hu & ->).
  exists c. destruct (update_user_fields s (prc_UserID c) (set_password hash)) as (?&?&?).
  split_and!; try done.
  - by apply account_changed_intro; getset.
  - intros hash' now'. unfold CompletePasswordRecovery. getset. rewrite lookup_insert_eq.
    getset. assert (IsZero now = false) as -> by (unfold_time; lia). done.
Qed.

(** *** One open challenge per account and kind *)

Inductive recovery_step : memoryStore → memoryStore → Prop :=
| rs_create challenge s r s' :
    CreatePasswordRecoveryChallenge (Some challenge) s = (r, s') →
    prc_CreatedAt challenge ≠ 0 → recovery_step s s'
| rs_create_code challenge cooldown s r s' :
    CreatePasswordRecoveryCodeChallenge (Some challenge) cooldown s = (r, s') →
    prc_CreatedAt challenge ≠ 0 → recovery_step s s'
| rs_fail id now maxAttempts lockout s r s' :
    RecordPasswordRecoveryFailure id now maxAttempts lockout s = (r, s') → recovery_step s s'
| rs_invalidate id now s r s' :
    InvalidatePasswordRecoveryChallenge id now s = (r, s') → recovery_step s s'
| rs_complete id hash now s r s' :
    CompletePasswordRecovery id hash now s = (r, s') → recovery_step s s'
| rs_other s s' : passwordRecovery s' = passwordRecovery s → recovery_step s s'.

Inductive recovery_reachable : memoryStore → Prop :=
| rr_new allow : recovery_reachable (newMemoryStore allow)
| rr_step s s' : recovery_reachable s → recovery_step s s' → recovery_reachable s'.

Definition one_open (m : gmap string PasswordRecoveryChallenge) : Prop :=
  ∀ k1 k2 c1 c2, m !! k1 = Some c1 → m !! k2 = Some c2 →
    open_challenge c1 = true → open_challenge c2 = true →
    prc_UserID c1 = prc_UserID c2 → prc_Kind c1 = prc_Kind c2 → k1 = k2.

Lemma one_open_insert_old m k c c' :
  m !! k = Some c → prc_UserID c' = prc_UserID c → prc_Kind c' = prc_Kind c →
  (open_challenge c' = true → open_challenge c = true) →
  one_open m → one_open (<[k := c']> m).
Proof.
  intros Hc Eu Ek Ho Hm.
  assert (Hback : ∀ j d, <[k := c']> m !! j = Some d → ∃ d0, m !! j = Some d0 ∧
    prc_UserID d = prc_UserID d0 ∧ prc_Kind d = prc_Kind d0 ∧
    (open_challenge d = true → open_challenge d0 = true)).
  { intros j d [[<- <-]|[? ?]]%lookup_insert_Some; eauto. }
  intros k1 k2 c1 c2 (d1 & H1 & U1 & K1 & O1)%Hback (d2 & H2 & U2 & K2 & O2)%Hback ? ? ? ?.
  apply (Hm k1 k2 d1 d2); auto; congruence.
Qed.

(** After [supersede] no challenge of the account and kind is open. *)
Lemma supersede_closed challenge c :
  prc_CreatedAt challenge ≠ 0 → open_challenge (supersede challenge c) = true →
  supersede challenge c = c ∧
  ¬ (prc_UserID c = prc_UserID challenge ∧ prc_Kind c = prc_Kind challenge).
Proof.
  intros Hc. unfold supersede. destruct (_ && _ && _ && _) eqn:E.
  - unfold open_challenge. getset. intros H. unfold_time. bools. lia.
  - intros Ho. split; [done|]. intros [Eu Ek]. unfold open_challenge in Ho.
    rewrite !bool_decide_true in E by done. simpl in E. congruence.
Qed.

Lemma one_open_create challenge copy k m :
  prc_CreatedAt challenge ≠ 0 → prc_UserID copy = prc_UserID challenge →
  prc_Kind copy = prc_Kind challenge →
  one_open m → one_open (<[k := copy]> (supersede challenge <$> m)).
Proof.
  intros Hc Eu Ek Hm.
  assert (Hold : ∀ j d, (supersede challenge <$> m) !! j = Some d → open_challenge d = true →
    m !! j = Some d ∧ ¬ (prc_UserID d = prc_UserID challenge ∧ prc_Kind d = prc_Kind challenge)).
  { intros j d [d0 [<- Hd0]]%lookup_fmap_Some Ho.
    destruct (supersede_closed challenge d0 Hc Ho) as [E Hne]. by rewrite E. }
  intros k1 k2 c1 c2 [[<- <-]|[N1 H1]]%lookup_insert_Some [[<- <-]|[N2 H2]]%lookup_insert_Some
    O1 O2 U K; try done.
  - apply Hold in H2 as [_ []]; [|done]. split; congruence.
  - apply Hold in H1 as [_ []]; [|done]. split; congruence.
  - apply Hold in H1 as [H1 _]; [|done]. apply Hold in H2 as [H2 _]; [|done].
    by apply (Hm k1 k2 c1 c2).
Qed.

Lemma one_open_step s s' :
  recovery_step s s' → one_open (passwordRecovery s) → one_open (passwordRecovery s').
Proof.
  intros Hstep Hm. destruct Hstep as [c s r s' H Hc|c cd s r s' H Hc|id now mx lk s r s' H
    |id now s r s' H|id hash now s r s' H|s s' E].
  - unfold CreatePasswordRecoveryChallenge in H. cbv zeta in H.
    destruct (_ || _); [by simplify_eq|].
    destruct (byID s !! prc_UserID c); injection H as _ <-; [|done]. getset.
    by apply one_open_create.
  - unfold CreatePasswordRecoveryCodeChallenge in H. cbv zeta in H.
    destruct (_ || _); [by simplify_eq|].
    destruct (byID s !! prc_UserID c); [|by simplify_eq].
    destruct (map_any _ _); injection H as _ <-; [done|]. getset.
    by apply one_open_create.
  - unfold RecordPasswordRecoveryFailure in H. cbv zeta in H.
    destruct (passwordRecovery s !! id) as [c|] eqn:Ec; [|by simplify_eq].
    destruct (_ || _ || _); [by simplify_eq|]. injection H as _ <-. getset.
    apply (one_open_insert_old _ _ c); try done;
      destruct (_ <=? _); by unfold open_challenge; getset.
  - unfold InvalidatePasswordRecoveryChallenge in H.
    destruct (passwordRecovery s !! id) as [c|] eqn:Ec; [|by simplify_eq].
    destruct (_ && _) eqn:Eo; injection H as _ <-; [|done]. getset.
    apply (one_open_insert_old _ _ c); try done.
    intros _. unfold open_challenge. by rewrite andb_comm.
  - destruct r as [[]|e].
    + apply CompletePasswordRecovery_inv in H as (c & Hc & Ho & _ & _ & _ & ->). getset.
      by apply (one_open_insert_old _ _ c).
    + unfold CompletePasswordRecovery in H. destruct (passwordRecovery s !! id) as [c|]; [|by simplify_eq].
      destruct (_ || _ || _ || _); [by simplify_eq|]. by destruct (user_by_id s _); simplify_eq.
  - by rewrite E.
Qed.

(** whatever challenges are created, failed, invalidated and completed, an
    account never has two open recovery challenges of the same kind, so an
    older token or code dies as soon as a newer one is issued. *)
Theorem one_open_challenge s k1 k2 c1 c2 :
  recovery_reachable s →
  passwordRecovery s !! k1 = Some c1 → passwordRecovery s !! k2 = Some c2 →
  open_challenge c1 = true → open_challenge c2 = true →
  prc_UserID c1 = prc_UserID c2 → prc_Kind c1 = prc_Kind c2 → k1 = k2.
Proof.
  intros Hs. cut (one_open (passwordRecovery s)); [intros Hm; apply Hm|].
  induction Hs as [|s s' _ IH Hstep]; [by intros ? ? ? ?|]. by apply (one_open_step s).
Qed.

(** *** Lockout *)

Definition fail_all (id : string) (maxAttempts : Z) (lockout : duration) (times : list time)
    (s : memoryStore) : memoryStore :=
  foldl (λ s now, (RecordPasswordRecoveryFailure id now maxAttempts lockout s).2) s times.

Definition counted (c : PasswordRecoveryChallenge) (n lock : Z) : PasswordRecoveryChallenge :=
  c <| prc_FailedAttempts := n |> <| prc_LockedUntil := lock |>.

Lemma counted_id c : counted c (prc_FailedAttempts c) (prc_LockedUntil c) = c.
Proof. by destruct c. Qed.

Lemma fail_one id maxAttempts lockout now s c n lock :
  passwordRecovery s !! id = Some (counted c n lock) → open_challenge c = true →
  now < prc_ExpiresAt c → in_int64 (n + 1) →
  passwordRecovery (RecordPasswordRecoveryFailure id now maxAttempts lockout s).2 !! id =
    Some (counted c (n + 1) (if maxAttempts <=? n + 1 then now + lockout else lock)).
Proof.
  intros Hc Ho He Hn. unfold RecordPasswordRecoveryFailure. rewrite Hc.
  unfold open_challenge in Ho. apply andb_true_iff in Ho as [E1 E2].
  unfold counted. getset. rewrite E1, E2.
  assert (Before now (prc_ExpiresAt c) = true) as -> by (unfold_time; lia). simpl negb. cbv iota zeta.
  cbn [orb]. simpl snd. getset. rewrite lookup_insert_eq, int64_id by done.
  unfold Add. by destruct (_ <=? _).
Qed.

Lemma fail_many id maxAttempts lockout times s c :
  passwordRecovery s !! id = Some c → open_challenge c = true →
  (∀ t, t ∈ times → t < prc_ExpiresAt c) → 0 ≤ prc_FailedAttempts c →
  prc_FailedAttempts c + Z.of_nat (length times) ≤ int64_max →
  let n := prc_FailedAttempts c + Z.of_nat (length times) in
  passwordRecovery (fail_all id maxAttempts lockout times s) !! id =
    Some (counted c n (if maxAttempts <=? n
      then match last times with Some t => t + lockout | None => prc_LockedUntil c end
      else prc_LockedUntil c)).
Proof.
  cbv zeta. intros Hc Ho. induction times as [|t times IH] using rev_ind; intros Ht H0 Hn.
  - simpl. rewrite Z.add_0_r, Hc. destruct (_ <=? _); by rewrite counted_id.
  - rewrite length_app in *. simpl length in *. unfold fail_all. rewrite foldl_app. simpl foldl.
    fold (fail_all id maxAttempts lockout times s).
    assert (E : prc_FailedAttempts c + Z.of_nat (length times + 1) =
                prc_FailedAttempts c + Z.of_nat (length times) + 1) by lia.
    erewrite fail_one; [rewrite E|apply IH|..].
    + rewrite last_snoc. destruct (maxAttempts <=? _ + 1) eqn:E1; [done|]. apply Z.leb_gt in E1.
      by rewrite (proj2 (Z.leb_gt maxAttempts _)) by lia.
    + intros t' Ht'. apply Ht. apply elem_of_app. by left.
    + done.
    + lia.
    + done.
    + apply Ht. apply elem_of_app. right. left.
    + unfold in_int64, int64_min. lia.
Qed.

(** failed attempts on an open challenge are counted one by one.  Fewer
    than [maxAttempts] leave it as it was; from [maxAttempts] on, the challenge
    is locked for [lockout] after the last failure, and during that time even
    the right secret does not complete the recovery. *)
Theorem recovery_lockout id maxAttempts lockout times t s c :
  passwordRecovery s !! id = Some c → open_challenge c = true →
  (∀ t', t' ∈ times ++ [t] → t' < prc_ExpiresAt c) → 0 ≤ prc_FailedAttempts c →
  prc_FailedAttempts c + Z.of_nat (length times + 1) ≤ int64_max →
  let s' := fail_all id maxAttempts lockout (times ++ [t]) s in
  let n := prc_FailedAttempts c + Z.of_nat (length times + 1) in
  (n < maxAttempts → passwordRecovery s' !! id = Some (counted c n (prc_LockedUntil c))) ∧
  (maxAttempts ≤ n → ∀ hash now, now < t + lockout →
     CompletePasswordRecovery id hash now s' = (Err ErrPasswordRecoveryInvalid, s')).
Proof.
  intros Hc Ho Ht H0 Hn. cbv zeta.
  assert (Hl := fail_many id maxAttempts lockout (times ++ [t]) s c Hc Ho Ht H0).
  cbv zeta in Hl. rewrite length_app, last_snoc in Hl. specialize (Hl Hn). simpl length in Hl.
  split.
  - intros Hlt. rewrite Hl. by apply Z.leb_gt in Hlt as ->.
  - intros Hle hash now Hnow. apply Z.leb_le in Hle. rewrite Hle in Hl.
    unfold CompletePasswordRecovery. rewrite Hl. unfold counted. getset.
    assert (Before now (t + lockout) = true) as -> by (unfold_time; lia). by rewrite orb_true_r.
Qed.

(** ** MFA recovery codes *)

Lemma lookup_add_codes codes m k :
  NoDup (mrc_ID <$> codes) →
  add_codes codes m !! k =
    match (list_to_map ((λ c, (mrc_ID c, c)) <$> codes) : gmap string MFARecoveryCode) !! k with
    | Some c => Some c
    | None => m !! k
    end.
Proof.
  unfold add_codes. revert m. induction codes as [|c codes IH]; intros m; [done|].
  simpl. intros [Hni Hnd]%NoDup_cons. rewrite IH by done.
  destruct (decide (mrc_ID c = k)) as [<-|Hne].
  - rewrite lookup_insert_eq. rewrite (not_elem_of_list_to_map_1 _ (mrc_ID c)); [by rewrite lookup_insert_eq|].
    rewrite <-list_fmap_compose. done.
  - rewrite !lookup_insert_ne by done. done.
Qed.

(** Listing the values a map filters is listing the filtered map. *)
Lemma filter_values `{MapOrder} {V} (p : V → bool) (m : gmap string V) :
  filter (λ v, p v = true) (range m).*2 ≡ₚ (map_to_list (filter (λ kv, p kv.2 = true) m)).*2.
Proof.
  transitivity (filter (λ v, p v = true) (map_to_list m).*2); [by rewrite range_perm|].
  rewrite map_filter_alt, map_to_list_to_map.
  - induction (map_to_list m) as [|[k v] l IH]; [done|]. simpl.
    rewrite !filter_cons. simpl. destruct (decide (p v = true)); simpl; by rewrite IH.
  - eapply sublist_NoDup; [apply (NoDup_fst_map_to_list m)|].
    apply fmap_sublist, sublist_filter.
Qed.

Lemma revoke_code_not_usable userID now now' c :
  now ≠ 0 → usable_code userID now' (revoke_code userID now c) = false.
Proof.
  intros Hn. unfold revoke_code. destruct (_ && _ && _) eqn:E; unfold usable_code; getset.
  - assert (IsZero now = false) as -> by (unfold_time; lia).
    by rewrite andb_false_r.
  - by rewrite E.
Qed.

Lemma ReplaceMFARecoveryCodes_inv userID codes s s' :
  ReplaceMFARecoveryCodes userID codes s = (Ok tt, s') →
  ∃ first, head codes = Some first ∧
    (∀ c, c ∈ codes → bad_code userID (mrc_CreatedAt first) c = false) ∧
    s' = s <| mfaRecoveryCodes :=
      add_codes codes (revoke_code userID (mrc_CreatedAt first) <$> mfaRecoveryCodes s) |>.
Proof.
  unfold ReplaceMFARecoveryCodes. destruct codes as [|first codes]; [done|].
  destruct (TrimSpace userID == ""); [done|]. destruct (byID s !! userID); [|done]. cbv zeta.
  destruct (existsb _ _) eqn:E; [done|]. intros H. injection H as <-. exists first.
  split_and!; try done. intros c Hc. destruct (bad_code _ _ c) eqn:Eb; [|done].
  assert (existsb (bad_code userID (mrc_CreatedAt first)) (first :: codes) = true); [|congruence].
  apply existsb_exists. exists c. split; [by apply list_elem_of_In|done].
Qed.

(** After the recovery codes of an account are replaced, the codes listed
    as usable are exactly the new ones that have not expired; no code of an
    earlier batch is left, whatever state the earlier codes were in. *)
Theorem ReplaceMFARecoveryCodes_lists `{MapOrder} userID codes now s s' :
  ReplaceMFARecoveryCodes userID codes s = (Ok tt, s') → NoDup (mrc_ID <$> codes) →
  (∀ c, c ∈ codes → mrc_CreatedAt c ≠ 0 ∧ mrc_ConsumedAt c = 0 ∧ mrc_RevokedAt c = 0) →
  ∃ l, ListMFARecoveryCodes userID now s' = Ok l ∧
    l ≡ₚ filter (λ c, now < mrc_ExpiresAt c) codes.
Proof.
  intros H1 Hnd Hnew. apply ReplaceMFARecoveryCodes_inv in H1 as (first & Hf & Hb & ->).
  eexists. split; [done|]. getset. set (m0 := revoke_code _ _ <$> _).
  assert (Hf0 : mrc_CreatedAt first ≠ 0).
  { destruct codes as [|c codes]; [done|]. injection Hf as ->. apply Hnew. left. }
  assert (Hu : ∀ c, c ∈ codes → usable_code userID now c = true ↔ now < mrc_ExpiresAt c).
  { intros c Hc. destruct (Hnew c Hc) as (_ & E1 & E2). specialize (Hb c Hc).
    unfold bad_code in Hb. bools. unfold usable_code. rewrite E1, E2.
    rewrite bool_decide_true by done. unfold_time. simpl. lia. }
  set (pairs := (λ c, (mrc_ID c, c)) <$> filter (λ c, now < mrc_ExpiresAt c) codes).
  assert (Hnd' : NoDup pairs.*1).
  { unfold pairs. rewrite <-list_fmap_compose. simpl.
    eapply sublist_NoDup; [exact Hnd|]. apply fmap_sublist, sublist_filter. }
  rewrite filter_values. transitivity (map_to_list (list_to_map pairs : gmap string _)).*2.
  - rewrite (map_eq (filter _ _) (list_to_map pairs)); [done|]. intros k.
    apply option_eq. intros c. rewrite map_lookup_filter_Some, lookup_add_codes by done. simpl.
    rewrite <-(elem_of_list_to_map pairs) by done. unfold pairs. rewrite list_elem_of_fmap.
    setoid_rewrite list_elem_of_filter.
    destruct (list_to_map _ !! k) as [d|] eqn:Ed.
    + apply elem_of_list_to_map_2, list_elem_of_fmap in Ed as (x & [= -> ->] & Hx). split.
      * intros [[= ->] Hus]. exists c. split; [done|]. split; [by apply Hu|done].
      * intros (y & [= Ey ->] & Hlt & Hy). split; [|by apply Hu]. f_equal.
        by apply (NoDup_key_inj mrc_ID codes).
    + split.
      * intros [Hm Hus]. apply lookup_fmap_Some in Hm as (d & <- & _).
        by rewrite revoke_code_not_usable in Hus.
      * intros (y & [= -> ->] & Hlt & Hy). exfalso.
        apply not_elem_of_list_to_map_2 in Ed. apply Ed. rewrite <-list_fmap_compose.
        apply list_elem_of_fmap. by exists y.
  - rewrite map_to_list_to_map by done. unfold pairs. rewrite <-list_fmap_compose. simpl.
    by rewrite list_fmap_id.
Qed.

(** a password reset through MFA needs an active account and, when it is
    made with a recovery code, an unused, unrevoked, unexpired and unlocked
    code of that account.  It sets the password, ends the sessions of that
    account and no other, and uses the code up. *)
Theorem CompleteMFAPasswordReset_correct userID codeID hash now s s' :
  index_ok s → now ≠ 0 → CompleteMFAPasswordReset userID codeID hash now s = (Ok tt, s') →
  (∃ u, user_by_id s userID = Some u ∧ user_Active u = true ∧ user_ArchivedAt u = None) ∧
  account_changed userID (set_password hash) s s' ∧
  (codeID ≠ "" →
     (∃ c, mfaRecoveryCodes s !! codeID = Some c ∧ usable_code userID now c = true ∧
        mrc_LockedUntil c ≤ now) ∧
     ∀ user' hash' now',
       CompleteMFAPasswordReset user' codeID hash' now' s' = (Err ErrMFARecoveryCodeInvalid, s')).
Proof.
  intros Hs Hnow. unfold CompleteMFAPasswordReset at 1.
  destruct (user_by_id s userID) as [u|] eqn:Hu; [|done].
  destruct (_ || _) eqn:Ea; [done|]. bools. cbv zeta.
  pose proof (update_user_fields s userID (set_password hash)) as (Fi & Fn & Fe).
  destruct (codeID == "") eqn:Ec; bools.
  - intros Hr. injection Hr as <-. split; [eauto|]. split; [|done].
    fold (set_password hash). apply account_changed_intro; try done.
    unfold update_user. by destruct (byID s !! userID).
  - destruct (mfaRecoveryCodes s !! codeID) as [c|] eqn:Hc; [|done].
    destruct (_ || _ || _ || _ || _) eqn:Eg; [done|]. intros Hr. injection Hr as <-.
    fold (set_password hash).
    split; [eauto|]. split; [|intros _; split].
    + apply account_changed_intro; try done; unfold update_user; getset;
        by destruct (byID s !! userID).
    + exists c. unfold usable_code. bools. unfold_time. rewrite bool_decide_true by done.
      split_and!; try done; [|lia]. simpl. rewrite !andb_true_iff. auto.
    + intros user' hash' now'. unfold CompleteMFAPasswordReset at 1.
      destruct (user_by_id _ user') as [u0|]; [|done]. cbv zeta.
      rewrite (bool_decide_false (codeID = "")) by done. getset.
      assert (E : mfaRecoveryCodes (update_user (s <| mfaRecoveryCodes :=
          <[codeID := c <| mrc_ConsumedAt := now |>]> (mfaRecoveryCodes s) |>) userID
          (set_password hash)) !! codeID = Some (c <| mrc_ConsumedAt := now |>)).
      { unfold update_user. getset. destruct (byID s !! userID); getset; apply lookup_insert_eq. }
      rewrite E. getset. assert (IsZero now = false) as -> by (unfold_time; lia).
      rewrite orb_true_r. by destruct (negb (user_Active u0) || _).
Qed.

(** ** MFA reset requests *)

(** What the loop over earlier requests leaves behind, whichever order it
    visits them in and wherever it stops. *)
Lemma expire_requests_weaker r l m res m' :
  (∀ k v, (k, v) ∈ l → m !! k = Some v) → NoDup l.*1 →
  expire_requests r l m = (res, m') →
  ∀ k v', m' !! k = Some v' → ∃ v, m !! k = Some v ∧
    (v' = v ∨ v' = v <| mrr_Status := "expired" |>).
Proof.
  revert m. induction l as [|[k0 old] l IH]; intros m Hl Hnd H k v' Hk; simpl in H.
  - injection H as <- <-. eauto.
  - apply NoDup_cons in Hnd as [Hk0 Hnd].
    assert (Hl' : ∀ k v, (k, v) ∈ l → m !! k = Some v) by (intros; apply Hl; by right).
    destruct (mrr_UserID old != mrr_UserID r); [by eapply IH|].
    destruct (_ && _); [injection H as <- <-; eauto|].
    destruct (_ <? _); [injection H as <- <-; eauto|].
    destruct (pending old); [|by eapply IH].
    eapply IH in H as (v & Hv & E); [|..|exact Hk]; [|clear Hk|done].
    + apply lookup_insert_Some in Hv as [[<- <-]|[? Hv]]; [|eauto].
      exists old. split; [apply Hl; left|]. destruct E as [->| ->]; by right.
    + intros k1 v1 H1. rewrite lookup_insert_ne; [by apply Hl'|].
      intros <-. apply Hk0. by apply (list_elem_of_fmap_2 fst _ (k0, v1)).
Qed.

Lemma expire_requests_other r l m res m' k :
  expire_requests r l m = (res, m') → k ∉ l.*1 → m' !! k = m !! k.
Proof.
  revert m. induction l as [|[k0 old] l IH]; intros m H Hk; simpl in H.
  - by injection H as <- <-.
  - apply not_elem_of_cons in Hk as [Hne Hk]. simpl in Hne.
    destruct (_ != _); [by apply IH|]. destruct (_ && _); [by injection H as <- <-|].
    destruct (_ <? _); [by injection H as <- <-|]. destruct (pending old); [|by apply IH].
    rewrite (IH _ H Hk). by rewrite lookup_insert_ne.
Qed.

Lemma expire_requests_ok r l m m' k v :
  (∀ k v, (k, v) ∈ l → m !! k = Some v) → NoDup l.*1 →
  expire_requests r l m = (Ok tt, m') → (k, v) ∈ l → mrr_UserID v = mrr_UserID r →
  ∃ v', m' !! k = Some v' ∧ pending v' = false.
Proof.
  revert m. induction l as [|[k0 old] l IH]; intros m Hl Hnd H Hk Hu; [by apply not_elem_of_nil in Hk|].
  simpl in H. apply NoDup_cons in Hnd as [Hk0 Hnd]. simpl in Hk0.
  assert (Hl' : ∀ k v, (k, v) ∈ l → m !! k = Some v) by (intros; apply Hl; by right).
  assert (Hl'' : ∀ w k v, (k, v) ∈ l → <[k0 := w]> m !! k = Some v).
  { intros w k1 v1 H1. rewrite lookup_insert_ne; [by apply Hl'|].
    intros <-. apply Hk0. by apply (list_elem_of_fmap_2 fst _ (k0, v1)). }
  apply elem_of_cons in Hk as [[= <- <-]|Hk].
  - rewrite Hu, bool_decide_true in H by done. simpl negb in H. cbv iota in H.
    destruct (_ && _); [done|]. destruct (_ <? _); [done|].
    destruct (pending v) eqn:Ep;
      rewrite (expire_requests_other _ _ _ _ _ _ H Hk0).
    + eexists. by rewrite lookup_insert_eq.
    + exists v. split; [apply Hl; left|done].
  - destruct (_ != _); [by eapply IH|]. destruct (_ && _); [done|]. destruct (_ <? _); [done|].
    destruct (pending old); [apply (IH _ (Hl'' _) Hnd H Hk Hu)|apply (IH _ Hl' Hnd H Hk Hu)].
Qed.

(** The effect of a decision on the account, its sessions and its codes. *)
Definition decided (decision : string) (r : MFAResetRequest) (u : User) (now : time)
    (s : memoryStore) : memoryStore :=
  if decision == "approved" then
    (update_user s (mrr_UserID r) clear_mfa)
      <| sessions := drop_sessions (user_ID u) (sessions s) |>
      <| mfaRecoveryCodes := revoke_unused (user_ID u) now <$> mfaRecoveryCodes s |>
  else s.

Lemma decided_requests decision r u now s :
  mfaResetRequests (decided decision r u now s) = mfaResetRequests s ∧
  auditLogs (decided decision r u now s) = auditLogs s.
Proof.
  unfold decided. destruct (decision == "approved"); [|done]. getset.
  unfold update_user. by destruct (byID s !! _).
Qed.

Lemma DecideMFAResetRequest_inv uuid id actorID decision reason now s s' :
  DecideMFAResetRequest uuid id actorID decision reason now s = (Ok tt, s') →
  ∃ actor r u, user_by_id s actorID = Some actor ∧ mfaResetRequests s !! id = Some r ∧
    (user_Active actor = true ∧ IsRootRole (user_Role actor) = true ∧
     user_MFAEnabled actor = true ∧ mrr_UserID r ≠ actorID) ∧
    mrr_Status r = "pending_review" ∧
    (now < mrr_ExpiresAt r ∧ (decision = "approved" ∨ decision = "rejected") ∧
     TrimSpace reason ≠ "" ∧ user_by_id s (mrr_UserID r) = Some u ∧
     validMFAResetUser (Some u) r = true) ∧
    s' = (decided decision r u now s)
      <| mfaResetRequests := <[id := r <| mrr_Status := decision |> <| mrr_ReviewReason := reason |>]>
           (mfaResetRequests s) |>
      <| auditLogs := auditLogs s ++ [reset_audit uuid actorID decision id reason r now] |>.
Proof.
  unfold DecideMFAResetRequest.
  destruct (user_by_id s actorID) as [actor|] eqn:Ea; [|done].
  destruct (mfaResetRequests s !! id) as [r|] eqn:Er; [|done].
  destruct (_ || _ || _ || _ || _ || _ || _ || _) eqn:Eg; [done|].
  destruct (user_by_id s (mrr_UserID r)) as [u|] eqn:Eu; [|done].
  destruct (negb (validMFAResetUser (Some u) r)) eqn:Ev; [done|].
  cbv zeta. intros Hr. injection Hr as <-. exists actor, r, u.
  apply negb_false_iff in Ev. bools. unfold_time. split_and!; try done.
  - lia.
  - match goal with H : _ ∨ _ |- _ => destruct H; bools; auto end.
  - unfold decided. destruct (decision == "approved"); [|done]. getset.
    unfold update_user. by destruct (byID s !! _).
Qed.

Lemma DecideMFAResetRequest_refused uuid id actorID decision reason now s e s' :
  DecideMFAResetRequest uuid id actorID decision reason now s = (Err e, s') → s' = s.
Proof.
  unfold DecideMFAResetRequest. intros H.
  destruct (user_by_id s actorID) as [a|]; [|by simplify_eq].
  destruct (mfaResetRequests s !! id) as [r|]; [|by simplify_eq].
  destruct (_ || _ || _ || _ || _ || _ || _ || _); [by simplify_eq|].
  destruct (user_by_id s (mrr_UserID r)) as [u|]; [|by simplify_eq].
  by destruct (negb (validMFAResetUser (Some u) r)); simplify_eq.
Qed.

Section requests.
Context `{MO : MapOrder}.

Inductive reset_step : memoryStore → memoryStore → Prop :=
| ms_create r s res s' : CreateMFAResetRequest r s = (res, s') → reset_step s s'
| ms_confirm id hash reason now s res s' :
    ConfirmMFAResetRequest id hash reason now s = (res, s') → reset_step s s'
| ms_fail id s res s' : FailMFAResetCode id s = (res, s') → reset_step s s'
| ms_decide uuid id actor decision reason now s res s' :
    DecideMFAResetRequest uuid id actor decision reason now s = (res, s') → reset_step s s'
| ms_other s s' : mfaResetRequests s' = mfaResetRequests s → reset_step s s'.

Inductive reset_reachable : memoryStore → Prop :=
| mr_new allow : reset_reachable (newMemoryStore allow)
| mr_step s s' : reset_reachable s → reset_step s s' → reset_reachable s'.

Definition one_pending (m : gmap string MFAResetRequest) : Prop :=
  ∀ k1 k2 r1 r2, m !! k1 = Some r1 → m !! k2 = Some r2 →
    pending r1 = true → pending r2 = true → mrr_UserID r1 = mrr_UserID r2 → k1 = k2.

(** Entries may be closed, never opened. *)
Lemma one_pending_weaker m m' :
  (∀ k r', m' !! k = Some r' → pending r' = true →
     ∃ r, m !! k = Some r ∧ pending r = true ∧ mrr_UserID r' = mrr_UserID r) →
  one_pending m → one_pending m'.
Proof.
  intros Hw Hm k1 k2 r1 r2 H1 H2 P1 P2 U.
  destruct (Hw _ _ H1 P1) as (q1 & ? & ? & ?), (Hw _ _ H2 P2) as (q2 & ? & ? & ?).
  apply (Hm k1 k2 q1 q2); congruence.
Qed.

Lemma one_pending_insert m k r r' :
  m !! k = Some r → (pending r' = true → pending r = true) → mrr_UserID r' = mrr_UserID r →
  one_pending m → one_pending (<[k := r']> m).
Proof.
  intros Hr Hp Hu. apply one_pending_weaker.
  intros j q [[<- <-]|[? ?]]%lookup_insert_Some; eauto.
Qed.

Lemma expire_requests_pending r (m m' : gmap string MFAResetRequest) res :
  expire_requests r (range m) m = (res, m') → ∀ k v', m' !! k = Some v' → pending v' = true →
    m !! k = Some v' ∧ (res = Ok tt → mrr_UserID v' ≠ mrr_UserID r).
Proof.
  intros H k v' Hk Hp.
  assert (Hl : ∀ k v, (k, v) ∈ range m → m !! k = Some v) by (intros ? ?; apply elem_of_range).
  destruct (expire_requests_weaker _ _ _ _ _ Hl (range_keys_nodup m) H k v' Hk)
    as (v & Hv & [->| ->]); [|done]. split; [done|]. intros -> Hu.
  destruct (expire_requests_ok _ _ _ _ k v Hl (range_keys_nodup m) H) as (w & Hw & Ew);
    [by apply elem_of_range|done|]. congruence.
Qed.

Lemma one_pending_step s s' :
  reset_step s s' → one_pending (mfaResetRequests s) → one_pending (mfaResetRequests s').
Proof.
  intros Hstep Hm. destruct Hstep as [r s res s' H|id hash reason now s res s' H|id s res s' H
    |uuid id actor decision reason now s res s' H|s s' E].
  - unfold CreateMFAResetRequest in H. destruct (negb _); [by simplify_eq|].
    destruct (expire_requests _ _ _) as [[[]|e] m] eqn:Ex; injection H as <- <-; getset.
    + intros k1 k2 r1 r2 [[<- <-]|[N1 H1]]%lookup_insert_Some
        [[<- <-]|[N2 H2]]%lookup_insert_Some P1 P2 U; try done.
      * by destruct (expire_requests_pending _ _ _ _ Ex _ _ H2 P2) as [_ []].
      * by destruct (expire_requests_pending _ _ _ _ Ex _ _ H1 P1) as [_ []].
      * apply (Hm k1 k2 r1 r2); try done; by eapply expire_requests_pending.
    + revert Hm. apply one_pending_weaker. intros k r' Hk Hp.
      destruct (expire_requests_pending _ _ _ _ Ex _ _ Hk Hp) as [? _]. eauto.
  - unfold ConfirmMFAResetRequest in H. destruct (mfaResetRequests s !! id) as [r|] eqn:Er;
      [|by simplify_eq].
    destruct (_ || _ || _ || _ || _) eqn:Eg; injection H as _ <-; [done|]. getset.
    apply (one_pending_insert _ _ r); try done. intros _. bools. unfold pending.
    by rewrite bool_decide_true.
  - unfold FailMFAResetCode in H. destruct (mfaResetRequests s !! id) as [r|] eqn:Er;
      [|by simplify_eq].
    destruct (_ == _); injection H as _ <-; [|done]. getset.
    by apply (one_pending_insert _ _ r).
  - destruct res as [[]|e]; [|by apply DecideMFAResetRequest_refused in H as ->].
    apply DecideMFAResetRequest_inv in H as (a & r & u & _ & Er & Ha & Ep & _ & ->). getset.
    replace (mfaResetRequests (decided decision r u now s)) with (mfaResetRequests s)
      by (symmetry; apply decided_requests).
    apply (one_pending_insert _ _ r); try done. intros _. unfold pending. rewrite Ep. done.
  - by rewrite E.
Qed.

(** in whatever order the store visits the requests, and even when a
    creation is refused half-way, an account never has two pending MFA reset
    requests. *)
Theorem one_pending_reset s k1 k2 r1 r2 :
  reset_reachable s →
  mfaResetRequests s !! k1 = Some r1 → mfaResetRequests s !! k2 = Some r2 →
  pending r1 = true → pending r2 = true → mrr_UserID r1 = mrr_UserID r2 → k1 = k2.
Proof.
  intros Hs. cut (one_pending (mfaResetRequests s)); [intros Hm; apply Hm|].
  induction Hs as [|s s' _ IH Hstep]; [by intros ? ? ? ?|]. by apply (one_pending_step s).
Qed.
End requests.

Lemma revoke_unused_not_usable userID now now' c :
  now ≠ 0 → usable_code userID now' (revoke_unused userID now c) = false.
Proof.
  intros Hn. unfold revoke_unused. destruct (_ && _) eqn:E; unfold usable_code; getset.
  - assert (IsZero now = false) as -> by (unfold_time; lia). by rewrite andb_false_r.
  - by rewrite E.
Qed.

(** C24: an MFA reset is approved only by an active administrator with MFA who
    is not the owner of the account, on a request under review that has not
    expired and still matches the account.  Approval clears the factor of that
    account alone, ends its sessions, revokes the recovery codes of that
    account that were not used and no others, so that it is left without a
    usable one, and a login whose factor was checked before the approval gets no session
    afterwards.  A rejection leaves accounts, sessions and codes as they were.
    Every decision appends one audit entry, and a decided request cannot be
    decided again. *)
Theorem DecideMFAResetRequest_correct uuid id actorID decision reason now s s' :
  index_ok s → now ≠ 0 →
  DecideMFAResetRequest uuid id actorID decision reason now s = (Ok tt, s') →
  ∃ actor r u, user_by_id s actorID = Some actor ∧ mfaResetRequests s !! id = Some r ∧
    user_by_id s (mrr_UserID r) = Some u ∧
    (user_Active actor = true ∧ IsRootRole (user_Role actor) = true ∧
     user_MFAEnabled actor = true ∧ mrr_UserID r ≠ actorID) ∧
    (mrr_Status r = "pending_review" ∧ now < mrr_ExpiresAt r ∧ validMFAResetUser (Some u) r = true) ∧
    (decision = "approved" →
       account_changed (mrr_UserID r) clear_mfa s s' ∧
       (∀ k c, mfaRecoveryCodes s !! k = Some c →
          mfaRecoveryCodes s' !! k =
            Some (if (mrc_UserID c == mrr_UserID r) && IsZero (mrc_ConsumedAt c)
                  then c <| mrc_RevokedAt := now |> else c)) ∧
       (∀ k, mfaRecoveryCodes s !! k = None → mfaRecoveryCodes s' !! k = None) ∧
       (∀ (MO : MapOrder) now', ListMFARecoveryCodes (mrr_UserID r) now' s' = Ok []) ∧
       (∀ token fingerprint expiresAt,
          CreateMFASession token (mrr_UserID r) fingerprint expiresAt s' = (Err ErrMFAResetConflict, s'))) ∧
    (decision ≠ "approved" → users s' = users s ∧ sessions s' = sessions s ∧
       mfaRecoveryCodes s' = mfaRecoveryCodes s) ∧
    auditLogs s' = auditLogs s ++ [reset_audit uuid actorID decision id reason r now] ∧
    ∀ uuid' actor' decision' reason' now',
      DecideMFAResetRequest uuid' id actor' decision' reason' now' s' = (Err ErrMFAResetConflict, s').
Proof.
  intros Hs Hnow H.
  apply DecideMFAResetRequest_inv in H as (actor & r & u & Ha & Hr & Hact & Hp & (Hx & Hd & _ & Hu & Hv) & E).
  exists actor, r, u. split_and!; try done; try apply Hact.
  - intros ->. destruct (user_by_id_spec _ _ _ Hs Hu) as [Ei _].
    assert (Hch : account_changed (mrr_UserID r) clear_mfa s s').
    { subst s'. unfold decided. rewrite bool_decide_true, Ei by done.
      destruct (update_user_fields s (mrr_UserID r) clear_mfa) as (?&?&?).
      by apply account_changed_intro; getset. }
    assert (Hc : mfaRecoveryCodes s' = revoke_unused (mrr_UserID r) now <$> mfaRecoveryCodes s).
    { subst s'. unfold decided. rewrite bool_decide_true, Ei by done. getset.
      destruct (update_user_fields s (mrr_UserID r) clear_mfa) as (?&?&?). done. }
    split_and!; [done|..].
    + intros k c Hk. by rewrite Hc, lookup_fmap, Hk.
    + intros k Hk. by rewrite Hc, lookup_fmap, Hk.
    + intros MO now'. unfold ListMFARecoveryCodes. f_equal. apply filter_none.
      intros c (k & Hk)%list_elem_of_fmap. destruct Hk as (-> & Hk). destruct k as [k c]. simpl.
      apply elem_of_range in Hk. subst s'. unfold decided in Hk. rewrite bool_decide_true in Hk by done.
      getset. apply lookup_fmap_Some in Hk as (c0 & <- & _).
      by rewrite Ei, revoke_unused_not_usable.
    + intros token fp exp. unfold CreateMFASession. destruct Hch as (_ & -> & _). rewrite Hu.
      cbn [fmap option_fmap option_map]. unfold clear_mfa. getset. cbn [negb].
      rewrite orb_true_r, orb_true_l. reflexivity.
  - intros Hne. subst s'. unfold decided. by rewrite bool_decide_false.
  - by subst s'.
  - intros uuid' actor' decision' reason' now'. unfold DecideMFAResetRequest.
    destruct (user_by_id s' actor') as [a'|]; [|done].
    assert (mfaResetRequests s' !! id =
      Some (r <| mrr_Status := decision |> <| mrr_ReviewReason := reason |>)) as ->.
    { subst s'. getset. apply lookup_insert_eq. }
    getset. rewrite (bool_decide_false (decision = "pending_review")) by (by destruct Hd as [->| ->]).
    simpl negb. by rewrite orb_true_r.
Qed.
