(* ===== verification/Network.v ===== *)
(** * Network teams, team agents and the overlay inventory

    [network_teams.go], the in-memory half of [team_agent_enrollments.go] and
    [overlay_memory.go].

    Memberships, teams and enrolments are stored by value; overlay devices and
    nodes through pointers held by one map.  An audit entry is a literal at
    every call, so [audit] is a value here. *)

From S2P Require Import Prelude GoLib Json StoreData Users.
From Stdlib Require Import Ascii.
Open Scope Z_scope.
Open Scope bool_scope.
Open Scope go_scope.

(** ** Teams *)

Definition team_admin_prefix : string := "team-admin:".
Definition team_prefix : string := "team:".
Definition admin_suffix : string := ":admin".

(** The zero value of a missing membership. *)
Definition no_membership : NetworkMembership := mkNetworkMembership false "" "" false "".

(** [teamRole] of [networkMembershipGroups]: a group that confers a team
    administration role. *)
Definition team_role_group (group : string) : bool :=
  HasPrefix group team_admin_prefix ||
  (HasPrefix group team_prefix && HasSuffix group admin_suffix).

(** The group keeps its holder an administrator of team [id]. *)
Definition admin_of_team (id group : string) : bool :=
  (group == (team_admin_prefix +:+ id)%string) ||
  (group == (team_prefix +:+ id +:+ admin_suffix)%string).

(** Team roles do not replace platform roles or personal groups. *)
Definition networkMembershipGroups (groups : list string) (member : NetworkMembership)
    : list string :=
  let '(admin, result) := foldl (λ '(admin, result) group,
      if team_role_group group then
        ((if (nm_Role member == "") && (nm_TeamID member != "") &&
             admin_of_team (nm_TeamID member) group then true else admin), result)
      else (admin, result ++ [group]))
    (nm_Role member == "admin", []) groups in
  if admin && (nm_TeamID member != "") && nm_DedicatedOnly member
  then result ++ [(team_admin_prefix +:+ nm_TeamID member)%string] else result.

Definition ListNetworkTeams `{MapOrder} (s : memoryStore) : list NetworkTeam :=
  sort_slice (λ a b, string_lt (nt_ID a) (nt_ID b)) (range (networkTeams s)).*2.

Definition in_team (id : string) (m : NetworkMembership) : bool := nm_TeamID m == id.

Definition PutNetworkTeam (team : NetworkTeam) (audit : AuditLog) (s : memoryStore)
    : result error () * memoryStore :=
  let count := map_count (in_team (nt_ID team)) (networkMembers s) in
  if nt_MemberLimit team <? count then (Err ErrNetworkTeamFull, s) else
  (Ok (), s <| networkTeams := <[nt_ID team := team]> (networkTeams s) |>
            <| auditLogs := auditLogs s ++ [audit] |>).

Definition GetNetworkMembership (userID : string) (s : memoryStore) : NetworkMembership :=
  match networkMembers s !! userID with
  | Some member => member <| nm_Configured := true |>
  | None => no_membership <| nm_Configured := false |> <| nm_UserID := userID |>
  end.

Definition any_true (v : option any) : bool :=
  match v with Some (ABool b) => b | _ => false end.

(** Guards of a membership in a team; the count leaves the member out. *)
Definition membership_refused (member : NetworkMembership) (audit : AuditLog)
    (s : memoryStore) : option error :=
  match networkTeams s !! nm_TeamID member with
  | None => Some ErrNetworkTeamNotFound
  | Some team =>
      let current := default no_membership (networkMembers s !! nm_UserID member) in
      let joiningPersonal := (nm_TeamID current == "") &&
        (audit_Action audit == "network.team.member.add") in
      let platformRoot := (audit_Action audit == "network.membership.set") &&
        any_true (audit_Details audit !! "platform_root") in
      if negb platformRoot && nt_Active team &&
         ((negb (nm_DedicatedOnly current) && negb joiningPersonal) ||
          ((nm_TeamID current != "") && (nm_TeamID current != nm_TeamID member)))
      then Some ErrNetworkWithdrawalRequired else
      let count := map_count (in_team (nm_TeamID member))
        (delete (nm_UserID member) (networkMembers s)) in
      if nt_MemberLimit team <=? count then Some ErrNetworkTeamFull else None
  end.

Definition store_membership (member : NetworkMembership) (audit : AuditLog)
    (s : memoryStore) : memoryStore :=
  let s := s <| networkMembers := <[nm_UserID member := member]> (networkMembers s) |> in
  let s := update_user s (nm_UserID member) (λ u,
    u <| user_Groups := networkMembershipGroups (user_Groups u) member |>) in
  s <| auditLogs := auditLogs s ++ [audit] |>.

Definition PutNetworkMembership (member : NetworkMembership) (audit : AuditLog)
    (s : memoryStore) : result error () * memoryStore :=
  match byID s !! nm_UserID member with
  | None => (Err ErrUserNotFound, s)
  | Some _ =>
      if nm_TeamID member == "" then (Ok (), store_membership member audit s) else
      match membership_refused member audit s with
      | Some e => (Err e, s)
      | None => (Ok (), store_membership (member <| nm_DedicatedOnly := true |>) audit s)
      end
  end.

Definition ListNetworkMemberships `{MapOrder} (s : memoryStore) : list NetworkMembership :=
  (range (networkMembers s)).*2.

(** ** Team agents *)

Definition RegisterTeamAgent (now : time) (id suggested : string) (s : memoryStore)
    : TeamAgentEnrollment * memoryStore :=
  match teamAgentEnrollments s !! id with
  | Some e => (e, s)
  | None =>
      let e := mkTeamAgentEnrollment id suggested "" "pending" "" "" now in
      (e, s <| teamAgentEnrollments := <[id := e]> (teamAgentEnrollments s) |>)
  end.

Definition ListTeamAgents `{MapOrder} (s : memoryStore) : list TeamAgentEnrollment :=
  sort_slice (λ a b, string_lt (tae_AgentID a) (tae_AgentID b))
    (range (teamAgentEnrollments s)).*2.

Definition DecideTeamAgent (now : time) (e : TeamAgentEnrollment) (expected : time)
    (audit : AuditLog) (s : memoryStore) : result error () * memoryStore :=
  match teamAgentEnrollments s !! tae_AgentID e with
  | None => (Err ErrTeamAgentNotFound, s)
  | Some old =>
      if negb (Equal (tae_UpdatedAt old) expected) then (Err ErrTeamAgentConflict, s) else
      let e := e <| tae_UpdatedAt :=
        if After now (tae_UpdatedAt old) then now
        else Add (tae_UpdatedAt old) Microsecond |> in
      (Ok (), s <| teamAgentEnrollments := <[tae_AgentID e := e]> (teamAgentEnrollments s) |>
                <| auditLogs := auditLogs s ++ [audit] |>)
  end.

(** ** The overlay inventory *)

Definition overlayDeviceKey (userID deviceID : string) : string :=
  (TrimSpace userID +:+ String "000" EmptyString +:+ TrimSpace deviceID)%string.

Definition UpsertOverlayDevice (now : time) (device : option OverlayDevice) (s : memoryStore)
    : result error OverlayDevice * memoryStore :=
  match device with
  | None => (Err (ErrMsg "overlay device is required"), s)
  | Some device =>
      let userID := TrimSpace (ovd_UserID device) in
      let deviceID := TrimSpace (ovd_ID device) in
      if (userID == "") || (deviceID == "")
      then (Err (ErrMsg "overlay device user_id and id are required"), s) else
      let key := overlayDeviceKey userID deviceID in
      let stored := default
        (mkOverlayDevice deviceID userID "" "" "" "" "" "" now 0 None)
        (overlayDevices s !! key) in
      let stored := stored
        <| ovd_NetworkID := TrimSpace (ovd_NetworkID device) |>
        <| ovd_Name := TrimSpace (ovd_Name device) |>
        <| ovd_Platform := TrimSpace (ovd_Platform device) |>
        <| ovd_Hostname := TrimSpace (ovd_Hostname device) |>
        <| ovd_WireGuardPublicKey := TrimSpace (ovd_WireGuardPublicKey device) |>
        <| ovd_WireGuardAddress := TrimSpace (ovd_WireGuardAddress device) |>
        <| ovd_LastSeenAt := match ovd_LastSeenAt device with
                             | Some t => Some t | None => ovd_LastSeenAt stored end |>
        <| ovd_UpdatedAt := now |> in
      (Ok stored, s <| overlayDevices := <[key := stored]> (overlayDevices s) |>)
  end.

Definition GetOverlayDevice (userID deviceID : string) (s : memoryStore)
    : result error OverlayDevice :=
  match overlayDevices s !! overlayDeviceKey userID deviceID with
  | Some d => Ok d
  | None => Err ErrOverlayDeviceNotFound
  end.

Definition ListOverlayDevicesByUser `{MapOrder} (userID : string) (s : memoryStore)
    : list OverlayDevice :=
  sort_slice (λ a b, string_lt (ovd_ID a) (ovd_ID b))
    (List.filter (λ d, ovd_UserID d == TrimSpace userID) (range (overlayDevices s)).*2).

Definition ListOverlayDevicesByNetwork `{MapOrder} (networkID : string) (s : memoryStore)
    : list OverlayDevice :=
  sort_slice (λ a b,
      if ovd_UserID a == ovd_UserID b then string_lt (ovd_ID a) (ovd_ID b)
      else string_lt (ovd_UserID a) (ovd_UserID b))
    (List.filter (λ d, (TrimSpace networkID == "") || (ovd_NetworkID d == TrimSpace networkID))
       (range (overlayDevices s)).*2).

Definition UpsertOverlayNode (now : time) (node : option OverlayNode) (s : memoryStore)
    : result error OverlayNode * memoryStore :=
  match node with
  | None => (Err (ErrMsg "overlay node is required"), s)
  | Some node =>
      let nodeID := TrimSpace (ovn_ID node) in
      if nodeID == "" then (Err (ErrMsg "overlay node id is required"), s) else
      let stored := default
        (mkOverlayNode nodeID "" "" "" "" "" "" "" 0 "" "" "" "" "" false now 0 None)
        (overlayNodes s !! nodeID) in
      let stored := stored
        <| ovn_NetworkID := TrimSpace (ovn_NetworkID node) |>
        <| ovn_Name := TrimSpace (ovn_Name node) |>
        <| ovn_Role := TrimSpace (ovn_Role node) |>
        <| ovn_Region := TrimSpace (ovn_Region node) |>
        <| ovn_WireGuardPublicKey := TrimSpace (ovn_WireGuardPublicKey node) |>
        <| ovn_WireGuardAddress := TrimSpace (ovn_WireGuardAddress node) |>
        <| ovn_EndpointHost := TrimSpace (ovn_EndpointHost node) |>
        <| ovn_EndpointPort := ovn_EndpointPort node |>
        <| ovn_TransportType := TrimSpace (ovn_TransportType node) |>
        <| ovn_TransportSecurity := TrimSpace (ovn_TransportSecurity node) |>
        <| ovn_TransportPath := TrimSpace (ovn_TransportPath node) |>
        <| ovn_TransportMode := TrimSpace (ovn_TransportMode node) |>
        <| ovn_TransportUUID := TrimSpace (ovn_TransportUUID node) |>
        <| ovn_Healthy := ovn_Healthy node |>
        <| ovn_LastHeartbeat := match ovn_LastHeartbeat node with
                                | Some t => Some t | None => ovn_LastHeartbeat stored end |>
        <| ovn_UpdatedAt := now |> in
      (Ok stored, s <| overlayNodes := <[nodeID := stored]> (overlayNodes s) |>)
  end.

Definition ListOverlayNodes `{MapOrder} (networkID : string) (s : memoryStore)
    : list OverlayNode :=
  sort_slice (λ a b, string_lt (ovn_ID a) (ovn_ID b))
    (List.filter (λ n, (TrimSpace networkID == "") || (ovn_NetworkID n == TrimSpace networkID))
       (range (overlayNodes s)).*2).

Definition UpsertOverlayConfigAck (now : time) (ack : option OverlayConfigAck) (s : memoryStore)
    : result error OverlayConfigAck * memoryStore :=
  match ack with
  | None => (Err (ErrMsg "overlay config ack is required"), s)
  | Some ack =>
      if (TrimSpace (ova_UserID ack) == "") || (TrimSpace (ova_DeviceID ack) == "")
      then (Err (ErrMsg "overlay config ack user_id and device_id are required"), s) else
      let stored := ack <| ova_ReceivedAt := now |> in
      (Ok stored, s <| overlayConfigAcks :=
         <[overlayDeviceKey (ova_UserID stored) (ova_DeviceID stored) := stored]>
           (overlayConfigAcks s) |>)
  end.
