(* ===== verification/Access.v ===== *)
(** * Network access: who may use which node

    The decisions of [api/network_access.go], [agent_routes.go],
    [agent_email_union.go] and [agentproto]: the scope a node derives from its
    groups, the access an account derives from its membership, and the rule
    that compares them; and the team administration handlers.

    A handler is a function of the authenticated actor, the decoded request
    and the store; it returns the status and code of its response and the new
    store.  [mail.ParseAddress] is a parameter: the statements hold for every
    parser. *)

From S2P Require Import Prelude GoLib Json StoreData Users Quota Network Sha256.
From Stdlib Require Import Ascii.
Open Scope Z_scope.
Open Scope bool_scope.
Open Scope go_scope.

(** The [Address] of [mail.ParseAddress], when it succeeds. *)
Class MailParser := ParseAddress : string → option string.

(** ** Strings *)

Definition string_chars (s : string) : list ascii := String.list_ascii_of_string s.

(** [strings.ContainsAny] *)
Definition ContainsAny (s chars : string) : bool :=
  existsb (λ c, existsb (λ d, c == d) (string_chars chars)) (string_chars s).

(** [strings.Join] *)
Fixpoint Join (l : list string) (sep : string) : string :=
  match l with
  | [] => EmptyString
  | [x] => x
  | x :: l' => (x +:+ sep +:+ Join l' sep)%string
  end.

Definition lower_alnum (c : ascii) : bool :=
  let n := N_of_ascii c in
  ((97 <=? n) && (n <=? 122) || (48 <=? n) && (n <=? 57))%N.

(** [^[a-z0-9][a-z0-9-]{0,62}$] *)
Definition networkTeamIDPattern (s : string) : bool :=
  match string_chars s with
  | [] => false
  | c :: rest =>
      lower_alnum c && forallb (λ d, lower_alnum d || (d == "-"%char)) rest &&
      (length rest <=? 62)%nat
  end.

(** ** The scope of a node *)

(** [agentproto.UserScope] *)
Record UserScope := mkUserScope {
  scope_EmailPolicy : string;
  scope_EmailDigest : string;
  scope_CustomAllowFree : bool;
  scope_ResourceClass : string;
  scope_TeamID : string
}.
#[export] Instance eta_UserScope : Eta UserScope := λ x, mkUserScope (scope_EmailPolicy x)
   (scope_EmailDigest x) (scope_CustomAllowFree x) (scope_ResourceClass x) (scope_TeamID x).
#[export] Instance UserScope_eq_dec : EqDecision UserScope.
Proof. solve_decision. Defined.

Definition zero_scope : UserScope := mkUserScope "" "" false "" "".

Definition PublicEmailUnionPolicy : string := "public-union-v1".
Definition unionEmailPrefix : string := "node-email-union:".
Definition emailPolicyPrefix : string := "node-email-policy:".
Definition agentResourceGroupPrefix : string := "resource:".
Definition agentResourceShared : string := "shared".
Definition agentResourceFree : string := "free".
Definition agentResourcePlus : string := "plus".
Definition agentResourcePro : string := "pro".
Definition agentResourceCustom : string := "custom".
Definition agentResourceTeam : string := "team".
Definition custom_allow_free : string := "custom:allow-free".
Definition dedicated_only : string := "access:dedicated-only".

(** The classes a [resource:] group may name. *)
Definition known_class (class : string) : bool :=
  (class == agentResourceShared) || (class == agentResourceFree) ||
  (class == agentResourcePlus) || (class == agentResourcePro) ||
  (class == agentResourceCustom).

Definition PublicResourceClass (class : string) : bool :=
  (class == "shared") || (class == "free") || (class == "plus") || (class == "pro").

(** A group no credential may carry: a user role, or a misspelled marker. *)
Definition reserved_misuse (g : string) : bool :=
  let lower := ToLower g in
  HasPrefix lower team_admin_prefix ||
  (HasPrefix lower team_prefix && negb (HasPrefix g team_prefix)) ||
  ((lower == dedicated_only) && (g != lower)).

Fixpoint network_scope_from (groups : list string) (team : string) (dedicated : bool)
    : string * bool :=
  match groups with
  | [] => (team, negb dedicated || (team != ""))
  | g :: rest =>
      let g := TrimSpace g in
      if reserved_misuse g then ("", false) else
      let dedicated := if g == dedicated_only then true else dedicated in
      if HasPrefix g team_prefix then
        let id := TrimPrefix g team_prefix in
        if negb (networkTeamIDPattern id) || ((team != "") && (team != id))
        then ("", false) else network_scope_from rest id dedicated
      else network_scope_from rest team dedicated
  end.

Definition agentNetworkScope (groups : list string) : string * bool :=
  network_scope_from groups "" false.

Section scope.
Context `{MailParser}.

Definition node_email_ok (email : string) : bool :=
  (ParseAddress email == Some email) && negb (ContainsAny email "*?").

Definition NormalizeNodeEmails (emails : list string) : result error (list string) :=
  if 256 <? Z.of_nat (length emails)
  then Err (ErrMsg "node email list exceeds 256 entries") else
  let emails := (λ raw, ToLower (TrimSpace raw)) <$> emails in
  if forallb node_email_ok emails then
    Ok (sort_strings (foldl (λ out email,
          if contains out email then out else out ++ [email]) [] emails))
  else Err (ErrMsg "invalid node email (wildcards and display names forbidden)").

Definition NodeEmailDigest (emails : list string) : string :=
  sha256_hex (Join emails (String "010" EmptyString)).

Definition hasPublicUnionPolicy (groups : list string) : bool :=
  contains groups (emailPolicyPrefix +:+ PublicEmailUnionPolicy).

Definition publicUnionEmails (groups : list string) : list string :=
  match NormalizeNodeEmails
    ((λ g, TrimPrefix g unionEmailPrefix) <$>
       List.filter (λ g, HasPrefix g unionEmailPrefix) groups) with
  | Ok normalized => normalized
  | Err _ => []
  end.

(** [agentEmailAllowed]: a list of addresses only narrows the scope. *)
Definition agentEmailAllowed (emails : list string) (userEmail : string) : bool :=
  match emails with
  | [] => true
  | _ => existsb (λ email, EqualFold (TrimSpace email) (TrimSpace userEmail) &&
                           (TrimSpace email != "")) emails
  end.

Definition publicUnionEmailMatches (groups : list string) (user : User) : bool :=
  let emails := publicUnionEmails groups in
  (0 <? Z.of_nat (length emails)) && agentEmailAllowed emails (user_Email user).

(** The loop over the [resource:] groups; [seen] is the class met so far. *)
Fixpoint resource_scope_from (groups : list string) (scope : UserScope) (seen : string)
    : option (UserScope * string) :=
  match groups with
  | [] => Some (scope, seen)
  | g :: rest =>
      let g := TrimSpace g in
      if negb (HasPrefix g agentResourceGroupPrefix) then resource_scope_from rest scope seen else
      let class := TrimPrefix g agentResourceGroupPrefix in
      if negb (known_class class) then None else
      if (seen != "") && (seen != class) then None else
      resource_scope_from rest (scope <| scope_ResourceClass := class |>) class
  end.

(** Conflicting markers fail closed: the zero scope and [false]. *)
Definition agentResourceScope (groups : list string) : UserScope * bool :=
  let scope := mkUserScope "" "" false agentResourceShared "" in
  let scope := if hasPublicUnionPolicy groups then
      scope <| scope_EmailPolicy := PublicEmailUnionPolicy |>
            <| scope_EmailDigest := NodeEmailDigest (publicUnionEmails groups) |>
    else scope in
  let scope := if contains groups custom_allow_free
    then scope <| scope_CustomAllowFree := true |> else scope in
  let '(team, valid) := agentNetworkScope groups in
  if negb valid then (zero_scope, false) else
  let '(scope, seen) := if team != "" then
      (scope <| scope_ResourceClass := "team" |> <| scope_TeamID := team |>, "team")
    else (scope, EmptyString) in
  match resource_scope_from groups scope seen with
  | None => (zero_scope, false)
  | Some (scope, seen) =>
      if (scope_ResourceClass scope == "team") && (seen != "team") then (zero_scope, false) else
      if (scope_ResourceClass scope != "team") && (scope_TeamID scope != "")
      then (zero_scope, false) else (scope, true)
  end.
End scope.

(** ** The access of an account *)

(** [networkAccess] *)
Record networkAccess := mkNetworkAccess {
  acc_AccountID : string;
  acc_Configured : bool;
  acc_Mode : string;
  acc_TeamID : string;
  acc_Team : option NetworkTeam;
  acc_Role : string;
  acc_Allowed : bool
}.
#[export] Instance eta_networkAccess : Eta networkAccess := λ x, mkNetworkAccess
   (acc_AccountID x) (acc_Configured x) (acc_Mode x) (acc_TeamID x) (acc_Team x)
   (acc_Role x) (acc_Allowed x).

Definition team_open (now : time) (team : NetworkTeam) : bool :=
  nt_Active team && negb (Before now (nt_ValidFrom team)) && Before now (nt_ValidUntil team).

Definition accessFromNetworkMembership (member : NetworkMembership) (teams : list NetworkTeam)
    (now : time) : networkAccess :=
  let access := mkNetworkAccess "" (nm_Configured member) "personal" "" None "" true in
  if negb (nm_DedicatedOnly member) && (nm_TeamID member == "") then access else
  let access := access <| acc_Mode := "dedicated" |> <| acc_TeamID := nm_TeamID member |>
                       <| acc_Allowed := false |> in
  match List.find (λ team, nt_ID team == nm_TeamID member) teams with
  | Some team => access <| acc_Team := Some team |> <| acc_Allowed := team_open now team |>
  | None => access
  end.

Definition networkAccessFor `{MapOrder} (now : time) (userID : string) (s : memoryStore)
    : networkAccess :=
  let member := GetNetworkMembership userID s in
  if negb (nm_DedicatedOnly member) && (nm_TeamID member == "")
  then (accessFromNetworkMembership member [] now) <| acc_AccountID := userID |>
  else (accessFromNetworkMembership member (ListNetworkTeams s) now) <| acc_AccountID := userID |>.

Definition sandboxUserEmail : string := "sandbox@svc.plus".

Definition networkAccessForUser `{MapOrder} (now : time) (user : User) (s : memoryStore)
    : networkAccess :=
  let access := networkAccessFor now (user_ID user) s in
  if negb (user_Active user) ||
     (negb (AccountAccessVerified user) && negb (EqualFold (user_Email user) sandboxUserEmail))
  then access <| acc_Allowed := false |> else
  if default false (ListProxyBlockedAccountUUIDs s !! user_ID user)
  then access <| acc_Allowed := false |> else access.

Definition networkScopeAllows (access : networkAccess) (groups : list string) : bool :=
  let '(team, valid) := agentNetworkScope groups in
  if negb valid || negb (acc_Allowed access) then false else
  if acc_Mode access == "dedicated" then (acc_TeamID access != "") && (team == acc_TeamID access)
  else team == "".

Definition effectiveAgentResourceClass (access : networkAccess) (user : User)
    (packageName : string) : string :=
  if acc_Mode access == "dedicated" then agentResourceTeam else
  let group := MonthlyQuotaGroup user in
  if EqualFold (TrimSpace packageName) agentResourcePro &&
     ((group == MonthlyPlusQuotaLimitGroup) || (group == MonthlyUnlimitedBetaQuotaGroup))
  then agentResourcePro else
  if (group == MonthlyPlusQuotaLimitGroup) || (group == MonthlyUnlimitedBetaQuotaGroup)
  then agentResourcePlus else agentResourceFree.

Definition class_rank (class : string) : option Z :=
  if class == agentResourceFree then Some 1 else
  if class == agentResourcePlus then Some 2 else
  if class == agentResourcePro then Some 3 else None.

Definition publicAgentResourceClassAllows (poolClass userClass : string) : bool :=
  match class_rank userClass with
  | None => false
  | Some userRank =>
      if poolClass == agentResourceShared then true else
      match class_rank poolClass with
      | Some poolRank => poolRank <=? userRank
      | None => false
      end
  end.

Definition agentResourceScopeAllowsUser (scope : UserScope) (access : networkAccess)
    (user : User) (packageName : string) : bool :=
  if scope_ResourceClass scope == "team" then
    (acc_Mode access == "dedicated") && (acc_TeamID access == scope_TeamID scope) else
  if acc_Mode access == "dedicated" then false else
  let class := effectiveAgentResourceClass access user packageName in
  if scope_ResourceClass scope == agentResourceCustom then
    (class == agentResourcePlus) || (class == agentResourcePro) ||
    (scope_CustomAllowFree scope && (class == agentResourceFree))
  else publicAgentResourceClassAllows (scope_ResourceClass scope) class.

(** ** Team administration *)

Definition networkTeamAdmin (user : User) (teamID : string) : bool :=
  if TrimSpace teamID == "" then false else
  existsb (λ raw, admin_of_team teamID (TrimSpace raw)) (user_Groups user).

(** [team_role_group] on the trimmed groups, as a set. *)
Definition network_team_roles (groups : list string) : gset string :=
  list_to_set (List.filter team_role_group (TrimSpace <$> groups)).

Definition sameNetworkTeamRoles (before after : list string) : bool :=
  let a := network_team_roles before in
  let b := network_team_roles after in
  (size a =? size b)%nat && bool_decide (a ⊆ b).

Definition teamQuotaGroup (user : User) : string * string :=
  let group := MonthlyQuotaGroup user in
  if group == MonthlyFreeQuotaLimitGroup then ("3gb", "Free") else
  if group == MonthlyPlusQuotaLimitGroup then ("20gb", "Plus") else
  if group == MonthlyUnlimitedBetaQuotaGroup then ("unlimited", "无限") else
  ("", "未配置").

Definition is_quota_group (group : string) : bool :=
  (group == MonthlyFreeQuotaLimitGroup) || (group == MonthlyPlusQuotaLimitGroup) ||
  (group == MonthlyUnlimitedBetaQuotaGroup).

Definition setTeamQuotaGroup (user : User) (quotaGroup : string) : result error User :=
  let quotaGroup := TrimSpace (ToLower quotaGroup) in
  let put selected := Ok (user <| user_Groups :=
    List.filter (λ g, negb (is_quota_group g)) (user_Groups user) ++ selected |>) in
  if (quotaGroup == "") || (quotaGroup == "none") then put [] else
  if quotaGroup == "3gb" then put [MonthlyFreeQuotaLimitGroup] else
  if quotaGroup == "20gb" then put [MonthlyPlusQuotaLimitGroup] else
  if quotaGroup == "unlimited" then put [MonthlyUnlimitedBetaQuotaGroup] else
  Err (ErrMsg "invalid quota group").

(** Responses: the status, and the error or message code. *)
Definition response : Type := Z * string.

Definition networkWriteError (e : error) : response :=
  match e with
  | ErrNetworkWithdrawalRequired => (409, "network_withdrawal_required")
  | ErrNetworkTeamFull => (409, "team_member_limit")
  | ErrNetworkTeamNotFound | ErrUserNotFound => (404, "network_target_not_found")
  | _ => (500, "network_access_write_failed")
  end.

Definition networkTeamForAdmin `{MapOrder} (now : time) (actor : User) (queryTeam : string)
    (s : memoryStore) : result response networkAccess :=
  if IsRootRole (user_Role actor) && (queryTeam != "") then
    match List.find (λ team, nt_ID team == queryTeam) (ListNetworkTeams s) with
    | Some team => Ok (mkNetworkAccess "" false "dedicated" (nt_ID team) (Some team) "" (nt_Active team))
    | None => Err (404, "network_target_not_found")
    end
  else
    let access := networkAccessForUser now actor s in
    if (acc_Mode access != "dedicated") || (acc_TeamID access == "") ||
       negb (networkTeamAdmin actor (acc_TeamID access))
    then Err (403, "team_admin_required") else Ok access.

Definition member_audit (action actor team member : string) : AuditLog :=
  mkAuditLog "" action actor
    (<["team_id" := AStr team]> (<["member_id" := AStr member]> ∅)) 0.

Definition addNetworkTeamMember `{MapOrder} (now : time) (actor : User) (queryTeam email : string)
    (s : memoryStore) : response * memoryStore :=
  match networkTeamForAdmin now actor queryTeam s with
  | Err r => (r, s)
  | Ok access =>
      if TrimSpace email == "" then ((400, "invalid_email"), s) else
      match GetUserByEmail s (TrimSpace email) with
      | Err _ => ((404, "user_not_found"), s)
      | Ok member =>
          if (user_ID member == user_ID actor) || IsRootRole (user_Role member)
          then ((400, "invalid_member"), s) else
          let current := networkAccessFor now (user_ID member) s in
          if (acc_Mode current == "dedicated") && (acc_TeamID current == acc_TeamID access)
          then ((409, "member_exists"), s) else
          if (acc_Mode current == "dedicated") && (acc_TeamID current != "")
          then ((409, "member_in_other_team"), s) else
          match PutNetworkMembership
            (mkNetworkMembership false (user_ID member) (acc_TeamID access) true "")
            (member_audit "network.team.member.add" (user_ID actor) (acc_TeamID access) (user_ID member)) s with
          | (Err e, s) => (networkWriteError e, s)
          | (Ok _, s) => ((201, "member_added"), s)
          end
      end
  end.

Definition removeNetworkTeamMember `{MapOrder} (now : time) (actor : User)
    (queryTeam userParam : string) (s : memoryStore) : response * memoryStore :=
  match networkTeamForAdmin now actor queryTeam s with
  | Err r => (r, s)
  | Ok access =>
      let userID := TrimSpace userParam in
      if (userID == "") || (userID == user_ID actor) then ((400, "invalid_member"), s) else
      let member := GetNetworkMembership userID s in
      if nm_TeamID member != acc_TeamID access then ((404, "member_not_found"), s) else
      match GetUserByID s userID with
      | Err _ => ((404, "member_not_found"), s)
      | Ok target =>
          if networkTeamAdmin target (acc_TeamID access) && negb (IsRootRole (user_Role actor))
          then ((403, "root_required"), s) else
          match PutNetworkMembership (mkNetworkMembership false userID "" true "")
            (member_audit "network.team.member.remove" (user_ID actor) (acc_TeamID access) userID) s with
          | (Err e, s) => (networkWriteError e, s)
          | (Ok _, s) => ((200, "member_removed"), s)
          end
      end
  end.

Definition auditReasonMaxLen : Z := 500.

Definition requireReason (reason : string) : result response string :=
  let trimmed := TrimSpace reason in
  if trimmed == "" then Err (400, "reason_required") else
  if auditReasonMaxLen <? len trimmed then Err (400, "reason_too_long") else Ok trimmed.

(** [adminPutNetworkTeam], for an actor with the settings permission. *)
Definition adminPutNetworkTeam (actor : User) (teamParam reason : string) (team : NetworkTeam)
    (s : memoryStore) : response * memoryStore :=
  if negb (IsRootRole (user_Role actor)) then ((403, "root_required"), s) else
  match requireReason reason with
  | Err r => (r, s)
  | Ok reason =>
  let team := team <| nt_ID := teamParam |> in
  if negb (networkTeamIDPattern (nt_ID team)) || (TrimSpace (nt_Name team) == "") ||
     (nt_MemberLimit team <? 1) || (10000 <? nt_MemberLimit team) ||
     IsZero (nt_ValidFrom team) || negb (After (nt_ValidUntil team) (nt_ValidFrom team))
  then ((400, "invalid_team"), s) else
  match PutNetworkTeam team (mkAuditLog "" "network.team.upsert" (user_ID actor)
      (<["reason" := AStr reason]> (<["team" := ATeam team]> ∅)) 0) s with
  | (Err e, s) => (networkWriteError e, s)
  | (Ok _, s) => ((200, ""), s)
  end
  end.

Definition isRootUser (user : User) : bool :=
  (user_Level user <=? LevelAdmin) || EqualFold (user_Role user) RoleRoot ||
  EqualFold (user_Role user) RoleAdmin.

Definition isReadOnlyAccount (user : User) : bool :=
  if isRootUser user then false else
  EqualFold (TrimSpace (user_Role user)) RoleReadOnly ||
  existsb (λ g, EqualFold (TrimSpace g) "ReadOnly Role") (user_Groups user) ||
  EqualFold (TrimSpace (user_Name user)) "sandbox" ||
  EqualFold (user_Email user) sandboxUserEmail.

(** [adminPutNetworkMembership], for an actor with the role permission. *)
Definition adminPutNetworkMembership (actor : User) (userParam mode teamID role reason : string)
    (s : memoryStore) : response * memoryStore :=
  if negb (IsRootRole (user_Role actor)) then ((403, "root_required"), s) else
  match requireReason reason with
  | Err r => (r, s)
  | Ok reason =>
  if ((mode != "personal") && (mode != "dedicated")) ||
     ((mode == "personal") && (teamID != "")) ||
     ((teamID != "") && negb (networkTeamIDPattern teamID))
  then ((400, "invalid_network_access"), s) else
  let role := TrimSpace (ToLower role) in
  if (role != "") && (role != "member") && (role != "admin")
  then ((400, "invalid_network_role"), s) else
  if (role == "admin") && ((mode != "dedicated") || (teamID == ""))
  then ((400, "invalid_network_role"), s) else
  if (role == "admin") && negb (IsRootRole (user_Role actor)) then ((403, "root_required"), s) else
  match GetUserByID s userParam with
  | Err e => (networkWriteError e, s)
  | Ok user =>
      if IsRootRole (user_Role user) || isReadOnlyAccount user
      then ((403, "root_protected"), s) else
      let member := mkNetworkMembership false (user_ID user) teamID (mode == "dedicated") role in
      match PutNetworkMembership member (mkAuditLog "" "network.membership.set" (user_ID actor)
          (<["target_uuid" := AStr (user_ID user)]> (<["reason" := AStr reason]>
            (<["membership" := AMembership member]> (<["platform_root" := ABool true]> ∅)))) 0) s with
      | (Err e, s) => (networkWriteError e, s)
      | (Ok _, s) => ((200, ""), s)
      end
  end
  end.
