(* ===== verification/NetworkProps.v ===== *)
(** * Properties of teams and network access

    A team never has more members than its limit; an account reaches a node
    exactly when its membership and the node's scope agree; and decisions on a
    team agent are compare-and-set. *)

From S2P Require Import Prelude GoLib Json StoreData Users Quota Network Sha256 Access.
Open Scope Z_scope.
Open Scope bool_scope.
Open Scope go_scope.

(** ** Histories

    The four operations on teams and their agents; every other operation of
    the store leaves these tables alone. *)

Inductive net_step (s : memoryStore) : memoryStore → Prop :=
| net_team team audit : net_step s (PutNetworkTeam team audit s).2
| net_member member audit : net_step s (PutNetworkMembership member audit s).2
| net_register now id suggested : net_step s (RegisterTeamAgent now id suggested s).2
| net_decide now e expected audit : net_step s (DecideTeamAgent now e expected audit s).2
| net_other s' :
    networkTeams s' = networkTeams s → networkMembers s' = networkMembers s →
    teamAgentEnrollments s' = teamAgentEnrollments s → net_step s s'.

Abbreviation net_steps := (rtc net_step).
Definition net_reachable (s : memoryStore) : Prop := ∃ allow, net_steps (newMemoryStore allow) s.

(** What an operation does to each table. *)
Lemma update_user_network s id f :
  networkTeams (update_user s id f) = networkTeams s ∧
  networkMembers (update_user s id f) = networkMembers s ∧
  teamAgentEnrollments (update_user s id f) = teamAgentEnrollments s.
Proof. unfold update_user. destruct (byID s !! id); by getset. Qed.

Lemma store_membership_tables m audit s :
  networkTeams (store_membership m audit s) = networkTeams s ∧
  networkMembers (store_membership m audit s) = <[nm_UserID m := m]> (networkMembers s) ∧
  teamAgentEnrollments (store_membership m audit s) = teamAgentEnrollments s.
Proof.
  unfold store_membership. cbv zeta. getset.
  destruct (update_user_network (s <| networkMembers := <[nm_UserID m := m]> (networkMembers s) |>)
    (nm_UserID m) (λ u, u <| user_Groups := networkMembershipGroups (user_Groups u) m |>))
    as (-> & -> & ->). by getset.
Qed.

(** A membership is refused and nothing changes, or it is stored: without a
    team as it is, in a team with room as a dedicated one. *)
Inductive membership_outcome (m : NetworkMembership) (audit : AuditLog) (s : memoryStore)
    : result error () * memoryStore → Prop :=
| membership_err e : membership_outcome m audit s (Err e, s)
| membership_personal l : byID s !! nm_UserID m = Some l → nm_TeamID m = "" →
    membership_outcome m audit s (Ok (), store_membership m audit s)
| membership_team l team : byID s !! nm_UserID m = Some l → nm_TeamID m ≠ "" →
    networkTeams s !! nm_TeamID m = Some team →
    map_count (in_team (nm_TeamID m)) (delete (nm_UserID m) (networkMembers s)) < nt_MemberLimit team →
    membership_outcome m audit s
      (Ok (), store_membership (m <| nm_DedicatedOnly := true |>) audit s).

Lemma PutNetworkMembership_outcome m audit s :
  membership_outcome m audit s (PutNetworkMembership m audit s).
Proof.
  unfold PutNetworkMembership.
  destruct (byID s !! nm_UserID m) as [l|] eqn:Hl; [|constructor].
  destruct (bool_decide (nm_TeamID m = "")) eqn:Ht; bools; [by econstructor|].
  destruct (membership_refused m audit s) eqn:R; [constructor|].
  unfold membership_refused in R.
  destruct (networkTeams s !! nm_TeamID m) as [team|] eqn:T; [|done]. cbv zeta in R.
  match type of R with (if ?b then _ else _) = _ => destruct b; [done|] end.
  destruct (nt_MemberLimit team <=? _) eqn:C in R; [done|].
  apply (membership_team _ _ _ l team); try done. by apply Z.leb_gt.
Qed.

(** ** Members are counted once *)

Lemma map_count_insert {V} (p : V → bool) m k v :
  map_count p (<[k:=v]> m) = map_count p (delete k m) + if p v then 1 else 0.
Proof.
  unfold map_count. rewrite <-insert_delete_eq, msum_insert_new by apply lookup_delete_eq. lia.
Qed.

Lemma map_count_delete_le {V} (p : V → bool) (m : gmap string V) k :
  map_count p (delete k m) ≤ map_count p m.
Proof.
  destruct (m !! k) as [v|] eqn:E; [|by rewrite delete_id].
  unfold map_count. rewrite (msum_delete _ m k v E). destruct (p v); lia.
Qed.

Record net_ok (s : memoryStore) : Prop := {
  teams_keyed : ∀ k t, networkTeams s !! k = Some t → nt_ID t = k;
  members_keyed : ∀ k m, networkMembers s !! k = Some m → nm_UserID m = k;
  members_placed : ∀ k m, networkMembers s !! k = Some m → nm_TeamID m ≠ "" →
    nm_DedicatedOnly m = true ∧ is_Some (networkTeams s !! nm_TeamID m);
  teams_capacity : ∀ k t, k ≠ "" → networkTeams s !! k = Some t →
    map_count (in_team k) (networkMembers s) ≤ nt_MemberLimit t
}.

Lemma net_ok_ext s s' :
  networkTeams s' = networkTeams s → networkMembers s' = networkMembers s →
  net_ok s → net_ok s'.
Proof. intros E1 E2 [H1 H2 H3 H4]. split; rewrite ?E1, ?E2; done. Qed.

Lemma net_ok_put_team team audit s : net_ok s → net_ok (PutNetworkTeam team audit s).2.
Proof.
  intros Hs. pose proof Hs as [H1 H2 H3 H4]. unfold PutNetworkTeam. cbv zeta.
  destruct (nt_MemberLimit team <? _) eqn:C; [done|]. apply Z.ltb_ge in C.
  split; cbn [snd]; getset; try done.
  - intros k t [[<- <-]|[_ ?]]%lookup_insert_Some; eauto.
  - intros k m Hk Hm. destruct (H3 k m Hk Hm) as [? ?]. split; [done|].
    apply lookup_insert_is_Some'. by right.
  - intros k t Hk [[<- <-]|[_ ?]]%lookup_insert_Some; eauto.
Qed.

Lemma net_ok_store m audit s :
  net_ok s →
  (nm_TeamID m ≠ "" → nm_DedicatedOnly m = true ∧ ∃ team,
     networkTeams s !! nm_TeamID m = Some team ∧
     map_count (in_team (nm_TeamID m)) (delete (nm_UserID m) (networkMembers s)) < nt_MemberLimit team) →
  net_ok (store_membership m audit s).
Proof.
  intros [H1 H2 H3 H4] Hm.
  destruct (store_membership_tables m audit s) as (E1 & E2 & _).
  split; rewrite ?E1, ?E2; try done.
  - intros k v [[<- <-]|[_ ?]]%lookup_insert_Some; eauto.
  - intros k v [[<- <-]|[_ ?]]%lookup_insert_Some; [|eauto].
    intros Hne. destruct (Hm Hne) as (? & team & ? & _). eauto.
  - intros k t Hk Ht. rewrite map_count_insert. unfold in_team at 2.
    destruct (bool_decide (nm_TeamID m = k)) eqn:E; bools.
    + subst k. destruct (Hm Hk) as (_ & team & Et & Hlt). simplify_eq. lia.
    + pose proof (map_count_delete_le (in_team k) (networkMembers s) (nm_UserID m)).
      specialize (H4 k t Hk Ht). lia.
Qed.

Lemma net_ok_step s s' : net_step s s' → net_ok s → net_ok s'.
Proof.
  intros [team audit|m audit|now id sug|now e exp audit|s'' E1 E2 _] Hs.
  - by apply net_ok_put_team.
  - destruct (PutNetworkMembership_outcome m audit s) as [e|l ? Ht|l team ? Hne ? Hlt];
      cbn [snd]; [done| |].
    + apply net_ok_store; [done|]. intros []; done.
    + apply net_ok_store; [done|]. getset. intros _. split; [done|]. eauto.
  - unfold RegisterTeamAgent. destruct (teamAgentEnrollments s !! id); [done|].
    by eapply net_ok_ext; [..|exact Hs]; cbn [snd]; getset.
  - unfold DecideTeamAgent. destruct (teamAgentEnrollments s !! _); [|done].
    destruct (negb _); [done|]. by eapply net_ok_ext; [..|exact Hs]; cbn [snd]; getset.
  - by eapply net_ok_ext.
Qed.

Lemma net_ok_reachable s : net_reachable s → net_ok s.
Proof.
  intros [allow H]. remember (newMemoryStore allow) as s0 eqn:E.
  assert (net_ok s0) as Hs0.
  { subst. split; cbn [newMemoryStore networkTeams networkMembers]; intros ??; try done;
      rewrite lookup_empty; done. }
  clear E. induction H; eauto using net_ok_step.
Qed.

(** C35: Over every history of the store, a team has at most as many members as
    its limit; a membership in a team refers to a team that exists, is a
    dedicated one, and is the only membership of its account. *)
Theorem team_capacity s :
  net_reachable s →
  (∀ id team, id ≠ "" → networkTeams s !! id = Some team →
     Z.of_nat (length (List.filter (in_team id) (values (networkMembers s)))) ≤ nt_MemberLimit team) ∧
  (∀ userID, let m := GetNetworkMembership userID s in
     nm_UserID m = userID ∧
     (nm_TeamID m ≠ "" → nm_DedicatedOnly m = true ∧
        ∃ team, networkTeams s !! nm_TeamID m = Some team ∧ nt_ID team = nm_TeamID m)).
Proof.
  intros [H1 H2 H3 H4]%net_ok_reachable. split.
  - intros id team Hid Ht. etrans; [|by apply (H4 id team)]. apply Z.eq_le_incl.
    unfold map_count, msum. induction (values (networkMembers s)) as [|m l IH]; [done|].
    simpl. destruct (in_team id m); simpl; lia.
  - intros userID. unfold GetNetworkMembership.
    destruct (networkMembers s !! userID) as [m|] eqn:E; cbv zeta; getset; [|done].
    split; [by eapply H2|]. intros Hne. destruct (H3 _ _ E Hne) as [? [team Ht]]. eauto.
Qed.

(** ** Access *)

Section access.
Context `{MapOrder}.

Lemma find_team s id :
  net_ok s →
  List.find (λ team, nt_ID team == id) (ListNetworkTeams s) = networkTeams s !! id.
Proof.
  intros Hs. unfold ListNetworkTeams.
  destruct (List.find _ _) as [t|] eqn:F.
  - apply List.find_some in F as [Hin E]. bools. subst id.
    apply list_elem_of_In in Hin. rewrite sort_slice_perm, list_elem_of_fmap in Hin.
    destruct Hin as ([k t'] & -> & Hin). apply elem_of_range in Hin. simpl.
    by rewrite (teams_keyed s Hs k t' Hin).
  - destruct (networkTeams s !! id) as [t|] eqn:E; [|done].
    eapply List.find_none in F.
    + apply bool_decide_eq_false in F. exfalso. by apply F, (teams_keyed s Hs).
    + apply list_elem_of_In. rewrite sort_slice_perm, list_elem_of_fmap.
      exists (id, t). split; [done|]. by apply elem_of_range.
Qed.

(** The account may use the network at all. *)
Definition account_open (user : User) (s : memoryStore) : Prop :=
  user_Active user = true ∧
  (AccountAccessVerified user = true ∨ EqualFold (user_Email user) sandboxUserEmail = true) ∧
  default false (ListProxyBlockedAccountUUIDs s !! user_ID user) = false.

Lemma networkAccessForUser_cases now user s :
  let access := networkAccessForUser now user s in
  let base := networkAccessFor now (user_ID user) s in
  acc_Mode access = acc_Mode base ∧ acc_TeamID access = acc_TeamID base ∧
  (acc_Allowed access = true ↔ account_open user s ∧ acc_Allowed base = true).
Proof.
  cbv zeta. unfold networkAccessForUser, account_open.
  destruct (user_Active user); cbn [negb orb]; [|getset; split_and!; [done..|]; intuition congruence].
  destruct (AccountAccessVerified user), (EqualFold (user_Email user) sandboxUserEmail);
    cbn [negb orb andb];
    destruct (default false _); getset; (split_and!; [done..|]); intuition congruence.
Qed.

Lemma membership_placed s userID :
  net_ok s → nm_DedicatedOnly (GetNetworkMembership userID s) = false →
  nm_TeamID (GetNetworkMembership userID s) = "".
Proof.
  intros Hs. unfold GetNetworkMembership.
  destruct (networkMembers s !! userID) as [v|] eqn:E; getset; [|done].
  intros Hd. destruct (decide (nm_TeamID v = "")) as [|Hne]; [done|].
  destruct (members_placed s Hs _ _ E Hne). congruence.
Qed.

Lemma networkAccessFor_spec now userID s :
  net_ok s →
  let m := GetNetworkMembership userID s in
  let access := networkAccessFor now userID s in
  if nm_DedicatedOnly m then
    acc_Mode access = "dedicated" ∧ acc_TeamID access = nm_TeamID m ∧
    (acc_Allowed access = true ↔
       ∃ t, networkTeams s !! nm_TeamID m = Some t ∧ team_open now t = true)
  else acc_Mode access = "personal" ∧ acc_Allowed access = true.
Proof.
  intros Hs. cbv zeta. pose proof (membership_placed s userID Hs) as Hp.
  unfold networkAccessFor. cbv zeta. set (m := GetNetworkMembership userID s) in *.
  unfold accessFromNetworkMembership.
  destruct (nm_DedicatedOnly m) eqn:D; cbn [negb andb].
  - cbv zeta. rewrite find_team by done.
    destruct (networkTeams s !! nm_TeamID m) as [t|]; getset; (split; [done|split; [done|]]).
    + split; [eauto|]. by intros (? & [= <-] & ?).
    + split; [done|]. by intros (? & ? & ?).
  - rewrite bool_decide_eq_true_2 by auto. by getset.
Qed.

(** An account reaches a node exactly when the account is active, verified
    and not blocked, the node's scope is well formed, and either the account
    is personal and the node public, or the account is dedicated to the team of
    the node and that team is active and inside its validity period. *)
Theorem network_access_correct now user groups s :
  net_reachable s →
  let m := GetNetworkMembership (user_ID user) s in
  networkScopeAllows (networkAccessForUser now user s) groups = true ↔
  account_open user s ∧ ∃ team, agentNetworkScope groups = (team, true) ∧
    if nm_DedicatedOnly m then
      team = nm_TeamID m ∧ team ≠ "" ∧
      ∃ t, networkTeams s !! team = Some t ∧ team_open now t = true
    else team = "".
Proof.
  intros Hs%net_ok_reachable m. unfold networkScopeAllows.
  destruct (agentNetworkScope groups) as [team valid].
  destruct (networkAccessForUser_cases now user s) as (-> & -> & Hall).
  pose proof (networkAccessFor_spec now (user_ID user) s Hs) as Hspec. cbv zeta in Hspec.
  fold m in Hspec.
  assert (∀ b c : bool, (if negb valid || negb b then false else c) = true ↔
    valid = true ∧ b = true ∧ c = true) as Hif by (intros [] []; destruct valid; cbn; intuition congruence).
  rewrite Hif, Hall. destruct (nm_DedicatedOnly m).
  - destruct Hspec as (-> & -> & ->). rewrite bool_decide_eq_true_2 by done.
    rewrite andb_true_iff, negb_true_iff, bool_decide_eq_false, bool_decide_eq_true.
    split.
    + intros (-> & [? Ht] & ? & ->). eauto 10.
    + intros (? & ? & [= <- ->] & -> & ? & ?). eauto 10.
  - destruct Hspec as (-> & ->). rewrite bool_decide_eq_false_2 by done.
    rewrite bool_decide_eq_true. split.
    + intros (-> & [? _] & ->). eauto.
    + intros (? & ? & [= <- ->] & ->). eauto.
Qed.
End access.

(** ** Team agents: compare and set *)

(** The version of an enrolment never decreases, and an enrolment that keeps
    its version is unchanged. *)
Definition version_le (old new : option TeamAgentEnrollment) : Prop :=
  match old, new with
  | Some e, Some e' => e' = e ∨ tae_UpdatedAt e < tae_UpdatedAt e'
  | Some _, None => False
  | None, _ => True
  end.

Lemma version_le_trans a b c : version_le a b → version_le b c → version_le a c.
Proof.
  destruct a, b, c; simpl; try done. intros [->|?] [->|?]; [by left|right; lia..].
Qed.

Lemma DecideTeamAgent_result now e expected audit s :
  let '(r, s') := DecideTeamAgent now e expected audit s in
  match r with
  | Err _ => s' = s
  | Ok _ => ∃ old version,
      teamAgentEnrollments s !! tae_AgentID e = Some old ∧ tae_UpdatedAt old = expected ∧
      expected < version ∧ now ≤ version ∧
      teamAgentEnrollments s' =
        <[tae_AgentID e := e <| tae_UpdatedAt := version |>]> (teamAgentEnrollments s) ∧
      auditLogs s' = auditLogs s ++ [audit]
  end.
Proof.
  unfold DecideTeamAgent. destruct (teamAgentEnrollments s !! tae_AgentID e) as [old|]; [|done].
  destruct (negb _) eqn:E; [done|]. bools. unfold Equal in E. apply Z.eqb_eq in E.
  exists old, (if After now (tae_UpdatedAt old) then now else Add (tae_UpdatedAt old) Microsecond).
  split; [done|]. split; [done|]. cbv zeta. getset. unfold After, Add, Microsecond.
  destruct (tae_UpdatedAt old <? now) eqn:L; [apply Z.ltb_lt in L|apply Z.ltb_ge in L];
    (split; [lia|split; [lia|done]]).
Qed.

Lemma net_step_version s s' id :
  net_step s s' → version_le (teamAgentEnrollments s !! id) (teamAgentEnrollments s' !! id).
Proof.
  assert (∀ o, version_le o o) as Hrefl by (intros []; simpl; auto).
  intros [team audit|m audit|now id' sug|now e exp audit|s'' _ _ E3].
  - unfold PutNetworkTeam. cbv zeta. destruct (_ <? _); cbn [snd]; getset; auto.
  - destruct (PutNetworkMembership_outcome m audit s); cbn [snd]; [auto| |];
      destruct (store_membership_tables m audit s) as (_ & _ & E).
    + by rewrite E.
    + destruct (store_membership_tables (m <| nm_DedicatedOnly := true |>) audit s) as (_ & _ & E').
      by rewrite E'.
  - unfold RegisterTeamAgent. destruct (teamAgentEnrollments s !! id') eqn:E; cbn [snd]; [auto|].
    getset. destruct (decide (id = id')) as [->|]; [by rewrite E|]. by rewrite lookup_insert_ne.
  - pose proof (DecideTeamAgent_result now e exp audit s) as R.
    destruct (DecideTeamAgent now e exp audit s) as [[[]|err] s1]; cbn [snd]; [|by subst].
    destruct R as (old & version & Eo & Ev & Hlt & _ & -> & _).
    destruct (decide (id = tae_AgentID e)) as [->|].
    + rewrite lookup_insert_eq, Eo. cbn [version_le]. right. getset. lia.
    + by rewrite lookup_insert_ne.
  - by rewrite E3.
Qed.

Lemma net_steps_version s s' id :
  net_steps s s' → version_le (teamAgentEnrollments s !! id) (teamAgentEnrollments s' !! id).
Proof.
  induction 1 as [s|s1 s2 s3 Hstep _ IH].
  - destruct (teamAgentEnrollments s !! id); simpl; auto.
  - eapply version_le_trans; [by apply net_step_version|done].
Qed.

(** A decision on a team agent is compare-and-set.  It takes effect only on
    the version the decider has seen, records exactly what was decided and one
    audit entry under a strictly later version, and from then on, whatever else
    happens, every decision based on a version up to the one it replaced is
    refused and changes nothing; registering the agent again never changes the
    enrolment. *)
Theorem decide_compare_and_set now e expected audit s s' :
  DecideTeamAgent now e expected audit s = (Ok (), s') →
  (∃ old version, teamAgentEnrollments s !! tae_AgentID e = Some old ∧
     tae_UpdatedAt old = expected ∧ expected < version ∧
     teamAgentEnrollments s' =
       <[tae_AgentID e := e <| tae_UpdatedAt := version |>]> (teamAgentEnrollments s) ∧
     auditLogs s' = auditLogs s ++ [audit]) ∧
  (∀ s'' now' e' expected' audit', net_steps s' s'' → tae_AgentID e' = tae_AgentID e →
     expected' ≤ expected →
     DecideTeamAgent now' e' expected' audit' s'' = (Err ErrTeamAgentConflict, s'')) ∧
  (∀ now' suggested, (RegisterTeamAgent now' (tae_AgentID e) suggested s').2 = s').
Proof.
  intros D. pose proof (DecideTeamAgent_result now e expected audit s) as R. rewrite D in R.
  destruct R as (old & version & Eo & Ev & Hlt & _ & Et & Ea).
  assert (teamAgentEnrollments s' !! tae_AgentID e = Some (e <| tae_UpdatedAt := version |>)) as El
    by (by rewrite Et, lookup_insert_eq).
  split; [by exists old, version|]. split.
  - intros s'' now' e' expected' audit' Hsteps Hid Hexp. unfold DecideTeamAgent.
    pose proof (net_steps_version s' s'' (tae_AgentID e) Hsteps) as V. rewrite El in V.
    rewrite Hid. destruct (teamAgentEnrollments s'' !! tae_AgentID e) as [cur|]; [|done].
    cbn [version_le] in V. unfold Equal.
    replace (tae_UpdatedAt cur =? expected') with false; [done|].
    symmetry. apply Z.eqb_neq. destruct V as [->|V]; [|revert V]; getset; lia.
  - intros now' suggested. unfold RegisterTeamAgent. by rewrite El.
Qed.

(** ** Roles follow memberships *)

Lemma TrimSpace_team_admin id :
  TrimSpace id = id → TrimSpace (team_admin_prefix +:+ id) = (team_admin_prefix +:+ id)%string.
Proof.
  intros Ht. destruct (decide (id = "")) as [->|Hne]; [done|].
  unfold TrimSpace. change (TrimLeft (team_admin_prefix +:+ id))
    with (team_admin_prefix +:+ id)%string.
  apply TrimRight_app; [|done]. rewrite <-Ht. unfold TrimSpace. by rewrite TrimRight_idem.
Qed.

(** Groups that are kept, and the one that is added. *)
Lemma networkMembershipGroups_spec groups m :
  networkMembershipGroups groups m =
  List.filter (λ g, negb (team_role_group g)) groups ++
  (if ((nm_Role m == "admin") ||
       ((nm_Role m == "") && existsb (λ g, team_role_group g && admin_of_team (nm_TeamID m) g) groups))
      && (nm_TeamID m != "") && nm_DedicatedOnly m
   then [(team_admin_prefix +:+ nm_TeamID m)%string] else []).
Proof.
  unfold networkMembershipGroups.
  assert (∀ admin result, (nm_TeamID m = "" → admin = (nm_Role m == "admin")) →
    foldl (λ '(admin, result) group,
      if team_role_group group then
        ((if (nm_Role m == "") && (nm_TeamID m != "") &&
             admin_of_team (nm_TeamID m) group then true else admin), result)
      else (admin, result ++ [group])) (admin, result) groups =
    (admin || ((nm_Role m == "") && (nm_TeamID m != "") &&
       existsb (λ g, team_role_group g && admin_of_team (nm_TeamID m) g) groups),
     result ++ List.filter (λ g, negb (team_role_group g)) groups)) as Hfold.
  { induction groups as [|g groups IH]; intros admin result Hadm; simpl.
    - by rewrite andb_false_r, orb_false_r, app_nil_r.
    - destruct (team_role_group g); simpl.
      + rewrite IH; [f_equal|].
        * destruct (nm_Role m == ""), (nm_TeamID m != ""), (admin_of_team (nm_TeamID m) g), admin;
            reflexivity.
        * intros E. rewrite (bool_decide_eq_true_2 (nm_TeamID m = "")) by done.
          rewrite andb_false_r. simpl. auto.
      + rewrite IH by done. by rewrite <-app_assoc. }
  rewrite Hfold by done. cbn [app].
  destruct (nm_TeamID m != ""), (nm_DedicatedOnly m); cbn [andb];
    rewrite ?andb_true_r, ?andb_false_r, ?app_nil_r; try done.
  destruct (_ || _); [done|]. by rewrite app_nil_r.
Qed.

(** Both spellings of the administrator role of a team are team roles. *)
Lemma admin_of_team_role id g : admin_of_team id g = true → team_role_group g = true.
Proof.
  unfold admin_of_team, team_role_group. rewrite orb_true_iff, !bool_decide_eq_true.
  intros [->| ->].
  - apply orb_true_iff. left. apply HasPrefix_spec. eauto.
  - apply orb_true_iff. right. apply andb_true_iff. split; [apply HasPrefix_spec; eauto|].
    change (team_prefix +:+ id +:+ admin_suffix)%string
      with ((team_prefix +:+ id) +:+ admin_suffix)%string. apply HasSuffix_app.
Qed.

Lemma admin_of_team_eq a b :
  admin_of_team a (team_admin_prefix +:+ b)%string = true ↔ a = b.
Proof.
  unfold admin_of_team, team_admin_prefix, team_prefix.
  rewrite orb_true_iff, !bool_decide_eq_true. split.
  - intros [H|H]; simplify_eq/=; done.
  - intros ->. by left.
Qed.

Lemma existsb_admin_roles T groups :
  (∀ g, g ∈ groups → TrimSpace g = g) →
  existsb (λ raw, admin_of_team T (TrimSpace raw)) groups =
  existsb (λ g, team_role_group g && admin_of_team T g) groups.
Proof.
  induction groups as [|g groups IH]; intros Ht; [done|]. simpl.
  rewrite IH by (intros; apply Ht; by right). rewrite (Ht g) by (by left). f_equal.
  destruct (admin_of_team T g) eqn:E; [|by rewrite andb_false_r].
  by rewrite (admin_of_team_role _ _ E).
Qed.

Lemma existsb_no_roles T groups :
  existsb (λ g, team_role_group g && admin_of_team T g)
    (List.filter (λ g, negb (team_role_group g)) groups) = false.
Proof.
  induction groups as [|g groups IH]; [done|]. simpl.
  destruct (team_role_group g) eqn:E; simpl; [done|]. by rewrite E.
Qed.

Lemma networkMembershipGroups_admin groups m T :
  (∀ g, g ∈ groups → TrimSpace g = g) → TrimSpace (nm_TeamID m) = nm_TeamID m → T ≠ "" →
  existsb (λ raw, admin_of_team T (TrimSpace raw)) (networkMembershipGroups groups m) = true ↔
  T = nm_TeamID m ∧ nm_DedicatedOnly m = true ∧
  (nm_Role m = "admin" ∨
   nm_Role m = "" ∧ existsb (λ raw, admin_of_team T (TrimSpace raw)) groups = true).
Proof.
  intros Hg Ht HT. rewrite (existsb_admin_roles T groups) by done.
  rewrite networkMembershipGroups_spec, existsb_app, orb_true_iff.
  rewrite existsb_admin_roles, existsb_no_roles.
  2:{ intros g Hin. apply Hg. apply list_elem_of_In in Hin.
      apply List.filter_In in Hin as [Hin _]. by apply list_elem_of_In. }
  assert (∀ b : bool, existsb (λ raw, admin_of_team T (TrimSpace raw))
      (if b then [(team_admin_prefix +:+ nm_TeamID m)%string] else []) = true ↔
    b = true ∧ T = nm_TeamID m) as Hadd.
  { intros []; [|cbn; intuition congruence]. cbn [existsb].
    rewrite TrimSpace_team_admin, orb_false_r, admin_of_team_eq by done. intuition. }
  rewrite Hadd, !andb_true_iff, orb_true_iff, andb_true_iff, !bool_decide_eq_true,
    negb_true_iff, bool_decide_eq_false.
  split; [intros [?|((([?|[? ?]] & ?) & ?) & ->)]; [done|by auto..]|].
  intros (-> & ? & [?|[? ?]]); right; auto 10.
Qed.

(** A successful change of membership makes the account an administrator of
    the named team exactly when the change says so, or says nothing and it
    already was, and of no other team; its other groups keep their order, no
    other account changes, and one audit entry is added. *)
Theorem team_roles_follow_membership m audit s s' u :
  PutNetworkMembership m audit s = (Ok (), s') →
  user_by_id s (nm_UserID m) = Some u →
  (∀ g, g ∈ user_Groups u → TrimSpace g = g) → TrimSpace (nm_TeamID m) = nm_TeamID m →
  (∃ u', user_by_id s' (nm_UserID m) = Some u' ∧
     (∀ T, TrimSpace T ≠ "" → networkTeamAdmin u' T = true ↔
        T = nm_TeamID m ∧
        (nm_Role m = "admin" ∨ nm_Role m = "" ∧ networkTeamAdmin u T = true)) ∧
     List.filter (λ g, negb (team_role_group g)) (user_Groups u') =
       List.filter (λ g, negb (team_role_group g)) (user_Groups u)) ∧
  (∀ l, byID s !! nm_UserID m ≠ Some l → users s' !! l = users s !! l) ∧
  auditLogs s' = auditLogs s ++ [audit].
Proof.
  intros P Hu Hg Ht.
  assert (∃ m', s' = store_membership m' audit s ∧ nm_UserID m' = nm_UserID m ∧
    nm_TeamID m' = nm_TeamID m ∧ nm_Role m' = nm_Role m ∧
    (nm_TeamID m ≠ "" → nm_DedicatedOnly m' = true)) as (m' & -> & E1 & E2 & E3 & E4).
  { pose proof (PutNetworkMembership_outcome m audit s) as O. rewrite P in O.
    inversion O as [|l ? Hz|l team]; subst.
    - by exists m.
    - exists (m <| nm_DedicatedOnly := true |>). by getset. }
  unfold user_by_id, user_at in Hu.
  destruct (byID s !! nm_UserID m) as [l|] eqn:El; [|done]. simpl in Hu.
  unfold store_membership. cbv zeta. unfold update_user. getset. rewrite E1, El. getset.
  split; [|split; [|done]].
  - eexists. split.
    { unfold user_by_id, user_at. getset. rewrite El. cbn [mbind option_bind].
      rewrite lookup_alter_eq, Hu. reflexivity. }
    split; getset.
    + intros T HT. unfold networkTeamAdmin. rewrite !(bool_decide_eq_false_2 (TrimSpace T = "")) by done.
      assert (T ≠ "") as HT' by (by intros ->). getset.
      rewrite networkMembershipGroups_admin by (rewrite ?E2; done). rewrite E2, E3.
      split; [naive_solver|]. intros [-> ?]. auto.
    + rewrite networkMembershipGroups_spec, List.filter_app.
      assert (∀ gs, List.filter (λ g, negb (team_role_group g))
        (List.filter (λ g, negb (team_role_group g)) gs) =
        List.filter (λ g, negb (team_role_group g)) gs) as Hidem.
      { induction gs as [|g gs IH]; [done|]. simpl.
        destruct (negb (team_role_group g)) eqn:E; simpl; rewrite ?E, ?IH; done. }
      rewrite Hidem. destruct (_ && _); simpl; by rewrite app_nil_r.
  - intros l' Hl'. rewrite lookup_alter_ne by congruence. done.
Qed.

(** ** Team administration *)

Section handlers.
Context `{MapOrder}.

(** The actor is root and names an existing team, or administers its own. *)
Definition manages (actor : User) (teamID : string) (s : memoryStore) : Prop :=
  (IsRootRole (user_Role actor) = true ∧ is_Some (networkTeams s !! teamID)) ∨
  (nm_TeamID (GetNetworkMembership (user_ID actor) s) = teamID ∧
   nm_DedicatedOnly (GetNetworkMembership (user_ID actor) s) = true ∧
   networkTeamAdmin actor teamID = true).

Lemma networkTeamForAdmin_ok now actor query s access :
  net_ok s → networkTeamForAdmin now actor query s = Ok access →
  acc_TeamID access ≠ "" ∧ manages actor (acc_TeamID access) s.
Proof.
  intros Hs. unfold networkTeamForAdmin, manages.
  destruct (IsRootRole (user_Role actor) && (query != "")) eqn:R.
  - bools. rewrite find_team by done.
    destruct (networkTeams s !! query) as [team|] eqn:E; [|done]. intros [= <-].
    cbn [acc_TeamID]. rewrite (teams_keyed s Hs _ _ E). split; [done|]. left. eauto.
  - cbv zeta. destruct (_ || _) eqn:G; [done|]. intros [= <-]. bools.
    destruct (networkAccessForUser_cases now actor s) as (Em & Et & _).
    pose proof (networkAccessFor_spec now (user_ID actor) s Hs) as Hspec. cbv zeta in Hspec.
    destruct (nm_DedicatedOnly _) eqn:D.
    + destruct Hspec as (_ & Et' & _). rewrite Et, Et' in *. auto.
    + destruct Hspec as [Em' _]. congruence.
Qed.

Lemma networkTeamForAdmin_refused now actor query s r :
  networkTeamForAdmin now actor query s = Err r → r.1 ≠ 200 ∧ r.1 ≠ 201.
Proof.
  unfold networkTeamForAdmin. destruct (_ && _); [destruct (List.find _ _)|cbv zeta; destruct (_ || _)];
    by intros [= <-].
Qed.

Lemma store_membership_members m audit s :
  networkMembers (store_membership m audit s) = <[nm_UserID m := m]> (networkMembers s).
Proof. by destruct (store_membership_tables m audit s) as (_ & ? & _). Qed.

(** Adding and removing team members is confined: a request that does not
    succeed changes nothing; a successful one was made by root or by an
    administrator of that very team, adds only an ordinary account that has no
    team, removes only a member of that team, who is not an administrator
    unless root asks, never touches the actor's own membership, and changes no
    other membership. *)
Theorem team_handlers_confined now actor query email userParam s :
  net_reachable s →
  (let '(r, s') := addNetworkTeamMember now actor query email s in
   (r.1 ≠ 201 ∧ s' = s) ∨
   (r.1 = 201 ∧ ∃ teamID member,
      manages actor teamID s ∧ GetUserByEmail s (TrimSpace email) = Ok member ∧
      user_ID member ≠ user_ID actor ∧ IsRootRole (user_Role member) = false ∧
      nm_TeamID (GetNetworkMembership (user_ID member) s) = "" ∧
      networkMembers s' = <[user_ID member :=
        mkNetworkMembership false (user_ID member) teamID true ""]> (networkMembers s))) ∧
  (let '(r, s') := removeNetworkTeamMember now actor query userParam s in
   (r.1 ≠ 200 ∧ s' = s) ∨
   (r.1 = 200 ∧ ∃ teamID target,
      manages actor teamID s ∧ GetUserByID s (TrimSpace userParam) = Ok target ∧
      TrimSpace userParam ≠ user_ID actor ∧
      nm_TeamID (GetNetworkMembership (TrimSpace userParam) s) = teamID ∧
      (networkTeamAdmin target teamID = true → IsRootRole (user_Role actor) = true) ∧
      networkMembers s' = <[TrimSpace userParam :=
        mkNetworkMembership false (TrimSpace userParam) "" true ""]> (networkMembers s))).
Proof.
  intros Hs%net_ok_reachable.
  assert (∀ e, (networkWriteError e).1 ≠ 200 ∧ (networkWriteError e).1 ≠ 201) as Herr
    by (by intros []).
  split.
  - unfold addNetworkTeamMember.
    destruct (networkTeamForAdmin now actor query s) as [access|r] eqn:A.
    2:{ left. split; [|done]. by apply networkTeamForAdmin_refused in A as [? ?]. }
    destruct (networkTeamForAdmin_ok _ _ _ _ _ Hs A) as [Hne Hm].
    destruct (bool_decide (TrimSpace email = "")); [by left|].
    destruct (GetUserByEmail s (TrimSpace email)) as [member|]; [|by left].
    destruct (_ || _) eqn:G; [by left|]. bools. cbv zeta.
    pose proof (networkAccessFor_spec now (user_ID member) s Hs) as Hspec. cbv zeta in Hspec.
    destruct (_ && _) eqn:G1; [by left|]. destruct (_ && _) eqn:G2 in |- *; [by left|].
    assert (nm_TeamID (GetNetworkMembership (user_ID member) s) = "") as Hfree.
    { destruct (nm_DedicatedOnly _) eqn:D; [|by apply membership_placed].
      destruct Hspec as (Em & Et & _). rewrite Em in G2. bools. destruct G2 as [|G2]; [done|].
      bools. congruence. }
    match goal with |- context [PutNetworkMembership ?m ?a s] =>
      pose proof (PutNetworkMembership_outcome m a s) as O;
      destruct (PutNetworkMembership m a s) as [[[]|e] s1]; inversion O; subst end.
    + done.
    + right. split; [done|]. exists (acc_TeamID access), member. split_and!; try done.
      by rewrite store_membership_members.
    + left. split; [apply Herr|done].
  - unfold removeNetworkTeamMember.
    destruct (networkTeamForAdmin now actor query s) as [access|r] eqn:A.
    2:{ left. split; [|done]. by apply networkTeamForAdmin_refused in A as [? ?]. }
    destruct (networkTeamForAdmin_ok _ _ _ _ _ Hs A) as [Hne Hm]. cbv zeta.
    destruct (_ || _) eqn:G; [by left|]. bools.
    destruct (negb _) eqn:G1; [by left|]. bools.
    destruct (GetUserByID s (TrimSpace userParam)) as [target|]; [|by left].
    destruct (_ && _) eqn:G2; [by left|].
    match goal with |- context [PutNetworkMembership ?m ?a s] =>
      pose proof (PutNetworkMembership_outcome m a s) as O;
      destruct (PutNetworkMembership m a s) as [[[]|e] s1]; inversion O; subst end.
    + right. split; [done|]. exists (acc_TeamID access), target. split_and!; try done.
      * intros E. rewrite E in G2. cbn in G2. by apply negb_false_iff in G2.
      * by rewrite store_membership_members.
    + done.
    + left. split; [apply Herr|done].
Qed.
End handlers.
