(* ===== verification/Registry.v ===== *)
(** * The agent registry

    [internal/agentserver/registry.go] and the reports of [agentproto]: the
    credentials of the configuration, the identities known so far and their
    last status.

    A digest is represented by its hexadecimal text.  The goroutines that
    persist an identity are kept in [reg_pending]; [run_persist] is one of them
    running, at any later time and in any order. *)

From S2P Require Import Prelude GoLib Json StoreData Users Quota Network Sha256 Access.
Open Scope Z_scope.
Open Scope bool_scope.
Open Scope go_scope.

(** ** Reports *)

(** [agentproto.OverlayPath] *)
Record OverlayPath := mkOverlayPath {
  op_SentPackets : Z; op_ReceivedPackets : Z; op_DeviceID : string; op_Path : string;
  op_Endpoint : string; op_RTTMillis : Z; op_Reason : string
}.

(** [agentproto.OverlayStatus] *)
Record OverlayStatus := mkOverlayStatus {
  ost_NetworkID : string; ost_DeviceID : string; ost_Role : string;
  ost_Capabilities : list string; ost_Healthy : bool; ost_UpdatedAt : time;
  ost_ExpiresAt : time; ost_Paths : list OverlayPath
}.

(** [agentproto.XrayStatus] *)
Record XrayStatus := mkXrayStatus {
  xray_CustomAllowFree : bool;
  xray_AllowedEmails : list string;
  xray_Running : bool;
  xray_Clients : Z;
  xray_LastSync : option time;
  xray_ConfigHash : string;
  xray_NodeID : string;
  xray_NetworkID : string;
  xray_Region : string;
  xray_Pool : string;
  xray_EntryPoint : string;
  xray_OpenToUsers : option bool;
  xray_LineCode : string;
  xray_PricingGroup : string;
  xray_StatsEnabled : bool;
  xray_XrayRevision : string
}.
#[export] Instance eta_XrayStatus : Eta XrayStatus := λ x, mkXrayStatus
   (xray_CustomAllowFree x) (xray_AllowedEmails x) (xray_Running x) (xray_Clients x)
   (xray_LastSync x) (xray_ConfigHash x) (xray_NodeID x) (xray_NetworkID x)
   (xray_Region x) (xray_Pool x) (xray_EntryPoint x) (xray_OpenToUsers x)
   (xray_LineCode x) (xray_PricingGroup x) (xray_StatsEnabled x) (xray_XrayRevision x).

Definition zero_xray : XrayStatus :=
  mkXrayStatus false [] false 0 None "" "" "" "" "" "" None "" "" false "".

(** [agentproto.StatusReport] *)
Record StatusReport := mkStatusReport {
  rep_Overlay : option OverlayStatus;
  rep_AgentID : string;
  rep_Role : string;
  rep_Healthy : bool;
  rep_Message : string;
  rep_Users : Z;
  rep_SyncRevision : string;
  rep_Xray : XrayStatus
}.
#[export] Instance eta_StatusReport : Eta StatusReport := λ x, mkStatusReport (rep_Overlay x)
   (rep_AgentID x) (rep_Role x) (rep_Healthy x) (rep_Message x) (rep_Users x)
   (rep_SyncRevision x) (rep_Xray x).

Definition zero_report : StatusReport := mkStatusReport None "" "" false "" 0 "" zero_xray.

(** ** Credentials, identities and the registry *)

(** [Credential] *)
Record Credential := mkCredential {
  cred_NodeID : string;
  cred_AllowedEmails : list string;
  cred_ID : string;
  cred_Name : string;
  cred_Token : string;
  cred_Groups : list string
}.

(** [agentserver.Identity] *)
Record AgentIdentity := mkAgentIdentity {
  ai_NodeID : string;
  ai_AllowedEmails : list string;
  ai_ID : string;
  ai_Name : string;
  ai_Groups : list string
}.
#[export] Instance eta_AgentIdentity : Eta AgentIdentity := λ x, mkAgentIdentity
   (ai_NodeID x) (ai_AllowedEmails x) (ai_ID x) (ai_Name x) (ai_Groups x).

(** [StatusSnapshot] *)
Record StatusSnapshot := mkStatusSnapshot {
  snap_Agent : AgentIdentity;
  snap_Report : StatusReport;
  snap_UpdatedAt : time
}.
#[export] Instance eta_StatusSnapshot : Eta StatusSnapshot := λ x, mkStatusSnapshot
   (snap_Agent x) (snap_Report x) (snap_UpdatedAt x).

(** The writes of [ReportStatus] and [RegisterAgent] that run in goroutines. *)
Inductive persist :=
| PersistStatus (agent : AgentIdentity) (report : StatusReport)
| PersistNew (id : string) (groups : list string).

(** [Registry]; [reg_store] says whether a store is attached. *)
Record Registry := mkRegistry {
  reg_credentials : gmap string AgentIdentity;
  reg_byID : gmap string AgentIdentity;
  reg_statuses : gmap string StatusSnapshot;
  reg_sandboxAgents : gmap string bool;
  reg_store : bool;
  reg_pending : list persist
}.
#[export] Instance eta_Registry : Eta Registry := λ x, mkRegistry (reg_credentials x)
   (reg_byID x) (reg_statuses x) (reg_sandboxAgents x) (reg_store x) (reg_pending x).

Definition empty_registry : Registry := mkRegistry ∅ ∅ ∅ ∅ false [].

(** [normalizeStrings]: the same function as [normalizeStringSlice]. *)
Definition normalizeStrings (values : list string) : list string := normalize_from [] values.

Section new_registry.
Context `{MailParser}.

(** The class a group of a node-bound credential selects: [Err] for an unknown
    resource class, the empty string when it selects none. *)
Definition scope_of_group (group : string) : result error string :=
  let next := if HasPrefix group "resource:" then
      let next := TrimPrefix group "resource:" in
      if (next == "shared") || (next == "free") || (next == "plus") || (next == "pro") ||
         (next == "custom") then Ok next
      else Err (ErrMsg "invalid node credential resource class")
    else Ok EmptyString in
  match next with
  | Err e => Err e
  | Ok next =>
      Ok (if HasPrefix group team_prefix && (TrimPrefix group team_prefix != "")
          then "team"%string else next)
  end.

Fixpoint node_scope (groups : list string) (scope : string) : result error string :=
  match groups with
  | [] => Ok scope
  | group :: rest =>
      match scope_of_group group with
      | Err e => Err e
      | Ok next =>
          if next == "" then node_scope rest scope else
          if (scope != "") && (scope != next)
          then Err (ErrMsg "conflicting node credential scopes")
          else node_scope rest next
      end
  end.

(** The checks of a node-bound credential; [nodes] are the nodes taken. *)
Definition check_node (cred : Credential) (id nodeID : string) (nodes : list string)
    : result error (list string) :=
  if (id == "*") || contains nodes nodeID
  then Err (ErrMsg "node-bound credentials require a unique nodeId and dedicated id") else
  let groups := normalizeStrings (cred_Groups cred) in
  let allowFree := contains groups custom_allow_free in
  match node_scope groups "" with
  | Err e => Err e
  | Ok scope =>
      if scope == ""
      then Err (ErrMsg "node credential requires an explicit resource or team scope") else
      if allowFree && (scope != "custom")
      then Err (ErrMsg "custom Free audience requires custom scope") else
      if negb (Bool.eqb (scope == "custom") (0 <? Z.of_nat (length (cred_AllowedEmails cred))))
      then Err (ErrMsg "custom node credential requires an enrolled audience; other classes forbid it") else
      if forallb (λ email, ParseAddress email == Some email) (cred_AllowedEmails cred)
      then Ok (nodeID :: nodes)
      else Err (ErrMsg "invalid enrolled node audience email")
  end.

Definition add_credential (cred : Credential) (st : Registry * list string)
    : result error (Registry * list string) :=
  let '(r, nodes) := st in
  let id := TrimSpace (cred_ID cred) in
  let token := TrimSpace (cred_Token cred) in
  if id == "" then Err (ErrMsg "agent credential id is required") else
  if token == "" then Err (ErrMsg "agent credential token is required") else
  match reg_byID r !! id with
  | Some _ => Err (ErrMsg ("duplicate agent credential id: " +:+ id))
  | None =>
      let nodeID := TrimSpace (cred_NodeID cred) in
      match (if nodeID != "" then check_node cred id nodeID nodes else Ok nodes) with
      | Err e => Err e
      | Ok nodes =>
          if (0 <? Z.of_nat (length (cred_AllowedEmails cred))) && (nodeID == "")
          then Err (ErrMsg "credential allowedEmails requires nodeId") else
          let digest := sha256_hex token in
          match reg_credentials r !! digest with
          | Some _ => Err (ErrMsg "duplicate agent credential token")
          | None =>
              let ident := mkAgentIdentity nodeID (cred_AllowedEmails cred) id
                (TrimSpace (cred_Name cred)) (normalizeStrings (cred_Groups cred)) in
              Ok (r <| reg_credentials := <[digest := ident]> (reg_credentials r) |>
                    <| reg_byID := <[id := ident]> (reg_byID r) |>, nodes)
          end
      end
  end.

Fixpoint add_credentials (creds : list Credential) (st : Registry * list string)
    : result error (Registry * list string) :=
  match creds with
  | [] => Ok st
  | cred :: rest =>
      match add_credential cred st with
      | Err e => Err e
      | Ok st => add_credentials rest st
      end
  end.

Definition NewRegistry (creds : list Credential) : result error Registry :=
  match add_credentials creds (empty_registry, []) with
  | Err e => Err e
  | Ok (r, _) => Ok r
  end.
End new_registry.

Definition SetStore (attached : bool) (r : Registry) : Registry := r <| reg_store := attached |>.

Definition Authenticate (token : string) (r : Registry) : option AgentIdentity :=
  let token := TrimSpace token in
  if token == "" then None else reg_credentials r !! sha256_hex token.

Definition queue_persist (job : persist) (r : Registry) : Registry :=
  if reg_store r then r <| reg_pending := reg_pending r ++ [job] |> else r.

Definition ReportStatus (now : time) (agent : AgentIdentity) (report : StatusReport)
    (r : Registry) : Registry :=
  queue_persist (PersistStatus agent report)
    (r <| reg_byID := <[ai_ID agent := agent]> (reg_byID r) |>
       <| reg_statuses := <[ai_ID agent := mkStatusSnapshot agent report now]> (reg_statuses r) |>).

Definition RegisterAgent (agentID : string) (groups : list string) (r : Registry)
    : AgentIdentity * Registry :=
  match reg_byID r !! agentID with
  | Some ident => (ident, r)
  | None =>
      let ident := mkAgentIdentity "" [] agentID agentID groups in
      (ident, queue_persist (PersistNew agentID groups)
                   (r <| reg_byID := <[agentID := ident]> (reg_byID r) |>))
  end.

(** One goroutine, running at [now]. *)
Definition run_persist (now : time) (job : persist) (s : memoryStore) : memoryStore :=
  match job with
  | PersistStatus a rep =>
      (UpsertAgent now (mkAgent (ai_ID a) (ai_Name a) (ai_Groups a) (rep_Healthy rep) (Some now)
         (xray_Clients (rep_Xray rep)) (rep_SyncRevision rep) 0 0) s).2
  | PersistNew id groups =>
      (UpsertAgent now (mkAgent id id groups false None 0 "" 0 0) s).2
  end.

(** One agent of the store, when the registry does not know it. *)
Definition load_agent (r : Registry) (a : Agent) : Registry :=
  match reg_byID r !! agent_ID a with
  | Some _ => r
  | None =>
      let ident := mkAgentIdentity "" [] (agent_ID a) (agent_Name a) (agent_Groups a) in
      let r := r <| reg_byID := <[agent_ID a := ident]> (reg_byID r) |> in
      match agent_LastHeartbeat a with
      | None => r
      | Some beat =>
          let report := mkStatusReport None (agent_ID a) "" (agent_Healthy a) ""
            (agent_ClientsCount a) (agent_SyncRevision a)
            (zero_xray <| xray_Clients := agent_ClientsCount a |>) in
          r <| reg_statuses := <[agent_ID a := mkStatusSnapshot ident report beat]> (reg_statuses r) |>
      end
  end.

Definition Load `{MapOrder} (s : memoryStore) (r : Registry) : Registry :=
  if reg_store r then foldl load_agent r (ListAgents s) else r.

Definition Statuses `{MapOrder} (r : Registry) : list StatusSnapshot :=
  sort_slice (λ a b, string_lt (ai_ID (snap_Agent a)) (ai_ID (snap_Agent b)))
    ((λ '(id, ident), default (mkStatusSnapshot ident zero_report 0) (reg_statuses r !! id))
       <$> range (reg_byID r)).

Definition Agents `{MapOrder} (r : Registry) : list AgentIdentity :=
  sort_slice (λ a b, string_lt (ai_ID a) (ai_ID b)) (range (reg_byID r)).*2.

Definition IsSandboxAgent (agentID : string) (r : Registry) : bool :=
  default false (reg_sandboxAgents r !! agentID).

Definition SetSandboxAgent (agentID : string) (enabled : bool) (r : Registry) : Registry :=
  r <| reg_sandboxAgents := if enabled then <[agentID := true]> (reg_sandboxAgents r)
                            else delete agentID (reg_sandboxAgents r) |>.

Definition ClearSandboxAgents (r : Registry) : Registry := r <| reg_sandboxAgents := ∅ |>.

Definition SetAgentGroups (id : string) (groups : list string) (r : Registry) : Registry :=
  match reg_byID r !! id with
  | None => r
  | Some ident =>
      let ident := ident <| ai_Groups := groups |> in
      let r := r <| reg_byID := <[id := ident]> (reg_byID r) |> in
      match reg_statuses r !! id with
      | None => r
      | Some snapshot =>
          r <| reg_statuses := <[id := snapshot <| snap_Agent := ident |>]> (reg_statuses r) |>
      end
  end.
