(* ===== verification/AgentAuth.v ===== *)
(** * Resolving the identity of an agent

    How a request that presents an agent credential obtains an identity and a
    scope: [resolveScopedAgent] of [agent_email_union.go], the resolvers of
    [network_access.go] and the enrolment of team agents of
    [api/team_agent_enrollments.go].

    The parts of the HTTP request that are read are the fields of
    [agentRequest], as received; the JSON text of a header is the value it
    denotes.  A resolver returns the response that refuses the request, or the
    identity, with the enrolment it recorded in the request context. *)

From S2P Require Import Prelude GoLib Json StoreData Users Quota Network Sha256 Access Registry.
From Stdlib Require Import Ascii.
Open Scope Z_scope.
Open Scope bool_scope.
Open Scope go_scope.

Record agentRequest := mkAgentRequest {
  rq_AgentID : string;        (** header [X-Agent-ID] *)
  rq_QueryAgent : string;     (** query [agentId] *)
  rq_Class : string;          (** header [X-Agent-Resource-Class] *)
  rq_Team : string;           (** header [X-Agent-Team-ID] *)
  rq_AllowFree : string;      (** header [X-Agent-Custom-Allow-Free] *)
  rq_AllowedEmails : RawMessage; (** header [X-Agent-Allowed-Emails] *)
  rq_EmailPolicy : string     (** header [X-Agent-Email-Policy] *)
}.
#[export] Instance eta_agentRequest : Eta agentRequest := λ x, mkAgentRequest (rq_AgentID x)
   (rq_QueryAgent x) (rq_Class x) (rq_Team x) (rq_AllowFree x) (rq_AllowedEmails x)
   (rq_EmailPolicy x).

(** The registry and the store the handlers share. *)
Record agentState := mkAgentState { ag_reg : Registry; ag_store : memoryStore }.
#[export] Instance eta_agentState : Eta agentState := λ x, mkAgentState (ag_reg x) (ag_store x).

(** [json.Unmarshal] into a nil [[]string]. *)
Fixpoint decode_strings (l : list json) : option (list string) :=
  match l with
  | [] => Some []
  | v :: rest =>
      match decode_strings rest with
      | None => None
      | Some out =>
          match v with
          | JStr s => Some (s :: out)
          | JNull => Some (EmptyString :: out)
          | _ => None
          end
      end
  end.
Definition unmarshal_strings (raw : RawMessage) : option (list string) :=
  match raw with
  | RawJSON (JArr l) => decode_strings l
  | RawJSON JNull => Some []
  | _ => None
  end.
Definition raw_absent (raw : RawMessage) : bool :=
  match raw with RawEmpty => true | _ => false end.

(** ** Enrolment of team agents *)

Definition managedTeamMarker : string := "enrollment:team".
Definition managedTeam (groups : list string) : bool := contains groups managedTeamMarker.

Definition enrollmentGroups (e : TeamAgentEnrollment) : list string :=
  if tae_Status e == "approved"
  then [managedTeamMarker; (team_prefix +:+ tae_AssignedTeamID e)%string]
  else [managedTeamMarker; dedicated_only].

Section resolve.
Context `{MapOrder} `{MailParser}.

Definition deploymentCredential (ident : AgentIdentity) : bool :=
  let '(scope, valid) := agentResourceScope (ai_Groups ident) in
  if negb valid || (scope_ResourceClass scope != agentResourceShared) || (ai_ID ident != "*")
  then false else
  contains (ai_Groups ident) "internal" || contains (ai_Groups ident) "agent:configure-public".

(** The agent named by the caller, else by the header, else by the query. *)
Definition requested_agent (rq : agentRequest) (requested : string) : string :=
  let requested := if requested == "" then TrimSpace (rq_AgentID rq) else requested in
  if requested == "" then TrimSpace (rq_QueryAgent rq) else requested.

(** [Ok None]: not a team enrolment, the caller goes on. *)
Definition resolveManagedTeam (now : time) (credential : AgentIdentity) (rq : agentRequest)
    (requested : string) (st : agentState)
    : result response (option (AgentIdentity * TeamAgentEnrollment)) * agentState :=
  let class := TrimSpace (rq_Class rq) in
  let requested := requested_agent rq requested in
  if negb (deploymentCredential credential) then (Ok None, st) else
  let existingManaged :=
    existsb (λ a, (ai_ID a == requested) && managedTeam (ai_Groups a)) (Agents (ag_reg st)) in
  let existingManaged :=
    if (class != "team") && negb existingManaged
    then existsb (λ e, tae_AgentID e == requested) (ListTeamAgents (ag_store st))
    else existingManaged in
  if (class != "team") && negb existingManaged then (Ok None, st) else
  if class != "team" then (Err (403, "agent_scope_mismatch"), st) else
  let suggested := TrimSpace (rq_Team rq) in
  if (requested == "") || (requested == "*") || (253 <? len requested) ||
     ContainsAny requested (" /" +:+ String "009" (String "013" (String "010" EmptyString))) ||
     ((suggested != "") && negb (networkTeamIDPattern suggested))
  then (Err (400, "agent_scope_invalid"), st) else
  if existsb (λ a, (ai_ID a == requested) && negb (managedTeam (ai_Groups a)) &&
                   (let '(team, valid) := agentNetworkScope (ai_Groups a) in
                    negb valid || (team != "") || (ai_NodeID a != ""))) (Agents (ag_reg st))
  then (Err (403, "agent_scope_mismatch"), st) else
  let '(e, store) := RegisterTeamAgent now requested suggested (ag_store st) in
  let '(ident, reg) := RegisterAgent requested (enrollmentGroups e) (ag_reg st) in
  let ident := ident <| ai_Groups := enrollmentGroups e |> in
  let reg := SetAgentGroups (ai_ID ident) (ai_Groups ident) reg in
  (Ok (Some (ident, e)), mkAgentState reg store).

(** ** Aliases and public pools *)

Definition resolveAgentIdentity (credential : AgentIdentity) (rq : agentRequest)
    (requested : string) (st : agentState) : result response AgentIdentity * agentState :=
  let '(team, valid) := agentNetworkScope (ai_Groups credential) in
  if negb valid then (Err (403, "agent_scope_invalid"), st) else
  let requested := requested_agent rq requested in
  if (requested == "") || (requested == ai_ID credential) then (Ok credential, st) else
  if team != "" then (Err (403, "agent_scope_mismatch"), st) else
  if existsb (λ ident, (ai_ID ident == requested) &&
       (let '(target, ok) := agentNetworkScope (ai_Groups ident) in
        negb ok || (target != "") || (ai_NodeID ident != ""))) (Agents (ag_reg st))
  then (Err (403, "agent_scope_mismatch"), st) else
  let '(ident, reg) := RegisterAgent requested (ai_Groups credential) (ag_reg st) in
  (Ok ident, st <| ag_reg := reg |>).

(** The credential may configure public pools; [cs] is its scope. *)
Definition public_manager (credential : AgentIdentity) (cs : UserScope) : bool :=
  existsb (λ g, (g == "agent:configure-public") ||
                ((g == "internal") && (ai_ID credential == "*") &&
                 (scope_ResourceClass cs == agentResourceShared))) (ai_Groups credential).

Definition resolveScopedAgentBase (now : time) (credential : AgentIdentity) (rq : agentRequest)
    (requested : string) (st : agentState)
    : result response (AgentIdentity * option TeamAgentEnrollment) * agentState :=
  match resolveManagedTeam now credential rq requested st with
  | (Err r, st) => (Err r, st)
  | (Ok (Some (ident, e)), st) => (Ok (ident, Some e), st)
  | (Ok None, st) =>
    match resolveAgentIdentity credential rq requested st with
    | (Err r, st) => (Err r, st)
    | (Ok ident, st) =>
      let class := TrimSpace (rq_Class rq) in
      let teamID := TrimSpace (rq_Team rq) in
      if (class == "") && (teamID == "") then (Ok (ident, None), st) else
      if negb (known_class class) && (class != agentResourceTeam)
      then (Err (400, "agent_scope_invalid"), st) else
      if ((class != agentResourceTeam) && (teamID != "")) ||
         ((class == agentResourceTeam) && (teamID == ""))
      then (Err (400, "agent_scope_invalid"), st) else
      let '(scope, valid) := agentResourceScope (ai_Groups ident) in
      if negb valid then (Err (403, "agent_scope_invalid"), st) else
      let '(credentialScope, valid) := agentResourceScope (ai_Groups credential) in
      if negb valid then (Err (403, "agent_scope_invalid"), st) else
      let managePublic := public_manager credential credentialScope &&
        ((ai_ID credential == "*") || (ai_ID credential == ai_ID ident)) in
      if managePublic && (scope_ResourceClass credentialScope != agentResourceTeam) &&
         (scope_ResourceClass scope != agentResourceTeam) && (class != agentResourceTeam) then
        (Ok (ident <| ai_Groups :=
           List.filter (λ g, negb (HasPrefix (TrimSpace g) agentResourceGroupPrefix)) (ai_Groups ident)
             ++ [(agentResourceGroupPrefix +:+ class)%string] |>, None), st) else
      if (scope_ResourceClass scope != class) || (scope_TeamID scope != teamID) ||
         (negb managePublic && (scope != credentialScope))
      then (Err (403, "agent_scope_mismatch"), st) else (Ok (ident, None), st)
    end
  end.

(** The optional Free audience, for public-pool managers or the same team. *)
Definition resolveScopedAgentLegacy (now : time) (credential : AgentIdentity) (rq : agentRequest)
    (requested : string) (st : agentState)
    : result response (AgentIdentity * option TeamAgentEnrollment) * agentState :=
  match resolveScopedAgentBase now credential rq requested st with
  | (Err r, st) => (Err r, st)
  | (Ok (ident, e), st) =>
    let raw := rq_AllowFree rq in
    if (raw != "") && (raw != "true") && (raw != "false")
    then (Err (400, "agent_scope_invalid"), st) else
    let groups := List.filter (λ g, g != custom_allow_free) (ai_Groups ident) in
    let ident := ident <| ai_Groups := groups |> in
    if raw != "true" then (Ok (ident, e), st) else
    let '(scope, valid) := agentResourceScope groups in
    let '(cs, cv) := agentResourceScope (ai_Groups credential) in
    let manager := public_manager credential cs in
    let teamManager := valid && cv && (scope_ResourceClass scope == "team") &&
      (scope_ResourceClass cs == "team") && (scope_TeamID scope == scope_TeamID cs) &&
      (ai_ID credential == ai_ID ident) in
    let publicManager := valid && cv && (scope_ResourceClass scope != "team") &&
      (scope_ResourceClass cs != "team") && manager &&
      ((ai_ID credential == "*") || (ai_ID credential == ai_ID ident)) in
    if negb valid || negb cv || (negb teamManager && negb publicManager)
    then (Err (403, "agent_scope_mismatch"), st) else
    (Ok (ident <| ai_Groups := groups ++ [custom_allow_free] |>, e), st)
  end.

(** ** Credentials bound to a node *)

Definition resolveNodeBoundAgent (now : time) (credential : AgentIdentity) (rq : agentRequest)
    (requested : string) (st : agentState)
    : result response (AgentIdentity * option TeamAgentEnrollment * agentRequest) * agentState :=
  if existsb (λ id, (id != "") && (TrimSpace id != ai_ID credential))
       [requested; rq_AgentID rq; rq_QueryAgent rq]
  then (Err (403, "agent_scope_mismatch"), st) else
  let '(scope, valid) := agentResourceScope (ai_Groups credential) in
  if negb valid then (Err (403, "agent_scope_invalid"), st) else
  if (rq_Class rq != "") && (rq_Class rq != scope_ResourceClass scope)
  then (Err (403, "agent_scope_mismatch"), st) else
  if (rq_Team rq != "") && (rq_Team rq != scope_TeamID scope)
  then (Err (403, "agent_scope_mismatch"), st) else
  let raw := rq_AllowFree rq in
  if (raw != "") && (raw != "true") && (raw != "false")
  then (Err (400, "agent_scope_invalid"), st) else
  if (raw == "true") && negb (scope_CustomAllowFree scope)
  then (Err (403, "agent_scope_mismatch"), st) else
  if (scope_ResourceClass scope == agentResourceCustom) &&
     (length (ai_AllowedEmails credential) =? 0)%nat
  then (Err (403, "agent_scope_invalid"), st) else
  let rq := if scope_ResourceClass scope == agentResourceCustom
    then rq <| rq_AllowedEmails := RawJSON (JArr (JStr <$> ai_AllowedEmails credential)) |>
    else rq in
  if scope_ResourceClass scope == agentResourceTeam then
    match resolveScopedAgentBase now credential rq requested st with
    | (Err r, st) => (Err r, st)
    | (Ok (ident, e), st) =>
        (Ok (ident <| ai_NodeID := ai_NodeID credential |>, e, rq), st)
    end
  else (Ok (credential, None, rq), st).

(** ** The entry point *)

Definition is_policy_group (g : string) : bool :=
  HasPrefix g unionEmailPrefix || HasPrefix g emailPolicyPrefix.

Definition resolveScopedAgent (now : time) (credential : AgentIdentity) (rq : agentRequest)
    (requested : string) (st : agentState)
    : result response (AgentIdentity * option TeamAgentEnrollment * agentRequest) * agentState :=
  if ai_NodeID credential != "" then resolveNodeBoundAgent now credential rq requested st else
  match resolveScopedAgentLegacy now credential rq requested st with
  | (Err r, st) => (Err r, st)
  | (Ok (ident, enrolled), st) =>
    let raw := rq_AllowedEmails rq in
    let policy := rq_EmailPolicy rq in
    if match enrolled with Some e => tae_Status e != "approved" | None => false end then
      if negb (raw_absent raw) || (policy != "")
      then (Err (400, "agent_email_policy_invalid"), st)
      else (Ok (ident, enrolled, rq), st)
    else
    let '(scope, valid) := agentResourceScope (ai_Groups ident) in
    if negb valid then (Err (403, "agent_scope_invalid"), st) else
    if scope_ResourceClass scope == agentResourceCustom then (Ok (ident, enrolled, rq), st) else
    if scope_ResourceClass scope == agentResourceTeam then
      if negb (raw_absent raw) || (policy != "")
      then (Err (400, "agent_email_policy_invalid"), st)
      else (Ok (ident, enrolled, rq), st)
    else
    let ident := ident <| ai_Groups :=
      List.filter (λ g, negb (is_policy_group g)) (ai_Groups ident) |> in
    if (policy == "") && raw_absent raw then (Ok (ident, enrolled, rq), st) else
    if negb (PublicResourceClass (scope_ResourceClass scope)) || (policy != PublicEmailUnionPolicy)
    then (Err (400, "agent_email_policy_invalid"), st) else
    match unmarshal_strings raw with
    | None => (Err (400, "agent_email_policy_invalid"), st)
    | Some emails =>
      let '(cs, cv) := agentResourceScope (ai_Groups credential) in
      let manager := existsb (λ g, (g == "agent:configure-public") ||
        ((g == "internal") && (ai_ID credential == "*") && cv &&
         (scope_ResourceClass cs == agentResourceShared))) (ai_Groups credential) in
      if negb manager || ((ai_ID credential != "*") && (ai_ID credential != ai_ID ident))
      then (Err (403, "agent_scope_mismatch"), st) else
      match NormalizeNodeEmails emails with
      | Err _ => (Err (400, "agent_email_policy_invalid"), st)
      | Ok emails =>
          (Ok (ident <| ai_Groups := ai_Groups ident ++
                 ((λ email, (unionEmailPrefix +:+ email)%string) <$> emails) ++
                 [(emailPolicyPrefix +:+ PublicEmailUnionPolicy)%string] |>, enrolled, rq), st)
      end
    end
  end.
End resolve.
