(* ===== verification/AgentAuthProps.v ===== *)
(** * Properties of agent identities

    A registry only authenticates the tokens of its configuration; and whatever
    a request asks for, the scope an agent obtains is the one its credential
    was enrolled with, or the team an administrator approved it for. *)

From S2P Require Import Prelude GoLib Json StoreData Users Quota Network Sha256 Access Registry AgentAuth.
From Stdlib Require Import Ascii.
Open Scope Z_scope.
Open Scope bool_scope.
Open Scope go_scope.

(** ** The network scope only depends on the reserved groups *)












(** ** The resource scope agrees with the network scope *)

Section scopes.
Context `{MailParser}.










End scopes.




(** ** The registry *)

Definition registry_ok (r : Registry) : Prop :=
  ∀ k a, reg_byID r !! k = Some a → ai_ID a = k.

Inductive reg_step `{MapOrder} (r : Registry) : Registry → Prop :=
| reg_report now agent report : reg_step r (ReportStatus now agent report r)
| reg_register id groups : reg_step r (RegisterAgent id groups r).2
| reg_groups id groups : reg_step r (SetAgentGroups id groups r)
| reg_load s : reg_step r (Load s r)
| reg_sandbox id b : reg_step r (SetSandboxAgent id b r)
| reg_clear : reg_step r (ClearSandboxAgents r)
| reg_attach b : reg_step r (SetStore b r).

Definition reg_reachable `{MapOrder} `{MailParser} (creds : list Credential) (r : Registry) : Prop :=
  ∃ r0, NewRegistry creds = Ok r0 ∧ rtc reg_step r0 r.

Lemma registry_ok_ext r r' : reg_byID r' = reg_byID r → registry_ok r → registry_ok r'.
Proof. intros E Hr k a. rewrite E. apply Hr. Qed.

Lemma registry_ok_insert a r r' :
  reg_byID r' = <[ai_ID a := a]> (reg_byID r) → registry_ok r → registry_ok r'.
Proof. intros E Hr k b. rewrite E. intros [[<- <-]|[_ ?]]%lookup_insert_Some; eauto. Qed.

Lemma queue_persist_fields job r :
  reg_byID (queue_persist job r) = reg_byID r ∧
  reg_credentials (queue_persist job r) = reg_credentials r.
Proof. unfold queue_persist. destruct (reg_store r); by getset. Qed.

Lemma RegisterAgent_spec id groups r :
  registry_ok r →
  let '(a, r') := RegisterAgent id groups r in
  registry_ok r' ∧ reg_credentials r' = reg_credentials r ∧ ai_ID a = id ∧
  (reg_byID r !! id = Some a ∨ reg_byID r !! id = None ∧ a = mkAgentIdentity "" [] id id groups) ∧
  reg_byID r' !! id = Some a.
Proof.
  intros Hr. unfold RegisterAgent. destruct (reg_byID r !! id) as [a|] eqn:E.
  { split_and!; eauto. }
  cbv zeta. set (r1 := r <| reg_byID := _ |>).
  destruct (queue_persist_fields (PersistNew id groups) r1) as [Eb Ec].
  split_and!; [| |done|by right|].
  - eapply (registry_ok_insert (mkAgentIdentity "" [] id id groups) r); [|done].
    rewrite Eb. unfold r1. by getset.
  - rewrite Ec. unfold r1. by getset.
  - rewrite Eb. unfold r1. getset. by rewrite lookup_insert_eq.
Qed.

Lemma SetAgentGroups_spec id groups r :
  registry_ok r →
  registry_ok (SetAgentGroups id groups r) ∧
  reg_credentials (SetAgentGroups id groups r) = reg_credentials r.
Proof.
  intros Hr. unfold SetAgentGroups. destruct (reg_byID r !! id) as [a|] eqn:E; [|done].
  cbv zeta. getset.
  assert (registry_ok (r <| reg_byID := <[id := a <| ai_Groups := groups |>]> (reg_byID r) |>)) as Hok.
  { intros k b. getset. intros [[<- <-]|[_ ?]]%lookup_insert_Some; [|eauto].
    getset. by apply Hr. }
  destruct (reg_statuses r !! id); (split; [|by getset]); [|done].
  eapply registry_ok_ext; [|exact Hok]. by getset.
Qed.

Lemma load_agent_spec r a :
  registry_ok r → registry_ok (load_agent r a) ∧ reg_credentials (load_agent r a) = reg_credentials r.
Proof.
  intros Hr. unfold load_agent. destruct (reg_byID r !! agent_ID a); [done|]. cbv zeta.
  destruct (agent_LastHeartbeat a); (split; [|by getset]);
    (eapply (registry_ok_insert (mkAgentIdentity "" [] (agent_ID a) (agent_Name a) (agent_Groups a)) r);
     [by getset|done]).
Qed.

Lemma reg_step_ok `{MapOrder} r r' :
  reg_step r r' → registry_ok r → registry_ok r' ∧ reg_credentials r' = reg_credentials r.
Proof.
  intros [now a rep|id gs|id gs|s|id b| |b] Hr.
  - unfold ReportStatus. set (r1 := r <| reg_byID := _ |> <| reg_statuses := _ |>).
    destruct (queue_persist_fields (PersistStatus a rep) r1) as [Eb Ec]. split.
    + eapply (registry_ok_insert a r); [|done]. rewrite Eb. unfold r1. by getset.
    + rewrite Ec. unfold r1. by getset.
  - pose proof (RegisterAgent_spec id gs r Hr) as R.
    destruct (RegisterAgent id gs r) as [a r1]. by destruct R as (? & ? & _).
  - by apply SetAgentGroups_spec.
  - unfold Load. destruct (reg_store r); [|done]. revert r Hr.
    induction (ListAgents s) as [|a l IH]; intros r Hr; [done|]. cbn [foldl].
    destruct (load_agent_spec r a Hr) as [H1 <-]. by apply IH.
  - split; [eapply registry_ok_ext; [|exact Hr]|]; unfold SetSandboxAgent; by getset.
  - split; [eapply registry_ok_ext; [|exact Hr]|]; unfold ClearSandboxAgents; by getset.
  - split; [eapply registry_ok_ext; [|exact Hr]|]; unfold SetStore; by getset.
Qed.


(** ** Authentication *)

Definition cred_digest (c : Credential) : string := sha256_hex (TrimSpace (cred_Token c)).

Definition identity_of (c : Credential) : AgentIdentity :=
  mkAgentIdentity (TrimSpace (cred_NodeID c)) (cred_AllowedEmails c) (TrimSpace (cred_ID c))
    (TrimSpace (cred_Name c)) (normalizeStrings (cred_Groups c)).

Definition bound_nodes (l : list Credential) : list string :=
  List.filter (λ n, n != "") ((λ c, TrimSpace (cred_NodeID c)) <$> l).

Section configured.
Context `{MailParser}.

(** The registry built from the credentials read so far. *)
Record built (l : list Credential) (r : Registry) (nodes : list string) : Prop := {
  built_creds : ∀ d i, reg_credentials r !! d = Some i ↔
    ∃ c, c ∈ l ∧ cred_digest c = d ∧ identity_of c = i;
  built_ids : ∀ k i, reg_byID r !! k = Some i ↔
    ∃ c, c ∈ l ∧ TrimSpace (cred_ID c) = k ∧ identity_of c = i;
  built_tokens : ∀ c, c ∈ l → TrimSpace (cred_Token c) ≠ "" ∧ TrimSpace (cred_ID c) ≠ "";
  built_ids_nodup : NoDup ((λ c, TrimSpace (cred_ID c)) <$> l);
  built_nodes : nodes ≡ₚ bound_nodes l;
  built_nodes_nodup : NoDup (bound_nodes l)
}.

Lemma map_snoc_iff {A} (m : gmap string A) (l : list Credential) (key : Credential → string)
    (val : Credential → A) c :
  (∀ d i, m !! d = Some i ↔ ∃ c', c' ∈ l ∧ key c' = d ∧ val c' = i) →
  m !! key c = None →
  ∀ d i, <[key c := val c]> m !! d = Some i ↔
    ∃ c', c' ∈ l ++ [c] ∧ key c' = d ∧ val c' = i.
Proof.
  intros Hm Hc d i. rewrite lookup_insert_Some, Hm. split.
  - intros [[<- <-]|[Hne (c' & ? & ? & ?)]]; [exists c|exists c']; rewrite elem_of_app.
    + split; [right; by left|done].
    + by split; [left|].
  - intros (c' & Hin & <- & <-). apply elem_of_app in Hin as [Hin|Hin%list_elem_of_singleton].
    + right. split; [|by exists c']. intros E.
      assert (m !! key c = Some (val c')) by (apply Hm; by exists c'). congruence.
    + subst. by left.
Qed.

Lemma add_credential_built c l r nodes r' nodes' :
  built l r nodes → add_credential c (r, nodes) = Ok (r', nodes') → built (l ++ [c]) r' nodes'.
Proof.
  intros [H1 H2 H3 H4 H5 H6]. unfold add_credential. cbv zeta.
  destruct (bool_decide (TrimSpace (cred_ID c) = "")) eqn:Ei; [done|].
  destruct (bool_decide (TrimSpace (cred_Token c) = "")) eqn:Et; [done|]. bools.
  destruct (reg_byID r !! TrimSpace (cred_ID c)) eqn:Eb; [done|].
  match goal with |- context [match ?x with Ok _ => _ | Err e => Err e end] =>
    destruct x as [nodes1|] eqn:En; [|done] end.
  destruct (_ && _); [done|].
  destruct (reg_credentials r !! sha256_hex (TrimSpace (cred_Token c))) eqn:Ec; [done|].
  intros [= <- <-].
  assert (nodes1 ≡ₚ bound_nodes (l ++ [c]) ∧ NoDup (bound_nodes (l ++ [c]))) as [Hn1 Hn2].
  { unfold bound_nodes. rewrite fmap_app, List.filter_app. fold (bound_nodes l).
    cbn [fmap list_fmap List.filter]. cbn [app].
    destruct (bool_decide (TrimSpace (cred_NodeID c) = "")) eqn:En'; cbn [negb] in *.
    - injection En as <-. by rewrite app_nil_r.
    - unfold check_node in En. destruct (_ || _) eqn:Eo in En; [done|].
      apply orb_false_iff in Eo as [_ Eo].
      assert (nodes1 = TrimSpace (cred_NodeID c) :: nodes) as ->.
      { cbv zeta in En. destruct (node_scope _ _); [|done].
        repeat (destruct (_ : bool) eqn:? in En; [done|]).
        destruct (forallb _ _); [by injection En|done]. }
      assert (TrimSpace (cred_NodeID c) ∉ bound_nodes l) as Hfresh.
      { rewrite <-H5. intros Hin. apply contains_spec in Hin. congruence. }
      split.
      + rewrite H5. by rewrite <-Permutation_cons_append.
      + rewrite <-Permutation_cons_append. by constructor. }
  split; [..|done|done].
  - getset. by apply (map_snoc_iff _ _ cred_digest identity_of).
  - getset. by apply (map_snoc_iff _ _ (λ c, TrimSpace (cred_ID c)) identity_of).
  - intros c' [?|Hc%list_elem_of_singleton]%elem_of_app; [auto|]. by subst.
  - rewrite fmap_app. apply NoDup_app. split; [done|]. split; [|apply NoDup_singleton].
    intros k Hk [-> |Hn]%elem_of_cons; [|by apply not_elem_of_nil in Hn].
    apply list_elem_of_fmap in Hk as (c' & E & Hin).
    assert (reg_byID r !! TrimSpace (cred_ID c) = Some (identity_of c')) by (apply H2; eauto).
    congruence.
Qed.

Lemma add_credentials_built creds l r nodes r' nodes' :
  built l r nodes → add_credentials creds (r, nodes) = Ok (r', nodes') →
  built (l ++ creds) r' nodes'.
Proof.
  revert l r nodes. induction creds as [|c creds IH]; intros l r nodes Hb; cbn [add_credentials].
  - intros [= <- <-]. by rewrite app_nil_r.
  - destruct (add_credential c (r, nodes)) as [[r1 nodes1]|] eqn:E; [|done].
    intros HA. replace (l ++ c :: creds) with ((l ++ [c]) ++ creds) by (by rewrite <-app_assoc).
    eapply IH; [|done]. by eapply add_credential_built.
Qed.

Lemma NewRegistry_built creds r : NewRegistry creds = Ok r → ∃ nodes, built creds r nodes.
Proof.
  unfold NewRegistry. destruct (add_credentials creds _) as [[r' nodes]|] eqn:E; [|done].
  intros [= <-]. exists nodes. apply (add_credentials_built creds [] empty_registry [] r' nodes); [|done].
  split; cbn; try (intros; rewrite lookup_empty; set_solver); try set_solver; try constructor.
Qed.

Lemma registry_ok_new creds r : NewRegistry creds = Ok r → registry_ok r.
Proof.
  intros [nodes Hb]%NewRegistry_built k a E.
  apply (built_ids _ _ _ Hb) in E as (c & _ & <- & <-). done.
Qed.

Lemma reg_reachable_ok `{MapOrder} creds r :
  reg_reachable creds r →
  registry_ok r ∧ ∃ r0, NewRegistry creds = Ok r0 ∧ reg_credentials r = reg_credentials r0.
Proof.
  intros (r0 & E & Hsteps). pose proof (registry_ok_new creds r0 E) as Hr.
  assert (registry_ok r ∧ reg_credentials r = reg_credentials r0) as [? ?]; [|eauto].
  clear E. induction Hsteps as [r0|r0 r1 r2 Hstep _ IH]; [done|].
  destruct (reg_step_ok _ _ Hstep Hr) as [Hr1 <-]. auto.
Qed.

(** C37: Whatever is registered, reported or loaded later, the registry
    authenticates exactly the tokens of its configuration: every configured
    token yields the identity it was enrolled with, an accepted token has the
    digest of a configured one, no two credentials share an agent id and no
    two bound credentials share a node. *)
Theorem registry_authenticates `{MapOrder} creds r :
  reg_reachable creds r →
  (∀ c, c ∈ creds → Authenticate (cred_Token c) r = Some (identity_of c)) ∧
  (∀ token ident, Authenticate token r = Some ident →
     ∃ c, c ∈ creds ∧ sha256_hex (TrimSpace token) = cred_digest c ∧ ident = identity_of c) ∧
  NoDup ((λ c, TrimSpace (cred_ID c)) <$> creds) ∧ NoDup (bound_nodes creds).
Proof.
  intros (_ & r0 & [nodes Hb]%NewRegistry_built & Ec)%reg_reachable_ok.
  destruct Hb as [H1 _ H3 H4 _ H6]. unfold Authenticate. rewrite Ec. split_and!; [..|done|done].
  - intros c Hc. cbv zeta. rewrite bool_decide_eq_false_2 by (by apply H3). apply H1. eauto.
  - intros token ident. cbv zeta. destruct (bool_decide _); [done|].
    intros (c & ? & ? & ?)%H1. eauto.
Qed.
End configured.

(** ** Confinement *)

Section confinement.
Context `{MapOrder} `{MailParser}.

Abbreviation scope_of a := (agentNetworkScope (ai_Groups a)) (only parsing).


















(** *** Where the groups of an agent come from *)























End confinement.
