(* ===== verification/RateLimit.v ===== *)
(** * The rate limiter

    [internal/auth/ratelimit.go]: a fixed-window counter per key, with an
    opportunistic sweep of expired windows.

    Over any history, a key is allowed at most twice the limit in any interval
    as long as the window, and it is refused only after the limit was used up
    within the last window. *)

From S2P Require Import Prelude GoLib.
Open Scope Z_scope.
Open Scope bool_scope.
Open Scope go_scope.

(** [rateWindow] *)
Record rateWindow := mkRateWindow { rw_count : Z; rw_endAt : time }.
#[export] Instance eta_rateWindow : Eta rateWindow := λ x, mkRateWindow (rw_count x) (rw_endAt x).

(** [RateLimiter] *)
Record RateLimiter := mkRateLimiter {
  rl_limit : Z;
  rl_window : duration;
  rl_hits : gmap string rateWindow
}.
#[export] Instance eta_RateLimiter : Eta RateLimiter := λ x, mkRateLimiter (rl_limit x)
   (rl_window x) (rl_hits x).

Definition NewRateLimiter (limit : Z) (window : duration) : RateLimiter :=
  mkRateLimiter limit window ∅.

(** The sweep stops after 512 deletions. *)
Fixpoint sweep_from (now : time) (entries : list (string * rateWindow)) (swept : Z)
    (hits : gmap string rateWindow) : gmap string rateWindow :=
  match entries with
  | [] => hits
  | (k, w) :: rest =>
      if After now (rw_endAt w) then
        let hits := delete k hits in
        let swept := swept + 1 in
        if 512 <=? swept then hits else sweep_from now rest swept hits
      else sweep_from now rest swept hits
  end.

Section limiter.
Context `{MapOrder}.

Definition sweep (now : time) (hits : gmap string rateWindow) : gmap string rateWindow :=
  if 4096 <? Z.of_nat (size hits) then sweep_from now (range hits) 0 hits else hits.

Definition Allow (now : time) (key : string) (r : RateLimiter) : bool * RateLimiter :=
  if (rl_limit r <=? 0) || (rl_window r <=? 0) || (key == "") then (true, r) else
  let hits := sweep now (rl_hits r) in
  let fresh := (true, r <| rl_hits := <[key := mkRateWindow 1 (Add now (rl_window r))]> hits |>) in
  match hits !! key with
  | None => fresh
  | Some w =>
      if After now (rw_endAt w) then fresh else
      if rl_limit r <=? rw_count w then (false, r <| rl_hits := hits |>) else
      (true, r <| rl_hits := <[key := w <| rw_count := rw_count w + 1 |>]> hits |>)
  end.

(** ** The sweep only drops expired windows *)

Lemma sweep_from_lookup now entries swept hits k :
  (∀ k w, (k, w) ∈ entries → hits !! k = Some w) → NoDup entries.*1 →
  sweep_from now entries swept hits !! k = hits !! k ∨
  sweep_from now entries swept hits !! k = None ∧
    ∃ w, hits !! k = Some w ∧ rw_endAt w < now.
Proof.
  revert swept hits. induction entries as [|[k' w] entries IH]; intros swept hits Hin Hnd; [by left|].
  cbn [sweep_from]. apply NoDup_cons in Hnd as [Hk' Hnd]. unfold After.
  destruct (rw_endAt w <? now) eqn:E.
  2:{ apply IH; [|done]. intros. apply Hin. by right. }
  apply Z.ltb_lt in E. cbv zeta.
  assert (hits !! k' = Some w) as Hw by (apply Hin; by left).
  assert (delete k' hits !! k = hits !! k ∨ delete k' hits !! k = None ∧
    ∃ w, hits !! k = Some w ∧ rw_endAt w < now) as Hdel.
  { destruct (decide (k = k')) as [->|]; [right|left; by apply lookup_delete_ne].
    rewrite lookup_delete_eq. eauto. }
  destruct (512 <=? swept + 1); [done|].
  destruct (IH (swept + 1) (delete k' hits)) as [->|[-> (w' & Hw' & ?)]]; try done.
  - intros k2 w2 H2. rewrite lookup_delete_ne; [apply Hin; by right|].
    intros ->. apply Hk'. apply list_elem_of_fmap. by exists (k2, w2).
  - right. split; [done|]. destruct Hdel as [Ed|[Ed _]]; rewrite Ed in Hw'; [eauto|done].
Qed.

Lemma sweep_lookup now hits k :
  sweep now hits !! k = hits !! k ∨
  sweep now hits !! k = None ∧ ∃ w, hits !! k = Some w ∧ rw_endAt w < now.
Proof.
  unfold sweep. destruct (4096 <? _); [|by left]. apply sweep_from_lookup.
  - intros k' w. apply elem_of_range.
  - apply range_keys_nodup.
Qed.

(** ** Histories

    A history is the list of calls with their answers; the clock does not go
    back.  [allowed_at key h] are the instants at which the key was allowed. *)

Record call := mkCall { call_at : time; call_key : string; call_ok : bool }.

Inductive history (limit : Z) (window : duration) : list call → time → RateLimiter → Prop :=
| history_start t0 : history limit window [] t0 (NewRateLimiter limit window)
| history_call h t r now key :
    history limit window h t r → t ≤ now →
    history limit window (h ++ [mkCall now key (Allow now key r).1]) now (Allow now key r).2.

Definition allowed_at (key : string) (h : list call) : list time :=
  call_at <$> List.filter (λ c, (call_key c == key) && call_ok c) h.

(** How many of the instants lie in [[a, b]]. *)
Definition within (a b : time) (l : list time) : Z :=
  Z.of_nat (length (List.filter (λ t, (a <=? t) && (t <=? b)) l)).

Lemma within_app a b l1 l2 : within a b (l1 ++ l2) = within a b l1 + within a b l2.
Proof. unfold within. rewrite List.filter_app, length_app. lia. Qed.

Lemma within_le_length a b l : within a b l ≤ Z.of_nat (length l).
Proof. unfold within. pose proof (List.filter_length_le (λ t, (a <=? t) && (t <=? b)) l). lia. Qed.

Lemma within_none a b l : (∀ t, t ∈ l → t < a) → within a b l = 0.
Proof.
  intros Hl. unfold within. induction l as [|t l IH]; [done|]. cbn [List.filter].
  assert (t < a) by (apply Hl; by left).
  replace (a <=? t) with false by (symmetry; apply Z.leb_gt; lia). cbn [andb].
  apply IH. intros; apply Hl; by right.
Qed.

Lemma within_after a b l : (∀ t, t ∈ l → b < t) → within a b l = 0.
Proof.
  intros Hl. unfold within. induction l as [|t l IH]; [done|]. cbn [List.filter].
  assert (b < t) by (apply Hl; by left).
  replace (t <=? b) with false by (symmetry; apply Z.leb_gt; lia). rewrite andb_false_r.
  apply IH. intros; apply Hl; by right.
Qed.

Lemma within_all a b l : (∀ t, t ∈ l → a ≤ t ≤ b) → within a b l = Z.of_nat (length l).
Proof.
  intros Hl. unfold within. induction l as [|t l IH]; [done|]. cbn [List.filter].
  assert (a ≤ t ≤ b) by (apply Hl; by left).
  replace (a <=? t) with true by (symmetry; apply Z.leb_le; lia).
  replace (t <=? b) with true by (symmetry; apply Z.leb_le; lia). cbn [andb length].
  rewrite !Nat2Z.inj_succ, IH; [done|]. intros; apply Hl; by right.
Qed.

(** The windows of a key: [cur] is the last one, started at [start]. *)
Record windows (limit : Z) (window : duration) (old cur : list time) (start : time) : Prop := {
  win_size : Z.of_nat (length cur) ≤ limit;
  win_cur : ∀ t, t ∈ cur → start ≤ t ≤ start + window;
  win_old : ∀ t, t ∈ old → t < start;
  win_recent : ∀ a, start ≤ a + window → within a (a + window) old ≤ limit;
  win_past : ∀ a, within a (a + window) old ≤ 2 * limit
}.

Lemma windows_next limit window old cur start now :
  0 ≤ limit → 0 ≤ window → windows limit window old cur start → start + window < now → 1 ≤ limit →
  windows limit window (old ++ cur) [now] now.
Proof.
  intros Hl Hw [H1 H2 H3 H4 H5] Hnow Hl1.
  assert (∀ a, within a (a + window) (old ++ cur) ≤ 2 * limit) as Hpast.
  { intros a. rewrite within_app. pose proof (within_le_length a (a + window) cur).
    destruct (decide (start ≤ a + window)) as [Ha|Ha].
    - specialize (H4 a Ha). lia.
    - specialize (H5 a). replace (within a (a + window) cur) with 0; [lia|].
      symmetry. apply within_after. intros t Ht%H2. lia. }
  split.
  - cbn. lia.
  - intros t ->%list_elem_of_singleton. lia.
  - intros t [Ht|Ht]%elem_of_app; [apply H3 in Ht|apply H2 in Ht]; lia.
  - intros a Ha. rewrite within_app, (within_none _ _ old).
    + pose proof (within_le_length a (a + window) cur). lia.
    + intros t Ht%H3. lia.
  - done.
Qed.

Lemma windows_more limit window old cur start now :
  windows limit window old cur start → Z.of_nat (length cur) < limit →
  start ≤ now ≤ start + window → windows limit window old (cur ++ [now]) start.
Proof.
  intros [H1 H2 H3 H4 H5] Hlt Hnow. split; try done.
  - rewrite length_app. cbn. lia.
  - intros t [?|Ht%list_elem_of_singleton]%elem_of_app; [auto|by subst].
Qed.

(** The state of a key after a history: never allowed, or in its last window,
    whose entry may have been swept once it expired. *)
Definition key_state (limit : Z) (window : duration) (key : string) (h : list call) (t : time)
    (hits : gmap string rateWindow) : Prop :=
  (allowed_at key h = [] ∧ hits !! key = None) ∨
  ∃ old cur start, allowed_at key h = old ++ cur ∧ windows limit window old cur start ∧
    start ≤ t ∧
    (hits !! key = Some (mkRateWindow (Z.of_nat (length cur)) (start + window)) ∨
     hits !! key = None ∧ start + window < t).

Lemma allowed_at_snoc key h c :
  allowed_at key (h ++ [c]) =
  allowed_at key h ++ (if (call_key c == key) && call_ok c then [call_at c] else []).
Proof.
  unfold allowed_at. rewrite List.filter_app, fmap_app. f_equal. cbn [List.filter].
  by destruct (_ && _).
Qed.

Lemma key_state_sweep limit window key h t now hits :
  t ≤ now → key_state limit window key h t hits →
  key_state limit window key h now (sweep now hits).
Proof.
  intros Hnow Hs. destruct (sweep_lookup now hits key) as [E|[E (w & Ew & Hw)]]; unfold key_state.
  - rewrite E. destruct Hs as [?|(old & cur & start & ? & ? & ? & [?|[? ?]])]; [by left|right..];
      exists old, cur, start; (split_and!; [done|done|lia|]); [by left|right; split; [done|lia]].
  - rewrite E. destruct Hs as [[? ?]|(old & cur & start & ? & ? & ? & [Eh|[Eh ?]])];
      [congruence|right|congruence].
    exists old, cur, start. split_and!; [done|done|lia|]. right. split; [done|].
    rewrite Eh in Ew. injection Ew as <-. exact Hw.
Qed.

(** A call for another key leaves the state of this one alone. *)
Lemma key_state_other limit window key h now hits key' b w :
  key' ≠ key → key_state limit window key h now hits →
  key_state limit window key (h ++ [mkCall now key' b]) now (<[key' := w]> hits).
Proof.
  intros Hne. unfold key_state. rewrite allowed_at_snoc. cbn [call_key call_ok].
  rewrite bool_decide_eq_false_2 by done. cbn [andb]. rewrite app_nil_r.
  by rewrite lookup_insert_ne.
Qed.

Lemma history_fixed limit window h t r :
  history limit window h t r → rl_limit r = limit ∧ rl_window r = window.
Proof.
  induction 1 as [|h t r now key _ [IH1 IH2] _]; [done|]. unfold Allow. cbv zeta.
  destruct (_ || _); [done|]. destruct (_ !! _); [|by getset].
  destruct (After _ _); [by getset|]. destruct (_ <=? _); by getset.
Qed.

Lemma history_times limit window h t r key x :
  history limit window h t r → x ∈ allowed_at key h → x ≤ t.
Proof.
  induction 1 as [|h t r now key' _ IH Hnow]; [by intros ?%not_elem_of_nil|].
  rewrite allowed_at_snoc, elem_of_app. intros [Hx|Hx]; [apply IH in Hx; lia|].
  destruct (_ && _); [|by apply not_elem_of_nil in Hx].
  apply list_elem_of_singleton in Hx as ->. cbn [call_at]. lia.
Qed.

Lemma history_key_state limit window key h t r :
  0 < limit → 0 < window → key ≠ "" →
  history limit window h t r → key_state limit window key h t (rl_hits r).
Proof.
  intros Hl Hw Hk Hh. induction Hh as [t0|h t r now key' Hh IH Hnow]; [by left|].
  destruct (history_fixed _ _ _ _ _ Hh) as [El Ewin].
  assert (key_state limit window key h now (rl_hits r)) as IHn.
  { destruct IH as [?|(old & cur & start & ? & ? & ? & [?|[? ?]])]; [by left|right..];
      exists old, cur, start; (split_and!; [done|done|lia|]); [by left|right; split; [done|lia]]. }
  pose proof (key_state_sweep _ _ _ _ _ now _ Hnow IH) as IHs. clear IH.
  unfold Allow. rewrite El, Ewin. replace (limit <=? 0) with false by (symmetry; apply Z.leb_gt; lia).
  replace (window <=? 0) with false by (symmetry; apply Z.leb_gt; lia). cbn [orb].
  destruct (bool_decide (key' = "")) eqn:Ek; bools.
  { cbn [fst snd]. subst key'. unfold key_state. rewrite allowed_at_snoc. cbn [call_key].
    rewrite (bool_decide_eq_false_2 ("" = key)) by done. cbn [andb]. by rewrite app_nil_r. }
  cbv zeta. set (hits := sweep now (rl_hits r)) in *. clearbody hits.
  destruct (decide (key' = key)) as [->|Hne].
  - assert (∀ old cur start, allowed_at key h = old ++ cur → windows limit window old cur start →
      start + window < now → key_state limit window key (h ++ [mkCall now key true]) now
        (<[key:=mkRateWindow 1 (Add now window)]> hits)) as Hfresh.
    { intros old cur start Ea Hwin Hlt. right. exists (old ++ cur), [now], now.
      rewrite allowed_at_snoc, Ea. cbn [call_key call_ok call_at].
      rewrite bool_decide_eq_true_2 by done. cbn [andb]. split_and!; [done| |lia|].
      - eapply windows_next; eauto; lia.
      - left. by rewrite lookup_insert_eq. }
    destruct IHs as [[Ea Eh]|(old & cur & start & Ea & Hwin & Hst & [Eh|[Eh Hlt]])]; rewrite Eh.
    + cbn [fst snd]. getset. right. exists [], [now], now. rewrite allowed_at_snoc, Ea.
      cbn [call_key call_ok call_at]. rewrite bool_decide_eq_true_2 by done. cbn [andb app].
      split_and!; [done| |lia|left; by rewrite lookup_insert_eq].
      split; [cbn; lia| | |intros a _; unfold within; cbn; lia|intros a; unfold within; cbn; lia].
      * intros t' ->%list_elem_of_singleton. lia.
      * by intros t' ?%not_elem_of_nil.
    + cbn [rw_endAt rw_count]. unfold After. destruct (start + window <? now) eqn:Elt.
      * apply Z.ltb_lt in Elt. cbn [fst snd]. getset. by eapply Hfresh.
      * apply Z.ltb_ge in Elt. destruct (limit <=? _) eqn:Ec; cbn [fst snd]; getset.
        -- right. exists old, cur, start. rewrite allowed_at_snoc. cbn [call_ok].
           rewrite andb_false_r, app_nil_r. by auto.
        -- apply Z.leb_gt in Ec. right. exists old, (cur ++ [now]), start.
           rewrite allowed_at_snoc, Ea. cbn [call_key call_ok call_at].
           rewrite bool_decide_eq_true_2 by done. cbn [andb]. rewrite <-app_assoc.
           split_and!; [done|apply windows_more; auto; lia|done|].
           left. rewrite lookup_insert_eq, length_app. cbn [length]. f_equal.
           unfold set_field; cbn. f_equal. lia.
    + cbn [fst snd]. getset. by eapply Hfresh.
  - destruct (hits !! key') as [w|]; [|cbn [fst snd]; getset; by apply key_state_other].
    destruct (After _ _); [cbn [fst snd]; getset; by apply key_state_other|].
    destruct (_ <=? _); cbn [fst snd]; getset; [|by apply key_state_other].
    unfold key_state in *. rewrite allowed_at_snoc. cbn [call_key].
    rewrite bool_decide_eq_false_2 by done. cbn [andb]. by rewrite app_nil_r.
Qed.

(** C40: Over any history of calls, a key is allowed at most twice the limit in
    any interval as long as the window, and a call is refused only when the
    limit has been used up within the last window; the sweep of expired windows
    never extends the budget. *)
Theorem rate_limit_bounds limit window h t r key :
  0 < limit → 0 < window → key ≠ "" → history limit window h t r →
  (∀ a, within a (a + window) (allowed_at key h) ≤ 2 * limit) ∧
  (∀ now, t ≤ now → (Allow now key r).1 = false →
     limit ≤ within (now - window) now (allowed_at key h)).
Proof.
  intros Hl Hw Hk Hh. pose proof (history_key_state limit window key h t r Hl Hw Hk Hh) as Hs.
  destruct (history_fixed _ _ _ _ _ Hh) as [El Ewin]. split.
  - intros a. destruct Hs as [[-> _]|(old & cur & start & -> & [H1 H2 H3 H4 H5] & _)];
      [unfold within; cbn; lia|].
    rewrite within_app. pose proof (within_le_length a (a + window) cur).
    destruct (decide (start ≤ a + window)) as [Ha|Ha]; [specialize (H4 a Ha); lia|].
    specialize (H5 a). assert (within a (a + window) cur = 0) as ->; [|lia].
    apply within_after. intros t' Ht'%H2. lia.
  - intros now Hnow. apply (key_state_sweep _ _ _ _ _ now _ Hnow) in Hs.
    unfold Allow. rewrite El, Ewin. replace (limit <=? 0) with false by (symmetry; apply Z.leb_gt; lia).
    replace (window <=? 0) with false by (symmetry; apply Z.leb_gt; lia).
    rewrite bool_decide_eq_false_2 by done. cbn [orb]. cbv zeta.
    destruct Hs as [[_ ->]|(old & cur & start & Ea & [H1 H2 H3 H4 H5] & Hst & [->|[-> _]])]; [done| |done].
    cbn [rw_endAt rw_count]. unfold After. destruct (start + window <? now) eqn:Elt; [done|].
    apply Z.ltb_ge in Elt. destruct (limit <=? _) eqn:Ec; [|done]. intros _. apply Z.leb_le in Ec.
    rewrite Ea, within_app, (within_all _ _ cur).
    + unfold within. lia.
    + intros t' Ht'. pose proof (H2 _ Ht').
      assert (t' ≤ t) by (eapply history_times; [done|]; rewrite Ea; apply elem_of_app; by right). lia.
Qed.
End limiter.
