(* ===== verification/Netip.v ===== *)
(** * encoding/base64 and net/netip

    [base64.StdEncoding] and the parts of [net/netip] the overlay uses:
    [ParsePrefix], [Addr.String] and [Prefix.String].  Bytes and the 16-bit
    groups of an IPv6 address are integers. *)

From S2P Require Import Prelude GoLib.
From Stdlib Require Import Ascii.
Open Scope Z_scope.
Open Scope bool_scope.
Open Scope go_scope.

Definition chars (s : string) : list ascii := String.list_ascii_of_string s.
Definition code (c : ascii) : Z := Z.of_N (N_of_ascii c).
Definition char_of (z : Z) : ascii := ascii_of_N (Z.to_N z).

(** ** base64 *)

Definition b64_value (c : ascii) : option Z :=
  let n := code c in
  if (65 <=? n) && (n <=? 90) then Some (n - 65) else
  if (97 <=? n) && (n <=? 122) then Some (n - 71) else
  if (48 <=? n) && (n <=? 57) then Some (n + 4) else
  if n =? 43 then Some 62 else if n =? 47 then Some 63 else None.

Definition b64_char (v : Z) : ascii :=
  char_of (if v <? 26 then v + 65 else if v <? 52 then v + 71 else
           if v <? 62 then v - 4 else if v =? 62 then 43 else 47).

(** Quanta of four characters; only the last may be padded, and the bits a
    padded quantum leaves over are not checked. *)
Fixpoint b64_decode (s : list ascii) : option (list Z) :=
  match s with
  | [] => Some []
  | a :: b :: c :: d :: rest =>
      match b64_value a, b64_value b with
      | Some va, Some vb =>
          match b64_value c with
          | Some vc =>
              match b64_value d with
              | Some vd =>
                  match b64_decode rest with
                  | Some out =>
                      let v := ((va * 64 + vb) * 64 + vc) * 64 + vd in
                      Some (v / 65536 :: (v / 256) mod 256 :: v mod 256 :: out)
                  | None => None
                  end
              | None =>
                  match d == "="%char, rest with
                  | true, [] =>
                      let v := (va * 64 + vb) * 64 + vc in Some [v / 1024; (v / 4) mod 256]
                  | _, _ => None
                  end
              end
          | None =>
              match (c == "="%char) && (d == "="%char), rest with
              | true, [] => Some [(va * 64 + vb) / 16]
              | _, _ => None
              end
          end
      | _, _ => None
      end
  | _ => None
  end.

(** Line ends are ignored anywhere in the input. *)
Definition DecodeString (s : string) : option (list Z) :=
  b64_decode (List.filter (λ c, negb ((code c =? 13) || (code c =? 10))) (chars s)).

Fixpoint b64_encode (l : list Z) : list ascii :=
  match l with
  | [] => []
  | [a] => [b64_char (a / 4); b64_char ((a mod 4) * 16); "="%char; "="%char]
  | [a; b] =>
      [b64_char (a / 4); b64_char ((a mod 4) * 16 + b / 16); b64_char ((b mod 16) * 4); "="%char]
  | a :: b :: c :: rest =>
      b64_char (a / 4) :: b64_char ((a mod 4) * 16 + b / 16) ::
      b64_char ((b mod 16) * 4 + c / 64) :: b64_char (c mod 64) :: b64_encode rest
  end.
Definition EncodeToString (l : list Z) : string := String.string_of_list_ascii (b64_encode l).

(** ** Addresses *)

Inductive Addr :=
| Addr4 (bytes : list Z)
| Addr6 (groups : list Z).

Definition BitLen (a : Addr) : Z := match a with Addr4 _ => 32 | Addr6 _ => 128 end.

Definition is_digit (c : ascii) : bool := (48 <=? code c) && (code c <=? 57).

(** [parseIPv4Fields]; [digits] counts the digits of the current octet. *)
Fixpoint ip4_fields (s : list ascii) (val digits : Z) (fields : list Z) : option (list Z) :=
  match s with
  | [] => if (length fields =? 3)%nat then Some (fields ++ [val]) else None
  | c :: rest =>
      if is_digit c then
        if (digits =? 1) && (val =? 0) then None else
        let val := val * 10 + code c - 48 in
        if 255 <? val then None else ip4_fields rest val (digits + 1) fields
      else if c == "."%char then
        if (digits =? 0) || match rest with [] => true | _ => false end then None else
        if (length fields =? 3)%nat then None else ip4_fields rest 0 0 (fields ++ [val])
      else None
  end.

Definition hex_value (c : ascii) : option Z :=
  let n := code c in
  if (48 <=? n) && (n <=? 57) then Some (n - 48) else
  if (97 <=? n) && (n <=? 102) then Some (n - 87) else
  if (65 <=? n) && (n <=? 70) then Some (n - 55) else None.

(** The leading hexadecimal digits: their value, their number, and the rest. *)
Fixpoint hex_prefix (s : list ascii) (acc off : Z) : Z * Z * list ascii :=
  match s with
  | [] => (acc, off, [])
  | c :: rest =>
      match hex_value c with
      | Some v => hex_prefix rest (acc * 16 + v) (off + 1)
      | None => (acc, off, s)
      end
  end.

(** The loop of [parseIPv6]: one group per round, at most eight rounds.
    [ellipsis] is the number of groups before the ellipsis. *)
Fixpoint ip6_loop (rounds : nat) (s : list ascii) (groups : list Z) (ellipsis : option nat)
    : option (list ascii * list Z * option nat) :=
  match rounds with
  | O => Some (s, groups, ellipsis)
  | S rounds =>
      if (8 <=? length groups)%nat then Some (s, groups, ellipsis) else
      let '(acc, off, rest) := hex_prefix s 0 0 in
      if (off =? 0) || (4 <? off) then None else
      match rest with
      | [] => Some ([], groups ++ [acc], ellipsis)
      | c :: rest' =>
          if c == "."%char then
            if match ellipsis with None => negb (length groups =? 6)%nat | Some _ => false end then None else
            if (6 <? length groups)%nat then None else
            match ip4_fields s 0 0 [] with
            | Some [b1; b2; b3; b4] => Some ([], groups ++ [b1 * 256 + b2; b3 * 256 + b4], ellipsis)
            | _ => None
            end
          else if c == ":"%char then
            match rest' with
            | [] => None
            | d :: rest'' =>
                if d == ":"%char then
                  match ellipsis with
                  | Some _ => None
                  | None =>
                      match rest'' with
                      | [] => Some ([], groups ++ [acc], Some (S (length groups)))
                      | _ => ip6_loop rounds rest'' (groups ++ [acc]) (Some (S (length groups)))
                      end
                  end
                else ip6_loop rounds rest' (groups ++ [acc]) ellipsis
            end
          else None
      end
  end.

Definition ip6_finish (r : list ascii * list Z * option nat) : option (list Z) :=
  let '(s, groups, ellipsis) := r in
  match s with
  | _ :: _ => None
  | [] =>
      if (length groups <? 8)%nat then
        match ellipsis with
        | None => None
        | Some k => Some (take k groups ++ replicate (8 - length groups) 0 ++ drop k groups)
        end
      else match ellipsis with Some _ => None | None => Some groups end
  end.

Definition parseIPv6 (s : list ascii) : option (list Z) :=
  match s with
  | a :: b :: rest =>
      if (a == ":"%char) && (b == ":"%char) then
        match rest with
        | [] => Some (replicate 8 0)
        | _ => ip6_loop 8 rest [] (Some 0%nat) ≫= ip6_finish
        end
      else ip6_loop 8 s [] None ≫= ip6_finish
  | _ => ip6_loop 8 s [] None ≫= ip6_finish
  end.

(** [ParseAddr] without a zone: the first dot or colon selects the family. *)
Definition ParseAddr (s : list ascii) : option Addr :=
  match List.find (λ c, (c == "."%char) || (c == ":"%char)) s with
  | Some c =>
      if c == "."%char then Addr4 <$> ip4_fields s 0 0 [] else Addr6 <$> parseIPv6 s
  | None => None
  end.

Fixpoint last_slash (s : list ascii) : option (list ascii * list ascii) :=
  match s with
  | [] => None
  | c :: rest =>
      match last_slash rest with
      | Some (a, b) => Some (c :: a, b)
      | None => if c == "/"%char then Some ([], rest) else None
      end
  end.

Definition decimal_value (s : list ascii) : option Z :=
  match s with
  | [] => None
  | _ => if forallb is_digit s then Some (foldl (λ acc c, acc * 10 + code c - 48) 0 s) else None
  end.

(** [ParsePrefix]; an address with a zone is refused. *)
Definition ParsePrefix (s : string) : option (Addr * Z) :=
  match last_slash (chars s) with
  | None => None
  | Some (ip, bits) =>
      if existsb (λ c, c == "%"%char) ip then None else
      match ParseAddr ip with
      | None => None
      | Some a =>
          if (1 <? Z.of_nat (length bits)) &&
             match bits with c :: _ => negb ((49 <=? code c) && (code c <=? 57)) | [] => false end
          then None else
          match decimal_value bits with
          | Some n => if n <=? BitLen a then Some (a, n) else None
          | None => None
          end
      end
  end.

(** ** Printing *)

(** Decimal digits of an integer below a thousand. *)
Definition decimal (n : Z) : list ascii :=
  let d z := char_of (z mod 10 + 48) in
  if n <? 10 then [d n] else
  if n <? 100 then [d (n / 10); d n] else [d (n / 100); d (n / 10); d n].

Definition hex_char (v : Z) : ascii := char_of (if v <? 10 then v + 48 else v + 87).
Definition hex16 (n : Z) : list ascii :=
  let d z := hex_char (z mod 16) in
  if n <? 16 then [d n] else
  if n <? 256 then [d (n / 16); d n] else
  if n <? 4096 then [d (n / 256); d (n / 16); d n]
  else [d (n / 4096); d (n / 256); d (n / 16); d n].

Fixpoint intersperse (sep : ascii) (l : list (list ascii)) : list ascii :=
  match l with
  | [] => []
  | [x] => x
  | x :: rest => x ++ sep :: intersperse sep rest
  end.

Definition print4 (bytes : list Z) : list ascii := intersperse "."%char (decimal <$> bytes).

Fixpoint zero_run (groups : list Z) : nat :=
  match groups with
  | g :: rest => if g =? 0 then S (zero_run rest) else O
  | [] => O
  end.

(** The first longest run of at least two zero groups: its start and end. *)
Definition longest_run (groups : list Z) : option (nat * nat) :=
  foldl (λ best i,
    let l := zero_run (drop i groups) in
    let len_best := match best with Some (a, b) => (b - a)%nat | None => O end in
    if (2 <=? l)%nat && (len_best <? l)%nat then Some (i, (i + l)%nat) else best)
    None (seq 0 8).

Definition print6 (groups : list Z) : list ascii :=
  match longest_run groups with
  | None => intersperse ":"%char (hex16 <$> groups)
  | Some (a, b) =>
      intersperse ":"%char (hex16 <$> take a groups) ++ [":"%char; ":"%char] ++
      intersperse ":"%char (hex16 <$> drop b groups)
  end.

Definition is4in6 (groups : list Z) : bool :=
  match groups with
  | [g0; g1; g2; g3; g4; g5; _; _] =>
      (g0 =? 0) && (g1 =? 0) && (g2 =? 0) && (g3 =? 0) && (g4 =? 0) && (g5 =? 65535)
  | _ => false
  end.

Definition addr_string (a : Addr) : list ascii :=
  match a with
  | Addr4 bytes => print4 bytes
  | Addr6 groups =>
      if is4in6 groups then
        match drop 6 groups with
        | [g6; g7] => chars "::ffff:" ++ print4 [g6 / 256; g6 mod 256; g7 / 256; g7 mod 256]
        | _ => []
        end
      else print6 groups
  end.

Definition prefix_string (p : Addr * Z) : string :=
  String.string_of_list_ascii (addr_string p.1 ++ "/"%char :: decimal p.2).

(** ** Test vectors *)

Example b64_decode_vector : DecodeString "TWFuTQ==" = Some [77; 97; 110; 77].
Proof. vm_compute. reflexivity. Qed.
Example b64_roundtrip_vector : EncodeToString [255; 0; 17; 250; 3] = "/wAR+gM=".
Proof. vm_compute. reflexivity. Qed.
Example prefix4_vector : prefix_string <$> ParsePrefix "10.20.0.7/32" = Some "10.20.0.7/32".
Proof. vm_compute. reflexivity. Qed.
Example prefix4_leading_zero : ParsePrefix "10.020.0.7/32" = None.
Proof. vm_compute. reflexivity. Qed.
Example prefix6_vector :
  prefix_string <$> ParsePrefix "fd00:0:0:1:0:0:0:2/128" = Some "fd00:0:0:1::2/128".
Proof. vm_compute. reflexivity. Qed.
Example prefix6_mapped : prefix_string <$> ParsePrefix "::FFFF:1.2.3.4/128" = Some "::ffff:1.2.3.4/128".
Proof. vm_compute. reflexivity. Qed.
Example prefix6_too_long : ParsePrefix "1:2:3:4:5:6:7::8/128" = None ∧ ParsePrefix "fd00::1/129" = None.
Proof. vm_compute. split; reflexivity. Qed.
