(* ===== verification/Mesh.v ===== *)
(** * Mesh grants of the overlay

    [internal/overlay/mesh.go] and [policyArtifact] of [service.go]: which
    devices may talk to each other directly, without the gateway that enforces
    ports.  Only the fields the code reads are kept in the records.

    The device rows of a network and the decoding of a stored policy are
    parameters: the repository is SQL, and the policy is JSON text.

    The evaluator packs the grants of a rule in a byte; it is shown to decide a
    plain statement about the rules, and the views it gives the devices and the
    relay agree and are symmetric. *)

From S2P Require Import Prelude GoLib StoreData Netip.
Open Scope Z_scope.
Open Scope bool_scope.
Open Scope go_scope.

(** [PolicyRule] *)
Record PolicyRule := mkPolicyRule {
  rule_WholeDevice : bool;
  rule_ID : string;
  rule_Action : string;
  rule_SourceDevices : list string;
  rule_DestinationDevices : list string;
  rule_Protocols : list string;
  rule_Ports : list Z
}.

(** [PolicyArtifact] *)
Record PolicyArtifact := mkPolicyArtifact {
  pol_SchemaVersion : Z;
  pol_CompilerVersion : string;
  pol_NetworkID : string;
  pol_Revision : Z;
  pol_DefaultAction : string;
  pol_ProtectedFlows : list string;
  pol_Rules : list PolicyRule
}.

(** [DeviceRecord] *)
Record DeviceRecord := mkDeviceRecord {
  dev_ID : string;
  dev_Role : string;
  dev_Platform : string;
  dev_WireGuardPublicKey : string;
  dev_WireGuardAddress : string;
  dev_Status : string
}.

(** [NetworkRecord] *)
Record NetworkRecord := mkNetworkRecord {
  net_ID : string;
  net_PolicyJSON : string;
  net_ConfigGeneration : Z
}.

(** [MeshPeer], [RelayPeer] *)
Record MeshPeer := mkMeshPeer { mp_DeviceID : string; mp_PublicKey : string; mp_Address : string }.
Record RelayPeer := mkRelayPeer {
  rp_DeviceID : string; rp_PublicKey : string; rp_AllowedPeers : list string
}.

(** ** The evaluator *)

(** [p == j+1] for the j-th port, from [j]. *)
Fixpoint ports_from (j : Z) (ports : list Z) : bool :=
  match ports with
  | [] => true
  | p :: rest => (p =? j + 1) && ports_from (j + 1) rest
  end.

Definition allPorts (rule : PolicyRule) : bool :=
  (Z.of_nat (length (rule_Ports rule)) =? 65535) && ports_from 0 (rule_Ports rule).

Definition rule_mask (rule : PolicyRule) : Z :=
  let mask := foldl (λ mask protocol,
    if protocol == "icmp" then Z.lor mask 1 else
    if protocol == "tcp" then (if allPorts rule then Z.lor mask 2 else mask) else
    if protocol == "udp" then (if allPorts rule then Z.lor mask 4 else mask) else mask)
    0 (rule_Protocols rule) in
  if rule_WholeDevice rule && (rule_Action rule == "accept") && (mask =? 7)
  then Z.lor mask 8 else mask.

(** The loop over the rules; [None] is the early [return false]. *)
Fixpoint collect (rules : list PolicyRule) (source destination : string) (mask : Z) : option Z :=
  match rules with
  | [] => Some mask
  | rule :: rest =>
      if negb (contains (rule_SourceDevices rule) source) ||
         negb (contains (rule_DestinationDevices rule) destination)
      then collect rest source destination mask else
      if rule_Action rule == "deny" then None else
      if rule_Action rule == "accept"
      then collect rest source destination (Z.lor mask (rule_mask rule))
      else collect rest source destination mask
  end.

Definition grantEvaluator (policy : PolicyArtifact) (source destination : string) : bool :=
  if pol_DefaultAction policy != "deny" then false else
  match collect (pol_Rules policy) source destination 0 with
  | Some mask => mask =? 15
  | None => false
  end.

Definition wholeDeviceAllowed (policy : PolicyArtifact) (source destination : string) : bool :=
  grantEvaluator policy source destination.

(** ** Devices *)

Definition RoleOne : string := "one".

Definition meshCapable (d : DeviceRecord) : bool :=
  if (dev_Role d != RoleOne) || (dev_Status d != "active") ||
     ((dev_Platform d != "linux") && (dev_Platform d != "darwin") && (dev_Platform d != "windows"))
  then false else
  match DecodeString (dev_WireGuardPublicKey d), ParsePrefix (dev_WireGuardAddress d) with
  | Some key, Some (addr, bits) =>
      (length key =? 32)%nat && (EncodeToString key == dev_WireGuardPublicKey d) &&
      (bits =? BitLen addr) && (prefix_string (addr, bits) == dev_WireGuardAddress d)
  | _, _ => false
  end.

Definition PolicyCompilerVersion : string := "xconnect-acl-v1alpha1.1".

Definition defaultPolicyArtifact (networkID : string) (generation : Z) : PolicyArtifact :=
  mkPolicyArtifact 1 PolicyCompilerVersion networkID generation "deny"
    ["control:controller-session"; "control:gateway-apply-result"; "control:gateway-heartbeat";
     "control:gateway-policy-artifact"; "control:gateway-snapshot"] [].

Definition ErrGenerationConflict : error := ErrMsg "overlay configuration generation conflict".
Definition ErrInvalidInput : error := ErrMsg "invalid overlay request".

Section service.
(** [s.repo.devices] and [json.Unmarshal] of a stored policy. *)
Context (repo_devices : string → result error (list DeviceRecord))
        (decode_policy : string → option PolicyArtifact).

Definition policyArtifact (network : NetworkRecord) : result error PolicyArtifact :=
  if TrimSpace (net_PolicyJSON network) == ""
  then Ok (defaultPolicyArtifact (net_ID network) (net_ConfigGeneration network)) else
  match decode_policy (net_PolicyJSON network) with
  | None => Err (ErrMsg "decode stored overlay policy")
  | Some policy =>
      if (pol_NetworkID policy != net_ID network) ||
         negb (pol_Revision policy =? net_ConfigGeneration network)
      then Err ErrGenerationConflict else Ok policy
  end.

Definition meshDevices (network : NetworkRecord)
    : result error (list DeviceRecord * PolicyArtifact) :=
  match repo_devices (net_ID network) with
  | Err e => Err e
  | Ok devices =>
      match policyArtifact network with
      | Err e => Err e
      | Ok policy =>
          let capable := List.filter meshCapable devices in
          if 256 <? Z.of_nat (length capable) then Err ErrInvalidInput else Ok (capable, policy)
      end
  end.

(** The pair may talk directly. *)
Definition paired (policy : PolicyArtifact) (a b : DeviceRecord) : bool :=
  (dev_ID a != dev_ID b) && (dev_WireGuardPublicKey a != dev_WireGuardPublicKey b) &&
  grantEvaluator policy (dev_ID a) (dev_ID b) && grantEvaluator policy (dev_ID b) (dev_ID a).

Definition oneMeshSpec (self : DeviceRecord) (network : NetworkRecord)
    : result error (option (list MeshPeer)) :=
  if negb (meshCapable self) then Ok None else
  match meshDevices network with
  | Err e => Err e
  | Ok (devices, policy) =>
      let peers := foldl (λ peers d,
        if (dev_ID d != dev_ID self) &&
           (dev_WireGuardPublicKey d != dev_WireGuardPublicKey self) &&
           grantEvaluator policy (dev_ID self) (dev_ID d) &&
           grantEvaluator policy (dev_ID d) (dev_ID self)
        then peers ++ [mkMeshPeer (dev_ID d) (dev_WireGuardPublicKey d) (dev_WireGuardAddress d)]
        else peers) [] devices in
      if (length peers =? 0)%nat then Ok None else Ok (Some peers)
  end.

Definition relaySpec (network : NetworkRecord) : result error (option (list RelayPeer)) :=
  match meshDevices network with
  | Err e => Err e
  | Ok (devices, policy) =>
      let peers := foldl (λ peers a,
        let allowed := foldl (λ allowed b,
          if paired policy a b then allowed ++ [dev_ID b] else allowed) [] devices in
        if (0 <? length allowed)%nat
        then peers ++ [mkRelayPeer (dev_ID a) (dev_WireGuardPublicKey a) allowed] else peers)
        [] devices in
      if (length peers =? 0)%nat then Ok None else Ok (Some peers)
  end.
End service.

(** ** What the evaluator decides *)

Definition rule_matches (source destination : string) (rule : PolicyRule) : Prop :=
  source ∈ rule_SourceDevices rule ∧ destination ∈ rule_DestinationDevices rule.

(** The rule alone grants the whole device. *)
Definition grants_all (rule : PolicyRule) : Prop :=
  rule_Action rule = "accept" ∧ rule_WholeDevice rule = true ∧
  "icmp" ∈ rule_Protocols rule ∧ "tcp" ∈ rule_Protocols rule ∧ "udp" ∈ rule_Protocols rule ∧
  rule_Ports rule = seqZ 1 65535.

Lemma ports_from_spec j ports :
  ports_from j ports = true ↔ ports = seqZ (j + 1) (Z.of_nat (length ports)).
Proof.
  revert j. induction ports as [|p ports IH]; intros j; [done|].
  cbn [ports_from length]. rewrite andb_true_iff, Z.eqb_eq, IH, Nat2Z.inj_succ.
  rewrite (seqZ_cons (j + 1) (Z.succ _)) by lia. replace (Z.pred (Z.succ (Z.of_nat (length ports))))
    with (Z.of_nat (length ports)) by lia.
  replace (Z.succ (j + 1)) with (j + 1 + 1) by lia. split; [by intros [-> <-]|by intros [= -> <-]].
Qed.

Lemma allPorts_spec rule : allPorts rule = true ↔ rule_Ports rule = seqZ 1 65535.
Proof.
  unfold allPorts. rewrite andb_true_iff, Z.eqb_eq, ports_from_spec. split.
  - by intros [-> ->].
  - intros ->. rewrite length_seqZ. split; [done|]. reflexivity.
Qed.

(** Membership of a literal in a literal list. *)
Ltac in_list := match goal with |- ?P => refine (bool_decide_eq_true_1 P _); reflexivity end.

(** The masks that occur: grants of single protocols, or of the whole device. *)
Definition masks : list Z := [0; 1; 2; 3; 4; 5; 6; 7; 15].

Lemma masks_lor a b : a ∈ masks → b ∈ masks → Z.lor a b ∈ masks ∧ (Z.lor a b = 15 ↔ a = 15 ∨ b = 15).
Proof.
  assert (forallb (λ a, forallb (λ b, bool_decide (Z.lor a b ∈ masks) &&
    Bool.eqb (Z.lor a b =? 15) ((a =? 15) || (b =? 15))) masks) masks = true) as Hall by reflexivity.
  rewrite forallb_forall in Hall. intros Ha%list_elem_of_In Hb%list_elem_of_In.
  specialize (Hall a Ha). rewrite forallb_forall in Hall. specialize (Hall b Hb).
  apply andb_true_iff in Hall as [H1 H2]. apply bool_decide_eq_true in H1. split; [done|].
  apply eqb_prop in H2. rewrite <-!Z.eqb_eq, H2, orb_true_iff. done.
Qed.

Lemma bits3_lor a b : a ∈ seqZ 0 8 → b ∈ [1; 2; 4] →
  Z.lor a b ∈ seqZ 0 8 ∧ ∀ n, n ∈ [0; 1; 2] → Z.testbit (Z.lor a b) n = Z.testbit a n || (b =? 2 ^ n).
Proof.
  assert (forallb (λ a, forallb (λ b, bool_decide (Z.lor a b ∈ seqZ 0 8) &&
    forallb (λ n, Bool.eqb (Z.testbit (Z.lor a b) n) (Z.testbit a n || (b =? 2 ^ n))) [0; 1; 2])
    [1; 2; 4]) (seqZ 0 8) = true) as Hall by reflexivity.
  rewrite forallb_forall in Hall. intros Ha%list_elem_of_In Hb%list_elem_of_In.
  specialize (Hall a Ha). rewrite forallb_forall in Hall. specialize (Hall b Hb).
  apply andb_true_iff in Hall as [H1 H2]. apply bool_decide_eq_true in H1. split; [done|].
  intros n Hn%list_elem_of_In. rewrite forallb_forall in H2. by apply eqb_prop, H2.
Qed.

Lemma protocols_mask all (protocols : list string) mask :
  mask ∈ seqZ 0 8 →
  let m := foldl (λ mask protocol,
    if protocol == "icmp" then Z.lor mask 1 else
    if protocol == "tcp" then (if (all : bool) then Z.lor mask 2 else mask) else
    if protocol == "udp" then (if all then Z.lor mask 4 else mask) else mask) mask protocols in
  m ∈ seqZ 0 8 ∧
  (Z.testbit m 0 = true ↔ Z.testbit mask 0 = true ∨ "icmp" ∈ protocols) ∧
  (Z.testbit m 1 = true ↔ Z.testbit mask 1 = true ∨ all = true ∧ "tcp" ∈ protocols) ∧
  (Z.testbit m 2 = true ↔ Z.testbit mask 2 = true ∨ all = true ∧ "udp" ∈ protocols).
Proof.
  assert (∀ p (l : list string) q, p ∈ q :: l ↔ p = q ∨ p ∈ l) as Hcons
    by (intros; apply elem_of_cons).
  revert mask. induction protocols as [|p ps IH]; intros mask Hm; cbv zeta; cbn [foldl].
  { split; [done|]. split_and!; (split; [auto|]); intros [?|E]; try done;
      try (by apply not_elem_of_nil in E); destruct E as [_ E]; by apply not_elem_of_nil in E. }
  assert (∀ b, b ∈ [1; 2; 4] → Z.lor mask b ∈ seqZ 0 8 ∧
    (Z.testbit (Z.lor mask b) 0 = true ↔ Z.testbit mask 0 = true ∨ b = 1) ∧
    (Z.testbit (Z.lor mask b) 1 = true ↔ Z.testbit mask 1 = true ∨ b = 2) ∧
    (Z.testbit (Z.lor mask b) 2 = true ↔ Z.testbit mask 2 = true ∨ b = 4)) as Hlor.
  { intros b Hb. destruct (bits3_lor mask b Hm Hb) as [? Hbit]. split; [done|].
    rewrite (Hbit 0), (Hbit 1), (Hbit 2) by in_list.
    rewrite !orb_true_iff, !Z.eqb_eq. done. }
  rewrite !Hcons.
  destruct (bool_decide (p = "icmp")) eqn:E1; bools.
  { subst. destruct (Hlor 1) as (H1 & H2 & H3 & H4); [in_list|].
    destruct (IH _ H1) as (I1 & I2 & I3 & I4). rewrite I2, I3, I4, H2, H3, H4.
    split; [done|]. intuition congruence. }
  destruct (bool_decide (p = "tcp")) eqn:E2; bools.
  { subst. destruct all.
    - destruct (Hlor 2) as (H1 & H2 & H3 & H4); [in_list|].
      destruct (IH _ H1) as (I1 & I2 & I3 & I4). rewrite I2, I3, I4, H2, H3, H4.
      split; [done|]. intuition congruence.
    - destruct (IH _ Hm) as (I1 & I2 & I3 & I4). rewrite I2, I3, I4.
      split; [done|]. intuition congruence. }
  destruct (bool_decide (p = "udp")) eqn:E3; bools.
  { subst. destruct all.
    - destruct (Hlor 4) as (H1 & H2 & H3 & H4); [in_list|].
      destruct (IH _ H1) as (I1 & I2 & I3 & I4). rewrite I2, I3, I4, H2, H3, H4.
      split; [done|]. intuition congruence.
    - destruct (IH _ Hm) as (I1 & I2 & I3 & I4). rewrite I2, I3, I4.
      split; [done|]. intuition congruence. }
  destruct (IH _ Hm) as (I1 & I2 & I3 & I4). rewrite I2, I3, I4.
  split; [done|]. intuition congruence.
Qed.

Lemma bits3_seven m :
  m ∈ seqZ 0 8 → m = 7 ↔ Z.testbit m 0 = true ∧ Z.testbit m 1 = true ∧ Z.testbit m 2 = true.
Proof.
  assert (forallb (λ m, Bool.eqb (m =? 7) (Z.testbit m 0 && (Z.testbit m 1 && Z.testbit m 2)))
    (seqZ 0 8) = true) as Hall by reflexivity.
  rewrite forallb_forall in Hall. intros Hm%list_elem_of_In. specialize (Hall m Hm).
  apply eqb_prop in Hall. by rewrite <-Z.eqb_eq, Hall, !andb_true_iff.
Qed.

Lemma rule_mask_spec rule :
  rule_Action rule = "accept" →
  rule_mask rule ∈ masks ∧ (rule_mask rule = 15 ↔ grants_all rule).
Proof.
  intros Ha. unfold rule_mask, grants_all.
  destruct (protocols_mask (allPorts rule) (rule_Protocols rule) 0) as (H1 & H2 & H3 & H4);
    [by apply elem_of_seqZ|]. cbv zeta in *.
  set (m := foldl _ _ _) in *. clearbody m.
  rewrite (bool_decide_eq_true_2 (rule_Action rule = "accept")) by done. rewrite andb_true_r.
  pose proof (bits3_seven m H1) as H7. rewrite H2, H3, H4, allPorts_spec in H7.
  assert (∀ n, Z.testbit 0 n = true → False) as Hz by (intros n; by rewrite Z.testbit_0_l).
  destruct (m =? 7) eqn:E7.
  - apply Z.eqb_eq in E7. destruct H7 as [H7 _]. specialize (H7 E7).
    destruct (rule_WholeDevice rule); subst m; cbn [andb].
    + split; [in_list|]. split; [|done]. intros _. naive_solver.
    + split; [in_list|]. split; [done|]. naive_solver.
  - rewrite andb_false_r. apply Z.eqb_neq in E7. apply elem_of_seqZ in H1. split.
    + assert (m = 0 ∨ m = 1 ∨ m = 2 ∨ m = 3 ∨ m = 4 ∨ m = 5 ∨ m = 6) as Hc by lia.
      unfold masks. destruct Hc as [->|[->|[->|[->|[->|[->| ->]]]]]]; in_list.
    + split; [lia|]. intros (_ & _ & ? & ? & ? & ?). exfalso. apply E7, H7. auto.
Qed.

Lemma collect_spec rules source destination mask :
  mask ∈ masks →
  (collect rules source destination mask = Some 15 ↔
   (∀ r, r ∈ rules → rule_matches source destination r → rule_Action r ≠ "deny") ∧
   (mask = 15 ∨ ∃ r, r ∈ rules ∧ rule_matches source destination r ∧ grants_all r)).
Proof.
  revert mask. induction rules as [|rule rules IH]; intros mask Hm; cbn [collect].
  { split.
    - intros [= ->]. split; [by intros ? ?%not_elem_of_nil|by left].
    - intros [_ [->|(r & Hr & _)]]; [done|]. by apply not_elem_of_nil in Hr. }
  setoid_rewrite elem_of_cons.
  assert (negb (contains (rule_SourceDevices rule) source) ||
    negb (contains (rule_DestinationDevices rule) destination) = false ↔
    rule_matches source destination rule) as Hmatch.
  { unfold rule_matches. rewrite orb_false_iff, !negb_false_iff, !contains_spec. done. }
  destruct (_ || _).
  { assert (¬ rule_matches source destination rule) as Hn by (rewrite <-Hmatch; done).
    rewrite IH by done. naive_solver. }
  destruct Hmatch as [Hmatch _]. specialize (Hmatch eq_refl).
  destruct (bool_decide (rule_Action rule = "deny")) eqn:Ed; bools.
  { split; [done|]. intros [Hd _]. exfalso. by apply (Hd rule); auto. }
  destruct (bool_decide (rule_Action rule = "accept")) eqn:Ea; bools.
  - destruct (rule_mask_spec rule Ea) as [Hrm Hr15].
    destruct (masks_lor mask (rule_mask rule) Hm Hrm) as [Hlm Hl15].
    rewrite IH by done. rewrite Hl15, Hr15. naive_solver.
  - rewrite IH by done. assert (¬ grants_all rule) as Hn by (by intros [? _]). naive_solver.
Qed.

Lemma grantEvaluator_spec policy source destination :
  grantEvaluator policy source destination = true ↔
  pol_DefaultAction policy = "deny" ∧
  (∀ r, r ∈ pol_Rules policy → rule_matches source destination r → rule_Action r ≠ "deny") ∧
  ∃ r, r ∈ pol_Rules policy ∧ rule_matches source destination r ∧ grants_all r.
Proof.
  unfold grantEvaluator.
  destruct (negb (bool_decide (pol_DefaultAction policy = "deny"))) eqn:D; bools; [naive_solver|].
  pose proof (collect_spec (pol_Rules policy) source destination 0) as Hc.
  assert (match collect (pol_Rules policy) source destination 0 with
          | Some mask => mask =? 15 | None => false end = true ↔
    collect (pol_Rules policy) source destination 0 = Some 15) as ->.
  { destruct (collect _ _ _ _) as [m|]; [|done]. rewrite Z.eqb_eq. split; [by intros ->|by intros [=]]. }
  rewrite Hc by (by left). split.
  - intros [? [?|?]]; [done|auto].
  - intros (_ & ? & ?). auto.
Qed.

(** C38: The packed evaluator decides a plain statement: two devices may talk
    directly exactly when the policy denies by default, no rule that matches
    the pair denies, and one matching rule alone accepts the whole device, with
    all three protocols and exactly the ports 1 to 65535; grants of several
    partial rules never add up to it. *)
Theorem grant_evaluator_correct policy source destination :
  wholeDeviceAllowed policy source destination = true ↔
  pol_DefaultAction policy = "deny" ∧
  (∀ r, r ∈ pol_Rules policy → rule_matches source destination r → rule_Action r ≠ "deny") ∧
  ∃ r, r ∈ pol_Rules policy ∧ rule_matches source destination r ∧ grants_all r.
Proof. apply grantEvaluator_spec. Qed.

(** ** The views of devices and relay *)

Lemma foldl_filter_fmap {A B} (p : A → bool) (f : A → B) (l : list A) acc :
  foldl (λ acc x, if p x then acc ++ [f x] else acc) acc l = acc ++ (f <$> List.filter p l).
Proof.
  revert acc. induction l as [|x l IH]; intros acc; cbn [foldl List.filter]; [by rewrite app_nil_r|].
  rewrite IH. destruct (p x); [|done]. by rewrite <-app_assoc.
Qed.

Lemma foldl_ext_in {A B} (f g : B → A → B) l b :
  (∀ b x, x ∈ l → f b x = g b x) → foldl f b l = foldl g b l.
Proof.
  revert b. induction l as [|x l IH]; intros b Hfg; [done|]. cbn [foldl].
  rewrite Hfg by (by left). apply IH. intros; apply Hfg; by right.
Qed.

Lemma paired_sym policy a b : paired policy a b = paired policy b a.
Proof.
  unfold paired.
  rewrite (bool_decide_ext (dev_ID a = dev_ID b) (dev_ID b = dev_ID a)) by (split; congruence).
  rewrite (bool_decide_ext (dev_WireGuardPublicKey a = dev_WireGuardPublicKey b)
    (dev_WireGuardPublicKey b = dev_WireGuardPublicKey a)) by (split; congruence).
  by rewrite <-!andb_assoc, (andb_comm (grantEvaluator policy (dev_ID a) (dev_ID b))).
Qed.

(** What the relay lets a device reach. *)
Definition relay_allowed (spec : option (list RelayPeer)) (id : string) : list string :=
  flat_map (λ p, if rp_DeviceID p == id then rp_AllowedPeers p else []) (default [] spec).

Definition mesh_ids (spec : option (list MeshPeer)) : list string :=
  mp_DeviceID <$> default [] spec.

Section views.
Context (repo_devices : string → result error (list DeviceRecord))
        (decode_policy : string → option PolicyArtifact).

Lemma option_of_list {A} (l : list A) :
  default [] (if (length l =? 0)%nat then None else Some l) = l.
Proof. by destruct l. Qed.

Lemma oneMeshSpec_ids self network devices policy spec :
  meshDevices repo_devices decode_policy network = Ok (devices, policy) → meshCapable self = true →
  oneMeshSpec repo_devices decode_policy self network = Ok spec →
  mesh_ids spec = dev_ID <$> List.filter (paired policy self) devices.
Proof.
  intros Hd Hs. unfold oneMeshSpec. rewrite Hs, Hd. cbn [negb].
  rewrite (foldl_ext_in _ (λ peers d, if paired policy self d then
    peers ++ [mkMeshPeer (dev_ID d) (dev_WireGuardPublicKey d) (dev_WireGuardAddress d)] else peers)).
  2:{ intros b x _. unfold paired.
      rewrite (bool_decide_ext (dev_ID x = dev_ID self) (dev_ID self = dev_ID x)) by (split; congruence).
      rewrite (bool_decide_ext (dev_WireGuardPublicKey x = dev_WireGuardPublicKey self)
        (dev_WireGuardPublicKey self = dev_WireGuardPublicKey x)) by (split; congruence). done. }
  rewrite foldl_filter_fmap. cbn [app]. set (peers := _ <$> _). intros E.
  assert (spec = if (length peers =? 0)%nat then None else Some peers) as ->
    by (by destruct (length peers =? 0)%nat; injection E as <-).
  unfold mesh_ids. rewrite option_of_list. unfold peers. rewrite <-list_fmap_compose. done.
Qed.

Lemma relaySpec_allowed network devices policy spec a :
  meshDevices repo_devices decode_policy network = Ok (devices, policy) →
  relaySpec repo_devices decode_policy network = Ok spec →
  NoDup (dev_ID <$> devices) → a ∈ devices →
  relay_allowed spec (dev_ID a) = dev_ID <$> List.filter (paired policy a) devices.
Proof.
  intros Hd. unfold relaySpec. rewrite Hd.
  rewrite (foldl_ext_in _ (λ peers a, if (0 <? length (dev_ID <$> List.filter (paired policy a) devices))%nat
    then peers ++ [mkRelayPeer (dev_ID a) (dev_WireGuardPublicKey a)
                     (dev_ID <$> List.filter (paired policy a) devices)] else peers)).
  2:{ intros b x _. cbv zeta. by rewrite foldl_filter_fmap. }
  rewrite foldl_filter_fmap. cbn [app]. set (peers := _ <$> _). intros E.
  assert (spec = if (length peers =? 0)%nat then None else Some peers) as ->
    by (by destruct (length peers =? 0)%nat; injection E as <-).
  unfold relay_allowed. rewrite option_of_list. unfold peers. clear E.
  set (allowed x := dev_ID <$> List.filter (paired policy x) devices).
  intros Hnd Ha. clear Hd.
  assert (∀ ds, dev_ID a ∉ dev_ID <$> ds →
    flat_map (λ p, if rp_DeviceID p == dev_ID a then rp_AllowedPeers p else [])
      ((λ x, mkRelayPeer (dev_ID x) (dev_WireGuardPublicKey x) (allowed x)) <$>
        List.filter (λ x, (0 <? length (allowed x))%nat) ds) = []) as Hnone.
  { induction ds as [|d ds IH]; intros Hn; [done|]. cbn [List.filter].
    rewrite fmap_cons, not_elem_of_cons in Hn. destruct Hn as [Hne Hn].
    destruct (0 <? _)%nat; [|by apply IH]. rewrite fmap_cons. cbn [flat_map rp_DeviceID].
    rewrite bool_decide_eq_false_2 by congruence. by apply IH. }
  change (flat_map (λ p, if rp_DeviceID p == dev_ID a then rp_AllowedPeers p else [])
    ((λ x, mkRelayPeer (dev_ID x) (dev_WireGuardPublicKey x) (allowed x)) <$>
      List.filter (λ x, (0 <? length (allowed x))%nat) devices) = allowed a).
  clear peers. clearbody allowed. revert Hnd Ha.
  generalize devices at 1 2 3. intros ds. induction ds as [|d ds IH]; intros Hnd Ha;
    [by apply not_elem_of_nil in Ha|].
  rewrite fmap_cons in Hnd. apply NoDup_cons in Hnd as [Hd Hnd].
  apply elem_of_cons in Ha as [<-|Ha].
  - cbn [List.filter]. destruct (0 <? length (allowed a))%nat eqn:L.
    + rewrite fmap_cons. cbn [flat_map rp_DeviceID rp_AllowedPeers].
      rewrite bool_decide_eq_true_2, Hnone, app_nil_r by done. done.
    + rewrite Hnone by done. apply Nat.ltb_ge in L. by destruct (allowed a); [|cbn in L; lia].
  - assert (dev_ID d ≠ dev_ID a) as Hne.
    { intros E. apply Hd. rewrite E. apply list_elem_of_fmap. eauto. }
    cbn [List.filter]. destruct (0 <? length (allowed d))%nat; [|by apply IH].
    rewrite fmap_cons. cbn [flat_map rp_DeviceID].
    rewrite bool_decide_eq_false_2 by done. by apply IH.
Qed.

(** C39: The mesh configuration of a device and that of the relay agree: the
    peers a device is told about are those the relay lets it reach, in the same
    order; reachability is symmetric; and it is only ever granted to capable
    devices with different keys that the policy lets talk in both directions. *)
Theorem mesh_views_agree network devices policy relay a spec :
  meshDevices repo_devices decode_policy network = Ok (devices, policy) →
  relaySpec repo_devices decode_policy network = Ok relay →
  NoDup (dev_ID <$> devices) → a ∈ devices →
  oneMeshSpec repo_devices decode_policy a network = Ok spec →
  mesh_ids spec = relay_allowed relay (dev_ID a) ∧
  (∀ b, b ∈ devices →
     dev_ID b ∈ relay_allowed relay (dev_ID a) ↔ dev_ID a ∈ relay_allowed relay (dev_ID b)) ∧
  (∀ id, id ∈ relay_allowed relay (dev_ID a) → ∃ b, b ∈ devices ∧ dev_ID b = id ∧
     meshCapable b = true ∧ id ≠ dev_ID a ∧
     dev_WireGuardPublicKey b ≠ dev_WireGuardPublicKey a ∧
     wholeDeviceAllowed policy (dev_ID a) id = true ∧
     wholeDeviceAllowed policy id (dev_ID a) = true).
Proof.
  intros Hd Hrel Hnd Ha Hone.
  assert (∀ b, b ∈ devices → meshCapable b = true) as Hcap.
  { intros b Hb. revert Hd. unfold meshDevices. destruct (repo_devices _); [|done].
    destruct (policyArtifact _ _); [|done]. cbv zeta. destruct (256 <? _); [done|].
    intros [= <- <-]. apply list_elem_of_In in Hb. by apply List.filter_In in Hb as [_ ?]. }
  assert (∀ x b, x ∈ devices → b ∈ devices →
    dev_ID b ∈ relay_allowed relay (dev_ID x) ↔ paired policy x b = true) as Hin.
  { intros x b Hx Hb. rewrite (relaySpec_allowed network devices policy relay x) by done.
    rewrite list_elem_of_fmap. split.
    - intros (b' & E & Hb'). apply list_elem_of_In, List.filter_In in Hb' as [Hb' Hp].
      apply list_elem_of_In in Hb'. assert (b = b') as ->; [|done].
      apply list_elem_of_lookup in Hb as [i Hi]. apply list_elem_of_lookup in Hb' as [j Hj].
      assert (i = j) as ->; [|congruence].
      eapply NoDup_lookup; [exact Hnd|..]; rewrite list_lookup_fmap; [by rewrite Hi|rewrite Hj].
      cbn. by rewrite E.
    - intros Hp. exists b. split; [done|]. apply list_elem_of_In, List.filter_In.
      split; [by apply list_elem_of_In|done]. }
  split; [|split].
  - rewrite (relaySpec_allowed network devices policy relay a) by done.
    by eapply oneMeshSpec_ids; [| |exact Hone]; auto.
  - intros b Hb. rewrite !Hin by done. by rewrite paired_sym.
  - intros id Hid. rewrite (relaySpec_allowed network devices policy relay a) in Hid by done.
    apply list_elem_of_fmap in Hid as (b & -> & Hb).
    apply list_elem_of_In, List.filter_In in Hb as [Hb Hp]. apply list_elem_of_In in Hb.
    exists b. unfold paired in Hp. bools. unfold wholeDeviceAllowed. split_and!; auto.
Qed.
End views.
