(* ===== verification/GoTime.v ===== *)
(** * Parsing times

    [time.Parse] for the layouts the service uses, [time.RFC3339] and
    ["2006-01-02"].  Parsing follows the layout-driven parser of the Go library,
    which accepts a little more than RFC 3339: an hour of one digit, a
    fraction of a second after a period or a comma, and offsets of up to 24
    hours and 60 minutes.  Printing a time and parsing it again gives the time
    back, to the second. *)

From Stdlib Require Import Ascii String.
From S2P Require Import Prelude GoLib Calendar.
Open Scope Z_scope.
Open Scope bool_scope.
Open Scope go_scope.

(** ** Numbers *)

Definition dig (c : ascii) : option Z :=
  let n := Z.of_N (N_of_ascii c) in
  if (48 <=? n) && (n <=? 57) then Some (n - 48) else None.

(** [getnum]: one or two digits, exactly two when [fixed]. *)
Definition getnum (s : string) (fixed : bool) : option (Z * string) :=
  match s with
  | EmptyString => None
  | String a rest =>
      match dig a with
      | None => None
      | Some x =>
          match rest with
          | String b rest' =>
              match dig b with
              | Some y => Some (10 * x + y, rest')
              | None => if fixed then None else Some (x, rest)
              end
          | EmptyString => if fixed then None else Some (x, rest)
          end
      end
  end.

(** The year: four digits. *)
Definition getyear (s : string) : option (Z * string) :=
  match s with
  | String a (String b (String c (String d rest))) =>
      match dig a, dig b, dig c, dig d with
      | Some x, Some y, Some z, Some w => Some (1000 * x + 100 * y + 10 * z + w, rest)
      | _, _, _, _ => None
      end
  | _ => None
  end.

Definition skip (c : ascii) (s : string) : option string :=
  match s with
  | String d rest => if c == d then Some rest else None
  | EmptyString => None
  end.

(** The digits of a fraction; the first nine count. *)
Fixpoint fraction (s : string) (ns scale : Z) : Z * string :=
  match s with
  | String c rest =>
      match dig c with
      | Some d => fraction rest (ns + d * scale) (scale / 10)
      | None => (ns, s)
      end
  | EmptyString => (ns, s)
  end.

(** A fractional second the layout does not ask for. *)
Definition optional_fraction (s : string) : Z * string :=
  match s with
  | String c (String d rest) =>
      if (c == "."%char) || (c == ","%char) then
        match dig d with
        | Some _ => fraction (String d rest) 0 100000000
        | None => (0, s)
        end
      else (0, s)
  | _ => (0, s)
  end.

(** The zone [Z07:00]: the offset in seconds. *)
Definition getzone (s : string) : option (Z * string) :=
  match s with
  | String "Z" rest => Some (0, rest)
  | String sign (String h1 (String h2 (String ":" (String m1 (String m2 rest))))) =>
      match dig h1, dig h2, dig m1, dig m2 with
      | Some a, Some b, Some c, Some d =>
          let hr := 10 * a + b in
          let mm := 10 * c + d in
          if (24 <? hr) || (60 <? mm) then None else
          let offset := (hr * 60 + mm) * 60 in
          if sign == "+"%char then Some (offset, rest) else
          if sign == "-"%char then Some (- offset, rest) else None
      | _, _, _, _ => None
      end
  | _ => None
  end.

(** ** Layouts *)

Definition daysIn (y m : Z) : Z := month_day y (m + 1) - month_day y m.

Definition Date (y m d : Z) (seconds ns : Z) : time :=
  (month_day y m + (d - 1)) * Day + seconds * Second + ns.

Definition getdate (s : string) : option (Z * Z * Z * string) :=
  match getyear s with None => None | Some (y, s) =>
  match skip "-" s with None => None | Some s =>
  match getnum s true with None => None | Some (m, s) =>
  if (m <=? 0) || (12 <? m) then None else
  match skip "-" s with None => None | Some s =>
  match getnum s true with None => None | Some (d, s) => Some (y, m, d, s)
  end end end end end.

Definition valid_day (y m d : Z) : bool := (1 <=? d) && (d <=? daysIn y m).

(** [time.Parse(time.RFC3339, s)], as an instant. *)
Definition ParseRFC3339 (s : string) : option time :=
  match getdate s with None => None | Some (y, m, d, s) =>
  match skip "T" s with None => None | Some s =>
  match getnum s false with None => None | Some (hh, s) =>
  if 24 <=? hh then None else
  match skip ":" s with None => None | Some s =>
  match getnum s true with None => None | Some (mi, s) =>
  if 60 <=? mi then None else
  match skip ":" s with None => None | Some s =>
  match getnum s true with None => None | Some (ss, s) =>
  if 60 <=? ss then None else
  let '(ns, s) := optional_fraction s in
  match getzone s with None => None | Some (offset, s) =>
  if (s != EmptyString) || negb (valid_day y m d) then None else
  Some (Date y m d (hh * 3600 + mi * 60 + ss - offset) ns)
  end end end end end end end end.

(** [time.Parse("2006-01-02", s)] *)
Definition ParseDate (s : string) : option time :=
  match getdate s with
  | Some (y, m, d, EmptyString) => if valid_day y m d then Some (Date y m d 0 0) else None
  | _ => None
  end.

Example parse_epoch : ParseRFC3339 "1970-01-01T00:00:00Z" = Some (62135596800 * Second).
Proof. vm_compute. reflexivity. Qed.
Example parse_offset : ParseRFC3339 "1970-01-01T09:00:00+09:00" = Some (62135596800 * Second).
Proof. vm_compute. reflexivity. Qed.
Example parse_fraction :
  ParseRFC3339 "1970-01-01T0:00:01,25Z" = Some (62135596801 * Second + 250 * Millisecond).
Proof. vm_compute. reflexivity. Qed.
Example parse_no_leap_day : ParseRFC3339 "2023-02-29T00:00:00Z" = None.
Proof. vm_compute. reflexivity. Qed.
Example parse_date : ParseDate "1970-01-02" = Some ((62135596800 + 86400) * Second).
Proof. vm_compute. reflexivity. Qed.

(** ** Printing and parsing *)

Lemma dig_digit n rest : ∃ c, (digit n +:+ rest)%string = String c rest ∧ dig c = Some (n mod 10).
Proof.
  unfold digit. eexists. split; [reflexivity|].
  pose proof (Z.mod_pos_bound n 10 eq_refl) as Hn. remember (n mod 10) as k eqn:E. clear E.
  assert (k = 0 ∨ k = 1 ∨ k = 2 ∨ k = 3 ∨ k = 4 ∨ k = 5 ∨ k = 6 ∨ k = 7 ∨ k = 8 ∨ k = 9) as Hk by lia.
  destruct Hk as [->|[->|[->|[->|[->|[->|[->|[->|[->| ->]]]]]]]]]; reflexivity.
Qed.

Lemma string_app_assoc (a b c : string) : ((a +:+ b) +:+ c = a +:+ (b +:+ c))%string.
Proof. induction a as [|x a IH]; [done|].
  change (String x ((a +:+ b) +:+ c) = String x (a +:+ (b +:+ c)))%string. by rewrite IH.
Qed.

Lemma pad2 n rest : 0 ≤ n < 100 → (pad 2 n +:+ rest = digit (n / 10) +:+ digit n +:+ rest)%string.
Proof.
  intros Hn. unfold pad. cbn [padded Nat.sub Nat.eqb]. rewrite !andb_false_r.
  assert (n / 10 / 10 = 0) as -> by div_lia. cbn [Z.eqb andb]. by rewrite string_app_assoc.
Qed.

Lemma pad4 n rest : 0 ≤ n < 10000 →
  (pad 4 n +:+ rest = digit (n / 1000) +:+ digit (n / 100) +:+ digit (n / 10) +:+ digit n +:+ rest)%string.
Proof.
  intros Hn. unfold pad. cbn [padded Nat.sub Nat.eqb]. rewrite !andb_false_r.
  assert (n / 10 / 10 = n / 100) as -> by div_lia.
  assert (n / 100 / 10 = n / 1000) as -> by div_lia.
  assert (n / 1000 / 10 = 0) as -> by div_lia.
  cbn [Z.eqb andb]. by rewrite !string_app_assoc.
Qed.

Lemma getnum_pad n rest fixed : 0 ≤ n < 100 → getnum (pad 2 n +:+ rest) fixed = Some (n, rest).
Proof.
  intros Hn. rewrite pad2 by done.
  destruct (dig_digit (n / 10) (digit n +:+ rest)) as (c1 & -> & D1).
  destruct (dig_digit n rest) as (c2 & -> & D2).
  cbn [getnum]. rewrite D1, D2. f_equal. f_equal. div_lia.
Qed.

Lemma getyear_pad n rest : 0 ≤ n < 10000 → getyear (pad 4 n +:+ rest) = Some (n, rest).
Proof.
  intros Hn. rewrite pad4 by done.
  destruct (dig_digit (n / 1000) (digit (n / 100) +:+ digit (n / 10) +:+ digit n +:+ rest)) as (a & -> & A).
  destruct (dig_digit (n / 100) (digit (n / 10) +:+ digit n +:+ rest)) as (b & -> & B).
  destruct (dig_digit (n / 10) (digit n +:+ rest)) as (c & -> & C).
  destruct (dig_digit n rest) as (d & -> & D).
  cbn [getyear]. rewrite A, B, C, D. f_equal. f_equal. div_lia.
Qed.

(** The day of the month of an instant. *)
Lemma day_of_month t :
  month_day (Year t) (Month t) ≤ day_of t < month_day (Year t) (Month t + 1).
Proof. apply day_in_month. Qed.

Lemma month_length y m : 1 ≤ m ≤ 12 → 28 ≤ daysIn y m ≤ 31.
Proof.
  intros Hm. unfold daysIn, month_day, year_day.
  assert (m = 1 ∨ m = 2 ∨ m = 3 ∨ m = 4 ∨ m = 5 ∨ m = 6 ∨ m = 7 ∨ m = 8 ∨ m = 9 ∨ m = 10 ∨
          m = 11 ∨ m = 12) as Hk by lia.
  destruct Hk as [->|[->|[->|[->|[->|[->|[->|[->|[->|[->|[->| ->]]]]]]]]]]];
    repeat match goal with
    | |- context [?a <=? 2] => let v := eval vm_compute in (a <=? 2) in change (a <=? 2) with v
    end; cbv iota; div_lia.
Qed.

Lemma skip_char c rest : skip c (String c EmptyString +:+ rest) = Some rest.
Proof. change (skip c (String c rest) = Some rest). cbn. by rewrite bool_decide_eq_true_2. Qed.

Lemma getdate_pad y m d rest : 0 ≤ y < 10000 → 1 ≤ m ≤ 12 → 0 ≤ d < 100 →
  getdate (pad 4 y +:+ "-" +:+ pad 2 m +:+ "-" +:+ pad 2 d +:+ rest) = Some (y, m, d, rest).
Proof.
  intros Hy Hm Hd. unfold getdate. rewrite getyear_pad by done. rewrite skip_char.
  rewrite getnum_pad by lia. assert ((m <=? 0) || (12 <? m) = false) as -> by lia.
  rewrite skip_char. by rewrite getnum_pad.
Qed.

Lemma ParseRFC3339_pad y m d hh mi ss :
  0 ≤ y < 10000 → 1 ≤ m ≤ 12 → 1 ≤ d ≤ daysIn y m → 0 ≤ hh < 24 → 0 ≤ mi < 60 → 0 ≤ ss < 60 →
  ParseRFC3339 (pad 4 y +:+ "-" +:+ pad 2 m +:+ "-" +:+ pad 2 d +:+ "T" +:+
    pad 2 hh +:+ ":" +:+ pad 2 mi +:+ ":" +:+ pad 2 ss +:+ "Z") =
  Some (Date y m d (hh * 3600 + mi * 60 + ss) 0).
Proof.
  intros Hy Hm Hd Hh Hi Hs. pose proof (month_length y m Hm) as [_ Hl].
  unfold ParseRFC3339. rewrite getdate_pad by lia. rewrite skip_char.
  rewrite getnum_pad by lia. assert ((24 <=? hh) = false) as -> by lia. rewrite skip_char.
  rewrite getnum_pad by lia. assert ((60 <=? mi) = false) as -> by lia. rewrite skip_char.
  rewrite getnum_pad by lia. assert ((60 <=? ss) = false) as -> by lia.
  assert (optional_fraction "Z" = (0, "Z"%string)) as -> by reflexivity.
  assert (getzone "Z" = Some (0, EmptyString)) as -> by reflexivity.
  assert (valid_day y m d = true) as -> by (unfold valid_day; lia).
  rewrite bool_decide_eq_true_2 by done. by rewrite Z.sub_0_r.
Qed.

(** The seconds of a day, by hours, minutes and seconds. *)
Lemma clock_seconds n : n / 3600 * 3600 + n / 60 mod 60 * 60 + n mod 60 = n.
Proof. div_lia. Qed.

Lemma day_and_clock t : day_of t * Day + t mod Day / Second * Second + 0 = t - t mod Second.
Proof.
  assert ((t mod Day) mod Second = t mod Second) as E by (apply Z.mod_mod_divide; by exists 86400).
  unfold day_of. pose proof (Z.div_mod t Day ltac:(discriminate)).
  pose proof (Z.div_mod (t mod Day) Second ltac:(discriminate)). lia.
Qed.

(** Formatting keeps the seconds, parsing gives them back. *)
Lemma ParseRFC3339_Format t :
  0 ≤ Year t < 10000 → ParseRFC3339 (FormatRFC3339 t) = Some (t - t mod Second).
Proof.
  intros Hy. unfold FormatRFC3339. cbv zeta.
  pose proof (Month_range t) as Hm. pose proof (day_of_month t) as Hd.
  pose proof (Z.mod_pos_bound t Day Day_pos) as Hs.
  assert (0 ≤ t mod Day / Second < 86400) as Hsod
    by (unfold Day, Hour, Minute, Second in *; div_lia).
  rewrite <-(day_and_clock t). remember (t mod Day / Second) as sod eqn:E. clear E Hs.
  rewrite ParseRFC3339_pad; [|done|done|unfold daysIn; lia|div_lia..].
  f_equal. unfold Date. rewrite clock_seconds. lia.
Qed.

(** ** Months follow each other *)

(** Months by their number. *)
Lemma month_day_number y m : month_day y m = month_day 0 (12 * y + m).
Proof.
  unfold month_day. assert ((12 * y + m - 1) / 12 = y + (m - 1) / 12) as -> by div_lia.
  assert ((12 * y + m - 1) mod 12 = (m - 1) mod 12) as -> by div_lia. done.
Qed.

Lemma month_day_step k : month_day 0 k < month_day 0 (k + 1).
Proof.
  pose proof (month_length ((k - 1) / 12) ((k - 1) mod 12 + 1)) as H.
  unfold daysIn in H. rewrite !(month_day_number ((k - 1) / 12)) in H.
  replace (12 * ((k - 1) / 12) + ((k - 1) mod 12 + 1)) with k in H by div_lia.
  replace (12 * ((k - 1) / 12) + ((k - 1) mod 12 + 1 + 1)) with (k + 1) in H by div_lia.
  assert (1 ≤ (k - 1) mod 12 + 1 ≤ 12) as Hm by div_lia. specialize (H Hm). lia.
Qed.

Lemma month_day_mono j k : j ≤ k → month_day 0 j ≤ month_day 0 k.
Proof.
  intros Hjk. replace k with (j + Z.of_nat (Z.to_nat (k - j))) by lia.
  generalize (Z.to_nat (k - j)). intros n. induction n as [|n IH]; [by rewrite Z.add_0_r|].
  pose proof (month_day_step (j + Z.of_nat n)). replace (j + Z.of_nat (S n)) with (j + Z.of_nat n + 1) by lia.
  lia.
Qed.

Lemma month_number_unique d u j k : 0 < d →
  month_day 0 j * d ≤ u < month_day 0 (j + 1) * d →
  month_day 0 k * d ≤ u < month_day 0 (k + 1) * d → j = k.
Proof.
  intros Hd Hj Hk. destruct (Z.lt_trichotomy j k) as [H|[H|H]]; [|done|].
  - pose proof (month_day_mono (j + 1) k ltac:(lia)).
    pose proof (Z.mul_le_mono_nonneg_r (month_day 0 (j + 1)) (month_day 0 k) d). lia.
  - pose proof (month_day_mono (k + 1) j ltac:(lia)).
    pose proof (Z.mul_le_mono_nonneg_r (month_day 0 (k + 1)) (month_day 0 j) d). lia.
Qed.

(** Every instant of a month has its start. *)
Lemma StartOfMonth_in t u : StartOfMonth t ≤ u < AddMonth (StartOfMonth t) → StartOfMonth u = StartOfMonth t.
Proof.
  rewrite AddMonth_start. pose proof (in_month u) as Hu. revert Hu.
  unfold StartOfMonth, DateMonth.
  generalize (Year t) (Month t) (Year u) (Month u) Day_pos. generalize Day.
  intros D y m y' m' HD Hu Ht.
  rewrite (month_day_number y m), (month_day_number y (m + 1)) in Ht.
  rewrite (month_day_number y' m'), (month_day_number y' (m' + 1)) in Hu.
  rewrite Z.add_assoc in Hu, Ht.
  rewrite (month_day_number y m), (month_day_number y' m').
  by rewrite (month_number_unique D u _ _ HD Hu Ht).
Qed.
