(* ===== verification/Hmac.v ===== *)
(** * HMAC, URL base64 and number parsing

    The parts of Go's library the Stripe client calls: [hmac.New(sha256.New,
    key)], [base64.RawURLEncoding], [strings.Split], [strings.LastIndex] and
    [strconv.ParseInt].  Bytes are integers from 0 to 255. *)

From S2P Require Import Prelude GoLib Sha256 Netip.
From Stdlib Require Import Ascii.
Open Scope Z_scope.
Open Scope bool_scope.
Open Scope go_scope.

Definition of_chars (l : list ascii) : string := String.string_of_list_ascii l.

(** ** HMAC-SHA256 *)

(** A key longer than a block is hashed, a shorter one is filled with zeroes. *)
Definition hmac_key (key : list Z) : list Z :=
  let key := if (64 <? length key)%nat then sha256 key else key in
  key ++ replicate (64 - length key) 0.

Definition hmac (key msg : list Z) : list Z :=
  let k := hmac_key key in
  sha256 ((Z.lxor 92 <$> k) ++ sha256 ((Z.lxor 54 <$> k) ++ msg)).

Definition hmac_hex (key msg : string) : string := hex (hmac (bytes_of key) (bytes_of msg)).

(** RFC 4231, test cases 2 and 6. *)
Example hmac_jefe : hmac_hex "Jefe" "what do ya want for nothing?" =
  "5bdcc146bf60754e6a042426089575c75a003f089d2739839dec58b964ec3843".
Proof. vm_compute. reflexivity. Qed.
Example hmac_long_key :
  hex (hmac (replicate 131 170) (bytes_of "Test Using Larger Than Block-Size Key - Hash Key First")) =
  "60e431591ee0b67f0d8a26aacbf5b77f8e0bc6213728c5140546040f0ee37f54".
Proof. vm_compute. reflexivity. Qed.

(** ** base64.RawURLEncoding *)

Definition url64_value (c : ascii) : option Z :=
  let n := code c in
  if (65 <=? n) && (n <=? 90) then Some (n - 65) else
  if (97 <=? n) && (n <=? 122) then Some (n - 71) else
  if (48 <=? n) && (n <=? 57) then Some (n + 4) else
  if n =? 45 then Some 62 else if n =? 95 then Some 63 else None.

Definition url64_char (v : Z) : ascii :=
  char_of (if v <? 26 then v + 65 else if v <? 52 then v + 71 else
           if v <? 62 then v - 4 else if v =? 62 then 45 else 95).

(** Quanta of four characters, the last of two or three; the bits a short
    quantum leaves over are not checked. *)
Fixpoint url64_decode (s : list ascii) : option (list Z) :=
  match s with
  | [] => Some []
  | [a; b] =>
      match url64_value a, url64_value b with
      | Some va, Some vb => Some [(va * 64 + vb) / 16]
      | _, _ => None
      end
  | [a; b; c] =>
      match url64_value a, url64_value b, url64_value c with
      | Some va, Some vb, Some vc =>
          let v := (va * 64 + vb) * 64 + vc in Some [v / 1024; (v / 4) mod 256]
      | _, _, _ => None
      end
  | a :: b :: c :: d :: rest =>
      match url64_value a, url64_value b, url64_value c, url64_value d with
      | Some va, Some vb, Some vc, Some vd =>
          match url64_decode rest with
          | Some out =>
              let v := ((va * 64 + vb) * 64 + vc) * 64 + vd in
              Some (v / 65536 :: (v / 256) mod 256 :: v mod 256 :: out)
          | None => None
          end
      | _, _, _, _ => None
      end
  | _ => None
  end.

(** Line ends are ignored anywhere in the input. *)
Definition RawURLDecode (s : string) : option (list Z) :=
  url64_decode (List.filter (λ c, negb ((code c =? 13) || (code c =? 10))) (chars s)).

Fixpoint url64_encode (l : list Z) : list ascii :=
  match l with
  | [] => []
  | [a] => [url64_char (a / 4); url64_char ((a mod 4) * 16)]
  | [a; b] => [url64_char (a / 4); url64_char ((a mod 4) * 16 + b / 16); url64_char ((b mod 16) * 4)]
  | a :: b :: c :: rest =>
      url64_char (a / 4) :: url64_char ((a mod 4) * 16 + b / 16) ::
      url64_char ((b mod 16) * 4 + c / 64) :: url64_char (c mod 64) :: url64_encode rest
  end.
Definition RawURLEncode (l : list Z) : string := of_chars (url64_encode l).

Definition string_of_bytes (l : list Z) : string := of_chars (char_of <$> l).

(** ** strings *)

(** [strings.Split(s, sep)] for one separator byte. *)
Fixpoint split_chars (sep : ascii) (s : list ascii) : list (list ascii) :=
  match s with
  | [] => [[]]
  | c :: rest =>
      if c == sep then [] :: split_chars sep rest else
      match split_chars sep rest with
      | [] => [[c]]
      | field :: fields => (c :: field) :: fields
      end
  end.
Definition Split (s : string) (sep : ascii) : list string := of_chars <$> split_chars sep (chars s).

(** The parts before and after the last [sep]. *)
Fixpoint cut_last (sep : ascii) (s : list ascii) : option (list ascii * list ascii) :=
  match s with
  | [] => None
  | c :: rest =>
      match cut_last sep rest with
      | Some (a, b) => Some (c :: a, b)
      | None => if c == sep then Some ([], rest) else None
      end
  end.

(** [strings.TrimRight(s, "/")] *)
Fixpoint drop_slashes (l : list ascii) : list ascii :=
  match l with c :: rest => if c == "/"%char then drop_slashes rest else l | [] => [] end.
Definition TrimRightSlash (s : string) : string := of_chars (reverse (drop_slashes (reverse (chars s)))).

(** [strconv.ParseInt(s, 10, 64)] *)
Fixpoint digits_value (acc : Z) (s : list ascii) : option Z :=
  match s with
  | [] => Some acc
  | c :: rest => if (48 <=? code c) && (code c <=? 57)
                 then digits_value (acc * 10 + (code c - 48)) rest else None
  end.
Definition ParseInt (s : string) : option Z :=
  let '(neg, digits) := match chars s with
    | c :: rest => if c == "-"%char then (true, rest) else if c == "+"%char then (false, rest)
                   else (false, c :: rest)
    | [] => (false, [])
    end in
  match digits with
  | [] => None
  | _ => match digits_value 0 digits with
         | Some v => let v := if neg then - v else v in
                     if (int64_min <=? v) && (v <=? int64_max) then Some v else None
         | None => None
         end
  end.

(** ** Lemmas *)

Definition byte (z : Z) : Prop := 0 ≤ z < 256.

Lemma url64_value_char v : 0 ≤ v < 64 → url64_value (url64_char v) = Some v.
Proof.
  intros Hv. assert (forallb (λ n, url64_value (url64_char (Z.of_nat n)) == Some (Z.of_nat n)) (seq 0 64) = true) as H
    by (vm_compute; reflexivity).
  rewrite forallb_forall in H. specialize (H (Z.to_nat v)). rewrite Z2Nat.id in H by lia.
  apply (bool_decide_eq_true_1 _), H, in_seq. lia.
Qed.

(** A list by chunks of three. *)
Lemma chunks_ind {A} (P : list A → Prop) :
  P [] → (∀ a, P [a]) → (∀ a b, P [a; b]) → (∀ a b c l, P l → P (a :: b :: c :: l)) → ∀ l, P l.
Proof.
  intros H0 H1 H2 H3. fix IH 1. intros [|a [|b [|c l]]]; [done..|]. apply H3, IH.
Qed.

Lemma url64_decode_encode l : Forall byte l → url64_decode (url64_encode l) = Some l.
Proof.
  unfold byte. induction l as [|a|a b|a b c l IH] using chunks_ind; intros Hl; [done| | |];
    repeat match goal with H : Forall _ (_ :: _) |- _ => inversion_clear H end;
    cbn [url64_encode url64_decode]; rewrite !url64_value_char by (Z.to_euclidean_division_equations; lia).
  - do 2 f_equal. Z.to_euclidean_division_equations; lia.
  - cbv zeta. do 2 f_equal; [|f_equal]; Z.to_euclidean_division_equations; lia.
  - rewrite IH by done. cbv zeta. do 2 f_equal; [|f_equal; [|f_equal]]; Z.to_euclidean_division_equations; lia.
Qed.

Lemma chars_of_chars l : chars (of_chars l) = l.
Proof. apply String.list_ascii_of_string_of_list_ascii. Qed.
Lemma of_chars_chars s : of_chars (chars s) = s.
Proof. apply String.string_of_list_ascii_of_string. Qed.

Lemma char_of_code c : char_of (code c) = c.
Proof. unfold char_of, code. by rewrite N2Z.id, ascii_N_embedding. Qed.

Lemma code_byte c : byte (code c).
Proof. unfold byte, code. pose proof (N_ascii_bounded c). lia. Qed.

Lemma bytes_of_chars s : bytes_of s = code <$> chars s.
Proof. induction s as [|c s IH]; [done|]. cbn. by rewrite IH. Qed.

Lemma bytes_of_byte s : Forall byte (bytes_of s).
Proof. rewrite bytes_of_chars. apply Forall_fmap, Forall_true. apply code_byte. Qed.

Lemma string_of_bytes_of s : string_of_bytes (bytes_of s) = s.
Proof.
  unfold string_of_bytes. rewrite bytes_of_chars, <-list_fmap_compose.
  rewrite (list_fmap_ext (char_of ∘ code) id); [by rewrite list_fmap_id, of_chars_chars|].
  intros i c _. apply char_of_code.
Qed.

(** The alphabet has no line ends. *)
Lemma url64_char_plain v : 0 ≤ v < 64 → negb ((code (url64_char v) =? 13) || (code (url64_char v) =? 10)) = true.
Proof.
  intros Hv. assert (forallb (λ n, negb ((code (url64_char (Z.of_nat n)) =? 13) || (code (url64_char (Z.of_nat n)) =? 10)))
    (seq 0 64) = true) as H by (vm_compute; reflexivity).
  rewrite forallb_forall in H. specialize (H (Z.to_nat v)). rewrite Z2Nat.id in H by lia.
  apply H, in_seq. lia.
Qed.

Lemma url64_encode_plain l : Forall byte l →
  List.filter (λ c, negb ((code c =? 13) || (code c =? 10))) (url64_encode l) = url64_encode l.
Proof.
  unfold byte. induction l as [|a|a b|a b c l IH] using chunks_ind; intros Hl; [done| | |];
    repeat match goal with H : Forall _ (_ :: _) |- _ => inversion_clear H end;
    cbn [url64_encode List.filter]; rewrite !url64_char_plain by (Z.to_euclidean_division_equations; lia);
    [done..|]. by rewrite IH.
Qed.

Lemma RawURL_roundtrip l : Forall byte l → RawURLDecode (RawURLEncode l) = Some l.
Proof.
  intros Hl. unfold RawURLDecode, RawURLEncode. rewrite chars_of_chars, url64_encode_plain by done.
  by apply url64_decode_encode.
Qed.

(** Cutting at the only separator of the tail. *)
Lemma cut_last_none sep b : sep ∉ b → cut_last sep b = None.
Proof.
  induction b as [|c b IH]; intros Hb; [done|]. cbn. apply not_elem_of_cons in Hb as [Hc Hb].
  rewrite IH by done. by rewrite bool_decide_eq_false_2.
Qed.

Lemma cut_last_app sep a b : sep ∉ b → cut_last sep (a ++ sep :: b) = Some (a, b).
Proof.
  intros Hb. induction a as [|c a IH]; cbn.
  - rewrite cut_last_none by done. by rewrite bool_decide_eq_true_2.
  - by rewrite IH.
Qed.

Lemma cut_last_Some sep s a b : cut_last sep s = Some (a, b) → s = a ++ sep :: b ∧ sep ∉ b.
Proof.
  revert a. induction s as [|c s IH]; intros a; cbn; [done|].
  destruct (cut_last sep s) as [[a' b']|] eqn:E.
  - intros [= <- <-]. destruct (IH a' eq_refl) as [-> ?]. done.
  - destruct (bool_decide_reflect (c = sep)) as [->|]; [|done]. intros [= <- <-]. split; [done|].
    clear IH. induction s as [|d s IHs]; [apply not_elem_of_nil|]. cbn in E.
    destruct (cut_last sep s) as [[? ?]|]; [done|]. destruct (bool_decide_reflect (d = sep)); [done|].
    apply not_elem_of_cons. split; [done|by apply IHs].
Qed.

(** Digits are never an underscore. *)
Lemma hex_no_underscore l : Forall byte l → "_"%char ∉ chars (hex l).
Proof.
  assert (∀ v, 0 ≤ v < 16 → hex_digit v ≠ "_"%char) as Hd.
  { intros v Hv. assert (forallb (λ n, hex_digit (Z.of_nat n) != "_"%char) (seq 0 16) = true) as H
      by (vm_compute; reflexivity).
    rewrite forallb_forall in H. specialize (H (Z.to_nat v)). rewrite Z2Nat.id in H by lia.
    apply (bool_decide_eq_false_1 _), negb_true_iff, H, in_seq. lia. }
  unfold byte. induction l as [|b l IH]; intros Hl; [apply not_elem_of_nil|]. inversion_clear Hl. cbn.
  rewrite !not_elem_of_cons. split_and!; [| |by apply IH]; apply not_eq_sym, Hd; Z.to_euclidean_division_equations; lia.
Qed.

Lemma be_bytes_byte n z : Forall byte (be_bytes n z).
Proof.
  induction n as [|n IH]; cbn [be_bytes]; constructor; [|done]. unfold byte. apply Z.mod_pos_bound. lia.
Qed.

Lemma sha256_byte msg : Forall byte (sha256 msg).
Proof.
  unfold sha256. generalize (blocks (length (words (padded msg))) initial_hash (words (padded msg))).
  intros l. induction l as [|z l IH]; [constructor|]. cbn [flat_map]. apply Forall_app. split; [apply be_bytes_byte|done].
Qed.

Lemma flat_bytes_length l : length (flat_map (be_bytes 4) l) = (4 * length l)%nat.
Proof. induction l as [|z l IH]; [done|]. cbn [flat_map]. rewrite length_app, IH. cbn. lia. Qed.

Lemma round_length h kw : length (round h kw) = length h.
Proof. by destruct h as [|? [|? [|? [|? [|? [|? [|? [|? [|? ?]]]]]]]]]. Qed.

Lemma compress_length h block : length (compress h block) = length h.
Proof.
  unfold compress. cbv zeta. rewrite length_zip_with. generalize (zip round_constants (rev (schedule 48 (rev block)))).
  intros l. assert (length (foldl round h l) = length h) as E; [|lia].
  revert h. induction l as [|kw l IH]; intros h; cbn; [done|]. by rewrite IH, round_length.
Qed.

(** A digest has 32 bytes. *)
Lemma sha256_length msg : length (sha256 msg) = 32%nat.
Proof.
  unfold sha256. cbv zeta. rewrite flat_bytes_length. generalize (words (padded msg)). intros ws.
  assert (∀ fuel h ws, length (blocks fuel h ws) = length h) as Hb.
  { induction fuel as [|fuel IH]; intros h [|w l]; cbn [blocks]; try done. by rewrite IH, compress_length. }
  rewrite Hb. reflexivity.
Qed.

Lemma hmac_length k m : length (hmac k m) = 32%nat.
Proof. apply sha256_length. Qed.
