(* ===== verification/Entitlements.v ===== *)
(** * Entitlements: from subscriptions to billing profiles and quotas

    [api/entitlements.go], [api/free_quota.go], [api/subscription_validity.go]
    and [api/annual_quota.go]: the handlers that turn the state of a
    subscription into the profile and quota rows of an account, the downgrade
    to the free plan, the sweep that takes expired access away, and the monthly
    grants of annual plans.

    A handler runs several store operations.  It is written in the error and
    state monad [M]: [x ← m; k] runs [k] on the result of [m], or stops with
    the error of [m] and the state it left.  [clk] is the wall clock during the
    call, [newV7] the identifier generated for an account. *)

From S2P Require Import Prelude GoLib Calendar StoreData Users Lifecycle Finance Referral Quota Access GoTime.
Open Scope Z_scope.
Open Scope bool_scope.
Open Scope go_scope.

(** ** The monad of a handler *)

Definition M (S A : Type) : Type := S → result error A * S.
#[export] Instance M_ret {S} : MRet (M S) := λ A a s, (Ok a, s).
#[export] Instance M_bind {S} : MBind (M S) := λ A B f m s,
  match m s with (Ok a, s) => f a s | (Err e, s) => (Err e, s) end.

Definition fails {S A} (e : error) : M S A := λ s, (Err e, s).
Definition gets {S A} (f : S → A) : M S A := λ s, (Ok (f s), s).
Definition modify {S} (f : S → S) : M S () := λ s, (Ok tt, f s).
(** A read whose error is returned. *)
Definition reads {S A} (f : S → result error A) : M S A := λ s, (f s, s).
(** A read for which [err] only means that there is nothing. *)
Definition reads_opt {S A} (err : error) (f : S → result error A) : M S (option A) := λ s,
  match f s with
  | Ok a => (Ok (Some a), s)
  | Err e => if e == err then (Ok None, s) else (Err e, s)
  end.
(** An operation whose error is handled. *)
Definition attempt {S A} (op : M S A) : M S (result error A) := λ s,
  let '(r, s) := op s in (Ok r, s).
(** An operation that also returns the caller's struct. *)
Definition of_op {S A B} (op : S → result error A * B * S) : M S B := λ s,
  match op s with (Ok _, b, s) => (Ok b, s) | (Err e, _, s) => (Err e, s) end.

Lemma M_bind_Ok {S A B} (m : M S A) (f : A → M S B) s b s' :
  (m ≫= f) s = (Ok b, s') ↔ ∃ a s1, m s = (Ok a, s1) ∧ f a s1 = (Ok b, s').
Proof.
  unfold mbind, M_bind. destruct (m s) as [[a|e] s1]; split.
  - eauto.
  - by intros (? & ? & [= <- <-] & ?).
  - done.
  - by intros (? & ? & ? & ?).
Qed.

(** ** Quota groups *)

Definition quota_group (group : string) : bool :=
  (group == MonthlyFreeQuotaLimitGroup) || (group == MonthlyPlusQuotaLimitGroup) ||
  (group == MonthlyUnlimitedBetaQuotaGroup).

(** The groups a downgrade to the free plan takes away. *)
Definition paid_group (group : string) : bool :=
  quota_group group || (group == SubscriptionListedGroup) || (group == "segment:subscribed") ||
  (group == "segment:monthly") || (group == "segment:yearly") ||
  (group == "segment:subscription:monthly") || (group == "segment:subscription:yearly").

(** The groups the sweep takes away first. *)
Definition lapsed_group (group : string) : bool :=
  quota_group group || (group == "segment:subscribed") || (group == "segment:monthly") ||
  (group == "segment:yearly").

Definition segment_free : string := "segment:free".

(** [normalizeGroups]: the same function as [normalizeStringSlice]. *)
Definition normalizeGroups (values : list string) : list string := normalize_from [] values.

(** ** Plans and quotas *)

Definition defaultFreeQuotaBytes : Z := 5 * 1024 * 1024 * 1024.
Definition subscriptionGracePeriod : duration := 14 * 24 * Hour.
Definition missingStripePeriodRetryWindow : duration := 24 * Hour.

Definition naturalMonthPeriod (now : time) : time * time :=
  let start := StartOfMonth now in (start, AddMonth start).

(** The stand-in for a catalogue without a free plan. *)
Definition default_free_plan : BillingPlan :=
  mkBillingPlan BillingPlanFree "" "" "" defaultFreeQuotaBytes "default" 0 "" "" ∅ ∅ 0 true 0 0 0.

Definition plan_version (planID : string) : string := ("plan:" +:+ planID)%string.
Definition package_of (plan : BillingPlan) : string :=
  let name := TrimSpace (plan_PackageName plan) in if name == "" then "default" else name.

Section entitlements.
Context `{MapOrder}.

Definition resolveBillingPlan (priceID planID : string) (s : memoryStore) : result error BillingPlan :=
  let by_plan :=
    if TrimSpace planID == "" then Err ErrBillingPlanNotFound else GetBillingPlan s planID in
  if TrimSpace priceID == "" then by_plan else
  match GetBillingPlanByPriceID s priceID with
  | Ok plan => Ok plan
  | Err e => if e == ErrBillingPlanNotFound then by_plan else Err e
  end.

Definition applyPlanEntitlements (clk : time) (userID : string) (plan : BillingPlan)
    : M memoryStore () :=
  if TrimSpace userID == "" then mret tt else
  base ← gets (λ s, match GetAccountBillingProfile s userID with
                    | Ok existing => prof_BasePricePerByte existing
                    | Err _ => float_zero
                    end);
  UpsertAccountBillingProfile clk (Some (mkAccountBillingProfile userID (package_of plan)
    (plan_IncludedQuotaBytes plan) base (Multiplier (Some plan) "region")
    (Multiplier (Some plan) "line") (Multiplier (Some plan) "peak")
    (Multiplier (Some plan) "offpeak") (plan_version (plan_PlanID plan)) 0 0)).

(** The quota row of an account, if it has one. *)
Definition quota_state (clk : time) (userID : string) : M memoryStore (option AccountQuotaState) :=
  λ s, match GetAccountQuotaState clk userID s with
       | (Ok q, s) => (Ok (Some q), s)
       | (Err e, s) => if e == ErrUserNotFound then (Ok None, s) else (Err e, s)
       end.

Definition clear_arrears (q : AccountQuotaState) : AccountQuotaState :=
  q <| quota_Arrears := false |> <| quota_ArrearsSince := None |>
    <| quota_ThrottleState := "normal" |> <| quota_SuspendState := "active" |>.

(** [periodBounds] is used when it holds exactly two ordered instants. *)
Definition resetQuotaForPlan (clk : time) (userID : string) (plan : BillingPlan)
    (periodBounds : list time) : M memoryStore () :=
  if TrimSpace userID == "" then mret tt else
  existing ← attempt (GetAccountQuotaState clk userID);
  let state := match existing with Ok q => q | Err _ => emptyQuota userID end in
  let '(start, end_) :=
    match periodBounds with
    | [a; b] => if After b a then (a, b) else naturalMonthPeriod clk
    | _ => naturalMonthPeriod clk
    end in
  UpsertAccountQuotaState clk (Some ((clear_arrears state)
    <| quota_RemainingIncludedQuota := plan_IncludedQuotaBytes plan |>
    <| quota_PeriodStart := Some start |> <| quota_PeriodEnd := Some end_ |>
    <| quota_EffectiveAt := clk |>)).

(** The state already holds the grant of the period. *)
Definition same_grant (q : AccountQuotaState) (start end_ : time) : bool :=
  match quota_PeriodStart q, quota_PeriodEnd q with
  | Some a, Some b => negb (Before a start) && Before a end_ && Equal b end_
  | _, _ => false
  end.
Definition in_good_standing (q : AccountQuotaState) : bool :=
  negb (quota_Arrears q) && (quota_ArrearsSince q == None) &&
  (quota_ThrottleState q == "normal") && (quota_SuspendState q == "active").

Definition resetQuotaForPlanOnce (clk : time) (userID : string) (plan : BillingPlan)
    (start end_ : time) : M memoryStore () :=
  state ← quota_state clk userID;
  match state with
  | Some q =>
      if same_grant q start end_ then
        if in_good_standing q then mret tt
        else UpsertAccountQuotaState clk (Some ((clear_arrears q) <| quota_EffectiveAt := clk |>))
      else resetQuotaForPlan clk userID plan [start; end_]
  | None => resetQuotaForPlan clk userID plan [start; end_]
  end.

Definition applyPlanUpgradeQuota (clk : time) (userID : string) (previousIncluded upgradedIncluded : Z)
    (start end_ : time) : M memoryStore () :=
  UpgradeSubscriptionQuota clk userID previousIncluded upgradedIncluded start end_.

(** Used only after a new account has been created. *)
Definition provisionFreeEntitlement (clk : time) (userID : string) : M memoryStore () :=
  if TrimSpace userID == "" then mret tt else
  profile ← reads_opt ErrUserNotFound (λ s, GetAccountBillingProfile s userID);
  quota ← quota_state clk userID;
  match profile, quota with
  | Some _, Some _ => mret tt
  | _, _ =>
      found ← reads_opt ErrBillingPlanNotFound (λ s, GetBillingPlan s BillingPlanFree);
      let plan := default default_free_plan found in
      if negb (plan_Active plan) then mret tt else
      _ ← (match profile with Some _ => mret tt | None => applyPlanEntitlements clk userID plan end);
      match quota with
      | Some _ => mret tt
      | None => let '(start, end_) := naturalMonthPeriod clk in
                resetQuotaForPlan clk userID plan [start; end_]
      end
  end.

Definition restoreQuotaGroupForPlan (clk : time) (newV7 : string → result error string)
    (userID : string) (plan : BillingPlan) : M memoryStore () :=
  if plan_IncludedQuotaBytes plan <=? defaultFreeQuotaBytes then mret tt else
  user ← reads (λ s, GetUserByID s userID);
  if MonthlyQuotaGroup user != MonthlyFreeQuotaLimitGroup then mret tt else
  let groups := List.filter (λ g, negb (quota_group g)) (user_Groups user) ++
                [MonthlyPlusQuotaLimitGroup] in
  _ ← of_op (UpdateUser (newV7 userID) clk (user <| user_Groups := normalizeGroups groups |>));
  mret tt.

(** Repeated failures of one episode do not move its start. *)
Definition markAccountArrears (clk : time) (userID : string) : M memoryStore () :=
  if TrimSpace userID == "" then mret tt else
  existing ← attempt (GetAccountQuotaState clk userID);
  let state := match existing with
    | Ok q => q <| quota_ArrearsSince := match quota_ArrearsSince q with
                                          | Some t => Some t | None => Some clk end |>
    | Err _ => (emptyQuota userID) <| quota_ThrottleState := "normal" |>
                 <| quota_SuspendState := "active" |> <| quota_ArrearsSince := Some clk |>
                 <| quota_EffectiveAt := clk |>
    end in
  UpsertAccountQuotaState clk (Some (state <| quota_Arrears := true |>)).

(** ** The downgrade to the free plan *)

(** The account is on the free plan and has the grant of this month. *)
Definition already_downgraded (plan : BillingPlan) (profile : option AccountBillingProfile)
    (quota : option AccountQuotaState) (start end_ : time) : bool :=
  match profile, quota with
  | Some p, Some q =>
      (prof_PricingRuleVersion p == plan_version BillingPlanFree) &&
      (prof_PackageName p == package_of plan) &&
      (prof_IncludedQuotaBytes p =? plan_IncludedQuotaBytes plan) &&
      match quota_PeriodStart q, quota_PeriodEnd q with
      | Some a, Some b => Equal a start && Equal b end_
      | _, _ => false
      end
  | _, _ => false
  end.

(** What the account keeps of the free allowance: usage carries over, except
    into a month after a period of the free plan. *)
Definition free_remaining (plan : BillingPlan) (profile : option AccountBillingProfile)
    (quota : option AccountQuotaState) (start : time) : Z :=
  let included := plan_IncludedQuotaBytes plan in
  match profile, quota with
  | Some p, Some q =>
      let alreadyFree := (prof_PricingRuleVersion p == plan_version BillingPlanFree) &&
        match quota_PeriodStart q, quota_PeriodEnd q with
        | Some _, Some e => negb (After e start)
        | _, _ => false
        end in
      if alreadyFree then included else
      let used := int64 (prof_IncludedQuotaBytes p - quota_RemainingIncludedQuota q) in
      let used := if used <? 0 then 0 else used in
      int64 (included - used)
  | None, Some q =>
      if quota_RemainingIncludedQuota q <? included then quota_RemainingIncludedQuota q else included
  | _, None => included
  end.

(** The row written; a downgrade does not settle a suspension. *)
Definition free_quota (clk : time) (userID : string) (quota : option AccountQuotaState)
    (remaining : Z) (start end_ : time) : AccountQuotaState :=
  let q := default (emptyQuota userID) quota in
  q <| quota_RemainingIncludedQuota := remaining |> <| quota_Arrears := false |>
    <| quota_ArrearsSince := None |> <| quota_ThrottleState := "normal" |>
    <| quota_SuspendState := if quota_SuspendState q != "suspended" then "active" else quota_SuspendState q |>
    <| quota_PeriodStart := Some start |> <| quota_PeriodEnd := Some end_ |>
    <| quota_EffectiveAt := clk |>.

Definition free_groups (drop : string → bool) (groups : list string) : list string :=
  normalizeGroups (List.filter (λ g, negb (drop g)) groups ++
                   [MonthlyFreeQuotaLimitGroup; segment_free]).

(** The account loses its paid groups. *)
Definition free_user (clk : time) (newV7 : string → result error string) (userID : string)
    : M memoryStore () :=
  user ← reads_opt ErrUserNotFound (λ s, GetUserByID s userID);
  match user with
  | Some u =>
      _ ← of_op (UpdateUser (newV7 userID) clk
            (u <| user_Groups := free_groups paid_group (user_Groups u) |>));
      mret tt
  | None => mret tt
  end.

(** Its rows become those of the free plan, unless they are already. *)
Definition free_rows (clk : time) (userID : string) : M memoryStore () :=
  found ← reads_opt ErrBillingPlanNotFound (λ s, GetBillingPlan s BillingPlanFree);
  let plan := default default_free_plan found in
  profile ← reads_opt ErrUserNotFound (λ s, GetAccountBillingProfile s userID);
  quota ← quota_state clk userID;
  let '(start, end_) := naturalMonthPeriod clk in
  if already_downgraded plan profile quota start end_ then mret tt else
  _ ← applyPlanEntitlements clk userID plan;
  UpsertAccountQuotaState clk
    (Some (free_quota clk userID quota (free_remaining plan profile quota start) start end_)).

Definition downgradeToFreePlan (clk : time) (newV7 : string → result error string)
    (userID : string) : M memoryStore () :=
  if TrimSpace userID == "" then mret tt else
  _ ← free_user clk newV7 userID;
  free_rows clk userID.

(** ** Validity granted by an administrator *)

(** The end date is inclusive. *)
Definition subscriptionValidityExpired (user : User) (now : time) : bool :=
  match user_SubscriptionValidUntil user with
  | None => false
  | Some until => negb (Before now (next_midnight until))
  end.

Definition subscriptionValidityActive (user : User) (now : time) : bool :=
  match user_SubscriptionValidUntil user with
  | None => false
  | Some until =>
      if match user_SubscriptionValidFrom user with
         | Some from => Before now from | None => false end then false
      else Before now (next_midnight until)
  end.

Definition activeListedSubscriptionGrant (user : User) (now : time) : bool :=
  subscriptionValidityActive user now && contains (user_Groups user) SubscriptionListedGroup.

(** ** Periods of a Stripe subscription *)

Definition subscriptionMetaTime (meta : gmap string any) (key : string) : time :=
  match meta !! key with
  | Some (AStr value) => default 0 (ParseRFC3339 (TrimSpace value))
  | _ => 0
  end.

Definition missingStripePeriodRetryExpired (sub : Subscription) (now : time) : bool :=
  let firstObserved := if IsZero (sub_CreatedAt sub) then sub_UpdatedAt sub else sub_CreatedAt sub in
  negb (IsZero firstObserved) && negb (Before now (Add firstObserved missingStripePeriodRetryWindow)).

Definition subscriptionEffectivePeriodEnd (s : memoryStore) (sub : Subscription) : time :=
  let base := subscriptionMetaTime (sub_Meta sub) "expiresAt" in
  let extended := ReferralExtensionEnd s (sub_ID sub) in
  if IsZero extended then base else extended.

(** The account is in arrears since a known instant. *)
Definition arrears_since (quota : option AccountQuotaState) : option time :=
  match quota with
  | Some q => if quota_Arrears q then quota_ArrearsSince q else None
  | None => None
  end.
Definition payment_grace_expired (quota : option AccountQuotaState) (now : time) : bool :=
  match arrears_since quota with
  | Some since => negb (Before now (Add since subscriptionGracePeriod))
  | None => false
  end.
Definition grace_active (quota : option AccountQuotaState) (now : time) : bool :=
  match arrears_since quota with
  | Some since => Before now (Add since subscriptionGracePeriod)
  | None => false
  end.

(** ** Refunds and trials *)

(** Another subscription of the account still grants access. *)
Definition other_access (now : time) (quota : option AccountQuotaState) (refundedID : string)
    (sub : Subscription) : bool :=
  if negb (EqualFold (sub_Provider sub) "stripe") || negb (EqualFold (sub_Kind sub) "subscription") ||
     (TrimSpace (sub_ExternalID sub) == TrimSpace refundedID) then false else
  let status := ToLower (TrimSpace (sub_Status sub)) in
  let graceActive := grace_active quota now in
  if status == "past_due" then (arrears_since quota == None) || graceActive else
  if (status == "active") || (status == "trialing") || (status == "canceling") then
    let periodEnd := subscriptionMetaTime (sub_Meta sub) "expiresAt" in
    IsZero periodEnd || Before now periodEnd || graceActive
  else false.

Definition revokeRefundedSubscription (clk : time) (newID : string)
    (newV7 : string → result error string) (userID refundedID : string) : M memoryStore () :=
  subs ← reads (λ s, ListSubscriptionsByUser s userID);
  match List.find (λ sub, TrimSpace (sub_ExternalID sub) == TrimSpace refundedID) subs with
  | None => mret tt
  | Some sub =>
      _ ← of_op (UpsertSubscription newID clk (Some (sub <| sub_Status := "refunded" |>)));
      user ← reads_opt ErrUserNotFound (λ s, GetUserByID s userID);
      if match user with Some u => activeListedSubscriptionGrant u clk | None => false end
      then mret tt else
      quota ← quota_state clk userID;
      if existsb (other_access clk quota refundedID) subs then mret tt else
      downgradeToFreePlan clk newV7 userID
  end.

(** Failures are logged and ignored. *)
Definition supersedeActiveTrials (clk : time) (newID : string) (userID : string) (s : memoryStore)
    : memoryStore :=
  match ListSubscriptionsByUser s userID with
  | Err _ => s
  | Ok subs => foldl (λ s sub,
      if negb (EqualFold (TrimSpace (sub_Kind sub)) "trial") ||
         negb (EqualFold (TrimSpace (sub_Status sub)) "active") then s
      else (UpsertSubscription newID clk (Some (sub <| sub_Status := "superseded" |>)) s).2) s subs
  end.

Definition publishBillingEvent (clk : time) (event : BillingEvent) (s : memoryStore) : memoryStore :=
  (PublishBillingEvent clk (Some event) s).2.

(** ** The free period *)

Definition ensureFreeQuotaPeriod (user : User) (now : time) (s : memoryStore) : memoryStore :=
  if negb (IsMonthlyFreeQuotaLimitMember user) then s else
  let '(start, end_) := naturalMonthPeriod now in
  ResetFreeQuotaPeriod (user_ID user) start end_ now s.

Definition quotaExhaustedForUser (clk : time) (user : User) : M memoryStore bool :=
  if negb (IsMonthlyQuotaLimitMember user clk) then mret false else
  profile ← reads_opt ErrUserNotFound (λ s, GetAccountBillingProfile s (user_ID user));
  match profile with
  | None => mret false
  | Some p =>
      if prof_IncludedQuotaBytes p <=? 0 then mret false else
      quota ← quota_state clk (user_ID user);
      mret (match quota with None => true | Some q => quota_RemainingIncludedQuota q <=? 0 end)
  end.

(** ** Taking expired access away *)

Definition is_stripe_subscription (sub : Subscription) : bool :=
  EqualFold (TrimSpace (sub_Provider sub)) "stripe" &&
  EqualFold (TrimSpace (sub_Kind sub)) "subscription".

Definition cancelled_status (status : string) : bool :=
  (status == "canceling") || (status == "cancelled") || (status == "canceled").

(** The body of the loop for one subscription; [None] is [return nil], which
    leaves the account as it is. *)
Definition lapse (now : time) (quota : option AccountQuotaState) (s : memoryStore)
    (sub : Subscription) (shouldDowngrade : bool) : option bool :=
  if negb (is_stripe_subscription sub) then Some shouldDowngrade else
  let status := ToLower (TrimSpace (sub_Status sub)) in
  let periodEnd := subscriptionEffectivePeriodEnd s sub in
  let graceExpired := payment_grace_expired quota now in
  if (status == "active") || (status == "trialing") then
    if IsZero periodEnd then
      if negb (missingStripePeriodRetryExpired sub now) then None else Some true
    else if Before now periodEnd then None
    else if (arrears_since quota != None) && negb graceExpired then None
    else Some true
  else if status == "past_due" then
    if negb (IsZero periodEnd) && Before now periodEnd then None
    else if (arrears_since quota == None) || negb graceExpired then None
    else Some true
  else if cancelled_status status then
    let periodEnd := match sub_CancelledAt sub with
                     | Some t => if IsZero periodEnd then t else periodEnd
                     | None => periodEnd
                     end in
    if IsZero periodEnd then
      if negb (missingStripePeriodRetryExpired sub now) then None else Some true
    else if Before now periodEnd then None
    else Some true
  else Some shouldDowngrade.

Fixpoint lapses (now : time) (quota : option AccountQuotaState) (s : memoryStore)
    (subs : list Subscription) (shouldDowngrade : bool) : option bool :=
  match subs with
  | [] => Some shouldDowngrade
  | sub :: rest =>
      match lapse now quota s sub shouldDowngrade with
      | None => None
      | Some shouldDowngrade => lapses now quota s rest shouldDowngrade
      end
  end.

Definition reconcileSubscriptionAccessAt (clk : time) (newV7 : string → result error string)
    (user : User) (now : time) : M memoryStore () :=
  _ ← modify (ensureFreeQuotaPeriod user now);
  quota ← quota_state clk (user_ID user);
  subs ← reads (λ s, ListSubscriptionsByUser s (user_ID user));
  decision ← gets (λ s, lapses now quota s subs
    (subscriptionValidityExpired user now || payment_grace_expired quota now));
  match decision with
  | None => mret tt
  | Some shouldDowngrade =>
      if subscriptionValidityActive user now then mret tt else
      if negb shouldDowngrade then mret tt else
      _ ← (if MonthlyQuotaGroup user != MonthlyFreeQuotaLimitGroup then
             _ ← of_op (UpdateUser (newV7 (user_ID user)) clk
                   (user <| user_Groups := free_groups lapsed_group (user_Groups user) |>)); mret tt
           else mret tt);
      downgradeToFreePlan clk newV7 (user_ID user)
  end.

Definition ensureExpiredSubscriptionDowngrade (clk : time) (newV7 : string → result error string)
    (user : User) : M memoryStore () := reconcileSubscriptionAccessAt clk newV7 user clk.

(** ** Editing a validity period *)

Definition parseSubscriptionDate (value : option string) : result error (option time) :=
  match value with
  | None => Ok None
  | Some value =>
      if TrimSpace value == "" then Ok None else
      match ParseDate (TrimSpace value) with
      | Some t => Ok (Some t)
      | None => Err (ErrMsg "date must use YYYY-MM-DD")
      end
  end.

(** The handler after the permission check and the decoding of the body. *)
Definition updateSubscriptionValidity (clk : time) (newV7 : string → result error string)
    (userParam : string) (validFrom validUntil : option string) (s : memoryStore)
    : response * memoryStore :=
  let userID := TrimSpace userParam in
  if userID == "" then ((400, "userId_required"), s) else
  match parseSubscriptionDate validFrom, parseSubscriptionDate validUntil with
  | Err _, _ | _, Err _ => ((400, "invalid_date"), s)
  | Ok from, Ok until =>
      if match from, until with Some a, Some b => Before b a | _, _ => false end
      then ((400, "invalid_date_range"), s) else
      match GetUserByID s userID with
      | Err e => (if e == ErrUserNotFound then (404, "user_not_found")
                  else (500, "user_lookup_failed"), s)
      | Ok user =>
          if IsRootRole (user_Role user) then ((403, "root_protected"), s) else
          let user := user <| user_SubscriptionValidFrom := from |>
                           <| user_SubscriptionValidUntil := until |> in
          match UpdateUser (newV7 userID) clk user s with
          | (Err _, _, s) => ((500, "update_failed"), s)
          | (Ok _, user, s) =>
              match ensureExpiredSubscriptionDowngrade clk newV7 user s with
              | (Err _, s) => ((500, "downgrade_failed"), s)
              | (Ok _, s) => ((200, "subscription validity updated"), s)
              end
          end
      end
  end.

(** ** The sweep *)

Definition subscriptionSweepPageSize : Z := 100.
Definition subscriptionSweepMaxUsers : Z := 500.

(** What the sweep returns: the cursor, the number of accounts and the error. *)
Definition sweep_result : Type := string * Z * option error.

(** One page; [clk] is the wall clock while an account is processed. *)
Fixpoint sweep_users (clk : string → time) (newV7 : string → result error string) (now : time)
    (page : list User) (cursor : string) (processed : Z) (s : memoryStore)
    : sweep_result * memoryStore :=
  match page with
  | [] => ((cursor, processed, None), s)
  | user :: rest =>
      match reconcileSubscriptionAccessAt (clk (user_ID user)) newV7 user now s with
      | (Err e, s) => ((cursor, processed, Some e), s)
      | (Ok _, s) => sweep_users clk newV7 now rest (user_ID user) (processed + 1) s
      end
  end.

(** The outer loop; [None] when the rounds run out. *)
Fixpoint sweep_pages (rounds : nat) (clk : string → time) (newV7 : string → result error string)
    (now : time) (maxUsers : Z) (cursor : string) (processed : Z) (s : memoryStore)
    : option sweep_result * memoryStore :=
  if negb (processed <? maxUsers) then (Some (cursor, processed, None), s) else
  match rounds with
  | O => (None, s)
  | S rounds =>
      let limit := Z.min subscriptionSweepPageSize (maxUsers - processed) in
      match ListUsersPage s cursor limit with
      | Err e => (Some (cursor, processed, Some e), s)
      | Ok page =>
          if (length page =? 0)%nat then (Some (EmptyString, processed, None), s) else
          match sweep_users clk newV7 now page cursor processed s with
          | ((cursor, processed, Some e), s) => (Some (cursor, processed, Some e), s)
          | ((cursor, processed, None), s) =>
              if Z.of_nat (length page) <? limit then (Some (EmptyString, processed, None), s)
              else sweep_pages rounds clk newV7 now maxUsers cursor processed s
          end
      end
  end.

(** Every round handles at least one account, so [maxUsers] rounds are enough. *)
Definition ReconcileSubscriptionAccessBatch (clk : string → time)
    (newV7 : string → result error string) (now : time) (afterID : string) (maxUsers : Z)
    (s : memoryStore) : option sweep_result * memoryStore :=
  if (maxUsers <=? 0) || (subscriptionSweepMaxUsers <? maxUsers)
  then (Some (afterID, 0, Some (ErrMsg "subscription sweep batch limit is out of range")), s)
  else sweep_pages (Z.to_nat maxUsers) clk newV7 now maxUsers afterID 0 s.

(** ** Monthly grants of annual plans *)

Definition annual_status (status : string) : bool :=
  (status == "active") || (status == "canceling") || (status == "past_due").

(** The annual plan of a subscription. *)
Definition annual_plan (s : memoryStore) (sub : Subscription) : option BillingPlan :=
  if negb (EqualFold (sub_Provider sub) "stripe") || negb (EqualFold (sub_Kind sub) "subscription") ||
     negb (annual_status (ToLower (TrimSpace (sub_Status sub)))) then None else
  match GetBillingPlan s (sub_PlanID sub) with
  | Ok plan => if EqualFold (TrimSpace (plan_PriceUnit plan)) "year" then Some plan else None
  | Err _ => None
  end.

(** Its service runs: a past-due subscription has only the time that was paid
    and the grace period. *)
Definition annual_service (now : time) (quota : option AccountQuotaState) (s : memoryStore)
    (sub : Subscription) : bool :=
  if ToLower (TrimSpace (sub_Status sub)) == "past_due" then
    let periodEnd := ReferralExtensionEnd s (sub_ID sub) in
    (negb (IsZero periodEnd) && Before now periodEnd) || grace_active quota now
  else
    let periodEnd := subscriptionEffectivePeriodEnd s sub in
    if IsZero periodEnd then negb (missingStripePeriodRetryExpired sub now) else Before now periodEnd.

(** The stored period is not over. *)
Definition grant_current (quota : option AccountQuotaState) (now : time) : bool :=
  match quota with
  | Some q => match quota_PeriodEnd q with Some e => After e now | None => false end
  | None => false
  end.

(** The allowance of the month; arrears stay. *)
Definition annual_quota (now : time) (userID : string) (quota : option AccountQuotaState)
    (plan : BillingPlan) : AccountQuotaState :=
  let '(start, end_) := naturalMonthPeriod now in
  (default (emptyQuota userID) quota)
    <| quota_RemainingIncludedQuota := plan_IncludedQuotaBytes plan |>
    <| quota_PeriodStart := Some start |> <| quota_PeriodEnd := Some end_ |>
    <| quota_EffectiveAt := now |>.

(** The subscriptions of one account; the result says whether it was granted. *)
Fixpoint annual_subs (clk now : time) (userID : string) (subs : list Subscription)
    : M memoryStore bool :=
  match subs with
  | [] => mret false
  | sub :: rest =>
      plan ← gets (λ s, annual_plan s sub);
      match plan with
      | None => annual_subs clk now userID rest
      | Some plan =>
          quota ← attempt (GetAccountQuotaState clk userID);
          let quota := match quota with Ok q => Some q | Err _ => None end in
          service ← gets (λ s, annual_service now quota s sub);
          if negb service then annual_subs clk now userID rest else
          if grant_current quota now then mret false else
          _ ← UpsertAccountQuotaState clk (Some (annual_quota now userID quota plan));
          mret true
      end
  end.

Fixpoint annual_users (clk : string → time) (now : time) (users : list User) (reset : Z)
    (s : memoryStore) : (Z * option error) * memoryStore :=
  match users with
  | [] => ((reset, None), s)
  | user :: rest =>
      match ListSubscriptionsByUser s (user_ID user) with
      | Err e => ((reset, Some e), s)
      | Ok subs =>
          match annual_subs (clk (user_ID user)) now (user_ID user) subs s with
          | (Err e, s) => ((reset, Some e), s)
          | (Ok granted, s) => annual_users clk now rest (if granted then reset + 1 else reset) s
          end
      end
  end.

Definition ReconcileAnnualPlanQuotas (clk : string → time) (now : time) (s : memoryStore)
    : (Z * option error) * memoryStore :=
  annual_users clk now (ListUsers s) 0 s.
End entitlements.
