(* ===== verification/EntitlementProps.v ===== *)
(** * Entitlements: proofs

    What a downgrade to the free plan leaves behind, when the sweep takes
    access away and when it must not, that the sweep visits every account, and
    that the monthly grants of annual plans are given once. *)

From S2P Require Import Prelude GoLib Calendar StoreData Users Lifecycle Finance Referral Quota GoTime.
From S2P Require Import Entitlements.
Open Scope Z_scope.
Open Scope bool_scope.
Open Scope go_scope.

(** ** Steps of the monad *)

Lemma bind_unfold {S A B} (m : M S A) (f : A → M S B) s :
  (m ≫= f) s = match m s with (Ok a, s1) => f a s1 | (Err e, s1) => (Err e, s1) end.
Proof. done. Qed.

(** ** Updating an account *)

(** Only the account tables differ. *)
Definition touches_accounts (s s' : memoryStore) : Prop :=
  ∃ us bi bn be, s' = s <| users := us |> <| byID := bi |> <| byName := bn |> <| byEmail := be |>.

Lemma touches_accounts_refl s : touches_accounts s s.
Proof. exists (users s), (byID s), (byName s), (byEmail s). by destruct s. Qed.

Lemma touches_accounts_trans s1 s2 s3 :
  touches_accounts s1 s2 → touches_accounts s2 s3 → touches_accounts s1 s3.
Proof.
  intros (a & b & c & d & ->) (a' & b' & c' & d' & ->). exists a', b', c', d'. by destruct s1.
Qed.

Lemma touches_users s x : touches_accounts s (s <| users := x |>).
Proof. exists x, (byID s), (byName s), (byEmail s). by destruct s. Qed.
Lemma touches_byID s x : touches_accounts s (s <| byID := x |>).
Proof. exists (users s), x, (byName s), (byEmail s). by destruct s. Qed.
Lemma touches_byName s x : touches_accounts s (s <| byName := x |>).
Proof. exists (users s), (byID s), x, (byEmail s). by destruct s. Qed.
Lemma touches_byEmail s x : touches_accounts s (s <| byEmail := x |>).
Proof. exists (users s), (byID s), (byName s), x. by destruct s. Qed.

(** One table after the other. *)
Ltac touches :=
  repeat first [ apply touches_accounts_refl
               | eapply touches_accounts_trans; [|apply touches_users]
               | eapply touches_accounts_trans; [|apply touches_byID]
               | eapply touches_accounts_trans; [|apply touches_byName]
               | eapply touches_accounts_trans; [|apply touches_byEmail] ].

Lemma normalize_groups u :
  user_Groups (normalizeUserRoleFields u) = normalizeStringSlice (user_Groups u).
Proof.
  unfold normalizeUserRoleFields. by destruct (roleToLevel _); [|destruct (levelToRole _)].
Qed.

Lemma UpdateUser_touches newV7 now user s : touches_accounts s (UpdateUser newV7 now user s).2.
Proof.
  unfold UpdateUser. destruct (user_by_id s (user_ID user)) as [existing|]; [|apply touches_accounts_refl].
  cbv zeta. destruct (_ == _); [apply touches_accounts_refl|].
  destruct ((_ != _) && bool_decide (is_Some _)); [apply touches_accounts_refl|].
  set (s2 := if ToLower (user_Name existing) != _ then _ else s).
  assert (touches_accounts s s2) as H2.
  { subst s2. destruct (_ != _); [|apply touches_accounts_refl].
    touches. }
  clearbody s2. destruct ((_ != _) && _ && _); [done|].
  set (s3 := if _ && _ then _ else s2).
  assert (touches_accounts s s3) as H3.
  { apply (touches_accounts_trans _ s2); [done|]. subst s3.
    destruct (_ && _); [|apply touches_accounts_refl].
    touches. }
  clearbody s3. destruct (ensureProxyUUID _ _ _) as [u|]; [|done]. cbn [snd].
  apply (touches_accounts_trans _ s3); [done|]. unfold alloc_user. cbn [fst snd].
  destruct (_ == _); touches.
Qed.

(** The account after a successful update. *)
Lemma UpdateUser_stored newV7 now user s out s' :
  UpdateUser newV7 now user s = (Ok tt, out, s') →
  ∃ existing u, user_by_id s (user_ID user) = Some existing ∧
    user_by_id s' (user_ID user) = Some u ∧ out = assignUser u ∧
    user_Groups u = normalizeStringSlice
      (PreserveAgentFreeGrantGroups (user_Groups existing) (user_Groups user)).
Proof.
  unfold UpdateUser. destruct (user_by_id s (user_ID user)) as [existing|]; [|done].
  cbv zeta. destruct (_ == _); [done|].
  destruct ((_ != _) && bool_decide (is_Some _)); [done|].
  set (s2 := if ToLower (user_Name existing) != _ then _ else s). clearbody s2.
  destruct ((_ != _) && _ && _); [done|].
  set (s3 := if _ && _ then _ else s2). clearbody s3.
  destruct (ensureProxyUUID _ _ _) as [u|] eqn:Ep; [|done].
  set (u' := finishUpdate now existing user u). unfold alloc_user. cbn [fst snd]. intros [= <- <-].
  exists existing, u'. split; [done|]. split; [|split; [done|]].
  - unfold user_by_id, user_at. destruct (ToLower (TrimSpace (user_Email user)) == ""); getset;
      rewrite lookup_insert_eq; cbn; by rewrite lookup_insert_eq.
  - assert (user_Groups u = PreserveAgentFreeGrantGroups (user_Groups existing) (user_Groups user)) as Eg.
    { unfold ensureProxyUUID in Ep. destruct (_ == _); [destruct newV7; [|done]|];
        injection Ep as <-; by getset. }
    subst u'. unfold finishUpdate. cbv zeta. getset. rewrite normalize_groups. getset. by rewrite Eg.
Qed.

(** ** Reading a quota row *)

(** Reading expires a reset of the administrator whose period is over: the row
    moves to the current month and keeps its standing. *)
Definition month_row (now : time) (remaining : Z) (q : AccountQuotaState) : AccountQuotaState :=
  q <| quota_RemainingIncludedQuota := remaining |>
    <| quota_PeriodStart := Some (StartOfMonth now) |>
    <| quota_PeriodEnd := Some (AddMonth (StartOfMonth now)) |>
    <| quota_EffectiveAt := now |> <| quota_UpdatedAt := now |>.

Lemma expire_cases id now s :
  expireMonthlyUsageResetLocked id now s = s ∨
  ∃ q a b remaining, accountQuotaStates s !! id = Some q ∧
    quota_PeriodStart q = Some a ∧ quota_PeriodEnd q = Some b ∧ b ≤ now ∧
    expireMonthlyUsageResetLocked id now s =
      s <| accountQuotaStates := <[id := month_row now remaining q]> (accountQuotaStates s) |>.
Proof.
  unfold expireMonthlyUsageResetLocked.
  destruct (accountQuotaStates s !! id) as [q|]; [|by left].
  destruct (accountBillingProfiles s !! id) as [p|]; [|by left].
  destruct (quota_PeriodStart q) as [a|] eqn:Ea; [|by left].
  destruct (quota_PeriodEnd q) as [b|] eqn:Eb; [|by left].
  unfold After. destruct (now <? b) eqn:Hb; [by left|]. apply Z.ltb_ge in Hb.
  destruct (negb _); [by left|]. right.
  exists q, a, b. eexists. split_and!; done.
Qed.

Lemma quota_state_eq clk id s : TrimSpace id = id →
  quota_state clk id s =
    (Ok (accountQuotaStates (expireMonthlyUsageResetLocked id clk s) !! id),
     expireMonthlyUsageResetLocked id clk s).
Proof.
  intros Ht. unfold quota_state, GetAccountQuotaState. rewrite Ht.
  destruct (accountQuotaStates s !! id) as [q|] eqn:Eq.
  - destruct (expire_cases id clk s) as [E|(q' & a & b & r & _ & _ & _ & _ & E)]; rewrite E; getset.
    + by rewrite Eq.
    + by rewrite lookup_insert_eq.
  - assert (expireMonthlyUsageResetLocked id clk s = s) as ->
      by (unfold expireMonthlyUsageResetLocked; by rewrite Eq).
    by rewrite Eq, bool_decide_eq_true_2.
Qed.

(** The row read, and everything else, in terms of the state before. *)
Lemma expire_rows id clk s :
  ∃ m, expireMonthlyUsageResetLocked id clk s = s <| accountQuotaStates := m |> ∧
    (∀ k, k ≠ id → m !! k = accountQuotaStates s !! k) ∧
    (m !! id = accountQuotaStates s !! id ∨
     ∃ q r, accountQuotaStates s !! id = Some q ∧ m !! id = Some (month_row clk r q)).
Proof.
  destruct (expire_cases id clk s) as [E|(q & a & b & r & Eq & _ & _ & _ & E)]; rewrite E.
  - exists (accountQuotaStates s). split_and!; [by destruct s|done|by left].
  - eexists. split; [reflexivity|]. split.
    + intros k Hk. by rewrite lookup_insert_ne.
    + right. exists q, r. by rewrite lookup_insert_eq.
Qed.

(** A row that a read at [clk] leaves alone. *)
Lemma expire_same id clk s q e :
  accountQuotaStates s !! id = Some q → quota_PeriodEnd q = Some e → clk < e →
  expireMonthlyUsageResetLocked id clk s = s.
Proof.
  intros Eq Ee Hlt. destruct (expire_cases id clk s) as [E|(q' & a & b & r & Eq' & _ & Eb & Hb & _)]; [done|].
  assert (q' = q) as -> by congruence. assert (b = e) as -> by congruence. lia.
Qed.

(** Reading twice is reading once. *)
Lemma expire_idem id clk s :
  expireMonthlyUsageResetLocked id clk (expireMonthlyUsageResetLocked id clk s) =
  expireMonthlyUsageResetLocked id clk s.
Proof.
  destruct (expire_cases id clk s) as [E|(q & a & b & r & Eq & _ & _ & _ & E)]; rewrite E; [done|].
  eapply expire_same; [getset; by rewrite lookup_insert_eq|reflexivity|apply month_period].
Qed.

(** ** The downgrade to the free plan *)

Definition free_plan (s : memoryStore) : BillingPlan :=
  default default_free_plan (billingPlans s !! BillingPlanFree).

(** Plans are stored under their identifier, quota rows under their account. *)
Definition rows_ok (s : memoryStore) : Prop :=
  (∀ k p, billingPlans s !! k = Some p → plan_PlanID p = k) ∧
  (∀ k q, accountQuotaStates s !! k = Some q → TrimSpace (quota_AccountUUID q) = k).

Lemma rows_ok_new b : rows_ok (newMemoryStore b).
Proof. split; intros k x H; cbn in H; by rewrite lookup_empty in H. Qed.

Lemma UpsertBillingPlan_plans now plan s k p :
  (∀ k p, billingPlans s !! k = Some p → plan_PlanID p = k) →
  billingPlans (UpsertBillingPlan now plan s).2 !! k = Some p → plan_PlanID p = k.
Proof.
  intros Hs. unfold UpsertBillingPlan. destruct plan as [plan|]; [|apply Hs].
  destruct (_ == _); [apply Hs|]. cbv zeta. getset.
  destruct (negb _); cbn [snd]; getset; rewrite lookup_insert_Some; intros [[<- <-]|[_ H]];
    first [by getset|by apply Hs].
Qed.

Lemma free_plan_ext s s' : billingPlans s' = billingPlans s → free_plan s' = free_plan s.
Proof. unfold free_plan. by intros ->. Qed.

Lemma free_plan_id s : rows_ok s → plan_PlanID (free_plan s) = BillingPlanFree.
Proof.
  intros [Hp _]. unfold free_plan. destruct (billingPlans s !! BillingPlanFree) eqn:E; [|done].
  by apply Hp.
Qed.

Lemma rows_ok_expire id clk s : rows_ok s → rows_ok (expireMonthlyUsageResetLocked id clk s).
Proof.
  intros [Hp Hq]. destruct (expire_rows id clk s) as (m & -> & Hne & Hid). split; getset; [done|].
  intros k q Hk. destruct (decide (k = id)) as [->|Hn].
  - destruct Hid as [E|(q0 & r & E & E')].
    + apply Hq. by rewrite <-E.
    + rewrite E' in Hk. injection Hk as <-. unfold month_row. getset. by apply Hq.
  - apply Hq. by rewrite <-Hne.
Qed.

Lemma rows_ok_accounts s s' : touches_accounts s s' → rows_ok s → rows_ok s'.
Proof. intros (? & ? & ? & ? & ->) [Hp Hq]. split; by getset. Qed.

(** The profile of a plan. *)
Definition plan_profile (clk : time) (id : string) (plan : BillingPlan) (s : memoryStore)
    : AccountBillingProfile :=
  mkAccountBillingProfile id (package_of plan) (plan_IncludedQuotaBytes plan)
    (match GetAccountBillingProfile s id with
     | Ok existing => prof_BasePricePerByte existing | Err _ => float_zero end)
    (Multiplier (Some plan) "region") (Multiplier (Some plan) "line") (Multiplier (Some plan) "peak")
    (Multiplier (Some plan) "offpeak") (plan_version (plan_PlanID plan)) clk clk.

Lemma applyPlanEntitlements_eq clk id plan s : TrimSpace id = id → id ≠ "" →
  applyPlanEntitlements clk id plan s =
    (Ok tt, s <| accountBillingProfiles := <[id := plan_profile clk id plan s]> (accountBillingProfiles s) |>).
Proof.
  intros Ht Hne. unfold applyPlanEntitlements. rewrite Ht, bool_decide_eq_false_2 by done.
  unfold mbind, M_bind, gets, UpsertAccountBillingProfile, plan_profile. cbv zeta. getset.
  cbn [prof_AccountUUID]. by rewrite ?Ht.
Qed.

(** *** Groups *)

Lemma elem_of_normalize seen l x :
  x ∈ normalize_from seen l ↔ x ∉ seen ∧ x ≠ "" ∧ ∃ v, v ∈ l ∧ TrimSpace v = x.
Proof.
  revert seen. induction l as [|v l IH]; intros seen; cbn [normalize_from].
  { split; [by intros ?%not_elem_of_nil|]. by intros (_ & _ & v & ?%not_elem_of_nil & _). }
  assert ((∃ w, (w ∈ v :: l) ∧ TrimSpace w = x) ↔
    (TrimSpace v = x ∨ ∃ w, w ∈ l ∧ TrimSpace w = x)) as ->.
  { setoid_rewrite elem_of_cons. naive_solver. }
  cbv zeta.
  destruct (bool_decide (TrimSpace v = "")) eqn:E1; bools.
  { rewrite IH. intuition congruence. }
  destruct (contains seen (TrimSpace v)) eqn:E2.
  { apply contains_spec in E2. rewrite IH. intuition congruence. }
  assert (TrimSpace v ∉ seen) as E3 by (rewrite <-contains_spec; by rewrite E2).
  rewrite elem_of_cons, IH, not_elem_of_cons.
  destruct (decide (x = TrimSpace v)) as [->|Hne]; [naive_solver|intuition congruence].
Qed.

Lemma paid_not_grant g : paid_group g = true → is_free_grant g = false ∧ TrimSpace g = g.
Proof.
  unfold paid_group, quota_group. rewrite !orb_true_iff, !bool_decide_eq_true.
  intros H. repeat destruct H as [H|H]; rewrite H; split; vm_compute; reflexivity.
Qed.

(** The two sets of groups that are taken away: quota groups, and others of the
    paid groups. *)
Definition drops (drop : string → bool) : Prop :=
  (∀ g, quota_group g = true → drop g = true) ∧ (∀ g, drop g = true → paid_group g = true).

Lemma drops_paid : drops paid_group.
Proof. split; [|done]. intros g Hg. unfold paid_group. by rewrite Hg. Qed.

Lemma drops_lapsed : drops lapsed_group.
Proof.
  split; intros g; unfold lapsed_group, paid_group; [by intros ->|].
  rewrite !orb_true_iff. tauto.
Qed.

(** The groups of an account after its downgrade. *)
Lemma free_groups_spec drop existing groups :
  drops drop → (∀ g, g ∈ groups → TrimSpace g = g) →
  let after := normalizeStringSlice (PreserveAgentFreeGrantGroups existing (free_groups drop groups)) in
  (∀ g, g ∈ after → TrimSpace g = g) ∧
  (∀ g, g ∈ after → drop g = true → g = MonthlyFreeQuotaLimitGroup) ∧
  MonthlyFreeQuotaLimitGroup ∈ after ∧
  (∀ g, g ∈ groups → g ≠ "" → drop g = false → is_free_grant g = false → g ∈ after).
Proof.
  intros [_ Hd] Ht after.
  assert (∀ g, g ∈ after ↔ g ≠ "" ∧ ∃ v, TrimSpace v = g ∧
    (v ∈ free_groups drop groups ∧ is_free_grant v = false ∨
     ∃ w, TrimSpace w = v ∧ w ∈ existing ∧ is_free_grant w = true)) as Ha.
  { intros g. subst after. unfold normalizeStringSlice, PreserveAgentFreeGrantGroups.
    rewrite elem_of_normalize. setoid_rewrite elem_of_app. setoid_rewrite list_elem_of_fmap.
    setoid_rewrite list_elem_of_filter. split.
    - intros (_ & ? & v & [[? ?]|(w & ? & ? & ?)] & Ev); (split; [done|]); exists v; eauto 10.
    - intros (? & v & Ev & [[? ?]|(w & ? & ? & ?)]); split_and!; try apply not_elem_of_nil; try done;
        exists v; eauto 10. }
  assert (∀ g, g ∈ free_groups drop groups ↔ g ≠ "" ∧
    (g ∈ groups ∧ drop g = false ∨ g = MonthlyFreeQuotaLimitGroup ∨ g = segment_free)) as Hf.
  { intros g. unfold free_groups, normalizeGroups. rewrite elem_of_normalize.
    setoid_rewrite elem_of_app. setoid_rewrite elem_of_cons. setoid_rewrite list_elem_of_singleton.
    setoid_rewrite list_elem_of_In. setoid_rewrite filter_In. setoid_rewrite <-list_elem_of_In. split.
    - intros (_ & ? & v & [[Hv Hp]|[-> | ->]] & <-); (split; [done|]).
      + left. rewrite (Ht v Hv) in *. by apply negb_true_iff in Hp.
      + by right; left.
      + by right; right.
    - intros (? & [[Hv Hp]|[-> | ->]]); split_and!; try done; try apply not_elem_of_nil.
      + exists g. split; [left|by apply Ht]. by rewrite Hp.
      + exists MonthlyFreeQuotaLimitGroup. auto.
      + exists segment_free. auto. }
  split_and!.
  - intros g (_ & v & <- & _)%Ha. apply TrimSpace_idem.
  - intros g (_ & v & Ev & Hv)%Ha Hp. destruct (paid_not_grant g (Hd g Hp)) as [Hng Htg].
    destruct Hv as [[(_ & [[Hv Hpv]|[-> | ->]])%Hf _]|(w & Ew & _ & Hw)].
    + rewrite (Ht v Hv) in Ev. congruence.
    + by rewrite <-Ev.
    + rewrite <-Ev in Hp. by apply Hd in Hp.
    + unfold is_free_grant in Hng, Hw. rewrite Htg, <-Ev, <-Ew, TrimSpace_idem in Hng. congruence.
  - apply Ha. split; [done|]. exists MonthlyFreeQuotaLimitGroup. split; [done|]. left.
    split; [|done]. apply Hf. auto.
  - intros g Hg Hne Hp Hng. apply Ha. split; [done|]. exists g. split; [by apply Ht|]. left.
    split; [|done]. apply Hf. auto.
Qed.

Lemma known_group g k :
  List.find (λ known, TrimSpace g == known) monthlyQuotaGroups = Some k →
  TrimSpace g = g → quota_group g = true ∧ k = g.
Proof.
  intros F Ht. apply find_some in F as [Hin Hk]. apply bool_decide_eq_true in Hk.
  rewrite Ht in Hk. subst k. split; [|done].
  unfold quota_group. rewrite !orb_true_iff, !bool_decide_eq_true.
  cbn in Hin. destruct Hin as [<-|[<-|[<-|[]]]]; auto.
Qed.

Lemma free_quota_group l :
  (∀ g, g ∈ l → TrimSpace g = g) → (∀ g, g ∈ l → quota_group g = true → g = MonthlyFreeQuotaLimitGroup) →
  MonthlyFreeQuotaLimitGroup ∈ l → quota_group_of l = MonthlyFreeQuotaLimitGroup.
Proof.
  induction l as [|g l IH]; intros Ht Hq Hin; [by apply not_elem_of_nil in Hin|].
  cbn [quota_group_of]. destruct (List.find _ monthlyQuotaGroups) as [k|] eqn:F.
  - destruct (known_group g k F) as [Hg ->]; [apply Ht; by left|]. apply Hq; [by left|done].
  - apply elem_of_cons in Hin as [<-|Hin]; [by vm_compute in F|].
    apply IH; [| |done]; intros; [apply Ht|apply Hq]; try done; by right.
Qed.

(** *** The whole downgrade *)

(** The groups of the account itself. *)
Definition groups_dropped (drop : string → bool) (id : string) (s s' : memoryStore) : Prop :=
  ∀ u, GetUserByID s id = Ok u →
  ∃ u', GetUserByID s' id = Ok u' ∧
    MonthlyQuotaGroup u' = MonthlyFreeQuotaLimitGroup ∧
    (∀ g, g ∈ user_Groups u' → drop g = true → g = MonthlyFreeQuotaLimitGroup) ∧
    (∀ g, g ∈ user_Groups u → drop g = false → is_free_grant g = false → g ∈ user_Groups u').
Definition user_downgraded : string → memoryStore → memoryStore → Prop := groups_dropped paid_group.

Lemma normalized_trim l g : g ∈ normalizeStringSlice l → TrimSpace g = g ∧ g ≠ "".
Proof. intros (_ & ? & v & _ & <-)%elem_of_normalize. split; [apply TrimSpace_idem|done]. Qed.

Lemma normalize_trimmed l :
  (∀ g, g ∈ l → TrimSpace g = g) → ∀ g, g ∈ normalizeStringSlice l ↔ g ∈ l ∧ g ≠ "".
Proof.
  intros Ht g. unfold normalizeStringSlice. rewrite elem_of_normalize. split.
  - intros (_ & ? & v & Hv & <-). by rewrite (Ht v Hv) in *.
  - intros [Hg ?]. split_and!; [apply not_elem_of_nil|done|]. exists g. auto.
Qed.

Lemma GetUserByID_groups s id u : GetUserByID s id = Ok u →
  ∃ v, user_by_id s id = Some v ∧ user_ID u = user_ID v ∧
    user_Groups u = normalizeStringSlice (user_Groups v).
Proof.
  unfold GetUserByID, found. change (user_at s (byID s) id) with (user_by_id s id).
  destruct (user_by_id s id) as [v|]; [|done]. intros [= <-]. exists v.
  split; [done|]. split; [apply clone_ID|apply normalize_groups].
Qed.

Lemma update_groups_dropped drop newV7 clk id s u out s' :
  drops drop → GetUserByID s id = Ok u → user_ID u = id →
  UpdateUser newV7 clk (u <| user_Groups := free_groups drop (user_Groups u) |>) s = (Ok tt, out, s') →
  groups_dropped drop id s s'.
Proof.
  intros Hd G Hid U u0 G0. assert (u0 = u) as -> by congruence.
  apply UpdateUser_stored in U as (old & w & Hold & Hw & _ & Hg).
  destruct (GetUserByID_groups _ _ _ G) as (v & Hv & _ & Hgv).
  assert (user_ID (u <| user_Groups := free_groups drop (user_Groups u) |>) = id) as Ei by (by getset).
  rewrite Ei in *. assert (old = v) as -> by congruence.
  revert Hg. getset. intros Hg.
  destruct (free_groups_spec drop (user_Groups v) (user_Groups u) Hd) as (Ft & Fp & Ff & Fk).
  { intros g Hin. rewrite Hgv in Hin. by apply normalized_trim in Hin as [? _]. }
  cbv zeta in Ft, Fp, Ff, Fk. rewrite <-Hg in Ft, Fp, Ff, Fk.
  exists (cloneUser w). split.
  { unfold GetUserByID, found. change (user_at s' (byID s') id) with (user_by_id s' id). by rewrite Hw. }
  assert (∀ g, g ∈ user_Groups (cloneUser w) ↔ g ∈ user_Groups w ∧ g ≠ "") as Hc.
  { intros g. unfold cloneUser. rewrite normalize_groups. by apply normalize_trimmed. }
  split_and!.
  - unfold MonthlyQuotaGroup. apply free_quota_group.
    + intros g [? _]%Hc. by apply Ft.
    + intros g [? _]%Hc Hq. apply Fp; [done|]. by apply Hd.
    + by apply Hc.
  - intros g [? _]%Hc ?. by apply Fp.
  - intros g Hin Hp Hng. assert (TrimSpace g = g ∧ g ≠ "") as [_ Hne]
      by (apply (normalized_trim (user_Groups v)); by rewrite <-Hgv).
    apply Hc. split; [|done]. by apply Fk.
Qed.

Lemma reads_opt_user s id :
  reads_opt ErrUserNotFound (λ s, GetUserByID s id) s =
    (Ok (match GetUserByID s id with Ok u => Some u | Err _ => None end), s).
Proof. unfold reads_opt, GetUserByID, found. by destruct (user_at s (byID s) id). Qed.

Lemma reads_opt_profile s id : TrimSpace id = id →
  reads_opt ErrUserNotFound (λ s, GetAccountBillingProfile s id) s =
    (Ok (accountBillingProfiles s !! id), s).
Proof.
  intros Ht. unfold reads_opt, GetAccountBillingProfile. rewrite Ht.
  destruct (accountBillingProfiles s !! id); [done|]. by rewrite bool_decide_eq_true_2.
Qed.

Lemma reads_opt_free_plan s :
  reads_opt ErrBillingPlanNotFound (λ s, GetBillingPlan s BillingPlanFree) s =
    (Ok (billingPlans s !! BillingPlanFree), s).
Proof.
  unfold reads_opt, GetBillingPlan. change (normalizePlanID BillingPlanFree) with BillingPlanFree.
  destruct (billingPlans s !! BillingPlanFree); [done|]. by rewrite bool_decide_eq_true_2.
Qed.

Lemma free_user_spec clk newV7 id s r s' :
  index_ok s → free_user clk newV7 id s = (r, s') →
  touches_accounts s s' ∧ (r = Ok tt → user_downgraded id s s' ∧ index_ok s').
Proof.
  intros Hs. unfold free_user. rewrite bind_unfold, reads_opt_user.
  destruct (GetUserByID s id) as [u|e] eqn:G.
  2:{ intros [= <- <-]. split; [apply touches_accounts_refl|]. intros _. split; [|done]. intros u. by rewrite G. }
  rewrite bind_unfold. unfold of_op. pose proof (UpdateUser_touches (newV7 id) clk
    (u <| user_Groups := free_groups paid_group (user_Groups u) |>) s) as Htouch.
  destruct (UpdateUser _ _ _ s) as [[[[]|e] out] s1] eqn:U; cbn [snd] in Htouch; intros [= <- <-];
    (split; [done|]); [|done]. intros _. split; [|by apply UpdateUser_index_ok in U].
  eapply update_groups_dropped; [apply drops_paid|done| |done].
  destruct (GetUserByID_groups _ _ _ G) as (v & Hv & -> & _).
  by apply user_by_id_spec in Hv as [? _].
Qed.

(** The rows after the downgrade. *)
Definition free_rows_after (clk : time) (id : string) (s : memoryStore) : memoryStore :=
  let s2 := expireMonthlyUsageResetLocked id clk s in
  let plan := free_plan s in
  let p := accountBillingProfiles s !! id in
  let q := accountQuotaStates s2 !! id in
  let start := StartOfMonth clk in
  let end_ := AddMonth start in
  if already_downgraded plan p q start end_ then s2 else
  let q' := free_quota clk id q (free_remaining plan p q start) start end_ in
  s2 <| accountBillingProfiles := <[id := plan_profile clk id plan s2]> (accountBillingProfiles s2) |>
     <| accountQuotaStates := <[TrimSpace (quota_AccountUUID q') := q' <| quota_UpdatedAt := clk |>
          <| quota_EffectiveAt := or_now clk (quota_EffectiveAt q') |>]> (accountQuotaStates s2) |>.

Lemma free_rows_eq clk id s : TrimSpace id = id → id ≠ "" →
  free_rows clk id s = (Ok tt, free_rows_after clk id s).
Proof.
  intros Ht Hne. unfold free_rows. rewrite bind_unfold, reads_opt_free_plan. cbv zeta.
  change (default default_free_plan (billingPlans s !! BillingPlanFree)) with (free_plan s).
  rewrite bind_unfold, reads_opt_profile by done.
  rewrite bind_unfold, quota_state_eq by done. unfold naturalMonthPeriod, free_rows_after. cbv zeta.
  generalize (expireMonthlyUsageResetLocked id clk s). intros s2.
  destruct (already_downgraded _ _ _ _ _); [done|].
  rewrite bind_unfold, applyPlanEntitlements_eq by done. unfold UpsertAccountQuotaState. cbv zeta.
  generalize (free_quota clk id (accountQuotaStates s2 !! id) (free_remaining (free_plan s)
    (accountBillingProfiles s !! id) (accountQuotaStates s2 !! id) (StartOfMonth clk))
    (StartOfMonth clk) (AddMonth (StartOfMonth clk))). intros q'. getset. reflexivity.
Qed.

(** *** What the rows say *)

(** The rows of the free plan for the month of [clk]. *)
Definition on_free_plan (clk : time) (id : string) (s : memoryStore) : Prop :=
  ∃ p q, accountBillingProfiles s !! id = Some p ∧ accountQuotaStates s !! id = Some q ∧
    prof_PricingRuleVersion p = plan_version BillingPlanFree ∧
    prof_PackageName p = package_of (free_plan s) ∧
    prof_IncludedQuotaBytes p = plan_IncludedQuotaBytes (free_plan s) ∧
    quota_PeriodStart q = Some (StartOfMonth clk) ∧
    quota_PeriodEnd q = Some (AddMonth (StartOfMonth clk)).

Lemma on_free_plan_intro clk id s s' p q :
  billingPlans s' = billingPlans s →
  accountBillingProfiles s' !! id = Some p → accountQuotaStates s' !! id = Some q →
  prof_PricingRuleVersion p = plan_version BillingPlanFree →
  prof_PackageName p = package_of (free_plan s) →
  prof_IncludedQuotaBytes p = plan_IncludedQuotaBytes (free_plan s) →
  quota_PeriodStart q = Some (StartOfMonth clk) →
  quota_PeriodEnd q = Some (AddMonth (StartOfMonth clk)) → on_free_plan clk id s'.
Proof. intros E. intros. exists p, q. by rewrite (free_plan_ext s s' E). Qed.

(** Usage carries over into the free plan, except into a month after a period
    of the free plan; a suspension stays. *)
Definition usage_carried (clk : time) (p0 : AccountBillingProfile) (q0 : AccountQuotaState)
    (p : AccountBillingProfile) (q : AccountQuotaState) : Prop :=
  (prof_IncludedQuotaBytes p - quota_RemainingIncludedQuota q =
     prof_IncludedQuotaBytes p0 - quota_RemainingIncludedQuota q0 ∨
   prof_PricingRuleVersion p0 = plan_version BillingPlanFree ∧
     (∃ e, quota_PeriodEnd q0 = Some e ∧ e ≤ StartOfMonth clk) ∧
     quota_RemainingIncludedQuota q = prof_IncludedQuotaBytes p) ∧
  (quota_SuspendState q0 = "suspended" → quota_SuspendState q = "suspended").

Lemma already_downgraded_spec plan p q start end_ :
  already_downgraded plan p q start end_ = true ↔
  ∃ p' q', p = Some p' ∧ q = Some q' ∧ prof_PricingRuleVersion p' = plan_version BillingPlanFree ∧
    prof_PackageName p' = package_of plan ∧ prof_IncludedQuotaBytes p' = plan_IncludedQuotaBytes plan ∧
    quota_PeriodStart q' = Some start ∧ quota_PeriodEnd q' = Some end_.
Proof.
  unfold already_downgraded, Equal. destruct p as [p|], q as [q|].
  2,3,4: split; [done|]; intros (? & ? & ? & ? & _); congruence.
  rewrite !andb_true_iff, !bool_decide_eq_true, Z.eqb_eq. split.
  - intros [[[H1 H2] H3] H4]. exists p, q.
    destruct (quota_PeriodStart q) as [a|], (quota_PeriodEnd q) as [b|]; try done.
    apply andb_true_iff in H4 as [->%Z.eqb_eq ->%Z.eqb_eq]. split_and!; done.
  - intros (? & ? & [= <-] & [= <-] & H1 & H2 & H3 & -> & ->). by rewrite !Z.eqb_refl.
Qed.

(** The row that is written. *)
Lemma free_quota_fields clk id q r start end_ :
  let q' := free_quota clk id q r start end_ in
  quota_AccountUUID q' = quota_AccountUUID (default (emptyQuota id) q) ∧
  quota_RemainingIncludedQuota q' = r ∧ quota_PeriodStart q' = Some start ∧
  quota_PeriodEnd q' = Some end_ ∧
  (quota_SuspendState (default (emptyQuota id) q) = "suspended" → quota_SuspendState q' = "suspended").
Proof.
  cbv zeta. unfold free_quota. cbv zeta. generalize (default (emptyQuota id) q). intros q1.
  split_and!; [by getset..|]. intros Hq. getset. rewrite Hq. by rewrite bool_decide_eq_true_2.
Qed.

Lemma free_remaining_usage plan p0 q0 start :
  0 ≤ quota_RemainingIncludedQuota q0 ≤ prof_IncludedQuotaBytes p0 →
  prof_IncludedQuotaBytes p0 ≤ int64_max → 0 ≤ plan_IncludedQuotaBytes plan ≤ int64_max →
  let r := free_remaining plan (Some p0) (Some q0) start in
  plan_IncludedQuotaBytes plan - r = prof_IncludedQuotaBytes p0 - quota_RemainingIncludedQuota q0 ∨
  prof_PricingRuleVersion p0 = plan_version BillingPlanFree ∧
    (∃ e, quota_PeriodEnd q0 = Some e ∧ e ≤ start) ∧ r = plan_IncludedQuotaBytes plan.
Proof.
  intros H1 H2 H3. cbv zeta. unfold free_remaining. cbv zeta.
  destruct (_ && _) eqn:E.
  - right. apply andb_true_iff in E as [E1%bool_decide_eq_true E2]. split; [done|]. split; [|done].
    destruct (quota_PeriodStart q0), (quota_PeriodEnd q0) as [e|]; try done.
    exists e. split; [done|]. unfold After in E2. lia.
  - left. unfold int64_max in *.
    rewrite (int64_id (prof_IncludedQuotaBytes p0 - _)) by (unfold in_int64, int64_min, int64_max; lia).
    assert ((prof_IncludedQuotaBytes p0 - quota_RemainingIncludedQuota q0 <? 0) = false) as -> by lia.
    rewrite int64_id by (unfold in_int64, int64_min, int64_max; lia). lia.
Qed.

Lemma rows_written (s : memoryStore) m ps qs :
  s <| accountQuotaStates := m |> <| accountBillingProfiles := ps |> <| accountQuotaStates := qs |> =
  s <| accountBillingProfiles := ps |> <| accountQuotaStates := qs |>.
Proof. by destruct s. Qed.

(** The rows of [free_rows_after], and the rest of the store. *)
Lemma free_rows_after_spec clk id s : rows_ok s → TrimSpace id = id →
  let s' := free_rows_after clk id s in
  on_free_plan clk id s' ∧
  (∃ ps qs, s' = s <| accountBillingProfiles := ps |> <| accountQuotaStates := qs |> ∧
    ∀ k, k ≠ id → ps !! k = accountBillingProfiles s !! k ∧ qs !! k = accountQuotaStates s !! k) ∧
  ∀ p0 q0 p q, accountBillingProfiles s !! id = Some p0 →
    accountQuotaStates (expireMonthlyUsageResetLocked id clk s) !! id = Some q0 →
    0 ≤ quota_RemainingIncludedQuota q0 ≤ prof_IncludedQuotaBytes p0 →
    prof_IncludedQuotaBytes p0 ≤ int64_max → 0 ≤ plan_IncludedQuotaBytes (free_plan s) ≤ int64_max →
    accountBillingProfiles s' !! id = Some p → accountQuotaStates s' !! id = Some q →
    usage_carried clk p0 q0 p q.
Proof.
  intros Hr Ht. cbv zeta. unfold free_rows_after. cbv zeta.
  pose proof (rows_ok_expire id clk s Hr) as [_ Hk].
  destruct (expire_rows id clk s) as (m & E & Hm & _).
  remember (expireMonthlyUsageResetLocked id clk s) as s2 eqn:E2. clear E2. subst s2.
  destruct (already_downgraded _ _ _ _ _) eqn:A.
  - apply already_downgraded_spec in A as (p & q & Ep & Eq & A). split_and!.
    + destruct A as (A1 & A2 & A3 & A4 & A5). by apply (on_free_plan_intro clk id s _ p q).
    + exists (accountBillingProfiles s), m. split; [by destruct s|]. intros k Hne. split; [done|by apply Hm].
    + intros p0 q0 p' q' Ep0 Eq0 _ _ _ Ep' Eq'. getset.
      assert (p' = p0) as -> by congruence. assert (q' = q0) as -> by congruence. split; [by left|done].
  - set (r := free_remaining _ _ _ _). set (q' := free_quota _ _ _ _ _ _).
    destruct (free_quota_fields clk id (accountQuotaStates (s <| accountQuotaStates := m |>) !! id) r
      (StartOfMonth clk) (AddMonth (StartOfMonth clk))) as (Fu & Fr & Fs & Fe & Fx).
    fold q' in Fu, Fr, Fs, Fe, Fx.
    assert (TrimSpace (quota_AccountUUID q') = id) as Ek.
    { rewrite Fu. destruct (accountQuotaStates _ !! id) as [q0|] eqn:Eq; [by apply Hk|done]. }
    clearbody q'. rewrite Ek. getset. split_and!.
    + eapply (on_free_plan_intro clk id s); [by getset|by getset; rewrite lookup_insert_eq
        |by getset; rewrite lookup_insert_eq| |done|done|by getset|by getset].
      cbn [plan_profile prof_PricingRuleVersion]. f_equal. by apply (free_plan_id s).
    + eexists _, _. split; [apply rows_written|]. intros k Hne. rewrite !lookup_insert_ne by done.
      split; [done|by apply Hm].
    + intros p0 q0 p q Ep0 Eq0 H1 H2 H3. rewrite !lookup_insert_eq. intros [= <-] [= <-].
      subst r. getset. rewrite Ep0, Eq0 in Fr. rewrite Eq0 in Fx. split; getset; [|done]. rewrite Fr.
      cbn [plan_profile prof_IncludedQuotaBytes].
      destruct (free_remaining_usage (free_plan s) p0 q0 (StartOfMonth clk) H1 H2 H3) as [Hu|(Hv & He & Hu)];
        [by left|right]. done.
Qed.

Lemma user_downgraded_ext id s s1 s2 :
  users s2 = users s1 → byID s2 = byID s1 → user_downgraded id s s1 → user_downgraded id s s2.
Proof.
  intros Eu Ei H u Hu. destruct (H u Hu) as (u' & G & H'). exists u'. split; [|done].
  unfold GetUserByID, user_at in *. by rewrite Eu, Ei.
Qed.

(** On the free plan for the month, a downgrade leaves the rows alone. *)
Lemma free_rows_idem clk clk' id s :
  on_free_plan clk id s → StartOfMonth clk ≤ clk' < AddMonth (StartOfMonth clk) →
  free_rows_after clk' id s = s.
Proof.
  intros (p & q & Ep & Eq & Hv & Hpk & Hi & Ha & Hb) Hm.
  unfold free_rows_after. cbv zeta. rewrite (StartOfMonth_in clk clk') by done.
  rewrite (expire_same id clk' s q _ Eq Hb) by lia.
  assert (already_downgraded (free_plan s) (accountBillingProfiles s !! id)
    (accountQuotaStates s !! id) (StartOfMonth clk) (AddMonth (StartOfMonth clk)) = true) as ->; [|done].
  apply already_downgraded_spec. by exists p, q.
Qed.

Lemma on_free_plan_accounts clk id s s' :
  touches_accounts s s' → on_free_plan clk id s → on_free_plan clk id s'.
Proof.
  intros (? & ? & ? & ? & ->) (p & q & Ep & Eq & A1 & A2 & A3 & A4 & A5).
  apply (on_free_plan_intro clk id s _ p q); by getset.
Qed.

Lemma downgrade_split clk newV7 id s r s' :
  index_ok s → TrimSpace id = id → id ≠ "" →
  downgradeToFreePlan clk newV7 id s = (r, s') →
  ∃ s1, touches_accounts s s1 ∧
    (r = Ok tt ∧ (user_downgraded id s s1 ∧ index_ok s1) ∧ s' = free_rows_after clk id s1 ∨
     (∃ e, r = Err e) ∧ s' = s1).
Proof.
  intros Hs Ht Hne. unfold downgradeToFreePlan. rewrite Ht, bool_decide_eq_false_2 by done.
  rewrite bind_unfold. destruct (free_user clk newV7 id s) as [r1 s1] eqn:F.
  apply free_user_spec in F as [Ht1 Hu]; [|done]. destruct r1 as [[]|e].
  - rewrite free_rows_eq by done. intros [= <- <-]. exists s1. split; [done|]. left. auto.
  - intros [= <- <-]. exists s1. split; [done|]. right. eauto.
Qed.

(** A downgrade puts an account on the free plan of the catalogue for the
    current month: it loses every paid group and keeps the others, its profile
    and its quota row are those of the plan, what it has used is carried over
    (unless a period of the free plan ended before this month, which grants the
    allowance afresh), a suspension stays, no other account's rows change and
    the account indexes stay consistent.
    Repeating the downgrade in the same month changes neither row. *)
Theorem downgrade_correct clk newV7 id s s' :
  index_ok s → rows_ok s → TrimSpace id = id → id ≠ "" →
  downgradeToFreePlan clk newV7 id s = (Ok tt, s') →
  user_downgraded id s s' ∧ on_free_plan clk id s' ∧
  (∀ p0 q0 p q, accountBillingProfiles s !! id = Some p0 →
     (quota_state clk id s).1 = Ok (Some q0) →
     0 ≤ quota_RemainingIncludedQuota q0 ≤ prof_IncludedQuotaBytes p0 →
     prof_IncludedQuotaBytes p0 ≤ int64_max → 0 ≤ plan_IncludedQuotaBytes (free_plan s) ≤ int64_max →
     accountBillingProfiles s' !! id = Some p → accountQuotaStates s' !! id = Some q →
     usage_carried clk p0 q0 p q) ∧
  (∀ k, k ≠ id → accountBillingProfiles s' !! k = accountBillingProfiles s !! k ∧
                 accountQuotaStates s' !! k = accountQuotaStates s !! k) ∧
  index_ok s' ∧
  (∀ clk' r s'', StartOfMonth clk ≤ clk' < AddMonth (StartOfMonth clk) →
     downgradeToFreePlan clk' newV7 id s' = (r, s'') →
     accountBillingProfiles s'' = accountBillingProfiles s' ∧
     accountQuotaStates s'' = accountQuotaStates s').
Proof.
  intros Hs Hr Ht Hne D.
  destruct (downgrade_split _ _ _ _ _ _ Hs Ht Hne D) as (s1 & Htouch & [(_ & [Hu Hs1] & ->)|[[e ?] _]]); [|done].
  pose proof (rows_ok_accounts _ _ Htouch Hr) as Hr1.
  destruct (free_rows_after_spec clk id s1 Hr1 Ht) as (Hf & (ps & qs & E & Ho) & Hc).
  remember (free_rows_after clk id s1) as s' eqn:Es. clear Es D.
  assert (index_ok s') as Hs' by (apply (index_ok_ext s1); [rewrite E; by getset..|done]).
  split_and!; try done.
  - apply (user_downgraded_ext _ _ s1); [rewrite E; by getset..|done].
  - intros p0 q0 p q Ep Eq. rewrite quota_state_eq in Eq by done. cbn [fst] in Eq.
    injection Eq as Eq. destruct Htouch as (us & bi & bn & be & ->).
    apply Hc; [done|]. rewrite <-Eq. unfold expireMonthlyUsageResetLocked. getset.
    by repeat case_match; getset.
  - intros k Hk. rewrite E. getset. destruct (Ho k Hk) as [-> ->].
    destruct Htouch as (us & bi & bn & be & ->). by getset.
  - intros clk' r s'' Hm D.
    destruct (downgrade_split _ _ _ _ _ _ Hs' Ht Hne D) as (s2 & Ht2 & [(_ & _ & ->)|[_ ->]]).
    + rewrite (free_rows_idem clk clk' id s2); [|by apply (on_free_plan_accounts _ _ s')|done].
      destruct Ht2 as (? & ? & ? & ? & ->). by getset.
    + destruct Ht2 as (? & ? & ? & ? & ->). by getset.
Qed.

(** ** Who loses access *)

Section access.
Context `{MapOrder}.

Definition sub_status (sub : Subscription) : string := ToLower (TrimSpace (sub_Status sub)).

(** The paid time of a subscription, for a cancelled one at least until it was
    cancelled. *)
Definition service_end (s : memoryStore) (sub : Subscription) : time :=
  let e := subscriptionEffectivePeriodEnd s sub in
  if cancelled_status (sub_status sub) && IsZero e then default 0 (sub_CancelledAt sub) else e.

(** A Stripe subscription in a state the sweep knows. *)
Definition tracked (sub : Subscription) : Prop :=
  is_stripe_subscription sub = true ∧
  (sub_status sub = "active" ∨ sub_status sub = "trialing" ∨ sub_status sub = "past_due" ∨
   cancelled_status (sub_status sub) = true).

(** It keeps the access of its account: paid time is left; or the time is not
    known and it was first seen less than a day ago; or a payment failed and
    the grace period runs, or its start was never recorded. *)
Definition holds_access (now : time) (quota : option AccountQuotaState) (s : memoryStore)
    (sub : Subscription) : Prop :=
  tracked sub ∧
  (service_end s sub ≠ 0 ∧ now < service_end s sub ∨
   sub_status sub ≠ "past_due" ∧ service_end s sub = 0 ∧ missingStripePeriodRetryExpired sub now = false ∨
   (sub_status sub = "active" ∨ sub_status sub = "trialing") ∧ service_end s sub ≠ 0 ∧
     grace_active quota now = true ∨
   sub_status sub = "past_due" ∧ payment_grace_expired quota now = false).

Lemma grace_cases quota now :
  grace_active quota now = negb (payment_grace_expired quota now) && (arrears_since quota != None).
Proof.
  unfold grace_active, payment_grace_expired.
  destruct (arrears_since quota) as [t|]; [|done]. rewrite negb_involutive.
  rewrite bool_decide_eq_false_2 by done. by rewrite andb_true_r.
Qed.

Lemma no_arrears_no_grace quota now : arrears_since quota = None → payment_grace_expired quota now = false.
Proof. unfold payment_grace_expired. by intros ->. Qed.

(** The loop body decides between the two. *)
Lemma lapse_spec now quota s sub b :
  (holds_access now quota s sub ∧ lapse now quota s sub b = None) ∨
  (¬ holds_access now quota s sub ∧ tracked sub ∧ lapse now quota s sub b = Some true) ∨
  (¬ tracked sub ∧ lapse now quota s sub b = Some b).
Proof.
  unfold holds_access, tracked, lapse, service_end. fold (sub_status sub).
  destruct (is_stripe_subscription sub) eqn:E; [|right; right; split; [by intros [? _]|done]].
  cbn [negb]. generalize (subscriptionEffectivePeriodEnd s sub). intros e.
  generalize (sub_status sub). intros st. cbv zeta. unfold IsZero, Before.
  destruct (bool_decide (st = "active") || bool_decide (st = "trialing")) eqn:Ea.
  { apply orb_true_iff in Ea. rewrite !bool_decide_eq_true in Ea.
    assert (cancelled_status st = false) as Hc by (by destruct Ea as [-> | ->]).
    assert (st ≠ "past_due") as Hp by (by destruct Ea as [-> | ->]).
    rewrite Hc. cbn [andb]. rewrite grace_cases.
    destruct (Z.eqb_spec e 0) as [->|He].
    { destruct (missingStripePeriodRetryExpired sub now); cbn [negb]; [right; left|left];
        (split; [|try split; try done]); intuition (try done; try lia). }
    destruct (Z.ltb_spec now e); [left; split; [|done]; intuition|].
    destruct (bool_decide (arrears_since quota = None)) eqn:En; cbn [negb andb]; rewrite ?andb_true_r, ?andb_false_r.
    { right; left. split; [|split; [tauto|done]]. intuition (try done; try lia). }
    destruct (payment_grace_expired quota now); cbn [negb]; [right; left|left];
      (split; [|try split; try done]); intuition (try done; try lia). }
  apply orb_false_iff in Ea. rewrite !bool_decide_eq_false in Ea. destruct Ea as [Ea1 Ea2].
  destruct (bool_decide (st = "past_due")) eqn:Ep; bools.
  { subst st. change (cancelled_status "past_due") with false. cbn [andb].
    pose proof (no_arrears_no_grace quota now) as Hn.
    destruct (negb (e =? 0) && (now <? e)) eqn:Ee.
    { apply andb_true_iff in Ee as [Ee1 Ee2]. left. split; [|done].
      apply negb_true_iff, Z.eqb_neq in Ee1. apply Z.ltb_lt in Ee2. intuition. }
    assert (¬ (e ≠ 0 ∧ now < e)) as Hne.
    { intros [H1 H2]. apply Z.eqb_neq in H1. apply Z.ltb_lt in H2. by rewrite H1, H2 in Ee. }
    destruct (bool_decide (arrears_since quota = None)) eqn:En; bools; cbn [orb].
    { left. split; [|done]. intuition. }
    destruct (payment_grace_expired quota now); cbn [negb]; [right; left|left];
      (split; [|try split; try done]); intuition (try done; try lia). }
  destruct (cancelled_status st) eqn:Ec; cbn [andb].
  - set (e' := if e =? 0 then default 0 (sub_CancelledAt sub) else e).
    assert (match sub_CancelledAt sub with Some t => if e =? 0 then t else e | None => e end = e') as ->.
    { subst e'. destruct (sub_CancelledAt sub); [done|]. destruct (Z.eqb_spec e 0); [by subst|done]. }
    clearbody e'. destruct (Z.eqb_spec e' 0) as [->|He].
    { destruct (missingStripePeriodRetryExpired sub now); cbn [negb]; [right; left|left];
        (split; [|try split; try done]); intuition (try done; try lia). }
    destruct (Z.ltb_spec now e'); [left|right; left]; (split; [|try split; try done]); intuition (try done; try lia).
  - right. right. split; [|done]. intuition congruence.
Qed.

Lemma lapses_spec now quota s subs b :
  ((∃ sub, sub ∈ subs ∧ holds_access now quota s sub) ∧ lapses now quota s subs b = None) ∨
  ((∀ sub, sub ∈ subs → ¬ holds_access now quota s sub) ∧
   ∃ b', lapses now quota s subs b = Some b' ∧ (b' = true ↔ b = true ∨ ∃ sub, sub ∈ subs ∧ tracked sub)).
Proof.
  revert b. induction subs as [|sub subs IH]; intros b; cbn [lapses].
  { right. split; [by intros ? ?%not_elem_of_nil|]. exists b. split; [done|].
    split; [by left|]. intros [?|(? & ?%not_elem_of_nil & _)]; done. }
  setoid_rewrite elem_of_cons.
  destruct (lapse_spec now quota s sub b) as [[Hh ->]|[(Hh & Ht & ->)|(Ht & ->)]].
  - left. split; [|done]. exists sub. auto.
  - destruct (IH true) as [[(x & Hx & Hxh) ->]|(Hn & b' & -> & Hb)]; [left; split; [|done]; eauto|right].
    split; [intros x [->|Hx]; [done|by apply Hn]|]. exists b'. split; [done|].
    assert (b' = true) as -> by tauto. split; [|done]. intros _. right. exists sub. auto.
  - destruct (IH b) as [[(x & Hx & Hxh) ->]|(Hn & b' & -> & Hb)]; [left; split; [|done]; eauto|right].
    split; [intros x [->|Hx]; [by intros [? _]|by apply Hn]|]. exists b'. split; [done|].
    rewrite Hb. split; (intros [?|(x & Hx & Hxt)]; [by left|right]).
    + exists x. auto.
    + destruct Hx as [->|Hx]; [done|]. exists x. auto.
Qed.

(** The subscriptions of an account. *)
Definition has_subscription (s : memoryStore) (id : string) (sub : Subscription) : Prop :=
  ∃ subs k, subscriptions s !! id = Some subs ∧ subs !! k = Some sub.

Lemma elem_of_subscriptions s id : TrimSpace id = id → id ≠ "" →
  ∃ subs, ListSubscriptionsByUser s id = Ok subs ∧ ∀ sub, sub ∈ subs ↔ has_subscription s id sub.
Proof.
  intros Ht Hne. unfold ListSubscriptionsByUser. rewrite Ht, bool_decide_eq_false_2 by done.
  eexists. split; [done|]. intros sub. rewrite sort_slice_perm, list_elem_of_fmap. unfold has_subscription.
  split.
  - intros ([k x] & -> & Hin%elem_of_range).
    destruct (subscriptions s !! id) as [subs|]; cbn in Hin; [|by apply lookup_empty_Some in Hin].
    exists subs, k. done.
  - intros (subs & k & E & Hk). exists (k, sub). split; [done|]. apply elem_of_range. by rewrite E.
Qed.

(** Reads only touch the quota row, and keep its standing. *)
Definition reads_quota (id : string) (s s' : memoryStore) : Prop :=
  ∃ m, s' = s <| accountQuotaStates := m |> ∧
    (∀ k, k ≠ id → m !! k = accountQuotaStates s !! k) ∧
    arrears_since (m !! id) = arrears_since (accountQuotaStates s !! id) ∧
    (∀ q, m !! id = Some q → ∃ q0, accountQuotaStates s !! id = Some q0 ∧
      quota_AccountUUID q = quota_AccountUUID q0).

Lemma reads_quota_refl id s : reads_quota id s s.
Proof. exists (accountQuotaStates s). split_and!; [by destruct s|done..|eauto]. Qed.

Lemma reads_quota_trans id s1 s2 s3 : reads_quota id s1 s2 → reads_quota id s2 s3 → reads_quota id s1 s3.
Proof.
  intros (m & -> & H1 & H2 & H3) (m' & -> & H1' & H2' & H3'). getset. exists m'. split_and!.
  - by destruct s1.
  - intros k Hk. rewrite H1', H1 by done. done.
  - congruence.
  - intros q Hq. destruct (H3' q Hq) as (q0 & Hq0 & ->). by apply H3.
Qed.

Lemma expire_reads id clk s : reads_quota id s (expireMonthlyUsageResetLocked id clk s).
Proof.
  destruct (expire_rows id clk s) as (m & -> & Hne & Hid). exists m. split_and!; [done|done| |].
  - destruct Hid as [-> |(q & r & -> & ->)]; done.
  - intros q Hq. destruct Hid as [E|(q0 & r & E & E')].
    + rewrite Hq in E. eauto.
    + assert (q = month_row clk r q0) as -> by congruence. eauto.
Qed.

Lemma ensureFreeQuotaPeriod_reads user now s :
  reads_quota (user_ID user) s (ensureFreeQuotaPeriod user now s).
Proof.
  unfold ensureFreeQuotaPeriod, naturalMonthPeriod, ResetFreeQuotaPeriod.
  destruct (negb _); [apply reads_quota_refl|].
  destruct (user_by_id s _) as [u|]; [|apply reads_quota_refl].
  destruct (accountBillingProfiles s !! _) as [p|]; [|apply reads_quota_refl].
  destruct (accountQuotaStates s !! user_ID user) as [q|] eqn:Eq; [|apply reads_quota_refl].
  destruct (_ || _); [apply reads_quota_refl|]. cbv zeta. eexists. split; [reflexivity|]. split_and!.
  - intros k Hk. by rewrite lookup_insert_ne.
  - rewrite lookup_insert_eq, Eq. cbn [arrears_since]. by getset.
  - intros q'. rewrite lookup_insert_eq. intros [= <-]. exists q. split; [done|]. by getset.
Qed.

(** The traffic of an account in the month of [at_]. *)
Definition month_traffic (count : TrafficMinuteBucket → Z) (id : string) (at_ : time) (s : memoryStore) : Z :=
  sum64 (λ b, if inPeriod id (StartOfMonth at_) (AddMonth (StartOfMonth at_)) b then count b else 0)
    (values (trafficMinuteBuckets s)).

(** The row of a member of the free plan whose period is over moves to the
    current month: the allowance less the traffic of that month. *)
Definition free_month (now : time) (id : string) (s : memoryStore) (q q' : AccountQuotaState) : Prop :=
  ∃ u p, user_by_id s id = Some u ∧ IsMonthlyFreeQuotaLimitMember u = true ∧
    accountBillingProfiles s !! id = Some p ∧ prof_PricingRuleVersion p = "plan:FREE" ∧
    (∀ e, quota_PeriodEnd q = Some e → e ≤ StartOfMonth now ∧ e ≤ now) ∧
    q' = month_row now (Z.max 0 (int64 (prof_IncludedQuotaBytes p - month_traffic bkt_TotalBytes id now s))) q.

(** So does a row whose period an administrator had reset, once it is over. *)
Definition reset_over (clk : time) (id : string) (s : memoryStore) (q q' : AccountQuotaState) : Prop :=
  ∃ p a e, accountBillingProfiles s !! id = Some p ∧ quota_PeriodStart q = Some a ∧
    quota_PeriodEnd q = Some e ∧ e ≤ clk ∧ existsb (resetEntry id a e) (auditLogs s) = true ∧
    q' = month_row clk (Z.max 0 (int64 (prof_IncludedQuotaBytes p -
           month_traffic (λ b, Z.max 0 (bkt_TotalBytes b)) id clk s))) q.

(** A row is as it was but for these two. *)
Definition quota_refreshed (clk now : time) (id : string) (s : memoryStore)
    (row row' : option AccountQuotaState) : Prop :=
  match row, row' with
  | None, None => True
  | Some q, Some q' => ∃ q1, (q1 = q ∨ free_month now id s q q1) ∧ (q' = q1 ∨ reset_over clk id s q1 q')
  | _, _ => False
  end.

(** The store is as it was but for the row of [id], which may have been
    refreshed. *)
Definition only_refreshed (clk now : time) (id : string) (s s' : memoryStore) : Prop :=
  (∃ m, s' = s <| accountQuotaStates := m |> ∧ ∀ k, k ≠ id → m !! k = accountQuotaStates s !! k) ∧
  quota_refreshed clk now id s (accountQuotaStates s !! id) (accountQuotaStates s' !! id).

Lemma clamp_zero x : (if x <? 0 then 0 else x) = Z.max 0 x.
Proof. destruct (Z.ltb_spec x 0); lia. Qed.

(** Only the row of [id] moves, as [R] says. *)
Definition row_moves (R : AccountQuotaState → AccountQuotaState → Prop) (id : string) (s s' : memoryStore) : Prop :=
  ∃ m, s' = s <| accountQuotaStates := m |> ∧
    (∀ k, k ≠ id → m !! k = accountQuotaStates s !! k) ∧
    (m !! id = accountQuotaStates s !! id ∨
     ∃ q q1, accountQuotaStates s !! id = Some q ∧ m !! id = Some q1 ∧ R q q1).

Lemma row_moves_refl R id s : row_moves R id s s.
Proof. exists (accountQuotaStates s). split_and!; [by destruct s|done|by left]. Qed.

Lemma row_moves_set (R : AccountQuotaState → AccountQuotaState → Prop) id s q q1 :
  accountQuotaStates s !! id = Some q → R q q1 →
  row_moves R id s (s <| accountQuotaStates := <[id := q1]> (accountQuotaStates s) |>).
Proof.
  intros Hq HR. exists (<[id := q1]> (accountQuotaStates s)). split_and!; [done| |].
  - intros k Hk. by rewrite lookup_insert_ne.
  - right. exists q, q1. by rewrite lookup_insert_eq.
Qed.

Lemma ensure_free_month user now s :
  row_moves (free_month now (user_ID user) s) (user_ID user) s (ensureFreeQuotaPeriod user now s).
Proof.
  unfold ensureFreeQuotaPeriod, naturalMonthPeriod, ResetFreeQuotaPeriod.
  destruct (negb _); [apply row_moves_refl|].
  destruct (user_by_id s (user_ID user)) as [u|] eqn:Eu; [|apply row_moves_refl].
  destruct (accountBillingProfiles s !! _) as [p|] eqn:Ep; [|apply row_moves_refl].
  destruct (accountQuotaStates s !! user_ID user) as [q|] eqn:Eq; [|apply row_moves_refl].
  destruct (_ || _) eqn:Eo; [apply row_moves_refl|]. cbv zeta. rewrite clamp_zero.
  apply (row_moves_set _ _ _ q); [done|]. unfold free_month, month_traffic, month_row. exists u, p.
  apply orb_false_iff in Eo as [[E1 E2]%orb_false_iff E3]. apply negb_false_iff in E1, E2.
  apply bool_decide_eq_true in E2. split_and!; try done.
  revert E3. generalize (StartOfMonth now). intros start E3 e Ee. rewrite Ee in E3. unfold After in E3. lia.
Qed.

Lemma expire_reset_over id clk s :
  row_moves (reset_over clk id s) id s (expireMonthlyUsageResetLocked id clk s).
Proof.
  unfold expireMonthlyUsageResetLocked.
  destruct (accountQuotaStates s !! id) as [q|] eqn:Eq; [|apply row_moves_refl].
  destruct (accountBillingProfiles s !! id) as [p|] eqn:Ep; [|apply row_moves_refl].
  destruct (quota_PeriodStart q) as [a|] eqn:Ea; [|apply row_moves_refl].
  destruct (quota_PeriodEnd q) as [e|] eqn:Ee; [|apply row_moves_refl].
  destruct (After e clk) eqn:Eo; [apply row_moves_refl|]. destruct (existsb _ _) eqn:Ex; [|apply row_moves_refl].
  cbn [negb]. cbv zeta. apply (row_moves_set _ _ _ q); [done|].
  unfold reset_over, month_traffic, month_row. exists p, a, e.
  unfold After in Eo. split_and!; try done. lia.
Qed.

(** What the check of an account does to its row before it decides. *)
Lemma refresh_spec user clk now s :
  only_refreshed clk now (user_ID user) s
    (expireMonthlyUsageResetLocked (user_ID user) clk (ensureFreeQuotaPeriod user now s)).
Proof.
  destruct (ensure_free_month user now s) as (m1 & -> & Hne1 & H1).
  destruct (expire_reset_over (user_ID user) clk (s <| accountQuotaStates := m1 |>)) as (m2 & -> & Hne2 & H2).
  unfold only_refreshed. getset. split; [exists m2; split; [by destruct s|]|].
  { getset. intros k Hk. by rewrite Hne2, Hne1. }
  assert (∀ q q', reset_over clk (user_ID user) (s <| accountQuotaStates := m1 |>) q q' →
    reset_over clk (user_ID user) s q q') as Hr by done.
  unfold quota_refreshed. destruct H1 as [H1|(q & q1' & -> & H1 & R1)]; rewrite H1 in H2;
    (destruct H2 as [->|(q1 & q2 & E1 & -> & R2)]; [|try rewrite E1]).
  - destruct (accountQuotaStates s !! user_ID user) as [q|]; [|done]. exists q. auto.
  - exists q1. auto.
  - exists q1'. auto.
  - injection E1 as ->. exists q1. auto.
Qed.

Lemma rows_ok_reads id s s' : reads_quota id s s' → rows_ok s → rows_ok s'.
Proof.
  intros (m & -> & Hne & _ & Hq) [Hp Hk]. split; getset; [done|]. intros k q E.
  destruct (decide (k = id)) as [->|Hn].
  - destruct (Hq q E) as (q0 & E0 & ->). by apply Hk.
  - apply Hk. by rewrite <-Hne.
Qed.

Lemma holds_access_reads id now s s' sub : reads_quota id s s' →
  holds_access now (accountQuotaStates s' !! id) s' sub ↔ holds_access now (accountQuotaStates s !! id) s sub.
Proof.
  intros (m & -> & _ & Ha & _). getset.
  assert (grace_active (m !! id) now = grace_active (accountQuotaStates s !! id) now) as Eg
    by (unfold grace_active; by rewrite Ha).
  assert (payment_grace_expired (m !! id) now = payment_grace_expired (accountQuotaStates s !! id) now) as Ee
    by (unfold payment_grace_expired; by rewrite Ha).
  unfold holds_access. rewrite Eg, Ee. reflexivity.
Qed.
(** The account has access at [now]: by a grant of an administrator, or by a
    subscription. *)
Definition access_held (user : User) (now : time) (s : memoryStore) : Prop :=
  subscriptionValidityActive user now = true ∨
  ∃ sub, has_subscription s (user_ID user) sub ∧
    holds_access now (accountQuotaStates s !! user_ID user) s sub.

(** It had access that can end: a grant that ran out, a payment grace that ran
    out, or a Stripe subscription. *)
Definition access_ended (user : User) (now : time) (s : memoryStore) : Prop :=
  subscriptionValidityExpired user now = true ∨
  payment_grace_expired (accountQuotaStates s !! user_ID user) now = true ∨
  ∃ sub, has_subscription s (user_ID user) sub ∧ tracked sub.

Lemma has_subscription_reads id k s s' sub : reads_quota id s s' →
  has_subscription s' k sub ↔ has_subscription s k sub.
Proof. intros (m & -> & _). unfold has_subscription. by getset. Qed.

Lemma access_held_reads user now s s' : reads_quota (user_ID user) s s' →
  access_held user now s' ↔ access_held user now s.
Proof.
  intros Hr. unfold access_held. setoid_rewrite (holds_access_reads _ now _ _ _ Hr).
  by setoid_rewrite (has_subscription_reads _ _ _ _ _ Hr).
Qed.

Lemma access_ended_reads user now s s' : reads_quota (user_ID user) s s' →
  access_ended user now s' ↔ access_ended user now s.
Proof.
  intros Hr. unfold access_ended. setoid_rewrite (has_subscription_reads _ _ _ _ _ Hr).
  destruct Hr as (m & -> & _ & Ha & _). getset. unfold payment_grace_expired. by rewrite Ha.
Qed.

(** What the handler decides. *)
Lemma decision_spec user now s subs :
  ListSubscriptionsByUser s (user_ID user) = Ok subs →
  (∀ sub, sub ∈ subs ↔ has_subscription s (user_ID user) sub) →
  match lapses now (accountQuotaStates s !! user_ID user) s subs
    (subscriptionValidityExpired user now ||
     payment_grace_expired (accountQuotaStates s !! user_ID user) now) with
  | None => access_held user now s
  | Some b => (access_held user now s ↔ subscriptionValidityActive user now = true) ∧
              (b = true ↔ access_ended user now s)
  end.
Proof.
  intros L Hin. unfold access_held, access_ended.
  edestruct lapses_spec as [[Hh ->]|(Hn & b & -> & Hb)]; setoid_rewrite <-Hin; [by right|].
  split; [|rewrite Hb, orb_true_iff; tauto]. split; [|by left].
  intros [Ha|(sub & Hs & Ha)]; [done|]. by destruct (Hn sub Hs).
Qed.

(** Dropping the lapsed groups first does not change what a downgrade does. *)
Lemma downgraded_twice id s s1 s' :
  groups_dropped lapsed_group id s s1 → user_downgraded id s1 s' → user_downgraded id s s'.
Proof.
  intros H1 H2 u Hu. destruct (H1 u Hu) as (u1 & G1 & _ & _ & Hk).
  destruct (H2 u1 G1) as (u' & G' & Hm & Hp & Hk'). exists u'. split_and!; [done..|].
  intros g Hg Hpg Hn. apply Hk'; [|done..]. apply Hk; [done| |done].
  destruct (lapsed_group g) eqn:E; [|done]. apply drops_lapsed in E. congruence.
Qed.

(** A downgrade of an account whose rows are keyed by its identifier. *)
Lemma downgrade_result clk newV7 id s s' :
  index_ok s → rows_ok s → TrimSpace id = id → id ≠ "" →
  downgradeToFreePlan clk newV7 id s = (Ok tt, s') →
  user_downgraded id s s' ∧ on_free_plan clk id s' ∧ index_ok s'.
Proof.
  intros Hs Hr Ht Hne D.
  destruct (downgrade_split _ _ _ _ _ _ Hs Ht Hne D) as (s1 & Htouch & [(_ & [Hu Hs1] & ->)|[[e ?] _]]); [|done].
  pose proof (rows_ok_accounts _ _ Htouch Hr) as Hr1.
  destruct (free_rows_after_spec clk id s1 Hr1 Ht) as (Hf & (ps & qs & E & _) & _).
  remember (free_rows_after clk id s1) as s' eqn:Es. clear Es D. split_and!; [|done|].
  - apply (user_downgraded_ext _ _ s1); [rewrite E; by getset..|done].
  - apply (index_ok_ext s1); [rewrite E; by getset..|done].
Qed.

Lemma lose_access clk newV7 user s s' :
  index_ok s → rows_ok s → TrimSpace (user_ID user) = user_ID user → user_ID user ≠ "" →
  GetUserByID s (user_ID user) = Ok user →
  (_ ← (if MonthlyQuotaGroup user != MonthlyFreeQuotaLimitGroup then
          _ ← of_op (UpdateUser (newV7 (user_ID user)) clk
                (user <| user_Groups := free_groups lapsed_group (user_Groups user) |>)); mret tt
        else mret tt);
   downgradeToFreePlan clk newV7 (user_ID user)) s = (Ok tt, s') →
  user_downgraded (user_ID user) s s' ∧ on_free_plan clk (user_ID user) s' ∧ index_ok s'.
Proof.
  intros Hs Hr Ht Hne G. rewrite bind_unfold. destruct (_ != _).
  2:{ by apply downgrade_result. }
  rewrite bind_unfold. unfold of_op at 1. pose proof (UpdateUser_touches (newV7 (user_ID user)) clk
    (user <| user_Groups := free_groups lapsed_group (user_Groups user) |>) s) as Htouch.
  destruct (UpdateUser _ _ _ s) as [[[[]|e] out] s1] eqn:U; cbn [snd] in Htouch; [|done].
  intros D. assert (index_ok s1) as Hs1 by (by apply UpdateUser_index_ok in U).
  apply downgrade_result in D as (Hd & Hf & Hi); [|done|by apply (rows_ok_accounts s)|done..].
  split_and!; [|done..]. eapply downgraded_twice; [|done].
  by eapply update_groups_dropped; [apply drops_lapsed| | |].
Qed.

Lemma GetUserByID_reads id k s s' : reads_quota id s s' → GetUserByID s' k = GetUserByID s k.
Proof. by intros (m & -> & _). Qed.

Lemma user_downgraded_reads id k s1 s2 s' : reads_quota id s1 s2 →
  user_downgraded k s2 s' → user_downgraded k s1 s'.
Proof. intros Hr H1 u Hu. apply H1. by rewrite (GetUserByID_reads _ _ _ _ Hr). Qed.

(** What one step does to its account. *)
Lemma reconcile_access clk newV7 user now s r s' :
  index_ok s → rows_ok s → TrimSpace (user_ID user) = user_ID user → user_ID user ≠ "" →
  GetUserByID s (user_ID user) = Ok user →
  reconcileSubscriptionAccessAt clk newV7 user now s = (r, s') →
  (access_held user now s ∨ ¬ access_ended user now s →
     r = Ok tt ∧ only_refreshed clk now (user_ID user) s s') ∧
  (¬ access_held user now s → access_ended user now s → r = Ok tt →
     user_downgraded (user_ID user) s s' ∧ on_free_plan clk (user_ID user) s' ∧ index_ok s').
Proof.
  intros Hs Hr Ht Hne G. unfold reconcileSubscriptionAccessAt.
  rewrite bind_unfold. unfold modify. rewrite bind_unfold, quota_state_eq by done.
  set (s1 := expireMonthlyUsageResetLocked _ _ _).
  assert (reads_quota (user_ID user) s s1) as Hq.
  { eapply reads_quota_trans; [apply ensureFreeQuotaPeriod_reads|apply expire_reads]. }
  pose proof (refresh_spec user clk now s) as Hrow. fold s1 in Hrow.
  clearbody s1. rewrite <-(access_held_reads _ _ _ _ Hq), <-(access_ended_reads _ _ _ _ Hq).
  rewrite bind_unfold. unfold reads.
  destruct (elem_of_subscriptions s1 (user_ID user) Ht Hne) as (subs & L & Hin). rewrite L.
  rewrite bind_unfold. unfold gets. pose proof (decision_spec user now s1 subs L Hin) as Hd.
  destruct (lapses now _ s1 subs _) as [b|]; [|intros [= <- <-]; by split].
  destruct Hd as [Hheld Hended]. rewrite Hheld, <-Hended.
  destruct (subscriptionValidityActive user now); [intros [= <- <-]; by split|].
  destruct b; cbn [negb]; [|intros [= <- <-]; by split].
  intros D. split; [intros [?|?]; done|]. intros _ _ ->.
  assert (index_ok s1) as Hs1 by (destruct Hq as (m & -> & _); by apply (index_ok_ext s)).
  destruct (lose_access clk newV7 user s1 s') as (Hu & Hf & Hi); [done|by eapply rows_ok_reads|done..| |done|].
  { by rewrite (GetUserByID_reads _ _ _ _ Hq). }
  split_and!; [|done..]. by eapply user_downgraded_reads.
Qed.
End access.
