(* ===== verification/Sweep.v ===== *)
(** * The access sweep and the annual grants

    [ReconcileSubscriptionAccessBatch] ([api/subscription_validity.go]) walks
    over the accounts in bounded batches.  The lemmas of [EntitlementProps] say
    what one step does to its account; here are what a step leaves alone, the
    order of the walk, and what a whole batch achieves. *)

From S2P Require Import Prelude GoLib Calendar StoreData Users Lifecycle Finance Referral Quota.
From S2P Require Import GoTime Entitlements EntitlementProps.
Open Scope Z_scope.
Open Scope bool_scope.
Open Scope go_scope.

(** ** What a step leaves alone *)

(** The same accounts, and the same tables but those of accounts, profiles and
    quotas. *)
Definition same_base (s s' : memoryStore) : Prop :=
  (∃ us bi bn be ps qs, s' = s <| users := us |> <| byID := bi |> <| byName := bn |>
     <| byEmail := be |> <| accountBillingProfiles := ps |> <| accountQuotaStates := qs |>) ∧
  ∀ k, is_Some (byID s' !! k) ↔ is_Some (byID s !! k).

(** The same account, profile and quota. *)
Definition same_at (k : string) (s s' : memoryStore) : Prop :=
  user_by_id s' k = user_by_id s k ∧
  accountBillingProfiles s' !! k = accountBillingProfiles s !! k ∧
  accountQuotaStates s' !! k = accountQuotaStates s !! k.

Definition only_account (id : string) (s s' : memoryStore) : Prop :=
  same_base s s' ∧ ∀ k, k ≠ id → same_at k s s'.

Lemma base_refl s : same_base s s.
Proof.
  split; [|done]. exists (users s), (byID s), (byName s), (byEmail s), (accountBillingProfiles s),
    (accountQuotaStates s). by destruct s.
Qed.

Lemma base_trans s1 s2 s3 : same_base s1 s2 → same_base s2 s3 → same_base s1 s3.
Proof.
  intros [(us & bi & bn & be & ps & qs & ->) Hd] [(us' & bi' & bn' & be' & ps' & qs' & ->) Hd'].
  split.
  - exists us', bi', bn', be', ps', qs'. by destruct s1.
  - intros k. by rewrite Hd', Hd.
Qed.

Lemma at_trans k s1 s2 s3 : same_at k s1 s2 → same_at k s2 s3 → same_at k s1 s3.
Proof. intros (A1 & A2 & A3) (B1 & B2 & B3). unfold same_at. by rewrite B1, B2, B3. Qed.

Lemma only_refl id s : only_account id s s.
Proof. split; [apply base_refl|done]. Qed.

Lemma only_trans id s1 s2 s3 :
  only_account id s1 s2 → only_account id s2 s3 → only_account id s1 s3.
Proof.
  intros [Hb1 H1] [Hb2 H2]. split; [by eapply base_trans|]. intros k Hk. eapply at_trans; auto.
Qed.

Lemma only_reads id s s' : reads_quota id s s' → only_account id s s'.
Proof.
  intros (m & -> & Hne & _). split; [split; [|done]|].
  - exists (users s), (byID s), (byName s), (byEmail s), (accountBillingProfiles s), m. by destruct s.
  - intros k Hk. split_and!; [done..|]. by apply Hne.
Qed.

(** The tables of a store after an update, whether or not it succeeded. *)
Lemma UpdateUser_tables newV7 now user s :
  let s' := (UpdateUser newV7 now user s).2 in
  (users s' = users s ∧ byID s' = byID s) ∨
  ∃ u, users s' = <[fresh (dom (users s)) := u]> (users s) ∧
    byID s' = <[user_ID user := fresh (dom (users s))]> (byID s) ∧
    is_Some (byID s !! user_ID user).
Proof.
  cbv zeta. unfold UpdateUser. destruct (user_by_id s (user_ID user)) as [existing|] eqn:Eu; [|by left].
  assert (is_Some (byID s !! user_ID user)) as Hid.
  { unfold user_by_id, user_at in Eu. destruct (byID s !! user_ID user); [done|done]. }
  cbv zeta. destruct (_ == _); [by left|].
  destruct ((_ != _) && bool_decide (is_Some _)); [by left|].
  set (s2 := if ToLower (user_Name existing) != _ then _ else s).
  assert (users s2 = users s ∧ byID s2 = byID s) as H2 by (subst s2; by destruct (_ != _)).
  clearbody s2. destruct ((_ != _) && _ && _); [by left|].
  set (s3 := if _ && _ then _ else s2).
  assert (users s3 = users s ∧ byID s3 = byID s) as [Hu3 Hi3] by (subst s3; by destruct (_ && _)).
  clearbody s3. destruct (ensureProxyUUID _ _ _) as [u|]; [|by left]. cbn [snd].
  unfold alloc_user. cbn [fst snd]. right. eexists. destruct (_ == _); getset; by rewrite Hu3, Hi3.
Qed.

Lemma only_update newV7 now user s :
  index_ok s → only_account (user_ID user) s (UpdateUser newV7 now user s).2.
Proof.
  intros Hs. pose proof (UpdateUser_touches newV7 now user s) as (us & bi & bn & be & E).
  destruct (UpdateUser_tables newV7 now user s) as [[Hu Hi]|(u & Hu & Hi & Hid)];
    remember (UpdateUser newV7 now user s).2 as s' eqn:Es; clear Es;
    (split; [split; [exists us, bi, bn, be, (accountBillingProfiles s), (accountQuotaStates s);
             rewrite E; by destruct s|]|]).
  - by rewrite Hi.
  - intros k _. unfold same_at, user_by_id, user_at. rewrite Hu, Hi, E. by getset.
  - rewrite Hi. intros k. rewrite lookup_insert. case_decide as Hk; [subst k|done]. split; [done|by eexists].
  - intros k Hk. split; [|rewrite E; by getset].
    unfold user_by_id, user_at. rewrite Hu, Hi, lookup_insert_ne by done.
    destruct (byID s !! k) as [l|] eqn:El; [|done]. cbn.
    destruct (ix_id s Hs _ _ El) as (v & Hv & _). rewrite lookup_insert_ne; [done|].
    intros <-. apply (is_fresh (dom (users s))). by apply elem_of_dom_2 in Hv.
Qed.

Lemma rows_ok_free_rows clk id s : rows_ok s → rows_ok (free_rows_after clk id s).
Proof.
  intros Hr. pose proof (rows_ok_expire id clk s Hr) as [Hp Hk]. unfold free_rows_after. cbv zeta.
  remember (expireMonthlyUsageResetLocked id clk s) as s2 eqn:E2. clear E2.
  destruct (already_downgraded _ _ _ _ _); [done|]. generalize (free_quota clk id
    (accountQuotaStates s2 !! id) (free_remaining (free_plan s) (accountBillingProfiles s !! id)
      (accountQuotaStates s2 !! id) (StartOfMonth clk)) (StartOfMonth clk) (AddMonth (StartOfMonth clk))).
  intros q'. split; getset; [done|]. intros k q. rewrite lookup_insert. case_decide as Hk'.
  - intros [= <-]. by getset.
  - by apply Hk.
Qed.

Lemma only_free_rows clk id s : rows_ok s → TrimSpace id = id →
  only_account id s (free_rows_after clk id s).
Proof.
  intros Hr Ht. destruct (free_rows_after_spec clk id s Hr Ht) as (_ & (ps & qs & E & Ho) & _).
  rewrite E. split; [split; [|done]|].
  - exists (users s), (byID s), (byName s), (byEmail s), ps, qs. by destruct s.
  - intros k Hk. split; [done|]. by apply Ho.
Qed.

Lemma of_op_state {S A B} (op : S → result error A * B * S) s : (of_op op s).2 = (op s).2.
Proof. unfold of_op. by destruct (op s) as [[[|] ?] ?]. Qed.

Lemma bind_ret_state {S A} (m : M S A) s : ((_ ← m; mret tt) s).2 = (m s).2.
Proof. rewrite bind_unfold. by destruct (m s) as [[|] ?]. Qed.

Lemma GetUserByID_id s id u : index_ok s → GetUserByID s id = Ok u → user_ID u = id.
Proof.
  intros Hs (v & Hv & -> & _)%GetUserByID_groups. by apply user_by_id_spec in Hv as [? _].
Qed.

Lemma free_user_only clk newV7 id s : index_ok s → only_account id s (free_user clk newV7 id s).2.
Proof.
  intros Hs. unfold free_user. rewrite bind_unfold, reads_opt_user.
  destruct (GetUserByID s id) as [u|e] eqn:G; [|apply only_refl].
  rewrite bind_ret_state, of_op_state. apply GetUserByID_id in G; [|done].
  set (u' := u <| user_Groups := _ |>). assert (id = user_ID u') as -> by (subst u'; by getset).
  by apply only_update.
Qed.

Lemma downgrade_only clk newV7 id s r s' :
  index_ok s → rows_ok s → TrimSpace id = id → id ≠ "" →
  downgradeToFreePlan clk newV7 id s = (r, s') →
  only_account id s s' ∧ rows_ok s' ∧ (r = Ok tt → index_ok s').
Proof.
  intros Hs Hr Ht Hne D. enough (only_account id s s' ∧ rows_ok s') as [? ?].
  { split_and!; [done..|]. intros ->. by eapply downgrade_result. }
  revert D. unfold downgradeToFreePlan. rewrite Ht, bool_decide_eq_false_2 by done.
  rewrite bind_unfold. pose proof (free_user_only clk newV7 id s Hs) as Ho.
  destruct (free_user clk newV7 id s) as [r1 s1] eqn:F. cbn [snd] in Ho.
  apply free_user_spec in F as [Htouch _]; [|done]. pose proof (rows_ok_accounts _ _ Htouch Hr) as Hr1.
  destruct r1 as [[]|e]; [|by intros [= <- <-]].
  rewrite free_rows_eq by done. intros [= <- <-]. split; [|by apply rows_ok_free_rows].
  eapply only_trans; [done|]. by apply only_free_rows.
Qed.

Section sweep.
Context `{MapOrder}.

(** The step of one account. *)
Lemma reconcile_only clk newV7 user now s r s' :
  index_ok s → rows_ok s → TrimSpace (user_ID user) = user_ID user → user_ID user ≠ "" →
  GetUserByID s (user_ID user) = Ok user →
  reconcileSubscriptionAccessAt clk newV7 user now s = (r, s') →
  only_account (user_ID user) s s' ∧ rows_ok s' ∧ (r = Ok tt → index_ok s').
Proof.
  intros Hs Hr Ht Hne G.
  unfold reconcileSubscriptionAccessAt.
  rewrite bind_unfold. unfold modify. rewrite bind_unfold, quota_state_eq by done.
  set (s1 := expireMonthlyUsageResetLocked _ _ _).
  assert (reads_quota (user_ID user) s s1) as Hq.
  { eapply reads_quota_trans; [apply ensureFreeQuotaPeriod_reads|apply expire_reads]. }
  clearbody s1. pose proof (rows_ok_reads _ _ _ Hq Hr) as Hr1. pose proof (only_reads _ _ _ Hq) as Ho.
  assert (index_ok s1) as Hs1 by (destruct Hq as (m & -> & _); by apply (index_ok_ext s)).
  rewrite bind_unfold. unfold reads.
  destruct (ListSubscriptionsByUser s1 _) as [subs|]; [|by intros [= <- <-]].
  rewrite bind_unfold. unfold gets.
  destruct (lapses now _ s1 subs _) as [b|]; [|by intros [= <- <-]].
  destruct (subscriptionValidityActive user now); [by intros [= <- <-]|].
  destruct b; cbn [negb]; [|by intros [= <- <-]].
  rewrite bind_unfold. destruct (_ != _).
  - rewrite bind_unfold.
    set (user' := user <| user_Groups := _ |>).
    pose proof (only_update (newV7 (user_ID user)) clk user' s1 Hs1) as Hu.
    pose proof (UpdateUser_touches (newV7 (user_ID user)) clk user' s1) as Htouch.
    pose proof (UpdateUser_index_ok (newV7 (user_ID user)) clk user' s1) as Hi.
    assert (user_ID user' = user_ID user) as Eid by (subst user'; by getset). rewrite Eid in Hu.
    unfold of_op. destruct (UpdateUser _ _ _ s1) as [[[[]|e] out] s2]; cbn [snd] in *.
    + intros D. apply downgrade_only in D as [D ?];
        [|by eapply Hi|by eapply rows_ok_accounts|done..].
      split; [|done]. eapply only_trans; [done|]. by eapply only_trans.
    + intros [= <- <-]. split; [by eapply only_trans|]. split; [by eapply rows_ok_accounts|done].
  - intros D. apply downgrade_only in D as [D ?]; [|done..]. split; [by eapply only_trans|done].
Qed.
(** C32: The access sweep takes the paid plan of an account away exactly when
    no grant of an administrator and no subscription holds it and one has
    ended.  An account with access, and one that never had any, keeps its
    groups, its profile and every other row, and its quota row but for two
    refreshes, each when the period of the row is over: the new month of a
    member of the free plan, and the end of a reset by an administrator.  An
    account whose access ended is, when the call succeeds, out of the paid
    groups and on the free plan of the current month.  No other account is
    touched either way, and the indexes and rows stay consistent. *)
Theorem access_follows_subscriptions clk newV7 user now s r s' :
  index_ok s → rows_ok s → TrimSpace (user_ID user) = user_ID user → user_ID user ≠ "" →
  GetUserByID s (user_ID user) = Ok user →
  reconcileSubscriptionAccessAt clk newV7 user now s = (r, s') →
  (access_held user now s ∨ ¬ access_ended user now s →
     r = Ok tt ∧ only_refreshed clk now (user_ID user) s s') ∧
  (¬ access_held user now s → access_ended user now s → r = Ok tt →
     user_downgraded (user_ID user) s s' ∧ on_free_plan clk (user_ID user) s') ∧
  only_account (user_ID user) s s' ∧ rows_ok s' ∧ (r = Ok tt → index_ok s').
Proof.
  intros Hs Hr Ht Hne G R. destruct (reconcile_only _ _ _ _ _ _ _ Hs Hr Ht Hne G R) as (Ho & Hr' & Hi).
  destruct (reconcile_access _ _ _ _ _ _ _ Hs Hr Ht Hne G R) as [Hk Hd]. split_and!; try done.
  intros Hn He ->. by destruct (Hd Hn He eq_refl) as (? & ? & _).
Qed.

(** ** A page *)

(** An account the batch has visited: with access it is as before, but for
    the refresh of its quota row; without it is on the free plan. *)
Definition settled (clk : time) (now : time) (id : string) (s s' : memoryStore) : Prop :=
  ∀ u, GetUserByID s id = Ok u →
  (access_held u now s ∨ ¬ access_ended u now s →
     GetUserByID s' id = Ok u ∧ accountBillingProfiles s' !! id = accountBillingProfiles s !! id ∧
     quota_refreshed clk now id s (accountQuotaStates s !! id) (accountQuotaStates s' !! id)) ∧
  (¬ access_held u now s → access_ended u now s → user_downgraded id s s' ∧ on_free_plan clk id s').

Lemma GetUserByID_at k s s' : same_at k s s' → GetUserByID s' k = GetUserByID s k.
Proof.
  intros (E & _). unfold GetUserByID. change (user_at s' (byID s') k) with (user_by_id s' k).
  by rewrite E.
Qed.

Lemma holds_access_base now quota s s' sub : same_base s s' →
  holds_access now quota s' sub ↔ holds_access now quota s sub.
Proof. by intros [(us & bi & bn & be & ps & qs & ->) _]. Qed.

Lemma access_at u now s s' : same_base s s' → same_at (user_ID u) s s' →
  (access_held u now s' ↔ access_held u now s) ∧ (access_ended u now s' ↔ access_ended u now s).
Proof.
  intros Hb (_ & _ & Eq). unfold access_held, access_ended. rewrite Eq.
  assert (∀ sub, has_subscription s' (user_ID u) sub ↔ has_subscription s (user_ID u) sub) as Es.
  { by destruct Hb as [(us & bi & bn & be & ps & qs & ->) _]. }
  setoid_rewrite Es. by setoid_rewrite (holds_access_base _ _ _ _ _ Hb).
Qed.

Lemma on_free_plan_at clk k s s' : same_base s s' → same_at k s s' →
  on_free_plan clk k s → on_free_plan clk k s'.
Proof.
  intros [(us & bi & bn & be & ps & qs & E) _] (_ & Ep & Eq) (p & q & Hp & Hq & A1 & A2 & A3 & A4 & A5).
  apply (on_free_plan_intro clk k s _ p q); [rewrite E; by getset|congruence..].
Qed.

Lemma refreshed_at clk now id s s1 row row' : same_base s s1 → same_at id s s1 →
  quota_refreshed clk now id s1 row row' → quota_refreshed clk now id s row row'.
Proof.
  intros [(us & bi & bn & be & ps & qs & E) _] (Eu & Ep & _).
  assert (∀ q q', free_month now id s1 q q' → free_month now id s q q') as Hf.
  { intros q q'. unfold free_month, month_traffic. rewrite Eu, Ep, E. done. }
  assert (∀ q q', reset_over clk id s1 q q' → reset_over clk id s q q') as Hr.
  { intros q q'. unfold reset_over, month_traffic. rewrite Ep, E. done. }
  unfold quota_refreshed. destruct row, row'; try done. intros (q1 & [?|?] & [?|?]); exists q1; auto.
Qed.

Lemma settled_before clk now id s s1 s' : index_ok s → same_base s s1 → same_at id s s1 →
  settled clk now id s1 s' → settled clk now id s s'.
Proof.
  intros Hs Hb Ha H1 u G. destruct (H1 u) as [Hk Hd]; [by rewrite (GetUserByID_at _ _ _ Ha)|].
  assert (user_ID u = id) as Hid by (by eapply GetUserByID_id). subst id.
  destruct (access_at u now _ _ Hb Ha) as [Eh Ee]. rewrite Eh, Ee in Hk. rewrite Eh, Ee in Hd.
  pose proof (refreshed_at clk now (user_ID u) s s1) as Hq. specialize (λ row row', Hq row row' Hb Ha).
  destruct Ha as (Eu & Ep & Eq). rewrite Ep, Eq in Hk.
  split; [intros Hx; destruct (Hk Hx) as (? & ? & ?); auto|]. intros Hn He.
  destruct (Hd Hn He) as [D F]. split; [|done]. intros v Hv. apply D.
  unfold GetUserByID in *. change (user_at s1 (byID s1) (user_ID u)) with (user_by_id s1 (user_ID u)).
  by rewrite Eu.
Qed.

Lemma settled_after clk now id s s1 s' : same_base s1 s' → same_at id s1 s' →
  settled clk now id s s1 → settled clk now id s s'.
Proof.
  intros Hb Ha H1 u G. destruct (H1 u G) as [Hk Hd]. pose proof (GetUserByID_at _ _ _ Ha) as Eu. split.
  - intros Hc. destruct (Hk Hc) as (G' & E' & Q'). rewrite Eu. split; [done|].
    destruct Ha as (_ & Ep & Eq). by rewrite Ep, Eq.
  - intros Hn He. destruct (Hd Hn He) as [D F]. split; [|by eapply on_free_plan_at].
    intros v Hv. destruct (D v Hv) as (v' & Hv' & D'). exists v'. rewrite Eu. done.
Qed.

Lemma reconcile_settled clk newV7 user now s s' :
  index_ok s → rows_ok s → TrimSpace (user_ID user) = user_ID user → user_ID user ≠ "" →
  GetUserByID s (user_ID user) = Ok user →
  reconcileSubscriptionAccessAt clk newV7 user now s = (Ok tt, s') →
  settled clk now (user_ID user) s s'.
Proof.
  intros Hs Hr Ht Hne G R u G'. assert (u = user) as -> by congruence.
  destruct (reconcile_access _ _ _ _ _ _ _ Hs Hr Ht Hne G R) as [Hk Hd]. split.
  - intros Hc. destruct (Hk Hc) as [_ [(m & -> & _) Hq]]. by split_and!.
  - intros Hn He. by destruct (Hd Hn He eq_refl) as (? & ? & _).
Qed.

(** The identifiers of accounts are trimmed and not empty. *)
Definition ids_ok (s : memoryStore) : Prop :=
  ∀ id, is_Some (byID s !! id) → TrimSpace id = id ∧ id ≠ "".

(** What a walk over [ids] that stopped after [visited] of them leaves. *)
Record walked (clk : string → time) (now : time) (ids visited : list string) (complete : Prop)
    (s s' : memoryStore) : Prop := {
  wk_base : same_base s s';
  wk_rows : rows_ok s';
  wk_index : complete → index_ok s';
  wk_others : ∀ k, k ∉ ids → same_at k s s';
  wk_settled : ∀ id, id ∈ visited → settled (clk id) now id s s' }.

Lemma walked_none clk now ids complete s : index_ok s → rows_ok s → walked clk now ids [] complete s s.
Proof. intros Hs Hr. split; [apply base_refl|done..|]. by intros id ?%not_elem_of_nil. Qed.

Lemma walked_app clk now ids1 ids2 visited complete s s1 s' :
  index_ok s → NoDup (ids1 ++ ids2) → visited ⊆ ids2 →
  walked clk now ids1 ids1 True s s1 → walked clk now ids2 visited complete s1 s' →
  walked clk now (ids1 ++ ids2) (ids1 ++ visited) complete s s'.
Proof.
  intros Hs (_ & Hd & _)%NoDup_app Hv [B1 R1 I1 O1 S1] [B2 R2 I2 O2 S2]. split; [by eapply base_trans|done..| |].
  - intros k [Hk1 Hk2]%not_elem_of_app. eapply at_trans; [by apply O1|by apply O2].
  - intros id [Hid|Hid]%elem_of_app.
    + eapply settled_after; [done| |by apply S1]. apply O2. by apply Hd.
    + eapply settled_before; [done|exact B1| |by apply S2]. apply O1. intros Hin. apply (Hd id Hin). by apply Hv.
Qed.

Lemma walked_mono clk now ids ids' visited complete s s' :
  ids ⊆ ids' → walked clk now ids visited complete s s' → walked clk now ids' visited complete s s'.
Proof. intros Hsub [B R I O S]. split; [done..| |done]. intros k Hk. apply O. by intros ?%Hsub. Qed.

Lemma sweep_users_walk clk newV7 now page cursor processed s c n oe s' :
  index_ok s → rows_ok s → NoDup (user_ID <$> page) →
  (∀ u, u ∈ page → GetUserByID s (user_ID u) = Ok u ∧ TrimSpace (user_ID u) = user_ID u ∧ user_ID u ≠ "") →
  sweep_users clk newV7 now page cursor processed s = ((c, n, oe), s') →
  ∃ visited rest, user_ID <$> page = visited ++ rest ∧
    n = processed + Z.of_nat (length visited) ∧ c = default cursor (last visited) ∧
    (oe = None ↔ rest = []) ∧ walked clk now (user_ID <$> page) visited (oe = None) s s'.
Proof.
  intros Hs. revert cursor processed s Hs. induction page as [|u page IH]; intros cursor processed s Hs Hr Hn Hp.
  { intros [= <- <- <- <-]. exists [], []. split_and!; [done|cbn; lia|done..|]. by apply walked_none. }
  cbn [sweep_users]. rewrite fmap_cons in Hn |- *. apply NoDup_cons in Hn as [Hni Hn].
  destruct (Hp u) as (G & Ht & Hne); [by left|].
  destruct (reconcileSubscriptionAccessAt _ _ _ _ _) as [r s1] eqn:R.
  destruct (reconcile_only _ _ _ _ _ _ _ Hs Hr Ht Hne G R) as ([Hb Ho] & Hr1 & Hi1).
  destruct r as [[]|e].
  - pose proof (reconcile_settled _ _ _ _ _ _ Hs Hr Ht Hne G R) as Hset.
    intros W. apply IH in W as (visited & rest & Ev & -> & -> & He & W); [|by apply Hi1|done..|].
    + exists (user_ID u :: visited), rest. split_and!; [by rewrite Ev|cbn [length]; lia| |done|].
      { rewrite last_cons. by destruct (last visited). }
      apply (walked_app clk now [user_ID u] (user_ID <$> page) visited _ s s1 s'); [done|by apply NoDup_cons| | |done].
      * rewrite Ev. set_solver.
      * split; [done|done|by intros _; apply Hi1|intros k Hk; apply Ho; set_solver|].
        intros id Hin%list_elem_of_singleton. by subst id.
    + intros v Hv. destruct (Hp v) as (Gv & Hv2); [by right|]. split; [|done].
      rewrite (GetUserByID_at (user_ID v) s s1); [done|]. apply Ho. intros E. apply Hni. rewrite <-E.
      by apply list_elem_of_fmap_2.
  - intros [= <- <- <- <-]. exists [], (user_ID u :: (user_ID <$> page)). split_and!; [done|cbn; lia|done..|].
    split; [done..| |]; [intros k Hk; apply Ho; set_solver|]. by intros id ?%not_elem_of_nil.
Qed.

(** ** The batch *)

Lemma after_ids_base s s' a : same_base s s' → after_ids s' a = after_ids s a.
Proof.
  intros [_ Hd]. apply (StronglySorted_unique String.le); [apply after_ids_sorted..|].
  apply NoDup_Permutation; [apply after_ids_nodup..|]. intros id. by rewrite !elem_of_after_ids, Hd.
Qed.

Lemma ids_ok_base s s' : same_base s s' → ids_ok s → ids_ok s'.
Proof. intros [_ Hd] Hi id Hid. apply Hi. by apply Hd. Qed.

Lemma page_users s a limit page :
  index_ok s → ids_ok s → ListUsersPage s a limit = Ok page →
  ∀ u, u ∈ page → GetUserByID s (user_ID u) = Ok u ∧ TrimSpace (user_ID u) = user_ID u ∧ user_ID u ≠ "".
Proof.
  intros Hs Hi. unfold ListUsersPage. destruct (_ || _); [done|]. intros [= <-] u Hu.
  apply list_elem_of_fmap in Hu as (v & -> & (id & Hv & _)%list_elem_of_bind).
  destruct (user_by_id s id) as [w|] eqn:Hw; cbn in Hv; [|by apply not_elem_of_nil in Hv].
  apply list_elem_of_singleton in Hv as <-. rename Hw into Hv. destruct (user_by_id_spec _ _ _ Hs Hv) as (Hid & l & Hl & _).
  rewrite clone_ID, Hid. split; [|by apply Hi].
  unfold GetUserByID, found. change (user_at s (byID s) id) with (user_by_id s id). by rewrite Hv.
Qed.

(** The accounts one batch is due to visit. *)
Definition batch_ids (s : memoryStore) (cursor : string) (n : Z) : list string :=
  take (Z.to_nat n) (after_ids s cursor).

(** The cursor it returns: the last account visited, or the start again when
    the accounts ran out. *)
Definition next_cursor (s : memoryStore) (cursor : string) (n : Z) (oe : option error)
    (visited : list string) : string :=
  if (oe == None) && (Z.of_nat (length (after_ids s cursor)) <? n) then ""
  else default cursor (last visited).

Lemma batch_ids_split s a limit n : 0 ≤ limit ≤ n →
  batch_ids s a n = take (Z.to_nat limit) (after_ids s a) ++
    take (Z.to_nat (n - limit)) (drop (Z.to_nat limit) (after_ids s a)).
Proof.
  intros Hl. unfold batch_ids. rewrite <-(take_drop (Z.to_nat limit) (take (Z.to_nat n) _)) at 1.
  rewrite take_take, skipn_firstn_comm. f_equal; f_equal; lia.
Qed.

Lemma next_cursor_app s s1 cursor c limit n oe visited rest :
  after_ids s1 c = drop (Z.to_nat limit) (after_ids s cursor) →
  0 ≤ limit ≤ Z.of_nat (length (after_ids s cursor)) → last visited = Some c →
  next_cursor s1 c (n - limit) oe rest = next_cursor s cursor n oe (visited ++ rest).
Proof.
  intros Ea Hl Hv. unfold next_cursor. rewrite Ea, length_drop, last_app, Hv.
  assert (Z.of_nat (length (after_ids s cursor) - Z.to_nat limit) <? n - limit =
          (Z.of_nat (length (after_ids s cursor)) <? n)) as ->.
  { destruct (Z.ltb_spec (Z.of_nat (length (after_ids s cursor))) n); [apply Z.ltb_lt|apply Z.ltb_ge]; lia. }
  by destruct (_ && _), (last rest).
Qed.

Lemma sweep_pages_walk rounds clk newV7 now maxUsers cursor processed s :
  index_ok s → rows_ok s → ids_ok s → 0 ≤ processed → maxUsers - processed ≤ Z.of_nat rounds →
  ∃ visited rest oe s',
    sweep_pages rounds clk newV7 now maxUsers cursor processed s =
      (Some (next_cursor s cursor (maxUsers - processed) oe visited,
             processed + Z.of_nat (length visited), oe), s') ∧
    batch_ids s cursor (maxUsers - processed) = visited ++ rest ∧ (oe = None ↔ rest = []) ∧
    walked clk now (batch_ids s cursor (maxUsers - processed)) visited (oe = None) s s'.
Proof.
  revert cursor processed s. induction rounds as [|rounds IH]; intros cursor processed s Hs Hr Hi H0 Hf;
    cbn [sweep_pages].
  all: destruct (Z.ltb_spec processed maxUsers) as [Hlt|Hge]; cbn [negb].
  1: lia. 1, 3: exists [], [], None, s; unfold next_cursor, batch_ids;
    rewrite Z2Nat.nonpos by lia; rewrite (proj2 (Z.ltb_ge _ _)) by lia; cbn;
    (split; [by rewrite Z.add_0_r|]); split_and!; [done..|by apply walked_none].
  set (limit := Z.min _ _). set (left_ := maxUsers - processed) in *.
  assert (0 < limit ≤ left_) as Hl by (unfold subscriptionSweepPageSize in *; lia).
  destruct (ListUsersPage_IDs s cursor limit Hs) as (page & L & Hpage);
    [unfold MaxUserListPageSize, subscriptionSweepPageSize in *; lia|].
  rewrite L. pose proof (page_users _ _ _ _ Hs Hi L) as Hpu.
  set (ids := after_ids s cursor) in *. assert (NoDup ids) as Hnd by apply after_ids_nodup.
  assert (length page = length (take (Z.to_nat limit) ids)) as Hlen by (by rewrite <-Hpage, length_fmap).
  rewrite length_take in Hlen.
  destruct (Nat.eqb_spec (length page) 0) as [Hz|Hz].
  { assert (ids = []) as Ei by (destruct ids; [done|cbn in Hlen; lia]).
    exists [], [], None, s. unfold next_cursor, batch_ids. fold ids. rewrite Ei, take_nil. cbn [length].
    rewrite (proj2 (Z.ltb_lt _ _)) by (cbn; lia). split_and!; [by rewrite Z.add_0_r|done..|by apply walked_none]. }
  destruct (sweep_users clk newV7 now page cursor processed s) as [[[c n] oe] s1] eqn:W.
  apply sweep_users_walk in W as (visited & rest & Ev & -> & -> & He & W);
    [|done|done|rewrite Hpage; by eapply sublist_NoDup; [|apply sublist_take]|done].
  rewrite Hpage in Ev, W. pose proof (batch_ids_split s cursor limit left_ ltac:(lia)) as Eb. fold ids in Eb.
  destruct oe as [e|].
  { exists visited, (rest ++ take (Z.to_nat (left_ - limit)) (drop (Z.to_nat limit) ids)), (Some e), s1.
    rewrite Eb, Ev, <-app_assoc. split_and!; [done|done| |].
    - split; [done|]. intros [-> _]%app_nil. by apply He.
    - rewrite app_assoc, <-Ev. eapply walked_mono; [|exact W]. set_solver. }
  destruct He as [He _]. rewrite (He eq_refl), app_nil_r in Ev. clear He.
  rewrite Ev in W, Eb.
  destruct (Z.ltb_spec (Z.of_nat (length page)) limit) as [Hshort|Hfull].
  { rewrite (drop_ge ids), take_nil, app_nil_r in Eb by lia. exists visited, [], None, s1.
    rewrite Eb, app_nil_r. split_and!; [|done..]. unfold next_cursor. fold ids.
    rewrite (proj2 (Z.ltb_lt _ _)) by lia. done. }
  assert (limit ≤ Z.of_nat (length ids)) as Hge by lia.
  assert (length visited = Z.to_nat limit) as Hvl by (rewrite <-Ev, length_take; lia).
  destruct (last visited) as [c|] eqn:Elast; [|apply last_None in Elast; rewrite Elast in Hvl; cbn [length] in Hvl; lia].
  change (default cursor (Some c)) with c. destruct W as [B R I O S].
  assert (after_ids s1 c = drop (Z.to_nat limit) ids) as Ea.
  { rewrite (after_ids_base _ _ _ B). apply after_ids_next. fold ids. by rewrite Ev. }
  destruct (IH c (processed + Z.of_nat (length visited)) s1) as (v2 & rest2 & oe & s' & E2 & Eb2 & He2 & W2);
    [by apply I|done|by eapply ids_ok_base|lia..|].
  replace (maxUsers - (processed + Z.of_nat (length visited))) with (left_ - limit) in * by lia.
  unfold batch_ids in Eb2, W2. rewrite Ea in Eb2, W2.
  exists (visited ++ v2), rest2, oe, s'. rewrite E2, Eb. split_and!.
  - rewrite length_app, Nat2Z.inj_add, Z.add_assoc. do 4 f_equal.
    apply (next_cursor_app _ _ _ _ _ _ _ _ _ Ea); [fold ids; lia|done].
  - by rewrite Eb2, app_assoc.
  - done.
  - apply (walked_app clk now visited _ v2 _ s s1 s'); [done| |rewrite Eb2; set_solver| |done].
    + rewrite <-Eb. by eapply sublist_NoDup; [|apply sublist_take].
    + split; [done..|by intros _; apply I|done|done].
Qed.

(** C33: One batch of the access sweep returns, visits at most the allowed
    number of accounts, in the order of their identifiers after the cursor and
    without skipping one, and stops early only when a step fails or the
    accounts run out.  The cursor is the last account visited, or the start
    again when the accounts ran out.  Every account visited that has access is
    as it was, but for the refresh of a quota row whose period is over; every
    one whose access ended is on the free plan; and the rows of accounts that
    were not due are untouched. *)
Theorem sweep_settles_accounts clk newV7 now afterID maxUsers s :
  index_ok s → rows_ok s → ids_ok s → 1 ≤ maxUsers ≤ subscriptionSweepMaxUsers →
  ∃ visited rest oe s',
    ReconcileSubscriptionAccessBatch clk newV7 now afterID maxUsers s =
      (Some (next_cursor s afterID maxUsers oe visited, Z.of_nat (length visited), oe), s') ∧
    batch_ids s afterID maxUsers = visited ++ rest ∧ (oe = None ↔ rest = []) ∧
    (∀ id, id ∈ visited → settled (clk id) now id s s') ∧
    (∀ k, k ∉ batch_ids s afterID maxUsers → same_at k s s') ∧
    same_base s s' ∧ rows_ok s' ∧ (oe = None → index_ok s').
Proof.
  intros Hs Hr Hi Hm. unfold ReconcileSubscriptionAccessBatch.
  assert ((maxUsers <=? 0) || (subscriptionSweepMaxUsers <? maxUsers) = false) as -> by lia.
  destruct (sweep_pages_walk (Z.to_nat maxUsers) clk newV7 now maxUsers afterID 0 s Hs Hr Hi)
    as (visited & rest & oe & s' & E & Eb & He & [B R I O S]); [lia..|].
  rewrite Z.sub_0_r in *. exists visited, rest, oe, s'. rewrite E, Z.add_0_l. done.
Qed.
End sweep.

(** ** The annual grants *)

Section annual.
Context `{MapOrder}.
Context (clk : string → time) (now : time).
Implicit Types (s : memoryStore) (id : string) (subs : list Subscription).

(** The first annual subscription whose service runs, and whether the row was
    read on the way. *)
Fixpoint annual_first (quota : option AccountQuotaState) s subs : bool * option BillingPlan :=
  match subs with
  | [] => (false, None)
  | sub :: rest =>
      match annual_plan s sub with
      | None => annual_first quota s rest
      | Some plan => if annual_service now quota s sub then (true, Some plan)
                     else (true, (annual_first quota s rest).2)
      end
  end.

(** The row of the account when its turn comes, and after it. *)
Definition row_read id s subs : option AccountQuotaState :=
  if (annual_first (accountQuotaStates s !! id) s subs).1
  then accountQuotaStates (expireMonthlyUsageResetLocked id (clk id) s) !! id else accountQuotaStates s !! id.

Definition annual_row id s subs : option AccountQuotaState :=
  match (annual_first (accountQuotaStates s !! id) s subs).2 with
  | Some plan =>
      if grant_current (row_read id s subs) now then row_read id s subs else
      Some ((annual_quota now id (row_read id s subs) plan) <| quota_UpdatedAt := clk id |>
              <| quota_EffectiveAt := or_now (clk id) now |>)
  | None => row_read id s subs
  end.

Definition annual_granted id s subs : bool :=
  match (annual_first (accountQuotaStates s !! id) s subs).2 with
  | Some _ => negb (grant_current (row_read id s subs) now)
  | None => false
  end.

(** Only the standing of the row matters to the choice. *)
Lemma annual_first_cong quota quota' s m subs :
  arrears_since quota = arrears_since quota' →
  annual_first quota (s <| accountQuotaStates := m |>) subs = annual_first quota' s subs.
Proof.
  intros Ha. induction subs as [|sub subs IH]; [done|]. cbn [annual_first]. rewrite IH.
  assert (annual_service now quota (s <| accountQuotaStates := m |>) sub =
          annual_service now quota' s sub) as ->.
  { unfold annual_service, grace_active. by rewrite Ha. }
  done.
Qed.

Definition put_row id (r : option AccountQuotaState) s : memoryStore :=
  s <| accountQuotaStates := partial_alter (λ _, r) id (accountQuotaStates s) |>.

Lemma put_row_self id s : put_row id (accountQuotaStates s !! id) s = s.
Proof. unfold put_row. rewrite partial_alter_self. by destruct s. Qed.

Lemma put_row_twice id r r' s : put_row id r (put_row id r' s) = put_row id r s.
Proof.
  unfold put_row. getset. assert (∀ m : gmap string AccountQuotaState,
    partial_alter (λ _, r) id (partial_alter (λ _, r') id m) = partial_alter (λ _, r) id m) as E.
  { intros m. apply map_eq. intros k. rewrite !lookup_partial_alter. by case_decide. }
  rewrite E. by destruct s.
Qed.

Lemma expire_put id c s :
  expireMonthlyUsageResetLocked id c s =
    put_row id (accountQuotaStates (expireMonthlyUsageResetLocked id c s) !! id) s.
Proof.
  destruct (expire_rows id c s) as (m & -> & Hne & _). unfold put_row. getset.
  assert (m = partial_alter (λ _, m !! id) id (accountQuotaStates s)) as <-; [|done]. apply map_eq. intros k.
  rewrite lookup_partial_alter. case_decide as Hk; [by subst k|by apply Hne].
Qed.

Lemma expire_arrears id c s :
  arrears_since (accountQuotaStates (expireMonthlyUsageResetLocked id c s) !! id) =
  arrears_since (accountQuotaStates s !! id).
Proof. destruct (expire_reads id c s) as (m & -> & _ & Ha & _). by getset. Qed.

Lemma read_row c id s : TrimSpace id = id →
  attempt (GetAccountQuotaState c id) s =
    (Ok (match accountQuotaStates (expireMonthlyUsageResetLocked id c s) !! id with
         | Some q => Ok q | None => Err ErrUserNotFound end), expireMonthlyUsageResetLocked id c s).
Proof.
  intros Ht. unfold attempt, GetAccountQuotaState. rewrite Ht.
  destruct (accountQuotaStates s !! id) as [q|] eqn:Eq.
  - destruct (expire_cases id c s) as [E|(q' & a & b & r & _ & _ & _ & _ & E)]; rewrite E; getset.
    + by rewrite Eq.
    + by rewrite lookup_insert_eq.
  - assert (expireMonthlyUsageResetLocked id c s = s) as ->
      by (unfold expireMonthlyUsageResetLocked; by rewrite Eq).
    by rewrite Eq.
Qed.

Lemma annual_first_expire id c s subs :
  annual_first (accountQuotaStates (expireMonthlyUsageResetLocked id c s) !! id)
    (expireMonthlyUsageResetLocked id c s) subs = annual_first (accountQuotaStates s !! id) s subs.
Proof.
  pose proof (expire_arrears id c s) as Ha. destruct (expire_rows id c s) as (m & E & _).
  rewrite E in *. by apply annual_first_cong.
Qed.

Lemma annual_quota_fields id r plan :
  let q := annual_quota now id r plan in
  quota_AccountUUID q = quota_AccountUUID (default (emptyQuota id) r) ∧ quota_EffectiveAt q = now ∧
  quota_PeriodEnd q = Some (AddMonth (StartOfMonth now)) ∧
  arrears_since (Some q) = arrears_since (Some (default (emptyQuota id) r)).
Proof. done. Qed.

Lemma put_row_expire id c r s : put_row id r (expireMonthlyUsageResetLocked id c s) = put_row id r s.
Proof. rewrite expire_put. apply put_row_twice. Qed.

(** The loop over the subscriptions of an account computes that row. *)
Lemma annual_subs_eq id s subs : rows_ok s → TrimSpace id = id →
  annual_subs (clk id) now id subs s =
    (Ok (annual_granted id s subs), put_row id (annual_row id s subs) s).
Proof.
  intros Hr Ht. revert s Hr. induction subs as [|sub subs IH]; intros s Hr.
  { cbn. f_equal. symmetry. apply put_row_self. }
  cbn [annual_subs]. rewrite bind_unfold. unfold gets.
  unfold annual_granted, annual_row, row_read. cbn [annual_first].
  destruct (annual_plan s sub) as [plan|]; [|by apply IH].
  rewrite bind_unfold, read_row by done.
  set (s1 := expireMonthlyUsageResetLocked id (clk id) s).
  assert (match match accountQuotaStates s1 !! id with Some q => Ok q | None => Err ErrUserNotFound end with
    | Ok q => Some q | Err _ => None end = accountQuotaStates s1 !! id) as -> by (by destruct (_ !! id)).
  rewrite bind_unfold. pose proof (rows_ok_expire id (clk id) s Hr) as Hr1. fold s1 in Hr1.
  assert (annual_service now (accountQuotaStates s1 !! id) s1 sub =
          annual_service now (accountQuotaStates s !! id) s sub) as ->.
  { subst s1. unfold annual_service, grace_active. rewrite (expire_arrears id (clk id) s).
    by destruct (expire_rows id (clk id) s) as (m & -> & _). }
  destruct (annual_service _ _ s sub); cbn [negb fst snd].
  - destruct (grant_current _ now); [cbn [negb]; f_equal; apply expire_put|].
    rewrite bind_unfold. unfold UpsertAccountQuotaState. cbv zeta.
    destruct (annual_quota_fields id (accountQuotaStates s1 !! id) plan) as (Hu & He & _). cbv zeta in Hu, He.
    assert (TrimSpace (quota_AccountUUID (annual_quota now id (accountQuotaStates s1 !! id) plan)) = id) as Hk.
    { rewrite Hu. destruct (accountQuotaStates s1 !! id) as [q0|] eqn:Eq; [by apply Hr1|done]. }
    revert Hk He. generalize (annual_quota now id (accountQuotaStates s1 !! id) plan). intros q' Hk He.
    getset. rewrite Hk, He. cbn [negb]. rewrite <-(put_row_expire id (clk id) _ s). done.
  - rewrite IH by done. unfold annual_granted, annual_row, row_read, s1.
    rewrite annual_first_expire, expire_idem, put_row_expire. fold s1.
    by destruct (annual_first _ s subs) as [[] p].
Qed.

Lemma annual_first_read quota s subs plan :
  (annual_first quota s subs).2 = Some plan → (annual_first quota s subs).1 = true.
Proof.
  induction subs as [|sub subs IH]; [done|]. cbn [annual_first].
  destruct (annual_plan s sub); [|done]. by destruct (annual_service _ _ _ _).
Qed.

(** It depends on the row of the account only. *)
Lemma expire_row_cong id c s m : m !! id = accountQuotaStates s !! id →
  accountQuotaStates (expireMonthlyUsageResetLocked id c (s <| accountQuotaStates := m |>)) !! id =
  accountQuotaStates (expireMonthlyUsageResetLocked id c s) !! id.
Proof.
  intros Em. unfold expireMonthlyUsageResetLocked. getset. rewrite Em.
  destruct (accountQuotaStates s !! id) as [q|] eqn:Eq; [|by getset; rewrite Em, Eq].
  destruct (accountBillingProfiles s !! id) as [p|]; [|by getset; rewrite Em, Eq].
  destruct (quota_PeriodStart q), (quota_PeriodEnd q); try by getset; rewrite Em, Eq.
  destruct (After _ _); [by getset; rewrite Em, Eq|].
  destruct (negb _); [by getset; rewrite Em, Eq|]. cbv zeta. getset. by rewrite !lookup_insert_eq.
Qed.

Lemma annual_row_cong id s m subs : m !! id = accountQuotaStates s !! id →
  annual_row id (s <| accountQuotaStates := m |>) subs = annual_row id s subs ∧
  annual_granted id (s <| accountQuotaStates := m |>) subs = annual_granted id s subs.
Proof.
  intros Em. pose proof (expire_row_cong id (clk id) s m Em) as Ee. unfold annual_row, annual_granted, row_read.
  rewrite Ee. change (accountQuotaStates (s <| accountQuotaStates := m |>)) with m. rewrite Em.
  rewrite (annual_first_cong (accountQuotaStates s !! id) (accountQuotaStates s !! id)) by done. done.
Qed.

Lemma row_read_arrears id s subs :
  arrears_since (row_read id s subs) = arrears_since (accountQuotaStates s !! id).
Proof. unfold row_read. destruct (annual_first _ _ _).1; [apply expire_arrears|done]. Qed.

Lemma annual_row_arrears id s subs :
  arrears_since (annual_row id s subs) = arrears_since (accountQuotaStates s !! id).
Proof.
  rewrite <-(row_read_arrears id s subs). unfold annual_row.
  destruct (annual_first _ _ _).2 as [plan|]; [|done]. destruct (grant_current _ _); [done|].
  by destruct (row_read id s subs).
Qed.

(** The row is the one read, or a grant for the month. *)
Lemma annual_row_cases id s subs :
  (annual_row id s subs = row_read id s subs ∧
   ((annual_first (accountQuotaStates s !! id) s subs).2 ≠ None → grant_current (row_read id s subs) now = true)) ∨
  ∃ q, annual_row id s subs = Some q ∧ quota_PeriodEnd q = Some (AddMonth (StartOfMonth now)).
Proof.
  unfold annual_row. destruct (annual_first _ _ _).2 as [plan|]; [|by left].
  destruct (grant_current _ _); [by left|]. right. by eexists.
Qed.

(** After its turn an account is not granted again. *)
Lemma annual_row_stable id s subs : clk id < AddMonth (StartOfMonth now) →
  annual_row id (put_row id (annual_row id s subs) s) subs = annual_row id s subs ∧
  annual_granted id (put_row id (annual_row id s subs) s) subs = false.
Proof.
  intros Hc. set (s' := put_row id (annual_row id s subs) s).
  assert (accountQuotaStates s' !! id = annual_row id s subs) as Er
    by (unfold s', put_row; getset; by rewrite lookup_partial_alter_eq).
  assert (annual_first (accountQuotaStates s' !! id) s' subs = annual_first (accountQuotaStates s !! id) s subs) as Ef.
  { apply annual_first_cong. rewrite Er. apply annual_row_arrears. }
  assert (row_read id s' subs = annual_row id s subs ∧
    ((annual_first (accountQuotaStates s !! id) s subs).2 ≠ None → grant_current (annual_row id s subs) now = true))
    as [Hread Hcur].
  { unfold row_read. rewrite Ef.
    destruct (annual_row_cases id s subs) as [[Ea Hg]|(q & Ea & Eq)].
    - rewrite Ea at 2. rewrite Ea. split; [|done]. rewrite Er, Ea. unfold row_read in *.
      destruct (annual_first _ s subs).1; [|done].
      unfold s'. rewrite Ea, <-expire_put. by rewrite expire_idem.
    - rewrite Ea in Er |- *. rewrite (expire_same id (clk id) s' q _ Er Eq Hc), Er.
      split; [by destruct (annual_first _ s subs).1|]. intros _. unfold grant_current. rewrite Eq.
      apply Z.ltb_lt, month_period. }
  unfold annual_granted, annual_row at 1. rewrite Ef, Hread.
  destruct (annual_first _ s subs).2; [|done]. by rewrite Hcur.
Qed.

Lemma annual_row_owner id s subs q : rows_ok s → TrimSpace id = id →
  annual_row id s subs = Some q → TrimSpace (quota_AccountUUID q) = id.
Proof.
  intros Hr Ht. assert (∀ q, row_read id s subs = Some q → TrimSpace (quota_AccountUUID q) = id) as Hread.
  { intros q0. unfold row_read. destruct (annual_first _ _ _).1; [apply (rows_ok_expire id (clk id) s Hr)|apply Hr]. }
  unfold annual_row. destruct (annual_first _ _ _).2 as [plan|]; [|apply Hread].
  destruct (grant_current _ _); [apply Hread|]. intros [= <-]. getset.
  destruct (annual_quota_fields id (row_read id s subs) plan) as (Hu & _). cbv zeta in Hu. rewrite Hu.
  destruct (row_read id s subs) as [q0|]; [by apply Hread|done].
Qed.

Lemma rows_ok_annual id s subs : rows_ok s → TrimSpace id = id →
  rows_ok (put_row id (annual_row id s subs) s).
Proof.
  intros Hr Ht. split; unfold put_row; getset; [apply Hr|]. intros k q. rewrite lookup_partial_alter.
  case_decide as Hk; [subst k; by apply annual_row_owner|apply Hr].
Qed.

Definition subs_of s id : list Subscription :=
  match ListSubscriptionsByUser s id with Ok subs => subs | Err _ => [] end.

Lemma subs_of_Ok s id : TrimSpace id = id → id ≠ "" → ListSubscriptionsByUser s id = Ok (subs_of s id).
Proof. intros Ht Hne. unfold subs_of. by destruct (elem_of_subscriptions s id Ht Hne) as (subs & -> & _). Qed.

Definition users_ok (us : list User) : Prop :=
  ∀ u, u ∈ us → TrimSpace (user_ID u) = user_ID u ∧ user_ID u ≠ "".

(** The loop over the accounts gives each the row of its own turn. *)
Lemma annual_users_rows us reset s :
  rows_ok s → users_ok us → (∀ id, clk id < AddMonth (StartOfMonth now)) →
  ∃ n m, annual_users clk now us reset s = ((n, None), s <| accountQuotaStates := m |>) ∧
    rows_ok (s <| accountQuotaStates := m |>) ∧
    (∀ k, k ∉ user_ID <$> us → m !! k = accountQuotaStates s !! k) ∧
    (∀ k, k ∈ user_ID <$> us → m !! k = annual_row k s (subs_of s k)).
Proof.
  intros Hr Hu Hc. revert reset s Hr. induction us as [|u us IH]; intros reset s Hr.
  { exists reset, (accountQuotaStates s). cbn [annual_users fmap list_fmap].
    assert (s <| accountQuotaStates := accountQuotaStates s |> = s) as -> by (by destruct s).
    split_and!; [done..|]. by intros k ?%not_elem_of_nil. }
  destruct (Hu u) as [Ht Hne]; [by left|]. set (id := user_ID u) in *.
  cbn [annual_users]. fold id. rewrite (subs_of_Ok s id Ht Hne), (annual_subs_eq id s (subs_of s id) Hr Ht).
  set (s1 := put_row id (annual_row id s (subs_of s id)) s).
  destruct (IH ltac:(intros v Hv; apply Hu; by right) (if annual_granted id s (subs_of s id) then reset + 1 else reset)
    s1 (rows_ok_annual id s (subs_of s id) Hr Ht)) as (n & m & E & Hr' & Hout & Hin).
  assert (s1 <| accountQuotaStates := m |> = s <| accountQuotaStates := m |>) as Es by (by destruct s).
  rewrite Es in E, Hr'. exists n, m. split; [done|]. split; [done|].
  assert (∀ k, k ≠ id → accountQuotaStates s1 !! k = accountQuotaStates s !! k) as Hk1.
  { intros k Hk. unfold s1, put_row. getset. by rewrite lookup_partial_alter_ne. }
  assert (accountQuotaStates s1 !! id = annual_row id s (subs_of s id)) as Hid1.
  { unfold s1, put_row. getset. by rewrite lookup_partial_alter_eq. }
  rewrite fmap_cons. fold id. split.
  - intros k [Hk Hn]%not_elem_of_cons. by rewrite Hout, Hk1.
  - intros k Hk. destruct (decide (k ∈ user_ID <$> us)) as [Hrest|Hrest].
    + rewrite Hin by done. change (subs_of s1 k) with (subs_of s k). destruct (decide (k = id)) as [->|Hki].
      * by apply annual_row_stable.
      * by apply annual_row_cong, Hk1.
    + apply elem_of_cons in Hk as [->|?]; [|done]. by rewrite Hout.
Qed.

(** Accounts that have had their turn are left alone. *)
Lemma annual_users_stable us reset s :
  rows_ok s → users_ok us →
  (∀ k, k ∈ user_ID <$> us → annual_row k s (subs_of s k) = accountQuotaStates s !! k ∧
                              annual_granted k s (subs_of s k) = false) →
  annual_users clk now us reset s = ((reset, None), s).
Proof.
  intros Hr Hu Hk. induction us as [|u us IH]; [done|].
  destruct (Hu u) as [Ht Hne]; [by left|]. cbn [annual_users].
  rewrite (subs_of_Ok _ _ Ht Hne), annual_subs_eq by done.
  destruct (Hk (user_ID u)) as [-> ->]; [by left|]. rewrite put_row_self. apply IH.
  - intros v Hv. apply Hu. by right.
  - intros k Hin. apply Hk. by right.
Qed.

(** C34: The monthly grants of annual plans give every account the row of its
    own turn, whatever the other accounts are: the allowance of its plan for
    the month of [now] when an annual subscription's service runs and the
    stored period is over, and otherwise the row it had (after an expired
    administrator's reset).  Running the grants again at the same instant
    grants nothing and changes nothing: the stored end of the period is the
    boundary, so several replicas do not multiply the quota. *)
Theorem annual_grants_once s :
  rows_ok s → users_ok (ListUsers s) → (∀ id, clk id < AddMonth (StartOfMonth now)) →
  ∃ n m, ReconcileAnnualPlanQuotas clk now s = ((n, None), s <| accountQuotaStates := m |>) ∧
    (∀ u, u ∈ ListUsers s → m !! user_ID u = annual_row (user_ID u) s (subs_of s (user_ID u))) ∧
    (∀ k, k ∉ user_ID <$> ListUsers s → m !! k = accountQuotaStates s !! k) ∧
    ReconcileAnnualPlanQuotas clk now (s <| accountQuotaStates := m |>) =
      ((0, None), s <| accountQuotaStates := m |>).
Proof.
  intros Hr Hu Hc. unfold ReconcileAnnualPlanQuotas.
  destruct (annual_users_rows (ListUsers s) 0 s Hr Hu Hc) as (n & m & E & Hr' & Hout & Hin).
  exists n, m. split_and!; [done| |done|].
  - intros u Hin'. by apply Hin, list_elem_of_fmap_2.
  - change (ListUsers (s <| accountQuotaStates := m |>)) with (ListUsers s).
    apply annual_users_stable; [done..|]. intros k Hk. pose proof (Hin k Hk) as Em.
    change (subs_of (s <| accountQuotaStates := m |>) k) with (subs_of s k). getset. rewrite Em.
    set (s1 := put_row k (annual_row k s (subs_of s k)) s).
    assert (s <| accountQuotaStates := m |> = s1 <| accountQuotaStates := m |>) as -> by (by destruct s).
    destruct (annual_row_cong k s1 m (subs_of s k)) as [-> ->].
    { rewrite Em. unfold s1, put_row. getset. by rewrite lookup_partial_alter_eq. }
    by apply annual_row_stable.
Qed.
End annual.
