(* ===== verification/StripeClient.v ===== *)
(** * The Stripe client

    The parts of [api/stripe.go], [api/billing_topup.go], [api/paygo_topup.go]
    and [api/pro_plan_ids.go] that do not talk to Stripe: configuration,
    signed references, the check of a webhook signature, the validation of a
    checkout against the plan catalogue, and the form a checkout sends.

    A field decoded into [any] is a JSON value; [null] stands for an absent
    one.  [url.Parse] is a parameter. *)

From S2P Require Import Prelude GoLib Json Calendar StoreData Users Lifecycle Finance Quota Access Sha256 Netip Hmac.
From Stdlib Require Import Ascii.
Open Scope Z_scope.
Open Scope bool_scope.
Open Scope go_scope.

Definition stripeAPIBaseURL : string := "https://api.stripe.com/v1".
Definition stripeWebhookTimestampTolerance : duration := 5 * Minute.

Record StripeConfig := mkStripeConfig {
  cfg_Mode : string;
  cfg_SecretKey : string;
  cfg_WebhookSecret : string;
  cfg_AllowedPriceIDs : list string;
  cfg_FrontendURL : string;
  cfg_PortalConfigurationID : string;
  cfg_APIBaseURL : string
}.

Record stripeClient := mkStripeClient {
  sc_liveMode : bool;
  sc_configurationValid : bool;
  sc_secretKey : string;
  sc_webhookSecret : string;
  sc_frontendURL : string;
  sc_apiBaseURL : string;
  sc_allowedPriceID : gset string;
  sc_portalConfigurationID : string
}.

Record stripeCheckoutRequest := mkCheckoutRequest {
  req_PlanID : string;
  req_StripePriceID : string;
  req_AmountMinor : Z;
  req_Currency : string;
  req_Mode : string;
  req_ProductSlug : string;
  req_SourcePath : string;
  req_PreviewToken : string;
  req_OperationKey : string;
  req_SessionExpiresAt : Z
}.
#[export] Instance eta_stripeCheckoutRequest : Eta stripeCheckoutRequest := λ x, mkCheckoutRequest
   (req_PlanID x) (req_StripePriceID x) (req_AmountMinor x) (req_Currency x) (req_Mode x)
   (req_ProductSlug x) (req_SourcePath x) (req_PreviewToken x) (req_OperationKey x)
   (req_SessionExpiresAt x).

(** ** Small helpers *)

(** [time.Unix(seconds, 0)]: the count since year 1 is an int64. *)
Definition Unix (seconds : Z) : time := int64 (seconds + 62135596800) * Second.

Fixpoint firstNonEmpty (values : list string) : string :=
  match values with
  | [] => ""
  | value :: rest => let trimmed := TrimSpace value in
                     if trimmed != "" then trimmed else firstNonEmpty rest
  end.

Definition epochToRFC3339 (value : Z) : string :=
  if value <=? 0 then "" else FormatRFC3339 (Unix value).

Definition customerIDFromAny (value : json) : string :=
  match value with
  | JStr typed => TrimSpace typed
  | JObj typed => match lookup_last "id" typed with
                  | Some (JStr id) => TrimSpace id
                  | _ => ""
                  end
  | _ => ""
  end.

(** The additions are a map literal with distinct keys. *)
Definition buildStripeMeta (base : gmap string any) (additions : list (string * string)) : gmap string any :=
  foldr (λ kv meta, if TrimSpace kv.2 != "" then <[kv.1 := AStr (TrimSpace kv.2)]> meta else meta)
    base additions.

Definition validReferralCurrency (currency : string) : bool := (len currency =? 3) && all_upper currency.

(** Quotient and remainder truncate towards zero. *)
Definition stripeAmountToCurrencyMinor (currency : string) (amount : Z) : result error Z :=
  if (currency == "ISK") || (currency == "UGX") then
    if negb (Z.rem amount 100 =? 0)
    then Err (ErrMsg "Stripe invoice amount is not representable in ISO minor units")
    else Ok (Z.quot amount 100)
  else if currency == "MGA" then
    if (Z.quot int64_max 100 <? amount) || (amount <? 0)
    then Err (ErrMsg "Stripe MGA invoice amount overflows ISO minor units")
    else Ok (amount * 100)
  else Ok amount.

Definition ParseStripeAllowedPriceIDs (value : string) : list string :=
  if TrimSpace value == "" then [] else
  List.filter (λ v, v != "") (TrimSpace <$> Split value ","%char).

Definition parseUnixString (value : string) : Z :=
  let trimmed := TrimSpace value in
  if trimmed == "" then 0 else default 0 (ParseInt trimmed).

(** ** Plans with a fixed meaning *)

Definition isXConnectProPlanID (planID : string) : bool :=
  contains ["PRO-MONTHLY"; "PRO-YEARLY"; "PRO-MONTHLY-V2"; "PRO-YEARLY-V2"] (ToUpper (TrimSpace planID)).
Definition isXConnectAnnualPlanID (planID : string) : bool :=
  contains ["PRO-YEARLY"; "PRO-YEARLY-V2"] (ToUpper (TrimSpace planID)).

Definition fixedTopUps : list (string * (string * Z)) :=
  [("PAYG-TOPUP-50", ("CNY", 5000)); ("PAYG-TOPUP-100", ("CNY", 10000));
   ("PAYG-TOPUP-200", ("CNY", 20000)); ("PAYG-TOPUP-USD-20", ("USD", 2000));
   ("PAYG-TOPUP-USD-50", ("USD", 5000)); ("PAYG-TOPUP-USD-100", ("USD", 10000))].

Definition isFixedPaygoTopUp (planID : string) (amount : Z) (currency unit : string) : bool :=
  match List.find (λ kv, kv.1 == ToUpper (TrimSpace planID)) fixedTopUps with
  | Some (_, (expectedCurrency, expectedAmount)) =>
      (amount =? expectedAmount) && EqualFold (TrimSpace currency) expectedCurrency &&
      EqualFold (TrimSpace unit) "once"
  | None => false
  end.

Definition customCNYMinimum : Z := 1000.
Definition customCNYMaximum : Z := 20000.
Definition customUSDMinimum : Z := 500.
Definition customUSDMaximum : Z := 10000.

Definition isCustomPaygoTopUp (planID : string) (amount : Z) (currency : string) : bool :=
  let plan := ToUpper (TrimSpace planID) in
  if plan == "PAYG-CUSTOM-CNY" then
    EqualFold (TrimSpace currency) "CNY" && (customCNYMinimum <=? amount) && (amount <=? customCNYMaximum)
  else if plan == "PAYG-CUSTOM-USD" then
    EqualFold (TrimSpace currency) "USD" && (customUSDMinimum <=? amount) && (amount <=? customUSDMaximum)
  else false.

(** ** Configuration *)

(** The key decides the mode; the configured mode may only agree. *)
Definition stripeRuntimeMode (key configured : string) : bool * bool :=
  if len key <=? len "sk_test_" then (false, false) else
  let test := HasPrefix key "sk_test_" || HasPrefix key "rk_test_" in
  let live := HasPrefix key "sk_live_" || HasPrefix key "rk_live_" in
  if negb test && negb live then (false, false) else
  let live := negb test in
  let mode := ToLower (TrimSpace configured) in
  if mode == "" then (live, true) else
  if (mode == "test") || (mode == "sandbox") then (live, negb live) else
  if mode == "live" then (live, live) else (false, false).

(** What the code reads of a parsed URL. *)
Record URL := mkURL {
  url_Scheme : string;
  url_Host : string;
  url_hasUser : bool;
  url_RawQuery : string;
  url_Fragment : string
}.
Class URLParser := url_Parse : string → option URL.

Definition resolveStripeAPIBaseURL `{URLParser} (raw : string) (liveMode : bool) : result error string :=
  let trimmed := TrimRightSlash (TrimSpace raw) in
  if (trimmed == "") || (trimmed == stripeAPIBaseURL) then Ok "" else
  if liveMode then Err (ErrMsg "STRIPE_API_BASE_URL override is not allowed with a live Stripe key") else
  match url_Parse trimmed with
  | Some u =>
      if (url_Host u == "") || ((url_Scheme u != "http") && (url_Scheme u != "https")) ||
         url_hasUser u || (url_RawQuery u != "") || (url_Fragment u != "")
      then Err (ErrMsg "STRIPE_API_BASE_URL must be an absolute http(s) URL without credentials, query or fragment")
      else Ok trimmed
  | None =>
      Err (ErrMsg "STRIPE_API_BASE_URL must be an absolute http(s) URL without credentials, query or fragment")
  end.

(** [env] is the value of STRIPE_API_BASE_URL in the environment. *)
Definition newStripeClient `{URLParser} (env : string) (cfg : StripeConfig) : option stripeClient :=
  let secretKey := TrimSpace (cfg_SecretKey cfg) in
  if secretKey == "" then None else
  let '(liveMode, configurationValid) := stripeRuntimeMode secretKey (cfg_Mode cfg) in
  let allowed := List.filter (λ p, p != "") (TrimSpace <$> cfg_AllowedPriceIDs cfg) in
  let raw := if TrimSpace (cfg_APIBaseURL cfg) == "" then env else cfg_APIBaseURL cfg in
  let '(apiBaseURL, configurationValid) :=
    match resolveStripeAPIBaseURL raw liveMode with
    | Ok base => (base, configurationValid)
    | Err _ => ("", false)
    end in
  Some (mkStripeClient liveMode configurationValid secretKey (TrimSpace (cfg_WebhookSecret cfg))
    (TrimRightSlash (TrimSpace (cfg_FrontendURL cfg))) apiBaseURL (list_to_set allowed)
    (TrimSpace (cfg_PortalConfigurationID cfg))).

Definition enabled (c : stripeClient) : bool := (sc_secretKey c != "") && sc_configurationValid c.

Definition baseURL (c : stripeClient) : string :=
  let base := TrimRightSlash (TrimSpace (sc_apiBaseURL c)) in
  if base != "" then base else stripeAPIBaseURL.

(** ** Signed references *)

Definition reference_char (c : ascii) : bool :=
  let n := code c in
  ((97 <=? n) && (n <=? 122)) || ((65 <=? n) && (n <=? 90)) || ((48 <=? n) && (n <=? 57)) ||
  (n =? 45) || (n =? 95).

Definition validStripeClientReferenceID (value : string) : bool :=
  let value := TrimSpace value in
  if (value == "") || (200 <? len value) then false else forallb reference_char (chars value).

Definition signedClientReferenceID (c : stripeClient) (userID : string) : result error string :=
  let userID := TrimSpace userID in
  if negb (validStripeClientReferenceID userID) || (TrimSpace (sc_webhookSecret c) == "")
  then Err (ErrMsg "cannot sign stripe client reference")
  else Ok (RawURLEncode (bytes_of userID) +:+ "_" +:+ hmac_hex (sc_webhookSecret c) userID)%string.

Definition userIDFromClientReference (c : stripeClient) (reference : string) : string :=
  if TrimSpace (sc_webhookSecret c) == "" then "" else
  match cut_last "_"%char (chars (TrimSpace reference)) with
  | None | Some ([], _) | Some (_, []) => ""
  | Some (encodedUserID, providedSignature) =>
      match RawURLDecode (of_chars encodedUserID) with
      | None => ""
      | Some userIDBytes =>
          let userID := string_of_bytes userIDBytes in
          if negb (validStripeClientReferenceID userID) then "" else
          if hmac_hex (sc_webhookSecret c) userID != of_chars providedSignature then "" else userID
      end
  end.

(** ** Webhook signatures *)

(** The last timestamp and every signature of the header. *)
Definition signature_piece (acc : string * list string) (part : string) : string * list string :=
  let piece := TrimSpace part in
  if HasPrefix piece "t=" then (TrimPrefix piece "t=", acc.2) else
  if HasPrefix piece "v1=" then (acc.1, acc.2 ++ [TrimPrefix piece "v1="]) else acc.

Definition verifyWebhook (clk : time) (c : stripeClient) (payload signatureHeader : string) : bool :=
  if sc_webhookSecret c == "" then false else
  let '(timestamp, signatures) := foldl signature_piece ("", []) (Split signatureHeader ","%char) in
  if (timestamp == "") || (length signatures =? 0)%nat then false else
  match ParseInt timestamp with
  | None => false
  | Some timestampValue =>
      let signedAt := Unix timestampValue in
      if (stripeWebhookTimestampTolerance <? Sub clk signedAt) ||
         (stripeWebhookTimestampTolerance <? Sub signedAt clk) then false else
      let expected := hmac_hex (sc_webhookSecret c) (timestamp +:+ "." +:+ payload)%string in
      existsb (λ candidate, expected == candidate) signatures
  end.

(** ** Checkout *)

Definition normalizeMode (mode : string) : string :=
  if ToLower (TrimSpace mode) == "payment" then "payment" else "subscription".

Definition validPriceID (c : stripeClient) (priceID : string) : bool :=
  let priceID := TrimSpace priceID in
  if (priceID == "") || negb (HasPrefix priceID "price_") then false else
  if (size (sc_allowedPriceID c) =? 0)%nat then true
  else bool_decide (priceID ∈ sc_allowedPriceID c).

Definition buildFrontendURL (c : stripeClient) (path : string) : string :=
  let base := if sc_frontendURL c == "" then "https://console.svc.plus" else sc_frontendURL c in
  if path == "" then base else
  (base +:+ (if HasPrefix path "/" then path else "/" +:+ path))%string.

Definition checkoutURLs (c : stripeClient) (sourcePath : string) : string * string :=
  let cancelPath := TrimSpace sourcePath in
  let cancelPath := if (cancelPath == "") || negb (HasPrefix cancelPath "/") then "/prices" else cancelPath in
  let cancelPath := (cancelPath +:+ (if ContainsAny cancelPath "?" then "&checkout=cancelled"
                                     else "?checkout=cancelled"))%string in
  (buildFrontendURL c "/panel/subscription?checkout=success&session_id={CHECKOUT_SESSION_ID}",
   buildFrontendURL c cancelPath).

Section checkout.
Context `{MapOrder}.

Definition validCheckoutPrice (c : stripeClient) (s : memoryStore) (priceID : string) : bool :=
  let trimmed := TrimSpace priceID in
  if (trimmed == "") || negb (HasPrefix trimmed "price_") then false else
  match GetBillingPlanByPriceID s trimmed with
  | Ok plan => plan_Active plan
  | Err e =>
      if e != ErrBillingPlanNotFound then false else
      if existsb (λ p, TrimSpace (plan_StripePriceID p) != "") (ListBillingPlans s false) then false
      else validPriceID c trimmed
  end.

Definition validateCheckoutPlan (c : stripeClient) (s : memoryStore) (req : stripeCheckoutRequest) : bool :=
  let planID := TrimSpace (req_PlanID req) in
  let priceID := TrimSpace (req_StripePriceID req) in
  let mode := normalizeMode (req_Mode req) in
  if (mode == "payment") && isCustomPaygoTopUp planID (req_AmountMinor req) (req_Currency req)
  then priceID == "" else
  if (planID == "") || (priceID == "") then false else
  match GetBillingPlan s planID with
  | Ok plan =>
      if negb (plan_Active plan) || (TrimSpace (plan_StripePriceID plan) != priceID) then false else
      let kind := ToLower (TrimSpace (plan_Kind plan)) in
      if kind == "paygo_topup" then
        (mode == "payment") &&
        isFixedPaygoTopUp (plan_PlanID plan) (plan_PriceAmount plan) (plan_PriceCurrency plan) (plan_PriceUnit plan)
      else if kind == "subscription" then mode == "subscription" else false
  | Err e =>
      if e != ErrBillingPlanNotFound then false else
      if negb (length (ListBillingPlans s false) =? 0)%nat then false else
      (mode == "subscription") && validPriceID c priceID
  end.

Definition hasActivePaidSubscription (s : memoryStore) (userID : string) : bool :=
  match ListSubscriptionsByUser s userID with
  | Err _ => true
  | Ok subs => existsb (λ sub,
      EqualFold (TrimSpace (sub_Kind sub)) "subscription" &&
      contains ["active"; "trialing"; "past_due"; "canceling"] (ToLower (TrimSpace (sub_Status sub)))) subs
  end.

(** The two modes exclude each other. *)
Definition validateBillingModeCheckout (s : memoryStore) (userID : string) (req : stripeCheckoutRequest)
    : result error unit :=
  if req_Mode req == "payment" then
    if hasActivePaidSubscription s userID then Err (ErrMsg "按量付费与有效订阅互斥；请先取消并等待订阅到期") else Ok tt
  else match GetWalletBalance s userID "CNY" with
       | Err _ => Err (ErrMsg "无法确认按量付费余额，请稍后重试")
       | Ok balance => if SpecFloat.SFeqb balance float_zero then Ok tt
                       else Err (ErrMsg "请先结清人民币按量余额，再开通订阅；两种计费方式不叠加")
       end.
End checkout.

(** ** The form of a checkout session *)

(** [strconv.FormatInt(n, 10)] *)
Definition FormatInt (n : Z) : string :=
  if n <? 0 then ("-" +:+ pad 1 (- n))%string else pad 1 n.

(** What [createCheckoutSession] posts to Stripe. *)
Definition checkout_form (clk : time) (c : stripeClient) (user : User) (req : stripeCheckoutRequest)
    : gmap string string :=
  let mode := normalizeMode (req_Mode req) in
  let '(successURL, cancelURL) := checkoutURLs c (req_SourcePath req) in
  let email := TrimSpace (ToLower (user_Email user)) in
  let userID := TrimSpace (user_ID user) in
  let planID := TrimSpace (req_PlanID req) in
  let slug := TrimSpace (req_ProductSlug req) in
  let form : gmap string string := list_to_map
    [("mode", mode); ("success_url", successURL); ("cancel_url", cancelURL); ("customer_email", email);
     ("line_items[0][quantity]", "1"); ("metadata[user_id]", userID); ("metadata[user_email]", email);
     ("metadata[plan_id]", planID); ("metadata[product_slug]", slug);
     ("metadata[kind]", if mode == "payment" then "paygo" else "subscription")] in
  let form :=
    if isCustomPaygoTopUp (req_PlanID req) (req_AmountMinor req) (req_Currency req) then
      let currency := ToLower (TrimSpace (req_Currency req)) in
      <["line_items[0][price_data][currency]" := currency]>
      (<["line_items[0][price_data][unit_amount]" := FormatInt (req_AmountMinor req)]>
      (<["line_items[0][price_data][product_data][name]" := "XConnect balance top-up"]>
      (<["metadata[amount_minor]" := FormatInt (req_AmountMinor req)]>
      (<["metadata[currency]" := ToUpper currency]> form))))
    else <["line_items[0][price]" := TrimSpace (req_StripePriceID req)]> form in
  let form := match signedClientReferenceID c (user_ID user) with
              | Ok reference => <["client_reference_id" := reference]> form
              | Err _ => form
              end in
  if mode == "subscription" then
    let expires := if req_SessionExpiresAt req =? 0 then (Add clk Hour) / Second - 62135596800
                   else req_SessionExpiresAt req in
    <["expires_at" := FormatInt expires]>
    (<["metadata[purchase_operation_key]" := req_OperationKey req]>
    (<["subscription_data[metadata][purchase_operation_key]" := req_OperationKey req]>
    (<["subscription_data[metadata][user_id]" := userID]>
    (<["subscription_data[metadata][user_email]" := email]>
    (<["subscription_data[metadata][plan_id]" := planID]>
    (<["subscription_data[metadata][product_slug]" := slug]>
    (<["subscription_data[metadata][kind]" := "subscription"]> form)))))))
  else
    <["payment_intent_data[metadata][user_id]" := userID]>
    (<["payment_intent_data[metadata][user_email]" := email]>
    (<["payment_intent_data[metadata][plan_id]" := planID]>
    (<["payment_intent_data[metadata][product_slug]" := slug]>
    (<["payment_intent_data[metadata][kind]" := "paygo"]> form)))).

(** The handler up to the request to Stripe: [Ok] is the form it posts, or the
    purchase of a subscription, which is a procedure of its own. *)
Inductive checkout_action := PostSession (form : gmap string string) | SubscriptionPurchase (req : stripeCheckoutRequest).

Definition stripeCheckout `{MapOrder} (clk : time) (c : option stripeClient) (user : User)
    (req : stripeCheckoutRequest) (s : memoryStore) : result response checkout_action :=
  if isReadOnlyAccount user then Err (403, "read_only_account") else
  match c with
  | None => Err (503, "stripe_not_configured")
  | Some c =>
      if negb (enabled c) then Err (503, "stripe_not_configured") else
      let req := req <| req_PlanID := TrimSpace (req_PlanID req) |>
        <| req_StripePriceID := TrimSpace (req_StripePriceID req) |>
        <| req_Currency := ToUpper (TrimSpace (req_Currency req)) |>
        <| req_ProductSlug := TrimSpace (req_ProductSlug req) |>
        <| req_SourcePath := TrimSpace (req_SourcePath req) |>
        <| req_Mode := normalizeMode (req_Mode req) |> in
      if (req_ProductSlug req == "") || negb (validateCheckoutPlan c s req)
      then Err (400, "invalid_billing_plan") else
      match validateBillingModeCheckout s (user_ID user) req with
      | Err _ => Err (409, "billing_mode_conflict")
      | Ok _ =>
          if req_Mode req == "subscription" then Ok (SubscriptionPurchase req) else
          match PendingSubscriptionPurchase s (user_ID user) with
          | Some _ => Err (409, "purchase_pending")
          | None => Ok (PostSession (checkout_form clk c user req))
          end
      end
  end.
