(* ===== verification/StripeClientProps.v ===== *)
(** * Signed references, webhook signatures and checkouts: theorems *)

From S2P Require Import Prelude GoLib Json Calendar StoreData Users Lifecycle Finance Quota Access Sha256 Netip Hmac.
From S2P Require Import StripeClient.
From Stdlib Require Import Ascii.
Open Scope Z_scope.
Open Scope bool_scope.
Open Scope go_scope.

(** ** Strings *)

Lemma chars_app a b : chars (a +:+ b) = chars a ++ chars b.
Proof.
  induction a as [|c a IH]; [done|].
  change (c :: chars (a +:+ b) = c :: (chars a ++ chars b)). by rewrite IH.
Qed.

Lemma of_chars_app a b : of_chars (a ++ b) = (of_chars a +:+ of_chars b)%string.
Proof. rewrite <-(of_chars_chars (of_chars a +:+ of_chars b)). by rewrite chars_app, !chars_of_chars. Qed.

(** Without white space there is nothing to trim. *)
Lemma TrimSpace_solid s : Forall (λ c, is_space c = false) (chars s) → TrimSpace s = s.
Proof.
  intros Hs. unfold TrimSpace. assert (TrimLeft s = s) as ->.
  { destruct s as [|c s]; [done|]. inversion_clear Hs as [|? ? Hc _]. cbn. by rewrite Hc. }
  induction s as [|c s IH]; [done|]. inversion_clear Hs as [|? ? Hc Hs']. cbn. rewrite IH by done.
  destruct s; [by rewrite Hc|done].
Qed.

Lemma HasPrefix_append p s : HasPrefix (p +:+ s) p = true ∧ TrimPrefix (p +:+ s) p = s.
Proof.
  assert (HasPrefix (p +:+ s) p = true) as Hp.
  { induction p as [|c p IH]; [by destruct s|]. change (String c p +:+ s)%string with (String c (p +:+ s)).
    cbn [HasPrefix]. by rewrite bool_decide_eq_true_2, IH. }
  split; [done|]. unfold TrimPrefix. rewrite Hp. clear Hp. induction p as [|c p IH]; [by destruct s|]. apply IH.
Qed.

Lemma HasPrefix_split s p : HasPrefix s p = true → s = (p +:+ TrimPrefix s p)%string.
Proof.
  intros Hp. unfold TrimPrefix. rewrite Hp. revert s Hp. induction p as [|c p IH]; intros s Hp; [by destruct s|].
  destruct s as [|d s]; [done|]. cbn [HasPrefix] in Hp. apply andb_true_iff in Hp as [Hc Hp]. bools. subst d.
  change (String c p +:+ drop_string (String.length (String c p)) (String c s))%string
    with (String c (p +:+ drop_string (String.length p) s)). f_equal. by apply IH.
Qed.

Lemma ToUpper_ToLower s : ToUpper (ToLower s) = ToUpper s.
Proof.
  induction s as [|c s IH]; [done|]. unfold ToUpper, ToLower in *. cbn [map_string]. rewrite IH. f_equal. all_ascii c.
Qed.

Lemma ToLower_ToUpper s : ToLower (ToUpper s) = ToLower s.
Proof.
  induction s as [|c s IH]; [done|]. unfold ToUpper, ToLower in *. cbn [map_string]. rewrite IH. f_equal. all_ascii c.
Qed.

Lemma EqualFold_ToUpper a b : EqualFold a b = true → ToUpper a = ToUpper b.
Proof. unfold EqualFold. intros E. bools. by rewrite <-(ToUpper_ToLower a), E, ToUpper_ToLower. Qed.

(** ** Signed references *)

Lemma url64_char_solid v : 0 ≤ v < 64 → is_space (url64_char v) = false.
Proof.
  intros Hv. assert (forallb (λ n, negb (is_space (url64_char (Z.of_nat n)))) (seq 0 64) = true) as H
    by (vm_compute; reflexivity).
  rewrite forallb_forall in H. specialize (H (Z.to_nat v)). rewrite Z2Nat.id in H by lia.
  apply negb_true_iff, H, in_seq. lia.
Qed.

Lemma hex_digit_solid v : 0 ≤ v < 16 → is_space (hex_digit v) = false.
Proof.
  intros Hv. assert (forallb (λ n, negb (is_space (hex_digit (Z.of_nat n)))) (seq 0 16) = true) as H
    by (vm_compute; reflexivity).
  rewrite forallb_forall in H. specialize (H (Z.to_nat v)). rewrite Z2Nat.id in H by lia.
  apply negb_true_iff, H, in_seq. lia.
Qed.

Lemma encode_solid l : Forall byte l → Forall (λ c, is_space c = false) (url64_encode l).
Proof.
  unfold byte. induction l as [|a|a b|a b c l IH] using chunks_ind; intros Hl; [constructor| | |];
    repeat match goal with H : Forall _ (_ :: _) |- _ => inversion_clear H end;
    cbn [url64_encode]; repeat constructor; try (apply url64_char_solid; Z.to_euclidean_division_equations; lia).
  by apply IH.
Qed.

Lemma hex_solid l : Forall byte l → Forall (λ c, is_space c = false) (chars (hex l)).
Proof.
  unfold byte. induction l as [|b l IH]; intros Hl; [constructor|]. inversion_clear Hl. cbn.
  repeat constructor; [..|by apply IH]; apply hex_digit_solid; Z.to_euclidean_division_equations; lia.
Qed.

Lemma hmac_byte k m : Forall byte (hmac k m).
Proof. apply sha256_byte. Qed.

Lemma url64_value_range c v : url64_value c = Some v → 0 ≤ v < 64.
Proof.
  unfold url64_value. cbv zeta. pose proof (code_byte c) as Hc. unfold byte in Hc.
  repeat match goal with |- context [if ?b then _ else _] => destruct b eqn:? end; intros [= <-];
    repeat match goal with H : _ && _ = true |- _ => apply andb_true_iff in H as [? ?] end; lia.
Qed.

Lemma url64_decode_byte s l : url64_decode s = Some l → Forall byte l.
Proof.
  revert l. unfold byte. assert (∀ n s l, (length s ≤ n)%nat → url64_decode s = Some l → Forall (λ z, 0 ≤ z < 256) l) as Hn.
  { induction n as [|n IH]; intros [|a [|b [|c [|d rest]]]] l Hl; cbn [length] in Hl; try lia; cbn [url64_decode];
      try done; try (by intros [= <-]).
    - destruct (url64_value a) as [va|] eqn:Ea; [|done]. destruct (url64_value b) as [vb|] eqn:Eb; [|done].
      apply url64_value_range in Ea, Eb. intros [= <-]. repeat constructor; Z.to_euclidean_division_equations; lia.
    - destruct (url64_value a) as [va|] eqn:Ea; [|done]. destruct (url64_value b) as [vb|] eqn:Eb; [|done].
      destruct (url64_value c) as [vc|] eqn:Ec; [|done].
      apply url64_value_range in Ea, Eb, Ec. intros [= <-].
      repeat constructor; Z.to_euclidean_division_equations; lia.
    - destruct (url64_value a) as [va|] eqn:Ea; [|done]. destruct (url64_value b) as [vb|] eqn:Eb; [|done].
      destruct (url64_value c) as [vc|] eqn:Ec; [|done]. destruct (url64_value d) as [vd|] eqn:Ed; [|done].
      destruct (url64_decode rest) as [out|] eqn:Er; [|done]. apply url64_value_range in Ea, Eb, Ec, Ed. intros [= <-].
      apply IH in Er; [|lia]. repeat constructor; [..|done]; Z.to_euclidean_division_equations; lia. }
  intros l. by apply (Hn (length s)).
Qed.

Lemma bytes_of_string l : Forall byte l → bytes_of (string_of_bytes l) = l.
Proof.
  intros Hl. unfold string_of_bytes. rewrite bytes_of_chars, chars_of_chars, <-list_fmap_compose.
  rewrite <-(list_fmap_id l) at 2. apply list_fmap_ext. intros i z Hi. cbn.
  assert (byte z) as Hz by (by eapply Forall_lookup_1). unfold byte in Hz. unfold code, char_of.
  rewrite N_ascii_embedding by lia. by rewrite Z2N.id by lia.
Qed.

Lemma encoded_nonempty u : u ≠ "" → chars (RawURLEncode (bytes_of u)) ≠ [].
Proof.
  intros Hne Ee. apply (f_equal of_chars) in Ee. rewrite of_chars_chars in Ee.
  pose proof (RawURL_roundtrip _ (bytes_of_byte u)) as Hr. rewrite Ee in Hr.
  change (RawURLDecode (of_chars [])) with (Some (@nil Z)) in Hr. injection Hr as Hr. by destruct u.
Qed.

Lemma hmac_hex_nonempty k m : chars (hmac_hex k m) ≠ [].
Proof.
  unfold hmac_hex. pose proof (hmac_length (bytes_of k) (bytes_of m)) as Hlen.
  by destruct (hmac (bytes_of k) (bytes_of m)).
Qed.

Lemma read_signed c id :
  TrimSpace (sc_webhookSecret c) ≠ "" → validStripeClientReferenceID id = true →
  ∃ ref, signedClientReferenceID c id = Ok ref ∧ userIDFromClientReference c ref = TrimSpace id.
Proof.
  intros Hsecret Hid. unfold signedClientReferenceID, userIDFromClientReference.
  rewrite (bool_decide_eq_false_2 (TrimSpace (sc_webhookSecret c) = "")) by done.
  assert (validStripeClientReferenceID (TrimSpace id) = true) as Hv
    by (unfold validStripeClientReferenceID in *; by rewrite TrimSpace_idem).
  rewrite Hv. eexists. split; [reflexivity|].
  assert (TrimSpace id ≠ "") as Hne.
  { intros E. unfold validStripeClientReferenceID in Hid. by rewrite E in Hid. }
  set (u := TrimSpace id) in *. set (sig := hmac_hex (sc_webhookSecret c) u).
  pose proof (bytes_of_byte u) as Hb. rewrite TrimSpace_solid.
  2:{ rewrite !chars_app. apply Forall_app. split; [unfold RawURLEncode; rewrite chars_of_chars; by apply encode_solid|].
      apply Forall_app. split; [by repeat constructor|]. apply hex_solid, hmac_byte. }
  rewrite !chars_app. change (chars "_" ++ chars sig) with ("_"%char :: chars sig).
  rewrite cut_last_app by (apply hex_no_underscore, hmac_byte).
  destruct (chars (RawURLEncode (bytes_of u))) as [|e enc] eqn:Ee; [by apply encoded_nonempty in Ee|].
  destruct (chars sig) as [|d sigs] eqn:Es; [by apply hmac_hex_nonempty in Es|].
  rewrite <-Ee, <-Es, !of_chars_chars, RawURL_roundtrip by done. cbv zeta. rewrite string_of_bytes_of, Hv.
  cbn [negb]. by rewrite bool_decide_eq_true_2.
Qed.

Lemma read_needs_signature c ref :
  userIDFromClientReference c ref ≠ "" →
  validStripeClientReferenceID (userIDFromClientReference c ref) = true ∧
  ∃ enc, TrimSpace ref =
      (enc +:+ "_" +:+ hmac_hex (sc_webhookSecret c) (userIDFromClientReference c ref))%string ∧
    RawURLDecode enc = Some (bytes_of (userIDFromClientReference c ref)).
Proof.
  unfold userIDFromClientReference. destruct (TrimSpace (sc_webhookSecret c) == ""); [done|].
  destruct (cut_last "_"%char (chars (TrimSpace ref))) as [[enc sig]|] eqn:Ec; [|done].
  apply cut_last_Some in Ec as [Ec _]. destruct enc as [|e enc]; [done|]. destruct sig as [|d sig]; [done|].
  destruct (RawURLDecode (of_chars (e :: enc))) as [l|] eqn:El; [|done]. cbv zeta.
  destruct (validStripeClientReferenceID (string_of_bytes l)) eqn:Hv; cbn [negb]; [|done].
  destruct (bool_decide (hmac_hex _ _ = _)) eqn:Eh; cbn [negb]; [|done]. bools. intros _.
  split; [done|]. exists (of_chars (e :: enc)). rewrite bytes_of_string by (by eapply url64_decode_byte).
  split; [|done]. rewrite Eh, <-(of_chars_chars (TrimSpace ref)), Ec, of_chars_app. done.
Qed.

(** C10: A client reference names its account only with the server's signature:
    the reference signed for a valid account is read back as that account, and
    a reference that is read as an account carries, after its last underscore,
    the HMAC-SHA256 of exactly that identifier under the webhook secret, after
    the encoding of the identifier. *)
Theorem client_reference_signed c :
  TrimSpace (sc_webhookSecret c) ≠ "" →
  (∀ id, validStripeClientReferenceID id = true →
     ∃ ref, signedClientReferenceID c id = Ok ref ∧ userIDFromClientReference c ref = TrimSpace id) ∧
  (∀ ref, let id := userIDFromClientReference c ref in id ≠ "" →
     validStripeClientReferenceID id = true ∧
     ∃ enc, TrimSpace ref = (enc +:+ "_" +:+ hmac_hex (sc_webhookSecret c) id)%string ∧
       RawURLDecode enc = Some (bytes_of id)).
Proof.
  intros Hsecret. split; [intros id; by apply read_signed|]. intros ref. apply read_needs_signature.
Qed.

(** ** Webhook signatures *)

(** The comma-separated pieces of a signature header. *)
Definition pieces (header : string) : list string := TrimSpace <$> Split header ","%char.

Definition timestamps (header : string) : list string := filter (λ p, HasPrefix p "t=" = true) (pieces header).

Lemma signature_fold parts acc :
  (foldl signature_piece acc parts).1 =
    default acc.1 ((λ p, TrimPrefix p "t=") <$> last (filter (λ p, HasPrefix p "t=" = true) (TrimSpace <$> parts))) ∧
  ∀ sig, sig ∈ (foldl signature_piece acc parts).2 ↔
    sig ∈ acc.2 ∨ ("v1=" +:+ sig)%string ∈ TrimSpace <$> parts.
Proof.
  revert acc. induction parts as [|p parts IH]; intros acc; cbn [foldl].
  { split; [done|]. intros sig. rewrite fmap_nil, elem_of_nil. tauto. }
  destruct (IH (signature_piece acc p)) as [E1 E2]. rewrite E1. setoid_rewrite E2. clear IH E1 E2.
  rewrite !fmap_cons, filter_cons. unfold signature_piece. cbv zeta. set (q := TrimSpace p).
  assert (∀ sig, ("v1=" +:+ sig)%string ∈ q :: (TrimSpace <$> parts) ↔
    ("v1=" +:+ sig)%string = q ∨ ("v1=" +:+ sig)%string ∈ TrimSpace <$> parts) as Hin
    by (intros sig; apply elem_of_cons). setoid_rewrite Hin. clear Hin.
  destruct (HasPrefix q "t=") eqn:Et.
  - split; [rewrite decide_True, last_cons by done; by destruct (last _)|]. intros sig. cbn [snd].
    assert (("v1=" +:+ sig)%string ≠ q) by (intros <-; done). intuition.
  - rewrite decide_False by done. destruct (HasPrefix q "v1=") eqn:Ev; cbn [fst snd].
    + split; [done|]. intros sig. rewrite elem_of_app, list_elem_of_singleton.
      assert (("v1=" +:+ sig)%string = q ↔ sig = TrimPrefix q "v1=") as ->; [|tauto]. split.
      * intros <-. symmetry. apply HasPrefix_append.
      * intros ->. symmetry. by apply HasPrefix_split.
    + split; [done|]. intros sig.
      assert (("v1=" +:+ sig)%string ≠ q) by (intros <-; pose proof (HasPrefix_append "v1=" sig); naive_solver).
      intuition.
Qed.

(** C9: A webhook is accepted exactly when a secret is configured and the
    header carries, with its last timestamp, the HMAC-SHA256 of the timestamp, a
    dot and the payload under that secret as one of its [v1] signatures, and the
    timestamp is within five minutes of the clock, either way. *)
Theorem webhook_signature_checked clk c payload header :
  verifyWebhook clk c payload header = true ↔
  sc_webhookSecret c ≠ "" ∧ ∃ ts n,
    last (timestamps header) = Some ("t=" +:+ ts)%string ∧ ParseInt ts = Some n ∧
    Z.abs (clk - Unix n) ≤ stripeWebhookTimestampTolerance ∧
    ("v1=" +:+ hmac_hex (sc_webhookSecret c) (ts +:+ "." +:+ payload))%string ∈ pieces header.
Proof.
  unfold verifyWebhook, timestamps, pieces.
  destruct (bool_decide_reflect (sc_webhookSecret c = "")) as [Hs|Hs]; [naive_solver|].
  destruct (signature_fold (Split header ","%char) ("", [])) as [E1 E2].
  destruct (foldl signature_piece ("", []) (Split header ","%char)) as [ts sigs]. cbn [fst snd] in E1, E2.
  assert (∀ sig, sig ∈ sigs ↔ ("v1=" +:+ sig)%string ∈ TrimSpace <$> Split header ","%char) as Hsig.
  { intros sig. rewrite E2. rewrite elem_of_nil. tauto. } clear E2.
  assert (∀ x y, (stripeWebhookTimestampTolerance <? Sub x y) || (stripeWebhookTimestampTolerance <? Sub y x) = false ↔
    Z.abs (x - y) ≤ stripeWebhookTimestampTolerance) as Htol.
  { intros x y. unfold Sub, stripeWebhookTimestampTolerance, Minute, Second, int64_min, int64_max. lia. }
  assert (∀ t n, last (filter (λ p, HasPrefix p "t=" = true) (TrimSpace <$> Split header ","%char)) = Some ("t=" +:+ t)%string →
    ParseInt t = Some n → ts = t) as Hts.
  { intros t n El _. rewrite El in E1. cbn in E1. rewrite E1. apply HasPrefix_append. }
  split.
  - destruct (bool_decide_reflect (ts = "")) as [|Hne]; [done|]. destruct (length sigs =? 0)%nat; [done|]. cbn [orb].
    destruct (ParseInt ts) as [n|] eqn:En; [|done]. cbv zeta.
    destruct (_ || _) eqn:Et; [done|]. apply Htol in Et. rewrite existsb_exists. intros (x & Hx & Ex). bools. subst x.
    split; [done|]. exists ts, n. split_and!; [|done..|by apply Hsig, list_elem_of_In].
    destruct (last _) as [p|] eqn:El; [|by rewrite E1 in Hne]. cbn in E1.
    assert (HasPrefix p "t=" = true) as Hp by (apply last_Some_elem_of, list_elem_of_filter in El; tauto).
    rewrite E1. by rewrite <-HasPrefix_split.
  - intros (_ & t & n & El & En & Ht & Hin). rewrite (Hts t n El En). apply Htol in Ht.
    assert (t ≠ "") as Hne by (by intros ->). rewrite bool_decide_eq_false_2 by done. apply Hsig in Hin.
    destruct (Nat.eqb_spec (length sigs) 0) as [Hz|_].
    { destruct sigs; [by apply not_elem_of_nil in Hin|done]. }
    cbn [orb]. rewrite En. cbv zeta. rewrite Ht. apply existsb_exists. eexists. split; [by apply list_elem_of_In|].
    by apply bool_decide_eq_true_2.
Qed.

(** ** Checkout *)

Section checkout.
Context `{MapOrder}.

(** The approved amounts of a one-time payment, in minor units. *)
Definition approved_topup (currency : string) (amount : Z) : Prop :=
  currency = "CNY" ∧ 1000 ≤ amount ≤ 20000 ∨ currency = "USD" ∧ 500 ≤ amount ≤ 10000.

Lemma custom_approved planID amount currency :
  isCustomPaygoTopUp planID amount currency = true → approved_topup (ToUpper (TrimSpace currency)) amount.
Proof.
  unfold isCustomPaygoTopUp, approved_topup, customCNYMinimum, customCNYMaximum, customUSDMinimum, customUSDMaximum.
  cbv zeta. destruct (_ == "PAYG-CUSTOM-CNY"); [|destruct (_ == "PAYG-CUSTOM-USD"); [|done]];
    rewrite !andb_true_iff, !Z.leb_le; intros [[Hc ?] ?]; apply EqualFold_ToUpper in Hc; rewrite Hc; [left|right]; (split; [done|lia]).
Qed.

Lemma fixed_approved planID amount currency unit :
  isFixedPaygoTopUp planID amount currency unit = true → approved_topup (ToUpper (TrimSpace currency)) amount.
Proof.
  unfold isFixedPaygoTopUp, approved_topup. destruct (List.find _ fixedTopUps) as [[k [cur am]]|] eqn:F; [|done].
  apply find_some in F as [Hin _]. rewrite !andb_true_iff, Z.eqb_eq. intros [[-> Hc] _]. apply EqualFold_ToUpper in Hc. rewrite Hc.
  cbn in Hin. repeat destruct Hin as [[= <- <- <-]|Hin]; try done; [left|left|left|right|right|right]; (split; [done|lia]).
Qed.

(** A checkout in which the catalogue decides. *)
Inductive checkout_plan (c : stripeClient) (s : memoryStore) (req : stripeCheckoutRequest) : string → Prop :=
| CustomTopUp :
    isCustomPaygoTopUp (TrimSpace (req_PlanID req)) (req_AmountMinor req) (req_Currency req) = true →
    TrimSpace (req_StripePriceID req) = "" → checkout_plan c s req "payment"
| FixedTopUp plan :
    GetBillingPlan s (TrimSpace (req_PlanID req)) = Ok plan → plan_Active plan = true →
    TrimSpace (plan_StripePriceID plan) = TrimSpace (req_StripePriceID req) →
    ToLower (TrimSpace (plan_Kind plan)) = "paygo_topup" →
    approved_topup (ToUpper (TrimSpace (plan_PriceCurrency plan))) (plan_PriceAmount plan) →
    checkout_plan c s req "payment"
| CatalogSubscription plan :
    GetBillingPlan s (TrimSpace (req_PlanID req)) = Ok plan → plan_Active plan = true →
    TrimSpace (plan_StripePriceID plan) = TrimSpace (req_StripePriceID req) →
    ToLower (TrimSpace (plan_Kind plan)) = "subscription" → checkout_plan c s req "subscription"
| EmptyCatalogue :
    (∀ k plan, billingPlans s !! k = Some plan → plan_Active plan = false) →
    validPriceID c (TrimSpace (req_StripePriceID req)) = true → checkout_plan c s req "subscription".

Lemma no_active_plans s : length (ListBillingPlans s false) = 0%nat →
  ∀ k plan, billingPlans s !! k = Some plan → plan_Active plan = false.
Proof.
  intros E k plan Hk. apply nil_length_inv in E. unfold ListBillingPlans in E.
  destruct (plan_Active plan) eqn:Ea; [|done]. exfalso. apply (not_elem_of_nil plan). rewrite <-E at 1.
  rewrite sort_slice_perm, list_elem_of_filter. split; [by rewrite Ea|].
  apply list_elem_of_fmap. exists (k, plan). split; [done|]. by apply elem_of_range.
Qed.

Lemma validateCheckoutPlan_sound c s req :
  validateCheckoutPlan c s req = true → checkout_plan c s req (normalizeMode (req_Mode req)).
Proof.
  unfold validateCheckoutPlan. cbv zeta.
  assert (normalizeMode (req_Mode req) = "payment" ∨ normalizeMode (req_Mode req) = "subscription") as Hm
    by (unfold normalizeMode; destruct (_ == _); auto).
  generalize dependent (normalizeMode (req_Mode req)). intros mode Hm.
  destruct (_ && isCustomPaygoTopUp _ _ _) eqn:Ec.
  { apply andb_true_iff in Ec as [Hp Hc]. bools. subst mode. intros E. bools. by apply CustomTopUp. }
  destruct ((_ == "") || (_ == "")); [done|].
  destruct (GetBillingPlan s _) as [plan|e] eqn:Eg.
  - destruct (plan_Active plan) eqn:Ea; [|done]. cbn [negb orb].
    destruct (bool_decide_reflect (TrimSpace (plan_StripePriceID plan) = TrimSpace (req_StripePriceID req))); [|done].
    cbn [negb]. destruct (bool_decide_reflect (ToLower (TrimSpace (plan_Kind plan)) = "paygo_topup")).
    + rewrite andb_true_iff. intros [Hp Hf]. bools. subst mode. eapply FixedTopUp; try done. by eapply fixed_approved.
    + destruct (bool_decide_reflect (ToLower (TrimSpace (plan_Kind plan)) = "subscription")); [|done].
      intros E. bools. subst mode. by eapply CatalogSubscription.
  - destruct (e != _); [done|]. destruct (Nat.eqb_spec (length (ListBillingPlans s false)) 0) as [Hz|]; [|done].
    cbn [negb]. rewrite andb_true_iff. intros [Hp Hv]. bools. subst mode.
    apply EmptyCatalogue; [by apply no_active_plans|done].
Qed.

(** The fields of the form a payment depends on. *)
Lemma checkout_form_payment clk c user req : normalizeMode (req_Mode req) = "payment" →
  let form := checkout_form clk c user req in
  form !! "mode" = Some "payment" ∧ form !! "metadata[kind]" = Some "paygo" ∧
  form !! "metadata[user_id]" = Some (TrimSpace (user_ID user)) ∧
  form !! "metadata[plan_id]" = Some (TrimSpace (req_PlanID req)) ∧
  if isCustomPaygoTopUp (req_PlanID req) (req_AmountMinor req) (req_Currency req) then
    form !! "line_items[0][price]" = None ∧
    form !! "line_items[0][price_data][unit_amount]" = Some (FormatInt (req_AmountMinor req)) ∧
    form !! "line_items[0][price_data][currency]" = Some (ToLower (TrimSpace (req_Currency req)))
  else form !! "line_items[0][price]" = Some (TrimSpace (req_StripePriceID req)).
Proof.
  intros Hm. cbv zeta. unfold checkout_form. rewrite Hm. cbv zeta.
  destruct (checkoutURLs c (req_SourcePath req)) as [su cu].
  rewrite !(bool_decide_eq_true_2 ("payment" = "payment")), !(bool_decide_eq_false_2 ("payment" = "subscription")) by done.
  generalize (TrimSpace (user_ID user)) (TrimSpace (ToLower (user_Email user))) (TrimSpace (req_PlanID req))
    (TrimSpace (req_ProductSlug req)) (FormatInt (req_AmountMinor req)) (ToLower (TrimSpace (req_Currency req)))
    (TrimSpace (req_StripePriceID req)).
  intros uid email plan slug amount currency price. generalize (ToUpper currency). intros upper.
  destruct (isCustomPaygoTopUp _ _ _), (signedClientReferenceID c (user_ID user)) as [reference|];
    split_and!; vm_compute; reflexivity.
Qed.

Lemma custom_trim planID amount currency :
  isCustomPaygoTopUp (TrimSpace planID) amount currency = isCustomPaygoTopUp planID amount currency.
Proof. unfold isCustomPaygoTopUp. by rewrite TrimSpace_idem. Qed.

(** What a posted session charges. *)
Definition charges (s : memoryStore) (form : gmap string string) : Prop :=
  (∃ currency amount, approved_topup currency amount ∧
     form !! "line_items[0][price]" = None ∧
     form !! "line_items[0][price_data][unit_amount]" = Some (FormatInt amount) ∧
     form !! "line_items[0][price_data][currency]" = Some (ToLower currency)) ∨
  (∃ planID plan, form !! "metadata[plan_id]" = Some planID ∧ GetBillingPlan s planID = Ok plan ∧
     plan_Active plan = true ∧ form !! "line_items[0][price]" = Some (TrimSpace (plan_StripePriceID plan)) ∧
     approved_topup (ToUpper (TrimSpace (plan_PriceCurrency plan))) (plan_PriceAmount plan)).

Lemma form_charges clk c user s req :
  normalizeMode (req_Mode req) = "payment" → validateCheckoutPlan c s req = true →
  charges s (checkout_form clk c user req).
Proof.
  intros Hm Hv. destruct (checkout_form_payment clk c user req Hm) as (_ & _ & _ & Hp & Hf).
  destruct (isCustomPaygoTopUp (req_PlanID req) (req_AmountMinor req) (req_Currency req)) eqn:Ec.
  - left. exists (ToUpper (TrimSpace (req_Currency req))), (req_AmountMinor req).
    rewrite ToLower_ToUpper. split; [by eapply custom_approved|done].
  - right. apply validateCheckoutPlan_sound in Hv. rewrite Hm in Hv. inversion Hv as [Hc|plan Hg Ha Hpr Hk Hap| |].
    + rewrite custom_trim in Hc. congruence.
    + exists (TrimSpace (req_PlanID req)), plan. by rewrite Hpr.
Qed.

(** C11: A checkout is decided by the catalogue, not by the caller.  A one-time
    payment is posted only by an account that may write, has no active
    subscription and no purchase in flight, in payment mode and in the name of
    the caller, and it charges either a custom amount within the published
    bounds of its currency or the price of an active top-up plan of an approved
    denomination; a subscription is bought only at the price of an active
    subscription plan, or at an allowed price while the catalogue is empty. *)
Theorem checkout_bound_to_catalog clk c user req s action :
  stripeCheckout clk (Some c) user req s = Ok action →
  isReadOnlyAccount user = false ∧ enabled c = true ∧
  match action with
  | PostSession form =>
      form !! "mode" = Some "payment" ∧ form !! "metadata[user_id]" = Some (TrimSpace (user_ID user)) ∧
      hasActivePaidSubscription s (user_ID user) = false ∧
      PendingSubscriptionPurchase s (user_ID user) = None ∧ charges s form
  | SubscriptionPurchase r => checkout_plan c s r "subscription"
  end.
Proof.
  unfold stripeCheckout. destruct (isReadOnlyAccount user); [done|]. destruct (enabled c); [|done]. cbn [negb].
  cbv zeta. set (r := req <| req_PlanID := _ |> <| req_StripePriceID := _ |> <| req_Currency := _ |>
    <| req_ProductSlug := _ |> <| req_SourcePath := _ |> <| req_Mode := _ |>).
  assert (req_Mode r = normalizeMode (req_Mode req)) as Em by (subst r; by getset).
  assert (normalizeMode (req_Mode r) = req_Mode r) as En.
  { rewrite Em. unfold normalizeMode at 2 3. by destruct (_ == _). }
  clearbody r. destruct (req_ProductSlug r == ""); [done|]. cbn [orb].
  destruct (validateCheckoutPlan c s r) eqn:Ev; [|done]. cbn [negb].
  destruct (validateBillingModeCheckout s (user_ID user) r) as [|] eqn:Eb; [|done].
  destruct (bool_decide_reflect (req_Mode r = "subscription")) as [E|E].
  - intros [= <-]. split_and!; [done..|]. apply validateCheckoutPlan_sound in Ev. by rewrite En, E in Ev.
  - destruct (PendingSubscriptionPurchase s (user_ID user)) eqn:Ep; [done|]. intros [= <-].
    assert (req_Mode r = "payment") as Ep'.
    { rewrite Em in E |- *. unfold normalizeMode in *. by destruct (_ == _). }
    assert (hasActivePaidSubscription s (user_ID user) = false) as Hs.
    { unfold validateBillingModeCheckout in Eb. rewrite Ep', bool_decide_eq_true_2 in Eb by done.
      by destruct (hasActivePaidSubscription s (user_ID user)). }
    assert (normalizeMode (req_Mode r) = "payment") as Hm by congruence.
    destruct (checkout_form_payment clk c user r Hm) as (Hf1 & _ & Hf3 & _).
    split_and!; [done..|by apply form_charges].
Qed.
End checkout.
