(* ===== verification/Tenants.v ===== *)
(** * Tenants and workspace profiles

    [internal/store/xworkmate.go] and [xworkmate_memory.go]: the tenants,
    domains, memberships and profiles of the in-memory store.  The four maps
    are fields of the Go store that no other component uses; they form a record
    of their own.  [url.Parse] is a parameter ([StripeClient.URLParser]); the
    two environment variables that configure the shared tenant are an argument
    [env].  A routine that fills in the record it is given returns it. *)

From S2P Require Import Prelude GoLib StoreData Users Sha256 Netip Hmac StripeClient.
From Stdlib Require Import Ascii.
Open Scope Z_scope.
Open Scope bool_scope.
Open Scope go_scope.

(** ** Data *)

Record Tenant := mkTenant {
  ten_ID : string;
  ten_Name : string;
  ten_Edition : string;
  ten_CreatedAt : time;
  ten_UpdatedAt : time
}.
#[export] Instance eta_Tenant : Eta Tenant := λ x, mkTenant (ten_ID x) (ten_Name x) (ten_Edition x)
   (ten_CreatedAt x) (ten_UpdatedAt x).

Record TenantDomain := mkTenantDomain {
  dom_ID : string;
  dom_TenantID : string;
  dom_Domain : string;
  dom_Kind : string;
  dom_IsPrimary : bool;
  dom_Status : string;
  dom_CreatedAt : time;
  dom_UpdatedAt : time
}.
#[export] Instance eta_TenantDomain : Eta TenantDomain := λ x, mkTenantDomain (dom_ID x) (dom_TenantID x)
   (dom_Domain x) (dom_Kind x) (dom_IsPrimary x) (dom_Status x) (dom_CreatedAt x) (dom_UpdatedAt x).

Record TenantMembership := mkTenantMembership {
  mem_TenantID : string;
  mem_UserID : string;
  mem_Role : string;
  mem_TenantName : string;
  mem_TenantEdition : string;
  mem_Domain : string;
  mem_CreatedAt : time;
  mem_UpdatedAt : time
}.
#[export] Instance eta_TenantMembership : Eta TenantMembership := λ x, mkTenantMembership (mem_TenantID x)
   (mem_UserID x) (mem_Role x) (mem_TenantName x) (mem_TenantEdition x) (mem_Domain x) (mem_CreatedAt x)
   (mem_UpdatedAt x).

Record XWorkmateSecretLocator := mkSecretLocator {
  loc_ID : string;
  loc_Provider : string;
  loc_SecretPath : string;
  loc_SecretKey : string;
  loc_Target : string;
  loc_Required : bool
}.
#[export] Instance eta_Locator : Eta XWorkmateSecretLocator := λ x, mkSecretLocator (loc_ID x) (loc_Provider x)
   (loc_SecretPath x) (loc_SecretKey x) (loc_Target x) (loc_Required x).

Record XWorkmateProfile := mkXWorkmateProfile {
  xp_ID : string;
  xp_TenantID : string;
  xp_UserID : string;
  xp_Scope : string;
  xp_BridgeServerURL : string;
  xp_BridgeServerOrigin : string;
  xp_VaultURL : string;
  xp_VaultNamespace : string;
  xp_VaultSecretPath : string;
  xp_VaultSecretKey : string;
  xp_SecretLocators : list XWorkmateSecretLocator;
  xp_ApisixURL : string;
  xp_CreatedAt : time;
  xp_UpdatedAt : time
}.
#[export] Instance eta_XWorkmateProfile : Eta XWorkmateProfile := λ x, mkXWorkmateProfile (xp_ID x)
   (xp_TenantID x) (xp_UserID x) (xp_Scope x) (xp_BridgeServerURL x) (xp_BridgeServerOrigin x) (xp_VaultURL x)
   (xp_VaultNamespace x) (xp_VaultSecretPath x) (xp_VaultSecretKey x) (xp_SecretLocators x) (xp_ApisixURL x)
   (xp_CreatedAt x) (xp_UpdatedAt x).

Record tenantTables := mkTenantTables {
  tenants : gmap string Tenant;
  tenantDomains : gmap string TenantDomain;
  tenantMemberships : gmap string (gmap string TenantMembership);
  xworkmateProfiles : gmap string XWorkmateProfile
}.
#[export] Instance eta_tenantTables : Eta tenantTables := λ x, mkTenantTables (tenants x) (tenantDomains x)
   (tenantMemberships x) (xworkmateProfiles x).

Definition SharedPublicTenantEdition : string := "shared_public".
Definition TenantPrivateEdition : string := "tenant_private".
Definition TenantMembershipRoleAdmin : string := "admin".
Definition TenantMembershipRoleUser : string := "user".
Definition TenantDomainKindGenerated : string := "generated".
Definition TenantDomainKindCustom : string := "custom".
Definition TenantDomainStatusPending : string := "pending".
Definition TenantDomainStatusVerified : string := "verified".
Definition XWorkmateProfileScopeTenantShared : string := "tenant-shared".
Definition XWorkmateProfileScopeUserPrivate : string := "user-private".
Definition XWorkmateSecretLocatorProviderVault : string := "vault".
Definition XWorkmateSecretLocatorTargetBridgeAuthToken : string := "bridge.auth_token".
Definition SharedXWorkmateTenantID : string := "svc-plus-xworkmate".
Definition SharedXWorkmateTenantName : string := "Shared XWorkmate".

(** ** Normalisation *)

(** The switches: one value is recognised, everything else is the default. *)
Definition NormalizeTenantEdition (value : string) : string :=
  if ToLower (TrimSpace value) == SharedPublicTenantEdition then SharedPublicTenantEdition else TenantPrivateEdition.
Definition NormalizeTenantMembershipRole (value : string) : string :=
  if ToLower (TrimSpace value) == TenantMembershipRoleAdmin then TenantMembershipRoleAdmin else TenantMembershipRoleUser.
Definition NormalizeTenantDomainKind (value : string) : string :=
  if ToLower (TrimSpace value) == TenantDomainKindCustom then TenantDomainKindCustom else TenantDomainKindGenerated.
Definition NormalizeTenantDomainStatus (value : string) : string :=
  if ToLower (TrimSpace value) == TenantDomainStatusPending then TenantDomainStatusPending else TenantDomainStatusVerified.
Definition NormalizeXWorkmateProfileScope (value : string) : string :=
  if ToLower (TrimSpace value) == XWorkmateProfileScopeTenantShared
  then XWorkmateProfileScopeTenantShared else XWorkmateProfileScopeUserPrivate.

(** [strings.Trim(s, cut)] for one character. *)
Fixpoint drop_char (c : ascii) (s : list ascii) : list ascii :=
  match s with [] => [] | d :: rest => if d == c then drop_char c rest else s end.
Definition TrimChar (c : ascii) (s : string) : string :=
  of_chars (reverse (drop_char c (reverse (drop_char c (chars s))))).

(** [net.SplitHostPort], of which only the host is used. *)
Definition SplitHostPort (hostport : string) : option string :=
  let s := chars hostport in
  let has c l := existsb (λ d, d == c) l in
  match cut_last ":"%char s with
  | None => None
  | Some (before, after) =>
      match s with
      | "["%char :: rest =>
          match cut_last "]"%char before with
          | Some (_ :: host, []) =>
              if has "["%char host || has "]"%char host || has "["%char after || has "]"%char after
              then None else Some (of_chars host)
          | _ => None
          end
      | _ => if has ":"%char before || has "["%char s || has "]"%char s then None else Some (of_chars before)
      end
  end.

Section hosts.
Context `{URLParser}.

Definition NormalizeHostname (value : string) : string :=
  let trimmed := TrimSpace value in
  if trimmed == "" then "" else
  let trimmed := match Split trimmed ","%char with
                 | first :: _ :: _ => TrimSpace first
                 | _ => trimmed
                 end in
  let trimmed := match url_Parse trimmed with
                 | Some parsed => if url_Host parsed != "" then url_Host parsed else trimmed
                 | None => trimmed
                 end in
  let trimmed := match SplitHostPort trimmed with Some host => host | None => trimmed end in
  TrimChar "."%char (ToLower trimmed).

(** [env] holds XWORKMATE_SHARED_TENANT_DOMAIN and XWORKMATE_SHARED_TENANT_DOMAINS. *)
Definition ConfiguredSharedTenantDomains (env : string * string) : list string :=
  foldl (λ domains value,
    let domain := NormalizeHostname value in
    if (domain == "") || contains domains domain then domains else domains ++ [domain])
    [] (Split env.1 ","%char ++ Split env.2 ","%char).

Definition IsSharedTenantHost (env : string * string) (host : string) : bool :=
  let normalized := NormalizeHostname host in
  (normalized != "") && contains (ConfiguredSharedTenantDomains env) normalized.

Definition SharedTenantDomain (env : string * string) : string :=
  let domain := NormalizeHostname env.1 in
  if domain != "" then domain else
  match ConfiguredSharedTenantDomains env with [] => "" | domain :: _ => domain end.

(** [rand] is the result of [rand.Read] on four bytes. *)
Definition GenerateRandomTenantDomain (env : string * string) (rand : result error (list Z)) : result error string :=
  let baseDomain := SharedTenantDomain env in
  if baseDomain == "" then Err (ErrMsg "XWORKMATE_SHARED_TENANT_DOMAIN is required to generate a tenant domain") else
  match rand with
  | Err e => Err e
  | Ok buffer => Ok ("xw-" +:+ hex buffer +:+ "." +:+ baseDomain)%string
  end.

Definition NormalizeTenant (tenant : Tenant) : Tenant :=
  tenant <| ten_ID := TrimSpace (ten_ID tenant) |> <| ten_Name := TrimSpace (ten_Name tenant) |>
         <| ten_Edition := NormalizeTenantEdition (ten_Edition tenant) |>.

Definition NormalizeTenantDomain (domain : TenantDomain) : TenantDomain :=
  domain <| dom_ID := TrimSpace (dom_ID domain) |> <| dom_TenantID := TrimSpace (dom_TenantID domain) |>
         <| dom_Domain := NormalizeHostname (dom_Domain domain) |>
         <| dom_Kind := NormalizeTenantDomainKind (dom_Kind domain) |>
         <| dom_Status := NormalizeTenantDomainStatus (dom_Status domain) |>.

Definition NormalizeTenantMembership (m : TenantMembership) : TenantMembership :=
  m <| mem_TenantID := TrimSpace (mem_TenantID m) |> <| mem_UserID := TrimSpace (mem_UserID m) |>
    <| mem_Role := NormalizeTenantMembershipRole (mem_Role m) |>
    <| mem_TenantName := TrimSpace (mem_TenantName m) |>
    <| mem_TenantEdition := NormalizeTenantEdition (mem_TenantEdition m) |>
    <| mem_Domain := NormalizeHostname (mem_Domain m) |>.
End hosts.

(** *** Profiles *)

Definition NormalizeXWorkmateSecretLocator (newID : string) (l : XWorkmateSecretLocator) : XWorkmateSecretLocator :=
  let provider := ToLower (TrimSpace (loc_Provider l)) in
  mkSecretLocator (if TrimSpace (loc_ID l) == "" then newID else TrimSpace (loc_ID l))
    (if provider == "" then XWorkmateSecretLocatorProviderVault else provider)
    (TrimChar "/"%char (TrimSpace (loc_SecretPath l))) (TrimSpace (loc_SecretKey l))
    (ToLower (TrimSpace (loc_Target l))) (loc_Required l).

Definition legacyXWorkmateSecretLocatorID (profile : XWorkmateProfile) : string :=
  ("legacy|" +:+ TrimSpace (xp_TenantID profile) +:+ "|" +:+ TrimSpace (xp_UserID profile) +:+ "|" +:+
   NormalizeXWorkmateProfileScope (xp_Scope profile) +:+ "|" +:+ XWorkmateSecretLocatorTargetBridgeAuthToken)%string.

Definition synthesizeXWorkmateSecretLocatorFromLegacy (profile : XWorkmateProfile) : XWorkmateSecretLocator :=
  mkSecretLocator (legacyXWorkmateSecretLocatorID profile) XWorkmateSecretLocatorProviderVault
    (xp_VaultSecretPath profile) (xp_VaultSecretKey profile) XWorkmateSecretLocatorTargetBridgeAuthToken false.

Definition compatibilityXWorkmateSecretLocator (locators : list XWorkmateSecretLocator) : option (string * string) :=
  match List.find (λ l, (loc_Target l == XWorkmateSecretLocatorTargetBridgeAuthToken) &&
                        (loc_SecretPath l != "") && (loc_SecretKey l != "")) locators with
  | Some l => Some (loc_SecretPath l, loc_SecretKey l)
  | None => None
  end.

(** [newIDs i] is the identifier generated for the [i]-th locator. *)
Definition trimmed_profile (newIDs : nat → string) (p : XWorkmateProfile) : XWorkmateProfile :=
  mkXWorkmateProfile (TrimSpace (xp_ID p)) (TrimSpace (xp_TenantID p)) (TrimSpace (xp_UserID p))
    (NormalizeXWorkmateProfileScope (xp_Scope p)) (TrimSpace (xp_BridgeServerURL p))
    (TrimSpace (xp_BridgeServerOrigin p)) (TrimSpace (xp_VaultURL p)) (TrimSpace (xp_VaultNamespace p))
    (TrimChar "/"%char (TrimSpace (xp_VaultSecretPath p))) (TrimSpace (xp_VaultSecretKey p))
    (imap (λ i, NormalizeXWorkmateSecretLocator (newIDs i)) (xp_SecretLocators p))
    (TrimSpace (xp_ApisixURL p)) (xp_CreatedAt p) (xp_UpdatedAt p).

(** A profile without locators gets one from its own path and key. *)
Definition with_legacy_locator (p : XWorkmateProfile) : XWorkmateProfile :=
  match xp_SecretLocators p with
  | [] => if (xp_VaultSecretPath p != "") && (xp_VaultSecretKey p != "")
          then p <| xp_SecretLocators := [synthesizeXWorkmateSecretLocatorFromLegacy p] |> else p
  | _ => p
  end.

(** A profile without a path or key of its own takes it from a locator. *)
Definition with_compatible_path (p : XWorkmateProfile) : XWorkmateProfile :=
  if (xp_VaultSecretPath p == "") || (xp_VaultSecretKey p == "") then
    match compatibilityXWorkmateSecretLocator (xp_SecretLocators p) with
    | Some (path, key) =>
        let p := if xp_VaultSecretPath p == "" then p <| xp_VaultSecretPath := path |> else p in
        if xp_VaultSecretKey p == "" then p <| xp_VaultSecretKey := key |> else p
    | None => p
    end
  else p.

Definition NormalizeXWorkmateProfile (newIDs : nat → string) (p : XWorkmateProfile) : XWorkmateProfile :=
  with_compatible_path (with_legacy_locator (trimmed_profile newIDs p)).

Definition tenantProfileKey (tenantID userID scope : string) : string :=
  (TrimSpace tenantID +:+ "|" +:+ TrimSpace userID +:+ "|" +:+ NormalizeXWorkmateProfileScope scope)%string.

(** ** Store operations *)

Definition EnsureTenant (newID : string) (now : time) (tenant : Tenant) (s : tenantTables)
    : result error Tenant * tenantTables :=
  let tenant := NormalizeTenant tenant in
  let tenant := if ten_ID tenant == "" then tenant <| ten_ID := newID |> else tenant in
  match tenants s !! ten_ID tenant with
  | Some existing =>
      let existing := existing <| ten_Name := ten_Name tenant |> <| ten_Edition := ten_Edition tenant |>
                               <| ten_UpdatedAt := now |> in
      (Ok (tenant <| ten_CreatedAt := ten_CreatedAt existing |> <| ten_UpdatedAt := now |>),
       s <| tenants := <[ten_ID tenant := existing]> (tenants s) |>)
  | None =>
      let stored := tenant <| ten_CreatedAt := now |> <| ten_UpdatedAt := now |> in
      (Ok stored, s <| tenants := <[ten_ID tenant := stored]> (tenants s) |>)
  end.

(** A new primary domain takes that mark from the other domains of its tenant. *)
Definition demote_primaries (domain : TenantDomain) (all : gmap string TenantDomain) : gmap string TenantDomain :=
  (λ d, if (dom_TenantID d == dom_TenantID domain) && (dom_Domain d != dom_Domain domain)
        then d <| dom_IsPrimary := false |> else d) <$> all.

Section store.
Context `{URLParser}.

Definition EnsureTenantDomain (newID : string) (now : time) (domain : TenantDomain) (s : tenantTables)
    : result error TenantDomain * tenantTables :=
  let domain := NormalizeTenantDomain domain in
  if (dom_Domain domain == "") || (dom_TenantID domain == "") then (Err ErrTenantNotFound, s) else
  let domain := if dom_ID domain == "" then domain <| dom_ID := newID |> else domain in
  match tenantDomains s !! dom_Domain domain with
  | Some existing =>
      let existing := existing <| dom_TenantID := dom_TenantID domain |> <| dom_Kind := dom_Kind domain |>
        <| dom_IsPrimary := dom_IsPrimary domain |> <| dom_Status := dom_Status domain |>
        <| dom_UpdatedAt := now |> in
      (Ok (domain <| dom_CreatedAt := dom_CreatedAt existing |> <| dom_UpdatedAt := now |>),
       s <| tenantDomains := <[dom_Domain domain := existing]> (tenantDomains s) |>)
  | None =>
      let all := if dom_IsPrimary domain then demote_primaries domain (tenantDomains s) else tenantDomains s in
      let stored := domain <| dom_CreatedAt := now |> <| dom_UpdatedAt := now |> in
      (Ok stored, s <| tenantDomains := <[dom_Domain domain := stored]> all |>)
  end.

Definition UpsertTenantMembership (now : time) (membership : TenantMembership) (s : tenantTables)
    : result error TenantMembership * tenantTables :=
  let m := NormalizeTenantMembership membership in
  if (mem_TenantID m == "") || (mem_UserID m == "") then (Err ErrTenantMembershipNotFound, s) else
  let members := default ∅ (tenantMemberships s !! mem_TenantID m) in
  let put entry := s <| tenantMemberships :=
    <[mem_TenantID m := <[mem_UserID m := entry]> members]> (tenantMemberships s) |> in
  match members !! mem_UserID m with
  | Some existing =>
      let existing := existing <| mem_Role := mem_Role m |> <| mem_UpdatedAt := now |> in
      (Ok (m <| mem_CreatedAt := mem_CreatedAt existing |> <| mem_UpdatedAt := now |>), put existing)
  | None =>
      let stored := mkTenantMembership (mem_TenantID m) (mem_UserID m) (mem_Role m) "" "" "" now now in
      (Ok (m <| mem_CreatedAt := now |> <| mem_UpdatedAt := now |>), put stored)
  end.

Definition ResolveTenantByHost (env : string * string) (host : string) (s : tenantTables)
    : result error (Tenant * option TenantDomain) :=
  let normalizedHost := NormalizeHostname host in
  if IsSharedTenantHost env normalizedHost then
    match tenants s !! SharedXWorkmateTenantID with
    | None => Err ErrTenantNotFound
    | Some tenant => Ok (tenant, tenantDomains s !! SharedTenantDomain env)
    end
  else
    match tenantDomains s !! normalizedHost with
    | None => Err ErrTenantNotFound
    | Some domain =>
        match tenants s !! dom_TenantID domain with
        | None => Err ErrTenantNotFound
        | Some tenant => Ok (tenant, Some domain)
        end
    end.
End store.

(** The name and edition of the tenant and the first primary domain the
    iteration meets. *)
Definition describe_member `{MapOrder} (s : tenantTables) (tenantID : string) (member : TenantMembership)
    : TenantMembership :=
  let entry := match tenants s !! tenantID with
               | Some tenant => member <| mem_TenantName := ten_Name tenant |>
                                       <| mem_TenantEdition := ten_Edition tenant |>
               | None => member
               end in
  match List.find (λ kv : string * TenantDomain, (dom_TenantID kv.2 == tenantID) && dom_IsPrimary kv.2)
          (range (tenantDomains s)) with
  | Some (_, domain) => entry <| mem_Domain := dom_Domain domain |>
  | None => entry
  end.

Definition membership_less (a b : TenantMembership) : bool :=
  if mem_TenantName a == mem_TenantName b then string_lt (mem_TenantID a) (mem_TenantID b)
  else string_lt (mem_TenantName a) (mem_TenantName b).

Definition ListTenantMembershipsByUser `{MapOrder} (userID : string) (s : tenantTables) : list TenantMembership :=
  let normalizedUserID := TrimSpace userID in
  sort_slice membership_less (flat_map (λ '(tenantID, members),
    match (members : gmap string TenantMembership) !! normalizedUserID with
    | Some member => [describe_member s tenantID member]
    | None => []
    end) (range (tenantMemberships s))).

Definition GetTenantMembership `{MapOrder} (tenantID userID : string) (s : tenantTables)
    : result error TenantMembership :=
  match tenantMemberships s !! TrimSpace tenantID with
  | None => Err ErrTenantMembershipNotFound
  | Some members =>
      match members !! TrimSpace userID with
      | None => Err ErrTenantMembershipNotFound
      | Some member => Ok (describe_member s (TrimSpace tenantID) member)
      end
  end.

(** The identifiers a call of [NormalizeXWorkmateProfile] generates are
    [newIDs]. *)
Definition GetXWorkmateProfile (newIDs : nat → string) (tenantID userID scope : string) (s : tenantTables)
    : result error XWorkmateProfile :=
  match xworkmateProfiles s !! tenantProfileKey tenantID userID scope with
  | None => Err ErrXWorkmateProfileNotFound
  | Some profile => Ok (NormalizeXWorkmateProfile newIDs profile)
  end.

Definition UpsertXWorkmateProfile (newIDs : nat → string) (newID : string) (now : time)
    (profile : XWorkmateProfile) (s : tenantTables) : result error XWorkmateProfile * tenantTables :=
  let p := NormalizeXWorkmateProfile newIDs profile in
  if xp_TenantID p == "" then (Err ErrXWorkmateProfileNotFound, s) else
  if (xp_Scope p == XWorkmateProfileScopeUserPrivate) && (xp_UserID p == "")
  then (Err ErrXWorkmateProfileNotFound, s) else
  let p := if xp_Scope p == XWorkmateProfileScopeTenantShared then p <| xp_UserID := "" |> else p in
  let p := if xp_ID p == "" then p <| xp_ID := newID |> else p in
  let key := tenantProfileKey (xp_TenantID p) (xp_UserID p) (xp_Scope p) in
  match xworkmateProfiles s !! key with
  | Some existing =>
      let existing := existing <| xp_BridgeServerURL := xp_BridgeServerURL p |>
        <| xp_BridgeServerOrigin := xp_BridgeServerOrigin p |> <| xp_VaultURL := xp_VaultURL p |>
        <| xp_VaultNamespace := xp_VaultNamespace p |> <| xp_VaultSecretPath := xp_VaultSecretPath p |>
        <| xp_VaultSecretKey := xp_VaultSecretKey p |> <| xp_SecretLocators := xp_SecretLocators p |>
        <| xp_ApisixURL := xp_ApisixURL p |> <| xp_UpdatedAt := now |> in
      (Ok (p <| xp_CreatedAt := xp_CreatedAt existing |> <| xp_UpdatedAt := now |>),
       s <| xworkmateProfiles := <[key := existing]> (xworkmateProfiles s) |>)
  | None =>
      let stored := p <| xp_CreatedAt := now |> <| xp_UpdatedAt := now |> in
      (Ok stored, s <| xworkmateProfiles := <[key := stored]> (xworkmateProfiles s) |>)
  end.

(** ** The key of a profile *)

Lemma with_legacy_locator_fields p :
  xp_TenantID (with_legacy_locator p) = xp_TenantID p ∧ xp_UserID (with_legacy_locator p) = xp_UserID p ∧
  xp_Scope (with_legacy_locator p) = xp_Scope p.
Proof. unfold with_legacy_locator. destruct (xp_SecretLocators p); [|done]. by destruct (_ && _). Qed.

Lemma with_compatible_path_fields p :
  xp_TenantID (with_compatible_path p) = xp_TenantID p ∧ xp_UserID (with_compatible_path p) = xp_UserID p ∧
  xp_Scope (with_compatible_path p) = xp_Scope p ∧ xp_SecretLocators (with_compatible_path p) = xp_SecretLocators p.
Proof.
  unfold with_compatible_path. destruct (_ || _); [|done].
  destruct (compatibilityXWorkmateSecretLocator _) as [[path key]|]; [|done]. cbv zeta.
  destruct (xp_VaultSecretPath p == ""); getset; by destruct (xp_VaultSecretKey p == "").
Qed.

(** The fields a profile is filed under. *)
Lemma normal_profile_fields newIDs p :
  xp_TenantID (NormalizeXWorkmateProfile newIDs p) = TrimSpace (xp_TenantID p) ∧
  xp_UserID (NormalizeXWorkmateProfile newIDs p) = TrimSpace (xp_UserID p) ∧
  xp_Scope (NormalizeXWorkmateProfile newIDs p) = NormalizeXWorkmateProfileScope (xp_Scope p).
Proof.
  unfold NormalizeXWorkmateProfile.
  destruct (with_compatible_path_fields (with_legacy_locator (trimmed_profile newIDs p))) as (-> & -> & -> & _).
  destruct (with_legacy_locator_fields (trimmed_profile newIDs p)) as (-> & -> & ->). done.
Qed.

Lemma scope_idem scope :
  NormalizeXWorkmateProfileScope (NormalizeXWorkmateProfileScope scope) = NormalizeXWorkmateProfileScope scope.
Proof. unfold NormalizeXWorkmateProfileScope at 2 3. by destruct (_ == _). Qed.

Lemma tenantProfileKey_trimmed t u scope :
  tenantProfileKey (TrimSpace t) (TrimSpace u) (NormalizeXWorkmateProfileScope scope) = tenantProfileKey t u scope.
Proof. unfold tenantProfileKey. by rewrite !TrimSpace_idem, scope_idem. Qed.

(** Profiles are filed under their own fields; a shared one has no account. *)
Definition filed (k : string) (p : XWorkmateProfile) : Prop :=
  k = tenantProfileKey (xp_TenantID p) (xp_UserID p) (xp_Scope p) ∧
  (NormalizeXWorkmateProfileScope (xp_Scope p) = XWorkmateProfileScopeTenantShared → xp_UserID p = "").

Definition profile_account (p : XWorkmateProfile) : string :=
  if NormalizeXWorkmateProfileScope (xp_Scope p) == XWorkmateProfileScopeTenantShared then "" else xp_UserID p.

(** What a successful write changes: the profile under its key, which takes the
    locators written and stays filed there. *)
Lemma UpsertXWorkmateProfile_filed newIDs newID now p s q s' :
  UpsertXWorkmateProfile newIDs newID now p s = (Ok q, s') →
  ∃ stored, s' = s <| xworkmateProfiles :=
      <[tenantProfileKey (xp_TenantID p) (profile_account p) (xp_Scope p) := stored]> (xworkmateProfiles s) |> ∧
    xp_SecretLocators stored = xp_SecretLocators (NormalizeXWorkmateProfile newIDs p) ∧
    ((∀ k p, xworkmateProfiles s !! k = Some p → filed k p) →
     filed (tenantProfileKey (xp_TenantID p) (profile_account p) (xp_Scope p)) stored).
Proof.
  unfold UpsertXWorkmateProfile. destruct (normal_profile_fields newIDs p) as (ET & EU & ES).
  revert ET EU ES. generalize (NormalizeXWorkmateProfile newIDs p). intros n ET EU ES. cbv zeta.
  destruct (xp_TenantID n == ""); [done|]. destruct (_ && _); [done|].
  set (n1 := if xp_Scope n == XWorkmateProfileScopeTenantShared then n <| xp_UserID := "" |> else n).
  set (n2 := if xp_ID n1 == "" then n1 <| xp_ID := newID |> else n1).
  assert (xp_TenantID n2 = TrimSpace (xp_TenantID p) ∧ xp_UserID n2 = TrimSpace (profile_account p) ∧
    xp_Scope n2 = NormalizeXWorkmateProfileScope (xp_Scope p) ∧ xp_SecretLocators n2 = xp_SecretLocators n ∧
    (xp_Scope n2 = XWorkmateProfileScopeTenantShared → xp_UserID n2 = "")) as (E1 & E2 & E3 & E4 & E5).
  { assert (xp_TenantID n2 = xp_TenantID n1 ∧ xp_UserID n2 = xp_UserID n1 ∧ xp_Scope n2 = xp_Scope n1 ∧
      xp_SecretLocators n2 = xp_SecretLocators n1) as (-> & -> & -> & ->) by (subst n2; by destruct (xp_ID n1 == "")).
    subst n1 n2. unfold profile_account. rewrite <- ES.
    destruct (bool_decide_reflect (xp_Scope n = XWorkmateProfileScopeTenantShared)) as [E|E]; getset; by split_and!. }
  clearbody n2. clear n1.
  assert (tenantProfileKey (xp_TenantID n2) (xp_UserID n2) (xp_Scope n2) =
    tenantProfileKey (xp_TenantID p) (profile_account p) (xp_Scope p)) as EK.
  { rewrite E1, E2, E3. apply tenantProfileKey_trimmed. }
  rewrite EK. destruct (xworkmateProfiles s !! _) as [old|] eqn:Eold; intros Hs;
    apply (f_equal snd) in Hs; cbn [snd] in Hs; subst s'; eexists; (split; [reflexivity|]).
  - split; [exact E4|]. intros Hf. exact (Hf _ _ Eold).
  - split; [exact E4|]. intros _. split.
    + symmetry. exact EK.
    + change (NormalizeXWorkmateProfileScope (xp_Scope n2) = XWorkmateProfileScopeTenantShared → xp_UserID n2 = "").
      rewrite E3, scope_idem, <- E3. exact E5.
Qed.
