(* ===== verification/Vault.v ===== *)
(** * The secret vault of the workspaces

    [api/xworkmate_vault.go]: the service that keeps the secrets of a workspace
    out of the profile tables, its in-memory implementation, and the one that
    talks to a HashiCorp Vault server.

    The service is a class; what the handlers rely on is the class
    [VaultLaws], which both implementations satisfy.  The HTTP client and the
    server behind it are a parameter ([VaultServer]); the laws of the second
    implementation assume the documented behaviour of a KV version 2 engine
    ([KVEngine]). *)

From S2P Require Import Prelude GoLib StoreData Netip Hmac StripeClient Tenants.
From Stdlib Require Import Ascii.
Open Scope Z_scope.
Open Scope bool_scope.
Open Scope go_scope.

(** [xworkmateVaultService] *)
Class VaultService (V : Type) := {
  WriteSecret : XWorkmateSecretLocator → string → V → result error unit * V;
  DeleteSecret : XWorkmateSecretLocator → V → result error unit * V;
  HasSecret : XWorkmateSecretLocator → V → result error bool * V;
  ReadSecret : XWorkmateSecretLocator → V → result error string * V
}.

(** Every method normalises its copy of the locator; the identifier that may be
    generated then is not used. *)
Definition vault_locator (l : XWorkmateSecretLocator) : XWorkmateSecretLocator :=
  NormalizeXWorkmateSecretLocator "" l.
Definition incomplete (l : XWorkmateSecretLocator) : bool := (loc_SecretPath l == "") || (loc_SecretKey l == "").

Definition locator_incomplete : error := ErrMsg "vault locator is incomplete".
Definition secret_not_found : error := ErrMsg "secret not found".

(** ** The in-memory service *)

Abbreviation memoryXWorkmateVaultService := (gmap string (gmap string string)).

Definition newMemoryXWorkmateVaultService : memoryXWorkmateVaultService := ∅.

Definition memory_WriteSecret (locator : XWorkmateSecretLocator) (value : string)
    (s : memoryXWorkmateVaultService) : result error unit * memoryXWorkmateVaultService :=
  let locator := vault_locator locator in
  if incomplete locator then (Err locator_incomplete, s) else
  if TrimSpace value == "" then (Err (ErrMsg "secret value is required"), s) else
  let secretMap := default ∅ (s !! loc_SecretPath locator) in
  (Ok tt, <[loc_SecretPath locator := <[loc_SecretKey locator := value]> secretMap]> s).

Definition memory_DeleteSecret (locator : XWorkmateSecretLocator) (s : memoryXWorkmateVaultService)
    : result error unit * memoryXWorkmateVaultService :=
  let locator := vault_locator locator in
  if incomplete locator then (Ok tt, s) else
  match s !! loc_SecretPath locator with
  | None => (Ok tt, s)
  | Some secretMap =>
      let secretMap := delete (loc_SecretKey locator) secretMap in
      (Ok tt, if secretMap == ∅ then delete (loc_SecretPath locator) s
              else <[loc_SecretPath locator := secretMap]> s)
  end.

Definition memory_HasSecret (locator : XWorkmateSecretLocator) (s : memoryXWorkmateVaultService)
    : result error bool * memoryXWorkmateVaultService :=
  let locator := vault_locator locator in
  if incomplete locator then (Ok false, s) else
  match s !! loc_SecretPath locator with
  | None => (Ok false, s)
  | Some secretMap => (Ok (bool_decide (is_Some (secretMap !! loc_SecretKey locator))), s)
  end.

Definition memory_ReadSecret (locator : XWorkmateSecretLocator) (s : memoryXWorkmateVaultService)
    : result error string * memoryXWorkmateVaultService :=
  let locator := vault_locator locator in
  if incomplete locator then (Err locator_incomplete, s) else
  match s !! loc_SecretPath locator with
  | None => (Err secret_not_found, s)
  | Some secretMap =>
      match secretMap !! loc_SecretKey locator with
      | None => (Err secret_not_found, s)
      | Some value => (Ok value, s)
      end
  end.

#[export] Instance memory_vault : VaultService memoryXWorkmateVaultService := {|
  WriteSecret := memory_WriteSecret;
  DeleteSecret := memory_DeleteSecret;
  HasSecret := memory_HasSecret;
  ReadSecret := memory_ReadSecret
|}.

(** ** The service on a Vault server *)

Record vaultRequest := mkVaultRequest {
  vr_Method : string;
  vr_URL : string;
  vr_Token : string;
  vr_Namespace : string;
  vr_Data : option (gmap string string)
}.

(** A response: its status, the trimmed text of its body, and the [data.data]
    the body decodes to, if it decodes. *)
Record vaultReply := mkVaultReply {
  rep_Status : Z;
  rep_Text : string;
  rep_Data : result string (option (gmap string string))
}.

(** [client.Do]: the text of a transport error, or a response. *)
Class VaultServer (S : Type) := client_Do : vaultRequest → S → result string vaultReply * S.

Record httpXWorkmateVaultService := mkHttpVault {
  hv_baseURL : string;
  hv_token : string;
  hv_namespace : string;
  hv_mount : string
}.

(** [strings.Contains] *)
Fixpoint Contains (s substr : string) : bool :=
  HasPrefix s substr ||
  match s with EmptyString => false | String _ rest => Contains rest substr end.

Section http.
Context `{URLParser} {S : Type} `{VaultServer S} (h : httpXWorkmateVaultService).

Definition vault_base (kind secretPath : string) : string :=
  (hv_baseURL h +:+ "/v1/" +:+ hv_mount h +:+ kind +:+ TrimChar "/"%char (TrimSpace secretPath))%string.
Definition dataURL (secretPath : string) : string := vault_base "/data/" secretPath.
Definition metadataURL (secretPath : string) : string := vault_base "/metadata/" secretPath.

(** [do]: an error is its text; [decode] is whether the body is decoded. *)
Definition vault_do (method url : string) (data : option (gmap string string)) (decode : bool) (s : S)
    : result string (option (gmap string string)) * S :=
  match client_Do (mkVaultRequest method url (hv_token h) (hv_namespace h) data) s with
  | (Err e, s) => (Err e, s)
  | (Ok reply, s) =>
      if 400 <=? rep_Status reply
      then (Err ("vault status " +:+ FormatInt (rep_Status reply) +:+ ": " +:+ rep_Text reply)%string, s)
      else if decode then (rep_Data reply, s) else (Ok None, s)
  end.

Definition invalid_request_url : error := ErrMsg "parse url".

(** A request that [http.NewRequestWithContext] refuses is not sent. *)
Definition vault_send (method url : string) (data : option (gmap string string)) (s : S) : result error unit * S :=
  match url_Parse url with
  | None => (Err invalid_request_url, s)
  | Some _ => match vault_do method url data false s with
              | (Err e, s) => (Err (ErrMsg e), s)
              | (Ok _, s) => (Ok tt, s)
              end
  end.

Definition readSecretMap (secretPath : string) (s : S) : result error (gmap string string) * S :=
  match url_Parse (dataURL secretPath) with
  | None => (Err invalid_request_url, s)
  | Some _ =>
      match vault_do "GET" (dataURL secretPath) None true s with
      | (Err e, s) => if Contains e "vault status 404" then (Ok ∅, s) else (Err (ErrMsg e), s)
      | (Ok data, s) => (Ok (default ∅ data), s)
      end
  end.

Definition http_WriteSecret (locator : XWorkmateSecretLocator) (value : string) (s : S) : result error unit * S :=
  let locator := vault_locator locator in
  if incomplete locator then (Err locator_incomplete, s) else
  match readSecretMap (loc_SecretPath locator) s with
  | (Err e, s) => (Err e, s)
  | (Ok data, s) =>
      vault_send "POST" (dataURL (loc_SecretPath locator)) (Some (<[loc_SecretKey locator := value]> data)) s
  end.

Definition http_DeleteSecret (locator : XWorkmateSecretLocator) (s : S) : result error unit * S :=
  let locator := vault_locator locator in
  if incomplete locator then (Ok tt, s) else
  match readSecretMap (loc_SecretPath locator) s with
  | (Err e, s) => (Err e, s)
  | (Ok data, s) =>
      if data == ∅ then (Ok tt, s) else
      let data := delete (loc_SecretKey locator) data in
      if data == ∅ then vault_send "DELETE" (metadataURL (loc_SecretPath locator)) None s
      else vault_send "POST" (dataURL (loc_SecretPath locator)) (Some data) s
  end.

Definition http_HasSecret (locator : XWorkmateSecretLocator) (s : S) : result error bool * S :=
  let locator := vault_locator locator in
  if incomplete locator then (Ok false, s) else
  match readSecretMap (loc_SecretPath locator) s with
  | (Err e, s) => (Err e, s)
  | (Ok data, s) => (Ok (bool_decide (is_Some (data !! loc_SecretKey locator))), s)
  end.

Definition http_ReadSecret (locator : XWorkmateSecretLocator) (s : S) : result error string * S :=
  let locator := vault_locator locator in
  if incomplete locator then (Err locator_incomplete, s) else
  match readSecretMap (loc_SecretPath locator) s with
  | (Err e, s) => (Err e, s)
  | (Ok data, s) =>
      match data !! loc_SecretKey locator with
      | None => (Err secret_not_found, s)
      | Some value => (Ok value, s)
      end
  end.

Definition http_vault : VaultService S := {|
  WriteSecret := http_WriteSecret;
  DeleteSecret := http_DeleteSecret;
  HasSecret := http_HasSecret;
  ReadSecret := http_ReadSecret
|}.
End http.

(** ** The secrets a workspace manages *)

Record xworkmateManagedSecretTarget := mkManagedTarget {
  mt_Target : string;
  mt_Required : bool;
  mt_TokenConfiguredID : string
}.

Definition XWorkmateSecretLocatorTargetVaultRootToken : string := "vault.root_token".
Definition XWorkmateSecretLocatorTargetAIGatewayAccessToken : string := "ai_gateway.access_token".
Definition XWorkmateSecretLocatorTargetOllamaCloudAPIKey : string := "ollama_cloud.api_key".

Definition xworkmateManagedSecretTargets : list xworkmateManagedSecretTarget :=
  [mkManagedTarget XWorkmateSecretLocatorTargetBridgeAuthToken true "bridge";
   mkManagedTarget XWorkmateSecretLocatorTargetVaultRootToken false "vault";
   mkManagedTarget XWorkmateSecretLocatorTargetAIGatewayAccessToken false "apisix";
   mkManagedTarget XWorkmateSecretLocatorTargetOllamaCloudAPIKey false ""].

Definition findXWorkmateManagedTarget (target : string) : option xworkmateManagedSecretTarget :=
  List.find (λ candidate, mt_Target candidate == ToLower (TrimSpace target)) xworkmateManagedSecretTargets.
