(* ===== verification/Workspace.v ===== *)
(** * The workspace API

    The handlers of [api/xworkmate.go]: which tenant a host means and what an
    account may do there, the integration profile, its secrets, the bridge
    credentials, and the bootstrap of a private tenant.

    A handler is a function of the accounts, the decoded request and the
    workspace; it returns its response and the new workspace.  Identifiers,
    random bytes and the clock are arguments: [ids site i] is the [i]-th
    identifier generated at a place of the handler.  The database is absent
    ([h.db == nil]); the branches that send SQL are not modelled. *)

From S2P Require Import Prelude GoLib Json StoreData Users Access Sha256 Netip Hmac StripeClient Tenants Vault.
From Stdlib Require Import Ascii.
Open Scope Z_scope.
Open Scope bool_scope.
Open Scope go_scope.

(** ** State *)

Record memoryBridgeCredential := mkBridgeCredential {
  bc_CredentialUUID : string;
  bc_Token : string;
  bc_AccountID : string;
  bc_TenantID : string
}.

(** The parts of the handler that change; [ws_vault] is [None] when no vault
    service is configured. *)
Record workspace (V : Type) := mkWorkspace {
  ws_tables : tenantTables;
  ws_vault : option V;
  ws_credentials : gmap string memoryBridgeCredential
}.
Arguments mkWorkspace {V}.
Arguments ws_tables {V}.
Arguments ws_vault {V}.
Arguments ws_credentials {V}.
#[export] Instance eta_workspace {V} : Eta (workspace V) := λ x, mkWorkspace (ws_tables x) (ws_vault x)
   (ws_credentials x).

Record xworkmateAccessContext := mkAccessContext {
  ac_Tenant : Tenant;
  ac_Domain : string;
  ac_MembershipRole : string;
  ac_ProfileScope : string;
  ac_CanEditIntegrations : bool;
  ac_CanManageTenant : bool
}.

(** ** Who asks, and where *)

(** The headers X-Forwarded-Host, X-Original-Host and X-Host, and the host of
    the request. *)
Definition resolveTenantHost `{URLParser} (headers : list string) : string :=
  match List.find (λ candidate, candidate != "") (NormalizeHostname <$> headers) with
  | Some candidate => candidate
  | None => ""
  end.

Definition currentAuthenticatedUser (accounts : memoryStore) (userID : string) : result response User :=
  let userID := TrimSpace userID in
  if (userID == "") || (userID == "system") then Err (401, "session_token_required") else
  match GetUserByID accounts userID with
  | Err _ => Err (401, "session_user_lookup_failed")
  | Ok user => if user_Active user then Ok user else Err (403, "account_suspended")
  end.

(** The caller-supplied frontend is used only when its host is a tenant's. *)
Definition validateFrontendURL `{URLParser} (env : string * string) (raw : string) (s : tenantTables) : string :=
  let trimmed := TrimSpace raw in
  if trimmed == "" then "" else
  match url_Parse trimmed with
  | None => ""
  | Some parsed =>
      if (url_Host parsed == "") || ((url_Scheme parsed != "http") && (url_Scheme parsed != "https")) then "" else
      let host := NormalizeHostname (url_Host parsed) in
      let origin := (url_Scheme parsed +:+ "://" +:+ url_Host parsed)%string in
      if host == "" then "" else
      if IsSharedTenantHost env host then origin else
      match ResolveTenantByHost env host s with Ok _ => origin | Err _ => "" end
  end.

(** The query parameter, the X-Frontend-Url, Origin and Referer headers, and
    the configured frontend. *)
Definition resolveFrontendURL `{URLParser} (env : string * string) (query header origin referer configured : string)
    (s : tenantTables) : string :=
  let referer := TrimSpace referer in
  let from_referer := if referer == "" then [] else
    match url_Parse referer with
    | Some parsed => if url_Host parsed != ""
                     then [(url_Scheme parsed +:+ "://" +:+ url_Host parsed)%string] else []
    | None => []
    end in
  let candidates := [TrimSpace query; TrimSpace header; TrimSpace origin] ++ from_referer ++ [TrimSpace configured] in
  match List.find (λ validated, validated != "") ((λ c, validateFrontendURL env c s) <$> candidates) with
  | Some validated => validated
  | None => ""
  end.

(** [nonce] is the result of [generateRandomState]. *)
Definition buildOAuthState (nonce frontendURL : string) : string :=
  let trimmed := TrimSpace frontendURL in
  if trimmed == "" then nonce else (nonce +:+ "." +:+ RawURLEncode (bytes_of trimmed))%string.

(** [strings.SplitN(s, ".", 2)] *)
Fixpoint cut_first (sep : ascii) (s : list ascii) : option (list ascii * list ascii) :=
  match s with
  | [] => None
  | c :: rest =>
      if c == sep then Some ([], rest) else
      match cut_first sep rest with Some (a, b) => Some (c :: a, b) | None => None end
  end.

Definition parseOAuthStateFrontendURL (state : string) : string :=
  match cut_first "."%char (chars (TrimSpace state)) with
  | None => ""
  | Some (_, encoded) =>
      match RawURLDecode (of_chars encoded) with
      | None => ""
      | Some decoded => TrimSpace (string_of_bytes decoded)
      end
  end.

(** Where the OAuth callback sends the browser with the exchange code: the
    frontend of the state, that of the request, the configured one, the
    development one. *)
Definition callbackFrontendURL `{URLParser} (env : string * string) (state : string)
    (query header origin referer configured : string) (s : tenantTables) : string :=
  let frontendURL := validateFrontendURL env (parseOAuthStateFrontendURL state) s in
  let frontendURL := if frontendURL == "" then resolveFrontendURL env query header origin referer configured s
                     else frontendURL in
  let frontendURL := if frontendURL == "" then configured else frontendURL in
  if frontendURL == "" then "http://localhost:3000" else frontendURL.

(** ** Access *)

Definition isRootAccount (user : User) : bool := IsRootRole (user_Role user).

Section access.
Context `{URLParser} `{MapOrder} (env : string * string) (ids : string → nat → string) (now : time).

Definition ensureSharedXWorkmateTenant (s : tenantTables) : result error unit * tenantTables :=
  let sharedDomain := SharedTenantDomain env in
  if sharedDomain == "" then (Err (ErrMsg "XWORKMATE_SHARED_TENANT_DOMAIN is required"), s) else
  match EnsureTenant (ids "tenant" 0%nat) now
    (mkTenant SharedXWorkmateTenantID SharedXWorkmateTenantName SharedPublicTenantEdition 0 0) s with
  | (Err e, s) => (Err e, s)
  | (Ok tenant, s) =>
      match EnsureTenantDomain (ids "domain" 0%nat) now
        (mkTenantDomain "" (ten_ID tenant) sharedDomain TenantDomainKindGenerated true
           TenantDomainStatusVerified 0 0) s with
      | (Err e, s) => (Err e, s)
      | (Ok _, s) => (Ok tt, s)
      end
  end.

Definition sharedTenantRole (user : User) : string :=
  if isRootAccount user || EqualFold (TrimSpace (user_Role user)) RoleAdmin ||
     EqualFold (TrimSpace (user_Role user)) RoleOperator
  then TenantMembershipRoleAdmin else TenantMembershipRoleUser.

Definition ensureSharedTenantMembership (user : User) (s : tenantTables) : result error string * tenantTables :=
  let role := sharedTenantRole user in
  match UpsertTenantMembership now
    (mkTenantMembership SharedXWorkmateTenantID (user_ID user) role "" "" "" 0 0) s with
  | (Err e, s) => (Err e, s)
  | (Ok _, s) => (Ok role, s)
  end.

Definition resolveXWorkmateAccess (host : string) (user : User) (s : tenantTables)
    : result error xworkmateAccessContext * tenantTables :=
  let normalizedHost := NormalizeHostname host in
  match (if IsSharedTenantHost env normalizedHost then ensureSharedXWorkmateTenant s else (Ok tt, s)) with
  | (Err e, s) => (Err e, s)
  | (Ok _, s) =>
  match ResolveTenantByHost env normalizedHost s with
  | Err e => (Err e, s)
  | Ok (tenant, domain) =>
      let domainName := match domain with
        | Some d => if TrimSpace (dom_Domain d) != "" then dom_Domain d else SharedTenantDomain env
        | None => SharedTenantDomain env
        end in
      if ten_Edition tenant == SharedPublicTenantEdition then
        match ensureSharedTenantMembership user s with
        | (Err e, s) => (Err e, s)
        | (Ok role, s) =>
            let canEdit := role == TenantMembershipRoleAdmin in
            (Ok (mkAccessContext tenant domainName role XWorkmateProfileScopeTenantShared canEdit canEdit), s)
        end
      else
        match GetTenantMembership (ten_ID tenant) (user_ID user) s with
        | Err e => (Err e, s)
        | Ok membership =>
            (Ok (mkAccessContext tenant domainName (mem_Role membership) XWorkmateProfileScopeUserPrivate true
                   (mem_Role membership == TenantMembershipRoleAdmin)), s)
        end
  end
  end.

Definition access_error (e : error) : response :=
  match e with
  | ErrTenantMembershipNotFound => (403, "tenant_membership_required")
  | ErrTenantNotFound => (404, "tenant_not_found")
  | _ => (500, "xworkmate_context_failed")
  end.

(** The opening of every handler: the authenticated account, then its access. *)
Definition authorised (accounts : memoryStore) (userID : string) (headers : list string) (s : tenantTables)
    : result response (User * xworkmateAccessContext) * tenantTables :=
  match currentAuthenticatedUser accounts userID with
  | Err r => (Err r, s)
  | Ok user =>
      match resolveXWorkmateAccess (resolveTenantHost headers) user s with
      | (Err e, s) => (Err (access_error e), s)
      | (Ok access, s) => (Ok (user, access), s)
      end
  end.

(** The guards of the handlers that write. *)
Definition may_edit (code : string) (access : xworkmateAccessContext) (user : User) : option response :=
  if negb (ac_CanEditIntegrations access) then Some (403, code) else
  if isReadOnlyAccount user then Some (403, "read_only_account") else None.

(** [buildSessionUser]: the tenant of the session and the memberships shown. *)
Definition buildSessionTenantEntries (memberships : list TenantMembership) : list (string * string * string) :=
  (λ m, (mem_TenantID m, mem_Role m, if TrimSpace (mem_TenantName m) != "" then mem_TenantName m else "")) <$>
    memberships.

Definition buildSessionUser (host : string) (user : User) (s : tenantTables)
    : result error (string * list (string * string * string)) * tenantTables :=
  match resolveXWorkmateAccess host user s with
  | (Err e, s) => (Err e, s)
  | (Ok access, s) =>
      (Ok (ten_ID (ac_Tenant access),
           buildSessionTenantEntries (ListTenantMembershipsByUser (user_ID user) s)), s)
  end.

(** The end of [session]: a host without a tenant is not an error there. *)
Definition session_body (headers : list string) (user : User) (s : tenantTables)
    : result response (option (string * list (string * string * string))) * tenantTables :=
  match buildSessionUser (resolveTenantHost headers) user s with
  | (Err ErrTenantNotFound, s) => (Ok None, s)
  | (Err _, s) => (Err (500, "session_tenant_resolution_failed"), s)
  | (Ok shown, s) => (Ok (Some shown), s)
  end.
End access.

(** ** Profiles and their secret locators *)

Definition resolvedXWorkmateProfileUserID (access : xworkmateAccessContext) (user : User) : string :=
  if ac_ProfileScope access == XWorkmateProfileScopeTenantShared then "" else TrimSpace (user_ID user).

Definition loadXWorkmateProfile (ids : string → nat → string) (access : xworkmateAccessContext) (user : User)
    (s : tenantTables) : result error (option XWorkmateProfile) :=
  let tenantID := ten_ID (ac_Tenant access) in
  match GetXWorkmateProfile (ids "load") tenantID (resolvedXWorkmateProfileUserID access user)
          (ac_ProfileScope access) s with
  | Ok profile => Ok (Some profile)
  | Err ErrXWorkmateProfileNotFound =>
      if ac_ProfileScope access != XWorkmateProfileScopeTenantShared then Ok None else
      match GetXWorkmateProfile (ids "legacy") tenantID (TrimSpace (user_ID user)) (ac_ProfileScope access) s with
      | Ok legacyProfile => Ok (Some legacyProfile)
      | Err ErrXWorkmateProfileNotFound => Ok None
      | Err e => Err e
      end
  | Err e => Err e
  end.

Definition complete_locator (target : string) (l : XWorkmateSecretLocator) : bool :=
  (loc_Target l == target) && (TrimSpace (loc_SecretPath l) != "") && (TrimSpace (loc_SecretKey l) != "").

Definition hasBridgeAuthTokenXWorkmateSecretLocator (profile : XWorkmateProfile) : bool :=
  ((TrimSpace (xp_VaultSecretPath profile) != "") && (TrimSpace (xp_VaultSecretKey profile) != "")) ||
  existsb (complete_locator XWorkmateSecretLocatorTargetBridgeAuthToken) (xp_SecretLocators profile).

(** [tokenConfigured] of the responses. *)
Record tokenStatus := mkTokenStatus { ts_bridge : bool; ts_vault : bool; ts_apisix : bool }.

Definition buildXWorkmateTokenConfigured (profile : option XWorkmateProfile) : tokenStatus :=
  mkTokenStatus (match profile with Some p => hasBridgeAuthTokenXWorkmateSecretLocator p | None => false end)
    false false.

Definition buildXWorkmateTokenConfiguredWithVaultStatus (profile : option XWorkmateProfile)
    (vaultStatus : gmap string bool) : tokenStatus :=
  let result := buildXWorkmateTokenConfigured profile in
  let at_target target old := default old (vaultStatus !! target) in
  mkTokenStatus (at_target XWorkmateSecretLocatorTargetBridgeAuthToken (ts_bridge result))
    (at_target XWorkmateSecretLocatorTargetVaultRootToken (ts_vault result))
    (at_target XWorkmateSecretLocatorTargetAIGatewayAccessToken (ts_apisix result)).

Definition findStoredXWorkmateSecretLocator (newID : string) (profile : option XWorkmateProfile) (target : string)
    : option XWorkmateSecretLocator :=
  match profile with
  | None => None
  | Some p => NormalizeXWorkmateSecretLocator newID <$>
      List.find (complete_locator (ToLower (TrimSpace target))) (xp_SecretLocators p)
  end.

Definition set_locator (l old : XWorkmateSecretLocator) : XWorkmateSecretLocator :=
  old <| loc_ID := loc_ID l |> <| loc_Provider := loc_Provider l |> <| loc_SecretPath := loc_SecretPath l |>
      <| loc_SecretKey := loc_SecretKey l |> <| loc_Required := loc_Required l |>.

(** The first locator of the target is overwritten, or a new one added. *)
Fixpoint put_locator (l : XWorkmateSecretLocator) (all : list XWorkmateSecretLocator) : list XWorkmateSecretLocator :=
  match all with
  | [] => [l]
  | old :: rest => if loc_Target old == loc_Target l then set_locator l old :: rest else old :: put_locator l rest
  end.

Definition upsertXWorkmateSecretLocator (newID : string) (newIDs : nat → string) (profile : XWorkmateProfile)
    (locator : XWorkmateSecretLocator) : XWorkmateProfile :=
  let locator := NormalizeXWorkmateSecretLocator newID locator in
  NormalizeXWorkmateProfile newIDs
    (profile <| xp_SecretLocators := put_locator locator (xp_SecretLocators profile) |>).

Definition buildManagedXWorkmateSecretLocator (access : xworkmateAccessContext) (userID target : string)
    : result error XWorkmateSecretLocator :=
  match findXWorkmateManagedTarget target with
  | None => Err (ErrMsg "unknown xworkmate secret target")
  | Some managedTarget =>
      let tenantID := ten_ID (ac_Tenant access) in
      let make path := Ok (NormalizeXWorkmateSecretLocator "" (mkSecretLocator
        (Join ["managed"; tenantID; TrimSpace userID; ac_ProfileScope access; mt_Target managedTarget] "|")
        XWorkmateSecretLocatorProviderVault path (mt_Target managedTarget) (mt_Target managedTarget)
        (mt_Required managedTarget))) in
      if ac_ProfileScope access == XWorkmateProfileScopeUserPrivate then
        if TrimSpace userID == "" then Err (ErrMsg "xworkmate private scope user id is required")
        else make ("xworkmate/tenants/" +:+ tenantID +:+ "/users/" +:+ TrimSpace userID)%string
      else make ("xworkmate/tenants/" +:+ tenantID +:+ "/shared")%string
  end.

(** A secret of the responses: its locator, whether it is there, whether it is
    needed. *)
Record secretStatus := mkSecretStatus {
  ss_Locator : XWorkmateSecretLocator;
  ss_Configured : bool;
  ss_Required : bool
}.

Definition buildXWorkmateSecretStatusPayload (locator : XWorkmateSecretLocator) (configured : bool) : secretStatus :=
  mkSecretStatus locator configured
    (match findXWorkmateManagedTarget (loc_Target locator) with Some m => mt_Required m | None => false end ||
     loc_Required locator).

Definition statusByTargetFromMetadata (profile : option XWorkmateProfile) (target : string) : bool :=
  match profile with
  | None => false
  | Some p =>
      if target == XWorkmateSecretLocatorTargetBridgeAuthToken then hasBridgeAuthTokenXWorkmateSecretLocator p
      else existsb (complete_locator (ToLower (TrimSpace target))) (xp_SecretLocators p)
  end.

(** ** Request bodies *)

Record xworkmateSecretLocatorPayload := mkLocatorPayload {
  lp_ID : string;
  lp_Provider : string;
  lp_SecretPath : string;
  lp_SecretKey : string;
  lp_Target : string;
  lp_Required : bool
}.

Record xworkmateProfilePayload := mkProfilePayload {
  pp_BridgeServerURL : string;
  pp_BridgeServerOrigin : string;
  pp_VaultURL : string;
  pp_VaultNamespace : string;
  pp_VaultSecretPath : string;
  pp_VaultSecretKey : string;
  pp_SecretLocators : list xworkmateSecretLocatorPayload;
  pp_ApisixURL : string
}.

Definition xworkmateForbiddenTokenFields : list string :=
  ["bridge_auth_token"; "bridgeauthtoken"; "gatewaytoken"; "vaulttoken"; "apisixtoken"].

(** A member hidden by a later one of the same name is not part of the map. *)
Fixpoint containsForbiddenXWorkmateTokenField (value : json) : bool :=
  match value with
  | JObj l =>
      (fix go (l : list (string * json)) : bool :=
        match l with
        | [] => false
        | (key, nested) :: rest =>
            contains xworkmateForbiddenTokenFields (ToLower (TrimSpace key)) ||
            (negb (has_key key rest) && containsForbiddenXWorkmateTokenField nested) || go rest
        end) l
  | JArr l => existsb containsForbiddenXWorkmateTokenField l
  | _ => false
  end.

(** The members of an object once it is a map: the last one of a name, in the
    order [json.Marshal] writes them. *)
Fixpoint last_members (l : list (string * json)) : list (string * json) :=
  match l with
  | [] => []
  | (k, v) :: rest => if has_key k rest then last_members rest else (k, v) :: last_members rest
  end.
Definition marshalled_members (l : list (string * json)) : list (string * json) :=
  merge_sort (λ a b, String.le a.1 b.1) (last_members l).

Definition dec_bool (v : json) (old : bool) : bool * bool :=
  match v with JNull => (old, true) | JBool b => (b, true) | _ => (old, false) end.

Definition dec_locator (v : json) (old : xworkmateSecretLocatorPayload) : xworkmateSecretLocatorPayload * bool :=
  match v with
  | JNull => (old, true)
  | JObj l =>
      let members := marshalled_members l in
      let '(id, ok1) := decode_field "id" dec_string members (lp_ID old) in
      let '(provider, ok2) := decode_field "provider" dec_string members (lp_Provider old) in
      let '(path, ok3) := decode_field "secretPath" dec_string members (lp_SecretPath old) in
      let '(key, ok4) := decode_field "secretKey" dec_string members (lp_SecretKey old) in
      let '(target, ok5) := decode_field "target" dec_string members (lp_Target old) in
      let '(required, ok6) := decode_field "required" dec_bool members (lp_Required old) in
      (mkLocatorPayload id provider path key target required, ok1 && ok2 && ok3 && ok4 && ok5 && ok6)
  | _ => (old, false)
  end.

(** An element is decoded onto the one already at its place. *)
Fixpoint dec_elements (l : list json) (old : list xworkmateSecretLocatorPayload)
    : list xworkmateSecretLocatorPayload * bool :=
  match l with
  | [] => ([], true)
  | v :: rest =>
      let '(x, ok) := dec_locator v (default (mkLocatorPayload "" "" "" "" "" false) (head old)) in
      let '(xs, oks) := dec_elements rest (tail old) in (x :: xs, ok && oks)
  end.

Definition dec_locators (v : json) (old : list xworkmateSecretLocatorPayload)
    : list xworkmateSecretLocatorPayload * bool :=
  match v with JNull => ([], true) | JArr l => dec_elements l old | _ => (old, false) end.

(** [json.Marshal] of the decoded value and [json.Unmarshal] into the payload. *)
Definition decode_profile (v : json) : option xworkmateProfilePayload :=
  match v with
  | JObj _ | JNull =>
      let members := match v with JObj l => marshalled_members l | _ => [] end in
      let str name := decode_field name dec_string members "" in
      let '(bridge, ok1) := str "BRIDGE_SERVER_URL" in
      let '(origin, ok2) := str "bridgeServerOrigin" in
      let '(vaultURL, ok3) := str "vaultUrl" in
      let '(namespace, ok4) := str "vaultNamespace" in
      let '(path, ok5) := str "vaultSecretPath" in
      let '(key, ok6) := str "vaultSecretKey" in
      let '(locators, ok7) := decode_field "secretLocators" dec_locators members [] in
      let '(apisix, ok8) := str "apisixUrl" in
      if ok1 && ok2 && ok3 && ok4 && ok5 && ok6 && ok7 && ok8
      then Some (mkProfilePayload bridge origin vaultURL namespace path key locators apisix) else None
  | _ => None
  end.

(** [raw["profile"]], or the whole body. *)
Definition profile_value (raw : list (string * json)) : json := default (JObj raw) (lookup_last "profile" raw).

(** [ShouldBindJSON] into a map; the body is [None] when it is not JSON. *)
Definition bind_map (body : option json) : option (list (string * json)) :=
  match body with
  | Some (JObj l) => if decodes_any (JObj l) then Some l else None
  | Some JNull => Some []
  | _ => None
  end.

Definition buildStoreXWorkmateSecretLocators (locators : list xworkmateSecretLocatorPayload)
    : list XWorkmateSecretLocator :=
  (λ l, mkSecretLocator (lp_ID l) (lp_Provider l) (lp_SecretPath l) (lp_SecretKey l) (lp_Target l) (lp_Required l))
    <$> locators.

(** ** Handlers *)

(** A response: a refusal, or what the body of the answer shows. *)
Inductive wsResponse :=
| Refused (r : response)
| ProfileShown (access : xworkmateAccessContext) (profile : option XWorkmateProfile) (tokens : tokenStatus)
| BridgeIssued (bridgeServerURL token credentialUUID : string)
| Introspected (active : option (string * string * string))
| SecretsShown (access : xworkmateAccessContext) (secrets : list secretStatus) (tokens : tokenStatus)
| SecretShown (secret : secretStatus) (profileScope : string) (tokens : tokenStatus)
| TenantCreated (tenant : Tenant) (domain memberID : string)
| SessionShown (tenants : option (string * list (string * string * string))).

Definition newBridgeCredentialToken (rand : result error (list Z)) : result error string :=
  match rand with
  | Err e => Err e
  | Ok raw => Ok ("xwm_" +:+ RawURLEncode raw)%string
  end.

(** Without a database: one credential per account and tenant, whose
    identifier stays when the token is replaced. *)
Definition issueBridgeCredential (rand : result error (list Z)) (newV7 : result error string)
    (userID tenantID legacyCredentialID : string) (credentials : gmap string memoryBridgeCredential)
    : result error (string * string) * gmap string memoryBridgeCredential :=
  match newBridgeCredentialToken rand with
  | Err e => (Err e, credentials)
  | Ok token =>
      match (if TrimSpace legacyCredentialID == "" then newV7 else Ok (TrimSpace legacyCredentialID)) with
      | Err e => (Err e, credentials)
      | Ok credentialID =>
          let key := (TrimSpace userID +:+ "|" +:+ TrimSpace tenantID)%string in
          let credentialID := match credentials !! key with
            | Some existing => bc_CredentialUUID existing
            | None => credentialID
            end in
          (Ok (credentialID, token),
           <[key := mkBridgeCredential credentialID token (TrimSpace userID) (TrimSpace tenantID)]> credentials)
      end
  end.

(** [token] is [None] when the body does not bind. *)
Definition introspectBridgeCredential `{MapOrder} (token : option string)
    (credentials : gmap string memoryBridgeCredential) : wsResponse :=
  match token with
  | None => Refused (400, "invalid_request")
  | Some token =>
      if TrimSpace token == "" then Refused (400, "invalid_request") else
      Introspected ((λ kv : string * memoryBridgeCredential,
          (bc_AccountID kv.2, bc_TenantID kv.2, bc_CredentialUUID kv.2)) <$>
        List.find (λ kv, bc_Token kv.2 == TrimSpace token) (range credentials))
  end.

Section handlers.
Context `{URLParser} `{MapOrder} {V : Type} `{VaultService V}.
Context (env : string * string) (ids : string → nat → string) (now : time) (accounts : memoryStore).

Definition enter (userID : string) (headers : list string) (w : workspace V)
    : result response (User * xworkmateAccessContext) * workspace V :=
  let '(r, s) := authorised env ids now accounts userID headers (ws_tables w) in
  (r, w <| ws_tables := s |>).

(** One managed target after the other; the first error ends the loop. *)
Fixpoint describe_targets (access : xworkmateAccessContext) (profileUserID : string)
    (profile : option XWorkmateProfile) (targets : list xworkmateManagedSecretTarget) (vault : option V)
    : result error (list secretStatus * gmap string bool) * option V :=
  match targets with
  | [] => (Ok ([], ∅), vault)
  | m :: rest =>
      let located := match findStoredXWorkmateSecretLocator (ids "find" 0%nat) profile (mt_Target m) with
        | Some locator => Ok locator
        | None => buildManagedXWorkmateSecretLocator access profileUserID (mt_Target m)
        end in
      match located with
      | Err e => (Err e, vault)
      | Ok locator =>
          let '(configured, vault) := match vault with
            | Some v => let '(r, v) := HasSecret locator v in (r, Some v)
            | None => (Ok (statusByTargetFromMetadata profile (mt_Target m)), None)
            end in
          match configured with
          | Err e => (Err e, vault)
          | Ok configured =>
              match describe_targets access profileUserID profile rest vault with
              | (Err e, vault) => (Err e, vault)
              | (Ok (secrets, status), vault) =>
                  (Ok (buildXWorkmateSecretStatusPayload locator configured :: secrets,
                       <[mt_Target m := configured]> status), vault)
              end
          end
      end
  end.

Definition describeXWorkmateSecrets (access : xworkmateAccessContext) (user : User)
    (profile : option XWorkmateProfile) (vault : option V)
    : result error (list secretStatus * gmap string bool) * option V :=
  describe_targets access (resolvedXWorkmateProfileUserID access user) profile xworkmateManagedSecretTargets vault.

(** The answer of the profile handlers; [strict] is whether a failing vault is
    an error. *)
Definition show_profile (strict : bool) (access : xworkmateAccessContext) (user : User)
    (profile : option XWorkmateProfile) (w : workspace V) : wsResponse * workspace V :=
  let tokens := buildXWorkmateTokenConfigured profile in
  match ws_vault w with
  | None => (ProfileShown access profile tokens, w)
  | Some _ =>
      match describeXWorkmateSecrets access user profile (ws_vault w) with
      | (Ok (_, status), vault) =>
          (ProfileShown access profile (buildXWorkmateTokenConfiguredWithVaultStatus profile status),
           w <| ws_vault := vault |>)
      | (Err _, vault) =>
          (if strict then Refused (500, "xworkmate_secret_read_failed") else ProfileShown access profile tokens,
           w <| ws_vault := vault |>)
      end
  end.

Definition getXWorkmateProfile (userID : string) (headers : list string) (w : workspace V)
    : wsResponse * workspace V :=
  match enter userID headers w with
  | (Err r, w) => (Refused r, w)
  | (Ok (user, access), w) =>
      match loadXWorkmateProfile ids access user (ws_tables w) with
      | Err _ => (Refused (500, "xworkmate_profile_read_failed"), w)
      | Ok profile => show_profile false access user profile w
      end
  end.

Definition getXWorkmateProfileSync (rand : result error (list Z)) (newV7 : result error string) (userID : string)
    (headers : list string) (w : workspace V) : wsResponse * workspace V :=
  match enter userID headers w with
  | (Err r, w) => (Refused r, w)
  | (Ok (user, access), w) =>
      match loadXWorkmateProfile ids access user (ws_tables w) with
      | Err _ => (Refused (500, "xworkmate_profile_read_failed"), w)
      | Ok profile =>
          let bridgeServerURL := match profile with Some p => TrimSpace (xp_BridgeServerURL p) | None => "" end in
          if bridgeServerURL == "" then (Refused (409, "bridge_server_url_unavailable"), w) else
          match issueBridgeCredential rand newV7 (user_ID user) (ten_ID (ac_Tenant access)) (user_ProxyUUID user)
                  (ws_credentials w) with
          | (Err _, _) => (Refused (409, "bridge_credential_unavailable"), w)
          | (Ok (credentialUUID, token), credentials) =>
              (BridgeIssued bridgeServerURL (TrimSpace token) credentialUUID, w <| ws_credentials := credentials |>)
          end
      end
  end.

Definition updateXWorkmateProfile (userID : string) (headers : list string) (body : option json) (w : workspace V)
    : wsResponse * workspace V :=
  match enter userID headers w with
  | (Err r, w) => (Refused r, w)
  | (Ok (user, access), w) =>
  match may_edit "xworkmate_profile_forbidden" access user with
  | Some r => (Refused r, w)
  | None =>
  match bind_map body with
  | None => (Refused (400, "invalid_request"), w)
  | Some raw =>
  if containsForbiddenXWorkmateTokenField (JObj raw) then (Refused (400, "token_persistence_forbidden"), w) else
  match decode_profile (profile_value raw) with
  | None => (Refused (400, "invalid_request"), w)
  | Some payload =>
      let profile := mkXWorkmateProfile "" (ten_ID (ac_Tenant access)) (resolvedXWorkmateProfileUserID access user)
        (ac_ProfileScope access) (pp_BridgeServerURL payload) (pp_BridgeServerOrigin payload) (pp_VaultURL payload)
        (pp_VaultNamespace payload) (pp_VaultSecretPath payload) (pp_VaultSecretKey payload)
        (buildStoreXWorkmateSecretLocators (pp_SecretLocators payload)) (pp_ApisixURL payload) 0 0 in
      match UpsertXWorkmateProfile (ids "save") (ids "profile" 0%nat) now profile (ws_tables w) with
      | (Err _, s) => (Refused (500, "xworkmate_profile_write_failed"), w <| ws_tables := s |>)
      | (Ok profile, s) => show_profile true access user (Some profile) (w <| ws_tables := s |>)
      end
  end
  end
  end
  end.

Definition vault_unavailable : wsResponse := Refused (503, "xworkmate_vault_unavailable").

Definition getXWorkmateSecrets (userID : string) (headers : list string) (w : workspace V)
    : wsResponse * workspace V :=
  match ws_vault w with
  | None => (vault_unavailable, w)
  | Some _ =>
  match enter userID headers w with
  | (Err r, w) => (Refused r, w)
  | (Ok (user, access), w) =>
  match loadXWorkmateProfile ids access user (ws_tables w) with
  | Err _ => (Refused (500, "xworkmate_profile_read_failed"), w)
  | Ok profile =>
      match describeXWorkmateSecrets access user profile (ws_vault w) with
      | (Err _, vault) => (Refused (500, "xworkmate_secret_read_failed"), w <| ws_vault := vault |>)
      | (Ok (secrets, status), vault) =>
          (SecretsShown access secrets (buildXWorkmateTokenConfiguredWithVaultStatus profile status),
           w <| ws_vault := vault |>)
      end
  end
  end
  end.

(** [value] is [None] when the body does not bind. *)
Definition putXWorkmateSecret (userID : string) (headers : list string) (targetParam : string)
    (value : option string) (w : workspace V) : wsResponse * workspace V :=
  match ws_vault w with
  | None => (vault_unavailable, w)
  | Some v =>
  match enter userID headers w with
  | (Err r, w) => (Refused r, w)
  | (Ok (user, access), w) =>
  match may_edit "xworkmate_secret_forbidden" access user with
  | Some r => (Refused r, w)
  | None =>
  let target := ToLower (TrimSpace targetParam) in
  match findXWorkmateManagedTarget target with
  | None => (Refused (400, "xworkmate_secret_unknown_target"), w)
  | Some _ =>
  match value with
  | None => (Refused (400, "invalid_request"), w)
  | Some value =>
  if TrimSpace value == "" then (Refused (400, "xworkmate_secret_value_required"), w) else
  match loadXWorkmateProfile ids access user (ws_tables w) with
  | Err _ => (Refused (500, "xworkmate_profile_read_failed"), w)
  | Ok loaded =>
      let profile := default (mkXWorkmateProfile "" (ten_ID (ac_Tenant access))
        (resolvedXWorkmateProfileUserID access user) (ac_ProfileScope access) "" "" "" "" "" "" [] "" 0 0) loaded in
      match buildManagedXWorkmateSecretLocator access (resolvedXWorkmateProfileUserID access user) target with
      | Err _ => (Refused (400, "xworkmate_secret_unknown_target"), w)
      | Ok locator =>
          match WriteSecret locator value v with
          | (Err _, v) => (Refused (500, "xworkmate_secret_write_failed"), w <| ws_vault := Some v |>)
          | (Ok _, v) =>
              let w := w <| ws_vault := Some v |> in
              let profile := upsertXWorkmateSecretLocator (ids "locator" 0%nat) (ids "upsert") profile locator in
              match UpsertXWorkmateProfile (ids "save") (ids "profile" 0%nat) now profile (ws_tables w) with
              | (Err _, s) => (Refused (500, "xworkmate_profile_write_failed"), w <| ws_tables := s |>)
              | (Ok profile, s) =>
                  (SecretShown (buildXWorkmateSecretStatusPayload locator true) (ac_ProfileScope access)
                     (buildXWorkmateTokenConfiguredWithVaultStatus (Some profile) {[target := true]}),
                   w <| ws_tables := s |>)
              end
          end
      end
  end
  end
  end
  end
  end
  end.

Definition deleteXWorkmateSecret (userID : string) (headers : list string) (targetParam : string)
    (w : workspace V) : wsResponse * workspace V :=
  match ws_vault w with
  | None => (vault_unavailable, w)
  | Some v =>
  match enter userID headers w with
  | (Err r, w) => (Refused r, w)
  | (Ok (user, access), w) =>
  match may_edit "xworkmate_secret_forbidden" access user with
  | Some r => (Refused r, w)
  | None =>
  let target := ToLower (TrimSpace targetParam) in
  match findXWorkmateManagedTarget target with
  | None => (Refused (400, "xworkmate_secret_unknown_target"), w)
  | Some _ =>
  match loadXWorkmateProfile ids access user (ws_tables w) with
  | Err _ => (Refused (500, "xworkmate_profile_read_failed"), w)
  | Ok profile =>
      let located := match findStoredXWorkmateSecretLocator (ids "find" 0%nat) profile target with
        | Some locator => Ok locator
        | None => buildManagedXWorkmateSecretLocator access (resolvedXWorkmateProfileUserID access user) target
        end in
      match located with
      | Err _ => (Refused (400, "xworkmate_secret_unknown_target"), w)
      | Ok locator =>
          match DeleteSecret locator v with
          | (Err _, v) => (Refused (500, "xworkmate_secret_delete_failed"), w <| ws_vault := Some v |>)
          | (Ok _, v) =>
              match describeXWorkmateSecrets access user profile (Some v) with
              | (Err _, vault) => (Refused (500, "xworkmate_secret_read_failed"), w <| ws_vault := vault |>)
              | (Ok (_, status), vault) =>
                  (SecretShown (buildXWorkmateSecretStatusPayload locator false) (ac_ProfileScope access)
                     (buildXWorkmateTokenConfiguredWithVaultStatus profile status), w <| ws_vault := vault |>)
              end
          end
      end
  end
  end
  end
  end
  end.

(** [bootstrapTenant], for an actor with the settings permission; [payload] is
    the name, the identifier and the address of the administrator. *)
Definition bootstrapTenant (rand : result error (list Z)) (actor : User)
    (payload : option (string * string * string)) (w : workspace V) : wsResponse * workspace V :=
  if negb (isRootAccount actor) then (Refused (403, "root_only"), w) else
  match payload with
  | None => (Refused (400, "invalid_request"), w)
  | Some (name, adminUserID, adminEmail) =>
  if (TrimSpace adminUserID == "") && (TrimSpace adminEmail == "")
  then (Refused (400, "admin_user_required"), w) else
  match (if TrimSpace adminUserID != "" then GetUserByID accounts (TrimSpace adminUserID)
         else GetUserByEmail accounts (TrimSpace adminEmail)) with
  | Err _ => (Refused (404, "admin_user_not_found"), w)
  | Ok member =>
  match GenerateRandomTenantDomain env rand with
  | Err _ => (Refused (500, "tenant_domain_generation_failed"), w)
  | Ok domain =>
      let name := TrimSpace name in
      let name := if name == "" then (if user_Name member == "" then user_Email member else user_Name member)
                  else name in
      match EnsureTenant (ids "tenant" 0%nat) now (mkTenant "" name TenantPrivateEdition 0 0) (ws_tables w) with
      | (Err _, s) => (Refused (500, "tenant_create_failed"), w <| ws_tables := s |>)
      | (Ok tenant, s) =>
          match EnsureTenantDomain (ids "domain" 0%nat) now
            (mkTenantDomain "" (ten_ID tenant) domain TenantDomainKindGenerated true
               TenantDomainStatusVerified 0 0) s with
          | (Err _, s) => (Refused (500, "tenant_domain_create_failed"), w <| ws_tables := s |>)
          | (Ok _, s) =>
              match UpsertTenantMembership now
                (mkTenantMembership (ten_ID tenant) (user_ID member) TenantMembershipRoleAdmin "" "" "" 0 0) s with
              | (Err _, s) => (Refused (500, "tenant_membership_create_failed"), w <| ws_tables := s |>)
              | (Ok _, s) => (TenantCreated tenant domain (user_ID member), w <| ws_tables := s |>)
              end
          end
      end
  end
  end
  end.
End handlers.
