(* ===== verification/VaultProps.v ===== *)
(** * What a vault service promises

    [VaultLaws] states what the workspace handlers rely on: a service behaves
    like a table from paths and keys to values.  The in-memory service is such
    a table; the service on a Vault server is one on every addressable path
    when the server behaves as a KV version 2 engine does.  Any run of the
    second that meets no error is a run of the first. *)

From S2P Require Import Prelude GoLib StoreData Netip Hmac StripeClient Tenants Vault.
From Stdlib Require Import Ascii.
Open Scope Z_scope.
Open Scope bool_scope.
Open Scope go_scope.

(** [secret_at v path key] is what the service holds; [addressable] are the
    paths for which the promises are made. *)
Class VaultLaws (V : Type) `{VaultService V} := {
  secret_at : V → string → string → option string;
  addressable : string → Prop;
  WriteSecret_law : ∀ locator value v v', WriteSecret locator value v = (Ok tt, v') →
    addressable (loc_SecretPath (vault_locator locator)) →
    incomplete (vault_locator locator) = false ∧
    ∀ p k, secret_at v' p k =
      if (p == loc_SecretPath (vault_locator locator)) && (k == loc_SecretKey (vault_locator locator))
      then Some value else secret_at v p k;
  DeleteSecret_law : ∀ locator v v', DeleteSecret locator v = (Ok tt, v') →
    addressable (loc_SecretPath (vault_locator locator)) →
    ∀ p k, secret_at v' p k =
      if negb (incomplete (vault_locator locator)) &&
         ((p == loc_SecretPath (vault_locator locator)) && (k == loc_SecretKey (vault_locator locator)))
      then None else secret_at v p k;
  HasSecret_law : ∀ locator v v' b, HasSecret locator v = (Ok b, v') →
    addressable (loc_SecretPath (vault_locator locator)) →
    b = negb (incomplete (vault_locator locator)) &&
        bool_decide (is_Some (secret_at v (loc_SecretPath (vault_locator locator))
                                          (loc_SecretKey (vault_locator locator)))) ∧
    ∀ p k, secret_at v' p k = secret_at v p k;
  ReadSecret_law : ∀ locator v v' value, ReadSecret locator v = (Ok value, v') →
    addressable (loc_SecretPath (vault_locator locator)) →
    incomplete (vault_locator locator) = false ∧
    secret_at v (loc_SecretPath (vault_locator locator)) (loc_SecretKey (vault_locator locator)) = Some value ∧
    ∀ p k, secret_at v' p k = secret_at v p k
}.

(** ** The in-memory service *)

Definition memory_at (s : gmap string (gmap string string)) (p k : string) : option string := s !! p ≫= (.!! k).

Lemma memory_at_insert s p q k m : memory_at (<[p := m]> s) q k = if q == p then m !! k else memory_at s q k.
Proof.
  unfold memory_at. destruct (bool_decide_reflect (q = p)) as [->|]; [by rewrite lookup_insert_eq|].
  by rewrite lookup_insert_ne.
Qed.

Lemma memory_at_delete s p q k : memory_at (delete p s) q k = if q == p then None else memory_at s q k.
Proof.
  unfold memory_at. destruct (bool_decide_reflect (q = p)) as [->|]; [by rewrite lookup_delete_eq|].
  by rewrite lookup_delete_ne.
Qed.

Lemma default_empty_at (o : option (gmap string string)) k : default ∅ o !! k = o ≫= (.!! k).
Proof. by destruct o. Qed.

(** A key put into, or taken out of, the map of one path. *)
Lemma put_at s p q k j value :
  memory_at (<[p := <[k := value]> (default ∅ (s !! p))]> s) q j =
  if (q == p) && (j == k) then Some value else memory_at s q j.
Proof.
  rewrite memory_at_insert. destruct (bool_decide_reflect (q = p)) as [->|]; [|done]. cbn.
  destruct (bool_decide_reflect (j = k)) as [->|]; [by rewrite lookup_insert_eq|].
  rewrite lookup_insert_ne by done. apply default_empty_at.
Qed.

Lemma take_at s p q k j m : s !! p = Some m →
  memory_at (if delete k m == ∅ then delete p s else <[p := delete k m]> s) q j =
  if (q == p) && (j == k) then None else memory_at s q j.
Proof.
  intros Hp.
  transitivity (if q == p then delete k m !! j else memory_at s q j).
  { destruct (bool_decide_reflect (delete k m = ∅)) as [E|]; [|apply memory_at_insert].
    rewrite memory_at_delete, E. by destruct (bool_decide _). }
  destruct (bool_decide_reflect (q = p)) as [->|]; [|done]. cbn.
  destruct (bool_decide_reflect (j = k)) as [->|]; [by rewrite lookup_delete_eq|].
  rewrite lookup_delete_ne by done. unfold memory_at. by rewrite Hp.
Qed.

Lemma WriteSecret_memory l value v v' : memory_WriteSecret l value v = (Ok tt, v') →
  True → incomplete (vault_locator l) = false ∧
  ∀ p k, memory_at v' p k =
    if (p == loc_SecretPath (vault_locator l)) && (k == loc_SecretKey (vault_locator l))
    then Some value else memory_at v p k.
Proof.
  unfold memory_WriteSecret. cbv zeta. generalize (vault_locator l). intros x.
  destruct (incomplete x) eqn:E; [done|]. destruct (TrimSpace value == ""); [done|].
  intros [= <-] _. split; [done|]. intros p k. apply put_at.
Qed.

Lemma DeleteSecret_memory l v v' : memory_DeleteSecret l v = (Ok tt, v') →
  True → ∀ p k, memory_at v' p k =
    if negb (incomplete (vault_locator l)) &&
       ((p == loc_SecretPath (vault_locator l)) && (k == loc_SecretKey (vault_locator l)))
    then None else memory_at v p k.
Proof.
  unfold memory_DeleteSecret. cbv zeta. generalize (vault_locator l). intros x.
  destruct (incomplete x) eqn:E; [by intros [= <-]|].
  destruct (v !! loc_SecretPath x) as [m|] eqn:Hm.
  - intros [= <-] _ p k. by apply take_at.
  - intros [= <-] _ p k. cbn. destruct (bool_decide_reflect (p = loc_SecretPath x)) as [->|]; [|done].
    cbn. unfold memory_at. rewrite Hm. by destruct (bool_decide _).
Qed.

Lemma HasSecret_memory l v v' b : memory_HasSecret l v = (Ok b, v') →
  True → b = negb (incomplete (vault_locator l)) &&
    bool_decide (is_Some (memory_at v (loc_SecretPath (vault_locator l)) (loc_SecretKey (vault_locator l)))) ∧
  ∀ p k, memory_at v' p k = memory_at v p k.
Proof.
  unfold memory_HasSecret. cbv zeta. generalize (vault_locator l). intros x.
  destruct (incomplete x) eqn:E; [by intros [= <- <-]|]. unfold memory_at.
  destruct (v !! loc_SecretPath x) as [m|] eqn:Hm; intros [= <- <-] _; done.
Qed.

Lemma ReadSecret_memory l v v' value : memory_ReadSecret l v = (Ok value, v') →
  True → incomplete (vault_locator l) = false ∧
  memory_at v (loc_SecretPath (vault_locator l)) (loc_SecretKey (vault_locator l)) = Some value ∧
  ∀ p k, memory_at v' p k = memory_at v p k.
Proof.
  unfold memory_ReadSecret. cbv zeta. generalize (vault_locator l). intros x.
  destruct (incomplete x) eqn:E; [done|]. unfold memory_at.
  destruct (v !! loc_SecretPath x) as [m|] eqn:Hm; [|done].
  destruct (m !! loc_SecretKey x) as [value'|] eqn:Hk; [|done]. intros [= <- <-] _. done.
Qed.

#[export] Instance memory_vault_laws : VaultLaws memoryXWorkmateVaultService :=
  @Build_VaultLaws _ memory_vault memory_at (λ _, True) WriteSecret_memory DeleteSecret_memory HasSecret_memory
    ReadSecret_memory.

(** The table answers every question, and takes every complete write. *)
Lemma memory_HasSecret_ok l s : ∃ b, memory_HasSecret l s = (Ok b, s).
Proof. unfold memory_HasSecret. cbv zeta. destruct (incomplete _); [eauto|]. destruct (s !! _); eauto. Qed.

Lemma memory_DeleteSecret_ok l s : ∃ s', memory_DeleteSecret l s = (Ok tt, s').
Proof. unfold memory_DeleteSecret. cbv zeta. destruct (incomplete _); [eauto|]. destruct (s !! _); eauto. Qed.

Lemma memory_WriteSecret_ok l value s : incomplete (vault_locator l) = false → TrimSpace value ≠ "" →
  ∃ s', memory_WriteSecret l value s = (Ok tt, s').
Proof.
  intros Hc Hv. unfold memory_WriteSecret. cbv zeta. rewrite Hc, bool_decide_eq_false_2 by done. eauto.
Qed.

Lemma memory_ReadSecret_ok l s value : incomplete (vault_locator l) = false →
  memory_at s (loc_SecretPath (vault_locator l)) (loc_SecretKey (vault_locator l)) = Some value →
  memory_ReadSecret l s = (Ok value, s).
Proof.
  intros Hc. unfold memory_ReadSecret, memory_at. cbv zeta. rewrite Hc.
  destruct (s !! _) as [m|]; [|done]. cbn. by intros ->.
Qed.

(** ** The service on a Vault server *)

Definition not_found_text : string := "vault status 404".

(** The documented behaviour of a KV version 2 engine mounted at [mount]:
    reading gives the current data or the status 404, writing replaces the data
    of a path, deleting the metadata removes it, and nothing else changes; an
    error that is not the status 404 does not quote that status.  The
    promises are made for the paths a URL can carry as they are. *)
Class KVEngine `{URLParser} {S : Type} `{VaultServer S} (h : httpXWorkmateVaultService) := {
  kv : S → string → option (gmap string string);
  kv_path : string → Prop;
  kv_get : ∀ path s r s', kv_path path →
    client_Do (mkVaultRequest "GET" (dataURL h path) (hv_token h) (hv_namespace h) None) s = (r, s') →
    (∀ p, kv s' p = kv s p) ∧
    match r with
    | Err e => Contains e not_found_text = false
    | Ok reply =>
        (rep_Status reply < 400 → ∃ m, kv s path = Some m ∧ rep_Data reply = Ok (Some m)) ∧
        (rep_Status reply = 404 → kv s path = None) ∧
        (400 ≤ rep_Status reply → rep_Status reply ≠ 404 →
         Contains ("vault status " +:+ FormatInt (rep_Status reply) +:+ ": " +:+ rep_Text reply) not_found_text
           = false)
    end;
  kv_post : ∀ path m s reply s', kv_path path →
    client_Do (mkVaultRequest "POST" (dataURL h path) (hv_token h) (hv_namespace h) (Some m)) s = (Ok reply, s') →
    rep_Status reply < 400 → ∀ p, kv s' p = if p == path then Some m else kv s p;
  kv_delete : ∀ path s reply s', kv_path path →
    client_Do (mkVaultRequest "DELETE" (metadataURL h path) (hv_token h) (hv_namespace h) None) s = (Ok reply, s') →
    rep_Status reply < 400 → ∀ p, kv s' p = if p == path then None else kv s p
}.

Section http.
Context `{URLParser} {S : Type} `{VaultServer S} (h : httpXWorkmateVaultService) `{!KVEngine h}.

Definition http_at (s : S) (p k : string) : option string := kv s p ≫= (.!! k).

(** The map a read yields, and that it changes nothing. *)
Lemma readSecretMap_ok path s m s' : kv_path path → readSecretMap h path s = (Ok m, s') →
  default ∅ (kv s path) = m ∧ ∀ p, kv s' p = kv s p.
Proof.
  unfold readSecretMap, vault_do. intros Hp. destruct (url_Parse _); [|done].
  destruct (client_Do _ s) as [r s1] eqn:Hdo. destruct (kv_get _ _ _ _ Hp Hdo) as [Hframe Hr].
  destruct r as [reply|e].
  - destruct Hr as (Hok & H404 & Herr). destruct (Z.leb_spec 400 (rep_Status reply)) as [Hle|Hlt].
    + destruct (Contains _ _) eqn:Hc; [|done]. intros [= <- <-]. split; [|done].
      destruct (decide (rep_Status reply = 404)) as [E|E]; [by rewrite (H404 E)|].
      pose proof (Herr Hle E) as F. unfold not_found_text in F. congruence.
    + destruct (Hok Hlt) as (m' & Hm & ->). intros [= <- <-]. split; [by rewrite Hm|done].
  - unfold not_found_text in Hr. rewrite Hr. done.
Qed.

Lemma vault_send_ok method url data s s' : vault_send h method url data s = (Ok tt, s') →
  ∃ reply, client_Do (mkVaultRequest method url (hv_token h) (hv_namespace h) data) s = (Ok reply, s') ∧
           rep_Status reply < 400.
Proof.
  unfold vault_send, vault_do. destruct (url_Parse url); [|done].
  destruct (client_Do _ s) as [[reply|e] s1] eqn:Hdo; [|done].
  destruct (Z.leb_spec 400 (rep_Status reply)); [done|]. intros [= <-]. eauto.
Qed.

Lemma http_write_ok path m s s' : kv_path path →
  vault_send h "POST" (dataURL h path) (Some m) s = (Ok tt, s') →
  ∀ p k, http_at s' p k = if p == path then m !! k else http_at s p k.
Proof.
  intros Hp (reply & Hdo & Hst)%vault_send_ok p k. unfold http_at.
  rewrite (kv_post _ _ _ _ _ Hp Hdo Hst). by destruct (bool_decide _).
Qed.

Lemma http_remove_ok path s s' : kv_path path →
  vault_send h "DELETE" (metadataURL h path) None s = (Ok tt, s') →
  ∀ p k, http_at s' p k = if p == path then None else http_at s p k.
Proof.
  intros Hp (reply & Hdo & Hst)%vault_send_ok p k. unfold http_at.
  rewrite (kv_delete _ _ _ _ Hp Hdo Hst). by destruct (bool_decide _).
Qed.

Lemma http_at_frame s s' : (∀ p, kv s' p = kv s p) → ∀ p k, http_at s' p k = http_at s p k.
Proof. intros Hf p k. unfold http_at. by rewrite Hf. Qed.

Lemma WriteSecret_http l value v v' : http_WriteSecret h l value v = (Ok tt, v') →
  kv_path (loc_SecretPath (vault_locator l)) →
  incomplete (vault_locator l) = false ∧
  ∀ p k, http_at v' p k =
    if (p == loc_SecretPath (vault_locator l)) && (k == loc_SecretKey (vault_locator l))
    then Some value else http_at v p k.
Proof.
  unfold http_WriteSecret. cbv zeta. generalize (vault_locator l). intros x Hw Hp.
  destruct (incomplete x) eqn:E; [done|]. split; [done|]. intros p k.
  destruct (readSecretMap h _ v) as [[m|e] v1] eqn:Hread; [|done].
  destruct (readSecretMap_ok _ _ _ _ Hp Hread) as [Hm Hframe].
  rewrite (http_write_ok _ _ _ _ Hp Hw), (http_at_frame v v1 Hframe).
  destruct (bool_decide_reflect (p = loc_SecretPath x)) as [->|]; [|done]. cbn.
  destruct (bool_decide_reflect (k = loc_SecretKey x)) as [->|]; [by rewrite lookup_insert_eq|].
  rewrite lookup_insert_ne, <- Hm by done. apply default_empty_at.
Qed.

Lemma DeleteSecret_http l v v' : http_DeleteSecret h l v = (Ok tt, v') →
  kv_path (loc_SecretPath (vault_locator l)) →
  ∀ p k, http_at v' p k =
    if negb (incomplete (vault_locator l)) &&
       ((p == loc_SecretPath (vault_locator l)) && (k == loc_SecretKey (vault_locator l)))
    then None else http_at v p k.
Proof.
  unfold http_DeleteSecret. cbv zeta. generalize (vault_locator l). intros x Hd Hp p k.
  destruct (incomplete x) eqn:E; [by injection Hd as <-|]. cbn [negb andb].
  destruct (readSecretMap h _ v) as [[m|e] v1] eqn:Hread; [|done].
  destruct (readSecretMap_ok _ _ _ _ Hp Hread) as [Hm Hframe].
  assert (∀ j, http_at v (loc_SecretPath x) j = m !! j) as Hat.
  { intros j. unfold http_at. rewrite <- Hm. symmetry. apply default_empty_at. }
  assert (∀ q j, http_at v' q j = if q == loc_SecretPath x then delete (loc_SecretKey x) m !! j else http_at v q j)
    as Hnew.
  { intros q j. destruct (bool_decide_reflect (m = ∅)) as [->|Hne].
    - injection Hd as <-. rewrite (http_at_frame v v1 Hframe), delete_empty.
      destruct (bool_decide_reflect (q = loc_SecretPath x)) as [->|]; [apply Hat|done].
    - destruct (bool_decide_reflect (delete (loc_SecretKey x) m = ∅)) as [E0|].
      + rewrite (http_remove_ok _ _ _ Hp Hd), (http_at_frame v v1 Hframe), E0. by destruct (bool_decide _).
      + by rewrite (http_write_ok _ _ _ _ Hp Hd), (http_at_frame v v1 Hframe). }
  rewrite Hnew. destruct (bool_decide_reflect (p = loc_SecretPath x)) as [->|]; [|done]. cbn.
  destruct (bool_decide_reflect (k = loc_SecretKey x)) as [->|]; [by rewrite lookup_delete_eq|].
  by rewrite lookup_delete_ne.
Qed.

Lemma HasSecret_http l v v' b : http_HasSecret h l v = (Ok b, v') →
  kv_path (loc_SecretPath (vault_locator l)) →
  b = negb (incomplete (vault_locator l)) &&
      bool_decide (is_Some (http_at v (loc_SecretPath (vault_locator l)) (loc_SecretKey (vault_locator l)))) ∧
  ∀ p k, http_at v' p k = http_at v p k.
Proof.
  unfold http_HasSecret. cbv zeta. generalize (vault_locator l). intros x Hh Hp.
  destruct (incomplete x) eqn:E; [by injection Hh as <- <-|].
  destruct (readSecretMap h _ v) as [[m|e] v1] eqn:Hread; [|done]. injection Hh as <- <-.
  destruct (readSecretMap_ok _ _ _ _ Hp Hread) as [Hm Hframe].
  split; [|by apply http_at_frame]. cbn. unfold http_at. by rewrite <- default_empty_at, Hm.
Qed.

Lemma ReadSecret_http l v v' value : http_ReadSecret h l v = (Ok value, v') →
  kv_path (loc_SecretPath (vault_locator l)) →
  incomplete (vault_locator l) = false ∧
  http_at v (loc_SecretPath (vault_locator l)) (loc_SecretKey (vault_locator l)) = Some value ∧
  ∀ p k, http_at v' p k = http_at v p k.
Proof.
  unfold http_ReadSecret. cbv zeta. generalize (vault_locator l). intros x Hr Hp.
  destruct (incomplete x) eqn:E; [done|].
  destruct (readSecretMap h _ v) as [[m|e] v1] eqn:Hread; [|done].
  destruct (readSecretMap_ok _ _ _ _ Hp Hread) as [Hm Hframe].
  destruct (m !! loc_SecretKey x) as [value'|] eqn:Hk; [|done]. injection Hr as <- <-.
  split; [done|]. split; [|by apply http_at_frame]. unfold http_at. by rewrite <- default_empty_at, Hm.
Qed.

Definition http_vault_laws : @VaultLaws S (http_vault h) :=
  @Build_VaultLaws S (http_vault h) http_at kv_path WriteSecret_http DeleteSecret_http HasSecret_http ReadSecret_http.
End http.

(** ** Every error-free run on the server is a run of the table *)

Inductive vaultOp :=
| OpWrite (locator : XWorkmateSecretLocator) (value : string)
| OpDelete (locator : XWorkmateSecretLocator)
| OpHas (locator : XWorkmateSecretLocator)
| OpRead (locator : XWorkmateSecretLocator).

Inductive vaultAnswer := Done | Present (b : bool) | Value (value : string).

Definition op_locator (op : vaultOp) : XWorkmateSecretLocator :=
  match op with OpWrite l _ | OpDelete l | OpHas l | OpRead l => l end.

Definition as_answer {A V} (f : A → vaultAnswer) (r : result error A * V) : option vaultAnswer * V :=
  (match r.1 with Ok a => Some (f a) | Err _ => None end, r.2).

Definition run_op {V} `{VaultService V} (op : vaultOp) (v : V) : option vaultAnswer * V :=
  match op with
  | OpWrite l value => as_answer (λ _, Done) (WriteSecret l value v)
  | OpDelete l => as_answer (λ _, Done) (DeleteSecret l v)
  | OpHas l => as_answer Present (HasSecret l v)
  | OpRead l => as_answer Value (ReadSecret l v)
  end.

Fixpoint run_ops {V} `{VaultService V} (ops : list vaultOp) (v : V) : option (list vaultAnswer) * V :=
  match ops with
  | [] => (Some [], v)
  | op :: rest =>
      match run_op op v with
      | (None, v) => (None, v)
      | (Some a, v) => let '(r, v) := run_ops rest v in (cons a <$> r, v)
      end
  end.

(** Values the handlers write are not blank. *)
Definition op_allowed {V} `{VaultLaws V} (op : vaultOp) : Prop :=
  addressable (loc_SecretPath (vault_locator (op_locator op))) ∧
  match op with OpWrite _ value => TrimSpace value ≠ "" | _ => True end.

Section simulation.
Context {V : Type} `{HV : VaultLaws V}.

Definition same_secrets (v : V) (s : memoryXWorkmateVaultService) : Prop :=
  ∀ p k, secret_at v p k = memory_at s p k.

Lemma op_simulated op v v' s a : op_allowed op → same_secrets v s → run_op op v = (Some a, v') →
  ∃ s', run_op op s = (Some a, s') ∧ same_secrets v' s'.
Proof.
  intros [Hp Hv] Hs. destruct op as [l value|l|l|l]; unfold run_op, as_answer; cbn [op_locator] in *.
  - destruct (WriteSecret l value v) as [[[]|e] v1] eqn:Hw; cbn [fst snd]; [|done]. intros [= <- <-].
    destruct (WriteSecret_law _ _ _ _ Hw Hp) as [Hc Hat].
    destruct (memory_WriteSecret_ok l value s Hc Hv) as [s' Hs']. exists s'. cbn. rewrite Hs'. split; [done|].
    intros p k. rewrite Hat, (proj2 (WriteSecret_memory _ _ _ _ Hs' I)), Hs. done.
  - destruct (DeleteSecret l v) as [[[]|e] v1] eqn:Hd; cbn [fst snd]; [|done]. intros [= <- <-].
    destruct (memory_DeleteSecret_ok l s) as [s' Hs']. exists s'. cbn. rewrite Hs'. split; [done|].
    intros p k. rewrite (DeleteSecret_law _ _ _ Hd Hp), (DeleteSecret_memory _ _ _ Hs' I), Hs. done.
  - destruct (HasSecret l v) as [[b|e] v1] eqn:Hh; cbn [fst snd]; [|done]. intros [= <- <-].
    destruct (HasSecret_law _ _ _ _ Hh Hp) as [-> Hat].
    destruct (memory_HasSecret_ok l s) as [b' Hs']. exists s. cbn. rewrite Hs'.
    rewrite (proj1 (HasSecret_memory _ _ _ _ Hs' I)), Hs. split; [done|]. intros p k. by rewrite Hat, Hs.
  - destruct (ReadSecret l v) as [[value|e] v1] eqn:Hr; cbn [fst snd]; [|done]. intros [= <- <-].
    destruct (ReadSecret_law _ _ _ _ Hr Hp) as (Hc & Hval & Hat). rewrite Hs in Hval.
    exists s. cbn. rewrite (memory_ReadSecret_ok _ _ _ Hc Hval). split; [done|]. intros p k. by rewrite Hat, Hs.
Qed.

Lemma ops_simulated ops v v' s answers : Forall op_allowed ops → same_secrets v s →
  run_ops ops v = (Some answers, v') →
  ∃ s', run_ops ops s = (Some answers, s') ∧ same_secrets v' s'.
Proof.
  intros Hall. revert v s answers. induction Hall as [|op ops Hop Hall IH]; intros v s answers Hs.
  { intros [= <- <-]. exists s. done. }
  cbn [run_ops]. destruct (run_op op v) as [[a|] v1] eqn:Hrun; [|done].
  destruct (op_simulated _ _ _ _ _ Hop Hs Hrun) as (s1 & Hs1 & Hsame). rewrite Hs1.
  destruct (run_ops ops v1) as [[rest|] v2] eqn:Hrest; [|done]. intros [= <- <-].
  destruct (IH _ _ _ Hsame Hrest) as (s2 & -> & ?). exists s2. done.
Qed.
End simulation.

(** C14: the service on a Vault server implements the in-memory table: when the
    server behaves as a KV version 2 engine, any sequence of writes, deletions,
    presence tests and reads that meets no error gives, from corresponding
    states, exactly the answers of the table, and leaves corresponding states. *)
Theorem http_vault_refines_table `{URLParser} {S : Type} `{VaultServer S} (h : httpXWorkmateVaultService)
    `{!KVEngine h} (ops : list vaultOp) (s s' : S) (table : memoryXWorkmateVaultService)
    (answers : list vaultAnswer) :
  Forall (λ op, kv_path (loc_SecretPath (vault_locator (op_locator op))) ∧
                match op with OpWrite _ value => TrimSpace value ≠ "" | _ => True end) ops →
  (∀ p k, http_at h s p k = memory_at table p k) →
  run_ops (H:=http_vault h) ops s = (Some answers, s') →
  ∃ table', run_ops ops table = (Some answers, table') ∧ ∀ p k, http_at h s' p k = memory_at table' p k.
Proof. intros Hall Hs Hrun. exact (ops_simulated (HV:=http_vault_laws h) ops s s' table answers Hall Hs Hrun). Qed.
