(* ===== verification/WorkspaceProps.v ===== *)
(** * Who reaches which workspace

    Histories of the workspace API, and the invariant they keep: the shared
    tenant is the only one of the public edition, and every member of another
    tenant was named by the root account that created it.  The access of an
    account follows from it. *)

From S2P Require Import Prelude GoLib Json StoreData Users Access Netip Hmac StripeClient Tenants Vault Workspace.
From S2P Require Import VaultProps.
From Stdlib Require Import Ascii.
Open Scope Z_scope.
Open Scope bool_scope.
Open Scope go_scope.

(** ** Histories *)

Inductive wsCall :=
| CallGetProfile (userID : string) (headers : list string)
| CallSync (rand : result error (list Z)) (newV7 : result error string) (userID : string) (headers : list string)
| CallUpdateProfile (userID : string) (headers : list string) (body : option json)
| CallGetSecrets (userID : string) (headers : list string)
| CallPutSecret (userID : string) (headers : list string) (target : string) (value : option string)
| CallDeleteSecret (userID : string) (headers : list string) (target : string)
| CallSession (headers : list string) (user : User)
| CallBootstrap (rand : result error (list Z)) (actor : User) (payload : option (string * string * string)).

Section histories.
Context `{URLParser} `{MapOrder} {V : Type} `{VaultService V} (env : string * string).

Definition handle (ids : string → nat → string) (now : time) (accounts : memoryStore) (c : wsCall) (w : workspace V)
    : wsResponse * workspace V :=
  match c with
  | CallGetProfile userID headers => getXWorkmateProfile env ids now accounts userID headers w
  | CallSync rand newV7 userID headers => getXWorkmateProfileSync env ids now accounts rand newV7 userID headers w
  | CallUpdateProfile userID headers body => updateXWorkmateProfile env ids now accounts userID headers body w
  | CallGetSecrets userID headers => getXWorkmateSecrets env ids now accounts userID headers w
  | CallPutSecret userID headers target value =>
      putXWorkmateSecret env ids now accounts userID headers target value w
  | CallDeleteSecret userID headers target => deleteXWorkmateSecret env ids now accounts userID headers target w
  | CallSession headers user =>
      let '(r, s) := session_body env ids now headers user (ws_tables w) in
      (match r with Err e => Refused e | Ok shown => SessionShown shown end, w <| ws_tables := s |>)
  | CallBootstrap rand actor payload => bootstrapTenant env ids now accounts rand actor payload w
  end.

(** The tenant and the member a root account brought together. *)
Definition granted (c : wsCall) (r : wsResponse) : list (string * string) :=
  match c, r with
  | CallBootstrap _ actor _, TenantCreated tenant _ memberID =>
      if isRootAccount actor then [(ten_ID tenant, TrimSpace memberID)] else []
  | _, _ => []
  end.

(** [uuid.NewString] returns an identifier no tenant has, without blanks
    around it. *)
Definition fresh_tenant_id (s : tenantTables) (id : string) : Prop :=
  id ≠ "" ∧ TrimSpace id = id ∧ id ≠ SharedXWorkmateTenantID ∧ tenants s !! id = None.

(** The states the API can reach, with the grants made on the way.  Accounts,
    clock and identifiers are arbitrary at every call. *)
Inductive reachable : list (string * string) → workspace V → Prop :=
| reachable_empty vault :
    reachable [] (mkWorkspace (mkTenantTables ∅ ∅ ∅ ∅) vault ∅)
| reachable_call grants w ids now accounts c r w' :
    reachable grants w →
    fresh_tenant_id (ws_tables w) (ids "tenant" 0%nat) →
    handle ids now accounts c w = (r, w') →
    reachable (granted c r ++ grants) w'.

(** ** The invariant *)

Record tenants_ok (grants : list (string * string)) (s : tenantTables) : Prop := {
  ok_tenant : ∀ id t, tenants s !! id = Some t →
    ten_ID t = id ∧ TrimSpace id = id ∧ (ten_Edition t = SharedPublicTenantEdition ↔ id = SharedXWorkmateTenantID);
  ok_member : ∀ id members userID m, tenantMemberships s !! id = Some members → members !! userID = Some m →
    id ≠ SharedXWorkmateTenantID → (id, userID) ∈ grants ∧ mem_Role m = TenantMembershipRoleAdmin;
  ok_profile : ∀ k p, xworkmateProfiles s !! k = Some p → filed k p
}.

Lemma tenants_ok_frame grants s s' :
  tenants s' = tenants s → tenantMemberships s' = tenantMemberships s →
  xworkmateProfiles s' = xworkmateProfiles s → tenants_ok grants s → tenants_ok grants s'.
Proof. intros E1 E2 E3 [H1' H2' H3']. split; [rewrite E1|rewrite E2|rewrite E3]; eauto. Qed.

Lemma tenants_ok_more more grants s : tenants_ok grants s → tenants_ok (more ++ grants) s.
Proof.
  intros [H1' H2' H3']. split; [done| |done]. intros id members userID m Hm Hu Hne.
  destruct (H2' _ _ _ _ Hm Hu Hne). split; [|done]. apply elem_of_app. by right.
Qed.

Lemma shared_edition_normal : NormalizeTenantEdition SharedPublicTenantEdition = SharedPublicTenantEdition.
Proof. reflexivity. Qed.

(** [EnsureTenant] on the shared tenant, and on a new private one. *)
Lemma EnsureTenant_shared grants newID now s r s' : tenants_ok grants s →
  EnsureTenant newID now (mkTenant SharedXWorkmateTenantID SharedXWorkmateTenantName SharedPublicTenantEdition 0 0) s
    = (r, s') →
  tenants_ok grants s' ∧ tenantMemberships s' = tenantMemberships s ∧ tenantDomains s' = tenantDomains s ∧
  xworkmateProfiles s' = xworkmateProfiles s ∧ is_Some (tenants s' !! SharedXWorkmateTenantID) ∧
  ∃ t, r = Ok t ∧ ten_ID t = SharedXWorkmateTenantID.
Proof.
  intros [Ht Hm Hp]. unfold EnsureTenant. cbv zeta. getset.
  change (TrimSpace SharedXWorkmateTenantID) with SharedXWorkmateTenantID.
  change (NormalizeTenant (mkTenant SharedXWorkmateTenantID SharedXWorkmateTenantName SharedPublicTenantEdition 0 0))
    with (mkTenant SharedXWorkmateTenantID SharedXWorkmateTenantName SharedPublicTenantEdition 0 0).
  cbn [ten_ID ten_Name ten_Edition]. rewrite bool_decide_eq_false_2 by done. cbn [ten_ID ten_Name ten_Edition].
  assert (∀ t, ten_ID t = SharedXWorkmateTenantID → ten_Edition t = SharedPublicTenantEdition →
    tenants_ok grants (s <| tenants := <[SharedXWorkmateTenantID := t]> (tenants s) |>)) as Hput.
  { intros t E1 E2. split; getset; [|done..]. intros id t' [[<- <-]|[Hne Hl]]%lookup_insert_Some; [|by apply Ht].
    done. }
  destruct (tenants s !! SharedXWorkmateTenantID) as [old|] eqn:E; intros [= <- <-]; getset;
    (split_and!; [|done..|by rewrite lookup_insert_eq|eexists; split; [reflexivity|by getset]]);
    apply Hput; getset; first [reflexivity|apply (Ht _ _ E)].
Qed.

Lemma EnsureTenantDomain_frame newID now d s r s' : EnsureTenantDomain newID now d s = (r, s') →
  tenants s' = tenants s ∧ tenantMemberships s' = tenantMemberships s ∧ xworkmateProfiles s' = xworkmateProfiles s.
Proof.
  unfold EnsureTenantDomain. cbv zeta. destruct (_ || _); [by intros [= _ <-]|].
  destruct (tenantDomains s !! _); intros [= _ <-]; by getset.
Qed.

Lemma UpsertTenantMembership_frame now m s r s' : UpsertTenantMembership now m s = (r, s') →
  tenants s' = tenants s ∧ tenantDomains s' = tenantDomains s ∧ xworkmateProfiles s' = xworkmateProfiles s.
Proof.
  unfold UpsertTenantMembership. cbv zeta. destruct (_ || _); [by intros [= _ <-]|].
  destruct (_ !! mem_UserID _); intros [= _ <-]; by getset.
Qed.

Lemma UpsertXWorkmateProfile_frame newIDs newID now p s r s' :
  UpsertXWorkmateProfile newIDs newID now p s = (r, s') →
  tenants s' = tenants s ∧ tenantDomains s' = tenantDomains s ∧ tenantMemberships s' = tenantMemberships s.
Proof.
  unfold UpsertXWorkmateProfile. generalize (NormalizeXWorkmateProfile newIDs p). intros q. cbv zeta.
  destruct (xp_TenantID q == ""); [by intros [= _ <-]|]. destruct (_ && _); [by intros [= _ <-]|].
  match goal with |- context [tenantProfileKey (xp_TenantID ?q') _ _] => generalize q' end. intros q'.
  destruct (xworkmateProfiles s !! _); intros Hs; apply (f_equal snd) in Hs; cbn [snd] in Hs; subst s'; done.
Qed.

(** A membership written under a tenant and an account: every other one stays,
    and the written one has the role asked for. *)
Lemma UpsertTenantMembership_members now m s s' x : UpsertTenantMembership now m s = (Ok x, s') →
  ∀ id members userID m', tenantMemberships s' !! id = Some members → members !! userID = Some m' →
  (id = TrimSpace (mem_TenantID m) ∧ userID = TrimSpace (mem_UserID m) ∧
   mem_Role m' = NormalizeTenantMembershipRole (mem_Role m)) ∨
  ∃ members0, tenantMemberships s !! id = Some members0 ∧ members0 !! userID = Some m'.
Proof.
  unfold UpsertTenantMembership, NormalizeTenantMembership. cbv zeta. getset.
  set (id := TrimSpace (mem_TenantID m)). set (u := TrimSpace (mem_UserID m)).
  destruct (_ || _); [done|]. intros Hx.
  assert (∃ e, tenantMemberships s' = <[id := <[u := e]> (default ∅ (tenantMemberships s !! id))]>
    (tenantMemberships s) ∧ mem_Role e = NormalizeTenantMembershipRole (mem_Role m)) as (e & -> & Hrole).
  { destruct (default ∅ (tenantMemberships s !! id) !! u); injection Hx as _ <-; getset; eexists; split;
      try reflexivity; by getset. }
  intros id' members userID m' [[<- <-]|[Hne Hm]]%lookup_insert_Some Hu; [|by eauto].
  apply lookup_insert_Some in Hu as [[<- <-]|[_ Hu]]; [by left|]. right.
  destruct (tenantMemberships s !! id); [by eauto|]. cbn in Hu. by apply lookup_empty_Some in Hu.
Qed.

Lemma ensureSharedTenantMembership_ok grants now user s r s' : tenants_ok grants s →
  ensureSharedTenantMembership now user s = (r, s') →
  tenants_ok grants s' ∧ tenants s' = tenants s ∧ tenantDomains s' = tenantDomains s ∧
  xworkmateProfiles s' = xworkmateProfiles s ∧
  match r with Ok role => role = sharedTenantRole user | Err _ => True end.
Proof.
  intros [Ht Hm Hp]. unfold ensureSharedTenantMembership. cbv zeta.
  destruct (UpsertTenantMembership _ _ s) as [[x|e] s1] eqn:Hup; intros [= <- <-];
    destruct (UpsertTenantMembership_frame _ _ _ _ _ Hup) as (E1 & E2 & E3).
  - split_and!; try done. split; [by rewrite E1| |by rewrite E3]. intros id members u m' Hl Hu Hne.
    destruct (UpsertTenantMembership_members _ _ _ _ _ Hup _ _ _ _ Hl Hu) as [(-> & _)|(m0 & Hl0 & Hu0)]; [done|].
    eauto.
  - split_and!; try done. split; [by rewrite E1| |by rewrite E3]. revert Hup. unfold UpsertTenantMembership. cbv zeta.
    destruct (_ || _); [by intros [= _ <-]|]. by destruct (_ !! mem_UserID _).
Qed.

(** ** Access *)

Lemma ensureSharedXWorkmateTenant_ok grants ids now s r s' : tenants_ok grants s →
  ensureSharedXWorkmateTenant env ids now s = (r, s') →
  tenants_ok grants s' ∧ tenantMemberships s' = tenantMemberships s ∧
  xworkmateProfiles s' = xworkmateProfiles s.
Proof.
  intros Hok. unfold ensureSharedXWorkmateTenant. cbv zeta.
  destruct (_ == _); [by intros [= _ <-]|].
  destruct (EnsureTenant _ _ _ s) as [r1 s1] eqn:E1.
  destruct (EnsureTenant_shared _ _ _ _ _ _ Hok E1) as (Hok1 & Em & _ & Ep & _ & t & -> & _).
  destruct (EnsureTenantDomain _ _ _ s1) as [[d|e] s2] eqn:E2; intros [= _ <-];
    destruct (EnsureTenantDomain_frame _ _ _ _ _ _ E2) as (F1 & F2 & F3);
    (split_and!; [by apply (tenants_ok_frame grants s1)|congruence..]).
Qed.

Lemma ResolveTenantByHost_tenant host s t d : ResolveTenantByHost env host s = Ok (t, d) →
  ∃ id, tenants s !! id = Some t.
Proof.
  unfold ResolveTenantByHost. cbv zeta. destruct (IsSharedTenantHost _ _).
  - destruct (tenants s !! _) eqn:E; [|done]. intros [= <- _]. eauto.
  - destruct (tenantDomains s !! _) as [dom|]; [|done]. destruct (tenants s !! _) eqn:E; [|done].
    intros [= <- _]. eauto.
Qed.

(** What an access says about the account that has it. *)
Definition access_sound (grants : list (string * string)) (user : User) (access : xworkmateAccessContext) : Prop :=
  let id := ten_ID (ac_Tenant access) in
  (id = SharedXWorkmateTenantID ∧ ten_Edition (ac_Tenant access) = SharedPublicTenantEdition ∧
   ac_ProfileScope access = XWorkmateProfileScopeTenantShared ∧
   ac_MembershipRole access = sharedTenantRole user ∧
   ac_CanEditIntegrations access = (sharedTenantRole user == TenantMembershipRoleAdmin) ∧
   ac_CanManageTenant access = (sharedTenantRole user == TenantMembershipRoleAdmin)) ∨
  (id ≠ SharedXWorkmateTenantID ∧ (id, TrimSpace (user_ID user)) ∈ grants ∧
   ac_ProfileScope access = XWorkmateProfileScopeUserPrivate ∧
   ac_MembershipRole access = TenantMembershipRoleAdmin ∧
   ac_CanEditIntegrations access = true ∧ ac_CanManageTenant access = true).

Lemma describe_member_role s id m : mem_Role (describe_member s id m) = mem_Role m.
Proof.
  unfold describe_member. cbv zeta. destruct (tenants s !! id); destruct (List.find _ _) as [[? ?]|]; by getset.
Qed.

Lemma resolveXWorkmateAccess_ok grants ids now host user s r s' : tenants_ok grants s →
  resolveXWorkmateAccess env ids now host user s = (r, s') →
  tenants_ok grants s' ∧ xworkmateProfiles s' = xworkmateProfiles s ∧
  match r with Ok access => access_sound grants user access | Err _ => True end.
Proof.
  intros Hok. unfold resolveXWorkmateAccess. cbv zeta.
  destruct (if IsSharedTenantHost _ _ then _ else _) as [r1 s1] eqn:E1.
  assert (tenants_ok grants s1 ∧ xworkmateProfiles s1 = xworkmateProfiles s) as [Hok1 Ep].
  { destruct (IsSharedTenantHost _ _); [|by injection E1 as _ <-].
    by destruct (ensureSharedXWorkmateTenant_ok _ _ _ _ _ _ Hok E1) as (? & _ & ?). }
  destruct r1 as [[]|e]; [|by intros [= <- <-]].
  destruct (ResolveTenantByHost env _ s1) as [[t d]|e] eqn:Hr; [|by intros [= <- <-]].
  destruct (ResolveTenantByHost_tenant _ _ _ _ Hr) as [id Hid].
  destruct (ok_tenant _ _ Hok1 _ _ Hid) as (Eid & Etrim & Hed). subst id.
  destruct (bool_decide_reflect (ten_Edition t = SharedPublicTenantEdition)) as [Es|Es].
  - destruct (ensureSharedTenantMembership now user s1) as [r2 s2] eqn:E2.
    destruct (ensureSharedTenantMembership_ok _ _ _ _ _ _ Hok1 E2) as (Hok2 & _ & _ & Ep2 & Hr2).
    destruct r2 as [role|e]; intros [= <- <-]; (split_and!; [done|congruence|]); [|done]. subst role.
    left. cbn. split_and!; try done. by apply Hed.
  - destruct (GetTenantMembership _ _ s1) as [m|e] eqn:Hm; intros [= <- <-]; (split_and!; [done..|]); [|done].
    revert Hm. unfold GetTenantMembership. destruct (tenantMemberships s1 !! _) as [members|] eqn:Hl; [|done].
    destruct (members !! _) as [m0|] eqn:Hu; [|done]. intros [= <-]. rewrite describe_member_role.
    rewrite Etrim in Hl. right. cbn.
    assert (ten_ID t ≠ SharedXWorkmateTenantID) as Hne by tauto.
    destruct (ok_member _ _ Hok1 _ _ _ _ Hl Hu Hne) as [Hg ->]. split_and!; done.
Qed.

Lemma enter_ok grants ids now accounts userID headers (w w' : workspace V) r : tenants_ok grants (ws_tables w) →
  enter env ids now accounts userID headers w = (r, w') →
  tenants_ok grants (ws_tables w') ∧ xworkmateProfiles (ws_tables w') = xworkmateProfiles (ws_tables w) ∧
  ws_vault w' = ws_vault w ∧ ws_credentials w' = ws_credentials w ∧
  match r with
  | Ok (user, access) => currentAuthenticatedUser accounts userID = Ok user ∧ access_sound grants user access
  | Err _ => True
  end.
Proof.
  intros Hok. unfold enter, authorised.
  destruct (currentAuthenticatedUser accounts userID) as [user|e]; [|intros [= <- <-]; by getset].
  destruct (resolveXWorkmateAccess _ _ _ _ _ _) as [[access|e] s] eqn:E; intros [= <- <-]; getset;
    destruct (resolveXWorkmateAccess_ok _ _ _ _ _ _ _ _ Hok E) as (? & ? & ?); done.
Qed.

(** ** Every call keeps the invariant *)

Lemma show_profile_tables ids strict access user profile (w : workspace V) :
  ws_tables (show_profile ids strict access user profile w).2 = ws_tables w.
Proof.
  unfold show_profile. cbv zeta. destruct (ws_vault w); [|done].
  destruct (describeXWorkmateSecrets _ _ _ _ _) as [[[secrets status]|e] vault]; cbn [snd]; by getset.
Qed.

Lemma UpsertXWorkmateProfile_ok grants newIDs newID now p s r s' : tenants_ok grants s →
  UpsertXWorkmateProfile newIDs newID now p s = (r, s') → tenants_ok grants s'.
Proof.
  intros Hok Hu. destruct (UpsertXWorkmateProfile_frame _ _ _ _ _ _ _ Hu) as (E1 & _ & E2). destruct r as [q|e].
  - destruct (UpsertXWorkmateProfile_filed _ _ _ _ _ _ _ Hu) as (stored & -> & _ & Hf).
    destruct Hok as [Ht Hm Hp]. split; getset; [done..|].
    intros k p' [[<- <-]|[_ Hl]]%lookup_insert_Some; [by apply Hf|by apply Hp].
  - replace s' with s; [done|]. revert Hu. unfold UpsertXWorkmateProfile. cbv zeta.
    destruct (_ == ""); [by intros [= _ <-]|]. destruct (_ && _); [by intros [= _ <-]|]. by destruct (_ !! _).
Qed.

Lemma getXWorkmateProfile_ok grants ids now accounts userID headers (w : workspace V) :
  tenants_ok grants (ws_tables w) →
  tenants_ok grants (ws_tables (getXWorkmateProfile env ids now accounts userID headers w).2).
Proof.
  intros Hok. unfold getXWorkmateProfile.
  destruct (enter _ _ _ _ _ _ _) as [r w1] eqn:E. destruct (enter_ok _ _ _ _ _ _ _ _ _ Hok E) as (Hok1 & _).
  destruct r as [[user access]|e]; [|done]. destruct (loadXWorkmateProfile _ _ _ _); [|done].
  by rewrite show_profile_tables.
Qed.

Lemma getXWorkmateProfileSync_ok grants ids now accounts rand newV7 userID headers (w : workspace V) :
  tenants_ok grants (ws_tables w) →
  tenants_ok grants (ws_tables (getXWorkmateProfileSync env ids now accounts rand newV7 userID headers w).2).
Proof.
  intros Hok. unfold getXWorkmateProfileSync. cbv zeta.
  destruct (enter _ _ _ _ _ _ _) as [r w1] eqn:E. destruct (enter_ok _ _ _ _ _ _ _ _ _ Hok E) as (Hok1 & _).
  destruct r as [[user access]|e]; [|done]. destruct (loadXWorkmateProfile _ _ _ _); [|done].
  destruct (_ == _); [done|]. destruct (issueBridgeCredential _ _ _ _ _ _) as [[[c t]|e] cs]; [|done].
  cbn [snd]. by getset.
Qed.

Lemma updateXWorkmateProfile_ok grants ids now accounts userID headers body (w : workspace V) :
  tenants_ok grants (ws_tables w) →
  tenants_ok grants (ws_tables (updateXWorkmateProfile env ids now accounts userID headers body w).2).
Proof.
  intros Hok. unfold updateXWorkmateProfile. cbv zeta.
  destruct (enter _ _ _ _ _ _ _) as [r w1] eqn:E. destruct (enter_ok _ _ _ _ _ _ _ _ _ Hok E) as (Hok1 & _).
  destruct r as [[user access]|e]; [|done]. destruct (may_edit _ _ _); [done|].
  destruct (bind_map body) as [raw|]; [|done]. destruct (containsForbiddenXWorkmateTokenField _); [done|].
  destruct (decode_profile _) as [payload|]; [|done].
  destruct (UpsertXWorkmateProfile _ _ _ _ _) as [[q|e] s1] eqn:Eu;
    pose proof (UpsertXWorkmateProfile_ok _ _ _ _ _ _ _ _ Hok1 Eu); [rewrite show_profile_tables|cbn [snd]]; by getset.
Qed.

Lemma getXWorkmateSecrets_ok grants ids now accounts userID headers (w : workspace V) :
  tenants_ok grants (ws_tables w) →
  tenants_ok grants (ws_tables (getXWorkmateSecrets env ids now accounts userID headers w).2).
Proof.
  intros Hok. unfold getXWorkmateSecrets. destruct (ws_vault w); [|done].
  destruct (enter _ _ _ _ _ _ _) as [r w1] eqn:E. destruct (enter_ok _ _ _ _ _ _ _ _ _ Hok E) as (Hok1 & _).
  destruct r as [[user access]|e]; [|done]. destruct (loadXWorkmateProfile _ _ _ _); [|done].
  destruct (describeXWorkmateSecrets _ _ _ _ _) as [[[secrets status]|e] vault]; cbn [snd]; by getset.
Qed.

Lemma putXWorkmateSecret_ok grants ids now accounts userID headers target value (w : workspace V) :
  tenants_ok grants (ws_tables w) →
  tenants_ok grants (ws_tables (putXWorkmateSecret env ids now accounts userID headers target value w).2).
Proof.
  intros Hok. unfold putXWorkmateSecret. cbv zeta. destruct (ws_vault w) as [v|]; [|done].
  destruct (enter _ _ _ _ _ _ _) as [r w1] eqn:E. destruct (enter_ok _ _ _ _ _ _ _ _ _ Hok E) as (Hok1 & _).
  destruct r as [[user access]|e]; [|done]. destruct (may_edit _ _ _); [done|].
  destruct (findXWorkmateManagedTarget _); [|done]. destruct value; [|done]. destruct (_ == ""); [done|].
  destruct (loadXWorkmateProfile _ _ _ _); [|done].
  destruct (buildManagedXWorkmateSecretLocator _ _ _) as [l|]; [|done].
  destruct (WriteSecret _ _ v) as [[u|e] v1]; [|cbn [snd]; by getset].
  destruct (UpsertXWorkmateProfile _ _ _ _ _) as [[q|e] s1] eqn:Eu; cbn [snd]; getset;
    by apply (UpsertXWorkmateProfile_ok _ _ _ _ _ _ _ _ Hok1 Eu).
Qed.

Lemma deleteXWorkmateSecret_ok grants ids now accounts userID headers target (w : workspace V) :
  tenants_ok grants (ws_tables w) →
  tenants_ok grants (ws_tables (deleteXWorkmateSecret env ids now accounts userID headers target w).2).
Proof.
  intros Hok. unfold deleteXWorkmateSecret. cbv zeta. destruct (ws_vault w) as [v|]; [|done].
  destruct (enter _ _ _ _ _ _ _) as [r w1] eqn:E. destruct (enter_ok _ _ _ _ _ _ _ _ _ Hok E) as (Hok1 & _).
  destruct r as [[user access]|e]; [|done]. destruct (may_edit _ _ _); [done|].
  destruct (findXWorkmateManagedTarget _); [|done]. destruct (loadXWorkmateProfile _ _ _ _); [|done].
  destruct (match findStoredXWorkmateSecretLocator _ _ _ with Some _ => _ | None => _ end); [|done].
  destruct (DeleteSecret _ v) as [[u|e] v1]; [|cbn [snd]; by getset].
  destruct (describeXWorkmateSecrets _ _ _ _ _) as [[[secrets status]|e] vault]; cbn [snd]; by getset.
Qed.

Lemma session_ok grants ids now headers user s : tenants_ok grants s →
  tenants_ok grants (session_body env ids now headers user s).2.
Proof.
  intros Hok. unfold session_body, buildSessionUser.
  destruct (resolveXWorkmateAccess _ _ _ _ _ _) as [r s1] eqn:E.
  destruct (resolveXWorkmateAccess_ok _ _ _ _ _ _ _ _ Hok E) as (? & _ & _).
  by destruct r as [access|[]].
Qed.

(** A new private tenant. *)
Lemma EnsureTenant_private grants newID now name s r s' : tenants_ok grants s → fresh_tenant_id s newID →
  EnsureTenant newID now (mkTenant "" name TenantPrivateEdition 0 0) s = (r, s') →
  tenants_ok grants s' ∧ tenantMemberships s' = tenantMemberships s ∧ ∃ t, r = Ok t ∧ ten_ID t = newID.
Proof.
  intros [Ht Hm Hp] (Hne & Htrim & Hshared & Hnone). unfold EnsureTenant. cbv zeta.
  unfold NormalizeTenant. getset. cbn [ten_ID ten_Name ten_Edition].
  change (TrimSpace "") with "". rewrite bool_decide_eq_true_2 by done. getset. rewrite Hnone.
  intros [= <- <-]. getset. split_and!; [|done|eexists; split; [reflexivity|by getset]].
  split; getset; [|done..]. intros id t [[<- <-]|[_ Hl]]%lookup_insert_Some; [|by apply Ht].
  getset. split_and!; [done|done|]. change (NormalizeTenantEdition TenantPrivateEdition) with TenantPrivateEdition.
  split; [done|]. intros ->. done.
Qed.

Lemma bootstrapTenant_ok grants ids now accounts rand actor payload (w w' : workspace V) r :
  tenants_ok grants (ws_tables w) → fresh_tenant_id (ws_tables w) (ids "tenant" 0%nat) →
  bootstrapTenant env ids now accounts rand actor payload w = (r, w') →
  tenants_ok (granted (CallBootstrap rand actor payload) r ++ grants) (ws_tables w').
Proof.
  intros Hok Hfresh. unfold bootstrapTenant. cbv zeta.
  destruct (isRootAccount actor) eqn:Hroot; cbn [negb]; [|by intros [= <- <-]].
  destruct payload as [[[name aid] email]|]; [|by intros [= <- <-]].
  destruct (_ && _); [by intros [= <- <-]|].
  match goal with |- context [match ?x with Ok _ => _ | Err _ => (Refused (404, _), _) end] =>
    destruct x as [member|e] end; [|by intros [= <- <-]].
  destruct (GenerateRandomTenantDomain _ _) as [domain|e]; [|by intros [= <- <-]].
  destruct (EnsureTenant _ _ _ _) as [r1 s1] eqn:E1.
  destruct (EnsureTenant_private _ _ _ _ _ _ _ Hok Hfresh E1) as (Hok1 & Em & t & -> & Eid).
  destruct (EnsureTenantDomain _ _ _ _) as [[d|e] s2] eqn:E2;
    destruct (EnsureTenantDomain_frame _ _ _ _ _ _ E2) as (F1 & F2 & F3);
    pose proof (tenants_ok_frame grants s1 s2 F1 F2 F3 Hok1) as Hok2; [|intros [= <- <-]; by getset].
  destruct (UpsertTenantMembership _ _ _) as [[m|e] s3] eqn:E3;
    destruct (UpsertTenantMembership_frame _ _ _ _ _ E3) as (G1 & _ & G3); intros [= <- <-]; getset.
  - cbn [granted]. rewrite Hroot. split; [rewrite G1; apply Hok2| |rewrite G3; apply Hok2].
    intros id members u m' Hl Hu Hne.
    destruct (UpsertTenantMembership_members _ _ _ _ _ E3 _ _ _ _ Hl Hu) as [(-> & -> & ->)|(m0 & Hl0 & Hu0)].
    + cbn [mem_TenantID mem_UserID mem_Role]. destruct Hfresh as (_ & Htrim & _). rewrite Eid, Htrim.
      split; [|done]. apply elem_of_app. left. by apply list_elem_of_singleton.
    + destruct (ok_member _ _ Hok2 _ _ _ _ Hl0 Hu0 Hne). split; [|done]. apply elem_of_app. by right.
  - cbn [granted app]. apply (tenants_ok_frame grants s2); [done| |done|done].
    revert E3. unfold UpsertTenantMembership. cbv zeta. destruct (_ || _); [by intros [= _ <-]|].
    by destruct (_ !! mem_UserID _).
Qed.

Lemma handle_ok grants ids now accounts c (w w' : workspace V) r :
  tenants_ok grants (ws_tables w) → fresh_tenant_id (ws_tables w) (ids "tenant" 0%nat) →
  handle ids now accounts c w = (r, w') → tenants_ok (granted c r ++ grants) (ws_tables w').
Proof.
  intros Hok Hfresh Hh. destruct c as [| | | | | | |rand actor payload]; cbn [handle] in Hh;
    [..|by apply (bootstrapTenant_ok _ _ _ _ _ _ _ _ _ _ Hok Hfresh Hh)];
    apply tenants_ok_more; try (apply (f_equal snd) in Hh; cbn [snd] in Hh; subst w').
  - by apply getXWorkmateProfile_ok.
  - by apply getXWorkmateProfileSync_ok.
  - by apply updateXWorkmateProfile_ok.
  - by apply getXWorkmateSecrets_ok.
  - by apply putXWorkmateSecret_ok.
  - by apply deleteXWorkmateSecret_ok.
  - pose proof (session_ok grants ids now headers user _ Hok) as Hs.
    destruct (session_body _ _ _ _ _ _) as [r1 s1]. cbn [snd]. by getset.
Qed.

Lemma reachable_ok grants w : reachable grants w → tenants_ok grants (ws_tables w).
Proof.
  induction 1 as [vault|grants w ids now accounts c r w' Hr IH Hf Hh].
  - split; cbn; intros *; by rewrite lookup_empty.
  - by apply (handle_ok _ _ _ _ _ _ _ _ IH Hf Hh).
Qed.

(** C12: over every history of the workspace API, an account that is let into a
    workspace is active, and the workspace is either the shared one, where it
    may edit and manage exactly when it is a root, administrator or operator
    account, or a private one a root account created for this very account. *)
Theorem workspace_access_confined grants w ids now accounts userID headers user access w' :
  reachable grants w →
  enter env ids now accounts userID headers w = (Ok (user, access), w') →
  GetUserByID accounts (TrimSpace userID) = Ok user ∧ user_Active user = true ∧ access_sound grants user access.
Proof.
  intros Hr%reachable_ok He. destruct (enter_ok _ _ _ _ _ _ _ _ _ Hr He) as (_ & _ & _ & _ & Hu & Hs).
  revert Hu. unfold currentAuthenticatedUser. cbv zeta. destruct (_ || _); [done|].
  destruct (GetUserByID _ _) as [u|e]; [|done]. destruct (user_Active u) eqn:Ha; [|done]. intros [= ->]. done.
Qed.
End histories.

(** ** Where the exchange code is sent *)

(** An http origin whose host a tenant has. *)
Definition tenant_origin `{URLParser} (env : string * string) (s : tenantTables) (f : string) : Prop :=
  ∃ raw u, url_Parse (TrimSpace raw) = Some u ∧ (url_Scheme u = "http" ∨ url_Scheme u = "https") ∧ url_Host u ≠ "" ∧
    f = (url_Scheme u +:+ "://" +:+ url_Host u)%string ∧
    (IsSharedTenantHost env (NormalizeHostname (url_Host u)) = true ∨
     ∃ t d, ResolveTenantByHost env (NormalizeHostname (url_Host u)) s = Ok (t, d)).

Lemma validateFrontendURL_origin `{URLParser} env raw s f :
  validateFrontendURL env raw s = f → f = "" ∨ tenant_origin env s f.
Proof.
  unfold validateFrontendURL. cbv zeta. destruct (TrimSpace raw == ""); [by left|].
  destruct (url_Parse (TrimSpace raw)) as [u|] eqn:Hu; [|by left].
  destruct (bool_decide_reflect (url_Host u = "")) as [|Hh]; [by left|]. cbn [orb].
  destruct (_ && _) eqn:Hs; [by left|]. destruct (_ == ""); [by left|].
  assert (url_Scheme u = "http" ∨ url_Scheme u = "https") as Hscheme.
  { apply andb_false_iff in Hs as [E|E]; apply negb_false_iff, bool_decide_eq_true in E; auto. }
  destruct (IsSharedTenantHost env _) eqn:Hsh; [intros <-; right; exists raw, u; eauto 10|].
  destruct (ResolveTenantByHost env _ s) as [[t d]|e] eqn:Hr; [|by left].
  intros <-. right. exists raw, u. split_and!; eauto.
Qed.

Lemma resolveFrontendURL_origin `{URLParser} env query header origin referer configured s f :
  resolveFrontendURL env query header origin referer configured s = f → f = "" ∨ tenant_origin env s f.
Proof.
  unfold resolveFrontendURL. cbv zeta. destruct (List.find _ _) as [f'|] eqn:E; [|by left]. intros <-.
  apply List.find_some in E as [Hin _]. apply list_elem_of_In, list_elem_of_fmap in Hin as (c & -> & _).
  by apply (validateFrontendURL_origin env c).
Qed.

(** C16: the OAuth callback sends the browser, with the exchange code of the new
    session, only to an http origin whose host belongs to a tenant, to the
    frontend the deployment configured, or, when none is configured, to the
    development address, whatever the state and the headers of the request say. *)
Theorem exchange_code_confined `{URLParser} env state query header origin referer configured s :
  let f := callbackFrontendURL env state query header origin referer configured s in
  tenant_origin env s f ∨ (f = configured ∧ configured ≠ "") ∨ (f = "http://localhost:3000" ∧ configured = "").
Proof.
  unfold callbackFrontendURL. cbv zeta.
  destruct (bool_decide_reflect (validateFrontendURL env (parseOAuthStateFrontendURL state) s = "")) as [E|E].
  - destruct (bool_decide_reflect (resolveFrontendURL env query header origin referer configured s = "")) as [E'|E'].
    + destruct (bool_decide_reflect (configured = "")); auto.
    + rewrite bool_decide_eq_false_2 by done. left.
      by destruct (resolveFrontendURL_origin env query header origin referer configured s _ eq_refl).
  - rewrite !bool_decide_eq_false_2 by (rewrite ?bool_decide_eq_false_2; done). left.
    by destruct (validateFrontendURL_origin env (parseOAuthStateFrontendURL state) s _ eq_refl).
Qed.
