(* ===== verification/SecretProps.v ===== *)
(** * Where the secrets of a workspace go

    The path a managed secret has in the vault, that a stored secret touches
    no other path and no other profile, and that what was stored is listed,
    and what was deleted is not. *)

From S2P Require Import Prelude GoLib Json StoreData Users Access Netip Hmac StripeClient StripeClientProps GoTime Tenants.
From S2P Require Import Vault Workspace VaultProps WorkspaceProps.
From Stdlib Require Import Ascii.
Open Scope Z_scope.
Open Scope bool_scope.
Open Scope go_scope.

(** ** Trimming *)

Lemma TrimRight_trimmed s : TrimSpace s = s → TrimRight s = s.
Proof. intros <-. unfold TrimSpace. apply TrimRight_idem. Qed.

Lemma TrimSpace_app c a b : is_space c = false → TrimSpace b = b → b ≠ "" →
  TrimSpace (String c (a +:+ b)) = String c (a +:+ b).
Proof.
  intros Hc Hb Hne. unfold TrimSpace. cbn [TrimLeft]. rewrite Hc.
  change (String c (a +:+ b)) with (String c a +:+ b)%string.
  apply TrimRight_app; [by apply TrimRight_trimmed|done].
Qed.

Lemma TrimSpace_chars c s : c ∈ chars (TrimSpace s) → c ∈ chars s.
Proof.
  assert (∀ t, c ∈ chars (TrimRight t) → c ∈ chars t) as Hr.
  { induction t as [|d t IH]; [done|]. cbn [TrimRight].
    change (chars (String d t)) with (d :: chars t). rewrite elem_of_cons.
    destruct (TrimRight t) as [|e t'] eqn:E.
    - destruct (is_space d); [by intros ?%elem_of_nil|].
      intros Hc. apply elem_of_cons in Hc as [->|Hc%elem_of_nil]; [by left|done].
    - change (chars (String d (String e t'))) with (d :: chars (String e t')). rewrite elem_of_cons. naive_solver. }
  assert (∀ t, c ∈ chars (TrimLeft t) → c ∈ chars t) as Hl.
  { induction t as [|d t IH]; [done|]. cbn [TrimLeft]. destruct (is_space d); [|done].
    change (chars (String d t)) with (d :: chars t). rewrite elem_of_cons. auto. }
  unfold TrimSpace. auto.
Qed.

Lemma drop_char_head c d l : d ≠ c → drop_char c (d :: l) = d :: l.
Proof. intros Hd. cbn. by rewrite bool_decide_eq_false_2. Qed.

Lemma TrimChar_app c d a b : d ≠ c → b ≠ "" → c ∉ chars b →
  TrimChar c (String d (a +:+ b)) = String d (a +:+ b).
Proof.
  intros Hd Hb Hc. unfold TrimChar.
  change (chars (String d (a +:+ b))) with (d :: chars (a +:+ b)). rewrite drop_char_head by done.
  rewrite chars_app. destruct (chars b) as [|x l] eqn:E using rev_ind.
  { apply (f_equal of_chars) in E. rewrite of_chars_chars in E. by subst b. }
  rewrite app_assoc, app_comm_cons, reverse_app, reverse_singleton. cbn [app].
  rewrite drop_char_head.
  2: { intros ->. apply Hc. apply elem_of_app. right. by apply list_elem_of_singleton. }
  change (x :: reverse (d :: chars a ++ l)) with ([x] ++ reverse (d :: chars a ++ l)).
  rewrite <- (reverse_singleton x), <- reverse_app, reverse_involutive.
  rewrite <- app_comm_cons, <- app_assoc, <- E. change (d :: chars a ++ chars b) with ([d] ++ (chars a ++ chars b)).
  rewrite <- chars_app, of_chars_app, of_chars_chars. done.
Qed.

(** ** Paths *)

(** Identifiers without the separators of paths and keys, as UUIDs are. *)
Definition plain_id (id : string) : Prop := TrimSpace id ≠ "" ∧ "/"%char ∉ chars id ∧ "|"%char ∉ chars id.

Definition managed_path (access : xworkmateAccessContext) (user : User) : string :=
  let tenantID := ten_ID (ac_Tenant access) in
  if ac_ProfileScope access == XWorkmateProfileScopeUserPrivate
  then ("xworkmate/tenants/" +:+ tenantID +:+ "/users/" +:+ TrimSpace (user_ID user))%string
  else ("xworkmate/tenants/" +:+ tenantID +:+ "/shared")%string.

Lemma managed_target target m : findXWorkmateManagedTarget target = Some m →
  mt_Target m = ToLower (TrimSpace target) ∧ TrimSpace (mt_Target m) = mt_Target m ∧
  ToLower (mt_Target m) = mt_Target m ∧ mt_Target m ≠ "" ∧ m ∈ xworkmateManagedSecretTargets ∧
  findXWorkmateManagedTarget (mt_Target m) = Some m.
Proof.
  intros [Hin Ht%bool_decide_eq_true]%List.find_some. split; [done|].
  cbn in Hin. destruct Hin as [<-|[<-|[<-|[<-|[]]]]]; split_and!; try done; set_solver.
Qed.

Lemma managed_path_stable access user : plain_id (user_ID user) →
  TrimSpace (managed_path access user) = managed_path access user ∧
  TrimChar "/"%char (managed_path access user) = managed_path access user ∧ managed_path access user ≠ "".
Proof.
  intros (Hne & Hslash & _). unfold managed_path. cbv zeta.
  set (tail := TrimSpace (user_ID user)) in *.
  assert ("/"%char ∉ chars tail) as Hs.
  { intros Hin. apply Hslash. revert Hin. unfold tail. apply TrimSpace_chars. }
  destruct (_ == _).
  - change ("xworkmate/tenants/" +:+ ten_ID (ac_Tenant access) +:+ "/users/" +:+ tail)%string
      with (String "x"%char ("workmate/tenants/" +:+ (ten_ID (ac_Tenant access) +:+ ("/users/" +:+ tail))))%string.
    rewrite <- !string_app_assoc.
    split_and!; [apply TrimSpace_app|apply TrimChar_app|]; try done. apply TrimSpace_idem.
  - change ("xworkmate/tenants/" +:+ ten_ID (ac_Tenant access) +:+ "/shared")%string
      with (String "x"%char ("workmate/tenants/" +:+ (ten_ID (ac_Tenant access) +:+ ("/" +:+ "shared"))))%string.
    rewrite <- !string_app_assoc.
    split_and!; [by apply TrimSpace_app|apply TrimChar_app|]; try done. cbn. set_solver.
Qed.

(** The two scopes an access has. *)
Definition scoped (access : xworkmateAccessContext) : Prop :=
  ac_ProfileScope access = XWorkmateProfileScopeTenantShared ∨
  ac_ProfileScope access = XWorkmateProfileScopeUserPrivate.

Lemma managed_locator access user target m : findXWorkmateManagedTarget target = Some m → plain_id (user_ID user) →
  scoped access →
  ∃ l, buildManagedXWorkmateSecretLocator access (resolvedXWorkmateProfileUserID access user) target = Ok l ∧
       loc_SecretPath l = managed_path access user ∧ loc_SecretKey l = mt_Target m ∧ loc_Target l = mt_Target m.
Proof.
  intros Hm Hu Hs. destruct (managed_target _ _ Hm) as (_ & Ht & Hl & _).
  destruct (managed_path_stable access user Hu) as (P1 & P2 & _).
  unfold buildManagedXWorkmateSecretLocator. rewrite Hm. cbv zeta. unfold resolvedXWorkmateProfileUserID.
  revert P1 P2. unfold managed_path. cbv zeta. destruct Hs as [->| ->].
  - rewrite bool_decide_eq_false_2 by done. intros P1 P2. eexists. split; [reflexivity|].
    unfold NormalizeXWorkmateSecretLocator. cbn [loc_SecretPath loc_SecretKey loc_Target]. rewrite P1, P2, Ht, Hl. done.
  - rewrite (bool_decide_eq_true_2 (_ = XWorkmateProfileScopeUserPrivate)) by done.
    rewrite (bool_decide_eq_false_2 (_ = XWorkmateProfileScopeTenantShared)) by done.
    rewrite TrimSpace_idem. rewrite bool_decide_eq_false_2 by apply Hu. intros P1 P2. eexists. split; [reflexivity|].
    unfold NormalizeXWorkmateSecretLocator. cbn [loc_SecretPath loc_SecretKey loc_Target]. rewrite P1, P2, Ht, Hl. done.
Qed.

(** A locator with the managed path and key is left alone by normalisation. *)
Lemma vault_locator_managed access user l t : plain_id (user_ID user) → loc_SecretPath l = managed_path access user →
  loc_SecretKey l = t → TrimSpace t = t → t ≠ "" →
  loc_SecretPath (vault_locator l) = managed_path access user ∧ loc_SecretKey (vault_locator l) = t ∧
  incomplete (vault_locator l) = false.
Proof.
  intros Hu Hp Hk Ht Hne. destruct (managed_path_stable access user Hu) as (P1 & P2 & P3).
  unfold vault_locator, NormalizeXWorkmateSecretLocator, incomplete. cbn [loc_SecretPath loc_SecretKey].
  rewrite Hp, Hk, P1, P2, Ht, !bool_decide_eq_false_2 by done. done.
Qed.

(** ** Different workspaces have different paths *)

Lemma split_at_first (c : ascii) a a' b b' : c ∉ a → c ∉ a' → a ++ c :: b = a' ++ c :: b' → a = a' ∧ b = b'.
Proof.
  revert a'. induction a as [|x a IH]; intros [|y a']; cbn; intros Ha Ha' E.
  - by injection E.
  - injection E as -> _. set_solver.
  - injection E as -> _. set_solver.
  - injection E as -> E. destruct (IH a' ltac:(set_solver) ltac:(set_solver) E) as [-> ->]. done.
Qed.

Lemma chars_inj a b : chars a = chars b → a = b.
Proof. intros E%(f_equal of_chars). by rewrite !of_chars_chars in E. Qed.

Lemma managed_path_inj access user access' user' :
  "/"%char ∉ chars (ten_ID (ac_Tenant access)) → "/"%char ∉ chars (ten_ID (ac_Tenant access')) →
  scoped access → scoped access' → managed_path access user = managed_path access' user' →
  ten_ID (ac_Tenant access) = ten_ID (ac_Tenant access') ∧ ac_ProfileScope access = ac_ProfileScope access' ∧
  (ac_ProfileScope access = XWorkmateProfileScopeUserPrivate → TrimSpace (user_ID user) = TrimSpace (user_ID user')).
Proof.
  intros Hs Hs' Hsc Hsc' E%(f_equal chars). revert E. unfold managed_path. cbv zeta.
  assert (∀ T rest, chars ("xworkmate/tenants/" +:+ T +:+ String "/" rest)
    = chars "xworkmate/tenants/" ++ chars T ++ "/"%char :: chars rest) as Hchars.
  { intros T rest. by rewrite !chars_app. }
  destruct Hsc as [->| ->], Hsc' as [->| ->]; 
    rewrite ?(bool_decide_eq_false_2 (XWorkmateProfileScopeTenantShared = XWorkmateProfileScopeUserPrivate)) by done;
    rewrite ?(bool_decide_eq_true_2 (XWorkmateProfileScopeUserPrivate = XWorkmateProfileScopeUserPrivate)) by done.
  all: repeat match goal with |- context [("/users/" +:+ ?t)%string] =>
    change ("/users/" +:+ t)%string with (String "/" ("users/" +:+ t)) end.
  all: change "/shared" with (String "/" "shared"); rewrite !Hchars.
  all: intros [ET Er]%app_inv_head%split_at_first; [|done..].
  - apply chars_inj in ET. done.
  - apply chars_inj in Er. done.
  - apply chars_inj in Er. done.
  - apply chars_inj in ET, Er. injection Er as Er. done.
Qed.

(** ** Normal profiles *)

Definition normal_target (l : XWorkmateSecretLocator) : Prop := ToLower (TrimSpace (loc_Target l)) = loc_Target l.

Lemma normal_target_locator newID l : normal_target (NormalizeXWorkmateSecretLocator newID l).
Proof.
  unfold normal_target, NormalizeXWorkmateSecretLocator. cbn [loc_Target].
  by rewrite TrimSpace_ToLower, TrimSpace_idem, ToLower_idem.
Qed.

Lemma normal_profile_locators newIDs p :
  xp_SecretLocators (NormalizeXWorkmateProfile newIDs p) =
    xp_SecretLocators (with_legacy_locator (trimmed_profile newIDs p)).
Proof. unfold NormalizeXWorkmateProfile. apply with_compatible_path_fields. Qed.

Lemma normal_profile_targets newIDs p :
  Forall normal_target (xp_SecretLocators (NormalizeXWorkmateProfile newIDs p)).
Proof.
  rewrite normal_profile_locators. unfold with_legacy_locator. cbn [trimmed_profile xp_SecretLocators].
  assert (Forall normal_target (xp_SecretLocators (trimmed_profile newIDs p))) as Hall.
  { cbn [trimmed_profile xp_SecretLocators]. apply Forall_lookup. intros i l. rewrite list_lookup_imap.
    destruct (_ !! i); [|done]. intros [= <-]. apply normal_target_locator. }
  destruct (imap _ _) eqn:E; [|done]. destruct (_ && _); [|done]. getset. by constructor.
Qed.

(** ** The first locator of a target *)

Definition first_target (t : string) (ls : list XWorkmateSecretLocator) : option XWorkmateSecretLocator :=
  List.find (λ l, loc_Target l == t) ls.

(** The first locator of [t] points to [path], under the key [t]. *)
Definition points_to (t path : string) (ls : list XWorkmateSecretLocator) : Prop :=
  ∃ l, first_target t ls = Some l ∧ loc_SecretPath l = path ∧ loc_SecretKey l = t.

Lemma put_locator_points l ls : points_to (loc_Target l) (loc_SecretPath l) (put_locator l ls) ∨
  loc_SecretKey l ≠ loc_Target l.
Proof.
  destruct (decide (loc_SecretKey l = loc_Target l)) as [Hk|]; [left|by right]. unfold points_to, first_target.
  induction ls as [|x ls IH]; cbn [put_locator List.find].
  - exists l. by rewrite bool_decide_eq_true_2.
  - destruct (bool_decide_reflect (loc_Target x = loc_Target l)) as [E|E]; cbn [List.find].
    + unfold set_locator. getset. rewrite E, bool_decide_eq_true_2 by done. eexists. split; [done|]. by getset.
    + by rewrite bool_decide_eq_false_2.
Qed.

Lemma put_locator_normal l ls : Forall normal_target ls → normal_target l → Forall normal_target (put_locator l ls).
Proof.
  intros Hall Hl. induction Hall as [|x ls Hx Hall IH]; cbn [put_locator]; [by constructor|].
  destruct (_ == _); constructor; done.
Qed.

Lemma points_to_normal t path newIDs ls : Forall normal_target ls → TrimSpace t = t →
  TrimChar "/"%char (TrimSpace path) = path → points_to t path ls →
  points_to t path (imap (λ i, NormalizeXWorkmateSecretLocator (newIDs i)) ls).
Proof.
  intros Hall Ht Hp (l & Hf & El & Ek). revert newIDs Hf.
  induction Hall as [|x ls Hx Hall IH]; intros newIDs; [done|]. rewrite imap_cons. unfold points_to, first_target.
  cbn [List.find]. rewrite (Hx : loc_Target (NormalizeXWorkmateSecretLocator (newIDs 0%nat) x) = loc_Target x).
  destruct (bool_decide_reflect (loc_Target x = t)) as [E|E].
  - intros [= ->]. eexists. split; [reflexivity|]. unfold NormalizeXWorkmateSecretLocator.
    cbn [loc_SecretPath loc_SecretKey]. by rewrite El, Ek, Hp, Ht.
  - intros Hf. exact (IH (newIDs ∘ S) Hf).
Qed.

Lemma points_to_profile t path newIDs p : Forall normal_target (xp_SecretLocators p) → TrimSpace t = t →
  TrimChar "/"%char (TrimSpace path) = path → points_to t path (xp_SecretLocators p) →
  points_to t path (xp_SecretLocators (NormalizeXWorkmateProfile newIDs p)).
Proof.
  intros Hall Ht Hp Hpt. rewrite normal_profile_locators. unfold with_legacy_locator.
  pose proof (points_to_normal t path newIDs _ Hall Ht Hp Hpt) as Hn. cbn [trimmed_profile xp_SecretLocators].
  destruct (imap _ _) eqn:E; [by destruct Hn as (? & ? & _)|].
  unfold trimmed_profile. cbn [xp_SecretLocators]. by rewrite E.
Qed.

(** The locator that deletion and listing find. *)
Lemma points_to_found t path newID p : points_to t path (xp_SecretLocators p) → ToLower (TrimSpace t) = t →
  TrimSpace t = t → t ≠ "" → TrimSpace path ≠ "" → TrimChar "/"%char (TrimSpace path) = path →
  ∃ l, findStoredXWorkmateSecretLocator newID (Some p) t = Some l ∧ loc_SecretPath l = path ∧ loc_SecretKey l = t ∧
       loc_Target l = t.
Proof.
  intros (l & Hf & El & Ek) Ht Ht' Hne Hpath Hp. unfold findStoredXWorkmateSecretLocator. rewrite Ht.
  assert (List.find (complete_locator t) (xp_SecretLocators p) = Some l) as ->.
  { revert Hf. unfold first_target. induction (xp_SecretLocators p) as [|x ls IH]; [done|]. cbn [List.find].
    unfold complete_locator at 1. destruct (bool_decide_reflect (loc_Target x = t)) as [E|E]; [|done].
    intros [= ->]. rewrite El, Ek, Ht', !bool_decide_eq_false_2 by done. done. }
  eexists. split; [reflexivity|]. unfold NormalizeXWorkmateSecretLocator.
  cbn [loc_SecretPath loc_SecretKey loc_Target]. rewrite El, Ek, Hp, Ht'. split_and!; try done.
  apply List.find_some in Hf as [_ E%bool_decide_eq_true]. by rewrite E.
Qed.

(** ** Entering again *)

Section again.
Context `{URLParser} `{MapOrder} (env : string * string).

Lemma UpsertTenantMembership_again now now' m s x s1 s2 : UpsertTenantMembership now m s = (Ok x, s1) →
  ∃ x' s3, UpsertTenantMembership now' m s2 = (Ok x', s3).
Proof.
  unfold UpsertTenantMembership. cbv zeta. destruct (_ || _); [done|]. intros _.
  destruct (default ∅ (tenantMemberships s2 !! _) !! _); eauto.
Qed.

Lemma EnsureTenantDomain_again newID newID' now now' d s x s1 s2 : EnsureTenantDomain newID now d s = (Ok x, s1) →
  ∃ x' s3, EnsureTenantDomain newID' now' d s2 = (Ok x', s3).
Proof.
  unfold EnsureTenantDomain. cbv zeta. destruct (_ || _); [done|]. intros _.
  destruct (tenantDomains s2 !! _); eauto.
Qed.

Lemma ensureSharedTenantMembership_again now now' user s role s1 s2 :
  ensureSharedTenantMembership now user s = (Ok role, s1) →
  ∃ s3, ensureSharedTenantMembership now' user s2 = (Ok (sharedTenantRole user), s3).
Proof.
  unfold ensureSharedTenantMembership. cbv zeta. destruct (UpsertTenantMembership now _ s) as [[x|e] s'] eqn:E; [|done].
  intros _. destruct (UpsertTenantMembership_again _ now' _ _ _ _ s2 E) as (x' & s3 & ->). eauto.
Qed.

(** The tenant a configured host means is there once it was ensured. *)
Lemma ensureSharedXWorkmateTenant_there grants ids now s s1 : tenants_ok grants s →
  ensureSharedXWorkmateTenant env ids now s = (Ok tt, s1) →
  ∃ t, tenants s1 !! SharedXWorkmateTenantID = Some t ∧ ten_ID t = SharedXWorkmateTenantID ∧
       ten_Edition t = SharedPublicTenantEdition.
Proof.
  intros Hok Hs. destruct (ensureSharedXWorkmateTenant_ok env _ _ _ _ _ _ Hok Hs) as (Hok1 & _).
  assert (is_Some (tenants s1 !! SharedXWorkmateTenantID)) as [t Ht].
  { revert Hs. unfold ensureSharedXWorkmateTenant. cbv zeta. destruct (_ == _); [done|].
    destruct (EnsureTenant _ _ _ s) as [r2 s2] eqn:E.
    destruct (EnsureTenant_shared _ _ _ _ _ _ Hok E) as (_ & _ & _ & _ & Hin & t & -> & _).
    destruct (EnsureTenantDomain _ _ _ s2) as [[d|e] s3] eqn:E3; [|done]. intros [= <-].
    destruct (EnsureTenantDomain_frame _ _ _ _ _ _ E3) as (-> & _). done. }
  destruct (ok_tenant _ _ Hok1 _ _ Ht) as (E1 & _ & E2). exists t. split_and!; try done. by apply E2.
Qed.

Lemma ensureSharedXWorkmateTenant_again grants ids ids' now now' s s1 s2 : tenants_ok grants s → tenants_ok grants s2 →
  ensureSharedXWorkmateTenant env ids now s = (Ok tt, s1) →
  ∃ s3, ensureSharedXWorkmateTenant env ids' now' s2 = (Ok tt, s3).
Proof.
  intros Hok Hok2. unfold ensureSharedXWorkmateTenant. cbv zeta. destruct (_ == _); [done|].
  destruct (EnsureTenant _ _ _ s) as [r3 s3] eqn:E3. destruct (EnsureTenant _ _ _ s2) as [r4 s4] eqn:E4.
  destruct (EnsureTenant_shared _ _ _ _ _ _ Hok E3) as (_ & _ & _ & _ & _ & t3 & -> & ->).
  destruct (EnsureTenant_shared _ _ _ _ _ _ Hok2 E4) as (_ & _ & _ & _ & _ & t4 & -> & ->).
  destruct (EnsureTenantDomain _ _ _ s3) as [[d|e] s5] eqn:E5; [|done]. intros _.
  destruct (EnsureTenantDomain_again _ (ids' "domain" 0%nat) _ now' _ _ _ _ s4 E5) as (d' & s6 & ->). eauto.
Qed.

Lemma resolve_again grants ids ids' now now' host user s access s1 s2 :
  NormalizeHostname host = host → tenants_ok grants s → tenants_ok grants s2 →
  resolveXWorkmateAccess env ids now host user s = (Ok access, s1) →
  tenants s2 = tenants s1 → tenantDomains s2 = tenantDomains s1 → tenantMemberships s2 = tenantMemberships s1 →
  ∃ access' s3, resolveXWorkmateAccess env ids' now' host user s2 = (Ok access', s3) ∧
    ten_ID (ac_Tenant access') = ten_ID (ac_Tenant access) ∧ ac_ProfileScope access' = ac_ProfileScope access ∧
    ac_CanEditIntegrations access' = ac_CanEditIntegrations access.
Proof.
  intros Hhost Hok Hok2. unfold resolveXWorkmateAccess. cbv zeta. rewrite Hhost.
  unfold ResolveTenantByHost. cbv zeta. rewrite Hhost. destruct (IsSharedTenantHost env host) eqn:Hsh.
  - destruct (ensureSharedXWorkmateTenant env ids now s) as [[[]|e] s3] eqn:E3; [|done].
    destruct (ensureSharedXWorkmateTenant_again _ _ ids' _ now' _ _ s2 Hok Hok2 E3) as [s4 E4]. rewrite E4.
    destruct (ensureSharedXWorkmateTenant_there _ _ _ _ _ Hok E3) as (t & Ht & Hid & Hed).
    destruct (ensureSharedXWorkmateTenant_there _ _ _ _ _ Hok2 E4) as (t' & Ht' & Hid' & Hed').
    rewrite Ht, Ht', Hed, Hed', bool_decide_eq_true_2 by done.
    destruct (ensureSharedTenantMembership now user s3) as [[role|e] s5] eqn:E5; [|done]. intros [= <- <-] _ _ _.
    destruct (ensureSharedTenantMembership_again _ now' _ _ _ _ s4 E5) as (s6 & ->).
    destruct (ensureSharedTenantMembership_ok _ _ _ _ _ _
      (proj1 (ensureSharedXWorkmateTenant_ok env _ _ _ _ _ _ Hok E3)) E5) as (_ & _ & _ & _ & ->).
    do 2 eexists. split; [reflexivity|]. cbn. by rewrite Hid, Hid'.
  - intros Hr Et Ed Em. rewrite Et, Ed. revert Hr.
    destruct (tenantDomains s !! host) as [d|] eqn:Hd; [|done].
    destruct (tenants s !! dom_TenantID d) as [t|] eqn:Ht; [|done].
    destruct (bool_decide_reflect (ten_Edition t = SharedPublicTenantEdition)) as [Hed|Hed].
    + destruct (ensureSharedTenantMembership now user s) as [[role|e] s5] eqn:E5; [|done]. intros [= <- <-].
      destruct (ensureSharedTenantMembership_ok _ _ _ _ _ _ Hok E5) as (_ & -> & -> & _ & ->).
      rewrite Hd, Ht, bool_decide_eq_true_2 by done.
      destruct (ensureSharedTenantMembership_again _ now' _ _ _ _ s2 E5) as (s6 & ->).
      do 2 eexists. split; [reflexivity|]. done.
    + destruct (GetTenantMembership (ten_ID t) (user_ID user) s) as [m|e] eqn:Hm; [|done]. intros [= <- <-].
      rewrite Hd, Ht, bool_decide_eq_false_2 by done.
      assert (∃ m', GetTenantMembership (ten_ID t) (user_ID user) s2 = Ok m') as [m' ->].
      { revert Hm. unfold GetTenantMembership. rewrite Em. destruct (tenantMemberships s !! _) as [ms|]; [|done].
        destruct (ms !! _); [|done]. eauto. }
      do 2 eexists. split; [reflexivity|]. done.
Qed.

Lemma resolve_frame ids now host user s r s1 grants : tenants_ok grants s →
  resolveXWorkmateAccess env ids now host user s = (r, s1) →
  match r with Ok access => scoped access | Err _ => True end.
Proof.
  intros Hok Hr. destruct (resolveXWorkmateAccess_ok env _ _ _ _ _ _ _ _ Hok Hr) as (_ & _ & Hs).
  destruct r as [access|]; [|done]. destruct Hs as [(_ & _ & Hs & _)|(_ & _ & Hs & _)]; [by left|by right].
Qed.

Context {V : Type} `{VaultService V}.

Lemma enter_again grants ids ids' now now' accounts userID headers (w w1 w2 : workspace V) user access :
  NormalizeHostname (resolveTenantHost headers) = resolveTenantHost headers →
  tenants_ok grants (ws_tables w) → tenants_ok grants (ws_tables w2) →
  enter env ids now accounts userID headers w = (Ok (user, access), w1) →
  tenants (ws_tables w2) = tenants (ws_tables w1) → tenantDomains (ws_tables w2) = tenantDomains (ws_tables w1) →
  tenantMemberships (ws_tables w2) = tenantMemberships (ws_tables w1) →
  ∃ access' w3, enter env ids' now' accounts userID headers w2 = (Ok (user, access'), w3) ∧
    ten_ID (ac_Tenant access') = ten_ID (ac_Tenant access) ∧ ac_ProfileScope access' = ac_ProfileScope access ∧
    ac_CanEditIntegrations access' = ac_CanEditIntegrations access.
Proof.
  intros Hhost Hok Hok2. unfold enter, authorised.
  destruct (currentAuthenticatedUser accounts userID) as [u|e]; [|done].
  destruct (resolveXWorkmateAccess env ids now _ u (ws_tables w)) as [[a|e] s] eqn:E; [|done].
  intros [= -> -> <-]. getset. intros Et Ed Em.
  destruct (resolve_again _ _ ids' _ now' _ _ _ _ _ (ws_tables w2) Hhost Hok Hok2 E Et Ed Em) as (a' & s3 & -> & ? & ? & ?).
  eauto 10.
Qed.
End again.

(** ** Storing a secret *)

Definition new_profile (access : xworkmateAccessContext) (user : User) : XWorkmateProfile :=
  mkXWorkmateProfile "" (ten_ID (ac_Tenant access)) (resolvedXWorkmateProfileUserID access user)
    (ac_ProfileScope access) "" "" "" "" "" "" [] "" 0 0.

Definition workspace_profile_key (access : xworkmateAccessContext) (user : User) : string :=
  tenantProfileKey (ten_ID (ac_Tenant access)) (resolvedXWorkmateProfileUserID access user) (ac_ProfileScope access).

Section secrets.
Context `{URLParser} `{MapOrder} {V : Type} `{VaultService V} (env : string * string).

(** The course of an accepted [putXWorkmateSecret]. *)
Lemma put_inv ids now accounts userID headers target value (w w' : workspace V) st scope tokens :
  putXWorkmateSecret env ids now accounts userID headers target value w = (SecretShown st scope tokens, w') →
  ∃ v v' user access w1 m val loaded l q s',
    ws_vault w = Some v ∧ enter env ids now accounts userID headers w = (Ok (user, access), w1) ∧
    ac_CanEditIntegrations access = true ∧ isReadOnlyAccount user = false ∧
    findXWorkmateManagedTarget (ToLower (TrimSpace target)) = Some m ∧ value = Some val ∧ TrimSpace val ≠ "" ∧
    loadXWorkmateProfile ids access user (ws_tables w1) = Ok loaded ∧
    buildManagedXWorkmateSecretLocator access (resolvedXWorkmateProfileUserID access user)
      (ToLower (TrimSpace target)) = Ok l ∧
    WriteSecret l val v = (Ok tt, v') ∧
    UpsertXWorkmateProfile (ids "save") (ids "profile" 0%nat) now
      (upsertXWorkmateSecretLocator (ids "locator" 0%nat) (ids "upsert") (default (new_profile access user) loaded) l)
      (ws_tables w1) = (Ok q, s') ∧
    ws_vault w' = Some v' ∧ ws_tables w' = s' ∧ ss_Locator st = l ∧ ss_Configured st = true.
Proof.
  unfold putXWorkmateSecret. cbv zeta. destruct (ws_vault w) as [v|] eqn:Hv; [|done].
  destruct (enter _ _ _ _ _ _ _) as [[[user access]|e] w1] eqn:He; [|done].
  destruct (may_edit _ _ _) eqn:Hm; [done|].
  destruct (findXWorkmateManagedTarget _) as [m|] eqn:Hf; [|done].
  destruct value as [val|]; [|done]. destruct (bool_decide_reflect (TrimSpace val = "")) as [|Hval]; [done|].
  destruct (loadXWorkmateProfile _ _ _ _) as [loaded|] eqn:Hl; [|done].
  destruct (buildManagedXWorkmateSecretLocator _ _ _) as [l|] eqn:Hb; [|done].
  destruct (WriteSecret l val v) as [[[]|e] v'] eqn:Hw; [|done]. getset. fold (new_profile access user).
  destruct (UpsertXWorkmateProfile _ _ _ _ _) as [[q|e] s'] eqn:Hu; [|done]. intros [= <- <- <- <-].
  unfold may_edit in Hm. destruct (ac_CanEditIntegrations access) eqn:Hedit; [|done].
  destruct (isReadOnlyAccount user) eqn:Hro; [done|].
  exists v, v', user, access, w1, m, val, loaded, l, q, s'. getset. split_and!; done.
Qed.

(** A loaded profile is filed under the key of the access it was loaded for. *)
Lemma loaded_profile_key grants ids access user s p : tenants_ok grants s → scoped access → plain_id (user_ID user) →
  loadXWorkmateProfile ids access user s = Ok (Some p) →
  tenantProfileKey (xp_TenantID p) (profile_account p) (xp_Scope p) = workspace_profile_key access user ∧
  Forall normal_target (xp_SecretLocators p).
Proof.
  intros Hok Hsc Hu. unfold loadXWorkmateProfile, GetXWorkmateProfile. cbv zeta.
  assert (∀ newIDs p0 k, xworkmateProfiles s !! k = Some p0 →
    tenantProfileKey (xp_TenantID (NormalizeXWorkmateProfile newIDs p0))
      (profile_account (NormalizeXWorkmateProfile newIDs p0)) (xp_Scope (NormalizeXWorkmateProfile newIDs p0)) = k)
    as Hkey.
  { intros newIDs p0 k [-> Hacc]%(ok_profile _ _ Hok). unfold profile_account.
    destruct (normal_profile_fields newIDs p0) as (-> & -> & ->). rewrite scope_idem.
    destruct (bool_decide_reflect (NormalizeXWorkmateProfileScope (xp_Scope p0) = XWorkmateProfileScopeTenantShared))
      as [E|E]; [|apply tenantProfileKey_trimmed].
    rewrite (Hacc E). apply (tenantProfileKey_trimmed (xp_TenantID p0) "" (xp_Scope p0)). }
  fold (workspace_profile_key access user).
  destruct (xworkmateProfiles s !! workspace_profile_key access user) as [p0|] eqn:E.
  { intros [= <-]. split; [by apply Hkey|]. apply normal_profile_targets. }
  destruct (bool_decide_reflect (ac_ProfileScope access = XWorkmateProfileScopeTenantShared)) as [Esc|]; [|done].
  cbn [negb]. destruct (xworkmateProfiles s !! tenantProfileKey _ _ _) as [p1|] eqn:E1; [|done].
  exfalso. destruct (ok_profile _ _ Hok _ _ E1) as [Ek Hacc]. rewrite Esc in Ek.
  assert (NormalizeXWorkmateProfileScope (xp_Scope p1) = XWorkmateProfileScopeTenantShared) as Escope.
  { apply (f_equal chars) in Ek. revert Ek. unfold tenantProfileKey, NormalizeXWorkmateProfileScope at 2 3.
    destruct (ToLower (TrimSpace (xp_Scope p1)) == _); [done|].
    change (NormalizeXWorkmateProfileScope XWorkmateProfileScopeTenantShared) with ("tenant-share" +:+ "d")%string.
    change XWorkmateProfileScopeUserPrivate with ("user-privat" +:+ "e")%string.
    rewrite !chars_app, !app_assoc. intros Ek%(f_equal last).
    change (chars "d") with ["d"%char] in Ek. change (chars "e") with ["e"%char] in Ek.
    by rewrite !last_snoc in Ek. }
  rewrite (Hacc Escope) in Ek. unfold tenantProfileKey in Ek. rewrite Escope in Ek.
  apply (f_equal chars) in Ek. rewrite !chars_app in Ek.
  change (NormalizeXWorkmateProfileScope XWorkmateProfileScopeTenantShared)
    with XWorkmateProfileScopeTenantShared in Ek.
  change (chars (TrimSpace "")) with (@nil ascii) in Ek. cbn [app] in Ek.
  rewrite !app_assoc in Ek. apply app_inv_tail in Ek. rewrite <- !app_assoc in Ek.
  change (chars "|" ++ chars "|") with (["|"%char] ++ ["|"%char]) in Ek. rewrite !app_assoc in Ek.
  apply app_inj_tail in Ek as [Ek _].
  destruct Hu as (Hne & _ & Hpipe). rewrite TrimSpace_idem in Ek.
  assert ("|"%char ∉ chars (TrimSpace (user_ID user))) as Hp by (intros ?%TrimSpace_chars; done).
  destruct (chars (TrimSpace (user_ID user))) as [|c l] eqn:Ec using rev_ind.
  { apply Hne. by apply chars_inj. }
  apply (f_equal last) in Ek. rewrite !app_assoc, !last_snoc in Ek. set_solver.
Qed.

Lemma upserted_key newID newIDs p l :
  tenantProfileKey (xp_TenantID (upsertXWorkmateSecretLocator newID newIDs p l))
    (profile_account (upsertXWorkmateSecretLocator newID newIDs p l))
    (xp_Scope (upsertXWorkmateSecretLocator newID newIDs p l)) =
  tenantProfileKey (xp_TenantID p) (profile_account p) (xp_Scope p).
Proof.
  unfold upsertXWorkmateSecretLocator, profile_account. cbv zeta.
  match goal with |- context [NormalizeXWorkmateProfile newIDs ?q] =>
    destruct (normal_profile_fields newIDs q) as (-> & -> & ->) end. getset. rewrite scope_idem.
  destruct (_ == _); [|apply tenantProfileKey_trimmed].
  apply (tenantProfileKey_trimmed (xp_TenantID p) "" (xp_Scope p)).
Qed.

Lemma base_profile_key grants ids access user s loaded : tenants_ok grants s → scoped access →
  plain_id (user_ID user) → loadXWorkmateProfile ids access user s = Ok loaded →
  tenantProfileKey (xp_TenantID (default (new_profile access user) loaded))
    (profile_account (default (new_profile access user) loaded))
    (xp_Scope (default (new_profile access user) loaded)) = workspace_profile_key access user ∧
  Forall normal_target (xp_SecretLocators (default (new_profile access user) loaded)).
Proof.
  intros Hok Hsc Hu Hl. destruct loaded as [p|]; [by apply (loaded_profile_key _ _ _ _ _ _ Hok Hsc Hu Hl)|].
  split; [|constructor]. unfold workspace_profile_key, profile_account, resolvedXWorkmateProfileUserID.
  cbn [default new_profile xp_TenantID xp_UserID xp_Scope]. unfold resolvedXWorkmateProfileUserID.
  by destruct Hsc as [->| ->].
Qed.

(** The workspace an accepted [putXWorkmateSecret] leaves. *)
Lemma put_effect grants ids now accounts userID headers target value (w w' : workspace V) st scope tokens :
  tenants_ok grants (ws_tables w) →
  (∀ user, currentAuthenticatedUser accounts userID = Ok user → plain_id (user_ID user)) →
  putXWorkmateSecret env ids now accounts userID headers target value w = (SecretShown st scope tokens, w') →
  ∃ v v' user access w1 m val l stored,
    ws_vault w = Some v ∧ enter env ids now accounts userID headers w = (Ok (user, access), w1) ∧
    ac_CanEditIntegrations access = true ∧ isReadOnlyAccount user = false ∧ plain_id (user_ID user) ∧ scoped access ∧
    findXWorkmateManagedTarget target = Some m ∧ mt_Target m = ToLower (TrimSpace target) ∧
    value = Some val ∧ WriteSecret l val v = (Ok tt, v') ∧
    loc_SecretPath l = managed_path access user ∧ loc_SecretKey l = mt_Target m ∧ loc_Target l = mt_Target m ∧
    ws_vault w' = Some v' ∧
    ws_tables w' = (ws_tables w1) <| xworkmateProfiles :=
      <[workspace_profile_key access user := stored]> (xworkmateProfiles (ws_tables w1)) |> ∧
    Forall normal_target (xp_SecretLocators stored) ∧
    points_to (mt_Target m) (managed_path access user) (xp_SecretLocators stored).
Proof.
  intros Hok Hplain Hput.
  destruct (put_inv _ _ _ _ _ _ _ _ _ _ _ _ Hput) as (v & v' & user & access & w1 & m & val & loaded & l & q & s' &
    Hv & He & Hedit & Hro & Hm & -> & Hval & Hl & Hb & Hw & Hup & Hv' & Hs' & Hst & Hcfg).
  destruct (enter_ok env _ _ _ _ _ _ _ _ _ Hok He) as (Hok1 & Ep & _ & _ & Hcu & Hsound).
  assert (scoped access) as Hsc.
  { destruct Hsound as [(_ & _ & Hs & _)|(_ & _ & Hs & _)]; [by left|by right]. }
  pose proof (Hplain _ Hcu) as Hu.
  destruct (managed_target _ _ Hm) as (Et & Htrim & Hlow & Hne & _ & _).
  rewrite TrimSpace_ToLower, TrimSpace_idem, ToLower_idem in Et.
  destruct (managed_locator access user _ _ Hm Hu Hsc) as (l' & Hb' & El & Ek & Etgt).
  rewrite Hb in Hb'. injection Hb' as <-.
  destruct (base_profile_key _ _ _ _ _ _ Hok1 Hsc Hu Hl) as [Hkey Hnormal].
  destruct (UpsertXWorkmateProfile_filed _ _ _ _ _ _ _ Hup) as (stored & Es & Hlocs & _).
  rewrite upserted_key, Hkey in Es.
  destruct (managed_path_stable access user Hu) as (P1 & P2 & P3).
  assert (TrimChar "/"%char (TrimSpace (managed_path access user)) = managed_path access user) as P by by rewrite P1.
  exists v, v', user, access, w1, m, val, l, stored.
  assert (Forall normal_target (xp_SecretLocators stored) ∧
    points_to (mt_Target m) (managed_path access user) (xp_SecretLocators stored)) as [F1 F2].
  { rewrite Hlocs. split; [apply normal_profile_targets|].
    apply points_to_profile; [apply normal_profile_targets|done..|].
    unfold upsertXWorkmateSecretLocator. cbv zeta. apply points_to_profile; [|done..|]; getset.
    - apply put_locator_normal; [done|]. apply normal_target_locator.
    - destruct (put_locator_points (NormalizeXWorkmateSecretLocator (ids "locator" 0%nat) l)
        (xp_SecretLocators (default (new_profile access user) loaded))) as [Hp|Hp].
      + revert Hp. unfold NormalizeXWorkmateSecretLocator at 1 2. cbn [loc_Target loc_SecretPath].
        by rewrite El, Etgt, P, Htrim, Hlow.
      + exfalso. apply Hp. cbn [NormalizeXWorkmateSecretLocator loc_Target loc_SecretKey]. by rewrite Ek, Etgt, Htrim, Hlow. }
  assert (findXWorkmateManagedTarget target = Some m).
  { revert Hm. unfold findXWorkmateManagedTarget. by rewrite TrimSpace_ToLower, TrimSpace_idem, ToLower_idem. }
  split_and!; try done. by rewrite Hs'.
Qed.
End secrets.

(** C13: a secret is stored only by an account that was let into the workspace,
    may edit it and is not read-only.  Of the vault it changes one cell: that of
    the target, on the path of the workspace, or of the account in a private
    workspace; of the profiles it changes that of the workspace (or account).
    Different workspaces and accounts have different paths. *)
Theorem secret_put_confined `{URLParser} `{MapOrder} {V : Type} `{VaultLaws V} (env : string * string) grants
    (w w' : workspace V) ids now accounts userID headers target value st scope tokens :
  reachable env grants w →
  (∀ user, currentAuthenticatedUser accounts userID = Ok user → plain_id (user_ID user)) →
  putXWorkmateSecret env ids now accounts userID headers target value w = (SecretShown st scope tokens, w') →
  ∃ user access w1 v v' val,
    enter env ids now accounts userID headers w = (Ok (user, access), w1) ∧ access_sound grants user access ∧
    ac_CanEditIntegrations access = true ∧ isReadOnlyAccount user = false ∧
    value = Some val ∧ ws_vault w = Some v ∧ ws_vault w' = Some v' ∧
    (addressable (managed_path access user) → ∀ p k, secret_at v' p k =
       if (p == managed_path access user) && (k == ToLower (TrimSpace target)) then Some val else secret_at v p k) ∧
    (∀ k, k ≠ workspace_profile_key access user →
       xworkmateProfiles (ws_tables w') !! k = xworkmateProfiles (ws_tables w) !! k) ∧
    (∀ access' user', "/"%char ∉ chars (ten_ID (ac_Tenant access)) → "/"%char ∉ chars (ten_ID (ac_Tenant access')) →
       scoped access' → managed_path access' user' = managed_path access user →
       ten_ID (ac_Tenant access') = ten_ID (ac_Tenant access) ∧ ac_ProfileScope access' = ac_ProfileScope access ∧
       (ac_ProfileScope access' = XWorkmateProfileScopeUserPrivate →
        TrimSpace (user_ID user') = TrimSpace (user_ID user))).
Proof.
  intros Hok%reachable_ok Hplain Hput.
  destruct (put_effect _ _ _ _ _ _ _ _ _ _ _ _ _ _ Hok Hplain Hput) as (v & v' & user & access & w1 & m & val & l &
    stored & Hv & He & Hedit & Hro & Hu & Hsc & Hm & Et & Hval & Hw & El & Ek & Etgt & Hv' & Hs & _ & _).
  destruct (enter_ok env _ _ _ _ _ _ _ _ _ Hok He) as (_ & Ep & _ & _ & _ & Hsound).
  exists user, access, w1, v, v', val. split_and!; try done.
  - intros Ha. destruct (managed_target _ _ Hm) as (_ & Htrim & _ & Hne & _).
    destruct (vault_locator_managed access user l (mt_Target m) Hu El Ek Htrim Hne) as (E1 & E2 & _).
    rewrite <- E1 in Ha. pose proof (proj2 (WriteSecret_law _ _ _ _ Hw Ha)) as Hlaw.
    rewrite E1, E2, Et in Hlaw. exact Hlaw.
  - intros k Hk. rewrite Hs. getset. by rewrite lookup_insert_ne, Ep.
  - intros access' user' Hs1 Hs2 Hsc' Hpath. by apply managed_path_inj.
Qed.

(** ** Listing and deleting, on the in-memory vault *)

Section listing.
Context `{URLParser} `{MapOrder} (env : string * string).

Definition located (ids : string → nat → string) (access : xworkmateAccessContext) (user : User)
    (profile : option XWorkmateProfile) (m : xworkmateManagedSecretTarget) : result error XWorkmateSecretLocator :=
  match findStoredXWorkmateSecretLocator (ids "find" 0%nat) profile (mt_Target m) with
  | Some locator => Ok locator
  | None => buildManagedXWorkmateSecretLocator access (resolvedXWorkmateProfileUserID access user) (mt_Target m)
  end.

Lemma located_ok ids access user profile m : plain_id (user_ID user) → scoped access →
  m ∈ xworkmateManagedSecretTargets → ∃ l, located ids access user profile m = Ok l.
Proof.
  intros Hu Hsc Hm. unfold located. destruct (findStoredXWorkmateSecretLocator _ _ _); [eauto|].
  assert (findXWorkmateManagedTarget (mt_Target m) = Some m) as Hf.
  { unfold xworkmateManagedSecretTargets in Hm. set_unfold in Hm. destruct Hm as [->|[->|[->|[->|[]]]]]; reflexivity. }
  destruct (managed_locator access user _ _ Hf Hu Hsc) as (l & -> & _). eauto.
Qed.

(** The listing shows every managed target, with what the vault holds. *)
Lemma describe_listed ids access user profile (v : memoryXWorkmateVaultService) :
  plain_id (user_ID user) → scoped access →
  ∃ secrets status, describeXWorkmateSecrets ids access user profile (Some v) = (Ok (secrets, status), Some v) ∧
    ∀ m l, m ∈ xworkmateManagedSecretTargets → located ids access user profile m = Ok l →
      ∃ b, memory_HasSecret l v = (Ok b, v) ∧ buildXWorkmateSecretStatusPayload l b ∈ secrets.
Proof.
  intros Hu Hsc. unfold describeXWorkmateSecrets. assert (∀ targets, targets ⊆ xworkmateManagedSecretTargets →
    ∃ secrets status, describe_targets ids access (resolvedXWorkmateProfileUserID access user) profile targets (Some v)
      = (Ok (secrets, status), Some v) ∧
    ∀ m l, m ∈ targets → located ids access user profile m = Ok l →
      ∃ b, memory_HasSecret l v = (Ok b, v) ∧ buildXWorkmateSecretStatusPayload l b ∈ secrets) as Hall; [|by apply Hall].
  induction targets as [|m targets IH]; intros Hsub.
  { exists [], ∅. split; [done|]. by intros m l ?%elem_of_nil. }
  destruct IH as (secrets & status & Hd & Hin); [set_solver|].
  destruct (located_ok ids access user profile m Hu Hsc) as [l Hl]; [set_solver|].
  destruct (memory_HasSecret_ok l v) as [b Hb].
  exists (buildXWorkmateSecretStatusPayload l b :: secrets), (<[mt_Target m := b]> status). split.
  - cbn [describe_targets]. fold (located ids access user profile m). rewrite Hl. cbn [HasSecret memory_vault].
    rewrite Hb, Hd. done.
  - intros m' l' [->|Hm]%elem_of_cons Hl'; [|destruct (Hin _ _ Hm Hl') as (b' & ? & ?); exists b'; set_solver].
    rewrite Hl in Hl'. injection Hl' as <-. exists b. set_solver.
Qed.

(** A workspace in which the account was let in before, and whose profile
    points to [path] for the target [t]. *)
Definition settled grants accounts userID headers user access t stored (w : workspace memoryXWorkmateVaultService)
    : Prop :=
  tenants_ok grants (ws_tables w) ∧
  (∃ (w0 w1 : workspace memoryXWorkmateVaultService) ids now access0, tenants_ok grants (ws_tables w0) ∧
     enter env ids now accounts userID headers w0 = (Ok (user, access0), w1) ∧
     ten_ID (ac_Tenant access0) = ten_ID (ac_Tenant access) ∧ ac_ProfileScope access0 = ac_ProfileScope access ∧
     ac_CanEditIntegrations access0 = ac_CanEditIntegrations access ∧
     tenants (ws_tables w) = tenants (ws_tables w1) ∧ tenantDomains (ws_tables w) = tenantDomains (ws_tables w1) ∧
     tenantMemberships (ws_tables w) = tenantMemberships (ws_tables w1)) ∧
  xworkmateProfiles (ws_tables w) !! workspace_profile_key access user = Some stored ∧
  Forall normal_target (xp_SecretLocators stored) ∧
  points_to t (managed_path access user) (xp_SecretLocators stored).

Lemma same_access access access' user : ten_ID (ac_Tenant access') = ten_ID (ac_Tenant access) →
  ac_ProfileScope access' = ac_ProfileScope access →
  workspace_profile_key access' user = workspace_profile_key access user ∧
  managed_path access' user = managed_path access user.
Proof.
  intros E1 E2. unfold workspace_profile_key, managed_path, resolvedXWorkmateProfileUserID. by rewrite E1, E2.
Qed.

(** Coming back: let in again, the profile is loaded and leads to the secret. *)
Lemma settled_enter grants accounts userID headers user access t m stored
    (w : workspace memoryXWorkmateVaultService) ids now :
  NormalizeHostname (resolveTenantHost headers) = resolveTenantHost headers →
  plain_id (user_ID user) → scoped access → m ∈ xworkmateManagedSecretTargets → mt_Target m = t →
  settled grants accounts userID headers user access t stored w →
  ∃ access' w1 p l, enter env ids now accounts userID headers w = (Ok (user, access'), w1) ∧
    ten_ID (ac_Tenant access') = ten_ID (ac_Tenant access) ∧ ac_ProfileScope access' = ac_ProfileScope access ∧
    ac_CanEditIntegrations access' = ac_CanEditIntegrations access ∧
    settled grants accounts userID headers user access t stored w1 ∧ ws_vault w1 = ws_vault w ∧
    loadXWorkmateProfile ids access' user (ws_tables w1) = Ok (Some p) ∧
    located ids access' user (Some p) m = Ok l ∧
    findStoredXWorkmateSecretLocator (ids "find" 0%nat) (Some p) t = Some l ∧
    loc_SecretPath (vault_locator l) = managed_path access user ∧ loc_SecretKey (vault_locator l) = t ∧
    incomplete (vault_locator l) = false ∧ loc_Target l = t.
Proof.
  intros Hhost Hu Hsc Hm Et (Hok & (w0 & w1 & ids0 & now0 & access0 & Hok0 & He & A1 & A2 & A3 & T1 & T2 & T3) & Hp & Hn & Hpt).
  destruct (enter_again env _ _ ids _ now _ _ _ _ _ w _ _ Hhost Hok0 Hok He T1 T2 T3) as (access' & w2 & He2 & B1 & B2 & B3).
  destruct (enter_ok env _ _ _ _ _ _ _ _ _ Hok He2) as (Hok2 & Ep & Ev & _).
  destruct (same_access access access' user) as [Ekey Epath]; [congruence..|].
  assert (findXWorkmateManagedTarget t = Some m) as Hf.
  { subst t. unfold xworkmateManagedSecretTargets in Hm. set_unfold in Hm.
    destruct Hm as [->|[->|[->|[->|[]]]]]; reflexivity. }
  destruct (managed_target _ _ Hf) as (Elow & Htrim & _ & Hne & _). rewrite Et in *.
  destruct (managed_path_stable access user Hu) as (P1 & P2 & P3).
  assert (TrimChar "/"%char (TrimSpace (managed_path access user)) = managed_path access user) as P by by rewrite P1.
  set (p := NormalizeXWorkmateProfile (ids "load") stored).
  assert (points_to t (managed_path access user) (xp_SecretLocators p)) as Hpt' by by apply points_to_profile.
  destruct (points_to_found t (managed_path access user) (ids "find" 0%nat) p Hpt')
    as (l & Hl & L1 & L2 & L3); [done..|by rewrite P1|done|].
  destruct (vault_locator_managed access user l t Hu L1 L2 Htrim Hne) as (V1 & V2 & V3).
  exists access', w2, p, l. split_and!; try done; try congruence.
  - split_and!; try done; [|by rewrite Ep].
    exists w, w2, ids, now, access'. split_and!; try done; congruence.
  - unfold loadXWorkmateProfile, GetXWorkmateProfile. cbv zeta. fold (workspace_profile_key access' user).
    by rewrite Ep, Ekey, Hp.
  - unfold located. by rewrite Et, Hl.
Qed.

(** A listing shows the secret exactly when the vault holds it. *)
Lemma settled_listed grants accounts userID headers user access t m stored
    (w : workspace memoryXWorkmateVaultService) v ids now :
  NormalizeHostname (resolveTenantHost headers) = resolveTenantHost headers →
  plain_id (user_ID user) → scoped access → m ∈ xworkmateManagedSecretTargets → mt_Target m = t →
  settled grants accounts userID headers user access t stored w → ws_vault w = Some v →
  ∃ access' secrets tokens st w', getXWorkmateSecrets env ids now accounts userID headers w =
      (SecretsShown access' secrets tokens, w') ∧ st ∈ secrets ∧ loc_Target (ss_Locator st) = t ∧
    ss_Configured st = bool_decide (is_Some (memory_at v (managed_path access user) t)) ∧
    loc_SecretPath (vault_locator (ss_Locator st)) = managed_path access user ∧
    loc_SecretKey (vault_locator (ss_Locator st)) = t ∧ incomplete (vault_locator (ss_Locator st)) = false.
Proof.
  intros Hhost Hu Hsc Hm Et Hset Hv.
  destruct (settled_enter _ _ _ _ _ _ _ _ _ _ ids now Hhost Hu Hsc Hm Et Hset)
    as (access' & w1 & p & l & He & A1 & A2 & _ & _ & Ev & Hload & Hl & _ & V1 & V2 & V3 & V4).
  assert (scoped access') as Hsc' by (unfold scoped in *; by rewrite A2).
  destruct (describe_listed ids access' user (Some p) v Hu Hsc') as (secrets & status & Hd & Hin).
  destruct (Hin m l Hm Hl) as (b & Hb & Hst).
  exists access', secrets, (buildXWorkmateTokenConfiguredWithVaultStatus (Some p) status),
    (buildXWorkmateSecretStatusPayload l b), (w1 <| ws_vault := Some v |>).
  split_and!; try done.
  - unfold getXWorkmateSecrets. rewrite Hv, He, Hload, Ev, Hv, Hd. done.
  - cbn [buildXWorkmateSecretStatusPayload ss_Configured]. destruct (HasSecret_memory _ _ _ _ Hb I) as [-> _].
    by rewrite V1, V2, V3.
Qed.

(** A deletion empties the cell, and the workspace stays settled. *)
Lemma settled_deleted grants accounts userID headers user access t m stored target
    (w : workspace memoryXWorkmateVaultService) v ids now :
  NormalizeHostname (resolveTenantHost headers) = resolveTenantHost headers →
  plain_id (user_ID user) → scoped access → m ∈ xworkmateManagedSecretTargets → mt_Target m = t →
  ToLower (TrimSpace target) = t → ac_CanEditIntegrations access = true → isReadOnlyAccount user = false →
  settled grants accounts userID headers user access t stored w → ws_vault w = Some v →
  ∃ st scope tokens v' w', deleteXWorkmateSecret env ids now accounts userID headers target w =
      (SecretShown st scope tokens, w') ∧ ss_Configured st = false ∧
    settled grants accounts userID headers user access t stored w' ∧ ws_vault w' = Some v' ∧
    ∀ q k, memory_at v' q k = if (q == managed_path access user) && (k == t) then None else memory_at v q k.
Proof.
  intros Hhost Hu Hsc Hm Et Etarget Hedit Hro Hset Hv.
  destruct (settled_enter _ _ _ _ _ _ _ _ _ _ ids now Hhost Hu Hsc Hm Et Hset)
    as (access' & w1 & p & l & He & A1 & A2 & A3 & Hset1 & Ev & Hload & Hl & Hfind & V1 & V2 & V3 & V4).
  assert (scoped access') as Hsc' by (unfold scoped in *; by rewrite A2).
  assert (findXWorkmateManagedTarget t = Some m) as Hf.
  { subst t. unfold xworkmateManagedSecretTargets in Hm. set_unfold in Hm.
    destruct Hm as [->|[->|[->|[->|[]]]]]; reflexivity. }
  destruct (memory_DeleteSecret_ok l v) as [v' Hdel].
  destruct (describe_listed ids access' user (Some p) v' Hu Hsc') as (secrets & status & Hd & _).
  exists (buildXWorkmateSecretStatusPayload l false), (ac_ProfileScope access'),
    (buildXWorkmateTokenConfiguredWithVaultStatus (Some p) status), v', (w1 <| ws_vault := Some v' |>).
  split_and!; try done.
  - unfold deleteXWorkmateSecret. cbv zeta. rewrite Hv, He. unfold may_edit. rewrite A3, Hedit, Hro. cbn [negb].
    rewrite Etarget, Hf, Hload, Hfind. cbn [DeleteSecret memory_vault]. rewrite Hdel, Hd. done.
  - intros q k. rewrite (DeleteSecret_memory _ _ _ Hdel I), V1, V2, V3. done.
Qed.
End listing.

(** C15: a stored secret is listed as configured and reads back as it was
    written; once deleted it is listed as missing.  On the in-memory vault, for
    every account with a plain identifier, whatever the workspace held before. *)
Theorem secret_put_listed_deleted `{URLParser} `{MapOrder} (env : string * string) grants
    (w w1 : workspace memoryXWorkmateVaultService) ids now accounts userID headers target value st scope tokens :
  reachable env grants w →
  NormalizeHostname (resolveTenantHost headers) = resolveTenantHost headers →
  (∀ user, currentAuthenticatedUser accounts userID = Ok user → plain_id (user_ID user)) →
  putXWorkmateSecret env ids now accounts userID headers target value w = (SecretShown st scope tokens, w1) →
  ∃ v1 val, ws_vault w1 = Some v1 ∧ value = Some val ∧
    (∀ ids' now', ∃ access secrets tokens' st' w2,
       getXWorkmateSecrets env ids' now' accounts userID headers w1 = (SecretsShown access secrets tokens', w2) ∧
       st' ∈ secrets ∧ loc_Target (ss_Locator st') = ToLower (TrimSpace target) ∧ ss_Configured st' = true ∧
       memory_ReadSecret (ss_Locator st') v1 = (Ok val, v1)) ∧
    (∀ ids' now', ∃ st' scope' tokens' w2,
       deleteXWorkmateSecret env ids' now' accounts userID headers target w1 = (SecretShown st' scope' tokens', w2) ∧
       ss_Configured st' = false ∧
       ∀ ids'' now'', ∃ access secrets tokens'' st'' w3,
         getXWorkmateSecrets env ids'' now'' accounts userID headers w2 = (SecretsShown access secrets tokens'', w3) ∧
         st'' ∈ secrets ∧ loc_Target (ss_Locator st'') = ToLower (TrimSpace target) ∧ ss_Configured st'' = false).
Proof.
  intros Hr Hhost Hplain Hput. pose proof (reachable_ok env _ _ Hr) as Hok.
  pose proof (putXWorkmateSecret_ok env grants ids now accounts userID headers target value w Hok) as Hok1.
  rewrite Hput in Hok1. cbn [snd] in Hok1.
  destruct (put_effect env _ _ _ _ _ _ _ _ _ _ _ _ _ Hok Hplain Hput) as (v & v1 & user & access & w0 & m & val & l &
    stored & Hv & He & Hedit & Hro & Hu & Hsc & Hm & Et & Hval & Hw & El & Ek & Etgt & Hv1 & Hs & Hn & Hpt).
  destruct (managed_target _ _ Hm) as (_ & Htrim & _ & Hne & Hin & _).
  destruct (vault_locator_managed access user l (mt_Target m) Hu El Ek Htrim Hne) as (E1 & E2 & _).
  destruct (WriteSecret_memory _ _ _ _ Hw I) as [_ Hat]. rewrite E1, E2 in Hat.
  assert (settled env grants accounts userID headers user access (mt_Target m) stored w1) as Hset.
  { split_and!; try done.
    - exists w, w0, ids, now, access. rewrite Hs. getset. by split_and!.
    - rewrite Hs. getset. by rewrite lookup_insert_eq. }
  rewrite <- Et. exists v1, val. split_and!; try done.
  - intros ids' now'. destruct (settled_listed env _ _ _ _ _ _ _ _ _ w1 v1 ids' now' Hhost Hu Hsc Hin eq_refl Hset Hv1)
      as (access' & secrets & tokens' & st' & w2 & Hget & Hst & Htg & Hcfg & V1 & V2 & V3).
    exists access', secrets, tokens', st', w2. split_and!; try done.
    + rewrite Hcfg. apply bool_decide_eq_true_2. by rewrite Hat, !bool_decide_eq_true_2.
    + apply memory_ReadSecret_ok; [done|]. by rewrite V1, V2, Hat, !bool_decide_eq_true_2.
  - intros ids' now'. destruct (settled_deleted env _ _ _ _ _ _ _ _ _ target w1 v1 ids' now' Hhost Hu Hsc Hin eq_refl
      (eq_sym Et) Hedit Hro Hset Hv1) as (st' & scope' & tokens' & v2 & w2 & Hdel & Hc & Hset2 & Hv2 & Hat2).
    exists st', scope', tokens', w2. split_and!; try done. intros ids'' now''.
    destruct (settled_listed env _ _ _ _ _ _ _ _ _ w2 v2 ids'' now'' Hhost Hu Hsc Hin eq_refl Hset2 Hv2)
      as (access' & secrets & tokens'' & st'' & w3 & Hget & Hst & Htg & Hcfg & _).
    exists access', secrets, tokens'', st'', w3. split_and!; try done.
    rewrite Hcfg. apply bool_decide_eq_false_2. rewrite Hat2, !bool_decide_eq_true_2 by done. by apply is_Some_None.
Qed.
