(* ===== verification/Login.v ===== *)
(** * Authentication: state, tables and sessions

    The parts of [api/api.go] and [api/account_lifecycle.go] that the sign-in
    handlers share: the tables of pending codes and MFA challenges the process
    keeps, the attempt budgets, the session operations and the payloads shown.

    A handler runs in the monad [Act]: it reads and changes the state of the
    process and either goes on or stops with its answer.  What a request brings
    and what the process draws while serving it (clock, random bytes, generated
    identifiers, the outcome of the mail delivery) is a [request]; the clock
    does not move during one request.  bcrypt and TOTP are third-party
    packages: they are the methods of [AuthLibrary]. *)

From S2P Require Import Prelude GoLib Calendar Json StoreData Users Referral Quota Access Sha256 Recovery RateLimit Entitlements Tenants Vault.
From Stdlib Require Import Ascii.
Open Scope Z_scope.
Open Scope bool_scope.
Open Scope go_scope.

(** ** Constants *)

Definition defaultSessionTTL : duration := 24 * Hour.
Definition defaultMFAChallengeTTL : duration := 10 * Minute.
Definition defaultTOTPIssuer : string := "XWorkmate".
Definition defaultEmailVerificationTTL : duration := 10 * Minute.
Definition defaultPasswordResetTTL : duration := 30 * Minute.
Definition maxMFAVerificationAttempts : Z := 5.
Definition defaultMFALockoutDuration : duration := 5 * Minute.
Definition maxEmailVerificationAttempts : Z := 5.
Definition emailVerificationLockoutDuration : duration := 5 * Minute.
Definition defaultOAuthExchangeCodeTTL : duration := 5 * Minute.
Definition passwordRecoveryCodeCooldown : duration := Minute.

(** ** Data *)

Record mfaChallenge := mkMFAChallenge {
  mc_userID : string;
  mc_expiresAt : time;
  mc_totpSecret : string;
  mc_totpIssuer : string;
  mc_totpAccount : string;
  mc_totpIssuedAt : time;
  mc_failedAttempts : Z;
  mc_lockedUntil : time
}.
#[export] Instance eta_mfaChallenge : Eta mfaChallenge := λ x, mkMFAChallenge (mc_userID x)
   (mc_expiresAt x) (mc_totpSecret x) (mc_totpIssuer x) (mc_totpAccount x)
   (mc_totpIssuedAt x) (mc_failedAttempts x) (mc_lockedUntil x).

Record emailVerification := mkEmailVerification {
  ev_userID : string;
  ev_email : string;
  ev_code : string;
  ev_expiresAt : time;
  ev_failedAttempts : Z;
  ev_lockedUntil : time
}.
#[export] Instance eta_emailVerification : Eta emailVerification := λ x, mkEmailVerification
   (ev_userID x) (ev_email x) (ev_code x) (ev_expiresAt x) (ev_failedAttempts x)
   (ev_lockedUntil x).

Record accountReactivationCode := mkReactivationCode {
  ar_userID : string;
  ar_email : string;
  ar_code : string;
  ar_expiresAt : time;
  ar_failedAttempts : Z;
  ar_lockedUntil : time
}.
#[export] Instance eta_accountReactivationCode : Eta accountReactivationCode := λ x,
  mkReactivationCode (ar_userID x) (ar_email x) (ar_code x) (ar_expiresAt x)
   (ar_failedAttempts x) (ar_lockedUntil x).

Record registrationVerification := mkRegistrationVerification {
  rv_email : string;
  rv_code : string;
  rv_expiresAt : time;
  rv_verified : bool;
  rv_failedAttempts : Z;
  rv_lockedUntil : time
}.
#[export] Instance eta_registrationVerification : Eta registrationVerification := λ x,
  mkRegistrationVerification (rv_email x) (rv_code x) (rv_expiresAt x) (rv_verified x)
   (rv_failedAttempts x) (rv_lockedUntil x).

(** The pairs of limiters, one by source address and one by key. *)
Inductive budget :=
| RegistrationProbe
| PasswordRecoveryBudget
| PasswordRecoveryConfirm
| MFARecoveryBudget
| LoginAttempts.
#[export] Instance budget_eq : EqDecision budget.
Proof. solve_decision. Defined.

(** The part of [handler] that changes while requests are served. *)
Record authState := mkAuthState {
  au_store : memoryStore;
  mfaChallenges : gmap string mfaChallenge;
  verifications : gmap string emailVerification;
  registrationVerifications : gmap string registrationVerification;
  reactivationCodes : gmap string accountReactivationCode;
  au_limits : budget → RateLimiter * RateLimiter
}.
#[export] Instance eta_authState : Eta authState := λ x, mkAuthState (au_store x)
   (mfaChallenges x) (verifications x) (registrationVerifications x)
   (reactivationCodes x) (au_limits x).

(** The limiters of [RegisterRoutes]. *)
Definition defaultLimits (b : budget) : RateLimiter * RateLimiter :=
  match b with
  | RegistrationProbe => (NewRateLimiter 20 Hour, NewRateLimiter 5 Hour)
  | PasswordRecoveryBudget => (NewRateLimiter 20 Hour, NewRateLimiter 5 Hour)
  | PasswordRecoveryConfirm => (NewRateLimiter 30 (5 * Minute), NewRateLimiter 10 (15 * Minute))
  | MFARecoveryBudget => (NewRateLimiter 20 (15 * Minute), NewRateLimiter 20 (15 * Minute))
  | LoginAttempts => (NewRateLimiter 30 (5 * Minute), NewRateLimiter 10 (5 * Minute))
  end.

Definition initialAuth (s : memoryStore) : authState := mkAuthState s ∅ ∅ ∅ ∅ defaultLimits.

(** The part that does not. *)
Record authConfig := mkAuthConfig {
  sessionTTL : duration;
  mfaChallengeTTL : duration;
  totpIssuer : string;
  emailVerificationEnabled : bool;
  registrationMode : string;
  verificationTTL : duration;
  resetTTL : duration;
  oauthExchangeTTL : duration
}.

Inductive mailOutcome := Delivered | TimedOut | NotDelivered.
#[export] Instance mailOutcome_eq : EqDecision mailOutcome.
Proof. solve_decision. Defined.

(** The transport of a request and what is drawn while it is served: [rq_rand
    i] is the [i]-th read of 32 random bytes, [rq_code] the random number of a
    code, [rq_ids i] the [i]-th [uuid.NewString()], [rq_v7 i] the [i]-th
    [uuid.NewV7()], [rq_salt i] the salt of the [i]-th bcrypt hash.  The
    permission matrix is kept in the database: [rq_settings] is what
    [service.GetAdminSettings] returns, [None] for an error. *)
Record request := mkRequest {
  rq_now : time;
  rq_method : string;
  rq_cfIP : string;
  rq_peerIP : string;
  rq_queryKeys : list string;
  rq_authorization : string;
  rq_queryToken : string;
  rq_cookie : option string;
  rq_rand : nat → result error (list Z);
  rq_code : result error Z;
  rq_ids : nat → string;
  rq_v7 : nat → result error string;
  rq_salt : nat → string;
  rq_mail : mailOutcome;
  rq_settings : option (gmap string (gmap string bool))
}.

(** golang.org/x/crypto/bcrypt (the salt is drawn by the library) and
    github.com/pquerna/otp/totp. *)
Class AuthLibrary := {
  bcrypt_Generate : string → string → result error string;
  bcrypt_Compare : string → string → bool;
  totp_Validate : string → string → time → result error bool
}.

(** ** What is shown of an account *)

Record mfaState := mkMFAState {
  ms_totpEnabled : bool;
  ms_totpPending : bool;
  ms_issuedAt : option time;
  ms_confirmedAt : option time;
  ms_lockedUntil : option time
}.

Definition unless_zero (t : time) : option time := if IsZero t then None else Some (UTC t).

Definition buildMFAState (now : time) (user : User) (challenge : option mfaChallenge) : mfaState :=
  let pending := (TrimSpace (user_MFATOTPSecret user) != "") && negb (user_MFAEnabled user) in
  let issuedAt := user_MFASecretIssuedAt user in
  let '(pending, issuedAt) :=
    match challenge with
    | Some ch =>
        if user_MFAEnabled user then (pending, issuedAt) else
        ((TrimSpace (mc_totpSecret ch) != "") || pending,
         if IsZero issuedAt && negb (IsZero (mc_totpIssuedAt ch)) then mc_totpIssuedAt ch else issuedAt)
    | None => (pending, issuedAt)
    end in
  mkMFAState (user_MFAEnabled user) pending (unless_zero issuedAt)
    (unless_zero (user_MFAConfirmedAt user))
    (match challenge with
     | Some ch => if negb (IsZero (mc_lockedUntil ch)) && Before now (mc_lockedUntil ch)
                  then Some (UTC (mc_lockedUntil ch)) else None
     | None => None
     end).

(** [computeServiceReadiness]: the first unmet requirement, none when ready. *)
Definition service_requirements (user : User) : list (string * bool) :=
  [("email", user_EmailVerified user); ("password", TrimSpace (user_PasswordHash user) != "");
   ("mfa", user_MFAEnabled user)].
Definition computeServiceReadiness (user : User) : bool * string * list (string * bool) :=
  let reqs := service_requirements user in
  (forallb snd reqs,
   match List.find (λ r, negb r.2) reqs with Some r => r.1 | None => "" end,
   reqs).

Record sanitizedUser := mkSanitizedUser {
  su_id : string;
  su_name : string;
  su_email : string;
  su_emailVerified : bool;
  su_active : bool;
  su_passwordSet : bool;
  su_mfaEnabled : bool;
  su_mfa : mfaState;
  su_readiness : bool * string * list (string * bool);
  su_role : string;
  su_groups : list string;
  su_permissions : list string;
  su_proxyUuid : string;
  su_proxyUuidExpiresAt : option time;
  su_validFrom : option string;
  su_validUntil : option string;
  su_lastActiveAt : option time;
  su_archivedAt : option time
}.

(** [Format("2006-01-02")]: the first ten characters of the RFC 3339 form, for
    years of four digits. *)
Definition subscriptionDateString (value : option time) : option string :=
  (λ t, String.substring 0 10 (FormatRFC3339 (UTC t))) <$> value.

Definition sanitizeUser (now : time) (user : User) (challenge : option mfaChallenge) : sanitizedUser :=
  mkSanitizedUser (TrimSpace (user_ID user)) (user_Name user) (user_Email user)
    (user_EmailVerified user) (user_Active user) (TrimSpace (user_PasswordHash user) != "")
    (user_MFAEnabled user) (buildMFAState now user challenge) (computeServiceReadiness user)
    (user_Role user) (WithoutAgentFreeGrantGroups (user_Groups user)) (user_Permissions user)
    (TrimSpace (user_ProxyUUID user)) (user_ProxyUUIDExpiresAt user)
    (subscriptionDateString (user_SubscriptionValidFrom user))
    (subscriptionDateString (user_SubscriptionValidUntil user))
    (user_LastActiveAt user) (user_ArchivedAt user).

(** ** Answers

    [Refused] is [respondError]; the payloads that only repeat a value in
    another form ([access_token], [expires_in]) are left out. *)
Inductive reply :=
| Refused (r : response)
| VerificationLocked (retryAt : time)
| ChallengeLocked (retryAt : time) (mfaToken : string)
| Archived
| Answered (status : Z) (message : string)
| Registered (user : sanitizedUser)
| SignedIn (message token : string) (expiresAt : time) (user : sanitizedUser) (mfaToken : option string)
| MFARequired (ticket : string)
| Provisioned (secret url issuer account token : string) (mfa : mfaState) (user : sanitizedUser)
| StatusShown (enabled : bool) (mfa : option mfaState) (user : option sanitizedUser)
| UserShown (message : string) (user : sanitizedUser)
| ReadinessShown (message : string) (readiness : bool * string * list (string * bool))
| CodesIssued (codes : list string) (expiresAt : time)
| CodesShown (count : Z) (expiresAt : option time)
| RedirectTo (url : string).

(** ** The monad of the handlers *)

Definition Act (A : Type) : Type := authState → result reply A * authState.
#[export] Instance Act_ret : MRet Act := λ A a st, (Ok a, st).
#[export] Instance Act_bind : MBind Act := λ A B f m st,
  match m st with (Ok a, st) => f a st | (Err r, st) => (Err r, st) end.

Definition stop {A} (r : reply) : Act A := λ st, (Err r, st).
Definition refuse {A} (status : Z) (code : string) : Act A := stop (Refused (status, code)).
Definition guard_not (b : bool) (status : Z) (code : string) : Act () :=
  if b then refuse status code else mret tt.
Definition look {A} (f : authState → A) : Act A := λ st, (Ok (f st), st).
Definition look_store {A} (f : memoryStore → A) : Act A := λ st, (Ok (f (au_store st)), st).
(** A store operation, its result handed to the handler. *)
Definition on_store {A} (op : memoryStore → A * memoryStore) : Act A := λ st,
  let '(a, s) := op (au_store st) in (Ok a, st <| au_store := s |>).
Definition change (f : authState → authState) : Act () := λ st, (Ok tt, f st).
(** [if err := ...; err != nil { respondError(...) }] *)
Definition or_refuse {A} (r : result error A) (status : Z) (code : string) : Act A :=
  match r with Ok a => mret a | Err _ => refuse status code end.
Definition bound {A} (body : option A) : Act A :=
  match body with Some a => mret a | None => refuse 400 "invalid_request" end.
(** The answer of a whole handler. *)
Definition serve (h : Act reply) (st : authState) : reply * authState :=
  match h st with (Ok r, st) => (r, st) | (Err r, st) => (r, st) end.

(** ** Pieces of a request *)

Section pieces.
Context `{MapOrder} `{AuthLibrary} (cfg : authConfig) (rq : request).
Local Abbreviation now := (rq_now rq).

Definition hasQueryParameter (keys : list string) : bool :=
  existsb (λ key, contains (rq_queryKeys rq) key) keys.

Definition clientIP : string :=
  let ip := TrimSpace (rq_cfIP rq) in if ip != "" then ip else rq_peerIP rq.

(** Both limiters are consulted, whatever the first answers. *)
Definition allowAuthProbe (b : budget) (key : string) : Act () := λ st,
  let '(byIP, byKey) := au_limits st b in
  let '(ipAllowed, byIP) := Allow now clientIP byIP in
  let '(keyAllowed, byKey) := Allow now key byKey in
  let st := st <| au_limits := λ b', if decide (b' = b) then (byIP, byKey) else au_limits st b' |> in
  if ipAllowed && keyAllowed then (Ok tt, st) else (Err (Refused (429, "rate_limited")), st).

Definition extractToken (header : string) : string :=
  if header == "" then "" else TrimSpace (TrimPrefix header "Bearer ").

(** The Authorization header, the query, the cookie. *)
Definition presentedToken : string :=
  let token := extractToken (rq_authorization rq) in
  let token := if (token == "") && (rq_queryToken rq != "") then rq_queryToken rq else token in
  if token == "" then
    match rq_cookie rq with
    | Some cookie => let cookie := TrimSpace cookie in if cookie != "" then cookie else token
    | None => token
    end
  else token.
Definition resolveSessionToken : string := TrimSpace presentedToken.

(** ** Random values *)

Definition newRandomToken (i : nat) : result error string :=
  match rq_rand rq i with Ok buffer => Ok (hex buffer) | Err e => Err e end.
Definition newVerificationCode : result error string :=
  match rq_code rq with Ok n => Ok (pad 6 n) | Err e => Err e end.
Definition passwordResetTokenHash (token : string) : string := sha256_hex (TrimSpace token).
Definition verifyTOTPCode (secret code : string) (at_ : time) : bool :=
  match totp_Validate code secret at_ with Ok valid => valid | Err _ => false end.

(** ** Sessions *)

Definition positive_or (ttl dflt : duration) : duration := if ttl <=? 0 then dflt else ttl.

(** [i] is the random read that becomes the token. *)
Definition createSession (i : nat) (userID : string) (factorFingerprint : option string)
    : Act (result error (string * time)) :=
  match newRandomToken i with
  | Err e => mret (Err e)
  | Ok token =>
      let expiresAt := Add now (positive_or (sessionTTL cfg) defaultSessionTTL) in
      r ← on_store (λ s, match factorFingerprint with
                         | Some fingerprint => CreateMFASession token userID fingerprint expiresAt s
                         | None => CreateSession token userID expiresAt s
                         end);
      mret (match r with Ok _ => Ok (token, expiresAt) | Err e => Err e end)
  end.

(** [createSession] followed by the answer of a failure. *)
Definition new_session (i : nat) (userID : string) (factorFingerprint : option string)
    : Act (string * time) :=
  r ← createSession i userID factorFingerprint;
  or_refuse r 500 "session_creation_failed".

Definition lookupSession (token : string) (s : memoryStore) : option (string * time) :=
  match GetSession now token s with Ok sess => Some sess | Err _ => None end.

Definition removeSession (token : string) : Act () :=
  _ ← on_store (DeleteSession token); mret tt.

Definition rejectIfBillingSuspended (userID : string) : Act () :=
  quota ← on_store (GetAccountQuotaState now userID);
  match quota with
  | Err e => if e == ErrUserNotFound then mret tt else refuse 503 "billing_state_unavailable"
  | Ok q => guard_not (quota_SuspendState q == "suspended") 403 "account_suspended"
  end.

(** [h.store.UpdateUser]: the error and the caller's struct after the call. *)
Definition update_account (i : nat) (user : User) : Act (result error unit * User) :=
  on_store (λ s, let '(r, user, s) := UpdateUser (rq_v7 rq i) now user s in ((r, user), s)).

(** The quota row with another proxy state, made when there is none. *)
Definition set_proxy_state (userID state : string) : Act (result error unit) :=
  existing ← on_store (GetAccountQuotaState now userID);
  let q := match existing with
           | Ok q => q
           | Err _ => (emptyQuota userID) <| quota_ThrottleState := "normal" |>
                        <| quota_SuspendState := "active" |>
           end in
  on_store (UpsertAccountQuotaState now (Some (q <| quota_ProxyAccessState := state |>))).

Definition touchUserActivity (user : User) : Act User :=
  if negb (user_Active user) then mret user else
  if match user_LastActiveAt user with
     | Some t => Sub now (UTC t) <? 24 * Hour
     | None => false
     end then mret user else
  '(_, user) ← update_account 0 (user <| user_LastActiveAt := Some now |>);
  mret user.

Definition requireAuthenticatedUser : Act User :=
  let token := presentedToken in
  _ ← guard_not (token == "") 401 "session_token_required";
  sess ← look_store (lookupSession token);
  match sess with
  | None => refuse 401 "invalid_session"
  | Some (userID, _) =>
      found ← look_store (λ s, GetUserByID s userID);
      user ← or_refuse found 500 "session_user_lookup_failed";
      _ ← rejectIfBillingSuspended (user_ID user);
      _ ← guard_not (negb (user_Active user)) 403 "account_suspended";
      touchUserActivity user
  end.

(** ** OAuth exchange codes *)

Definition issueOAuthExchangeCode (i : nat) (sessionToken : string) (sessionExpiresAt : time)
    : Act (result error (string * time)) :=
  match newRandomToken i with
  | Err e => mret (Err e)
  | Ok code =>
      let expiresAt := Add now (positive_or (oauthExchangeTTL cfg) defaultOAuthExchangeCodeTTL) in
      let expiresAt := if negb (IsZero sessionExpiresAt) && Before sessionExpiresAt expiresAt
                       then sessionExpiresAt else expiresAt in
      r ← on_store (CreateOAuthExchangeCode code sessionToken sessionExpiresAt expiresAt);
      mret (match r with Ok _ => Ok (code, expiresAt) | Err e => Err e end)
  end.

(** ** MFA challenges *)

Definition effectiveMFAChallengeTTL : duration := positive_or (mfaChallengeTTL cfg) defaultMFAChallengeTTL.

(** [None] is a nil update, which only reads; an update that gives [None] has
    returned false. *)
Definition updateMFAChallenge (token : string) (update : option (mfaChallenge → option mfaChallenge))
    : Act (option mfaChallenge) := λ st,
  let drop := (Ok None, st <| mfaChallenges := delete token (mfaChallenges st) |>) in
  match mfaChallenges st !! token with
  | None => (Ok None, st)
  | Some challenge =>
      if After now (mc_expiresAt challenge) then drop else
      match update with
      | None => (Ok (Some challenge), st)
      | Some f =>
          match f challenge with
          | None => drop
          | Some challenge =>
              (Ok (Some challenge), st <| mfaChallenges := <[token := challenge]> (mfaChallenges st) |>)
          end
      end
  end.

Definition createMFAChallenge (i : nat) (userID : string) : Act (result error string) :=
  match newRandomToken i with
  | Err e => mret (Err e)
  | Ok token =>
      let challenge := mkMFAChallenge userID (Add now effectiveMFAChallengeTTL) "" "" "" 0 0 0 in
      _ ← change (λ st, st <| mfaChallenges := <[token := challenge]> (mfaChallenges st) |>);
      mret (Ok token)
  end.

Definition lookupMFAChallenge (token : string) : Act (option mfaChallenge) := updateMFAChallenge token None.

Definition refreshMFAChallenge (token : string) : Act (option mfaChallenge) :=
  updateMFAChallenge token (Some (λ ch, Some (ch <| mc_expiresAt := Add now effectiveMFAChallengeTTL |>))).

Definition removeMFAChallenge (token : string) : Act () :=
  change (λ st, st <| mfaChallenges := delete token (mfaChallenges st) |>).

Definition removeMFAChallengesForUser (userID : string) : Act () :=
  if userID == "" then mret tt else
  change (λ st, st <| mfaChallenges := filter (λ kv, mc_userID kv.2 ≠ userID) (mfaChallenges st) |>).

(** ** Email verification codes *)

Definition normal_email (email : string) : string := ToLower (TrimSpace email).

Definition removeEmailVerification (email : string) : Act () :=
  change (λ st, st <| verifications := delete (normal_email email) (verifications st) |>).

Definition lookupEmailVerification (email : string) : Act (option emailVerification) :=
  let email := normal_email email in
  if email == "" then mret None else
  entry ← look (λ st, verifications st !! email);
  match entry with
  | None => mret None
  | Some verification =>
      if After now (ev_expiresAt verification)
      then _ ← removeEmailVerification email; mret None
      else mret (Some verification)
  end.

(** One more wrong code: the fifth starts a lockout and a new count. *)
Definition count_failure (verification : emailVerification) : emailVerification :=
  let n := ev_failedAttempts verification + 1 in
  if maxEmailVerificationAttempts <=? n
  then verification <| ev_failedAttempts := 0 |>
                    <| ev_lockedUntil := Add now emailVerificationLockoutDuration |>
  else verification <| ev_failedAttempts := n |>.

(** The zero time when there is nothing to lock. *)
Definition recordEmailVerificationFailure (email : string) : Act time :=
  let email := normal_email email in
  if email == "" then mret 0 else
  entry ← look (λ st, verifications st !! email);
  match entry with
  | None => mret 0
  | Some verification =>
      if Before now (ev_lockedUntil verification) then mret (ev_lockedUntil verification) else
      let verification := count_failure verification in
      _ ← change (λ st, st <| verifications := <[email := verification]> (verifications st) |>);
      mret (ev_lockedUntil verification)
  end.

(** An unexpired code is sent again, with its count and its lock. *)
Definition enqueueEmailVerification (user : User) : Act mailOutcome :=
  let email := TrimSpace (user_Email user) in
  if email == "" then mret NotDelivered else
  let normalizedEmail := ToLower email in
  entry ← look (λ st, verifications st !! normalizedEmail);
  if match entry with Some existing => Before now (ev_expiresAt existing) | None => false end
  then mret (rq_mail rq) else
  match newVerificationCode with
  | Err _ => mret NotDelivered
  | Ok code =>
      let expiresAt := Add now (positive_or (verificationTTL cfg) defaultEmailVerificationTTL) in
      _ ← change (λ st, st <| verifications :=
        <[normalizedEmail := mkEmailVerification (user_ID user) normalizedEmail code expiresAt 0 0]>
          (verifications st) |>);
      mret (rq_mail rq)
  end.

(** ** Registration codes *)

Definition removeRegistrationVerification (email : string) : Act () :=
  change (λ st, st <| registrationVerifications :=
    delete (normal_email email) (registrationVerifications st) |>).

Definition lookupRegistrationVerification (email : string) : Act (option registrationVerification) :=
  let email := normal_email email in
  if email == "" then mret None else
  entry ← look (λ st, registrationVerifications st !! email);
  match entry with
  | None => mret None
  | Some verification =>
      if After now (rv_expiresAt verification)
      then _ ← removeRegistrationVerification email; mret None
      else mret (Some verification)
  end.

Definition count_registration_failure (verification : registrationVerification) : registrationVerification :=
  let n := rv_failedAttempts verification + 1 in
  if maxEmailVerificationAttempts <=? n
  then verification <| rv_failedAttempts := 0 |>
                    <| rv_lockedUntil := Add now emailVerificationLockoutDuration |>
  else verification <| rv_failedAttempts := n |>.

Definition recordRegistrationVerificationFailure (email : string) : Act time :=
  let email := normal_email email in
  if email == "" then mret 0 else
  entry ← look (λ st, registrationVerifications st !! email);
  match entry with
  | None => mret 0
  | Some verification =>
      if Before now (rv_lockedUntil verification) then mret (rv_lockedUntil verification) else
      let verification := count_registration_failure verification in
      _ ← change (λ st, st <| registrationVerifications :=
                   <[email := verification]> (registrationVerifications st) |>);
      mret (rv_lockedUntil verification)
  end.

Definition issueRegistrationVerification (email : string) : Act mailOutcome :=
  let normalized := normal_email email in
  if normalized == "" then mret NotDelivered else
  entry ← look (λ st, registrationVerifications st !! normalized);
  if match entry with Some existing => Before now (rv_expiresAt existing) | None => false end
  then mret (rq_mail rq) else
  match newVerificationCode with
  | Err _ => mret NotDelivered
  | Ok code =>
      let expiresAt := Add now (positive_or (verificationTTL cfg) defaultEmailVerificationTTL) in
      _ ← change (λ st, st <| registrationVerifications :=
        <[normalized := mkRegistrationVerification normalized code expiresAt false 0 0]>
          (registrationVerifications st) |>);
      mret (rq_mail rq)
  end.

Definition markRegistrationVerified (email : string) : Act bool :=
  let email := normal_email email in
  if email == "" then mret false else
  entry ← look (λ st, registrationVerifications st !! email);
  match entry with
  | None => mret false
  | Some verification =>
      if After now (rv_expiresAt verification) then
        _ ← change (λ st, st <| registrationVerifications :=
                     delete email (registrationVerifications st) |>);
        mret false
      else
        _ ← change (λ st, st <| registrationVerifications :=
                     <[email := verification <| rv_verified := true |>]> (registrationVerifications st) |>);
        mret true
  end.

(** ** Password recovery by mail *)

Definition enqueuePasswordReset (user : User) : Act (option error) :=
  let email := TrimSpace (user_Email user) in
  if email == "" then mret (Some (ErrMsg "user email is empty")) else
  match newRandomToken 0 with
  | Err e => mret (Some e)
  | Ok token =>
      let expiresAt := Add now (positive_or (resetTTL cfg) defaultPasswordResetTTL) in
      let challenge := mkPasswordRecoveryChallenge (rq_ids rq 0) (user_ID user) (ToLower email)
        "token" (passwordResetTokenHash token) expiresAt 0 0 now 0 0 in
      r ← on_store (CreatePasswordRecoveryChallenge (Some challenge));
      match r with
      | Err e => mret (Some e)
      | Ok _ =>
          match rq_mail rq with
          | Delivered => mret None
          | _ =>
              _ ← on_store (InvalidatePasswordRecoveryChallenge (prc_ID challenge) now);
              mret (Some (ErrMsg "mail"))
          end
      end
  end.

Definition enqueuePasswordResetCode (user : User) : Act (option error) :=
  match newVerificationCode with
  | Err e => mret (Some e)
  | Ok code =>
      let expiresAt := Add now (positive_or (resetTTL cfg) defaultPasswordResetTTL) in
      let email := normal_email (user_Email user) in
      match bcrypt_Generate (rq_salt rq 0) code with
      | Err e => mret (Some e)
      | Ok codeHash =>
          let challenge := mkPasswordRecoveryChallenge (rq_ids rq 0) (user_ID user) email
            "code" codeHash expiresAt 0 0 now 0 0 in
          r ← on_store (CreatePasswordRecoveryCodeChallenge (Some challenge) passwordRecoveryCodeCooldown);
          match r with
          | Err e => mret (Some e)
          | Ok _ =>
              match rq_mail rq with
              | Delivered => mret None
              | _ =>
                  _ ← on_store (InvalidatePasswordRecoveryChallenge (prc_ID challenge) now);
                  mret (Some (ErrMsg "mail"))
              end
          end
      end
  end.

(** ** Reactivation codes *)

Definition removeReactivationCode (email : string) : Act () :=
  change (λ st, st <| reactivationCodes := delete (normal_email email) (reactivationCodes st) |>).

Definition enqueueReactivationCode (user : User) : Act bool :=
  match newVerificationCode with
  | Err _ => mret false
  | Ok code =>
      let expiresAt := Add now (positive_or (resetTTL cfg) defaultPasswordResetTTL) in
      let email := normal_email (user_Email user) in
      _ ← change (λ st, st <| reactivationCodes :=
        <[email := mkReactivationCode (user_ID user) email code expiresAt 0 0]> (reactivationCodes st) |>);
      match rq_mail rq with
      | Delivered => mret true
      | _ => _ ← removeReactivationCode email; mret false
      end
  end.

Definition recordReactivationCodeFailure (email : string) : Act time :=
  let email := normal_email email in
  stored ← look (λ st, reactivationCodes st !! email);
  match stored with
  | None => mret 0
  | Some entry =>
      let n := ar_failedAttempts entry + 1 in
      let entry := if maxMFAVerificationAttempts <=? n
                   then entry <| ar_lockedUntil := Add now defaultMFALockoutDuration |>
                              <| ar_failedAttempts := 0 |>
                   else entry <| ar_failedAttempts := n |> in
      _ ← change (λ st, st <| reactivationCodes := <[email := entry]> (reactivationCodes st) |>);
      mret (ar_lockedUntil entry)
  end.

Definition findUserByIdentifier (identifier : string) (s : memoryStore) : result error User :=
  match GetUserByName s identifier with
  | Ok user => Ok user
  | Err e => if e == ErrUserNotFound then GetUserByEmail s identifier else Err e
  end.
End pieces.
