(* ===== verification/AdminAccess.v ===== *)
(** * Administrator access

    [requireAdminPermission] of [api/admin_users_metrics.go]: which session may
    call an administrator endpoint. *)

From S2P Require Import Prelude GoLib StoreData Users Access Login.
Open Scope Z_scope.
Open Scope bool_scope.
Open Scope go_scope.

Definition permissionXConnectZeroRead : string := "xconnect.zero.read".
Definition permissionXConnectZeroManage : string := "xconnect.zero.manage".
Definition permissionAdminSettingsRead : string := "admin.settings.read".
Definition permissionAdminSettingsWrite : string := "admin.settings.write".
Definition permissionAdminUsersMetrics : string := "admin.users.metrics.read".
Definition permissionAdminBillingLedger : string := "admin.billing.ledger.read".
Definition permissionAdminUsersListRead : string := "admin.users.list.read".
Definition permissionAdminAgentsStatus : string := "admin.agents.status.read".
Definition permissionAdminAgentsGrantsWrite : string := "admin.agents.grants.write".
Definition permissionAdminUsersPause : string := "admin.users.pause.write".
Definition permissionAdminUsersResume : string := "admin.users.resume.write".
Definition permissionAdminUsersActivate : string := "admin.users.activate.write".
Definition permissionAdminUsersDeactivate : string := "admin.users.deactivate.write".
Definition permissionAdminUsersDelete : string := "admin.users.delete.write".
Definition permissionAdminUsersRenewUUID : string := "admin.users.renew_uuid.write".
Definition permissionAdminUsersRoleWrite : string := "admin.users.role.write".
Definition permissionAdminBlacklistRead : string := "admin.blacklist.read".
Definition permissionAdminBlacklistWrite : string := "admin.blacklist.write".
Definition permissionAdminBillingMoneyWrite : string := "admin.billing.money.write".

(** [defaultOperatorPermissions]; a permission that is not listed is denied. *)
Definition defaultOperatorPermissions : list string :=
  [permissionXConnectZeroRead; permissionAdminSettingsRead; permissionAdminUsersMetrics;
   permissionAdminBillingLedger; permissionAdminUsersListRead; permissionAdminAgentsStatus;
   permissionAdminUsersPause; permissionAdminUsersResume; permissionAdminUsersActivate;
   permissionAdminUsersRenewUUID; permissionAdminBlacklistRead; permissionAdminBlacklistWrite].

Definition operatorPermissionAllowed (settings : option (gmap string (gmap string bool)))
    (permission : string) : bool :=
  let defaultAllowed := contains defaultOperatorPermissions permission in
  match settings with
  | None => defaultAllowed
  | Some matrix =>
      match matrix !! permission with
      | None => defaultAllowed
      | Some module_ => default defaultAllowed (module_ !! RoleOperator)
      end
  end.

Definition hasPermission (permissions : list string) (target : string) : bool :=
  let target := TrimSpace target in
  if target == "" then false else
  existsb (λ permission, let normalized := TrimSpace permission in
             (normalized == "*") || EqualFold normalized target) permissions.

Section access.
Context `{MapOrder} (rq : request).

(** The role decides once the session is that of an active account. *)
Definition check_role (permission : string) (user : User) : Act User :=
  if IsRootRole (user_Role user) then mret user else
  if EqualFold (TrimSpace (user_Role user)) RoleAdmin then mret user else
  if IsOperatorRole (user_Role user) then
    _ ← guard_not ((permission != "") && negb (hasPermission (user_Permissions user) permission) &&
                   negb (operatorPermissionAllowed (rq_settings rq) permission)) 403 "forbidden";
    mret user
  else if EqualFold (TrimSpace (user_Role user)) RoleReadOnly then
    _ ← guard_not ((rq_method rq != "GET") && (rq_method rq != "HEAD")) 403 "read_only_account";
    _ ← guard_not ((permission == "") || negb (hasPermission (user_Permissions user) permission))
          403 "forbidden";
    mret user
  else refuse 403 "forbidden".

Definition requireAdminPermission (permission : string) : Act User :=
  let token := resolveSessionToken rq in
  _ ← guard_not (token == "") 401 "session_token_required";
  sess ← look_store (lookupSession rq token);
  match sess with
  | None => refuse 401 "invalid_session"
  | Some (userID, _) =>
      found ← look_store (λ s, GetUserByID s userID);
      user ← or_refuse found 500 "session_user_lookup_failed";
      _ ← guard_not (negb (user_Active user)) 403 "account_suspended";
      _ ← guard_not (isReadOnlyAccount user && (rq_method rq != "GET")) 403 "read_only_account";
      check_role permission user
  end.
End access.
