(* ===== verification/LoginHandlers.v ===== *)
(** * Authentication: the handlers

    Registration, email verification, sign-in with a password, a second factor
    or an OAuth provider, password recovery, MFA set-up and recovery, and the
    end of a session: [api/api.go], [api/account_lifecycle.go],
    [api/password_self_service.go], [api/service_readiness.go],
    [api/mfa_reset.go] and [api/mfa_recovery_codes.go].

    A handler takes the decoded body, [None] when [ShouldBindJSON] fails.  The
    database is absent ([h.db == nil]), so that [enrollEmailOnboarding] does
    nothing.  [serve_call] dispatches a call to its handler. *)

From S2P Require Import Prelude GoLib Calendar Json StoreData Users Referral Quota Access Sha256 Recovery RateLimit Entitlements Tenants Vault Workspace Login.
From Stdlib Require Import Ascii.
Open Scope Z_scope.
Open Scope bool_scope.
Open Scope go_scope.

(** ** Request bodies *)

Record registerRequest := mkRegisterRequest {
  reg_Name : string; reg_Email : string; reg_Password : string; reg_Code : string;
  reg_ReferralCode : string
}.
Record loginRequest := mkLoginRequest {
  log_Identifier : string; log_Account : string; log_Username : string; log_Email : string;
  log_Password : string; log_TOTPCode : string
}.
Record verifyMFARequest := mkVerifyMFARequest {
  vm_MFATicket : string; vm_MFAToken : string; vm_Code : string; vm_TOTPCode : string;
  vm_Method : string
}.

(** [profile] of an OAuth provider, and the provider's two calls. *)
Record OAuthProfile := mkOAuthProfile {
  op_ID : string; op_Email : string; op_Name : string; op_Verified : bool
}.
Record OAuthProvider := mkOAuthProvider {
  oauth_Exchange : string → result error string;
  oauth_FetchProfile : string → result error OAuthProfile
}.

Definition first_non_empty (l : list string) : string :=
  match List.find (λ s, s != "") l with Some s => s | None => "" end.

Definition all_digits (s : string) : bool :=
  forallb (λ c, (48 <=? Z.of_N (N_of_ascii c)) && (Z.of_N (N_of_ascii c) <=? 57)) (string_chars s).

Definition validReferralCodeFormat (code : string) : bool :=
  (8 <=? len code) && (len code <=? 16) &&
  forallb (λ c, let n := Z.of_N (N_of_ascii c) in
                ((65 <=? n) && (n <=? 90)) || ((48 <=? n) && (n <=? 57))) (string_chars code).

Section handlers.
Context `{MapOrder} `{AuthLibrary} (cfg : authConfig) (rq : request).
Local Abbreviation now := (rq_now rq).

(** ** Registration *)

(** The code of a pending registration, where one is required. *)
Definition check_registration_code (email code : string) : Act () :=
  if emailVerificationEnabled cfg && (registrationMode cfg != "open") then
    _ ← guard_not (code == "") 400 "verification_required";
    verification ← lookupRegistrationVerification rq email;
    match verification with
    | None => refuse 400 "verification_required"
    | Some verification => guard_not (rv_code verification != code) 400 "invalid_code"
    end
  else mret tt.

Definition drop_registration_code (email : string) : Act () :=
  if emailVerificationEnabled cfg && (registrationMode cfg != "open")
  then removeRegistrationVerification email else mret tt.

(** A referral code outside the campaign is ignored. *)
Definition accepted_referral (raw : string) : Act string :=
  let referralCode := ToUpper (TrimSpace raw) in
  if referralCode == "" then mret "" else
  _ ← guard_not (negb (validReferralCodeFormat referralCode)) 400 "invalid_referral_code";
  known ← look_store (λ s, GetReferralCode s referralCode);
  _ ← or_refuse known 400 "invalid_referral_code";
  found ← look_store (λ s, GetReferralCampaign s now);
  campaign ← or_refuse found 503 "campaign_unavailable";
  mret (if Active (Some campaign) now then referralCode else "").

(** The account a self-service registration asks for. *)
Definition registered_user (name email hashed code : string) : User :=
  let groups := ["User"; MonthlyFreeQuotaLimitGroup] ++
    (if registrationMode cfg == "open" then [EmailOptionalRegistrationGroup] else []) in
  let verified := (registrationMode cfg != "open") &&
    (negb (emailVerificationEnabled cfg) || (code != "")) in
  mkUser "" name email LevelUser RoleUser groups [] verified hashed "" false 0 0 0 0 true
    "" None None None None None.

Definition creation_error (e : error) : response :=
  if e == ErrEmailExists then (409, "email_already_exists")
  else if e == ErrNameExists then (409, "name_already_exists")
  else if e == ErrInvalidName then (400, "invalid_name")
  else (500, "user_creation_failed").

Definition create_account (user : User) (referralCode : string) : Act (result error unit * User) :=
  on_store (λ s,
    let '(r, user, s) :=
      if referralCode != ""
      then CreateUserWithReferral (rq_ids rq 0) (rq_v7 rq 0) now (rq_ids rq 1) now user referralCode s
      else CreateUser (rq_ids rq 0) (rq_v7 rq 0) now user s in
    ((r, user), s)).

(** [Err true] is a request larger than 16 KiB. *)
Definition registration_body (body : result bool registerRequest) : Act registerRequest :=
  match body with
  | Ok req => mret req
  | Err tooLarge => if tooLarge then refuse 413 "request_too_large" else refuse 400 "invalid_request"
  end.

Definition register (body : result bool registerRequest) : Act reply :=
  _ ← guard_not (hasQueryParameter rq ["password"; "email"; "confirmPassword"]) 400 "credentials_in_query";
  req ← registration_body body;
  let name := TrimSpace (reg_Name req) in
  let email := normal_email (reg_Email req) in
  let password := TrimSpace (reg_Password req) in
  let code := TrimSpace (reg_Code req) in
  _ ← guard_not (name == "") 400 "name_required";
  _ ← guard_not ((email == "") || (password == "")) 400 "missing_credentials";
  _ ← allowAuthProbe rq RegistrationProbe email;
  blacklisted ← look_store (λ s, IsBlacklisted s email);
  _ ← guard_not blacklisted 403 "email_blacklisted";
  _ ← guard_not (negb (Contains email "@")) 400 "invalid_email";
  _ ← guard_not (len password <? 8) 400 "password_too_short";
  _ ← check_registration_code email code;
  referralCode ← accepted_referral (reg_ReferralCode req);
  hashed ← or_refuse (bcrypt_Generate (rq_salt rq 0) password) 500 "hash_failure";
  '(created, user) ← create_account (registered_user name email hashed code) referralCode;
  match created with
  | Err e => stop (Refused (creation_error e))
  | Ok _ =>
      provisioned ← on_store (provisionFreeEntitlement now (user_ID user));
      _ ← or_refuse provisioned 500 "default_entitlement_unavailable";
      _ ← drop_registration_code email;
      mret (Registered (sanitizeUser now user None))
  end.

(** ** Email verification *)

(** Setting the flag of an account whose address was proved. *)
Definition mark_verified (user : User) (failure : string) : Act User :=
  if user_EmailVerified user then mret user else
  '(r, user) ← update_account rq 0 (user <| user_EmailVerified := true |>);
  _ ← or_refuse r 500 failure;
  mret user.

(** The pending verification of an existing account. *)
Definition verify_existing (email code : string) (verification : emailVerification) : Act reply :=
  if Before now (ev_lockedUntil verification) then stop (VerificationLocked (ev_lockedUntil verification)) else
  if ev_code verification != code then
    lockedUntil ← recordEmailVerificationFailure rq email;
    if negb (IsZero lockedUntil) && Before now lockedUntil then stop (VerificationLocked lockedUntil)
    else refuse 400 "invalid_code"
  else
  found ← look_store (λ s, GetUserByID s (ev_userID verification));
  user ← or_refuse found 500 "verification_failed";
  _ ← guard_not (negb (user_Active user)) 403 "account_suspended";
  if negb (EqualFold (TrimSpace (user_Email user)) (ev_email verification)) then
    _ ← removeEmailVerification email;
    refuse 400 "invalid_code"
  else
  user ← mark_verified user "verification_failed";
  _ ← removeEmailVerification email;
  '(sessionToken, expiresAt) ← new_session cfg rq 0 (user_ID user) None;
  mret (SignedIn "email verified" sessionToken expiresAt (sanitizeUser now user None) None).

(** The code of a registration that is not an account yet. *)
Definition verify_pending (email code : string) : Act reply :=
  pending ← lookupRegistrationVerification rq email;
  if match pending with Some p => Before now (rv_lockedUntil p) | None => false end
  then stop (VerificationLocked (match pending with Some p => rv_lockedUntil p | None => 0 end)) else
  if match pending with Some p => rv_code p != code | None => true end then
    lockedUntil ← recordRegistrationVerificationFailure rq email;
    if negb (IsZero lockedUntil) && Before now lockedUntil then stop (VerificationLocked lockedUntil)
    else refuse 400 "invalid_code"
  else
  marked ← markRegistrationVerified rq email;
  _ ← guard_not (negb marked) 400 "invalid_code";
  mret (Answered 200 "verification successful").

Definition verifyEmail (body : option (string * string)) : Act reply :=
  _ ← guard_not (hasQueryParameter rq ["token"; "code"]) 400 "token_in_query";
  '(rawEmail, rawCode) ← bound body;
  let email := normal_email rawEmail in
  let code := TrimSpace rawCode in
  _ ← guard_not ((email == "") || (code == "")) 400 "invalid_request";
  _ ← guard_not (len code != 6) 400 "invalid_code";
  _ ← guard_not (negb (all_digits code)) 400 "invalid_code";
  existing ← lookupEmailVerification rq email;
  match existing with
  | Some verification => verify_existing email code verification
  | None => verify_pending email code
  end.

Definition mail_answer (o : mailOutcome) : Act reply :=
  match o with
  | Delivered => mret (Answered 200 "verification email sent")
  | TimedOut => refuse 504 "smtp_timeout"
  | NotDelivered => refuse 500 "verification_failed"
  end.

Definition sendEmailVerification (body : option string) : Act reply :=
  _ ← guard_not (registrationMode cfg == "open") 409 "email_verification_disabled";
  _ ← guard_not (hasQueryParameter rq ["email"]) 400 "email_in_query";
  if negb (emailVerificationEnabled cfg) then mret (Answered 200 "verification email sent") else
  rawEmail ← bound body;
  let email := normal_email rawEmail in
  _ ← guard_not (email == "") 400 "invalid_email";
  _ ← guard_not (negb (Contains email "@")) 400 "invalid_email";
  _ ← allowAuthProbe rq RegistrationProbe email;
  blacklisted ← look_store (λ s, IsBlacklisted s email);
  _ ← guard_not blacklisted 403 "email_blacklisted";
  found ← look_store (λ s, GetUserByEmail s email);
  match found with
  | Ok user =>
      _ ← guard_not (TrimSpace (user_Email user) == "") 400 "invalid_email";
      _ ← guard_not (user_EmailVerified user) 409 "email_already_exists";
      sent ← enqueueEmailVerification cfg rq user;
      mail_answer sent
  | Err e =>
      _ ← guard_not (e != ErrUserNotFound) 500 "verification_failed";
      sent ← issueRegistrationVerification cfg rq email;
      mail_answer sent
  end.

(** ** Signing in *)

Definition mfa_configured (user : User) : bool :=
  user_MFAEnabled user || (TrimSpace (user_MFATOTPSecret user) != "") ||
  negb (IsZero (user_MFASecretIssuedAt user)) || negb (IsZero (user_MFAConfirmedAt user)).

Definition without_mfa (user : User) : User :=
  user <| user_MFATOTPSecret := "" |> <| user_MFAEnabled := false |>
       <| user_MFASecretIssuedAt := 0 |> <| user_MFAConfirmedAt := 0 |>.

(** The demo account never keeps a second factor; a failed write is logged. *)
Definition reset_readonly_mfa (user : User) : Act User :=
  if isReadOnlyAccount user && mfa_configured user then
    '(_, user) ← update_account rq 1 (without_mfa user);
    mret user
  else mret user.

(** The password, or the email of an account together with a TOTP code. *)
Definition check_password (user : User) (identifier password totpCode : string) : Act () :=
  if password != "" then
    guard_not (negb (bcrypt_Compare (user_PasswordHash user) password)) 401 "invalid_credentials"
  else
    _ ← guard_not (totpCode == "") 400 "missing_credentials";
    guard_not (negb (EqualFold (TrimSpace (user_Email user)) identifier)) 401 "password_required".

(** The states of an account that cannot sign in. *)
Definition check_account (user : User) : Act () :=
  _ ← guard_not (negb (user_Active user)) 403 "account_suspended";
  _ ← guard_not ((TrimSpace (user_Email user) != "") && negb (AccountAccessVerified user))
        401 "email_not_verified";
  match user_ArchivedAt user with
  | None => mret tt
  | Some _ =>
      sent ← enqueueReactivationCode cfg rq user;
      if (sent : bool) then stop Archived else refuse 500 "reactivation_failed"
  end.

(** An account with a second factor: a ticket, or the code of the request. *)
Definition login_mfa (user : User) (totpCode : string) : Act reply :=
  if totpCode == "" then
    r ← createMFAChallenge cfg rq 0 (user_ID user);
    ticket ← or_refuse r 500 "mfa_challenge_creation_failed";
    mret (MFARequired ticket)
  else
    valid ← or_refuse (totp_Validate totpCode (user_MFATOTPSecret user) now) 500 "invalid_mfa_code";
    _ ← guard_not (negb valid) 401 "invalid_mfa_code";
    user ← touchUserActivity rq user;
    '(token, expiresAt) ← new_session cfg rq 0 (user_ID user) None;
    mret (SignedIn "login successful" token expiresAt (sanitizeUser now user None) None).

(** A challenge with which the account may set up a second factor. *)
Definition offered_challenge (user : User) : Act (option string) :=
  if isReadOnlyAccount user then mret None else
  r ← createMFAChallenge cfg rq 1 (user_ID user);
  mret (match r with Ok challengeToken => Some challengeToken | Err _ => None end).

Definition login_plain (user : User) : Act reply :=
  user ← touchUserActivity rq user;
  '(token, expiresAt) ← new_session cfg rq 0 (user_ID user) None;
  challenge ← offered_challenge user;
  mret (SignedIn "login successful" token expiresAt (sanitizeUser now user None) challenge).

Definition login_identifier (req : loginRequest) : string :=
  first_non_empty [TrimSpace (log_Identifier req); TrimSpace (log_Account req);
    TrimSpace (log_Username req); TrimSpace (log_Email req)].

Definition known_user (found : result error User) : Act User :=
  match found with
  | Ok user => mret user
  | Err e => if e == ErrUserNotFound then refuse 404 "user_not_found" else refuse 500 "authentication_failed"
  end.

Definition login (body : option loginRequest) : Act reply :=
  _ ← guard_not (hasQueryParameter rq ["username"; "password"; "identifier"; "totp"]) 400 "credentials_in_query";
  req ← bound body;
  let identifier := login_identifier req in
  let password := TrimSpace (log_Password req) in
  let totpCode := TrimSpace (log_TOTPCode req) in
  _ ← guard_not (identifier == "") 400 "missing_credentials";
  _ ← allowAuthProbe rq LoginAttempts (ToLower identifier);
  found ← look_store (findUserByIdentifier identifier);
  user ← known_user found;
  _ ← rejectIfBillingSuspended rq (user_ID user);
  _ ← guard_not (EqualFold (TrimSpace (user_Email user)) sandboxUserEmail) 403 "sandbox_no_login";
  _ ← check_password user identifier password totpCode;
  _ ← check_account user;
  user ← reset_readonly_mfa user;
  if user_MFAEnabled user then login_mfa user totpCode else login_plain user.

Definition verifyMFALogin (body : option verifyMFARequest) : Act reply :=
  req ← bound body;
  let mfaTicket := first_non_empty [TrimSpace (vm_MFATicket req); TrimSpace (vm_MFAToken req)] in
  _ ← guard_not (mfaTicket == "") 400 "mfa_ticket_required";
  let code := first_non_empty [TrimSpace (vm_Code req); TrimSpace (vm_TOTPCode req)] in
  _ ← guard_not (code == "") 400 "mfa_code_required";
  let method := first_non_empty [ToLower (TrimSpace (vm_Method req)); "totp"] in
  _ ← guard_not (method != "totp") 400 "unsupported_mfa_method";
  challenge ← lookupMFAChallenge rq mfaTicket;
  match challenge with
  | None => refuse 401 "invalid_mfa_ticket"
  | Some challenge =>
      found ← look_store (λ s, GetUserByID s (mc_userID challenge));
      user ← or_refuse found 500 "authentication_failed";
      _ ← guard_not (negb (user_Active user)) 403 "account_suspended";
      _ ← guard_not (negb (user_MFAEnabled user)) 400 "mfa_not_enabled";
      valid ← or_refuse (totp_Validate code (user_MFATOTPSecret user) now) 500 "invalid_mfa_code";
      _ ← guard_not (negb valid) 401 "invalid_mfa_code";
      _ ← removeMFAChallenge mfaTicket;
      '(token, expiresAt) ← new_session cfg rq 0 (user_ID user)
                              (Some (MFAFingerprint (user_MFATOTPSecret user)));
      mret (SignedIn "login successful" token expiresAt (sanitizeUser now user None) None)
  end.

Definition exchangeToken (body : option string) : Act reply :=
  code ← bound body;
  '(sessionToken, _, ok) ← on_store (ConsumeOAuthExchangeCode now code);
  _ ← guard_not (negb ok) 401 "invalid_exchange_code";
  sess ← look_store (lookupSession rq sessionToken);
  match sess with
  | None => refuse 401 "invalid_exchange_code"
  | Some (userID, expiresAt) =>
      found ← look_store (λ s, GetUserByID s userID);
      user ← or_refuse found 500 "session_user_lookup_failed";
      _ ← guard_not (negb (user_Active user)) 403 "account_suspended";
      _ ← rejectIfBillingSuspended rq (user_ID user);
      mret (SignedIn "" sessionToken expiresAt (sanitizeUser now user None) None)
  end.

Definition deleteSession : Act reply :=
  let token := presentedToken rq in
  if token == "" then mret (Answered 204 "") else
  _ ← removeSession token;
  mret (Answered 204 "").

(** ** OAuth *)

(** The account of the profile's address: a new one, or the one on file, which
    the provider's proof verifies. *)
Definition oauth_account (profile : OAuthProfile) : Act User :=
  existing ← look_store (λ s, GetUserByEmail s (op_Email profile));
  match existing with
  | Err e =>
      if e != ErrUserNotFound then refuse 500 "store_error" else
      let user := mkUser "" (op_Name profile) (op_Email profile) LevelUser RoleUser
        ["User"; MonthlyFreeQuotaLimitGroup] [] true "" "" false 0 0 0 0 true "" None None None None None in
      '(created, user) ← create_account user "";
      _ ← or_refuse created 500 "user_creation_failed";
      provisioned ← on_store (provisionFreeEntitlement now (user_ID user));
      _ ← or_refuse provisioned 500 "default_entitlement_unavailable";
      mret user
  | Ok user => mark_verified user "user_update_failed"
  end.

(** [frontendURL] is [callbackFrontendURL] of the request; the exchange code is
    hexadecimal, so that escaping leaves it as it is. *)
Definition oauthCallback (providerName code frontendURL : string) (provider : option OAuthProvider) : Act reply :=
  match provider with
  | None => refuse 404 "provider_not_found"
  | Some provider =>
      _ ← guard_not (code == "") 400 "code_missing";
      token ← or_refuse (oauth_Exchange provider code) 500 "oauth_exchange_failed";
      profile ← or_refuse (oauth_FetchProfile provider token) 500 "fetch_profile_failed";
      _ ← guard_not (op_Email profile == "") 400 "email_missing";
      _ ← guard_not (negb (op_Verified profile)) 401 "email_not_verified";
      blacklisted ← look_store (λ s, IsBlacklisted s (op_Email profile));
      _ ← guard_not blacklisted 403 "email_blacklisted";
      user ← oauth_account profile;
      _ ← guard_not (negb (user_Active user)) 403 "account_suspended";
      _ ← on_store (λ s, let '(_, _, s) := CreateIdentity (rq_ids rq 2) now
             (mkIdentity "" (user_ID user) providerName (op_ID profile) 0 0) s in (tt, s));
      '(sessionToken, sessionExpiresAt) ← new_session cfg rq 0 (user_ID user) None;
      r ← issueOAuthExchangeCode cfg rq 1 sessionToken sessionExpiresAt;
      '(exchangeCode, _) ← or_refuse r 500 "exchange_code_creation_failed";
      mret (RedirectTo ((if HasSuffix frontendURL "/"
                         then String.substring 0 (String.length frontendURL - 1) frontendURL
                         else frontendURL) +:+ "/login?exchange_code=" +:+ exchangeCode)%string)
  end.

(** ** Password recovery *)

Definition requestPasswordReset (body : option string) : Act reply :=
  let accepted := Answered 202 "if the account exists a reset email will be sent" in
  _ ← guard_not (hasQueryParameter rq ["email"]) 400 "email_in_query";
  rawEmail ← bound body;
  let email := normal_email rawEmail in
  _ ← guard_not (email == "") 400 "email_required";
  found ← look_store (λ s, GetUserByEmail s email);
  match found with
  | Err e => if e == ErrUserNotFound then mret accepted else refuse 500 "password_reset_failed"
  | Ok user =>
      if (TrimSpace (user_Email user) == "") || negb (user_EmailVerified user) then mret accepted else
      _ ← guard_not (isReadOnlyAccount user) 403 "read_only_account";
      failed ← enqueuePasswordReset cfg rq user;
      match failed with
      | Some _ => refuse 500 "password_reset_failed"
      | None => mret accepted
      end
  end.

Definition invalidate (challengeID : string) : Act () :=
  _ ← on_store (InvalidatePasswordRecoveryChallenge challengeID now); mret tt.

(** [CompletePasswordRecovery] and the answers of its errors. *)
Definition complete_recovery (challengeID hashed stale : string) : Act () :=
  done ← on_store (CompletePasswordRecovery challengeID hashed now);
  match done with
  | Ok _ => mret tt
  | Err e => if e == ErrPasswordRecoveryInvalid then refuse 400 stale
             else refuse 500 "password_reset_failed"
  end.

Definition known_challenge (found : result error PasswordRecoveryChallenge) (stale : string)
    : Act PasswordRecoveryChallenge :=
  match found with
  | Ok challenge => mret challenge
  | Err e => if e == ErrPasswordRecoveryInvalid then refuse 400 stale else refuse 500 "password_reset_failed"
  end.

Definition confirmPasswordReset (body : option (string * string)) : Act reply :=
  _ ← guard_not (hasQueryParameter rq ["token"; "password"]) 400 "credentials_in_query";
  '(rawToken, rawPassword) ← bound body;
  let token := TrimSpace rawToken in
  let password := TrimSpace rawPassword in
  _ ← guard_not ((token == "") || (password == "")) 400 "invalid_request";
  _ ← guard_not (len password <? 8) 400 "password_too_short";
  found ← look_store (GetPasswordRecoveryChallengeByTokenHash (passwordResetTokenHash token));
  challenge ← known_challenge found "invalid_token";
  _ ← guard_not (negb (After (prc_ExpiresAt challenge) now) ||
                 (negb (IsZero (prc_LockedUntil challenge)) && Before now (prc_LockedUntil challenge)))
        400 "invalid_token";
  found ← look_store (λ s, GetUserByID s (prc_UserID challenge));
  user ← or_refuse found 500 "password_reset_failed";
  _ ← guard_not (negb (user_Active user)) 403 "account_suspended";
  if negb (EqualFold (TrimSpace (user_Email user)) (prc_Email challenge)) then
    _ ← invalidate (prc_ID challenge); refuse 400 "invalid_token"
  else if isReadOnlyAccount user then
    _ ← invalidate (prc_ID challenge); refuse 403 "read_only_account"
  else
  hashed ← or_refuse (bcrypt_Generate (rq_salt rq 0) password) 500 "password_reset_failed";
  _ ← complete_recovery (prc_ID challenge) hashed "invalid_token";
  '(sessionToken, expiresAt) ← new_session cfg rq 0 (user_ID user) None;
  mret (SignedIn "password reset successful" sessionToken expiresAt (sanitizeUser now user None) None).

Definition requestPasswordResetCode (body : option string) : Act reply :=
  let accepted := Answered 202 "if the account exists a reset code will be sent" in
  _ ← guard_not (hasQueryParameter rq ["email"]) 400 "email_in_query";
  rawEmail ← bound body;
  let email := normal_email rawEmail in
  _ ← guard_not (email == "") 400 "email_required";
  _ ← allowAuthProbe rq PasswordRecoveryBudget email;
  found ← look_store (λ s, GetUserByEmail s email);
  match found with
  | Err e => if e == ErrUserNotFound then mret accepted else refuse 500 "password_reset_failed"
  | Ok user =>
      if negb (user_EmailVerified user) || (TrimSpace (user_Email user) == "") then mret accepted else
      if isReadOnlyAccount user then mret accepted else
      _ ← enqueuePasswordResetCode cfg rq user;
      mret accepted
  end.

(** A wrong recovery code is counted. *)
Definition recovery_code_failed (challenge : PasswordRecoveryChallenge) : Act reply :=
  failure ← on_store (RecordPasswordRecoveryFailure (prc_ID challenge) now maxMFAVerificationAttempts
                        defaultMFALockoutDuration);
  match failure with
  | Err e => if e == ErrPasswordRecoveryInvalid then refuse 400 "invalid_code"
             else refuse 500 "password_reset_failed"
  | Ok retryAt => if negb (IsZero retryAt) then refuse 429 "rate_limited" else refuse 400 "invalid_code"
  end.

Definition confirmPasswordResetCode (body : option (string * string * string)) : Act reply :=
  _ ← guard_not (hasQueryParameter rq ["email"; "code"; "password"]) 400 "credentials_in_query";
  '(rawEmail, rawCode, rawPassword) ← bound body;
  let email := normal_email rawEmail in
  let code := TrimSpace rawCode in
  let password := TrimSpace rawPassword in
  _ ← guard_not ((email == "") || (code == "") || (password == "")) 400 "invalid_request";
  _ ← guard_not ((len code != 6) || negb (all_digits code)) 400 "invalid_code";
  _ ← guard_not (len password <? 8) 400 "password_too_short";
  _ ← allowAuthProbe rq PasswordRecoveryConfirm email;
  found ← look_store (GetLatestPasswordRecoveryCode email);
  challenge ← known_challenge found "invalid_code";
  _ ← guard_not (negb (After (prc_ExpiresAt challenge) now)) 410 "code_expired";
  _ ← guard_not (Before now (prc_LockedUntil challenge)) 400 "invalid_code";
  if negb (bcrypt_Compare (prc_SecretHash challenge) code) then recovery_code_failed challenge else
  found ← look_store (λ s, GetUserByID s (prc_UserID challenge));
  match found with
  | Err _ => _ ← invalidate (prc_ID challenge); refuse 400 "invalid_code"
  | Ok user =>
      if negb (EqualFold (TrimSpace (user_Email user)) email) then
        _ ← invalidate (prc_ID challenge); refuse 400 "invalid_code"
      else if isReadOnlyAccount user then
        _ ← invalidate (prc_ID challenge); refuse 403 "read_only_account"
      else
      hashed ← or_refuse (bcrypt_Generate (rq_salt rq 0) password) 500 "password_reset_failed";
      _ ← complete_recovery (prc_ID challenge) hashed "invalid_code";
      mret (UserShown "password reset successful" (sanitizeUser now user None))
  end.

Definition setPassword (body : option string) : Act reply :=
  _ ← guard_not (hasQueryParameter rq ["password"]) 400 "credentials_in_query";
  user ← requireAuthenticatedUser rq;
  _ ← guard_not (isReadOnlyAccount user) 403 "read_only_account";
  _ ← guard_not (negb (user_EmailVerified user)) 403 "email_not_verified";
  _ ← guard_not (TrimSpace (user_PasswordHash user) != "") 409 "password_already_set";
  password ← bound body;
  _ ← guard_not (len password <? 8) 400 "password_too_short";
  hashed ← or_refuse (bcrypt_Generate (rq_salt rq 0) password) 500 "hash_failure";
  '(r, user) ← update_account rq 1 (user <| user_PasswordHash := hashed |>);
  _ ← or_refuse r 500 "password_set_failed";
  mret (ReadinessShown "password set" (computeServiceReadiness user)).

Definition selfCancelFreeAccount : Act reply :=
  user ← requireAuthenticatedUser rq;
  _ ← guard_not (isRootAccount user || (MonthlyQuotaGroup user != MonthlyFreeQuotaLimitGroup))
        403 "free_account_only";
  '(r, user) ← update_account rq 1 (user <| user_Active := false |>);
  _ ← or_refuse r 500 "account_cancel_failed";
  r ← set_proxy_state rq (user_ID user) "paused";
  _ ← or_refuse r 500 "account_cancel_failed";
  _ ← removeSession (resolveSessionToken rq);
  mret (Answered 200 "account cancelled").

(** ** Reactivation *)

Definition reactivateAccount (body : option (string * string)) : Act reply :=
  '(rawEmail, rawCode) ← bound body;
  let email := normal_email rawEmail in
  let code := TrimSpace rawCode in
  _ ← guard_not ((email == "") || (len code != 6)) 400 "invalid_code";
  stored ← look (λ st, reactivationCodes st !! email);
  match stored with
  | None => refuse 401 "invalid_code"
  | Some entry =>
      _ ← guard_not (After now (ar_expiresAt entry) || Before now (ar_lockedUntil entry)) 401 "invalid_code";
      if ar_code entry != code then
        retryAt ← recordReactivationCodeFailure rq email;
        if negb (IsZero retryAt) then stop (VerificationLocked retryAt) else refuse 401 "invalid_code"
      else
      found ← look_store (λ s, GetUserByID s (ar_userID entry));
      match found with
      | Err _ => refuse 401 "invalid_code"
      | Ok user =>
          _ ← guard_not (negb (EqualFold (TrimSpace (user_Email user)) email) ||
                         (user_ArchivedAt user == None)) 401 "invalid_code";
          '(r, user) ← update_account rq 0 (user <| user_Active := true |> <| user_ArchivedAt := None |>
                                                 <| user_LastActiveAt := Some now |>);
          _ ← or_refuse r 500 "account_reactivation_failed";
          _ ← removeReactivationCode email;
          '(token, expiresAt) ← new_session cfg rq 0 (user_ID user) None;
          mret (SignedIn "account reactivated" token expiresAt (sanitizeUser now user None) None)
      end
  end.
End handlers.
