(* ===== verification/LoginMFA.v ===== *)
(** * Authentication: the second factor

    Setting up, confirming and removing TOTP ([api/api.go]), the recovery codes
    ([api/mfa_recovery_codes.go]), the password reset with a second factor
    ([api/password_self_service.go]) and the reset of a lost factor that an
    administrator reviews ([api/mfa_reset.go]).

    [totp.Generate] is a third-party call: its result, the secret and the URL
    or an error, is an argument. *)

From S2P Require Import Prelude GoLib Calendar Json StoreData Users Referral Quota Access Sha256 Recovery RateLimit Entitlements Tenants Vault Workspace Login AdminAccess LoginHandlers.
From Stdlib Require Import Ascii.
Open Scope Z_scope.
Open Scope bool_scope.
Open Scope go_scope.

(** ** SHA-1 and base32 *)

Definition rotl (n x : Z) : Z := rotr (32 - n) x.

Fixpoint sha1_schedule (n : nat) (rev : list Z) : list Z :=
  match n with
  | O => rev
  | S n' =>
      let at_ i := nth i rev 0 in
      sha1_schedule n' (rotl 1 (Z.lxor (Z.lxor (at_ 2%nat) (at_ 7%nat)) (Z.lxor (at_ 13%nat) (at_ 15%nat))) :: rev)
  end.

(** The function and the constant of a round. *)
Definition sha1_mix (t : nat) (b c d : Z) : Z * Z :=
  if (t <? 20)%nat then (Z.lor (Z.land b c) (Z.land (not32 b) d), 1518500249)
  else if (t <? 40)%nat then (Z.lxor (Z.lxor b c) d, 1859775393)
  else if (t <? 60)%nat then (Z.lor (Z.lor (Z.land b c) (Z.land b d)) (Z.land c d), 2400959708)
  else (Z.lxor (Z.lxor b c) d, 3395469782).

Definition sha1_round (h : list Z) (tw : nat * Z) : list Z :=
  match h with
  | [a; b; c; d; e] =>
      let '(f, k) := sha1_mix tw.1 b c d in
      [w32 (rotl 5 a + f + e + k + tw.2); a; rotl 30 b; c; d]
  | _ => h
  end.

Fixpoint sha1_blocks (fuel : nat) (h : list Z) (ws : list Z) : list Z :=
  match fuel, ws with
  | S fuel', _ :: _ =>
      let w := rev (sha1_schedule 64 (rev (take 16 ws))) in
      sha1_blocks fuel' (zip_with add32 h (foldl sha1_round h (zip (seq 0 80) w))) (drop 16 ws)
  | _, _ => h
  end.

Definition sha1 (msg : list Z) : list Z :=
  let ws := words (Sha256.padded msg) in
  flat_map (be_bytes 4) (sha1_blocks (length ws) [1732584193; 4023233417; 2562383102; 271733878; 3285377520] ws).

Example sha1_abc : hex (sha1 (bytes_of "abc")) = "a9993e364706816aba3e25717850c26c9cd0d89d".
Proof. vm_compute. reflexivity. Qed.

Definition base32_char (v : Z) : ascii :=
  ascii_of_N (Z.to_N (if v <? 26 then 65 + v else 24 + v)).

(** [base32.StdEncoding] without padding: five bits at a time, the last group
    filled with zeroes. *)
Fixpoint base32_bits (fuel : nat) (bits : list bool) : string :=
  match fuel, bits with
  | S fuel', _ :: _ =>
      let value := foldl (λ acc (b : bool), 2 * acc + (if b then 1 else 0)) 0 (take 5 (bits ++ replicate 4 false)) in
      String (base32_char value) (base32_bits fuel' (drop 5 bits))
  | _, _ => EmptyString
  end.
Definition byte_bits (b : Z) : list bool := (λ i, Z.testbit b (7 - Z.of_nat i)) <$> seq 0 8.
Definition base32 (bytes : list Z) : string :=
  base32_bits (2 * length bytes) (flat_map byte_bits bytes).

Example base32_foobar : base32 (bytes_of "foobar") = "MZXW6YTBOI".
Proof. vm_compute. reflexivity. Qed.

(** ** Labels and recovery codes *)

Definition deriveDefaultAccountLabel (user : User) (issuer : string) : string :=
  let identifier := TrimSpace (user_ID user) in
  if identifier == "" then
    if issuer == "" then "account" else (issuer +:+ " account")%string
  else ("user-" +:+ String.substring 0 10 (ToLower (base32 (sha1 (bytes_of identifier)))))%string.

Fixpoint drop_chars (drop : ascii → bool) (s : string) : string :=
  match s with
  | EmptyString => EmptyString
  | String c rest => if drop c then drop_chars drop rest else String c (drop_chars drop rest)
  end.
Definition normalizeMFARecoveryCode (code : string) : string :=
  drop_chars (λ c, bool_decide (c = "-"%char) || bool_decide (c = " "%char)) (ToUpper (TrimSpace code)).

Definition mfaRecoveryCodeCount : nat := 10.
Definition mfaRecoveryCodeTTL : duration := 365 * 24 * Hour.
Definition mfaRecoveryCodeLockout : duration := 15 * Minute.
Definition minMFARecoveryCodeLength : Z := 20.

(** Twelve random bytes give twenty characters in four groups of five. *)
Definition generateMFARecoveryCode (raw : result error (list Z)) : result error string :=
  let? raw := raw in
  let encoded := base32 raw in
  Ok (String.substring 0 5 encoded +:+ "-" +:+ String.substring 5 5 encoded +:+ "-" +:+
      String.substring 10 5 encoded +:+ "-" +:+ String.substring 15 (String.length encoded - 15) encoded)%string.

Section handlers.
Context `{MapOrder} `{AuthLibrary} (cfg : authConfig) (rq : request).
Local Abbreviation now := (rq_now rq).

(** ** Setting up TOTP *)

(** The challenge of the request, or a new one for the session. *)
Definition provision_target (token : string) : Act (User * string) :=
  if token != "" then
    challenge ← refreshMFAChallenge cfg rq token;
    match challenge with
    | None => refuse 401 "invalid_mfa_token"
    | Some challenge =>
        found ← look_store (λ s, GetUserByID s (mc_userID challenge));
        user ← or_refuse found 500 "mfa_user_lookup_failed";
        mret (user, token)
    end
  else
    let sessionToken := extractToken (rq_authorization rq) in
    _ ← guard_not (sessionToken == "") 400 "mfa_token_required";
    sess ← look_store (lookupSession rq sessionToken);
    match sess with
    | None => refuse 401 "invalid_session"
    | Some (userID, _) =>
        found ← look_store (λ s, GetUserByID s userID);
        user ← or_refuse found 500 "mfa_user_lookup_failed";
        r ← createMFAChallenge cfg rq 0 (user_ID user);
        token ← or_refuse r 500 "mfa_challenge_creation_failed";
        challenge ← refreshMFAChallenge cfg rq token;
        match challenge with
        | None => refuse 500 "mfa_challenge_creation_failed"
        | Some _ => mret (user, token)
        end
    end.

Definition of_user (user : User) (f : mfaChallenge → mfaChallenge) (ch : mfaChallenge) : option mfaChallenge :=
  if mc_userID ch != user_ID user then None else Some (f ch).

(** [key] is the result of [totp.Generate] for an issuer and an account name. *)
Definition provisionTOTP (key : string → string → result error (string * string))
    (body : option (string * string * string)) : Act reply :=
  '(rawToken, rawIssuer, rawAccount) ← bound body;
  '(user, token) ← provision_target (TrimSpace rawToken);
  _ ← guard_not (user_MFAEnabled user) 400 "mfa_already_enabled";
  _ ← guard_not (isReadOnlyAccount user) 403 "read_only_account";
  let issuer := first_non_empty [TrimSpace rawIssuer; TrimSpace (totpIssuer cfg); defaultTOTPIssuer] in
  let accountName := first_non_empty [TrimSpace rawAccount; deriveDefaultAccountLabel user issuer] in
  '(rawSecret, url) ← or_refuse (key issuer accountName) 500 "mfa_secret_generation_failed";
  pendingChallenge ← refreshMFAChallenge cfg rq token;
  _ ← guard_not (match pendingChallenge with Some ch => mc_userID ch != user_ID user | None => true end)
        401 "invalid_mfa_token";
  let secret := TrimSpace rawSecret in
  let previous := user in
  '(r, user) ← update_account rq 0 (user <| user_MFATOTPSecret := secret |>
     <| user_MFASecretIssuedAt := now |> <| user_MFAConfirmedAt := 0 |> <| user_MFAEnabled := false |>);
  _ ← or_refuse r 500 "mfa_setup_failed";
  pendingChallenge ← updateMFAChallenge rq token (Some (of_user user (λ ch,
    ch <| mc_totpSecret := secret |> <| mc_totpIssuer := issuer |> <| mc_totpAccount := accountName |>
       <| mc_totpIssuedAt := now |> <| mc_failedAttempts := 0 |> <| mc_lockedUntil := 0 |>
       <| mc_expiresAt := Add now (effectiveMFAChallengeTTL cfg) |>)));
  match pendingChallenge with
  | None =>
      _ ← update_account rq 1 (user <| user_MFATOTPSecret := user_MFATOTPSecret previous |>
        <| user_MFASecretIssuedAt := user_MFASecretIssuedAt previous |>
        <| user_MFAConfirmedAt := user_MFAConfirmedAt previous |>
        <| user_MFAEnabled := user_MFAEnabled previous |>);
      refuse 500 "mfa_challenge_creation_failed"
  | Some ch =>
      mret (Provisioned secret url issuer accountName token (buildMFAState now user (Some ch))
              (sanitizeUser now user (Some ch)))
  end.

(** One wrong code; a challenge that is locked is left as it is. *)
Definition count_mfa_failure (ch : mfaChallenge) : mfaChallenge :=
  if Before now (mc_lockedUntil ch) then ch else
  let n := mc_failedAttempts ch + 1 in
  let ch := if maxMFAVerificationAttempts <=? n
            then ch <| mc_failedAttempts := 0 |> <| mc_lockedUntil := Add now defaultMFALockoutDuration |>
            else ch <| mc_failedAttempts := n |> in
  ch <| mc_expiresAt := Add now (effectiveMFAChallengeTTL cfg) |>.

Definition totp_failed (user : User) (token : string) (challenge : mfaChallenge) : Act reply :=
  updated ← updateMFAChallenge rq token (Some (of_user user count_mfa_failure));
  let challenge := default challenge updated in
  if negb (IsZero (mc_lockedUntil challenge)) && Before now (mc_lockedUntil challenge)
  then stop (ChallengeLocked (UTC (mc_lockedUntil challenge)) token)
  else refuse 401 "invalid_mfa_code".

(** The account with the confirmed factor. *)
Definition with_mfa (user : User) (secret : string) (challenge : mfaChallenge) : User :=
  let issuedAt := if IsZero (mc_totpIssuedAt challenge) then now else mc_totpIssuedAt challenge in
  let user := if TrimSpace (user_MFATOTPSecret user) == "" then user <| user_MFATOTPSecret := secret |> else user in
  let user := if IsZero (user_MFASecretIssuedAt user) then user <| user_MFASecretIssuedAt := issuedAt |> else user in
  user <| user_MFAEnabled := true |> <| user_MFAConfirmedAt := now |>.

Definition verifyTOTP (body : option (string * string)) : Act reply :=
  '(rawToken, rawCode) ← bound body;
  let token := TrimSpace rawToken in
  _ ← guard_not (token == "") 400 "mfa_token_required";
  challenge ← lookupMFAChallenge rq token;
  match challenge with
  | None => refuse 401 "invalid_mfa_token"
  | Some challenge =>
      found ← look_store (λ s, GetUserByID s (mc_userID challenge));
      user ← or_refuse found 500 "mfa_user_lookup_failed";
      _ ← guard_not (isReadOnlyAccount user) 403 "read_only_account";
      refreshed ← updateMFAChallenge rq token (Some (of_user user (λ ch,
        ch <| mc_expiresAt := Add now (effectiveMFAChallengeTTL cfg) |>)));
      match refreshed with
      | None => refuse 401 "invalid_mfa_token"
      | Some challenge =>
          if negb (IsZero (mc_lockedUntil challenge)) && Before now (mc_lockedUntil challenge)
          then stop (ChallengeLocked (UTC (mc_lockedUntil challenge)) token) else
          let secret := first_non_empty [TrimSpace (user_MFATOTPSecret user); TrimSpace (mc_totpSecret challenge)] in
          _ ← guard_not (secret == "") 400 "mfa_secret_missing";
          let code := TrimSpace rawCode in
          _ ← guard_not (code == "") 400 "mfa_code_required";
          valid ← or_refuse (totp_Validate code secret now) 500 "invalid_mfa_code";
          if negb (valid : bool) then totp_failed user token challenge else
          '(r, user) ← update_account rq 0 (with_mfa user secret challenge);
          _ ← or_refuse r 500 "mfa_update_failed";
          _ ← removeMFAChallenge token;
          '(sessionToken, expiresAt) ← new_session cfg rq 0 (user_ID user) None;
          mret (SignedIn "mfa_verified" sessionToken expiresAt (sanitizeUser now user None) None)
      end
  end.

(** ** Status and removal *)

(** The account of a status request: that of the session, or else that of the
    MFA token, or else the one named; and the challenge shown with it. *)
Definition status_session (token : string) : Act (option User * string) :=
  let authToken := extractToken (rq_authorization rq) in
  if authToken == "" then mret (None, token) else
  sess ← look_store (lookupSession rq authToken);
  match sess with
  | Some (userID, _) =>
      found ← look_store (λ s, GetUserByID s userID);
      user ← or_refuse found 500 "mfa_status_failed";
      mret (Some user, token)
  | None => mret (None, if token == "" then authToken else token)
  end.

Definition status_challenge (user : option User) (token : string) : Act (option User * option mfaChallenge) :=
  if token == "" then mret (user, None) else
  refreshed ← refreshMFAChallenge cfg rq token;
  match refreshed, user with
  | None, _ => mret (user, None)
  | Some ch, Some u => mret (user, if user_ID u != mc_userID ch then None else Some ch)
  | Some ch, None =>
      found ← look_store (λ s, GetUserByID s (mc_userID ch));
      u ← or_refuse found 500 "mfa_status_failed";
      mret (Some u, Some ch)
  end.

(** [queryToken] and [headerToken] are the [token] parameter and the
    [X-MFA-Token] header. *)
Definition mfaStatus (queryToken headerToken queryIdentifier queryEmail : string) : Act reply :=
  let token := first_non_empty [TrimSpace queryToken; TrimSpace headerToken] in
  let identifier := first_non_empty [TrimSpace queryIdentifier; TrimSpace queryEmail] in
  '(user, token) ← status_session token;
  '(user, challenge) ← status_challenge user token;
  let shown (u : User) := StatusShown (user_MFAEnabled u) (Some (buildMFAState now u challenge))
                            (Some (sanitizeUser now u challenge)) in
  match user with
  | Some u => mret (shown u)
  | None =>
      if identifier == "" then refuse 401 "mfa_token_required" else
      found ← look_store (findUserByIdentifier identifier);
      match found with
      | Ok u => mret (shown u)
      | Err e => if e == ErrUserNotFound then mret (StatusShown false None None)
                 else refuse 500 "mfa_status_failed"
      end
  end.

Definition disableMFA (body : option string) : Act reply :=
  rawCode ← bound body;
  let token := first_non_empty [extractToken (rq_authorization rq); TrimSpace (rq_queryToken rq)] in
  _ ← guard_not (token == "") 401 "session_token_required";
  sess ← look_store (lookupSession rq token);
  match sess with
  | None => refuse 401 "invalid_session"
  | Some (userID, _) =>
      found ← look_store (λ s, GetUserByID s userID);
      user ← or_refuse found 500 "mfa_disable_failed";
      _ ← guard_not (isReadOnlyAccount user) 403 "read_only_account";
      let hasSecret := TrimSpace (user_MFATOTPSecret user) != "" in
      _ ← guard_not (negb (user_MFAEnabled user) && negb hasSecret) 400 "mfa_not_enabled";
      _ ← guard_not (negb hasSecret) 400 "mfa_secret_missing";
      let code := TrimSpace rawCode in
      _ ← guard_not (code == "") 400 "mfa_code_required";
      _ ← allowAuthProbe rq MFARecoveryBudget (user_ID user);
      _ ← guard_not (negb (verifyTOTPCode (user_MFATOTPSecret user) code now)) 401 "invalid_mfa_code";
      '(r, user) ← update_account rq 0 (without_mfa user);
      _ ← or_refuse r 500 "mfa_disable_failed";
      _ ← removeMFAChallengesForUser (user_ID user);
      mret (UserShown "mfa_disabled" (sanitizeUser now user None))
  end.

(** ** Recovery codes *)

Definition requireMFARecoveryManagement : Act User :=
  user ← requireAuthenticatedUser rq;
  _ ← guard_not (user_ArchivedAt user != None) 403 "account_archived";
  _ ← guard_not (negb (user_MFAEnabled user) || (TrimSpace (user_MFATOTPSecret user) == ""))
        403 "mfa_not_enabled";
  _ ← guard_not (isReadOnlyAccount user) 403 "read_only_account";
  _ ← allowAuthProbe rq MFARecoveryBudget (user_ID user);
  mret user.

Definition requireManagementTOTP (user : User) (body : option string) : Act () :=
  code ← bound body;
  guard_not (negb (verifyTOTPCode (user_MFATOTPSecret user) (TrimSpace code) now)) 401 "invalid_mfa_factor".

Definition getMFARecoveryCodeStatus : Act reply :=
  user ← requireAuthenticatedUser rq;
  _ ← guard_not (user_ArchivedAt user != None) 403 "account_archived";
  listed ← look_store (ListMFARecoveryCodes (user_ID user) now);
  codes ← or_refuse listed 503 "mfa_recovery_unavailable";
  let expiresAt := foldl (λ t code, if IsZero t || Before (mrc_ExpiresAt code) t
                                    then mrc_ExpiresAt code else t) 0 codes in
  mret (CodesShown (Z.of_nat (length codes)) (unless_zero expiresAt)).

(** [raw i] are the random bytes of the [i]-th code; its hash uses the [i]-th
    salt and its record the identifier [i + 1], after that of the batch. *)
Fixpoint make_codes (raw : nat → result error (list Z)) (user batchID : string) (expiresAt : time)
    (i n : nat) : result error (list (string * MFARecoveryCode)) :=
  match n with
  | O => Ok []
  | S n' =>
      let? code := generateMFARecoveryCode (raw i) in
      let? hash := bcrypt_Generate (rq_salt rq i) (normalizeMFARecoveryCode code) in
      let? rest := make_codes raw user batchID expiresAt (S i) n' in
      Ok ((code, mkMFARecoveryCode (rq_ids rq (S i)) user batchID hash expiresAt 0 0 now 0 0) :: rest)
  end.

Definition rotateMFARecoveryCodes (raw : nat → result error (list Z)) (body : option string) : Act reply :=
  user ← requireMFARecoveryManagement;
  _ ← requireManagementTOTP user body;
  let expiresAt := Add now mfaRecoveryCodeTTL in
  codes ← or_refuse (make_codes raw (user_ID user) (rq_ids rq 0) expiresAt 0 mfaRecoveryCodeCount)
            500 "mfa_recovery_unavailable";
  replaced ← on_store (ReplaceMFARecoveryCodes (user_ID user) codes.*2);
  _ ← or_refuse replaced 503 "mfa_recovery_unavailable";
  mret (CodesIssued codes.*1 expiresAt).

Definition revokeMFARecoveryCodes (body : option string) : Act reply :=
  user ← requireMFARecoveryManagement;
  _ ← requireManagementTOTP user body;
  listed ← look_store (ListMFARecoveryCodes (user_ID user) now);
  codes ← or_refuse listed 503 "mfa_recovery_unavailable";
  revoked ← on_store (RevokeMFARecoveryCodes (user_ID user) now);
  match revoked with
  | Err e => if e == ErrMFARecoveryCodeInvalid then refuse 409 "mfa_recovery_conflict"
             else refuse 503 "mfa_recovery_unavailable"
  | Ok _ => mret (CodesShown (Z.of_nat (length codes)) None)
  end.

(** ** Resetting the password with a second factor *)

(** A wrong recovery code is counted on every usable code. *)
Definition recovery_factor_failed (user : User) : Act string :=
  counted ← on_store (RecordMFARecoveryCodeFailure (user_ID user) now maxMFAVerificationAttempts
                        mfaRecoveryCodeLockout);
  match counted with
  | Err e => if e != ErrMFARecoveryCodeInvalid then refuse 500 "mfa_recovery_unavailable"
             else refuse 401 "invalid_mfa_factor"
  | Ok lockedUntil => if negb (IsZero lockedUntil) then refuse 429 "rate_limited"
                      else refuse 401 "invalid_mfa_factor"
  end.

(** The recovery code that was used, empty for TOTP. *)
Definition check_factor (user : User) (method code : string) : Act string :=
  if method == "totp" then
    _ ← guard_not ((len code != 6) || negb (all_digits code) ||
                   negb (verifyTOTPCode (user_MFATOTPSecret user) code now)) 401 "invalid_mfa_factor";
    mret ""
  else if method == "recovery_code" then
    _ ← guard_not (len (normalizeMFARecoveryCode code) <? minMFARecoveryCodeLength) 401 "invalid_mfa_factor";
    listed ← look_store (ListMFARecoveryCodes (user_ID user) now);
    codes ← or_refuse listed 500 "mfa_recovery_unavailable";
    _ ← guard_not (existsb (λ code, Before now (mrc_LockedUntil code)) codes) 429 "rate_limited";
    let used := match List.find (λ c, bcrypt_Compare (mrc_CodeHash c) (normalizeMFARecoveryCode code)) codes with
                | Some c => mrc_ID c
                | None => ""
                end in
    if used == "" then recovery_factor_failed user else mret used
  else refuse 400 "invalid_mfa_method".

Definition resetPasswordWithMFA (body : option (string * string * string)) : Act reply :=
  user ← requireAuthenticatedUser rq;
  _ ← guard_not (user_ArchivedAt user != None) 403 "account_archived";
  _ ← guard_not (isReadOnlyAccount user) 403 "read_only_account";
  _ ← allowAuthProbe rq MFARecoveryBudget (user_ID user);
  '(rawMethod, rawCode, rawPassword) ← bound body;
  _ ← guard_not (negb (user_MFAEnabled user) || (TrimSpace (user_MFATOTPSecret user) == ""))
        400 "mfa_not_enabled";
  let password := TrimSpace rawPassword in
  _ ← guard_not (len password <? 8) 400 "password_too_short";
  let method := first_non_empty [ToLower (TrimSpace rawMethod); "totp"] in
  recoveryCodeID ← check_factor user method (TrimSpace rawCode);
  hashed ← or_refuse (bcrypt_Generate (rq_salt rq 0) password) 500 "password_reset_failed";
  done ← on_store (CompleteMFAPasswordReset (user_ID user) recoveryCodeID hashed now);
  match done with
  | Ok _ => mret (Answered 200 "password reset successful")
  | Err e => if e == ErrMFARecoveryCodeInvalid then refuse 401 "invalid_mfa_factor"
             else refuse 500 "password_reset_failed"
  end.

(** ** Reviewed reset of a lost factor *)

(** Email possession permits an application, never a reset. *)
Definition requestMFAReset (body : option string) : Act reply :=
  let accepted := Answered 202 "verification_requested" in
  let rawEmail := default "" body in
  _ ← guard_not (hasQueryParameter rq ["email"] || (body == None) || negb (Contains rawEmail "@") ||
                 (254 <? len rawEmail)) 400 "invalid_request";
  let email := normal_email rawEmail in
  _ ← allowAuthProbe rq PasswordRecoveryBudget email;
  found ← look_store (λ s, GetUserByEmail s email);
  match found with
  | Err _ => mret accepted
  | Ok u =>
      if negb (user_Active u) || negb (user_EmailVerified u) || negb (user_MFAEnabled u) ||
         isReadOnlyAccount u then mret accepted else
      code ← or_refuse (newVerificationCode rq) 503 "recovery_unavailable";
      hash ← or_refuse (bcrypt_Generate (rq_salt rq 0) code) 503 "recovery_unavailable";
      _ ← on_store (CreateMFAResetRequest (mkMFAResetRequest (rq_ids rq 0) (user_ID u) email
            (MFAFingerprint (user_MFATOTPSecret u)) hash "pending_email" "" "" 0 now (Add now (30 * Minute))));
      mret accepted
  end.

Definition confirmMFAReset (body : option (string * string * string * bool)) : Act reply :=
  let '(rawEmail, code, reason, authorized) := default ("", "", "", false) body in
  _ ← guard_not (hasQueryParameter rq ["email"; "code"] || (body == None) || negb authorized ||
                 (len (TrimSpace reason) <? 5) || (1000 <? len reason) || (len code != 6))
        400 "invalid_request";
  let email := normal_email rawEmail in
  _ ← allowAuthProbe rq PasswordRecoveryConfirm email;
  found ← look_store (GetMFAResetRequestByEmail email);
  match found with
  | Err _ => refuse 400 "invalid_code"
  | Ok r =>
      _ ← guard_not ((mrr_Status r != "pending_email") || (5 <=? mrr_FailedAttempts r) ||
                     negb (After (mrr_ExpiresAt r) now)) 400 "invalid_code";
      if negb (bcrypt_Compare (mrr_CodeHash r) code) then
        _ ← on_store (FailMFAResetCode (mrr_ID r));
        refuse 400 "invalid_code"
      else
      confirmed ← on_store (ConfirmMFAResetRequest (mrr_ID r) (mrr_CodeHash r) (TrimSpace reason) now);
      _ ← or_refuse confirmed 409 "recovery_conflict";
      mret (Answered 202 "pending_review")
  end.

Definition requireMFAResetRoot : Act User :=
  u ← requireAdminPermission rq permissionAdminUsersRoleWrite;
  _ ← guard_not (negb (isRootAccount u) || isReadOnlyAccount u) 403 "root_only";
  mret u.

Definition forget_challenges (decision userID : string) : Act () :=
  if decision == "approved" then removeMFAChallengesForUser userID else mret tt.

(** [validID] tells whether [uuid.Parse] accepts the identifier. *)
Definition adminDecideMFAReset (validID : bool) (requestID : string)
    (body : option (string * string * string)) : Act reply :=
  actor ← requireMFAResetRoot;
  let '(decision, reason, code) := default ("", "", "") body in
  _ ← guard_not ((body == None) || ((decision != "approved") && (decision != "rejected")) ||
                 (len (TrimSpace reason) <? 5) || (1000 <? len reason)) 400 "invalid_request";
  _ ← guard_not (negb validID) 400 "invalid_request";
  _ ← allowAuthProbe rq PasswordRecoveryConfirm (user_ID actor);
  _ ← guard_not (negb (user_MFAEnabled actor) ||
                 negb (verifyTOTPCode (user_MFATOTPSecret actor) (TrimSpace code) now)) 403 "invalid_mfa_factor";
  found ← look_store (GetMFAResetRequestByID requestID);
  r ← or_refuse found 409 "recovery_conflict";
  decided ← on_store (DecideMFAResetRequest (rq_ids rq 0) requestID (user_ID actor) decision
                        (TrimSpace reason) now);
  _ ← or_refuse decided 409 "recovery_conflict";
  _ ← forget_challenges decision (mrr_UserID r);
  mret (Answered 200 decision).
End handlers.
