(* ===== verification/AdminUsers.v ===== *)
(** * Administration of accounts

    [api/admin_users.go], [api/admin_assume.go], the role and group handlers
    of [api/api.go] and the archiving of inactive free accounts of
    [api/account_lifecycle.go].  Without a database
    [syncRotatedCredentialUUIDs] does nothing. *)

From S2P Require Import Prelude GoLib Calendar Json StoreData Users Lifecycle Referral Quota Access Recovery Entitlements GoTime Tenants Vault Workspace Login AdminAccess LoginHandlers.
Open Scope Z_scope.
Open Scope bool_scope.
Open Scope go_scope.

Section handlers.
Context `{MapOrder} `{AuthLibrary} (cfg : authConfig) (rq : request).
Local Abbreviation now := (rq_now rq).

(** The account named by the path. *)
Definition path_user (userID : string) : Act User :=
  found ← look_store (λ s, GetUserByID s userID);
  or_refuse found 500 "user_lookup_failed".
Definition path_user_or_404 (userID lookupFailed : string) : Act User :=
  found ← look_store (λ s, GetUserByID s userID);
  match found with
  | Ok user => mret user
  | Err e => if e == ErrUserNotFound then refuse 404 "user_not_found" else refuse 500 lookupFailed
  end.

(** ** Creating an account with a chosen identifier *)

Definition custom_creation_error (e : error) : response :=
  if e == ErrEmailExists then (409, "email_exists")
  else if e == ErrNameExists then (409, "name_exists")
  else if e == ErrInvalidName then (400, "invalid_name")
  else (500, "user_creation_failed").

(** [generatePasswordHash]: the hash of 24 random bytes nobody is told. *)
Definition generatePasswordHash : result error string :=
  match rq_rand rq 0 with
  | Err e => Err e
  | Ok b => bcrypt_Generate (rq_salt rq 0) (Sha256.hex b)
  end.

(** [validUUID] tells whether [uuid.Parse] accepts the identifier. *)
Definition createCustomUser (validUUID : string → bool) (body : option (string * string * list string)) : Act reply :=
  requestUser ← requireAdminPermission rq permissionAdminUsersRoleWrite;
  _ ← guard_not (negb (isRootAccount requestUser)) 403 "root_only";
  '(rawEmail, rawUUID, rawGroups) ← bound body;
  let email := normal_email rawEmail in
  _ ← guard_not ((email == "") || negb (Contains email "@")) 400 "invalid_email";
  let userUUID := TrimSpace rawUUID in
  _ ← guard_not (negb (validUUID userUUID)) 400 "invalid_uuid";
  let groups := normalizeGroups rawGroups in
  _ ← guard_not (groups == []) 400 "invalid_groups";
  blacklisted ← look_store (λ s, IsBlacklisted s email);
  _ ← guard_not blacklisted 403 "email_blacklisted";
  passwordHash ← or_refuse generatePasswordHash 500 "password_generation_failed";
  '(created, user) ← create_account rq (mkUser userUUID email email LevelUser RoleUser groups [] true
     passwordHash "" false 0 0 0 0 true userUUID None None None None None) "";
  match created with
  | Err e => stop (Refused (custom_creation_error e))
  | Ok _ =>
      found ← look_store (λ s, GetUserByID s (user_ID user));
      mret (Registered (sanitizeUser now (match found with Ok u => u | Err _ => user end) None))
  end.

(** ** Roles and groups *)

Definition assignableUserRoles : list string := [RoleOperator; RoleUser; RoleReadOnly].

Definition store_role (user : User) (role message : string) : Act reply :=
  _ ← guard_not (isRootAccount user) 403 "root_protected";
  '(r, user) ← update_account rq 0 (user <| user_Role := role |>);
  _ ← or_refuse r 500 "update_failed";
  mret (UserShown message (sanitizeUser now user None)).

Definition updateUserRole (userId : string) (body : option string) : Act reply :=
  _ ← requireAdminPermission rq permissionAdminUsersRoleWrite;
  _ ← guard_not (userId == "") 400 "userId_required";
  rawRole ← bound body;
  let role := ToLower (TrimSpace rawRole) in
  _ ← guard_not (negb (contains assignableUserRoles role)) 400 "invalid_role";
  user ← path_user_or_404 userId "update_failed";
  store_role user role "role updated".

Definition resetUserRole (userId : string) : Act reply :=
  _ ← requireAdminPermission rq permissionAdminUsersRoleWrite;
  _ ← guard_not (userId == "") 400 "userId_required";
  user ← path_user_or_404 userId "update_failed";
  store_role user RoleUser "role reset".

Definition isTeamSubscriptionUser (groups : list string) : bool :=
  existsb (λ g, HasPrefix g "team:" || HasPrefix g "team-admin:" || (g == "access:dedicated-only")) groups.

Definition paid_record (record : SubscriptionRecord) : bool :=
  let paid := ToLower (TrimSpace (srec_PaymentStatus record)) in
  ((srec_SubscriptionType record == "month") || (srec_SubscriptionType record == "year")) &&
  ((paid == "paid") || (paid == "已付费") || (paid == "已支付")).

Definition validateSubscriptionOverride (actor user : User) (groups : list string) (s : memoryStore) : bool :=
  let before := contains (user_Groups user) SubscriptionUnlimitedOverrideGroup in
  let after := contains groups SubscriptionUnlimitedOverrideGroup in
  if Bool.eqb before after then true else
  if negb (IsRootRole (user_Role actor)) then false else
  if negb after then true else
  if negb (contains groups SubscriptionListedGroup) then false else
  match GetSubscriptionRecord s (user_ID user) with
  | Err _ => false
  | Ok record => paid_record record && negb (isTeamSubscriptionUser (user_Groups user))
  end.

Definition isMonthlyQuotaGroup (group : string) : bool := quota_group (TrimSpace group).

Definition replaceMonthlyQuotaGroup (existing : list string) (selected : string) : list string :=
  normalizeGroups (List.filter (λ g, negb (isMonthlyQuotaGroup g)) existing ++ [selected]).

Definition updateUserGroups (userId : string) (body : option (list string)) : Act reply :=
  actor ← requireAdminPermission rq permissionAdminUsersRoleWrite;
  _ ← guard_not (userId == "") 400 "userId_required";
  requested ← bound body;
  user ← path_user_or_404 userId "update_failed";
  _ ← guard_not (isRootAccount user) 403 "root_protected";
  _ ← guard_not (negb (IsRootRole (user_Role actor)) && negb (sameNetworkTeamRoles (user_Groups user) requested))
        403 "root_required";
  let currentPlanGroup := MonthlyQuotaGroup user in
  valid ← look_store (validateSubscriptionOverride actor user requested);
  _ ← guard_not (negb valid) 400 "invalid_subscription_override";
  _ ← guard_not (existsb (λ g, isMonthlyQuotaGroup g && (TrimSpace g != currentPlanGroup)) requested)
        400 "plan_group_requires_plan_id";
  let sourcePlan := SubscriptionSourcePlan (user_Groups user) in
  let groups := WithSubscriptionSourcePlan
    (PreserveRegistrationGroups (user_Groups user) (normalizeGroups requested)) sourcePlan in
  let groups := if currentPlanGroup != "" then replaceMonthlyQuotaGroup groups currentPlanGroup else groups in
  '(r, user) ← update_account rq 0 (user <| user_Groups := groups |>);
  _ ← or_refuse r 500 "update_failed";
  mret (UserShown "groups updated" (sanitizeUser now user None)).

(** ** Access of an account *)

Definition pauseUser (userID : string) : Act reply :=
  _ ← requireAdminPermission rq permissionAdminUsersPause;
  user ← path_user userID;
  _ ← guard_not (isRootAccount user) 403 "root_protected";
  r ← set_proxy_state rq (user_ID user) "paused";
  _ ← or_refuse r 500 "update_failed";
  mret (Answered 200 "vless access paused").

Definition resumeUser (userID : string) : Act reply :=
  _ ← requireAdminPermission rq permissionAdminUsersResume;
  user ← path_user userID;
  _ ← guard_not (isRootAccount user) 403 "root_protected";
  r ← set_proxy_state rq (user_ID user) "active";
  _ ← or_refuse r 500 "update_failed";
  mret (Answered 200 "vless access resumed").

Definition setUserActive (userID : string) (active : bool) (actor : User) : Act reply :=
  user ← path_user_or_404 userID "user_lookup_failed";
  _ ← guard_not (negb active && isRootAccount user) 403 "root_protected";
  r ← on_store (SetUserActiveWithAudit (rq_ids rq 0) now (user_ID user) active (user_ID actor));
  match r with
  | Err e => if e == ErrUserAlreadyArchived then refuse 409 "account_archived" else refuse 500 "update_failed"
  | Ok _ => mret (Answered 200 (if active then "user activated" else "user deactivated"))
  end.

Definition activateUser (userID : string) : Act reply :=
  actor ← requireAdminPermission rq permissionAdminUsersActivate;
  setUserActive userID true actor.
Definition deactivateUser (userID : string) : Act reply :=
  actor ← requireAdminPermission rq permissionAdminUsersDeactivate;
  setUserActive userID false actor.

(** [auditDetails] with its two maps present. *)
Definition auditDetails (targetUUID reason : string) (before after : list (string * any)) : gmap string any :=
  <["target_uuid" := AStr (TrimSpace targetUUID)]> (<["reason" := AStr (TrimSpace reason)]>
    (<["before" := AMap before]> (<["after" := AMap after]> ∅))).

Definition archive_error (e : error) : response :=
  if e == ErrUserNotFound then (404, "user_not_found")
  else if e == ErrUserArchiveUnsupported then (409, "archive_unsupported")
  else if e == ErrUserProtected then (403, "user_protected")
  else if e == ErrUserAlreadyArchived then (409, "user_already_archived")
  else if e == ErrUserArchiveReplayConflict then (409, "request_id_reused")
  else (500, "archive_failed").

Definition given_reason (raw : string) : Act string :=
  match requireReason raw with Ok reason => mret reason | Err r => stop (Refused r) end.

Definition deleteUser (userID rawReason requestID : string) : Act reply :=
  actor ← requireAdminPermission rq permissionAdminUsersDelete;
  reason ← given_reason rawReason;
  user ← path_user_or_404 userID "user_lookup_failed";
  let entry := mkAuditLog "" AuditActionUserArchive (user_ID actor)
    (auditDetails (user_ID user) reason
       [("role", AStr (user_Role user)); ("active", ABool (user_Active user));
        ("archived_at", ATimePtr (user_ArchivedAt user))]
       [("lifecycle_state", AStr "archived"); ("active", ABool false)]) 0 in
  r ← on_store (λ s, let '(r, _, s) := DeleteUser (rq_ids rq 0) (rq_ids rq 1) now userID entry requestID s in (r, s));
  match r with
  | Err e => stop (Refused (archive_error e))
  | Ok _ => mret (Answered 200 "user archived")
  end.

(** ** Proxy credentials *)

Definition sandboxUUIDRotationWindow : duration := Hour.

Definition ensureSandboxProxyUUID (user : User) : Act (result error unit * User) :=
  if normal_email (user_Email user) != sandboxUserEmail then mret (Ok tt, user) else
  let needsRenewal := (TrimSpace (user_ProxyUUID user) == "") ||
    match user_ProxyUUIDExpiresAt user with None => true | Some t => negb (Before now t) end in
  if negb needsRenewal then mret (Ok tt, user) else
  match rq_v7 rq 0 with
  | Err e => mret (Err e, user)
  | Ok credentialID =>
      update_account rq 1 (user <| user_ProxyUUID := credentialID |>
        <| user_ProxyUUIDExpiresAt := Some (Add now sandboxUUIDRotationWindow) |>)
  end.

(** The end of the validity asked for: a date, a number of days, or none. *)
Definition renewal_end (expiresInDays : Z) (expiresAt : string) : Act (option time) :=
  if expiresAt != "" then
    match ParseDate expiresAt with
    | None => refuse 400 "invalid_date"
    | Some t => mret (Some (UTC t))
    end
  else mret (if 0 <? expiresInDays then Some (Add now (expiresInDays * (24 * Hour))) else None).

Definition renewProxyUUID (userID : string) (body : option (Z * string)) : Act reply :=
  _ ← requireAdminPermission rq permissionAdminUsersRenewUUID;
  '(expiresInDays, expiresAt) ← bound body;
  user ← path_user userID;
  expiration ← renewal_end expiresInDays expiresAt;
  credentialID ← or_refuse (rq_v7 rq 0) 500 "uuid_generation_failed";
  '(r, user) ← update_account rq 1 (user <| user_ProxyUUIDExpiresAt := expiration |>
                                         <| user_ProxyUUID := credentialID |>);
  _ ← or_refuse r 500 "update_failed";
  mret (Answered 200 (user_ProxyUUID user)).

(** ** Blacklist *)

Definition addToBlacklist (body : option string) : Act reply :=
  _ ← requireAdminPermission rq permissionAdminBlacklistWrite;
  email ← bound body;
  _ ← change (λ st, st <| au_store := AddToBlacklist email (au_store st) |>);
  mret (Answered 200 "email added to blacklist").

Definition removeFromBlacklist (email : string) : Act reply :=
  _ ← requireAdminPermission rq permissionAdminBlacklistWrite;
  _ ← change (λ st, st <| au_store := RemoveFromBlacklist email (au_store st) |>);
  mret (Answered 200 "email removed from blacklist").

(** ** Assuming the sandbox identity *)

Definition known_sandbox (found : result error User) : Act User :=
  match found with
  | Ok user => mret user
  | Err e => if e == ErrUserNotFound then refuse 404 "sandbox_missing" else refuse 500 "sandbox_lookup_failed"
  end.

Definition adminAssume (body : option string) : Act reply :=
  adminUser ← requireAdminPermission rq permissionAdminSettingsWrite;
  _ ← guard_not (negb (isRootAccount adminUser)) 403 "root_only";
  rawEmail ← bound body;
  _ ← guard_not (normal_email rawEmail != sandboxUserEmail) 400 "invalid_target";
  found ← look_store (λ s, GetUserByEmail s sandboxUserEmail);
  sandboxUser ← known_sandbox found;
  '(r, sandboxUser) ← ensureSandboxProxyUUID sandboxUser;
  _ ← or_refuse r 500 "sandbox_uuid_rotation_failed";
  '(sandboxToken, expiresAt) ← new_session cfg rq 0 (user_ID sandboxUser) None;
  mret (SignedIn "sandbox" sandboxToken expiresAt (sanitizeUser now sandboxUser None) None).

(** ** Archiving inactive free accounts *)

Definition freeAccountArchiveAfter : duration := 100 * 24 * Hour.

Definition userLastActivity (user : User) : time :=
  match user_LastActiveAt user with
  | Some t => UTC t
  | None => if negb (IsZero (user_UpdatedAt user)) then UTC (user_UpdatedAt user) else UTC (user_CreatedAt user)
  end.

(** Run by the handlers that list accounts, on each account they show. *)
Definition archiveInactiveFreeUser (user : User) : Act (result error unit) :=
  if negb (user_Active user) || (MonthlyQuotaGroup user != MonthlyFreeQuotaLimitGroup) then mret (Ok tt) else
  let lastActivity := userLastActivity user in
  if IsZero lastActivity || (Sub now lastActivity <? freeAccountArchiveAfter) then mret (Ok tt) else
  access ← look_store (networkAccessFor now (user_ID user));
  if (acc_Mode access == "dedicated") && acc_Allowed access then mret (Ok tt) else
  '(r, user) ← update_account rq 0 (user <| user_Active := false |> <| user_ArchivedAt := Some now |>);
  match r with
  | Err e => mret (Err e)
  | Ok _ => set_proxy_state rq (user_ID user) "paused"
  end.
End handlers.
