(* ===== verification/AuthCalls.v ===== *)
(** * The calls of the account API

    One constructor per endpoint of the sign-in, recovery, MFA and account
    administration handlers, and the dispatch of [RegisterRoutes].  The last
    constructor is the check of an inactive account that the listing handlers
    run on each account they show. *)

From S2P Require Import Prelude GoLib StoreData Users Recovery Login AdminAccess LoginHandlers LoginMFA AdminUsers.
Open Scope Z_scope.
Open Scope bool_scope.
Open Scope go_scope.

Inductive authCall :=
| CRegister (body : result bool registerRequest)
| CVerifyEmail (body : option (string * string))
| CSendEmailVerification (body : option string)
| CLogin (body : option loginRequest)
| CVerifyMFALogin (body : option verifyMFARequest)
| CExchangeToken (body : option string)
| CDeleteSession
| COAuthCallback (providerName code frontendURL : string) (provider : option OAuthProvider)
| CRequestPasswordReset (body : option string)
| CConfirmPasswordReset (body : option (string * string))
| CRequestPasswordResetCode (body : option string)
| CConfirmPasswordResetCode (body : option (string * string * string))
| CSetPassword (body : option string)
| CSelfCancel
| CReactivate (body : option (string * string))
| CProvisionTOTP (key : string → string → result error (string * string))
    (body : option (string * string * string))
| CVerifyTOTP (body : option (string * string))
| CMFAStatus (queryToken headerToken queryIdentifier queryEmail : string)
| CDisableMFA (body : option string)
| CGetRecoveryCodes
| CRotateRecoveryCodes (raw : nat → result error (list Z)) (body : option string)
| CRevokeRecoveryCodes (body : option string)
| CResetPasswordWithMFA (body : option (string * string * string))
| CRequestMFAReset (body : option string)
| CConfirmMFAReset (body : option (string * string * string * bool))
| CDecideMFAReset (validID : bool) (requestID : string) (body : option (string * string * string))
| CCreateCustomUser (validUUID : string → bool) (body : option (string * string * list string))
| CUpdateUserRole (userId : string) (body : option string)
| CResetUserRole (userId : string)
| CUpdateUserGroups (userId : string) (body : option (list string))
| CPauseUser (userID : string)
| CResumeUser (userID : string)
| CActivateUser (userID : string)
| CDeactivateUser (userID : string)
| CDeleteUser (userID reason requestID : string)
| CRenewProxyUUID (userID : string) (body : option (Z * string))
| CAddToBlacklist (body : option string)
| CRemoveFromBlacklist (email : string)
| CAdminAssume (body : option string)
| CArchiveInactive (userID : string).

Section calls.
Context `{MapOrder} `{AuthLibrary} (cfg : authConfig).

Definition archive_check (rq : request) (userID : string) : Act reply :=
  user ← path_user userID;
  r ← archiveInactiveFreeUser rq user;
  _ ← or_refuse r 500 "user_archive_failed";
  mret (Answered 200 "").

Definition dispatch (rq : request) (call : authCall) : Act reply :=
  match call with
  | CRegister body => register cfg rq body
  | CVerifyEmail body => verifyEmail cfg rq body
  | CSendEmailVerification body => sendEmailVerification cfg rq body
  | CLogin body => login cfg rq body
  | CVerifyMFALogin body => verifyMFALogin cfg rq body
  | CExchangeToken body => exchangeToken rq body
  | CDeleteSession => deleteSession rq
  | COAuthCallback name code url provider => oauthCallback cfg rq name code url provider
  | CRequestPasswordReset body => requestPasswordReset cfg rq body
  | CConfirmPasswordReset body => confirmPasswordReset cfg rq body
  | CRequestPasswordResetCode body => requestPasswordResetCode cfg rq body
  | CConfirmPasswordResetCode body => confirmPasswordResetCode rq body
  | CSetPassword body => setPassword rq body
  | CSelfCancel => selfCancelFreeAccount rq
  | CReactivate body => reactivateAccount cfg rq body
  | CProvisionTOTP key body => provisionTOTP cfg rq key body
  | CVerifyTOTP body => verifyTOTP cfg rq body
  | CMFAStatus token header identifier email => mfaStatus cfg rq token header identifier email
  | CDisableMFA body => disableMFA rq body
  | CGetRecoveryCodes => getMFARecoveryCodeStatus rq
  | CRotateRecoveryCodes raw body => rotateMFARecoveryCodes rq raw body
  | CRevokeRecoveryCodes body => revokeMFARecoveryCodes rq body
  | CResetPasswordWithMFA body => resetPasswordWithMFA rq body
  | CRequestMFAReset body => requestMFAReset rq body
  | CConfirmMFAReset body => confirmMFAReset rq body
  | CDecideMFAReset validID id body => adminDecideMFAReset rq validID id body
  | CCreateCustomUser validUUID body => createCustomUser rq validUUID body
  | CUpdateUserRole id body => updateUserRole rq id body
  | CResetUserRole id => resetUserRole rq id
  | CUpdateUserGroups id body => updateUserGroups rq id body
  | CPauseUser id => pauseUser rq id
  | CResumeUser id => resumeUser rq id
  | CActivateUser id => activateUser rq id
  | CDeactivateUser id => deactivateUser rq id
  | CDeleteUser id reason requestID => deleteUser rq id reason requestID
  | CRenewProxyUUID id body => renewProxyUUID rq id body
  | CAddToBlacklist body => addToBlacklist rq body
  | CRemoveFromBlacklist email => removeFromBlacklist rq email
  | CAdminAssume body => adminAssume cfg rq body
  | CArchiveInactive id => archive_check rq id
  end.

Definition serve_call (rq : request) (call : authCall) (st : authState) : reply * authState :=
  serve (dispatch rq call) st.

(** The identifier of the account a call may create. *)
Definition new_identifier (rq : request) (call : authCall) : option string :=
  match call with
  | CRegister _ | COAuthCallback _ _ _ _ => Some (rq_ids rq 0)
  | CCreateCustomUser _ (Some (_, uuid, _)) =>
      Some (if TrimSpace uuid == "" then rq_ids rq 0 else TrimSpace uuid)
  | _ => None
  end.

(** Generated identifiers are new, and an administrator does not ask for one
    that is in use. *)
Definition fresh_call (rq : request) (call : authCall) (st : authState) : Prop :=
  match new_identifier rq call with
  | Some id => byID (au_store st) !! id = None
  | None => True
  end.

(** A run of the service. *)
Inductive served : authState → authState → Prop :=
| served_refl st : served st st
| served_step st1 st2 rq call :
    served st1 st2 → fresh_call rq call st2 → served st1 (serve_call rq call st2).2.
End calls.
