(* ===== verification/AuthInv.v ===== *)
(** * Authentication: reasoning about the handlers

    A program logic for [Act] with one invariant on the state and a fact about
    the value returned, and what the store operations of the handlers leave
    alone.  [indexed] is the part of the index invariant that every operation
    keeps, the failed ones included. *)

From S2P Require Import Prelude GoLib Calendar Json StoreData Users Lifecycle Referral ReferralSummary Quota Access Recovery RateLimit Entitlements EntitlementProps Tenants Vault Workspace Login AdminAccess LoginHandlers LoginMFA AdminUsers AuthCalls.
Open Scope Z_scope.
Open Scope bool_scope.
Open Scope go_scope.

(** ** Roles *)

(** The role and the level an account acts with. *)
Definition authority (u : User) : string * Z :=
  (user_Role (normalizeUserRoleFields u), user_Level (normalizeUserRoleFields u)).
Definition plain_authority : string * Z := (RoleUser, LevelUser).

Definition authority_of (role : string) (level : Z) : string * Z :=
  match roleToLevel (ToLower (TrimSpace role)) with
  | Some l => (ToLower (TrimSpace role), l)
  | None => match levelToRole level with Some r => (r, level) | None => plain_authority end
  end.

Lemma authority_eq u : authority u = authority_of (user_Role u) (user_Level u).
Proof.
  unfold authority, authority_of, normalizeUserRoleFields.
  destruct (roleToLevel _); [done|]. by destruct (levelToRole _).
Qed.

Lemma roleToLevel_known role l : roleToLevel role = Some l → ToLower (TrimSpace role) = role.
Proof.
  unfold roleToLevel. intros E.
  destruct (decide (role = RoleRoot)) as [->|]; [reflexivity|].
  destruct (decide (role = RoleAdmin)) as [->|]; [reflexivity|].
  destruct (decide (role = RoleOperator)) as [->|]; [reflexivity|].
  destruct (decide (role = RoleUser)) as [->|]; [reflexivity|].
  destruct (decide (role = RoleReadOnly)) as [->|]; [reflexivity|].
  rewrite !bool_decide_false in E by assumption. discriminate E.
Qed.

Lemma authority_of_idem role level :
  authority_of (authority_of role level).1 (authority_of role level).2 = authority_of role level.
Proof.
  unfold authority_of. destruct (roleToLevel (ToLower (TrimSpace role))) as [l|] eqn:E.
  - cbn [fst snd]. by rewrite (roleToLevel_known _ _ E), E.
  - destruct (levelToRole level) as [r|] eqn:El; [|done]. cbn [fst snd]. unfold levelToRole in El.
    destruct (level =? LevelAdmin) eqn:E1; [apply Z.eqb_eq in E1; injection El as <-; by rewrite E1|].
    destruct (level =? LevelOperator) eqn:E2; [apply Z.eqb_eq in E2; injection El as <-; by rewrite E2|].
    destruct (level =? LevelUser) eqn:E3; [apply Z.eqb_eq in E3; injection El as <-; by rewrite E3|].
    discriminate El.
Qed.

Lemma authority_normalize u : authority (normalizeUserRoleFields u) = authority u.
Proof.
  pose proof (authority_of_idem (user_Role u) (user_Level u)) as E.
  rewrite <-authority_eq in E. by rewrite authority_eq.
Qed.

(** What the sign-in rules read of an account, beside its credentials. *)
Definition standing (u : User) : (string * Z) * bool * option time :=
  (authority u, user_Active u, user_ArchivedAt u).

Lemma normalize_frame u :
  let v := normalizeUserRoleFields u in
  user_Active v = user_Active u ∧ user_ArchivedAt v = user_ArchivedAt u ∧
  user_MFAEnabled v = user_MFAEnabled u ∧ user_MFATOTPSecret v = user_MFATOTPSecret u ∧
  user_PasswordHash v = user_PasswordHash u ∧ user_EmailVerified v = user_EmailVerified u.
Proof.
  unfold normalizeUserRoleFields. destruct (roleToLevel _); [|destruct (levelToRole _)]; done.
Qed.

Lemma standing_normalize u : standing (normalizeUserRoleFields u) = standing u.
Proof.
  unfold standing. rewrite authority_normalize. destruct (normalize_frame u) as (-> & -> & _). done.
Qed.

(** ** The indexes *)

Record indexed (s : memoryStore) : Prop := {
  id_leads : ∀ k l, byID s !! k = Some l → ∃ u, users s !! l = Some u ∧ user_ID u = k;
  name_leads : ∀ k l, byName s !! k = Some l → ∃ u,
    users s !! l = Some u ∧ k = ToLower (user_Name u) ∧ byID s !! user_ID u = Some l;
  email_leads : ∀ k l, byEmail s !! k = Some l → ∃ u,
    users s !! l = Some u ∧ k = ToLower (user_Email u) ∧ k ≠ "" ∧ byID s !! user_ID u = Some l
}.

Lemma indexed_same s s' : same_accounts s s' → indexed s → indexed s'.
Proof. intros (Eu & Ei & En & Ee) [? ? ?]. constructor; rewrite ?Eu, ?Ei, ?En, ?Ee; done. Qed.

Lemma index_ok_indexed s : index_ok s → indexed s.
Proof.
  intros [Hi Hn He]. constructor; [|done..].
  intros k l Hk. destruct (Hi k l Hk) as (u & ? & ? & _). eauto.
Qed.

Lemma user_by_id_same s s' : same_accounts s s' → ∀ id, user_by_id s' id = user_by_id s id.
Proof. intros (Eu & Ei & _) id. unfold user_by_id, user_at. by rewrite Eu, Ei. Qed.

Lemma user_by_id_indexed s id u : indexed s → user_by_id s id = Some u →
  user_ID u = id ∧ ∃ l, byID s !! id = Some l ∧ users s !! l = Some u.
Proof.
  intros Hs. unfold user_by_id, user_at. destruct (byID s !! id) as [l|] eqn:E; [|done].
  cbn. intros Hu. destruct (id_leads s Hs _ _ E) as (v & Hv & <-). rewrite Hu in Hv. injection Hv as <-. eauto.
Qed.

(** What a lookup returns is the account filed under its identifier. *)
Lemma found_Ok s idx k u : found (user_at s idx k) = Ok u →
  ∃ l v, idx !! k = Some l ∧ users s !! l = Some v ∧ u = cloneUser v.
Proof.
  unfold found, user_at. destruct (idx !! k) as [l|]; [|done]. cbn.
  destruct (users s !! l) as [v|] eqn:E; [|done]. intros [= <-]. eauto.
Qed.

Lemma filed_user s l v : byID s !! user_ID v = Some l → users s !! l = Some v →
  user_by_id s (user_ID (cloneUser v)) = Some v.
Proof.
  intros Hl Hv. unfold user_by_id, user_at, cloneUser. by rewrite normalize_ID, Hl.
Qed.

Lemma GetUserByID_filed s id u : indexed s → GetUserByID s id = Ok u →
  user_ID u = id ∧ ∃ v, user_by_id s id = Some v ∧ u = cloneUser v.
Proof.
  intros Hs (l & v & Hl & Hv & ->)%found_Ok. destruct (id_leads s Hs _ _ Hl) as (v' & Hv' & <-).
  rewrite Hv in Hv'. injection Hv' as <-. split; [apply normalize_ID|]. exists v. split; [|done].
  unfold user_by_id, user_at. by rewrite Hl.
Qed.

Lemma GetUserByEmail_filed s email u : indexed s → GetUserByEmail s email = Ok u →
  ∃ v, user_by_id s (user_ID u) = Some v ∧ u = cloneUser v.
Proof.
  intros Hs (l & v & Hl & Hv & ->)%found_Ok. destruct (email_leads s Hs _ _ Hl) as (v' & Hv' & _ & _ & Hid).
  rewrite Hv in Hv'. injection Hv' as <-. exists v. split; [|done]. by apply (filed_user s l).
Qed.

Lemma GetUserByName_filed s name u : indexed s → GetUserByName s name = Ok u →
  ∃ v, user_by_id s (user_ID u) = Some v ∧ u = cloneUser v.
Proof.
  intros Hs. unfold GetUserByName. destruct (_ == ""); [done|].
  intros (l & v & Hl & Hv & ->)%found_Ok. destruct (name_leads s Hs _ _ Hl) as (v' & Hv' & _ & Hid).
  rewrite Hv in Hv'. injection Hv' as <-. exists v. split; [|done]. by apply (filed_user s l).
Qed.

Lemma findUserByIdentifier_filed s identifier u : indexed s → findUserByIdentifier identifier s = Ok u →
  ∃ v, user_by_id s (user_ID u) = Some v ∧ u = cloneUser v.
Proof.
  intros Hs. unfold findUserByIdentifier. destruct (GetUserByName s identifier) as [v|e] eqn:E.
  - intros [= <-]. by apply (GetUserByName_filed s identifier).
  - destruct (_ == _); [|done]. by apply GetUserByEmail_filed.
Qed.

Lemma findUserByIdentifier_same s s' identifier : same_accounts s s' →
  findUserByIdentifier identifier s' = findUserByIdentifier identifier s.
Proof.
  intros (Eu & _ & En & Ee).
  unfold findUserByIdentifier, GetUserByName, GetUserByEmail, user_at. by rewrite Eu, En, Ee.
Qed.

(** *** Changing an account in place *)

Lemma indexed_update_user s id f : keeps_keys f → indexed s → indexed (update_user s id f).
Proof.
  intros Hf [Hi Hn He]. unfold update_user. destruct (byID s !! id) as [l0|]; [|by constructor].
  assert (Hget : ∀ l u, users s !! l = Some u → ∃ u', alter f l0 (users s) !! l = Some u' ∧
    user_ID u' = user_ID u ∧ user_Name u' = user_Name u ∧ user_Email u' = user_Email u).
  { intros l u Hu. destruct (decide (l0 = l)) as [->|]; [exists (f u)|exists u];
      [|by rewrite lookup_alter_ne].
    rewrite lookup_alter_eq, Hu. by destruct (Hf u) as (?&?&?). }
  constructor; getset; intros k l Hk.
  - destruct (Hi _ _ Hk) as (u & (u' & ? & ? & _)%Hget & <-). eauto.
  - destruct (Hn _ _ Hk) as (u & (u' & ? & E1 & E2 & _)%Hget & -> & ?). exists u'. by rewrite E1, E2.
  - destruct (He _ _ Hk) as (u & (u' & ? & E1 & _ & E3)%Hget & -> & ? & ?). exists u'. by rewrite E1, E3.
Qed.

Lemma update_user_accounts s id f id' u : indexed s → user_by_id (update_user s id f) id' = Some u →
  user_by_id s id' = Some u ∨ id' = id ∧ ∃ v, user_by_id s id = Some v ∧ u = f v.
Proof.
  intros Hs. unfold user_by_id, user_at, update_user.
  destruct (byID s !! id) as [l0|] eqn:E0; [|by left]. getset.
  destruct (byID s !! id') as [l|] eqn:E; [|done]. cbn.
  destruct (decide (l0 = l)) as [<-|]; [|rewrite lookup_alter_ne by done; by left].
  rewrite lookup_alter_eq. destruct (users s !! l0) as [v|] eqn:Ev; [|done]. cbn. intros [= <-]. right.
  destruct (id_leads s Hs _ _ E) as (? & H1 & <-), (id_leads s Hs _ _ E0) as (? & H2 & <-).
  rewrite Ev in H1, H2. injection H1 as <-. injection H2 as <-. eauto.
Qed.

Lemma update_user_others s id f id' : indexed s → id' ≠ id → user_by_id (update_user s id f) id' = user_by_id s id'.
Proof.
  intros Hs Hne. unfold user_by_id, user_at, update_user.
  destruct (byID s !! id) as [l0|] eqn:E0; [|done]. getset.
  destruct (byID s !! id') as [l|] eqn:E; [|done]. cbn. apply lookup_alter_ne. intros <-.
  destruct (id_leads s Hs _ _ E) as (u & Hu & <-), (id_leads s Hs _ _ E0) as (v & Hv & <-). congruence.
Qed.

(** *** Updating an account *)

(** The credentials and the standing a successful update files. *)
Definition credentials (u : User) : string * string * bool * bool :=
  (user_PasswordHash u, user_MFATOTPSecret u, user_MFAEnabled u, user_EmailVerified u).

Lemma credentials_normalize u : credentials (normalizeUserRoleFields u) = credentials u.
Proof. unfold credentials. by destruct (normalize_frame u) as (_ & _ & -> & -> & -> & ->). Qed.

Lemma ensureProxyUUID_only newV7 b u v : ensureProxyUUID newV7 b u = Ok v →
  ∃ proxy, v = u <| user_ProxyUUID := proxy |>.
Proof.
  unfold ensureProxyUUID. destruct b; [destruct newV7; [|done]|]; intros [= <-]; [by eexists|].
  exists (user_ProxyUUID u). by destruct u.
Qed.

Lemma finishUpdate_facts now existing user name email proxy :
  let u := finishUpdate now existing user ((mergeUserUpdate existing user name email) <| user_ProxyUUID := proxy |>) in
  user_ID u = user_ID existing ∧ user_Name u = name ∧ user_Email u = email ∧
  standing u = standing user ∧ credentials u = credentials user.
Proof.
  unfold finishUpdate. cbv zeta.
  set (base := _ <| user_ArchivedAt := user_ArchivedAt user |>).
  destruct (normalize_keeps_keys base) as (Ki & Kn & Ke).
  split_and!; [exact Ki|exact Kn|exact Ke|..].
  - transitivity (standing (normalizeUserRoleFields base)); [unfold standing; by rewrite !authority_eq|].
    rewrite standing_normalize. unfold standing. by rewrite !authority_eq.
  - transitivity (credentials (normalizeUserRoleFields base)); [done|]. by rewrite credentials_normalize.
Qed.

(** Either nothing is filed and at most index entries are lost, or the account
    has a new object, to which its keys lead. *)
Lemma UpdateUser_shape newV7 now user s r out s' : UpdateUser newV7 now user s = (r, out, s') →
  (∃ e, r = Err e ∧ out = user ∧ users s' = users s ∧ byID s' = byID s ∧
    (∀ k l, byName s' !! k = Some l → byName s !! k = Some l) ∧
    (∀ k l, byEmail s' !! k = Some l → byEmail s !! k = Some l)) ∨
  (r = Ok tt ∧ ∃ existing u, let l := fresh (dom (users s)) in
    user_by_id s (user_ID user) = Some existing ∧ out = assignUser u ∧
    user_ID u = user_ID existing ∧ standing u = standing user ∧ credentials u = credentials user ∧
    users s' = <[l := u]> (users s) ∧ byID s' = <[user_ID user := l]> (byID s) ∧
    (∀ k l', byName s' !! k = Some l' → k = ToLower (user_Name u) ∧ l' = l ∨
       k ≠ ToLower (user_Name existing) ∧ byName s !! k = Some l') ∧
    (∀ k l', byEmail s' !! k = Some l' → k = ToLower (user_Email u) ∧ k ≠ "" ∧ l' = l ∨
       (k ≠ ToLower (user_Email existing) ∨ k = "") ∧ byEmail s !! k = Some l')).
Proof.
  unfold UpdateUser. destruct (user_by_id s (user_ID user)) as [existing|] eqn:Eu;
    [|intros [= <- <- <-]; left; by eexists]. cbv zeta.
  set (name := TrimSpace (user_Name user)). set (email := ToLower (TrimSpace (user_Email user))).
  set (oldN := ToLower (user_Name existing)). set (oldE := ToLower (user_Email existing)).
  destruct (name == ""); [intros [= <- <- <-]; left; by eexists|].
  destruct ((oldN != _) && _); [intros [= <- <- <-]; left; by eexists|].
  set (s2 := if oldN != ToLower name then _ else s).
  assert (users s2 = users s ∧ byID s2 = byID s ∧ byEmail s2 = byEmail s ∧
    byName s2 = if oldN != ToLower name then delete oldN (byName s) else byName s) as (U2 & I2 & E2 & N2)
    by (unfold s2; by destruct (_ != _)).
  assert (∀ k l, byName s2 !! k = Some l → byName s !! k = Some l) as Hn2.
  { rewrite N2. intros k l. destruct (_ != _); [|done]. by intros [_ ?]%lookup_delete_Some. }
  clearbody s2. destruct ((oldE != _) && _ && _).
  { intros [= <- <- <-]. left. eexists. by rewrite U2, I2, E2. }
  set (s3 := if _ && _ then _ else s2).
  assert (users s3 = users s2 ∧ byID s3 = byID s2 ∧ byName s3 = byName s2 ∧
    byEmail s3 = if (oldE != email) && (oldE != "") then delete oldE (byEmail s2) else byEmail s2)
    as (U3 & I3 & N3 & E3) by (unfold s3; by destruct (_ && _)).
  clearbody s3. destruct (ensureProxyUUID _ _ _) as [v|e] eqn:Ep.
  2:{ intros [= <- <- <-]. left. exists e. rewrite U3, I3, N3, E3, U2, I2, E2. split_and!; try done.
      intros k l. destruct (_ && _); [|done]. by intros [_ ?]%lookup_delete_Some. }
  apply ensureProxyUUID_only in Ep as (proxy & ->).
  destruct (finishUpdate_facts now existing user name email proxy) as (Fi & Fn & Fe & Fs & Fc).
  set (u := finishUpdate _ _ _ _) in *. clearbody u. unfold alloc_user. cbn [fst snd].
  intros [= <- <- <-]. right. split; [done|]. exists existing, u. cbv zeta.
  assert (email = ToLower email) as Eem by (symmetry; apply ToLower_idem).
  rewrite Fn, Fe, <-Eem, <-U2, <-U3. split_and!; try done.
  - by destruct (email == "").
  - destruct (email == ""); getset; by rewrite I3, I2.
  - intros k l' Hk. assert (<[ToLower name := fresh (dom (users s3))]> (byName s3) !! k = Some l') as Hk'
      by (revert Hk; by destruct (email == "")).
    apply lookup_insert_Some in Hk' as [[<- <-]|[Hne Hk']]; [by left|right].
    rewrite N3, N2 in Hk'. destruct (oldN != ToLower name) eqn:Eq.
    + by apply lookup_delete_Some in Hk' as [? ?].
    + bools. split; [fold oldN; congruence|done].
  - intros k l' Hk.
    assert (k = email ∧ k ≠ "" ∧ l' = fresh (dom (users s3)) ∨
            (k ≠ email ∨ email = "") ∧ byEmail s3 !! k = Some l') as [?|[Hne Hk']]; [|by left|right].
    { revert Hk. destruct (email == "") eqn:Em; getset; bools; [by auto|].
      intros [[<- <-]|[? ?]]%lookup_insert_Some; auto. }
    rewrite E3, E2 in Hk'. destruct ((oldE != email) && (oldE != "")) eqn:Eq.
    + apply lookup_delete_Some in Hk' as [? ?]. auto.
    + split; [|done]. destruct (decide (k = oldE)) as [->|]; [|by left]. right.
      apply andb_false_iff in Eq as [Eq|Eq]; bools; [|done]. destruct Hne as [?|?]; congruence.
Qed.

Lemma indexed_lost s s' : users s' = users s → byID s' = byID s →
  (∀ k l, byName s' !! k = Some l → byName s !! k = Some l) →
  (∀ k l, byEmail s' !! k = Some l → byEmail s !! k = Some l) → indexed s → indexed s'.
Proof. intros Eu Ei Hn He [? ? ?]. constructor; rewrite ?Eu, ?Ei; eauto. Qed.

Lemma UpdateUser_accounts newV7 now user s r out s' : indexed s →
  UpdateUser newV7 now user s = (r, out, s') →
  indexed s' ∧ user_ID out = user_ID user ∧ standing out = standing user ∧
  credentials out = credentials user ∧
  (∀ id u, user_by_id s' id = Some u → user_by_id s id = Some u ∨
     id = user_ID user ∧ standing u = standing user ∧ credentials u = credentials user).
Proof.
  intros Hs [(e & -> & -> & Eu & Ei & Hn & He)|(-> & existing & u & H)]%UpdateUser_shape.
  { split_and!; try done; [by apply (indexed_lost s)|].
    intros id v. unfold user_by_id, user_at. rewrite Eu, Ei. by left. }
  cbv zeta in H. destruct H as (Hold & -> & Kid & Ks & Kc & Eu & Ei & Hn & He).
  apply user_by_id_indexed in Hold as (Eid & l0 & Hl0 & Hu0); [|done].
  set (l := fresh (dom (users s))) in *.
  assert (users s !! l = None) as Hl by apply alloc_fresh.
  assert (∀ l' v, users s !! l' = Some v → users s' !! l' = Some v) as Hold'.
  { intros l' v Hv. rewrite Eu, lookup_insert_ne; [done|congruence]. }
  split_and!; [constructor|..].
  - rewrite Ei. intros k l' [[<- <-]|[Hne Hk]]%lookup_insert_Some.
    + exists u. rewrite Eu, lookup_insert_eq. split; [done|congruence].
    + destruct (id_leads s Hs _ _ Hk) as (v & Hv & <-). eauto.
  - intros k l' [[-> ->]|[Hne Hk]]%Hn.
    + exists u. rewrite Eu, Ei, Kid, Eid, !lookup_insert_eq. done.
    + destruct (name_leads s Hs _ _ Hk) as (v & Hv & -> & Hid). exists v. split_and!; [auto|done|].
      rewrite Ei, lookup_insert_ne; [done|]. intros Heq. rewrite <-Heq, Hl0 in Hid. congruence.
  - intros k l' [(-> & Hne & ->)|[Hne Hk]]%He.
    + exists u. rewrite Eu, Ei, Kid, Eid, !lookup_insert_eq. done.
    + destruct (email_leads s Hs _ _ Hk) as (v & Hv & -> & Hk' & Hid). exists v. split_and!; [auto|done|done|].
      rewrite Ei, lookup_insert_ne; [done|]. intros Heq. rewrite <-Heq, Hl0 in Hid.
      destruct Hne as [Hne|?]; [|done]. congruence.
  - rewrite assign_ID. congruence.
  - unfold assignUser. by rewrite standing_normalize.
  - unfold assignUser. by rewrite credentials_normalize.
  - intros id v. unfold user_by_id, user_at. rewrite Eu, Ei.
    destruct (decide (id = user_ID user)) as [->|Hne].
    + rewrite lookup_insert_eq. cbn. rewrite lookup_insert_eq. intros [= <-]. by right.
    + rewrite lookup_insert_ne by done. destruct (byID s !! id) as [l'|] eqn:E; [|done]. cbn.
      destruct (id_leads s Hs _ _ E) as (w & Hw & _). rewrite lookup_insert_ne by congruence. by left.
Qed.

(** No identifier is lost. *)
Definition keeps_ids (s s' : memoryStore) : Prop := ∀ k, is_Some (byID s !! k) → is_Some (byID s' !! k).

Lemma keeps_ids_insert s s' k l : byID s' = <[k := l]> (byID s) → keeps_ids s s'.
Proof. intros E k'. rewrite E, lookup_insert_is_Some'. auto. Qed.
Lemma keeps_ids_same s s' : same_accounts s s' → keeps_ids s s'.
Proof. intros (_ & E & _) k. by rewrite E. Qed.
Lemma keeps_ids_update_user s id f : keeps_ids s (update_user s id f).
Proof. intros k. unfold update_user. by destruct (byID s !! id). Qed.

Lemma UpdateUser_ids newV7 now user s r out s' : UpdateUser newV7 now user s = (r, out, s') → keeps_ids s s'.
Proof.
  intros [(e & _ & _ & _ & E & _)|(_ & existing & u & H)]%UpdateUser_shape.
  - intros k. by rewrite E.
  - cbv zeta in H. destruct H as (_ & _ & _ & _ & _ & _ & E & _). by eapply keeps_ids_insert.
Qed.

(** *** Creating an account *)

(** The fields an operation on accounts may not invent. *)
Definition core (u : User) : string * Z * option time * (string * string * bool * bool) :=
  (user_Role u, user_Level u, user_ArchivedAt u, credentials u).

Lemma core_stamp now u : core (stampUserTimes now u) = core u.
Proof.
  unfold stampUserTimes. destruct (IsZero (user_CreatedAt u)); [|by destruct (IsZero _)].
  cbv zeta. destruct (IsZero (user_UpdatedAt (u <| user_CreatedAt := now |>))); by destruct (IsZero _).
Qed.

Lemma newUserRecord_facts newID now user email name :
  standing (newUserRecord newID now user email name) = (authority user, true, user_ArchivedAt user) ∧
  credentials (newUserRecord newID now user email name) = credentials user.
Proof.
  unfold newUserRecord, standing. cbv zeta.
  set (c := if user_ID user == "" then _ else user).
  assert (core c = core user) as Hc by (unfold c; by destruct (user_ID user == "")). clearbody c.
  pose proof (core_stamp now c) as Hs. rewrite Hc in Hs. generalize dependent (stampUserTimes now c). intros d Hs.
  set (base := _ <| user_Name := name |>). assert (core base = core user) as Hb by exact Hs. clearbody base.
  injection Hb as B1 B2 B3 B4 B5 B6 B7. split.
  - destruct (normalize_frame base) as (_ & Ha & _). f_equal; [f_equal|].
    + transitivity (authority (normalizeUserRoleFields base)); [by rewrite !authority_eq|].
      rewrite authority_normalize, !authority_eq. congruence.
    + transitivity (user_ArchivedAt (normalizeUserRoleFields base)); [done|congruence].
  - transitivity (credentials (normalizeUserRoleFields base)); [done|]. rewrite credentials_normalize.
    unfold credentials. congruence.
Qed.

Lemma CreateUser_record newID newV7 now user s out s' :
  CreateUser newID newV7 now user s = (Ok tt, out, s') →
  ∃ email name missing v, out = assignUser v ∧
    ensureProxyUUID newV7 missing (newUserRecord newID now (normalizeUserRoleFields user) email name) = Ok v.
Proof.
  unfold CreateUser, alloc_user.
  set (name := TrimSpace (user_Name user)). set (email := ToLower (TrimSpace (user_Email user))).
  destruct (name == ""); [done|].
  destruct (bool_decide (is_Some (byEmail s !! email))); [done|].
  destruct (bool_decide (is_Some (byName s !! ToLower name))); [done|].
  set (base := newUserRecord _ _ _ _ _).
  destruct (ensureProxyUUID newV7 _ base) as [v|] eqn:Ep; [|done].
  intros H. injection H as <- <-. exists email, name, (TrimSpace (user_ProxyUUID base) == ""), v.
  split; [reflexivity|exact Ep].
Qed.

Lemma CreateUser_result newID newV7 now user s out s' :
  CreateUser newID newV7 now user s = (Ok tt, out, s') →
  standing out = (authority user, true, user_ArchivedAt user) ∧ credentials out = credentials user.
Proof.
  intros (email & name & missing & v & -> & Ep)%CreateUser_record.
  destruct (newUserRecord_facts newID now (normalizeUserRoleFields user) email name) as [F1 F2].
  generalize dependent (newUserRecord newID now (normalizeUserRoleFields user) email name). intros base Ep F1 F2.
  apply ensureProxyUUID_only in Ep as (proxy & ->).
  unfold assignUser. rewrite standing_normalize, credentials_normalize.
  rewrite authority_normalize in F1. rewrite credentials_normalize in F2.
  destruct (normalize_frame user) as (_ & Ea & _). rewrite Ea in F1. rewrite <-F1, <-F2.
  split; [unfold standing; by rewrite !authority_eq|done].
Qed.

(** A created account and the indexes that lead to it. *)
Lemma CreateUser_filed newID newV7 now user s out s' :
  CreateUser newID newV7 now user s = (Ok tt, out, s') →
  ∃ u, let l := fresh (dom (users s)) in out = assignUser u ∧
    user_ID u = (if user_ID user == "" then newID else user_ID user) ∧
    ToLower (user_Email u) = user_Email u ∧
    standing u = (authority user, true, user_ArchivedAt user) ∧ credentials u = credentials user ∧
    users s' = <[l := u]> (users s) ∧ byID s' = <[user_ID u := l]> (byID s) ∧
    byName s' = <[ToLower (user_Name u) := l]> (byName s) ∧
    byEmail s' = if user_Email u == "" then byEmail s else <[user_Email u := l]> (byEmail s).
Proof.
  intros H. destruct (CreateUser_result _ _ _ _ _ _ _ H) as [Hst Hcr]. apply CreateUser_linked in H
    as (u & -> & Ei & En & Ee & _ & _ & Fn & Fe & (Au & Ai & An & Ae)).
  rewrite link_byEmail in Ae. destruct (link_fields (fresh (dom (users s))) u s) as (Lu & Li & Ln).
  rewrite Lu in Au; rewrite Li in Ai; rewrite Ln in An.
  assert (El : ToLower (user_Email u) = user_Email u) by (rewrite Ee; apply ToLower_idem).
  exists u. cbv zeta. rewrite El in Ae. unfold assignUser in Hst, Hcr.
  rewrite standing_normalize in Hst. rewrite credentials_normalize in Hcr. split_and!; assumption || reflexivity.
Qed.

Lemma CreateUser_accounts newID newV7 now user s r out s' : indexed s →
  byID s !! (if user_ID user == "" then newID else user_ID user) = None →
  CreateUser newID newV7 now user s = (r, out, s') →
  indexed s' ∧
  (∀ id u, user_by_id s' id = Some u → user_by_id s id = Some u ∨
     r = Ok tt ∧ id = user_ID out ∧ standing u = (authority user, true, user_ArchivedAt user) ∧
     credentials u = credentials user) ∧
  match r with
  | Err _ => s' = s
  | Ok _ => user_ID out = (if user_ID user == "" then newID else user_ID user) ∧
            standing out = (authority user, true, user_ArchivedAt user)
  end.
Proof.
  intros Hs Hid H. destruct r as [[]|e].
  2:{ assert (s' = s) as -> by (apply CreateUser_referrals in H as (_ & _ & H); by apply H).
      split; [exact Hs|]. split; [|reflexivity]. intros id u Hu. by left. }
  apply CreateUser_filed in H as (u & H). cbv zeta in H.
  destruct H as (-> & Ei & El & Hst & Hcr & Au & Ai & An & Ae).
  set (l := fresh (dom (users s))) in *.
  assert (users s !! l = None) as Hl by apply alloc_fresh.
  assert (∀ l' v, users s !! l' = Some v → users s' !! l' = Some v) as Hold.
  { intros l' v Hv. rewrite Au, lookup_insert_ne; [done|congruence]. }
  assert (∀ k l', byID s !! k = Some l' → byID s' !! k = Some l') as Hids.
  { intros k l' Hk. rewrite Ai, lookup_insert_ne; [done|]. intros <-. rewrite Ei in Hk. congruence. }
  split_and!; [constructor|..].
  - rewrite Ai. intros k l' [[<- <-]|[Hne Hk]]%lookup_insert_Some.
    + exists u. by rewrite Au, lookup_insert_eq.
    + destruct (id_leads s Hs _ _ Hk) as (v & Hv & <-). eauto.
  - rewrite An. intros k l' [[<- <-]|[Hne Hk]]%lookup_insert_Some.
    + exists u. rewrite Au, Ai, !lookup_insert_eq. done.
    + destruct (name_leads s Hs _ _ Hk) as (v & Hv & -> & Hv'). exists v. eauto.
  - rewrite Ae. intros k l' Hk.
    assert (k = user_Email u ∧ k ≠ "" ∧ l' = l ∨ byEmail s !! k = Some l') as [(-> & Hne & ->)|Hk'].
    { revert Hk. destruct (user_Email u == "") eqn:Em; bools; [by right|].
      intros [[<- <-]|[_ ?]]%lookup_insert_Some; auto. }
    + exists u. rewrite Au, Ai, El, !lookup_insert_eq. done.
    + destruct (email_leads s Hs _ _ Hk') as (v & Hv & -> & ? & Hv'). exists v. split_and!; eauto.
  - intros id v. unfold user_by_id, user_at. rewrite Au, Ai, assign_ID.
    destruct (decide (id = user_ID u)) as [->|Hne].
    + rewrite lookup_insert_eq. cbn. rewrite lookup_insert_eq. intros [= <-]. by right.
    + rewrite lookup_insert_ne by done. destruct (byID s !! id) as [l'|] eqn:E; [|done]. cbn.
      destruct (id_leads s Hs _ _ E) as (w & Hw & _). rewrite lookup_insert_ne by congruence. by left.
  - by rewrite assign_ID.
  - unfold assignUser. by rewrite standing_normalize.
Qed.

(** Taking an account out of the indexes again. *)
Lemma indexed_unlink s id u : indexed s → user_by_id s id = Some u →
  indexed (s <| byEmail := delete (ToLower (user_Email u)) (byEmail s) |>
             <| byName := delete (ToLower (user_Name u)) (byName s) |>
             <| byID := delete id (byID s) |>).
Proof.
  intros Hs (Eid & l0 & Hl0 & Hu0)%user_by_id_indexed; [|done].
  constructor; getset.
  - intros k l [_ Hk]%lookup_delete_Some. by apply (id_leads s Hs).
  - intros k l [Hne Hk]%lookup_delete_Some. destruct (name_leads s Hs _ _ Hk) as (v & Hv & -> & Hid).
    exists v. split_and!; try done. rewrite lookup_delete_ne; [done|].
    intros Heq. rewrite <-Heq, Hl0 in Hid. congruence.
  - intros k l [Hne Hk]%lookup_delete_Some. destruct (email_leads s Hs _ _ Hk) as (v & Hv & -> & ? & Hid).
    exists v. split_and!; try done. rewrite lookup_delete_ne; [done|].
    intros Heq. rewrite <-Heq, Hl0 in Hid. congruence.
Qed.

Lemma CreateReferralAttribution_same newID now code invitee at_ s :
  same_accounts s (CreateReferralAttribution newID now code invitee at_ s).2.
Proof.
  unfold CreateReferralAttribution. cbv zeta. destruct (_ || _); [done|]. destruct (_ == _); [done|].
  by destruct (referralsByInvitee s !! _).
Qed.

Lemma CreateUserWithReferral_accounts newID newV7 now newReferralID later user code s r out s' : indexed s →
  byID s !! (if user_ID user == "" then newID else user_ID user) = None →
  CreateUserWithReferral newID newV7 now newReferralID later user code s = (r, out, s') →
  indexed s' ∧
  (∀ id u, user_by_id s' id = Some u → user_by_id s id = Some u ∨
     r = Ok tt ∧ id = user_ID out ∧ standing u = (authority user, true, user_ArchivedAt user) ∧
     credentials u = credentials user) ∧
  (r = Ok tt → user_ID out = (if user_ID user == "" then newID else user_ID user) ∧
               standing out = (authority user, true, user_ArchivedAt user)).
Proof.
  intros Hs Hid. unfold CreateUserWithReferral.
  destruct (CreateUser newID newV7 now user s) as [[r1 out1] s1] eqn:Ec.
  destruct (CreateUser_accounts _ _ _ _ _ _ _ _ Hs Hid Ec) as (H1 & Ha & Hr).
  destruct r1 as [[]|e]; [|intros [= <- <- <-]; by split_and!].
  match goal with |- context [CreateReferralAttribution ?a ?b ?c ?d ?e ?f] =>
    pose proof (CreateReferralAttribution_same a b c d e f) as Hsame;
    destruct (CreateReferralAttribution a b c d e f) as [[[]|e'] s2] end; cbn [snd] in Hsame.
  - intros [= <- <- <-]. split_and!; [by apply (indexed_same s1)|..|done].
    intros id u. rewrite (user_by_id_same s1) by done. apply Ha.
  - assert (indexed s2) as H2 by by apply (indexed_same s1).
    destruct (user_by_id s2 (user_ID out1)) as [stored|] eqn:Eu; intros [= <- <- <-].
    + split_and!; [by apply indexed_unlink| |done].
      intros id u Hu. left. unfold user_by_id, user_at in Hu. getset.
      destruct (decide (id = user_ID out1)) as [->|Hne].
      { rewrite lookup_delete_eq in Hu. done. }
      rewrite lookup_delete_ne in Hu by done. destruct (Ha id u) as [?|(_ & ? & _)]; [|done..].
      rewrite <-(user_by_id_same s1 s2) by done. exact Hu.
    + split_and!; [done| |done]. intros id u Hu. left. pose proof Hu as Hu'.
      rewrite (user_by_id_same s1) in Hu by done. destruct (Ha id u Hu) as [?|(_ & -> & _)]; [done|].
      rewrite Eu in Hu'. done.
Qed.

Lemma CreateUser_ids newID newV7 now user s r out s' :
  CreateUser newID newV7 now user s = (r, out, s') → keeps_ids s s'.
Proof.
  intros H. destruct r as [[]|e].
  - apply CreateUser_filed in H as (u & H). cbv zeta in H. destruct H as (_ & _ & _ & _ & _ & _ & E & _).
    by eapply keeps_ids_insert.
  - assert (s' = s) as -> by (apply CreateUser_referrals in H as (_ & _ & H); by apply H). by intros k.
Qed.

(** A rolled back registration removes the identifier it added. *)
Lemma CreateUserWithReferral_ids newID newV7 now newReferralID later user code s r out s' :
  byID s !! (if user_ID user == "" then newID else user_ID user) = None →
  CreateUserWithReferral newID newV7 now newReferralID later user code s = (r, out, s') → keeps_ids s s'.
Proof.
  intros Hid. unfold CreateUserWithReferral.
  destruct (CreateUser newID newV7 now user s) as [[r1 out1] s1] eqn:Ec.
  pose proof (CreateUser_ids _ _ _ _ _ _ _ _ Ec) as H1.
  destruct r1 as [[]|e]; [|by intros [= <- <- <-]].
  apply CreateUser_filed in Ec as (u & Ec). cbv zeta in Ec. destruct Ec as (-> & Ei & _).
  match goal with |- context [CreateReferralAttribution ?a ?b ?c ?d ?e ?f] =>
    pose proof (CreateReferralAttribution_same a b c d e f) as Hsame;
    destruct (CreateReferralAttribution a b c d e f) as [[[]|e'] s2] end; cbn [snd] in Hsame.
  all: assert (keeps_ids s s2) as H2 by (intros k Hk; apply (keeps_ids_same s1 s2 Hsame), H1, Hk).
  - intros [= <- <- <-]. exact H2.
  - rewrite assign_ID, Ei. destruct (user_by_id s2 _); intros [= <- <- <-]; [|exact H2].
    intros k Hk. getset. rewrite lookup_delete_ne; [by apply H2|]. intros <-. rewrite Hid in Hk. by destruct Hk.
Qed.
