(* ===== verification/AuthLogic.v ===== *)
(** * Authentication: a program logic for the handlers

    [triple P m Q E]: from a state with [P], [m] either returns a value and a
    state with [Q], or stops with an answer in a state with [E].  [safe I m φ]
    is the triple that keeps an invariant and gives a fact about the value.

    The invariants concern the accounts: [accounts_inv Q only] says that the
    standing of every account satisfies [Q] and, when [only] is set, that no
    reactivation code is pending.  Every handler keeps them when [Q] is closed
    under the changes the handlers make ([Stable]). *)

From S2P Require Import Prelude GoLib Calendar Json StoreData Users Lifecycle Referral ReferralSummary Quota Access Recovery RateLimit Entitlements EntitlementProps Tenants Vault Workspace Login AdminAccess LoginHandlers LoginMFA AdminUsers AuthCalls AuthInv.
Open Scope Z_scope.
Open Scope bool_scope.
Open Scope go_scope.

(** ** Triples *)

Definition triple {A} (P : authState → Prop) (m : Act A) (Q : A → authState → Prop) (E : authState → Prop) : Prop :=
  ∀ st, P st → match m st with (Ok a, st') => Q a st' | (Err _, st') => E st' end.
Definition safe {A} (I : authState → Prop) (m : Act A) (φ : A → Prop) : Prop :=
  triple I m (λ a st, φ a ∧ I st) I.

Lemma triple_bind {A B} P (m : Act A) R (f : A → Act B) Q E :
  triple P m R E → (∀ a, triple (R a) (f a) Q E) → triple P (m ≫= f) Q E.
Proof.
  intros Hm Hf st Hst. unfold mbind, Act_bind. specialize (Hm st Hst).
  destruct (m st) as [[a|e] st1]; [by apply Hf|done].
Qed.
Lemma triple_weaken {A} (P P' : authState → Prop) (m : Act A) (Q Q' : A → authState → Prop) (E E' : authState → Prop) :
  (∀ st, P' st → P st) → (∀ a st, Q a st → Q' a st) → (∀ st, E st → E' st) →
  triple P m Q E → triple P' m Q' E'.
Proof.
  intros HP HQ HE Hm st Hst. specialize (Hm st (HP st Hst)). destruct (m st) as [[a|e] st1]; auto.
Qed.

Section safe.
Context (I : authState → Prop).

Lemma safe_bind {A B} (m : Act A) (f : A → Act B) φ ψ :
  safe I m φ → (∀ a, φ a → safe I (f a) ψ) → safe I (m ≫= f) ψ.
Proof. intros Hm Hf. eapply triple_bind; [exact Hm|]. intros a st [Ha Hst]. by apply Hf. Qed.
Lemma safe_ret {A} (a : A) (φ : A → Prop) : φ a → safe I (mret a) φ.
Proof. by intros Ha st Hst. Qed.
Lemma safe_stop {A} r (φ : A → Prop) : safe I (stop r) φ.
Proof. by intros st Hst. Qed.
Lemma safe_refuse {A} status code (φ : A → Prop) : safe I (refuse status code) φ.
Proof. apply safe_stop. Qed.
Lemma safe_guard b status code : safe I (guard_not b status code) (λ _, b = false).
Proof. unfold guard_not. destruct b; [apply safe_refuse|by apply safe_ret]. Qed.
Lemma safe_or_refuse {A} (r : result error A) status code : safe I (or_refuse r status code) (λ a, r = Ok a).
Proof. destruct r; [by apply safe_ret|apply safe_refuse]. Qed.
Lemma safe_bound {A} (body : option A) : safe I (bound body) (λ a, body = Some a).
Proof. destruct body; [by apply safe_ret|apply safe_refuse]. Qed.
Lemma safe_look {A} (f : authState → A) (φ : A → Prop) : (∀ st, I st → φ (f st)) → safe I (look f) φ.
Proof. intros Hf st Hst. cbn. auto. Qed.
Lemma safe_look_store {A} (f : memoryStore → A) (φ : A → Prop) :
  (∀ st, I st → φ (f (au_store st))) → safe I (look_store f) φ.
Proof. intros Hf st Hst. cbn. auto. Qed.
Lemma safe_weaken {A} (m : Act A) (φ ψ : A → Prop) : safe I m φ → (∀ a, φ a → ψ a) → safe I m ψ.
Proof. intros Hm H. eapply triple_weaken; [done| |done|exact Hm]. intros a st [? ?]. auto. Qed.
Lemma safe_any {A} (m : Act A) (φ : A → Prop) : safe I m φ → safe I m (λ _, True).
Proof. intros Hm. by apply (safe_weaken m φ). Qed.
Lemma safe_if {A} (b : bool) (m n : Act A) φ :
  (b = true → safe I m φ) → (b = false → safe I n φ) → safe I (if b then m else n) φ.
Proof. destruct b; auto. Qed.
End safe.

Lemma safe_serve I h st : safe I h (λ _, True) → I st → I (serve h st).2.
Proof. intros Hh Hst. specialize (Hh st Hst). unfold serve. destruct (h st) as [[r|r] st']; naive_solver. Qed.

(** ** Steps that leave the accounts alone *)

Definition quiet (st st' : authState) : Prop :=
  same_accounts (au_store st) (au_store st') ∧ reactivationCodes st' = reactivationCodes st.
Definition steady {A} (m : Act A) : Prop := ∀ st, quiet st (m st).2.
Class Framed (I : authState → Prop) := framed : ∀ st st', quiet st st' → I st → I st'.

Lemma safe_steady {A} I `{!Framed I} (m : Act A) : steady m → safe I m (λ _, True).
Proof.
  intros Hm st Hst. specialize (Hm st). destruct (m st) as [[a|e] st']; [split; [done|]|];
    by apply (framed st).
Qed.

Lemma quiet_refl st : quiet st st.
Proof. done. Qed.
Lemma steady_ret {A} (a : A) : steady (mret a).
Proof. intros st. apply quiet_refl. Qed.
Lemma steady_stop {A} r : steady (@stop A r).
Proof. intros st. apply quiet_refl. Qed.
Lemma steady_look {A} (f : authState → A) : steady (look f).
Proof. intros st. apply quiet_refl. Qed.
Lemma steady_look_store {A} (f : memoryStore → A) : steady (look_store f).
Proof. intros st. apply quiet_refl. Qed.
Lemma steady_guard b status code : steady (guard_not b status code).
Proof. unfold guard_not. destruct b; [apply steady_stop|apply steady_ret]. Qed.
Lemma steady_or_refuse {A} (r : result error A) status code : steady (or_refuse r status code).
Proof. destruct r; [apply steady_ret|apply steady_stop]. Qed.
Lemma steady_bind {A B} (m : Act A) (f : A → Act B) : steady m → (∀ a, steady (f a)) → steady (m ≫= f).
Proof.
  intros Hm Hf st. unfold mbind, Act_bind. specialize (Hm st).
  destruct (m st) as [[a|e] st1]; [|done]. specialize (Hf a st1). cbn [snd] in Hm.
  destruct Hm as [(E1 & E2 & E3 & E4) E5], Hf as [(F1 & F2 & F3 & F4) F5].
  split; [split_and!|]; congruence.
Qed.
Lemma steady_on_store {A} (op : memoryStore → A * memoryStore) :
  (∀ s, same_accounts s (op s).2) → steady (on_store op).
Proof. intros Hop st. unfold on_store. specialize (Hop (au_store st)). by destruct (op (au_store st)). Qed.
Lemma steady_change (f : authState → authState) :
  (∀ st, au_store (f st) = au_store st ∧ reactivationCodes (f st) = reactivationCodes st) → steady (change f).
Proof. intros Hf st. destruct (Hf st) as [Es Er]. split; cbn; [by rewrite Es|done]. Qed.

(** Store operations that touch no account. *)
Create HintDb same.
#[export] Hint Extern 0 (same_accounts ?s ?s) => done : same.

Ltac same_op := intros; cbv zeta; repeat case_match; done.

Lemma CreateSession_same token id t s : same_accounts s (CreateSession token id t s).2.
Proof. done. Qed.
Lemma CreateMFASession_same token id fp t s : same_accounts s (CreateMFASession token id fp t s).2.
Proof. unfold CreateMFASession. same_op. Qed.
Lemma DeleteSession_same token s : same_accounts s (DeleteSession token s).2.
Proof. done. Qed.
Lemma CreateOAuthExchangeCode_same a b c d s : same_accounts s (CreateOAuthExchangeCode a b c d s).2.
Proof. done. Qed.
Lemma ConsumeOAuthExchangeCode_same now code s : same_accounts s (ConsumeOAuthExchangeCode now code s).2.
Proof. unfold ConsumeOAuthExchangeCode. same_op. Qed.
Lemma CreatePasswordRecoveryChallenge_same c s : same_accounts s (CreatePasswordRecoveryChallenge c s).2.
Proof. unfold CreatePasswordRecoveryChallenge. same_op. Qed.
Lemma CreatePasswordRecoveryCodeChallenge_same c d s : same_accounts s (CreatePasswordRecoveryCodeChallenge c d s).2.
Proof. unfold CreatePasswordRecoveryCodeChallenge. same_op. Qed.
Lemma InvalidatePasswordRecoveryChallenge_same id now s :
  same_accounts s (InvalidatePasswordRecoveryChallenge id now s).2.
Proof. unfold InvalidatePasswordRecoveryChallenge. same_op. Qed.
Lemma RecordPasswordRecoveryFailure_same id now n d s :
  same_accounts s (RecordPasswordRecoveryFailure id now n d s).2.
Proof. unfold RecordPasswordRecoveryFailure. same_op. Qed.
Lemma ReplaceMFARecoveryCodes_same id codes s : same_accounts s (ReplaceMFARecoveryCodes id codes s).2.
Proof. unfold ReplaceMFARecoveryCodes. same_op. Qed.
Lemma RecordMFARecoveryCodeFailure_same `{MapOrder} id now n d s :
  same_accounts s (RecordMFARecoveryCodeFailure id now n d s).2.
Proof. unfold RecordMFARecoveryCodeFailure. same_op. Qed.
Lemma RevokeMFARecoveryCodes_same id now s : same_accounts s (RevokeMFARecoveryCodes id now s).2.
Proof. done. Qed.
Lemma CreateMFAResetRequest_same `{MapOrder} r s : same_accounts s (CreateMFAResetRequest r s).2.
Proof. unfold CreateMFAResetRequest. same_op. Qed.
Lemma ConfirmMFAResetRequest_same id hash reason now s :
  same_accounts s (ConfirmMFAResetRequest id hash reason now s).2.
Proof. unfold ConfirmMFAResetRequest. same_op. Qed.
Lemma FailMFAResetCode_same id s : same_accounts s (FailMFAResetCode id s).2.
Proof. unfold FailMFAResetCode. same_op. Qed.
Lemma GetAccountQuotaState_same now id s : same_accounts s (GetAccountQuotaState now id s).2.
Proof.
  unfold GetAccountQuotaState. destruct (_ !! _); [|done]. cbn [snd].
  unfold expireMonthlyUsageResetLocked. same_op.
Qed.
Lemma UpsertAccountQuotaState_same now q s : same_accounts s (UpsertAccountQuotaState now q s).2.
Proof. unfold UpsertAccountQuotaState. same_op. Qed.
#[export] Hint Resolve CreateSession_same CreateMFASession_same DeleteSession_same
  CreateOAuthExchangeCode_same ConsumeOAuthExchangeCode_same CreatePasswordRecoveryChallenge_same
  CreatePasswordRecoveryCodeChallenge_same InvalidatePasswordRecoveryChallenge_same
  RecordPasswordRecoveryFailure_same ReplaceMFARecoveryCodes_same RecordMFARecoveryCodeFailure_same
  RevokeMFARecoveryCodes_same CreateMFAResetRequest_same ConfirmMFAResetRequest_same
  FailMFAResetCode_same GetAccountQuotaState_same UpsertAccountQuotaState_same : same.

Lemma UpsertAccountBillingProfile_same now p s : same_accounts s (UpsertAccountBillingProfile now p s).2.
Proof. unfold UpsertAccountBillingProfile. same_op. Qed.

#[export] Instance same_accounts_preorder : PreOrder same_accounts.
Proof.
  split; [by intros s|]. intros s1 s2 s3 (? & ? & ? & ?) (? & ? & ? & ?). split_and!; congruence.
Qed.

(** Relations on stores that a computation of the entitlement code keeps. *)
Section keeps.
Context (R : memoryStore → memoryStore → Prop) `{!PreOrder R}.
Definition keeps {A} (m : M memoryStore A) : Prop := ∀ s, R s (m s).2.

Lemma keeps_bind {A B} (m : M memoryStore A) (f : A → M memoryStore B) :
  keeps m → (∀ a, keeps (f a)) → keeps (m ≫= f).
Proof.
  intros Hm Hf s. unfold mbind, M_bind. specialize (Hm s). destruct (m s) as [[a|e] s1]; [|done].
  transitivity s1; [done|apply Hf].
Qed.
Lemma keeps_ret {A} (a : A) : keeps (mret a).
Proof. intros s. cbn. reflexivity. Qed.
Lemma keeps_gets {A} (f : memoryStore → A) : keeps (gets f).
Proof. intros s. cbn. reflexivity. Qed.
Lemma keeps_reads_opt {A} err (f : memoryStore → result error A) : keeps (reads_opt err f).
Proof. intros s. unfold reads_opt. destruct (f s); [|destruct (_ == _)]; cbn; reflexivity. Qed.
Lemma keeps_attempt {A} (op : M memoryStore A) : keeps op → keeps (attempt op).
Proof. intros Hop s. unfold attempt. specialize (Hop s). by destruct (op s). Qed.

(** The default plan of a new account writes a profile and a quota. *)
Lemma keeps_provision `{MapOrder} now id :
  keeps (GetAccountQuotaState now id) → (∀ q, keeps (UpsertAccountQuotaState now q)) →
  (∀ p, keeps (UpsertAccountBillingProfile now p)) → keeps (provisionFreeEntitlement now id).
Proof.
  intros Hg Hu Hp.
  assert (∀ plan, keeps (applyPlanEntitlements now id plan)) as Ha.
  { intros plan. unfold applyPlanEntitlements. destruct (_ == _); [apply keeps_ret|].
    apply keeps_bind; [apply keeps_gets|]. intros base. apply Hp. }
  assert (∀ plan l, keeps (resetQuotaForPlan now id plan l)) as Hr.
  { intros plan l. unfold resetQuotaForPlan. destruct (_ == _); [apply keeps_ret|].
    apply keeps_bind; [by apply keeps_attempt|]. intros r. cbv zeta.
    destruct (match l with [a; b] => _ | _ => _ end) as [start end_]. apply Hu. }
  unfold provisionFreeEntitlement. destruct (_ == _); [apply keeps_ret|].
  apply keeps_bind; [apply keeps_reads_opt|]. intros profile.
  apply keeps_bind. { intros s. unfold quota_state. specialize (Hg s).
    destruct (GetAccountQuotaState now id s) as [[q|e] s1]; [done|by destruct (_ == _)]. }
  intros quota. assert (keeps
    (found ← reads_opt ErrBillingPlanNotFound (λ s, GetBillingPlan s BillingPlanFree);
     let plan := default default_free_plan found in
     if negb (plan_Active plan) then mret tt else
     _ ← (match profile with Some _ => mret tt | None => applyPlanEntitlements now id plan end);
     match quota with
     | Some _ => mret tt
     | None => let '(start, end_) := naturalMonthPeriod now in resetQuotaForPlan now id plan [start; end_]
     end)) as Hrest.
  { apply keeps_bind; [apply keeps_reads_opt|]. intros found. cbv zeta. destruct (negb _); [apply keeps_ret|].
    apply keeps_bind; [destruct profile; [apply keeps_ret|apply Ha]|]. intros _.
    destruct quota; [apply keeps_ret|]. destruct (naturalMonthPeriod now). apply Hr. }
  destruct profile, quota; [apply keeps_ret|exact Hrest..].
Qed.
End keeps.

Lemma provisionFreeEntitlement_same `{MapOrder} now id s : same_accounts s (provisionFreeEntitlement now id s).2.
Proof.
  revert s. apply (keeps_provision same_accounts); repeat intros ?; auto with same.
  apply UpsertAccountBillingProfile_same.
Qed.

Lemma CreateIdentity_same newID now i s : same_accounts s (let '(_, _, s) := CreateIdentity newID now i s in (tt, s)).2.
Proof. unfold CreateIdentity. cbv zeta. by destruct (bool_decide _). Qed.
#[export] Hint Resolve provisionFreeEntitlement_same CreateIdentity_same : same.

(** ** Steps of the handlers that leave the accounts alone *)

(** [steady] runs through a handler piece built from steady steps. *)
Create HintDb steady.
#[export] Hint Resolve steady_ret steady_stop steady_look steady_look_store steady_guard steady_or_refuse : steady.
#[export] Hint Extern 1 (steady (on_store _)) => apply steady_on_store; intros; auto with same : steady.
#[export] Hint Extern 1 (steady (change _)) => apply steady_change; intros; done : steady.
#[export] Hint Extern 1 (steady (refuse _ _)) => apply steady_stop : steady.

Ltac steady_steps :=
  repeat match goal with
  | |- steady (mbind _ _) => apply steady_bind
  | |- ∀ _, _ => intros ?
  | |- steady (let _ := _ in _) => cbv zeta
  | |- steady (if ?b then _ else _) => destruct b
  | |- steady (match ?x with _ => _ end) => destruct x
  | |- steady _ => solve [auto with steady]
  end.

Section steady.
Context `{MapOrder} `{AuthLibrary} (cfg : authConfig) (rq : request).

Lemma steady_bound {A} (body : option A) : steady (bound body).
Proof. unfold bound. steady_steps. Qed.
Lemma allowAuthProbe_steady b key : steady (allowAuthProbe rq b key).
Proof.
  intros st. unfold allowAuthProbe. destruct (au_limits st b) as [l1 l2].
  destruct (Allow _ _ l1), (Allow _ _ l2). cbv zeta. by destruct (_ && _).
Qed.
Lemma createSession_steady i id fp : steady (createSession cfg rq i id fp).
Proof.
  unfold createSession. destruct (newRandomToken rq i); [|apply steady_ret]. cbv zeta.
  apply steady_bind; [|intros; apply steady_ret]. apply steady_on_store. intros s.
  destruct fp; auto with same.
Qed.
Lemma new_session_steady i id fp : steady (new_session cfg rq i id fp).
Proof. unfold new_session. apply steady_bind; [apply createSession_steady|]. steady_steps. Qed.
Lemma removeSession_steady token : steady (removeSession token).
Proof. unfold removeSession. steady_steps. Qed.
Lemma rejectIfBillingSuspended_steady id : steady (rejectIfBillingSuspended rq id).
Proof. unfold rejectIfBillingSuspended. steady_steps. Qed.
Lemma set_proxy_state_steady id state : steady (set_proxy_state rq id state).
Proof. unfold set_proxy_state. steady_steps. Qed.
Lemma updateMFAChallenge_steady token f : steady (updateMFAChallenge rq token f).
Proof.
  intros st. unfold updateMFAChallenge. cbv zeta. destruct (mfaChallenges st !! token); [|done].
  destruct (After _ _); [done|]. destruct f as [f|]; [|done]. by destruct (f _).
Qed.
Lemma lookupMFAChallenge_steady token : steady (lookupMFAChallenge rq token).
Proof. apply updateMFAChallenge_steady. Qed.
Lemma refreshMFAChallenge_steady token : steady (refreshMFAChallenge cfg rq token).
Proof. apply updateMFAChallenge_steady. Qed.
Lemma createMFAChallenge_steady i id : steady (createMFAChallenge cfg rq i id).
Proof. unfold createMFAChallenge. steady_steps. Qed.
Lemma removeMFAChallenge_steady token : steady (removeMFAChallenge token).
Proof. unfold removeMFAChallenge. steady_steps. Qed.
Lemma removeMFAChallengesForUser_steady id : steady (removeMFAChallengesForUser id).
Proof. unfold removeMFAChallengesForUser. steady_steps. Qed.
Lemma lookupEmailVerification_steady email : steady (lookupEmailVerification rq email).
Proof. unfold lookupEmailVerification, removeEmailVerification. steady_steps. Qed.
Lemma removeEmailVerification_steady email : steady (removeEmailVerification email).
Proof. unfold removeEmailVerification. steady_steps. Qed.
Lemma recordEmailVerificationFailure_steady email : steady (recordEmailVerificationFailure rq email).
Proof. unfold recordEmailVerificationFailure. steady_steps. Qed.
Lemma enqueueEmailVerification_steady user : steady (enqueueEmailVerification cfg rq user).
Proof. unfold enqueueEmailVerification. steady_steps. Qed.
Lemma lookupRegistrationVerification_steady email : steady (lookupRegistrationVerification rq email).
Proof. unfold lookupRegistrationVerification, removeRegistrationVerification. steady_steps. Qed.
Lemma removeRegistrationVerification_steady email : steady (removeRegistrationVerification email).
Proof. unfold removeRegistrationVerification. steady_steps. Qed.
Lemma recordRegistrationVerificationFailure_steady email : steady (recordRegistrationVerificationFailure rq email).
Proof. unfold recordRegistrationVerificationFailure. steady_steps. Qed.
Lemma issueRegistrationVerification_steady email : steady (issueRegistrationVerification cfg rq email).
Proof. unfold issueRegistrationVerification. steady_steps. Qed.
Lemma markRegistrationVerified_steady email : steady (markRegistrationVerified rq email).
Proof. unfold markRegistrationVerified. steady_steps. Qed.
Lemma enqueuePasswordReset_steady user : steady (enqueuePasswordReset cfg rq user).
Proof. unfold enqueuePasswordReset. steady_steps. Qed.
Lemma enqueuePasswordResetCode_steady user : steady (enqueuePasswordResetCode cfg rq user).
Proof. unfold enqueuePasswordResetCode. steady_steps. Qed.
Lemma issueOAuthExchangeCode_steady i token t : steady (issueOAuthExchangeCode cfg rq i token t).
Proof. unfold issueOAuthExchangeCode. steady_steps. Qed.
Lemma offered_challenge_steady user : steady (offered_challenge cfg rq user).
Proof.
  unfold offered_challenge. destruct (isReadOnlyAccount user); [apply steady_ret|].
  apply steady_bind; [apply createMFAChallenge_steady|]. intros. apply steady_ret.
Qed.
Lemma drop_registration_code_steady email : steady (drop_registration_code cfg email).
Proof.
  unfold drop_registration_code.
  destruct (_ && _); [apply removeRegistrationVerification_steady|apply steady_ret].
Qed.
Lemma forget_challenges_steady decision id : steady (forget_challenges decision id).
Proof.
  unfold forget_challenges. destruct (_ == _); [apply removeMFAChallengesForUser_steady|apply steady_ret].
Qed.
Lemma check_registration_code_steady email code : steady (check_registration_code cfg rq email code).
Proof.
  unfold check_registration_code. destruct (_ && _); [|apply steady_ret].
  apply steady_bind; [apply steady_guard|intros _]. apply steady_bind; [apply lookupRegistrationVerification_steady|].
  steady_steps.
Qed.
Lemma accepted_referral_steady raw : steady (accepted_referral rq raw).
Proof. unfold accepted_referral. steady_steps. Qed.
Lemma registration_body_steady body : steady (registration_body body).
Proof. unfold registration_body. steady_steps. Qed.
Lemma known_user_steady found : steady (known_user found).
Proof. unfold known_user. steady_steps. Qed.
Lemma known_challenge_steady found stale : steady (known_challenge found stale).
Proof. unfold known_challenge. steady_steps. Qed.
Lemma known_sandbox_steady found : steady (known_sandbox found).
Proof. unfold known_sandbox. steady_steps. Qed.
Lemma given_reason_steady raw : steady (given_reason raw).
Proof. unfold given_reason. steady_steps. Qed.
Lemma renewal_end_steady days date : steady (renewal_end rq days date).
Proof. unfold renewal_end. steady_steps. Qed.
Lemma recovery_factor_failed_steady user : steady (recovery_factor_failed rq user).
Proof. unfold recovery_factor_failed. steady_steps. Qed.
Lemma check_factor_steady user method code : steady (check_factor rq user method code).
Proof.
  unfold check_factor. destruct (_ == "totp"); [steady_steps|].
  destruct (_ == "recovery_code"); [|apply steady_stop].
  do 4 (apply steady_bind; [auto with steady|intros ?]). cbv zeta.
  destruct (_ == ""); [apply recovery_factor_failed_steady|apply steady_ret].
Qed.
Lemma check_password_steady user identifier password totp : steady (check_password user identifier password totp).
Proof. unfold check_password. steady_steps. Qed.
Lemma mail_answer_steady o : steady (mail_answer o).
Proof. unfold mail_answer. steady_steps. Qed.
Lemma check_role_steady permission user : steady (check_role rq permission user).
Proof. unfold check_role. steady_steps. Qed.
Lemma requireAdminPermission_steady permission : steady (requireAdminPermission rq permission).
Proof.
  unfold requireAdminPermission. steady_steps. apply check_role_steady.
Qed.
Lemma invalidate_steady id : steady (invalidate rq id).
Proof. unfold invalidate. steady_steps. Qed.
End steady.
#[export] Hint Resolve steady_bound allowAuthProbe_steady createSession_steady new_session_steady
  removeSession_steady rejectIfBillingSuspended_steady set_proxy_state_steady updateMFAChallenge_steady
  lookupMFAChallenge_steady refreshMFAChallenge_steady createMFAChallenge_steady removeMFAChallenge_steady removeMFAChallengesForUser_steady
  lookupEmailVerification_steady removeEmailVerification_steady recordEmailVerificationFailure_steady
  enqueueEmailVerification_steady lookupRegistrationVerification_steady
  removeRegistrationVerification_steady recordRegistrationVerificationFailure_steady
  issueRegistrationVerification_steady markRegistrationVerified_steady enqueuePasswordReset_steady
  enqueuePasswordResetCode_steady issueOAuthExchangeCode_steady invalidate_steady
  offered_challenge_steady drop_registration_code_steady forget_challenges_steady
  check_registration_code_steady accepted_referral_steady registration_body_steady known_user_steady
  known_challenge_steady known_sandbox_steady given_reason_steady renewal_end_steady
  recovery_factor_failed_steady check_factor_steady check_password_steady mail_answer_steady
  requireAdminPermission_steady : steady.
