(* ===== verification/AuthSafe.v ===== *)
(** * Authentication: invariants of the accounts

    Every call keeps the account table indexed, and keeps any property of the
    standing of the accounts that is closed under the changes the handlers
    make. *)

From S2P Require Import Prelude GoLib Calendar Json StoreData Users Lifecycle Referral Quota Access Recovery RateLimit Entitlements Tenants Vault Workspace Login AdminAccess LoginHandlers LoginMFA AdminUsers AuthCalls AuthInv AuthLogic.
Open Scope Z_scope.
Open Scope bool_scope.
Open Scope go_scope.

Abbreviation Standing := ((string * Z) * bool * option time)%type.

(** Closed under disabling, archiving and restoring an account (an archived
    one only where reactivation codes may be pending, [only = false]), and true
    of a new one with an identifier in [N]. *)
Class Stable (N : string → Prop) (Q : string → Standing → Prop) (only : bool) := {
  stable_disable : ∀ id a b t, Q id (a, b, t) → Q id (a, false, t);
  stable_archive : ∀ id a b t t', Q id (a, b, t) → Q id (a, false, Some t');
  stable_on : ∀ id a b t, (only = true → t = None) → Q id (a, b, t) → Q id (a, true, None);
  stable_new : ∀ id, N id → Q id (plain_authority, true, None)
}.

(** The accounts of [D] are there and every account satisfies [Q]; with
    [only], no reactivation code is pending. *)
Definition accounts_inv (D : string → Prop) (Q : string → Standing → Prop) (only : bool) (st : authState) : Prop :=
  indexed (au_store st) ∧
  (∀ id u, user_by_id (au_store st) id = Some u → Q id (standing u)) ∧
  (∀ id, D id → is_Some (byID (au_store st) !! id)) ∧
  (only = true → reactivationCodes st = ∅).

Section inv.
Context `{MapOrder} `{AuthLibrary} (cfg : authConfig) (rq : request).
Context (N D : string → Prop) (Q : string → Standing → Prop) (only : bool) `{!Stable N Q only}.
(** Where reactivation codes are tracked, an archived account is not active. *)
Context (Hexcl : only = true → ∀ id a t, ¬ Q id (a, true, Some t)).
Local Abbreviation I := (accounts_inv D Q only).

#[local] Instance accounts_inv_framed : Framed I.
Proof.
  intros st st' [Hs Hr] (Hi & Hq & Hd & Hc). split_and!; [by apply (indexed_same (au_store st))|..|by rewrite Hr].
  - intros id u. rewrite (user_by_id_same (au_store st)) by done. apply Hq.
  - intros id Hid. by apply (keeps_ids_same _ _ Hs), Hd.
Qed.

Definition good (u : User) : Prop := Q (user_ID u) (standing u).

Lemma good_clone st id v : I st → user_by_id (au_store st) id = Some v → good (cloneUser v).
Proof.
  intros (Hi & Hq & _) Hv. destruct (user_by_id_indexed _ _ _ Hi Hv) as (<- & _).
  unfold good, cloneUser. rewrite normalize_ID, standing_normalize. by apply Hq.
Qed.
Lemma good_by_id st id u : I st → GetUserByID (au_store st) id = Ok u → good u.
Proof. intros HI (_ & v & Hv & ->)%GetUserByID_filed; [by apply (good_clone st id)|apply HI]. Qed.
Lemma good_by_email st email u : I st → GetUserByEmail (au_store st) email = Ok u → good u.
Proof. intros HI (v & Hv & ->)%GetUserByEmail_filed; [by eapply good_clone|apply HI]. Qed.
Lemma good_by_identifier st identifier u : I st → findUserByIdentifier identifier (au_store st) = Ok u → good u.
Proof. intros HI (v & Hv & ->)%findUserByIdentifier_filed; [by eapply good_clone|apply HI]. Qed.

(** A change of the other fields. *)
Lemma good_frame u v : good u → user_ID v = user_ID u → user_Role v = user_Role u → user_Level v = user_Level u →
  user_Active v = user_Active u → user_ArchivedAt v = user_ArchivedAt u → good v.
Proof. unfold good, standing. intros Hu -> Er El -> ->. by rewrite authority_eq, Er, El, <-authority_eq. Qed.
Lemma good_off u v : good u → user_ID v = user_ID u → user_Role v = user_Role u → user_Level v = user_Level u →
  user_Active v = false → user_ArchivedAt v = user_ArchivedAt u ∨ (∃ t, user_ArchivedAt v = Some t) → good v.
Proof.
  unfold good, standing. intros Hu -> Er El -> Ht. rewrite authority_eq, Er, El, <-authority_eq.
  destruct Ht as [->|[t ->]]; [by eapply stable_disable|by eapply stable_archive].
Qed.
Lemma good_restored u v : only = false → good u → user_ID v = user_ID u → user_Role v = user_Role u →
  user_Level v = user_Level u → user_Active v = true → user_ArchivedAt v = None → good v.
Proof.
  unfold good, standing. intros Ho Hu -> Er El -> ->. rewrite authority_eq, Er, El, <-authority_eq.
  eapply stable_on; [|exact Hu]. by rewrite Ho.
Qed.

(** *** Store operations on accounts *)

Lemma update_account_safe i user : good user → safe I (update_account rq i user) (λ ru, good ru.2).
Proof.
  intros Hu st (Hi & Hq & Hd & Hc). unfold update_account, on_store.
  destruct (UpdateUser (rq_v7 rq i) (rq_now rq) user (au_store st)) as [[r out] s'] eqn:E.
  destruct (UpdateUser_accounts _ _ _ _ _ _ _ Hi E) as (Hi' & Eid & Est & _ & Hacc). split.
  - unfold good. cbn. by rewrite Eid, Est.
  - split_and!; [done| | |done].
    + intros id u [Hold|(-> & -> & _)]%Hacc; [by apply Hq|done].
    + intros id Hid. by apply (UpdateUser_ids _ _ _ _ _ _ _ E), Hd.
Qed.

Lemma create_account_triple user code :
  authority user = plain_authority → user_ArchivedAt user = None →
  N (if user_ID user == "" then rq_ids rq 0 else user_ID user) →
  triple (λ st, I st ∧ byID (au_store st) !! (if user_ID user == "" then rq_ids rq 0 else user_ID user) = None)
    (create_account rq user code) (λ ru st, (ru.1 = Ok tt → good ru.2) ∧ I st) I.
Proof.
  intros Ha Ht HN st [(Hi & Hq & Hd & Hc) Hid]. unfold create_account, on_store.
  destruct (code != "") eqn:Ecode.
  - destruct (CreateUserWithReferral _ _ _ _ _ _ _ _) as [[r out] s'] eqn:E.
    destruct (CreateUserWithReferral_accounts _ _ _ _ _ _ _ _ _ _ _ Hi Hid E) as (Hi' & Hacc & Hr).
    rewrite Ha, Ht in *. split.
    + cbn. intros Hok. destruct (Hr Hok) as [Eid Hst]. unfold good. rewrite Hst, Eid. by apply stable_new.
    + split_and!; [done| | |done].
      * intros id u [Hold|(Hok & -> & -> & _)]%Hacc; [by apply Hq|].
        destruct (Hr Hok) as [-> _]. by apply stable_new.
      * intros id HD. by apply (CreateUserWithReferral_ids _ _ _ _ _ _ _ _ _ _ _ Hid E), Hd.
  - destruct (CreateUser _ _ _ _ _) as [[r out] s'] eqn:E.
    destruct (CreateUser_accounts _ _ _ _ _ _ _ _ Hi Hid E) as (Hi' & Hacc & Hr).
    rewrite Ha, Ht in *. split.
    + cbn. intros ->. destruct Hr as [Eid Hst]. unfold good. rewrite Hst, Eid. by apply stable_new.
    + split_and!; [done| | |done].
      * intros id u [Hold|(-> & -> & -> & _)]%Hacc; [by apply Hq|].
        destruct Hr as [-> _]. by apply stable_new.
      * intros id HD. by apply (CreateUser_ids _ _ _ _ _ _ _ _ E), Hd.
Qed.

(** An operation that changes one account in place. *)
Lemma in_place_safe {A} (op : memoryStore → A * memoryStore) :
  (∀ s, same_accounts s (op s).2 ∨ ∃ id f, keeps_keys f ∧ same_accounts (update_user s id f) (op s).2 ∧
     ∀ v, user_by_id s id = Some v → Q id (standing v) → Q id (standing (f v))) →
  safe I (on_store op) (λ _, True).
Proof.
  intros Hop st HI. unfold on_store. specialize (Hop (au_store st)).
  destruct (op (au_store st)) as [a s']. cbn [snd] in Hop. split; [done|].
  destruct Hop as [Hsame|(id & f & Hf & Hsame & HQ)].
  - by apply (framed st).
  - destruct HI as (Hi & Hq & Hd & Hc). split_and!; [|..|done].
    + apply (indexed_same _ _ Hsame). by apply indexed_update_user.
    + intros id' u. cbn. rewrite (user_by_id_same _ _ Hsame). intros Hu.
      destruct (update_user_accounts _ _ _ _ _ Hi Hu) as [?|(-> & v & Hv & ->)]; [by apply Hq|].
      apply HQ; [done|by apply Hq].
    + intros id' Hid. by apply (keeps_ids_same _ _ Hsame), keeps_ids_update_user, Hd.
Qed.

Lemma update_user_same s s' id f : same_accounts s s' → same_accounts (update_user s id f) (update_user s' id f).
Proof.
  intros (Eu & Ei & En & Ee). unfold update_user. rewrite Ei. destruct (byID s !! id); [|done].
  by rewrite Eu.
Qed.

Lemma keeps_standing id (f : User → User) v :
  (∀ u, user_Role (f u) = user_Role u ∧ user_Level (f u) = user_Level u ∧ user_Active (f u) = user_Active u ∧
        user_ArchivedAt (f u) = user_ArchivedAt u) → Q id (standing v) → Q id (standing (f v)).
Proof.
  intros Hf. destruct (Hf v) as (Er & El & Ea & Et). unfold standing.
  by rewrite (authority_eq (f v)), Er, El, Ea, Et, <-authority_eq.
Qed.

Lemma CompletePasswordRecovery_safe id hash now : safe I (on_store (CompletePasswordRecovery id hash now)) (λ _, True).
Proof.
  apply in_place_safe. intros s. unfold CompletePasswordRecovery.
  destruct (passwordRecovery s !! id) as [c|]; [|by left]. destruct (_ || _); [by left|].
  destruct (user_by_id s (prc_UserID c)); [|by left]. right.
  exists (prc_UserID c), (λ u, u <| user_PasswordHash := hash |>). split_and!; [done|done|].
  intros v _. by apply keeps_standing.
Qed.
Lemma CompleteMFAPasswordReset_safe id code hash now :
  safe I (on_store (CompleteMFAPasswordReset id code hash now)) (λ _, True).
Proof.
  apply in_place_safe. intros s. unfold CompleteMFAPasswordReset.
  destruct (user_by_id s id); [|by left]. destruct (_ || _); [by left|]. cbv zeta.
  assert (∀ v, user_by_id s id = Some v → Q id (standing v) → Q id (standing (v <| user_PasswordHash := hash |>)))
    as HQ by (intros v _; by apply (keeps_standing id (λ u, u <| user_PasswordHash := hash |>))).
  destruct (code == ""); [right; by exists id, (λ u, u <| user_PasswordHash := hash |>)|].
  destruct (mfaRecoveryCodes s !! code); [|by left]. destruct (_ || _); [by left|].
  right. exists id, (λ u, u <| user_PasswordHash := hash |>). split_and!; [done| |done].
  match goal with |- same_accounts (update_user s _ ?f) (_, ?t <| sessions := _ |>).2 =>
    transitivity t; [by apply update_user_same|done] end.
Qed.
Lemma DecideMFAResetRequest_safe newID id actor decision reason now :
  safe I (on_store (DecideMFAResetRequest newID id actor decision reason now)) (λ _, True).
Proof.
  apply in_place_safe. intros s. unfold DecideMFAResetRequest.
  destruct (user_by_id s actor); [|by left]. destruct (mfaResetRequests s !! id) as [r|]; [|by left].
  destruct (_ || _); [by left|]. destruct (user_by_id s (mrr_UserID r)); [|by left].
  destruct (negb _); [by left|]. destruct (decision == "approved"); [right|by left].
  exists (mrr_UserID r), clear_mfa. split_and!; [done|done|]. intros v _. by apply keeps_standing.
Qed.
Lemma SetUserActiveWithAudit_safe newID now id active actor :
  safe I (on_store (SetUserActiveWithAudit newID now id active actor)) (λ _, True).
Proof.
  apply in_place_safe. intros s. unfold SetUserActiveWithAudit. destruct (_ == ""); [by left|].
  destruct (user_by_id s id) as [user|] eqn:Eu; [|by left].
  destruct (active && _) eqn:Ea; [by left|]. destruct (Bool.eqb _ _); [by left|]. cbv zeta. right.
  exists id, (λ u, u <| user_Active := active |> <| user_UpdatedAt := now |>). split_and!; [done|done|].
  intros v Hv. rewrite Eu in Hv. injection Hv as <-. unfold standing. rewrite !authority_eq. getset.
  destruct active; [|by apply stable_disable]. apply andb_false_iff in Ea as [?|Ea]; [done|].
  apply negb_false_iff, bool_decide_eq_true in Ea. rewrite Ea. by apply (stable_on (only := only)).
Qed.
Lemma DeleteUser_safe newID transition now id entry requestID :
  safe I (on_store (λ s, let '(r, _, s) := DeleteUser newID transition now id entry requestID s in (r, s))) (λ _, True).
Proof.
  apply in_place_safe. intros s. unfold DeleteUser. destruct (validateUserArchiveAudit id entry); [by left|].
  cbv zeta. destruct (if TrimSpace requestID != "" then _ else None); [destruct (_ || _); by left|].
  destruct (user_by_id s id) as [user|]; [|by left]. destruct (user_ArchivedAt user != None); [by left|].
  destruct (_ || _); [by left|]. destruct (map_any _ _); [by left|]. right.
  exists id, (archived now). split_and!; [done|done|].
  intros v _. unfold standing, archived. rewrite !authority_eq. getset. by eapply stable_archive.
Qed.

(** *** Automation *)

Lemma safe_reads {A} (f : memoryStore → A) : safe I (look_store f) (λ a, ∃ st, I st ∧ a = f (au_store st)).
Proof. apply safe_look_store. eauto. Qed.
Lemma safe_sees {A} (f : authState → A) : safe I (look f) (λ a, ∃ st, I st ∧ a = f st).
Proof. apply safe_look. eauto. Qed.

Lemma good_read_id id r u : (∃ st, I st ∧ r = GetUserByID (au_store st) id) → r = Ok u → good u.
Proof. intros (st & HI & ->). by apply good_by_id. Qed.
Lemma good_read_email e r u : (∃ st, I st ∧ r = GetUserByEmail (au_store st) e) → r = Ok u → good u.
Proof. intros (st & HI & ->). by apply good_by_email. Qed.
Lemma good_read_identifier e r u : (∃ st, I st ∧ r = findUserByIdentifier e (au_store st)) → r = Ok u → good u.
Proof. intros (st & HI & ->). by apply good_by_identifier. Qed.

Ltac is_good :=
  solve [ eassumption | eapply good_read_id; eassumption | eapply good_read_email; eassumption
        | eapply good_read_identifier; eassumption
        | match goal with H : ∃ st, I st ∧ Ok _ = _ |- good _ =>
            first [ eapply good_read_id; [exact H|reflexivity] | eapply good_read_email; [exact H|reflexivity]
                  | eapply good_read_identifier; [exact H|reflexivity] ] end ].
Ltac good_solve :=
  first [ is_good | eapply good_frame; [is_good|reflexivity..] 
        | eapply good_off; [is_good|reflexivity..|first [by left|by right; eexists]] ].
Ltac safe_atom :=
  first [ apply safe_guard | apply safe_bound | apply safe_or_refuse | apply safe_reads | apply safe_sees
        | solve [apply update_account_safe; good_solve]
        | apply safe_steady; solve [auto with typeclass_instances | auto with steady] ].
Ltac safe_steps :=
  repeat match goal with
  | |- ∀ _, _ => intros ?
  | x : () |- _ => destruct x
  | |- safe _ (mbind _ _) _ => eapply safe_bind; [solve [safe_atom]|]; cbn beta
  | |- safe _ (let '(_, _) := ?p in _) _ => destruct p; cbn [fst snd] in *
  | |- safe _ (if _ then _ else _) _ => apply safe_if; intros ?
  | |- safe _ (match ?x with _ => _ end) _ => destruct x eqn:?
  | |- safe _ (mret _) (λ _, True) => by apply safe_ret
  | |- safe _ (stop _) _ => apply safe_stop
  | |- safe _ (refuse _ _) _ => apply safe_refuse
  | |- safe _ _ _ => progress cbv zeta
  end.

(** *** Pieces that return an account *)

Lemma touchUserActivity_safe user : good user → safe I (touchUserActivity rq user) good.
Proof.
  intros Hu. unfold touchUserActivity. apply safe_if; intros _; [by apply safe_ret|].
  apply safe_if; intros _; [by apply safe_ret|]. safe_steps. by apply safe_ret.
Qed.

Lemma requireAuthenticatedUser_safe : safe I (requireAuthenticatedUser rq) good.
Proof.
  unfold requireAuthenticatedUser. safe_steps.
  apply touchUserActivity_safe. is_good.
Qed.

Lemma check_role_safe permission user : safe I (check_role rq permission user) (λ _, True).
Proof. unfold check_role. safe_steps. Qed.
Lemma requireAdminPermission_safe permission : safe I (requireAdminPermission rq permission) (λ _, True).
Proof. unfold requireAdminPermission. safe_steps. apply check_role_safe. Qed.
Lemma path_user_safe id : safe I (path_user id) good.
Proof. unfold path_user. safe_steps. eapply safe_weaken; [apply safe_or_refuse|]. intros u Hu. is_good. Qed.
Lemma path_user_or_404_safe id code : safe I (path_user_or_404 id code) good.
Proof. unfold path_user_or_404. safe_steps. apply safe_ret. is_good. Qed.

Lemma mark_verified_safe user failure : good user → safe I (mark_verified rq user failure) good.
Proof.
  intros Hu. unfold mark_verified. apply safe_if; intros _; [by apply safe_ret|]. safe_steps. by apply safe_ret.
Qed.
Lemma reset_readonly_mfa_safe user : good user → safe I (reset_readonly_mfa rq user) good.
Proof.
  intros Hu. unfold reset_readonly_mfa, without_mfa. apply safe_if; intros _; [|by apply safe_ret].
  safe_steps. by apply safe_ret.
Qed.
Lemma known_user_safe found : safe I (known_user found) (λ u, found = Ok u).
Proof. unfold known_user. safe_steps. by apply safe_ret. Qed.
Lemma known_sandbox_safe found : safe I (known_sandbox found) (λ u, found = Ok u).
Proof. unfold known_sandbox. safe_steps. by apply safe_ret. Qed.

(** Reactivation codes. *)
Lemma removeReactivationCode_safe email : safe I (removeReactivationCode email) (λ _, True).
Proof.
  intros st (Hi & Hq & Hd & Hc). split; [done|]. do 3 (split; [done|]). intros Ho. cbn.
  by rewrite (Hc Ho), delete_empty.
Qed.
Lemma recordReactivationCodeFailure_safe email : safe I (recordReactivationCodeFailure rq email) (λ _, True).
Proof.
  intros st (Hi & Hq & Hd & Hc). unfold recordReactivationCodeFailure, look, change, mbind, Act_bind. cbv zeta.
  destruct (reactivationCodes st !! normal_email email) as [e|] eqn:E; [|done].
  split; [done|]. do 3 (split; [done|]). intros Ho. by rewrite (Hc Ho), lookup_empty in E.
Qed.
Lemma enqueueReactivationCode_safe user t : good user → user_Active user = true → user_ArchivedAt user = Some t →
  safe I (enqueueReactivationCode cfg rq user) (λ _, True).
Proof.
  intros Hu Ha Ht. unfold good, standing in Hu. rewrite Ha, Ht in Hu.
  assert (only = false) as Hno by (destruct only; [by destruct (Hexcl eq_refl _ _ _ Hu)|done]).
  unfold enqueueReactivationCode. destruct (newVerificationCode rq); [|by apply safe_ret]. cbv zeta.
  eapply safe_bind with (φ := λ _, True).
  { intros st (Hi & Hq & Hd & Hc). split; [done|]. do 3 (split; [done|]). by rewrite Hno. }
  intros _ _. destruct (rq_mail rq); [by apply safe_ret|..].
  all: eapply safe_bind; [apply removeReactivationCode_safe|intros _ _; by apply safe_ret].
Qed.
Lemma check_account_safe user : good user → safe I (check_account cfg rq user) (λ _, True).
Proof.
  intros Hu. unfold check_account. eapply safe_bind; [apply safe_guard|]. intros [] Ha.
  eapply safe_bind; [apply safe_guard|]. intros [] _. apply negb_false_iff in Ha.
  destruct (user_ArchivedAt user) as [t|] eqn:Et; [|by apply safe_ret].
  eapply safe_bind; [by eapply enqueueReactivationCode_safe|]. intros [] _; [apply safe_stop|apply safe_refuse].
Qed.

Ltac safe_atom ::=
  lazymatch goal with
  | |- safe _ (guard_not _ _ _) _ => apply safe_guard
  | |- safe _ (bound _) _ => apply safe_bound
  | |- safe _ (or_refuse _ _ _) _ => apply safe_or_refuse
  | |- safe _ (look_store _) _ => apply safe_reads
  | |- safe _ (look _) _ => apply safe_sees
  | |- safe _ (update_account _ _ _) _ => apply update_account_safe; good_solve
  | |- safe _ (touchUserActivity _ _) _ => apply touchUserActivity_safe; good_solve
  | |- safe _ (mark_verified _ _ _) _ => apply mark_verified_safe; good_solve
  | |- safe _ (reset_readonly_mfa _ _) _ => apply reset_readonly_mfa_safe; good_solve
  | |- safe _ (check_account _ _ _) _ => apply check_account_safe; good_solve
  | |- safe _ (known_user _) _ => apply known_user_safe
  | |- safe _ (known_sandbox _) _ => apply known_sandbox_safe
  | |- safe _ (requireAuthenticatedUser _) _ => apply requireAuthenticatedUser_safe
  | |- safe _ (requireAdminPermission _ _) _ => apply requireAdminPermission_safe
  | |- safe _ (path_user _) _ => apply path_user_safe
  | |- safe _ (path_user_or_404 _ _) _ => apply path_user_or_404_safe
  | |- safe _ (removeReactivationCode _) _ => apply removeReactivationCode_safe
  | |- safe _ (recordReactivationCodeFailure _ _) _ => apply recordReactivationCodeFailure_safe
  | |- safe _ (on_store (CompletePasswordRecovery _ _ _)) _ => apply CompletePasswordRecovery_safe
  | |- safe _ (on_store (CompleteMFAPasswordReset _ _ _ _)) _ => apply CompleteMFAPasswordReset_safe
  | |- safe _ (on_store (DecideMFAResetRequest _ _ _ _ _ _)) _ => apply DecideMFAResetRequest_safe
  | |- safe _ (on_store (SetUserActiveWithAudit _ _ _ _ _)) _ => apply SetUserActiveWithAudit_safe
  | |- safe _ (on_store _) _ =>
      first [ apply DeleteUser_safe | apply safe_steady; solve [auto with typeclass_instances | auto with steady] ]
  | |- _ => apply safe_steady; solve [auto with typeclass_instances | auto with steady]
  end.

(** *** Creating an account *)

Definition fresh_inv (id : string) (st : authState) : Prop := I st ∧ byID (au_store st) !! id = None.

Lemma fresh_steady {A B} id (m : Act A) (f : A → Act B) R :
  steady m → (∀ a, triple (fresh_inv id) (f a) R I) → triple (fresh_inv id) (m ≫= f) R I.
Proof.
  intros Hm Hf. apply (triple_bind _ _ (λ _, fresh_inv id)); [|done].
  intros st [HI Hid]. pose proof (Hm st) as Hq. destruct (m st) as [[a|e] st'].
  - split; [by apply (framed st)|]. cbn [snd] in Hq. by destruct Hq as [(_ & -> & _) _].
  - by apply (framed st).
Qed.
Lemma fresh_safe {A} id (m : Act A) φ : safe I m φ → triple (fresh_inv id) m (λ a st, φ a ∧ I st) I.
Proof. apply triple_weaken; [by intros st []|done|done]. Qed.

Lemma create_account_fresh id user code : N id → id = (if user_ID user == "" then rq_ids rq 0 else user_ID user) →
  authority_of (user_Role user) (user_Level user) = plain_authority → user_ArchivedAt user = None →
  triple (fresh_inv id) (create_account rq user code) (λ ru st, (ru.1 = Ok tt → good ru.2) ∧ I st) I.
Proof. intros HN -> Ha Ht. apply create_account_triple; [by rewrite authority_eq|done|done]. Qed.

Ltac fresh_steps :=
  repeat match goal with
  | |- ∀ _, _ => intros ?
  | x : () |- _ => destruct x
  | |- triple _ (mbind _ (create_account _ _ _)) _ _ => fail 1
  | |- triple _ (mbind _ _) _ _ => apply fresh_steady; [solve [auto with steady]|]; cbn beta
  | |- triple _ _ _ _ => progress cbv zeta
  end.

Lemma register_safe body : N (rq_ids rq 0) → triple (fresh_inv (rq_ids rq 0)) (register cfg rq body) (λ _, I) I.
Proof.
  intros HN. unfold register. fresh_steps.
  eapply triple_bind; [by apply create_account_fresh|]. intros [created user].
  apply (triple_weaken I _ _ (λ _ st, True ∧ I st) _ I); [by intros st [_ ?]|by intros _ st []|done|].
  match goal with |- triple _ ?m _ _ => change (safe I m (λ _, True)) end. safe_steps.
Qed.

Lemma oauth_account_triple profile : N (rq_ids rq 0) →
  triple (fresh_inv (rq_ids rq 0)) (oauth_account rq profile) (λ u st, good u ∧ I st) I.
Proof.
  intros HN. unfold oauth_account. apply (triple_bind _ _ (λ r st, (∃ st, I st ∧ r = GetUserByEmail (au_store st) (op_Email profile)) ∧
    fresh_inv (rq_ids rq 0) st)).
  { intros st [HI Hid]. split; [by exists st|done]. }
  intros [u|e].
  - intros st [Hr [HI _]]. revert st HI. apply mark_verified_safe. by eapply good_read_email.
  - destruct (e != ErrUserNotFound); [by intros st [_ [HI _]]|]. cbv zeta.
    eapply triple_bind. { eapply triple_weaken; [|done|done|by apply (create_account_fresh (rq_ids rq 0))]. by intros st [_ ?]. }
    intros [created user]. intros st [Hg HI]. revert st HI. cbn [fst snd] in *.
    eapply safe_bind; [apply safe_or_refuse|]. intros [] ->. specialize (Hg eq_refl).
    eapply safe_bind; [apply safe_steady; auto with steady typeclass_instances|]. intros r _.
    eapply safe_bind; [apply safe_or_refuse|]. intros [] _. by apply safe_ret.
Qed.

Lemma oauthCallback_safe name code url provider : N (rq_ids rq 0) →
  triple (fresh_inv (rq_ids rq 0)) (oauthCallback cfg rq name code url provider) (λ _, I) I.
Proof.
  intros HN. unfold oauthCallback. destruct provider as [provider|]; [|by intros st [HI _]]. fresh_steps.
  eapply triple_bind; [by apply oauth_account_triple|]. intros user st [Hg HI]. revert st HI.
  match goal with |- ∀ st, I st → match ?m st with _ => _ end => assert (safe I m (λ _, True)) as Hm end.
  { safe_steps. }
  intros st HI. specialize (Hm st HI).
  match type of Hm with match ?x with _ => _ end => destruct x as [[r|r] st'] end; naive_solver.
Qed.

Lemma createCustomUser_safe validUUID email uuid groups :
  N (if TrimSpace uuid == "" then rq_ids rq 0 else TrimSpace uuid) →
  triple (fresh_inv (if TrimSpace uuid == "" then rq_ids rq 0 else TrimSpace uuid))
    (createCustomUser rq validUUID (Some (email, uuid, groups))) (λ _, I) I.
Proof.
  intros HN. unfold createCustomUser. apply fresh_steady; [auto with steady|]. intros actor.
  apply fresh_steady; [auto with steady|]. intros _. unfold bound.
  match goal with |- triple _ (mbind ?f (mret ?x)) _ _ => change (mbind f (mret x)) with (f x) end. cbn beta iota.
  fresh_steps.
  eapply triple_bind; [by apply create_account_fresh|]. intros [created user].
  apply (triple_weaken I _ _ (λ _ st, True ∧ I st) _ I); [by intros st [_ ?]|by intros _ st []|done|].
  destruct created as [_|e]; [|apply safe_stop].
  apply (safe_bind I _ _ (λ _, True) (λ _, True)); [by apply safe_look_store|]. intros. by apply safe_ret.
Qed.

(** *** The handlers *)

Lemma verify_existing_safe email code v : safe I (verify_existing cfg rq email code v) (λ _, True).
Proof. unfold verify_existing. safe_steps. Qed.
Lemma verify_pending_safe email code : safe I (verify_pending rq email code) (λ _, True).
Proof. unfold verify_pending. safe_steps. Qed.
Lemma verifyEmail_safe body : safe I (verifyEmail cfg rq body) (λ _, True).
Proof. unfold verifyEmail. safe_steps; [apply verify_existing_safe|apply verify_pending_safe]. Qed.
Lemma sendEmailVerification_safe body : safe I (sendEmailVerification cfg rq body) (λ _, True).
Proof. unfold sendEmailVerification. safe_steps; apply safe_steady; auto with steady typeclass_instances. Qed.
Lemma login_safe body : safe I (login cfg rq body) (λ _, True).
Proof. unfold login, login_mfa, login_plain. safe_steps. Qed.
Lemma verifyMFALogin_safe body : safe I (verifyMFALogin cfg rq body) (λ _, True).
Proof. unfold verifyMFALogin. safe_steps. Qed.
Lemma exchangeToken_safe body : safe I (exchangeToken rq body) (λ _, True).
Proof. unfold exchangeToken. safe_steps. Qed.
Lemma deleteSession_safe : safe I (deleteSession rq) (λ _, True).
Proof. unfold deleteSession. safe_steps. Qed.
Lemma requestPasswordReset_safe body : safe I (requestPasswordReset cfg rq body) (λ _, True).
Proof. unfold requestPasswordReset. safe_steps. Qed.
Lemma complete_recovery_safe id hash stale : safe I (complete_recovery rq id hash stale) (λ _, True).
Proof. unfold complete_recovery. safe_steps. Qed.
Lemma confirmPasswordReset_safe body : safe I (confirmPasswordReset cfg rq body) (λ _, True).
Proof.
  unfold confirmPasswordReset. safe_steps.
  eapply safe_bind; [apply complete_recovery_safe|]. safe_steps.
Qed.
Lemma requestPasswordResetCode_safe body : safe I (requestPasswordResetCode cfg rq body) (λ _, True).
Proof. unfold requestPasswordResetCode. safe_steps. Qed.
Lemma confirmPasswordResetCode_safe body : safe I (confirmPasswordResetCode rq body) (λ _, True).
Proof.
  unfold confirmPasswordResetCode, recovery_code_failed. safe_steps.
  eapply safe_bind; [apply complete_recovery_safe|]. safe_steps.
Qed.
Lemma setPassword_safe body : safe I (setPassword rq body) (λ _, True).
Proof. unfold setPassword. safe_steps. Qed.
Lemma selfCancelFreeAccount_safe : safe I (selfCancelFreeAccount rq) (λ _, True).
Proof. unfold selfCancelFreeAccount. safe_steps. Qed.
Lemma no_code_pending (r : option accountReactivationCode) e entry :
  (∃ st, I st ∧ r = reactivationCodes st !! e) → r = Some entry → only = false.
Proof.
  intros (st & (_ & _ & _ & Hc) & ->) Hr. destruct only; [|done]. by rewrite (Hc eq_refl), lookup_empty in Hr.
Qed.
Lemma reactivateAccount_safe body : safe I (reactivateAccount cfg rq body) (λ _, True).
Proof.
  unfold reactivateAccount. safe_steps. assert (only = false) as Ho by by eapply no_code_pending.
  eapply safe_bind; [apply update_account_safe; eapply (good_restored _ _ Ho); [is_good|reflexivity..]|]. safe_steps.
Qed.
Lemma provision_target_safe token : safe I (provision_target cfg rq token) (λ ut, good ut.1).
Proof. unfold provision_target. safe_steps; apply safe_ret; is_good. Qed.
Lemma provisionTOTP_safe key body : safe I (provisionTOTP cfg rq key body) (λ _, True).
Proof.
  unfold provisionTOTP. safe_steps. eapply safe_bind; [apply provision_target_safe|]. safe_steps.
Qed.
Lemma with_mfa_good user secret ch : good user → good (with_mfa rq user secret ch).
Proof.
  intros Hu. unfold with_mfa. cbv zeta. eapply good_frame; [exact Hu|..].
  all: destruct (TrimSpace (user_MFATOTPSecret user) == ""); by destruct (IsZero _).
Qed.
Lemma verifyTOTP_safe body : safe I (verifyTOTP cfg rq body) (λ _, True).
Proof.
  unfold verifyTOTP, totp_failed. safe_steps.
  eapply safe_bind; [apply update_account_safe, with_mfa_good; is_good|]. safe_steps.
Qed.
Lemma mfaStatus_safe a b c d : safe I (mfaStatus cfg rq a b c d) (λ _, True).
Proof.
  unfold mfaStatus. cbv zeta. eapply safe_bind with (φ := λ _, True).
  { unfold status_session. safe_steps; by apply safe_ret. }
  safe_steps. eapply safe_bind with (φ := λ _, True).
  { unfold status_challenge. safe_steps; by apply safe_ret. }
  safe_steps.
Qed.
Lemma disableMFA_safe body : safe I (disableMFA rq body) (λ _, True).
Proof. unfold disableMFA, without_mfa. safe_steps. Qed.
Lemma requireMFARecoveryManagement_safe : safe I (requireMFARecoveryManagement rq) (λ _, True).
Proof. unfold requireMFARecoveryManagement. safe_steps. Qed.
Lemma requireManagementTOTP_safe user body : safe I (requireManagementTOTP rq user body) (λ _, True).
Proof. unfold requireManagementTOTP. safe_steps. by eapply safe_any, safe_guard. Qed.
Lemma getMFARecoveryCodeStatus_safe : safe I (getMFARecoveryCodeStatus rq) (λ _, True).
Proof. unfold getMFARecoveryCodeStatus. safe_steps. Qed.
Lemma rotateMFARecoveryCodes_safe raw body : safe I (rotateMFARecoveryCodes rq raw body) (λ _, True).
Proof.
  unfold rotateMFARecoveryCodes. eapply safe_bind; [apply requireMFARecoveryManagement_safe|].
  intros user _. eapply safe_bind; [apply requireManagementTOTP_safe|]. safe_steps.
Qed.
Lemma revokeMFARecoveryCodes_safe body : safe I (revokeMFARecoveryCodes rq body) (λ _, True).
Proof.
  unfold revokeMFARecoveryCodes. eapply safe_bind; [apply requireMFARecoveryManagement_safe|].
  intros user _. eapply safe_bind; [apply requireManagementTOTP_safe|]. safe_steps.
Qed.
Lemma resetPasswordWithMFA_safe body : safe I (resetPasswordWithMFA rq body) (λ _, True).
Proof. unfold resetPasswordWithMFA. safe_steps. Qed.
Lemma requestMFAReset_safe body : safe I (requestMFAReset rq body) (λ _, True).
Proof. unfold requestMFAReset. safe_steps. Qed.
Lemma confirmMFAReset_safe body : safe I (confirmMFAReset rq body) (λ _, True).
Proof. unfold confirmMFAReset. safe_steps. Qed.
Lemma requireMFAResetRoot_safe : safe I (requireMFAResetRoot rq) (λ _, True).
Proof. unfold requireMFAResetRoot. safe_steps. Qed.
Lemma adminDecideMFAReset_safe b id body : safe I (adminDecideMFAReset rq b id body) (λ _, True).
Proof.
  unfold adminDecideMFAReset. eapply safe_bind; [apply requireMFAResetRoot_safe|]. safe_steps.
Qed.
Lemma updateUserGroups_safe id body : safe I (updateUserGroups rq id body) (λ _, True).
Proof. unfold updateUserGroups. safe_steps. Qed.
Lemma pauseUser_safe id : safe I (pauseUser rq id) (λ _, True).
Proof. unfold pauseUser. safe_steps. Qed.
Lemma resumeUser_safe id : safe I (resumeUser rq id) (λ _, True).
Proof. unfold resumeUser. safe_steps. Qed.
Lemma setUserActive_safe id active actor : safe I (setUserActive rq id active actor) (λ _, True).
Proof. unfold setUserActive. safe_steps. Qed.
Lemma deleteUser_safe id reason requestID : safe I (deleteUser rq id reason requestID) (λ _, True).
Proof. unfold deleteUser. safe_steps. Qed.
Lemma renewProxyUUID_safe id body : safe I (renewProxyUUID rq id body) (λ _, True).
Proof. unfold renewProxyUUID. safe_steps. Qed.
Lemma ensureSandboxProxyUUID_safe user : good user → safe I (ensureSandboxProxyUUID rq user) (λ _, True).
Proof.
  intros Hu. unfold ensureSandboxProxyUUID. safe_steps. eapply safe_any, update_account_safe. good_solve.
Qed.
Lemma adminAssume_safe body : safe I (adminAssume cfg rq body) (λ _, True).
Proof.
  unfold adminAssume. safe_steps. eapply safe_bind; [apply ensureSandboxProxyUUID_safe; is_good|]. safe_steps.
Qed.
Lemma archive_check_safe id : safe I (archive_check rq id) (λ _, True).
Proof.
  unfold archive_check. safe_steps. eapply safe_bind with (φ := λ _, True); [|safe_steps].
  unfold archiveInactiveFreeUser. safe_steps. apply safe_steady; auto with steady typeclass_instances.
Qed.

(** *** Roles *)

Definition assignable_authority : list (string * Z) :=
  [(RoleOperator, LevelOperator); plain_authority; (RoleReadOnly, LevelUser)].

Definition role_call (call : authCall) : bool :=
  match call with CUpdateUserRole _ _ | CResetUserRole _ => true | _ => false end.

Lemma assignable_role role level : contains assignableUserRoles role = true →
  authority_of role level ∈ assignable_authority.
Proof.
  unfold contains, assignableUserRoles. intros Hr. unfold assignable_authority.
  destruct (decide (role = RoleOperator)) as [->|]; [by left|].
  destruct (decide (role = RoleUser)) as [->|]; [right; by left|].
  destruct (decide (role = RoleReadOnly)) as [->|]; [right; right; by left|].
  cbn in Hr. rewrite !bool_decide_false in Hr by done. done.
Qed.

Lemma good_role u role : (∀ id a a' b t, Q id (a, b, t) → Q id (a', b, t)) → good u → good (u <| user_Role := role |>).
Proof. intros HQ. unfold good, standing. getset. apply HQ. Qed.
Lemma store_role_safe user role message : (∀ id a a' b t, Q id (a, b, t) → Q id (a', b, t)) → good user →
  safe I (store_role rq user role message) (λ _, True).
Proof.
  intros HQ Hu. unfold store_role. safe_steps.
  eapply safe_bind; [by apply update_account_safe, good_role|]. safe_steps.
Qed.
Lemma updateUserRole_safe id body : (∀ id a a' b t, Q id (a, b, t) → Q id (a', b, t)) →
  safe I (updateUserRole rq id body) (λ _, True).
Proof. intros HQ. unfold updateUserRole. safe_steps. by apply store_role_safe. Qed.
Lemma resetUserRole_safe id : (∀ id a a' b t, Q id (a, b, t) → Q id (a', b, t)) →
  safe I (resetUserRole rq id) (λ _, True).
Proof. intros HQ. unfold resetUserRole. safe_steps. by apply store_role_safe. Qed.

Lemma change_store_safe f : (∀ s, same_accounts s (f s)) →
  safe I (change (λ st, st <| au_store := f (au_store st) |>)) (λ _, True).
Proof. intros Hf st HI. split; [done|]. by apply (framed st). Qed.
Lemma addToBlacklist_safe body : safe I (addToBlacklist rq body) (λ _, True).
Proof.
  unfold addToBlacklist. safe_steps. eapply safe_bind; [by apply change_store_safe|]. safe_steps.
Qed.
Lemma removeFromBlacklist_safe email : safe I (removeFromBlacklist rq email) (λ _, True).
Proof.
  unfold removeFromBlacklist. safe_steps. eapply safe_bind; [by apply change_store_safe|]. safe_steps.
Qed.
Lemma activateUser_safe id : safe I (activateUser rq id) (λ _, True).
Proof. unfold activateUser. safe_steps. apply setUserActive_safe. Qed.
Lemma deactivateUser_safe id : safe I (deactivateUser rq id) (λ _, True).
Proof. unfold deactivateUser. safe_steps. apply setUserActive_safe. Qed.
Lemma createCustomUser_unbound validUUID : safe I (createCustomUser rq validUUID None) (λ _, True).
Proof.
  unfold createCustomUser. eapply safe_bind; [apply requireAdminPermission_safe|]. intros actor _.
  eapply safe_bind; [apply safe_guard|]. intros _ _. apply safe_stop.
Qed.

(** ** Every call *)

Create HintDb calls.
#[local] Hint Resolve verifyEmail_safe sendEmailVerification_safe login_safe verifyMFALogin_safe
  exchangeToken_safe deleteSession_safe requestPasswordReset_safe confirmPasswordReset_safe
  requestPasswordResetCode_safe confirmPasswordResetCode_safe setPassword_safe selfCancelFreeAccount_safe
  reactivateAccount_safe provisionTOTP_safe verifyTOTP_safe mfaStatus_safe disableMFA_safe
  getMFARecoveryCodeStatus_safe rotateMFARecoveryCodes_safe revokeMFARecoveryCodes_safe
  resetPasswordWithMFA_safe requestMFAReset_safe confirmMFAReset_safe adminDecideMFAReset_safe
  updateUserGroups_safe pauseUser_safe resumeUser_safe activateUser_safe deactivateUser_safe
  deleteUser_safe renewProxyUUID_safe addToBlacklist_safe removeFromBlacklist_safe adminAssume_safe
  archive_check_safe : calls.

Lemma dispatch_safe call st :
  (role_call call = true → ∀ id a a' b t, Q id (a, b, t) → Q id (a', b, t)) →
  (∀ id, new_identifier rq call = Some id → byID (au_store st) !! id = None → N id) →
  fresh_call rq call st → I st →
  I (serve_call cfg rq call st).2.
Proof.
  intros Hrole HN Hfresh HI. unfold serve_call.
  assert (∀ id h, fresh_inv id st → triple (fresh_inv id) h (λ _, I) I → I (serve h st).2) as Hnew.
  { intros id h Hst Hh. specialize (Hh st Hst). unfold serve. by destruct (h st) as [[r|r] st']. }
  assert (∀ h, safe I h (λ _, True) → I (serve h st).2) as Hold by (intros h Hh; by apply safe_serve).
  destruct call; cbn [dispatch]; unfold fresh_call in Hfresh; cbn [new_identifier role_call] in *.
  all: try solve [apply Hold; auto with calls].
  - apply (Hnew (rq_ids rq 0)); [by split|apply register_safe]; auto.
  - apply (Hnew (rq_ids rq 0)); [by split|apply oauthCallback_safe]; auto.
  - destruct body as [[[email uuid] groups]|]; [|apply Hold, createCustomUser_unbound].
    apply (Hnew (if TrimSpace uuid == "" then rq_ids rq 0 else TrimSpace uuid)); [by split|].
    apply createCustomUser_safe. auto.
  - by apply Hold, updateUserRole_safe, Hrole.
  - by apply Hold, resetUserRole_safe, Hrole.
Qed.
End inv.
