(* ===== verification/AuthProps.v ===== *)
(** * Authentication: roles and archived accounts

    Who can change the role of an account, and what becomes of an account that
    is archived, over every call of the account API. *)

From S2P Require Import Prelude GoLib Calendar Json StoreData Users Lifecycle Referral Quota Access Recovery RateLimit Entitlements Tenants Vault Workspace Login AdminAccess LoginHandlers LoginMFA AdminUsers AuthCalls AuthInv AuthLogic AuthSafe.
Open Scope Z_scope.
Open Scope bool_scope.
Open Scope go_scope.

(** ** Administrators *)

(** Whether a role may use an administrator endpoint. *)
Definition role_permits (rq : request) (permission : string) (user : User) : bool :=
  IsRootRole (user_Role user) || EqualFold (TrimSpace (user_Role user)) RoleAdmin ||
  (IsOperatorRole (user_Role user) &&
     ((permission == "") || hasPermission (user_Permissions user) permission ||
      operatorPermissionAllowed (rq_settings rq) permission)) ||
  (EqualFold (TrimSpace (user_Role user)) RoleReadOnly && ((rq_method rq == "GET") || (rq_method rq == "HEAD")) &&
     (permission != "") && hasPermission (user_Permissions user) permission).

(** The request carries the session of an active account whose role permits
    the operation. *)
Definition administrator (rq : request) (permission : string) (st : authState) (actor : User) : Prop :=
  (∃ expiresAt, lookupSession rq (resolveSessionToken rq) (au_store st) = Some (user_ID actor, expiresAt)) ∧
  GetUserByID (au_store st) (user_ID actor) = Ok actor ∧ user_Active actor = true ∧
  role_permits rq permission actor = true.

(** The account a role call is about. *)
Definition role_target (call : authCall) : option string :=
  match call with CUpdateUserRole id _ | CResetUserRole id => Some id | _ => None end.

(** *** Reading *)

(** A step that reads the state and hands on a value with [φ]. *)
Definition reads {A} (m : Act A) (φ : authState → A → Prop) : Prop :=
  ∀ st, match m st with (Ok a, st') => st' = st ∧ φ st a | (Err _, st') => st' = st end.

Lemma reads_bind {A B} (m : Act A) (f : A → Act B) φ ψ :
  reads m φ → (∀ st a, φ st a → match f a st with (Ok b, st') => st' = st ∧ ψ st b | (Err _, st') => st' = st end) →
  reads (m ≫= f) ψ.
Proof.
  intros Hm Hf st. unfold mbind, Act_bind. specialize (Hm st). destruct (m st) as [[a|e] st1]; [|done].
  destruct Hm as [-> Ha]. by apply Hf.
Qed.
Lemma reads_guard b status code : reads (guard_not b status code) (λ _ _, b = false).
Proof. intros st. unfold guard_not. by destruct b. Qed.
Lemma reads_look_store {A} (f : memoryStore → A) : reads (look_store f) (λ st a, a = f (au_store st)).
Proof. by intros st. Qed.
Lemma reads_or_refuse {A} (r : result error A) status code : reads (or_refuse r status code) (λ _ a, r = Ok a).
Proof. intros st. by destruct r. Qed.
Lemma reads_bound {A} (body : option A) : reads (bound body) (λ _ a, body = Some a).
Proof. intros st. by destruct body. Qed.

(** After a reading prefix, the state is the one at the start. *)
Lemma reads_then {A B} (m : Act A) (f : A → Act B) φ st r st' :
  reads m φ → (m ≫= f) st = (r, st') → st' = st ∨ ∃ a, φ st a ∧ f a st = (r, st').
Proof.
  intros Hm. unfold mbind, Act_bind. specialize (Hm st). destruct (m st) as [[a|e] st1].
  - destruct Hm as [-> Ha]. eauto.
  - intros [= _ <-]. by left.
Qed.

Lemma check_role_reads rq permission user :
  reads (check_role rq permission user) (λ _ a, a = user ∧ role_permits rq permission user = true).
Proof.
  intros st. unfold check_role, role_permits.
  destruct (IsRootRole _); [done|]. destruct (EqualFold _ RoleAdmin); [done|].
  destruct (IsOperatorRole _).
  - unfold guard_not. destruct (permission == ""); [done|]. destruct (hasPermission _ _); [done|].
    by destruct (operatorPermissionAllowed _ _).
  - destruct (EqualFold _ RoleReadOnly); [|done]. unfold guard_not.
    destruct (rq_method rq == "GET"), (rq_method rq == "HEAD"), (permission == ""), (hasPermission _ _); done.
Qed.

Lemma requireAdminPermission_reads rq permission :
  reads (requireAdminPermission rq permission)
    (λ st actor, indexed (au_store st) → administrator rq permission st actor).
Proof.
  unfold requireAdminPermission. cbv zeta. eapply reads_bind; [apply reads_guard|]. intros st [] _.
  unfold look_store, mbind at 1, Act_bind at 1.
  destruct (lookupSession rq (resolveSessionToken rq) (au_store st)) as [[userID expiresAt]|] eqn:Es; [|done].
  unfold mbind at 1, Act_bind at 1.
  destruct (GetUserByID (au_store st) userID) as [user|] eqn:Eu; [|done]. cbn [or_refuse].
  unfold mbind at 1, Act_bind at 1, mret, Act_ret.
  unfold guard_not. destruct (negb (user_Active user)) eqn:Ea; [done|].
  unfold mbind at 1, Act_bind at 1, mret at 1, Act_ret at 1.
  destruct (isReadOnlyAccount user && _); [done|].
  unfold mbind at 1, Act_bind at 1, mret at 1, Act_ret at 1.
  pose proof (check_role_reads rq permission user st) as Hr.
  destruct (check_role rq permission user st) as [[a|e] st']; [|done]. destruct Hr as (-> & -> & Hp).
  split; [done|]. intros Hi. destruct (GetUserByID_filed _ _ _ Hi Eu) as [<- _].
  split; [by exists expiresAt|]. split; [done|]. split; [by destruct (user_Active user)|done].
Qed.

Lemma path_user_or_404_reads id code :
  reads (path_user_or_404 id code) (λ st u, GetUserByID (au_store st) id = Ok u).
Proof.
  intros st. unfold path_user_or_404, look_store, mbind, Act_bind.
  destruct (GetUserByID (au_store st) id) as [u|e]; [done|]. by destruct (_ == _).
Qed.

(** *** Roles *)

Lemma store_role_effect rq user role message st r st' id u' :
  indexed (au_store st) → contains assignableUserRoles role = true →
  store_role rq user role message st = (r, st') → user_by_id (au_store st') id = Some u' →
  user_by_id (au_store st) id = Some u' ∨
  id = user_ID user ∧ isRootAccount user = false ∧ authority u' ∈ assignable_authority.
Proof.
  intros Hi Hrole. unfold store_role.
  intros [->|([] & Hroot & E)]%(reads_then _ _ _ _ _ _ (reads_guard _ _ _)) Hu; [by left|].
  unfold mbind, Act_bind, update_account, on_store in E.
  destruct (UpdateUser _ _ _ _) as [[r1 out] s1] eqn:Eu.
  destruct (UpdateUser_accounts _ _ _ _ _ _ _ Hi Eu) as (_ & _ & _ & _ & Hacc).
  assert (au_store st' = s1) as Es by (destruct r1; cbn in E; by injection E as _ <-).
  rewrite Es in Hu. destruct (Hacc _ _ Hu) as [?|(-> & Hst & _)]; [by left|right].
  split; [done|]. split; [done|]. assert (authority u' = authority (user <| user_Role := role |>)) as ->
    by exact (f_equal (λ x, x.1.1) Hst).
  rewrite authority_eq. by apply assignable_role.
Qed.

(** What a call about the role of an account did to it. *)
Definition role_changed (rq : request) (call : authCall) (st : authState) (id : string) (u' : User) : Prop :=
  role_target call = Some id ∧
  (∃ actor, administrator rq permissionAdminUsersRoleWrite st actor) ∧
  (∃ u, user_by_id (au_store st) id = Some u ∧ (authority u).1 ≠ RoleRoot) ∧
  authority u' ∈ assignable_authority.

Lemma authority_role u : (authority u).1 = user_Role (cloneUser u).
Proof. done. Qed.

Section role_calls.
Context `{MapOrder} `{AuthLibrary} (cfg : authConfig) (rq : request).

Lemma role_kept call user st r st' id u' role message :
  indexed (au_store st) → role_target call = Some (user_ID user) →
  (∃ actor, administrator rq permissionAdminUsersRoleWrite st actor) →
  GetUserByID (au_store st) (user_ID user) = Ok user → contains assignableUserRoles role = true →
  store_role rq user role message st = (r, st') → user_by_id (au_store st') id = Some u' →
  user_by_id (au_store st) id = Some u' ∨ role_changed rq call st id u'.
Proof.
  intros Hi Ht Hactor Hu Hrole E Hu'.
  destruct (store_role_effect _ _ _ _ _ _ _ _ _ Hi Hrole E Hu') as [?|(-> & Hroot & Ha)]; [by left|right].
  split; [done|]. split; [done|]. split; [|done].
  destruct (GetUserByID_filed _ _ _ Hi Hu) as (_ & v & Hv & ->). exists v. split; [done|].
  rewrite authority_role. intros E1. unfold isRootAccount in Hroot. rewrite E1 in Hroot. done.
Qed.

Lemma updateUserRole_effect userId body st r st' id u' : indexed (au_store st) →
  updateUserRole rq userId body st = (r, st') → user_by_id (au_store st') id = Some u' →
  user_by_id (au_store st) id = Some u' ∨ role_changed rq (CUpdateUserRole userId body) st id u'.
Proof.
  intros Hi E Hu'. unfold updateUserRole in E.
  apply (reads_then _ _ _ _ _ _ (requireAdminPermission_reads _ _)) in E as [->|(actor & Ha & E)]; [by left|].
  apply (reads_then _ _ _ _ _ _ (reads_guard _ _ _)) in E as [->|([] & _ & E)]; [by left|].
  apply (reads_then _ _ _ _ _ _ (reads_bound _)) in E as [->|(raw & _ & E)]; [by left|].
  cbv zeta in E. apply (reads_then _ _ _ _ _ _ (reads_guard _ _ _)) in E as [->|([] & Hr & E)]; [by left|].
  apply (reads_then _ _ _ _ _ _ (path_user_or_404_reads _ _)) in E as [->|(user & Hu & E)]; [by left|].
  destruct (GetUserByID_filed _ _ _ Hi Hu) as (<- & _). apply negb_false_iff in Hr.
  eapply (role_kept _ user); eauto.
Qed.

Lemma resetUserRole_effect userId st r st' id u' : indexed (au_store st) →
  resetUserRole rq userId st = (r, st') → user_by_id (au_store st') id = Some u' →
  user_by_id (au_store st) id = Some u' ∨ role_changed rq (CResetUserRole userId) st id u'.
Proof.
  intros Hi E Hu'. unfold resetUserRole in E.
  apply (reads_then _ _ _ _ _ _ (requireAdminPermission_reads _ _)) in E as [->|(actor & Ha & E)]; [by left|].
  apply (reads_then _ _ _ _ _ _ (reads_guard _ _ _)) in E as [->|([] & _ & E)]; [by left|].
  apply (reads_then _ _ _ _ _ _ (path_user_or_404_reads _ _)) in E as [->|(user & Hu & E)]; [by left|].
  destruct (GetUserByID_filed _ _ _ Hi Hu) as (<- & _).
  eapply (role_kept _ user); eauto. done.
Qed.

(** The accounts of a state, as they were or new. *)
Definition as_before (s : memoryStore) (new : option string) (id : string) (x : Standing) : Prop :=
  (∃ u, user_by_id s id = Some u ∧ x.1.1 = authority u) ∨
  (byID s !! id = None ∧ new = Some id ∧ x.1.1 = plain_authority).

#[local] Instance as_before_stable s new :
  Stable (λ id, byID s !! id = None ∧ new = Some id) (as_before s new) false.
Proof. constructor; [done..|]. intros id [? ?]. by right. Qed.

(** C5: no call of the account API (the endpoints of [authCall]) changes the
    role or the level of an account, or creates an account that is more than a plain user, but for the two role
    endpoints; and those need the live session of an active account that may
    write roles, leave root accounts alone and give operator, user or readonly.
    Registration, OAuth sign-in, profile and group updates, MFA and recovery
    cannot escalate. *)
Theorem roles_confined call st id u' :
  indexed (au_store st) → fresh_call rq call st →
  user_by_id (au_store (serve_call cfg rq call st).2) id = Some u' →
  (∃ u, user_by_id (au_store st) id = Some u ∧ authority u' = authority u) ∨
  (byID (au_store st) !! id = None ∧ new_identifier rq call = Some id ∧ authority u' = plain_authority) ∨
  role_changed rq call st id u'.
Proof.
  intros Hi Hf. destruct (role_call call) eqn:Er.
  - assert (∀ h, (∀ r st', h st = (r, st') → ∀ u', user_by_id (au_store st') id = Some u' →
      user_by_id (au_store st) id = Some u' ∨ role_changed rq call st id u') →
      user_by_id (au_store (serve h st).2) id = Some u' →
      (∃ u, user_by_id (au_store st) id = Some u ∧ authority u' = authority u) ∨ role_changed rq call st id u') as Hs.
    { intros h Hh. unfold serve. specialize (Hh (h st).1 (h st).2 (surjective_pairing _)).
      destruct (h st) as [[a|e] st1]; intros [?|?]%Hh; eauto. }
    destruct call; try discriminate Er; cbn [dispatch serve_call] in *; intros [?|?]%Hs; auto.
    + intros. by eapply updateUserRole_effect.
    + intros. by eapply resetUserRole_effect.
  - intros Hu. pose proof (dispatch_safe cfg rq
      (λ id, byID (au_store st) !! id = None ∧ new_identifier rq call = Some id) (λ _, False)
      (as_before (au_store st) (new_identifier rq call)) false) as Hd.
    destruct (Hd ltac:(done) call st) as (_ & Hq & _); [by rewrite Er|done|done|..|].
    + split; [done|]. split; [|done]. intros id' u Hu'. left. by exists u.
    + destruct (Hq _ _ Hu) as [?|(? & ? & ?)]; auto.
Qed.
End role_calls.

(** ** Archived accounts *)

(** No archived account is active and no reactivation code is pending. *)
Record dormant (st : authState) : Prop := {
  dormant_indexed : indexed (au_store st);
  dormant_inactive : ∀ id u, user_by_id (au_store st) id = Some u → user_ArchivedAt u ≠ None → user_Active u = false;
  dormant_codes : reactivationCodes st = ∅
}.

Definition archived_in (s : memoryStore) (id : string) : Prop :=
  ∃ u, user_by_id s id = Some u ∧ user_ArchivedAt u ≠ None.
Definition filed (s : memoryStore) (id : string) : Prop := is_Some (byID s !! id).

(** Archived is inactive, and what was archived stays so. *)
Definition stays_archived (s : memoryStore) (id : string) (x : Standing) : Prop :=
  (x.2 ≠ None → x.1.2 = false) ∧ (archived_in s id → x.2 ≠ None).

Lemma archived_filed s id : archived_in s id → filed s id.
Proof. intros (u & Hu & _). unfold user_by_id, user_at in Hu. unfold filed. by destruct (byID s !! id). Qed.

#[local] Instance stays_archived_stable s : Stable (λ id, ¬ filed s id) (stays_archived s) true.
Proof.
  constructor; unfold stays_archived; cbn.
  - intros id a b t [H1 H2]. done.
  - intros id a b t t' [H1 H2]. done.
  - intros id a b t Ht [H1 H2]. rewrite (Ht eq_refl) in H2. split; [done|]. intros Ha. by destruct (H2 Ha).
  - intros id Hn. split; [done|]. intros ?%archived_filed. done.
Qed.

Lemma filed_user_by_id s id : indexed s → filed s id → is_Some (user_by_id s id).
Proof.
  intros Hs [l Hl]. destruct (id_leads s Hs _ _ Hl) as (u & Hu & _). exists u.
  unfold user_by_id, user_at. by rewrite Hl.
Qed.

Section archived.
Context `{MapOrder} `{AuthLibrary} (cfg : authConfig).

Lemma served_archived st0 st : dormant st0 → served cfg st0 st →
  accounts_inv (filed (au_store st0)) (stays_archived (au_store st0)) true st.
Proof.
  intros Hst Hs. induction Hs as [st0|st1 st2 rq call Hs IH Hf].
  - split_and!; [apply Hst|..|done|by intros _; apply Hst].
    intros id u Hu. split; [by apply (dormant_inactive _ Hst id)|].
    intros (v & Hv & Ha). rewrite Hv in Hu. by injection Hu as <-.
  - specialize (IH Hst). apply (dispatch_safe cfg rq (λ id, ¬ filed (au_store st1) id)); [exact _| | | |exact Hf|exact IH].
    + intros _ id a t [Hx _]. by discriminate (Hx ltac:(done)).
    + by intros _ id a a' b t.
    + intros id _ Hid Hd. destruct IH as (_ & _ & Hk & _). destruct (Hk id Hd) as [l Hl]. congruence.
Qed.

Lemma reactivation_refused rq body st : reactivationCodes st = ∅ →
  ∃ status, (serve (reactivateAccount cfg rq body) st).1 = Refused (status, if status =? 400 then
    (match body with None => "invalid_request" | Some _ => "invalid_code" end) else "invalid_code") ∧ status ∈ [400; 401].
Proof.
  intros Hc. unfold reactivateAccount, serve, bound, look, mbind, Act_bind.
  destruct body as [[email code]|]; [|exists 400; split; [done|by left]]. unfold mret, Act_ret.
  unfold guard_not. cbv zeta. destruct (_ || _); [exists 400; split; [done|by left]|]. unfold mret, Act_ret.
  rewrite Hc, lookup_empty. exists 401. split; [done|right; by left].
Qed.

(** archiving is final.  Along any history of calls an archived account
    stays archived and inactive, and every reactivation request is refused with
    400 or 401: a reactivation code is only issued by a sign-in of an active
    archived account, and there is none. *)
Theorem archived_final st0 st id u rq body :
  dormant st0 → served cfg st0 st →
  user_by_id (au_store st0) id = Some u → user_ArchivedAt u ≠ None →
  (∃ u', user_by_id (au_store st) id = Some u' ∧ user_ArchivedAt u' ≠ None ∧ user_Active u' = false) ∧
  (∃ status code, (serve (reactivateAccount cfg rq body) st).1 = Refused (status, code) ∧ status ∈ [400; 401]).
Proof.
  intros Hst Hs Hu Ha. destruct (served_archived _ _ Hst Hs) as (Hi & Hq & Hd & Hc).
  assert (archived_in (au_store st0) id) as Har by (by exists u). split.
  - destruct (filed_user_by_id _ _ Hi (Hd id (archived_filed _ _ Har))) as [u' Hu'].
    destruct (Hq _ _ Hu') as [H1 H2]. exists u'. split; [done|]. split; [by apply H2|by apply H1, H2].
  - destruct (reactivation_refused rq body st (Hc eq_refl)) as (status & Hr & Hstatus). eauto.
Qed.
End archived.
