(* ===== verification/SessionLogic.v ===== *)
(** * Authentication: calls that open no session

    [silent]: a step after which every session was there before.  Most of the
    account API is silent; the rest is the subject of [SessionProps]. *)

From S2P Require Import Prelude GoLib Calendar Json StoreData Users Lifecycle Referral Quota Access Recovery RecoveryProps RateLimit Entitlements EntitlementProps Tenants Vault Workspace Login AdminAccess LoginHandlers LoginMFA AdminUsers AuthCalls AuthInv AuthLogic AuthSafe.
Open Scope Z_scope.
Open Scope bool_scope.
Open Scope go_scope.

(** ** Store operations *)

Definition no_new_session (s s' : memoryStore) : Prop :=
  ∀ token sess, sessions s' !! token = Some sess → sessions s !! token = Some sess.

#[export] Instance no_new_session_preorder : PreOrder no_new_session.
Proof. split; [by intros s token|]. intros s1 s2 s3 H1 H2 token sess Hs. by apply H1, H2. Qed.

Lemma same_sessions s s' : sessions s' = sessions s → no_new_session s s'.
Proof. intros E token sess. by rewrite E. Qed.
Lemma touches_sessions s s' : touches_accounts s s' → no_new_session s s'.
Proof. intros (? & ? & ? & ? & ->). by apply same_sessions. Qed.

Create HintDb sessions.
Ltac session_op := intros; apply same_sessions; cbv zeta; repeat case_match; done.

Lemma DeleteSession_silent token s : no_new_session s (DeleteSession token s).2.
Proof. intros k sess. cbn [snd DeleteSession]. getset. by intros [_ ?]%lookup_delete_Some. Qed.
Lemma CreateOAuthExchangeCode_silent a b c d s : no_new_session s (CreateOAuthExchangeCode a b c d s).2.
Proof. by apply same_sessions. Qed.
Lemma ConsumeOAuthExchangeCode_silent now code s : no_new_session s (ConsumeOAuthExchangeCode now code s).2.
Proof. unfold ConsumeOAuthExchangeCode. session_op. Qed.
Lemma CreatePasswordRecoveryChallenge_silent c s : no_new_session s (CreatePasswordRecoveryChallenge c s).2.
Proof. unfold CreatePasswordRecoveryChallenge. session_op. Qed.
Lemma CreatePasswordRecoveryCodeChallenge_silent c d s :
  no_new_session s (CreatePasswordRecoveryCodeChallenge c d s).2.
Proof. unfold CreatePasswordRecoveryCodeChallenge. session_op. Qed.
Lemma InvalidatePasswordRecoveryChallenge_silent id now s :
  no_new_session s (InvalidatePasswordRecoveryChallenge id now s).2.
Proof. unfold InvalidatePasswordRecoveryChallenge. session_op. Qed.
Lemma RecordPasswordRecoveryFailure_silent id now n d s :
  no_new_session s (RecordPasswordRecoveryFailure id now n d s).2.
Proof. unfold RecordPasswordRecoveryFailure. session_op. Qed.
Lemma ReplaceMFARecoveryCodes_silent id codes s : no_new_session s (ReplaceMFARecoveryCodes id codes s).2.
Proof. unfold ReplaceMFARecoveryCodes. session_op. Qed.
Lemma RecordMFARecoveryCodeFailure_silent `{MapOrder} id now n d s :
  no_new_session s (RecordMFARecoveryCodeFailure id now n d s).2.
Proof. unfold RecordMFARecoveryCodeFailure. session_op. Qed.
Lemma RevokeMFARecoveryCodes_silent id now s : no_new_session s (RevokeMFARecoveryCodes id now s).2.
Proof. by apply same_sessions. Qed.
Lemma CreateMFAResetRequest_silent `{MapOrder} r s : no_new_session s (CreateMFAResetRequest r s).2.
Proof. unfold CreateMFAResetRequest. session_op. Qed.
Lemma ConfirmMFAResetRequest_silent id hash reason now s :
  no_new_session s (ConfirmMFAResetRequest id hash reason now s).2.
Proof. unfold ConfirmMFAResetRequest. session_op. Qed.
Lemma FailMFAResetCode_silent id s : no_new_session s (FailMFAResetCode id s).2.
Proof. unfold FailMFAResetCode. session_op. Qed.
Lemma GetAccountQuotaState_silent now id s : no_new_session s (GetAccountQuotaState now id s).2.
Proof.
  unfold GetAccountQuotaState. destruct (_ !! _); [|by apply same_sessions]. cbn [snd].
  unfold expireMonthlyUsageResetLocked. session_op.
Qed.
Lemma UpsertAccountQuotaState_silent now q s : no_new_session s (UpsertAccountQuotaState now q s).2.
Proof. unfold UpsertAccountQuotaState. session_op. Qed.
Lemma provisionFreeEntitlement_silent `{MapOrder} now id s : no_new_session s (provisionFreeEntitlement now id s).2.
Proof.
  revert s. apply (keeps_provision no_new_session).
  - intros s. apply GetAccountQuotaState_silent.
  - intros q s. apply UpsertAccountQuotaState_silent.
  - intros p s. unfold UpsertAccountBillingProfile. session_op.
Qed.
Lemma CreateIdentity_silent newID now i s :
  no_new_session s (let '(_, _, s) := CreateIdentity newID now i s in (tt, s)).2.
Proof. unfold CreateIdentity. cbv zeta. apply same_sessions. by destruct (bool_decide _). Qed.
Lemma SetUserActiveWithAudit_silent newID now id active actor s :
  no_new_session s (SetUserActiveWithAudit newID now id active actor s).2.
Proof.
  unfold SetUserActiveWithAudit, update_user. apply same_sessions. cbv zeta.
  destruct (_ == ""); [done|]. destruct (user_by_id s id); [|done]. destruct (active && _); [done|].
  destruct (Bool.eqb _ _); [done|]. by destruct (byID s !! id).
Qed.
Lemma update_user_sessions s id f : sessions (update_user s id f) = sessions s.
Proof. unfold update_user. by destruct (byID s !! id). Qed.
Lemma drop_sessions_sub s id token sess : drop_sessions id (sessions s) !! token = Some sess →
  sessions s !! token = Some sess.
Proof. by intros [? _]%lookup_drop_sessions. Qed.

Lemma CompletePasswordRecovery_silent id hash now s : no_new_session s (CompletePasswordRecovery id hash now s).2.
Proof.
  unfold CompletePasswordRecovery. destruct (passwordRecovery s !! id) as [c|]; [|by apply same_sessions].
  destruct (_ || _); [by apply same_sessions|]. destruct (user_by_id s (prc_UserID c)); [|by apply same_sessions].
  intros token sess. cbn [snd]. getset. rewrite update_user_sessions. apply drop_sessions_sub.
Qed.
Lemma CompleteMFAPasswordReset_silent id code hash now s :
  no_new_session s (CompleteMFAPasswordReset id code hash now s).2.
Proof.
  unfold CompleteMFAPasswordReset. destruct (user_by_id s id); [|by apply same_sessions].
  destruct (_ || _); [by apply same_sessions|]. cbv zeta.
  destruct (code == "").
  { intros token sess. cbn [snd]. getset. rewrite update_user_sessions. apply drop_sessions_sub. }
  destruct (mfaRecoveryCodes s !! code); [|by apply same_sessions]. destruct (_ || _); [by apply same_sessions|].
  intros token sess. cbn [snd]. getset. rewrite update_user_sessions. getset. apply drop_sessions_sub.
Qed.
Lemma DecideMFAResetRequest_silent newID id actor decision reason now s :
  no_new_session s (DecideMFAResetRequest newID id actor decision reason now s).2.
Proof.
  unfold DecideMFAResetRequest. destruct (user_by_id s actor); [|by apply same_sessions].
  destruct (mfaResetRequests s !! id) as [r|]; [|by apply same_sessions].
  destruct (_ || _); [by apply same_sessions|]. destruct (user_by_id s (mrr_UserID r)); [|by apply same_sessions].
  destruct (negb _); [by apply same_sessions|]. destruct (decision == "approved"); [|by apply same_sessions].
  intros token sess. cbn [snd]. getset. rewrite update_user_sessions. apply drop_sessions_sub.
Qed.
Lemma DeleteUser_silent newID transition now id entry requestID s :
  no_new_session s (let '(r, _, s) := DeleteUser newID transition now id entry requestID s in (r, s)).2.
Proof.
  apply same_sessions. unfold DeleteUser. destruct (validateUserArchiveAudit id entry); [done|]. cbv zeta.
  destruct (if TrimSpace requestID != "" then _ else None); [by destruct (_ || _)|].
  destruct (user_by_id s id); [|done]. destruct (_ != None); [done|]. destruct (_ || _); [done|].
  destruct (map_any _ _); [done|]. cbn [snd]. getset. apply update_user_sessions.
Qed.
Lemma CreateUser_sessions newID newV7 now user s : sessions (CreateUser newID newV7 now user s).2 = sessions s.
Proof.
  unfold CreateUser, alloc_user. destruct (_ == ""); [done|]. destruct (bool_decide _); [done|].
  destruct (bool_decide _); [done|]. destruct (ensureProxyUUID _ _ _); [|done]. cbn [fst snd].
  by destruct (_ == "").
Qed.
Lemma CreateReferralAttribution_sessions newID now code invitee at_ s :
  sessions (CreateReferralAttribution newID now code invitee at_ s).2 = sessions s.
Proof.
  unfold CreateReferralAttribution. cbv zeta. destruct (_ || _); [done|]. destruct (_ == _); [done|].
  by destruct (referralsByInvitee s !! _).
Qed.
Lemma CreateUserWithReferral_sessions newID newV7 now newReferralID later user code s :
  sessions (CreateUserWithReferral newID newV7 now newReferralID later user code s).2 = sessions s.
Proof.
  unfold CreateUserWithReferral. pose proof (CreateUser_sessions newID newV7 now user s) as E.
  destruct (CreateUser newID newV7 now user s) as [[[[]|e] out] s1]; [|done]. cbn [snd] in E.
  match goal with |- context [CreateReferralAttribution ?a ?b ?c ?d ?e ?f] =>
    pose proof (CreateReferralAttribution_sessions a b c d e f) as E2;
    destruct (CreateReferralAttribution a b c d e f) as [[[]|e'] s2] end; cbn [snd] in *; [congruence|].
  destruct (user_by_id s2 _); cbn [snd]; getset; congruence.
Qed.
#[export] Hint Resolve DeleteSession_silent CreateOAuthExchangeCode_silent ConsumeOAuthExchangeCode_silent
  CreatePasswordRecoveryChallenge_silent CreatePasswordRecoveryCodeChallenge_silent
  InvalidatePasswordRecoveryChallenge_silent RecordPasswordRecoveryFailure_silent
  ReplaceMFARecoveryCodes_silent RecordMFARecoveryCodeFailure_silent RevokeMFARecoveryCodes_silent
  CreateMFAResetRequest_silent ConfirmMFAResetRequest_silent FailMFAResetCode_silent
  GetAccountQuotaState_silent UpsertAccountQuotaState_silent provisionFreeEntitlement_silent
  CreateIdentity_silent SetUserActiveWithAudit_silent CompletePasswordRecovery_silent
  CompleteMFAPasswordReset_silent DecideMFAResetRequest_silent DeleteUser_silent : sessions.

(** ** Steps of the handlers *)

Definition silent {A} (m : Act A) : Prop := ∀ st, no_new_session (au_store st) (au_store (m st).2).

Lemma silent_ret {A} (a : A) : silent (mret a).
Proof. intros st. by apply same_sessions. Qed.
Lemma silent_stop {A} r : silent (@stop A r).
Proof. intros st. by apply same_sessions. Qed.
Lemma silent_look {A} (f : authState → A) : silent (look f).
Proof. intros st. by apply same_sessions. Qed.
Lemma silent_look_store {A} (f : memoryStore → A) : silent (look_store f).
Proof. intros st. by apply same_sessions. Qed.
Lemma silent_guard b status code : silent (guard_not b status code).
Proof. unfold guard_not. destruct b; [apply silent_stop|apply silent_ret]. Qed.
Lemma silent_or_refuse {A} (r : result error A) status code : silent (or_refuse r status code).
Proof. destruct r; [apply silent_ret|apply silent_stop]. Qed.
Lemma silent_bound {A} (body : option A) : silent (bound body).
Proof. destruct body; [apply silent_ret|apply silent_stop]. Qed.
Lemma silent_bind {A B} (m : Act A) (f : A → Act B) : silent m → (∀ a, silent (f a)) → silent (m ≫= f).
Proof.
  intros Hm Hf st. unfold mbind, Act_bind. specialize (Hm st). destruct (m st) as [[a|e] st1]; [|done].
  transitivity (au_store st1); [done|apply Hf].
Qed.
Lemma silent_on_store {A} (op : memoryStore → A * memoryStore) :
  (∀ s, no_new_session s (op s).2) → silent (on_store op).
Proof. intros Hop st. unfold on_store. specialize (Hop (au_store st)). by destruct (op (au_store st)). Qed.
Lemma silent_change (f : authState → authState) :
  (∀ st, sessions (au_store (f st)) = sessions (au_store st)) → silent (change f).
Proof. intros Hf st. apply same_sessions, Hf. Qed.

Create HintDb silent.
#[export] Hint Resolve silent_ret silent_stop silent_look silent_look_store silent_guard silent_or_refuse
  silent_bound : silent.
#[export] Hint Extern 1 (silent (on_store _)) => apply silent_on_store; intros; auto with sessions : silent.
#[export] Hint Extern 1 (silent (change _)) => apply silent_change; intros; done : silent.
#[export] Hint Extern 1 (silent (refuse _ _)) => apply silent_stop : silent.

(** Runs through a handler built from silent steps. *)
Ltac silent_steps :=
  repeat match goal with
  | |- ∀ _, _ => intros ?
  | |- silent (mbind _ _) => apply silent_bind
  | |- silent (let _ := _ in _) => cbv zeta
  | |- silent (if ?b then _ else _) => destruct b
  | |- silent (match ?x with _ => _ end) => destruct x
  | |- silent _ => solve [auto with silent]
  end.

Section silent.
Context `{MapOrder} `{AuthLibrary} (cfg : authConfig) (rq : request).

Lemma allowAuthProbe_silent b key : silent (allowAuthProbe rq b key).
Proof.
  intros st. unfold allowAuthProbe. destruct (au_limits st b) as [l1 l2].
  destruct (Allow _ _ l1), (Allow _ _ l2). cbv zeta. apply same_sessions. by destruct (_ && _).
Qed.
Lemma update_account_silent i user : silent (update_account rq i user).
Proof.
  unfold update_account. apply silent_on_store. intros s. apply touches_sessions.
  pose proof (UpdateUser_touches (rq_v7 rq i) (rq_now rq) user s) as Ht.
  by destruct (UpdateUser _ _ _ _) as [[r u] s'].
Qed.
Lemma create_account_silent user code : silent (create_account rq user code).
Proof.
  unfold create_account. apply silent_on_store. intros s. apply same_sessions. destruct (code != "").
  - pose proof (CreateUserWithReferral_sessions (rq_ids rq 0) (rq_v7 rq 0) (rq_now rq) (rq_ids rq 1)
      (rq_now rq) user code s) as E. by destruct (CreateUserWithReferral _ _ _ _ _ _ _ _) as [[r u] s'].
  - pose proof (CreateUser_sessions (rq_ids rq 0) (rq_v7 rq 0) (rq_now rq) user s) as E.
    by destruct (CreateUser _ _ _ _ _) as [[r u] s'].
Qed.
Lemma updateMFAChallenge_silent token f : silent (updateMFAChallenge rq token f).
Proof.
  intros st. apply same_sessions. unfold updateMFAChallenge. cbv zeta. destruct (mfaChallenges st !! token); [|done].
  destruct (After _ _); [done|]. destruct f as [f|]; [|done]. by destruct (f _).
Qed.
#[local] Hint Resolve allowAuthProbe_silent update_account_silent create_account_silent
  updateMFAChallenge_silent : silent.

Lemma lookupMFAChallenge_silent token : silent (lookupMFAChallenge rq token).
Proof. apply updateMFAChallenge_silent. Qed.
Lemma refreshMFAChallenge_silent token : silent (refreshMFAChallenge cfg rq token).
Proof. apply updateMFAChallenge_silent. Qed.
Lemma createMFAChallenge_silent i id : silent (createMFAChallenge cfg rq i id).
Proof. unfold createMFAChallenge. silent_steps. Qed.
Lemma removeSession_silent token : silent (removeSession token).
Proof. unfold removeSession. silent_steps. Qed.
Lemma removeMFAChallenge_silent token : silent (removeMFAChallenge token).
Proof. unfold removeMFAChallenge. silent_steps. Qed.
Lemma removeMFAChallengesForUser_silent id : silent (removeMFAChallengesForUser id).
Proof. unfold removeMFAChallengesForUser. silent_steps. Qed.
Lemma removeEmailVerification_silent email : silent (removeEmailVerification email).
Proof. unfold removeEmailVerification. silent_steps. Qed.
Lemma rejectIfBillingSuspended_silent id : silent (rejectIfBillingSuspended rq id).
Proof. unfold rejectIfBillingSuspended. silent_steps. Qed.
Lemma set_proxy_state_silent id state : silent (set_proxy_state rq id state).
Proof. unfold set_proxy_state. silent_steps. Qed.
Lemma touchUserActivity_silent user : silent (touchUserActivity rq user).
Proof. unfold touchUserActivity. silent_steps. Qed.
#[local] Hint Resolve lookupMFAChallenge_silent refreshMFAChallenge_silent createMFAChallenge_silent
  removeSession_silent removeMFAChallenge_silent removeMFAChallengesForUser_silent
  removeEmailVerification_silent rejectIfBillingSuspended_silent set_proxy_state_silent
  touchUserActivity_silent : silent.

Lemma requireAuthenticatedUser_silent : silent (requireAuthenticatedUser rq).
Proof. unfold requireAuthenticatedUser. silent_steps. Qed.
Lemma check_role_silent permission user : silent (check_role rq permission user).
Proof. unfold check_role. silent_steps. Qed.
#[local] Hint Resolve check_role_silent : silent.
Lemma requireAdminPermission_silent permission : silent (requireAdminPermission rq permission).
Proof. unfold requireAdminPermission. silent_steps. Qed.
Lemma path_user_silent id : silent (path_user id).
Proof. unfold path_user. silent_steps. Qed.
Lemma path_user_or_404_silent id code : silent (path_user_or_404 id code).
Proof. unfold path_user_or_404. silent_steps. Qed.
Lemma mark_verified_silent user failure : silent (mark_verified rq user failure).
Proof. unfold mark_verified. silent_steps. Qed.
Lemma reset_readonly_mfa_silent user : silent (reset_readonly_mfa rq user).
Proof. unfold reset_readonly_mfa. silent_steps. Qed.
Lemma offered_challenge_silent user : silent (offered_challenge cfg rq user).
Proof.
  unfold offered_challenge. destruct (isReadOnlyAccount user); [apply silent_ret|].
  apply silent_bind; [apply createMFAChallenge_silent|]. intros. apply silent_ret.
Qed.
Lemma issueOAuthExchangeCode_silent i token t : silent (issueOAuthExchangeCode cfg rq i token t).
Proof. unfold issueOAuthExchangeCode. silent_steps. Qed.
Lemma lookupEmailVerification_silent email : silent (lookupEmailVerification rq email).
Proof. unfold lookupEmailVerification. silent_steps. Qed.
Lemma recordEmailVerificationFailure_silent email : silent (recordEmailVerificationFailure rq email).
Proof. unfold recordEmailVerificationFailure. silent_steps. Qed.
Lemma lookupRegistrationVerification_silent email : silent (lookupRegistrationVerification rq email).
Proof. unfold lookupRegistrationVerification, removeRegistrationVerification. silent_steps. Qed.
Lemma removeRegistrationVerification_silent email : silent (removeRegistrationVerification email).
Proof. unfold removeRegistrationVerification. silent_steps. Qed.
Lemma recordRegistrationVerificationFailure_silent email : silent (recordRegistrationVerificationFailure rq email).
Proof. unfold recordRegistrationVerificationFailure. silent_steps. Qed.
Lemma issueRegistrationVerification_silent email : silent (issueRegistrationVerification cfg rq email).
Proof. unfold issueRegistrationVerification. silent_steps. Qed.
Lemma markRegistrationVerified_silent email : silent (markRegistrationVerified rq email).
Proof. unfold markRegistrationVerified. silent_steps. Qed.
Lemma enqueueEmailVerification_silent user : silent (enqueueEmailVerification cfg rq user).
Proof. unfold enqueueEmailVerification. silent_steps. Qed.
Lemma enqueuePasswordReset_silent user : silent (enqueuePasswordReset cfg rq user).
Proof. unfold enqueuePasswordReset. silent_steps. Qed.
Lemma enqueuePasswordResetCode_silent user : silent (enqueuePasswordResetCode cfg rq user).
Proof. unfold enqueuePasswordResetCode. silent_steps. Qed.
Lemma removeReactivationCode_silent email : silent (removeReactivationCode email).
Proof. unfold removeReactivationCode. silent_steps. Qed.
Lemma enqueueReactivationCode_silent user : silent (enqueueReactivationCode cfg rq user).
Proof. unfold enqueueReactivationCode, removeReactivationCode. silent_steps. Qed.
Lemma recordReactivationCodeFailure_silent email : silent (recordReactivationCodeFailure rq email).
Proof. unfold recordReactivationCodeFailure. silent_steps. Qed.
Lemma invalidate_silent id : silent (invalidate rq id).
Proof. unfold invalidate. silent_steps. Qed.
Lemma known_challenge_silent found stale : silent (known_challenge found stale).
Proof. unfold known_challenge. silent_steps. Qed.
Lemma complete_recovery_silent id hash stale : silent (complete_recovery rq id hash stale).
Proof. unfold complete_recovery. silent_steps. Qed.
End silent.
#[export] Hint Resolve allowAuthProbe_silent update_account_silent create_account_silent
  updateMFAChallenge_silent lookupMFAChallenge_silent refreshMFAChallenge_silent createMFAChallenge_silent
  removeSession_silent removeMFAChallenge_silent removeMFAChallengesForUser_silent
  removeEmailVerification_silent rejectIfBillingSuspended_silent set_proxy_state_silent
  touchUserActivity_silent requireAuthenticatedUser_silent requireAdminPermission_silent path_user_silent
  path_user_or_404_silent mark_verified_silent reset_readonly_mfa_silent offered_challenge_silent
  issueOAuthExchangeCode_silent lookupEmailVerification_silent recordEmailVerificationFailure_silent
  lookupRegistrationVerification_silent removeRegistrationVerification_silent
  recordRegistrationVerificationFailure_silent issueRegistrationVerification_silent
  markRegistrationVerified_silent enqueueEmailVerification_silent enqueuePasswordReset_silent
  enqueuePasswordResetCode_silent removeReactivationCode_silent enqueueReactivationCode_silent
  recordReactivationCodeFailure_silent invalidate_silent known_challenge_silent complete_recovery_silent : silent.

(** ** The calls that open no session *)

Definition opens_session (call : authCall) : bool :=
  match call with
  | CVerifyEmail _ | CLogin _ | CVerifyMFALogin _ | COAuthCallback _ _ _ _ | CConfirmPasswordReset _
  | CReactivate _ | CVerifyTOTP _ | CAdminAssume _ => true
  | _ => false
  end.

Section calls.
Context `{MapOrder} `{AuthLibrary} (cfg : authConfig) (rq : request).

Lemma register_silent body : silent (register cfg rq body).
Proof.
  unfold register, registration_body, check_registration_code, accepted_referral, drop_registration_code. silent_steps.
Qed.
Lemma sendEmailVerification_silent body : silent (sendEmailVerification cfg rq body).
Proof. unfold sendEmailVerification, mail_answer. silent_steps. Qed.
Lemma exchangeToken_silent body : silent (exchangeToken rq body).
Proof. unfold exchangeToken. silent_steps. Qed.
Lemma deleteSession_silent : silent (deleteSession rq).
Proof. unfold deleteSession. silent_steps. Qed.
Lemma requestPasswordReset_silent body : silent (requestPasswordReset cfg rq body).
Proof. unfold requestPasswordReset. silent_steps. Qed.
Lemma requestPasswordResetCode_silent body : silent (requestPasswordResetCode cfg rq body).
Proof. unfold requestPasswordResetCode. silent_steps. Qed.
Lemma confirmPasswordResetCode_silent body : silent (confirmPasswordResetCode rq body).
Proof. unfold confirmPasswordResetCode, recovery_code_failed. silent_steps. Qed.
Lemma setPassword_silent body : silent (setPassword rq body).
Proof. unfold setPassword. silent_steps. Qed.
Lemma selfCancelFreeAccount_silent : silent (selfCancelFreeAccount rq).
Proof. unfold selfCancelFreeAccount. silent_steps. Qed.
Lemma provisionTOTP_silent key body : silent (provisionTOTP cfg rq key body).
Proof. unfold provisionTOTP, provision_target. silent_steps. Qed.
Lemma mfaStatus_silent a b c d : silent (mfaStatus cfg rq a b c d).
Proof. unfold mfaStatus, status_session, status_challenge. silent_steps. Qed.
Lemma disableMFA_silent body : silent (disableMFA rq body).
Proof. unfold disableMFA. silent_steps. Qed.
Lemma requireMFARecoveryManagement_silent : silent (requireMFARecoveryManagement rq).
Proof. unfold requireMFARecoveryManagement. silent_steps. Qed.
Lemma requireManagementTOTP_silent user body : silent (requireManagementTOTP rq user body).
Proof. unfold requireManagementTOTP. silent_steps. Qed.
#[local] Hint Resolve requireMFARecoveryManagement_silent requireManagementTOTP_silent : silent.
Lemma getMFARecoveryCodeStatus_silent : silent (getMFARecoveryCodeStatus rq).
Proof. unfold getMFARecoveryCodeStatus. silent_steps. Qed.
Lemma rotateMFARecoveryCodes_silent raw body : silent (rotateMFARecoveryCodes rq raw body).
Proof. unfold rotateMFARecoveryCodes. silent_steps. Qed.
Lemma revokeMFARecoveryCodes_silent body : silent (revokeMFARecoveryCodes rq body).
Proof. unfold revokeMFARecoveryCodes. silent_steps. Qed.
Lemma check_factor_silent user method code : silent (check_factor rq user method code).
Proof. unfold check_factor, recovery_factor_failed. silent_steps. Qed.
#[local] Hint Resolve check_factor_silent : silent.
Lemma resetPasswordWithMFA_silent body : silent (resetPasswordWithMFA rq body).
Proof. unfold resetPasswordWithMFA. silent_steps. Qed.
Lemma requestMFAReset_silent body : silent (requestMFAReset rq body).
Proof. unfold requestMFAReset. silent_steps. Qed.
Lemma confirmMFAReset_silent body : silent (confirmMFAReset rq body).
Proof. unfold confirmMFAReset. silent_steps. Qed.
Lemma adminDecideMFAReset_silent validID id body : silent (adminDecideMFAReset rq validID id body).
Proof. unfold adminDecideMFAReset, requireMFAResetRoot, forget_challenges. silent_steps. Qed.
Lemma createCustomUser_silent validUUID body : silent (createCustomUser rq validUUID body).
Proof. unfold createCustomUser. silent_steps. Qed.
Lemma store_role_silent user role message : silent (store_role rq user role message).
Proof. unfold store_role. silent_steps. Qed.
#[local] Hint Resolve store_role_silent : silent.
Lemma updateUserRole_silent id body : silent (updateUserRole rq id body).
Proof. unfold updateUserRole. silent_steps. Qed.
Lemma resetUserRole_silent id : silent (resetUserRole rq id).
Proof. unfold resetUserRole. silent_steps. Qed.
Lemma updateUserGroups_silent id body : silent (updateUserGroups rq id body).
Proof. unfold updateUserGroups. silent_steps. Qed.
Lemma pauseUser_silent id : silent (pauseUser rq id).
Proof. unfold pauseUser. silent_steps. Qed.
Lemma resumeUser_silent id : silent (resumeUser rq id).
Proof. unfold resumeUser. silent_steps. Qed.
Lemma setUserActive_silent id active actor : silent (setUserActive rq id active actor).
Proof. unfold setUserActive. silent_steps. Qed.
#[local] Hint Resolve setUserActive_silent : silent.
Lemma activateUser_silent id : silent (activateUser rq id).
Proof. unfold activateUser. silent_steps. Qed.
Lemma deactivateUser_silent id : silent (deactivateUser rq id).
Proof. unfold deactivateUser. silent_steps. Qed.
Lemma deleteUser_silent id reason requestID : silent (deleteUser rq id reason requestID).
Proof. unfold deleteUser, given_reason. silent_steps. Qed.
Lemma renewProxyUUID_silent id body : silent (renewProxyUUID rq id body).
Proof. unfold renewProxyUUID, renewal_end. silent_steps. Qed.
Lemma addToBlacklist_silent body : silent (addToBlacklist rq body).
Proof. unfold addToBlacklist. silent_steps. Qed.
Lemma removeFromBlacklist_silent email : silent (removeFromBlacklist rq email).
Proof. unfold removeFromBlacklist. silent_steps. Qed.
Lemma archive_check_silent id : silent (archive_check rq id).
Proof. unfold archive_check, archiveInactiveFreeUser. silent_steps. Qed.
#[local] Hint Resolve register_silent sendEmailVerification_silent exchangeToken_silent
  deleteSession_silent requestPasswordReset_silent requestPasswordResetCode_silent
  confirmPasswordResetCode_silent setPassword_silent selfCancelFreeAccount_silent provisionTOTP_silent
  mfaStatus_silent disableMFA_silent getMFARecoveryCodeStatus_silent rotateMFARecoveryCodes_silent
  revokeMFARecoveryCodes_silent resetPasswordWithMFA_silent requestMFAReset_silent confirmMFAReset_silent
  adminDecideMFAReset_silent createCustomUser_silent updateUserRole_silent resetUserRole_silent
  updateUserGroups_silent pauseUser_silent resumeUser_silent activateUser_silent deactivateUser_silent
  deleteUser_silent renewProxyUUID_silent addToBlacklist_silent removeFromBlacklist_silent
  archive_check_silent : silent.

Lemma dispatch_silent call : opens_session call = false → silent (dispatch cfg rq call).
Proof. destruct call; intros Ho; try discriminate Ho; cbn [dispatch]; auto with silent. Qed.
End calls.
