(* ===== verification/SessionProps.v ===== *)
(** * Authentication: sessions are earned

    Which proof opens a session: the theorem of this file covers every call of
    the account API. *)

From S2P Require Import Prelude GoLib Calendar Json StoreData Users Lifecycle Referral Quota Access Recovery RateLimit Entitlements Tenants Vault Workspace Login AdminAccess LoginHandlers LoginMFA AdminUsers AuthCalls AuthInv AuthLogic AuthSafe AuthProps SessionLogic.
Open Scope Z_scope.
Open Scope bool_scope.
Open Scope go_scope.

(** ** What earns a session *)

Section earned.
Context `{MapOrder} `{AuthLibrary} (cfg : authConfig) (rq : request).
Local Abbreviation now := (rq_now rq).

(** The password, or else a code together with the email address. *)
Definition password_accepted (u : User) (identifier password totpCode : string) : Prop :=
  if password != "" then bcrypt_Compare (user_PasswordHash u) password = true
  else totpCode ≠ "" ∧ EqualFold (TrimSpace (user_Email u)) identifier = true.

(** A second factor, where the account has one; the demo account does not keep
    its own. *)
Definition factor_accepted (u : User) (totpCode : string) : Prop :=
  user_MFAEnabled u = true → isReadOnlyAccount u = true ∨ totp_Validate totpCode (user_MFATOTPSecret u) now = Ok true.

Definition mfa_ticket (req : verifyMFARequest) : string :=
  first_non_empty [TrimSpace (vm_MFATicket req); TrimSpace (vm_MFAToken req)].
Definition mfa_code (req : verifyMFARequest) : string :=
  first_non_empty [TrimSpace (vm_Code req); TrimSpace (vm_TOTPCode req)].

(** The challenge a ticket stands for and the account it was issued to. *)
Definition ticket_of (st : authState) (token : string) (ch : mfaChallenge) (u : User) : Prop :=
  mfaChallenges st !! token = Some ch ∧ After now (mc_expiresAt ch) = false ∧
  GetUserByID (au_store st) (mc_userID ch) = Ok u.

Definition verified_profile (provider : OAuthProvider) (code : string) (profile : OAuthProfile) : Prop :=
  ∃ token, oauth_Exchange provider code = Ok token ∧ oauth_FetchProfile provider token = Ok profile ∧
    op_Verified profile = true ∧ op_Email profile ≠ "".

(** What the call presented for the account [userID]. *)
Definition earned (call : authCall) (st : authState) (userID : string) : Prop :=
  match call with
  | CVerifyEmail (Some (email, code)) => ∃ v u,
      verifications st !! normal_email email = Some v ∧ ev_code v = TrimSpace code ∧
      After now (ev_expiresAt v) = false ∧ Before now (ev_lockedUntil v) = false ∧
      GetUserByID (au_store st) (ev_userID v) = Ok u ∧ user_Active u = true ∧ user_ID u = userID
  | CLogin (Some req) => ∃ u,
      findUserByIdentifier (login_identifier req) (au_store st) = Ok u ∧
      password_accepted u (login_identifier req) (TrimSpace (log_Password req)) (TrimSpace (log_TOTPCode req)) ∧
      factor_accepted u (TrimSpace (log_TOTPCode req)) ∧
      user_Active u = true ∧ user_ArchivedAt u = None ∧ user_ID u = userID
  | CVerifyMFALogin (Some req) => ∃ ch u, ticket_of st (mfa_ticket req) ch u ∧
      user_Active u = true ∧ user_MFAEnabled u = true ∧
      totp_Validate (mfa_code req) (user_MFATOTPSecret u) now = Ok true ∧ user_ID u = userID
  | CVerifyTOTP (Some (token, code)) => ∃ ch u, ticket_of st (TrimSpace token) ch u ∧
      negb (IsZero (mc_lockedUntil ch)) && Before now (mc_lockedUntil ch) = false ∧
      totp_Validate (TrimSpace code)
        (first_non_empty [TrimSpace (user_MFATOTPSecret u); TrimSpace (mc_totpSecret ch)]) now = Ok true ∧
      user_ID u = userID
  | CConfirmPasswordReset (Some (token, _)) => ∃ c u,
      GetPasswordRecoveryChallengeByTokenHash (passwordResetTokenHash (TrimSpace token)) (au_store st) = Ok c ∧
      After (prc_ExpiresAt c) now = true ∧ GetUserByID (au_store st) (prc_UserID c) = Ok u ∧
      EqualFold (TrimSpace (user_Email u)) (prc_Email c) = true ∧ user_Active u = true ∧ user_ID u = userID
  | COAuthCallback _ code _ (Some provider) => ∃ profile, verified_profile provider code profile ∧
      ((∃ u, GetUserByEmail (au_store st) (op_Email profile) = Ok u ∧ user_Active u = true ∧ user_ID u = userID) ∨
       (GetUserByEmail (au_store st) (op_Email profile) = Err ErrUserNotFound ∧ userID = rq_ids rq 0))
  | CReactivate (Some (email, code)) => ∃ e u,
      reactivationCodes st !! normal_email email = Some e ∧ ar_code e = TrimSpace code ∧
      After now (ar_expiresAt e) = false ∧ Before now (ar_lockedUntil e) = false ∧
      GetUserByID (au_store st) (ar_userID e) = Ok u ∧ user_ID u = userID
  | CAdminAssume _ => ∃ actor u, administrator rq permissionAdminSettingsWrite st actor ∧
      isRootAccount actor = true ∧ GetUserByEmail (au_store st) sandboxUserEmail = Ok u ∧ user_ID u = userID
  | _ => False
  end.
End earned.

(** ** Logic *)

Section logic.
Context `{MapOrder} `{AuthLibrary} (cfg : authConfig) (rq : request).
Context (st0 : authState) (E : string → Prop).

(** New sessions are those of the accounts of [E]. *)
Definition kept (st : authState) : Prop :=
  indexed (au_store st) ∧ ∀ token sess, sessions (au_store st) !! token = Some sess →
    sessions (au_store st0) !! token = Some sess ∨ E (sess_UserID sess).
Definition unchanged (st : authState) : Prop := st = st0.
Definition seen (st : authState) : Prop :=
  indexed (au_store st) ∧ same_accounts (au_store st0) (au_store st) ∧ no_new_session (au_store st0) (au_store st).
Local Abbreviation opens P m := (triple P m (λ _, kept) kept).

Lemma seen_kept st : seen st → kept st.
Proof. intros (Hi & _ & Hn). split; [done|]. intros token sess ?%Hn. by left. Qed.
Lemma unchanged_seen st : indexed (au_store st0) → unchanged st → seen st.
Proof. intros Hi ->. done. Qed.

(** *** Once the proof is accepted *)

Lemma kept_calm {A} (m : Act A) : (∀ st, same_accounts (au_store st) (au_store (m st).2)) → silent m →
  safe kept m (λ _, True).
Proof.
  intros Hm Hs st [Hi Hk]. specialize (Hm st); specialize (Hs st). destruct (m st) as [[a|e] st']; cbn [snd] in *.
  all: assert (kept st') by (split; [by apply (indexed_same _ _ Hm)|intros token sess ?%Hs; by apply Hk]).
  all: done.
Qed.
(** Any step that keeps the indexes. *)
Abbreviation only_indexed := (accounts_inv (λ _, False) (λ _ _, True) false).
#[local] Instance any_stable : Stable (λ _, True) (λ _ _, True) false.
Proof. by constructor. Qed.
Lemma kept_indexed {A} (m : Act A) φ : safe only_indexed m φ → silent m → safe kept m φ.
Proof.
  intros Hm Hs st [Hi Hk]. specialize (Hm st); specialize (Hs st).
  assert (only_indexed st) as HI by done. specialize (Hm HI).
  destruct (m st) as [[a|e] st']; cbn [snd] in *.
  - destruct Hm as [Ha (Hi' & _)]. do 2 (split; [done|]). intros token sess ?%Hs. by apply Hk.
  - destruct Hm as (Hi' & _). split; [done|]. intros token sess ?%Hs. by apply Hk.
Qed.
Lemma complete_recovery_kept id hash stale : safe kept (complete_recovery rq id hash stale) (λ _, True).
Proof.
  apply kept_indexed; [|auto with silent].
  by apply (complete_recovery_safe rq (λ _, False) (λ _ _, True) false).
Qed.
Lemma recordReactivationCodeFailure_kept email : safe kept (recordReactivationCodeFailure rq email) (λ _, True).
Proof.
  apply kept_indexed; [|auto with silent].
  by apply (recordReactivationCodeFailure_safe rq (λ _, False) (λ _ _, True) false).
Qed.
Lemma removeReactivationCode_kept email : safe kept (removeReactivationCode email) (λ _, True).
Proof.
  apply kept_indexed; [|auto with silent].
  by apply (removeReactivationCode_safe (λ _, False) (λ _ _, True) false).
Qed.
Lemma kept_steady {A} (m : Act A) : steady m → silent m → safe kept m (λ _, True).
Proof. intros Hm. apply kept_calm. intros st. apply Hm. Qed.

Lemma update_account_facts i user : safe kept (update_account rq i user)
  (λ ru, user_ID ru.2 = user_ID user ∧ user_Active ru.2 = user_Active user).
Proof.
  intros st [Hi Hk]. pose proof (update_account_silent rq i user st) as Hs.
  unfold update_account, on_store in *.
  destruct (UpdateUser (rq_v7 rq i) (rq_now rq) user (au_store st)) as [[r out] s'] eqn:Eu.
  destruct (UpdateUser_accounts _ _ _ _ _ _ _ Hi Eu) as (Hi' & Eid & Est & _).
  split; [split; [done|exact (f_equal (λ x, x.1.2) Est)]|]. split; [done|].
  intros token sess ?%Hs. by apply Hk.
Qed.
Lemma update_account_kept i user : safe kept (update_account rq i user) (λ ru, user_ID ru.2 = user_ID user).
Proof. eapply safe_weaken; [apply update_account_facts|]. by intros ru []. Qed.
Lemma touchUserActivity_kept user : safe kept (touchUserActivity rq user) (λ u, user_ID u = user_ID user).
Proof.
  unfold touchUserActivity. apply safe_if; intros _; [by apply safe_ret|].
  apply safe_if; intros _; [by apply safe_ret|].
  eapply safe_bind; [apply update_account_kept|]. intros [r u] Hu. by apply safe_ret.
Qed.
Lemma mark_verified_kept user failure : safe kept (mark_verified rq user failure)
  (λ u, user_ID u = user_ID user ∧ user_Active u = user_Active user).
Proof.
  unfold mark_verified. apply safe_if; intros _; [by apply safe_ret|].
  eapply safe_bind; [apply update_account_facts|]. intros [r u] Hu.
  eapply safe_bind; [apply safe_or_refuse|]. intros [] _. by apply safe_ret.
Qed.
Lemma reset_readonly_mfa_kept user : safe kept (reset_readonly_mfa rq user) (λ u, user_ID u = user_ID user).
Proof.
  unfold reset_readonly_mfa. apply safe_if; intros _; [|by apply safe_ret].
  eapply safe_bind; [apply update_account_kept|]. intros [r u] Hu. by apply safe_ret.
Qed.

Lemma createSession_kept i id fp : E id → safe kept (createSession cfg rq i id fp) (λ _, True).
Proof.
  intros HE. unfold createSession. destruct (newRandomToken rq i) as [token|]; [|by apply safe_ret]. cbv zeta.
  apply (safe_bind _ _ _ (λ _, True)); [|intros; by apply safe_ret].
  intros st [Hi Hk]. unfold on_store.
  assert (∀ t, kept (st <| au_store := (au_store st) <| sessions := <[token := mksessionRecord id t]>
    (sessions (au_store st)) |> |>)) as Hnew.
  { intros t. split; [by apply (indexed_same (au_store st))|]. intros k sess. getset.
    intros [[<- <-]|[_ ?]]%lookup_insert_Some; [by right|by apply Hk]. }
  destruct fp as [fp|]; [|split; [done|apply Hnew]]. unfold CreateMFASession.
  destruct (user_by_id (au_store st) id); [|done]. destruct (_ || _); [done|]. split; [done|apply Hnew].
Qed.
Lemma new_session_kept i id fp : E id → safe kept (new_session cfg rq i id fp) (λ _, True).
Proof.
  intros HE. unfold new_session. eapply safe_bind; [by apply createSession_kept|]. intros r _.
  by eapply safe_any, safe_or_refuse.
Qed.

(** *** Before it *)

Lemma opens_reads {A B} (m : Act A) (f : A → Act B) φ :
  reads m φ → indexed (au_store st0) → (∀ a, φ st0 a → opens unchanged (f a)) → opens unchanged (m ≫= f).
Proof.
  intros Hm Hi Hf st ->. unfold mbind, Act_bind. specialize (Hm st0). destruct (m st0) as [[a|e] st1].
  - destruct Hm as [-> Ha]. by apply (Hf a).
  - subst st1. by apply seen_kept, unchanged_seen.
Qed.
Lemma opens_guard {B} b status code (f : () → Act B) :
  indexed (au_store st0) → (b = false → opens unchanged (f tt)) → opens unchanged (guard_not b status code ≫= f).
Proof. intros Hi Hf. eapply opens_reads; [apply reads_guard|done|]. by intros []. Qed.

Lemma seen_reads {A B} (m : Act A) (f : A → Act B) φ :
  reads m φ → (∀ st a, seen st → φ st a → opens seen (f a)) → opens seen (m ≫= f).
Proof.
  intros Hm Hf st Hst. unfold mbind, Act_bind. specialize (Hm st). destruct (m st) as [[a|e] st1].
  - destruct Hm as [-> Ha]. by apply (Hf st a).
  - subst st1. by apply seen_kept.
Qed.
Lemma seen_guard {B} b status code (f : () → Act B) :
  (b = false → opens seen (f tt)) → opens seen (guard_not b status code ≫= f).
Proof. intros Hf. eapply seen_reads; [apply reads_guard|]. intros st [] _. done. Qed.
Lemma seen_steady {A B} (m : Act A) (f : A → Act B) : steady m → silent m → (∀ a, opens seen (f a)) →
  opens seen (m ≫= f).
Proof.
  intros Hm Hs Hf st (Hi & Ha & Hn). unfold mbind, Act_bind. destruct (Hm st) as [Hm' _]; specialize (Hs st).
  destruct (m st) as [[a|e] st1]; cbn [snd] in *.
  all: assert (seen st1) by (split_and!; [by apply (indexed_same _ _ Hm')|by transitivity (au_store st)..]).
  - by apply Hf.
  - by apply seen_kept.
Qed.
(** The proof is accepted. *)
Lemma opens_safe {A} P (m : Act A) : (∀ st, P st → kept st) → safe kept m (λ _, True) → opens P m.
Proof. intros HP. apply triple_weaken; [done|by intros a st []|done]. Qed.
Lemma opens_stop {A} P r : (∀ st, P st → kept st) → opens P (@stop A r).
Proof. intros HP st Hst. by apply HP. Qed.
End logic.

Local Abbreviation opens st0 E P m := (triple P m (λ _, kept st0 E) (kept st0 E)).

(** Runs through the checks of a handler, keeping what they established. *)
Ltac earn_steps :=
  repeat match goal with
  | Hi : indexed _ |- triple (unchanged _) (mbind _ (guard_not _ _ _)) _ _ => apply opens_guard; [exact Hi|intros ?]
  | Hi : indexed _ |- triple (unchanged _) (mbind _ (bound _)) _ _ =>
      eapply opens_reads; [apply reads_bound|exact Hi|let h := fresh "Hf" in intros ? h; cbn beta in h; subst]
  | Hi : indexed _ |- triple (unchanged _) (mbind _ (look_store _)) _ _ =>
      eapply opens_reads; [apply reads_look_store|exact Hi|let h := fresh "Hf" in intros ? h; cbn beta in h]
  | Hi : indexed _ |- triple (unchanged _) (mbind _ (or_refuse _ _ _)) _ _ =>
      eapply opens_reads; [apply reads_or_refuse|exact Hi|let h := fresh "Hf" in intros ? h; cbn beta in h]
  | |- triple _ (let '(_, _) := ?p in _) _ _ => destruct p
  | Hi : indexed _ |- triple (unchanged _) (stop _) _ _ =>
      apply opens_stop; intros ? ?; by apply seen_kept, unchanged_seen
  | |- triple _ (refuse _ _) _ _ => unfold refuse
  | |- triple _ _ _ _ => progress cbv zeta
  end.
(** And through what follows. *)
Ltac kept_steps :=
  repeat match goal with
  | |- ∀ _, _ => intros ?
  | |- safe _ (mbind _ (guard_not _ _ _)) _ => eapply safe_bind; [apply safe_guard|]
  | |- safe _ (mbind _ (or_refuse _ _ _)) _ => eapply safe_bind; [apply safe_or_refuse|]
  | |- safe _ (mbind _ (update_account _ _ _)) _ => eapply safe_bind; [apply update_account_kept|]
  | |- safe _ (mbind _ (new_session _ _ _ _ _)) _ => eapply safe_bind; [apply new_session_kept|]
  | |- safe _ (mbind _ _) _ => eapply safe_bind; [apply kept_steady; solve [auto with steady|auto with silent]|]
  | |- safe _ (let '(_, _) := ?p in _) _ => destruct p; cbn [fst snd] in *
  | |- safe _ (mret _) (λ _, True) => by apply safe_ret
  end.

(** What the checks established, as facts. *)
Ltac settle := bools; subst; unfold ticket_of; split_and?; try done; try congruence.

Section handlers.
Context `{MapOrder} `{AuthLibrary} (cfg : authConfig) (rq : request) (st0 : authState).
Context (Hi : indexed (au_store st0)).
Local Abbreviation now := (rq_now rq).

Lemma opens_accepted {A} E (m : Act A) : safe (kept st0 E) m (λ _, True) → opens st0 E (unchanged st0) m.
Proof. apply opens_safe. intros st Hst. by apply seen_kept, unchanged_seen. Qed.

(** The tables of pending codes: an entry that is returned is in the table. *)
Lemma lookupEmailVerification_found email st : ToLower (TrimSpace email) = email →
  match lookupEmailVerification rq email st with
  | (Ok (Some v), st') => st' = st ∧ verifications st !! email = Some v ∧ After now (ev_expiresAt v) = false
  | (_, st') => au_store st' = au_store st
  end.
Proof.
  intros He. unfold lookupEmailVerification, normal_email. rewrite He. cbv zeta. destruct (email == ""); [done|].
  unfold look, mbind, Act_bind. destruct (verifications st !! email) as [v|] eqn:Ev; [|done].
  destruct (After now (ev_expiresAt v)) eqn:Ea; [done|]. done.
Qed.
Lemma lookupMFAChallenge_found token st :
  match lookupMFAChallenge rq token st with
  | (Ok (Some ch), st') => st' = st ∧ mfaChallenges st !! token = Some ch ∧ After now (mc_expiresAt ch) = false
  | (_, st') => au_store st' = au_store st
  end.
Proof.
  unfold lookupMFAChallenge, updateMFAChallenge. cbv zeta.
  destruct (mfaChallenges st !! token) as [ch|] eqn:Ec; [|done].
  destruct (After now (mc_expiresAt ch)) eqn:Ea; [done|]. done.
Qed.

(** A table read: either an entry in the state as it is, or the store as it
    is. *)
Lemma opens_table {T B} E (m : Act (option T)) (f : option T → Act B) (φ : T → Prop) :
  match m st0 with (Ok (Some v), st') => st' = st0 ∧ φ v | (_, st') => au_store st' = au_store st0 end →
  (∀ v, φ v → opens st0 E (unchanged st0) (f (Some v))) → silent (f None) → steady (f None) →
  opens st0 E (unchanged st0) (m ≫= f).
Proof.
  intros Hm Hf Hs Hq st ->. unfold mbind, Act_bind.
  assert (∀ st', au_store st' = au_store st0 → kept st0 E st') as Hk.
  { intros st' Es. split; [by rewrite Es|]. intros token sess. rewrite Es. by left. }
  destruct (m st0) as [[[v|]|e] st1]; [|..|by apply Hk].
  - destruct Hm as [-> Hv]. by apply Hf.
  - pose proof (kept_steady st0 E (f None) Hq Hs st1 (Hk st1 Hm)) as Hn.
    destruct (f None st1) as [[b|e] st2]; [apply Hn|exact Hn].
Qed.

Lemma normal_email_idem email : ToLower (TrimSpace (normal_email email)) = normal_email email.
Proof. unfold normal_email. by rewrite TrimSpace_ToLower, TrimSpace_idem, ToLower_idem. Qed.

Lemma verifyMFALogin_earned body :
  opens st0 (earned rq (CVerifyMFALogin body) st0) (unchanged st0) (verifyMFALogin cfg rq body).
Proof.
  unfold verifyMFALogin. earn_steps. fold (mfa_ticket a) (mfa_code a).
  eapply opens_table; [apply lookupMFAChallenge_found|..|apply silent_stop|apply steady_stop].
  intros ch [Hch Hx]. earn_steps. apply opens_accepted. kept_steps.
  exists ch, a1. settle.
Qed.

Lemma verifyEmail_earned body :
  opens st0 (earned rq (CVerifyEmail body) st0) (unchanged st0) (verifyEmail cfg rq body).
Proof.
  unfold verifyEmail. earn_steps.
  eapply opens_table; [apply lookupEmailVerification_found, normal_email_idem|..].
  2:{ unfold verify_pending. silent_steps. }
  2:{ unfold verify_pending. steady_steps. }
  intros v [Hv Hx]. unfold verify_existing.
  destruct (Before now (ev_lockedUntil v)) eqn:El; [earn_steps|].
  destruct (ev_code v != TrimSpace s0) eqn:Ec.
  { apply opens_accepted. apply kept_steady; [steady_steps|silent_steps]. }
  earn_steps. destruct (negb (EqualFold _ _)).
  { apply opens_accepted. apply kept_steady; [steady_steps|silent_steps]. }
  apply opens_accepted. eapply safe_bind; [apply mark_verified_kept|]. intros u [Hu _]. kept_steps.
  exists v, a0. settle.
Qed.

(** Refreshing a challenge moves its end alone. *)
Lemma refresh_kept E token ch user t : mfaChallenges st0 !! token = Some ch →
  triple (unchanged st0) (updateMFAChallenge rq token (Some (of_user user (λ ch, ch <| mc_expiresAt := t |>))))
    (λ r st, (∀ ch', r = Some ch' → mc_lockedUntil ch' = mc_lockedUntil ch ∧ mc_totpSecret ch' = mc_totpSecret ch) ∧
       kept st0 E st) (kept st0 E).
Proof.
  intros Hch st ->. assert (∀ m, kept st0 E (st0 <| mfaChallenges := m |>)) as Hk.
  { intros m. split; [exact Hi|]. intros token' sess Hs. by left. }
  unfold updateMFAChallenge. rewrite Hch. cbv zeta. destruct (After now _); [by split|].
  unfold of_user. destruct (_ != _); [by split|]. split; [|apply Hk]. by intros ch' [= <-].
Qed.

Lemma with_mfa_ID user secret ch : user_ID (with_mfa rq user secret ch) = user_ID user.
Proof. unfold with_mfa. cbv zeta. destruct (TrimSpace (user_MFATOTPSecret user) == ""); by destruct (IsZero _). Qed.

Lemma verifyTOTP_earned body :
  opens st0 (earned rq (CVerifyTOTP body) st0) (unchanged st0) (verifyTOTP cfg rq body).
Proof.
  unfold verifyTOTP. earn_steps.
  eapply opens_table; [apply lookupMFAChallenge_found|..|apply silent_stop|apply steady_stop].
  intros ch [Hch Hx]. earn_steps. eapply triple_bind; [by apply (refresh_kept _ _ ch)|].
  intros [ch'|]; [|by intros st [_ ?]]. intros st [Hsame Hk]. destruct (Hsame ch' eq_refl) as [El Es].
  revert st Hk. apply opens_safe; [done|]. apply safe_if; intros Hl; [apply safe_stop|]. kept_steps.
  apply safe_if; intros Hv.
  { unfold totp_failed. apply kept_steady; [steady_steps|silent_steps]. }
  kept_steps. rewrite with_mfa_ID in *. rewrite Es, El in *. exists ch, a0. apply negb_false_iff in Hv. subst a3.
  unfold ticket_of. split_and!; congruence.
Qed.

Lemma known_challenge_reads found stale : reads (known_challenge found stale) (λ _ c, found = Ok c).
Proof. intros st. unfold known_challenge. destruct found; [done|]. by destruct (_ == _). Qed.
Lemma known_sandbox_reads found : reads (known_sandbox found) (λ _ u, found = Ok u).
Proof. intros st. unfold known_sandbox. destruct found; [done|]. by destruct (_ == _). Qed.

Lemma confirmPasswordReset_earned body :
  opens st0 (earned rq (CConfirmPasswordReset body) st0) (unchanged st0) (confirmPasswordReset cfg rq body).
Proof.
  unfold confirmPasswordReset. earn_steps.
  eapply opens_reads; [apply known_challenge_reads|exact Hi|]. intros c Hc. cbn beta in Hc. earn_steps.
  destruct (negb (EqualFold _ _)) eqn:Ee.
  { apply opens_accepted. apply kept_steady; [steady_steps|silent_steps]. }
  destruct (isReadOnlyAccount _).
  { apply opens_accepted. apply kept_steady; [steady_steps|silent_steps]. }
  earn_steps. apply opens_accepted. eapply safe_bind; [apply complete_recovery_kept|]. kept_steps.
  exists c, a1. settle.
Qed.

Lemma reactivateAccount_earned body :
  opens st0 (earned rq (CReactivate body) st0) (unchanged st0) (reactivateAccount cfg rq body).
Proof.
  unfold reactivateAccount. earn_steps.
  eapply opens_reads with (φ := λ st a, a = reactivationCodes st !! normal_email s); [by intros st|exact Hi|].
  intros [e|] He; [|earn_steps]. earn_steps. destruct (ar_code e != TrimSpace s0) eqn:Ec.
  { apply opens_accepted. eapply safe_bind; [apply recordReactivationCodeFailure_kept|]. intros t _.
    apply safe_if; intros _; apply safe_stop. }
  earn_steps. destruct a as [user|]; earn_steps. apply opens_accepted. kept_steps.
  eapply safe_bind; [apply removeReactivationCode_kept|]. kept_steps.
  exists e, user. settle.
Qed.

Lemma adminAssume_earned body :
  opens st0 (earned rq (CAdminAssume body) st0) (unchanged st0) (adminAssume cfg rq body).
Proof.
  unfold adminAssume. eapply opens_reads; [apply requireAdminPermission_reads|exact Hi|].
  intros actor Ha. cbn beta in Ha. earn_steps.
  eapply opens_reads; [apply known_sandbox_reads|exact Hi|]. intros u Hu. cbn beta in Hu.
  apply opens_accepted. eapply safe_bind with (φ := λ ru, user_ID ru.2 = user_ID u).
  { unfold ensureSandboxProxyUUID. apply safe_if; intros _; [by apply safe_ret|]. cbv zeta.
    apply safe_if; intros _; [by apply safe_ret|]. destruct (rq_v7 rq 0); [|by apply safe_ret].
    eapply safe_weaken; [apply update_account_kept|]. by intros [r v]. }
  kept_steps. exists actor, u. specialize (Ha Hi). settle.
Qed.

(** *** Signing in with a password *)

Lemma findUserByIdentifier_seen st identifier : seen st0 st →
  findUserByIdentifier identifier (au_store st) = findUserByIdentifier identifier (au_store st0).
Proof. intros (_ & Hs & _). by apply findUserByIdentifier_same. Qed.
Lemma known_user_reads found : reads (known_user found) (λ _ u, found = Ok u).
Proof. intros st. unfold known_user. destruct found; [done|]. by destruct (_ == _). Qed.
Lemma check_password_reads user identifier password totpCode :
  reads (check_password user identifier password totpCode) (λ _ _, password_accepted user identifier password totpCode).
Proof.
  intros st. unfold check_password, password_accepted, guard_not. destruct (password != "").
  - by destruct (bcrypt_Compare _ _).
  - destruct (totpCode == "") eqn:Et; [done|]. bools. unfold mbind, Act_bind, mret, Act_ret.
    by destruct (EqualFold _ _).
Qed.
(** An account that may sign in is active and not archived. *)
Lemma check_account_seen E user :
  triple (seen st0) (check_account cfg rq user)
    (λ _ st, (user_Active user = true ∧ user_ArchivedAt user = None) ∧ seen st0 st) (kept st0 E).
Proof.
  intros st Hst. unfold check_account, guard_not, mbind, Act_bind.
  destruct (user_Active user) eqn:Ea; [|by apply seen_kept]. cbn [negb]. unfold mret at 1, Act_ret at 1.
  destruct (_ && _); [by apply seen_kept|]. unfold mret at 1, Act_ret at 1.
  destruct (user_ArchivedAt user); [|done].
  pose proof (enqueueReactivationCode_silent cfg rq user st) as Hs.
  assert (same_accounts (au_store st) (au_store (enqueueReactivationCode cfg rq user st).2)) as Hm.
  { unfold enqueueReactivationCode. destruct (newVerificationCode rq); [|done]. by destruct (rq_mail rq). }
  destruct (enqueueReactivationCode cfg rq user st) as [[b|r] st1]; cbn [snd] in *.
  all: assert (kept st0 E st1) as Hk by (apply seen_kept; destruct Hst as (Hx & Hy & Hz);
    split_and!; [by apply (indexed_same _ _ Hm)|by transitivity (au_store st)..]).
  - by destruct b.
  - done.
Qed.

(** The second factor after the password; [u] is the account read. *)
Lemma reset_readonly_mfa_factor E u : safe (kept st0 E) (reset_readonly_mfa rq u)
  (λ v, user_ID v = user_ID u ∧ (isReadOnlyAccount u = true ∨ v = u)).
Proof.
  unfold reset_readonly_mfa. apply safe_if; intros Hr; [|apply safe_ret; by auto].
  apply andb_true_iff in Hr as [Hr _]. eapply safe_bind; [apply update_account_kept|].
  intros [r v] Hv. apply safe_ret. auto.
Qed.
Lemma login_mfa_kept (E : string → Prop) u totpCode :
  (totp_Validate totpCode (user_MFATOTPSecret u) now = Ok true → E (user_ID u)) →
  safe (kept st0 E) (login_mfa cfg rq u totpCode) (λ _, True).
Proof.
  intros HE. unfold login_mfa. apply safe_if; intros _; kept_steps.
  eapply safe_bind; [apply touchUserActivity_kept|]. intros v Hv. kept_steps.
  rewrite Hv. apply HE. cbn beta in *. bools. congruence.
Qed.
Lemma login_plain_kept (E : string → Prop) u : E (user_ID u) → safe (kept st0 E) (login_plain cfg rq u) (λ _, True).
Proof.
  intros HE. unfold login_plain. eapply safe_bind; [apply touchUserActivity_kept|]. intros v Hv. kept_steps.
  by rewrite Hv.
Qed.

Lemma login_earned body : opens st0 (earned rq (CLogin body) st0) (unchanged st0) (login cfg rq body).
Proof.
  unfold login. earn_steps.
  apply (triple_weaken (seen st0) (unchanged st0) _ (λ _, kept st0 (earned rq (CLogin (Some a)) st0)) _
    (kept st0 (earned rq (CLogin (Some a)) st0))); [intros st Hst; by apply unchanged_seen|done|done|].
  apply seen_steady; [auto with steady|auto with silent|]. intros _.
  eapply seen_reads; [apply reads_look_store|]. intros st found Hst Hf. cbn beta in Hf.
  rewrite (findUserByIdentifier_seen st) in Hf by done.
  eapply seen_reads; [apply known_user_reads|]. intros st1 u _ Hu. cbn beta in Hu. rewrite Hf in Hu.
  apply seen_steady; [auto with steady|auto with silent|]. intros _.
  apply seen_guard. intros _. eapply seen_reads; [apply check_password_reads|]. intros st2 [] _ Hp. cbn beta in Hp.
  eapply triple_bind; [apply check_account_seen|]. intros [] st3 [[Ha Hn] Hst3]. revert st3 Hst3.
  apply opens_safe; [apply seen_kept|]. eapply safe_bind; [apply reset_readonly_mfa_factor|]. intros v [Ev Hv].
  assert (factor_accepted rq u (TrimSpace (log_TOTPCode a)) → earned rq (CLogin (Some a)) st0 (user_ID v)) as HE.
  { intros Hfactor. exists u. by rewrite Ev. }
  apply safe_if; intros Hm.
  - apply login_mfa_kept. intros Ht. apply HE. intros _. destruct Hv as [?|<-]; auto.
  - apply login_plain_kept. apply HE. intros Hm'. destruct Hv as [?|<-]; [by left|congruence].
Qed.


(** *** OAuth *)

Context (Hfresh : byID (au_store st0) !! rq_ids rq 0 = None).

Lemma create_account_opened E user : user_ID user = "" →
  triple (unchanged st0) (create_account rq user "")
    (λ ru st, (ru.1 = Ok tt → user_ID ru.2 = rq_ids rq 0) ∧ kept st0 E st) (kept st0 E).
Proof.
  intros Hid st ->. pose proof (create_account_silent rq user "" st0) as Hs. unfold create_account, on_store in *.
  rewrite bool_decide_true in * by done. cbn [negb] in *.
  destruct (CreateUser (rq_ids rq 0) (rq_v7 rq 0) now user (au_store st0)) as [[r out] s'] eqn:Ec.
  apply CreateUser_accounts in Ec as (Hi' & _ & Hr); [|done|by rewrite bool_decide_true].
  split.
  - cbn. intros ->. destruct Hr as [Er _]. by rewrite bool_decide_true in Er.
  - split; [done|]. intros token sess ?%Hs. by left.
Qed.

Lemma oauth_new_account (E : string → Prop) user : user_ID user = "" → E (rq_ids rq 0) →
  triple (unchanged st0)
    ('(created, user) ← create_account rq user "";
     _ ← or_refuse created 500 "user_creation_failed";
     provisioned ← on_store (provisionFreeEntitlement now (user_ID user));
     _ ← or_refuse provisioned 500 "default_entitlement_unavailable";
     mret user)
    (λ u st, (user_Active u = true → E (user_ID u)) ∧ kept st0 E st) (kept st0 E).
Proof.
  intros Hid HE. eapply triple_bind; [by apply create_account_opened|]. intros [created v] st [Hv Hk]. revert st Hk.
  refine (_ : safe _ _ (λ u, user_Active u = true → E (user_ID u))). cbn [fst snd] in Hv.
  eapply safe_bind; [apply safe_or_refuse|]. intros [] ->. rewrite <-(Hv eq_refl) in HE.
  eapply safe_bind; [apply kept_steady; auto with steady silent|]. intros r _.
  eapply safe_bind; [apply safe_or_refuse|]. intros [] _. by apply safe_ret.
Qed.

Lemma oauthCallback_earned name code url provider :
  opens st0 (earned rq (COAuthCallback name code url provider) st0) (unchanged st0)
    (oauthCallback cfg rq name code url provider).
Proof.
  unfold oauthCallback. destruct provider as [provider|]; [|earn_steps]. earn_steps.
  assert (verified_profile provider code a0) as Hp by (exists a; settle).
  set (E := earned rq (COAuthCallback name code url (Some provider)) st0).
  eapply triple_bind with (R := λ u st, (user_Active u = true → E (user_ID u)) ∧ kept st0 E st).
  - unfold oauth_account. eapply triple_bind with (R := λ r st, r = GetUserByEmail (au_store st0) (op_Email a0) ∧ st = st0).
    { by intros st ->. }
    intros [u|e].
    + intros st [Hu ->]. pose proof (mark_verified_kept rq st0 E u "user_update_failed" st0) as Hm.
      specialize (Hm (seen_kept _ _ _ (unchanged_seen _ _ Hi eq_refl))).
      destruct (mark_verified _ _ _ _) as [[v|r] st1]; [|done]. destruct Hm as [[Ei Ea] Hk]. split; [|done].
      intros Hv. exists a0. split; [done|]. left. exists u. split; [done|]. split; congruence.
    + destruct (e != ErrUserNotFound) eqn:Ee.
      { intros st [_ ->]. by apply seen_kept, unchanged_seen. }
      intros st [Hu ->]. bools. subst e. cbv zeta.
      eapply (oauth_new_account E); [reflexivity| |reflexivity]. exists a0. split; [done|]. right. by split.
  - intros u st [HE Hk]. revert st Hk. apply opens_safe; [done|]. eapply safe_bind; [apply safe_guard|].
    intros [] Ha. apply negb_false_iff in Ha. kept_steps. by apply HE.
Qed.
End handlers.

(** ** Every call *)

Section sessions.
Context `{MapOrder} `{AuthLibrary} (cfg : authConfig) (rq : request).

Lemma serve_store h st : (serve h st).2 = (h st).2.
Proof. unfold serve. by destruct (h st) as [[r|r] st']. Qed.

Lemma opens_served E h st token sess : opens st E (unchanged st) h →
  sessions (au_store (serve h st).2) !! token = Some sess →
  sessions (au_store st) !! token = Some sess ∨ E (sess_UserID sess).
Proof.
  intros Hh. rewrite serve_store. specialize (Hh st eq_refl). destruct (h st) as [[r|r] st']; apply Hh.
Qed.

(** C4: a session that is there after a call of the account API ([authCall],
    which has every endpoint that calls [createSession]) and was not before
    belongs to an account for which the call presented what [earned]
    lists.  At login that is the accepted password, or in its place the email
    address of the account with some code, and an accepted code where the
    account has a second factor (without one the code is compared with
    nothing); elsewhere the live ticket of a challenge with an accepted code; a
    pending email or reactivation code or recovery token that has not expired;
    an OAuth profile with a verified address; or the session of a root account
    that may write settings, for the sandbox account alone.  No other endpoint
    opens a session.  The call brings generated identifiers that are unused. *)
Theorem sessions_earned call st token sess :
  indexed (au_store st) → fresh_call rq call st →
  sessions (au_store (serve_call cfg rq call st).2) !! token = Some sess →
  sessions (au_store st) !! token = Some sess ∨ earned rq call st (sess_UserID sess).
Proof.
  intros Hi Hf. unfold serve_call. destruct (opens_session call) eqn:Eo.
  - destruct call; try discriminate Eo; apply opens_served; cbn [dispatch].
    + by apply verifyEmail_earned.
    + by apply login_earned.
    + by apply verifyMFALogin_earned.
    + by apply oauthCallback_earned.
    + by apply confirmPasswordReset_earned.
    + by apply reactivateAccount_earned.
    + by apply verifyTOTP_earned.
    + by apply adminAssume_earned.
  - rewrite serve_store. intros Hs. left. by apply (dispatch_silent cfg rq call Eo st).
Qed.
End sessions.
