(* ===== verification/LoginProps.v ===== *)
(** * Authentication: signing in, guessing codes, resetting a password *)

From S2P Require Import Prelude GoLib Calendar Json StoreData Users Lifecycle Referral Quota Access Recovery RecoveryProps RateLimit Entitlements Tenants Vault Workspace Login AdminAccess LoginHandlers LoginMFA AdminUsers AuthCalls AuthInv AuthLogic AuthSafe AuthProps SessionLogic SessionProps.
Open Scope Z_scope.
Open Scope bool_scope.
Open Scope go_scope.

(** ** Guessing the code of an email verification *)

Section guesses.
Context `{MapOrder} `{AuthLibrary} (cfg : authConfig).

(** Requests to verify one address, one after the other, each with a code. *)
Fixpoint guess_codes (email : string) (guesses : list (request * string)) (st : authState) : list reply :=
  match guesses with
  | [] => []
  | (rq, code) :: rest =>
      let '(r, st) := serve (verifyEmail cfg rq (Some (email, code))) st in
      r :: guess_codes email rest st
  end.

(** The request reaches the comparison of the code. *)
Definition well_formed (g : request * string) : Prop :=
  hasQueryParameter g.1 ["token"; "code"] = false ∧ len (TrimSpace g.2) = 6 ∧ all_digits (TrimSpace g.2) = true.

Definition locked_answer (r : reply) : Prop := ∃ t, r = VerificationLocked t.

Lemma normal_email_twice email : normal_email (normal_email email) = normal_email email.
Proof. apply normal_email_idem. Qed.

(** The checks pass and the pending verification is found. *)
Lemma verifyEmail_reaches rq email code v st : well_formed (rq, code) → normal_email email ≠ "" →
  verifications st !! normal_email email = Some v → After (rq_now rq) (ev_expiresAt v) = false →
  verifyEmail cfg rq (Some (email, code)) st = verify_existing cfg rq (normal_email email) (TrimSpace code) v st.
Proof.
  intros (Hq & Hl & Hd) He Hv Hx. cbn [fst snd] in *. unfold verifyEmail, bound, guard_not, mbind, Act_bind.
  rewrite Hq. unfold mret, Act_ret. cbv zeta.
  rewrite (bool_decide_false (normal_email email = "")) by done.
  rewrite (bool_decide_false (TrimSpace code = "")) by (intros E; by rewrite E in Hl).
  rewrite Hl, Hd. cbn [orb negb]. rewrite bool_decide_true by done. cbn [negb].
  unfold lookupEmailVerification. rewrite normal_email_twice. cbv zeta.
  rewrite (bool_decide_false (normal_email email = "")) by done.
  unfold look, mbind, Act_bind. rewrite Hv, Hx. reflexivity.
Qed.

(** While the record is locked every request is refused as such and nothing
    changes. *)
Lemma guess_locked rq email code v st : well_formed (rq, code) → normal_email email ≠ "" →
  verifications st !! normal_email email = Some v → After (rq_now rq) (ev_expiresAt v) = false →
  Before (rq_now rq) (ev_lockedUntil v) = true →
  serve (verifyEmail cfg rq (Some (email, code))) st = (VerificationLocked (ev_lockedUntil v), st).
Proof.
  intros Hw He Hv Hx Hl. unfold serve. rewrite (verifyEmail_reaches rq email code v st) by done.
  unfold verify_existing. by rewrite Hl.
Qed.

(** A wrong code is counted on the record. *)
Lemma guess_wrong rq email code v st : well_formed (rq, code) → normal_email email ≠ "" →
  verifications st !! normal_email email = Some v → After (rq_now rq) (ev_expiresAt v) = false →
  Before (rq_now rq) (ev_lockedUntil v) = false → TrimSpace code ≠ ev_code v →
  verifications (serve (verifyEmail cfg rq (Some (email, code))) st).2 !! normal_email email =
    Some (count_failure rq v).
Proof.
  intros Hw He Hv Hx Hl Hc. unfold serve. rewrite (verifyEmail_reaches rq email code v st) by done.
  unfold verify_existing. rewrite Hl, bool_decide_false by congruence. cbn [negb].
  unfold recordEmailVerificationFailure. rewrite normal_email_twice. cbv zeta.
  rewrite bool_decide_false by done. unfold look, change, mbind, Act_bind. rewrite Hv, Hl. cbv zeta.
  unfold mret, Act_ret. destruct (_ && _); cbn [snd]; getset; apply lookup_insert_eq.
Qed.

Lemma guesses_locked email v guesses st : normal_email email ≠ "" →
  verifications st !! normal_email email = Some v →
  Forall (λ g, well_formed g ∧ After (rq_now g.1) (ev_expiresAt v) = false ∧
               Before (rq_now g.1) (ev_lockedUntil v) = true) guesses →
  Forall locked_answer (guess_codes email guesses st).
Proof.
  intros He Hv Hg. induction Hg as [|[rq code] rest (Hw & Hx & Hl) _ IH]; [constructor|].
  cbn [guess_codes fst] in *. rewrite (guess_locked rq email code v st) by done.
  constructor; [by eexists|apply IH].
Qed.

(** Within a lockout period starting at [t]. *)
Definition in_window (t : time) (expiresAt : time) (g : request * string) : Prop :=
  well_formed g ∧ After (rq_now g.1) expiresAt = false ∧
  t ≤ rq_now g.1 < t + emailVerificationLockoutDuration.

Lemma count_failure_expiry rq v : ev_expiresAt (count_failure rq v) = ev_expiresAt v ∧ ev_code (count_failure rq v) = ev_code v.
Proof. unfold count_failure. cbv zeta. by destruct (_ <=? _). Qed.

(** five wrong codes exhaust an email verification for five minutes.  Of the
    requests for one address that arrive within five minutes of one another,
    with the record at [failed] failures and not locked, those after the first
    [5 - failed] are answered as locked whatever code they carry, when those
    first ones carried wrong codes: at most five codes are ever compared. *)
Theorem email_code_lockout email v guesses st t :
  normal_email email ≠ "" → verifications st !! normal_email email = Some v →
  0 ≤ ev_failedAttempts v < maxEmailVerificationAttempts → Before t (ev_lockedUntil v) = false →
  Forall (in_window t (ev_expiresAt v)) guesses →
  let allowed := Z.to_nat (maxEmailVerificationAttempts - ev_failedAttempts v) in
  Forall (λ g, TrimSpace g.2 ≠ ev_code v) (take allowed guesses) →
  Forall locked_answer (drop allowed (guess_codes email guesses st)).
Proof.
  intros He. cbv zeta. unfold maxEmailVerificationAttempts.
  remember (Z.to_nat (5 - ev_failedAttempts v)) as n eqn:En. revert guesses v st En.
  induction n as [|n IH]; intros guesses v st En Hv Hf Hl Hg Hwrong; [lia|].
  destruct guesses as [|[rq code] rest]; [constructor|].
  apply Forall_cons in Hg as [(Hw & Hx & Ht) Hg]. cbn [take] in Hwrong. apply Forall_cons in Hwrong as [Hc Hwrong].
  cbn [guess_codes fst snd] in *.
  assert (Before (rq_now rq) (ev_lockedUntil v) = false) as Hl' by (unfold_time; lia).
  pose proof (guess_wrong rq email code v st Hw He Hv Hx Hl' Hc) as Hnext.
  destruct (serve _ st) as [r st1]. cbn [snd drop] in *.
  destruct (count_failure_expiry rq v) as [Ex Ec].
  destruct (decide (ev_failedAttempts v = 4)) as [E4|E4].
  - assert (n = 0%nat) as -> by lia. rewrite drop_0. apply (guesses_locked _ (count_failure rq v)); [done|done|].
    assert (ev_lockedUntil (count_failure rq v) = Add (rq_now rq) emailVerificationLockoutDuration) as El
      by (unfold count_failure; cbv zeta; rewrite E4; reflexivity).
    eapply Forall_impl; [exact Hg|]. intros g (? & ? & ?). rewrite Ex, El. split_and!; try done.
    unfold_time. lia.
  - assert (count_failure rq v = v <| ev_failedAttempts := ev_failedAttempts v + 1 |>) as Ev.
    { unfold count_failure, maxEmailVerificationAttempts. cbv zeta. by rewrite (proj2 (Z.leb_gt _ _)) by lia. }
    rewrite Ev in *. eapply (IH rest _ st1); [|exact Hnext|..]; getset; try done; lia.
Qed.
End guesses.

(** ** Running a handler step by step *)

Lemma run_bind {A B} (m : Act A) (f : A → Act B) st a st1 : m st = (Ok a, st1) → (m ≫= f) st = f a st1.
Proof. intros E. unfold mbind, Act_bind. by rewrite E. Qed.
Lemma run_guard {B} b status code (f : () → Act B) st : b = false → (guard_not b status code ≫= f) st = f tt st.
Proof. by intros ->. Qed.
Lemma run_guard_last b status code st : b = false → guard_not b status code st = (Ok tt, st).
Proof. by intros ->. Qed.

(** ** Signing in with an email address alone *)

Section email_only.
Context `{MapOrder} `{AuthLibrary} (cfg : authConfig) (rq : request).
Local Abbreviation now := (rq_now rq).

(** An account that may sign in and has no second factor. *)
Definition single_factor (u : User) : Prop :=
  user_Active u = true ∧ AccountAccessVerified u = true ∧ user_ArchivedAt u = None ∧
  user_MFAEnabled u = false ∧ isReadOnlyAccount u = false ∧
  EqualFold (TrimSpace (user_Email u)) sandboxUserEmail = false.

Lemma update_account_Ok i user st : ∃ ru st', update_account rq i user st = (Ok ru, st').
Proof.
  unfold update_account, on_store. destruct (UpdateUser _ _ _ _) as [[r out] s'].
  exists (r, out). by eexists.
Qed.
Lemma touchUserActivity_Ok user st : indexed (au_store st) →
  ∃ v st', touchUserActivity rq user st = (Ok v, st') ∧ user_ID v = user_ID user.
Proof.
  intros Hi. pose proof (touchUserActivity_kept rq st (λ _, True) user st) as Hk.
  specialize (Hk (conj Hi (λ _ _ Hs, or_introl Hs))).
  assert (∃ v st', touchUserActivity rq user st = (Ok v, st')) as (v & st' & E).
  { unfold touchUserActivity. destruct (negb _); [by eexists _, _|]. destruct (match _ with Some _ => _ | None => _ end); [by eexists _, _|].
    unfold mbind, Act_bind.
    destruct (update_account_Ok 0 (user <| user_LastActiveAt := Some now |>) st) as ([r v] & st' & ->). by eexists _, _. }
  rewrite E in *. destruct Hk as [Hid _]. eauto.
Qed.
Lemma offered_challenge_Ok user st : ∃ c st',
  offered_challenge cfg rq user st = (Ok c, st') ∧ au_store st' = au_store st.
Proof.
  unfold offered_challenge. destruct (isReadOnlyAccount user); [by eexists _, _|].
  unfold createMFAChallenge, mbind, Act_bind. destruct (newRandomToken rq 1); by eexists _, _.
Qed.

Lemma login_plain_opens u bytes st : indexed (au_store st) → rq_rand rq 0 = Ok bytes →
  ∃ v mfaToken st', let expiresAt := Add now (positive_or (sessionTTL cfg) defaultSessionTTL) in
    login_plain cfg rq u st = (Ok (SignedIn "login successful" (Sha256.hex bytes) expiresAt v mfaToken), st') ∧
    sessions (au_store st') !! Sha256.hex bytes = Some (mksessionRecord (user_ID u) expiresAt).
Proof.
  intros Hi Hr. unfold login_plain. destruct (touchUserActivity_Ok u st Hi) as (v & st1 & E1 & Hv).
  rewrite (run_bind _ _ _ _ _ E1). set (t := Add now _).
  set (st2 := st1 <| au_store := (au_store st1) <| sessions :=
    <[Sha256.hex bytes := mksessionRecord (user_ID v) t]> (sessions (au_store st1)) |> |>).
  assert (new_session cfg rq 0 (user_ID v) None st1 = (Ok (Sha256.hex bytes, t), st2)) as E2.
  { unfold new_session, createSession, newRandomToken. by rewrite Hr. }
  rewrite (run_bind _ _ _ _ _ E2). destruct (offered_challenge_Ok v st2) as (c & st3 & E3 & Es).
  rewrite (run_bind _ _ _ _ _ E3). eexists _, _, st3. split; [reflexivity|].
  rewrite Es. unfold st2. getset. rewrite lookup_insert_eq. by rewrite Hv.
Qed.

(** the email address of an account without a second factor signs it in.
    With no password and any text as the TOTP code, [login] opens a session of
    the account the address names, when the account may sign in at all: the
    code takes the place of the password and is then compared with nothing. *)
Theorem email_alone_signs_in req u bytes st st1 st2 :
  indexed (au_store st) →
  hasQueryParameter rq ["username"; "password"; "identifier"; "totp"] = false →
  login_identifier req ≠ "" → TrimSpace (log_Password req) = "" → TrimSpace (log_TOTPCode req) ≠ "" →
  findUserByIdentifier (login_identifier req) (au_store st) = Ok u →
  EqualFold (TrimSpace (user_Email u)) (login_identifier req) = true → single_factor u →
  allowAuthProbe rq LoginAttempts (ToLower (login_identifier req)) st = (Ok tt, st1) →
  rejectIfBillingSuspended rq (user_ID u) st1 = (Ok tt, st2) → rq_rand rq 0 = Ok bytes →
  ∃ expiresAt shown mfaToken, let '(r, st') := serve (login cfg rq (Some req)) st in
    r = SignedIn "login successful" (Sha256.hex bytes) expiresAt shown mfaToken ∧
    sessions (au_store st') !! Sha256.hex bytes = Some (mksessionRecord (user_ID u) expiresAt).
Proof.
  intros Hi Hq Hid Hp Ht Hu He (Ha & Hver & Harch & Hm & Hro & Hbox) Hlim Hbill Hr.
  assert (same_accounts (au_store st) (au_store st1)) as Hs1.
  { pose proof (allowAuthProbe_steady rq LoginAttempts (ToLower (login_identifier req)) st) as Hst.
    rewrite Hlim in Hst. apply Hst. }
  assert (same_accounts (au_store st1) (au_store st2)) as Hs2.
  { pose proof (rejectIfBillingSuspended_steady rq (user_ID u) st1) as Hst. rewrite Hbill in Hst. apply Hst. }
  assert (indexed (au_store st1)) as Hi1 by by apply (indexed_same _ _ Hs1).
  assert (indexed (au_store st2)) as Hi2 by by apply (indexed_same _ _ Hs2).
  assert (Hu1 : findUserByIdentifier (login_identifier req) (au_store st1) = Ok u).
  { rewrite <-Hu. by apply findUserByIdentifier_same. }
  destruct (login_plain_opens u bytes st2 Hi2 Hr) as (shown & mfaToken & st' & E & Hses).
  eexists _, shown, mfaToken. unfold serve, login.
  rewrite run_guard by done. rewrite (run_bind (bound _) _ _ req st) by done. cbv zeta.
  rewrite run_guard by by apply bool_decide_false. rewrite (run_bind _ _ _ _ _ Hlim).
  rewrite (run_bind (look_store _) _ _ (Ok u) st1) by by rewrite <-Hu1.
  rewrite (run_bind (known_user _) _ _ u st1) by done.
  rewrite (run_bind _ _ _ _ _ Hbill). rewrite run_guard by done.
  rewrite (run_bind (check_password _ _ _ _) _ _ tt st2).
  2:{ unfold check_password. rewrite Hp, (bool_decide_true ("" = "")) by done. cbn [negb].
      rewrite run_guard by by apply bool_decide_false. apply run_guard_last. by rewrite He. }
  rewrite (run_bind (check_account _ _ _) _ _ tt st2).
  2:{ unfold check_account. rewrite run_guard by by rewrite Ha. rewrite run_guard by by rewrite Hver, andb_false_r.
      by rewrite Harch. }
  rewrite (run_bind (reset_readonly_mfa _ _) _ _ u st2) by (unfold reset_readonly_mfa; by rewrite Hro).
  rewrite Hm, E. by split.
Qed.
End email_only.

(** ** Resetting a password *)

Lemma bind_Ok_inv {A B} (m : Act A) (f : A → Act B) st b st' :
  (m ≫= f) st = (Ok b, st') → ∃ a st1, m st = (Ok a, st1) ∧ f a st1 = (Ok b, st').
Proof. unfold mbind, Act_bind. destruct (m st) as [[a|e] st1]; [eauto|done]. Qed.
Lemma guard_Ok_inv {B} b status code (f : () → Act B) st r st' :
  (guard_not b status code ≫= f) st = (Ok r, st') → b = false ∧ f tt st = (Ok r, st').
Proof. unfold guard_not. by destruct b. Qed.
Lemma or_refuse_Ok_inv {A B} (x : result error A) status code (f : A → Act B) st r st' :
  (or_refuse x status code ≫= f) st = (Ok r, st') → ∃ a, x = Ok a ∧ f a st = (Ok r, st').
Proof. destruct x; [eauto|done]. Qed.

Section reset.
Context `{MapOrder} `{AuthLibrary} (cfg : authConfig) (rq : request).

(** The challenges are filed under their identifiers. *)
Definition challenges_keyed (s : memoryStore) : Prop :=
  ∀ k c, passwordRecovery s !! k = Some c → prc_ID c = k.
(** What the code relies on of bcrypt. *)
Definition bcrypt_checks : Prop :=
  ∀ salt password hash, bcrypt_Generate salt password = Ok hash → bcrypt_Compare hash password = true.

Lemma token_challenge_filed hash s c : GetPasswordRecoveryChallengeByTokenHash hash s = Ok c →
  challenges_keyed s → passwordRecovery s !! prc_ID c = Some c.
Proof.
  unfold GetPasswordRecoveryChallengeByTokenHash. intros Hf Hk.
  destruct (List.find _ _) as [[k c']|] eqn:E; [|done]. injection Hf as <-.
  apply find_some in E as [Hin _]. apply list_elem_of_In, elem_of_range in Hin. by rewrite (Hk k c' Hin).
Qed.

Lemma complete_recovery_Ok id hash stale st st' : complete_recovery rq id hash stale st = (Ok tt, st') →
  ∃ s', CompletePasswordRecovery id hash (rq_now rq) (au_store st) = (Ok tt, s') ∧ st' = st <| au_store := s' |>.
Proof.
  unfold complete_recovery, on_store, mbind, Act_bind.
  destruct (CompletePasswordRecovery _ _ _ _) as [[[]|e] s']; [|by destruct (_ == _)].
  intros [= <-]. eauto.
Qed.

Lemma new_session_Ok i id st token t st' : new_session cfg rq i id None st = (Ok (token, t), st') →
  st' = st <| au_store := (au_store st) <| sessions := <[token := mksessionRecord id t]> (sessions (au_store st)) |> |>.
Proof.
  unfold new_session, createSession. destruct (newRandomToken rq i); [|done]. cbv zeta.
  unfold on_store, CreateSession, mbind, Act_bind, mret, Act_ret, or_refuse. by intros [= <- <- <-].
Qed.

(** The account with the new password, without its sessions, and the challenge
    used. *)
Definition recovered (c : PasswordRecoveryChallenge) (hash : string) (s : memoryStore) : memoryStore :=
  (update_user s (prc_UserID c) (set_password hash))
    <| passwordRecovery := <[prc_ID c := c <| prc_ConsumedAt := rq_now rq |>]> (passwordRecovery s) |>
    <| sessions := drop_sessions (prc_UserID c) (sessions s) |>.

Lemma confirmPasswordReset_Ok token password st r st' :
  indexed (au_store st) → challenges_keyed (au_store st) →
  confirmPasswordReset cfg rq (Some (token, password)) st = (Ok r, st') →
  ∃ c v hash newToken t,
    GetPasswordRecoveryChallengeByTokenHash (passwordResetTokenHash (TrimSpace token)) (au_store st) = Ok c ∧
    user_by_id (au_store st) (prc_UserID c) = Some v ∧
    bcrypt_Generate (rq_salt rq 0) (TrimSpace password) = Ok hash ∧
    au_store st' = let s := recovered c hash (au_store st) in
      s <| sessions := <[newToken := mksessionRecord (prc_UserID c) t]> (sessions s) |>.
Proof.
  intros Hi Hk E. unfold confirmPasswordReset in E. apply guard_Ok_inv in E as [_ E].
  unfold bound in E. apply bind_Ok_inv in E as ([tok pw] & st1 & E1 & E). injection E1 as <- <- <-. cbv zeta in E.
  do 2 apply guard_Ok_inv in E as [_ E].
  apply bind_Ok_inv in E as (found & st1 & E1 & E). injection E1 as <- <-.
  apply bind_Ok_inv in E as (c & st1 & E1 & E).
  match type of E1 with known_challenge ?f ?x ?s = _ => pose proof (known_challenge_reads f x s) as Hr end.
  rewrite E1 in Hr. destruct Hr as [-> Hc]. apply guard_Ok_inv in E as [_ E].
  apply bind_Ok_inv in E as (found & st1 & E2 & E). injection E2 as <- <-.
  apply or_refuse_Ok_inv in E as (user & Hu & E). apply guard_Ok_inv in E as [_ E].
  destruct (negb (EqualFold _ _)). { by apply bind_Ok_inv in E as (? & ? & _ & ?). }
  destruct (isReadOnlyAccount user). { by apply bind_Ok_inv in E as (? & ? & _ & ?). }
  apply or_refuse_Ok_inv in E as (hash & Hh & E). apply bind_Ok_inv in E as ([] & st1 & E3 & E).
  apply complete_recovery_Ok in E3 as (s1 & E3 & ->).
  apply bind_Ok_inv in E as ([newToken t] & st2 & E4 & E). injection E as _ <-. apply new_session_Ok in E4 as ->.
  destruct (GetUserByID_filed _ _ _ Hi Hu) as [Hid (v & Hv & _)].
  apply CompletePasswordRecovery_inv in E3 as (c' & Hc' & _ & _ & _ & _ & ->).
  rewrite (token_challenge_filed _ _ _ Hc Hk) in Hc'. injection Hc' as <-.
  exists c, v, hash, newToken, t. rewrite Hid. done.
Qed.

(** a password reset by a mailed token takes effect.  When it succeeds, the
    password it brought is the one the account of the token accepts, every
    other account is as before, the account has no session but the one this
    request opened, and the challenge is used up. *)
Theorem password_reset_effective token password st r st' :
  indexed (au_store st) → challenges_keyed (au_store st) → bcrypt_checks →
  confirmPasswordReset cfg rq (Some (token, password)) st = (Ok r, st') →
  ∃ c u' newToken,
    GetPasswordRecoveryChallengeByTokenHash (passwordResetTokenHash (TrimSpace token)) (au_store st) = Ok c ∧
    user_by_id (au_store st') (prc_UserID c) = Some u' ∧
    bcrypt_Compare (user_PasswordHash u') (TrimSpace password) = true ∧
    (∀ id, id ≠ prc_UserID c → user_by_id (au_store st') id = user_by_id (au_store st) id) ∧
    (∀ k sess, sessions (au_store st') !! k = Some sess → sess_UserID sess = prc_UserID c → k = newToken) ∧
    passwordRecovery (au_store st') !! prc_ID c = Some (c <| prc_ConsumedAt := rq_now rq |>).
Proof.
  intros Hi Hk Hb E. apply confirmPasswordReset_Ok in E as (c & v & hash & newToken & t & Hc & Hv & Hh & ->); [|done..].
  cbv zeta.
  assert (∀ m id, user_by_id ((recovered c hash (au_store st)) <| sessions := m |>) id =
    user_by_id (update_user (au_store st) (prc_UserID c) (set_password hash)) id) as Hsame by done.
  exists c, (set_password hash v), newToken. split; [exact Hc|]. split_and!.
  - by rewrite Hsame, user_by_id_update_eq, Hv.
  - by apply (Hb _ _ _ Hh).
  - intros id Hne. rewrite Hsame. by apply update_user_others.
  - intros k sess Hs He. unfold recovered in Hs. getset.
    apply lookup_insert_Some in Hs as [[<- _]|[_ Hs]]; [done|]. by apply lookup_drop_sessions in Hs as [_ ?].
  - unfold recovered. getset. apply lookup_insert_eq.
Qed.
End reset.
