(* ===== verification/Stripe.v ===== *)
(** * Stripe's objects and the requests for them

    The structs of [api/stripe.go] and [api/stripe_finance.go] with the fields
    the event handlers read, the normalisation their [UnmarshalJSON] methods
    apply, the small functions on them, and the requests of the client.

    Stripe, the clock and the identifier generators form the world of a
    handler, [StripeWorld]: every request, every [time.Now] and every new
    identifier is an operation that may change it, so that two requests for
    one object can give different answers.  What [json.Unmarshal] makes of a
    payload is a parameter, [StripeDecoder]; a field of type [any] is a JSON
    value, [null] when it is absent.  [decode_review] gives the account and the
    subscription of a [refundReviewRequest]. *)

From S2P Require Import Prelude GoLib Json Calendar StoreData Users Lifecycle Finance Referral Quota.
From S2P Require Import Entitlements StripeClient.
Open Scope Z_scope.
Open Scope bool_scope.
Open Scope go_scope.

(** ** Objects *)

Record stripeItem := mkStripeItem {
  item_CurrentPeriodStart : Z;
  item_CurrentPeriodEnd : Z;
  item_PriceID : string
}.

Record stripeSubscription := mkStripeSubscription {
  ssub_ID : string;
  ssub_Status : string;
  ssub_Customer : json;
  ssub_Metadata : gmap string string;
  ssub_CancelAtPeriodEnd : bool;
  ssub_CurrentPeriodEnd : Z;
  ssub_CurrentPeriodStart : Z;
  ssub_LatestInvoice : json;
  ssub_PendingUpdate : RawMessage;
  ssub_Schedule : json;
  ssub_Items : list stripeItem
}.
#[export] Instance eta_stripeSubscription : Eta stripeSubscription := λ x, mkStripeSubscription
   (ssub_ID x) (ssub_Status x) (ssub_Customer x) (ssub_Metadata x) (ssub_CancelAtPeriodEnd x)
   (ssub_CurrentPeriodEnd x) (ssub_CurrentPeriodStart x) (ssub_LatestInvoice x)
   (ssub_PendingUpdate x) (ssub_Schedule x) (ssub_Items x).

Record stripeInvoicePayment := mkInvoicePayment {
  ipay_Status : string;
  ipay_AmountPaid : Z;
  ipay_Currency : string;
  ipay_Type : string;
  ipay_PaymentIntent : json
}.

Record stripeLine := mkStripeLine {
  line_Price : json;
  line_PeriodStart : Z;
  line_PeriodEnd : Z;
  line_PricingPrice : json
}.

Record stripeInvoice := mkStripeInvoice {
  sinv_ID : string;
  sinv_Customer : json;
  sinv_Subscription : json;
  sinv_Status : string;
  sinv_PaymentIntent : json;
  sinv_AmountPaid : Z;
  sinv_PaidOutOfBand : bool;
  sinv_Currency : string;
  sinv_Created : Z;
  sinv_BillingReason : string;
  sinv_ParentSubscription : json;
  sinv_Payments : list stripeInvoicePayment;
  sinv_PaymentsHasMore : bool;
  sinv_PaidAt : Z;
  sinv_Lines : list stripeLine;
  sinv_LinesHasMore : bool
}.
#[export] Instance eta_stripeInvoice : Eta stripeInvoice := λ x, mkStripeInvoice
   (sinv_ID x) (sinv_Customer x) (sinv_Subscription x) (sinv_Status x) (sinv_PaymentIntent x)
   (sinv_AmountPaid x) (sinv_PaidOutOfBand x) (sinv_Currency x) (sinv_Created x)
   (sinv_BillingReason x) (sinv_ParentSubscription x) (sinv_Payments x) (sinv_PaymentsHasMore x)
   (sinv_PaidAt x) (sinv_Lines x) (sinv_LinesHasMore x).

Record stripeInvoiceList := mkInvoiceList { slist_Data : list stripeInvoice; slist_HasMore : bool }.

(** [chg_Refunds] holds the statuses. *)
Record stripeCharge := mkStripeCharge {
  chg_ID : string;
  chg_Status : string;
  chg_Invoice : json;
  chg_PaymentIntent : json;
  chg_Disputed : bool;
  chg_Refunded : bool;
  chg_Amount : Z;
  chg_AmountRefunded : Z;
  chg_Refunds : list string
}.
#[export] Instance eta_stripeCharge : Eta stripeCharge := λ x, mkStripeCharge (chg_ID x) (chg_Status x)
   (chg_Invoice x) (chg_PaymentIntent x) (chg_Disputed x) (chg_Refunded x) (chg_Amount x)
   (chg_AmountRefunded x) (chg_Refunds x).

Record stripePaymentIntent := mkPaymentIntent { intent_ID : string; intent_LatestCharge : json }.

Record stripeDispute := mkStripeDispute {
  disp_ID : string;
  disp_Charge : json;
  disp_Reason : string;
  disp_Created : Z
}.

Record stripeRefund := mkStripeRefund {
  sref_ID : string;
  sref_Status : string;
  sref_PaymentIntent : json;
  sref_Amount : Z;
  sref_Currency : string;
  sref_Reason : string;
  sref_Created : Z;
  sref_Metadata : gmap string string
}.
#[export] Instance eta_stripeRefund : Eta stripeRefund := λ x, mkStripeRefund (sref_ID x) (sref_Status x)
   (sref_PaymentIntent x) (sref_Amount x) (sref_Currency x) (sref_Reason x) (sref_Created x) (sref_Metadata x).

Record stripeCheckoutSession := mkCheckoutSession {
  sess_ID : string;
  sess_ClientReferenceID : string;
  sess_Subscription : string;
  sess_PaymentIntent : string;
  sess_Customer : string;
  sess_PaymentStatus : string;
  sess_AmountTotal : Z;
  sess_Currency : string;
  sess_Metadata : gmap string string
}.

Record stripeEvent := mkStripeEvent {
  sev_ID : string;
  sev_Type : string;
  sev_Livemode : option bool;
  sev_Account : string;
  sev_Object : RawMessage
}.

(** ** Normalisation *)

(** [stripeInvoice.UnmarshalJSON] after the plain decoding: both shapes of the
    subscription reference must agree, and one settled payment of the whole
    amount stands for a missing payment intent. *)
Definition normalize_invoice (invoice : stripeInvoice) : result error stripeInvoice :=
  let parent := customerIDFromAny (sinv_ParentSubscription invoice) in
  let legacy := customerIDFromAny (sinv_Subscription invoice) in
  if (parent != "") && (legacy != "") && (parent != legacy)
  then Err (ErrMsg "conflicting Stripe invoice subscription references") else
  let invoice := if legacy == "" then invoice <| sinv_Subscription := JStr parent |> else invoice in
  if (customerIDFromAny (sinv_PaymentIntent invoice) == "") && negb (sinv_PaymentsHasMore invoice) then
    match sinv_Payments invoice with
    | [payment] =>
        if (ipay_Status payment == "paid") && (ipay_Type payment == "payment_intent") &&
           (ipay_AmountPaid payment =? sinv_AmountPaid invoice) &&
           EqualFold (ipay_Currency payment) (sinv_Currency invoice)
        then Ok (invoice <| sinv_PaymentIntent := ipay_PaymentIntent payment |>)
        else Ok invoice
    | _ => Ok invoice
    end
  else Ok invoice.

(** [stripeSubscription.UnmarshalJSON] *)
Definition normalize_subscription (subscription : stripeSubscription) : stripeSubscription :=
  match ssub_Items subscription with
  | [item] =>
      if (ssub_CurrentPeriodStart subscription =? 0) && (ssub_CurrentPeriodEnd subscription =? 0)
      then subscription <| ssub_CurrentPeriodStart := item_CurrentPeriodStart item |>
                        <| ssub_CurrentPeriodEnd := item_CurrentPeriodEnd item |>
      else subscription
  | _ => subscription
  end.

(** ** Small functions *)

Definition hasPendingUpdate (sub : stripeSubscription) : bool :=
  match ssub_PendingUpdate sub with RawEmpty | RawJSON JNull => false | _ => true end.

Definition invoiceSubscriptionID (invoice : stripeInvoice) : string :=
  firstNonEmpty [customerIDFromAny (sinv_Subscription invoice);
                 customerIDFromAny (sinv_ParentSubscription invoice)].

Definition subscriptionPriceID (source : stripeSubscription) : string :=
  match ssub_Items source with [] => "" | item :: _ => TrimSpace (item_PriceID item) end.

Definition subscriptionPeriod (clk : time) (source : stripeSubscription) : time * time :=
  let own := if (ssub_CurrentPeriodStart source <=? 0) ||
                (ssub_CurrentPeriodEnd source <=? ssub_CurrentPeriodStart source)
             then naturalMonthPeriod clk
             else (Unix (ssub_CurrentPeriodStart source), Unix (ssub_CurrentPeriodEnd source)) in
  match ssub_Items source with
  | [item] => if (0 <? item_CurrentPeriodStart item) &&
                 (item_CurrentPeriodStart item <? item_CurrentPeriodEnd item)
              then (Unix (item_CurrentPeriodStart item), Unix (item_CurrentPeriodEnd item)) else own
  | _ => own
  end.

(** Annual plans grant by the month. *)
Definition subscriptionQuotaPeriod (now : time) (plan : BillingPlan) (source : stripeSubscription) : time * time :=
  if EqualFold (TrimSpace (plan_PriceUnit plan)) "year" then naturalMonthPeriod now
  else subscriptionPeriod now source.

Definition line_price (line : stripeLine) : string :=
  firstNonEmpty [customerIDFromAny (line_Price line); customerIDFromAny (line_PricingPrice line)].

(** [t.Unix()] *)
Definition to_unix (t : time) : Z := t / Second - 62135596800.

Definition scheduledInvoiceMatchesSubscription (clk : time) (source : stripeSubscription)
    (invoice : stripeInvoice) : bool :=
  if sinv_LinesHasMore invoice then false else
  let '(start, end_) := subscriptionPeriod clk source in
  existsb (λ line, (line_price line == subscriptionPriceID source) &&
                   (line_PeriodStart line =? to_unix start) && (line_PeriodEnd line =? to_unix end_))
    (sinv_Lines invoice).

(** The common period of the lines. *)
Fixpoint common_period (lines : list stripeLine) (start end_ : time) : option (time * time) :=
  match lines with
  | [] => Some (start, end_)
  | line :: rest =>
      if (line_PeriodStart line <=? 0) || (line_PeriodEnd line <=? line_PeriodStart line) then None else
      let lineStart := Unix (line_PeriodStart line) in
      let lineEnd := Unix (line_PeriodEnd line) in
      if IsZero start then common_period rest lineStart lineEnd
      else if negb (Equal start lineStart) || negb (Equal end_ lineEnd) then None
      else common_period rest start end_
  end.

Definition referralInvoicePeriod (invoice : stripeInvoice) : option (time * time) :=
  match common_period (sinv_Lines invoice) 0 0 with
  | Some (start, end_) => if negb (IsZero start) && Before start end_ then Some (start, end_) else None
  | None => None
  end.

Definition subscriptionMetaString (meta : gmap string any) (key : string) : string :=
  match meta !! key with Some (AStr value) => value | _ => "" end.

Section plans.
Context `{MapOrder}.

(** The plan the immutable price lines prove; [""] when they are not a plan of
    the referral programme. *)
Fixpoint plan_from_lines (s : memoryStore) (lines : list stripeLine) (planID : string) : result error string :=
  match lines with
  | [] => Ok planID
  | line :: rest =>
      let priceID := customerIDFromAny (line_Price line) in
      let priceID := if priceID == "" then customerIDFromAny (line_PricingPrice line) else priceID in
      if priceID == "" then Err (ErrMsg "Stripe invoice line lacks a verifiable price") else
      match GetBillingPlanByPriceID s priceID with
      | Err e => Err (if e == ErrBillingPlanNotFound
                      then ErrMsg "Stripe invoice price is absent from the billing catalog" else e)
      | Ok plan =>
          if (plan_Kind plan != "subscription") || negb (isXConnectProPlanID (plan_PlanID plan)) then Ok "" else
          let wantUnit := if isXConnectAnnualPlanID (plan_PlanID plan) then "year" else "month" in
          if negb (EqualFold (TrimSpace (plan_PriceUnit plan)) wantUnit)
          then Err (ErrMsg "billing catalog plan interval conflicts with referral plan") else
          if (planID != "") && (planID != plan_PlanID plan)
          then Err (ErrMsg "Stripe invoice contains conflicting XConnect plan lines") else
          plan_from_lines s rest (plan_PlanID plan)
      end
  end.

(** A line of another product ends the check at once, with [""], before
    [HasMore] is looked at. *)
Definition referralPlanFromInvoice (s : memoryStore) (invoice : stripeInvoice) : result error string :=
  match sinv_Lines invoice with
  | [] => Err (ErrMsg "Stripe invoice lacks immutable subscription price lines")
  | lines =>
      match plan_from_lines s lines "" with
      | Err e => Err e
      | Ok planID =>
          if (planID != "") && sinv_LinesHasMore invoice
          then Err (ErrMsg "Stripe invoice has more price lines than the referral verifier can inspect")
          else Ok planID
      end
  end.
End plans.

(** ** The world *)

Class StripeWorld (W : Type) := {
  world_now : W → time * W;
  world_uuid : W → string * W;
  world_v7 : W → result error string * W;
  api_subscription : string → W → result error stripeSubscription * W;
  api_invoice : string → W → result error stripeInvoice * W;
  api_charge : string → W → result error stripeCharge * W;
  api_intent : string → W → result error stripePaymentIntent * W;
  api_invoices : string → string → W → result error stripeInvoiceList * W
}.

Class StripeDecoder := {
  decode_session : RawMessage → result error stripeCheckoutSession;
  decode_subscription : RawMessage → result error stripeSubscription;
  decode_invoice : RawMessage → result error stripeInvoice;
  decode_charge : RawMessage → result error stripeCharge;
  decode_dispute : RawMessage → result error stripeDispute;
  decode_refund : RawMessage → result error stripeRefund;
  decode_event : string → result error stripeEvent;
  raw_of_body : string → RawMessage;
  decode_review : RawMessage → result error (string * string)
}.

Section requests.
Context {W : Type} `{StripeWorld W} `{StripeDecoder}.

(** A handler works on the store and the world. *)
Definition Handler (A : Type) : Type := M (memoryStore * W) A.

Definition on_store {A} (m : M memoryStore A) : Handler A := λ sw,
  let '(r, s) := m sw.1 in (r, (s, sw.2)).
Definition on_world {A} (f : W → A * W) : Handler A := λ sw,
  let '(a, w) := f sw.2 in (Ok a, (sw.1, w)).
Definition on_api {A} (f : W → result error A * W) : Handler A := λ sw,
  let '(r, w) := f sw.2 in (r, (sw.1, w)).
Definition from_store {A} (f : memoryStore → A) : Handler A := gets (λ sw, f sw.1).
Definition from_result {A} (r : result error A) : Handler A := λ sw, (r, sw).

(** The custom decoders run after the plain ones. *)
Definition unmarshal_invoice (raw : RawMessage) : result error stripeInvoice :=
  match decode_invoice raw with Ok invoice => normalize_invoice invoice | Err e => Err e end.
Definition unmarshal_subscription (raw : RawMessage) : result error stripeSubscription :=
  match decode_subscription raw with Ok sub => Ok (normalize_subscription sub) | Err e => Err e end.

Definition now : Handler time := on_world world_now.
Definition newUUID : Handler string := on_world world_uuid.

(** A store operation reads the clock; a struct it fills in is its result. *)
Definition clocked {A} (op : time → M memoryStore A) : Handler A := clk ← now; on_store (op clk).
Definition stored {A B} (op : string → time → memoryStore → result error A * B * memoryStore) : Handler B :=
  id ← newUUID; clk ← now; on_store (of_op (op id clk)).
(** An operation that may create an identity for an account. *)
Definition identified {A} (op : time → (string → result error string) → M memoryStore A) : Handler A :=
  clk ← now; v7 ← on_world world_v7; on_store (op clk (λ _, v7)).

Fixpoint each {A} (f : A → Handler ()) (l : list A) : Handler () :=
  match l with [] => mret tt | x :: rest => _ ← f x; each f rest end.

(** Every request needs a valid configuration. *)
Definition ask {A} (c : option stripeClient) (f : W → result error A * W) : Handler A :=
  if match c with Some c => enabled c | None => false end then on_api f
  else fails (ErrMsg "Stripe configuration is unavailable").

Definition fetchSubscription (c : option stripeClient) (subscriptionID : string) : Handler stripeSubscription :=
  sub ← ask c (api_subscription (TrimSpace subscriptionID)); mret (normalize_subscription sub).

Definition fetchInvoice (c : option stripeClient) (invoiceID : string) : Handler stripeInvoice :=
  invoice ← ask c (api_invoice (TrimSpace invoiceID)); from_result (normalize_invoice invoice).

Definition fetchCharge (c : option stripeClient) (chargeID : string) : Handler stripeCharge :=
  ask c (api_charge (TrimSpace chargeID)).

Definition fetchPaymentIntentCharge (c : option stripeClient) (paymentIntentID : string) : Handler stripeCharge :=
  intent ← ask c (api_intent (TrimSpace paymentIntentID));
  let chargeID := customerIDFromAny (intent_LatestCharge intent) in
  if chargeID == "" then fails (ErrMsg "Stripe payment intent has no latest charge") else
  match intent_LatestCharge intent with
  | JObj expanded =>
      charge ← from_result (decode_charge (RawJSON (JObj expanded)));
      mret (if chg_ID charge == "" then charge <| chg_ID := chargeID |> else charge)
  | _ => fetchCharge c chargeID
  end.

Fixpoint normalize_invoices (l : list stripeInvoice) : result error (list stripeInvoice) :=
  match l with
  | [] => Ok []
  | i :: rest => match normalize_invoice i, normalize_invoices rest with
                 | Ok i, Ok rest => Ok (i :: rest)
                 | Err e, _ | _, Err e => Err e
                 end
  end.

(** At most one hundred pages, the bound of the source. *)
Fixpoint invoice_pages (pages : nat) (c : option stripeClient) (customerID startingAfter : string)
    (all : list stripeInvoice) : Handler (list stripeInvoice) :=
  match pages with
  | O => fails (ErrMsg "Stripe paid invoice history exceeds the bounded referral verification limit")
  | S pages =>
      result ← ask c (api_invoices customerID startingAfter);
      data ← from_result (normalize_invoices (slist_Data result));
      let all := all ++ data in
      if negb (slist_HasMore result) then mret all else
      match last data with
      | None => fails (ErrMsg "Stripe invoice history page is empty but has_more is true")
      | Some invoice => invoice_pages pages c customerID (sinv_ID invoice) all
      end
  end.
Definition listPaidInvoices (c : option stripeClient) (customerID : string) : Handler (list stripeInvoice) :=
  invoice_pages 100 c (TrimSpace customerID) "" [].
End requests.
