(* ===== verification/StripeEvents.v ===== *)
(** * Stripe's events

    The webhook of [api/stripe.go] with everything it calls: the read model of
    a subscription, the entitlements that follow a settled invoice, the
    financial facts of payments and refunds ([api/stripe_finance.go],
    [api/billing_refund_operations.go], [api/billing_refund_review.go]), the
    referral evidence and the balance of a top-up ([api/billing_topup.go]).

    The in-memory store's operations that cannot fail have no error branch
    here.  [uuid.NewSHA1] in the namespace of the top-ups, [NewSHA1], and the
    text of an error, [Error], are parameters. *)

From S2P Require Import Prelude GoLib Json Calendar StoreData Users Lifecycle Finance Referral Quota.
From S2P Require Import Entitlements Hmac StripeClient Stripe.
From Stdlib Require Import SpecFloat.
Open Scope Z_scope.
Open Scope bool_scope.
Open Scope go_scope.

(** ** Refunds of a payment *)

(** [total += refund.AmountMinor] over the refunds of a payment. *)
Definition refunded_minor (refunds : list FinanceRefund) (paymentID : string) : Z :=
  foldl (λ total refund, if refund_PaymentID refund == paymentID
                         then int64 (total + refund_AmountMinor refund) else total) 0 refunds.

(** The same sum where every refund must fit the payment. *)
Definition checked_refunded (refunds : list FinanceRefund) (payment : FinancePayment) : result error Z :=
  foldl (λ acc refund,
    match acc with
    | Err e => Err e
    | Ok total =>
        if refund_PaymentID refund != pay_ID payment then Ok total else
        if negb (EqualFold (refund_Currency refund) (pay_Currency payment)) ||
           (refund_AmountMinor refund <=? 0) ||
           (int64 (pay_AmountMinor payment - total) <? refund_AmountMinor refund)
        then Err ErrFinanceIdempotencyConflict
        else Ok (int64 (total + refund_AmountMinor refund))
    end) (Ok 0) refunds.

(** The loop of [reconcileRefundedLatestInvoice]: the number of payments of the
    invoice, or [None] when one of them is not refunded in full. *)
Fixpoint refunded_payments (s : memoryStore) (userID invoiceID : string) (refunds : list FinanceRefund)
    (payments : list FinancePayment) (count : Z) : result error (option Z) :=
  match payments with
  | [] => Ok (Some count)
  | payment :: rest =>
      if pay_Provider payment != "stripe" then refunded_payments s userID invoiceID refunds rest count else
      match GetFinanceInvoice s (pay_InvoiceID payment) with
      | Err e => Err e
      | Ok invoice =>
          if (inv_AccountUUID invoice != userID) || (inv_ProviderInvoiceID invoice != invoiceID)
          then refunded_payments s userID invoiceID refunds rest count else
          if pay_AmountMinor payment <=? 0 then refunded_payments s userID invoiceID refunds rest count else
          if refunded_minor refunds (pay_ID payment) =? pay_AmountMinor payment
          then refunded_payments s userID invoiceID refunds rest (count + 1)
          else Ok None
      end
  end.

(** The loop of [refundReviewSettlement]: how many payments of the
    subscription there are, whether all are refunded in full, whether one is
    refunded in part. *)
Fixpoint settled_payments (s : memoryStore) (accountID subscriptionID : string) (refunds : list FinanceRefund)
    (payments : list FinancePayment) (count : Z) (complete partial : bool) : result error (Z * bool * bool) :=
  match payments with
  | [] => Ok (count, complete, partial)
  | payment :: rest =>
      let skip := settled_payments s accountID subscriptionID refunds rest count complete partial in
      if pay_Provider payment != "stripe" then skip else
      match GetFinanceInvoice s (pay_InvoiceID payment) with
      | Err e => Err e
      | Ok invoice =>
          if (inv_AccountUUID invoice != accountID) || (inv_SubscriptionUUID invoice != subscriptionID) then skip else
          if pay_AmountMinor payment <=? 0 then skip else
          match checked_refunded refunds payment with
          | Err e => Err e
          | Ok total =>
              settled_payments s accountID subscriptionID refunds rest (count + 1)
                (complete && (total =? pay_AmountMinor payment)) (partial || (0 <? total))
          end
      end
  end.

(** [float64(amount) / 100.0] *)
Definition float_cents (amount : Z) : float64 :=
  SFdiv 53 1024 (binary_normalize 53 1024 amount 0 false) (binary_normalize 53 1024 100 0 false).

Definition refundReviewKey (userID : string) : string := ("subscription-refund-review:" +:+ userID)%string.
Definition subscriptionRefundKey (sub : Subscription) : string := ("subscription-refund:" +:+ sub_ID sub)%string.

Record subscriptionRefundIntent := mkRefundIntent {
  ri_PaymentID : string;
  ri_AccountID : string;
  ri_SubscriptionID : string;
  ri_ExternalID : string;
  ri_PaymentIntentID : string;
  ri_AmountMinor : Z;
  ri_Currency : string
}.

(** [json.Unmarshal] into the intent. *)
Definition decode_intent (raw : RawMessage) : option subscriptionRefundIntent :=
  match raw_members raw with
  | None => None
  | Some members =>
      let str name := decode_field name dec_string members "" in
      let '(payment, ok1) := str "payment_uuid" in
      let '(account, ok2) := str "account_uuid" in
      let '(subscription, ok3) := str "subscription_uuid" in
      let '(external, ok4) := str "subscription_external_id" in
      let '(intent, ok5) := str "payment_intent_id" in
      let '(amount, ok6) := decode_field "amount_minor" dec_int64 members 0 in
      let '(currency, ok7) := str "currency" in
      if ok1 && ok2 && ok3 && ok4 && ok5 && ok6 && ok7
      then Some (mkRefundIntent payment account subscription external intent amount currency) else None
  end.

Section handlers.
Context {W : Type} `{StripeWorld W} `{StripeDecoder} `{MapOrder}.
Context (c : option stripeClient).
#[local] Abbreviation Handler := (Handler (W := W)).

Definition client_enabled : bool := match c with Some c => enabled c | None => false end.

Definition publish (event : BillingEvent) : Handler () :=
  clk ← now; on_store (modify (publishBillingEvent clk event)).

Definition revoke (userID externalID : string) : Handler () :=
  id ← newUUID;
  identified (λ clk newV7, revokeRefundedSubscription clk id newV7 userID externalID).

(** A paid invoice stays paid at Stripe after its refund: a late event must not
    turn it into access again. *)
Definition reconcileRefundedLatestInvoice (source : stripeSubscription) : Handler bool :=
  let userID := get_str (ssub_Metadata source) "user_id" in
  let invoiceID := customerIDFromAny (ssub_LatestInvoice source) in
  if (userID == "") || (invoiceID == "") then mret false else
  found ← on_store (reads (λ s, refunded_payments s userID invoiceID (ListFinanceRefunds s userID 0)
                                   (ListFinancePayments s userID 0) 0));
  match found with
  | None => mret false
  | Some count => if count =? 0 then mret false else
                  _ ← revoke userID (ssub_ID source); mret true
  end.

(** ** The read model and the entitlements of a subscription *)

(** The latest invoice when it is paid, of this subscription, and of the
    current phase of a schedule. *)
Definition settled_invoice (source : stripeSubscription) : Handler (option stripeInvoice) :=
  invoice ← fetchInvoice c (customerIDFromAny (ssub_LatestInvoice source));
  if (sinv_Status invoice != "paid") || (invoiceSubscriptionID invoice != ssub_ID source) then mret None else
  if customerIDFromAny (ssub_Schedule source) == "" then mret (Some invoice) else
  clk ← now;
  if negb (scheduledInvoiceMatchesSubscription clk source invoice)
  then fails (ErrMsg "scheduled phase requires matching paid invoice lines")
  else mret (Some invoice).

(** Whether the subscription may be shown as it is. *)
Definition projectable (source : stripeSubscription) : Handler bool :=
  if negb ((ssub_Status source == "active") && client_enabled) then mret true else
  if hasPendingUpdate source then mret false else
  if customerIDFromAny (ssub_LatestInvoice source) == "" then mret false else
  invoice ← settled_invoice source; mret (match invoice with Some _ => true | None => false end).

Definition local_status (source : stripeSubscription) : string :=
  let status := TrimSpace (ssub_Status source) in
  let status := if status == "" then "active" else status in
  let status := if EqualFold status "canceled" then "cancelled" else status in
  if ssub_CancelAtPeriodEnd source && (status != "cancelled") then "canceling" else status.

Definition local_meta (clk : time) (source : stripeSubscription) (customerID : string) : gmap string any :=
  let get := get_str (ssub_Metadata source) in
  let meta := buildStripeMeta ∅
    [("price_id", subscriptionPriceID source);
     ("customer_id", firstNonEmpty [customerID; customerIDFromAny (ssub_Customer source)]);
     ("product_slug", get "product_slug"); ("user_email", get "user_email");
     ("startsAt", epochToRFC3339 (ssub_CurrentPeriodStart source));
     ("expiresAt", epochToRFC3339 (ssub_CurrentPeriodEnd source));
     ("cancelAtPeriodEnd", if ssub_CancelAtPeriodEnd source then "true" else "false")] in
  let '(start, end_) := subscriptionPeriod clk source in
  if (0 <? ssub_CurrentPeriodStart source) ||
     match ssub_Items source with [item] => 0 <? item_CurrentPeriodStart item | _ => false end
  then <["startsAt" := AStr (FormatRFC3339 start)]> (<["expiresAt" := AStr (FormatRFC3339 end_)]> meta)
  else meta.

Definition upsertStripeSubscription (source : stripeSubscription) (customerID : string) : Handler () :=
  refunded ← reconcileRefundedLatestInvoice source;
  if refunded : bool then mret tt else
  let userID := TrimSpace (get_str (ssub_Metadata source) "user_id") in
  if userID == "" then mret tt else
  go ← projectable source;
  if negb go then mret tt else
  let kind := TrimSpace (get_str (ssub_Metadata source) "kind") in
  let kind := if kind == "" then "subscription" else kind in
  plan ← on_store (reads_opt ErrBillingPlanNotFound
                     (λ s, GetBillingPlanByPriceID s (subscriptionPriceID source)));
  let planID := match plan with
                | Some plan => plan_PlanID plan
                | None => TrimSpace (get_str (ssub_Metadata source) "plan_id")
                end in
  clk ← now;
  let status := local_status source in
  later ← now;
  _ ← stored (λ id clk', UpsertSubscription id clk' (Some (mkSubscription "" userID "stripe" "stripe" ""
        kind planID (TrimSpace (ssub_ID source)) status (local_meta clk source customerID) 0 0
        (if status == "cancelled" then Some later else None))));
  mret tt.

(** The quota moves first on an activation or an upgrade, last on a renewal. *)
Definition grant_plan (userID : string) (plan : BillingPlan) (previous : option AccountBillingProfile)
    (activation renewal : bool) (source : stripeSubscription) : Handler () :=
  let apply := clocked (λ clk, applyPlanEntitlements clk userID plan) in
  clk ← now;
  let '(start, end_) := subscriptionQuotaPeriod clk plan source in
  match previous, activation with
  | Some p, true =>
      _ ← clocked (λ clk, ActivateSubscriptionQuota clk userID (prof_IncludedQuotaBytes p)
                            (plan_IncludedQuotaBytes plan) start end_);
      apply
  | _, _ =>
      if renewal then
        _ ← apply; clocked (λ clk, resetQuotaForPlanOnce clk userID plan start end_)
      else
        match previous with
        | Some p =>
            if prof_IncludedQuotaBytes p <? plan_IncludedQuotaBytes plan then
              _ ← clocked (λ clk, applyPlanUpgradeQuota clk userID (prof_IncludedQuotaBytes p)
                                    (plan_IncludedQuotaBytes plan) start end_);
              apply
            else apply
        | None => apply
        end
  end.

Definition is_activation (fresh : bool) (previous : option AccountBillingProfile) : bool :=
  fresh && match previous with Some p => prof_PricingRuleVersion p == "plan:FREE" | None => false end.

(** [None] when nothing is to be granted, else whether the invoice is the first
    of the subscription. *)
Definition paid_for (source : stripeSubscription) (created : bool) : Handler (option bool) :=
  if negb client_enabled then mret (Some created) else
  if hasPendingUpdate source then mret None else
  if customerIDFromAny (ssub_LatestInvoice source) == ""
  then fails (ErrMsg "paid subscription invoice required") else
  invoice ← settled_invoice source;
  mret ((λ i, sinv_BillingReason i == "subscription_create") <$> invoice).

Definition syncSubscriptionEntitlements (source : stripeSubscription) (created : bool) : Handler () :=
  refunded ← reconcileRefundedLatestInvoice source;
  if refunded : bool then mret tt else
  let userID := TrimSpace (get_str (ssub_Metadata source) "user_id") in
  if userID == "" then mret tt else
  let status := ToLower (TrimSpace (ssub_Status source)) in
  if (status != "active") && (status != "trialing") then mret tt else
  fresh ← paid_for source created;
  match fresh with
  | None => mret tt
  | Some freshActivation =>
      found ← on_store (reads_opt ErrBillingPlanNotFound
                (resolveBillingPlan (subscriptionPriceID source) (get_str (ssub_Metadata source) "plan_id")));
      match found with
      | None => mret tt
      | Some plan =>
          previous ← on_store (reads_opt ErrUserNotFound (λ s, GetAccountBillingProfile s userID));
          _ ← grant_plan userID plan previous (is_activation freshActivation previous) created source;
          _ ← identified (λ clk newV7, restoreQuotaGroupForPlan clk newV7 userID plan);
          id ← newUUID;
          _ ← (if EqualFold (TrimSpace (plan_Kind plan)) "trial" then mret tt
               else clocked (λ clk, modify (supersedeActiveTrials clk id userID)));
          publish (mkBillingEvent (if created then "subscription_activated" else "subscription_updated")
                     userID (plan_PlanID plan) (subscriptionPriceID source) (ssub_ID source) 0)
      end
  end.

(** ** Financial facts *)

Definition issued_at (invoice : stripeInvoice) : time :=
  if 0 <? sinv_Created invoice then Unix (sinv_Created invoice) else Unix (sinv_PaidAt invoice).

(** A second payment for a paid invoice is not an error. *)
Definition record_payment_once (payment : FinancePayment) : Handler () :=
  r ← attempt (stored (λ id clk, RecordFinancePayment id clk payment));
  match r with
  | Ok _ => mret tt
  | Err e => if e == ErrFinanceInvoiceAlreadyPaid then mret tt else fails e
  end.

(** Both writes are idempotent. *)
Definition recordStripePaidInvoice (invoice : stripeInvoice) (subscription : stripeSubscription)
    (userID : string) : Handler () :=
  if (TrimSpace (sinv_ID invoice) == "") || negb (EqualFold (TrimSpace (sinv_Status invoice)) "paid") ||
     sinv_PaidOutOfBand invoice then mret tt else
  if sinv_PaidAt invoice <=? 0 then fails (ErrMsg "Stripe paid invoice is missing paid_at") else
  if TrimSpace (customerIDFromAny (sinv_Subscription invoice)) != TrimSpace (ssub_ID subscription)
  then fails (ErrMsg "Stripe invoice subscription does not match the processed subscription") else
  let currency := ToUpper (TrimSpace (sinv_Currency invoice)) in
  if negb (validReferralCurrency currency) then fails (ErrMsg "Stripe invoice has invalid currency") else
  if sinv_AmountPaid invoice <? 0 then fails (ErrMsg "Stripe invoice has invalid paid amount") else
  subs ← on_store (reads (λ s, ListSubscriptionsByUser s userID));
  match List.find (λ sub, EqualFold (sub_Provider sub) "stripe" && (sub_ExternalID sub == ssub_ID subscription)) subs with
  | None => fails (ErrMsg "local Stripe subscription is unavailable for paid invoice")
  | Some localSubscription =>
      let period := referralInvoicePeriod invoice in
      localInvoice ← stored (λ id clk, CreateFinanceInvoice id clk
        (mkFinanceInvoice "" ("stripe-invoice:" +:+ sinv_ID invoice) userID (sub_ID localSubscription) "stripe"
           (sinv_ID invoice) (sinv_AmountPaid invoice) currency "Settled Stripe subscription invoice"
           (issued_at invoice) None (fst <$> period) (snd <$> period) 0));
      if sinv_AmountPaid invoice =? 0 then mret tt else
      let paymentIntentID := customerIDFromAny (sinv_PaymentIntent invoice) in
      if paymentIntentID == "" then fails (ErrMsg "Stripe paid invoice is missing its payment intent") else
      _ ← stored (λ id clk, RecordFinancePayment id clk
        (mkFinancePayment "" ("stripe-payment:" +:+ sinv_ID invoice) (inv_ID localInvoice) userID "stripe"
           paymentIntentID (sinv_AmountPaid invoice) currency (Unix (sinv_PaidAt invoice)) 0));
      mret tt
  end.

(** ** Referral evidence *)

Definition first_line_price (invoice : stripeInvoice) : string :=
  match sinv_Lines invoice with
  | [] => ""
  | line :: _ => if customerIDFromAny (line_Price line) == ""
                 then customerIDFromAny (line_PricingPrice line) else customerIDFromAny (line_Price line)
  end.

(** An invoice on file that contradicts the evidence. *)
Definition contradicts (invoice : FinanceInvoice) (userID subscriptionID : string) (amount : Z)
    (currency : string) (start end_ : time) : bool :=
  (inv_AccountUUID invoice != userID) || (inv_SubscriptionUUID invoice != subscriptionID) ||
  negb (inv_AmountMinor invoice =? amount) || negb (EqualFold (inv_Currency invoice) currency) ||
  match inv_ServicePeriodStart invoice with Some t => negb (Equal t start) | None => false end ||
  match inv_ServicePeriodEnd invoice with Some t => negb (Equal t end_) | None => false end.

Definition verifiedReferralFinanceInvoice (source : stripeInvoice) (userID subscriptionID planID : string)
    (providerAmount : Z) (periodStart periodEnd : time) : Handler FinanceInvoice :=
  if match sinv_Lines source with [] => true | _ => false end || negb (isXConnectProPlanID planID) ||
     (providerAmount <=? 0) || negb (providerAmount =? sinv_AmountPaid source) ||
     negb (Before periodStart periodEnd)
  then fails (ErrMsg "verified Stripe invoice evidence is incomplete") else
  invoices ← from_store (λ s, ListFinanceInvoices s userID subscriptionID 500);
  let currency := ToUpper (TrimSpace (sinv_Currency source)) in
  invoice ←
    match List.find (λ i, (inv_Provider i == "stripe") && (inv_ProviderInvoiceID i == sinv_ID source)) invoices with
    | Some invoice =>
        if contradicts invoice userID subscriptionID providerAmount currency periodStart periodEnd
        then fails (ErrMsg "verified Stripe invoice conflicts with immutable local financial facts") else
        match inv_ServicePeriodStart invoice, inv_ServicePeriodEnd invoice with
        | None, None =>
            stored (λ id clk, CreateFinanceInvoice id clk
              (invoice <| inv_ServicePeriodStart := Some periodStart |> <| inv_ServicePeriodEnd := Some periodEnd |>))
        | _, _ => mret invoice
        end
    | None =>
        stored (λ id clk, CreateFinanceInvoice id clk
          (mkFinanceInvoice "" ("stripe-invoice:" +:+ sinv_ID source) userID subscriptionID "stripe"
             (sinv_ID source) providerAmount currency "Verified XConnect subscription invoice"
             (issued_at source) None (Some periodStart) (Some periodEnd) 0))
    end;
  _ ← on_store (VerifyReferralInvoice (Some (mkReferralInvoiceVerification (inv_ID invoice)
        (first_line_price source) planID "xconnect")));
  mret invoice.

(** The verified invoice is evidence of a collected payment. *)
Definition collected (invoice : stripeInvoice) : bool :=
  EqualFold (sinv_Status invoice) "paid" && negb (sinv_PaidOutOfBand invoice) &&
  (0 <? sinv_AmountPaid invoice) && (customerIDFromAny (sinv_PaymentIntent invoice) != "") &&
  (0 <? sinv_PaidAt invoice).

(** One invoice of a referrer's history. *)
Definition import_referrer_invoice (referrerUUID : string) (local : Subscription) (paidAt : time)
    (listed : stripeInvoice) : Handler () :=
  if (customerIDFromAny (sinv_Subscription listed) != sub_ExternalID local) ||
     (sinv_AmountPaid listed <=? 0) || negb (EqualFold (sinv_Status listed) "paid") then mret tt else
  verified ← fetchInvoice c (sinv_ID listed);
  if negb (collected verified) then mret tt else
  let invoicePaidAt := Unix (sinv_PaidAt verified) in
  if After invoicePaidAt paidAt then mret tt else
  planID ← on_store (reads (λ s, referralPlanFromInvoice s verified));
  if planID == "" then mret tt else
  match referralInvoicePeriod verified with
  | None => mret tt
  | Some (periodStart, periodEnd) =>
  if Before paidAt periodStart || negb (Before paidAt periodEnd) then mret tt else
  let paymentIntentID := customerIDFromAny (sinv_PaymentIntent verified) in
  charge ← fetchPaymentIntentCharge c paymentIntentID;
  if negb (EqualFold (chg_Status charge) "succeeded") then mret tt else
  if chg_Disputed charge then
    on_store (RecordReferralRisk (mkReferralPaymentRisk ("provider-history:dispute:" +:+ chg_ID charge)
      (sinv_ID verified) "dispute" "Provider history shows disputed inviter payment" paidAt)) else
  if chg_Refunded charge || (0 <? chg_Amount charge) && (chg_Amount charge <=? chg_AmountRefunded charge) then
    on_store (RecordReferralRisk (mkReferralPaymentRisk ("provider-history:refund:" +:+ chg_ID charge)
      (sinv_ID verified) "refund" "Provider history shows fully refunded inviter payment" paidAt)) else
  let currency := ToUpper (TrimSpace (sinv_Currency verified)) in
  if negb (validReferralCurrency currency) then fails (ErrMsg "Stripe inviter invoice has invalid currency") else
  _ ← from_result (stripeAmountToCurrencyMinor currency (sinv_AmountPaid verified));
  invoice ← verifiedReferralFinanceInvoice verified referrerUUID (sub_ID local) planID
              (sinv_AmountPaid verified) periodStart periodEnd;
  record_payment_once (mkFinancePayment "" ("stripe-payment:" +:+ sinv_ID verified) (inv_ID invoice)
    referrerUUID "stripe" paymentIntentID (inv_AmountMinor invoice) currency invoicePaidAt 0)
  end.

Definition ensureReferrerPaidPeriod (inviteeUUID : string) (paidAt : time) : Handler () :=
  referrer ← on_store (reads_opt ErrReferralNotFound (λ s, GetReferralReferrer s inviteeUUID));
  match referrer with
  | None => mret tt
  | Some referrerUUID =>
      subs ← on_store (reads (λ s, ListSubscriptionsByUser s referrerUUID));
      each (λ local,
        if (sub_Provider local != "stripe") || (sub_Kind local != "subscription") then mret tt else
        let customerID := TrimSpace (subscriptionMetaString (sub_Meta local) "customer_id") in
        if customerID == "" then mret tt else
        invoices ← listPaidInvoices c customerID;
        each (import_referrer_invoice referrerUUID local paidAt) invoices) subs
  end.

(** The loop over the customer's history: [false] as soon as an earlier
    invoice of the programme is found. *)
Fixpoint first_among (currentInvoiceID : string) (currentPaidAt : time) (currentFound : bool)
    (invoices : list stripeInvoice) : Handler bool :=
  match invoices with
  | [] => if currentFound then mret true
          else fails (ErrMsg "verified paid invoice is not yet visible in Stripe customer invoice history")
  | candidate :: rest =>
      let isCurrent := sinv_ID candidate == currentInvoiceID in
      let currentFound := currentFound || isCurrent in
      if (sinv_AmountPaid candidate <=? 0) || negb (EqualFold (sinv_Status candidate) "paid") ||
         (customerIDFromAny (sinv_Subscription candidate) == "")
      then first_among currentInvoiceID currentPaidAt currentFound rest else
      verified ← fetchInvoice c (sinv_ID candidate);
      if negb (collected verified) then first_among currentInvoiceID currentPaidAt currentFound rest else
      let paidAt := if isCurrent then currentPaidAt else Unix (sinv_PaidAt verified) in
      planID ← on_store (reads (λ s, referralPlanFromInvoice s verified));
      if (planID != "") && (Before paidAt currentPaidAt ||
           (Equal paidAt currentPaidAt && string_lt (sinv_ID candidate) currentInvoiceID))
      then mret false
      else first_among currentInvoiceID currentPaidAt currentFound rest
  end.
Definition isFirstPaidXConnectInvoice (customerID currentInvoiceID : string) (currentPaidAt : time) : Handler bool :=
  if TrimSpace customerID == ""
  then fails (ErrMsg "Stripe customer is missing for referral invoice history verification") else
  invoices ← listPaidInvoices c customerID;
  first_among currentInvoiceID currentPaidAt false invoices.

(** The event's invoice, or the invoice read again when the event lacks
    evidence. *)
Definition evidence (invoice : stripeInvoice) : Handler stripeInvoice :=
  if (sinv_PaidAt invoice <=? 0) || match sinv_Lines invoice with [] => true | _ => false end ||
     sinv_LinesHasMore invoice then
    verified ← fetchInvoice c (sinv_ID invoice);
    if collected verified then mret verified
    else fails (ErrMsg "Stripe invoice lacks verified paid_at, payment intent, or paid status")
  else mret invoice.

(** The reward of the first paid invoice. *)
Definition reward_first_invoice (invoice : stripeInvoice) (userID planID currency : string)
    (paidMinor : Z) (paidAt : time) : Handler () :=
  firstInvoice ← isFirstPaidXConnectInvoice (customerIDFromAny (sinv_Customer invoice)) (sinv_ID invoice) paidAt;
  if negb firstInvoice then mret tt else
  clk ← now;
  r ← attempt (stored (λ id later, CreateReferralReward id clk later
        (Some (mkReferralReward "" "" (sinv_ID invoice) "" userID planID "xconnect" paidMinor
           (Z.quot paidMinor 10) currency paidAt (Add paidAt (7 * 24 * Hour)) 0 "" 0 0 ""))));
  match r with
  | Ok _ => mret tt
  | Err e => if e == ErrReferralNotFound then mret tt else fails e
  end.

Definition recordReferralPaidInvoice (invoice : stripeInvoice) (subscription : stripeSubscription)
    (userID : string) : Handler () :=
  if (TrimSpace (sinv_ID invoice) == "") || (sinv_AmountPaid invoice <=? 0) ||
     negb (EqualFold (TrimSpace (sinv_Status invoice)) "paid") then mret tt else
  if sinv_PaidOutOfBand invoice then mret tt else
  if customerIDFromAny (sinv_PaymentIntent invoice) == "" then mret tt else
  invoice ← evidence invoice;
  let paymentID := customerIDFromAny (sinv_PaymentIntent invoice) in
  planID ← on_store (reads (λ s, referralPlanFromInvoice s invoice));
  if planID == "" then mret tt else
  match referralInvoicePeriod invoice with
  | None => fails (ErrMsg "Stripe XConnect invoice lacks a consistent subscription service period")
  | Some (periodStart, periodEnd) =>
  let currency := ToUpper (TrimSpace (sinv_Currency invoice)) in
  if negb (validReferralCurrency currency) then fails (ErrMsg "Stripe invoice has invalid currency") else
  paidMinor ← from_result (stripeAmountToCurrencyMinor currency (sinv_AmountPaid invoice));
  let paidAt := Unix (sinv_PaidAt invoice) in
  subs ← on_store (reads (λ s, ListSubscriptionsByUser s userID));
  let subscriptionUUID :=
    match List.find (λ local, (sub_Provider local == "stripe") && (sub_ExternalID local == ssub_ID subscription)) subs with
    | Some local => sub_ID local | None => "" end in
  if subscriptionUUID == "" then fails (ErrMsg "local Stripe subscription is unavailable for verified invoice") else
  financeInvoice ← verifiedReferralFinanceInvoice invoice userID subscriptionUUID planID
                     (sinv_AmountPaid invoice) periodStart periodEnd;
  _ ← record_payment_once (mkFinancePayment "" ("stripe-payment:" +:+ sinv_ID invoice) (inv_ID financeInvoice)
        userID "stripe" paymentID (inv_AmountMinor financeInvoice) currency paidAt 0);
  campaign ← on_store (reads (λ s, GetReferralCampaign s paidAt));
  if negb (Active (Some campaign) paidAt) then mret tt else
  _ ← (if isXConnectAnnualPlanID planID then ensureReferrerPaidPeriod userID paidAt else mret tt);
  reward_first_invoice invoice userID planID currency paidMinor paidAt
  end.

(** ** Refunds *)

(** Whether the payments of the subscription are all refunded, and whether one
    is in part. *)
Definition refundReviewSettlement (accountID subscriptionID : string) : Handler (bool * bool) :=
  on_store (reads (λ s,
    match settled_payments s accountID subscriptionID (ListFinanceRefunds s accountID 0)
            (ListFinancePayments s accountID 0) 0 true false with
    | Err e => Err e
    | Ok (count, complete, partial) => Ok ((0 <? count) && complete, partial)
    end)).

Definition review_response : RawMessage :=
  RawJSON (JObj [("status", JStr "refunded"); ("source", JStr "settled_provider_refunds")]).

Definition completeSettledRefundReview (accountID subscriptionID : string) : Handler () :=
  found ← on_store (reads_opt ErrFinanceRecordNotFound (λ s, GetFinanceOperation s (refundReviewKey accountID)));
  match found with
  | None => mret tt
  | Some op =>
      match decode_review (op_Request op) with
      | Err _ => fails ErrFinanceIdempotencyConflict
      | Ok (account, subscription) =>
          if (account != accountID) || (op_OperationType op != "refund_review")
          then fails ErrFinanceIdempotencyConflict else
          if (subscription != subscriptionID) || (op_Status op != FinanceOperationInProgress) then mret tt else
          settled ← refundReviewSettlement account subscription;
          if negb settled.1 then mret tt else
          id ← newUUID;
          r ← attempt (clocked (λ clk, FinishFinanceOperation id clk (op_ID op) FinanceOperationSucceeded ""
                review_response None None [op_AttemptCount op]));
          match r with
          | Ok _ => mret tt
          | Err e =>
              if e == ErrFinanceOperationNotRetryable then
                current ← from_store (λ s, GetFinanceOperation s (op_IdempotencyKey op));
                match current with
                | Ok current => if op_Status current == FinanceOperationSucceeded then mret tt else fails e
                | Err _ => fails e
                end
              else fails e
          end
      end
  end.

(** The association of an operation with a payment, checked against the local
    facts. *)
Definition loadSubscriptionRefundIntent (op : FinanceOperation) (s : memoryStore)
    : result error (subscriptionRefundIntent * FinancePayment) :=
  match decode_intent (op_Request op) with
  | None => Err ErrFinanceIdempotencyConflict
  | Some intent =>
  if (op_OperationType op != "refund") || (op_TargetType op != "payment") || (op_Provider op != "stripe") ||
     (op_TargetID op != ri_PaymentID intent) || (ri_AccountID intent == "") ||
     (ri_SubscriptionID intent == "") || (ri_AmountMinor intent <=? 0)
  then Err ErrFinanceIdempotencyConflict else
  match GetFinancePaymentByProvider s "stripe" (ri_PaymentIntentID intent) with
  | Err e => Err e
  | Ok payment =>
  if (pay_ID payment != op_TargetID op) || (pay_Provider payment != op_Provider op) ||
     (pay_AccountUUID payment != ri_AccountID intent) ||
     negb (pay_AmountMinor payment =? ri_AmountMinor intent) || (pay_Currency payment != ri_Currency intent)
  then Err ErrFinanceIdempotencyConflict else
  match GetFinanceInvoice s (pay_InvoiceID payment) with
  | Err e => Err e
  | Ok invoice =>
  if (inv_AccountUUID invoice != ri_AccountID intent) || (inv_SubscriptionUUID invoice != ri_SubscriptionID intent) ||
     (inv_Provider invoice != "stripe") || negb (inv_AmountMinor invoice =? pay_AmountMinor payment) ||
     (inv_Currency invoice != pay_Currency payment)
  then Err ErrFinanceIdempotencyConflict else
  match ListSubscriptionsByUser s (ri_AccountID intent) with
  | Err e => Err e
  | Ok subs =>
      if existsb (λ sub, (sub_ID sub == ri_SubscriptionID intent) && (sub_ExternalID sub == ri_ExternalID intent) &&
                         (sub_Provider sub == "stripe") && (sub_Kind sub == "subscription") &&
                         (op_IdempotencyKey op == subscriptionRefundKey sub)) subs
      then Ok (intent, payment) else Err ErrFinanceIdempotencyConflict
  end end end end.

Definition validateOperationRefund (op : FinanceOperation) (refund : stripeRefund) (s : memoryStore)
    : result error FinancePayment :=
  match loadSubscriptionRefundIntent op s with
  | Err e => Err e
  | Ok (intent, payment) =>
      if (get_str (sref_Metadata refund) "finance_operation_key" != op_IdempotencyKey op) ||
         negb (HasPrefix (sref_ID refund) "re_") || (sref_Created refund <=? 0) ||
         negb (sref_Amount refund =? ri_AmountMinor intent) ||
         negb (EqualFold (sref_Currency refund) (ri_Currency intent)) ||
         (customerIDFromAny (sref_PaymentIntent refund) != ri_PaymentIntentID intent) ||
         (op_ProviderOperationID op != "") && (op_ProviderOperationID op != sref_ID refund)
      then Err ErrFinanceIdempotencyConflict else Ok payment
  end.

(** The operation of a refund that does not name one: the one already bound to
    this refund, if any. *)
Definition bound_operation (payment : FinancePayment) (refund : stripeRefund) (s : memoryStore)
    : result error string :=
  match GetFinanceInvoice s (pay_InvoiceID payment) with
  | Err e => Err e
  | Ok invoice =>
      if inv_SubscriptionUUID invoice == "" then Ok "" else
      match GetFinanceOperation s ("subscription-refund:" +:+ inv_SubscriptionUUID invoice) with
      | Ok op => Ok (if op_ProviderOperationID op == sref_ID refund then op_IdempotencyKey op else "")
      | Err e => if e == ErrFinanceRecordNotFound then Ok "" else Err e
      end
  end.

(** Access follows a full refund through payment, invoice and subscription. *)
Definition revoke_full_refund (payment : FinancePayment) (invoice : FinanceInvoice) : Handler () :=
  facts ← from_store (λ s, ListFinanceRefunds s (pay_AccountUUID payment) 0);
  if negb (refunded_minor facts (pay_ID payment) =? pay_AmountMinor payment) then mret tt else
  if inv_SubscriptionUUID invoice == "" then mret tt else
  subs ← on_store (reads (λ s, ListSubscriptionsByUser s (pay_AccountUUID payment)));
  match List.find (λ sub, (sub_ID sub == inv_SubscriptionUUID invoice) && (sub_Provider sub == "stripe")) subs with
  | None => fails (ErrMsg "refunded invoice has no matching local subscription")
  | Some subscription =>
      settled ← refundReviewSettlement (pay_AccountUUID payment) (sub_ID subscription);
      if negb settled.1 then mret tt else
      _ ← revoke (pay_AccountUUID payment) (sub_ExternalID subscription);
      completeSettledRefundReview (pay_AccountUUID payment) (sub_ID subscription)
  end.

(** The second half of [recordStripeRefund]: the refund is recorded under its
    operation, or under its own identifier when it has none. *)
Definition record_settled_refund (refund : stripeRefund) (payment : FinancePayment) (operationKey : string)
    : Handler () :=
  let refund := if (get_str (sref_Metadata refund) "finance_operation_key" == "") && (operationKey != "")
                then refund <| sref_Metadata := {[ "finance_operation_key" := operationKey ]} |> else refund in
  _ ← (if operationKey == "" then mret tt else
       op ← on_store (reads (λ s, GetFinanceOperation s operationKey));
       _ ← on_store (reads (validateOperationRefund op refund)); mret tt);
  let key := if operationKey == "" then ("stripe-refund:" +:+ sref_ID refund)%string else operationKey in
  eventID ← newUUID;
  _ ← stored (λ id clk, RecordFinanceRefund id eventID clk (mkFinanceRefund "" key (pay_ID payment) "stripe"
        (sref_ID refund) (sref_Amount refund) (sref_Currency refund) (sref_Reason refund)
        (Unix (sref_Created refund)) 0));
  invoice ← on_store (reads (λ s, GetFinanceInvoice s (pay_InvoiceID payment)));
  _ ← (if inv_ProviderInvoiceID invoice == "" then mret tt else
       on_store (RecordReferralRisk (mkReferralPaymentRisk ("stripe-refund:" +:+ sref_ID refund)
         (inv_ProviderInvoiceID invoice) "refund" "Stripe settled refund" (Unix (sref_Created refund)))));
  if operationKey != "" then mret tt else revoke_full_refund payment invoice.

Definition recordStripeRefund (refund : stripeRefund) : Handler () :=
  if sref_Status refund != "succeeded" then mret tt else
  let intentID := customerIDFromAny (sref_PaymentIntent refund) in
  if negb (HasPrefix (sref_ID refund) "re_") || negb (HasPrefix intentID "pi_") ||
     (sref_Amount refund <=? 0) || (sref_Created refund <=? 0)
  then fails (ErrMsg "Stripe settled refund has incomplete payment facts") else
  payment ← on_store (reads (λ s, GetFinancePaymentByProvider s "stripe" intentID));
  let named := get_str (sref_Metadata refund) "finance_operation_key" in
  operationKey ← (if named == "" then on_store (reads (bound_operation payment refund)) else mret named);
  record_settled_refund refund payment operationKey.

(** The payment intent of a completed refund; [""] when the event is not one. *)
Definition refunded_intent (event : stripeEvent) : result error string :=
  if (sev_Type event == "refund.created") || (sev_Type event == "refund.updated") then
    match decode_refund (sev_Object event) with
    | Err e => Err e
    | Ok refund =>
        Ok (if negb (EqualFold (TrimSpace (sref_Status refund)) "succeeded") || (sref_Amount refund <=? 0)
            then "" else customerIDFromAny (sref_PaymentIntent refund))
    end
  else if sev_Type event == "charge.refunded" then
    match decode_charge (sev_Object event) with
    | Err e => Err e
    | Ok charge =>
        Ok (if negb (chg_Refunded charge) || (chg_Amount charge <=? 0) ||
               (chg_AmountRefunded charge <? chg_Amount charge) ||
               existsb (λ status, negb (EqualFold (TrimSpace status) "succeeded")) (chg_Refunds charge)
            then "" else customerIDFromAny (chg_PaymentIntent charge))
    end
  else Ok "".

(** The local subscription of an invoice whose payment is refunded in full. *)
Definition refunded_subscription (payment : FinancePayment) (s : memoryStore)
    : result error (option (FinanceInvoice * Subscription)) :=
  match GetFinanceInvoice s (pay_InvoiceID payment) with
  | Err e => Err e
  | Ok invoice =>
  if negb (EqualFold (inv_Provider invoice) "stripe") || (inv_AccountUUID invoice != pay_AccountUUID payment) ||
     (inv_SubscriptionUUID invoice == "") || (inv_ProviderInvoiceID invoice == "") then Ok None else
  match checked_refunded (ListFinanceRefunds s (pay_AccountUUID payment) 0) payment with
  | Err e => Err e
  | Ok refunded =>
  if negb (refunded =? pay_AmountMinor payment) then Ok None else
  match ListSubscriptionsByUser s (pay_AccountUUID payment) with
  | Err e => Err e
  | Ok subs =>
      Ok match List.find (λ sub, (sub_ID sub == inv_SubscriptionUUID invoice) &&
                 EqualFold (sub_Provider sub) "stripe" && EqualFold (sub_Kind sub) "subscription") subs with
         | Some local => if TrimSpace (sub_ExternalID local) == "" then None else Some (invoice, local)
         | None => None
         end
  end end end.

(** Repairs the access after a refund event that was acknowledged before. *)
Definition reconcileProcessedStripeRefund (event : stripeEvent) : Handler () :=
  if negb client_enabled then mret tt else
  paymentIntentID ← from_result (refunded_intent event);
  if paymentIntentID == "" then mret tt else
  found ← on_store (reads_opt ErrFinanceRecordNotFound (λ s, GetFinancePaymentByProvider s "stripe" paymentIntentID));
  match found with
  | None => mret tt
  | Some payment =>
  linked ← on_store (reads (refunded_subscription payment));
  match linked with
  | None => mret tt
  | Some (invoice, local) =>
      settled ← refundReviewSettlement (pay_AccountUUID payment) (sub_ID local);
      if negb settled.1 then mret tt else
      remote ← fetchSubscription c (sub_ExternalID local);
      if (ssub_ID remote != sub_ExternalID local) ||
         (TrimSpace (get_str (ssub_Metadata remote) "user_id") != pay_AccountUUID payment) ||
         (customerIDFromAny (ssub_LatestInvoice remote) != inv_ProviderInvoiceID invoice) then mret tt else
      let wasReconciled := EqualFold (sub_Status local) "refunded" in
      _ ← revoke (pay_AccountUUID payment) (sub_ExternalID local);
      profile ← on_store (reads_opt ErrUserNotFound (λ s, GetAccountBillingProfile s (pay_AccountUUID payment)));
      if negb wasReconciled || match profile with
           | None => true
           | Some p => negb (EqualFold (prof_PricingRuleVersion p) (plan_version BillingPlanFree))
           end
      then publish (mkBillingEvent "subscription_refunded" (pay_AccountUUID payment) (sub_PlanID local) ""
                      (sub_ExternalID local) 0)
      else mret tt
  end end.

(** ** Top-ups *)

Section topup.
Context (NewSHA1 : string → string).

Definition topUpLedgerID (paymentRef : string) : string := NewSHA1 (TrimSpace paymentRef).

(** The amount and currency agree with what the catalog sells. *)
Definition approved_topup (session : stripeCheckoutSession) (s : memoryStore) : result error unit :=
  let get := get_str (sess_Metadata session) in
  let planID := TrimSpace (get "plan_id") in
  let currency := ToUpper (TrimSpace (sess_Currency session)) in
  let amountMinor := sess_AmountTotal session in
  if isCustomPaygoTopUp planID amountMinor currency then
    match ParseInt (TrimSpace (get "amount_minor")) with
    | Some metadataAmount =>
        if negb (metadataAmount =? amountMinor) || negb (EqualFold (get "currency") currency)
        then Err (ErrMsg "custom top-up amount does not match checkout metadata") else Ok tt
    | None => Err (ErrMsg "custom top-up amount does not match checkout metadata")
    end
  else
    match GetBillingPlan s planID with
    | Err _ => Err (ErrMsg "top-up session does not match an approved denomination")
    | Ok plan =>
        if negb (EqualFold (TrimSpace (plan_Kind plan)) "paygo_topup") ||
           negb (isFixedPaygoTopUp planID (plan_PriceAmount plan) (plan_PriceCurrency plan) (plan_PriceUnit plan))
        then Err (ErrMsg "top-up session does not match an approved denomination") else
        if (currency != ToUpper (TrimSpace (plan_PriceCurrency plan))) || negb (amountMinor =? plan_PriceAmount plan)
        then Err (ErrMsg "top-up amount or currency does not match the billing catalog") else Ok tt
    end.

(** Without a paid subscription the account moves to pay-as-you-go and its
    included quota ends. *)
Definition enter_paygo (userID : string) (at_ : time) : Handler () :=
  active ← from_store (λ s, hasActivePaidSubscription s userID);
  if active : bool then mret tt else
  payg ← from_store (λ s, GetBillingPlan s "PAYG");
  _ ← match payg with
      | Ok plan => clocked (λ clk, applyPlanEntitlements clk userID plan)
      | Err _ => mret tt
      end;
  state ← attempt (clocked (λ clk, GetAccountQuotaState clk userID));
  match state with
  | Ok q => if quota_RemainingIncludedQuota q =? 0 then mret tt else
            clocked (λ clk, UpsertAccountQuotaState clk (Some (q <| quota_RemainingIncludedQuota := 0 |>
                                                                 <| quota_EffectiveAt := at_ |>)))
  | Err e => if e == ErrUserNotFound then mret tt else fails e
  end.

Definition creditTopUpBalance (userID : string) (session : stripeCheckoutSession) : Handler () :=
  if TrimSpace userID == "" then mret tt else
  if negb (EqualFold (TrimSpace (get_str (sess_Metadata session) "kind")) "paygo") then mret tt else
  let status := TrimSpace (ToLower (sess_PaymentStatus session)) in
  if (status != "") && (status != "paid") then mret tt else
  if sess_AmountTotal session <=? 0 then mret tt else
  _ ← on_store (reads (approved_topup session));
  let currency := ToUpper (TrimSpace (sess_Currency session)) in
  if (currency != "CNY") && (currency != "USD") then fails (ErrMsg "unsupported top-up currency") else
  let paymentRef := firstNonEmpty [sess_PaymentIntent session; sess_ID session] in
  if TrimSpace paymentRef == "" then fails (ErrMsg "top-up session has neither a payment intent nor an id") else
  at_ ← now;
  first ← now; second ← now;
  duplicate ← on_store (λ s, let '(r, _, s) := CreditTopUp first second (Some (mkBillingLedgerEntry
      (topUpLedgerID paymentRef) userID currency at_ at_ "topup" 0 (float_cents (sess_AmountTotal session))
      float_zero ("stripe:" +:+ paymentRef) 0)) s in (r, s));
  _ ← (if duplicate : bool then mret tt
       else publish (mkBillingEvent "balance_topped_up" userID "" "" "" 0));
  enter_paygo userID at_.

(** ** The events *)

Definition checkout_completed (session : stripeCheckoutSession) : Handler () :=
  let from_reference := match c with
                        | Some c => userIDFromClientReference c (sess_ClientReferenceID session)
                        | None => ""
                        end in
  if sess_Subscription session != "" then
    sub ← fetchSubscription c (sess_Subscription session);
    let sub :=
      if (TrimSpace (get_str (ssub_Metadata sub) "user_id") == "") && (from_reference != "")
      then sub <| ssub_Metadata := <["kind" := "subscription"]> (<["user_id" := from_reference]> (ssub_Metadata sub)) |>
      else sub in
    _ ← upsertStripeSubscription sub (sess_Customer session);
    syncSubscriptionEntitlements sub true
  else
  let get := get_str (sess_Metadata session) in
  let userID := TrimSpace (get "user_id") in
  let userID := if userID == "" then from_reference else userID in
  if userID == "" then mret tt else
  _ ← stored (λ id clk, UpsertSubscription id clk (Some (mkSubscription "" userID "stripe" "stripe" ""
        (TrimSpace (get "kind")) (TrimSpace (get "plan_id"))
        (firstNonEmpty [sess_PaymentIntent session; sess_ID session])
        (firstNonEmpty [sess_PaymentStatus session; "active"])
        (buildStripeMeta ∅ [("price_id", ""); ("customer_id", sess_Customer session); ("session_id", sess_ID session);
           ("product_slug", get "product_slug"); ("user_email", get "user_email")]) 0 0 None)));
  creditTopUpBalance userID session.

(** The object of the event may be out of date: Stripe is read again. *)
Definition subscription_changed (created : bool) (subscription : stripeSubscription) : Handler () :=
  current ← fetchSubscription c (ssub_ID subscription);
  if ssub_ID current != ssub_ID subscription then fails (ErrMsg "subscription identity changed") else
  _ ← upsertStripeSubscription current (customerIDFromAny (ssub_Customer current));
  syncSubscriptionEntitlements current created.

Definition subscription_deleted (subscription : stripeSubscription) : Handler () :=
  _ ← upsertStripeSubscription subscription (customerIDFromAny (ssub_Customer subscription));
  let userID := TrimSpace (get_str (ssub_Metadata subscription) "user_id") in
  if userID == "" then mret tt else
  user ← on_store (reads_opt ErrUserNotFound (λ s, GetUserByID s userID));
  _ ← match user with
      | Some user => at_ ← now; identified (λ clk newV7, reconcileSubscriptionAccessAt clk newV7 user at_)
      | None => mret tt
      end;
  publish (mkBillingEvent "subscription_deleted" userID
             (TrimSpace (get_str (ssub_Metadata subscription) "plan_id"))
             (subscriptionPriceID subscription) (ssub_ID subscription) 0).

Definition charge_refunded (event : stripeEvent) (charge : stripeCharge) : Handler () :=
  let invoiceID := customerIDFromAny (chg_Invoice charge) in
  _ ← (if (invoiceID != "") && (0 <? chg_AmountRefunded charge) then
         at_ ← now;
         on_store (RecordReferralRisk (mkReferralPaymentRisk (sev_ID event) invoiceID "refund"
                     "Stripe charge refund" at_))
       else mret tt);
  if negb (chg_Refunded charge) || (chg_Amount charge <=? 0) || (chg_AmountRefunded charge <? chg_Amount charge)
  then mret tt else
  if existsb (λ status, negb (EqualFold (TrimSpace status) "succeeded")) (chg_Refunds charge) then mret tt else
  if match c with None => true | Some _ => false end then mret tt else
  if invoiceID == "" then reconcileProcessedStripeRefund event else
  invoice ← fetchInvoice c invoiceID;
  let subscriptionID := invoiceSubscriptionID invoice in
  if subscriptionID == "" then mret tt else
  subscription ← fetchSubscription c subscriptionID;
  let userID := TrimSpace (get_str (ssub_Metadata subscription) "user_id") in
  if userID == "" then mret tt else
  let subscription := subscription <| ssub_Status := "refunded" |> in
  _ ← upsertStripeSubscription subscription (customerIDFromAny (ssub_Customer subscription));
  _ ← revoke userID subscriptionID;
  publish (mkBillingEvent "subscription_refunded" userID (get_str (ssub_Metadata subscription) "plan_id")
             (subscriptionPriceID subscription) subscriptionID 0).

Definition charge_disputed (event : stripeEvent) (dispute : stripeDispute) : Handler () :=
  let chargeID := customerIDFromAny (disp_Charge dispute) in
  if (chargeID == "") || match c with None => true | Some _ => false end
  then fails (ErrMsg "Stripe dispute is missing its charge reference") else
  charge ← fetchCharge c chargeID;
  let invoiceID := customerIDFromAny (chg_Invoice charge) in
  if invoiceID == "" then fails (ErrMsg "Stripe dispute charge is missing its invoice reference") else
  at_ ← now;
  let occurred := if 0 <? disp_Created dispute then Unix (disp_Created dispute) else at_ in
  on_store (RecordReferralRisk (mkReferralPaymentRisk (sev_ID event) invoiceID "dispute" (disp_Reason dispute) occurred)).

Definition payment_failed (sub : stripeSubscription) (userID : string) : Handler () :=
  _ ← clocked (λ clk, markAccountArrears clk userID);
  publish (mkBillingEvent "payment_failed" userID (TrimSpace (get_str (ssub_Metadata sub) "plan_id"))
             (subscriptionPriceID sub) (ssub_ID sub) 0).

(** A positive invoice that does not name its payment is read again. *)
Definition resolve_payment (invoice : stripeInvoice) : Handler stripeInvoice :=
  if (0 <? sinv_AmountPaid invoice) && (customerIDFromAny (sinv_PaymentIntent invoice) == "") then
    verified ← fetchInvoice c (sinv_ID invoice);
    if (sinv_ID verified != sinv_ID invoice) || negb (EqualFold (sinv_Status verified) "paid") ||
       (customerIDFromAny (sinv_Subscription verified) != customerIDFromAny (sinv_Subscription invoice)) ||
       negb (sinv_AmountPaid verified =? sinv_AmountPaid invoice) ||
       negb (EqualFold (sinv_Currency verified) (sinv_Currency invoice))
    then fails (ErrMsg "Stripe invoice changed while resolving its payment") else mret verified
  else mret invoice.

(** The quota of the period of a paid latest invoice. *)
Definition renew (invoice : stripeInvoice) (sub : stripeSubscription) (userID : string) (plan : BillingPlan)
    : Handler () :=
  previous ← on_store (reads_opt ErrUserNotFound (λ s, GetAccountBillingProfile s userID));
  let upgraded := match previous with
                  | Some p => prof_IncludedQuotaBytes p <? plan_IncludedQuotaBytes plan | None => false end in
  _ ← grant_plan userID plan previous
        (is_activation (sinv_BillingReason invoice == "subscription_create") previous) (negb upgraded) sub;
  _ ← identified (λ clk newV7, restoreQuotaGroupForPlan clk newV7 userID plan);
  _ ← recordReferralPaidInvoice invoice sub userID;
  publish (mkBillingEvent "invoice_paid" userID (plan_PlanID plan) (subscriptionPriceID sub) (ssub_ID sub) 0).

Definition invoice_paid (invoice : stripeInvoice) (sub : stripeSubscription) (userID : string) : Handler () :=
  if negb (EqualFold (sinv_Status invoice) "paid")
  then fails (ErrMsg "invoice.paid event does not contain a paid invoice") else
  invoice ← resolve_payment invoice;
  _ ← recordStripePaidInvoice invoice sub userID;
  refunded ← reconcileRefundedLatestInvoice sub;
  if refunded : bool then recordReferralPaidInvoice invoice sub userID else
  if hasPendingUpdate sub || (customerIDFromAny (ssub_LatestInvoice sub) != sinv_ID invoice)
  then recordReferralPaidInvoice invoice sub userID else
  found ← on_store (reads_opt ErrBillingPlanNotFound
            (resolveBillingPlan (subscriptionPriceID sub) (get_str (ssub_Metadata sub) "plan_id")));
  match found with
  | None => recordReferralPaidInvoice invoice sub userID
  | Some plan => renew invoice sub userID plan
  end.

Definition invoice_event (failed : bool) (invoice : stripeInvoice) : Handler () :=
  let subscriptionID := invoiceSubscriptionID invoice in
  let invoice := invoice <| sinv_Subscription := JStr subscriptionID |> in
  if subscriptionID == "" then mret tt else
  sub ← fetchSubscription c subscriptionID;
  _ ← upsertStripeSubscription sub (customerIDFromAny (sinv_Customer invoice));
  let userID := TrimSpace (get_str (ssub_Metadata sub) "user_id") in
  if userID == "" then mret tt else
  if failed then payment_failed sub userID else invoice_paid invoice sub userID.

Definition handleStripeEvent (event : stripeEvent) : Handler () :=
  let type := sev_Type event in
  let object := sev_Object event in
  if type == "checkout.session.completed" then
    session ← from_result (decode_session object); checkout_completed session
  else if contains ["customer.subscription.created"; "customer.subscription.updated"] type then
    subscription ← from_result (unmarshal_subscription object);
    subscription_changed (type == "customer.subscription.created") subscription
  else if type == "customer.subscription.deleted" then
    subscription ← from_result (unmarshal_subscription object); subscription_deleted subscription
  else if contains ["refund.created"; "refund.updated"] type then
    refund ← from_result (decode_refund object); recordStripeRefund refund
  else if type == "charge.refunded" then
    charge ← from_result (decode_charge object); charge_refunded event charge
  else if contains ["charge.dispute.created"; "charge.dispute.updated"; "charge.dispute.closed"] type then
    dispute ← from_result (decode_dispute object); charge_disputed event dispute
  else if contains ["invoice.paid"; "invoice.payment_failed"] type then
    invoice ← from_result (unmarshal_invoice object); invoice_event (type == "invoice.payment_failed") invoice
  else mret tt.

(** ** The webhook *)

Inductive webhook_response :=
| Refused (status : Z) (code : string)
| Received (duplicate : bool).

Section webhook.
Context (Error : error → string).

(** The event of an authentic request. *)
Definition authentic_event (clk : time) (client : stripeClient) (body : result error string) (signature : string)
    : webhook_response + string * stripeEvent :=
  match body with
  | Err _ => inl (Refused 400 "invalid_request")
  | Ok body =>
      if negb (verifyWebhook clk client body signature) then inl (Refused 401 "invalid_signature") else
      match decode_event body with
      | Err _ => inl (Refused 400 "invalid_request")
      | Ok event =>
          match sev_Livemode event with
          | None => inl (Refused 400 "invalid_stripe_event")
          | Some livemode =>
              if (TrimSpace (sev_ID event) == "") || (TrimSpace (sev_Type event) == "")
              then inl (Refused 400 "invalid_stripe_event") else
              if negb (Bool.eqb livemode (sc_liveMode client)) then inl (Refused 400 "stripe_mode_mismatch") else
              if TrimSpace (sev_Account event) != "" then inl (Refused 400 "stripe_account_mismatch")
              else inr (body, event)
          end
      end
  end.

(** The outcome of the handler is recorded before it is reported. *)
Definition process_event (body : string) (event : stripeEvent) : Handler webhook_response :=
  alreadyProcessed ← clocked (λ clk s, let '(b, s) := BeginStripeWebhookEvent clk
    (Some (mkStripeWebhookEvent (sev_ID event) (sev_Type event) (raw_of_body body) "" "" 0 None)) s in (Ok b, s));
  if alreadyProcessed : bool then
    r ← attempt (reconcileProcessedStripeRefund event);
    mret (match r with Ok _ => Received true | Err _ => Refused 502 "stripe_refund_reconcile_failed" end)
  else
    r ← attempt (handleStripeEvent event);
    _ ← clocked (λ clk, modify (FinishStripeWebhookEvent clk (sev_ID event)
                                  (match r with Ok _ => None | Err e => Some (Error e) end)));
    mret (match r with Ok _ => Received false | Err _ => Refused 502 "stripe_webhook_failed" end).

Definition stripeWebhook (body : result error string) (signature : string) : Handler webhook_response :=
  match c with
  | None => mret (Refused 503 "stripe_not_configured")
  | Some client =>
      if negb (enabled client) then mret (Refused 503 "stripe_not_configured") else
      clk ← now;
      match authentic_event clk client body signature with
      | inl response => mret response
      | inr (body, event) => process_event body event
      end
  end.
End webhook.
End topup.
End handlers.
