(* ===== verification/StripeProps.v ===== *)
(** * Stripe's events: proofs

    A handler calls dozens of operations, so its proofs are compositional:
    [runs P Q m] says that [m] takes related states to related states and
    returns values satisfying [Q], whatever the outcome; there is a rule for
    every combinator and a lemma for every operation the handlers call.  With
    [P] the runs of the ledger ([ledger_run]) it follows that the webhook acts
    on the books only through the ledger's operations, and never touches the
    record of another event. *)

From S2P Require Import Prelude GoLib Json Calendar StoreData Users Lifecycle Finance FinanceInv Referral Quota.
From S2P Require Import Entitlements EntitlementProps Hmac StripeClient Stripe StripeEvents.
Open Scope Z_scope.
Open Scope bool_scope.
Open Scope go_scope.

(** ** Runs *)

Create HintDb runs.

Section runs.
Context {S : Type} (P : S → S → Prop) `{!PreOrder P}.

Definition runs {A} (Q : A → Prop) (m : M S A) : Prop :=
  ∀ s r s', m s = (r, s') → P s s' ∧ ∀ a, r = Ok a → Q a.

Lemma runs_ret {A} (Q : A → Prop) a : Q a → runs Q (mret a).
Proof. intros Ha s r s' [= <- <-]. split; [reflexivity|]. by intros ? [= <-]. Qed.

Lemma runs_fails {A} (Q : A → Prop) e : runs Q (fails e).
Proof. intros s r s' [= <- <-]. by split; [reflexivity|]. Qed.

Lemma runs_bind {A B} (Q : A → Prop) (Q' : B → Prop) (m : M S A) (f : A → M S B) :
  runs Q m → (∀ a, Q a → runs Q' (f a)) → runs Q' (m ≫= f).
Proof.
  intros Hm Hf s r s'. rewrite bind_unfold. destruct (m s) as [[a|e] s1] eqn:E.
  - apply Hm in E as [HP HQ]. intros [HP' HQ']%Hf; [|by apply HQ]. split; [|done]. by etransitivity.
  - apply Hm in E as [HP _]. intros [= <- <-]. by split.
Qed.

Lemma runs_seq {A B} (Q' : B → Prop) (m : M S A) (f : A → M S B) :
  runs (λ _, True) m → (∀ a, runs Q' (f a)) → runs Q' (m ≫= f).
Proof. intros ? ?. by eapply runs_bind. Qed.

Lemma runs_weaken {A} (Q Q' : A → Prop) m : runs Q m → (∀ a, Q a → Q' a) → runs Q' m.
Proof. intros Hm HQ s r s' [? ?]%Hm. split; [done|]. auto. Qed.

Lemma runs_reads {A} (f : S → result error A) : runs (λ a, ∃ s, f s = Ok a) (reads f).
Proof. intros s r s' [= <- <-]. split; [reflexivity|]. eauto. Qed.

Lemma runs_reads_opt {A} e (f : S → result error A) : runs (λ _, True) (reads_opt e f).
Proof.
  intros s r s'. unfold reads_opt. destruct (f s) as [a|e']; [|destruct (e' == e)];
    intros [= <- <-]; split; done || reflexivity.
Qed.

Lemma runs_gets {A} (f : S → A) : runs (λ a, ∃ s, a = f s) (gets f).
Proof. intros s r s' [= <- <-]. split; [reflexivity|]. intros a [= <-]. eauto. Qed.

Lemma runs_modify f : (∀ s, P s (f s)) → runs (λ _, True) (modify f).
Proof. intros Hf s r s' [= <- <-]. by split. Qed.

Lemma runs_attempt {A} (Q : A → Prop) m : runs Q m → runs (λ _, True) (attempt m).
Proof.
  intros Hm s r s'. unfold attempt. destruct (m s) as [r1 s1] eqn:E. apply Hm in E as [? _].
  intros [= <- <-]. by split.
Qed.

Lemma runs_of_op {A B} (op : S → result error A * B * S) :
  (∀ s, P s (op s).2) → runs (λ _, True) (of_op op).
Proof.
  intros Hop s r s'. unfold of_op. specialize (Hop s). destruct (op s) as [[[a|e] b] s1];
    intros [= <- <-]; by split.
Qed.

Lemma runs_op {A} (m : M S A) : (∀ s, P s (m s).2) → runs (λ _, True) m.
Proof. intros Hm s r s' E. specialize (Hm s). rewrite E in Hm. by split. Qed.
End runs.

Lemma runs_mono {S A} (P P' : S → S → Prop) (Q : A → Prop) m :
  (∀ s s', P s s' → P' s s') → runs P Q m → runs P' Q m.
Proof. intros HP Hm s r s' [? ?]%Hm. split; [by apply HP|done]. Qed.

#[export] Hint Resolve runs_ret runs_fails runs_reads_opt : runs.

(** One step of a handler: a leaf is closed by the lemmas of the operations, a
    sequence, a condition or a match is taken apart. *)
Ltac run_leaf := solve [eauto with runs typeclass_instances].
Ltac run_step :=
  lazymatch goal with
  | |- runs _ _ (mret _) => first [apply runs_ret; [apply _|done] | run_leaf]
  | |- runs _ _ (fails _) => apply runs_fails, _
  | |- runs _ _ (_ ≫= _) =>
      first [ eapply runs_bind; [apply _|run_leaf|intros ? ?]
            | eapply runs_seq; [apply _| |intros ?] ]
  | |- runs _ _ (if ?b then _ else _) => destruct b eqn:?
  | |- runs _ _ (match ?x with _ => _ end) => destruct x eqn:?
  | |- runs _ _ (let '(_, _) := ?x in _) => destruct x eqn:?
  | |- runs _ _ _ => run_leaf
  end.
Ltac run := repeat (cbv beta zeta; run_step).

(** ** Operations outside the books *)

(** Neither the books nor the record of the events. *)
Definition aside (s s' : memoryStore) : Prop :=
  same_books s s' ∧ stripeWebhookEvents s' = stripeWebhookEvents s.
#[export] Instance aside_preorder : PreOrder aside.
Proof.
  split.
  - intros s. by repeat split.
  - intros s1 s2 s3 [B1 E1] [B2 E2]. split; [|congruence]. unfold same_books in *.
    destruct_and!. split_and!; congruence.
Qed.

(** The operation by cases, each a store that is written out. *)
Ltac aside := repeat (case_match; try done); by repeat split.

Lemma aside_accounts s s' : touches_accounts s s' → aside s s'.
Proof. intros (? & ? & ? & ? & ->). by repeat split. Qed.

Lemma aside_UpdateUser newV7 now user s : aside s (UpdateUser newV7 now user s).2.
Proof. apply aside_accounts, UpdateUser_touches. Qed.

Lemma aside_UpsertSubscription id now sub s : aside s (UpsertSubscription id now sub s).2.
Proof. unfold UpsertSubscription. cbv zeta. aside. Qed.

Lemma aside_profile now p s : aside s (UpsertAccountBillingProfile now p s).2.
Proof. unfold UpsertAccountBillingProfile. aside. Qed.

Lemma aside_quota now q s : aside s (UpsertAccountQuotaState now q s).2.
Proof. unfold UpsertAccountQuotaState. aside. Qed.

Lemma aside_expire id now s : aside s (expireMonthlyUsageResetLocked id now s).
Proof. by destruct (expire_cases id now s) as [->|(? & ? & ? & ? & _ & _ & _ & _ & ->)]; repeat split. Qed.

Lemma aside_GetQuota now id s : aside s (GetAccountQuotaState now id s).2.
Proof. unfold GetAccountQuotaState. cbv zeta. case_match; [apply aside_expire|done]. Qed.

Lemma aside_change_quota now id a b start end_ act s :
  aside s (changeSubscriptionQuota now id a b start end_ act s).2.
Proof. unfold changeSubscriptionQuota. cbv zeta. aside. Qed.

Lemma aside_publish now e s : aside s (publishBillingEvent now e s).
Proof. unfold publishBillingEvent, PublishBillingEvent. destruct (payload now e) as [[|] ?]; by repeat split. Qed.

Lemma aside_free_period user now s : aside s (ensureFreeQuotaPeriod user now s).
Proof.
  unfold ensureFreeQuotaPeriod. destruct (negb _); [done|]. cbn. unfold ResetFreeQuotaPeriod. cbv zeta. aside.
Qed.

Lemma aside_trials `{MapOrder} clk id userID s : aside s (supersedeActiveTrials clk id userID s).
Proof.
  unfold supersedeActiveTrials. destruct (ListSubscriptionsByUser s userID) as [subs|]; [|done].
  revert s. induction subs as [|sub subs IH]; intros s; [done|]. cbn [foldl].
  etransitivity; [|apply IH]. case_match; [done|apply aside_UpsertSubscription].
Qed.

Lemma aside_risk risk s : aside s (RecordReferralRisk risk s).2.
Proof. unfold RecordReferralRisk. cbv zeta. aside. Qed.

Lemma aside_proof v s : aside s (VerifyReferralInvoice v s).2.
Proof. unfold VerifyReferralInvoice. aside. Qed.

Lemma aside_reward id now later r s : aside s (CreateReferralReward id now later r s).2.
Proof. unfold CreateReferralReward. cbv zeta. aside. Qed.

Lemma aside_credit `{MapOrder} now later e s : aside s (CreditTopUp now later e s).2.
Proof. unfold CreditTopUp. cbv zeta. aside. Qed.

(** ** The entitlement handlers *)

Abbreviation put_aside := (runs aside (λ _, True)).

Section entitlement_runs.
Context `{MapOrder}.

Lemma run_profile now p : put_aside (UpsertAccountBillingProfile now p).
Proof. apply runs_op. intros. apply aside_profile. Qed.
Lemma run_quota now q : put_aside (UpsertAccountQuotaState now q).
Proof. apply runs_op. intros. apply aside_quota. Qed.
Lemma run_get_quota now id : put_aside (GetAccountQuotaState now id).
Proof. apply runs_op. intros. apply aside_GetQuota. Qed.
Lemma run_attempt_quota now id : put_aside (attempt (GetAccountQuotaState now id)).
Proof. eapply runs_attempt, run_get_quota. Qed.
Lemma run_user newV7 now user : put_aside (of_op (UpdateUser newV7 now user)).
Proof. apply runs_of_op. intros. apply aside_UpdateUser. Qed.
Lemma run_subscription id now sub : put_aside (of_op (UpsertSubscription id now sub)).
Proof. apply runs_of_op. intros. apply aside_UpsertSubscription. Qed.
Lemma run_read {A} (f : memoryStore → result error A) : put_aside (reads f).
Proof. eapply runs_weaken; [apply runs_reads, _|done]. Qed.
Lemma run_gets {A} (f : memoryStore → A) : put_aside (gets f).
Proof. eapply runs_weaken; [apply runs_gets, _|done]. Qed.
#[local] Hint Resolve run_profile run_quota run_get_quota run_attempt_quota run_user run_subscription
  run_read run_gets : runs.

Lemma run_quota_state clk id : put_aside (quota_state clk id).
Proof.
  intros s r s' E. unfold quota_state in E. pose proof (aside_GetQuota clk id s) as HA.
  destruct (GetAccountQuotaState clk id s) as [[q|e] s1]; [|destruct (e == ErrUserNotFound)];
    injection E as <- <-; by split.
Qed.
#[local] Hint Resolve run_quota_state : runs.

Lemma run_apply clk userID plan : put_aside (applyPlanEntitlements clk userID plan).
Proof. unfold applyPlanEntitlements. run. Qed.
Lemma run_reset clk userID plan bounds : put_aside (resetQuotaForPlan clk userID plan bounds).
Proof. unfold resetQuotaForPlan. run. Qed.
#[local] Hint Resolve run_apply run_reset : runs.
Lemma run_reset_once clk userID plan start end_ : put_aside (resetQuotaForPlanOnce clk userID plan start end_).
Proof. unfold resetQuotaForPlanOnce. run. Qed.
Lemma run_restore clk newV7 userID plan : put_aside (restoreQuotaGroupForPlan clk newV7 userID plan).
Proof. unfold restoreQuotaGroupForPlan. run. Qed.
Lemma run_arrears clk userID : put_aside (markAccountArrears clk userID).
Proof. unfold markAccountArrears. run. Qed.
Lemma run_activate clk id a b start end_ : put_aside (ActivateSubscriptionQuota clk id a b start end_).
Proof. apply runs_op. intros. apply aside_change_quota. Qed.
Lemma run_upgrade clk id a b start end_ : put_aside (applyPlanUpgradeQuota clk id a b start end_).
Proof. apply runs_op. intros. apply aside_change_quota. Qed.
Lemma run_downgrade clk newV7 userID : put_aside (downgradeToFreePlan clk newV7 userID).
Proof. unfold downgradeToFreePlan, free_user, free_rows. run. Qed.
#[local] Hint Resolve run_downgrade : runs.
Lemma run_revoke clk id newV7 userID ext : put_aside (revokeRefundedSubscription clk id newV7 userID ext).
Proof. unfold revokeRefundedSubscription. run. Qed.
Lemma run_reconcile clk newV7 user at_ : put_aside (reconcileSubscriptionAccessAt clk newV7 user at_).
Proof.
  unfold reconcileSubscriptionAccessAt. eapply runs_seq; [apply _|apply runs_modify; intros; apply aside_free_period|].
  intros _. run.
Qed.
End entitlement_runs.
#[export] Hint Resolve run_profile run_quota run_get_quota run_subscription run_reset_once run_restore
  run_apply run_arrears run_activate run_upgrade run_revoke run_reconcile : runs.

(** ** Handlers on a store and a world

    A relation on stores, lifted to the states of a handler. *)

Section lifting.
Context {W : Type} `{StripeWorld W}.
Context (P : memoryStore → memoryStore → Prop) `{!PreOrder P}.

Definition lifted (a b : memoryStore * W) : Prop := P a.1 b.1.
#[export] Instance lifted_preorder : PreOrder lifted.
Proof. unfold lifted. split; [intros x; reflexivity|]. intros x y z ? ?. by transitivity y.1. Qed.
Abbreviation moves := (runs lifted).

Lemma lift_op {A} (m : M memoryStore A) : (∀ s, P s (m s).2) → moves (λ _, True) (on_store m).
Proof.
  intros Hm [s w] r s'. unfold on_store. cbn. specialize (Hm s). destruct (m s) as [r1 s1].
  intros [= <- <-]. by split.
Qed.
Lemma lift_runs {A} (m : M memoryStore A) : runs P (λ _, True) m → moves (λ _, True) (on_store m).
Proof. intros Hm. apply lift_op. intros s. destruct (m s) as [r1 s1] eqn:E. by apply Hm in E as [? _]. Qed.
Lemma lift_reads {A} (f : memoryStore → result error A) : moves (λ _, True) (on_store (reads f)).
Proof. apply lift_op. reflexivity. Qed.
Lemma lift_reads_opt {A} e (f : memoryStore → result error A) : moves (λ _, True) (on_store (reads_opt e f)).
Proof. apply lift_runs, runs_reads_opt, _. Qed.
Lemma lift_from_store {A} (f : memoryStore → A) : moves (λ _, True) (from_store f).
Proof. eapply runs_weaken; [apply runs_gets, _|done]. Qed.
Lemma lift_from_result {A} (r : result error A) : moves (λ a, r = Ok a) (from_result r).
Proof. intros sw r' sw' [= <- <-]. split; [reflexivity|done]. Qed.
Lemma lift_world {A} (f : W → A * W) : moves (λ a, ∃ w, a = (f w).1) (on_world f).
Proof.
  intros [s w] r sw'. unfold on_world. cbn. destruct (f w) as [a w'] eqn:E. intros [= <- <-].
  split; [unfold lifted; reflexivity|]. intros ? [= <-]. exists w. by rewrite E.
Qed.
Lemma lift_api {A} (f : W → result error A * W) : moves (λ a, ∃ w, (f w).1 = Ok a) (on_api f).
Proof.
  intros [s w] r sw'. unfold on_api. cbn. destruct (f w) as [a w'] eqn:E. intros [= <- <-].
  split; [unfold lifted; reflexivity|]. intros ? ->. exists w. by rewrite E.
Qed.
Lemma lift_ask {A} c (f : W → result error A * W) : moves (λ a, ∃ w, (f w).1 = Ok a) (ask c f).
Proof. unfold ask. case_match; [apply lift_api|apply runs_fails, _]. Qed.
Lemma lift_now : moves (λ _, True) now.
Proof. eapply runs_weaken; [apply lift_world|done]. Qed.
Lemma lift_v7 : moves (λ _, True) (on_world world_v7).
Proof. eapply runs_weaken; [apply lift_world|done]. Qed.
Lemma lift_uuid : moves (λ id, ∃ w, id = (world_uuid w).1) newUUID.
Proof. apply lift_world. Qed.
Lemma lift_clocked {A} (op : time → M memoryStore A) :
  (∀ clk, runs P (λ _, True) (op clk)) → moves (λ _, True) (clocked op).
Proof.
  intros Hop. unfold clocked. eapply runs_seq; [apply _|apply lift_now|]. intros clk. by apply lift_runs.
Qed.
Lemma lift_identified {A} (op : time → (string → result error string) → M memoryStore A) :
  (∀ clk v7, runs P (λ _, True) (op clk v7)) → moves (λ _, True) (identified op).
Proof.
  intros Hop. unfold identified. eapply runs_seq; [apply _|apply lift_now|]. intros clk.
  eapply runs_seq; [apply _|apply lift_v7|]. intros v7. by apply lift_runs.
Qed.
Lemma lift_each {A} (f : A → Handler ()) l :
  (∀ x, moves (λ _, True) (f x)) → moves (λ _, True) (each f l).
Proof.
  intros Hf. induction l as [|x l IH]; cbn [each]; [by apply runs_ret; [apply _|]|].
  by eapply runs_seq; [apply _|apply Hf|].
Qed.
End lifting.
#[export] Hint Resolve lift_reads lift_reads_opt lift_from_store lift_from_result lift_ask lift_now lift_v7
  lift_uuid lift_clocked lift_identified lift_each : runs.

(** ** The webhook runs on the ledger *)

(** Steps of the ledger, with the record of the events left alone. *)
Definition ledger_run (s s' : memoryStore) : Prop :=
  rtc fin_step s s' ∧ stripeWebhookEvents s' = stripeWebhookEvents s.
#[export] Instance ledger_run_preorder : PreOrder ledger_run.
Proof.
  split.
  - intros s. split; [apply rtc_refl|done].
  - intros s1 s2 s3 [? ?] [? ?]. split; [by etransitivity|congruence].
Qed.

Lemma aside_ledger s s' : aside s s' → ledger_run s s'.
Proof. intros [? ?]. split; [|done]. by apply rtc_once, StepOther. Qed.

Section ledger.
Context {W : Type} `{StripeWorld W} `{StripeDecoder} `{MapOrder}.
Context (c : option stripeClient).

(** What the client relies on: [uuid.NewString] is never empty, and an amount
    that was decoded into an [int64] is one. *)
Class SoundWorld : Prop := {
  sound_uuid : ∀ w, (world_uuid w).1 ≠ "";
  sound_invoice : ∀ id w i, (api_invoice id w).1 = Ok i → in_int64 (sinv_AmountPaid i);
  sound_decoder : ∀ raw i, decode_invoice raw = Ok i → in_int64 (sinv_AmountPaid i)
}.

Abbreviation on_ledger := (lifted (W := W) ledger_run).
Abbreviation books Q := (runs on_ledger Q).
Abbreviation keeps := (runs on_ledger (λ _, True)).

Lemma aside_runs {A} (m : M memoryStore A) : put_aside m → runs ledger_run (λ _, True) m.
Proof. apply runs_mono, aside_ledger. Qed.
Lemma books_aside {A} (m : M memoryStore A) : put_aside m → keeps (on_store m).
Proof. intros Hm. by apply lift_runs, aside_runs. Qed.
Lemma books_clocked {A} (op : time → M memoryStore A) : (∀ clk, put_aside (op clk)) → keeps (clocked op).
Proof. intros Hop. apply lift_clocked; [apply _|]. intros. by apply aside_runs. Qed.
Lemma books_identified {A} (op : time → (string → result error string) → M memoryStore A) :
  (∀ clk v7, put_aside (op clk v7)) → keeps (identified op).
Proof. intros Hop. apply lift_identified; [apply _|]. intros. by apply aside_runs. Qed.
#[local] Hint Resolve books_aside books_clocked books_identified : runs.

(** *** Requests *)

Lemma normalize_amount i i' : normalize_invoice i = Ok i' → sinv_AmountPaid i' = sinv_AmountPaid i.
Proof.
  unfold normalize_invoice. cbv zeta. destruct (_ && _ && _); [done|].
  set (i1 := if _ == "" then _ else i).
  assert (sinv_AmountPaid i1 = sinv_AmountPaid i) as <- by (subst i1; by destruct (_ == "")).
  clearbody i1. repeat case_match; intros [= <-]; by getset.
Qed.

Lemma books_subscription id : keeps (fetchSubscription c id).
Proof. unfold fetchSubscription. run. Qed.
Lemma books_charge id : keeps (fetchCharge c id).
Proof. eapply runs_weaken; [apply lift_ask, _|done]. Qed.
#[local] Hint Resolve books_subscription books_charge : runs.
Lemma books_intent_charge id : keeps (fetchPaymentIntentCharge c id).
Proof. unfold fetchPaymentIntentCharge. run. Qed.
Lemma books_pages n customer after all : keeps (invoice_pages n c customer after all).
Proof. revert after all. induction n as [|n IH]; intros; cbn [invoice_pages]; run. Qed.
Lemma books_history customer : keeps (listPaidInvoices c customer).
Proof. apply books_pages. Qed.
#[local] Hint Resolve books_intent_charge books_history : runs.

Context `{!SoundWorld}.
Abbreviation sized := (λ i : stripeInvoice, in_int64 (sinv_AmountPaid i)).

Lemma books_uuid : books (λ id, id ≠ "") newUUID.
Proof. eapply runs_weaken; [apply lift_uuid, _|]. intros id [w ->]. apply sound_uuid. Qed.
Lemma books_invoice id : books sized (fetchInvoice c id).
Proof.
  unfold fetchInvoice. eapply runs_bind; [apply _|apply lift_ask, _|].
  intros i [w Hi]. apply sound_invoice in Hi. eapply runs_weaken; [apply lift_from_result, _|].
  intros i' E%normalize_amount. by rewrite E.
Qed.
#[local] Hint Resolve books_uuid books_invoice : runs.

(** *** Writes *)

Lemma books_op {A B} (op : memoryStore → result error A * B * memoryStore) :
  (∀ s, ledger_run s (op s).2) → keeps (on_store (of_op op)).
Proof.
  intros Hop. apply lift_op. intros s. unfold of_op. specialize (Hop s).
  by destruct (op s) as [[[] ?] ?].
Qed.
Lemma books_stored {A B} (op : string → time → memoryStore → result error A * B * memoryStore) :
  (∀ id clk s, id ≠ "" → ledger_run s (op id clk s).2) → keeps (stored op).
Proof. intros Hop. unfold stored. run. apply books_op. auto. Qed.

Lemma step_ledger s s' : fin_step s s' → stripeWebhookEvents s' = stripeWebhookEvents s → ledger_run s s'.
Proof. intros ? ?. split; [by apply rtc_once|done]. Qed.

Ltac same_events := repeat (case_match; try done).

Lemma books_create_invoice i : in_int64 (inv_AmountMinor i) → keeps (stored (λ id clk, CreateFinanceInvoice id clk i)).
Proof.
  intros Hi. apply books_stored. intros id clk s _. apply step_ledger.
  - destruct (CreateFinanceInvoice id clk i s) as [[r out] s'] eqn:E. by eapply StepInvoice.
  - unfold CreateFinanceInvoice. cbv zeta. same_events.
Qed.
Lemma books_payment p : keeps (stored (λ id clk, RecordFinancePayment id clk p)).
Proof.
  apply books_stored. intros id clk s _. apply step_ledger.
  - destruct (RecordFinancePayment id clk p s) as [[r out] s'] eqn:E. by eapply StepPayment.
  - unfold RecordFinancePayment. cbv zeta. same_events.
Qed.
Lemma books_refund eventID r : keeps (stored (λ id clk, RecordFinanceRefund id eventID clk r)).
Proof.
  apply books_stored. intros id clk s Hid. apply step_ledger.
  - destruct (RecordFinanceRefund id eventID clk r s) as [[r' out] s'] eqn:E. by eapply StepRefund.
  - unfold RecordFinanceRefund, bindRefundOperation. cbv zeta. same_events.
Qed.
Lemma books_finish eventID id status pid response err next attempts :
  keeps (clocked (λ clk, FinishFinanceOperation eventID clk id status pid response err next attempts)).
Proof.
  unfold clocked. run. apply lift_op. intros s. apply step_ledger.
  - destruct (FinishFinanceOperation eventID a id status pid response err next attempts s) as [r s'] eqn:E.
    by eapply StepFinish.
  - unfold FinishFinanceOperation. cbv zeta. same_events.
Qed.
Lemma books_upsert sub : keeps (stored (λ id clk, UpsertSubscription id clk sub)).
Proof. apply books_stored. intros. apply aside_ledger, aside_UpsertSubscription. Qed.
Lemma books_reward clk r : keeps (stored (λ id later, CreateReferralReward id clk later r)).
Proof. apply books_stored. intros. apply aside_ledger, aside_reward. Qed.
Lemma books_risk risk : keeps (on_store (RecordReferralRisk risk)).
Proof. apply lift_op. intros. apply aside_ledger, aside_risk. Qed.
Lemma books_verify v : keeps (on_store (VerifyReferralInvoice v)).
Proof. apply lift_op. intros. apply aside_ledger, aside_proof. Qed.
Lemma books_publish e : keeps (publish e).
Proof.
  unfold publish. run. apply books_aside, runs_modify; intros; apply aside_publish.
Qed.
Lemma books_revoke userID ext : keeps (revoke userID ext).
Proof. unfold revoke. run. Qed.
Lemma books_attempt {A} (m : Handler A) : keeps m → keeps (attempt m).
Proof. apply runs_attempt. Qed.
#[local] Hint Resolve books_payment books_refund books_finish books_upsert books_reward books_risk books_verify
  books_publish books_revoke books_attempt : runs.

(** *** Handlers *)

Lemma books_refunded_latest source : keeps (reconcileRefundedLatestInvoice source).
Proof. unfold reconcileRefundedLatestInvoice. run. Qed.
Lemma books_settled_invoice source : keeps (settled_invoice c source).
Proof. unfold settled_invoice. run. Qed.
#[local] Hint Resolve books_refunded_latest books_settled_invoice : runs.
Lemma books_projectable source : keeps (projectable c source).
Proof. unfold projectable. run. Qed.
Lemma books_paid_for source created : keeps (paid_for c source created).
Proof. unfold paid_for. run. Qed.
#[local] Hint Resolve books_projectable books_paid_for : runs.
Lemma books_upsert_stripe source customer : keeps (upsertStripeSubscription c source customer).
Proof. unfold upsertStripeSubscription. run. Qed.
Lemma books_grant userID plan previous activation renewal source :
  keeps (grant_plan userID plan previous activation renewal source).
Proof. unfold grant_plan. run. Qed.
#[local] Hint Resolve books_upsert_stripe books_grant : runs.
Lemma books_trials id userID : keeps (clocked (λ clk, modify (supersedeActiveTrials clk id userID))).
Proof. apply books_clocked. intros. apply runs_modify. intros. apply aside_trials. Qed.
#[local] Hint Resolve books_trials : runs.
Lemma books_sync source created : keeps (syncSubscriptionEntitlements c source created).
Proof. unfold syncSubscriptionEntitlements. run. Qed.
Lemma books_payment_once p : keeps (record_payment_once p).
Proof. unfold record_payment_once. run. Qed.
#[local] Hint Resolve books_sync books_payment_once : runs.

Lemma books_paid_invoice invoice sub userID : sized invoice → keeps (recordStripePaidInvoice invoice sub userID).
Proof.
  intros Hi. pose proof books_create_invoice. unfold recordStripePaidInvoice. run.
Qed.
Lemma contradicts_amount i userID sub amount currency start end_ :
  contradicts i userID sub amount currency start end_ = false → inv_AmountMinor i = amount.
Proof. unfold contradicts. intros E. do 4 (apply orb_false_iff in E as [E ?]). bools. lia. Qed.
Lemma books_verified source userID sub plan amount start end_ : sized source →
  keeps (verifiedReferralFinanceInvoice source userID sub plan amount start end_).
Proof.
  intros Hs. unfold verifiedReferralFinanceInvoice.
  destruct (_ || _) eqn:E; [apply runs_fails, _|]. apply orb_false_iff in E as [E _].
  apply orb_false_iff in E as [_ E]. assert (amount = sinv_AmountPaid source) as -> by (bools; lia).
  run; apply books_create_invoice; getset; [|done].
  by match goal with C : contradicts _ _ _ _ _ _ _ = false |- _ => apply contradicts_amount in C as -> end.
Qed.
#[local] Hint Resolve books_paid_invoice books_verified : runs.

Lemma books_import referrer local paidAt listed : keeps (import_referrer_invoice c referrer local paidAt listed).
Proof. unfold import_referrer_invoice. run. Qed.
#[local] Hint Resolve books_import : runs.
Lemma books_referrer invitee paidAt : keeps (ensureReferrerPaidPeriod c invitee paidAt).
Proof. unfold ensureReferrerPaidPeriod. run. apply lift_each; [apply _|]. intros local. run. Qed.
Lemma books_first current paidAt found invoices : keeps (first_among c current paidAt found invoices).
Proof. revert found. induction invoices as [|i invoices IH]; intros found; cbn [first_among]; run. Qed.
#[local] Hint Resolve books_referrer books_first : runs.
Lemma books_is_first customer current paidAt : keeps (isFirstPaidXConnectInvoice c customer current paidAt).
Proof. unfold isFirstPaidXConnectInvoice. run. Qed.
#[local] Hint Resolve books_is_first : runs.
Lemma books_evidence invoice : sized invoice → books sized (evidence c invoice).
Proof. intros Hi. unfold evidence. run. Qed.
Lemma books_reward_first invoice userID plan currency minor paidAt :
  keeps (reward_first_invoice c invoice userID plan currency minor paidAt).
Proof. unfold reward_first_invoice. run. Qed.
#[local] Hint Resolve books_evidence books_reward_first : runs.
Lemma books_referral invoice sub userID : sized invoice → keeps (recordReferralPaidInvoice c invoice sub userID).
Proof. intros Hi. unfold recordReferralPaidInvoice. run. Qed.
#[local] Hint Resolve books_referral : runs.

Lemma books_settlement account sub : keeps (refundReviewSettlement account sub).
Proof. apply lift_reads, _. Qed.
#[local] Hint Resolve books_settlement : runs.
Lemma books_complete account sub : keeps (completeSettledRefundReview account sub).
Proof. unfold completeSettledRefundReview. run. Qed.
#[local] Hint Resolve books_complete : runs.
Lemma books_revoke_full payment invoice : keeps (revoke_full_refund payment invoice).
Proof. unfold revoke_full_refund. run. Qed.
#[local] Hint Resolve books_revoke_full : runs.
Lemma books_stripe_refund refund : keeps (recordStripeRefund refund).
Proof. unfold recordStripeRefund, record_settled_refund. run. Qed.
Lemma books_processed event : keeps (reconcileProcessedStripeRefund c event).
Proof. unfold reconcileProcessedStripeRefund. run. Qed.
#[local] Hint Resolve books_stripe_refund books_processed : runs.

Context (NewSHA1 : string → string).

Lemma books_paygo userID at_ : keeps (enter_paygo userID at_).
Proof. unfold enter_paygo. run. Qed.
#[local] Hint Resolve books_paygo : runs.
Lemma books_credit userID session : keeps (creditTopUpBalance NewSHA1 userID session).
Proof.
  unfold creditTopUpBalance. run. apply lift_op. intros s.
  match goal with |- context [CreditTopUp ?a ?b ?e s] => pose proof (aside_credit a b e s) as HA;
    destruct (CreditTopUp a b e s) as [[? ?] ?] end.
  by apply aside_ledger.
Qed.
#[local] Hint Resolve books_credit : runs.

Lemma books_checkout session : keeps (checkout_completed c NewSHA1 session).
Proof. unfold checkout_completed. run. Qed.
Lemma books_changed created sub : keeps (subscription_changed c created sub).
Proof. unfold subscription_changed. run. Qed.
Lemma books_deleted sub : keeps (subscription_deleted c sub).
Proof. unfold subscription_deleted. run. Qed.
Lemma books_charge_refunded event charge : keeps (charge_refunded c event charge).
Proof. unfold charge_refunded. run. Qed.
Lemma books_disputed event dispute : keeps (charge_disputed c event dispute).
Proof. unfold charge_disputed. run. Qed.
Lemma books_failed sub userID : keeps (payment_failed sub userID).
Proof. unfold payment_failed. run. Qed.
Lemma books_resolve invoice : sized invoice → books sized (resolve_payment c invoice).
Proof. intros Hi. unfold resolve_payment. run. Qed.
#[local] Hint Resolve books_failed books_resolve : runs.
Lemma books_renew invoice sub userID plan : sized invoice → keeps (renew c invoice sub userID plan).
Proof. intros Hi. unfold renew. run. Qed.
#[local] Hint Resolve books_renew : runs.
Lemma books_invoice_paid invoice sub userID : sized invoice → keeps (invoice_paid c invoice sub userID).
Proof. intros Hi. unfold invoice_paid. run. Qed.
#[local] Hint Resolve books_invoice_paid : runs.
Lemma books_invoice_event failed invoice : sized invoice → keeps (invoice_event c failed invoice).
Proof. intros Hi. unfold invoice_event. run. Qed.
#[local] Hint Resolve books_checkout books_changed books_deleted books_charge_refunded books_disputed : runs.

Lemma books_event event : keeps (handleStripeEvent c NewSHA1 event).
Proof.
  unfold handleStripeEvent. run. apply books_invoice_event. cbv beta in *.
  match goal with D : unmarshal_invoice _ = Ok _ |- _ => unfold unmarshal_invoice in D end.
  destruct (decode_invoice (sev_Object event)) as [i|] eqn:D; [|done]. apply sound_decoder in D.
  match goal with N : normalize_invoice _ = Ok _ |- _ => apply normalize_amount in N as -> end. done.
Qed.

(** *** Deliveries *)

Context (Error : error → string).
Abbreviation deliver := (stripeWebhook c NewSHA1 Error).

Lemma deliver_cases body signature sw r sw' : deliver body signature sw = (r, sw') →
  (∃ w response, r = Ok response ∧ sw' = (sw.1, w) ∧ response ≠ Received false) ∨
  ∃ b event w, body = Ok b ∧ decode_event b = Ok event ∧ TrimSpace (sev_ID event) ≠ "" ∧
    process_event c NewSHA1 Error b event (sw.1, w) = (r, sw').
Proof.
  destruct sw as [s w]. unfold stripeWebhook. intros E.
  destruct c as [client|]; [|injection E as <- <-; left; eauto].
  destruct (negb (enabled client)); [injection E as <- <-; left; eauto|].
  unfold mbind, M_bind, now, on_world in E. cbn [fst snd] in E.
  destruct (world_now w) as [clk w1]. unfold authentic_event in E.
  destruct body as [b|]; [|injection E as <- <-; left; eauto].
  destruct (negb (verifyWebhook _ _ _ _)); [injection E as <- <-; left; eauto|].
  destruct (decode_event b) as [event|] eqn:D; [|injection E as <- <-; left; eauto].
  destruct (sev_Livemode event); [|injection E as <- <-; left; eauto].
  destruct ((TrimSpace (sev_ID event) == "") || _) eqn:T; [injection E as <- <-; left; eauto|].
  destruct (negb (Bool.eqb _ _)); [injection E as <- <-; left; eauto|].
  destruct (_ != _); [injection E as <- <-; left; eauto|].
  right. apply orb_false_iff in T as [T _]. bools. eauto 10.
Qed.

Definition processed (s : memoryStore) (id : string) : Prop :=
  ∃ row, stripeWebhookEvents s !! id = Some row ∧ whe_Status row = StripeWebhookEventStatusProcessed.

#[global] Instance processed_dec s id : Decision (processed s id).
Proof.
  unfold processed. destruct (stripeWebhookEvents s !! id) as [row|].
  - destruct (decide (whe_Status row = StripeWebhookEventStatusProcessed)) as [Hs|Hs]; [left|right].
    + by exists row.
    + by intros (? & [= <-] & ?).
  - right. by intros (? & ? & ?).
Defined.

(** Beginning an event files it unless it is on file. *)
Lemma begin_cases clk event s : TrimSpace (whe_EventID event) ≠ "" →
  (processed s (whe_EventID event) ∧ BeginStripeWebhookEvent clk (Some event) s = (true, s)) ∨
  ∃ row rows, BeginStripeWebhookEvent clk (Some event) s =
      (false, s <| stripeWebhookEvents := rows |>) ∧
    ¬ processed s (whe_EventID event) ∧
    rows !! whe_EventID event = Some row ∧
    (∀ k, k ≠ whe_EventID event → rows !! k = stripeWebhookEvents s !! k).
Proof.
  intros Ht. unfold BeginStripeWebhookEvent. rewrite bool_decide_eq_false_2 by done. unfold processed.
  destruct (stripeWebhookEvents s !! whe_EventID event) as [row|] eqn:E.
  - destruct (whe_Status row == StripeWebhookEventStatusProcessed) eqn:P.
    + bools. left. split; [by exists row|done].
    + bools. right. exists row, (stripeWebhookEvents s). split_and!; [by destruct s| |done|done].
      intros (row' & [= <-] & ?). done.
  - right. eexists _, _. split_and!; [done| |apply lookup_insert_eq|].
    + by intros (? & ? & ?).
    + intros k Hk. by rewrite lookup_insert_ne.
Qed.

(** Finishing an event changes its own row only. *)
Lemma finish_rows clk id err s : TrimSpace id = id → is_Some (stripeWebhookEvents s !! id) →
  same_books s (FinishStripeWebhookEvent clk id err s) ∧
  (err = None → processed (FinishStripeWebhookEvent clk id err s) id) ∧
  ∀ k, k ≠ id → stripeWebhookEvents (FinishStripeWebhookEvent clk id err s) !! k = stripeWebhookEvents s !! k.
Proof.
  intros Ht [row E]. unfold FinishStripeWebhookEvent. rewrite Ht, E. cbv zeta. split_and!.
  - by repeat split.
  - intros ->. unfold processed. getset. rewrite lookup_insert_eq. eexists. split; [done|by getset].
  - intros k Hk. getset. by rewrite lookup_insert_ne.
Qed.
Lemma finish_books clk id err s : same_books s (FinishStripeWebhookEvent clk id err s).
Proof. unfold FinishStripeWebhookEvent. case_match; by repeat split. Qed.

Definition refund_event (type : string) : bool :=
  contains ["refund.created"; "refund.updated"; "charge.refunded"] type.

Lemma reconcile_not_refund event sw : refund_event (sev_Type event) = false →
  reconcileProcessedStripeRefund (W := W) c event sw = (Ok tt, sw).
Proof.
  unfold refund_event, contains. cbn. rewrite !orb_false_iff. intros (N1 & N2 & N3 & _). bools.
  unfold reconcileProcessedStripeRefund. destruct (negb (client_enabled c)); [done|].
  unfold refunded_intent. by rewrite !bool_decide_eq_false_2 by (intros E; by rewrite E in *).
Qed.

(** What one delivery of an event does to the record and the books. *)
Lemma process_spec b event s w r sw' : TrimSpace (sev_ID event) ≠ "" →
  process_event c NewSHA1 Error b event (s, w) = (r, sw') →
  rtc fin_step s sw'.1 ∧
  (processed s (sev_ID event) → r ≠ Ok (Received false) ∧
     stripeWebhookEvents sw'.1 = stripeWebhookEvents s ∧
     (refund_event (sev_Type event) = false → sw'.1 = s)) ∧
  (TrimSpace (sev_ID event) = sev_ID event → ¬ processed s (sev_ID event) →
     (r = Ok (Received false) → processed sw'.1 (sev_ID event)) ∧
     ∀ k, k ≠ sev_ID event → stripeWebhookEvents sw'.1 !! k = stripeWebhookEvents s !! k).
Proof.
  intros Ht. unfold process_event, clocked, now, on_world, on_store, attempt, modify, mbind, M_bind, mret, M_ret.
  cbn [fst snd]. destruct (world_now w) as [clk w1]. cbn [fst snd].
  set (row0 := mkStripeWebhookEvent _ _ _ _ _ _ _).
  destruct (begin_cases clk row0 s) as [[Hp ->]|(row & rows & -> & Hn & Hrow & Hother)]; [done|..];
    cbn [fst snd whe_EventID row0] in *.
  - destruct (reconcileProcessedStripeRefund c event (s, w1)) as [r1 sw1] eqn:E. intros [= <- <-].
    pose proof (books_processed event _ _ _ E) as [[Hl He] _]. split_and!; [done| |done].
    intros _. split_and!; [by destruct r1|done|]. intros Hr. rewrite reconcile_not_refund in E by done.
    by injection E as <- <-.
  - destruct (handleStripeEvent c NewSHA1 event _) as [r1 [s2 w2]] eqn:E.
    pose proof (books_event event _ _ _ E) as [[Hl He] _]. cbn [fst snd] in *.
    destruct (world_now w2) as [clk2 w3]. cbn [fst snd]. intros [= <- <-]. cbn [fst snd].
    set (err := match r1 with Ok _ => None | Err e => Some (Error e) end).
    split_and!; [|done|].
    + apply (rtc_l _ _ (s <| stripeWebhookEvents := rows |>)); [by apply StepOther|].
      eapply rtc_r; [done|]. apply StepOther, finish_books.
    + intros Hid _. destruct (finish_rows clk2 (sev_ID event) err s2) as (_ & Hp & Hk);
        [done|by rewrite He; getset|]. rewrite He in Hk. getset. split.
      * destruct r1; [|done]. intros _. by apply Hp.
      * intros k Hne. rewrite Hk by done. by apply Hother.
Qed.

(** Any sequence of requests to the endpoint. *)
Definition deliveries (ds : list (result error string * string)) (sw : memoryStore * W) : memoryStore * W :=
  foldl (λ sw d, (deliver d.1 d.2 sw).2) sw ds.

Lemma deliver_ledger body signature sw : rtc fin_step sw.1 (deliver body signature sw).2.1.
Proof.
  destruct sw as [s w]. destruct (deliver body signature (s, w)) as [r sw'] eqn:E.
  destruct (deliver_cases _ _ _ _ _ E) as [(w' & resp & _ & -> & _)|(b & event & w' & _ & _ & Ht & P)]; [done|].
  by apply process_spec in P as [? _].
Qed.

Lemma rtc_fin_ok s s' : rtc fin_step s s' → fin_ok s → fin_ok s'.
Proof. induction 1; [done|]. intros. eauto using fin_step_ok. Qed.

(** C2: whatever the requests to Stripe's webhook are, in whatever order, how
    often repeated and however Stripe answers the handlers, the endpoint moves
    the books only by the operations of the ledger.  From sound books no
    payment is ever refunded beyond its amount, and no invoice is paid twice. *)
Theorem webhooks_run_on_ledger ds sw :
  let s' := (deliveries ds sw).1 in
  rtc fin_step sw.1 s' ∧
  (fin_ok sw.1 → fin_ok s' ∧
   ∀ pid p, financePayments s' !! pid = Some p →
     0 ≤ refunded s' pid ≤ pay_AmountMinor p ∧
     ∀ qid q, financePayments s' !! qid = Some q → pay_InvoiceID q = pay_InvoiceID p → qid = pid).
Proof.
  cbv zeta. assert (rtc fin_step sw.1 (deliveries ds sw).1) as HR.
  { revert sw. induction ds as [|d ds IH]; intros sw; [done|]. unfold deliveries in *. cbn [foldl].
    etransitivity; [apply deliver_ledger|apply IH]. }
  split; [done|]. intros Hok. pose proof (rtc_fin_ok _ _ HR Hok) as Hs. split; [done|].
  intros pid p Hp. split.
  - split; [by apply refunded_nonneg|]. pose proof (fi_budget _ Hs _ _ Hp).
    assert (0 ≤ held (deliveries ds sw).1 pid) by (apply msum_nonneg; intros; apply heldBy_nonneg). lia.
  - intros qid q Hq E. by eapply (fi_once _ Hs).
Qed.

(** The identifiers Stripe sends carry no white space. *)
Definition plain_ids : Prop := ∀ b event, decode_event b = Ok event → TrimSpace (sev_ID event) = sev_ID event.

Lemma deliver_processed body signature sw id : plain_ids →
  processed sw.1 id → processed (deliver body signature sw).2.1 id.
Proof.
  intros Hid Hp. destruct sw as [s w]. destruct (deliver body signature (s, w)) as [r sw'] eqn:E.
  destruct (deliver_cases _ _ _ _ _ E) as [(w' & resp & _ & -> & _)|(b & event & w' & _ & D & Ht & P)]; [done|].
  apply process_spec in P as (_ & P1 & P2); [|done]. cbn [fst snd] in *.
  destruct (decide (sev_ID event = id)) as [<-|Hne].
  - destruct (P1 Hp) as (_ & Ee & _). unfold processed. by rewrite Ee.
  - destruct Hp as (row & Hrow & Hst). exists row. split; [|done].
    destruct (decide (processed s (sev_ID event))) as [Hq|Hq].
    + destruct (P1 Hq) as (_ & -> & _). done.
    + destruct (P2 (Hid _ _ D) Hq) as [_ Hk]. by rewrite Hk.
Qed.

(** C3: an event is handled once.  After a delivery of it was acknowledged, and
    after any further requests, another delivery of the event, with whatever
    signature and body, is not processed again: it leaves the whole store as it
    is, unless it reports a refund, whose effect on the access is repaired. *)
Theorem event_processed_once ds b1 g1 e1 b2 g2 e2 sw sw1 :
  plain_ids → decode_event b1 = Ok e1 → decode_event b2 = Ok e2 → sev_ID e2 = sev_ID e1 →
  deliver (Ok b1) g1 sw = (Ok (Received false), sw1) →
  let sw2 := deliveries ds sw1 in
  let out := deliver (Ok b2) g2 sw2 in
  out.1 ≠ Ok (Received false) ∧ (refund_event (sev_Type e2) = false → out.2.1 = sw2.1).
Proof.
  intros Hid D1 D2 Eid E. cbv zeta. assert (processed sw1.1 (sev_ID e1)) as Hp.
  { destruct (deliver_cases _ _ _ _ _ E) as [(w' & resp & [= <-] & _ & ?)|(b & event & w' & [= <-] & D & Ht & P)];
      [done|]. rewrite D1 in D. injection D as <-. apply process_spec in P as (_ & P1 & P2); [|done].
    destruct (decide (processed sw.1 (sev_ID e1))) as [Hq|Hq]; [by destruct (P1 Hq)|].
    destruct (P2 (Hid _ _ D1) Hq) as [Hf _]. by apply Hf. }
  clear E. assert (processed (deliveries ds sw1).1 (sev_ID e2)) as Hp2.
  { rewrite Eid. clear Eid D2. revert sw1 Hp. induction ds as [|d ds IH]; intros sw1 Hp; [done|].
    unfold deliveries in *. cbn [foldl]. by apply IH, deliver_processed. }
  generalize dependent (deliveries ds sw1). intros [s w] Hp2.
  destruct (deliver (Ok b2) g2 (s, w)) as [r sw'] eqn:E.
  destruct (deliver_cases _ _ _ _ _ E) as [(w' & resp & -> & -> & Hr)|(b & event & w' & [= <-] & D & Ht & P)].
  - split; [|done]. by intros [= ->].
  - rewrite D2 in D. injection D as <-. apply process_spec in P as (_ & P1 & _); [|done].
    by destruct (P1 Hp2) as (? & _ & ?).
Qed.
End ledger.
