(* ===== verification/StripeEffects.v ===== *)
(** * Stripe's events: what they grant and take away

    Nothing is granted before Stripe reports a paid invoice of the
    subscription, a top-up is credited once, and a refund takes access away
    only when it completes the payment. *)

From S2P Require Import Prelude GoLib Json Calendar StoreData Users Lifecycle Finance FinanceInv Referral Quota.
From S2P Require Import Entitlements EntitlementProps Hmac StripeClient Stripe StripeEvents StripeProps.
Open Scope Z_scope.
Open Scope bool_scope.
Open Scope go_scope.

(** ** Nothing before payment *)

(** No payment of the ledger is for the invoice. *)
Definition unpaid_here (s : memoryStore) (invoiceID : string) : Prop :=
  ∀ pid p i, financePayments s !! pid = Some p → financeInvoices s !! TrimSpace (pay_InvoiceID p) = Some i →
    inv_ProviderInvoiceID i ≠ invoiceID.

Lemma listed_payment `{MapOrder} s account limit p : p ∈ ListFinancePayments s account limit →
  ∃ pid, financePayments s !! pid = Some p.
Proof.
  unfold ListFinancePayments. intros Hp. apply (elem_of_prefix _ _ _) with (2 := limit_to_prefix _ _) in Hp.
  rewrite sort_slice_perm, list_elem_of_filter in Hp. destruct Hp as [_ Hp].
  apply list_elem_of_fmap in Hp as ([k q] & -> & Hq). exists k. by apply elem_of_range.
Qed.

Lemma bind_inv {S A B} (m : M S A) (f : A → M S B) s r0 s1 r s' :
  m s = (r0, s1) → (m ≫= f) s = (r, s') →
  match r0 with Ok a => f a s1 = (r, s') | Err e => r = Err e ∧ s' = s1 end.
Proof. rewrite bind_unfold. intros ->. destruct r0; [done|]. by intros [= <- <-]. Qed.

Lemma bind_read {W A B} (f : memoryStore → result error A) (k : A → Handler (W := W) B) s w r sw' :
  (on_store (reads f) ≫= k) (s, w) = (r, sw') →
  match f s with Ok a => k a (s, w) = (r, sw') | Err e => r = Err e ∧ sw' = (s, w) end.
Proof. by apply bind_inv. Qed.

Lemma bind_from {W A B} (f : memoryStore → A) (k : A → Handler (W := W) B) s w x :
  (from_store f ≫= k) (s, w) = x → k (f s) (s, w) = x.
Proof. done. Qed.

Section unpaid.
Context {W : Type} `{StripeWorld W} `{StripeDecoder} `{MapOrder}.
Context (c : option stripeClient).

Abbreviation same_store := (lifted (W := W) eq).

(** Stripe does not report a paid invoice of the subscription. *)
Definition unsettled (source : stripeSubscription) : Prop :=
  hasPendingUpdate source = true ∨
  ∀ w i i', (api_invoice (customerIDFromAny (ssub_LatestInvoice source)) w).1 = Ok i →
    normalize_invoice i = Ok i' → sinv_Status i' ≠ "paid" ∨ invoiceSubscriptionID i' ≠ ssub_ID source.

Lemma refunded_none s userID invoiceID refunds payments :
  (∀ p, p ∈ payments → ∀ i, financeInvoices s !! TrimSpace (pay_InvoiceID p) = Some i →
     inv_ProviderInvoiceID i ≠ invoiceID) →
  refunded_payments s userID invoiceID refunds payments 0 = Ok (Some 0) ∨
  ∃ e, refunded_payments s userID invoiceID refunds payments 0 = Err e.
Proof.
  induction payments as [|p payments IH]; intros Hp; [by left|]. cbn [refunded_payments].
  assert (refunded_payments s userID invoiceID refunds payments 0 = Ok (Some 0) ∨
          ∃ e, refunded_payments s userID invoiceID refunds payments 0 = Err e) as IH'.
  { apply IH. intros q Hq. apply Hp. by right. }
  destruct (_ != "stripe"); [done|]. unfold GetFinanceInvoice.
  destruct (financeInvoices s !! TrimSpace (pay_InvoiceID p)) as [i|] eqn:E; [|by right; eexists].
  specialize (Hp p ltac:(by left) i E).
  replace ((inv_AccountUUID i != userID) || (inv_ProviderInvoiceID i != invoiceID)) with true; [done|].
  symmetry. rewrite orb_true_iff. right. by rewrite bool_decide_eq_false_2.
Qed.

Lemma latest_unpaid source s w : unpaid_here s (customerIDFromAny (ssub_LatestInvoice source)) →
  ∃ r, reconcileRefundedLatestInvoice source (s, w) = (r, (s, w)) ∧ r ≠ Ok true.
Proof.
  intros Hu. unfold reconcileRefundedLatestInvoice. cbv zeta. destruct (_ || _); [by eexists|].
  set (invoiceID := customerIDFromAny _) in *. set (userID := get_str _ _).
  unfold mbind, M_bind, on_store, reads. cbn [fst snd].
  destruct (refunded_none s userID invoiceID (ListFinanceRefunds s userID 0) (ListFinancePayments s userID 0))
    as [->|[e ->]]; [|by eexists..].
  intros p [pid Hp]%listed_payment i. by apply (Hu pid).
Qed.

Context (Hc : client_enabled c = true).

Lemma customerID_trimmed v : TrimSpace (customerIDFromAny v) = customerIDFromAny v.
Proof. unfold customerIDFromAny. repeat case_match; by rewrite ?TrimSpace_idem. Qed.

Lemma same_settled source : unsettled source → hasPendingUpdate source = false →
  runs same_store (λ o, o = None) (settled_invoice c source).
Proof.
  intros [Hu|Hu] Hp; [congruence|]. unfold settled_invoice, fetchInvoice. rewrite customerID_trimmed.
  eapply (runs_bind _ (λ i', sinv_Status i' ≠ "paid" ∨ invoiceSubscriptionID i' ≠ ssub_ID source)).
  { eapply runs_bind; [apply _|apply lift_ask, _|]. intros i [w Hi]. eapply runs_weaken; [apply lift_from_result, _|].
    intros i' Hn. by eapply Hu. }
  intros i' Hi. replace ((sinv_Status i' != "paid") || (invoiceSubscriptionID i' != ssub_ID source)) with true;
    [by apply runs_ret; [apply _|]|].
  symmetry. rewrite orb_true_iff. destruct Hi; [left|right]; by rewrite bool_decide_eq_false_2.
Qed.

(** When nothing is refunded and what follows keeps the store, all does. *)
Lemma after_latest {A} source (f : bool → Handler A) s w r sw' :
  unpaid_here s (customerIDFromAny (ssub_LatestInvoice source)) →
  runs same_store (λ _, True) (f false) →
  (reconcileRefundedLatestInvoice source ≫= f) (s, w) = (r, sw') → sw'.1 = s.
Proof.
  intros Hun Hf E. destruct (latest_unpaid source s w Hun) as (r0 & E0 & Hr).
  apply (bind_inv _ _ _ _ _ _ _ E0) in E. destruct r0 as [[|]|]; [done| |by destruct E as [_ ->]].
  apply Hf in E as [E _]. unfold lifted in E. cbn in E. congruence.
Qed.

(** Neither the read model nor the entitlements of the subscription. *)
Lemma upsert_unsettled source customerID s w r sw' :
  ssub_Status source = "active" → unsettled source →
  unpaid_here s (customerIDFromAny (ssub_LatestInvoice source)) →
  upsertStripeSubscription c source customerID (s, w) = (r, sw') → sw'.1 = s.
Proof.
  intros Hst Hu Hun. apply after_latest; [done|]. cbv beta zeta.
  destruct (TrimSpace _ == ""); [by apply runs_ret; [apply _|]|].
  eapply (runs_bind _ (λ b, b = false)); [|by intros ? ->; apply runs_ret; [apply _|]].
  unfold projectable. rewrite Hst, Hc. cbn [negb andb bool_decide].
  change (negb (bool_decide ("active" = "active") && true)) with false. cbv iota.
  destruct (hasPendingUpdate source) eqn:Hp; [by apply runs_ret; [apply _|]|].
  destruct (_ == ""); [by apply runs_ret; [apply _|]|].
  eapply runs_bind; [apply _|by apply same_settled|]. intros ? ->. by apply runs_ret; [apply _|].
Qed.

Lemma sync_unsettled source created s w r sw' :
  unsettled source → unpaid_here s (customerIDFromAny (ssub_LatestInvoice source)) →
  syncSubscriptionEntitlements c source created (s, w) = (r, sw') → sw'.1 = s.
Proof.
  intros Hu Hun. apply after_latest; [done|]. cbv beta zeta.
  destruct (TrimSpace _ == ""); [by apply runs_ret; [apply _|]|].
  destruct (_ && _); [by apply runs_ret; [apply _|]|].
  eapply (runs_bind _ (λ o, o = None)); [|by intros ? ->; apply runs_ret; [apply _|]].
  unfold paid_for. rewrite Hc. cbn [negb].
  destruct (hasPendingUpdate source) eqn:Hp; [by apply runs_ret; [apply _|]|].
  destruct (_ == ""); [apply runs_fails, _|].
  eapply runs_bind; [apply _|by apply same_settled|]. intros ? ->. by apply runs_ret; [apply _|].
Qed.

Lemma same_fetch id : runs same_store
  (λ sub, ∃ w current, (api_subscription (TrimSpace id) w).1 = Ok current ∧ sub = normalize_subscription current)
  (fetchSubscription c id).
Proof.
  unfold fetchSubscription. eapply runs_bind; [apply _|apply lift_ask, _|]. intros current [w Hw].
  apply runs_ret; [apply _|]. eauto.
Qed.

Lemma changed_unsettled created subscription s w :
  (∀ w' current, (api_subscription (TrimSpace (ssub_ID subscription)) w').1 = Ok current →
     let current := normalize_subscription current in
     ssub_Status current = "active" ∧ unsettled current ∧
     unpaid_here s (customerIDFromAny (ssub_LatestInvoice current))) →
  (subscription_changed c created subscription (s, w)).2.1 = s.
Proof.
  intros Hsub. destruct (subscription_changed c created subscription (s, w)) as [r sw'] eqn:E. cbn [snd].
  unfold subscription_changed in E.
  destruct (fetchSubscription c (ssub_ID subscription) (s, w)) as [r0 [s0 w0]] eqn:F.
  apply (bind_inv _ _ _ _ _ _ _ F) in E. apply same_fetch in F as [Hs0 HF]. unfold lifted in Hs0. cbn in Hs0.
  subst s0. destruct r0 as [current|]; [|by destruct E as [_ ->]].
  destruct (HF _ eq_refl) as (w1 & cur & Hw & ->). destruct (Hsub _ _ Hw) as (Hst & Hu & Hun).
  destruct (_ != ssub_ID subscription); [by injection E as _ <-|].
  destruct (upsertStripeSubscription c (normalize_subscription cur)
    (customerIDFromAny (ssub_Customer (normalize_subscription cur))) (s, w0)) as [r1 [s1 w2]] eqn:U.
  apply (bind_inv _ _ _ _ _ _ _ U) in E. apply upsert_unsettled in U; [|done..]. cbn in U. subst s1.
  destruct r1; [|by destruct E as [_ ->]]. by apply sync_unsettled in E.
Qed.

(** C6: a change of a subscription that is not paid grants nothing.  With a
    Stripe client configured, and no payment in the local books for the
    subscription's latest invoice, let Stripe return the subscription as active
    while its latest invoice is unpaid, belongs to another subscription, or an
    update is pending.  Then the handling of a customer.subscription.created
    or customer.subscription.updated event leaves the whole store as it is,
    whatever plan the event or the subscription names. *)
Theorem no_grant_before_payment NewSHA1 event subscription s w :
  sev_Type event = "customer.subscription.created" ∨ sev_Type event = "customer.subscription.updated" →
  unmarshal_subscription (sev_Object event) = Ok subscription →
  (∀ w' current, (api_subscription (TrimSpace (ssub_ID subscription)) w').1 = Ok current →
     let current := normalize_subscription current in
     ssub_Status current = "active" ∧ unsettled current ∧
     unpaid_here s (customerIDFromAny (ssub_LatestInvoice current))) →
  (handleStripeEvent c NewSHA1 event (s, w)).2.1 = s.
Proof.
  intros Hty Hd Hsub. unfold handleStripeEvent. cbv zeta.
  assert (contains ["customer.subscription.created"; "customer.subscription.updated"] (sev_Type event) = true) as Hin
    by (apply contains_spec; destruct Hty as [-> | ->]; set_solver).
  rewrite Hin, bool_decide_eq_false_2 by (destruct Hty as [-> | ->]; done).
  rewrite Hd. by apply (changed_unsettled _ subscription s w).
Qed.
End unpaid.

(** ** Top-ups *)

Definition balances (s : memoryStore) : gmap string float64 := quota_CurrentBalance <$> accountQuotaStates s.

(** The ledger of the wallets and the balances stay. *)
Definition same_money (s s' : memoryStore) : Prop :=
  rows_ok s → rows_ok s' ∧ billingLedgerEntries s' = billingLedgerEntries s ∧ balances s' = balances s.
#[export] Instance same_money_preorder : PreOrder same_money.
Proof.
  split; [done|]. intros s1 s2 s3 H12 H23 H1. destruct (H12 H1) as (H2 & L1 & B1).
  destruct (H23 H2) as (H3 & L2 & B2). split_and!; congruence.
Qed.

(** A row replaced by one of the same account and balance. *)
Lemma same_money_row s id q q' :
  accountQuotaStates s !! id = Some q → TrimSpace (quota_AccountUUID q') = TrimSpace (quota_AccountUUID q) →
  quota_CurrentBalance q' = quota_CurrentBalance q →
  same_money s (s <| accountQuotaStates := <[id := q']> (accountQuotaStates s) |>).
Proof.
  intros Eq Ea Eb [Hp Hq]. split_and!; [split; [done|]|done|].
  - getset. intros k x. rewrite lookup_insert. case_decide as Hk; [|by apply Hq].
    intros [= <-]. subst k. rewrite Ea. by apply Hq.
  - unfold balances. getset. rewrite fmap_insert, Eb, insert_id; [done|]. by rewrite lookup_fmap, Eq.
Qed.

Lemma expire_money id clk s : same_money s (expireMonthlyUsageResetLocked id clk s).
Proof.
  destruct (expire_cases id clk s) as [->|(q & a & b & r & Eq & _ & _ & _ & ->)]; [done|].
  by apply (same_money_row s id q).
Qed.

Lemma publish_money clk e s : same_money s (publishBillingEvent clk e s).
Proof.
  intros Hr. unfold publishBillingEvent, PublishBillingEvent. destruct (payload clk e) as [[|] ?]; by cbn.
Qed.

Lemma profile_money clk p s : same_money s (UpsertAccountBillingProfile clk p s).2.
Proof. intros Hr. unfold UpsertAccountBillingProfile. by case_match. Qed.

Section topup.
Context {W : Type} `{StripeWorld W} `{StripeDecoder} `{MapOrder}.
Context (NewSHA1 : string → string).

Abbreviation on_money := (lifted (W := W) same_money).

Lemma money_clocked {A} (op : time → M memoryStore A) :
  (∀ clk s, same_money s (op clk s).2) → runs on_money (λ _, True) (clocked op).
Proof. intros Hop. apply lift_clocked; [apply _|]. intros clk. apply runs_op. intros. apply Hop. Qed.

Lemma money_publish e : runs on_money (λ _, True) (publish (W := W) e).
Proof. apply (money_clocked (λ clk, modify (publishBillingEvent clk e))). intros. apply publish_money. Qed.

Lemma money_apply userID plan :
  runs on_money (λ _, True) (clocked (W := W) (λ clk, applyPlanEntitlements clk userID plan)).
Proof.
  apply money_clocked. intros clk s. unfold applyPlanEntitlements. destruct (_ == ""); [done|].
  apply profile_money.
Qed.

(** The included quota ends, the balance does not change. *)
Lemma end_quota userID at_ :
  runs on_money (λ _, True) (
    state ← attempt (clocked (W := W) (λ clk, GetAccountQuotaState clk userID));
    match state with
    | Ok q => if quota_RemainingIncludedQuota q =? 0 then mret tt else
              clocked (λ clk, UpsertAccountQuotaState clk (Some (q <| quota_RemainingIncludedQuota := 0 |>
                                                                   <| quota_EffectiveAt := at_ |>)))
    | Err e => if e == ErrUserNotFound then mret tt else fails e
    end).
Proof.
  intros [s w] r sw'. unfold attempt, clocked, now, on_world, on_store, mbind, M_bind. cbn [fst snd].
  destruct (world_now w) as [clk w1]. cbn [fst snd]. unfold GetAccountQuotaState.
  destruct (accountQuotaStates s !! TrimSpace userID) as [q0|] eqn:E0; cbn [fst snd].
  2:{ intros [= <- <-]. by split. }
  pose proof (expire_money userID clk s) as HM. remember (expireMonthlyUsageResetLocked userID clk s) as s1 eqn:Es1.
  assert (is_Some (accountQuotaStates s1 !! TrimSpace userID)) as [q E1].
  { destruct (expire_rows userID clk s) as (m & Em & Hne & Hid). rewrite Es1, Em. getset.
    destruct (decide (TrimSpace userID = userID)) as [Ht|Ht]; [|by rewrite Hne, E0].
    rewrite Ht in *. destruct Hid as [->|(? & ? & _ & ->)]; [by rewrite E0|done]. }
  rewrite E1. change (default q0 (Some q)) with q.
  destruct (_ =? 0); [intros [= <- <-]; by split|]. cbn [fst snd].
  destruct (world_now w1) as [clk2 w2]. unfold UpsertAccountQuotaState. cbn [fst snd]. cbv zeta.
  intros [= <- <-]. split; [|done]. unfold lifted. cbn [fst snd]. intros Hr. destruct (HM Hr) as (Hr1 & L1 & B1).
  destruct Hr1 as [Hp Hq]. pose proof (Hq _ _ E1) as Ek. cbn. getset. rewrite Ek.
  set (q' := q <| quota_RemainingIncludedQuota := 0 |> <| quota_EffectiveAt := at_ |>).
  eassert (same_money s1 _) as HM2 by (apply (same_money_row s1 (TrimSpace userID) q (q' <| quota_UpdatedAt := clk2 |>
    <| quota_EffectiveAt := or_now clk2 (quota_EffectiveAt q') |>)); done).
  destruct (HM2 (conj Hp Hq)) as (Hr2 & L2 & B2). split_and!; [done|by rewrite <-L1|by rewrite <-B1].
Qed.

Lemma money_paygo userID at_ : runs on_money (λ _, True) (enter_paygo (W := W) userID at_).
Proof.
  unfold enter_paygo. eapply runs_bind; [apply _|apply runs_gets, _|]. intros active _.
  destruct active; [by apply runs_ret; [apply _|]|].
  eapply runs_bind; [apply _|apply runs_gets, _|]. intros payg _.
  eapply runs_seq; [apply _| |intros _; apply end_quota].
  destruct payg; [apply money_apply|by apply runs_ret; [apply _|]].
Qed.

Lemma bind_now {A} (f : time → Handler A) s w x :
  (now ≫= f) (s, w) = x → ∃ clk w', f clk (s, w') = x.
Proof.
  unfold now, on_world, mbind, M_bind. cbn [fst snd]. destruct (world_now w) as [clk w']. eauto.
Qed.

(** What the credit itself does. *)
Lemma CreditTopUp_cases clk later e s r out s' :
  led_AccountUUID e = TrimSpace (led_AccountUUID e) → ToUpper (TrimSpace (led_Currency e)) = led_Currency e →
  CreditTopUp clk later (Some e) s = (Ok r, out, s') →
  (r = true ∧ is_Some (billingLedgerEntries s !! led_ID e) ∧ s' = s) ∨
  (r = false ∧ billingLedgerEntries s !! led_ID e = None ∧
   ∃ entry, billingLedgerEntries s' = <[led_ID e := entry]> (billingLedgerEntries s) ∧
     led_AccountUUID entry = led_AccountUUID e ∧ led_AmountDelta entry = led_AmountDelta e ∧
     led_Currency entry = led_Currency e ∧
     (let old := default float_zero (balances s !! led_AccountUUID e) in
      balances s' = <[led_AccountUUID e := if led_Currency e == "CNY" then float_add old (led_AmountDelta e) else old]>
                      (balances s)) ∧
     (rows_ok s → rows_ok s')).
Proof.
  intros Ha Hc. unfold CreditTopUp. destruct (_ || _); [done|]. cbv zeta. rewrite Hc, <-Ha.
  destruct ((_ != "CNY") && _); [done|].
  destruct (bool_decide (is_Some (billingLedgerEntries s !! led_ID e))) eqn:Eon.
  { bools. intros [= <- <- <-]. by left. }
  apply bool_decide_eq_false, eq_None_not_Some in Eon.
  set (row := default (emptyQuota (led_AccountUUID e)) (accountQuotaStates s !! led_AccountUUID e)).
  assert (quota_CurrentBalance row = default float_zero (balances s !! led_AccountUUID e)) as Hold.
  { unfold row, balances. rewrite lookup_fmap. by destruct (accountQuotaStates s !! _). }
  assert (rows_ok s → TrimSpace (quota_AccountUUID row) = led_AccountUUID e) as Hrow.
  { intros [_ Hq]. unfold row. destruct (accountQuotaStates s !! _) eqn:E; [by apply Hq in E|exact (eq_sym Ha)]. }
  clearbody row. destruct (led_Currency e == "CNY") eqn:Ecny; cbv iota beta; intros E; injection E as <- <- <-; right;
    (split_and!; [done|done|]); eexists; (split_and!; [reflexivity|by getset..| |]).
  - cbv zeta. rewrite <-Hold. unfold balances. getset. rewrite fmap_insert. unfold creditBalance. cbv zeta.
    by destruct (float_le _ _).
  - intros Hr. split; getset; [apply (proj1 Hr)|]. intros k x. rewrite lookup_insert.
    destruct (decide (led_AccountUUID e = k)) as [<-|]; [|apply (proj2 Hr)].
    intros [= <-]. unfold creditBalance. cbv zeta. destruct (float_le _ _); getset; by apply Hrow.
  - cbv zeta. rewrite <-Hold. unfold balances. getset. by rewrite fmap_insert.
  - intros Hr. split; getset; [apply (proj1 Hr)|]. intros k x. rewrite lookup_insert.
    destruct (decide (led_AccountUUID e = k)) as [<-|]; [|apply (proj2 Hr)].
    intros [= <-]. by apply Hrow.
Qed.

(** A session that pays for a top-up. *)
Definition creditable (session : stripeCheckoutSession) : bool :=
  let status := TrimSpace (ToLower (sess_PaymentStatus session)) in
  EqualFold (TrimSpace (get_str (sess_Metadata session) "kind")) "paygo" &&
  ((status == "") || (status == "paid")) && (0 <? sess_AmountTotal session).

(** C7: a top-up is credited once.  When the handler of a checkout session
    succeeds and the session pays for a top-up whose payment is not on file,
    the amount and currency are those the catalog sells, one ledger entry of
    that amount is filed for the account, and a renminbi amount is added to its
    balance; no other balance changes.  Otherwise - the session is not a paid
    top-up, or its payment was credited before - no balance and no ledger
    entry changes. *)
Theorem topup_credited_once userID session s w sw' :
  rows_ok s → TrimSpace userID = userID → userID ≠ "" →
  creditTopUpBalance NewSHA1 userID session (s, w) = (Ok tt, sw') →
  let id := topUpLedgerID NewSHA1 (firstNonEmpty [sess_PaymentIntent session; sess_ID session]) in
  let amount := float_cents (sess_AmountTotal session) in
  let currency := ToUpper (TrimSpace (sess_Currency session)) in
  let old := default float_zero (balances s !! userID) in
  if creditable session && bool_decide (billingLedgerEntries s !! id = None) then
    approved_topup session s = Ok tt ∧
    (∃ entry, billingLedgerEntries sw'.1 = <[id := entry]> (billingLedgerEntries s) ∧
       led_AccountUUID entry = userID ∧ led_AmountDelta entry = amount ∧ led_Currency entry = currency) ∧
    balances sw'.1 = <[userID := if currency == "CNY" then float_add old amount else old]> (balances s)
  else billingLedgerEntries sw'.1 = billingLedgerEntries s ∧ balances sw'.1 = balances s.
Proof.
  intros Hr Ht Hne. unfold creditTopUpBalance. rewrite Ht, bool_decide_eq_false_2 by done.
  unfold creditable. cbv zeta. destruct (EqualFold _ "paygo"); [|by intros [= <-]]. cbn [negb andb].
  set (status := TrimSpace _). 
  replace ((status != "") && (status != "paid")) with (negb ((status == "") || (status == "paid")))
    by (by destruct (status == ""), (status == "paid")).
  destruct ((status == "") || _); [|by intros [= <-]]. cbn [negb andb]. rewrite Z.leb_antisym.
  destruct (0 <? sess_AmountTotal session); [|by intros [= <-]]. cbn [negb andb].
  intros E. apply (bind_inv _ _ (s, w) (approved_topup session s) (s, w) _ _ eq_refl) in E.
  destruct (approved_topup session s) as [[]|] eqn:Ha; [|by destruct E].
  destruct ((_ != "CNY") && _); [done|]. set (ref := firstNonEmpty _) in *. destruct (TrimSpace ref == ""); [done|].
  apply bind_now in E as (at_ & w1 & E). apply bind_now in E as (first & w2 & E).
  apply bind_now in E as (second & w3 & E).
  set (e := mkBillingLedgerEntry _ _ _ _ _ _ _ _ _ _ _) in E.
  destruct (CreditTopUp first second (Some e) s) as [[r out] s1] eqn:EC.
  eapply (bind_inv _ _ (s, w3) r (s1, w3)) in E; [|unfold on_store; cbn [fst]; by rewrite EC].
  destruct r as [dup|]; [|by destruct E].
  assert (on_money (s1, w3) sw') as HM.
  { eapply (runs_seq on_money (λ _, True)); [..|exact E].
    - destruct dup; [by apply runs_ret; [apply _|]|apply money_publish].
    - intros ?. apply money_paygo. }
  unfold lifted in HM. cbn [fst] in HM.
  apply CreditTopUp_cases in EC; [|symmetry; exact Ht|].
  2:{ unfold e. cbn [led_Currency]. by rewrite TrimSpace_ToUpper, ToUpper_idem, TrimSpace_idem. }
  unfold e in EC. cbn [led_ID led_AccountUUID led_AmountDelta led_Currency] in EC.
  destruct EC as [(-> & [x Hx] & ->)|(-> & Hx & entry & Hl & H4 & H5 & H6 & Hb & Hr1)]; rewrite Hx.
  - destruct (HM Hr) as (_ & ? & ?). done.
  - destruct (HM (Hr1 Hr)) as (_ & L & B). split_and!; [done| |by rewrite B].
    exists entry. split_and!; [by rewrite L|done..].
Qed.
End topup.

(** ** Refunds *)

(** Accounts, subscriptions, profiles and quotas. *)
Definition same_access (s s' : memoryStore) : Prop :=
  users s' = users s ∧ byID s' = byID s ∧ subscriptions s' = subscriptions s ∧
  accountBillingProfiles s' = accountBillingProfiles s ∧ accountQuotaStates s' = accountQuotaStates s.
#[export] Instance same_access_preorder : PreOrder same_access.
Proof.
  split; [done|]. intros s1 s2 s3 H12 H23. unfold same_access in *. destruct_and!. split_and!; congruence.
Qed.

(** What was invoiced, paid and refunded. *)
Definition same_facts (s s' : memoryStore) : Prop :=
  financeInvoices s' = financeInvoices s ∧ financePayments s' = financePayments s ∧
  financeRefunds s' = financeRefunds s.
#[export] Instance same_facts_preorder : PreOrder same_facts.
Proof.
  split; [done|]. intros s1 s2 s3 H12 H23. unfold same_facts in *. destruct_and!. split_and!; congruence.
Qed.

Lemma aside_facts s s' : aside s s' → same_facts s s'.
Proof. intros [HB _]. unfold same_books in HB. destruct_and!. done. Qed.

(** Every payment an account made through Stripe for the subscription is
    refunded in full. *)
Definition all_refunded `{MapOrder} (s : memoryStore) (accountID subscriptionID : string) : Prop :=
  ∀ id p invoice, financePayments s !! id = Some p → pay_AccountUUID p = accountID →
    pay_Provider p = "stripe" → 0 < pay_AmountMinor p →
    GetFinanceInvoice s (pay_InvoiceID p) = Ok invoice →
    inv_AccountUUID invoice = accountID → inv_SubscriptionUUID invoice = subscriptionID →
    refunded_minor (ListFinanceRefunds s accountID 0) (pay_ID p) = pay_AmountMinor p.

(** The checked sum is the sum. *)
Lemma checked_refunded_ok refunds p total :
  checked_refunded refunds p = Ok total → refunded_minor refunds (pay_ID p) = total.
Proof.
  unfold checked_refunded, refunded_minor. generalize 0 at 2 3 as n. induction refunds as [|x l IH]; intros n E.
  { by injection E. }
  cbn [foldl] in *. destruct (refund_PaymentID x == pay_ID p) eqn:Ex; cbn [negb] in E; [|by apply IH].
  destruct (_ || _ || _) in E; [|by apply IH]. exfalso. clear IH. revert E.
  induction l as [|y l IHl]; [discriminate|exact IHl].
Qed.

(** The loop over the payments accepts only when each payment of the
    subscription is refunded in full. *)
Lemma settled_payments_all s account sub refunds payments count complete partial n partial' :
  settled_payments s account sub refunds payments count complete partial = Ok (n, true, partial') →
  complete = true ∧
  ∀ p invoice, p ∈ payments → pay_Provider p = "stripe" → 0 < pay_AmountMinor p →
    GetFinanceInvoice s (pay_InvoiceID p) = Ok invoice →
    inv_AccountUUID invoice = account → inv_SubscriptionUUID invoice = sub →
    refunded_minor refunds (pay_ID p) = pay_AmountMinor p.
Proof.
  revert count complete partial. induction payments as [|q payments IH]; intros count complete partial E.
  { injection E as _ -> _. split; [done|]. by intros ?? ?%not_elem_of_nil. }
  cbn [settled_payments] in E. cbv zeta in E.
  destruct (pay_Provider q != "stripe") eqn:Ep.
  { destruct (IH _ _ _ E) as [? H]. split; [done|]. bools. intros p i [->|?]%elem_of_cons; [done|by apply H]. }
  destruct (GetFinanceInvoice s (pay_InvoiceID q)) as [inv|] eqn:Ei; [|done].
  destruct (_ || _) eqn:Eo.
  { destruct (IH _ _ _ E) as [? H]. split; [done|]. intros p i [->|?]%elem_of_cons; [|by apply H].
    rewrite Ei. intros _ _ [= <-] H1 H2. rewrite H1, H2, !bool_decide_true in Eo by done. done. }
  destruct (pay_AmountMinor q <=? 0) eqn:Ea.
  { destruct (IH _ _ _ E) as [? H]. split; [done|]. intros p i [->|?]%elem_of_cons; [lia|by apply H]. }
  destruct (checked_refunded refunds q) as [total|] eqn:Ec; [|done].
  destruct (IH _ _ _ E) as [Hc H]. apply andb_true_iff in Hc as [? ?]. split; [done|].
  apply checked_refunded_ok in Ec. intros p i [->|?]%elem_of_cons; [lia|by apply H].
Qed.

Lemma settled_all_refunded `{MapOrder} s account sub n partial :
  settled_payments s account sub (ListFinanceRefunds s account 0) (ListFinancePayments s account 0) 0 true false =
    Ok (n, true, partial) →
  all_refunded s account sub.
Proof.
  intros [_ Hall]%settled_payments_all id p invoice Hp Ha Hprov Hpos Hi H1 H2.
  apply (Hall p invoice); try done. unfold ListFinancePayments, limit_to. cbn [Z.ltb Z.compare andb].
  rewrite sort_slice_perm. apply list_elem_of_filter. split.
  - rewrite (bool_decide_true (pay_AccountUUID p = account)) by done. by rewrite andb_false_r.
  - rewrite range_perm. apply elem_of_values. eauto.
Qed.

Lemma listed_ext `{MapOrder} s s' account : same_facts s s' →
  ListFinanceRefunds s' account 0 = ListFinanceRefunds s account 0 ∧
  ListFinancePayments s' account 0 = ListFinancePayments s account 0.
Proof. intros (_ & E1 & E2). unfold ListFinanceRefunds, ListFinancePayments. by rewrite E1, E2. Qed.

Lemma all_refunded_ext `{MapOrder} s s' account sub : same_facts s s' →
  all_refunded s account sub → all_refunded s' account sub.
Proof.
  intros Hf Hall id p invoice. destruct (listed_ext s s' account Hf) as [-> _].
  destruct Hf as (E1 & E2 & _). unfold GetFinanceInvoice. rewrite E1, E2. apply Hall.
Qed.

Section refunds.
Context {W : Type} `{StripeWorld W} `{StripeDecoder} `{MapOrder}.

Lemma facts_revoke userID ext : runs (lifted (W := W) same_facts) (λ _, True) (revoke userID ext).
Proof.
  unfold revoke. eapply runs_bind; [apply _|apply lift_uuid, _|]. intros id _.
  apply lift_identified; [apply _|]. intros. eapply runs_mono; [apply aside_facts|]. apply run_revoke.
Qed.

Lemma facts_complete account sub : runs (lifted (W := W) same_facts) (λ _, True) (completeSettledRefundReview account sub).
Proof.
  assert (∀ ev id status pid response err next attempts, runs (lifted (W := W) same_facts) (λ _, True)
    (attempt (clocked (λ clk, FinishFinanceOperation ev clk id status pid response err next attempts)))) as HF.
  { intros. eapply runs_attempt, lift_clocked; [apply _|]. intros clk. apply runs_op. intros s.
    unfold FinishFinanceOperation. cbv zeta. repeat (case_match; try done). }
  unfold completeSettledRefundReview, refundReviewSettlement. run.
Qed.

(** Only a full refund reaches the access. *)
Lemma revoke_full_spec payment invoice s w r sw' :
  revoke_full_refund payment invoice (s, w) = (r, sw') →
  same_access s sw'.1 ∨
  inv_SubscriptionUUID invoice ≠ "" ∧
  refunded_minor (ListFinanceRefunds sw'.1 (pay_AccountUUID payment) 0) (pay_ID payment) = pay_AmountMinor payment ∧
  all_refunded sw'.1 (pay_AccountUUID payment) (inv_SubscriptionUUID invoice).
Proof.
  intros E. unfold revoke_full_refund in E. apply bind_from in E.
  destruct (refunded_minor _ _ =? _) eqn:Efull; [|injection E as _ <-; by left]. cbn [negb] in E. bools.
  destruct (_ == "") eqn:Esub; [injection E as _ <-; by left|].
  apply bind_read in E.
  destruct (ListSubscriptionsByUser _ _) as [subs|]; [|destruct E as [_ ->]; by left].
  destruct (List.find _ subs) as [sub|] eqn:Ef; [|injection E as _ <-; by left].
  apply List.find_some in Ef as [_ Ef]. bools. unfold refundReviewSettlement in E. apply bind_read in E.
  destruct (settled_payments _ _ _ _ _ _ _ _) as [[[n complete] partial]|] eqn:Es;
    [|destruct E as [_ ->]; by left].
  destruct (0 <? n) eqn:En; [|injection E as _ <-; by left].
  destruct complete; [|injection E as _ <-; by left]. cbn [negb andb fst] in E.
  right. assert (lifted (W := W) same_facts (s, w) sw') as HS.
  { eapply (runs_seq (lifted (W := W) same_facts) (λ _, True)); [apply facts_revoke|intros ?; apply facts_complete|exact E]. }
  unfold lifted in HS. cbn [fst] in HS. split; [by bools|]. split.
  - destruct (listed_ext s sw'.1 (pay_AccountUUID payment) HS) as [-> _]. lia.
  - apply (all_refunded_ext s); [done|]. apply (settled_all_refunded s _ _ n partial).
    by match goal with Ei : sub_ID sub = _ |- _ => rewrite <-Ei end.
Qed.

(** A run that keeps the access and the invoices, followed by one that does
    what is claimed. *)
Definition before_revocation (s s' : memoryStore) : Prop :=
  same_access s s' ∧ financeInvoices s' = financeInvoices s.
#[local] Instance before_revocation_preorder : PreOrder before_revocation.
Proof.
  split; [done|]. intros s1 s2 s3 [H1' E1] [H2' E2]. split; [by transitivity s2|congruence].
Qed.

Lemma access_then {A B} (G : gmap string FinanceInvoice → memoryStore → Prop) (Q : A → Prop)
    (m : Handler A) (f : A → Handler (W := W) B) :
  runs (lifted before_revocation) Q m →
  (∀ a s w r sw', Q a → f a (s, w) = (r, sw') → same_access s sw'.1 ∨ G (financeInvoices s) sw'.1) →
  ∀ s w r sw', (m ≫= f) (s, w) = (r, sw') → same_access s sw'.1 ∨ G (financeInvoices s) sw'.1.
Proof.
  intros Hm Hf s w r sw' E. destruct (m (s, w)) as [r0 [s1 w1]] eqn:E0.
  apply (bind_inv _ _ _ _ _ _ _ E0) in E. apply Hm in E0 as [H1' HQ]. unfold lifted in H1'. cbn [fst] in H1'.
  destruct H1' as [HA HI]. destruct r0 as [a|]; [|destruct E as [_ ->]; by left].
  destruct (Hf a s1 w1 r sw' (HQ a eq_refl) E) as [H2'|HG]; [left; by transitivity s1|right].
  by rewrite <-HI.
Qed.

Lemma access_reads {A} (f : memoryStore → result error A) :
  runs (lifted (W := W) before_revocation) (λ _, True) (on_store (reads f)).
Proof. apply lift_reads, _. Qed.

Lemma access_refund eventID x : runs (lifted (W := W) before_revocation) (λ _, True)
  (stored (λ id clk, RecordFinanceRefund id eventID clk x)).
Proof.
  unfold stored. eapply runs_bind; [apply _|apply lift_uuid, _|]. intros id _.
  eapply runs_bind; [apply _|apply lift_now, _|]. intros clk _. apply lift_runs.
  apply runs_of_op. intros s. unfold RecordFinanceRefund, bindRefundOperation. cbv zeta.
  repeat (case_match; try done).
Qed.

Lemma access_risk risk : runs (lifted (W := W) before_revocation) (λ _, True) (on_store (RecordReferralRisk risk)).
Proof.
  apply lift_op. intros s. unfold RecordReferralRisk. cbv zeta. repeat (case_match; try done).
Qed.
#[local] Hint Resolve access_reads access_refund access_risk : runs.

Lemma record_settled_access refund payment key s w r sw' :
  record_settled_refund refund payment key (s, w) = (r, sw') →
  same_access s sw'.1 ∨
  key = "" ∧ ∃ invoice, GetFinanceInvoice s (pay_InvoiceID payment) = Ok invoice ∧
    inv_SubscriptionUUID invoice ≠ "" ∧
    refunded_minor (ListFinanceRefunds sw'.1 (pay_AccountUUID payment) 0) (pay_ID payment) = pay_AmountMinor payment ∧
    all_refunded sw'.1 (pay_AccountUUID payment) (inv_SubscriptionUUID invoice).
Proof.
  unfold record_settled_refund. cbv zeta.
  set (G := λ (invoices : gmap string FinanceInvoice) (s' : memoryStore), key = "" ∧ ∃ invoice,
    match invoices !! TrimSpace (pay_InvoiceID payment) with
    | Some i => Ok i | None => Err ErrFinanceRecordNotFound end = Ok invoice ∧
    inv_SubscriptionUUID invoice ≠ "" ∧
    refunded_minor (ListFinanceRefunds s' (pay_AccountUUID payment) 0) (pay_ID payment) = pay_AmountMinor payment ∧
    all_refunded s' (pay_AccountUUID payment) (inv_SubscriptionUUID invoice)).
  intros E. enough (same_access s sw'.1 ∨ G (financeInvoices s) sw'.1) as X by exact X. revert s w r sw' E.
  eapply (access_then G (λ _, True)); [run|]. intros ? s w r sw' _. revert s w r sw'.
  eapply (access_then G); [apply lift_uuid, _|]. intros eventID s w r sw' _. revert s w r sw'.
  eapply (access_then G (λ _, True)); [run|]. intros ? s w r sw' _ E.
  apply bind_read in E. destruct (GetFinanceInvoice s _) as [invoice|] eqn:Ei; [|destruct E as [_ ->]; by left].
  set (G' := λ (_ : gmap string FinanceInvoice) (s' : memoryStore), key = "" ∧ inv_SubscriptionUUID invoice ≠ "" ∧
    refunded_minor (ListFinanceRefunds s' (pay_AccountUUID payment) 0) (pay_ID payment) = pay_AmountMinor payment ∧
    all_refunded s' (pay_AccountUUID payment) (inv_SubscriptionUUID invoice)).
  enough (same_access s sw'.1 ∨ G' (financeInvoices s) sw'.1) as [?|(? & ? & ? & ?)]; [by left|right; split; [done|by exists invoice]|].
  clear Ei. revert s w r sw' E.
  eapply (access_then G' (λ _, True)); [run|]. intros ? s w r sw' _ E.
  destruct (key == "") eqn:Ek; cbn [negb] in E; [|injection E as _ <-; by left].
  apply revoke_full_spec in E as [?|?]; [by left|right]. bools. by split.
Qed.

(** C8: a refund takes access away only when everything is refunded.  After a
    refund of Stripe was recorded, either the accounts, subscriptions, billing
    profiles and quotas are what they were, or the refund has succeeded, is not
    the refund of an operation that manages the access itself, and, in the
    store that results, the refunds of its payment add up to the payment and
    so do those of every other Stripe payment of the account for the
    subscription that the payment's own invoice names.  So partial and pending
    refunds never revoke access. *)
Theorem access_lost_by_full_refund refund s w :
  let sw' := (recordStripeRefund refund (s, w)).2 in
  same_access s sw'.1 ∨
  ∃ payment invoice,
    sref_Status refund = "succeeded" ∧
    GetFinancePaymentByProvider s "stripe" (customerIDFromAny (sref_PaymentIntent refund)) = Ok payment ∧
    get_str (sref_Metadata refund) "finance_operation_key" = "" ∧ bound_operation payment refund s = Ok "" ∧
    GetFinanceInvoice s (pay_InvoiceID payment) = Ok invoice ∧ inv_SubscriptionUUID invoice ≠ "" ∧
    refunded_minor (ListFinanceRefunds sw'.1 (pay_AccountUUID payment) 0) (pay_ID payment) = pay_AmountMinor payment ∧
    all_refunded sw'.1 (pay_AccountUUID payment) (inv_SubscriptionUUID invoice).
Proof.
  cbv zeta. destruct (recordStripeRefund refund (s, w)) as [r sw'] eqn:E. cbn [snd]. revert E.
  unfold recordStripeRefund. destruct (_ != "succeeded") eqn:Est; [intros [= <- <-]; by left|]. cbv zeta.
  destruct (_ || _); [intros [= <- <-]; by left|]. intros E. apply bind_read in E.
  destruct (GetFinancePaymentByProvider _ _ _) as [payment|] eqn:Ep; [|destruct E as [_ ->]; by left].
  destruct (get_str (sref_Metadata refund) "finance_operation_key" == "") eqn:En; bools.
  - apply bind_read in E. destruct (bound_operation payment refund s) as [key|] eqn:Eb; [|destruct E as [_ ->]; by left].
    apply record_settled_access in E as [?|(-> & invoice & ? & ? & ? & ?)]; [by left|right].
    exists payment, invoice. by split_and!.
  - apply (bind_inv _ _ _ _ _ _ _ eq_refl) in E. apply record_settled_access in E as [?|(E & _)]; [by left|done].
Qed.
End refunds.
