(* ===== verification/Examples.v ===== *)
(** * Concrete runs

    Small stores, built by the modelled operations themselves, on which the
    theorems are applied. *)

From S2P Require Import Prelude GoLib Json StoreData Users Sha256 Recovery RecoveryProps.
From S2P Require Import Finance Lifecycle FinanceInv FinanceProps LifecycleProps TaskStore TaskInv TaskProps.
Open Scope Z_scope.
Open Scope bool_scope.
Open Scope go_scope.

(** An iteration order other than the canonical one. *)
Definition reverse_order : MapOrder := {|
  range := λ V m, reverse (map_to_list m);
  range_perm := λ V m, reverse_Permutation (map_to_list m)
|}.

(** ** Accounts *)

Module AccountExamples.
Definition ann : User := RetryExample.user0.
Definition bob : User := ann <| user_ID := "v" |> <| user_Name := "Bob" |>
  <| user_Email := "bob@example.com" |>.

Definition created := CreateUser "u" (Ok "px") 1 ann (newMemoryStore false).
Definition s1 : memoryStore := created.2.
Definition s2 : memoryStore := (CreateUser "v" (Ok "py") 2 bob s1).2.

Lemma s1_ok : index_ok s1.
Proof.
  apply (CreateUser_index_ok "u" (Ok "px") 1 ann (newMemoryStore false) created.1.2 s1).
  - apply index_ok_new.
  - reflexivity.
  - vm_compute. reflexivity.
Qed.

Lemma s2_ok : index_ok s2.
Proof.
  apply (CreateUser_index_ok "v" (Ok "py") 2 bob s1 (CreateUser "v" (Ok "py") 2 bob s1).1.2 s2).
  - apply s1_ok.
  - vm_compute. reflexivity.
  - vm_compute. reflexivity.
Qed.

(** Renaming Bob with a new email, and with Ann's. *)
Definition renamed : User := bob <| user_Name := "Robert" |> <| user_Email := "rob@example.com" |>.
Definition clashing : User := bob <| user_Name := "Robert" |> <| user_Email := "ann@example.com" |>.
Definition update := UpdateUser (Ok "pz") 3 renamed s2.
Definition clash := UpdateUser (Ok "pz") 3 clashing s2.
Definition bob2 : User := default bob (user_by_id s2 "v").

Definition audit : AuditLog := {|
  audit_UUID := ""; audit_Action := AuditActionUserArchive; audit_ActorUUID := "root";
  audit_Details := <["target_uuid" := AStr "v"]> (<["reason" := AStr "left"]> ∅);
  audit_CreatedAt := 0 |}.
Definition archive := DeleteUser "a1" "t1" 5 "v" audit "req-1" s2.
End AccountExamples.

Import AccountExamples.

Lemma CreateUser_correct_witness :
  index_ok s1 ∧ GetUserByID s1 (user_ID created.1.2) = Ok created.1.2 ∧
  GetUserByName s1 (user_Name ann) = Ok created.1.2 ∧
  (user_Email created.1.2 ≠ "" → GetUserByEmail s1 (user_Email created.1.2) = Ok created.1.2) ∧
  user_Active created.1.2 = true.
Proof.
  apply (CreateUser_correct "u" (Ok "px") 1 ann (newMemoryStore false)).
  - apply index_ok_new.
  - reflexivity.
  - vm_compute. reflexivity.
Defined.

Lemma UpdateUser_correct_witness :
  index_ok update.2 ∧ GetUserByID update.2 (user_ID renamed) = Ok update.1.2 ∧
  GetUserByName update.2 (user_Name renamed) = Ok update.1.2 ∧
  (user_Email update.1.2 ≠ "" → GetUserByEmail update.2 (user_Email update.1.2) = Ok update.1.2).
Proof.
  apply (UpdateUser_correct (Ok "pz") 3 renamed s2).
  - apply s2_ok.
  - vm_compute. reflexivity.
Defined.

Lemma UpdateUser_email_conflict_drops_name_witness :
  user_by_id clash.2 (user_ID clashing) = Some bob2 ∧
  byName clash.2 !! ToLower (user_Name bob2) = None ∧ ¬ index_ok clash.2.
Proof.
  apply (UpdateUser_email_conflict_drops_name (Ok "pz") 3 clashing s2 clash.1.2).
  - vm_compute. reflexivity.
  - vm_compute. reflexivity.
  - discriminate.
  - vm_compute. discriminate.
Defined.

Lemma ListUsersPage_complete_witness :
  let ids := user_ID <$> list_pages (S (size (byID s2))) s2 "" 1 in
  NoDup ids ∧ StronglySorted String.le ids ∧
  (∀ id, id ≠ "" → (id ∈ ids ↔ is_Some (byID s2 !! id))).
Proof.
  apply (ListUsersPage_complete s2 1).
  - apply s2_ok.
  - vm_compute. split; congruence.
Defined.

Lemma DeleteUser_archives_witness :
  ∃ u, user_by_id s2 "v" = Some u ∧ user_ArchivedAt u = None ∧ ¬ protected_user s2 u ∧
    user_by_id archive.2 "v" = Some (archived 5 u) ∧
    (∀ id', id' ≠ "v" → user_by_id archive.2 id' = user_by_id s2 id') ∧
    auditLogs archive.2 = auditLogs s2 ++ [archive.1.2] ∧
    audit_CreatedAt archive.1.2 = 5 ∧ index_ok archive.2.
Proof.
  apply (DeleteUser_archives "a1" "t1" 5 "v" audit "req-1" s2).
  - apply s2_ok.
  - vm_compute. reflexivity.
  - vm_compute. reflexivity.
Defined.

Lemma DeleteUser_replay_witness :
  DeleteUser "a2" "t2" 9 "v" audit "req-1" archive.2 = (Ok tt, archive.1.2, archive.2).
Proof.
  apply (DeleteUser_replay "a1" "t1" 5 "v" audit "req-1" s2).
  - vm_compute. discriminate.
  - reflexivity.
  - vm_compute. reflexivity.
  - vm_compute. reflexivity.
  - vm_compute. reflexivity.
Defined.

(** ** Money *)

Module MoneyExamples.
Import RetryExample.
Definition paid : FinancePayment := default payment (financePayments s5 !! "pay").
Definition started : FinanceOperation := default (operation []) (financeOperations s3 !! "op").
Definition recorded := RecordFinanceRefund "i4" "e3" 50 refund s4.
Definition paid4 : FinancePayment := default payment (financePayments s4 !! "pay").
End MoneyExamples.

Lemma refunds_within_payment_witness :
  refunded RetryExample.s5 "pay" + held RetryExample.s5 "pay" ≤ pay_AmountMinor MoneyExamples.paid ∧
  ∀ key, refundTotal RetryExample.s5 "pay" key =
         refunded RetryExample.s5 "pay" + held_by_others RetryExample.s5 "pay" key.
Proof.
  apply (refunds_within_payment RetryExample.s5 "pay" MoneyExamples.paid).
  - apply RetryExample.s5_reachable.
  - vm_compute. reflexivity.
Defined.

Lemma invoice_paid_once_witness :
  "pay" = "pay" ∧ ∃ inv, financeInvoices RetryExample.s5 !! pay_InvoiceID MoneyExamples.paid = Some inv ∧
    inv_AccountUUID inv = pay_AccountUUID MoneyExamples.paid ∧
    inv_Currency inv = pay_Currency MoneyExamples.paid ∧
    inv_AmountMinor inv = pay_AmountMinor MoneyExamples.paid.
Proof.
  apply (invoice_paid_once RetryExample.s5 "pay" "pay" MoneyExamples.paid MoneyExamples.paid).
  - apply RetryExample.s5_reachable.
  - vm_compute. reflexivity.
  - vm_compute. reflexivity.
  - reflexivity.
Defined.

Lemma finance_no_nil_deref_witness :
  (∀ newID ev now r, (RecordFinanceRefund newID ev now r RetryExample.s5).1.1 ≠ Err nil_deref) ∧
  GetFinanceOperation RetryExample.s5 "ko" ≠ Err nil_deref.
Proof.
  destruct (finance_no_nil_deref RetryExample.s5) as (_ & _ & H & _ & G).
  - apply fin_reachable_ok, RetryExample.s5_reachable.
  - split; [exact H|apply G].
Defined.

Lemma RecordFinanceRefund_replay_witness :
  RecordFinanceRefund "i9" "e9" 99 RetryExample.refund MoneyExamples.recorded.2 =
    (Ok false, RetryExample.refund <| refund_ID := refund_ID MoneyExamples.recorded.1.2 |>
                                    <| refund_CreatedAt := 50 |>, MoneyExamples.recorded.2).
Proof.
  apply (RecordFinanceRefund_replay "i4" "e3" 50 "i9" "e9" 99 RetryExample.refund RetryExample.s4).
  vm_compute. reflexivity.
Defined.

Lemma RecordFinanceRefund_accepts_witness :
  let room := pay_AmountMinor MoneyExamples.paid4 - refunded RetryExample.s4 "pay" - held RetryExample.s4 "pay" in
  let '(r, out, s') := RecordFinanceRefund "i4" "e3" 50 RetryExample.refund RetryExample.s4 in
  if refund_AmountMinor RetryExample.refund <=? room
  then r = Ok true ∧ refunded s' "pay" = refunded RetryExample.s4 "pay" + refund_AmountMinor RetryExample.refund
  else r = Err ErrFinanceRefundExceedsPayment ∧ s' = RetryExample.s4.
Proof.
  apply (RecordFinanceRefund_accepts "i4" "e3" 50 RetryExample.refund RetryExample.s4 MoneyExamples.paid4).
  - apply (fin_step_ok RetryExample.s3); [|apply RetryExample.s4_step].
    apply fin_reachable_ok, RetryExample.s3_reachable.
  - vm_compute. discriminate.
  - reflexivity.
  - reflexivity.
  - vm_compute. reflexivity.
  - vm_compute. reflexivity.
  - vm_compute. reflexivity.
  - vm_compute. reflexivity.
  - vm_compute. reflexivity.
  - reflexivity.
Defined.

Lemma operation_lifecycle_witness :
  ∃ o', financeOperations RetryExample.s4 !! "op" = Some o' ∧ op_evolves MoneyExamples.started o' ∧
    (op_Status MoneyExamples.started = FinanceOperationSucceeded →
     op_Status o' = FinanceOperationSucceeded ∧
     op_AttemptCount o' = op_AttemptCount MoneyExamples.started).
Proof.
  apply (operation_lifecycle RetryExample.s3 RetryExample.s4 "op" MoneyExamples.started).
  - apply fin_reachable_ok, RetryExample.s3_reachable.
  - apply RetryExample.s4_step.
  - vm_compute. reflexivity.
Defined.

Lemma stale_attempt_refused_witness :
  CheckpointFinanceOperation "e" 41 (TrimSpace " op") 7 RawEmpty RetryExample.s3 =
    (Err ErrFinanceOperationNotRetryable, RetryExample.s3) ∧
  FinishFinanceOperation "e" 41 " op" FinanceOperationSucceeded "re" RawEmpty None None [7] RetryExample.s3 =
    (Err ErrFinanceOperationNotRetryable, RetryExample.s3).
Proof.
  apply (stale_attempt_refused RetryExample.s3 " op" MoneyExamples.started 7).
  - vm_compute. reflexivity.
  - vm_compute. discriminate.
Defined.

(** ** Task sessions *)

Module TaskExamples.
#[local] Existing Instance canonical_order.
Definition message : AppendMessageInput :=
  mkAppendMessageInput "acct" "ses" "acct" "r1" "hello" ∅ "run-1" 0 0 10.
Definition claim : ClaimInput := mkClaimInput "acct" "worker" 20 5 Minute.
Definition t1 : MemoryStore := PaddedRequest.s1.
Definition sent := AppendMessage "x" 10 message t1.
Definition t2 : MemoryStore := sent.2.
Definition claimed := ClaimNext "tok" 20 claim t2.
Definition t3 : MemoryStore := claimed.2.
Definition progress : TaskRunEventInput :=
  mkTaskRunEventInput "acct" "run-1" "worker" "r2" 1 "tok" EventRunCompleted ∅ "" 30.
Definition finished := RecordTaskRunEvent 30 progress t3.
Definition t4 : MemoryStore := finished.2.
Definition zeroRun : TaskRun := mkTaskRun "" "" "" "" "" "" 0 0 0 0 0 "" "" 0 0 "".
Definition running : TaskRun := default zeroRun (t_taskRuns t3 !! "run-1").
Definition done_run : TaskRun := default zeroRun (t_taskRuns t4 !! "run-1").
Definition session4 : Session := default (mkSession "" "" "" "" 0 0 "" ∅ 0 0) (t_sessions t4 !! "ses").
Definition res : MessageCommandResult := Eval vm_compute in
  match sent.1 with Ok r => r
  | Err _ => mkMessageCommandResult (mkEvent "" 0 "" ∅ "" "" 0) (mkEvent "" 0 "" ∅ "" "" 0) zeroRun 0 0 false end.

Lemma t1_reachable : ts_reachable t1.
Proof.
  eapply TsStep; [eapply TsStep; [apply TsNew|]|].
  - eapply StepNamespace. exact (surjective_pairing _).
  - eapply StepSession. exact (surjective_pairing _).
Qed.

Lemma t2_reachable : ts_reachable t2.
Proof.
  eapply TsStep; [apply t1_reachable|]. eapply (StepMessage _ "x" 10 message).
  - vm_compute. congruence.
  - exact (surjective_pairing (AppendMessage "x" 10 message t1)).
Qed.

Lemma t3_reachable : ts_reachable t3.
Proof.
  eapply TsStep; [apply t2_reachable|]. eapply (StepClaim _ canonical_order "tok" 20 claim).
  exact (surjective_pairing (ClaimNext "tok" 20 claim t2)).
Qed.

Lemma t4_step : ts_step t3 t4.
Proof.
  eapply (StepRecord _ 30 progress).
  - intros run Hrun. vm_compute in Hrun. injection Hrun as <-. vm_compute. congruence.
  - exact (surjective_pairing (RecordTaskRunEvent 30 progress t3)).
Qed.

Lemma t4_reachable : ts_reachable t4.
Proof. eapply TsStep; [apply t3_reachable|apply t4_step]. Qed.
End TaskExamples.
Import TaskExamples.

Lemma event_log_contiguous_witness :
  (ev_Seq <$> events_of t4 "ses") = Z.of_nat <$> seq 1 (length (events_of t4 "ses")) ∧
  ses_LastEventSeq session4 = Z.of_nat (length (events_of t4 "ses")) ∧
  ses_SnapshotVer session4 = ses_LastEventSeq session4.
Proof.
  apply (event_log_contiguous t4 "ses" session4).
  - apply t4_reachable.
  - vm_compute. reflexivity.
Defined.

Lemma active_runs_bounded_witness :
  countActive (t_taskRuns t3) "acct" ≤ 5 ∧
  ∀ id n, t_namespaces t3 !! id = Some n →
    countActiveForNamespace (t_taskRuns t3) "acct" id ≤ ns_MaxActiveRuns n ≤ 2.
Proof. apply (active_runs_bounded t3 "acct"). apply t3_reachable. Defined.

Lemma run_lifecycle_witness :
  ∃ r', t_taskRuns t4 !! "run-1" = Some r' ∧ run_evolves running r' ∧
    (runFinished (run_State running) = true → r' = running).
Proof.
  apply (run_lifecycle t3 t4 "run-1" running).
  - apply t3_reachable.
  - apply t4_step.
  - vm_compute. reflexivity.
Defined.

Lemma run_event_needs_lease_witness :
  ∃ run, t_taskRuns t3 !! TrimSpace (tri_TaskRunID progress) = Some run ∧
    run_State run = TaskRunRunning ∧ run_AccountID run = TrimSpace (tri_AccountID progress) ∧
    run_Fence run = tri_Fence progress ∧ run_LeaseToken run = TrimSpace (tri_LeaseToken progress) ∧
    run_LeaseToken run ≠ "" ∧
    (if IsZero (tri_CreatedAt progress) then 30 else tri_CreatedAt progress) < run_LeaseExpires run.
Proof.
  apply (run_event_needs_lease 30 progress t3 finished.1 t4).
  - exact (surjective_pairing (RecordTaskRunEvent 30 progress t3)).
  - intros E. apply (f_equal (λ t, length (events_of t "ses"))) in E. vm_compute in E. discriminate.
Defined.

Lemma AppendMessage_replay_witness :
  AppendMessage "y" 40 message t2 =
    (Ok {| mcr_Message := mcr_Message res; mcr_Queued := mcr_Queued res; mcr_TaskRun := mcr_TaskRun res;
           mcr_SnapshotVer := mcr_SnapshotVer res; mcr_LastEventSeq := mcr_LastEventSeq res;
           mcr_Existing := true |}, t2).
Proof.
  apply (AppendMessage_replay "x" 10 "y" 40 message t1).
  - apply ts_reachable_ok, t1_reachable.
  - vm_compute. congruence.
  - reflexivity.
  - vm_compute. reflexivity.
  - reflexivity.
Defined.

Lemma ClaimNext_serves_witness :
  ∃ c r, claimed.1 = Ok r ∧ t_taskRuns t2 !! run_ID c = Some c ∧
    eligible "acct" 20 c = true ∧ run_Fence r = int64 (run_Fence c + 1) ∧ run_LeaseToken r = "tok".
Proof.
  pose proof (@ClaimNext_serves canonical_order "tok" 20 claim t2
    (to_run _ (ts_reachable_ok _ t2_reachable))) as H. cbv zeta in H. fold claimed in H.
  destruct claimed as [[r|e] s'] eqn:E.
  - destruct H as (_ & c & n & H1 & H2 & _ & _ & _ & -> & _). exists c. eexists.
    split; [exact eq_refl|]. split; [exact H1|]. split; [exact H2|]. split; exact eq_refl.
  - vm_compute in E. discriminate.
Defined.

Lemma snapshot_order_independent_witness :
  @snapshotFromMemoryState canonical_order session4 (t_taskRuns t4) =
  @snapshotFromMemoryState reverse_order session4 (t_taskRuns t4).
Proof.
  apply (snapshot_order_independent canonical_order reverse_order session4 (t_taskRuns t4)).
  intros id r Hr. by apply (ro_run _ (to_run _ (ts_reachable_ok _ t4_reachable))).
Defined.

Lemma ListEvents_resumes_witness :
  [mcr_Queued res] = take (Z.to_nat 1) (drop (Z.to_nat 1) (events_of t2 (TrimSpace "ses"))).
Proof.
  apply (ListEvents_resumes t2 "acct" "ses" 1 1).
  - apply t2_reachable.
  - vm_compute. reflexivity.
Defined.

Lemma appendMessageToContext_bounded_witness :
  let m := messageContextValue "hello" "run-1" 10 in
  let c := <["messages" := VList [as_value m]]> (<["lastMessage" := VStr "hello"]> ∅) in
  json_len (as_value c) ≤ maxSnapshotBytes ∧
  ∃ old, c !! "messages" = Some (VList (old ++ [as_value m])) ∧ (length old < 100)%nat ∧
    match (∅ : gmap string value) !! "messages" with
    | Some (VList l) => old `suffix_of` l
    | _ => old = []
    end.
Proof.
  apply (appendMessageToContext_bounded ∅ (messageContextValue "hello" "run-1" 10)).
  vm_compute. reflexivity.
Defined.

(** ** Account recovery *)

Module RecoveryExamples.
#[local] Existing Instance canonical_order.
Definition root : User := ann <| user_Role := RoleRoot |> <| user_Level := LevelAdmin |>
  <| user_MFAEnabled := true |> <| user_MFATOTPSecret := "K1" |>.
Definition member : User := bob <| user_MFAEnabled := true |> <| user_MFATOTPSecret := "K2" |>.
Definition r1 : memoryStore := (CreateUser "u" (Ok "px") 1 root (newMemoryStore false)).2.
Definition r2 : memoryStore := (CreateUser "v" (Ok "py") 2 member r1).2.

Lemma r2_ok : index_ok r2.
Proof.
  apply (CreateUser_index_ok "v" (Ok "py") 2 member r1 (CreateUser "v" (Ok "py") 2 member r1).1.2 r2).
  - apply (CreateUser_index_ok "u" (Ok "px") 1 root (newMemoryStore false)
      (CreateUser "u" (Ok "px") 1 root (newMemoryStore false)).1.2 r1).
    + apply index_ok_new.
    + reflexivity.
    + vm_compute. reflexivity.
  - vm_compute. reflexivity.
  - vm_compute. reflexivity.
Qed.

Definition challenge : PasswordRecoveryChallenge := {|
  prc_ID := "c1"; prc_UserID := "v"; prc_Email := "bob@example.com"; prc_Kind := "token";
  prc_SecretHash := "h"; prc_ExpiresAt := 100; prc_FailedAttempts := 0; prc_LockedUntil := 0;
  prc_CreatedAt := 5; prc_ConsumedAt := 0; prc_InvalidatedAt := 0 |}.
Definition r3 : memoryStore := (CreatePasswordRecoveryChallenge (Some challenge) r2).2.
Definition r4 : memoryStore := (Recovery.CreateSession "tok" "v" 1000 r3).2.
Definition r5 : memoryStore :=
  (CreatePasswordRecoveryChallenge (Some (challenge <| prc_ID := "c2" |> <| prc_CreatedAt := 6 |>)) r4).2.
Definition open2 : PasswordRecoveryChallenge := default challenge (passwordRecovery r5 !! "c2").
Definition completed := CompletePasswordRecovery "c2" "newhash" 10 r5.

Lemma r5_ok : index_ok r5.
Proof. apply (index_ok_ext r2); [vm_compute; reflexivity..|apply r2_ok]. Qed.

Lemma r5_reachable : recovery_reachable r5.
Proof.
  apply (rr_step r4); [apply (rr_step r3); [apply (rr_step r2); [apply (rr_step (newMemoryStore false));
    [apply rr_new|]|]|]|].
  - apply rs_other. vm_compute. reflexivity.
  - apply (rs_create challenge r2 (Ok tt) r3); [vm_compute; reflexivity|discriminate].
  - apply rs_other. vm_compute. reflexivity.
  - apply (rs_create (challenge <| prc_ID := "c2" |> <| prc_CreatedAt := 6 |>) r4 (Ok tt) r5);
      [vm_compute; reflexivity|discriminate].
Qed.

Definition code (id : string) : MFARecoveryCode := {|
  mrc_ID := id; mrc_UserID := "v"; mrc_BatchID := "b"; mrc_CodeHash := "h"; mrc_ExpiresAt := 100;
  mrc_FailedAttempts := 0; mrc_LockedUntil := 0; mrc_CreatedAt := 5; mrc_ConsumedAt := 0;
  mrc_RevokedAt := 0 |}.
Definition codes : list MFARecoveryCode := [code "k1"; code "k2"].
Definition r6 : memoryStore := (ReplaceMFARecoveryCodes "v" [code "k0"] r5).2.
Definition r7 : memoryStore := (ReplaceMFARecoveryCodes "v" codes r6).2.
Definition reset := CompleteMFAPasswordReset "v" "k1" "newhash" 10 r7.

Lemma r7_ok : index_ok r7.
Proof. apply (index_ok_ext r2); [vm_compute; reflexivity..|apply r2_ok]. Qed.

Definition request : MFAResetRequest := {|
  mrr_ID := "q1"; mrr_UserID := "v"; mrr_Email := "bob@example.com";
  mrr_Fingerprint := MFAFingerprint "K2"; mrr_CodeHash := "h"; mrr_Status := "pending_email";
  mrr_Reason := ""; mrr_ReviewReason := ""; mrr_FailedAttempts := 0; mrr_CreatedAt := 5;
  mrr_ExpiresAt := 100 |}.
Definition r8 : memoryStore := (CreateMFAResetRequest request r7).2.
Definition r9 : memoryStore := (ConfirmMFAResetRequest "q1" "h" "lost phone" 10 r8).2.
Definition reviewed : MFAResetRequest := default request (mfaResetRequests r9 !! "q1").
Definition approval := DecideMFAResetRequest "a1" "q1" "u" "approved" "checked identity" 20 r9.

Lemma r9_ok : index_ok r9.
Proof. apply (index_ok_ext r2); [vm_compute; reflexivity..|apply r2_ok]. Qed.

Lemma r9_reachable : reset_reachable r9.
Proof.
  apply (mr_step r8); [apply (mr_step r7); [apply (mr_step (newMemoryStore false)); [apply mr_new|]|]|].
  - apply ms_other. vm_compute. reflexivity.
  - eapply (ms_create request). exact (surjective_pairing (CreateMFAResetRequest request r7)).
  - eapply (ms_confirm "q1" "h" "lost phone" 10).
    exact (surjective_pairing (ConfirmMFAResetRequest "q1" "h" "lost phone" 10 r8)).
Qed.
End RecoveryExamples.
Import RecoveryExamples.

Lemma oauth_code_single_use_witness :
  redemptions (TrimSpace "code")
    [ORedeem 5 "other"; ORedeem 6 " code "; OIssue "other" "t" 9 9; ORedeem 7 "code"]
    (CreateOAuthExchangeCode "code" "tok" 1000 60 r2).2 = [("tok", 1000, true); ("", 0, false)].
Proof.
  apply (oauth_code_single_use "code" "tok" 1000 60
    [ORedeem 5 "other"; ORedeem 6 " code "; OIssue "other" "t" 9 9; ORedeem 7 "code"] r2).
  intros call Hc. repeat (apply elem_of_cons in Hc as [->|Hc]; [vm_compute; congruence|]).
  by apply not_elem_of_nil in Hc.
Defined.

Lemma CompletePasswordRecovery_correct_witness :
  ∃ c, passwordRecovery r5 !! "c2" = Some c ∧ open_challenge c = true ∧
    prc_LockedUntil c ≤ 10 < prc_ExpiresAt c ∧ is_Some (user_by_id r5 (prc_UserID c)) ∧
    account_changed (prc_UserID c) (set_password "newhash") r5 completed.2 ∧
    ∀ hash' now', CompletePasswordRecovery "c2" hash' now' completed.2 =
      (Err ErrPasswordRecoveryInvalid, completed.2).
Proof.
  apply (CompletePasswordRecovery_correct "c2" "newhash" 10 r5).
  - apply r5_ok.
  - discriminate.
  - vm_compute. reflexivity.
Defined.

Lemma one_open_challenge_witness : "c2" = "c2".
Proof.
  apply (one_open_challenge r5 "c2" "c2" open2 open2); try (vm_compute; reflexivity).
  apply r5_reachable.
Defined.

Lemma recovery_lockout_witness :
  (3 < 3 → passwordRecovery (fail_all "c2" 3 60 ([7; 8] ++ [9]) r5) !! "c2" = Some (counted open2 3 0)) ∧
  (3 ≤ 3 → ∀ hash now, now < 9 + 60 →
     CompletePasswordRecovery "c2" hash now (fail_all "c2" 3 60 ([7; 8] ++ [9]) r5) =
       (Err ErrPasswordRecoveryInvalid, fail_all "c2" 3 60 ([7; 8] ++ [9]) r5)).
Proof.
  apply (recovery_lockout "c2" 3 60 [7; 8] 9 r5 open2).
  - vm_compute. reflexivity.
  - vm_compute. reflexivity.
  - intros t Ht. repeat (apply elem_of_cons in Ht as [->|Ht]; [vm_compute; reflexivity|]).
    by apply not_elem_of_nil in Ht.
  - vm_compute. congruence.
  - vm_compute. congruence.
Defined.

Lemma ReplaceMFARecoveryCodes_lists_witness :
  ∃ l, @ListMFARecoveryCodes canonical_order "v" 10 r7 = Ok l ∧
    l ≡ₚ filter (λ c, 10 < mrc_ExpiresAt c) codes.
Proof.
  apply (@ReplaceMFARecoveryCodes_lists canonical_order "v" codes 10 r6 r7).
  - vm_compute. reflexivity.
  - apply (bool_decide_eq_true_1 (NoDup (mrc_ID <$> codes))). vm_compute. reflexivity.
  - intros c Hc. repeat (apply elem_of_cons in Hc as [->|Hc]; [by repeat split|]).
    by apply not_elem_of_nil in Hc.
Defined.

Lemma CompleteMFAPasswordReset_correct_witness :
  (∃ u, user_by_id r7 "v" = Some u ∧ user_Active u = true ∧ user_ArchivedAt u = None) ∧
  account_changed "v" (set_password "newhash") r7 reset.2 ∧
  ("k1" ≠ "" →
     (∃ c, mfaRecoveryCodes r7 !! "k1" = Some c ∧ usable_code "v" 10 c = true ∧
        mrc_LockedUntil c ≤ 10) ∧
     ∀ user' hash' now',
       CompleteMFAPasswordReset user' "k1" hash' now' reset.2 = (Err ErrMFARecoveryCodeInvalid, reset.2)).
Proof.
  apply (CompleteMFAPasswordReset_correct "v" "k1" "newhash" 10 r7).
  - apply r7_ok.
  - discriminate.
  - vm_compute. reflexivity.
Defined.

Lemma one_pending_reset_witness : "q1" = "q1".
Proof.
  apply (@one_pending_reset canonical_order r9 "q1" "q1" reviewed reviewed);
    try (vm_compute; reflexivity). apply r9_reachable.
Defined.

Lemma DecideMFAResetRequest_correct_witness :
  account_changed "v" clear_mfa r9 approval.2 ∧
  @ListMFARecoveryCodes canonical_order "v" 30 approval.2 = Ok [].
Proof.
  destruct (DecideMFAResetRequest_correct "a1" "q1" "u" "approved" "checked identity" 20 r9 approval.2)
    as (actor & r & u & _ & Hr & _ & _ & _ & Ha & _).
  - apply r9_ok.
  - discriminate.
  - vm_compute. reflexivity.
  - assert (mrr_UserID r = "v") as E.
    { vm_compute in Hr. injection Hr as <-. reflexivity. }
    destruct (Ha eq_refl) as (H1 & _ & _ & H2 & _). rewrite E in H1, H2. auto.
Defined.

(** ** Subscription changes *)

Module LifecycleExamples.
Definition month : duration := 30 * 24 * Hour.
Definition reserve (id key : string) (now : time) (s : memoryStore) :=
  @ReserveSubscriptionAction reverse_order id "e" now "u" key "renewal" RawEmpty s.
Definition settle (id : string) (now : time) (s : memoryStore) :=
  FinishSubscriptionAction "e" now "u" id "pi" RawEmpty true "" None s.
(** A renewal, reserved and confirmed, and a second one a month later. *)
Definition g1 : memoryStore := (reserve "op1" "k1" 100 s1).2.
Definition g2 : memoryStore := (settle "op1" 200 g1).2.
Definition g3 : memoryStore := (reserve "op2" "k2" (200 + month) g2).2.
Definition g4 : memoryStore := (settle "op2" (300 + month) g3).2.

Lemma pair_eta {A B} (p : A * B) : p = (p.1, p.2).
Proof. by destruct p. Qed.

Lemma reserve_step id key now s :
  id ≠ "" → financeOperations s !! id = None → life_step now s (reserve id key now s).2.
Proof. intros. eapply (LifeReserve now s reverse_order id); [done..|apply pair_eta]. Qed.

Lemma settle_step id now s : life_step now s (settle id now s).2.
Proof. eapply LifeFinish, pair_eta. Qed.

Lemma s1_life : life_reachable 1 s1.
Proof.
  apply (LifeNext 1 1 (newMemoryStore false)); [apply LifeNew|done|]. apply LifeOther.
  - apply StepOther. vm_compute. auto 20.
  - split; [vm_compute; reflexivity|]. intros u v. simpl. by rewrite lookup_empty.
Qed.

Lemma g1_life : life_reachable 100 g1.
Proof. eapply LifeNext; [apply s1_life|done|]. apply reserve_step; [done|vm_compute; reflexivity]. Qed.

Lemma g2_life : life_reachable 200 g2.
Proof. eapply LifeNext; [apply g1_life|done|]. apply settle_step. Qed.

Lemma g3_life : life_reachable (200 + month) g3.
Proof. eapply LifeNext; [apply g2_life|done|]. apply reserve_step; [done|vm_compute; reflexivity]. Qed.
End LifecycleExamples.

Import LifecycleExamples.

Lemma plan_changes_spaced_witness :
  slc_LastChangeAt (lifecycle_of g3 "u") = Some 200 ∧
  slc_LastChangeAt (lifecycle_of g4 "u") = Some (300 + month) ∧
  200 + 30 * 24 * Hour ≤ 300 + month.
Proof.
  split; [vm_compute; reflexivity|]. split; [vm_compute; reflexivity|].
  destruct (plan_changes_spaced (200 + month) (300 + month) g3 g4 "u" g3_life) as [E|[_ H]].
  - vm_compute. discriminate.
  - apply settle_step.
  - exfalso. revert E. vm_compute. discriminate.
  - apply H. vm_compute. reflexivity.
Defined.

Lemma gate_excludes_and_settles_witness :
  ∃ s' op', FinishSubscriptionAction "e" 500 "u" "op1" "pi" RawEmpty false "" None g1 = (Ok tt, s') ∧
    slc_OperationID (lifecycle_of s' "u") = "" ∧ financeOperations s' !! "op1" = Some op' ∧
    op_Status op' = FinanceOperationFailed.
Proof.
  destruct (@gate_excludes_and_settles reverse_order 100 g1 "u" "op1" g1_life) as [_ (op & Hop & _ & H)].
  - vm_compute. reflexivity.
  - discriminate.
  - apply (H "e" 500 "pi" RawEmpty false). left.
    assert (E : op_ProviderOperationID <$> financeOperations g1 !! "op1" = Some "") by (vm_compute; reflexivity).
    rewrite Hop in E. injection E as E. exact E.
Defined.

Lemma lifecycle_version_detects_change_witness :
  life_run 2 100 s1 200 g2 ∧ lifecycle_of g2 "v" = lifecycle_of s1 "v".
Proof.
  assert (Hrun : life_run 2 100 s1 200 g2).
  { apply (RunStep 1 100 s1 100 g1); [|vm_compute; discriminate|apply settle_step].
    apply (RunStep 0 100 s1 100 s1); [apply RunNone|vm_compute; discriminate|].
    apply reserve_step; [discriminate|vm_compute; reflexivity]. }
  split; [exact Hrun|].
  apply (lifecycle_version_detects_change 2 1 100 s1 200 g2 "v" s1_life); try exact Hrun;
    vm_compute; first [discriminate | reflexivity].
Defined.

Lemma gate_refines_spec_witness :
  gate_abs g3 "u" = Busy "op2" true (Some 200) ∧
  spec_step (300 + month) (gate_abs g3 "u") (gate_abs g4 "u").
Proof.
  split; [vm_compute; reflexivity|].
  apply (gate_refines_spec (200 + month) (300 + month) g3 g4 "u" g3_life);
    [vm_compute; discriminate|apply settle_step].
Defined.
