(* ===== verification/ReferralExamples.v ===== *)
(** * Concrete runs of the referral programme

    Ann invites Bob: her code, his attribution, the reward for his first
    invoice, a settlement and its payout, built by the modelled operations. *)

From S2P Require Import Prelude GoLib Json StoreData Users Finance Recovery RecoveryProps FinanceProps.
From S2P Require Import Referral ReferralProps ReferralSummary Examples.
Open Scope Z_scope.
Open Scope bool_scope.
Open Scope go_scope.

Module ReferralExample.
Definition paidAt : time := unix 1800000000.
Definition week : duration := 7 * 24 * Hour.
Definition invoiced : ReferralReward := {|
  rew_ID := ""; rew_ReferralID := ""; rew_ProviderInvoiceID := "in_1"; rew_ReferrerUUID := "";
  rew_InviteeUUID := "v"; rew_PlanID := "pro-yearly"; rew_ProductSlug := "xconnect";
  rew_PaidMinor := 9990; rew_RewardMinor := 999; rew_Currency := "USD"; rew_PaidAt := paidAt;
  rew_EligibleAt := 0; rew_AnnualDays := 0; rew_Status := ""; rew_CreatedAt := 0;
  rew_ReferralCreatedAt := 0; rew_InviteeEmail := "" |}.

Definition f1 : memoryStore := (EnsureReferralCode 10 "u" "ann1" AccountExamples.s2).2.
Definition f2 : memoryStore := (CreateReferralAttribution "ra" 11 "ANN1 " "v" 0 f1).2.
Definition f3 : memoryStore := (CreateReferralReward "rw1" paidAt paidAt (Some invoiced) f2).2.
Definition f4 : memoryStore := (RequestReferralSettlement "st1" "u" "usd" (paidAt + week) f3).2.
Definition f5 : memoryStore := (CompleteReferralSettlement "st1" "wire-1" (paidAt + week) f4).2.
Definition rw1 : ReferralReward := default invoiced (referralRewards f3 !! "rw1").

(** Each call is a step, whatever the store. *)
Lemma code_step now u c s : ref_step s (EnsureReferralCode now u c s).2.
Proof. eapply RefCode, LifecycleExamples.pair_eta. Qed.
Lemma attribute_step id now c u t s : ref_step s (CreateReferralAttribution id now c u t s).2.
Proof. eapply RefAttribute, LifecycleExamples.pair_eta. Qed.
Lemma reward_step id now later r s :
  id ≠ "" → referralRewards s !! id = None → ref_step s (CreateReferralReward id now later r s).2.
Proof. intros. eapply (RefReward s id); [done..|apply surjective3]. Qed.
Lemma request_step id u c now s :
  id ≠ "" → referralSettlements s !! id = None → ref_step s (RequestReferralSettlement id u c now s).2.
Proof. intros. eapply (RefRequest s id); [done..|apply LifecycleExamples.pair_eta]. Qed.
Lemma complete_step id p now s : ref_step s (CompleteReferralSettlement id p now s).2.
Proof. eapply RefComplete, LifecycleExamples.pair_eta. Qed.

Lemma f1_reachable : ref_reachable f1.
Proof.
  apply (RefNext AccountExamples.s2); [|exact (code_step 10 "u" "ann1" AccountExamples.s2)].
  apply (RefNext (newMemoryStore false)); [apply RefNew|]. apply RefOther. vm_compute. auto 20.
Qed.

Lemma f2_reachable : ref_reachable f2.
Proof. apply (RefNext f1); [apply f1_reachable|]. exact (attribute_step "ra" 11 "ANN1 " "v" 0 f1). Qed.

Lemma f3_step : ref_step f2 f3.
Proof. apply (reward_step "rw1" paidAt paidAt (Some invoiced) f2); [discriminate|vm_compute; reflexivity]. Qed.

Lemma f3_reachable : ref_reachable f3.
Proof. exact (RefNext f2 f3 f2_reachable f3_step). Qed.

Lemma f4_reachable : ref_reachable f4.
Proof.
  apply (RefNext f3); [apply f3_reachable|].
  apply (request_step "st1" "u" "usd" (paidAt + week) f3); [discriminate|vm_compute; reflexivity].
Qed.

(** A registration with Ann's code, and one with a code nobody holds. *)
Definition cy : User := AccountExamples.bob <| user_ID := "w" |> <| user_Name := "Cy" |>
  <| user_Email := "cy@example.com" |>.
Definition registered := CreateUserWithReferral "w" (Ok "pz") 20 "rb" 20 cy "ann1" f1.
Definition refused := CreateUserWithReferral "w" (Ok "pz") 20 "rb" 20 cy "nobody" f1.

Lemma f1_index_ok : index_ok f1.
Proof. apply (index_ok_same AccountExamples.s2); [by split_and!|apply AccountExamples.s2_ok]. Qed.
End ReferralExample.

Import ReferralExample.

Lemma referral_rewards_sound_witness :
  referralRewards f3 !! "rw1" = Some rw1 ∧ rew_RewardMinor rw1 = 999 ∧
  ∃ a code, referralsByInvitee f3 !! rew_InviteeUUID rw1 = Some a ∧
    rattr_ReferrerUUID a = rew_ReferrerUUID rw1 ∧ rew_ReferrerUUID rw1 ≠ rew_InviteeUUID rw1 ∧
    referralCodes f3 !! rew_ReferrerUUID rw1 = Some code ∧ rcode_Code code = rattr_Code a.
Proof.
  assert (E : referralRewards f3 !! "rw1" = Some rw1) by (vm_compute; reflexivity).
  split; [exact E|]. split; [vm_compute; reflexivity|].
  destruct (referral_rewards_sound f3 "rw1" rw1 f3_reachable E) as (_ & _ & _ & H & _). exact H.
Defined.

Lemma settlement_lifecycle_witness :
  (rset_Status <$> referralSettlements f5 !! "st1") = Some "paid" ∧ settlements_evolve f4 f5.
Proof.
  split; [vm_compute; reflexivity|].
  apply (settlement_lifecycle f4 f5 f4_reachable). exact (complete_step "st1" "wire-1" (paidAt + week) f4).
Defined.

Lemma campaign_history_selects_witness :
  referralRewards f2 !! "rw1" = None ∧ referralRewards f3 !! "rw1" = Some rw1 ∧
  ∃ c, last (filter (λ c, camp_EffectiveAt c ≤ rew_PaidAt rw1) (referralCampaigns f2)) = Some c ∧
    GetReferralRewardCampaign f3 "rw1" = Ok c.
Proof.
  assert (E2 : referralRewards f2 !! "rw1" = None) by (vm_compute; reflexivity).
  assert (E3 : referralRewards f3 !! "rw1" = Some rw1) by (vm_compute; reflexivity).
  split; [exact E2|]. split; [exact E3|].
  destruct (campaign_history_selects f2 f3 paidAt f2_reachable f3_step) as (_ & _ & _ & _ & _ & H).
  apply (H "rw1" rw1 E2 E3).
Defined.

Lemma CreateUserWithReferral_atomic_witness :
  registered.1.1 = Ok tt ∧ GetReferralReferrer registered.2 "w" = Ok "u" ∧
  refused.1.1 = Err ErrReferralNotFound ∧ reads_same f1 refused.2.
Proof.
  split; [vm_compute; reflexivity|]. split; [vm_compute; reflexivity|]. split; [vm_compute; reflexivity|].
  apply (CreateUserWithReferral_atomic "w" (Ok "pz") 20 "rb" 20 cy "nobody" f1
    (Err ErrReferralNotFound) refused.1.2 refused.2 f1_index_ok); vm_compute; reflexivity.
Defined.
