(* ===== verification/QuotaExamples.v ===== *)
(** * Concrete runs of quotas and plan groups

    An operator gives Bob the free plan through a reviewed batch, then his
    first payment activates a paid allowance. *)

From S2P Require Import Prelude GoLib Calendar Json StoreData Users Lifecycle Quota PlanGroups QuotaProps Examples.
Open Scope Z_scope.
Open Scope bool_scope.
Open Scope go_scope.

Module QuotaExample.
Import AccountExamples.

Definition noon : time := unix 1800000000.
Definition change : AdminPlanGroupChange := {|
  apc_SubscriptionRecord := None; apc_ExpectedRecordUpdatedAt := None; apc_UserID := "v";
  apc_PlanID := "FREE"; apc_SetEntitlement := true; apc_ExpectedGroups := user_Groups bob2;
  apc_Groups := ["segment:quota:free-3gb"]; apc_ExpectedValidFrom := None; apc_ExpectedValidUntil := None;
  apc_SetValidFrom := true; apc_ValidFrom := Some noon; apc_SetValidUntil := false; apc_ValidUntil := None;
  apc_PackageName := "free"; apc_IncludedQuotaBytes := 3000; apc_RegionMultiplier := float_one;
  apc_LineMultiplier := float_one; apc_PeakMultiplier := float_one; apc_OffPeakMultiplier := float_one;
  apc_PricingRuleVersion := "plan:FREE"; apc_ExpectedProfileIncludedQuota := 0;
  apc_ExpectedQuotaRemaining := 0; apc_ExpectedUsageBytes := 0; apc_ExpectedPeriodStart := None;
  apc_ExpectedPeriodEnd := None; apc_ExpectedProfileUpdatedAt := None; apc_ExpectedQuotaUpdatedAt := None;
  apc_ProfileExisted := false; apc_QuotaExisted := false; apc_UsedBytesPreserved := 0; apc_RemainingAfter := 0 |}.
Definition preview : AdminPlanGroupPreview := mkAdminPlanGroupPreview "u" "trial" "req-7" "tok" (noon + Hour) [change].
Definition batch : AdminPlanGroupBatch := mkAdminPlanGroupBatch "u" "trial" "req-7" "tok" ["v"] [].
Definition uuids (i : nat) : string := ("uuid-" +:+ digit (Z.of_nat i))%string.

Definition k1 : memoryStore := (CreateAdminPlanGroupPreview "p1" noon preview s2).2.
Definition applied := ApplyAdminPlanGroupBatch uuids noon noon batch k1.
Definition k2 : memoryStore := applied.2.
Definition activated := changeSubscriptionQuota noon "v" 3000 20000 noon (noon + 30 * Day) true k2.
Definition k3 : memoryStore := activated.2.
Definition prof3 : AccountBillingProfile := default (newProfile "") (accountBillingProfiles k3 !! "v").
Definition quota3 : AccountQuotaState := default (newQuota "") (accountQuotaStates k3 !! "v").

Lemma traffic_ok_empty s : trafficMinuteBuckets s = ∅ → traffic_ok s.
Proof. intros E. split; rewrite E; [intros k b; by rewrite lookup_empty|done]. Qed.

Lemma preview_step id now v s :
  (∀ c, c ∈ app_Changes v → allowance (apc_IncludedQuotaBytes c)) →
  quota_call s (CreateAdminPlanGroupPreview id now v s).2.
Proof. intros H. eapply (QuotaPreview s id now v); [done|apply LifecycleExamples.pair_eta]. Qed.
Lemma apply_step f now later b s : quota_call s (ApplyAdminPlanGroupBatch f now later b s).2.
Proof. eapply QuotaApply, LifecycleExamples.pair_eta. Qed.
Lemma change_step now id p t a b x s :
  in_int64 t → quota_call s (changeSubscriptionQuota now id p t a b x s).2.
Proof. intros H. eapply QuotaChange; [exact H|apply LifecycleExamples.pair_eta]. Qed.


(** The three calls keep the remaining quota within the allowance. *)
Lemma k3_within : quota_ok k3.
Proof.
  apply (quota_call_ok k2); [|apply traffic_ok_empty; vm_compute; reflexivity|].
  - apply (quota_call_ok k1); [|apply traffic_ok_empty; vm_compute; reflexivity|].
    + apply (quota_call_ok s2); [|apply traffic_ok_empty; vm_compute; reflexivity|].
      * eapply quota_ok_ext; [..|apply (quota_ok_new false)]; vm_compute; reflexivity.
      * apply (preview_step "p1" noon preview s2). intros c ->%list_elem_of_singleton. done.
    + exact (apply_step uuids noon noon batch k1).
  - apply (change_step noon "v" 3000 20000 noon (noon + 30 * Day) true k2). done.
Qed.
End QuotaExample.

Import QuotaExample.

Lemma quota_change_correct_witness :
  activated.1 = Ok tt ∧ quota_RemainingIncludedQuota quota3 = 20000 ∧
  changeSubscriptionQuota (noon + Hour) "v" 3000 20000 noon (noon + 30 * Day) true k3 = (Ok tt, k3).
Proof.
  split; [vm_compute; reflexivity|]. split; [vm_compute; reflexivity|].
  apply (quota_change_correct noon (noon + Hour) "v" 3000 20000 noon (noon + 30 * Day) true k2 (Ok tt) k3).
  - split; vm_compute; discriminate.
  - intros q Hq.
    assert (E : quota_RemainingIncludedQuota <$> accountQuotaStates k2 !! "v" = Some 3000) by (vm_compute; reflexivity).
    rewrite Hq in E. injection E as ->. split; vm_compute; discriminate.
  - vm_compute. reflexivity.
Defined.

