(* ===== verification/NetworkExamples.v ===== *)
(** * Concrete runs of teams, agents, mesh and rate limits

    A team is created and Ann becomes its administrator; a node enrols and is
    approved; then Ann adds Bob, and the node resolves its identity. *)

From S2P Require Import Prelude GoLib Json StoreData Users Quota Network Sha256 Access NetworkProps.
From S2P Require Import Registry AgentAuth AgentAuthProps RateLimit Netip Mesh Examples.
Open Scope Z_scope.
Open Scope bool_scope.
Open Scope go_scope.

Module NetworkExample.
Import AccountExamples.
#[local] Existing Instance reverse_order.

(** A parser that accepts bare addresses. *)
#[local] Instance bare_addresses : MailParser := λ s, if ContainsAny s "@" then Some s else None.

Definition noon : time := unix 1800000000.
Definition day : duration := 24 * Hour.
Definition acme : NetworkTeam := mkNetworkTeam "acme" "Acme" 2 noon (noon + 30 * day) true.
Definition note : AuditLog := mkAuditLog "" "network.team.upsert" "root" ∅ 0.
Definition root_note : AuditLog :=
  mkAuditLog "" "network.membership.set" "root" (<["platform_root" := ABool true]> ∅) 0.
Definition ann_admin : NetworkMembership := mkNetworkMembership false "u" "acme" true "admin".

Definition w1 : memoryStore := (PutNetworkTeam acme note s2).2.
Definition put_ann := PutNetworkMembership ann_admin root_note w1.
Definition w2 : memoryStore := put_ann.2.
Definition ann2 : User := default ann (user_by_id w2 "u").
Definition w3 : memoryStore := (RegisterTeamAgent noon "node-1" "acme" w2).2.
Definition approval : TeamAgentEnrollment :=
  mkTeamAgentEnrollment "node-1" "acme" "acme" "approved" "root" "ok" 0.
Definition decided := DecideTeamAgent (noon + 5) approval noon note w3.
Definition w4 : memoryStore := decided.2.
Definition added := addNetworkTeamMember (noon + day) ann2 "" "bob@example.com" w4.

Lemma w4_reachable : net_reachable w4.
Proof.
  exists false.
  eapply rtc_l; [apply (net_other _ s2); vm_compute; reflexivity|].
  eapply rtc_l; [apply (net_team s2 acme note)|].
  eapply rtc_l; [apply (net_member w1 ann_admin root_note)|].
  eapply rtc_l; [apply (net_register w2 noon "node-1" "acme")|].
  apply rtc_once. apply (net_decide w3 (noon + 5) approval noon note).
Qed.

(** The deployment credential, and one bound to a node. *)
Definition shared : Credential := mkCredential "" [] "*" "shared" " s3cret " ["internal"; "resource:shared"].
Definition bound : Credential := mkCredential "n7" ["bob@example.com"] "n7" "custom node" "t0ken"
  ["resource:custom"; "custom:allow-free"].
Definition reg : Registry :=
  match NewRegistry [shared; bound] with Ok r => r | Err _ => empty_registry end.

Lemma reg_ok : reg_reachable [shared; bound] reg.
Proof. exists reg. split; [vm_compute; reflexivity|apply rtc_refl]. Qed.


(** Three calls of one key against a limit of two. *)
Definition lim0 : RateLimiter := NewRateLimiter 2 Minute.
Definition calls : list call :=
  [mkCall 1 "ip" (Allow 1 "ip" lim0).1; mkCall 2 "ip" (Allow 2 "ip" (Allow 1 "ip" lim0).2).1].
Definition lim2 : RateLimiter := (Allow 2 "ip" (Allow 1 "ip" lim0).2).2.

Lemma calls_history : history 2 Minute calls 2 lim2.
Proof.
  apply (history_call 2 Minute [mkCall 1 "ip" (Allow 1 "ip" lim0).1] 1 (Allow 1 "ip" lim0).2 2 "ip"); [|lia].
  apply (history_call 2 Minute [] 0 lim0 1 "ip"); [|lia]. apply history_start.
Qed.

(** Two devices that may talk directly. *)
Definition dev (id key addr : string) : DeviceRecord := mkDeviceRecord id "one" "linux" key addr "active".
Definition d1 : DeviceRecord :=
  dev "d1" "AAAAAAAAAAAAAAAAAAAAAAAAAAAAAAAAAAAAAAAAAAA=" "10.0.0.2/32".
Definition d2 : DeviceRecord :=
  dev "d2" "AQAAAAAAAAAAAAAAAAAAAAAAAAAAAAAAAAAAAAAAAAA=" "10.0.0.3/32".
Definition gateway : DeviceRecord := mkDeviceRecord "gw" "gateway" "linux" "" "" "active".
Definition open_rule : PolicyRule := mkPolicyRule true "r1" "accept" ["d1"; "d2"] ["d1"; "d2"]
  ["icmp"; "tcp"; "udp"] (seqZ 1 65535).
Definition open_policy : PolicyArtifact := mkPolicyArtifact 1 "v" "net" 4 "deny" [] [open_rule].
Definition net : NetworkRecord := mkNetworkRecord "net" "{...}" 4.
Definition rows (id : string) : result error (list DeviceRecord) := Ok [d1; gateway; d2].
Definition decode (text : string) : option PolicyArtifact := Some open_policy.
Definition d1_peers : option (list MeshPeer) :=
  Some [mkMeshPeer "d2" (dev_WireGuardPublicKey d2) "10.0.0.3/32"].
Definition relay : option (list RelayPeer) :=
  Some [mkRelayPeer "d1" (dev_WireGuardPublicKey d1) ["d2"];
        mkRelayPeer "d2" (dev_WireGuardPublicKey d2) ["d1"]].

Lemma open_granted a b : a ∈ ["d1"; "d2"] → b ∈ ["d1"; "d2"] → grantEvaluator open_policy a b = true.
Proof.
  intros Ha Hb. apply grantEvaluator_spec. split; [exact eq_refl|]. split.
  - intros r Hr _. apply list_elem_of_singleton in Hr as ->. discriminate.
  - exists open_rule. split; [by left|]. split; [done|].
    split; [exact eq_refl|]. split; [exact eq_refl|].
    split; [by left|]. split; [right; by left|]. split; [right; right; by left|]. exact eq_refl.
Qed.

Lemma open_pairs :
  paired open_policy d1 d1 = false ∧ paired open_policy d1 d2 = true ∧
  paired open_policy d2 d1 = true ∧ paired open_policy d2 d2 = false.
Proof.
  assert ("d1" ∈ ["d1"; "d2"]) as H1 by (by left).
  assert ("d2" ∈ ["d1"; "d2"]) as H2 by (right; by left).
  unfold paired. cbn [d1 d2 dev dev_ID dev_WireGuardPublicKey].
  rewrite !open_granted by done. split_and!; reflexivity.
Qed.

Lemma mesh_rows : meshDevices rows decode net = Ok ([d1; d2], open_policy).
Proof.
  unfold meshDevices. change (rows (net_ID net)) with (Ok (E:=error) [d1; gateway; d2]).
  assert (policyArtifact decode net = Ok open_policy) as -> by exact eq_refl.
  assert (List.filter meshCapable [d1; gateway; d2] = [d1; d2]) as -> by (vm_compute; reflexivity).
  exact eq_refl.
Qed.

Lemma mesh_relay : relaySpec rows decode net = Ok relay.
Proof.
  unfold relaySpec. rewrite mesh_rows. cbn [foldl].
  destruct open_pairs as (-> & -> & -> & ->). exact eq_refl.
Qed.

Lemma mesh_one : oneMeshSpec rows decode d1 net = Ok d1_peers.
Proof.
  unfold oneMeshSpec. assert (meshCapable d1 = true) as -> by (vm_compute; reflexivity).
  rewrite mesh_rows. cbn [foldl negb].
  assert ("d1" ∈ ["d1"; "d2"]) as H1 by (by left).
  assert ("d2" ∈ ["d1"; "d2"]) as H2 by (right; by left).
  change (dev_ID d1) with "d1". change (dev_ID d2) with "d2".
  rewrite !open_granted by done. exact eq_refl.
Qed.
End NetworkExample.

Import NetworkExample.
#[local] Existing Instance reverse_order.

Lemma team_capacity_witness :
  net_reachable w4 ∧
  Z.of_nat (length (List.filter (in_team "acme") (values (networkMembers w4)))) ≤ 2.
Proof.
  split; [exact w4_reachable|].
  refine (proj1 (team_capacity w4 w4_reachable) "acme" acme _ _); [discriminate|].
  vm_compute. reflexivity.
Defined.

Lemma network_access_correct_witness :
  @networkScopeAllows (@networkAccessForUser reverse_order (noon + day) ann2 w4) ["team:acme"] = true ∧
  account_open ann2 w4.
Proof.
  assert (@networkScopeAllows (@networkAccessForUser reverse_order (noon + day) ann2 w4)
    ["team:acme"] = true) as E by (vm_compute; reflexivity).
  split; [exact E|].
  exact (proj1 (proj1 (@network_access_correct reverse_order (noon + day) ann2 ["team:acme"] w4
    w4_reachable) E)).
Defined.

Lemma decide_compare_and_set_witness :
  decided = (Ok (), w4) ∧
  (RegisterTeamAgent (noon + 7) "node-1" "acme" w4).2 = w4 ∧
  DecideTeamAgent (noon + 8) approval noon note w4 = (Err ErrTeamAgentConflict, w4).
Proof.
  assert (decided = (Ok (), w4)) as E by (vm_compute; reflexivity).
  split; [exact E|].
  pose proof (decide_compare_and_set (noon + 5) approval noon note w3 w4 E) as T.
  split; [exact (proj2 (proj2 T) (noon + 7) "acme")|].
  refine (proj1 (proj2 T) w4 (noon + 8) approval noon note _ eq_refl _); [apply rtc_refl|lia].
Defined.

Lemma team_handlers_confined_witness :
  net_reachable w4 ∧ added.1.1 = 201 ∧
  ∃ team member, manages ann2 team w4 ∧ GetUserByEmail w4 "bob@example.com" = Ok member ∧
    networkMembers added.2 !! user_ID member =
      Some (mkNetworkMembership false (user_ID member) team true "").
Proof.
  assert (added.1.1 = 201) as E by (vm_compute; reflexivity).
  split; [exact w4_reachable|]. split; [exact E|]. revert E.
  destruct (@team_handlers_confined reverse_order (noon + day) ann2 "" "bob@example.com" "" w4
    w4_reachable) as [T _].
  unfold added. destruct (@addNetworkTeamMember _ _ _ _ _ _) as [r s']. intros E.
  destruct T as [[T _]|(_ & team & member & Hm & He & _ & _ & _ & M)]; [destruct (T E)|].
  exists team, member. split; [exact Hm|]. split; [exact He|].
  cbn [snd]. rewrite M. apply lookup_insert_eq.
Defined.

Lemma registry_authenticates_witness :
  @Authenticate "s3cret" reg = Some (identity_of shared) ∧ NoDup (bound_nodes [shared; bound]).
Proof.
  pose proof (@registry_authenticates bare_addresses reverse_order [shared; bound] reg reg_ok) as T.
  split; [|exact (proj2 (proj2 (proj2 T)))].
  refine (proj1 T shared _). by left.
Defined.


Lemma rate_limit_bounds_witness :
  history 2 Minute calls 2 lim2 ∧ within 0 Minute (allowed_at "ip" calls) ≤ 2 * 2 ∧
  2 ≤ within (3 - Minute) 3 (allowed_at "ip" calls).
Proof.
  pose proof (@rate_limit_bounds reverse_order 2 Minute calls 2 lim2 "ip") as T.
  split; [exact calls_history|]. split.
  - refine (proj1 (T _ _ _ calls_history) 0); [lia|done|discriminate].
  - refine (proj2 (T _ _ _ calls_history) 3 _ _); [lia|done|discriminate|lia|].
    vm_compute. reflexivity.
Defined.

Lemma mesh_views_agree_witness :
  mesh_ids d1_peers = relay_allowed relay "d1" ∧
  ("d2" ∈ relay_allowed relay "d1" ↔ "d1" ∈ relay_allowed relay "d2").
Proof.
  pose proof (mesh_views_agree rows decode net [d1; d2] open_policy relay d1 d1_peers
    mesh_rows mesh_relay) as T.
  assert (NoDup (dev_ID <$> [d1; d2])) as Hnd
    by (repeat constructor; rewrite ?elem_of_cons, ?elem_of_nil; intuition discriminate).
  assert (d1 ∈ [d1; d2]) as H1 by (by left).
  assert (d2 ∈ [d1; d2]) as H2 by (right; by left).
  specialize (T Hnd H1 mesh_one). split; [exact (proj1 T)|]. exact (proj1 (proj2 T) d2 H2).
Defined.
