(* ===== verification/EntitlementExamples.v ===== *)
(** * Concrete runs of the entitlement handlers

    Bob pays for an annual plan, Ann's subscription has run out: the sweep
    takes Ann to the free plan and leaves Bob alone, and the monthly grant
    gives Bob the allowance of the new month. *)

From S2P Require Import Prelude GoLib Calendar Json StoreData Users Lifecycle Finance Referral Quota GoTime.
From S2P Require Import Entitlements EntitlementProps Sweep Examples.
Open Scope Z_scope.
Open Scope bool_scope.
Open Scope go_scope.

Module EntitlementExample.
Import AccountExamples.
#[local] Existing Instance reverse_order.

(** 15 January 2027. *)
Definition noon : time := unix 1800000000.
Definition fresh_id : string → result error string := λ _, Ok "pz".

Definition free_p : BillingPlan :=
  mkBillingPlan "FREE" "" "Free" "free" 3000 "default" 0 "usd" "month" ∅ ∅ 0 true 0 0 0.
Definition year_p : BillingPlan :=
  mkBillingPlan "PLUS_YEAR" "price_y" "Plus" "subscription" 90000 "plus" 9900 "usd" "year" ∅ ∅ 0 true 1 0 0.

Definition sub_for (id user until : string) : Subscription :=
  mkSubscription "" user "stripe" "" "" "subscription" "PLUS_YEAR" id "active"
    {[ "expiresAt" := AStr until ]} 0 0 None.

(** Both are subscribers. *)
Definition subscriber (id : string) : User :=
  (default ann (user_by_id s2 id)) <| user_Groups := [MonthlyPlusQuotaLimitGroup; "team:x"; "segment:yearly"] |>.
Definition e1 : memoryStore := (UpsertBillingPlan 3 (Some year_p) (UpsertBillingPlan 3 (Some free_p) s2).2).2.
Definition e2 : memoryStore := (UpdateUser (Ok "pz") 4 (subscriber "u") e1).2.
Definition e3 : memoryStore := (UpdateUser (Ok "pz") 4 (subscriber "v") e2).2.
Definition e4 : memoryStore := (UpsertSubscription "sa" 5 (Some (sub_for "sub_a" "u" "2026-12-31T00:00:00Z")) e3).2.
Definition e5 : memoryStore := (UpsertSubscription "sb" 5 (Some (sub_for "sub_b" "v" "2027-12-31T00:00:00Z")) e4).2.
Definition decembers : list time := [unix 1796083200; unix 1798761600].
Definition activate (id : string) : M memoryStore () :=
  _ ← applyPlanEntitlements 6 id year_p; resetQuotaForPlan 6 id year_p decembers.
Definition e6 : memoryStore := (activate "v" (activate "u" e5).2).2.
Definition ann6 : User := match GetUserByID e6 "u" with Ok u => u | Err _ => ann end.

Lemma e6_index : index_ok e6.
Proof.
  assert (index_ok e1) as H1 by (apply (index_ok_same s2); [split_and!; vm_compute; reflexivity|apply s2_ok]).
  assert (index_ok e2) as H2.
  { apply (UpdateUser_index_ok (Ok "pz") 4 (subscriber "u") e1
      (UpdateUser (Ok "pz") 4 (subscriber "u") e1).1.2 e2 H1). vm_compute. reflexivity. }
  assert (index_ok e3) as H3.
  { apply (UpdateUser_index_ok (Ok "pz") 4 (subscriber "v") e2
      (UpdateUser (Ok "pz") 4 (subscriber "v") e2).1.2 e3 H2). vm_compute. reflexivity. }
  apply (index_ok_same e3); [split_and!; vm_compute; reflexivity|done].
Qed.

Lemma e6_rows : rows_ok e6.
Proof.
  assert (map_Forall (λ k p, plan_PlanID p = k) (billingPlans e6)) as H1
    by (refine (bool_decide_eq_true_1 _ _); vm_compute; reflexivity).
  assert (map_Forall (λ k q, TrimSpace (quota_AccountUUID q) = k) (accountQuotaStates e6)) as H2
    by (refine (bool_decide_eq_true_1 _ _); vm_compute; reflexivity).
  split; [exact H1|exact H2].
Qed.

Lemma e6_ids : ids_ok e6.
Proof.
  assert (map_Forall (λ k _, TrimSpace k = k ∧ k ≠ "") (byID e6)) as H
    by (refine (bool_decide_eq_true_1 _ _); vm_compute; reflexivity).
  intros id [l Hl]. exact (H id l Hl).
Qed.

Lemma ended_by_lapse user now s id subs :
  user_ID user = id → subscriptionValidityActive user now = false → subscriptions s !! id = Some subs →
  map_Forall (λ _ sub, lapse now (accountQuotaStates s !! id) s sub false = Some true) subs → subs ≠ ∅ →
  ¬ access_held user now s ∧ access_ended user now s.
Proof.
  intros Eid Hv E Hl Hne. unfold access_held, access_ended, has_subscription. rewrite Eid, E, Hv. split.
  - intros [?|(x & (m & k & [= <-] & Hk) & Hh)]; [done|]. specialize (Hl _ _ Hk). cbn beta in Hl.
    destruct (lapse_spec now (accountQuotaStates s !! id) s x false) as [[_ E1]|[(Hn & _)|(Hn & E1)]];
      [congruence|by apply Hn|congruence].
  - right. right. destruct (map_choose subs Hne) as (k & sub & Hk). exists sub.
    split; [by exists subs, k|]. specialize (Hl _ _ Hk). cbn beta in Hl.
    destruct (lapse_spec now (accountQuotaStates s !! id) s sub false) as [[_ E1]|[(_ & Ht & _)|(Hn & E1)]];
      [congruence|done|congruence].
Qed.

(** Ann's only subscription no longer holds her access. *)
Lemma ann_ended : ¬ access_held ann6 noon e6 ∧ access_ended ann6 noon e6.
Proof.
  apply (ended_by_lapse ann6 noon e6 "u" (default ∅ (subscriptions e6 !! "u"))).
  - vm_compute. reflexivity.
  - vm_compute. reflexivity.
  - vm_compute. reflexivity.
  - refine (bool_decide_eq_true_1 _ _). vm_compute. reflexivity.
  - intros E. assert (size (default ∅ (subscriptions e6 !! "u")) = 1%nat) as E1 by (vm_compute; reflexivity).
    by rewrite E, map_size_empty in E1.
Qed.

(** A run whose result is known leaves some state. *)
Lemma run_ok {A B} (p : A * B) a : p.1 = a → ∃ b, p = (a, b).
Proof. destruct p as [x b]. intros <-. by exists b. Qed.
End EntitlementExample.

Import EntitlementExample.
#[local] Existing Instance reverse_order.

Lemma downgrade_correct_witness : ∃ s',
  downgradeToFreePlan noon fresh_id "u" e6 = (Ok tt, s') ∧
  user_downgraded "u" e6 s' ∧ on_free_plan noon "u" s'.
Proof.
  destruct (run_ok (downgradeToFreePlan noon fresh_id "u" e6) (Ok tt)) as [s' E]; [vm_compute; reflexivity|].
  exists s'. split; [exact E|].
  destruct (downgrade_correct noon fresh_id "u" e6 s') as (Hu & Hf & _).
  - apply e6_index.
  - apply e6_rows.
  - reflexivity.
  - discriminate.
  - exact E.
  - split; [exact Hu|exact Hf].
Defined.

Lemma access_follows_subscriptions_witness : ∃ s',
  reconcileSubscriptionAccessAt noon fresh_id ann6 noon e6 = (Ok tt, s') ∧
  user_downgraded (user_ID ann6) e6 s' ∧ on_free_plan noon (user_ID ann6) s' ∧
  only_account (user_ID ann6) e6 s'.
Proof.
  destruct (run_ok (reconcileSubscriptionAccessAt noon fresh_id ann6 noon e6) (Ok tt)) as [s' E];
    [vm_compute; reflexivity|].
  exists s'. split; [exact E|].
  destruct (access_follows_subscriptions noon fresh_id ann6 noon e6 (Ok tt) s') as (_ & Hd & Ho & _).
  - apply e6_index.
  - apply e6_rows.
  - vm_compute. reflexivity.
  - vm_compute. discriminate.
  - vm_compute. reflexivity.
  - exact E.
  - destruct ann_ended as [Hn He]. destruct (Hd Hn He eq_refl) as [Hu Hf].
    split; [exact Hu|]. split; [exact Hf|exact Ho].
Defined.

Lemma sweep_settles_accounts_witness : ∃ s',
  ReconcileSubscriptionAccessBatch (λ _, noon) fresh_id noon "" 2 e6 = (Some ("v", 2, None), s') ∧
  settled noon noon "u" e6 s' ∧ settled noon noon "v" e6 s'.
Proof.
  destruct (sweep_settles_accounts (λ _, noon) fresh_id noon "" 2 e6)
    as (visited & rest & oe & s' & E & Eb & He & Hs & _).
  - apply e6_index.
  - apply e6_rows.
  - apply e6_ids.
  - split; vm_compute; discriminate.
  - exists s'. destruct (run_ok (ReconcileSubscriptionAccessBatch (λ _, noon) fresh_id noon "" 2 e6)
      (Some ("v", 2, None))) as [s'' E1]; [vm_compute; reflexivity|].
    rewrite E1 in E |- *. injection E as _ _ Eo <-. split; [reflexivity|].
    rewrite (proj1 He (eq_sym Eo)), app_nil_r in Eb.
    assert (batch_ids e6 "" 2 = ["u"; "v"]) as E2 by (vm_compute; reflexivity). rewrite E2 in Eb.
    split; apply Hs; rewrite <-Eb; [left|right; left].
Defined.

Lemma annual_grants_once_witness : ∃ s',
  ReconcileAnnualPlanQuotas (λ _, noon) noon e6 = ((1, None), s') ∧
  ReconcileAnnualPlanQuotas (λ _, noon) noon s' = ((0, None), s').
Proof.
  destruct (run_ok (ReconcileAnnualPlanQuotas (λ _, noon) noon e6) (1, None)) as [s' E]; [vm_compute; reflexivity|].
  exists s'. split; [exact E|].
  destruct (annual_grants_once (λ _, noon) noon e6) as (n & m & E1 & _ & _ & Hagain).
  - apply e6_rows.
  - assert (Forall (λ u, TrimSpace (user_ID u) = user_ID u ∧ user_ID u ≠ "") (ListUsers e6)) as Hf
      by (refine (bool_decide_eq_true_1 _ _); vm_compute; reflexivity).
    rewrite Forall_forall in Hf. exact Hf.
  - intros _. apply month_period.
  - rewrite E in E1. injection E1 as _ ->. exact Hagain.
Defined.
