(* ===== verification/StripeExamples.v ===== *)
(** * Concrete runs of the Stripe endpoint

    A world in which Stripe knows one active subscription whose invoice is
    still open, and two signed requests: a paid top-up, and an update of the
    subscription. *)

From S2P Require Import Prelude GoLib Calendar Json StoreData Users Lifecycle Finance FinanceInv Referral Quota GoTime.
From S2P Require Import Entitlements EntitlementProps Hmac StripeClient StripeClientProps Stripe StripeEvents.
From S2P Require Import StripeProps StripeEffects Examples EntitlementExamples.
Open Scope Z_scope.
Open Scope bool_scope.
Open Scope go_scope.

Import AccountExamples EntitlementExample.
#[local] Existing Instance reverse_order.

Definition client : stripeClient := mkStripeClient true true "sk_live_1" "whsec_1" "https://example.org" "" ∅ "".
Definition new_sha1 (ref : string) : string := ("led-" +:+ ref)%string.

Definition open_invoice : stripeInvoice :=
  mkStripeInvoice "in_1" (JStr "cus_1") (JStr "sub_a") "open" JNull 0 false "usd" 1799999000 "subscription_cycle"
    JNull [] false 0 [] false.
Definition remote_sub : stripeSubscription :=
  mkStripeSubscription "sub_a" "active" (JStr "cus_1") {[ "user_id" := "u"; "plan_id" := "PLUS_YEAR" ]} false
    1830000000 1799999000 (JStr "in_1") RawEmpty JNull [mkStripeItem 1799999000 1830000000 "price_y"].
Definition topup : stripeCheckoutSession :=
  mkCheckoutSession "cs_1" "" "" "pi_1" "cus_1" "paid" 5000 "cny"
    {[ "user_id" := "u"; "kind" := "paygo"; "plan_id" := "PAYG-CUSTOM-CNY"; "amount_minor" := "5000"; "currency" := "CNY" ]}.

Definition topup_event : stripeEvent :=
  mkStripeEvent "evt_1" "checkout.session.completed" (Some true) "" (RawJSON JNull).
Definition update_event : stripeEvent :=
  mkStripeEvent "evt_2" "customer.subscription.updated" (Some true) "" (RawJSON JNull).

(** The world counts the identifiers it has given out. *)
#[local] Instance example_world : StripeWorld nat := {
  world_now := λ n, (noon, n);
  world_uuid := λ n, (("id" +:+ FormatInt (Z.of_nat n))%string, S n);
  world_v7 := λ n, (Ok "pz", n);
  api_subscription := λ _ n, (Ok remote_sub, n);
  api_invoice := λ _ n, (Ok open_invoice, n);
  api_charge := λ _ n, (Err (ErrMsg "no such charge"), n);
  api_intent := λ _ n, (Err (ErrMsg "no such payment_intent"), n);
  api_invoices := λ _ _ n, (Ok (mkInvoiceList [] false), n)
}.
#[local] Instance example_decoder : StripeDecoder := {
  decode_session := λ _, Ok topup;
  decode_subscription := λ _, Ok remote_sub;
  decode_invoice := λ _, Ok open_invoice;
  decode_charge := λ _, Err (ErrMsg "unexpected end of JSON input");
  decode_dispute := λ _, Err (ErrMsg "unexpected end of JSON input");
  decode_refund := λ _, Err (ErrMsg "unexpected end of JSON input");
  decode_event := λ body, if body == "topup" then Ok topup_event else Ok update_event;
  raw_of_body := λ _, RawJSON JNull;
  decode_review := λ _, Err (ErrMsg "unexpected end of JSON input")
}.
#[local] Instance example_sound : SoundWorld (W := nat).
Proof.
  constructor.
  - intros w. discriminate.
  - intros id w i [= <-]. split; vm_compute; discriminate.
  - intros raw i [= <-]. split; vm_compute; discriminate.
Qed.

Definition header (body : string) : string :=
  ("t=1800000000,v1=" +:+ hmac_hex "whsec_1" ("1800000000." +:+ body))%string.
Definition text (e : error) : string := match e with ErrMsg m => m | _ => "error" end.

Example topup_delivered :
  (stripeWebhook (Some client) new_sha1 text (Ok "topup") (header "topup") (e6, O)).1 = Ok (Received false).
Proof. vm_compute. reflexivity. Qed.
Example update_delivered :
  (stripeWebhook (Some client) new_sha1 text (Ok "update") (header "update") (e6, O)).1 = Ok (Received false).
Proof. vm_compute. reflexivity. Qed.

Lemma client_reference_signed_witness : ∃ ref,
  signedClientReferenceID client "u" = Ok ref ∧ userIDFromClientReference client ref = "u".
Proof.
  destruct (client_reference_signed client) as [Hs _].
  - vm_compute. discriminate.
  - apply (Hs "u"). reflexivity.
Defined.

Definition buy : stripeCheckoutRequest :=
  mkCheckoutRequest "payg-custom-cny" "" 5000 "cny" "payment" "xstream" "/pricing" "" "" 0.
Definition payer : User := default ann (user_by_id s2 "u").
Lemma posted {E} (r : result E checkout_action) :
  match r with Ok (PostSession _) => true | _ => false end = true → ∃ form, r = Ok (PostSession form).
Proof. destruct r as [[form|]|]; try discriminate. intros _. by exists form. Qed.
Lemma checkout_bound_to_catalog_witness : ∃ form,
  stripeCheckout noon (Some client) payer buy s2 = Ok (PostSession form) ∧
  form !! "mode" = Some "payment" ∧ charges s2 form.
Proof.
  destruct (posted (stripeCheckout noon (Some client) payer buy s2)) as [form E]; [vm_compute; reflexivity|].
  exists form. split; [exact E|].
  destruct (checkout_bound_to_catalog noon client payer buy s2 (PostSession form) E) as (_ & _ & Hm & _ & _ & _ & Hc).
  split; [exact Hm|exact Hc].
Defined.

Definition three_requests : list (result error string * string) :=
  [(Ok "topup", header "topup"); (Ok "update", header "update"); (Ok "topup", header "topup")].
Lemma webhooks_run_on_ledger_witness :
  let sw := (e6, O) in
  rtc fin_step sw.1 (deliveries (Some client) new_sha1 text three_requests sw).1.
Proof.
  intros sw. destruct (webhooks_run_on_ledger (Some client) new_sha1 text three_requests sw) as [Hl _]. exact Hl.
Defined.

Lemma example_plain_ids : plain_ids.
Proof. intros b event. cbn. destruct (b == "topup"); intros [= <-]; reflexivity. Qed.

Lemma event_processed_once_witness : ∃ sw1,
  stripeWebhook (Some client) new_sha1 text (Ok "topup") (header "topup") (e6, O) = (Ok (Received false), sw1) ∧
  let sw2 := deliveries (Some client) new_sha1 text [(Ok "update", header "update")] sw1 in
  (stripeWebhook (Some client) new_sha1 text (Ok "topup") (header "topup") sw2).2.1 = sw2.1.
Proof.
  destruct (run_ok (stripeWebhook (Some client) new_sha1 text (Ok "topup") (header "topup") (e6, O))
    (Ok (Received false))) as [sw1 E]; [vm_compute; reflexivity|].
  exists sw1. split; [exact E|].
  apply (event_processed_once (Some client) new_sha1 text [(Ok "update", header "update")]
    "topup" (header "topup") topup_event "topup" (header "topup") topup_event (e6, O) sw1).
  - apply example_plain_ids.
  - reflexivity.
  - reflexivity.
  - reflexivity.
  - exact E.
  - reflexivity.
Defined.

Lemma open_unsettled : unsettled (W := nat) remote_sub.
Proof.
  right. intros w i i' [= <-]. assert (normalize_invoice open_invoice = Ok open_invoice) as -> by reflexivity.
  intros [= <-]. left. discriminate.
Qed.

Lemma e6_unpaid id : unpaid_here e6 id.
Proof.
  intros pid p i Hp. exfalso. assert (financePayments e6 = ∅) as He by (vm_compute; reflexivity).
  rewrite He, lookup_empty in Hp. discriminate Hp.
Qed.

Lemma no_grant_before_payment_witness :
  (handleStripeEvent (Some client) new_sha1 update_event (e6, O)).2.1 = e6.
Proof.
  apply (no_grant_before_payment (Some client) eq_refl new_sha1 update_event remote_sub e6 O).
  - right. reflexivity.
  - reflexivity.
  - intros w current [= <-]. assert (normalize_subscription remote_sub = remote_sub) as -> by reflexivity.
    cbv zeta. split; [reflexivity|]. split.
    + apply open_unsettled.
    + apply e6_unpaid.
Defined.

Lemma topup_credited_once_witness : ∃ sw',
  creditTopUpBalance new_sha1 "u" topup (e6, O) = (Ok tt, sw') ∧
  (∃ entry, billingLedgerEntries sw'.1 = <["led-pi_1" := entry]> (billingLedgerEntries e6)) ∧
  balances sw'.1 = <["u" := float_add float_zero (float_cents 5000)]> (balances e6).
Proof.
  destruct (run_ok (creditTopUpBalance new_sha1 "u" topup (e6, O)) (Ok tt)) as [sw' E]; [vm_compute; reflexivity|].
  exists sw'. split; [exact E|].
  pose proof (topup_credited_once new_sha1 "u" topup e6 O sw' e6_rows eq_refl ltac:(discriminate) E) as T.
  cbv zeta in T.
  assert (creditable topup && bool_decide (billingLedgerEntries e6 !!
    topUpLedgerID new_sha1 (firstNonEmpty [sess_PaymentIntent topup; sess_ID topup]) = None) = true) as Hc
    by (vm_compute; reflexivity).
  rewrite Hc in T. destruct T as (_ & (entry & He & _) & Hb). split; [exists entry; exact He|].
  assert (default float_zero (balances e6 !! "u") = float_zero) as Ho by (vm_compute; reflexivity).
  rewrite Ho in Hb. exact Hb.
Defined.
