(* ===== verification/WorkspaceExamples.v ===== *)
(** * Concrete workspaces

    A root account that works in the shared workspace, an account with a
    private one, and the runs that show the theorems of the workspaces apply.
    The last section runs into three defects of the code. *)

From S2P Require Import Prelude GoLib Json StoreData Users Access Netip Hmac StripeClient Tenants Vault Workspace.
From S2P Require Import VaultProps WorkspaceProps SecretProps Examples.
From Stdlib Require Import Ascii.
Open Scope Z_scope.
Open Scope bool_scope.
Open Scope go_scope.

Lemma pair_of_fst {A B} (x : A * B) a b : x.1 = a → x.2 = b → x = (a, b).
Proof. intros <- <-. apply surjective_pairing. Qed.

Module WorkspaceExample.
#[export] Instance no_urls : URLParser := λ _, None.
#[export] Instance map_order : MapOrder := canonical_order.

Definition env : string * string := ("shared.example.org", "").
Definition shared_host : list string := ["shared.example.org"].
Definition private_host : list string := ["xw-00010203.shared.example.org"].
Definition ids (prefix : string) : string → nat → string := λ _ _, prefix.

Definition root : User := AccountExamples.ann <| user_Role := "root" |>.
Definition accounts : memoryStore :=
  (CreateUser "v" (Ok "py") 2 AccountExamples.bob
    (CreateUser "u" (Ok "px") 1 root (newMemoryStore false)).2).2.

Definition world : Type := workspace memoryXWorkmateVaultService.
Definition w0 : world := mkWorkspace (mkTenantTables ∅ ∅ ∅ ∅) (Some newMemoryXWorkmateVaultService) ∅.

(** Ann creates a workspace for Bob and stores a secret of the shared one; Bob
    stores one of his own. *)
Definition call1 : wsCall := CallBootstrap (Ok [0; 1; 2; 3]) root (Some ("Lab", "v", "")).
Definition call2 : wsCall := CallPutSecret "u" shared_host "bridge.auth_token" (Some "s3cret").
Definition run1 := handle env (ids "t1") 10 accounts call1 w0.
Definition w1 : world := run1.2.
Definition run2 := handle env (ids "t2") 20 accounts call2 w1.
Definition w2 : world := run2.2.
Definition run3 := putXWorkmateSecret env (ids "t3") 30 accounts "v" private_host " Vault.Root_Token " (Some "own") w2.
Definition w3 : world := run3.2.

Definition grants : list (string * string) := [("t1", "v")].

Lemma fresh0 : fresh_tenant_id (ws_tables w0) (ids "t1" "tenant" 0%nat).
Proof. split_and!; done. Qed.
Lemma fresh1 : fresh_tenant_id (ws_tables w1) (ids "t2" "tenant" 0%nat).
Proof. split_and!; [done|done|done|]. vm_compute. reflexivity. Qed.

Lemma granted1 : granted call1 run1.1 = grants.
Proof. vm_compute. reflexivity. Qed.
Lemma granted2 : granted call2 run2.1 = [].
Proof. vm_compute. reflexivity. Qed.

Lemma reach1 : reachable env grants w1.
Proof.
  rewrite <- granted1, <- (app_nil_r (granted _ _)).
  apply (reachable_call env [] w0 (ids "t1") 10 accounts call1); [apply reachable_empty|apply fresh0|].
  exact (surjective_pairing run1).
Qed.

Lemma reach2 : reachable env grants w2.
Proof.
  rewrite <- (app_nil_l grants), <- granted2.
  apply (reachable_call env grants w1 (ids "t2") 20 accounts call2); [apply reach1|apply fresh1|].
  exact (surjective_pairing run2).
Qed.

Definition bob : User := default root (user_by_id accounts "v").
Definition bob_access : xworkmateAccessContext :=
  match (enter env (ids "t3") 30 accounts "v" private_host w2).1 with
  | Ok (_, access) => access
  | Err _ => mkAccessContext (mkTenant "" "" "" 0 0) "" "" "" false false
  end.
Definition entered : world := (enter env (ids "t3") 30 accounts "v" private_host w2).2.

Lemma bob_enters :
  enter env (ids "t3") 30 accounts "v" private_host w2 = (Ok (bob, bob_access), entered).
Proof.
  apply pair_of_fst; [|reflexivity]. vm_compute. reflexivity.
Qed.

Lemma bob_plain user : currentAuthenticatedUser accounts "v" = Ok user → plain_id (user_ID user).
Proof.
  assert (currentAuthenticatedUser accounts "v" = Ok bob) as -> by (vm_compute; reflexivity).
  generalize (eq_refl : user_ID bob = "v"). generalize bob. intros b Hb [= <-]. rewrite Hb.
  split_and!; [done|vm_compute; set_solver..].
Qed.

Definition shown : secretStatus := match run3.1 with
  | SecretShown st _ _ => st
  | _ => mkSecretStatus (mkSecretLocator "" "" "" "" "" false) false false
  end.
Definition shown_tokens : tokenStatus := match run3.1 with
  | SecretShown _ _ tokens => tokens
  | _ => mkTokenStatus false false false
  end.

Lemma bob_puts : putXWorkmateSecret env (ids "t3") 30 accounts "v" private_host " Vault.Root_Token " (Some "own") w2 =
  (SecretShown shown "user-private" shown_tokens, w3).
Proof. apply pair_of_fst; [|reflexivity]. vm_compute. reflexivity. Qed.
End WorkspaceExample.
Import WorkspaceExample.

Lemma workspace_access_confined_witness :
  GetUserByID accounts (TrimSpace "v") = Ok bob ∧ user_Active bob = true ∧ access_sound grants bob bob_access.
Proof.
  exact (workspace_access_confined env grants w2 (ids "t3") 30 accounts "v" private_host bob bob_access entered
           reach2 bob_enters).
Defined.

Lemma secret_put_confined_witness : ∃ user access w1 v v' val,
  enter env (ids "t3") 30 accounts "v" private_host w2 = (Ok (user, access), w1) ∧ access_sound grants user access ∧
  ac_CanEditIntegrations access = true ∧ isReadOnlyAccount user = false ∧
  Some "own" = Some val ∧ ws_vault w2 = Some v ∧ ws_vault w3 = Some v' ∧
  (True → ∀ p k, memory_at v' p k =
     if (p == managed_path access user) && (k == ToLower (TrimSpace " Vault.Root_Token ")) then Some val
     else memory_at v p k) ∧
  (∀ k, k ≠ workspace_profile_key access user →
     xworkmateProfiles (ws_tables w3) !! k = xworkmateProfiles (ws_tables w2) !! k) ∧
  (∀ access' user', "/"%char ∉ chars (ten_ID (ac_Tenant access)) → "/"%char ∉ chars (ten_ID (ac_Tenant access')) →
     scoped access' → managed_path access' user' = managed_path access user →
     ten_ID (ac_Tenant access') = ten_ID (ac_Tenant access) ∧ ac_ProfileScope access' = ac_ProfileScope access ∧
     (ac_ProfileScope access' = XWorkmateProfileScopeUserPrivate →
      TrimSpace (user_ID user') = TrimSpace (user_ID user))).
Proof.
  exact (secret_put_confined env grants w2 w3 (ids "t3") 30 accounts "v" private_host " Vault.Root_Token " (Some "own")
           shown "user-private" shown_tokens reach2 bob_plain bob_puts).
Defined.

Lemma secret_put_listed_deleted_witness : ∃ v1 val, ws_vault w3 = Some v1 ∧ Some "own" = Some val ∧
  (∀ ids' now', ∃ access secrets tokens' st' w2,
     getXWorkmateSecrets env ids' now' accounts "v" private_host w3 = (SecretsShown access secrets tokens', w2) ∧
     st' ∈ secrets ∧ loc_Target (ss_Locator st') = ToLower (TrimSpace " Vault.Root_Token ") ∧
     ss_Configured st' = true ∧ memory_ReadSecret (ss_Locator st') v1 = (Ok val, v1)) ∧
  (∀ ids' now', ∃ st' scope' tokens' w2,
     deleteXWorkmateSecret env ids' now' accounts "v" private_host " Vault.Root_Token " w3 =
       (SecretShown st' scope' tokens', w2) ∧
     ss_Configured st' = false ∧
     ∀ ids'' now'', ∃ access secrets tokens'' st'' w3,
       getXWorkmateSecrets env ids'' now'' accounts "v" private_host w2 = (SecretsShown access secrets tokens'', w3) ∧
       st'' ∈ secrets ∧ loc_Target (ss_Locator st'') = ToLower (TrimSpace " Vault.Root_Token ") ∧
       ss_Configured st'' = false).
Proof.
  apply (secret_put_listed_deleted env grants w2 w3 (ids "t3") 30 accounts "v" private_host " Vault.Root_Token "
           (Some "own") shown "user-private" shown_tokens reach2); [vm_compute; reflexivity|apply bob_plain|apply bob_puts].
Defined.

(** ** Defects *)

Module WorkspaceDefects.
(** Bob writes the path of the shared workspace into his own profile, and then
    deletes "his" secret. *)
Definition foreign_profile : json :=
  JObj [("secretLocators", JArr [JObj
    [("secretPath", JStr "xworkmate/tenants/svc-plus-xworkmate/shared");
     ("secretKey", JStr "bridge.auth_token"); ("target", JStr "bridge.auth_token")]])].
Definition w4 : world :=
  (updateXWorkmateProfile env (ids "t4") 40 accounts "v" private_host (Some foreign_profile) w3).2.
Definition w5 : world := (deleteXWorkmateSecret env (ids "t5") 50 accounts "v" private_host "bridge.auth_token" w4).2.

Definition shared_secret (w : world) : option string :=
  ws_vault w ≫= λ v, memory_at v "xworkmate/tenants/svc-plus-xworkmate/shared" "bridge.auth_token".

(** The member of a private workspace, who may not edit the shared one, deletes
    a secret of the shared one. *)
Theorem foreign_secret_deleted :
  reachable env grants w3 ∧ sharedTenantRole bob = TenantMembershipRoleUser ∧
  shared_secret w3 = Some "s3cret" ∧ shared_secret w5 = None.
Proof.
  split_and!; [|vm_compute; reflexivity..].
  assert (granted (CallPutSecret "v" private_host " Vault.Root_Token " (Some "own")) run3.1 = []) as E
    by (vm_compute; reflexivity).
  rewrite <- (app_nil_l grants), <- E.
  apply (reachable_call env grants w2 (ids "t3") 30 accounts
    (CallPutSecret "v" private_host " Vault.Root_Token " (Some "own"))); [apply reach2| |exact (surjective_pairing run3)].
  split_and!; [done|done|done|]. vm_compute. reflexivity.
Qed.

(** Two workspaces whose four random bytes agree: the domain of the first now
    leads to the second. *)
Definition again := handle env (ids "t6") 60 accounts call1 w1.

Theorem colliding_domain_moves :
  (∃ t d, ResolveTenantByHost env "xw-00010203.shared.example.org" (ws_tables w1) = Ok (t, d) ∧ ten_ID t = "t1") ∧
  (∃ t d, ResolveTenantByHost env "xw-00010203.shared.example.org" (ws_tables again.2) = Ok (t, d) ∧ ten_ID t = "t6").
Proof.
  split; eexists _, _; (split; [vm_compute; reflexivity|reflexivity]).
Qed.

(** A primary domain that becomes primary again does not take the mark from
    the one that had it meanwhile. *)
Definition domain_of (name : string) : TenantDomain := mkTenantDomain "" "t1" name "generated" true "verified" 0 0.
Definition domains3 : tenantTables :=
  (EnsureTenantDomain "d3" 3 (domain_of "a.example.org")
    (EnsureTenantDomain "d2" 2 (domain_of "b.example.org")
      (EnsureTenantDomain "d1" 1 (domain_of "a.example.org") (mkTenantTables ∅ ∅ ∅ ∅)).2).2).2.

Theorem two_primary_domains :
  dom_IsPrimary <$> tenantDomains domains3 !! "a.example.org" = Some true ∧
  dom_IsPrimary <$> tenantDomains domains3 !! "b.example.org" = Some true.
Proof. vm_compute. split; reflexivity. Qed.
End WorkspaceDefects.

(** ** A Vault server *)

(** A server that keeps the data of the paths below its mount. *)
Module KVExample.
Definition hv : httpXWorkmateVaultService := mkHttpVault "https://vault" "tok" "" "secret".
Definition data_prefix : string := "https://vault/v1/secret/data/".
Definition metadata_prefix : string := "https://vault/v1/secret/metadata/".
Definition reply (status : Z) (data : result string (option (gmap string string))) : vaultReply :=
  mkVaultReply status "" data.

#[export] Instance any_url : URLParser := λ url, Some (mkURL "https" "vault" false "" "").
#[export] Instance kv_server : VaultServer (gmap string (gmap string string)) := λ req s,
  if vr_Method req == "GET" then
    (Ok (match s !! TrimPrefix (vr_URL req) data_prefix with
         | Some m => reply 200 (Ok (Some m))
         | None => reply 404 (Ok None)
         end), s)
  else match vr_Data req with
  | Some m => (Ok (reply 200 (Ok None)), <[TrimPrefix (vr_URL req) data_prefix := m]> s)
  | None => (Ok (reply 204 (Ok None)), delete (TrimPrefix (vr_URL req) metadata_prefix) s)
  end.

Definition trimmed_path (p : string) : Prop := TrimChar "/"%char (TrimSpace p) = p.

Lemma data_path p : trimmed_path p → TrimPrefix (dataURL hv p) data_prefix = p.
Proof. intros Hp. unfold dataURL, vault_base. rewrite Hp. apply (TrimPrefix_app data_prefix p). Qed.
Lemma metadata_path p : trimmed_path p → TrimPrefix (metadataURL hv p) metadata_prefix = p.
Proof. intros Hp. unfold metadataURL, vault_base. rewrite Hp. apply (TrimPrefix_app metadata_prefix p). Qed.

#[export] Instance kv_engine : KVEngine hv.
Proof.
  refine {| kv := λ (s : gmap string (gmap string string)) p, s !! p; kv_path := trimmed_path |}.
  - intros path s r s' Hp. unfold client_Do, kv_server. cbn [vr_Method vr_URL].
    rewrite bool_decide_eq_true_2, data_path by done. intros [= <- <-]. split; [done|].
    destruct (s !! path) as [m|] eqn:E; cbn [reply rep_Status rep_Data rep_Text].
    + split_and!; [eauto|lia|lia].
    + split_and!; [lia|done|lia].
  - intros path m s r s' Hp. unfold client_Do, kv_server. cbn [vr_Method vr_URL vr_Data].
    rewrite bool_decide_eq_false_2, data_path by done. intros [= <- <-] _ p.
    destruct (bool_decide_reflect (p = path)) as [->|]; [by rewrite lookup_insert_eq|by rewrite lookup_insert_ne].
  - intros path s r s' Hp. unfold client_Do, kv_server. cbn [vr_Method vr_URL vr_Data].
    rewrite bool_decide_eq_false_2, metadata_path by done. intros [= <- <-] _ p.
    destruct (bool_decide_reflect (p = path)) as [->|]; [by rewrite lookup_delete_eq|by rewrite lookup_delete_ne].
Defined.

Definition secret1 : XWorkmateSecretLocator := mkSecretLocator "1" "vault" "/a/b/" "k" "vault.root_token" false.
Definition ops : list vaultOp := [OpWrite secret1 "x"; OpHas secret1; OpRead secret1; OpDelete secret1; OpHas secret1].
Definition answers : list vaultAnswer := [Done; Present true; Value "x"; Done; Present false].
Definition last_state : gmap string (gmap string string) := (run_ops (H:=http_vault hv) ops ∅).2.

Lemma ops_run : run_ops (H:=http_vault hv) ops ∅ = (Some answers, last_state).
Proof. apply pair_of_fst; [|reflexivity]. vm_compute. reflexivity. Qed.

Lemma ops_allowed : Forall (λ op, kv_path (loc_SecretPath (vault_locator (op_locator op))) ∧
  match op with OpWrite _ value => TrimSpace value ≠ "" | _ => True end) ops.
Proof. repeat constructor; try done; vm_compute; reflexivity. Qed.
End KVExample.
Import KVExample.

Lemma http_vault_refines_table_witness :
  ∃ table', run_ops KVExample.ops (∅ : memoryXWorkmateVaultService) = (Some KVExample.answers, table') ∧
    ∀ p k, http_at KVExample.hv KVExample.last_state p k = memory_at table' p k.
Proof.
  exact (http_vault_refines_table KVExample.hv KVExample.ops ∅ KVExample.last_state ∅ KVExample.answers
           KVExample.ops_allowed (λ p k, eq_refl) KVExample.ops_run).
Defined.
