(* ===== verification/AuthExamples.v ===== *)
(** * Concrete sign-ins

    A root account and a plain one, built by the store's own operations, and
    the calls that show the theorems on sessions, roles and archived accounts
    apply.  bcrypt is replaced by a reversible function and TOTP by a fixed
    code. *)

From S2P Require Import Prelude GoLib Calendar Json StoreData Users Lifecycle Referral Quota Access Recovery RecoveryProps RateLimit Entitlements Tenants Vault Workspace Login AdminAccess LoginHandlers LoginMFA AdminUsers AuthCalls AuthInv AuthLogic AuthSafe AuthProps SessionLogic SessionProps LoginProps.
From S2P Require Import WorkspaceExamples.
Open Scope Z_scope.
Open Scope bool_scope.
Open Scope go_scope.

Module AuthExample.
#[export] Instance map_order : MapOrder := canonical_order.
#[export] Instance library : AuthLibrary := {|
  bcrypt_Generate := λ salt password, Ok ("$" +:+ password)%string;
  bcrypt_Compare := λ hash password, hash == ("$" +:+ password)%string;
  totp_Validate := λ code secret now, Ok (code == "123456")
|}.
Definition cfg : authConfig := mkAuthConfig Hour Minute "" true "" Minute Minute Minute.

Definition account (name email role : string) : User :=
  mkUser "" name email LevelUser role ["User"; MonthlyFreeQuotaLimitGroup] [] true "$longpassword" "" false 0 0 0 0 true
    "" None None None None None.
Definition root : User := account "ann" "ann@example.com" "root".
Definition plain : User := account "bob" "bob@example.com" "user".

Definition created1 := CreateUser "u" (Ok "px") 1 root (newMemoryStore false).
Definition created2 := CreateUser "v" (Ok "py") 2 plain created1.2.
Definition store0 : memoryStore := created2.2.
Definition st0 : authState := initialAuth store0.

(** The [i]-th request: at time [i] hours, with [i] as its random bytes. *)
Definition request_at (i : Z) (token : string) : request :=
  mkRequest (i * Hour) "POST" "" "203.0.113.7" [] token "" None (λ k, Ok [i; Z.of_nat k]) (Ok 271828)
    (λ k, ("id" +:+ Sha256.hex [i; Z.of_nat k])%string) (λ k, Ok ("v7" +:+ Sha256.hex [i; Z.of_nat k])%string)
    (λ _, "salt") Delivered None.

Definition sign_in (identifier password totp : string) : loginRequest :=
  mkLoginRequest identifier "" "" "" password totp.

(** Ann signs in, and archives Bob. *)
Definition rq1 : request := request_at 1 "".
Definition call1 : authCall := CLogin (Some (sign_in "ann" "longpassword" "")).
Definition st1 : authState := (serve_call cfg rq1 call1 st0).2.
Definition token1 : string := Sha256.hex [1; 0].
Definition rq2 : request := request_at 2 ("Bearer " +:+ token1)%string.
Definition promote : authCall := CUpdateUserRole "v" (Some "Operator").
Definition call2 : authCall := CDeleteUser "v" "left" "".
Definition st2 : authState := (serve_call cfg rq2 call2 st1).2.
Definition call3 : authCall := CActivateUser "v".
Definition st3 : authState := (serve_call cfg rq2 call3 st2).2.

(** ** The states are well formed *)

Lemma dormant_create newID newV7 now user s out s' : user_ArchivedAt user = None →
  byID s !! (if user_ID user == "" then newID else user_ID user) = None →
  dormant (initialAuth s) → CreateUser newID newV7 now user s = (Ok tt, out, s') → dormant (initialAuth s').
Proof.
  intros Ha Hid [Hi Hd Hc] E. destruct (CreateUser_accounts _ _ _ _ _ _ _ _ Hi Hid E) as (Hi' & Hacc & _).
  constructor; [done| |done]. intros id u [Hu|(_ & _ & Hst & _)]%Hacc Hx; [by apply (Hd id)|].
  destruct Hx. exact (eq_trans (f_equal (λ x, x.2) Hst) Ha).
Qed.

Lemma dormant0 : dormant st0.
Proof.
  apply (dormant_create "v" (Ok "py") 2 plain created1.2 created2.1.2); [done|vm_compute; reflexivity| |
    apply pair_of_fst; [vm_compute; reflexivity|reflexivity]].
  apply (dormant_create "u" (Ok "px") 1 root (newMemoryStore false) created1.1.2); [done|reflexivity| |
    apply pair_of_fst; [vm_compute; reflexivity|reflexivity]].
  constructor; [apply index_ok_indexed, index_ok_new|done|done].
Qed.

Lemma served2 : served cfg st0 st2.
Proof.
  apply (served_step cfg st0 st1 rq2 call2); [|done]. apply (served_step cfg st0 st0 rq1 call1); [|done].
  apply served_refl.
Qed.
Lemma served1 : served cfg st0 st1.
Proof. apply (served_step cfg st0 st0 rq1 call1); [apply served_refl|done]. Qed.

Lemma dormant_served st : served cfg st0 st → dormant st.
Proof.
  intros Hs. destruct (served_archived cfg st0 st dormant0 Hs) as (Hi & Hq & _ & Hc).
  constructor; [done| |by apply Hc]. intros id u Hu Ha. by apply (Hq id u Hu).
Qed.

Lemma indexed0 : indexed (au_store st0).
Proof. apply dormant0. Qed.
Lemma indexed1 : indexed (au_store st1).
Proof. apply dormant_served, served1. Qed.

Definition bob : User := default plain (user_by_id (au_store st1) "v").
Definition operator : User := default plain (user_by_id (au_store (serve_call cfg rq2 promote st1).2) "v").
Definition gone : User := default plain (user_by_id (au_store st2) "v").

(** A pending verification of an address. *)
Definition pending_record : emailVerification := mkEmailVerification "v" "bob@example.com" "271828" (9 * Hour) 0 0.
Definition st_pending : authState := st0 <| verifications := {["bob@example.com" := pending_record]} |>.
Definition at_second (i : Z) : request :=
  mkRequest (4 * Hour + i * Second) "POST" "" "203.0.113.7" [] "" "" None (λ k, Ok [i]) (Ok 1) (λ k, "")
    (λ k, Ok "") (λ _, "") Delivered None.
Definition guesses : list (request * string) :=
  [(at_second 0, "000000"); (at_second 1, "000001"); (at_second 2, " 000002"); (at_second 3, "000003");
   (at_second 4, "000004"); (at_second 5, "271828"); (at_second 200, "271828")].

(** The email address and any text as a code. *)
Definition email_only : loginRequest := sign_in "bob@example.com" "" "no code".
Definition found_bob : User := match findUserByIdentifier "bob@example.com" store0 with Ok u => u | Err _ => plain end.
Definition probed : authState := (allowAuthProbe rq1 LoginAttempts "bob@example.com" st0).2.
Definition billed : authState := (rejectIfBillingSuspended rq1 (user_ID found_bob) probed).2.

(** A reset token is mailed to Bob, who uses it. *)
Definition rq4 : request := request_at 4 "".
Definition st4 : authState := (serve_call cfg rq4 (CRequestPasswordReset (Some "bob@example.com")) st1).2.
Definition mailed : string := Sha256.hex [4; 0].
Definition rq5 : request := (at_second 30).
Definition reset := confirmPasswordReset cfg rq5 (Some (mailed, "another password")) st4.
Definition reset_reply : reply := match reset.1 with Ok r => r | Err r => r end.
Definition mailed_challenge : PasswordRecoveryChallenge :=
  match GetPasswordRecoveryChallengeByTokenHash (passwordResetTokenHash mailed) (au_store st4) with
  | Ok c => c
  | Err _ => mkPasswordRecoveryChallenge "" "" "" "" "" 0 0 0 0 0 0
  end.

Lemma indexed4 : indexed (au_store st4).
Proof.
  apply dormant_served. apply (served_step cfg st0 st1 rq4); [apply served1|done].
Qed.
Lemma keyed4 : challenges_keyed (au_store st4).
Proof.
  assert (passwordRecovery (au_store st4) = {["id0400" := mailed_challenge]}) as E by (vm_compute; reflexivity).
  intros k c. rewrite E. intros [<- <-]%lookup_singleton_Some. vm_compute. reflexivity.
Qed.
Lemma library_checks : bcrypt_checks.
Proof. intros salt password hash [= <-]. by apply bool_decide_true. Qed.
End AuthExample.
Import AuthExample.

(** ** Sessions *)

Lemma sessions_earned_witness :
  earned rq1 call1 st0 "u".
Proof.
  destruct (sessions_earned cfg rq1 call1 st0 token1 (mksessionRecord "u" (2 * Hour))) as [Hs|He].
  - apply indexed0.
  - exact I.
  - vm_compute. reflexivity.
  - vm_compute in Hs. discriminate Hs.
  - exact He.
Defined.

Lemma email_alone_signs_in_witness :
  ∃ expiresAt shown mfaToken, let '(r, st') := serve (login cfg rq1 (Some email_only)) st0 in
    r = SignedIn "login successful" token1 expiresAt shown mfaToken ∧
    sessions (au_store st') !! token1 = Some (mksessionRecord (user_ID found_bob) expiresAt).
Proof.
  apply (email_alone_signs_in cfg rq1 email_only found_bob [1; 0] st0 probed billed).
  - apply indexed0.
  - reflexivity.
  - vm_compute. discriminate.
  - vm_compute. reflexivity.
  - vm_compute. discriminate.
  - vm_compute. reflexivity.
  - vm_compute. reflexivity.
  - split_and!; vm_compute; reflexivity.
  - apply pair_of_fst; [vm_compute; reflexivity|reflexivity].
  - apply pair_of_fst; [vm_compute; reflexivity|reflexivity].
  - reflexivity.
Defined.

Lemma email_code_lockout_witness : Forall locked_answer (drop 5 (guess_codes cfg "Bob@Example.com " guesses st_pending)).
Proof.
  apply (email_code_lockout cfg "Bob@Example.com " pending_record guesses st_pending (4 * Hour)).
  - vm_compute. discriminate.
  - vm_compute. reflexivity.
  - vm_compute. split; [discriminate|reflexivity].
  - vm_compute. reflexivity.
  - repeat constructor; vm_compute; try reflexivity; discriminate.
  - repeat constructor; vm_compute; discriminate.
Defined.

Lemma password_reset_effective_witness :
  ∃ c u' newToken,
    GetPasswordRecoveryChallengeByTokenHash (passwordResetTokenHash (TrimSpace mailed)) (au_store st4) = Ok c ∧
    user_by_id (au_store reset.2) (prc_UserID c) = Some u' ∧
    bcrypt_Compare (user_PasswordHash u') (TrimSpace "another password") = true ∧
    (∀ id, id ≠ prc_UserID c → user_by_id (au_store reset.2) id = user_by_id (au_store st4) id) ∧
    (∀ k sess, sessions (au_store reset.2) !! k = Some sess → sess_UserID sess = prc_UserID c → k = newToken) ∧
    passwordRecovery (au_store reset.2) !! prc_ID c = Some (c <| prc_ConsumedAt := rq_now rq5 |>).
Proof.
  apply (password_reset_effective cfg rq5 mailed "another password" st4 reset_reply).
  - apply indexed4.
  - apply keyed4.
  - apply library_checks.
  - apply pair_of_fst; [vm_compute; reflexivity|reflexivity].
Defined.

(** ** Roles and archived accounts *)

Lemma roles_confined_witness :
  user_by_id (au_store (serve_call cfg rq2 promote st1).2) "v" = Some operator ∧
  ((∃ u, user_by_id (au_store st1) "v" = Some u ∧ authority operator = authority u) ∨
   (byID (au_store st1) !! "v" = None ∧ new_identifier rq2 promote = Some "v" ∧ authority operator = plain_authority) ∨
   role_changed rq2 promote st1 "v" operator).
Proof.
  assert (user_by_id (au_store (serve_call cfg rq2 promote st1).2) "v" = Some operator) as Hu
    by (vm_compute; reflexivity).
  split; [exact Hu|]. apply (roles_confined cfg rq2 promote st1 "v" operator).
  - apply indexed1.
  - exact I.
  - exact Hu.
Defined.
(** Bob is an operator now. *)
Lemma promoted : authority operator = (RoleOperator, LevelOperator) ∧ authority bob = plain_authority.
Proof. split; vm_compute; reflexivity. Qed.

Lemma archived_final_witness :
  (∃ u', user_by_id (au_store st3) "v" = Some u' ∧ user_ArchivedAt u' ≠ None ∧ user_Active u' = false) ∧
  (∃ status code, (serve (reactivateAccount cfg rq2 (Some ("bob@example.com", "271828"))) st3).1 = Refused (status, code) ∧
     status ∈ [400; 401]).
Proof.
  apply (archived_final cfg st2 st3 "v" gone rq2 (Some ("bob@example.com", "271828"))).
  - apply dormant_served, served2.
  - apply (served_step cfg st2 st2 rq2 call3); [apply served_refl|exact I].
  - vm_compute. reflexivity.
  - vm_compute. discriminate.
Defined.
